(* ===== verification/_CoqProject ===== *)
-Q . S2P
Prelude.v
Double.v
ByteStream.v
Ends.v
StringEx.v
DataBuffer.v
Amf0.v
ChunkStream.v
RtmpSession.v
RtmpControl.v
Media.v
RtmpClient.v
AudioHeader.v
H264.v
FlvMux.v
FlvDemux.v
FlvRoundtrip.v
FlvStuck.v
TsPub.v
TsCrc.v
TsMux.v
OpusHeader.v
TsDemux.v
TsEnds.v
TsPes.v
TsTables.v
TsLink.v
TsStream.v
TsRun.v
ZMap.v
Nack.v
RtpPacket.v
RtpFormat.v
Rtx.v
RtpClone.v
Jitter.v
RtpPack.v
PackH264.v
PackH264Roundtrip.v
RtcpNack.v
Rtcp.v
RtcTime.v
RtcSend.v
RtcDatagram.v
RtcSending.v
RtcRecv.v
RtcJitter.v
RtcReport.v
PeerConnection.v
RtcResend.v
RtcpHandling.v
RtcReceiving.v
RtcLink.v
ByteCrypto.v
Stun.v
StunRun.v
PeerIce.v
Base64.v
Http.v
HttpRun.v
WebSocket.v
WsRun.v
WsUpgrade.v
WsOpen.v
Mp4Box.v
Mp4Demux.v
Mp4Parse.v
Mp4Movie.v
Mp4Samples.v
Mp4Run.v
Mp4Faults.v
Sdp.v
PeerSdp.v
SdpRun.v
PeerSdpRun.v
SdpFaults.v
