(* ===== verification/Prelude.v ===== *)
(** * Verification of cpp_streamer: RTMP, FLV, MPEG-TS, MP4, WebSocket and H.264 over WebRTC

    cpp_streamer is a C++11 library of media components (demuxers, muxers, RTMP,
    WebRTC) that exchange [Media_Packet]s.  This development models its RTMP
    stack bottom up, from the byte helpers to the client state machine, with the
    formats a packet goes through, the FLV and MPEG-TS muxers and demuxers, the MP4 demuxer, and the
    media path of its WebRTC part: RTP and RTCP packets, the sending and receiving streams, loss
    recovery, reordering, and the connection that ties them together; and the protocols
    its signalling runs on: session descriptions (SDP), STUN, HTTP and WebSocket.  Paths below are under
    [src/src/].

    ** Parts and files

    - [Prelude] (this file): machine integers, byte strings, the [outcome] monad,
      pointer reads and [memcpy] regions, big-endian values, bit fields, [div_lia].
    - [Double]: the [double] operations the code uses (conversion from and to
      integers, [std::to_string]), on IEEE 754 bit patterns.
    - [ByteStream] ([utils/byte_stream.hpp]): big- and little-endian readers and
      writers; a pointer is the list of bytes from it on.
    - [StringEx] ([utils/stringex.hpp]): splitting and changing strings, with the
      functions of [std::string] and C that the code uses on them.
    - [Ends]: the predicate and the tactic for calls that end on every input.
    - [DataBuffer] ([utils/data_buffer.hpp]): the byte queue every other component
      appends to and consumes from.  The record holds the allocation and the
      offsets [start_], [end_], [data_len_] as the class does; memory fresh from
      [new char[]] is given by the class [Allocator].  Components that keep a buffer
      as the bytes it queues ([RtmpSession], [FlvDemux], [WebSocket], [Http]) leave out its
      undefined [memcpy]: they hold for runs in which no append moves a queue onto
      itself ([run_layout] says which those are, [queues_append] that it is then so).
      [ByteSink] is the interface a writer needs from a buffer, with [DataBuffer] as
      its instance.
    - [Amf0] ([format/amf/amf0.hpp]): AMF0 values, the encoder over any
      [ByteSink], the recursive decoder.
    - [ChunkStream] ([net/rtmp/chunk_stream.cpp]): one RTMP chunk stream, the four
      header formats, the payload, and the splitting of a message into chunks.
    - [RtmpSession] ([net/rtmp/rtmp_session_base.*], [rtmp_request.hpp]): the state
      of a session, the basic header and the loop that reads one message.
    - [RtmpControl] ([net/rtmp/rtmp_control_handler.cpp]): the handler of command
      and control messages, server and client side, and every response.
    - [Media] ([utils/av/*.hpp], [format/flv/flv_pub.hpp]): media packets with
      their buffer, copying, and the FLV tag header put before a frame.
    - [RtmpClient] ([net/rtmp/rtmp_client_session.*], [GetMediaPacket] of the
      session base): the client session; callbacks are events appended to [log_],
      bytes sent are appended to [sent_].  The handshake object is the interface
      [HandshakeObject]: its digests come from OpenSSL.
    - [AudioHeader] ([format/audio_header.cpp]): AudioSpecificConfig, ADTS, Opus.
    - [H264] ([format/h264_h265_header.*], [get_video_extradata] of
      [utils/av/av.hpp]): Annex B and AVCC framing of NAL units, the AVC, HEVC and
      L-HEVC decoder configuration records.
    - [FlvMux] ([format/flv/flv_mux.cpp]), [FlvDemux] ([format/flv/flv_demux.cpp]):
      the two FLV components over [DataBuffer] and [Media]; sinks and reports are
      events of a log.  [FlvRoundtrip] composes them, [FlvStuck] holds the inputs
      the demuxer does not get past.
    - [TsPub] ([format/mpegts/mpegts_pub.hpp]): the numbers of MPEG-TS; [TsCrc]: the
      checksum of [mpegts_mux.cpp] against the bitwise CRC-32/MPEG-2.
    - [TsMux] ([format/mpegts/mpegts_mux.*]): the muxer, from the waiting queue and the
      codec handlers down to the packets of 188 bytes; the arrays a call finds on its
      stack are given by the class [Locals].  [OpusHeader] ([format/opus_header.cpp])
      takes Opus packets apart.  [TsDemux] ([format/mpegts/mpegts_demux.*]): the
      demuxer, from the units of a buffer through tables and PES headers to frames.
    - [TsEnds]: the demuxer ends on every input.  [TsPes]: the layout of a frame in
      transport packets, that [WritePes] writes it and the demuxer reads it;
      [TsTables]: the same for PAT and PMT.  [TsLink] delivers the packets of the muxer
      to the demuxer, [TsStream] follows sequences of frames and tables, [TsRun]
      whole runs of packets against an abstract machine.
    - [ZMap]: [std::map] with integer keys as the list of its bindings in order.
    - [Nack] ([net/webrtc/nack_generator.*]): the list of lost RTP packets.
    - [RtpPacket] ([net/rtprtcp/rtp_packet.*]): parsing a datagram in place, both
      header extension formats, the updates, RTX.  [RtpFormat] writes packets down
      field by field and parses them back, [Rtx] follows a packet through RTX,
      [RtpClone] shows that a clone is the packet again.
    - [Jitter] ([net/webrtc/jitterbuffer.*]): the jitter buffer, over any packet
      that has the interface [RtpLike], of which [RtpClone] makes [RtpPacket] an
      instance.
    - [RtpPack] ([net/rtprtcp/rtp_pack.hpp], [rtp_h264_pack.*]): RTP packets of a NAL
      unit: alone, two in one (STAP-A), or in fragments (FU-A).  [PackH264]
      ([net/webrtc/pack_handle_h264.*]) takes them apart; [PackH264Roundtrip] holds
      the lemmas that it gives the NAL units back.
    - [RtcpNack] ([net/rtprtcp/rtcpfb_nack.hpp]) and [Rtcp] ([rtcp_sr.hpp],
      [rtcp_rr.hpp], [rtcp_pspli.hpp], [rtcp_xr_rrt.hpp], [rtcp_xr_dlrr.hpp]): the RTCP
      packets, as the memory of the packet and its offsets.
    - [RtcTime] ([utils/timeex.hpp], [utils/stream_statics.hpp]): NTP times in IEEE 754
      arithmetic ([SpecFloat]), statistics, and the members both streams share.
    - [RtcSend] and [RtcRecv] ([net/webrtc/rtc_send_stream.*], [rtc_recv_stream.*]): the
      two streams.  [RtcDatagram] and [RtcSending] hold the lemmas on what is sent,
      [RtcJitter] those on the interarrival jitter in [double]s, [RtcReport] on the
      reports that go between the two.
    - [PeerConnection] ([net/webrtc/peerconnection.cpp], [pack_handle_audio.hpp]): from
      decrypted datagrams to media packets and back, and the reports of its timer.
      [RtcResend] follows a lost packet through request and retransmission, in its own
      stream or in that of RFC 4588, [RtcpHandling] the loop over received RTCP packets,
      [RtcReceiving] a stream of datagrams through [HandleRtpData]; [RtcLink] joins a
      sending connection to a receiving one.

    - [ByteCrypto] ([utils/byte_crypto.cpp]): CRC-32 against its bitwise definition, and
      the HMAC through the interface [HmacSha1].  [Stun] ([net/stun/stun.*]): the STUN
      packet, parsed and written; [StunRun]: that one undoes the other, and the safety
      of parsing.  [PeerIce]: the connectivity checks of a peer connection, and which
      protocol a datagram belongs to.
    - [Base64] ([utils/base64.cpp]).
    - [Http] ([net/http/http_client.*], [http_session.*], [http_common.hpp]): the client,
      and the session of the server with its request and response; [HttpRun] joins them.
    - [WebSocket] ([net/http/websocket/websocket_frame.*], [ws_session_base.*] and the
      frames of [websocket_session.cpp] and [websocket_client.cpp]): frames and sessions;
      [WsRun] follows a stream of messages.  [WsUpgrade] ([websocket_session.cpp],
      [websocket_server.cpp], [websocket_client.cpp]): the opening of a connection from
      both sides, which [WsOpen] joins.
    - [Mp4Box] ([format/mp4/mp4_box.hpp]): a parser for each box, in a monad whose state
      is the memory from the pointer on and the [MovInfo] the boxes fill in; members that
      are not initialised come from the class [Uninit].  [Mp4Demux]
      ([format/mp4/mp4_demux.*]): from the tables of the tracks to samples and packets,
      read through a reader of a file (a function from offset and length).  [Mp4Parse] has
      the steps of a parser and writes down the leaves, [Mp4Movie] the tables, descriptions
      and containers, up to [moov]; [Mp4Samples] has the tables of ISO 14496-12 and the
      order of the samples, [Mp4Run] whole files, [Mp4Faults] those that are not read right.
    - [Sdp] ([format/sdp/sdp.*], [utils/uuid.hpp]): descriptions written and parsed, in a
      monad with the exceptions of [substr]; random numbers come from the class [Random],
      members an [SSRCInfo] never sets are functions of its SSRC.  [PeerSdp]
      ([net/webrtc/peerconnection.cpp], [dtls.cpp]): the offer, the answer, the streams
      made when DTLS is connected, the setters of the signalling, fingerprint and SRTP
      keys; the digest and the exported key material of OpenSSL are parameters.  [SdpRun]
      joins the writer and the parser line by line, [PeerSdpRun] the connection and the
      other side, [SdpFaults] has that parsing ends and what is not read right.

    They depend on one another in this order.  A received byte goes from
    [OnRead] into [recv_buffer_], through [ReadChunkStream] into a chunk stream of
    [cs_map_], and, once the message is whole, to the control handler or through
    [GetMediaPacket] to the data callback; a command goes from [RtmpConnect] and
    its like through the AMF encoder and [WriteDataByChunkStream] to [sent_].  An FLV
    stream goes through [FlvDemux] into packets, and packets through [FlvMux] into a
    stream; [TsMux] and [TsDemux] do the same for transport packets, whose payload is
    cut into NAL units by [H264].  A received datagram is parsed by [RtpPacket], counted by [RtcRecv] with
    [Nack], put in order by [Jitter] and taken apart by [PackH264], whose packets
    [PeerConnection] hands on; a packet to be sent goes through [RtcSend] and [RtpPack].
    An MP4 file is read box by box by [Mp4Demux]: [moov] fills the [TrakInfo]s, whose tables
    give the samples, which [H264] cuts into NAL units.
    A peer connection starts in [PeerSdp]: its offer is a text of [Sdp], the answer's text
    gives [PeerIce] its credentials and, once DTLS is connected, [PeerConnection] the
    streams of [RtcSend] and [RtcRecv].
    A WebSocket connection starts as an HTTP request of [Http]'s client, answered by
    [WsUpgrade]; from then on its bytes go through the frames of [WebSocket].

    ** Conventions

    A call of the source that returns is [Done] of its result and of the state it
    changed; [Fault f] is a run to which C++ gives no meaning (an access outside
    the data, an overlapping [memcpy], [int] overflow), an aborted process
    ([assert]) or an exhausted model fuel.  Names are those of the source; a
    private member [x_] is the field [x_], and [set_x] its update.

    ** Bounds and fuel

    Integers are [Z] with the wrap-around of their C++ type written out ([u8],
    [u16], [u32], [u64], [i32], [i64]).  Fuel stands for loops and recursions that
    the code does not bound by structure: the decoder ([Decode_fuel_enough]: twice
    the bytes behind the pointer suffice), the message loop
    ([read_message_terminates]: more than the received bytes), the command
    loop ([command_loop_outcome]: one more than the bytes of the command, or the
    loop does not end; [invalid_marker_hangs] gives such a command), the loops of the
    MPEG-TS demuxer ([demux_ends]: the bytes a section or packet states), the loops over
    FLV frames ([flv_roundtrip]: more than the frames), RTP extensions ([Parse_safe]:
    the bytes of the extension), lost numbers ([nack_run_ok]: [seq_end + 1]), the
    attributes of a STUN packet ([stun_parse_safe]: its bytes), the parts of a string
    ([StringSplit_ends]: its length), WebSocket frames ([ws_stream]: the bytes of the
    buffer), and the boxes of an MP4 file ([mp4_file_demuxed]: one more than the boxes; the
    loop of a container has a round for each of its bytes and one more; [zero_box_stuck]
    gives a box that never ends).  A buffer is
    meant to hold at most [max_queue] bytes, so that its [int] offsets fit.

    ** What the theorems show

    - Refinement: [DataBuffer_refines_queue] (the buffer is a byte queue, and when it
      runs into its undefined [memcpy]);
      [h264_over_rtp]: packetisation, network order, choice of the stream, its counts,
      jitter buffer, unpacking and time conversion together hand on what an abstract
      account of the NAL units says;
      [media_over_ts]: MPEG-TS muxer and demuxer put together, for whole runs of H.264
      and AAC packets with tables, parameter sets and the waiting queue; [ws_stream]:
      WebSocket frames, however they are cut, are the messages they were made of;
      [mp4_file_demuxed]: an MP4 file gives the NAL units of its samples, and
      [mp4_sample_tables] what becomes of any tables, and where that is what the standard
      says.
    - Protocols end to end: [ws_handshake], [http_request_roundtrip],
      [stun_roundtrip]; [stun_parse_safe]; [base64_roundtrip];
      [sdp_roundtrip], [offer_understood], [answer_opens_streams] (descriptions, and the
      streams they open), [Parse_ends].
    - Feedback: [lost_packet_resent], [rtt_measured], [HandleRtcp_terminates];
      [sr_roundtrip], [rr_roundtrip], [ntp_roundtrip].
    - Round trips: [rtmp_message_roundtrip], [amf_map_roundtrip],
      [adts_roundtrip]; end to end [connect_reaches_server] and
      [publish_reaches_server], which compose encoder, chunk writer, chunk reader,
      decoder and handler; [flv_roundtrip] (muxer and demuxer, however the stream is
      cut), [annexb_roundtrip], [avcc_to_annexb], [extradata_roundtrip],
      [hevc_config_roundtrip], [rtp_parse_roundtrip], [rtx_roundtrip], [moov_roundtrip].
    - Termination and independence of delivery: [read_message_terminates],
      [Decode_fuel_enough], [command_loop_outcome], [ReadChunkStream_resumable],
      [HandlePacket_resumable], [nack_gives_up], [demux_ends].
    - State machines and invariants: [HandleMessage_forward], [nack_run_ok],
      [OnTimer_conserves]; memory safety of [Parse] on any datagram: [Parse_safe].
    - Checksums: [mpeg_crc32_correct], [pmt_checksum_valid].
    - Function: [GetMediaPacket_video], [asc_parsers_equivalent], [nack_recovers],
      [jitter_in_order].
    - Bounds of what is claimed, where the code goes no further: SSRCs below 2^31 in
      descriptions ([sdp_roundtrip], [offer_understood], [answer_opens_streams]; [atoi]
      is undefined above), RTCP datagrams of at most 8195 bytes
      ([HandleRtcp_terminates]), the numbers a request is read as ([lost_packet_resent]),
      [mvhd] and [ctts] of version 0 and a size for each sample ([moov_roundtrip]).
    - Behaviour the code does not intend, each proved of the model:
      [invalid_marker_hangs], [window_ack_ends_connect_wait],
      [refused_publish_accepted], [nested_object_out_of_bounds],
      [long_csid_not_read_back], [timestamp_wraps_at_24_bits],
      [DataBuffer_copy_drops_data], [AppendData_overlapping_memcpy],
      [sequence_header_never_answers], [aac_sequence_header_asserts],
      [gap_across_wrap_unlisted], [late_across_wrap_stalls], [timeout_out_of_order],
      [nack_numbers_mirrored], [nack_span_undefined], [report_with_blocks_reads_before],
      [nack_without_numbers_reads_null], [pat_checksum_wrong],
      [small_key_frame_lost], [stun_without_integrity_refused], [xor_port_swapped],
      [huge_length_crashes], [ping_between_fragments], [length_misread],
      [frame_before_answer], [frame_with_request_dropped], [no_error_response],
      [free_box_stuck], [duration_of_next], [only_last_of_run], [pictures_are_moved],
      [constant_size_lost], [constant_size_faults], [mvhd_version_1_asserts],
      [signed_offset_unsigned], [long_datagram_hangs], [bare_attribute_throws], [large_ssrc_undefined],
      [group_in_front_lost], [fingerprint_ignored], [nack_not_disabled],
      [clock_rate_unused], [old_ssrc_kept].

    ** Not modelled

    Sockets, threads, timers and logging (libuv, the clock), printing, the
    cryptography of the RTMP handshake, DTLS and SRTP (OpenSSL, libsrtp), the vendored
    JSON library and the signalling over it (WHIP, WHEP, mediasoup), the table of
    handlers of the HTTP server, the text of the statistics.  The glue of the RTMP
    components is not modelled: no part above depends on it. *)
From Stdlib Require Export ZArith Lia.
From stdpp Require Export base numbers list gmap strings.

#[export] Set Default Goal Selector "!".

(** ** Machine integers *)

Definition u8 (x : Z) : Z := x mod 2 ^ 8.
Definition u16 (x : Z) : Z := x mod 2 ^ 16.
Definition u32 (x : Z) : Z := x mod 2 ^ 32.
Definition u64 (x : Z) : Z := x mod 2 ^ 64.

(** Conversion to a signed 32-bit or 64-bit integer (two's complement). *)
Definition i32 (x : Z) : Z := (x + 2 ^ 31) mod 2 ^ 32 - 2 ^ 31.
Definition i64 (x : Z) : Z := (x + 2 ^ 63) mod 2 ^ 64 - 2 ^ 63.

(** A byte string: every element is meant to be a [uint8_t] value. *)
Abbreviation bytes := (list Z).

Definition is_byte (b : Z) : Prop := (0 <= b < 256)%Z.
Definition bytes_ok (l : bytes) : Prop := Forall is_byte l.

#[export] Instance is_byte_dec b : Decision (is_byte b).
Proof. unfold is_byte; apply _. Defined.
#[export] Instance bytes_ok_dec l : Decision (bytes_ok l).
Proof. unfold bytes_ok; apply _. Defined.

(** The bytes of a string literal. *)
Definition str (s : string) : bytes := map (fun c => Z.of_N (Ascii.N_of_ascii c)) (String.list_ascii_of_string s).
Arguments str s%_string_scope.

(** [zlen l] is [l.size()] as an integer. *)
Definition zlen {A} (l : list A) : Z := Z.of_nat (length l).

(** ** Outcomes: what a C++ call can do besides returning

    A function of the source that returns is [Done]; [Fault] stands for a run
    the C++ abstract machine gives no meaning to, for an aborted process, or
    for an exhausted model fuel. *)

Inductive fault :=
  | OutOfBounds        (** read or write outside the valid data *)
  | OverlappingCopy    (** [memcpy] between partially overlapping regions *)
  | SignedOverflow     (** arithmetic on [int] leaving its range *)
  | BadShift           (** a shift by a negative amount, or by the width and more *)
  | AssertFailure      (** a failing [assert] *)
  | DivByZero
  | BadConversion      (** a [double] outside the range of the integer it is converted to *)
  | OutOfFuel.         (** the model's fuel is exhausted: no answer *)

Inductive outcome (A : Type) :=
  | Done (a : A)
  | Fault (f : fault).
Arguments Done {A} _.
Arguments Fault {A} _.

#[export] Instance fault_eq_dec : EqDecision fault.
Proof. solve_decision. Defined.
#[export] Instance outcome_eq_dec {A} `{EqDecision A} : EqDecision (outcome A).
Proof. solve_decision. Defined.

#[export] Instance outcome_ret : MRet outcome := fun A a => Done a.
#[export] Instance outcome_bind : MBind outcome := fun A B f m =>
  match m with Done a => f a | Fault e => Fault e end.

(** One step of the monad: reduce the binds whose first part is known. *)
Ltac simpl_m := unfold mret, outcome_ret; cbn [mbind outcome_bind].

(** A sequence is done when its parts are. *)
Lemma bind_inv {A B} (m : outcome A) (f : A -> outcome B) r :
  m ≫= f = Done r -> exists a, m = Done a /\ f a = Done r.
Proof. destruct m; [by eexists|done]. Qed.

Declare Scope cpp_scope.
Delimit Scope cpp_scope with cpp.
#[export] Set Warnings "-notation-overridden".

(** [p .[ i ]] is the read [p[i]] of a pointer into a buffer whose bytes from
    [p] on are the list [p]. *)
Definition rd (p : bytes) (i : Z) : outcome Z :=
  if bool_decide (0 <= i)%Z then
    match p !! Z.to_nat i with Some b => Done b | None => Fault OutOfBounds end
  else Fault OutOfBounds.
Notation "p .[ i ]" := (rd p i) (at level 1, left associativity, format "p .[ i ]") : cpp_scope.

(** [assert(b)] *)
Definition cassert (b : bool) : outcome unit :=
  if b then Done tt else Fault AssertFailure.

(** The range check of [int] arithmetic. *)
Definition chk_int (x : Z) : outcome Z :=
  if bool_decide (- 2 ^ 31 <= x < 2 ^ 31)%Z then Done x else Fault SignedOverflow.

(** The range check of [int64_t] arithmetic. *)
Definition chk_int64 (x : Z) : outcome Z :=
  if bool_decide (- 2 ^ 63 <= x < 2 ^ 63)%Z then Done x else Fault SignedOverflow.

(** [n] bytes from offset [off] of a region (a [memcpy] source). *)
Definition read_range (buf : bytes) (off n : Z) : outcome bytes :=
  if bool_decide (0 <= off /\ 0 <= n /\ off + n <= zlen buf)%Z
  then Done (take (Z.to_nat n) (drop (Z.to_nat off) buf))
  else Fault OutOfBounds.

(** Overwrite [buf] from offset [off] (a [memcpy] destination). *)
Definition write_at (buf : bytes) (off : Z) (src : bytes) : outcome bytes :=
  if bool_decide (0 <= off /\ off + zlen src <= zlen buf)%Z
  then Done (take (Z.to_nat off) buf ++ src ++ drop (Z.to_nat (off + zlen src)) buf)
  else Fault OutOfBounds.

Open Scope Z_scope.
Open Scope cpp_scope.

Create Rewrite HintDb bytestream.

(** ** Byte order *)

(** Byte [i] (0 = least significant) of the object representation of an
    unsigned integer on a little-endian machine. *)
Definition byte_of (v : Z) (i : nat) : Z := Z.land (Z.shiftr v (8 * Z.of_nat i)) 255.

(** The [n] low bytes of [v], most significant first. *)
Fixpoint be_bytes (n : nat) (v : Z) : bytes :=
  match n with
  | O => []
  | S m => byte_of v m :: be_bytes m v
  end.

(** The value of a big-endian byte string. *)
Definition be_value (l : bytes) : Z := fold_left (fun acc b => acc * 256 + b) l 0.

Lemma byte_of_div v i : byte_of v i = (v / 2 ^ (8 * Z.of_nat i)) mod 256.
Proof.
  unfold byte_of. rewrite Z.shiftr_div_pow2 by lia.
  change 255 with (Z.ones 8). by rewrite Z.land_ones by lia.
Qed.

Lemma byte_of_range v i : is_byte (byte_of v i).
Proof. rewrite byte_of_div. unfold is_byte. apply Z.mod_pos_bound; lia. Qed.

Lemma be_bytes_length n v : length (be_bytes n v) = n.
Proof. induction n as [|n IH]; simpl; congruence. Qed.

Lemma be_bytes_ok n v : bytes_ok (be_bytes n v).
Proof. induction n as [|n IH]; constructor; [apply byte_of_range | done]. Qed.

Lemma be_value_acc l a : fold_left (fun acc b => acc * 256 + b) l a = a * 256 ^ zlen l + be_value l.
Proof.
  unfold be_value, zlen. revert a. induction l as [|b l IH]; intros a; [simpl; lia|].
  cbn [fold_left length]. rewrite IH, (IH (0 * 256 + b)).
  rewrite Nat2Z.inj_succ, Z.pow_succ_r by lia. nia.
Qed.

Lemma be_value_cons b l : be_value (b :: l) = b * 256 ^ zlen l + be_value l.
Proof. unfold be_value at 1. cbn [fold_left]. rewrite be_value_acc. lia. Qed.

Lemma be_value_be_bytes n v : be_value (be_bytes n v) = v mod 256 ^ Z.of_nat n.
Proof.
  induction n as [|n IH]; [by rewrite Z.mod_1_r|].
  cbn [be_bytes]. rewrite be_value_cons, IH. unfold zlen. rewrite be_bytes_length.
  rewrite byte_of_div, Z.pow_mul_r by lia. change (2 ^ 8) with 256.
  rewrite Nat2Z.inj_succ, Z.pow_succ_r, (Z.mul_comm 256) by lia.
  rewrite Z.rem_mul_r by (try apply Z.pow_nonzero; lia). lia.
Qed.

Lemma be_value_bound l : bytes_ok l -> 0 <= be_value l < 256 ^ zlen l.
Proof.
  induction l as [|b l IH]; intros H; [unfold be_value, zlen; simpl; lia|].
  apply Forall_cons in H as [Hb Hl]. specialize (IH Hl). unfold is_byte in Hb.
  rewrite be_value_cons. unfold zlen in *. cbn [length].
  rewrite Nat2Z.inj_succ, Z.pow_succ_r by lia. nia.
Qed.

Lemma be_bytes_mod_le m n v :
  (m <= n)%nat -> be_bytes m (v mod 256 ^ Z.of_nat n) = be_bytes m v.
Proof.
  induction m as [|m IH]; intros Hm; [done|]. simpl. rewrite IH by lia. f_equal.
  rewrite !byte_of_div, Z.pow_mul_r by lia. change (2 ^ 8) with 256.
  replace (Z.of_nat n) with (Z.of_nat m + (1 + Z.of_nat (n - m - 1))) by lia.
  rewrite !Z.pow_add_r by lia. rewrite Z.pow_1_r.
  assert (0 < 256 ^ Z.of_nat m) by lia.
  assert (0 < 256 ^ Z.of_nat (n - m - 1)) by lia.
  rewrite Z.rem_mul_r by lia.
  rewrite (Z.mul_comm (256 ^ Z.of_nat m)), Z.div_add by lia.
  rewrite Z.div_small by (apply Z.mod_pos_bound; lia). rewrite Z.add_0_l.
  by rewrite Z.rem_mul_r, Z.mul_comm, Z.mod_add, Z.mod_mod by lia.
Qed.

Lemma be_bytes_mod n v : be_bytes n (v mod 256 ^ Z.of_nat n) = be_bytes n v.
Proof. by apply be_bytes_mod_le. Qed.

Lemma be_bytes_be_value l : bytes_ok l -> be_bytes (length l) (be_value l) = l.
Proof.
  induction l as [|b l IH]; intros H; [done|].
  apply Forall_cons in H as [Hb Hl]. cbn [length be_bytes].
  pose proof (be_value_bound l Hl) as Hv. rewrite be_value_cons. f_equal.
  - rewrite byte_of_div, Z.pow_mul_r by lia. change (2 ^ 8) with 256. fold (zlen l).
    rewrite Z.div_add_l by lia. rewrite Z.div_small by done.
    rewrite Z.add_0_r. by apply Z.mod_small.
  - rewrite <- be_bytes_mod. fold (zlen l).
    rewrite Z.add_comm, Z.mod_add by lia. by rewrite Z.mod_small, IH.
Qed.

(** ** Lengths and widths *)

Lemma u64_small x : 0 <= x < 2 ^ 64 -> u64 x = x.
Proof. apply Z.mod_small. Qed.

Lemma i32_small x : - 2 ^ 31 <= x < 2 ^ 31 -> i32 x = x.
Proof. intros Hx. unfold i32. rewrite Z.mod_small; lia. Qed.

Lemma chk_int_ok x : - 2 ^ 31 <= x < 2 ^ 31 -> chk_int x = Done x.
Proof. intros Hx. unfold chk_int. by rewrite bool_decide_eq_true_2. Qed.

Lemma chk_int64_ok x : - 2 ^ 63 <= x < 2 ^ 63 -> chk_int64 x = Done x.
Proof. intros H. unfold chk_int64. by rewrite bool_decide_eq_true_2. Qed.

Lemma zlen_app {A} (l k : list A) : zlen (l ++ k) = zlen l + zlen k.
Proof. unfold zlen. rewrite length_app. lia. Qed.

Lemma zlen_nonneg {A} (l : list A) : 0 <= zlen l.
Proof. unfold zlen; lia. Qed.

Lemma zlen_take {A} n (l : list A) : 0 <= n <= zlen l -> zlen (take (Z.to_nat n) l) = n.
Proof. unfold zlen. intros. rewrite length_take. lia. Qed.

Lemma zlen_cons {A} (x : A) l : zlen (x :: l) = 1 + zlen l.
Proof. unfold zlen. cbn [length]. lia. Qed.

Lemma zlen_replicate {A} n (x : A) : 0 <= n -> zlen (replicate (Z.to_nat n) x) = n.
Proof. intros. unfold zlen. rewrite length_replicate. lia. Qed.

Lemma u16_small x : 0 <= x <= 0xffff -> u16 x = x.
Proof. intros. apply Z.mod_small. lia. Qed.

Lemma take_zlen_app {A} (p q : list A) : take (Z.to_nat (zlen p)) (p ++ q) = p.
Proof. unfold zlen. by rewrite Nat2Z.id, take_app_length. Qed.

Lemma drop_zlen_app {A} (p q : list A) : drop (Z.to_nat (zlen p)) (p ++ q) = q.
Proof. unfold zlen. by rewrite Nat2Z.id, drop_app_length. Qed.

Lemma zlen_drop {A} n (l : list A) : 0 <= n <= zlen l -> zlen (drop (Z.to_nat n) l) = zlen l - n.
Proof. unfold zlen. intros. rewrite length_drop. lia. Qed.

(** A decidable property of bytes, tried on each. *)
Lemma byte_all (P : Z -> bool) b : forallb P (map Z.of_nat (seq 0 256)) = true -> is_byte b -> P b = true.
Proof.
  intros Hall Hb. unfold is_byte in Hb. rewrite forallb_forall in Hall. apply Hall. apply in_map_iff. exists (Z.to_nat b).
  split; [lia|]. apply in_seq. lia.
Qed.

(** A stream cut somewhere: behind its first part, or inside it. *)
Lemma app_split {A} (buf more t r : list A) : buf ++ more = t ++ r ->
  (exists buf', buf = t ++ buf' /\ buf' ++ more = r) \/ (exists k, k <> [] /\ buf ++ k = t /\ more <> []).
Proof.
  intros E. destruct (app_eq_app _ _ _ _ E) as (k & [[-> ->]|[-> ->]]); [left; by exists k|].
  destruct k as [|x k]; [left; exists []; by rewrite !app_nil_r|right; by exists (x :: k)].
Qed.

Lemma read_range_mid a d c : read_range (a ++ d ++ c) (zlen a) (zlen d) = Done d.
Proof.
  unfold read_range. pose proof (zlen_nonneg a). pose proof (zlen_nonneg d). pose proof (zlen_nonneg c).
  rewrite !zlen_app, bool_decide_eq_true_2 by lia. by rewrite drop_zlen_app, take_zlen_app.
Qed.

Lemma write_at_mid a b c d : zlen d = zlen b -> write_at (a ++ b ++ c) (zlen a) d = Done (a ++ d ++ c).
Proof.
  intros Hl. unfold write_at. rewrite !zlen_app. pose proof (zlen_nonneg a). pose proof (zlen_nonneg c).
  rewrite bool_decide_eq_true_2 by lia. rewrite take_zlen_app. by rewrite Hl, <- zlen_app, (app_assoc a b c), drop_zlen_app.
Qed.

(** ** Bit fields *)

(** [x<<m | y] is a sum when [y] fits below bit [m]. *)
Lemma lor_add x m y : 0 <= m -> 0 <= y < 2 ^ m -> Z.lor (x * 2 ^ m) y = x * 2 ^ m + y.
Proof.
  intros Hm Hy. rewrite <- (Z.shiftl_mul_pow2 x m) by done. symmetry.
  assert (Z.land (Z.shiftl x m) y = 0) as H0.
  { apply Z.bits_inj'. intros k Hk. rewrite Z.land_spec, Z.bits_0.
    destruct (Z.ltb_spec k m); [by rewrite Z.shiftl_spec_low|].
    rewrite <- (Z.mod_small y (2 ^ m)), Z.mod_pow2_bits_high by lia. apply andb_false_r. }
  by rewrite Z.add_nocarry_lxor, Z.lxor_lor.
Qed.

(** The field of [n] bits at bit [m], written as mask then shift. *)
Lemma mask_shift x k m n : 0 <= m -> 0 <= n -> Z.shiftr k m = Z.ones n ->
  Z.shiftr (Z.land x k) m = (x / 2 ^ m) mod 2 ^ n.
Proof. intros Hm Hn Hk. by rewrite Z.shiftr_land, Hk, Z.land_ones, Z.shiftr_div_pow2. Qed.

(** The same, written as shift then mask. *)
Lemma shift_mask x k m n : 0 <= m -> 0 <= n -> k = Z.ones n ->
  Z.land (Z.shiftr x m) k = (x / 2 ^ m) mod 2 ^ n.
Proof. intros Hm Hn ->. by rewrite Z.land_ones, Z.shiftr_div_pow2. Qed.

Lemma low_mask x k n : 0 <= n -> k = Z.ones n -> Z.land x k = x mod 2 ^ n.
Proof. intros Hn ->. by apply Z.land_ones. Qed.

(** Linear arithmetic over quotients and remainders. *)
Ltac div_lia := Z.to_euclidean_division_equations; lia.

(** ** Exclusive ors *)

(** An equation of exclusive ors, bit by bit. *)
Ltac xor_bits := apply Z.bits_inj'; intros; rewrite ?Z.lxor_spec; repeat case (Z.testbit _ _); reflexivity.

Lemma land_lxor x y m : Z.land (Z.lxor x y) m = Z.lxor (Z.land x m) (Z.land y m).
Proof.
  apply Z.bits_inj'. intros n Hn. rewrite Z.lxor_spec, !Z.land_spec, Z.lxor_spec.
  by destruct (Z.testbit x n), (Z.testbit y n), (Z.testbit m n).
Qed.

Lemma lxor_byte a b : is_byte a -> is_byte b -> is_byte (Z.lxor a b).
Proof.
  unfold is_byte. intros Ha Hb. rewrite <- (Z.mod_small a (2 ^ 8)), <- (Z.mod_small b (2 ^ 8)) by lia.
  rewrite <- !Z.land_ones, <- land_lxor, Z.land_ones by lia. apply Z.mod_pos_bound. lia.
Qed.
