(* ===== verification/Double.v ===== *)
(** * [Double]: the conversions between integers and [double] the RTMP code makes

    AMF0 numbers are IEEE 754 binary64 values. A [double] is the 64-bit pattern
    that [ByteStream::ByteDouble2Int] and [ByteInt2Double] put on the wire, so
    the conversions [(double)n], [(int64_t)d] and [std::to_string(d)] are
    functions on that pattern. *)
From S2P Require Import Prelude.

Definition dbl_negative (d : Z) : bool := Z.testbit d 63.
Definition dbl_exponent (d : Z) : Z := Z.land (Z.shiftr d 52) 0x7ff.
Definition dbl_fraction (d : Z) : Z := Z.land d (Z.ones 52).

(** A finite [double] is [m * 2 ^ e] up to its sign. *)
Definition dbl_mantissa (d : Z) : Z * Z :=
  if dbl_exponent d =? 0 then (dbl_fraction d, -1074)
  else (2 ^ 52 + dbl_fraction d, dbl_exponent d - 1075).

(** [n / 2 ^ s] rounded to the nearest integer, to even on a tie. *)
Definition round_shift (n s : Z) : Z :=
  let q := Z.shiftr n s in
  let r := n - Z.shiftl q s in
  let half := 2 ^ (s - 1) in
  if (half <? r) || ((half =? r) && Z.odd q) then q + 1 else q.

(** [(double)n]; the sum carries into the exponent when rounding up gives [2 ^ 53]. *)
Definition double_of_int (n : Z) : Z :=
  let a := Z.abs n in
  let sign := if n <? 0 then 2 ^ 63 else 0 in
  if a =? 0 then 0
  else
    let k := Z.log2 a in
    let q := if k <=? 52 then Z.shiftl a (52 - k) else round_shift a (k - 52) in
    sign + Z.shiftl (k + 1023) 52 + (q - 2 ^ 52).

(** [(int64_t)d]: truncation; undefined when the result does not fit. *)
Definition int64_of_double (d : Z) : outcome Z :=
  if dbl_exponent d =? 0x7ff then Fault BadConversion
  else
    let '(m, e) := dbl_mantissa d in
    let a := if 0 <=? e then Z.shiftl m e else Z.shiftr m (- e) in
    let v := if dbl_negative d then - a else a in
    if (- 2 ^ 63 <=? v) && (v <? 2 ^ 63) then Done v else Fault BadConversion.

(** Decimal digits of a natural number, at least [n] of them. *)
Fixpoint digits (n : nat) (v : Z) (fuel : nat) : bytes :=
  match fuel with
  | O => []
  | S fuel =>
      if (v =? 0) && bool_decide (n = O) then []
      else digits (pred n) (v / 10) fuel ++ [48 + v mod 10]
  end.

(** The conversion ["%.kf"]: [k] decimals, rounded to the nearest. A finite
    [double] has at most 309 digits before the point. *)
Definition fixed_double (k : nat) (d : Z) : bytes :=
  let sign := if dbl_negative d then [45] else [] in
  if dbl_exponent d =? 0x7ff then
    sign ++ (if dbl_fraction d =? 0 then str "inf" else str "nan")
  else
    let '(m, e) := dbl_mantissa d in
    let n := m * 10 ^ Z.of_nat k in
    let u := if 0 <=? e then Z.shiftl n e else round_shift n (- e) in
    sign ++ digits 1 (u / 10 ^ Z.of_nat k) 400 ++ [46] ++ digits k (u mod 10 ^ Z.of_nat k) (S k).

(** [std::to_string(double)], which prints with ["%f"]: six decimals. *)
Definition to_string_double (d : Z) : bytes := fixed_double 6 d.

Example to_string_ex : to_string_double (double_of_int 1) = str "1.000000".
Proof. vm_compute. reflexivity. Qed.
Example to_string_ex2 : to_string_double (double_of_int (-31)) = str "-31.000000".
Proof. vm_compute. reflexivity. Qed.

(** The fields of a pattern put together from its parts. *)
Lemma dbl_fields sgn e f d :
  sgn = 0 \/ sgn = 1 -> 0 <= e < 2 ^ 11 -> 0 <= f < 2 ^ 52 ->
  d = sgn * 2 ^ 63 + e * 2 ^ 52 + f ->
  dbl_negative d = (sgn =? 1) /\ dbl_exponent d = e /\ dbl_fraction d = f.
Proof.
  intros Hs He Hf ->. unfold dbl_negative, dbl_exponent, dbl_fraction.
  change 0x7ff with (Z.ones 11). rewrite !Z.land_ones, Z.shiftr_div_pow2, Z.testbit_eqb by lia.
  assert (sgn * 2 ^ 63 + e * 2 ^ 52 + f = (sgn * 2 ^ 11 + e) * 2 ^ 52 + f) as Hd by lia.
  assert ((sgn * 2 ^ 63 + e * 2 ^ 52 + f) / 2 ^ 52 = sgn * 2 ^ 11 + e) as Hq.
  { rewrite Hd, Z.div_add_l, (Z.div_small f) by lia. lia. }
  split_and!.
  - replace (sgn * 2 ^ 63 + e * 2 ^ 52 + f) with (sgn * 2 ^ 63 + (e * 2 ^ 52 + f)) by lia.
    rewrite Z.div_add_l, (Z.div_small (_ + f)) by lia. destruct Hs as [-> | ->]; reflexivity.
  - rewrite Hq, Z.add_comm, Z.mod_add by lia. apply Z.mod_small. lia.
  - rewrite Hd, Z.add_comm, Z.mod_add by lia. apply Z.mod_small. lia.
Qed.

(** The parts of the [double] of a nonzero integer below 2^53. *)
Lemma double_of_int_parts n (k := Z.log2 (Z.abs n)) (q := Z.abs n * 2 ^ (52 - k)) :
  - 2 ^ 53 < n < 2 ^ 53 -> n <> 0 ->
  double_of_int n = (if n <? 0 then 2 ^ 63 else 0) + (k + 1023) * 2 ^ 52 + (q - 2 ^ 52) /\
  0 <= k <= 52 /\ 2 ^ 52 <= q < 2 ^ 53.
Proof.
  intros Hn H0. unfold double_of_int. fold k.
  destruct (Z.eqb_spec (Z.abs n) 0) as [|_]; [lia|].
  pose proof (Z.log2_spec (Z.abs n) ltac:(lia)) as Hk. fold k in Hk.
  pose proof (Z.log2_nonneg (Z.abs n)) as Hk0. fold k in Hk0.
  assert (k < 53) as Hk53 by (apply Z.log2_lt_pow2; lia).
  destruct (Z.leb_spec k 52) as [_|]; [|lia]. rewrite !Z.shiftl_mul_pow2 by lia. fold q.
  assert (q * 2 ^ k = Z.abs n * 2 ^ 52) as Hq.
  { unfold q. rewrite <- Z.mul_assoc, <- Z.pow_add_r by lia. do 2 f_equal. lia. }
  split; [done|]. split; [lia|]. rewrite Z.pow_succ_r in Hk by lia. assert (0 < 2 ^ k) by lia. split; nia.
Qed.

Lemma double_of_int_range n : - 2 ^ 53 < n < 2 ^ 53 -> 0 <= double_of_int n < 2 ^ 64.
Proof.
  intros Hn. destruct (decide (n = 0)) as [->|H0]; [by vm_compute|].
  destruct (double_of_int_parts n Hn H0) as (-> & Hk & Hq). destruct (n <? 0); lia.
Qed.

(** Integers below 2^53 are exact, and truncation gives them back. *)
Lemma double_of_int_exact n : - 2 ^ 53 < n < 2 ^ 53 -> int64_of_double (double_of_int n) = Done n.
Proof.
  intros Hn. destruct (decide (n = 0)) as [->|H0]; [reflexivity|].
  destruct (double_of_int_parts n Hn H0) as (Hd & Hk & Hq).
  set (k := Z.log2 (Z.abs n)) in *. set (q := Z.abs n * 2 ^ (52 - k)) in *.
  destruct (dbl_fields (if n <? 0 then 1 else 0) (k + 1023) (q - 2 ^ 52) (double_of_int n)) as (Hs & He & Hf);
    [destruct (n <? 0); auto|lia|lia|destruct (n <? 0); lia|].
  unfold int64_of_double, dbl_mantissa. rewrite Hs, He, Hf.
  destruct (Z.eqb_spec (k + 1023) 0x7ff), (Z.eqb_spec (k + 1023) 0); [lia..|].
  replace (2 ^ 52 + (q - 2 ^ 52)) with q by lia.
  assert ((if 0 <=? k + 1023 - 1075 then Z.shiftl q (k + 1023 - 1075)
           else Z.shiftr q (- (k + 1023 - 1075))) = Z.abs n) as ->.
  { destruct (Z.leb_spec 0 (k + 1023 - 1075)).
    - replace (k + 1023 - 1075) with 0 by lia. rewrite Z.shiftl_0_r.
      unfold q. replace (52 - k) with 0 by lia. lia.
    - rewrite Z.shiftr_div_pow2 by lia. replace (- (k + 1023 - 1075)) with (52 - k) by lia.
      unfold q. apply Z.div_mul. lia. }
  destruct (Z.ltb_spec n 0); cbn [Z.eqb Pos.eqb];
    match goal with |- (if (?a <=? ?b) && (?c <? ?d) then _ else _) = _ =>
      destruct (Z.leb_spec a b), (Z.ltb_spec c d); [|lia..] end; cbn [andb]; f_equal; lia.
Qed.
