(* ===== verification/ByteStream.v ===== *)
(** * [ByteStream]: big- and little-endian integers in byte buffers

    Models [src/utils/byte_stream.hpp].  A [const uint8_t*] is the list of the
    bytes from the pointer on; a [WriteNBytes] function returns the bytes it
    stores at the pointer it is given.  The unions of the source reinterpret a
    [double] as its 64-bit pattern, so a [double] is modelled by that pattern. *)
From S2P Require Import Prelude.

(** [output[0..n-1]] of the source, written from the low end: the value of a
    little-endian object representation. *)
Fixpoint le_value (output : bytes) : Z :=
  match output with
  | [] => 0
  | b :: l => b + 256 * le_value l
  end.

Definition ByteInt2Double (i : Z) : Z := u64 i.
Definition ByteDouble2Int (f : Z) : Z := u64 f.

Definition Read8Bytes (data : bytes) : outcome Z :=
  o7 ← data.[0]; o6 ← data.[1]; o5 ← data.[2]; o4 ← data.[3];
  o3 ← data.[4]; o2 ← data.[5]; o1 ← data.[6]; o0 ← data.[7];
  mret (le_value [o0; o1; o2; o3; o4; o5; o6; o7]).

Definition Read4Bytes (data : bytes) : outcome Z :=
  o3 ← data.[0]; o2 ← data.[1]; o1 ← data.[2]; o0 ← data.[3];
  mret (le_value [o0; o1; o2; o3]).

(** [output[3]] keeps its initial zero. *)
Definition Read3Bytes (data : bytes) : outcome Z :=
  o2 ← data.[0]; o1 ← data.[1]; o0 ← data.[2];
  mret (le_value [o0; o1; o2; 0]).

Definition Read2Bytes (data : bytes) : outcome Z :=
  o1 ← data.[0]; o0 ← data.[1];
  mret (le_value [o0; o1]).

Definition Write8Bytes (value : Z) : bytes :=
  let pp := byte_of (u64 value) in
  [pp 7%nat; pp 6%nat; pp 5%nat; pp 4%nat; pp 3%nat; pp 2%nat; pp 1%nat; pp 0%nat].

Definition Write4Bytes (value : Z) : bytes :=
  let pp := byte_of (u32 value) in [pp 3%nat; pp 2%nat; pp 1%nat; pp 0%nat].

Definition Write2Bytes_le (value : Z) : bytes :=
  let pp := byte_of (u32 value) in [pp 0%nat; pp 1%nat].

Definition Write4Bytes_le (value : Z) : bytes :=
  let pp := byte_of (u32 value) in [pp 0%nat; pp 1%nat; pp 2%nat; pp 3%nat].

Definition Write3Bytes (value : Z) : bytes :=
  let pp := byte_of (u32 value) in [pp 2%nat; pp 1%nat; pp 0%nat].

Definition Write2Bytes (value : Z) : bytes :=
  let pp := byte_of (u16 value) in [pp 1%nat; pp 0%nat].

(** The loop of [BytesIsEqual], counting [len] down. *)
Fixpoint BytesIsEqual (p1 p2 : bytes) (len : nat) : outcome bool :=
  match len with
  | O => mret true
  | S n =>
      a ← p1.[0]; b ← p2.[0];
      if a =? b then BytesIsEqual (drop 1 p1) (drop 1 p2) n else mret false
  end.

Definition PadTo4Bytes16 (size : Z) : Z :=
  if Z.land size 0x03 =? 0 then size else u16 (Z.land size 0xFFFC + 4).
Definition PadTo4Bytes32 (size : Z) : Z :=
  if Z.land size 0x03 =? 0 then size else u32 (Z.land size 0xFFFFFFFC + 4).

(** ** The readers and writers against the generic big-endian codec *)

Lemma rd_app p q i : (0 <= i < zlen p) -> rd (p ++ q) i = rd p i.
Proof.
  intros H. unfold rd, zlen in *. case_bool_decide; [|done].
  by rewrite lookup_app_l by lia.
Qed.

Lemma rd_mid a b c : rd (a ++ b :: c) (zlen a) = Done b.
Proof.
  unfold rd. pose proof (zlen_nonneg a). rewrite bool_decide_eq_true_2 by lia.
  unfold zlen. by rewrite Nat2Z.id, list_lookup_middle.
Qed.

Lemma le_value_rev l : le_value (rev l) = be_value l.
Proof.
  enough (forall l, le_value l = be_value (rev l)) as H.
  { by rewrite H, rev_involutive. }
  clear l. intros l. induction l as [|b l IH]; [done|].
  cbn [le_value rev]. rewrite IH. unfold be_value. rewrite fold_left_app. cbn. lia.
Qed.

Lemma Read8Bytes_spec p q : length p = 8%nat -> Read8Bytes (p ++ q) = Done (be_value p).
Proof.
  intros H. rewrite <- le_value_rev.
  do 8 (destruct p as [|? p]; [done|]). by destruct p.
Qed.

Lemma Read4Bytes_spec p q : length p = 4%nat -> Read4Bytes (p ++ q) = Done (be_value p).
Proof.
  intros H. rewrite <- le_value_rev.
  do 4 (destruct p as [|? p]; [done|]). by destruct p.
Qed.

Lemma Read3Bytes_spec p q : length p = 3%nat -> Read3Bytes (p ++ q) = Done (be_value p).
Proof.
  intros H. rewrite <- le_value_rev.
  do 3 (destruct p as [|? p]; [done|]). destruct p; [|done]. cbn. f_equal.
Qed.

Lemma Read2Bytes_spec p q : length p = 2%nat -> Read2Bytes (p ++ q) = Done (be_value p).
Proof.
  intros H. rewrite <- le_value_rev.
  do 2 (destruct p as [|? p]; [done|]). by destruct p.
Qed.

Lemma Write8Bytes_be v : Write8Bytes v = be_bytes 8 v.
Proof. rewrite <- be_bytes_mod. reflexivity. Qed.
Lemma Write4Bytes_be v : Write4Bytes v = be_bytes 4 v.
Proof. rewrite <- be_bytes_mod. reflexivity. Qed.
Lemma Write2Bytes_be v : Write2Bytes v = be_bytes 2 v.
Proof. rewrite <- be_bytes_mod. reflexivity. Qed.
Lemma Write3Bytes_be v : Write3Bytes v = be_bytes 3 v.
Proof. rewrite <- (be_bytes_mod_le 3 4) by lia. reflexivity. Qed.

(** Reading back what was written gives the value cut to the width. *)
Lemma Read8Bytes_Write8Bytes v q : Read8Bytes (Write8Bytes v ++ q) = Done (u64 v).
Proof. rewrite Write8Bytes_be, Read8Bytes_spec, be_value_be_bytes by done. done. Qed.
Lemma Read4Bytes_Write4Bytes v q : Read4Bytes (Write4Bytes v ++ q) = Done (u32 v).
Proof. rewrite Write4Bytes_be, Read4Bytes_spec, be_value_be_bytes by done. done. Qed.
Lemma Read3Bytes_Write3Bytes v q : Read3Bytes (Write3Bytes v ++ q) = Done (v mod 2 ^ 24).
Proof. rewrite Write3Bytes_be, Read3Bytes_spec, be_value_be_bytes by done. done. Qed.
Lemma Read2Bytes_Write2Bytes v q : Read2Bytes (Write2Bytes v ++ q) = Done (u16 v).
Proof. rewrite Write2Bytes_be, Read2Bytes_spec, be_value_be_bytes by done. done. Qed.

#[export] Hint Rewrite Read8Bytes_Write8Bytes Read4Bytes_Write4Bytes
  Read3Bytes_Write3Bytes Read2Bytes_Write2Bytes : bytestream.

Lemma Write4Bytes_length v : length (Write4Bytes v) = 4%nat.
Proof. done. Qed.

Lemma Write_bytes_ok v :
  bytes_ok (Write2Bytes v) /\ bytes_ok (Write3Bytes v) /\ bytes_ok (Write4Bytes v) /\
  bytes_ok (Write8Bytes v).
Proof.
  rewrite Write2Bytes_be, Write3Bytes_be, Write4Bytes_be, Write8Bytes_be.
  auto using be_bytes_ok.
Qed.

(** A buffer written back after a read is the buffer. *)
Lemma Read4Bytes_inv p v :
  bytes_ok p -> Read4Bytes p = Done v -> take 4 p = Write4Bytes v /\ 0 <= v < 2 ^ 32.
Proof.
  intros Hp H. assert (4 <= length p)%nat as Hl.
  { destruct p as [|? [|? [|? [|? ?]]]]; try discriminate H. simpl; lia. }
  rewrite <- (take_drop 4 p) in H. rewrite Read4Bytes_spec in H by (rewrite length_take; lia).
  injection H as <-. assert (bytes_ok (take 4 p)) as Ht by by apply Forall_take.
  pose proof (be_value_bound _ Ht) as Hb. unfold zlen in Hb.
  rewrite Write4Bytes_be, length_take, Nat.min_l in * by lia. split; [|lia].
  rewrite <- (be_bytes_be_value _ Ht) at 1. by rewrite length_take, Nat.min_l by lia.
Qed.

(** A read succeeds inside the valid bytes and faults outside. *)
Lemma rd_cases p i :
  (exists b, rd p i = Done b /\ 0 <= i < zlen p) \/ rd p i = Fault OutOfBounds.
Proof.
  unfold rd, zlen. case_bool_decide; [|by right].
  destruct (p !! Z.to_nat i) as [b|] eqn:E; [|by right].
  apply lookup_lt_Some in E. left. exists b. split; [done|lia].
Qed.

Lemma rd_done p i : (0 <= i < zlen p)%Z -> exists b, rd p i = Done b.
Proof.
  intros Hi. destruct (rd_cases p i) as [(b & Hb & _)|Hb]; [by exists b|].
  unfold rd, zlen in *. rewrite bool_decide_eq_true_2 in Hb by lia.
  destruct (lookup_lt_is_Some_2 p (Z.to_nat i) ltac:(lia)) as [b Hl]. by rewrite Hl in Hb.
Qed.

Ltac rd_step :=
  match goal with
  | |- context [rd ?p ?i] =>
      let b := fresh "b" in destruct (rd_cases p i) as [(b & -> & ?)| ->]; simpl_m
  end.

Lemma Read2Bytes_cases p :
  (exists v, Read2Bytes p = Done v /\ (2 <= length p)%nat) \/ Read2Bytes p = Fault OutOfBounds.
Proof.
  unfold Read2Bytes, zlen in *. repeat rd_step; try by right.
  left. eexists; split; [reflexivity|]. unfold zlen in *. lia.
Qed.
Lemma Read4Bytes_cases p :
  (exists v, Read4Bytes p = Done v /\ (4 <= length p)%nat) \/ Read4Bytes p = Fault OutOfBounds.
Proof.
  unfold Read4Bytes, zlen in *. repeat rd_step; try by right.
  left. eexists; split; [reflexivity|]. unfold zlen in *. lia.
Qed.
Lemma Read8Bytes_cases p :
  (exists v, Read8Bytes p = Done v /\ (8 <= length p)%nat) \/ Read8Bytes p = Fault OutOfBounds.
Proof.
  unfold Read8Bytes, zlen in *. repeat rd_step; try by right.
  left. eexists; split; [reflexivity|]. unfold zlen in *. lia.
Qed.

(** More bytes behind the pointer do not change a read that succeeded. *)
Lemma rd_extend p d i v : rd p i = Done v -> rd (p ++ d) i = Done v.
Proof.
  destruct (rd_cases p i) as [(b & E & Hi)|E]; rewrite E; [|done].
  intros [= <-]. by rewrite rd_app.
Qed.

Lemma Read3Bytes_extend p d v : Read3Bytes p = Done v -> Read3Bytes (p ++ d) = Done v.
Proof.
  unfold Read3Bytes. intros H.
  destruct (p.[0]) eqn:E0; [|done]. cbn [mbind outcome_bind] in H.
  destruct (p.[1]) eqn:E1; [|done]. cbn [mbind outcome_bind] in H.
  destruct (p.[2]) eqn:E2; [|done].
  by rewrite (rd_extend _ _ _ _ E0), (rd_extend _ _ _ _ E1), (rd_extend _ _ _ _ E2).
Qed.

Lemma Read4Bytes_extend p d v : Read4Bytes p = Done v -> Read4Bytes (p ++ d) = Done v.
Proof.
  unfold Read4Bytes. intros H.
  destruct (p.[0]) eqn:E0; [|done]. cbn [mbind outcome_bind] in H.
  destruct (p.[1]) eqn:E1; [|done]. cbn [mbind outcome_bind] in H.
  destruct (p.[2]) eqn:E2; [|done]. cbn [mbind outcome_bind] in H.
  destruct (p.[3]) eqn:E3; [|done].
  by rewrite (rd_extend _ _ _ _ E0), (rd_extend _ _ _ _ E1), (rd_extend _ _ _ _ E2), (rd_extend _ _ _ _ E3).
Qed.
