(* ===== verification/Ends.v ===== *)
(** * [Ends]: calls that end

    [ends P x] says that the call [x] returns a value with [P] or has no meaning
    in C++, but does not run out of the model's fuel: it is how the development
    states that a loop with fuel terminates.  The tactic [ends] walks through the
    body of a function. *)
From S2P Require Import Prelude ByteStream.

(** The call returns with this postcondition, or has no meaning; but it ends. *)
Definition ends {A} (P : A -> Prop) (x : outcome A) : Prop := match x with Done a => P a | Fault e => e <> OutOfFuel end.
Definition any {A} (_ : A) : Prop := True.

Lemma ends_bind {A B} (P : A -> Prop) (Q : B -> Prop) x (f : A -> outcome B) :
  ends P x -> (forall a, P a -> ends Q (f a)) -> ends Q (x ≫= f).
Proof. destruct x as [a|e]; cbn; auto. Qed.

Lemma ends_weaken {A} (P Q : A -> Prop) x : ends P x -> (forall a, P a -> Q a) -> ends Q x.
Proof. destruct x; cbn; auto. Qed.

Lemma ends_answers {A} (P : A -> Prop) x : ends P x -> x <> Fault OutOfFuel.
Proof. destruct x; cbn; congruence. Qed.

Create HintDb ends.

(** One step through a function's body. *)
Ltac ends_step :=
  match goal with
  | |- ends _ (mret _) => cbn [ends mret outcome_ret]
  | |- ends _ (Done _) => cbn [ends]
  | |- ends _ (Fault _) => discriminate
  | |- ends _ (_ ≫= _) => eapply ends_bind; [solve [eauto with ends]|intros ? ?]
  | |- ends _ (let _ := _ in _) => cbv zeta
  | |- ends _ (if ?b then _ else _) => destruct b eqn:?
  | |- ends _ (match ?x with _ => _ end) => destruct x eqn:?
  end.
Ltac ends := repeat (first [ends_step | eapply (ends_bind any); [solve [ends]|intros ? ?]]); try done; auto with ends.

Lemma ends_rd p i : ends any (rd p i).
Proof. unfold rd. ends. Qed.
Lemma ends_read_range m off n : ends any (read_range m off n).
Proof. unfold read_range. ends. Qed.
Lemma ends_write_at m off d : ends any (write_at m off d).
Proof. unfold write_at. ends. Qed.
#[export] Hint Resolve ends_rd ends_read_range ends_write_at : ends.

Lemma ends_Read2Bytes p : ends any (Read2Bytes p).
Proof. unfold Read2Bytes. ends. Qed.
Lemma ends_Read3Bytes p : ends any (Read3Bytes p).
Proof. unfold Read3Bytes. ends. Qed.
Lemma ends_chk_int64 x : ends any (chk_int64 x).
Proof. unfold chk_int64. ends. Qed.
Lemma ends_chk_int x : ends any (chk_int x).
Proof. unfold chk_int. ends. Qed.
#[export] Hint Resolve ends_Read2Bytes ends_Read3Bytes ends_chk_int ends_chk_int64 : ends.

(** ** Bytes that stay bytes *)

Lemma ends_read_bytes m off n : bytes_ok m -> ends bytes_ok (read_range m off n).
Proof. intros Hm. unfold read_range. ends. by apply Forall_take, Forall_drop. Qed.

Lemma ends_write_bytes m off d : bytes_ok m -> bytes_ok d -> ends bytes_ok (write_at m off d).
Proof. intros Hm Hd. unfold write_at. ends. apply Forall_app. split; [by apply Forall_take|]. apply Forall_app. split; [done|by apply Forall_drop]. Qed.

Lemma ends_rd_byte p i : bytes_ok p -> ends is_byte (rd p i).
Proof. intros Hp. unfold rd. ends. by eapply Forall_lookup_1. Qed.

Lemma ends_Read2Bytes_range p : bytes_ok p -> ends (fun v => 0 <= v < 2 ^ 16) (Read2Bytes p).
Proof.
  intros Hp. unfold Read2Bytes. eapply ends_bind; [by apply ends_rd_byte|]. intros a Ha. eapply ends_bind; [by apply ends_rd_byte|]. intros b Hb.
  cbn. unfold is_byte in *. lia.
Qed.
