(* ===== verification/StringEx.v ===== *)
(** * [StringEx]: strings

    Models [src/utils/stringex.hpp] and what the code uses of [std::string] and of
    the C library: searching, [substr], [atoi], decimal numbers.  A string is the
    list of its bytes; a position that was not found ([npos]) is [None]. *)
From S2P Require Import Prelude.

(** ** The standard library *)

Fixpoint is_prefix (sub s : bytes) : bool :=
  match sub, s with
  | [], _ => true
  | c :: sub, b :: s => (c =? b) && is_prefix sub s
  | _ :: _, [] => false
  end.

(** [s.find(sub)] *)
Fixpoint find (sub s : bytes) : option nat :=
  if is_prefix sub s then Some O
  else match s with [] => None | _ :: s => option_map S (find sub s) end.

(** [s.rfind(sub)] *)
Fixpoint rfind (sub s : bytes) : option nat :=
  match match s with [] => None | _ :: s => rfind sub s end with
  | Some n => Some (S n)
  | None => if is_prefix sub s then Some O else None
  end.

(** [s.substr(pos)]; [None] is [std::out_of_range]. *)
Definition substr_from (s : bytes) (pos : nat) : option bytes :=
  if decide (pos <= length s)%nat then Some (drop pos s) else None.

Definition is_digit (c : Z) : bool := (48 <=? c) && (c <=? 57).
Definition is_space (c : Z) : bool := (c =? 32) || ((9 <=? c) && (c <=? 13)).

(** The digits at the front of a string, as a number. *)
Fixpoint digits (acc : Z) (s : bytes) : Z :=
  match s with
  | c :: s => if is_digit c then digits (10 * acc + (c - 48)) s else acc
  | [] => acc
  end.
Fixpoint skip_space (s : bytes) : bytes :=
  match s with
  | c :: s' => if is_space c then skip_space s' else s
  | [] => []
  end.

(** [atoi]: a number that [int] does not hold is undefined behaviour. *)
Definition atoi (s : bytes) : outcome Z :=
  match skip_space s with
  | 45 :: s => chk_int (- digits 0 s)
  | 43 :: s => chk_int (digits 0 s)
  | s => chk_int (digits 0 s)
  end.

(** The decimal digits of a number that is not negative. *)
Fixpoint dec_digits (fuel : nat) (n : Z) (acc : bytes) : bytes :=
  match fuel with
  | O => acc
  | S fuel => let acc := (48 + n mod 10) :: acc in if n <? 10 then acc else dec_digits fuel (n / 10) acc
  end.
Definition dec (n : Z) : bytes := if n <? 0 then 45 :: dec_digits 64 (- n) [] else dec_digits 64 n [].

(** [::tolower] and [::toupper] in the C locale. *)
Definition tolower (c : Z) : Z := if (65 <=? c) && (c <=? 90) then c + 32 else c.
Definition toupper (c : Z) : Z := if (97 <=? c) && (c <=? 122) then c - 32 else c.

(** ** [stringex.hpp] *)

(** The loop; the result is what is pushed to [output_vec]. *)
Fixpoint split_loop (fuel : nat) (split_str tempString : bytes) : outcome (list bytes) :=
  match fuel with
  | O => Fault OutOfFuel
  | S fuel =>
      match find split_str tempString with
      | None => mret [tempString]
      | Some pos =>
          let seg_str := take pos tempString in
          let tempString := drop (pos + length split_str) tempString in
          if bool_decide (tempString = []) then mret [seg_str]
          else r ← split_loop fuel split_str tempString; mret (seg_str :: r)
      end
  end.

(** Into an empty vector, whose size is the value returned. *)
Definition StringSplit (input_str split_str : bytes) : outcome (list bytes) :=
  if bool_decide (input_str = []) then mret [] else split_loop (S (length input_str)) split_str input_str.

Definition String2Lower (s : bytes) : bytes := map tolower s.
Definition String2Upper (s : bytes) : bytes := map toupper s.

Definition RemoveSubfix (data subfix : bytes) : bytes :=
  match rfind subfix data with
  | None => data
  | Some pos => if (length data - pos =? length subfix)%nat then take pos data else data
  end.

Definition Uint32ToString (value : Z) : bytes :=
  let c i := let b := byte_of (u32 value) i in if b =? 0 then 32 else b in [c 3%nat; c 2%nat; c 1%nat; c 0%nat].

(** ** Searching *)

Lemma is_prefix_app sub s : is_prefix sub (sub ++ s) = true.
Proof. induction sub as [|c sub IH]; [done|]. cbn. by rewrite Z.eqb_refl, IH. Qed.

(** A segment without the first byte of the separator. *)
Definition free_of (c : Z) (s : bytes) : Prop := Forall (fun b => b <> c) s.
#[export] Instance free_of_dec c s : Decision (free_of c s).
Proof. unfold free_of. apply _. Defined.

Lemma find_free c sep s rest : free_of c s -> find (c :: sep) (s ++ (c :: sep) ++ rest) = Some (length s).
Proof.
  induction 1 as [|b s Hb Hs IH].
  - cbn [app find]. pose proof (is_prefix_app (c :: sep) rest) as E. cbn [app] in E. by rewrite E.
  - cbn [app find is_prefix length]. destruct (Z.eqb_spec c b); [by subst|]. cbn [andb]. cbn [app] in IH. by rewrite IH.
Qed.

Lemma find_none c sep s : free_of c s -> find (c :: sep) s = None.
Proof.
  induction 1 as [|b s Hb Hs IH]; [done|]. cbn [find is_prefix]. destruct (Z.eqb_spec c b); [by subst|]. cbn [andb]. by rewrite IH.
Qed.

(** ** Splitting *)

Fixpoint join (sep : bytes) (l : list bytes) : bytes :=
  match l with
  | [] => []
  | [s] => s
  | s :: l => s ++ sep ++ join sep l
  end.

Lemma join_cons sep s l : l <> [] -> join sep (s :: l) = s ++ sep ++ join sep l.
Proof. by destruct l. Qed.

Lemma join_nonempty sep l s : join sep (l ++ [s]) = [] -> s = [] .
Proof.
  induction l as [|x l IH]; [done|]. cbn [app]. rewrite join_cons by by destruct l.
  intros E. apply app_eq_nil in E as [_ E]. apply app_eq_nil in E as [_ E]. by apply IH.
Qed.

Lemma split_loop_join fuel c sep l last : Forall (free_of c) (l ++ [last]) -> last <> [] -> (length l < fuel)%nat ->
  split_loop fuel (c :: sep) (join (c :: sep) (l ++ [last])) = Done (l ++ [last]).
Proof.
  intros Hl Hlast. revert fuel. induction l as [|s l IH]; intros fuel Hf; (destruct fuel as [|fuel]; [cbn in Hf; lia|]).
  - cbn [app join split_loop]. apply Forall_cons in Hl as [Hl _]. by rewrite find_none.
  - cbn [app] in Hl |- *. apply Forall_cons in Hl as [Hs Hl]. cbn [split_loop]. rewrite join_cons by by destruct l.
    rewrite find_free, take_app_length by done. rewrite app_assoc, <- length_app, drop_app_length.
    rewrite bool_decide_eq_false_2 by (intros E; by apply join_nonempty in E).
    rewrite IH by (done || cbn in Hf; lia). done.
Qed.

Lemma join_length sep l : l <> [] -> (length l <= S (length (join sep l)) \/ sep = [])%nat.
Proof.
  intros _. destruct sep as [|c sep]; [by right|]. left. induction l as [|s [|t l] IH]; cbn [length join] in *; [lia..|].
  rewrite !length_app. cbn [length]. lia.
Qed.

(** Splitting a list that was joined, when its last segment is not empty. *)
Lemma StringSplit_join c sep l last : Forall (free_of c) (l ++ [last]) -> last <> [] ->
  StringSplit (join (c :: sep) (l ++ [last])) (c :: sep) = Done (l ++ [last]).
Proof.
  intros Hl Hlast. unfold StringSplit. rewrite bool_decide_eq_false_2 by (intros E; by apply join_nonempty in E).
  apply split_loop_join; [done..|]. destruct (join_length (c :: sep) (l ++ [last]) ltac:(by destruct l)) as [H|H]; [|done].
  rewrite length_app in H. cbn [length] in H. lia.
Qed.

(** [find] tells whether a string holds another. *)
Lemma is_prefix_inv sub s : is_prefix sub s = true -> exists r, s = sub ++ r.
Proof.
  revert s. induction sub as [|c sub IH]; intros s; [by exists s|]. destruct s as [|b s]; [done|]. cbn [is_prefix].
  intros [E H]%andb_true_iff. apply Z.eqb_eq in E as ->. destruct (IH s H) as [r ->]. by exists r.
Qed.

Lemma find_occurs sub s : find sub s = None <-> ~ exists a b, s = a ++ sub ++ b.
Proof.
  induction s as [|x s IH]; cbn [find].
  - destruct (is_prefix sub []) eqn:E.
    + split; [done|]. intros H. destruct H. destruct (is_prefix_inv _ _ E) as [r Hr]. by exists [], r.
    + split; [|done]. intros _ (a & b & Hab). symmetry in Hab. apply app_eq_nil in Hab as [_ Hab].
      apply app_eq_nil in Hab as [-> _]. done.
  - destruct (is_prefix sub (x :: s)) eqn:E.
    + split; [done|]. intros H. destruct H. destruct (is_prefix_inv _ _ E) as [r Hr]. by exists [], r.
    + destruct (find sub s) as [n|].
      * split; [done|]. intros H. destruct IH as [_ IH]. discriminate IH. intros (a & b & ->). apply H. by exists (x :: a), b.
      * split; [|done]. intros _ ([|y a] & b & Hab); [cbn [app] in Hab; by rewrite Hab, is_prefix_app in E|].
        injection Hab as _ Hab. apply IH; [done|]. by exists a, b.
Qed.

(** The loop ends when the separator is not empty. *)
Lemma find_bound sub s n : find sub s = Some n -> (n + length sub <= length s)%nat.
Proof.
  revert n. induction s as [|b s IH]; intros n.
  - cbn [find]. destruct sub; [|done]. by intros [= <-].
  - cbn [find]. destruct (is_prefix sub (b :: s)) eqn:E.
    + intros [= <-]. clear IH. revert E. generalize (b :: s) as t. induction sub as [|c sub IHs]; intros t E; [cbn; lia|].
      destruct t as [|x t]; [done|]. cbn in E. apply andb_true_iff in E as [_ E]. apply IHs in E. cbn in *. lia.
    + destruct (find sub s) as [m|]; [|done]. cbn. intros [= <-]. specialize (IH m eq_refl). cbn. lia.
Qed.

Lemma split_ends fuel sep s : sep <> [] -> (length s < fuel)%nat -> exists l, split_loop fuel sep s = Done l.
Proof.
  intros Hsep. revert s. induction fuel as [|fuel IH]; intros s Hf; [lia|]. cbn [split_loop].
  destruct (find sep s) as [pos|] eqn:E; [|by eexists]. apply find_bound in E.
  case_bool_decide; [by eexists|]. destruct (IH (drop (pos + length sep) s)) as (l & ->); [|by eexists].
  rewrite length_drop. destruct sep; [done|]. cbn [length] in *. lia.
Qed.

Lemma StringSplit_ends s sep : sep <> [] -> exists l, StringSplit s sep = Done l.
Proof. intros. unfold StringSplit. case_bool_decide; [by eexists|]. apply split_ends; [done|lia]. Qed.

(** ** Numbers *)

Lemma digits_dec fuel n acc a s : 0 <= n < 10 ^ Z.of_nat fuel ->
  exists k, 0 <= k /\ digits a (dec_digits fuel n acc ++ s) = digits (a * 10 ^ k + n) (acc ++ s).
Proof.
  revert n acc a s. induction fuel as [|fuel IH]; intros n acc a s Hn.
  - exists 0. split; [done|]. cbn [dec_digits]. f_equal. change (10 ^ Z.of_nat 0) with 1 in Hn. lia.
  - cbn [dec_digits]. assert (forall b r, digits b ((48 + n mod 10 :: acc) ++ r) = digits (10 * b + n mod 10) (acc ++ r)) as E.
    { intros b r. cbn [app digits]. unfold is_digit. assert (0 <= n mod 10 < 10) by (apply Z.mod_pos_bound; lia).
      assert ((48 <=? 48 + n mod 10) && (48 + n mod 10 <=? 57) = true) as -> by (apply andb_true_intro; split; apply Z.leb_le; lia).
      f_equal. lia. }
    destruct (Z.ltb_spec n 10).
    + exists 1. split; [done|]. rewrite E. f_equal. div_lia.
    + rewrite Nat2Z.inj_succ, Z.pow_succ_r in Hn by lia.
      destruct (IH (n / 10) (48 + n mod 10 :: acc) a s) as (k & Hk & ->); [div_lia|].
      exists (k + 1). split; [lia|]. rewrite E. f_equal. rewrite Z.pow_add_r by lia. div_lia.
Qed.

Lemma dec_digits_spec fuel n acc : exists l, dec_digits fuel n acc = l ++ acc /\ Forall (fun c => 48 <= c <= 57) l.
Proof.
  revert n acc. induction fuel as [|fuel IH]; intros n acc; [by exists []|]. cbn [dec_digits].
  assert (48 <= 48 + n mod 10 <= 57) as Hd by (pose proof (Z.mod_pos_bound n 10); lia).
  destruct (n <? 10); [exists [48 + n mod 10]; split; [done|constructor; [done|constructor]]|]. destruct (IH (n / 10) (48 + n mod 10 :: acc)) as (l & -> & Hl).
  exists (l ++ [48 + n mod 10]). rewrite <- app_assoc. split; [done|]. apply Forall_app. split; [done|constructor; [done|constructor]].
Qed.

Lemma dec_chars n : 0 <= n -> Forall (fun c => 48 <= c <= 57) (dec n) /\ dec n <> [].
Proof.
  intros Hn. unfold dec. destruct (Z.ltb_spec n 0); [lia|]. destruct (dec_digits_spec 64 n []) as (l & E & Hl).
  rewrite app_nil_r in E. rewrite E. split; [done|]. rewrite <- E. change 64%nat with (S 63). generalize 63%nat as fuel. intros fuel. cbn [dec_digits].
  destruct (n <? 10); [done|]. destruct (dec_digits_spec fuel (n / 10) [48 + n mod 10]) as (k & -> & _). by destruct k.
Qed.

Lemma atoi_digits c s : 48 <= c <= 57 -> atoi (c :: s) = chk_int (digits 0 (c :: s)).
Proof.
  intros Hc. unfold atoi. cbn [skip_space]. unfold is_space.
  assert ((c =? 32) || ((9 <=? c) && (c <=? 13)) = false) as ->.
  { destruct (Z.eqb_spec c 32), (Z.leb_spec c 13); lia. }
  assert (c = 48 \/ c = 49 \/ c = 50 \/ c = 51 \/ c = 52 \/ c = 53 \/ c = 54 \/ c = 55 \/ c = 56 \/ c = 57) as D by lia.
  repeat (destruct D as [->|D]; [reflexivity|]). by subst.
Qed.

(** What follows a number does not go on with a digit. *)
Definition no_digit (s : bytes) : Prop := match s with c :: _ => is_digit c = false | [] => True end.

Lemma digits_of_dec n s : 0 <= n < 2 ^ 31 -> no_digit s -> digits 0 (dec n ++ s) = n.
Proof.
  intros Hn Hs. unfold dec. destruct (Z.ltb_spec n 0); [lia|].
  destruct (digits_dec 64 n [] 0 s) as (k & Hk & ->); [lia|]. cbn [app].
  destruct s as [|c s]; cbn [digits]; [lia|]. cbn in Hs. rewrite Hs. lia.
Qed.

(** A number printed is read back. *)
Lemma atoi_dec_app n s : 0 <= n < 2 ^ 31 -> no_digit s -> atoi (dec n ++ s) = Done n.
Proof.
  intros Hn Hs. destruct (dec_chars n ltac:(lia)) as [Hd Hne]. pose proof (digits_of_dec n s Hn Hs) as E.
  destruct (dec n) as [|c l]; [done|]. apply Forall_cons in Hd as [Hc _]. cbn [app] in *.
  rewrite atoi_digits, E by done. by rewrite chk_int_ok by lia.
Qed.

Lemma atoi_dec n : 0 <= n < 2 ^ 31 -> atoi (dec n) = Done n.
Proof. intros Hn. rewrite <- (app_nil_r (dec n)). by apply atoi_dec_app. Qed.
