(* ===== verification/DataBuffer.v ===== *)
(** * [DataBuffer]: the byte queue every component reads and writes through

    Models [src/utils/data_buffer.hpp] at the level of the allocated memory:
    the buffer, its offsets, the three ways [AppendData] makes room, and the
    [memcpy]s with their bounds.  The memory [new char[n]] returns is
    indeterminate, so it is a parameter (the class [Allocator]) and every
    theorem holds whatever it contains.

    The abstract view of a buffer is the queue of bytes [contents]; [ByteSink]
    is the promise the encoders rely on (appending really appends), and both
    this buffer and the plain list are instances. *)
From S2P Require Import Prelude ByteStream.

Definition EXTRA_LEN : Z := 10 * 1024.
Definition PRE_RESERVE_HEADER_SIZE : Z := 200.

(** [operator new[]]: the bytes found in fresh memory are unspecified. *)
Class Allocator := {
  new_char : Z -> bytes;
  new_char_length n : 0 <= n -> zlen (new_char n) = n;
  new_char_bytes n : bytes_ok (new_char n)
}.

Record DataBuffer := mkDataBuffer {
  sent_flag_ : bool;
  dst_ip_ : bytes;
  dst_port_ : Z;
  buffer_ : bytes;
  buffer_size_ : Z;   (* size_t *)
  data_len_ : Z;      (* int *)
  start_ : Z;         (* int *)
  end_ : Z            (* int *)
}.

Definition GetNewSize (new_len : Z) : outcome Z :=
  if new_len <=? 50 * 1024 then mret (50 * 1024)
  else if (50 * 1024 <? new_len) && (new_len <=? 100 * 1024) then mret (100 * 1024)
  else if (100 * 1024 <? new_len) && (new_len <=? 200 * 1024) then mret (200 * 1024)
  else if (200 * 1024 <? new_len) && (new_len <=? 500 * 1024) then mret (500 * 1024)
  else chk_int (new_len + 10 * 1024).

(** [memcpy(buf + dst, buf + src, n)] inside one allocation.  A partial overlap
    is undefined; copying a region onto itself is taken to change nothing. *)
Definition memcpy_within (buf : bytes) (dst src n : Z) : outcome bytes :=
  s ← read_range buf src n;
  if (dst =? src) || (dst + n <=? src) || (src + n <=? dst) then write_at buf dst s
  else Fault OverlappingCopy.

Section buffer.
Context `{Allocator}.

(** [DataBuffer(size_t data_size)] *)
Definition DataBuffer_new (data_size : Z) : outcome DataBuffer :=
  let mem := new_char (u64 (data_size + PRE_RESERVE_HEADER_SIZE)) in
  mem' ← write_at mem 0 (replicate (Z.to_nat data_size) 0);
  mret (mkDataBuffer false [] 0 mem' data_size 0 PRE_RESERVE_HEADER_SIZE PRE_RESERVE_HEADER_SIZE).

(** [DataBuffer(const DataBuffer& input)] *)
Definition DataBuffer_copy (input : DataBuffer) : outcome DataBuffer :=
  let mem := new_char (u64 (buffer_size_ input + PRE_RESERVE_HEADER_SIZE)) in
  src ← read_range (buffer_ input) 0 (data_len_ input);
  mem' ← write_at mem 0 src;
  mret (mkDataBuffer (sent_flag_ input) (dst_ip_ input) (dst_port_ input)
          mem' (buffer_size_ input) (data_len_ input) (start_ input) (end_ input)).

Definition set_storage (b : DataBuffer) (mem : bytes) (size dlen st en : Z) : DataBuffer :=
  mkDataBuffer (sent_flag_ b) (dst_ip_ b) (dst_port_ b) mem size dlen st en.

(** The reallocation of [AppendData]. *)
Definition append_realloc (b : DataBuffer) (input_data : bytes) : outcome (Z * DataBuffer) :=
  let input_len := zlen input_data in
  n1 ← chk_int (data_len_ b + i32 input_len);
  n2 ← chk_int (n1 + EXTRA_LEN);
  new_len ← GetNewSize n2;
  old ← read_range (buffer_ b) (start_ b) (data_len_ b);
  m1 ← write_at (new_char new_len) PRE_RESERVE_HEADER_SIZE old;
  m2 ← write_at m1 (PRE_RESERVE_HEADER_SIZE + data_len_ b) input_data;
  let dlen := i32 (data_len_ b + input_len) in
  en ← chk_int (PRE_RESERVE_HEADER_SIZE + dlen);
  mret (dlen, set_storage b m2 new_len dlen PRE_RESERVE_HEADER_SIZE en).

(** The move to the front of the allocation of [AppendData]. *)
Definition append_move (b : DataBuffer) (input_data : bytes) : outcome (Z * DataBuffer) :=
  let input_len := zlen input_data in
  m1 ← (if start_ b <=? data_len_ b
        then temp_p ← read_range (buffer_ b) (start_ b) (data_len_ b);
             write_at (buffer_ b) PRE_RESERVE_HEADER_SIZE temp_p
        else memcpy_within (buffer_ b) PRE_RESERVE_HEADER_SIZE (start_ b) (data_len_ b));
  m2 ← write_at m1 (PRE_RESERVE_HEADER_SIZE + data_len_ b) input_data;
  let dlen := i32 (data_len_ b + input_len) in
  en ← chk_int (PRE_RESERVE_HEADER_SIZE + dlen);
  mret (dlen, set_storage b m2 (buffer_size_ b) dlen PRE_RESERVE_HEADER_SIZE en).

Definition append_in_place (b : DataBuffer) (input_data : bytes) : outcome (Z * DataBuffer) :=
  m ← write_at (buffer_ b) (end_ b) input_data;
  dlen ← chk_int (data_len_ b + i32 (zlen input_data));
  en ← chk_int (end_ b + i32 (zlen input_data));
  mret (dlen, set_storage b m (buffer_size_ b) dlen (start_ b) en).

Definition AppendData (b : DataBuffer) (input_data : bytes) : outcome (Z * DataBuffer) :=
  let input_len := zlen input_data in
  if input_len =? 0 then mret (0, b)
  else if u64 (buffer_size_ b - PRE_RESERVE_HEADER_SIZE) <? u64 (u64 (end_ b) + input_len) then
    if u64 (buffer_size_ b - PRE_RESERVE_HEADER_SIZE) <=? u64 (data_len_ b + input_len)
    then append_realloc b input_data
    else append_move b input_data
  else append_in_place b input_data.

End buffer.

(** [ConsumeData]: [false] is a null result. *)
Definition ConsumeData (b : DataBuffer) (consume_len : Z) : bool * DataBuffer :=
  if data_len_ b <? consume_len then (false, b)
  else if (consume_len <? 0) && (start_ b + consume_len <? 0) then (false, b)
  else (true, set_storage b (buffer_ b) (buffer_size_ b)
                (data_len_ b - consume_len) (start_ b + consume_len) (end_ b)).

Definition Reset (b : DataBuffer) : DataBuffer :=
  set_storage b (buffer_ b) (buffer_size_ b) 0 PRE_RESERVE_HEADER_SIZE PRE_RESERVE_HEADER_SIZE.

(** [Data()]: the bytes from the data pointer to the end of the allocation. *)
Definition Data (b : DataBuffer) : bytes := drop (Z.to_nat (start_ b)) (buffer_ b).
Definition DataLen (b : DataBuffer) : Z := u64 (data_len_ b).
Definition Require (b : DataBuffer) (len : Z) : bool := i32 len <=? data_len_ b.

Definition GetSentFlag (b : DataBuffer) : bool := sent_flag_ b.
Definition SetSentFlag (b : DataBuffer) (flag : bool) : DataBuffer :=
  mkDataBuffer flag (dst_ip_ b) (dst_port_ b) (buffer_ b) (buffer_size_ b) (data_len_ b) (start_ b) (end_ b).
Definition GetDstIp (b : DataBuffer) : bytes := dst_ip_ b.
Definition SetDstIp (b : DataBuffer) (ip : bytes) : DataBuffer :=
  mkDataBuffer (sent_flag_ b) ip (dst_port_ b) (buffer_ b) (buffer_size_ b) (data_len_ b) (start_ b) (end_ b).
Definition GetDstPort (b : DataBuffer) : Z := dst_port_ b.
Definition SetDstPort (b : DataBuffer) (port : Z) : DataBuffer :=
  mkDataBuffer (sent_flag_ b) (dst_ip_ b) (u16 port) (buffer_ b) (buffer_size_ b) (data_len_ b) (start_ b) (end_ b).

(** ** The abstract queue and the invariant *)

(** The bytes queued in the buffer. *)
Definition contents (b : DataBuffer) : bytes := take (Z.to_nat (data_len_ b)) (Data b).

(** The offsets stay inside the allocation and inside [int]. *)
Record wf (b : DataBuffer) : Prop := {
  wf_size : PRE_RESERVE_HEADER_SIZE <= buffer_size_ b <= zlen (buffer_ b);
  wf_alloc : zlen (buffer_ b) < 2 ^ 31;
  wf_start : 0 <= start_ b;
  wf_len : 0 <= data_len_ b;
  wf_end : end_ b = start_ b + data_len_ b;
  wf_in : end_ b <= zlen (buffer_ b)
}.

(** Where the queue lies: its offset and the size of its allocation. *)
Record layout := mkLayout { place : Z; room : Z }.

Definition layout_of (b : DataBuffer) : layout := mkLayout (start_ b) (buffer_size_ b).

(** The allocation for [n] bytes of queue: 10 KiB more than that, in the first of
    four standard sizes that holds it, else 10 KiB more again. *)
Definition size_for (n : Z) : Z :=
  match List.find (fun c => n + 10240 <=? c) [51200; 102400; 204800; 512000] with
  | Some c => c
  | None => n + 20480
  end.

(** The [n] bytes at offset [at_] and the [n] bytes at offset 200 meet without
    being the same. *)
Definition meets_front (at_ n : Z) : Prop := at_ <> 200 /\ at_ < 200 + n /\ 200 < at_ + n.
#[export] Instance meets_front_dec at_ n : Decision (meets_front at_ n) := _.

(** Where appending [n] bytes to a queue of [len] puts the queue: it stays when
    the bytes fit behind it, goes to a new allocation when it would fill this one,
    and moves to the front (offset 200) otherwise; a queue longer than its offset
    moves through a temporary, the others cannot move when they meet their own
    place at the front ([None]). *)
Definition append_layout (len n : Z) (l : layout) : option layout :=
  if decide (n = 0) then Some l
  else if decide (place l + len + n + 200 <= room l) then Some l
  else if decide (room l <= len + n + 200) then Some (mkLayout 200 (size_for (len + n)))
  else if decide (len < place l /\ meets_front (place l) len) then None
  else Some (mkLayout 200 (room l)).

(** The [memcpy] of the move path does not meet its own source. *)
Definition no_overlap (b : DataBuffer) : Prop :=
  ~ (data_len_ b < start_ b /\ meets_front (start_ b) (data_len_ b)).

Lemma no_overlap_front b : start_ b = PRE_RESERVE_HEADER_SIZE -> no_overlap b.
Proof. intros Hst [_ [Hf _]]. by destruct Hf. Qed.

Lemma read_range_ok buf off n :
  0 <= off -> 0 <= n -> off + n <= zlen buf ->
  read_range buf off n = Done (take (Z.to_nat n) (drop (Z.to_nat off) buf)).
Proof. intros. unfold read_range. by rewrite bool_decide_eq_true_2. Qed.

(** Writing right after the [n] bytes queued at [st] appends to them. *)
Lemma write_at_extend buf st n src :
  0 <= st -> 0 <= n -> st + n + zlen src <= zlen buf ->
  exists buf', write_at buf (st + n) src = Done buf' /\ zlen buf' = zlen buf /\
    take (Z.to_nat (n + zlen src)) (drop (Z.to_nat st) buf') =
    take (Z.to_nat n) (drop (Z.to_nat st) buf) ++ src.
Proof.
  intros Hst Hn Hin. unfold write_at. pose proof (zlen_nonneg src).
  rewrite bool_decide_eq_true_2 by lia. eexists; split; [done|]. unfold zlen in *. split.
  - rewrite !length_app, length_take, length_drop. lia.
  - rewrite drop_app_le by (rewrite length_take; lia).
    replace (Z.to_nat (st + n)) with (Z.to_nat st + Z.to_nat n)%nat by lia.
    rewrite <- take_drop_commute, app_assoc. apply take_app_length'.
    rewrite length_app, length_take, length_drop. lia.
Qed.

Lemma contents_length b : wf b -> zlen (contents b) = data_len_ b.
Proof.
  intros []. unfold contents, Data. apply zlen_take. unfold zlen in *.
  rewrite length_drop. lia.
Qed.

Lemma GetNewSize_bounds n :
  0 <= n < 2 ^ 31 - 10240 ->
  exists m, GetNewSize n = Done m /\ m = size_for (n - 10240) /\
    n <= m <= Z.max (n + 10240) (500 * 1024) /\ 51200 <= m.
Proof.
  intros Hn. unfold GetNewSize, size_for. cbn [List.find]. rewrite Z.sub_add.
  repeat match goal with |- context [if ?c then _ else _] => destruct c eqn:? end; try lia.
  all: try (eexists; split; [reflexivity|]; lia).
  exists (n + 10 * 1024). rewrite chk_int_ok by lia. split; [done|]. lia.
Qed.

(** Largest number of queued bytes the growth arithmetic can handle. *)
Definition max_queue : Z := 2 ^ 31 - 30000.

Section buffer_proofs.
Context `{Allocator}.

Definition appended_at (l : layout) (b : DataBuffer) (d : bytes) (r : outcome (Z * DataBuffer)) : Prop :=
  exists b', r = Done (zlen (contents b) + zlen d, b') /\ wf b' /\
    contents b' = contents b ++ d /\ layout_of b' = l.

Definition appended (b : DataBuffer) (d : bytes) (r : outcome (Z * DataBuffer)) : Prop :=
  exists b', r = Done (zlen (contents b) + zlen d, b') /\ wf b' /\
    contents b' = contents b ++ d /\
    (start_ b = PRE_RESERVE_HEADER_SIZE -> start_ b' = PRE_RESERVE_HEADER_SIZE).

(** The shape shared by the three paths: the returned pair, the invariant of the
    new offsets, the queue. *)
Ltac intro_appended Hwf :=
  unfold appended_at; rewrite (contents_length _ Hwf); eexists; split; [reflexivity|];
  split; [constructor; cbn -[Z.pow]; unfold PRE_RESERVE_HEADER_SIZE in *; lia|];
  split; [|done].

(** Reduce the bounded [int] arithmetic of the paths. *)
Ltac run_int :=
  unfold PRE_RESERVE_HEADER_SIZE, EXTRA_LEN, max_queue in *;
  repeat progress (simpl_m; rewrite ?i32_small by lia; rewrite ?chk_int_ok by lia).

(** Both growing paths end by storing the new bytes after the old ones, which
    sit at the reserved header offset. *)
Lemma relocated b d mem size :
  wf b -> data_len_ b + zlen d <= max_queue ->
  200 <= size <= zlen mem -> zlen mem < 2 ^ 31 -> 200 + data_len_ b + zlen d <= zlen mem ->
  take (Z.to_nat (data_len_ b)) (drop (Z.to_nat 200) mem) = contents b ->
  exists m2, write_at mem (200 + data_len_ b) d = Done m2 /\ 
    appended_at (mkLayout 200 size) b d (Done (data_len_ b + zlen d,
    set_storage b m2 size (data_len_ b + zlen d) 200 (200 + (data_len_ b + zlen d)))).
Proof.
  intros Hwf Hmax Hsz Hlt Hroom Hold. pose proof (wf_len b Hwf). pose proof (zlen_nonneg d).
  destruct (write_at_extend mem 200 (data_len_ b) d) as (m & Hm & Hlen & Hc); [lia..|].
  exists m. split; [done|]. intro_appended Hwf.
  unfold contents at 1, Data. cbn -[Z.to_nat Z.pow]. by rewrite Hc, Hold.
Qed.

(** Moving the queued bytes to the reserved header offset of some memory. *)
Lemma moved b mem :
  wf b -> 200 + data_len_ b <= zlen mem ->
  exists m1, write_at mem 200 (contents b) = Done m1 /\ zlen m1 = zlen mem /\
    take (Z.to_nat (data_len_ b)) (drop (Z.to_nat 200) m1) = contents b.
Proof.
  intros Hwf Hroom. pose proof (contents_length b Hwf) as Hcl.
  pose proof (wf_len b Hwf).
  destruct (write_at_extend mem 200 0 (contents b)) as (m1 & Hw & Hlen & Hc); [lia..|].
  exists m1. rewrite Z.add_0_r in Hw. rewrite Z.add_0_l, Hcl in Hc. by rewrite Hc.
Qed.

Lemma append_in_place_spec b d :
  wf b -> data_len_ b + zlen d <= max_queue -> end_ b + zlen d <= buffer_size_ b ->
  appended_at (layout_of b) b d (append_in_place b d).
Proof.
  intros Hwf Hmax Hroom. pose proof Hwf as [Hs Ha Hst Hl He Hin]. pose proof (zlen_nonneg d).
  unfold append_in_place. rewrite He.
  destruct (write_at_extend (buffer_ b) (start_ b) (data_len_ b) d) as (m & -> & Hlen & Hc); [lia..|].
  run_int. intro_appended Hwf. unfold contents at 1, Data. cbn -[Z.to_nat Z.pow]. by rewrite Hc.
Qed.

Lemma append_realloc_spec b d :
  wf b -> data_len_ b + zlen d <= max_queue ->
  appended_at (mkLayout 200 (size_for (data_len_ b + zlen d))) b d (append_realloc b d).
Proof.
  intros Hwf Hmax. pose proof Hwf as [Hs Ha Hst Hl He Hin]. pose proof (zlen_nonneg d).
  unfold append_realloc. run_int.
  destruct (GetNewSize_bounds (data_len_ b + zlen d + 10 * 1024)) as (m & -> & Hsize & Hm & Hm'); [lia|].
  replace (_ - 10240) with (data_len_ b + zlen d) in Hsize by lia. rewrite <- Hsize. simpl_m. rewrite read_range_ok by lia. simpl_m.
  pose proof (new_char_length m ltac:(lia)) as Hfresh.
  destruct (moved b (new_char m)) as (m1 & Hw1 & Hlen1 & Hc1); [done|lia|].
  unfold contents, Data in Hw1. rewrite Hw1. simpl_m.
  destruct (relocated b d m1 m) as (m2 & Hw2 & Happ); [done|unfold max_queue; lia..|done|].
  rewrite Hw2. run_int. exact Happ.
Qed.

Lemma append_move_spec b d :
  wf b -> no_overlap b -> data_len_ b + zlen d <= buffer_size_ b - 200 ->
  data_len_ b + zlen d <= max_queue ->
  appended_at (mkLayout 200 (buffer_size_ b)) b d (append_move b d).
Proof.
  intros Hwf Hno Hroom Hmax. pose proof Hwf as [Hs Ha Hst Hl He Hin]. pose proof (zlen_nonneg d).
  destruct (moved b (buffer_ b)) as (m1 & Hw1 & Hlen1 & Hc1); [done|run_int; lia|].
  unfold contents, Data in Hw1. unfold append_move, memcpy_within, no_overlap, meets_front in *. run_int.
  rewrite !read_range_ok by lia. simpl_m.
  replace (if start_ b <=? data_len_ b then _ else _) with (@Done bytes m1).
  - simpl_m. destruct (relocated b d m1 (buffer_size_ b)) as (m2 & Hw2 & Happ);
      [done|unfold max_queue; lia..|done|].
    rewrite Hw2. run_int. exact Happ.
  - rewrite Hw1. destruct (start_ b <=? data_len_ b) eqn:?; [done|].
    destruct ((200 =? start_ b) || (200 + data_len_ b <=? start_ b) ||
              (start_ b + data_len_ b <=? 200)) eqn:E; [done|]. lia.
Qed.

(** [AppendData] exactly: the bytes are queued and the queue lies where
    [append_layout] says; where that has no place, the move is the undefined
    [memcpy]. *)
Lemma AppendData_exact b d :
  wf b -> data_len_ b + zlen d <= max_queue -> d <> [] ->
  match append_layout (data_len_ b) (zlen d) (layout_of b) with
  | Some l => appended_at l b d (AppendData b d)
  | None => ~ no_overlap b /\ AppendData b d = Fault OverlappingCopy
  end.
Proof.
  intros Hwf Hmax Hd. pose proof Hwf as [Hs Ha Hst Hl He Hin]. pose proof (zlen_nonneg d).
  assert (zlen d <> 0) by (destruct d; [done|]; unfold zlen; simpl; lia).
  change (layout_of b) with (mkLayout (start_ b) (buffer_size_ b)).
  unfold AppendData, append_layout. cbn [place room].
  destruct (Z.eqb_spec (zlen d) 0) as [|_]; [done|]. rewrite decide_False by done.
  unfold max_queue, PRE_RESERVE_HEADER_SIZE in *.
  rewrite !(u64_small (_ - _)), !(u64_small (end_ b)), !u64_small by lia.
  destruct (Z.ltb_spec (buffer_size_ b - 200) (end_ b + zlen d)).
  2:{ rewrite decide_True by lia. apply append_in_place_spec; unfold max_queue; [done|lia..]. }
  rewrite decide_False by lia. destruct (Z.leb_spec (buffer_size_ b - 200) (data_len_ b + zlen d)).
  { rewrite decide_True by lia. apply append_realloc_spec; [done|unfold max_queue; lia]. }
  rewrite decide_False by lia. case_decide as Hno.
  2:{ apply append_move_spec; unfold max_queue; [done|done|lia..]. }
  split; [unfold no_overlap; tauto|]. unfold append_move, memcpy_within, PRE_RESERVE_HEADER_SIZE.
  destruct Hno as [Hlt (Hne & Hlo & Hhi)]. destruct (Z.leb_spec (start_ b) (data_len_ b)); [lia|].
  rewrite read_range_ok by lia. simpl_m.
  destruct (Z.eqb_spec 200 (start_ b)), (Z.leb_spec (200 + data_len_ b) (start_ b)),
    (Z.leb_spec (start_ b + data_len_ b) 200); try lia. done.
Qed.

Lemma append_layout_front len n l l' :
  append_layout len n l = Some l' -> place l = 200 -> place l' = 200.
Proof. unfold append_layout. repeat case_decide; intros [= <-]; done. Qed.

(** [AppendData] on every path: the bytes are queued, unless the move to the
    front is a [memcpy] over its own source. *)
Lemma AppendData_cases b d :
  wf b -> data_len_ b + zlen d <= max_queue ->
  appended b d (AppendData b d) \/
  (~ no_overlap b /\ AppendData b d = Fault OverlappingCopy) \/ d = [].
Proof.
  intros Hwf Hmax. destruct (decide (d = [])) as [|Hd]; [by right; right|].
  pose proof (AppendData_exact b d Hwf Hmax Hd) as Hx.
  destruct (append_layout _ _ _) as [l|] eqn:El; [left|by right; left].
  destruct Hx as (b' & Hr & Hwf' & Hc & Hl). exists b'. split_and!; [done..|]. intros Hst.
  apply append_layout_front in El; [|done]. by subst l.
Qed.

Lemma AppendData_nil b : AppendData b [] = Done (0, b).
Proof. done. Qed.
End buffer_proofs.

(** ** Consuming, resetting, constructing *)

Lemma contents_set_storage b dlen st en :
  contents (set_storage b (buffer_ b) (buffer_size_ b) dlen st en) =
  take (Z.to_nat dlen) (drop (Z.to_nat st) (buffer_ b)).
Proof. done. Qed.

Lemma ConsumeData_spec b n :
  wf b -> 0 <= n <= zlen (contents b) ->
  exists b', ConsumeData b n = (true, b') /\ wf b' /\ contents b' = drop (Z.to_nat n) (contents b).
Proof.
  intros Hwf Hn. rewrite contents_length in Hn by done.
  pose proof Hwf as [Hs Ha Hst Hl He Hin]. unfold ConsumeData.
  destruct (Z.ltb_spec (data_len_ b) n), (Z.ltb_spec n 0); [lia..|]. cbn [andb].
  eexists; split; [reflexivity|]. split; [constructor; cbn -[Z.pow]; lia|].
  rewrite contents_set_storage. unfold contents, Data.
  rewrite skipn_firstn_comm, drop_drop. f_equal; [lia|]. f_equal. lia.
Qed.

Lemma Reset_spec b : wf b -> wf (Reset b) /\ contents (Reset b) = [].
Proof.
  intros [Hs Ha Hst Hl He Hin]. unfold PRE_RESERVE_HEADER_SIZE in *.
  split; [constructor; cbn -[Z.pow]; unfold PRE_RESERVE_HEADER_SIZE; lia|]. done.
Qed.

Lemma Require_spec b n : wf b -> 0 <= n < 2 ^ 31 -> Require b n = (n <=? zlen (contents b)).
Proof. intros Hwf Hn. unfold Require. by rewrite contents_length, i32_small by (done || lia). Qed.

Lemma write_at_length buf off src buf' : write_at buf off src = Done buf' -> zlen buf' = zlen buf.
Proof.
  unfold write_at, zlen. case_bool_decide as Hb; [|done]. intros [= <-].
  rewrite !length_app, length_take, length_drop. lia.
Qed.

Section constructors.
Context `{Allocator}.

Lemma DataBuffer_new_spec n :
  200 <= n < 2 ^ 31 - 200 ->
  exists b, DataBuffer_new n = Done b /\ wf b /\ contents b = [] /\ start_ b = PRE_RESERVE_HEADER_SIZE.
Proof.
  intros Hn. unfold DataBuffer_new, PRE_RESERVE_HEADER_SIZE. rewrite u64_small by lia.
  pose proof (new_char_length (n + 200) ltac:(lia)) as Hf.
  destruct (write_at_extend (new_char (n + 200)) 0 0 (replicate (Z.to_nat n) 0)) as (m & Hm & Hlen & _).
  1-3: unfold zlen in *; rewrite ?length_replicate; lia.
  rewrite Z.add_0_l in Hm. rewrite Hm. simpl_m. eexists; split; [reflexivity|].
  repeat split; cbn -[Z.pow]; unfold PRE_RESERVE_HEADER_SIZE; try lia.
Qed.

(** Copying a [DataBuffer] loses what it holds: the copy constructor takes
    [data_len_] bytes from the beginning of the old allocation, not from [start_],
    so the copy of a buffer of at most 200 bytes that was only appended to shows
    [data_len_] bytes of its own fresh, uninitialised memory. *)
Theorem DataBuffer_copy_drops_data b :
  wf b -> start_ b = PRE_RESERVE_HEADER_SIZE -> data_len_ b <= PRE_RESERVE_HEADER_SIZE ->
  exists b', DataBuffer_copy b = Done b' /\
    contents b' = take (Z.to_nat (data_len_ b))
                    (drop (Z.to_nat PRE_RESERVE_HEADER_SIZE)
                       (new_char (buffer_size_ b + PRE_RESERVE_HEADER_SIZE))).
Proof.
  intros Hwf Hst Hdl. pose proof Hwf as [Hs Ha _ Hl He Hin]. rewrite He, Hst in Hin.
  unfold DataBuffer_copy, PRE_RESERVE_HEADER_SIZE in *. rewrite u64_small by lia.
  pose proof (new_char_length (buffer_size_ b + 200) ltac:(lia)) as Hf.
  rewrite read_range_ok by lia. simpl_m.
  set (src := take _ _). assert (zlen src = data_len_ b) as Hsrc.
  { unfold src. rewrite drop_0. apply zlen_take. lia. }
  unfold write_at. rewrite bool_decide_eq_true_2 by lia. simpl_m. eexists; split; [reflexivity|].
  unfold contents, Data. cbn [data_len_ start_ buffer_]. rewrite Hst, Hsrc, Z.add_0_l, take_0, app_nil_l.
  rewrite drop_app_ge by (unfold zlen in Hsrc; lia). rewrite drop_drop. f_equal. f_equal.
  unfold zlen in Hsrc. lia.
Qed.
End constructors.

(** ** The contract the encoders rely on *)

(** A sink of bytes: appending [d] succeeds when there is room for it and adds
    exactly [d] at the end. *)
Class ByteSink (B : Type) := {
  sink_bytes : B -> bytes;
  sink_room : B -> Z -> Prop;
  sink_append : B -> bytes -> outcome B;
  sink_append_spec b d k :
    sink_room b (zlen d + k) -> 0 <= k ->
    exists b', sink_append b d = Done b' /\ sink_bytes b' = sink_bytes b ++ d /\ sink_room b' k
}.

(** The plain list: always room. *)
#[export, refine] Instance list_sink : ByteSink bytes := {|
  sink_bytes b := b;
  sink_room _ _ := True;
  sink_append b d := Done (b ++ d)
|}.
Proof. intros b d k _ _. by exists (b ++ d). Defined.

(** A [DataBuffer] that has only been appended to. *)
#[export, refine] Instance DataBuffer_sink `{Allocator} : ByteSink DataBuffer := {|
  sink_bytes := contents;
  sink_room b n := wf b /\ start_ b = PRE_RESERVE_HEADER_SIZE /\ zlen (contents b) + n <= max_queue;
  sink_append b d := '(_, b') ← AppendData b d; mret b'
|}.
Proof.
  intros b d k (Hwf & Hst & Hmax) Hk. destruct d as [|x d].
  - exists b. rewrite app_nil_r. cbn in Hmax |- *. auto.
  - rewrite contents_length in Hmax by done.
    destruct (AppendData_cases b (x :: d)) as [(b' & -> & Hwf' & Hc & Hst')|[[Hno _]|]];
      [done|lia| |by destruct Hno; apply no_overlap_front|done]. rewrite <- contents_length in Hmax by done.
    exists b'. simpl_m. rewrite Hc, zlen_app. split_and!; try done; [auto|lia].
Defined.

(** The zero-filling allocator, for the concrete runs. *)
Lemma zeros_ok n : bytes_ok (replicate n 0).
Proof. by apply Forall_replicate. Qed.
Definition zero_alloc : Allocator :=
  {| new_char n := replicate (Z.to_nat n) 0; new_char_length n Hn := zlen_replicate n 0 Hn;
     new_char_bytes n := zeros_ok (Z.to_nat n) |}.

(** ** Runs of queue operations *)

Inductive queue_op :=
  | OpAppend (d : bytes)
  | OpConsume (n : Z)
  | OpReset.

(** The reference queue. *)
Definition queue_step (q : bytes) (op : queue_op) : bytes :=
  match op with
  | OpAppend d => q ++ d
  | OpConsume n => if n <=? zlen q then drop (Z.to_nat n) q else q
  | OpReset => []
  end.

(** No queue grows past what the growth arithmetic supports, and nobody
    consumes a negative count (that would re-expose consumed bytes). *)
Fixpoint queue_fits (q : bytes) (ops : list queue_op) : Prop :=
  match ops with
  | [] => True
  | op :: ops' =>
      match op with
      | OpAppend d => zlen (q ++ d) <= max_queue
      | OpConsume n => 0 <= n
      | OpReset => True
      end /\ queue_fits (queue_step q op) ops'
  end.

Section runs.
Context `{Allocator}.

Definition buffer_step (b : DataBuffer) (op : queue_op) : outcome DataBuffer :=
  match op with
  | OpAppend d => '(_, b') ← AppendData b d; mret b'
  | OpConsume n => mret (ConsumeData b n).2
  | OpReset => mret (Reset b)
  end.

Fixpoint buffer_run (b : DataBuffer) (ops : list queue_op) : outcome DataBuffer :=
  match ops with
  | [] => mret b
  | op :: ops' => b' ← buffer_step b op; buffer_run b' ops'
  end.

(** Where the queue lies after an operation, and after a run; [None] when the
    queue could not be moved. *)
Definition step_layout (q : bytes) (l : layout) (op : queue_op) : option layout :=
  match op with
  | OpAppend d => append_layout (zlen q) (zlen d) l
  | OpConsume n => Some (if n <=? zlen q then mkLayout (place l + n) (room l) else l)
  | OpReset => Some (mkLayout 200 (room l))
  end.

Fixpoint run_layout (q : bytes) (l : layout) (ops : list queue_op) : option layout :=
  match ops with
  | [] => Some l
  | op :: ops' =>
      match step_layout q l op with
      | Some l' => run_layout (queue_step q op) l' ops'
      | None => None
      end
  end.

Lemma buffer_step_exact b op :
  wf b -> queue_fits (contents b) [op] ->
  match step_layout (contents b) (layout_of b) op with
  | Some l => exists b', buffer_step b op = Done b' /\ wf b' /\ contents b' = queue_step (contents b) op /\
      layout_of b' = l
  | None => buffer_step b op = Fault OverlappingCopy
  end.
Proof.
  intros Hwf [Hf _]. destruct op as [d|n|]; cbn [buffer_step queue_step step_layout].
  - rewrite zlen_app in Hf. rewrite contents_length in Hf |- * by done.
    destruct (decide (d = [])) as [-> |Hd].
    { exists b. by rewrite AppendData_nil, app_nil_r. }
    pose proof (AppendData_exact b d Hwf Hf Hd) as Hx.
    destruct (append_layout _ _ _) as [l|]; [|by destruct Hx as [_ ->]].
    destruct Hx as (b' & -> & ?). by exists b'.
  - destruct (Z.leb_spec n (zlen (contents b))) as [Hn|Hn].
    + destruct (ConsumeData_spec b n) as (b' & Hb & ? & ?); [done|lia|]. exists b'. rewrite Hb.
      split_and!; [done..|]. rewrite contents_length in Hn by done. revert Hb. unfold ConsumeData.
      destruct (Z.ltb_spec (data_len_ b) n), (Z.ltb_spec n 0); [lia..|]. by intros [= <-].
    + rewrite contents_length in Hn by done. exists b. unfold ConsumeData.
      by destruct (Z.ltb_spec (data_len_ b) n); [|lia].
  - destruct (Reset_spec b Hwf). by exists (Reset b).
Qed.

(** C20. A [DataBuffer] is a byte queue, except where the undefined [memcpy] says
    otherwise: whatever sequence of [AppendData], [ConsumeData] and [Reset] a
    client runs, [run_layout] tells from the lengths alone whether some
    [AppendData] moves the queue onto a place at the front that it meets.  If none
    does, the run ends with the bytes of the reference queue, at the offset and in
    the allocation [run_layout] gives, across in-place appends, moves to the front
    and reallocations, with no access outside the allocation and no [int] overflow.
    If one does, and only then, the run reaches the overlapping [memcpy] of
    [AppendData].  (At most [max_queue] bytes are queued, and no count consumed is
    negative.) *)
Theorem DataBuffer_refines_queue b ops :
  wf b -> queue_fits (contents b) ops ->
  match run_layout (contents b) (layout_of b) ops with
  | Some l => exists b', buffer_run b ops = Done b' /\ wf b' /\
      contents b' = fold_left queue_step ops (contents b) /\ layout_of b' = l
  | None => buffer_run b ops = Fault OverlappingCopy
  end.
Proof.
  revert b. induction ops as [|op ops IH]; intros b Hwf Hf; [by exists b|].
  destruct Hf as [Hop Hf]. cbn [buffer_run fold_left run_layout].
  pose proof (buffer_step_exact b op Hwf (conj Hop I)) as Hx.
  destruct (step_layout _ _ _) as [l|]; [|by rewrite Hx].
  destruct Hx as (b' & -> & Hwf' & Hc & <-). simpl_m. rewrite <- Hc in Hf |- *. by apply IH.
Qed.
End runs.

(** A default buffer: one append, a partial consume, then an append that has to
    move the 550 remaining bytes from offset 650 to offset 200. *)
Definition overlap_ops : list queue_op :=
  [OpAppend (replicate (Z.to_nat 1000) 7); OpConsume 450; OpAppend (replicate (Z.to_nat 9000) 8)].

Definition run_from_new (A : Allocator) (n : Z) (ops : list queue_op) : outcome DataBuffer :=
  b ← DataBuffer_new n; buffer_run b ops.

(** The test of [AppendData] that is to avoid an overlapping [memcpy]
    ([data_len_ >= start_]) lets one through: with 550 bytes queued at offset
    650 the regions [[200, 750)] and [[650, 1200)] of the copy overlap. *)
Theorem AppendData_overlapping_memcpy :
  run_from_new zero_alloc EXTRA_LEN overlap_ops = Fault OverlappingCopy.
Proof. vm_compute. reflexivity. Qed.

(** A buffer of 1000 bytes: 200 bytes at offset 500 moved to the front, 310 bytes
    at offset 240 moved through a temporary, 610 bytes moved to a new allocation. *)
Definition small_ops : list queue_op :=
  [OpAppend (replicate 500 1); OpConsume 300; OpAppend (replicate 150 2); OpConsume 40;
   OpAppend (replicate 300 3); OpAppend (replicate 400 4); OpConsume 1007].
Definition small_buffer : DataBuffer :=
  mkDataBuffer false [] 0 (replicate (Z.to_nat 1000) 0) 1000 0 200 200.

Lemma DataBuffer_refines_queue_witness :
  (wf small_buffer /\ queue_fits (contents small_buffer) small_ops /\
   run_layout (contents small_buffer) (layout_of small_buffer) small_ops = Some (mkLayout 1207 51200) /\
   exists b', buffer_run (H := zero_alloc) small_buffer small_ops = Done b' /\ wf b' /\
      contents b' = [4; 4; 4] /\ layout_of b' = mkLayout 1207 51200) /\
  run_layout [] (mkLayout 200 10240) overlap_ops = None.
Proof.
  assert (wf small_buffer) as Hwf by (split; vm_compute; intuition congruence).
  assert (queue_fits (contents small_buffer) small_ops) as Hf by (vm_compute; intuition congruence).
  split; [|vm_compute; reflexivity].
  split; [exact Hwf|]. split; [exact Hf|]. split; [vm_compute; reflexivity|].
  exact (DataBuffer_refines_queue (H := zero_alloc) small_buffer small_ops Hwf Hf).
Defined.

(** The bytes 1, 2, 3 queued; the copy shows what the allocator left there. *)
Definition three_bytes : DataBuffer :=
  mkDataBuffer false [] 0 (replicate (Z.to_nat 200) 0 ++ [1; 2; 3] ++ replicate (Z.to_nat 297) 0)
    300 3 200 203.

Lemma DataBuffer_copy_drops_data_witness :
  contents three_bytes = [1; 2; 3] /\
  exists b', DataBuffer_copy (H := zero_alloc) three_bytes = Done b' /\ contents b' = [0; 0; 0].
Proof.
  split; [vm_compute; reflexivity|].
  destruct (DataBuffer_copy_drops_data (H := zero_alloc) three_bytes) as (b' & Hb & Hc).
  - split; vm_compute; intuition congruence.
  - vm_compute. reflexivity.
  - vm_compute. congruence.
  - exists b'. split; [exact Hb|]. rewrite Hc. vm_compute. reflexivity.
Defined.

(** ** The queue as a byte list

    The components above the buffer see only its queue: where a component keeps
    a [DataBuffer] that it only appends to, consumes from and tests, its state
    holds the queued bytes.  That is what the buffer does ([queues_append],
    [queues_consume], [queues_require]) until an append has to move a queue onto
    itself: there the source runs an undefined [memcpy] and the byte list is what it
    means to do.  The lengths of a run say whether it comes to that ([run_layout],
    [DataBuffer_refines_queue]). *)

(** [DataBuffer::Require] and [ConsumeData] on the queued bytes. *)
Definition require (buffer : bytes) (len : Z) : bool := len <=? zlen buffer.
Definition consume (buffer : bytes) (len : Z) : bytes := drop (Z.to_nat len) buffer.

(** A buffer that holds these bytes. *)
Definition queues (b : DataBuffer) (q : bytes) : Prop := wf b /\ contents b = q.

Lemma queues_append `{Allocator} b q d : queues b q -> no_overlap b -> zlen (q ++ d) <= max_queue -> d <> [] ->
  exists n b', AppendData b d = Done (n, b') /\ queues b' (q ++ d).
Proof.
  intros [Hwf <-] Hno Hmax Hd. rewrite zlen_app, contents_length in Hmax by done.
  destruct (AppendData_cases b d Hwf Hmax) as [(b' & Hb & Hwf' & Hc & _)|[[Hx _]|?]]; [by eexists _, b'|done|done].
Qed.

Lemma queues_consume b q n : queues b q -> 0 <= n <= zlen q -> queues (ConsumeData b n).2 (consume q n).
Proof. intros [Hwf <-] Hn. destruct (ConsumeData_spec b n Hwf Hn) as (b' & -> & ? & ?). done. Qed.

Lemma queues_require b q n : queues b q -> - 2 ^ 31 <= n < 2 ^ 31 -> Require b n = require q n.
Proof. intros [Hwf <-] Hn. unfold Require, require. by rewrite contents_length, i32_small by (done || lia). Qed.

Lemma require_true p n : n <= zlen p -> require p n = true.
Proof. unfold require. lia. Qed.

Lemma require_app p q n : n <= zlen p -> require (p ++ q) n = true.
Proof. intros. unfold require. rewrite zlen_app. pose proof (zlen_nonneg q). lia. Qed.

Lemma consume_app p q n : n = zlen p -> consume (p ++ q) n = q.
Proof. intros ->. unfold consume, zlen. rewrite Nat2Z.id. apply drop_app_length. Qed.

Lemma read_range_app p q n : n = zlen p -> read_range (p ++ q) 0 n = Done p.
Proof.
  intros ->. unfold read_range. rewrite zlen_app. pose proof (zlen_nonneg p). pose proof (zlen_nonneg q).
  rewrite bool_decide_eq_true_2 by lia. by rewrite drop_0, take_zlen_app.
Qed.

Lemma require_extend p d n : require p n = true -> require (p ++ d) n = true.
Proof. unfold require. rewrite zlen_app. pose proof (zlen_nonneg d). lia. Qed.

Lemma consume_extend p d n : require p n = true -> consume (p ++ d) n = consume p n ++ d.
Proof. unfold require, consume, zlen. intros. apply drop_app_le. lia. Qed.

Lemma require_drop p x n k : require p n = true -> Z.of_nat k <= n -> drop k (p ++ x) = drop k p ++ x.
Proof. unfold require, zlen. intros. apply drop_app_le. lia. Qed.

Lemma require_le p n m : m <= n -> require p n = true -> require p m = true.
Proof. unfold require. lia. Qed.

Lemma require_length p n : 0 <= n -> require p n = bool_decide (Z.to_nat n <= length p)%nat.
Proof. intros. unfold require, zlen. case_bool_decide; lia. Qed.

Lemma read_range_extend buf d n p : read_range buf 0 n = Done p ->
  read_range (buf ++ d) 0 n = Done p /\ consume (buf ++ d) n = consume buf n ++ d.
Proof.
  unfold read_range, consume, zlen. case_bool_decide; [|done]. intros [= <-]. rewrite length_app, !drop_0.
  rewrite bool_decide_eq_true_2 by lia. by rewrite take_app_le, drop_app_le by lia.
Qed.

(** What lies behind the data pointer starts with the queue. *)
Lemma Data_contents b : wf b -> exists rest, Data b = contents b ++ rest.
Proof. intros Hwf. exists (drop (Z.to_nat (data_len_ b)) (Data b)). unfold contents. by rewrite take_drop. Qed.

Lemma DataLen_contents b : wf b -> DataLen b = zlen (contents b).
Proof.
  intros Hwf. rewrite contents_length by done. destruct Hwf. unfold DataLen. apply u64_small. lia.
Qed.

Lemma read_contents b : wf b -> read_range (Data b) 0 (DataLen b) = Done (contents b).
Proof.
  intros Hwf. rewrite DataLen_contents by done. destruct (Data_contents b Hwf) as [rest ->].
  by apply read_range_app.
Qed.

Lemma contents_bound b : wf b -> 0 <= zlen (contents b) < 2 ^ 31.
Proof. intros Hwf. rewrite contents_length by done. destruct Hwf. lia. Qed.
