(* ===== verification/Amf0.v ===== *)
(** * [AMF_Encoder] and [AMF_Decoder]: the AMF0 values RTMP commands are made of

    Models [src/format/amf/amf0.hpp] (all but the log formatter [DumpAmf]).
    An [AMF_ITERM] is the record of the source; [number_] is the 64-bit pattern
    of the [double]; [amf_obj_], a [std::map], is the list of its pairs in key
    order.  The encoder writes to any [ByteSink]; the decoder reads the bytes
    from its [data] pointer on and threads [data] and [left_len], both passed by
    reference in the source, so the values they have on an error return are
    modelled too.  The three decoding functions call each other: they run on
    fuel, and [Decode_fuel_enough] proves that fuel linear in the size of the
    memory behind the pointer is always enough. *)
From Stdlib Require Import Sorted.
From S2P Require Import Prelude ByteStream DataBuffer.

Inductive AMF_DATA_TYPE :=
  | AMF_DATA_TYPE_UNKNOWN | AMF_DATA_TYPE_NUMBER | AMF_DATA_TYPE_BOOL | AMF_DATA_TYPE_STRING
  | AMF_DATA_TYPE_OBJECT | AMF_DATA_TYPE_NULL | AMF_DATA_TYPE_UNDEFINED | AMF_DATA_TYPE_REFERENCE
  | AMF_DATA_TYPE_MIXEDARRAY | AMF_DATA_TYPE_OBJECT_END | AMF_DATA_TYPE_ARRAY | AMF_DATA_TYPE_DATE
  | AMF_DATA_TYPE_LONG_STRING | AMF_DATA_TYPE_UNSUPPORTED.

#[export] Instance amf_type_eq_dec : EqDecision AMF_DATA_TYPE.
Proof. solve_decision. Defined.

(** The [uint8_t] of an enumerator. *)
Definition amf_code (t : AMF_DATA_TYPE) : Z :=
  match t with
  | AMF_DATA_TYPE_UNKNOWN => 0xff | AMF_DATA_TYPE_NUMBER => 0x00 | AMF_DATA_TYPE_BOOL => 0x01
  | AMF_DATA_TYPE_STRING => 0x02 | AMF_DATA_TYPE_OBJECT => 0x03 | AMF_DATA_TYPE_NULL => 0x05
  | AMF_DATA_TYPE_UNDEFINED => 0x06 | AMF_DATA_TYPE_REFERENCE => 0x07
  | AMF_DATA_TYPE_MIXEDARRAY => 0x08 | AMF_DATA_TYPE_OBJECT_END => 0x09
  | AMF_DATA_TYPE_ARRAY => 0x0a | AMF_DATA_TYPE_DATE => 0x0b | AMF_DATA_TYPE_LONG_STRING => 0x0c
  | AMF_DATA_TYPE_UNSUPPORTED => 0x0d
  end.

#[export] Set Warnings "-register-all".

Inductive AMF_ITERM := mkAmf {
  amf_type_ : AMF_DATA_TYPE;
  number_ : Z;
  enable_ : bool;
  desc_str_ : bytes;
  amf_obj_ : list (bytes * AMF_ITERM);
  amf_array_ : list AMF_ITERM
}.

(** [AMF_ITERM()] *)
Definition amf_default : AMF_ITERM := mkAmf AMF_DATA_TYPE_UNKNOWN 0 false [] [] [].

Definition SetAmfType (t : AMF_DATA_TYPE) (i : AMF_ITERM) : AMF_ITERM :=
  mkAmf t (number_ i) (enable_ i) (desc_str_ i) (amf_obj_ i) (amf_array_ i).
Definition set_number (n : Z) (i : AMF_ITERM) : AMF_ITERM :=
  mkAmf (amf_type_ i) n (enable_ i) (desc_str_ i) (amf_obj_ i) (amf_array_ i).
Definition set_enable (b : bool) (i : AMF_ITERM) : AMF_ITERM :=
  mkAmf (amf_type_ i) (number_ i) b (desc_str_ i) (amf_obj_ i) (amf_array_ i).
Definition set_desc (s : bytes) (i : AMF_ITERM) : AMF_ITERM :=
  mkAmf (amf_type_ i) (number_ i) (enable_ i) s (amf_obj_ i) (amf_array_ i).
Definition set_obj (o : list (bytes * AMF_ITERM)) (i : AMF_ITERM) : AMF_ITERM :=
  mkAmf (amf_type_ i) (number_ i) (enable_ i) (desc_str_ i) o (amf_array_ i).
Definition set_array (a : list AMF_ITERM) (i : AMF_ITERM) : AMF_ITERM :=
  mkAmf (amf_type_ i) (number_ i) (enable_ i) (desc_str_ i) (amf_obj_ i) a.

(** ** [std::map<std::string, T>] as the list of its pairs in key order *)

(** [std::string]'s [operator<]: lexicographic on unsigned bytes. *)
Fixpoint str_ltb (s t : bytes) : bool :=
  match s, t with
  | _, [] => false
  | [], _ :: _ => true
  | a :: s', b :: t' => if a <? b then true else if b <? a then false else str_ltb s' t'
  end.

(** [map.insert]: keeps the existing pair when the key is there. *)
Fixpoint map_insert {T} (k : bytes) (v : T) (m : list (bytes * T)) : list (bytes * T) :=
  match m with
  | [] => [(k, v)]
  | (k', v') :: m' =>
      if str_ltb k k' then (k, v) :: m
      else if str_ltb k' k then (k', v') :: map_insert k v m'
      else m
  end.

(** [map.find] *)
Fixpoint map_find {T} (k : bytes) (m : list (bytes * T)) : option T :=
  match m with
  | [] => None
  | (k', v') :: m' => if decide (k = k') then Some v' else map_find k m'
  end.

(** ** [AMF_Encoder] *)
Section encoder.
Context {B : Type} `{ByteSink B}.

Definition Encode_number (num : Z) (buffer : B) : outcome (Z * B) :=
  b ← sink_append buffer (amf_code AMF_DATA_TYPE_NUMBER :: Write8Bytes (ByteDouble2Int num));
  mret (0, b).

Definition EncodeNull (buffer : B) : outcome (Z * B) :=
  b ← sink_append buffer [amf_code AMF_DATA_TYPE_NULL]; mret (0, b).

Definition Encode_bool (flag : bool) (buffer : B) : outcome (Z * B) :=
  b ← sink_append buffer [amf_code AMF_DATA_TYPE_BOOL; if flag then 0x01 else 0x00]; mret (0, b).

Definition Encode_string (str : bytes) (buffer : B) (skip_marker : bool) : outcome (Z * B) :=
  if 0xffff <? zlen str then
    let str_len := u32 (zlen str) in
    let marker := if skip_marker then [] else [amf_code AMF_DATA_TYPE_LONG_STRING] in
    b ← sink_append buffer (marker ++ Write4Bytes str_len ++ take (Z.to_nat str_len) str);
    mret (0, b)
  else
    let str_len := u16 (zlen str) in
    let marker := if skip_marker then [] else [amf_code AMF_DATA_TYPE_STRING] in
    b ← sink_append buffer (marker ++ Write2Bytes str_len ++ take (Z.to_nat str_len) str);
    mret (0, b).

Definition EncodeOnlyType (amf_type : AMF_DATA_TYPE) (buffer : B) : outcome (Z * B) :=
  b ← sink_append buffer [amf_code amf_type]; mret (0, b).

(** The [switch] on the type of a value of the map. *)
Definition Encode_value (amf_item : AMF_ITERM) (buffer : B) : outcome (Z * B) :=
  match amf_type_ amf_item with
  | AMF_DATA_TYPE_NUMBER => '(_, b) ← Encode_number (number_ amf_item) buffer; mret (0, b)
  | AMF_DATA_TYPE_BOOL => '(_, b) ← Encode_bool (enable_ amf_item) buffer; mret (0, b)
  | AMF_DATA_TYPE_STRING => '(_, b) ← Encode_string (desc_str_ amf_item) buffer false; mret (0, b)
  | AMF_DATA_TYPE_NULL => '(_, b) ← EncodeOnlyType AMF_DATA_TYPE_NULL buffer; mret (0, b)
  | AMF_DATA_TYPE_UNDEFINED => '(_, b) ← EncodeOnlyType AMF_DATA_TYPE_UNDEFINED buffer; mret (0, b)
  | AMF_DATA_TYPE_REFERENCE => mret (-1, buffer)
  | AMF_DATA_TYPE_MIXEDARRAY => mret (0, buffer)
  | AMF_DATA_TYPE_ARRAY => mret (0, buffer)
  | AMF_DATA_TYPE_DATE => mret (0, buffer)
  | AMF_DATA_TYPE_LONG_STRING => '(_, b) ← Encode_string (desc_str_ amf_item) buffer false; mret (0, b)
  | AMF_DATA_TYPE_UNSUPPORTED => mret (-1, buffer)
  | _ => mret (-1, buffer)
  end.

(** The [for] loop over the map. *)
Fixpoint Encode_pairs (amf_obj : list (bytes * AMF_ITERM)) (buffer : B) : outcome (Z * B) :=
  match amf_obj with
  | [] => mret (0, buffer)
  | (key, amf_item) :: rest =>
      '(_, b) ← Encode_string key buffer true;
      '(ret, b) ← Encode_value amf_item b;
      if ret =? 0 then Encode_pairs rest b else mret (ret, b)
  end.

Definition Encode_map (amf_obj : list (bytes * AMF_ITERM)) (buffer : B) : outcome (Z * B) :=
  b ← sink_append buffer [amf_code AMF_DATA_TYPE_OBJECT];
  '(ret, b) ← Encode_pairs amf_obj b;
  if ret =? 0 then
    '(_, b) ← Encode_string [] b true;
    b ← sink_append b [amf_code AMF_DATA_TYPE_OBJECT_END];
    mret (0, b)
  else mret (ret, b).
End encoder.

(** ** [AMF_Decoder] *)

(** The [std::string] of [n] bytes at [data]. *)
Definition str_at (data : bytes) (n : Z) : outcome bytes := read_range data 0 n.
Definition skip (data : bytes) (n : Z) : bytes := drop (Z.to_nat n) data.

(** [amf_item] starts as [amf_default] at every call of the source. The result
    is the return code and the final [data], [left_len] and item. *)
Fixpoint Decode (fuel : nat) (data : bytes) (left_len : Z) (amf_item : AMF_ITERM)
    : outcome (Z * bytes * Z * AMF_ITERM) :=
  match fuel with
  | O => Fault OutOfFuel
  | S fuel =>
    type ← data.[0];
    if (amf_code AMF_DATA_TYPE_UNSUPPORTED <? type) || (type <? amf_code AMF_DATA_TYPE_NUMBER)
    then mret (-1, data, left_len, amf_item)
    else
      let data := skip data 1 in let left_len := left_len - 1 in
      if type =? 0x00 (* NUMBER *) then
        value ← Read8Bytes data;
        mret (0, skip data 8, left_len - 8,
              set_number (ByteInt2Double value) (SetAmfType AMF_DATA_TYPE_NUMBER amf_item))
      else if type =? 0x01 (* BOOL *) then
        value ← data.[0];
        mret (0, skip data 1, left_len - 1,
              set_enable (negb (value =? 0)) (SetAmfType AMF_DATA_TYPE_BOOL amf_item))
      else if type =? 0x02 (* STRING *) then
        str_len ← Read2Bytes data;
        let data := skip data 2 in
        desc ← str_at data str_len;
        mret (0, skip data str_len, left_len - 2 - str_len,
              set_desc desc (SetAmfType AMF_DATA_TYPE_STRING amf_item))
      else if type =? 0x03 (* OBJECT *) then
        let item := SetAmfType AMF_DATA_TYPE_OBJECT amf_item in
        '(ret, data, left_len, obj) ← DecodeAmfObject fuel data left_len (amf_obj_ item);
        mret (ret, data, left_len, set_obj obj item)
      else if type =? 0x05 (* NULL *) then
        mret (0, data, left_len, SetAmfType AMF_DATA_TYPE_NULL amf_item)
      else if type =? 0x06 (* UNDEFINED *) then
        mret (0, data, left_len, SetAmfType AMF_DATA_TYPE_UNDEFINED amf_item)
      else if type =? 0x07 (* REFERENCE *) then Fault AssertFailure
      else if type =? 0x08 (* MIXEDARRAY *) then
        _ ← Read4Bytes data;
        let item := SetAmfType AMF_DATA_TYPE_OBJECT amf_item in
        '(ret, data, left_len, obj) ← DecodeAmfObject fuel (skip data 4) (left_len - 4) (amf_obj_ item);
        mret (ret, data, left_len, set_obj obj item)
      else if type =? 0x0a (* ARRAY *) then
        let item := SetAmfType AMF_DATA_TYPE_ARRAY amf_item in
        '(_, data, left_len, arr) ← DecodeAmfArray fuel data left_len (amf_array_ item);
        mret (0, data, left_len, set_array arr item)
      else if type =? 0x0b (* DATE *) then
        value ← Read8Bytes data;
        mret (0, skip data 10, left_len - 8 - 2,
              set_number (ByteInt2Double value) (SetAmfType AMF_DATA_TYPE_DATE amf_item))
      else if type =? 0x0c (* LONG_STRING *) then
        str_len ← Read4Bytes data;
        let data := skip data 4 in
        desc ← str_at data str_len;
        mret (0, skip data str_len, i32 (left_len - 4 - str_len),
              set_desc desc (SetAmfType AMF_DATA_TYPE_LONG_STRING amf_item))
      else if type =? 0x0d (* UNSUPPORTED *) then
        mret (0, data, left_len, SetAmfType AMF_DATA_TYPE_LONG_STRING amf_item)
      else (* OBJECT_END, and 4, which has no enumerator *)
        mret (-1, data, left_len, SetAmfType AMF_DATA_TYPE_UNKNOWN amf_item)
  end
with DecodeAmfObject (fuel : nat) (data : bytes) (len : Z) (amf_obj : list (bytes * AMF_ITERM))
    : outcome (Z * bytes * Z * list (bytes * AMF_ITERM)) :=
  match fuel with
  | O => Fault OutOfFuel
  | S fuel =>
    if 0 <? len then
      key_len ← Read2Bytes data;
      let data := skip data 2 in let len := len - 2 in
      if key_len =? 0 then
        b ← data.[0];
        _ ← cassert (b =? amf_code AMF_DATA_TYPE_OBJECT_END);
        mret (0, data, len, amf_obj)
      else
        key ← str_at data key_len;
        let data := skip data key_len in let len := len - key_len in
        b ← data.[0];
        if (amf_code AMF_DATA_TYPE_UNSUPPORTED <? b) || (b <? amf_code AMF_DATA_TYPE_NUMBER)
        then mret (-1, data, len, amf_obj)
        else
          '(ret, data, len, amf_item) ← Decode fuel data len amf_default;
          if ret =? 0 then DecodeAmfObject fuel data len (map_insert key amf_item amf_obj)
          else mret (ret, data, len, amf_obj)
    else mret (0, data, len, amf_obj)
  end
(** The loop of [DecodeAmfArray], with the number of items still to read. *)
with DecodeAmfArray_loop (fuel : nat) (data : bytes) (len : Z) (count : Z) (amf_array : list AMF_ITERM)
    : outcome (Z * bytes * Z * list AMF_ITERM) :=
  match fuel with
  | O => Fault OutOfFuel
  | S fuel =>
    if 0 <? count then
      '(ret, data, len, item) ← Decode fuel data len amf_default;
      if ret =? 0 then DecodeAmfArray_loop fuel data len (count - 1) (amf_array ++ [item])
      else mret (ret, data, len, amf_array)
    else mret (0, data, len, amf_array)
  end
with DecodeAmfArray (fuel : nat) (data : bytes) (len : Z) (amf_array : list AMF_ITERM)
    : outcome (Z * bytes * Z * list AMF_ITERM) :=
  match fuel with
  | O => Fault OutOfFuel
  | S fuel =>
    array_len ← Read4Bytes data;
    DecodeAmfArray_loop fuel (skip data 4) (len - 4) array_len amf_array
  end.

(** ** Decoding terminates *)

(** A run that answers, without reading more than the [n] bytes it was given:
    strictly less when the code is 0 and [strict] holds. *)
Definition answers {A} (n : nat) (strict : bool) (r : outcome (Z * bytes * Z * A)) : Prop :=
  match r with
  | Fault OutOfFuel => False
  | Fault _ => True
  | Done (ret, d, _, _) => (length d <= n)%nat /\ (strict = true -> ret = 0 -> (length d < n)%nat)
  end.

Lemma length_skip d n : length (skip d n) = (length d - Z.to_nat n)%nat.
Proof. apply length_drop. Qed.

Lemma str_at_cases d n :
  (exists s, str_at d n = Done s /\ 0 <= n <= zlen d) \/ str_at d n = Fault OutOfBounds.
Proof. unfold str_at, read_range. case_bool_decide; [left; eexists; split; [done|lia]|by right]. Qed.

Lemma answers_weaken {A} n m r : (m < n)%nat -> @answers A m false r -> answers n true r.
Proof. destruct r as [[[[? ?] ?] ?]|[]]; cbn; try done. intros ? [? _]. split; lia. Qed.

Lemma answers_le {A} n m r : (m <= n)%nat -> @answers A m false r -> answers n false r.
Proof. destruct r as [[[[? ?] ?] ?]|[]]; cbn; try done. intros ? [? _]. split; [lia|done]. Qed.

(** A decoded element followed by the rest of a loop. *)
Lemma answers_then {A C} n m (r : outcome (Z * bytes * Z * A))
    (k : bytes -> Z -> A -> outcome (Z * bytes * Z * C)) (e : Z -> bytes -> Z -> A -> outcome (Z * bytes * Z * C)) :
  answers m true r ->
  (forall d l a, (length d < m)%nat -> answers n false (k d l a)) ->
  (forall ret d l a, (length d <= m)%nat -> answers n false (e ret d l a)) ->
  answers n false ('(ret, d, l, a) ← r; if ret =? 0 then k d l a else e ret d l a).
Proof.
  destruct r as [[[[ret d] l] a]|[]]; cbn [answers]; [intros Hr Hk He|try done..]. simpl_m.
  destruct Hr as [Hle Hlt]. destruct (Z.eqb_spec ret 0); [apply Hk; auto|by apply He].
Qed.

Lemma answers_map {A C} n b (g : A -> C) r :
  answers n b r ->
  answers n b ('(ret, d, l, a) ← r; mret (ret, d, l, g a)).
Proof. by destruct r as [[[[? ?] ?] ?]|[]]. Qed.

(** As [answers_map] for the array, whose return code [Decode] drops. *)
Lemma answers_drop_ret {A C} n m (g : A -> C) r :
  (m < n)%nat -> answers m false r ->
  answers n true ('(_, d, l, a) ← r; mret (0, d, l, g a)).
Proof. destruct r as [[[[? ?] ?] ?]|[]]; cbn; try done. intros ? [? _]. split; lia. Qed.

(** Run the decoder up to its next call, splitting on reads and tests. *)
Ltac reads :=
  repeat match goal with
  | |- answers _ _ (Done _) => cbn [answers]; rewrite ?length_skip; unfold zlen in *;
        rewrite ?length_skip in *; split; [lia|intros; lia]
  | |- answers _ _ (Fault _) => exact I
  | |- answers _ _ (if ?c then _ else _) => destruct c eqn:?
  | |- answers _ _ (mbind _ (if ?c then _ else _)) => destruct c eqn:?
  | |- answers _ _ (mbind _ (rd ?p ?i)) => destruct (rd_cases p i) as [(? & -> & ?)| ->]
  | |- answers _ _ (mbind _ (Read2Bytes ?p)) => destruct (Read2Bytes_cases p) as [(? & -> & ?)| ->]
  | |- answers _ _ (mbind _ (Read4Bytes ?p)) => destruct (Read4Bytes_cases p) as [(? & -> & ?)| ->]
  | |- answers _ _ (mbind _ (Read8Bytes ?p)) => destruct (Read8Bytes_cases p) as [(? & -> & ?)| ->]
  | |- answers _ _ (mbind _ (str_at ?p ?n)) => destruct (str_at_cases p n) as [(? & -> & ?)| ->]
  | _ => progress simpl_m
  end.

Lemma Decode_answers fuel :
  (forall data len item, (2 * length data + 1 <= fuel)%nat ->
     answers (length data) true (Decode fuel data len item)) /\
  (forall data len obj, (2 * length data + 2 <= fuel)%nat ->
     answers (length data) false (DecodeAmfObject fuel data len obj)) /\
  (forall data len count arr, (2 * length data + 2 <= fuel)%nat ->
     answers (length data) false (DecodeAmfArray_loop fuel data len count arr)) /\
  (forall data len arr, (2 * length data + 2 <= fuel)%nat ->
     answers (length data) false (DecodeAmfArray fuel data len arr)).
Proof.
  induction fuel as [|fuel (IHd & IHo & IHl & IHa)]; [split_and!; intros; lia|].
  split_and!.
  - intros data len item Hf. cbn [Decode]. reads.
    + apply (answers_map _ true (fun o => set_obj o _)). eapply answers_weaken, IHo;
        rewrite length_skip; unfold zlen in *; lia.
    + apply (answers_map _ true (fun o => set_obj o _)). eapply answers_weaken, IHo;
        rewrite !length_skip; unfold zlen in *; rewrite ?length_skip in *; lia.
    + eapply (answers_drop_ret _ _ (fun o => set_array o _)), IHa;
        rewrite length_skip; unfold zlen in *; lia.
  - intros data len obj Hf. cbn [DecodeAmfObject]. unfold cassert. reads.
    unfold zlen in *. rewrite ?length_skip in *.
    eapply answers_then; [apply IHd; rewrite !length_skip; lia| |].
    + intros d l a Hd. rewrite !length_skip in Hd. eapply answers_le, IHo; lia.
    + intros ret d l a Hd. rewrite !length_skip in Hd. cbn. split; [lia|done].
  - intros data len count arr Hf. cbn [DecodeAmfArray_loop]. reads.
    eapply answers_then; [apply IHd; lia| |].
    + intros d l a Hd. eapply answers_le, IHl; lia.
    + intros ret d l a Hd. cbn. split; [lia|done].
  - intros data len arr Hf. cbn [DecodeAmfArray]. reads.
    eapply answers_le, IHl; rewrite length_skip; lia.
Qed.

(** ** The encoders against the sink contract *)

(** The bytes each encoder emits. *)
Definition string_payload (str : bytes) : bytes :=
  if 0xffff <? zlen str then Write4Bytes (zlen str) ++ take (Z.to_nat (u32 (zlen str))) str
  else Write2Bytes (zlen str) ++ str.

Definition string_marker (str : bytes) : Z :=
  if 0xffff <? zlen str then amf_code AMF_DATA_TYPE_LONG_STRING else amf_code AMF_DATA_TYPE_STRING.

Definition value_bytes (i : AMF_ITERM) : bytes :=
  match amf_type_ i with
  | AMF_DATA_TYPE_NUMBER => amf_code AMF_DATA_TYPE_NUMBER :: Write8Bytes (number_ i)
  | AMF_DATA_TYPE_BOOL => [amf_code AMF_DATA_TYPE_BOOL; if enable_ i then 1 else 0]
  | AMF_DATA_TYPE_STRING | AMF_DATA_TYPE_LONG_STRING =>
      string_marker (desc_str_ i) :: string_payload (desc_str_ i)
  | AMF_DATA_TYPE_NULL => [amf_code AMF_DATA_TYPE_NULL]
  | AMF_DATA_TYPE_UNDEFINED => [amf_code AMF_DATA_TYPE_UNDEFINED]
  | _ => []
  end.

Definition pair_bytes (p : bytes * AMF_ITERM) : bytes := string_payload p.1 ++ value_bytes p.2.
Definition pairs_bytes (m : list (bytes * AMF_ITERM)) : bytes := concat (map pair_bytes m).
Definition map_bytes (m : list (bytes * AMF_ITERM)) : bytes :=
  amf_code AMF_DATA_TYPE_OBJECT :: pairs_bytes m ++ [0; 0; amf_code AMF_DATA_TYPE_OBJECT_END].

(** The values the encoder supports, with the fields their type does not use
    left as constructed. *)
Inductive plain_value : AMF_ITERM -> Prop :=
  | plain_number n : 0 <= n < 2 ^ 64 ->
      plain_value (set_number n (SetAmfType AMF_DATA_TYPE_NUMBER amf_default))
  | plain_bool b : plain_value (set_enable b (SetAmfType AMF_DATA_TYPE_BOOL amf_default))
  | plain_string s : zlen s <= 0xffff ->
      plain_value (set_desc s (SetAmfType AMF_DATA_TYPE_STRING amf_default))
  | plain_long_string s : 0xffff < zlen s < 2 ^ 32 ->
      plain_value (set_desc s (SetAmfType AMF_DATA_TYPE_LONG_STRING amf_default))
  | plain_null : plain_value (SetAmfType AMF_DATA_TYPE_NULL amf_default)
  | plain_undefined : plain_value (SetAmfType AMF_DATA_TYPE_UNDEFINED amf_default).

(** A map the decoder can rebuild: keys of one to 65535 bytes, in map order. *)
Definition plain_map (m : list (bytes * AMF_ITERM)) : Prop :=
  Forall (fun p => 0 < zlen p.1 <= 0xffff /\ plain_value p.2) m /\
  StronglySorted (fun p q => str_ltb p.1 q.1 = true) m.

Section encoder_proofs.
Context {B : Type} `{ByteSink B}.

(** [m] succeeds with code 0 and adds exactly [out] to the sink. *)
Definition emits (m : B -> outcome (Z * B)) (out : bytes) : Prop :=
  forall b k, 0 <= k -> sink_room b (zlen out + k) ->
  exists b', m b = Done (0, b') /\ sink_bytes b' = sink_bytes b ++ out /\ sink_room b' k.

Lemma emits_append out : emits (fun b => b' ← sink_append b out; mret (0, b')) out.
Proof.
  intros b k Hk Hr. destruct (sink_append_spec b out k Hr Hk) as (b' & -> & ? & ?). by exists b'.
Qed.

Lemma emits_ext m m' out : (forall b, m b = m' b) -> emits m out -> emits m' out.
Proof. intros He Hm b k Hk Hr. rewrite <- He. by apply Hm. Qed.

Lemma emits_bind m n out1 out2 :
  emits m out1 -> emits n out2 ->
  emits (fun b => '(ret, b') ← m b; if ret =? 0 then n b' else mret (ret, b')) (out1 ++ out2).
Proof.
  intros Hm Hn b k Hk Hr. rewrite zlen_app in Hr. pose proof (zlen_nonneg out2).
  destruct (Hm b (zlen out2 + k)) as (b1 & -> & Hb1 & Hr1); [lia|by rewrite Z.add_assoc|].
  simpl_m. cbn [Z.eqb]. destruct (Hn b1 k Hk Hr1) as (b2 & -> & Hb2 & Hr2).
  exists b2. split; [done|]. by rewrite Hb2, Hb1, app_assoc.
Qed.

Lemma emits_seq m n out1 out2 :
  emits m out1 -> emits n out2 ->
  emits (fun b => '(_, b') ← m b; n b') (out1 ++ out2).
Proof.
  intros Hm Hn b k Hk Hr. rewrite zlen_app in Hr. pose proof (zlen_nonneg out2).
  destruct (Hm b (zlen out2 + k)) as (b1 & -> & Hb1 & Hr1); [lia|by rewrite Z.add_assoc|].
  simpl_m. destruct (Hn b1 k Hk Hr1) as (b2 & -> & Hb2 & Hr2).
  exists b2. split; [done|]. by rewrite Hb2, Hb1, app_assoc.
Qed.

Lemma emits_raw out1 n out2 :
  emits n out2 -> emits (fun b => b' ← sink_append b out1; n b') (out1 ++ out2).
Proof.
  intros Hn b k Hk Hr. rewrite zlen_app in Hr. pose proof (zlen_nonneg out2).
  destruct (sink_append_spec b out1 (zlen out2 + k)) as (b1 & -> & Hb1 & Hr1);
    [by rewrite Z.add_assoc|lia|].
  simpl_m. destruct (Hn b1 k Hk Hr1) as (b2 & -> & Hb2 & Hr2).
  exists b2. split; [done|]. by rewrite Hb2, Hb1, app_assoc.
Qed.

Lemma emits_ret : emits (fun b => mret (0, b)) [].
Proof. intros b k Hk Hr. exists b. by rewrite app_nil_r. Qed.

Lemma emits_ret0 m out : emits m out -> emits (fun b => '(_, b') ← m b; mret (0, b')) out.
Proof. intros Hm. rewrite <- (app_nil_r out). apply emits_seq; [done|apply emits_ret]. Qed.

Lemma Encode_string_emits str skip_marker :
  emits (fun b => Encode_string str b skip_marker)
    ((if skip_marker then [] else [string_marker str]) ++ string_payload str).
Proof.
  unfold Encode_string, string_payload, string_marker. pose proof (zlen_nonneg str).
  destruct (Z.ltb_spec 0xffff (zlen str)) as [Hl|Hl].
  - replace (Write4Bytes (u32 (zlen str))) with (Write4Bytes (zlen str))
      by (unfold Write4Bytes, u32; by rewrite Z.mod_mod by lia).
    apply emits_append.
  - unfold u16. rewrite (Z.mod_small (zlen str)) by lia.
    rewrite (take_ge str) by (unfold zlen in *; lia). apply emits_append.
Qed.

Lemma Encode_value_emits i : plain_value i -> emits (Encode_value i) (value_bytes i).
Proof.
  intros Hi. destruct Hi; cbn [Encode_value value_bytes amf_type_ number_ enable_ desc_str_
    SetAmfType set_number set_enable set_desc amf_default]; apply emits_ret0.
  - unfold Encode_number, ByteDouble2Int. cbn [number_ set_number]. rewrite u64_small by lia.
    apply emits_append.
  - apply emits_append.
  - apply (Encode_string_emits s false).
  - apply (Encode_string_emits s false).
  - apply emits_append.
  - apply emits_append.
Qed.

Lemma Encode_pairs_emits m :
  Forall (fun p => plain_value p.2) m -> emits (Encode_pairs m) (pairs_bytes m).
Proof.
  induction m as [|[key i] m IH]; intros Hm; [apply emits_ret|].
  apply Forall_cons in Hm as [Hi Hm]. unfold pairs_bytes, pair_bytes. cbn [map concat fst snd].
  rewrite <- app_assoc. cbn [Encode_pairs].
  apply (emits_seq (fun b => Encode_string key b true));
    [apply (Encode_string_emits key true)|].
  apply emits_bind; [by apply Encode_value_emits|by apply IH].
Qed.

Lemma Encode_map_emits m : Forall (fun p => plain_value p.2) m -> emits (Encode_map m) (map_bytes m).
Proof.
  intros Hm. unfold Encode_map.
  apply (emits_raw [amf_code AMF_DATA_TYPE_OBJECT] (fun b => _)).
  apply emits_bind; [by apply Encode_pairs_emits|].
  apply (emits_seq (fun b => Encode_string [] b true) (fun b => _) [0; 0]);
    [apply (Encode_string_emits [] true)|apply emits_append].
Qed.
End encoder_proofs.

(** ** The decoder on what the encoders emit *)

Lemma skip_app p q n : n = zlen p -> skip (p ++ q) n = q.
Proof. intros ->. unfold skip, zlen. rewrite Nat2Z.id. apply drop_app_length. Qed.

Lemma str_at_app p q n : n = zlen p -> str_at (p ++ q) n = Done p.
Proof.
  intros ->. unfold str_at. pose proof (zlen_nonneg p). pose proof (zlen_nonneg q).
  rewrite read_range_ok by (rewrite ?zlen_app; lia). rewrite drop_0.
  unfold zlen. by rewrite Nat2Z.id, take_app_length.
Qed.

Lemma take_all_len (s : bytes) : zlen s < 2 ^ 32 -> take (Z.to_nat (u32 (zlen s))) s = s.
Proof.
  intros Hs. unfold u32. pose proof (zlen_nonneg s). rewrite Z.mod_small by lia.
  apply take_ge. unfold zlen. lia.
Qed.

(** A short string: two length bytes then the text. *)
Lemma short_payload s : zlen s <= 0xffff -> string_payload s = Write2Bytes (zlen s) ++ s.
Proof. intros Hs. unfold string_payload. by destruct (Z.ltb_spec 0xffff (zlen s)); [lia|]. Qed.

(** The decoder behind each marker. *)
Lemma Decode_number_marker f data len i :
  Decode (S f) (0x00 :: data) len i =
  (value ← Read8Bytes data;
   mret (0, skip data 8, len - 1 - 8, set_number (ByteInt2Double value) (SetAmfType AMF_DATA_TYPE_NUMBER i))).
Proof. reflexivity. Qed.
Lemma Decode_bool_marker f b data len i :
  Decode (S f) (0x01 :: b :: data) len i =
  Done (0, data, len - 1 - 1, set_enable (negb (b =? 0)) (SetAmfType AMF_DATA_TYPE_BOOL i)).
Proof. reflexivity. Qed.
Lemma Decode_null_marker f data len i :
  Decode (S f) (0x05 :: data) len i = Done (0, data, len - 1, SetAmfType AMF_DATA_TYPE_NULL i).
Proof. reflexivity. Qed.
Lemma Decode_undefined_marker f data len i :
  Decode (S f) (0x06 :: data) len i = Done (0, data, len - 1, SetAmfType AMF_DATA_TYPE_UNDEFINED i).
Proof. reflexivity. Qed.
Lemma Decode_string_marker f data len i :
  Decode (S f) (0x02 :: data) len i =
  (str_len ← Read2Bytes data; desc ← str_at (skip data 2) str_len;
   mret (0, skip (skip data 2) str_len, len - 1 - 2 - str_len,
         set_desc desc (SetAmfType AMF_DATA_TYPE_STRING i))).
Proof. reflexivity. Qed.
Lemma Decode_long_string_marker f data len i :
  Decode (S f) (0x0c :: data) len i =
  (str_len ← Read4Bytes data; desc ← str_at (skip data 4) str_len;
   mret (0, skip (skip data 4) str_len, i32 (len - 1 - 4 - str_len),
         set_desc desc (SetAmfType AMF_DATA_TYPE_LONG_STRING i))).
Proof. reflexivity. Qed.
Lemma Decode_object_marker f data len i :
  Decode (S f) (0x03 :: data) len i =
  ('(ret, data, len, obj) ← DecodeAmfObject f data (len - 1) (amf_obj_ i);
   mret (ret, data, len, set_obj obj (SetAmfType AMF_DATA_TYPE_OBJECT i))).
Proof. reflexivity. Qed.

(** Equal answers up to the arithmetic of the remaining length. *)
Ltac same_len :=
  match goal with |- Done (_, _, ?x, _) = Done (_, _, ?y, _) => replace x with y; [reflexivity|] end.

Lemma Decode_value i rest len fuel :
  plain_value i -> zlen (value_bytes i) <= len < 2 ^ 31 ->
  Decode (S fuel) (value_bytes i ++ rest) len amf_default = Done (0, rest, len - zlen (value_bytes i), i).
Proof.
  intros Hi Hlen. destruct Hi as [n Hn|b|s Hs|s Hs| |]; unfold value_bytes in *;
    cbn [amf_type_ number_ enable_ desc_str_ SetAmfType set_number set_enable set_desc amf_default] in *.
  - rewrite <- app_comm_cons. cbn [amf_code]. rewrite Decode_number_marker, Read8Bytes_Write8Bytes.
    simpl_m. rewrite skip_app by done. unfold ByteInt2Double. rewrite !u64_small by (rewrite ?u64_small; lia).
    same_len. rewrite zlen_cons. change (zlen (Write8Bytes _)) with 8. lia.
  - cbn [app amf_code]. rewrite Decode_bool_marker.
    destruct b; same_len; rewrite !zlen_cons; change (zlen []) with 0; lia.
  - unfold string_marker in *. destruct (Z.ltb_spec 0xffff (zlen s)); [lia|].
    rewrite short_payload in * by done. cbn [amf_code]. rewrite <- app_comm_cons, <- app_assoc.
    pose proof (zlen_nonneg s).
    rewrite Decode_string_marker, Read2Bytes_Write2Bytes, u16_small by lia.
    simpl_m. rewrite skip_app, str_at_app by done. simpl_m. rewrite skip_app by done.
    same_len. rewrite zlen_cons, zlen_app. change (zlen (Write2Bytes _)) with 2. lia.
  - unfold string_marker, string_payload in *. destruct (Z.ltb_spec 0xffff (zlen s)); [|lia].
    rewrite take_all_len in * by lia. cbn [amf_code]. rewrite <- app_comm_cons, <- app_assoc.
    rewrite Decode_long_string_marker, Read4Bytes_Write4Bytes.
    unfold u32. rewrite Z.mod_small by lia. simpl_m. rewrite skip_app, str_at_app by done.
    simpl_m. rewrite skip_app by done.
    rewrite zlen_cons, zlen_app in *. change (zlen (Write4Bytes _)) with 4 in *.
    rewrite i32_small by lia. same_len. lia.
  - cbn [app amf_code]. rewrite Decode_null_marker. same_len. rewrite zlen_cons. change (zlen []) with 0. lia.
  - cbn [app amf_code]. rewrite Decode_undefined_marker. same_len. rewrite zlen_cons. change (zlen []) with 0. lia.
Qed.

(** ** The map: keys in order, inserted one after the other *)

Lemma str_ltb_asym s t : str_ltb s t = true -> str_ltb t s = false.
Proof.
  revert t. induction s as [|a s IH]; intros [|b t]; cbn; try done.
  destruct (Z.ltb_spec a b), (Z.ltb_spec b a); try done; try lia. apply IH.
Qed.

(** A key above all the others goes to the end. *)
Lemma map_insert_last {T} k (v : T) m :
  Forall (fun p => str_ltb p.1 k = true) m -> map_insert k v m = m ++ [(k, v)].
Proof.
  induction 1 as [|[k' v'] m Hk _ IH]; [done|]. cbn in *.
  by rewrite (str_ltb_asym _ _ Hk), Hk, IH.
Qed.

(** One turn of the loop of [DecodeAmfObject], on a well-formed pair. *)
Lemma DecodeAmfObject_pair fuel key i data len obj :
  0 < zlen key <= 0xffff -> plain_value i ->
  zlen (pair_bytes (key, i)) <= len < 2 ^ 31 ->
  DecodeAmfObject (S (S fuel)) (pair_bytes (key, i) ++ data) len obj =
  DecodeAmfObject (S fuel) data (len - zlen (pair_bytes (key, i))) (map_insert key i obj).
Proof.
  intros Hk Hi Hlen. unfold pair_bytes in *. cbn [fst snd] in *.
  rewrite short_payload in * by lia. rewrite zlen_app in Hlen. rewrite zlen_app in Hlen.
  change (zlen (Write2Bytes _)) with 2 in Hlen. pose proof (zlen_nonneg (value_bytes i)).
  rewrite <- !app_assoc. remember (S fuel) as f eqn:Hf. cbn [DecodeAmfObject].
  destruct (Z.ltb_spec 0 len); [|lia].
  rewrite Read2Bytes_Write2Bytes, u16_small by lia. simpl_m.
  destruct (Z.eqb_spec (zlen key) 0); [lia|].
  rewrite skip_app, str_at_app by done. simpl_m. rewrite skip_app by done.
  assert (exists m t, value_bytes i = m :: t /\ 0 <= m <= 13) as (m & t & Hm & Hmr).
  { destruct Hi; cbn; eexists _, _; split; try reflexivity; try lia.
    all: unfold string_marker; destruct (_ <? _); cbn; lia. }
  replace ((value_bytes i ++ data).[0]) with (Done m) by (rewrite Hm; done). simpl_m.
  cbn [amf_code]. destruct (Z.ltb_spec 13 m), (Z.ltb_spec m 0); [lia..|]. cbn [orb].
  replace (Decode f) with (Decode (S fuel)) by congruence.
  rewrite Decode_value by (done || lia). simpl_m. cbn [Z.eqb]. f_equal.
  rewrite !zlen_app. change (zlen (Write2Bytes _)) with 2. lia.
Qed.

Lemma DecodeAmfObject_pairs m : forall fuel data len obj,
  plain_map (obj ++ m) -> zlen (pairs_bytes m) <= len < 2 ^ 31 ->
  DecodeAmfObject (length m + S fuel) (pairs_bytes m ++ data) len obj =
  DecodeAmfObject (S fuel) data (len - zlen (pairs_bytes m)) (obj ++ m).
Proof.
  induction m as [|[key i] m IH]; intros fuel data len obj [Hv Hs] Hlen.
  - rewrite app_nil_r. cbn. by rewrite Z.sub_0_r.
  - unfold pairs_bytes in *. cbn [map concat] in *. rewrite zlen_app in *.
    pose proof (zlen_nonneg (concat (map pair_bytes m))).
    pose proof (zlen_nonneg (pair_bytes (key, i))).
    rewrite <- app_assoc. cbn [length Nat.add]. rewrite Nat.add_succ_r.
    apply Forall_app in Hv as Hv2. destruct Hv2 as [_ [[Hk Hi] Hv']%Forall_cons].
    rewrite DecodeAmfObject_pair by (done || lia).
    rewrite map_insert_last.
    + rewrite <- Nat.add_succ_r, IH; [|by rewrite <- app_assoc|lia].
      rewrite <- app_assoc. f_equal. lia.
    + clear -Hs. induction obj as [|p obj IHo]; [done|].
      cbn in Hs. apply StronglySorted_inv in Hs as [Hs Hall]. constructor; [|auto].
      apply Forall_app in Hall as [_ [Hp _]%Forall_cons]. done.
Qed.

Lemma DecodeAmfObject_end fuel data len obj :
  0 < len -> DecodeAmfObject (S fuel) (0 :: 0 :: 9 :: data) len obj = Done (0, 9 :: data, len - 2, obj).
Proof. intros Hl. cbn [DecodeAmfObject]. by destruct (Z.ltb_spec 0 len); [|lia]. Qed.

Lemma Decode_map_bytes m rest len fuel :
  plain_map m -> zlen (map_bytes m) <= len < 2 ^ 31 -> (length m + 3 <= fuel)%nat ->
  Decode fuel (map_bytes m ++ rest) len amf_default =
  Done (0, 0x09 :: rest, len - (zlen (map_bytes m) - 1), set_obj m (SetAmfType AMF_DATA_TYPE_OBJECT amf_default)).
Proof.
  intros Hm Hlen Hf. unfold map_bytes in *. rewrite zlen_cons, zlen_app in *.
  change (zlen [0; 0; amf_code AMF_DATA_TYPE_OBJECT_END]) with 3 in *.
  pose proof (zlen_nonneg (pairs_bytes m)).
  destruct fuel as [|fuel]; [lia|]. cbn [app amf_code]. rewrite <- app_assoc.
  rewrite Decode_object_marker. cbn [amf_obj_ amf_default].
  replace fuel with (length m + S (fuel - length m - 1))%nat by lia.
  rewrite DecodeAmfObject_pairs by (done || lia). cbn [app].
  rewrite DecodeAmfObject_end by lia. simpl_m. same_len. lia.
Qed.

(** ** Properties *)

(** C28. Decoding always answers: with fuel linear in the bytes behind the pointer
    no run of the decoder is cut short, whatever the bytes, and a decoded item
    (code 0) consumes at least one byte, so a caller's loop makes progress. *)
Theorem Decode_fuel_enough data left_len item fuel :
  (2 * length data + 1 <= fuel)%nat ->
  Decode fuel data left_len item <> Fault OutOfFuel /\
  forall ret d l i, Decode fuel data left_len item = Done (ret, d, l, i) ->
    (length d <= length data)%nat /\ (ret = 0 -> (length d < length data)%nat).
Proof.
  intros Hf. pose proof (proj1 (Decode_answers fuel) data left_len item Hf) as Ha.
  split; [intros E; by rewrite E in Ha|]. intros ret d l i E. rewrite E in Ha. cbn in Ha. destruct Ha; auto.
Qed.

Definition nested_sample : bytes :=
  [0x0a; 0; 0; 0; 2; 0x05; 0x03; 0; 1; 0x61; 0x01; 1; 0; 0; 9].

Lemma Decode_fuel_enough_witness :
  (2 * length nested_sample + 1 <= 31)%nat /\
  Decode 31 nested_sample (zlen nested_sample) amf_default <> Fault OutOfFuel.
Proof.
  split; [vm_compute; lia|].
  apply (Decode_fuel_enough nested_sample (zlen nested_sample) amf_default 31). vm_compute. lia.
Defined.

(** C22. A map of supported values written to any sink by [AMF_Encoder::Encode] is
    rebuilt, pair for pair, by [AMF_Decoder::Decode] from any memory that starts
    with those bytes. The decoder stops on the object-end byte 0x09 without
    consuming it. *)
Theorem amf_map_roundtrip {B} `{ByteSink B} m (b : B) :
  plain_map m -> sink_room b (zlen (map_bytes m)) ->
  exists b' out, Encode_map m b = Done (0, b') /\ sink_bytes b' = sink_bytes b ++ out /\
    forall rest len fuel, zlen out <= len < 2 ^ 31 -> (length m + 3 <= fuel)%nat ->
    Decode fuel (out ++ rest) len amf_default =
    Done (0, 0x09 :: rest, len - (zlen out - 1),
          set_obj m (SetAmfType AMF_DATA_TYPE_OBJECT amf_default)).
Proof.
  intros Hm Hr. destruct (Encode_map_emits m) with (b := b) (k := 0) as (b' & E & Hb & _).
  - destruct Hm as [Hv _]. eapply Forall_impl; [exact Hv|]. by intros ? [].
  - lia.
  - by rewrite Z.add_0_r.
  - exists b', (map_bytes m). split_and!; [done..|]. intros. by apply Decode_map_bytes.
Qed.

Definition str_item (s : bytes) : AMF_ITERM := set_desc s (SetAmfType AMF_DATA_TYPE_STRING amf_default).
Definition num_item (n : Z) : AMF_ITERM := set_number n (SetAmfType AMF_DATA_TYPE_NUMBER amf_default).

Definition sample_map : list (bytes * AMF_ITERM) :=
  [([97; 112], str_item [108; 105; 118; 101]); ([97; 113; 1], num_item 0x403f000000000000)].

Lemma sample_map_plain : plain_map sample_map.
Proof.
  split; [repeat constructor|repeat constructor]; vm_compute; intuition congruence.
Qed.

Lemma amf_map_roundtrip_witness :
  plain_map sample_map /\
  exists b' out, Encode_map sample_map ([] : bytes) = Done (0, b') /\ b' = [] ++ out /\
    Decode 5 (out ++ [1; 2]) (zlen out) amf_default =
    Done (0, [0x09; 1; 2], 1, set_obj sample_map (SetAmfType AMF_DATA_TYPE_OBJECT amf_default)).
Proof.
  split; [exact sample_map_plain|].
  destruct (@amf_map_roundtrip bytes list_sink sample_map [] sample_map_plain I) as (b' & out & E & Hb & Hd).
  exists b', out. split; [exact E|]. split; [exact Hb|].
  cbv in E. injection E as <-. cbn in Hb. subst out.
  apply (Hd [1; 2]); [split; vm_compute; congruence|cbn; lia].
Defined.

(** A nested object is misread: after the inner object the decoder resumes on
    its unconsumed end byte, takes 0x09 as the high byte of the next key's
    length (2304 here) and reads past the end of the message. *)
Theorem nested_object_out_of_bounds :
  let data := [0x03; 0; 1; 97; 0x03; 0; 1; 98; 0x05; 0; 0; 9; 0; 1; 99; 0x05; 0; 0; 9] in
  Decode 100 data (zlen data) amf_default = Fault OutOfBounds.
Proof. vm_compute. reflexivity. Qed.
