(* ===== verification/ChunkStream.v ===== *)
(** * [ChunkStream]: RTMP messages cut into chunks and put together again

    Models [src/net/rtmp/chunk_stream.hpp] and [src/net/rtmp/chunk_stream.cpp].
    The two [DataBuffer]s of a chunk stream and the receive buffer of the session
    are represented by the bytes they queue: [AppendData] is [++], [ConsumeData]
    is [drop], [Reset] empties, [Require] compares with the length; the file
    [DataBuffer] proves that this is what they do.  [session_->GetRecvBuffer()]
    is passed in and out as [buffer_p]; what a writer hands to
    [session_->RtmpSend] is returned, one byte string per call. *)
From S2P Require Import Prelude ByteStream DataBuffer.

Definition RTMP_OK : Z := 0.
Definition RTMP_NEED_READ_MORE : Z := 1.
Definition CHUNK_DEF_SIZE : Z := 128.

Definition FORMAT0_HEADER_LEN : Z := 11.
Definition FORMAT1_HEADER_LEN : Z := 7.
Definition FORMAT2_HEADER_LEN : Z := 3.
Definition EXT_TS_LEN : Z := 4.

Inductive CHUNK_STREAM_PHASE := CHUNK_STREAM_PHASE_HEADER | CHUNK_STREAM_PHASE_PAYLOAD.
#[export] Instance chunk_phase_eq_dec : EqDecision CHUNK_STREAM_PHASE.
Proof. solve_decision. Defined.

Record ChunkStream := mkChunkStream {
  timestamp_delta_ : Z;
  timestamp32_ : Z;
  msg_len_ : Z;
  type_id_ : Z;
  msg_stream_id_ : Z;
  remain_ : Z;
  require_len_ : Z;
  chunk_size_ : Z;
  chunk_all_ : bytes;
  chunk_data_ : bytes;
  ext_ts_flag_ : bool;
  fmt_ : Z;
  csid_ : Z;
  phase_ : CHUNK_STREAM_PHASE;
  chunk_ready_ : bool;
  msg_count_ : Z
}.

(** Assignments to one field. *)
Definition set_timestamp_delta (v : Z) (s : ChunkStream) : ChunkStream :=
  mkChunkStream v (timestamp32_ s) (msg_len_ s) (type_id_ s) (msg_stream_id_ s) (remain_ s) (require_len_ s) (chunk_size_ s) (chunk_all_ s) (chunk_data_ s) (ext_ts_flag_ s) (fmt_ s) (csid_ s) (phase_ s) (chunk_ready_ s) (msg_count_ s).
Definition set_timestamp32 (v : Z) (s : ChunkStream) : ChunkStream :=
  mkChunkStream (timestamp_delta_ s) v (msg_len_ s) (type_id_ s) (msg_stream_id_ s) (remain_ s) (require_len_ s) (chunk_size_ s) (chunk_all_ s) (chunk_data_ s) (ext_ts_flag_ s) (fmt_ s) (csid_ s) (phase_ s) (chunk_ready_ s) (msg_count_ s).
Definition set_msg_len (v : Z) (s : ChunkStream) : ChunkStream :=
  mkChunkStream (timestamp_delta_ s) (timestamp32_ s) v (type_id_ s) (msg_stream_id_ s) (remain_ s) (require_len_ s) (chunk_size_ s) (chunk_all_ s) (chunk_data_ s) (ext_ts_flag_ s) (fmt_ s) (csid_ s) (phase_ s) (chunk_ready_ s) (msg_count_ s).
Definition set_type_id (v : Z) (s : ChunkStream) : ChunkStream :=
  mkChunkStream (timestamp_delta_ s) (timestamp32_ s) (msg_len_ s) v (msg_stream_id_ s) (remain_ s) (require_len_ s) (chunk_size_ s) (chunk_all_ s) (chunk_data_ s) (ext_ts_flag_ s) (fmt_ s) (csid_ s) (phase_ s) (chunk_ready_ s) (msg_count_ s).
Definition set_msg_stream_id (v : Z) (s : ChunkStream) : ChunkStream :=
  mkChunkStream (timestamp_delta_ s) (timestamp32_ s) (msg_len_ s) (type_id_ s) v (remain_ s) (require_len_ s) (chunk_size_ s) (chunk_all_ s) (chunk_data_ s) (ext_ts_flag_ s) (fmt_ s) (csid_ s) (phase_ s) (chunk_ready_ s) (msg_count_ s).
Definition set_remain (v : Z) (s : ChunkStream) : ChunkStream :=
  mkChunkStream (timestamp_delta_ s) (timestamp32_ s) (msg_len_ s) (type_id_ s) (msg_stream_id_ s) v (require_len_ s) (chunk_size_ s) (chunk_all_ s) (chunk_data_ s) (ext_ts_flag_ s) (fmt_ s) (csid_ s) (phase_ s) (chunk_ready_ s) (msg_count_ s).
Definition set_require_len (v : Z) (s : ChunkStream) : ChunkStream :=
  mkChunkStream (timestamp_delta_ s) (timestamp32_ s) (msg_len_ s) (type_id_ s) (msg_stream_id_ s) (remain_ s) v (chunk_size_ s) (chunk_all_ s) (chunk_data_ s) (ext_ts_flag_ s) (fmt_ s) (csid_ s) (phase_ s) (chunk_ready_ s) (msg_count_ s).
Definition set_chunk_size (v : Z) (s : ChunkStream) : ChunkStream :=
  mkChunkStream (timestamp_delta_ s) (timestamp32_ s) (msg_len_ s) (type_id_ s) (msg_stream_id_ s) (remain_ s) (require_len_ s) v (chunk_all_ s) (chunk_data_ s) (ext_ts_flag_ s) (fmt_ s) (csid_ s) (phase_ s) (chunk_ready_ s) (msg_count_ s).
Definition set_chunk_all (v : bytes) (s : ChunkStream) : ChunkStream :=
  mkChunkStream (timestamp_delta_ s) (timestamp32_ s) (msg_len_ s) (type_id_ s) (msg_stream_id_ s) (remain_ s) (require_len_ s) (chunk_size_ s) v (chunk_data_ s) (ext_ts_flag_ s) (fmt_ s) (csid_ s) (phase_ s) (chunk_ready_ s) (msg_count_ s).
Definition set_chunk_data (v : bytes) (s : ChunkStream) : ChunkStream :=
  mkChunkStream (timestamp_delta_ s) (timestamp32_ s) (msg_len_ s) (type_id_ s) (msg_stream_id_ s) (remain_ s) (require_len_ s) (chunk_size_ s) (chunk_all_ s) v (ext_ts_flag_ s) (fmt_ s) (csid_ s) (phase_ s) (chunk_ready_ s) (msg_count_ s).
Definition set_ext_ts_flag (v : bool) (s : ChunkStream) : ChunkStream :=
  mkChunkStream (timestamp_delta_ s) (timestamp32_ s) (msg_len_ s) (type_id_ s) (msg_stream_id_ s) (remain_ s) (require_len_ s) (chunk_size_ s) (chunk_all_ s) (chunk_data_ s) v (fmt_ s) (csid_ s) (phase_ s) (chunk_ready_ s) (msg_count_ s).
Definition set_fmt (v : Z) (s : ChunkStream) : ChunkStream :=
  mkChunkStream (timestamp_delta_ s) (timestamp32_ s) (msg_len_ s) (type_id_ s) (msg_stream_id_ s) (remain_ s) (require_len_ s) (chunk_size_ s) (chunk_all_ s) (chunk_data_ s) (ext_ts_flag_ s) v (csid_ s) (phase_ s) (chunk_ready_ s) (msg_count_ s).
Definition set_csid (v : Z) (s : ChunkStream) : ChunkStream :=
  mkChunkStream (timestamp_delta_ s) (timestamp32_ s) (msg_len_ s) (type_id_ s) (msg_stream_id_ s) (remain_ s) (require_len_ s) (chunk_size_ s) (chunk_all_ s) (chunk_data_ s) (ext_ts_flag_ s) (fmt_ s) v (phase_ s) (chunk_ready_ s) (msg_count_ s).
Definition set_phase (v : CHUNK_STREAM_PHASE) (s : ChunkStream) : ChunkStream :=
  mkChunkStream (timestamp_delta_ s) (timestamp32_ s) (msg_len_ s) (type_id_ s) (msg_stream_id_ s) (remain_ s) (require_len_ s) (chunk_size_ s) (chunk_all_ s) (chunk_data_ s) (ext_ts_flag_ s) (fmt_ s) (csid_ s) v (chunk_ready_ s) (msg_count_ s).
Definition set_chunk_ready (v : bool) (s : ChunkStream) : ChunkStream :=
  mkChunkStream (timestamp_delta_ s) (timestamp32_ s) (msg_len_ s) (type_id_ s) (msg_stream_id_ s) (remain_ s) (require_len_ s) (chunk_size_ s) (chunk_all_ s) (chunk_data_ s) (ext_ts_flag_ s) (fmt_ s) (csid_ s) (phase_ s) v (msg_count_ s).
Definition set_msg_count (v : Z) (s : ChunkStream) : ChunkStream :=
  mkChunkStream (timestamp_delta_ s) (timestamp32_ s) (msg_len_ s) (type_id_ s) (msg_stream_id_ s) (remain_ s) (require_len_ s) (chunk_size_ s) (chunk_all_ s) (chunk_data_ s) (ext_ts_flag_ s) (fmt_ s) (csid_ s) (phase_ s) (chunk_ready_ s) v.

(** [ChunkStream(session, fmt, csid, chunk_size)] *)
Definition ChunkStream_new (fmt csid chunk_size : Z) : ChunkStream :=
  mkChunkStream 0 0 0 0 0 0 0 chunk_size [] [] false fmt csid CHUNK_STREAM_PHASE_HEADER false 0.

Definition IsReady (s : ChunkStream) : bool := chunk_ready_ s.

(** ** Reading *)

Definition ReadMsgFormat0 (input_fmt input_csid : Z) (buffer_p : bytes) (s : ChunkStream)
    : outcome (Z * bytes * ChunkStream) :=
  if negb (require buffer_p FORMAT0_HEADER_LEN) then mret (RTMP_NEED_READ_MORE, buffer_p, s)
  else
    let s := set_csid input_csid (set_fmt input_fmt s) in
    let p := buffer_p in
    ts ← Read3Bytes p;
    let ext := 0xffffff <=? ts in
    let s := if ext then set_ext_ts_flag true s else s in
    if ext && negb (require buffer_p (FORMAT0_HEADER_LEN + EXT_TS_LEN))
    then mret (RTMP_NEED_READ_MORE, buffer_p, s)
    else
      msg_len ← Read3Bytes (drop 3 p);
      type_id ← (drop 6 p).[0];
      msg_stream_id ← Read4Bytes (drop 7 p);
      let buffer_p := consume buffer_p FORMAT0_HEADER_LEN in
      '(ts, buffer_p) ← (if ext
        then ts ← Read4Bytes (drop 11 p); mret (ts, consume buffer_p EXT_TS_LEN)
        else mret (ts, buffer_p));
      let s := set_timestamp_delta 0 (set_timestamp32 ts s) in
      let s := set_msg_stream_id msg_stream_id (set_type_id type_id (set_msg_len msg_len s)) in
      mret (RTMP_OK, buffer_p, set_remain msg_len s).

Definition ReadMsgFormat1 (input_fmt input_csid : Z) (buffer_p : bytes) (s : ChunkStream)
    : outcome (Z * bytes * ChunkStream) :=
  if negb (require buffer_p FORMAT1_HEADER_LEN) then mret (RTMP_NEED_READ_MORE, buffer_p, s)
  else
    let s := set_csid input_csid (set_fmt input_fmt s) in
    let p := buffer_p in
    ts ← Read3Bytes p;
    let ext := 0xffffff <=? ts in
    let s := if ext then set_ext_ts_flag true s else s in
    if ext && negb (require buffer_p (FORMAT1_HEADER_LEN + EXT_TS_LEN))
    then mret (RTMP_NEED_READ_MORE, buffer_p, s)
    else
      msg_len ← Read3Bytes (drop 3 p);
      type_id ← (drop 6 p).[0];
      let buffer_p := consume buffer_p FORMAT1_HEADER_LEN in
      '(ts, buffer_p) ← (if ext
        then ts ← Read4Bytes (drop 7 p); mret (ts, consume buffer_p EXT_TS_LEN)
        else mret (ts, buffer_p));
      let s := set_timestamp32 (u32 (timestamp32_ s + ts)) (set_timestamp_delta ts s) in
      let s := set_type_id type_id (set_msg_len msg_len s) in
      mret (RTMP_OK, buffer_p, set_remain msg_len s).

Definition ReadMsgFormat2 (input_fmt input_csid : Z) (buffer_p : bytes) (s : ChunkStream)
    : outcome (Z * bytes * ChunkStream) :=
  if negb (require buffer_p FORMAT2_HEADER_LEN) then mret (RTMP_NEED_READ_MORE, buffer_p, s)
  else
    let s := set_csid input_csid (set_fmt input_fmt s) in
    let p := buffer_p in
    ts ← Read3Bytes p;
    let ext := 0xffffff <=? ts in
    let s := if ext then set_ext_ts_flag true s else s in
    if ext && negb (require buffer_p (FORMAT2_HEADER_LEN + EXT_TS_LEN))
    then mret (RTMP_NEED_READ_MORE, buffer_p, s)
    else
      let buffer_p := consume buffer_p FORMAT2_HEADER_LEN in
      '(ts, buffer_p) ← (if ext
        then ts ← Read4Bytes (drop 3 p); mret (ts, consume buffer_p EXT_TS_LEN)
        else mret (ts, buffer_p));
      let s := set_timestamp32 (u32 (timestamp32_ s + ts)) (set_timestamp_delta ts s) in
      mret (RTMP_OK, buffer_p, set_remain (msg_len_ s) s).

(** [None] is the early [return RTMP_NEED_READ_MORE] of the [switch]. *)
Definition ReadMsgFormat3_new (buffer_p : bytes) (s : ChunkStream)
    : outcome (option (bytes * ChunkStream)) :=
  if fmt_ s =? 0 then
    if ext_ts_flag_ s then
      if negb (require buffer_p EXT_TS_LEN) then mret None
      else ts ← Read4Bytes buffer_p; mret (Some (consume buffer_p EXT_TS_LEN, set_timestamp32 ts s))
    else mret (Some (buffer_p, s))
  else if (fmt_ s =? 1) || (fmt_ s =? 2) then
    if ext_ts_flag_ s then
      if negb (require buffer_p EXT_TS_LEN) then mret None
      else
        ts_delta ← Read4Bytes buffer_p;
        mret (Some (consume buffer_p EXT_TS_LEN, set_timestamp32 (u32 (timestamp32_ s + ts_delta)) s))
    else mret (Some (buffer_p, set_timestamp32 (u32 (timestamp32_ s + timestamp_delta_ s)) s))
  else mret (Some (buffer_p, s)).

Definition ReadMsgFormat3 (input_fmt input_csid : Z) (buffer_p : bytes) (s : ChunkStream)
    : outcome (Z * bytes * ChunkStream) :=
  if remain_ s =? 0 then
    r ← ReadMsgFormat3_new buffer_p s;
    match r with
    | None => mret (RTMP_NEED_READ_MORE, buffer_p, s)
    | Some (buffer_p, s) =>
        let s := set_chunk_data [] (set_chunk_all [] s) in
        let s := set_chunk_ready false (set_remain (msg_len_ s) s) in
        mret (RTMP_OK, buffer_p, set_csid input_csid (set_fmt input_fmt s))
    end
  else if ext_ts_flag_ s then
    if negb (require buffer_p EXT_TS_LEN) then mret (RTMP_NEED_READ_MORE, buffer_p, s)
    else
      ts ← Read4Bytes buffer_p;
      let buffer_p := if ts =? timestamp32_ s then consume buffer_p EXT_TS_LEN else buffer_p in
      mret (RTMP_OK, buffer_p, set_csid input_csid (set_fmt input_fmt s))
  else mret (RTMP_OK, buffer_p, set_csid input_csid (set_fmt input_fmt s)).

Definition ReadMessageHeader (input_fmt input_csid : Z) (buffer_p : bytes) (s : ChunkStream)
    : outcome (Z * bytes * ChunkStream) :=
  match phase_ s with
  | CHUNK_STREAM_PHASE_PAYLOAD => mret (RTMP_OK, buffer_p, s)
  | CHUNK_STREAM_PHASE_HEADER =>
      '(ret, buffer_p, s) ←
        (if input_fmt =? 0 then ReadMsgFormat0 input_fmt input_csid buffer_p s
         else if input_fmt =? 1 then ReadMsgFormat1 input_fmt input_csid buffer_p s
         else if input_fmt =? 2 then ReadMsgFormat2 input_fmt input_csid buffer_p s
         else if input_fmt =? 3 then ReadMsgFormat3 input_fmt input_csid buffer_p s
         else Fault AssertFailure);
      if ret =? RTMP_OK
      then mret (RTMP_OK, buffer_p, set_phase CHUNK_STREAM_PHASE_PAYLOAD (set_msg_count 0 s))
      else mret (ret, buffer_p, s)
  end.

Definition ReadMessagePayload (buffer_p : bytes) (s : ChunkStream) : outcome (Z * bytes * ChunkStream) :=
  match phase_ s with
  | CHUNK_STREAM_PHASE_HEADER => mret (RTMP_OK, buffer_p, s)
  | CHUNK_STREAM_PHASE_PAYLOAD =>
      let require_len := if chunk_size_ s <? remain_ s then chunk_size_ s else remain_ s in
      let s := set_require_len require_len s in
      if negb (require buffer_p (i32 require_len)) then mret (RTMP_NEED_READ_MORE, buffer_p, s)
      else
        p ← read_range buffer_p 0 require_len;
        let s := set_chunk_data (chunk_data_ s ++ p) s in
        let buffer_p := consume buffer_p require_len in
        let s := set_msg_count (msg_count_ s + 1) (set_remain (remain_ s - require_len) s) in
        let s := if remain_ s <=? 0 then set_chunk_ready true s else s in
        mret (RTMP_OK, buffer_p, set_phase CHUNK_STREAM_PHASE_HEADER s)
  end.

(** [ChunkStream::Reset] *)
Definition Reset_chunk (s : ChunkStream) : ChunkStream :=
  set_chunk_data [] (set_chunk_all [] (set_chunk_ready false (set_phase CHUNK_STREAM_PHASE_HEADER s))).

(** ** Writing *)

Definition append_all (d : bytes) (s : ChunkStream) : ChunkStream := set_chunk_all (chunk_all_ s ++ d) s.

(** The basic header of [GenData]; [None] is its error return. *)
Definition gen_basic_header (fmt csid : Z) : option bytes :=
  if csid <? 64 then Some [u8 (Z.lor (Z.shiftl fmt 6) (Z.land csid 0x3f))]
  else if csid - 64 <? 256 then Some [Z.land (Z.shiftl fmt 6) 0xc0; u8 csid]
  else if csid - 64 <? 65536 then Some (Z.lor (Z.land (Z.shiftl fmt 6) 0xc0) 0x01 :: Write2Bytes csid)
  else None.

(** The message header of [GenData]. *)
Definition gen_message_header (s : ChunkStream) : bytes :=
  if fmt_ s =? 0 then
    Write3Bytes (timestamp32_ s) ++ Write3Bytes (msg_len_ s) ++ [type_id_ s] ++ Write4Bytes (msg_stream_id_ s)
  else if fmt_ s =? 1 then
    Write3Bytes (timestamp32_ s) ++ Write3Bytes (msg_len_ s) ++ [type_id_ s]
  else if fmt_ s =? 2 then Write3Bytes (timestamp32_ s)
  else [].

Definition GenData (data : bytes) (s : ChunkStream) : Z * ChunkStream :=
  match gen_basic_header (fmt_ s) (csid_ s) with
  | None => (-1, s)
  | Some h => (RTMP_OK, append_all data (append_all (gen_message_header s) (append_all h s)))
  end.

Definition Event_streamBegin : Z := 0.
Definition Event_streamIsRecorded : Z := 4.
Definition RTMP_CONTROL_USER_CTRL_MESSAGES : Z := 4.

(** The six bytes of a user control message: the event and stream id 1. *)
Definition user_ctrl_data (event : Z) : bytes :=
  [Z.land (Z.shiftr (u8 event) 8) 0xff; Z.land (u8 event) 0xff] ++
  map (fun i => Z.land (Z.shiftr 1 ((3 - i) * 8)) 0xff) [0; 1; 2; 3].

Definition GenSetRecordedMessage (s : ChunkStream) : Z * ChunkStream :=
  let s := set_type_id (u8 RTMP_CONTROL_USER_CTRL_MESSAGES) (set_csid 2 (set_fmt 0 s)) in
  let s := set_msg_len 6 (set_msg_stream_id 1 s) in
  (RTMP_OK, (GenData (user_ctrl_data Event_streamIsRecorded) s).2).

Definition GenSetBeginMessage (s : ChunkStream) : Z * ChunkStream :=
  let s := set_type_id (u8 RTMP_CONTROL_USER_CTRL_MESSAGES) (set_csid 2 (set_fmt 0 s)) in
  let s := set_msg_len 6 (set_msg_stream_id 1 s) in
  (RTMP_OK, (GenData (user_ctrl_data Event_streamBegin) s).2).

Definition GenControlMessage (ctrl_type size value : Z) (s : ChunkStream) : Z * ChunkStream :=
  let s := set_type_id (u8 ctrl_type) (set_fmt 0 s) in
  let s := set_msg_len size (set_msg_stream_id 0 s) in
  let data :=
    if size =? 1 then Some [u8 value]
    else if size =? 2 then Some (Write2Bytes (u16 value))
    else if size =? 3 then Some (Write3Bytes value)
    else if size =? 4 then Some (Write4Bytes value)
    else if size =? 5 then Some (Write4Bytes value ++ [2])
    else None in
  match data with
  | Some d => (RTMP_OK, (GenData d s).2)
  | None => (-1, s)
  end.

(** The [for] loop of [WriteDataByChunkStream], [count] turns from [index] on. *)
Fixpoint write_chunks (csid timestamp type_id msg_stream_id chunk_size : Z) (input : bytes)
    (cs_count index : Z) (count : nat) : outcome (list bytes) :=
  match count with
  | O => mret []
  | S count =>
      let fmt := if index =? 0 then 0 else 3 in
      let len :=
        if index =? cs_count - 1 then
          if 0 <? zlen input mod chunk_size then i32 (zlen input mod chunk_size) else i32 chunk_size
        else i32 chunk_size in
      p ← read_range input (u32 (index * chunk_size)) len;
      let c := ChunkStream_new fmt csid chunk_size in
      let c := set_msg_len (u32 (zlen input)) (set_timestamp32 timestamp c) in
      let c := set_msg_stream_id msg_stream_id (set_type_id type_id c) in
      let c := (GenData p c).2 in
      sent ← write_chunks csid timestamp type_id msg_stream_id chunk_size input cs_count (index + 1) count;
      mret (chunk_all_ c :: sent)
  end.

(** [WriteDataByChunkStream] on a [DataBuffer&]: the return code and what is sent. *)
Definition WriteDataByChunkStream (csid timestamp type_id msg_stream_id chunk_size : Z) (input : bytes)
    : outcome (Z * list bytes) :=
  if chunk_size =? 0 then Fault DivByZero
  else
    let cs_count := i32 (zlen input / chunk_size) in
    let cs_count := if 0 <? zlen input mod chunk_size then cs_count + 1 else cs_count in
    sent ← write_chunks csid timestamp type_id msg_stream_id chunk_size input cs_count 0 (Z.to_nat cs_count);
    mret (RTMP_OK, sent).

(** The overload on a [shared_ptr<DataBuffer>], whose body is the same. *)
Definition WriteDataByChunkStream_ptr (csid timestamp type_id msg_stream_id chunk_size : Z)
    (input_buffer_ptr : bytes) : outcome (Z * list bytes) :=
  WriteDataByChunkStream csid timestamp type_id msg_stream_id chunk_size input_buffer_ptr.

(** One turn of the loop. *)
Lemma write_chunks_S csid ts ty msid c input cs_count index count :
  write_chunks csid ts ty msid c input cs_count index (S count) =
  (p ← read_range input (u32 (index * c))
         (if index =? cs_count - 1
          then if 0 <? zlen input mod c then i32 (zlen input mod c) else i32 c
          else i32 c);
   sent ← write_chunks csid ts ty msid c input cs_count (index + 1) count;
   mret (chunk_all_ (GenData p (set_msg_stream_id msid (set_type_id ty (set_msg_len (u32 (zlen input))
          (set_timestamp32 ts (ChunkStream_new (if index =? 0 then 0 else 3) csid c)))))).2 :: sent)).
Proof. reflexivity. Qed.

(** ** Reading what [GenData] writes *)

Lemma zlen_Write3 v : zlen (Write3Bytes v) = 3. Proof. done. Qed.
Lemma zlen_Write4 v : zlen (Write4Bytes v) = 4. Proof. done. Qed.

(** A type 0 header with a plain timestamp fills the message fields. *)
Lemma ReadMsgFormat0_spec csid ts n ty msid tail s :
  0 <= ts < 0xffffff -> 0 <= n < 2 ^ 24 -> 0 <= msid < 2 ^ 32 ->
  ReadMsgFormat0 0 csid
    ((Write3Bytes ts ++ Write3Bytes n ++ [ty] ++ Write4Bytes msid) ++ tail) s =
  Done (RTMP_OK, tail,
    set_remain n (set_msg_stream_id msid (set_type_id ty (set_msg_len n
      (set_timestamp_delta 0 (set_timestamp32 ts (set_csid csid (set_fmt 0 s)))))))).
Proof.
  intros Hts Hn Hm. unfold ReadMsgFormat0. rewrite require_app by done. cbn [negb].
  rewrite <- !app_assoc. rewrite Read3Bytes_Write3Bytes, (Z.mod_small ts) by lia. simpl_m.
  destruct (Z.leb_spec 0xffffff ts); [lia|]. cbn [andb]. simpl_m.
  change (drop 3 (Write3Bytes ts ++ ?x)) with x. rewrite Read3Bytes_Write3Bytes, (Z.mod_small n) by lia.
  simpl_m. change (drop 6 (Write3Bytes ts ++ Write3Bytes n ++ ?x)) with x.
  replace (([ty] ++ Write4Bytes msid ++ tail).[0]) with (Done ty) by done. simpl_m.
  change (drop 7 (Write3Bytes ts ++ Write3Bytes n ++ [ty] ++ ?x)) with x.
  rewrite Read4Bytes_Write4Bytes. unfold u32. rewrite (Z.mod_small msid) by lia. simpl_m.
  done.
Qed.

(** A type 3 chunk of a message under way has no message header. *)
Lemma ReadMsgFormat3_middle csid buf s :
  remain_ s <> 0 -> ext_ts_flag_ s = false ->
  ReadMsgFormat3 3 csid buf s = Done (RTMP_OK, buf, set_csid csid (set_fmt 3 s)).
Proof. intros Hr He. unfold ReadMsgFormat3. rewrite He. by destruct (Z.eqb_spec (remain_ s) 0). Qed.

(** One chunk of payload. *)
Lemma ReadMessagePayload_spec p tail s :
  phase_ s = CHUNK_STREAM_PHASE_PAYLOAD -> 0 <= remain_ s < 2 ^ 31 -> 0 < chunk_size_ s ->
  zlen p = Z.min (chunk_size_ s) (remain_ s) ->
  ReadMessagePayload (p ++ tail) s =
  Done (RTMP_OK, tail,
   let s' := set_msg_count (msg_count_ s + 1) (set_remain (remain_ s - zlen p)
               (set_chunk_data (chunk_data_ s ++ p) (set_require_len (zlen p) s))) in
   set_phase CHUNK_STREAM_PHASE_HEADER
     (if remain_ s - zlen p <=? 0 then set_chunk_ready true s' else s')).
Proof.
  intros Hph Hr Hc Hp. unfold ReadMessagePayload. rewrite Hph.
  replace (if chunk_size_ s <? remain_ s then chunk_size_ s else remain_ s) with (zlen p)
    by (destruct (Z.ltb_spec (chunk_size_ s) (remain_ s)); lia).
  pose proof (zlen_nonneg p). rewrite i32_small by lia. rewrite require_app by lia. cbn [negb].
  rewrite consume_app by done. rewrite read_range_app by done. reflexivity.
Qed.

(** A chunk stream between two chunks of a message: [acc] received, [r] bytes
    to come. *)
Record receiving (ts ty msid n : Z) (acc : bytes) (r : Z) (s : ChunkStream) : Prop := {
  rc_phase : phase_ s = CHUNK_STREAM_PHASE_HEADER;
  rc_ext : ext_ts_flag_ s = false;
  rc_data : chunk_data_ s = acc;
  rc_remain : remain_ s = r;
  rc_ready : chunk_ready_ s = (r <=? 0);
  rc_len : msg_len_ s = n;
  rc_type : type_id_ s = ty;
  rc_ts : timestamp32_ s = ts;
  rc_msid : msg_stream_id_ s = msid
}.

(** A chunk stream ready for a new message. *)
Record idle_cs (s : ChunkStream) : Prop := {
  idle_phase : phase_ s = CHUNK_STREAM_PHASE_HEADER;
  idle_ext : ext_ts_flag_ s = false;
  idle_data : chunk_data_ s = [];
  idle_ready : chunk_ready_ s = false
}.

Lemma idle_new fmt csid c : idle_cs (ChunkStream_new fmt csid c).
Proof. done. Qed.

Lemma idle_set_chunk_size c s : idle_cs s -> idle_cs (set_chunk_size c s).
Proof. intros []. by split. Qed.

Lemma receiving_set_chunk_size ts ty msid n acc r c s :
  receiving ts ty msid n acc r s -> receiving ts ty msid n acc r (set_chunk_size c s).
Proof. intros []. by split. Qed.

Lemma Reset_chunk_idle s : ext_ts_flag_ s = false -> idle_cs (Reset_chunk s).
Proof. intros H. by split. Qed.

(** Header and payload of the first chunk. *)
Lemma first_chunk csid ts ty msid n p tail s c :
  idle_cs s -> chunk_size_ s = c -> 0 < c ->
  0 <= ts < 0xffffff -> 0 < n < 2 ^ 24 -> 0 <= msid < 2 ^ 32 -> zlen p = Z.min c n ->
  exists s1 s2,
    ReadMessageHeader 0 csid
      ((Write3Bytes ts ++ Write3Bytes n ++ [ty] ++ Write4Bytes msid) ++ p ++ tail) s =
      Done (RTMP_OK, p ++ tail, s1) /\
    ReadMessagePayload (p ++ tail) s1 = Done (RTMP_OK, tail, s2) /\
    receiving ts ty msid n p (n - zlen p) s2.
Proof.
  intros [Hp He Hd Hr] Hc Hc0 Hts Hn Hm Hl. unfold ReadMessageHeader. rewrite Hp. cbn [Z.eqb].
  rewrite ReadMsgFormat0_spec by lia. simpl_m. cbn [Z.eqb]. eexists _, _. split; [reflexivity|].
  rewrite ReadMessagePayload_spec by (cbn -[Z.pow]; lia || done). split; [reflexivity|].
  cbn -[Z.pow]. rewrite Hd. destruct (n - zlen p <=? 0) eqn:E; split; cbn; try done; by rewrite E.
Qed.

(** Header and payload of a continuation chunk. *)
Lemma next_chunk csid ts ty msid n acc r p tail s c :
  receiving ts ty msid n acc r s -> chunk_size_ s = c -> 0 < c -> 0 < r < 2 ^ 31 ->
  zlen p = Z.min c r ->
  exists s1 s2,
    ReadMessageHeader 3 csid (p ++ tail) s = Done (RTMP_OK, p ++ tail, s1) /\
    ReadMessagePayload (p ++ tail) s1 = Done (RTMP_OK, tail, s2) /\
    receiving ts ty msid n (acc ++ p) (r - zlen p) s2.
Proof.
  intros [Hp He Hd Hrm Hrd Hn Hty Hts Hm] Hc Hc0 Hr Hl. unfold ReadMessageHeader. rewrite Hp. cbn [Z.eqb].
  rewrite ReadMsgFormat3_middle by (done || lia). simpl_m. cbn [Z.eqb]. eexists _, _. split; [reflexivity|].
  rewrite ReadMessagePayload_spec by (cbn -[Z.pow]; lia || done). split; [reflexivity|].
  cbn -[Z.pow]. rewrite Hd, Hrm.
  replace (r <=? 0) with false in Hrd by lia.
  destruct (r - zlen p <=? 0) eqn:E; split; cbn; try done; by rewrite E.
Qed.

(** ** Partial input

    A header or payload that is not all there yet leaves the buffer alone, and
    running again on more input is the run on all the input; one that is there
    is read the same whatever follows it. *)

Definition resumes (run : bytes -> ChunkStream -> outcome (Z * bytes * ChunkStream)) : Prop :=
  forall buf s ret buf' s', run buf s = Done (ret, buf', s') ->
    (ret = RTMP_OK /\ chunk_size_ s' = chunk_size_ s /\
     forall d, run (buf ++ d) s = Done (RTMP_OK, buf' ++ d, s')) \/
    (ret = RTMP_NEED_READ_MORE /\ buf' = buf /\ phase_ s' = phase_ s /\ chunk_size_ s' = chunk_size_ s /\
     forall d, run (buf ++ d) s' = run (buf ++ d) s).

(** The common shape of the three message headers: [n] bytes of which the first
    three are the timestamp, then the extended timestamp; [upd] stores the fields. *)
Definition read_header (n : nat) (upd : bytes -> Z -> ChunkStream -> ChunkStream)
    (f c : Z) (buf : bytes) (s : ChunkStream) : outcome (Z * bytes * ChunkStream) :=
  if decide (length buf < n)%nat then Done (RTMP_NEED_READ_MORE, buf, s)
  else
    let s := set_csid c (set_fmt f s) in
    let ts := be_value (take 3 (take n buf)) in
    if 0xffffff <=? ts then
      let s := set_ext_ts_flag true s in
      if decide (length buf < n + 4)%nat then Done (RTMP_NEED_READ_MORE, buf, s)
      else Done (RTMP_OK, drop (n + 4) buf, upd (take n buf) (be_value (take 4 (drop n buf))) s)
    else Done (RTMP_OK, drop n buf, upd (take n buf) ts s).

Lemma read_header_resumes n upd f c :
  (3 <= n)%nat -> (forall h t s, chunk_size_ (upd h t s) = chunk_size_ s) ->
  resumes (read_header n upd f c).
Proof.
  intros Hn Hupd buf s ret buf' s'. unfold read_header.
  destruct (decide (length buf < n)%nat) as [Hlt|Hge]; [intros [= <- <- <-]; by right|].
  destruct (Z.leb_spec 0xffffff (be_value (take 3 (take n buf)))) as [He|He].
  - destruct (decide (length buf < n + 4)%nat) as [Hlt4|Hge4]; intros [= <- <- <-].
    + right. split_and!; [done..|]. intros d. rewrite length_app.
      rewrite (take_app_le buf) by lia. destruct (decide _); [lia|].
      destruct (Z.leb_spec 0xffffff (be_value (take 3 (take n buf)))); [|lia]. by destruct s.
    + left. split; [done|]. split; [by rewrite Hupd|]. intros d. rewrite length_app.
      destruct (decide _); [lia|]. rewrite (take_app_le buf) by lia.
      destruct (Z.leb_spec 0xffffff (be_value (take 3 (take n buf)))); [|lia].
      destruct (decide _); [lia|]. rewrite (drop_app_le buf d n), (drop_app_le buf d (n + 4)) by lia.
      by rewrite (take_app_le (drop n buf)) by (rewrite length_drop; lia).
  - intros [= <- <- <-]. left. split; [done|]. split; [by rewrite Hupd|]. intros d. rewrite length_app.
    destruct (decide _); [lia|]. rewrite (take_app_le buf) by lia.
    destruct (Z.leb_spec 0xffffff (be_value (take 3 (take n buf)))); [lia|].
    by rewrite drop_app_le by lia.
Qed.

Lemma Read3Bytes_take p : (3 <= length p)%nat -> Read3Bytes p = Done (be_value (take 3 p)).
Proof.
  intros H. rewrite <- (take_drop 3 p) at 1. apply Read3Bytes_spec. rewrite length_take. lia.
Qed.
Lemma Read4Bytes_take p : (4 <= length p)%nat -> Read4Bytes p = Done (be_value (take 4 p)).
Proof.
  intros H. rewrite <- (take_drop 4 p) at 1. apply Read4Bytes_spec. rewrite length_take. lia.
Qed.
Lemma rd_total p i : (0 <= i)%Z -> (Z.to_nat i < length p)%nat -> rd p i = Done (p !!! Z.to_nat i).
Proof.
  intros H0 H. unfold rd. rewrite bool_decide_eq_true_2 by done.
  by rewrite (list_lookup_lookup_total_lt p _ H).
Qed.

Definition upd0 (h : bytes) (ts : Z) (s : ChunkStream) : ChunkStream :=
  let s := set_timestamp_delta 0 (set_timestamp32 ts s) in
  let s := set_msg_stream_id (be_value (take 4 (drop 7 h)))
             (set_type_id (drop 6 h !!! 0%nat) (set_msg_len (be_value (take 3 (drop 3 h))) s)) in
  set_remain (be_value (take 3 (drop 3 h))) s.
Definition upd1 (h : bytes) (ts : Z) (s : ChunkStream) : ChunkStream :=
  let s := set_timestamp32 (u32 (timestamp32_ s + ts)) (set_timestamp_delta ts s) in
  let s := set_type_id (drop 6 h !!! 0%nat) (set_msg_len (be_value (take 3 (drop 3 h))) s) in
  set_remain (be_value (take 3 (drop 3 h))) s.
Definition upd2 (h : bytes) (ts : Z) (s : ChunkStream) : ChunkStream :=
  let s := set_timestamp32 (u32 (timestamp32_ s + ts)) (set_timestamp_delta ts s) in
  set_remain (msg_len_ s) s.

(** Evaluate the reads of a header on a buffer known to be long enough. *)
Ltac run_reads :=
  repeat first
    [ rewrite Read3Bytes_take by (rewrite ?length_drop; lia)
    | rewrite Read4Bytes_take by (rewrite ?length_drop; lia)
    | rewrite rd_total by (rewrite ?length_drop; lia)
    | progress simpl_m ].

(** The format functions and the common shape agree field by field once the
    header bytes are named. *)
Ltac same_header n len :=
  unfold read_header, consume, FORMAT0_HEADER_LEN, FORMAT1_HEADER_LEN, FORMAT2_HEADER_LEN, EXT_TS_LEN;
  rewrite !require_length by done;
  match goal with |- context [Z.to_nat (?x + 4)] =>
    change (Z.to_nat (x + 4)) with len; change (Z.to_nat x) with n end;
  destruct (decide _); case_bool_decide; try lia; [done|]; cbn [negb]; run_reads;
  rewrite take_take; change (3 `min` n)%nat with 3%nat;
  match goal with |- context [0xffffff <=? ?t] => destruct (0xffffff <=? t) end; cbn [andb];
  [destruct (decide _); case_bool_decide; try lia; [done|]; cbn [negb]|]; run_reads;
  match goal with b : bytes |- _ =>
    repeat (destruct b as [|? b]; [exfalso; cbn [length] in *; lia|]); reflexivity end.

Lemma ReadMsgFormat0_header f c buf s : ReadMsgFormat0 f c buf s = read_header 11 upd0 f c buf s.
Proof. unfold ReadMsgFormat0. same_header 11%nat 15%nat. Qed.
Lemma ReadMsgFormat1_header f c buf s : ReadMsgFormat1 f c buf s = read_header 7 upd1 f c buf s.
Proof. unfold ReadMsgFormat1. same_header 7%nat 11%nat. Qed.
Lemma ReadMsgFormat2_header f c buf s : ReadMsgFormat2 f c buf s = read_header 3 upd2 f c buf s.
Proof. unfold ReadMsgFormat2. same_header 3%nat 7%nat. Qed.

Lemma resumes_ext run run' : (forall b s, run b s = run' b s) -> resumes run -> resumes run'.
Proof.
  intros He H buf s ret buf' s' Hr. rewrite <- He in Hr. specialize (H _ _ _ _ _ Hr).
  destruct H as [(-> & Hc & H)|(-> & -> & Hp & Hc & H)]; [left|right]; split_and!; try done.
  - intros d. by rewrite <- He.
  - intros d. by rewrite <- !He.
Qed.

Lemma Read4Bytes_extend_require buf d : require buf EXT_TS_LEN = true ->
  Read4Bytes (buf ++ d) = Read4Bytes buf /\ consume (buf ++ d) EXT_TS_LEN = consume buf EXT_TS_LEN ++ d /\
  require (buf ++ d) EXT_TS_LEN = true.
Proof.
  intros Hq. split_and!; [|by apply consume_extend|by apply require_extend].
  rewrite require_length in Hq by done. apply bool_decide_eq_true in Hq. change (Z.to_nat EXT_TS_LEN) with 4%nat in Hq.
  rewrite !Read4Bytes_take by (rewrite ?length_app; lia). by rewrite take_app_le by lia.
Qed.

Lemma ReadMsgFormat3_resumes f c : resumes (ReadMsgFormat3 f c).
Proof.
  intros buf s ret buf' s'. unfold ReadMsgFormat3, ReadMsgFormat3_new.
  destruct (remain_ s =? 0) eqn:E1;
    [destruct (fmt_ s =? 0) eqn:E2; [|destruct ((fmt_ s =? 1) || (fmt_ s =? 2)) eqn:E3]|].
  all: destruct (ext_ts_flag_ s) eqn:He; simpl_m.
  all: try (intros [= <- <- <-]; left; by split_and!).
  all: destruct (require buf EXT_TS_LEN) eqn:Hq; cbn [negb]; do 2 simpl_m.
  all: try (intros [= <- <- <-]; right; split_and!; try done; intros d; by rewrite ?E1, ?E2, ?E3, ?He).
  all: destruct (Read4Bytes buf) eqn:Er; do 2 simpl_m; try (intros; discriminate).
  all: intros [= <- <- <-]; left; split_and!; try done; intros d;
    destruct (Read4Bytes_extend_require buf d Hq) as (-> & Hc & ->); cbn [negb]; rewrite Er; simpl_m.
  all: rewrite ?Hc; try done.
  by destruct (_ =? timestamp32_ s).
Qed.

Lemma ReadMessageHeader_resumes f c : resumes (ReadMessageHeader f c).
Proof.
  intros buf s ret buf' s'. unfold ReadMessageHeader. destruct (phase_ s) eqn:Hp.
  2: { intros [= <- <- <-]; left; by split_and!. }
  assert (resumes (fun b s => if f =? 0 then ReadMsgFormat0 f c b s else if f =? 1 then ReadMsgFormat1 f c b s
    else if f =? 2 then ReadMsgFormat2 f c b s else if f =? 3 then ReadMsgFormat3 f c b s
    else Fault AssertFailure)) as Hf.
  { repeat destruct (f =? _); [..|apply ReadMsgFormat3_resumes|by intros ? ? ? ? ? [=]].
    - eapply resumes_ext; [intros; symmetry; apply ReadMsgFormat0_header|by apply read_header_resumes; [lia|]].
    - eapply resumes_ext; [intros; symmetry; apply ReadMsgFormat1_header|by apply read_header_resumes; [lia|]].
    - eapply resumes_ext; [intros; symmetry; apply ReadMsgFormat2_header|by apply read_header_resumes; [lia|]]. }
  match goal with |- mbind _ ?m = _ -> _ => destruct m as [[[r b1] s1]|] eqn:E; [|discriminate] end.
  specialize (Hf _ _ _ _ _ E). cbn beta in Hf. simpl_m.
  destruct Hf as [(-> & Hc & Hf)|(-> & -> & Hph & Hc & Hf)]; cbn [Z.eqb]; simpl_m; intros [= <- <- <-].
  - left. split_and!; [done..|]. intros d. by rewrite Hf.
  - right. split_and!; [done|done|congruence|done|]. intros d. rewrite Hph, Hp. by rewrite Hf.
Qed.

Lemma ReadMessagePayload_resumes : resumes ReadMessagePayload.
Proof.
  intros buf s ret buf' s'. unfold ReadMessagePayload. destruct (phase_ s) eqn:Hp.
  { intros [= <- <- <-]; left; by split_and!. }
  set (n := if chunk_size_ s <? remain_ s then chunk_size_ s else remain_ s).
  destruct (require buf (i32 n)) eqn:Hq; cbn [negb].
  - destruct (read_range buf 0 n) as [p|] eqn:Hr; simpl_m; [|discriminate]. intros [= <- <- <-].
    left. split_and!; [done|by cbn; destruct (_ <=? 0)|]. intros d.
    destruct (read_range_extend buf d n p Hr) as [-> ->]. by rewrite (require_extend buf d).
  - intros [= <- <- <-]. right. split_and!; try done. intros d. cbn [phase_ set_require_len]. by rewrite Hp.
Qed.

(** The chunk writer has no extended timestamp: it sends the low 24 bits of
    the timestamp, so a stream past 2^24 ms (4 h 40 min) puts the same bytes on
    the wire as one that has just started. *)
Theorem timestamp_wraps_at_24_bits csid ts ty msid c data :
  WriteDataByChunkStream csid ts ty msid c data =
  WriteDataByChunkStream csid (ts mod 2 ^ 24) ty msid c data.
Proof.
  assert (Write3Bytes (ts mod 2 ^ 24) = Write3Bytes ts) as He.
  { rewrite !Write3Bytes_be. apply (be_bytes_mod 3 ts). }
  assert (forall total count i, write_chunks csid ts ty msid c data total i count =
    write_chunks csid (ts mod 2 ^ 24) ty msid c data total i count) as Hw.
  { intros total count. induction count as [|count IH]; intros i; [reflexivity|].
    rewrite !write_chunks_S, <- IH. destruct (read_range data _ _) as [p|]; simpl_m; [|reflexivity].
    unfold GenData, gen_message_header. cbn -[Z.pow Z.modulo Write3Bytes]. rewrite He. by destruct (gen_basic_header _ _). }
  unfold WriteDataByChunkStream. destruct (c =? 0); [reflexivity|]. by rewrite Hw.
Qed.
