(* ===== verification/RtmpSession.v ===== *)
(** * [RtmpSessionBase]: the receive side of an RTMP connection

    Models [src/net/rtmp/rtmp_session_base.hpp], [rtmp_session_base.cpp] and
    [rtmp_request.hpp].  The chunk streams live in [cs_map_], whose key is a
    [uint8_t] in the source: the 16-bit chunk stream id is cut to its low byte.
    [ReadChunkStream] returns the key of the chunk stream its out-parameter
    shares with the map.  [sent_] lists, in order, the byte strings handed to
    [RtmpSend]. *)
From S2P Require Import Prelude ByteStream DataBuffer ChunkStream.

Inductive RTMP_SERVER_SESSION_PHASE :=
  | initial_phase | handshake_c2_phase | connect_phase | create_stream_phase
  | create_publish_play_phase | media_handle_phase.
Inductive RTMP_CLIENT_SESSION_PHASE :=
  | client_initial_phase | client_c0c1_phase | client_s0s1s2_phase | client_connect_phase
  | client_connect_resp_phase | client_create_stream_phase | client_create_stream_resp_phase
  | client_create_play_phase | client_create_publish_phase | client_create_playpublish_resp_phase
  | client_media_handle_phase.
#[export] Instance server_phase_eq_dec : EqDecision RTMP_SERVER_SESSION_PHASE.
Proof. solve_decision. Defined.
#[export] Instance client_phase_eq_dec : EqDecision RTMP_CLIENT_SESSION_PHASE.
Proof. solve_decision. Defined.

(** [RtmpRequest]; its [stream_id_] is [req_stream_id_] here. *)
Record RtmpRequest := mkRequest {
  publish_flag_ : bool;
  is_ready_ : bool;
  app_ : bytes;
  tcurl_ : bytes;
  flash_ver_ : bytes;
  stream_name_ : bytes;
  key_ : bytes;
  transaction_id_ : Z;
  req_stream_id_ : Z
}.

Definition set_publish_flag (v : bool) (s : RtmpRequest) : RtmpRequest :=
  mkRequest v (is_ready_ s) (app_ s) (tcurl_ s) (flash_ver_ s) (stream_name_ s) (key_ s) (transaction_id_ s) (req_stream_id_ s).
Definition set_is_ready (v : bool) (s : RtmpRequest) : RtmpRequest :=
  mkRequest (publish_flag_ s) v (app_ s) (tcurl_ s) (flash_ver_ s) (stream_name_ s) (key_ s) (transaction_id_ s) (req_stream_id_ s).
Definition set_app (v : bytes) (s : RtmpRequest) : RtmpRequest :=
  mkRequest (publish_flag_ s) (is_ready_ s) v (tcurl_ s) (flash_ver_ s) (stream_name_ s) (key_ s) (transaction_id_ s) (req_stream_id_ s).
Definition set_tcurl (v : bytes) (s : RtmpRequest) : RtmpRequest :=
  mkRequest (publish_flag_ s) (is_ready_ s) (app_ s) v (flash_ver_ s) (stream_name_ s) (key_ s) (transaction_id_ s) (req_stream_id_ s).
Definition set_flash_ver (v : bytes) (s : RtmpRequest) : RtmpRequest :=
  mkRequest (publish_flag_ s) (is_ready_ s) (app_ s) (tcurl_ s) v (stream_name_ s) (key_ s) (transaction_id_ s) (req_stream_id_ s).
Definition set_stream_name (v : bytes) (s : RtmpRequest) : RtmpRequest :=
  mkRequest (publish_flag_ s) (is_ready_ s) (app_ s) (tcurl_ s) (flash_ver_ s) v (key_ s) (transaction_id_ s) (req_stream_id_ s).
Definition set_key (v : bytes) (s : RtmpRequest) : RtmpRequest :=
  mkRequest (publish_flag_ s) (is_ready_ s) (app_ s) (tcurl_ s) (flash_ver_ s) (stream_name_ s) v (transaction_id_ s) (req_stream_id_ s).
Definition set_transaction_id (v : Z) (s : RtmpRequest) : RtmpRequest :=
  mkRequest (publish_flag_ s) (is_ready_ s) (app_ s) (tcurl_ s) (flash_ver_ s) (stream_name_ s) (key_ s) v (req_stream_id_ s).
Definition set_req_stream_id (v : Z) (s : RtmpRequest) : RtmpRequest :=
  mkRequest (publish_flag_ s) (is_ready_ s) (app_ s) (tcurl_ s) (flash_ver_ s) (stream_name_ s) (key_ s) (transaction_id_ s) v.

Definition RtmpRequest_new : RtmpRequest := mkRequest false false [] [] [] [] [] 1 0.

(** [RtmpSessionBase]; its [fmt_], [csid_] and [chunk_size_] carry an [s_]. *)
Record RtmpSession := mkSession {
  recv_buffer_ : bytes;
  fmt_ready_ : bool;
  s_fmt_ : Z;
  s_csid_ : Z;
  cs_map_ : gmap Z ChunkStream;
  remote_window_acksize_ : Z;
  ack_received_ : Z;
  req_ : RtmpRequest;
  stream_id_ : Z;
  server_phase_ : RTMP_SERVER_SESSION_PHASE;
  client_phase_ : RTMP_CLIENT_SESSION_PHASE;
  s_chunk_size_ : Z;
  sent_ : list bytes
}.

(** Assignments to one field. *)
Definition set_recv_buffer (v : bytes) (s : RtmpSession) : RtmpSession :=
  mkSession v (fmt_ready_ s) (s_fmt_ s) (s_csid_ s) (cs_map_ s) (remote_window_acksize_ s) (ack_received_ s) (req_ s) (stream_id_ s) (server_phase_ s) (client_phase_ s) (s_chunk_size_ s) (sent_ s).
Definition set_fmt_ready (v : bool) (s : RtmpSession) : RtmpSession :=
  mkSession (recv_buffer_ s) v (s_fmt_ s) (s_csid_ s) (cs_map_ s) (remote_window_acksize_ s) (ack_received_ s) (req_ s) (stream_id_ s) (server_phase_ s) (client_phase_ s) (s_chunk_size_ s) (sent_ s).
Definition set_s_fmt (v : Z) (s : RtmpSession) : RtmpSession :=
  mkSession (recv_buffer_ s) (fmt_ready_ s) v (s_csid_ s) (cs_map_ s) (remote_window_acksize_ s) (ack_received_ s) (req_ s) (stream_id_ s) (server_phase_ s) (client_phase_ s) (s_chunk_size_ s) (sent_ s).
Definition set_s_csid (v : Z) (s : RtmpSession) : RtmpSession :=
  mkSession (recv_buffer_ s) (fmt_ready_ s) (s_fmt_ s) v (cs_map_ s) (remote_window_acksize_ s) (ack_received_ s) (req_ s) (stream_id_ s) (server_phase_ s) (client_phase_ s) (s_chunk_size_ s) (sent_ s).
Definition set_cs_map (v : gmap Z ChunkStream) (s : RtmpSession) : RtmpSession :=
  mkSession (recv_buffer_ s) (fmt_ready_ s) (s_fmt_ s) (s_csid_ s) v (remote_window_acksize_ s) (ack_received_ s) (req_ s) (stream_id_ s) (server_phase_ s) (client_phase_ s) (s_chunk_size_ s) (sent_ s).
Definition set_remote_window_acksize (v : Z) (s : RtmpSession) : RtmpSession :=
  mkSession (recv_buffer_ s) (fmt_ready_ s) (s_fmt_ s) (s_csid_ s) (cs_map_ s) v (ack_received_ s) (req_ s) (stream_id_ s) (server_phase_ s) (client_phase_ s) (s_chunk_size_ s) (sent_ s).
Definition set_ack_received (v : Z) (s : RtmpSession) : RtmpSession :=
  mkSession (recv_buffer_ s) (fmt_ready_ s) (s_fmt_ s) (s_csid_ s) (cs_map_ s) (remote_window_acksize_ s) v (req_ s) (stream_id_ s) (server_phase_ s) (client_phase_ s) (s_chunk_size_ s) (sent_ s).
Definition set_req (v : RtmpRequest) (s : RtmpSession) : RtmpSession :=
  mkSession (recv_buffer_ s) (fmt_ready_ s) (s_fmt_ s) (s_csid_ s) (cs_map_ s) (remote_window_acksize_ s) (ack_received_ s) v (stream_id_ s) (server_phase_ s) (client_phase_ s) (s_chunk_size_ s) (sent_ s).
Definition set_stream_id (v : Z) (s : RtmpSession) : RtmpSession :=
  mkSession (recv_buffer_ s) (fmt_ready_ s) (s_fmt_ s) (s_csid_ s) (cs_map_ s) (remote_window_acksize_ s) (ack_received_ s) (req_ s) v (server_phase_ s) (client_phase_ s) (s_chunk_size_ s) (sent_ s).
Definition set_server_phase (v : RTMP_SERVER_SESSION_PHASE) (s : RtmpSession) : RtmpSession :=
  mkSession (recv_buffer_ s) (fmt_ready_ s) (s_fmt_ s) (s_csid_ s) (cs_map_ s) (remote_window_acksize_ s) (ack_received_ s) (req_ s) (stream_id_ s) v (client_phase_ s) (s_chunk_size_ s) (sent_ s).
Definition set_client_phase (v : RTMP_CLIENT_SESSION_PHASE) (s : RtmpSession) : RtmpSession :=
  mkSession (recv_buffer_ s) (fmt_ready_ s) (s_fmt_ s) (s_csid_ s) (cs_map_ s) (remote_window_acksize_ s) (ack_received_ s) (req_ s) (stream_id_ s) (server_phase_ s) v (s_chunk_size_ s) (sent_ s).
Definition set_s_chunk_size (v : Z) (s : RtmpSession) : RtmpSession :=
  mkSession (recv_buffer_ s) (fmt_ready_ s) (s_fmt_ s) (s_csid_ s) (cs_map_ s) (remote_window_acksize_ s) (ack_received_ s) (req_ s) (stream_id_ s) (server_phase_ s) (client_phase_ s) v (sent_ s).
Definition set_sent_log (v : list bytes) (s : RtmpSession) : RtmpSession :=
  mkSession (recv_buffer_ s) (fmt_ready_ s) (s_fmt_ s) (s_csid_ s) (cs_map_ s) (remote_window_acksize_ s) (ack_received_ s) (req_ s) (stream_id_ s) (server_phase_ s) (client_phase_ s) (s_chunk_size_ s) v.

Definition RtmpSessionBase_new : RtmpSession :=
  mkSession [] false 0 0 ∅ 2500000 0 RtmpRequest_new 1 initial_phase client_initial_phase
    CHUNK_DEF_SIZE [].

(** [RtmpSend]: the bytes go to the connection. *)
Definition RtmpSend (data : bytes) (s : RtmpSession) : RtmpSession := set_sent_log (sent_ s ++ [data]) s.

Definition SetChunkSize (chunk_size : Z) (s : RtmpSession) : RtmpSession := set_s_chunk_size chunk_size s.
Definition GetChunkSize (s : RtmpSession) : Z := s_chunk_size_ s.
Definition IsPublish (s : RtmpSession) : bool := publish_flag_ (req_ s).

(** The basic header of a chunk. Each byte is consumed as soon as it is there,
    also when the next one is still missing. *)
Definition ReadFmtCsid (s : RtmpSession) : outcome (Z * RtmpSession) :=
  let buf := recv_buffer_ s in
  if require buf 1 then
    p0 ← buf.[0];
    let s := set_s_csid (Z.land p0 0x3f) (set_s_fmt (Z.land (Z.shiftr p0 6) 0x3) s) in
    let buf := consume buf 1 in
    let s := set_recv_buffer buf s in
    if s_csid_ s =? 0 then
      if require buf 1 then
        p ← buf.[0];
        mret (RTMP_OK, set_s_csid (u16 (64 + p)) (set_recv_buffer (consume buf 1) s))
      else mret (RTMP_NEED_READ_MORE, s)
    else if s_csid_ s =? 1 then
      if require buf 2 then
        p ← buf.[0]; q ← buf.[1];
        mret (RTMP_OK, set_s_csid (u16 (u16 (64 + p) + q)) (set_recv_buffer (consume buf 2) s))
      else mret (RTMP_NEED_READ_MORE, s)
    else mret (RTMP_OK, s)
  else mret (RTMP_NEED_READ_MORE, s).

(** The chunk stream looked up, or made, for the current header. *)
Definition find_chunk_stream (s : RtmpSession) : ChunkStream :=
  match cs_map_ s !! u8 (s_csid_ s) with
  | None => ChunkStream_new (s_fmt_ s) (s_csid_ s) (s_chunk_size_ s)
  | Some cs => set_chunk_size (s_chunk_size_ s) cs
  end.

Definition store_cs (key : Z) (cs : ChunkStream) (s : RtmpSession) : RtmpSession :=
  set_cs_map (<[key := cs]> (cs_map_ s)) s.

(** The part of [ReadChunkStream] after the basic header. *)
Definition read_chunk_body (s : RtmpSession) : outcome (Z * option Z * RtmpSession) :=
  let key := u8 (s_csid_ s) in
  let cs := find_chunk_stream s in
  '(ret, buf, cs) ← ReadMessageHeader (s_fmt_ s) (s_csid_ s) (recv_buffer_ s) cs;
  let s := set_recv_buffer buf (store_cs key cs s) in
  if (ret <? RTMP_OK) || (ret =? RTMP_NEED_READ_MORE) then mret (ret, Some key, s)
  else
    '(ret, buf, cs) ← ReadMessagePayload (recv_buffer_ s) cs;
    let s := set_recv_buffer buf (store_cs key cs s) in
    if ret =? RTMP_OK then mret (ret, Some key, set_fmt_ready false s)
    else mret (ret, Some key, s).

Definition ReadChunkStream (s : RtmpSession) : outcome (Z * option Z * RtmpSession) :=
  if fmt_ready_ s then read_chunk_body s
  else
    '(ret, s) ← ReadFmtCsid s;
    if ret =? 0 then read_chunk_body (set_fmt_ready true s)
    else mret (ret, None, s).

(** The start of the loop of [RtmpClientSession::ReceiveRespMessage]: read chunks
    until the chunk stream just read is ready. *)
Fixpoint read_message (fuel : nat) (s : RtmpSession) : outcome (Z * option Z * RtmpSession) :=
  match fuel with
  | O => Fault OutOfFuel
  | S fuel =>
      '(ret, key, s) ← ReadChunkStream s;
      if (ret <? RTMP_OK) || (ret =? RTMP_NEED_READ_MORE) then mret (ret, None, s)
      else
        match key ≫= fun k => cs_map_ s !! k with
        | Some cs =>
            if IsReady cs then mret (RTMP_OK, key, s)
            else if 0 <? zlen (recv_buffer_ s) then read_message fuel s
            else mret (RTMP_NEED_READ_MORE, None, s)
        | None =>
            if 0 <? zlen (recv_buffer_ s) then read_message fuel s
            else mret (RTMP_NEED_READ_MORE, None, s)
        end
  end.

(** ** The basic header *)

Lemma basic_header_fields :
  forallb (fun csid =>
    let b0 := u8 (Z.lor (Z.shiftl 0 6) (Z.land csid 0x3f)) in
    let b3 := u8 (Z.lor (Z.shiftl 3 6) (Z.land csid 0x3f)) in
    (Z.land (Z.shiftr b0 6) 0x3 =? 0) && (Z.land b0 0x3f =? csid) &&
    (Z.land (Z.shiftr b3 6) 0x3 =? 3) && (Z.land b3 0x3f =? csid) && (u8 csid =? csid)) (seqZ 2 62) = true.
Proof. vm_compute. reflexivity. Qed.

Lemma basic_header_spec csid :
  2 <= csid < 64 ->
  forall fmt, fmt = 0 \/ fmt = 3 ->
  exists b, gen_basic_header fmt csid = Some [b] /\
    Z.land (Z.shiftr b 6) 0x3 = fmt /\ Z.land b 0x3f = csid /\ u8 csid = csid.
Proof.
  intros Hc fmt Hf. unfold gen_basic_header. destruct (Z.ltb_spec csid 64); [|lia].
  pose proof basic_header_fields as Hall. rewrite forallb_forall in Hall.
  specialize (Hall csid ltac:(apply list_elem_of_In, elem_of_seqZ; lia)). cbv beta zeta in Hall.
  rewrite !andb_true_iff, !Z.eqb_eq in Hall.
  eexists; split; [reflexivity|]. destruct Hf as [-> | ->]; tauto.
Qed.

(** Reading a one-byte basic header. *)
Lemma ReadFmtCsid_short s b tail :
  recv_buffer_ s = b :: tail -> 2 <= Z.land b 0x3f ->
  ReadFmtCsid s = Done (RTMP_OK, set_recv_buffer tail
    (set_s_csid (Z.land b 0x3f) (set_s_fmt (Z.land (Z.shiftr b 6) 0x3) s))).
Proof.
  intros Hb Hc. unfold ReadFmtCsid, require. rewrite Hb. unfold zlen at 1. cbn [length].
  destruct (Z.leb_spec 1 (Z.of_nat (S (length tail)))); [|lia].
  replace ((b :: tail).[0]) with (Done b) by done. simpl_m.
  change (consume (b :: tail) 1) with (drop 0 tail). rewrite drop_0.
  cbn [s_csid_ set_recv_buffer set_s_csid].
  replace (Z.land b 0x3f =? 0) with false by (symmetry; apply Z.eqb_neq; lia).
  replace (Z.land b 0x3f =? 1) with false by (symmetry; apply Z.eqb_neq; lia). reflexivity.
Qed.

(** ** One chunk through the session *)

Definition header_bytes (csid ts ty msid n fmt : Z) : bytes :=
  if fmt =? 0 then Write3Bytes ts ++ Write3Bytes n ++ [ty] ++ Write4Bytes msid else [].

(** The bytes of one chunk as [GenData] lays them out. *)
Lemma GenData_bytes fmt csid ts ty msid n c p :
  2 <= csid < 64 -> fmt = 0 \/ fmt = 3 ->
  exists b, Z.land (Z.shiftr b 6) 0x3 = fmt /\ Z.land b 0x3f = csid /\ u8 csid = csid /\
    chunk_all_ (GenData p (set_msg_stream_id msid (set_type_id ty (set_msg_len n
      (set_timestamp32 ts (ChunkStream_new fmt csid c)))))).2 = b :: header_bytes csid ts ty msid n fmt ++ p.
Proof.
  intros Hc Hf. destruct (basic_header_spec csid Hc fmt Hf) as (b & Hg & ? & ? & ?).
  exists b. split_and!; try done. unfold GenData. cbn [fmt_ csid_ set_msg_stream_id set_type_id set_msg_len
    set_timestamp32 ChunkStream_new]. rewrite Hg. by destruct Hf as [-> | ->].
Qed.

(** [ReadChunkStream] on a chunk whose header and payload are there. *)
Lemma ReadChunkStream_chunk s b h p tail cs1 cs2 csid :
  fmt_ready_ s = false -> recv_buffer_ s = b :: h ++ p ++ tail ->
  Z.land b 0x3f = csid -> 2 <= csid -> u8 csid = csid ->
  let fmt := Z.land (Z.shiftr b 6) 0x3 in
  let cs := match cs_map_ s !! csid with
            | None => ChunkStream_new fmt csid (s_chunk_size_ s)
            | Some cs => set_chunk_size (s_chunk_size_ s) cs end in
  ReadMessageHeader fmt csid (h ++ p ++ tail) cs = Done (RTMP_OK, p ++ tail, cs1) ->
  ReadMessagePayload (p ++ tail) cs1 = Done (RTMP_OK, tail, cs2) ->
  exists s', ReadChunkStream s = Done (RTMP_OK, Some csid, s') /\
    fmt_ready_ s' = false /\ recv_buffer_ s' = tail /\ s_chunk_size_ s' = s_chunk_size_ s /\
    cs_map_ s' = <[csid := cs2]> (cs_map_ s) /\ client_phase_ s' = client_phase_ s /\ sent_ s' = sent_ s.
Proof.
  intros Hfr Hbuf Hcs Hc2 Hu fmt cs Hh Hp. unfold ReadChunkStream. rewrite Hfr.
  rewrite (ReadFmtCsid_short s b (h ++ p ++ tail)) by (done || lia). simpl_m. cbn [Z.eqb].
  rewrite Hcs. unfold read_chunk_body, find_chunk_stream.
  cbn [s_csid_ s_fmt_ cs_map_ recv_buffer_ s_chunk_size_ set_fmt_ready set_recv_buffer set_s_csid set_s_fmt].
  rewrite Hu. fold fmt. fold cs. rewrite Hh. simpl_m. cbn [Z.ltb Z.eqb orb].
  cbn [recv_buffer_ set_recv_buffer store_cs set_cs_map]. rewrite Hp. cbn.
  eexists; split; [reflexivity|]. cbn. split_and!; try done. by rewrite insert_insert_eq.
Qed.

(** ** A whole message *)

Section message.
Context (csid ts ty msid c : Z) (data : bytes).
Context (Hcsid : 2 <= csid < 64) (Hts : 0 <= ts < 0xffffff) (Hmsid : 0 <= msid < 2 ^ 32).
Context (Hc : 0 < c < 2 ^ 31) (Hn : 0 < zlen data < 2 ^ 24).

(** The session between two chunks of the message. *)
Definition between (acc : bytes) (r : Z) (buf : bytes) (s : RtmpSession) : Prop :=
  fmt_ready_ s = false /\ recv_buffer_ s = buf /\ s_chunk_size_ s = c /\
  exists cs, cs_map_ s !! csid = Some cs /\ receiving ts ty msid (zlen data) acc r cs.

(** What reading chunks leaves alone. *)
Definition same_elsewhere (s s' : RtmpSession) : Prop :=
  client_phase_ s' = client_phase_ s /\ sent_ s' = sent_ s /\
  forall k, k <> csid -> cs_map_ s' !! k = cs_map_ s !! k.

Lemma same_elsewhere_trans s1 s2 s3 :
  same_elsewhere s1 s2 -> same_elsewhere s2 s3 -> same_elsewhere s1 s3.
Proof.
  intros (H1 & H2 & H3) (H4 & H5 & H6). split_and!; [congruence..|].
  intros k Hk. by rewrite H6, H3.
Qed.

(** The length of chunk [i], and the bytes [read_range] finds for it. *)
Lemma chunk_slice i k d :
  0 <= i -> 0 <= k -> d = drop (Z.to_nat (i * c)) data -> k * c < zlen d <= (k + 1) * c ->
  let len := if i =? i + (k + 1) - 1 then
               if 0 <? zlen data mod c then i32 (zlen data mod c) else i32 c
             else i32 c in
  i * c + zlen d = zlen data /\ len = Z.min c (zlen d) /\
  read_range data (u32 (i * c)) len = Done (take (Z.to_nat (Z.min c (zlen d))) d).
Proof.
  intros Hi Hk Hd Hlen len.
  assert (i * c <= zlen data) as Hic.
  { destruct (Z.le_gt_cases (i * c) (zlen data)) as [|Hgt]; [done|exfalso].
    rewrite Hd, drop_ge in Hlen by (unfold zlen in *; lia). change (zlen []) with 0 in Hlen. nia. }
  assert (i * c + zlen d = zlen data) as Hsum by (rewrite Hd, zlen_drop; nia).
  assert (len = Z.min c (zlen d)) as Hl.
  { subst len. assert (k = 0 \/ 0 < k) as [-> | Hk0] by lia.
    - replace (i + (0 + 1) - 1) with i by lia. rewrite Z.eqb_refl.
      rewrite <- Hsum, Z.add_comm, Z.mod_add by lia.
      assert (zlen d = c \/ zlen d < c) as [-> | Hlt] by lia.
      + rewrite Z.mod_same by lia. cbn [Z.ltb Z.compare]. rewrite i32_small; lia.
      + rewrite Z.mod_small by lia. destruct (Z.ltb_spec 0 (zlen d)); [|lia]. rewrite i32_small; lia.
    - destruct (Z.eqb_spec i (i + (k + 1) - 1)); [lia|]. rewrite i32_small by lia. nia. }
  split_and!; [done..|]. rewrite Hl. unfold u32. rewrite Z.mod_small by lia.
  rewrite read_range_ok by lia. by rewrite Hd.
Qed.

(** What a successful [ReadChunkStream] means for the loop. *)
Lemma read_message_step s s' acc r tail fuel :
  ReadChunkStream s = Done (RTMP_OK, Some csid, s') -> between acc r tail s' ->
  (r <= 0 -> read_message (S fuel) s = Done (RTMP_OK, Some csid, s')) /\
  (0 < r -> tail <> [] -> read_message (S fuel) s = read_message fuel s').
Proof.
  intros Hrd (_ & Hbuf & _ & cs & Hlk & Hrc). cbn [read_message]. rewrite Hrd. simpl_m.
  change ((RTMP_OK <? RTMP_OK) || (RTMP_OK =? RTMP_NEED_READ_MORE)) with false. cbn [option_bind].
  rewrite Hlk. unfold IsReady. rewrite (rc_ready _ _ _ _ _ _ _ Hrc), Hbuf. split.
  - intros Hr. by destruct (Z.leb_spec r 0); [|lia].
  - intros Hr Ht. destruct (Z.leb_spec r 0); [lia|].
    destruct tail; [done|]. rewrite zlen_cons. pose proof (zlen_nonneg tail).
    by destruct (Z.ltb_spec 0 (1 + zlen tail)); [|lia].
Qed.

(** One continuation chunk. *)
Lemma read_continuation s b p tail acc r :
  between acc r (b :: p ++ tail) s -> 0 < r < 2 ^ 31 -> zlen p = Z.min c r ->
  Z.land (Z.shiftr b 6) 0x3 = 3 -> Z.land b 0x3f = csid -> u8 csid = csid ->
  exists s', ReadChunkStream s = Done (RTMP_OK, Some csid, s') /\
    between (acc ++ p) (r - zlen p) tail s' /\ same_elsewhere s s'.
Proof.
  intros (Hfr & Hbuf & Hcs & cs & Hlk & Hrc) Hr Hp Hb1 Hb2 Hb3.
  edestruct (next_chunk csid ts ty msid (zlen data) acc r p tail (set_chunk_size (s_chunk_size_ s) cs) c)
    as (s1 & s2 & Hh & Hpl & Hrc'); [by apply receiving_set_chunk_size|done|lia..|].
  edestruct (ReadChunkStream_chunk s b [] p tail s1 s2 csid) as (s' & Hrd & ? & ? & ? & Hm & ? & ?);
    [done|done|done|lia|done|by rewrite Hb1, Hlk|done|].
  exists s'. split; [done|]. split.
  - split_and!; [done..|congruence|]. exists s2. by rewrite Hm, lookup_insert_eq.
  - split_and!; [done..|]. intros k' Hk'. by rewrite Hm, lookup_insert_ne.
Qed.

(** The first chunk, on a chunk stream waiting for a message. *)
Lemma read_first s b p tail :
  fmt_ready_ s = false -> s_chunk_size_ s = c ->
  match cs_map_ s !! csid with None => True | Some cs => idle_cs cs end ->
  recv_buffer_ s = b :: header_bytes csid ts ty msid (zlen data) 0 ++ p ++ tail ->
  zlen p = Z.min c (zlen data) ->
  Z.land (Z.shiftr b 6) 0x3 = 0 -> Z.land b 0x3f = csid -> u8 csid = csid ->
  exists s', ReadChunkStream s = Done (RTMP_OK, Some csid, s') /\
    between p (zlen data - zlen p) tail s' /\ same_elsewhere s s'.
Proof.
  intros Hfr Hcs Hidle Hbuf Hp Hb1 Hb2 Hb3.
  set (cs := match cs_map_ s !! csid with
             | None => ChunkStream_new 0 csid (s_chunk_size_ s)
             | Some cs => set_chunk_size (s_chunk_size_ s) cs end).
  edestruct (first_chunk csid ts ty msid (zlen data) p tail cs c) as (s1 & s2 & Hh & Hpl & Hrc);
    try lia.
  { unfold cs. destruct (cs_map_ s !! csid); [by apply idle_set_chunk_size|apply idle_new]. }
  { unfold cs. by destruct (cs_map_ s !! csid). }
  edestruct (ReadChunkStream_chunk s b (header_bytes csid ts ty msid (zlen data) 0) p tail s1 s2 csid) as (s' & Hrd & ? & ? & ? & Hm & ? & ?);
    [done|exact Hbuf|done|lia|done|rewrite Hb1; exact Hh|done|].
  exists s'. split; [done|]. split.
  - split_and!; [done..|congruence|]. exists s2. by rewrite Hm, lookup_insert_eq.
  - split_and!; [done..|]. intros k' Hk'. by rewrite Hm, lookup_insert_ne.
Qed.

(** Continuation chunks, from chunk [i] on, with [k + 1] of them to go. *)
Lemma rest_of_message k : forall i d acc,
  1 <= i -> d = drop (Z.to_nat (i * c)) data -> Z.of_nat k * c < zlen d <= (Z.of_nat k + 1) * c ->
  exists sent, write_chunks csid ts ty msid c data (i + (Z.of_nat k + 1)) i (S k) = Done sent /\
    length sent = S k /\ concat sent <> [] /\
    forall s rest fuel, between acc (zlen d) (concat sent ++ rest) s -> (k < fuel)%nat ->
    exists s', read_message fuel s = Done (RTMP_OK, Some csid, s') /\
      between (acc ++ d) 0 rest s' /\ same_elsewhere s s'.
Proof.
  induction k as [|k IH]; intros i d acc Hi Hd Hlen.
  all: destruct (chunk_slice i _ d ltac:(lia) (Zle_0_nat _) Hd Hlen) as (Hsum & Hl & Hr).
  all: rewrite write_chunks_S, Hl; rewrite Hl in Hr; rewrite Hr; simpl_m.
  all: destruct (Z.eqb_spec i 0) as [|_]; [lia|]; unfold u32; rewrite (Z.mod_small (zlen data)) by lia.
  all: destruct (GenData_bytes 3 csid ts ty msid (zlen data) c (take (Z.to_nat (Z.min c (zlen d))) d) Hcsid)
    as (b & Hb1 & Hb2 & Hb3 & ->); [by right|]; cbn [header_bytes Z.eqb app].
  - assert (Z.min c (zlen d) = zlen d) as -> by lia.
    rewrite (take_ge d) by (unfold zlen; lia). eexists; split_and!; [reflexivity|done|done|].
    intros s rest [|fuel] Hbt Hf; [lia|]. cbn [concat] in Hbt. rewrite app_nil_r in Hbt. cbn [app] in Hbt.
    destruct (read_continuation s b d rest acc (zlen d)) as (s' & Hrd & Hbt' & Hsame); [done|lia|lia|done..|].
    rewrite Z.sub_diag in Hbt'. exists s'. split_and!; [|done..].
    by apply (read_message_step _ _ _ _ _ fuel Hrd Hbt').
  - assert (Z.min c (zlen d) = c) as -> by nia.
    destruct (IH (i + 1) (drop (Z.to_nat c) d) (acc ++ take (Z.to_nat c) d)) as (sent & Hw & Hls & Hne & Hread);
      [lia|subst d; rewrite drop_drop; f_equal; lia|rewrite zlen_drop by nia; lia|].
    replace (i + (Z.of_nat (S k) + 1)) with (i + 1 + (Z.of_nat k + 1)) by lia. rewrite Hw. simpl_m.
    eexists; split_and!; [reflexivity|by cbn; f_equal|done|].
    intros s rest [|fuel] Hbt Hf; [lia|]. cbn [concat] in Hbt. rewrite <- app_assoc in Hbt. cbn [app] in Hbt.
    destruct (read_continuation s b (take (Z.to_nat c) d) (concat sent ++ rest) acc (zlen d))
      as (s1 & Hrd & Hbt1 & Hsame1); [done|nia|rewrite zlen_take; nia|done..|].
    rewrite zlen_take in Hbt1 by nia.
    destruct (read_message_step _ _ _ _ _ fuel Hrd Hbt1) as [_ ->]; [|nia|by destruct (concat sent)].
    destruct (Hread s1 rest fuel) as (s' & -> & Hbt' & Hsame'); [by rewrite zlen_drop by nia|lia|].
    exists s'. split; [done|]. split; [by rewrite <- app_assoc, take_drop in Hbt'|].
    by eapply same_elsewhere_trans.
Qed.

(** How many chunks the writer makes. *)
Lemma chunk_count :
  let n := i32 (zlen data / c) in
  exists k : nat, (if 0 <? zlen data mod c then n + 1 else n) = Z.of_nat k + 1 /\
    Z.of_nat k * c < zlen data <= (Z.of_nat k + 1) * c.
Proof.
  intros n. pose proof (Z.div_mod (zlen data) c ltac:(lia)) as Hdm.
  pose proof (Z.mod_pos_bound (zlen data) c ltac:(lia)) as Hmb.
  pose proof (Z.div_pos (zlen data) c ltac:(lia) ltac:(lia)) as Hdp.
  assert (zlen data / c <= zlen data) by (apply Z.div_le_upper_bound; nia).
  unfold n. rewrite i32_small by lia.
  destruct (Z.ltb_spec 0 (zlen data mod c)).
  - exists (Z.to_nat (zlen data / c)). rewrite Z2Nat.id by lia. split; [lia|]. nia.
  - assert (0 < zlen data / c) by nia.
    exists (Z.to_nat (zlen data / c - 1)). rewrite Z2Nat.id by lia. split; [lia|]. nia.
Qed.

(** The message is there, and [rest] behind it. *)
Definition received (rest : bytes) (s s' : RtmpSession) (cs : ChunkStream) : Prop :=
  recv_buffer_ s' = rest /\ fmt_ready_ s' = false /\ cs_map_ s' !! csid = Some cs /\
  IsReady cs = true /\ chunk_data_ cs = data /\ type_id_ cs = ty /\ timestamp32_ cs = ts /\
  msg_len_ cs = zlen data /\ msg_stream_id_ cs = msid /\ same_elsewhere s s'.

Lemma between_received acc r rest s s' :
  between acc r rest s' -> r <= 0 -> acc = data -> same_elsewhere s s' ->
  exists cs, received rest s s' cs.
Proof.
  intros (? & ? & ? & cs & ? & [_ _ ? _ Hrdy ? ? ? ?]) Hr0 -> Hs. exists cs. unfold received, IsReady.
  split_and!; try done. rewrite Hrdy. lia.
Qed.

(** Writing a message and reading it back. *)
Lemma message_transport :
  exists sent, WriteDataByChunkStream csid ts ty msid c data = Done (RTMP_OK, sent) /\
    forall s rest fuel,
    fmt_ready_ s = false -> s_chunk_size_ s = c ->
    match cs_map_ s !! csid with None => True | Some cs => idle_cs cs end ->
    recv_buffer_ s = concat sent ++ rest -> (length sent <= fuel)%nat ->
    exists s' cs, read_message fuel s = Done (RTMP_OK, Some csid, s') /\ received rest s s' cs.
Proof.
  destruct chunk_count as (k & Hk & Hlen).
  unfold WriteDataByChunkStream. destruct (Z.eqb_spec c 0) as [|_]; [lia|]. rewrite Hk.
  replace (Z.to_nat (Z.of_nat k + 1)) with (S k) by lia.
  destruct (chunk_slice 0 (Z.of_nat k) data ltac:(lia) ltac:(lia) eq_refl Hlen) as (_ & Hl & Hr).
  rewrite Z.add_0_l in Hl, Hr. rewrite write_chunks_S, Hl. rewrite Hl in Hr. rewrite Hr. simpl_m.
  cbn [Z.eqb]. unfold u32. rewrite (Z.mod_small (zlen data)) by lia.
  set (p := take (Z.to_nat (Z.min c (zlen data))) data).
  assert (zlen p = Z.min c (zlen data)) as Hp by (apply zlen_take; lia).
  destruct (GenData_bytes 0 csid ts ty msid (zlen data) c p Hcsid) as (b & Hb1 & Hb2 & Hb3 & ->); [by left|].
  destruct k as [|k].
  - cbn [write_chunks]. simpl_m. eexists; split; [reflexivity|].
    intros s rest [|fuel] Hfr Hcs Hidle Hbuf Hf; [cbn in Hf; lia|].
    cbn [concat] in Hbuf. rewrite app_nil_r in Hbuf. cbn [app] in Hbuf. rewrite <- app_assoc in Hbuf.
    destruct (read_first s b p rest Hfr Hcs Hidle Hbuf Hp Hb1 Hb2 Hb3) as (s' & Hrd & Hbt & Hsame).
    destruct (read_message_step _ _ _ _ _ fuel Hrd Hbt) as [Hd _]. exists s'.
    destruct (between_received p (zlen data - zlen p) rest s s') as [cs Hrc]; [done|lia| |done|].
    + apply take_ge. unfold zlen in *. lia.
    + exists cs. split; [apply Hd; lia|done].
  - destruct (rest_of_message k 1 (drop (Z.to_nat c) data) p) as (sent & Hw & Hls & Hne & Hread);
      [lia|f_equal; lia|rewrite zlen_drop; nia|].
    replace (Z.of_nat (S k) + 1) with (1 + (Z.of_nat k + 1)) by lia. rewrite Z.add_0_l, Hw. simpl_m.
    eexists; split; [reflexivity|].
    intros s rest [|fuel] Hfr Hcs Hidle Hbuf Hf; [cbn in Hf; lia|].
    cbn [concat app] in Hbuf. rewrite <- !app_assoc in Hbuf. cbn [app] in Hbuf.
    destruct (read_first s b p (concat sent ++ rest) Hfr Hcs Hidle Hbuf Hp Hb1 Hb2 Hb3)
      as (s1 & Hrd & Hbt & Hsame).
    destruct (read_message_step _ _ _ _ _ fuel Hrd Hbt) as [_ Hd].
    rewrite Hd; [|nia|by destruct (concat sent)].
    replace (zlen data - zlen p) with (zlen (drop (Z.to_nat c) data)) in Hbt by (rewrite zlen_drop; nia).
    destruct (Hread s1 rest fuel Hbt) as (s' & -> & Hbt' & Hsame'); [cbn in Hf; lia|]. exists s'.
    edestruct (between_received _ 0 rest s s' Hbt') as [cs Hrc]; [lia| | |by exists cs].
    + unfold p. replace (Z.min c (zlen data)) with c by nia. apply take_drop.
    + by eapply same_elsewhere_trans.
Qed.

(** C21. A message cut into chunks by [WriteDataByChunkStream] and read back by a
    session with the same chunk size comes out whole: the loop over
    [ReadChunkStream] ends with that chunk stream ready, holding the payload and
    the message's type, timestamp, length and stream id, the bytes after the
    message unread, and every other chunk stream untouched. It holds for one-byte
    chunk stream ids, timestamps below 0xffffff and any payload the 24-bit length
    field can describe. *)
Theorem rtmp_message_roundtrip :
  exists sent, WriteDataByChunkStream csid ts ty msid c data = Done (RTMP_OK, sent) /\
    forall s rest fuel,
    fmt_ready_ s = false -> s_chunk_size_ s = c ->
    match cs_map_ s !! csid with None => True | Some cs => idle_cs cs end ->
    recv_buffer_ s = concat sent ++ rest -> (length sent <= fuel)%nat ->
    exists s' cs, read_message fuel s = Done (RTMP_OK, Some csid, s') /\ received rest s s' cs.
Proof. exact message_transport. Qed.
End message.

(** ** The reading loop terminates *)


(** Neither header nor payload makes up bytes, and an answer is 0 or 1. *)
Definition shrinks (n : nat) (r : outcome (Z * bytes * ChunkStream)) : Prop :=
  match r with
  | Done (ret, buf', _) => (length buf' <= n)%nat /\ (ret = RTMP_OK \/ ret = RTMP_NEED_READ_MORE)
  | Fault f => f <> OutOfFuel
  end.

Lemma consume_length p n : (length (consume p n) <= length p)%nat.
Proof. unfold consume. rewrite length_drop. lia. Qed.

Lemma read_header_shrinks n upd f c buf s : shrinks (length buf) (read_header n upd f c buf s).
Proof.
  unfold read_header. destruct (decide _); [by split; [|right]|].
  destruct (_ <=? _); [destruct (decide _); [by split; [|right]|]|];
    (split; [rewrite length_drop; lia|by left]).
Qed.

Ltac shrink :=
  repeat match goal with
  | |- shrinks _ (Done _) => split; [solve [apply consume_length|lia]|by auto]
  | |- shrinks _ (Fault _) => discriminate
  | |- shrinks _ (if ?c then _ else _) => destruct c
  | |- shrinks _ (mbind _ (if ?c then _ else _)) => destruct c
  | |- shrinks _ (mbind _ (Read4Bytes ?p)) => destruct (Read4Bytes_cases p) as [(? & -> & ?)| ->]
  | |- shrinks _ (mbind _ (mbind _ (Read4Bytes ?p))) => destruct (Read4Bytes_cases p) as [(? & -> & ?)| ->]
  | _ => progress simpl_m
  end.

Lemma ReadMsgFormat3_shrinks f c buf s : shrinks (length buf) (ReadMsgFormat3 f c buf s).
Proof. unfold ReadMsgFormat3, ReadMsgFormat3_new. shrink.
  split; [destruct (_ =? _); [apply consume_length|lia]|auto]. Qed.

Lemma ReadMessageHeader_shrinks f c buf s : shrinks (length buf) (ReadMessageHeader f c buf s).
Proof.
  unfold ReadMessageHeader. destruct (phase_ s); [|by split; [lia|left]].
  assert (shrinks (length buf) (if f =? 0 then ReadMsgFormat0 f c buf s else if f =? 1 then ReadMsgFormat1 f c buf s
    else if f =? 2 then ReadMsgFormat2 f c buf s else if f =? 3 then ReadMsgFormat3 f c buf s
    else Fault AssertFailure)) as Hs.
  { repeat destruct (f =? _); rewrite ?ReadMsgFormat0_header, ?ReadMsgFormat1_header, ?ReadMsgFormat2_header;
      first [apply read_header_shrinks|apply ReadMsgFormat3_shrinks|discriminate]. }
  match goal with |- shrinks _ (mbind _ ?m) => destruct m as [[[r b] s1]|] end; simpl_m; [|done].
  cbn in Hs. destruct Hs as [Hl Hr]. destruct (_ =? _); (split; [done|by auto]).
Qed.

Lemma ReadMessagePayload_shrinks buf s : shrinks (length buf) (ReadMessagePayload buf s).
Proof.
  unfold ReadMessagePayload. destruct (phase_ s); [by split; [lia|left]|].
  destruct (negb _); [by split; [lia|right]|]. unfold read_range. case_bool_decide; simpl_m; [|discriminate].
  split; [apply consume_length|by left].
Qed.

(** A chunk that is complete leaves the session before the next basic header. *)
Definition chunk_read (n : nat) (r : outcome (Z * option Z * RtmpSession)) : Prop :=
  match r with
  | Done (ret, _, s') => (ret = RTMP_OK /\ fmt_ready_ s' = false /\ (length (recv_buffer_ s') <= n)%nat) \/
                         ret = RTMP_NEED_READ_MORE
  | Fault f => f <> OutOfFuel
  end.

Lemma read_chunk_body_read s : chunk_read (length (recv_buffer_ s)) (read_chunk_body s).
Proof.
  unfold read_chunk_body. cbn zeta.
  pose proof (ReadMessageHeader_shrinks (s_fmt_ s) (s_csid_ s) (recv_buffer_ s) (find_chunk_stream s)) as Hh.
  destruct (ReadMessageHeader _ _ _ _) as [[[r buf] cs]|]; simpl_m; [|done]. cbn in Hh.
  destruct Hh as [Hl [-> | ->]]; cbn [Z.ltb Z.eqb Z.compare orb RTMP_OK RTMP_NEED_READ_MORE]; [|by right].
  cbn [recv_buffer_ set_recv_buffer]. pose proof (ReadMessagePayload_shrinks buf cs) as Hp.
  destruct (ReadMessagePayload buf cs) as [[[r buf2] cs2]|]; simpl_m; [|done]. cbn in Hp.
  destruct Hp as [Hl2 [-> | ->]]; cbn [Z.eqb RTMP_OK RTMP_NEED_READ_MORE]; [|by right].
  left. cbn. split_and!; [done..|lia].
Qed.

(** A basic header takes at least one byte. *)
Lemma ReadFmtCsid_read s :
  match ReadFmtCsid s with
  | Done (ret, s') => (ret = RTMP_OK /\ (length (recv_buffer_ s') < length (recv_buffer_ s))%nat) \/
                      ret = RTMP_NEED_READ_MORE
  | Fault f => f <> OutOfFuel
  end.
Proof.
  unfold ReadFmtCsid. destruct (require _ 1) eqn:Hq; [|by right].
  assert (length (consume (recv_buffer_ s) 1) < length (recv_buffer_ s))%nat as Hlt.
  { unfold require, zlen in Hq. unfold consume. rewrite length_drop. lia. }
  destruct (rd_cases (recv_buffer_ s) 0) as [(b & -> & _)| ->]; simpl_m; [|done].
  cbn [s_csid_ set_recv_buffer set_s_csid].
  pose proof (fun n => consume_length (consume (recv_buffer_ s) 1) n).
  repeat match goal with
  | |- context [if ?c then _ else _] => destruct c
  | |- context [rd ?p ?i] => destruct (rd_cases p i) as [(? & -> & _)| ->]
  | _ => progress simpl_m
  end; try done; try (by right); left; cbn [recv_buffer_ set_recv_buffer set_s_csid]; split; try done.
  all: eapply Nat.le_lt_trans; [apply consume_length|done].
Qed.

(** Bytes to read, and one more when a basic header is already read. *)
Definition read_measure (s : RtmpSession) : nat :=
  length (recv_buffer_ s) + (if fmt_ready_ s then 1 else 0).

Lemma ReadChunkStream_read s :
  match ReadChunkStream s with
  | Done (ret, _, s') => (ret = RTMP_OK /\ (read_measure s' < read_measure s)%nat) \/ ret = RTMP_NEED_READ_MORE
  | Fault f => f <> OutOfFuel
  end.
Proof.
  unfold ReadChunkStream, read_measure. destruct (fmt_ready_ s).
  - pose proof (read_chunk_body_read s) as Hb. destruct (read_chunk_body s) as [[[r k] s']|]; cbn in Hb; [|done].
    destruct Hb as [(-> & -> & Hl)| ->]; [left; split; [done|lia]|by right].
  - pose proof (ReadFmtCsid_read s) as Hf. destruct (ReadFmtCsid s) as [[r s1]|]; simpl_m; [|done].
    destruct Hf as [(-> & Hl)| ->]; cbn [Z.eqb RTMP_OK RTMP_NEED_READ_MORE]; [|by right].
    pose proof (read_chunk_body_read (set_fmt_ready true s1)) as Hb.
    destruct (read_chunk_body _) as [[[r k] s']|]; cbn in Hb; [|done].
    destruct Hb as [(-> & -> & Hl2)| ->]; [left; split; [done|lia]|by right].
Qed.

(** C27. Reading a message always ends: with fuel above the number of bytes
    received (one more inside a chunk) the loop is never cut short, whatever the
    bytes and the state of the chunk streams. *)
Theorem read_message_terminates s fuel :
  (read_measure s < fuel)%nat -> read_message fuel s <> Fault OutOfFuel.
Proof.
  revert s. induction fuel as [|fuel IH]; intros s Hf; [lia|]. cbn [read_message].
  pose proof (ReadChunkStream_read s) as Hr. destruct (ReadChunkStream s) as [[[r k] s']|f]; simpl_m; [|congruence].
  destruct Hr as [(-> & Hlt)| ->]; cbn [Z.ltb Z.compare Z.eqb orb RTMP_OK RTMP_NEED_READ_MORE]; [|done].
  destruct (k ≫= _) as [cs|]; [destruct (IsReady cs); [done|]|];
    (destruct (_ <? _); [apply IH; lia|done]).
Qed.

(** A message cut off after its header, then an unterminated run of chunks. *)
Lemma read_message_terminates_witness :
  let s := set_recv_buffer [4; 0; 0; 100; 0; 0; 200; 9; 1; 0; 0; 0; 65] RtmpSessionBase_new in
  (read_measure s < 14)%nat /\ read_message 14 s <> Fault OutOfFuel.
Proof. split; [vm_compute; lia|apply read_message_terminates; vm_compute; lia]. Defined.

(** ** What reading leaves alone *)

(** The fields of the session other than those of the reader. *)
Definition frame (s : RtmpSession) :=
  (remote_window_acksize_ s, ack_received_ s, req_ s, stream_id_ s, server_phase_ s, client_phase_ s,
   s_chunk_size_ s, sent_ s).

Lemma ReadFmtCsid_frame s ret s' : ReadFmtCsid s = Done (ret, s') -> frame s' = frame s.
Proof.
  unfold ReadFmtCsid. cbn zeta.
  repeat match goal with
  | |- (if ?c then _ else _) = _ -> _ => destruct c
  | |- mbind _ (rd ?p ?i) = _ -> _ => destruct (rd p i)
  | |- Done _ = Done _ -> _ => intros [= <- <-]; done
  | |- Fault _ = Done _ -> _ => discriminate
  | _ => progress simpl_m
  end.
Qed.

Lemma read_chunk_body_frame s ret k s' : read_chunk_body s = Done (ret, k, s') -> frame s' = frame s.
Proof.
  unfold read_chunk_body. cbn zeta.
  destruct (ReadMessageHeader _ _ _ _) as [[[r buf] cs]|]; simpl_m; [|discriminate].
  destruct (_ || _); [by intros [= <- <- <-]|].
  destruct (ReadMessagePayload _ _) as [[[r' buf'] cs']|]; simpl_m; [|discriminate].
  destruct (_ =? _); by intros [= <- <- <-].
Qed.

Lemma ReadChunkStream_frame s ret k s' : ReadChunkStream s = Done (ret, k, s') -> frame s' = frame s.
Proof.
  unfold ReadChunkStream. destruct (fmt_ready_ s); [apply read_chunk_body_frame|].
  destruct (ReadFmtCsid s) as [[r s1]|] eqn:Hf; simpl_m; [|discriminate]. apply ReadFmtCsid_frame in Hf.
  destruct (_ =? _); [|by intros [= <- <- <-]]. intros Hb. by rewrite (read_chunk_body_frame _ _ _ _ Hb), <- Hf.
Qed.

Lemma read_message_frame fuel : forall s ret k s',
  read_message fuel s = Done (ret, k, s') -> frame s' = frame s.
Proof.
  induction fuel as [|fuel IH]; intros s ret k s'; [discriminate|]. cbn [read_message].
  destruct (ReadChunkStream s) as [[[r k1] s1]|] eqn:Hr; simpl_m; [|discriminate].
  apply ReadChunkStream_frame in Hr. rewrite <- Hr.
  destruct (_ || _); [by intros [= <- <- <-]|].
  destruct (k1 ≫= _) as [cs|]; [destruct (IsReady cs); [by intros [= <- <- <-]|]|];
    (destruct (_ <? _); [apply IH|by intros [= <- <- <-]]).
Qed.

(** ** Input arriving in pieces *)

(** More bytes from the connection, [RtmpClientSession::OnRead]'s [AppendData], on the
    bytes that the member [recv_buffer_] queues. *)
Definition feed (d : bytes) (s : RtmpSession) : RtmpSession := set_recv_buffer (recv_buffer_ s ++ d) s.

(** The member itself goes along, unless the append has to move its queue onto itself,
    which is undefined ([AppendData_overlapping_memcpy]). *)
Lemma feed_buffer `{Allocator} b d s : queues b (recv_buffer_ s) -> no_overlap b -> zlen (recv_buffer_ s ++ d) <= max_queue -> d <> [] ->
  exists n b', AppendData b d = Done (n, b') /\ queues b' (recv_buffer_ (feed d s)).
Proof. apply queues_append. Qed.

(** The session is inside a chunk whose basic header is read, or the next basic
    header is one byte long. *)
Definition one_byte_header (s : RtmpSession) : Prop :=
  fmt_ready_ s = true \/ match recv_buffer_ s with [] => True | b :: _ => 2 <= Z.land b 0x3f end.

Lemma find_chunk_stream_size s : chunk_size_ (find_chunk_stream s) = s_chunk_size_ s.
Proof. unfold find_chunk_stream. by destruct (_ !! _). Qed.

Lemma find_chunk_stream_stored cs s : cs_map_ s !! u8 (s_csid_ s) = Some cs ->
  chunk_size_ cs = s_chunk_size_ s -> find_chunk_stream s = cs.
Proof. intros Hl Hc. unfold find_chunk_stream. rewrite Hl, <- Hc. by destruct cs. Qed.

(** A later value of the buffer or of a chunk stream overwrites the earlier one. *)
Lemma store_cs_recv_buffer k cs b s :
  store_cs k cs (set_recv_buffer b s) = set_recv_buffer b (store_cs k cs s).
Proof. done. Qed.
Lemma set_recv_buffer_twice b b' s : set_recv_buffer b (set_recv_buffer b' s) = set_recv_buffer b s.
Proof. done. Qed.
Lemma store_cs_twice k cs cs' s : store_cs k cs (store_cs k cs' s) = store_cs k cs s.
Proof. unfold store_cs. cbn [cs_map_ set_cs_map]. by rewrite insert_insert_eq. Qed.

Ltac overwrites := repeat first
  [rewrite store_cs_recv_buffer|rewrite set_recv_buffer_twice|rewrite store_cs_twice]; reflexivity.

(** A chunk stopped in its header or its payload goes on where it stopped. *)
Lemma read_chunk_body_resumes s k s' d :
  read_chunk_body s = Done (RTMP_NEED_READ_MORE, k, s') ->
  read_chunk_body (feed d s') = read_chunk_body (feed d s) /\ fmt_ready_ s' = fmt_ready_ s.
Proof.
  unfold read_chunk_body. cbn zeta.
  destruct (ReadMessageHeader _ _ _ (find_chunk_stream s)) as [[[r buf] cs]|] eqn:Hh; simpl_m; [|discriminate].
  apply ReadMessageHeader_resumes in Hh as [(-> & Hc & Hh)|(-> & -> & Hp & Hc & Hh)];
    rewrite find_chunk_stream_size in Hc; cbn [Z.ltb Z.compare Z.eqb orb RTMP_OK RTMP_NEED_READ_MORE].
  - cbn [recv_buffer_ set_recv_buffer].
    destruct (ReadMessagePayload buf cs) as [[[r buf2] cs2]|] eqn:Hpl; simpl_m; [|discriminate].
    pose proof Hpl as Hpl0. apply ReadMessagePayload_resumes in Hpl as [(-> & _)|(-> & -> & Hp & Hc2 & Hpl)];
      cbn [Z.eqb RTMP_OK]; intros [= <- <-]. split; [|done].
    assert (phase_ cs2 = CHUNK_STREAM_PHASE_PAYLOAD) as Hph.
    { rewrite Hp. unfold ReadMessagePayload in Hpl0. destruct (phase_ cs); [discriminate|done]. }
    unfold feed. cbn [recv_buffer_ set_recv_buffer store_cs set_cs_map s_csid_ s_fmt_].
    assert (find_chunk_stream (set_recv_buffer (recv_buffer_ s ++ d) s) = find_chunk_stream s) as -> by done.
    rewrite Hh. simpl_m. cbn [Z.ltb Z.compare Z.eqb orb RTMP_OK RTMP_NEED_READ_MORE].
    match goal with |- context [find_chunk_stream ?x] => assert (find_chunk_stream x = cs2) as -> end.
    { apply find_chunk_stream_stored; [cbn; by rewrite lookup_insert_eq|cbn; congruence]. }
    assert (ReadMessageHeader (s_fmt_ s) (s_csid_ s) (buf ++ d) cs2 = Done (RTMP_OK, buf ++ d, cs2)) as ->.
    { unfold ReadMessageHeader. by rewrite Hph. }
    simpl_m. cbn [Z.ltb Z.compare Z.eqb orb recv_buffer_ set_recv_buffer store_cs set_cs_map RTMP_OK RTMP_NEED_READ_MORE]. rewrite Hpl.
    destruct (ReadMessagePayload (buf ++ d) cs) as [[[? ?] ?]|]; simpl_m; [|done].
    overwrites.
  - intros [= <- <-]. split; [|done].
    unfold feed. cbn [recv_buffer_ set_recv_buffer store_cs set_cs_map s_csid_ s_fmt_].
    assert (find_chunk_stream (set_recv_buffer (recv_buffer_ s ++ d) s) = find_chunk_stream s) as -> by done.
    match goal with |- context [find_chunk_stream ?x] => assert (find_chunk_stream x = cs) as -> end.
    { apply find_chunk_stream_stored; [cbn; by rewrite lookup_insert_eq|cbn; congruence]. }
    rewrite Hh.
    destruct (ReadMessageHeader _ _ _ (find_chunk_stream s)) as [[[r b] cs1]|]; simpl_m; [|done].
    overwrites.
Qed.

(** C26. Where the connection cuts the byte stream does not matter: when
    [ReadChunkStream] stops for want of input, calling it again once more bytes
    have arrived gives exactly what one call on all the bytes gives, the state of
    the session and of every chunk stream included.  It holds wherever the input
    stops inside a chunk, as long as the basic header is a single byte. *)
Theorem ReadChunkStream_resumable s k s' d :
  one_byte_header s -> ReadChunkStream s = Done (RTMP_NEED_READ_MORE, k, s') ->
  ReadChunkStream (feed d s') = ReadChunkStream (feed d s).
Proof.
  unfold one_byte_header, ReadChunkStream. intros Hb. destruct (fmt_ready_ s) eqn:Hf.
  - intros Hr. destruct (read_chunk_body_resumes _ _ _ d Hr) as [He Hf'].
    cbn [fmt_ready_ feed set_recv_buffer]. by rewrite Hf', Hf, He.
  - destruct Hb as [|Hb]; [done|]. destruct (recv_buffer_ s) as [|b t] eqn:Hbuf.
    + unfold ReadFmtCsid at 1. rewrite Hbuf. cbn. intros [= <- <-]. done.
    + rewrite (ReadFmtCsid_short s b t) by (done || lia). simpl_m. cbn [Z.eqb]. intros Hr.
      destruct (read_chunk_body_resumes _ _ _ d Hr) as [He Hf'].
      cbn [fmt_ready_ feed set_recv_buffer set_fmt_ready] in *. rewrite Hf', He, Hf.
      rewrite (ReadFmtCsid_short _ b (t ++ d)) by (cbn; rewrite ?Hbuf; done || lia). simpl_m. done.
Qed.

(** A type 0 chunk of 3 payload bytes stopped after 9 bytes and continued. *)
Lemma ReadChunkStream_resumable_witness :
  let s := set_recv_buffer [4; 0; 0; 100; 0; 0; 3; 9; 1] RtmpSessionBase_new in
  let d := [0; 0; 0; 65; 66; 67; 4] in
  exists s' s'', one_byte_header s /\
    ReadChunkStream s = Done (RTMP_NEED_READ_MORE, Some 4, s') /\
    ReadChunkStream (feed d s') = Done (RTMP_OK, Some 4, s'') /\
    ReadChunkStream (feed d s') = ReadChunkStream (feed d s).
Proof.
  eexists _, _. split; [right; vm_compute; discriminate|]. split; [vm_compute; reflexivity|].
  split; [vm_compute; reflexivity|].
  eapply ReadChunkStream_resumable; [right; vm_compute; discriminate|vm_compute; reflexivity].
Defined.

(** ** Chunk stream ids above 63 *)

Lemma require_cons_true n (l : bytes) : (Z.to_nat n <= length l)%nat -> require l n = true.
Proof. intros. unfold require, zlen. lia. Qed.

Lemma ReadFmtCsid_two b p t s :
  recv_buffer_ s = b :: p :: t -> Z.land b 0x3f = 0 ->
  exists s', ReadFmtCsid s = Done (RTMP_OK, s') /\ s_csid_ s' = u16 (64 + p) /\ recv_buffer_ s' = t.
Proof.
  intros Hb H0. unfold ReadFmtCsid. rewrite Hb. rewrite (require_cons_true 1 (b :: p :: t)) by (cbn [length]; lia). cbn [rd].
  change ((b :: p :: t).[0]) with (Done b). simpl_m. cbn [s_csid_ set_recv_buffer set_s_csid].
  rewrite H0. cbn [Z.eqb]. change (consume (b :: p :: t) 1) with (p :: t).
  rewrite (require_cons_true 1 (p :: t)) by (cbn [length]; lia). change ((p :: t).[0]) with (Done p). simpl_m.
  by eexists.
Qed.

Lemma ReadFmtCsid_three b p q t s :
  recv_buffer_ s = b :: p :: q :: t -> Z.land b 0x3f = 1 ->
  exists s', ReadFmtCsid s = Done (RTMP_OK, s') /\ s_csid_ s' = u16 (u16 (64 + p) + q) /\ recv_buffer_ s' = t.
Proof.
  intros Hb H0. unfold ReadFmtCsid. rewrite Hb. rewrite (require_cons_true 1 (b :: p :: q :: t)) by (cbn [length]; lia).
  change ((b :: p :: q :: t).[0]) with (Done b). simpl_m. cbn [s_csid_ set_recv_buffer set_s_csid].
  rewrite H0. cbn [Z.eqb]. change (consume (b :: p :: q :: t) 1) with (p :: q :: t).
  rewrite (require_cons_true 2 (p :: q :: t)) by (cbn [length]; lia). change ((p :: q :: t).[0]) with (Done p).
  change ((p :: q :: t).[1]) with (Done q). simpl_m.
  by eexists.
Qed.

Lemma Write2Bytes_div v : Write2Bytes v = [v / 256 mod 256; v mod 256].
Proof.
  rewrite Write2Bytes_be. cbn [be_bytes]. rewrite !byte_of_div.
  change (2 ^ (8 * Z.of_nat 1)) with 256. change (2 ^ (8 * Z.of_nat 0)) with 1. by rewrite Z.div_1_r.
Qed.

(** Chunk stream ids of 64 and more do not survive the basic header:
    [GenData] writes them without subtracting 64 while [ReadFmtCsid] adds 64, and
    adds the two bytes of the long form up.  The reader takes all of the header,
    and ends with another id, for every id of the two longer forms. *)
Theorem long_csid_not_read_back csid rest s :
  64 <= csid < 65536 ->
  exists h, gen_basic_header 0 csid = Some h /\
    forall s0, s0 = set_recv_buffer (h ++ rest) s ->
    exists s', ReadFmtCsid s0 = Done (RTMP_OK, s') /\ recv_buffer_ s' = rest /\ s_csid_ s' <> csid.
Proof.
  intros Hc. unfold gen_basic_header. destruct (Z.ltb_spec csid 64); [lia|].
  destruct (Z.ltb_spec (csid - 64) 256); [|destruct (Z.ltb_spec (csid - 64) 65536); [|lia]];
    eexists; (split; [reflexivity|]); intros s0 ->.
  - destruct (ReadFmtCsid_two 0 (u8 csid) rest (set_recv_buffer (0 :: u8 csid :: rest) s)) as (s' & Hr & Hcs & Hb);
      [done..|]. exists s'. split; [exact Hr|]. split; [done|]. rewrite Hcs. unfold u8.
    change (2 ^ 8) with 256. unfold u16. pose proof (Z.mod_pos_bound csid 256 ltac:(lia)).
    rewrite Z.mod_small by lia. assert (csid mod 256 = csid - 256 * (csid / 256)) by (apply Z.mod_eq; lia). lia.
  - rewrite Write2Bytes_div. set (p := csid / 256 mod 256). set (q := csid mod 256).
    destruct (ReadFmtCsid_three 1 p q rest (set_recv_buffer (1 :: p :: q :: rest) s)) as (s' & Hr & Hcs & Hb);
      [done..|]. exists s'. split; [exact Hr|]. split; [done|]. rewrite Hcs.
    assert (0 <= csid / 256 < 256) by (split; [apply Z.div_pos|apply Z.div_lt_upper_bound]; lia).
    assert (p = csid / 256) by (apply Z.mod_small; lia).
    assert (q = csid - 256 * (csid / 256)) by (apply Z.mod_eq; lia).
    assert (0 <= q < 256) by (apply Z.mod_pos_bound; lia). clearbody p q. unfold u16. rewrite (Z.mod_small (64 + p)) by lia. rewrite Z.mod_small; lia.
Qed.

Lemma long_csid_not_read_back_witness :
  exists h, gen_basic_header 0 400 = Some h /\
    forall s0, s0 = set_recv_buffer (h ++ []) RtmpSessionBase_new ->
    exists s', ReadFmtCsid s0 = Done (RTMP_OK, s') /\ recv_buffer_ s' = [] /\ s_csid_ s' <> 400.
Proof. apply long_csid_not_read_back. lia. Defined.

(** A message of 10 bytes on chunk stream 4, cut into chunks of 4 bytes. *)
Lemma rtmp_message_roundtrip_witness :
  exists sent, WriteDataByChunkStream 4 100 9 1 4 (seqZ 0 10) = Done (RTMP_OK, sent) /\
    forall s rest fuel,
    fmt_ready_ s = false -> s_chunk_size_ s = 4 ->
    match cs_map_ s !! 4 with None => True | Some cs => idle_cs cs end ->
    recv_buffer_ s = concat sent ++ rest -> (length sent <= fuel)%nat ->
    exists s' cs, read_message fuel s = Done (RTMP_OK, Some 4, s') /\
      received 4 100 9 1 (seqZ 0 10) rest s s' cs.
Proof. apply rtmp_message_roundtrip; vm_compute; split; congruence. Defined.
