(* ===== verification/RtmpControl.v ===== *)
(** * [RtmpControlHandler]: RTMP commands and protocol control messages

    Models [src/net/rtmp/rtmp_control_handler.cpp].  The handler's [session_] is
    the [RtmpSession] passed in and out; the [AMF_ITERM*] vector is a list.  A
    local [DataBuffer amf_buffer] is the byte list it queues (file [DataBuffer]
    proves that view), written through the [ByteSink] of lists.  A run on which
    [while (len > 0)] never ends has no result: it is [OutOfFuel] for every
    fuel, which [command_loop_outcome] separates from a run that is only slow. *)
From S2P Require Import Prelude Double ByteStream DataBuffer Amf0 ChunkStream RtmpSession.

Definition RTMP_CONTROL_SET_CHUNK_SIZE : Z := 1.
Definition RTMP_CONTROL_ACK : Z := 3.
Definition RTMP_CONTROL_WINDOW_ACK_SIZE : Z := 5.
Definition RTMP_CONTROL_SET_PEER_BANDWIDTH : Z := 6.
Definition RTMP_MEDIA_PACKET_AUDIO : Z := 8.
Definition RTMP_MEDIA_PACKET_VIDEO : Z := 9.
Definition RTMP_COMMAND_MESSAGES_META_DATA3 : Z := 15.
Definition RTMP_COMMAND_MESSAGES_META_DATA0 : Z := 18.
Definition RTMP_COMMAND_MESSAGES_AMF0 : Z := 20.

Definition CMD_Connect : bytes := str "connect".
Definition CMD_CreateStream : bytes := str "createStream".
Definition CMD_Publish : bytes := str "publish".
Definition CMD_Play : bytes := str "play".

Definition g_config_chunk_size : Z := 4096.

(** [WriteDataByChunkStream] on behalf of a session: every chunk goes to [RtmpSend]. *)
Definition session_write (csid timestamp type_id msg_stream_id : Z) (data : bytes) (s : RtmpSession)
    : outcome (Z * RtmpSession) :=
  '(ret, sent) ← WriteDataByChunkStream csid timestamp type_id msg_stream_id (GetChunkSize s) data;
  mret (ret, set_sent_log (sent_ s ++ sent) s).

(** ** Building AMF values *)

(** [new AMF_ITERM] of a type, with its value. *)
Definition amf_string (s : bytes) : AMF_ITERM := set_desc s (SetAmfType AMF_DATA_TYPE_STRING amf_default).
Definition amf_number (n : Z) : AMF_ITERM := set_number n (SetAmfType AMF_DATA_TYPE_NUMBER amf_default).

(** A [std::map] filled by [insert]s in the given order. *)
Definition amf_map (l : list (bytes * AMF_ITERM)) : list (bytes * AMF_ITERM) :=
  fold_left (fun m p => map_insert p.1 p.2 m) l [].

(** ** Reading a command *)

(** The loop that fills the vector. The result of [Decode] is not looked at. *)
Fixpoint command_items (fuel : nat) (data : bytes) (len : Z) (amf_vec : list AMF_ITERM)
    : outcome (list AMF_ITERM) :=
  match fuel with
  | O => Fault OutOfFuel
  | S fuel =>
      if 0 <? len then
        '(_, data, len, amf_item) ← Decode (2 * length data + 1) data len amf_default;
        command_items fuel data len (amf_vec ++ [amf_item])
      else mret amf_vec
  end.

(** One turn of the [for] loop of [HandleServerCommandMessage]: [None] returns
    -1, [Some p] goes on with [next_phase = p]. *)
Definition server_command_item (phase next_phase : RTMP_CLIENT_SESSION_PHASE) (publish : bool)
    (item : AMF_ITERM) : option RTMP_CLIENT_SESSION_PHASE :=
  let eqs s := bool_decide (desc_str_ item = str s) in
  let at_ p := bool_decide (phase = p) in
  match amf_type_ item with
  | AMF_DATA_TYPE_STRING =>
      if at_ client_connect_phase || at_ client_connect_resp_phase ||
         at_ client_create_stream_phase || at_ client_create_stream_resp_phase then
        if negb (eqs "_result"%string) && negb (eqs "onBWDone"%string) then None
        else
          let next_phase :=
            if (at_ client_connect_phase || at_ client_connect_resp_phase) && eqs "_result"%string
            then client_create_stream_phase else next_phase in
          Some (if (at_ client_create_stream_phase || at_ client_create_stream_resp_phase) && eqs "_result"%string
                then if publish then client_create_publish_phase else client_create_play_phase
                else next_phase)
      else if at_ client_create_publish_phase || at_ client_create_play_phase then
        if negb (eqs "_result"%string) && negb (eqs "onStatus"%string) && negb (eqs "onBWDone"%string)
        then None else Some next_phase
      else Some next_phase
  | AMF_DATA_TYPE_OBJECT =>
      match map_find (str "code") (amf_obj_ item) with
      | Some obj_item =>
          let eqs s := bool_decide (desc_str_ obj_item = str s) in
          if bool_decide (amf_type_ obj_item = AMF_DATA_TYPE_STRING) then
            if at_ client_connect_phase then
              if negb (eqs "NetConnection.Connect.Success"%string) then None else Some next_phase
            else if at_ client_create_publish_phase || at_ client_create_play_phase then
              if negb (eqs "NetStream.Publish.Start"%string) && negb (eqs "NetStream.Play.Start"%string)
              then None else Some next_phase
            else Some next_phase
          else Some next_phase
      | None => Some next_phase
      end
  | _ => Some next_phase
  end.

Fixpoint server_command_items (phase next_phase : RTMP_CLIENT_SESSION_PHASE) (publish : bool)
    (amf_vec : list AMF_ITERM) : option RTMP_CLIENT_SESSION_PHASE :=
  match amf_vec with
  | [] => Some next_phase
  | item :: rest =>
      match server_command_item phase next_phase publish item with
      | None => None
      | Some next_phase => server_command_items phase next_phase publish rest
      end
  end.

(** The code, the vector and the session. *)
Definition HandleServerCommandMessage (fuel : nat) (cs : ChunkStream) (s : RtmpSession)
    : outcome (Z * list AMF_ITERM * RtmpSession) :=
  let data := chunk_data_ cs in
  amf_vec ← command_items fuel data (zlen data) [];
  if (length amf_vec <? 1)%nat then mret (-1, amf_vec, s)
  else
    match server_command_items (client_phase_ s) (client_phase_ s) (IsPublish s) amf_vec with
    | None => mret (-1, amf_vec, s)
    | Some next_phase => mret (0, amf_vec, set_client_phase next_phase s)
    end.

(** ** Replies *)

Definition GenControl_send (csid ctrl_type size value : Z) (s : RtmpSession) : Z * RtmpSession :=
  let '(ret, c) := GenControlMessage ctrl_type size value (ChunkStream_new 0 csid (GetChunkSize s)) in
  (ret, RtmpSend (chunk_all_ c) s).

Definition SendSetChunksize (chunk_size : Z) (s : RtmpSession) : Z * RtmpSession :=
  (0, (GenControl_send 3 RTMP_CONTROL_SET_CHUNK_SIZE 4 chunk_size s).2).

Definition SendRtmpConnectResp (stream_id : Z) (s : RtmpSession) : outcome (Z * RtmpSession) :=
  let cs := ChunkStream_new 0 3 (GetChunkSize s) in
  let win_size := chunk_all_ (GenControlMessage RTMP_CONTROL_WINDOW_ACK_SIZE 4 2500000 cs).2 in
  let peer_bw := chunk_all_ (GenControlMessage RTMP_CONTROL_SET_PEER_BANDWIDTH 5 2500000 cs).2 in
  let set_chunk := chunk_all_ (GenControlMessage RTMP_CONTROL_SET_CHUNK_SIZE 4 g_config_chunk_size cs).2 in
  let s := SetChunkSize g_config_chunk_size s in
  let s := RtmpSend set_chunk (RtmpSend peer_bw (RtmpSend win_size s)) in
  let resp_amf_obj := amf_map [(str "fmsVer", amf_string (str "FMS/3,0,1,123"));
                               (str "capabilities", amf_number (double_of_int 31))] in
  let event_amf_obj := amf_map [(str "level", amf_string (str "status"));
                                (str "code", amf_string (str "NetConnection.Connect.Success"));
                                (str "description", amf_string (str "Connection succeeded."))] in
  '(_, b) ← Encode_string (str "_result") [] false;
  '(_, b) ← Encode_number (double_of_int 1) b;
  '(_, b) ← Encode_map resp_amf_obj b;
  '(_, b) ← Encode_map event_amf_obj b;
  '(ret, s) ← session_write 3 0 RTMP_COMMAND_MESSAGES_AMF0 stream_id b s;
  if negb (ret =? RTMP_OK) then mret (ret, s)
  else mret (RTMP_OK, set_server_phase create_stream_phase s).

Definition SendRtmpCreateStreamResp (transaction_id : Z) (s : RtmpSession) : outcome (Z * RtmpSession) :=
  '(_, b) ← Encode_string (str "_result") [] false;
  '(_, b) ← Encode_number transaction_id b;
  '(_, b) ← EncodeNull b;
  '(_, b) ← Encode_number (double_of_int (stream_id_ s)) b;
  '(ret, s) ← session_write 3 0 RTMP_COMMAND_MESSAGES_AMF0 (stream_id_ s) b s;
  if negb (ret =? RTMP_OK) then mret (ret, s)
  else mret (RTMP_OK, set_server_phase create_publish_play_phase s).

(** The ["onStatus"] message the five status replies build and send. *)
Definition send_onStatus (code description : bytes) (s : RtmpSession) : outcome (Z * RtmpSession) :=
  '(_, b) ← Encode_string (str "onStatus") [] false;
  '(_, b) ← Encode_number (double_of_int 0) b;
  '(_, b) ← EncodeNull b;
  '(_, b) ← Encode_map (amf_map [(str "level", amf_string (str "status"));
                                 (str "code", amf_string code);
                                 (str "description", amf_string description)]) b;
  session_write 3 0 RTMP_COMMAND_MESSAGES_AMF0 (stream_id_ s) b s.

Definition SendRtmpPlayResetResp (s : RtmpSession) : outcome (Z * RtmpSession) :=
  send_onStatus (str "NetStream.Play.Reset") (str "Playing and resetting stream.") s.
Definition SendRtmpPlayStartResp (s : RtmpSession) : outcome (Z * RtmpSession) :=
  send_onStatus (str "NetStream.Play.Start") (str "Started playing stream.") s.
Definition SendRtmpPlayDataResp (s : RtmpSession) : outcome (Z * RtmpSession) :=
  send_onStatus (str "NetStream.Data.Start") (str "Started playing stream.") s.
Definition SendRtmpPlayNotifyResp (s : RtmpSession) : outcome (Z * RtmpSession) :=
  send_onStatus (str "NetStream.Play.PublishNotify") (str "Started playing notify.") s.

Definition SendRtmpPublishResp (s : RtmpSession) : outcome (Z * RtmpSession) :=
  '(ret, s) ← send_onStatus (str "NetStream.Publish.Start") (str "Start publising.") s;
  if negb (ret =? RTMP_OK) then mret (ret, s)
  else mret (RTMP_OK, set_server_phase media_handle_phase s).

Definition SendRtmpPlayResp (s : RtmpSession) : outcome (Z * RtmpSession) :=
  let cs := ChunkStream_new 0 3 6 in
  let s := RtmpSend (chunk_all_ (GenSetRecordedMessage cs).2) s in
  let s := RtmpSend (chunk_all_ (GenSetBeginMessage cs).2) s in
  '(_, s) ← SendRtmpPlayResetResp s;
  '(_, s) ← SendRtmpPlayStartResp s;
  '(_, s) ← SendRtmpPlayDataResp s;
  '(_, s) ← SendRtmpPlayNotifyResp s;
  mret (RTMP_OK, s).

Definition SendRtmpAck (size : Z) (s : RtmpSession) : Z * RtmpSession :=
  let s := set_ack_received (u32 (ack_received_ s + size)) s in
  if remote_window_acksize_ s <? ack_received_ s then
    let '(ret, s) := GenControl_send 3 RTMP_CONTROL_ACK 4 (GetChunkSize s) s in
    (ret, set_ack_received 0 s)
  else (0, s).

(** ** Commands of a client *)

(** A string field of the connect object: [None] when it has another type. *)
Definition connect_field (name : bytes) (obj : list (bytes * AMF_ITERM))
    (set : bytes -> RtmpRequest -> RtmpRequest) (r : RtmpRequest) : option RtmpRequest :=
  match map_find name obj with
  | None => Some r
  | Some item =>
      if bool_decide (amf_type_ item = AMF_DATA_TYPE_STRING) then Some (set (desc_str_ item) r) else None
  end.

(** The [switch] on one item of the connect command; the session keeps what was
    stored before an error return. *)
Definition connect_item (item : AMF_ITERM) (r : RtmpRequest) : Z * RtmpRequest :=
  match amf_type_ item with
  | AMF_DATA_TYPE_OBJECT =>
      match connect_field (str "app") (amf_obj_ item) set_app r with
      | None => (-1, r)
      | Some r =>
          match connect_field (str "tcUrl") (amf_obj_ item) set_tcurl r with
          | None => (-1, r)
          | Some r =>
              match connect_field (str "flashVer") (amf_obj_ item) set_flash_ver r with
              | None => (-1, r)
              | Some r => (0, r)
              end
          end
      end
  | _ => (0, r)
  end.

Fixpoint connect_items (items : list AMF_ITERM) (r : RtmpRequest) : Z * RtmpRequest :=
  match items with
  | [] => (0, r)
  | item :: rest =>
      let '(ret, r) := connect_item item r in
      if ret =? 0 then connect_items rest r else (ret, r)
  end.

Definition HandleRtmpConnectCommand (amf_vec : list AMF_ITERM) (s : RtmpSession) : outcome (Z * RtmpSession) :=
  if (length amf_vec <? 3)%nat then mret (-1, s)
  else
    let '(ret, r) := connect_items (drop 1 amf_vec) (req_ s) in
    let s := set_req r s in
    if ret =? 0 then SendRtmpConnectResp (stream_id_ s) s else mret (ret, s).

(** The transaction id of the createStream, play and publish commands: the last
    number among the items; each one is also stored in the request. *)
Fixpoint transaction_items (items : list AMF_ITERM) (transactionId : Z) (r : RtmpRequest)
    : outcome (Z * RtmpRequest) :=
  match items with
  | [] => mret (transactionId, r)
  | item :: rest =>
      match amf_type_ item with
      | AMF_DATA_TYPE_NUMBER =>
          id ← int64_of_double (number_ item);
          transaction_items rest (number_ item) (set_transaction_id id r)
      | _ => transaction_items rest transactionId r
      end
  end.

(** The stream name of the play and publish commands: the first nonempty string. *)
Fixpoint name_items (items : list AMF_ITERM) (stream_name : bytes) : bytes :=
  match items with
  | [] => stream_name
  | item :: rest =>
      match amf_type_ item with
      | AMF_DATA_TYPE_STRING =>
          name_items rest (if bool_decide (stream_name = []) then desc_str_ item else stream_name)
      | _ => name_items rest stream_name
      end
  end.

Definition HandleRtmpCreatestreamCommand (stream_id : Z) (amf_vec : list AMF_ITERM) (s : RtmpSession)
    : outcome (Z * RtmpSession) :=
  if (length amf_vec <? 3)%nat then mret (-1, s)
  else
    '(transactionId, r) ← transaction_items (drop 1 amf_vec) (double_of_int 0)
                            (set_req_stream_id stream_id (req_ s));
    SendRtmpCreateStreamResp transactionId (set_req r s).

(** What the play and publish commands store. *)
Definition store_request (publish : bool) (stream_name : bytes) (r : RtmpRequest) : RtmpRequest :=
  let r := set_is_ready true (set_publish_flag publish (set_stream_name stream_name r)) in
  set_key (app_ r ++ str "/" ++ stream_name) r.

Definition HandleRtmpPlayCommand (amf_vec : list AMF_ITERM) (s : RtmpSession) : outcome (Z * RtmpSession) :=
  if (length amf_vec <? 3)%nat then mret (-1, s)
  else
    '(_, r) ← transaction_items (drop 1 amf_vec) (double_of_int 0) (req_ s);
    SendRtmpPlayResp (set_req (store_request false (name_items (drop 1 amf_vec) []) r) s).

Definition HandleRtmpPublishCommand (amf_vec : list AMF_ITERM) (s : RtmpSession) : outcome (Z * RtmpSession) :=
  if (length amf_vec <? 3)%nat then mret (-1, s)
  else
    '(_, r) ← transaction_items (drop 1 amf_vec) (double_of_int 0) (req_ s);
    SendRtmpPublishResp (set_req (store_request true (name_items (drop 1 amf_vec) []) r) s).

Definition HandleClientCommandMessage (fuel : nat) (cs : ChunkStream) (s : RtmpSession)
    : outcome (Z * list AMF_ITERM * RtmpSession) :=
  let data := chunk_data_ cs in
  amf_vec ← command_items fuel data (zlen data) [];
  match amf_vec with
  | [] => mret (-1, amf_vec, s)
  | item :: _ =>
      if negb (bool_decide (amf_type_ item = AMF_DATA_TYPE_STRING)) then mret (-1, amf_vec, s)
      else
        let cmd_type := desc_str_ item in
        '(ret, s) ←
          (if bool_decide (cmd_type = CMD_Connect) then HandleRtmpConnectCommand amf_vec s
           else if bool_decide (cmd_type = CMD_CreateStream)
           then HandleRtmpCreatestreamCommand (msg_stream_id_ cs) amf_vec s
           else if bool_decide (cmd_type = CMD_Publish) then HandleRtmpPublishCommand amf_vec s
           else if bool_decide (cmd_type = CMD_Play) then HandleRtmpPlayCommand amf_vec s
           else mret (0, s));
        if ret =? RTMP_OK then
          if is_ready_ (req_ s) && negb (publish_flag_ (req_ s)) then mret (ret, amf_vec, s)
          else mret (RTMP_NEED_READ_MORE, amf_vec, s)
        else mret (ret, amf_vec, s)
  end.

(** ** Protocol control messages *)

Definition HandleRtmpControlMessage (cs : ChunkStream) (s : RtmpSession) : outcome (Z * RtmpSession) :=
  if type_id_ cs =? RTMP_CONTROL_SET_CHUNK_SIZE then
    if zlen (chunk_data_ cs) <? 4 then mret (-1, s)
    else
      v ← Read4Bytes (chunk_data_ cs);
      let s := SetChunkSize v s in
      mret (RTMP_OK, (SendSetChunksize (GetChunkSize s) s).2)
  else if type_id_ cs =? RTMP_CONTROL_WINDOW_ACK_SIZE then
    if zlen (chunk_data_ cs) <? 4 then mret (-1, s)
    else
      v ← Read4Bytes (chunk_data_ cs);
      mret (RTMP_OK, set_remote_window_acksize v s)
  else mret (RTMP_OK, s).

(** ** The reading loop *)

(** [Decode] past a known marker either fails or moves on. *)
Lemma Decode_progress data len item ret d l i :
  Decode (2 * length data + 1) data len item = Done (ret, d, l, i) ->
  (length d < length data)%nat \/
  exists b rest, data = b :: rest /\ (13 < b \/ b < 0) /\ (ret, d, l, i) = (-1, data, len, item).
Proof.
  destruct data as [|b rest]; [done|]. intros Hd.
  destruct (decide (13 < b \/ b < 0)) as [Hb|Hb].
  - right. exists b, rest. split; [done|]. split; [done|].
    replace (2 * length (b :: rest) + 1)%nat with (S (2 * length (b :: rest))) in Hd by lia.
    cbn [Decode] in Hd. change ((b :: rest).[0]) with (Done b) in Hd. revert Hd. simpl_m.
    cbn [amf_code]. destruct (Z.ltb_spec 13 b), (Z.ltb_spec b 0); cbn [orb]; try lia; congruence.
  - left.
    assert (answers (length rest) false (Decode (2 * length (b :: rest) + 1) (b :: rest) len item)) as Ha;
      [|rewrite Hd in Ha; cbn in *; lia].
    clear Hd. cbn [length]. replace (2 * S (length rest) + 1)%nat with (S (2 * length rest + 2)) by lia.
    destruct (Decode_answers (2 * length rest + 2)) as (_ & IHo & _ & IHa).
    cbn [Decode]. change ((b :: rest).[0]) with (Done b). simpl_m. cbn [amf_code].
    destruct (Z.ltb_spec 13 b), (Z.ltb_spec b 0); cbn [orb]; try lia.
    change (skip (b :: rest) 1) with (drop 0 rest). rewrite drop_0. reads.
    + apply (answers_map _ false (fun o => set_obj o _)). apply IHo. lia.
    + apply (answers_map _ false (fun o => set_obj o _)). eapply answers_le, IHo; rewrite length_skip; lia.
    + assert (answers (length rest) false (DecodeAmfArray (2 * length rest + 2) rest (len - 1)
        (amf_array_ (SetAmfType AMF_DATA_TYPE_ARRAY item)))) as Harr by (apply IHa; lia).
      destruct (DecodeAmfArray _ _ _ _) as [[[[? ?] ?] ?]|[]]; cbn in *; lia || done.
Qed.

Lemma command_items_S fuel data len vec :
  command_items (S fuel) data len vec =
  if 0 <? len then
    '(_, d, l, i) ← Decode (2 * length data + 1) data len amf_default;
    command_items fuel d l (vec ++ [i])
  else Done vec.
Proof. reflexivity. Qed.

Lemma command_items_grow fuel : forall data len vec vec',
  command_items fuel data len vec = Done vec' -> (length vec <= length vec')%nat.
Proof.
  induction fuel as [|fuel IH]; intros data len vec vec'; [discriminate|]. rewrite command_items_S.
  destruct (_ <? _); [|by intros [= <-]]. destruct (Decode _ _ _ _) as [[[[? ?] ?] ?]|]; [|discriminate].
  simpl_m. intros Hw. apply IH in Hw. rewrite length_app in Hw. cbn in Hw. lia.
Qed.

Lemma command_items_nonempty fuel data vec :
  data <> [] -> command_items fuel data (zlen data) [] = Done vec -> (1 <= length vec)%nat.
Proof.
  intros Hne. destruct fuel as [|fuel]; [discriminate|]. rewrite command_items_S.
  destruct data as [|x l]; [done|]. rewrite zlen_cons. pose proof (zlen_nonneg l).
  destruct (Z.ltb_spec 0 (1 + zlen l)); [|lia].
  destruct (Decode _ _ _ _) as [[[[? ?] ?] ?]|]; [|discriminate]. simpl_m. intros Hw.
  apply command_items_grow in Hw. cbn in Hw. lia.
Qed.

(** A loop standing on an invalid marker stays there. *)
Lemma command_items_stuck b rest len fuel : forall vec,
  13 < b \/ b < 0 -> 0 < len -> command_items fuel (b :: rest) len vec = Fault OutOfFuel.
Proof.
  induction fuel as [|fuel IH]; intros vec Hb Hl; [done|]. rewrite command_items_S.
  destruct (Z.ltb_spec 0 len); [|lia].
  replace (2 * length (b :: rest) + 1)%nat with (S (2 * length (b :: rest))) by lia.
  cbn [Decode]. change ((b :: rest).[0]) with (Done b). simpl_m. cbn [amf_code].
  replace ((13 <? b) || (b <? 0)) with true by (symmetry; apply orb_true_iff; lia).
  by apply IH.
Qed.

(** The dichotomy by induction on the bytes left. *)
Lemma command_items_dichotomy n : forall data len vec, (length data <= n)%nat ->
  (exists r, r <> Fault OutOfFuel /\ forall fuel, (n < fuel)%nat -> command_items fuel data len vec = r) \/
  (forall fuel, command_items fuel data len vec = Fault OutOfFuel).
Proof.
  induction n as [|n IH]; intros data len vec Hn.
  all: destruct (Z.ltb_spec 0 len) as [Hl|Hl];
    [|left; exists (Done vec); split; [done|]; intros [|fuel] Hf; [lia|];
      rewrite command_items_S; by destruct (Z.ltb_spec 0 len); [lia|]].
  - destruct data; [|cbn in Hn; lia]. left. exists (Fault OutOfBounds). split; [done|].
    intros [|fuel] Hf; [lia|]. rewrite command_items_S. by destruct (Z.ltb_spec 0 len); [|lia].
  - destruct (Decode (2 * length data + 1) data len amf_default) as [[[[ret d] l] i]|f] eqn:Hd.
    + destruct (Decode_progress _ _ _ _ _ _ _ Hd) as [Hlt|(b & rest & -> & Hb & _)];
        [|right; intros fuel; by apply command_items_stuck].
      destruct (IH d l (vec ++ [i]) ltac:(lia)) as [(r & Hr & Hrun)|Hrun].
      * left. exists r. split; [done|]. intros [|fuel] Hf; [lia|]. rewrite command_items_S, Hd. simpl_m.
        destruct (Z.ltb_spec 0 len); [|lia]. apply Hrun. lia.
      * right. intros [|fuel]; [done|]. rewrite command_items_S, Hd. simpl_m.
        destruct (Z.ltb_spec 0 len); [|lia]. apply Hrun.
    + left. exists (Fault f). split.
      * intros [= ->]. destruct (Decode_answers (2 * length data + 1)) as [Ha _].
        specialize (Ha data len amf_default ltac:(lia)). by rewrite Hd in Ha.
      * intros [|fuel] Hf; [lia|]. rewrite command_items_S, Hd. simpl_m.
        by destruct (Z.ltb_spec 0 len); [|lia].
Qed.

(** ** What the encoders write, read back as a command *)

Inductive amf_arg := ArgValue (i : AMF_ITERM) | ArgMap (m : list (bytes * AMF_ITERM)).

Definition arg_bytes (a : amf_arg) : bytes :=
  match a with ArgValue i => value_bytes i | ArgMap m => map_bytes m end.

(** The items the loop makes of it: the end marker of a map becomes an item of
    its own, of unknown type. *)
Definition arg_items (a : amf_arg) : list AMF_ITERM :=
  match a with
  | ArgValue i => [i]
  | ArgMap m => [set_obj m (SetAmfType AMF_DATA_TYPE_OBJECT amf_default); amf_default]
  end.
Definition plain_arg (a : amf_arg) : Prop :=
  match a with ArgValue i => plain_value i | ArgMap m => plain_map m end.

Definition args_bytes (args : list amf_arg) : bytes := concat (map arg_bytes args).
Definition args_items (args : list amf_arg) : list AMF_ITERM := concat (map arg_items args).

Lemma string_payload_length s : (2 <= length (string_payload s))%nat.
Proof.
  unfold string_payload. destruct (_ <? _); rewrite length_app;
    [change (length (Write4Bytes (zlen s))) with 4%nat|change (length (Write2Bytes (zlen s))) with 2%nat]; lia.
Qed.

Lemma map_bytes_length m : (length m + 4 <= length (map_bytes m))%nat.
Proof.
  unfold map_bytes. cbn [length]. rewrite length_app. cbn [length].
  assert (length m <= length (pairs_bytes m))%nat; [|lia].
  unfold pairs_bytes. induction m as [|[k i] m IH]; [done|]. cbn [map concat length]. rewrite length_app.
  unfold pair_bytes at 1. rewrite length_app. pose proof (string_payload_length (k, i).1). lia.
Qed.

Lemma value_bytes_length i : plain_value i -> (1 <= length (value_bytes i))%nat.
Proof. destruct 1; cbn; lia. Qed.

Lemma zlen_length {A} (l : list A) : zlen l = Z.of_nat (length l).
Proof. done. Qed.

Lemma command_items_args args : forall fuel vec,
  Forall plain_arg args -> zlen (args_bytes args) < 2 ^ 31 -> (2 * length args < fuel)%nat ->
  command_items fuel (args_bytes args) (zlen (args_bytes args)) vec = Done (vec ++ args_items args).
Proof.
  induction args as [|a args IH]; intros fuel vec Ha Hlen Hf.
  - destruct fuel; [lia|]. rewrite command_items_S. cbn. by rewrite app_nil_r.
  - apply Forall_cons in Ha as [Ha Hargs]. unfold args_bytes, args_items in *. cbn [map concat length] in *.
    rewrite zlen_app in *. pose proof (zlen_nonneg (concat (map arg_bytes args))) as Hz.
    destruct a as [i|m]; cbn [arg_bytes arg_items plain_arg] in *.
    + pose proof (value_bytes_length i Ha). pose proof (zlen_nonneg (value_bytes i)). destruct fuel as [|fuel]; [lia|]. rewrite command_items_S.
      rewrite !zlen_length in *. destruct (Z.ltb_spec 0 (Z.of_nat (length (value_bytes i)) +
        Z.of_nat (length (concat (map arg_bytes args))))); [|lia]. rewrite <- !zlen_length in *.
      match goal with |- context [(2 * ?n + 1)%nat] => replace (2 * n + 1)%nat with (S (2 * n)) by lia end.
      rewrite Decode_value by (done || lia). simpl_m.
      rewrite Z.add_simpl_l, IH by (done || lia). by rewrite <- app_assoc.
    + pose proof (map_bytes_length m). pose proof (zlen_nonneg (map_bytes m)). destruct fuel as [|[|fuel]]; [lia..|]. rewrite command_items_S.
      rewrite !zlen_length in *. destruct (Z.ltb_spec 0 (Z.of_nat (length (map_bytes m)) +
        Z.of_nat (length (concat (map arg_bytes args))))); [|lia]. rewrite <- !zlen_length in *.
      rewrite Decode_map_bytes by (rewrite ?length_app; done || lia). simpl_m.
      rewrite command_items_S. destruct (Z.ltb_spec 0 (zlen (map_bytes m) +
        zlen (concat (map arg_bytes args)) - (zlen (map_bytes m) - 1))); [|lia].
      match goal with |- context [(2 * ?n + 1)%nat] => replace (2 * n + 1)%nat with (S (2 * n)) by lia end.
      match goal with |- context [Decode (S ?f) (9 :: ?r) ?l amf_default] =>
        replace (Decode (S f) (9 :: r) l amf_default) with (Done (-1, r, l - 1, amf_default)) by reflexivity end.
      simpl_m. match goal with |- context [command_items _ _ ?l _] =>
        replace l with (zlen (concat (map arg_bytes args))) by lia end.
      rewrite IH by (done || lia). by rewrite <- !app_assoc.
Qed.

(** The loop that turns a command into items either has ended after one turn
    more than there are bytes, with the same result for every larger fuel, or it
    never ends. *)
Theorem command_loop_outcome data len vec :
  (exists r, r <> Fault OutOfFuel /\
     forall fuel, (length data < fuel)%nat -> command_items fuel data len vec = r) \/
  (forall fuel, command_items fuel data len vec = Fault OutOfFuel).
Proof. by apply (command_items_dichotomy (length data)). Qed.

(** C37. A command whose first byte is no AMF0 marker hangs the session: the
    decoder refuses the byte without consuming it, its result is ignored, and the
    loop of both message handlers goes round forever on the same byte. *)
Theorem invalid_marker_hangs b rest cs s fuel :
  chunk_data_ cs = b :: rest -> 13 < b ->
  HandleServerCommandMessage fuel cs s = Fault OutOfFuel /\
  HandleClientCommandMessage fuel cs s = Fault OutOfFuel.
Proof.
  intros Hd Hb. unfold HandleServerCommandMessage, HandleClientCommandMessage. cbv zeta.
  rewrite Hd, command_items_stuck; [done|by left|]. rewrite zlen_cons. pose proof (zlen_nonneg rest). lia.
Qed.

Lemma invalid_marker_hangs_witness :
  let cs := set_chunk_data [0x11; 2; 0; 7] (ChunkStream_new 0 3 128) in
  HandleServerCommandMessage 1000 cs RtmpSessionBase_new = Fault OutOfFuel /\
  HandleClientCommandMessage 1000 cs RtmpSessionBase_new = Fault OutOfFuel.
Proof. apply (invalid_marker_hangs 0x11 [2; 0; 7]); [reflexivity|lia]. Defined.
