(* ===== verification/Media.v ===== *)
(** * [Media]: the packets the components hand to each other

    Models the enumerations of [src/utils/av/av.hpp], the class [Media_Packet]
    of [src/utils/av/media_packet.hpp] and the FLV constants and
    [AddFlvMediaHeader] of [src/format/flv/flv_pub.hpp].  A packet owns a
    [DataBuffer] at the level of its memory, because the components prepend
    headers in the space before the data pointer.  [metadata_type_] is not
    initialised by the source: it is an option, [None] until it is assigned. *)
From S2P Require Import Prelude ByteStream DataBuffer.

Inductive MEDIA_PKT_TYPE :=
  | MEDIA_UNKOWN_TYPE | MEDIA_VIDEO_TYPE | MEDIA_AUDIO_TYPE | MEDIA_MOVBOX_TYPE | MEDIA_METADATA_TYPE.
Inductive MEDIA_CODEC_TYPE :=
  | MEDIA_CODEC_UNKOWN | MEDIA_CODEC_H264 | MEDIA_CODEC_H265 | MEDIA_CODEC_H266 | MEDIA_CODEC_VP8
  | MEDIA_CODEC_VP9 | MEDIA_CODEC_AV1 | MEDIA_CODEC_AAC | MEDIA_CODEC_OPUS | MEDIA_CODEC_MP3.
Inductive MEDIA_FORMAT_TYPE :=
  | MEDIA_FORMAT_UNKOWN | MEDIA_FORMAT_RAW | MEDIA_FORMAT_FLV | MEDIA_FORMAT_MPEGTS.
#[export] Instance pkt_type_eq_dec : EqDecision MEDIA_PKT_TYPE.
Proof. solve_decision. Defined.
#[export] Instance codec_type_eq_dec : EqDecision MEDIA_CODEC_TYPE.
Proof. solve_decision. Defined.
#[export] Instance format_type_eq_dec : EqDecision MEDIA_FORMAT_TYPE.
Proof. solve_decision. Defined.

Definition ASC_TYPE_AAC_LC : Z := 2.

Record Media_Packet := mkPacket {
  av_type_ : MEDIA_PKT_TYPE;
  codec_type_ : MEDIA_CODEC_TYPE;
  fmt_type_ : MEDIA_FORMAT_TYPE;
  dts_ : Z;
  pts_ : Z;
  is_key_frame_ : bool;
  is_seq_hdr_ : bool;
  has_flv_audio_asc_ : bool;
  buffer_ptr_ : DataBuffer;
  metadata_type_ : option Z;
  metadata_ : list (bytes * bytes);
  sample_rate_ : Z;
  sample_size_ : Z;
  channel_ : Z;
  aac_asc_type_ : Z;
  pkt_key_ : bytes;
  pkt_vhost_ : bytes;
  pkt_app_ : bytes;
  streamname_ : bytes;
  streamid_ : Z;
  typeid_ : Z
}.

(** Assignments to one field. *)
Definition set_av_type (v : MEDIA_PKT_TYPE) (s : Media_Packet) : Media_Packet :=
  mkPacket v (codec_type_ s) (fmt_type_ s) (dts_ s) (pts_ s) (is_key_frame_ s) (is_seq_hdr_ s) (has_flv_audio_asc_ s) (buffer_ptr_ s) (metadata_type_ s) (metadata_ s) (sample_rate_ s) (sample_size_ s) (channel_ s) (aac_asc_type_ s) (pkt_key_ s) (pkt_vhost_ s) (pkt_app_ s) (streamname_ s) (streamid_ s) (typeid_ s).
Definition set_codec_type (v : MEDIA_CODEC_TYPE) (s : Media_Packet) : Media_Packet :=
  mkPacket (av_type_ s) v (fmt_type_ s) (dts_ s) (pts_ s) (is_key_frame_ s) (is_seq_hdr_ s) (has_flv_audio_asc_ s) (buffer_ptr_ s) (metadata_type_ s) (metadata_ s) (sample_rate_ s) (sample_size_ s) (channel_ s) (aac_asc_type_ s) (pkt_key_ s) (pkt_vhost_ s) (pkt_app_ s) (streamname_ s) (streamid_ s) (typeid_ s).
Definition set_fmt_type (v : MEDIA_FORMAT_TYPE) (s : Media_Packet) : Media_Packet :=
  mkPacket (av_type_ s) (codec_type_ s) v (dts_ s) (pts_ s) (is_key_frame_ s) (is_seq_hdr_ s) (has_flv_audio_asc_ s) (buffer_ptr_ s) (metadata_type_ s) (metadata_ s) (sample_rate_ s) (sample_size_ s) (channel_ s) (aac_asc_type_ s) (pkt_key_ s) (pkt_vhost_ s) (pkt_app_ s) (streamname_ s) (streamid_ s) (typeid_ s).
Definition set_dts (v : Z) (s : Media_Packet) : Media_Packet :=
  mkPacket (av_type_ s) (codec_type_ s) (fmt_type_ s) v (pts_ s) (is_key_frame_ s) (is_seq_hdr_ s) (has_flv_audio_asc_ s) (buffer_ptr_ s) (metadata_type_ s) (metadata_ s) (sample_rate_ s) (sample_size_ s) (channel_ s) (aac_asc_type_ s) (pkt_key_ s) (pkt_vhost_ s) (pkt_app_ s) (streamname_ s) (streamid_ s) (typeid_ s).
Definition set_pts (v : Z) (s : Media_Packet) : Media_Packet :=
  mkPacket (av_type_ s) (codec_type_ s) (fmt_type_ s) (dts_ s) v (is_key_frame_ s) (is_seq_hdr_ s) (has_flv_audio_asc_ s) (buffer_ptr_ s) (metadata_type_ s) (metadata_ s) (sample_rate_ s) (sample_size_ s) (channel_ s) (aac_asc_type_ s) (pkt_key_ s) (pkt_vhost_ s) (pkt_app_ s) (streamname_ s) (streamid_ s) (typeid_ s).
Definition set_is_key_frame (v : bool) (s : Media_Packet) : Media_Packet :=
  mkPacket (av_type_ s) (codec_type_ s) (fmt_type_ s) (dts_ s) (pts_ s) v (is_seq_hdr_ s) (has_flv_audio_asc_ s) (buffer_ptr_ s) (metadata_type_ s) (metadata_ s) (sample_rate_ s) (sample_size_ s) (channel_ s) (aac_asc_type_ s) (pkt_key_ s) (pkt_vhost_ s) (pkt_app_ s) (streamname_ s) (streamid_ s) (typeid_ s).
Definition set_is_seq_hdr (v : bool) (s : Media_Packet) : Media_Packet :=
  mkPacket (av_type_ s) (codec_type_ s) (fmt_type_ s) (dts_ s) (pts_ s) (is_key_frame_ s) v (has_flv_audio_asc_ s) (buffer_ptr_ s) (metadata_type_ s) (metadata_ s) (sample_rate_ s) (sample_size_ s) (channel_ s) (aac_asc_type_ s) (pkt_key_ s) (pkt_vhost_ s) (pkt_app_ s) (streamname_ s) (streamid_ s) (typeid_ s).
Definition set_has_flv_audio_asc (v : bool) (s : Media_Packet) : Media_Packet :=
  mkPacket (av_type_ s) (codec_type_ s) (fmt_type_ s) (dts_ s) (pts_ s) (is_key_frame_ s) (is_seq_hdr_ s) v (buffer_ptr_ s) (metadata_type_ s) (metadata_ s) (sample_rate_ s) (sample_size_ s) (channel_ s) (aac_asc_type_ s) (pkt_key_ s) (pkt_vhost_ s) (pkt_app_ s) (streamname_ s) (streamid_ s) (typeid_ s).
Definition set_buffer_ptr (v : DataBuffer) (s : Media_Packet) : Media_Packet :=
  mkPacket (av_type_ s) (codec_type_ s) (fmt_type_ s) (dts_ s) (pts_ s) (is_key_frame_ s) (is_seq_hdr_ s) (has_flv_audio_asc_ s) v (metadata_type_ s) (metadata_ s) (sample_rate_ s) (sample_size_ s) (channel_ s) (aac_asc_type_ s) (pkt_key_ s) (pkt_vhost_ s) (pkt_app_ s) (streamname_ s) (streamid_ s) (typeid_ s).
Definition set_metadata_type (v : option Z) (s : Media_Packet) : Media_Packet :=
  mkPacket (av_type_ s) (codec_type_ s) (fmt_type_ s) (dts_ s) (pts_ s) (is_key_frame_ s) (is_seq_hdr_ s) (has_flv_audio_asc_ s) (buffer_ptr_ s) v (metadata_ s) (sample_rate_ s) (sample_size_ s) (channel_ s) (aac_asc_type_ s) (pkt_key_ s) (pkt_vhost_ s) (pkt_app_ s) (streamname_ s) (streamid_ s) (typeid_ s).
Definition set_metadata (v : list (bytes * bytes)) (s : Media_Packet) : Media_Packet :=
  mkPacket (av_type_ s) (codec_type_ s) (fmt_type_ s) (dts_ s) (pts_ s) (is_key_frame_ s) (is_seq_hdr_ s) (has_flv_audio_asc_ s) (buffer_ptr_ s) (metadata_type_ s) v (sample_rate_ s) (sample_size_ s) (channel_ s) (aac_asc_type_ s) (pkt_key_ s) (pkt_vhost_ s) (pkt_app_ s) (streamname_ s) (streamid_ s) (typeid_ s).
Definition set_sample_rate (v : Z) (s : Media_Packet) : Media_Packet :=
  mkPacket (av_type_ s) (codec_type_ s) (fmt_type_ s) (dts_ s) (pts_ s) (is_key_frame_ s) (is_seq_hdr_ s) (has_flv_audio_asc_ s) (buffer_ptr_ s) (metadata_type_ s) (metadata_ s) v (sample_size_ s) (channel_ s) (aac_asc_type_ s) (pkt_key_ s) (pkt_vhost_ s) (pkt_app_ s) (streamname_ s) (streamid_ s) (typeid_ s).
Definition set_sample_size (v : Z) (s : Media_Packet) : Media_Packet :=
  mkPacket (av_type_ s) (codec_type_ s) (fmt_type_ s) (dts_ s) (pts_ s) (is_key_frame_ s) (is_seq_hdr_ s) (has_flv_audio_asc_ s) (buffer_ptr_ s) (metadata_type_ s) (metadata_ s) (sample_rate_ s) v (channel_ s) (aac_asc_type_ s) (pkt_key_ s) (pkt_vhost_ s) (pkt_app_ s) (streamname_ s) (streamid_ s) (typeid_ s).
Definition set_channel (v : Z) (s : Media_Packet) : Media_Packet :=
  mkPacket (av_type_ s) (codec_type_ s) (fmt_type_ s) (dts_ s) (pts_ s) (is_key_frame_ s) (is_seq_hdr_ s) (has_flv_audio_asc_ s) (buffer_ptr_ s) (metadata_type_ s) (metadata_ s) (sample_rate_ s) (sample_size_ s) v (aac_asc_type_ s) (pkt_key_ s) (pkt_vhost_ s) (pkt_app_ s) (streamname_ s) (streamid_ s) (typeid_ s).
Definition set_aac_asc_type (v : Z) (s : Media_Packet) : Media_Packet :=
  mkPacket (av_type_ s) (codec_type_ s) (fmt_type_ s) (dts_ s) (pts_ s) (is_key_frame_ s) (is_seq_hdr_ s) (has_flv_audio_asc_ s) (buffer_ptr_ s) (metadata_type_ s) (metadata_ s) (sample_rate_ s) (sample_size_ s) (channel_ s) v (pkt_key_ s) (pkt_vhost_ s) (pkt_app_ s) (streamname_ s) (streamid_ s) (typeid_ s).
Definition set_pkt_key (v : bytes) (s : Media_Packet) : Media_Packet :=
  mkPacket (av_type_ s) (codec_type_ s) (fmt_type_ s) (dts_ s) (pts_ s) (is_key_frame_ s) (is_seq_hdr_ s) (has_flv_audio_asc_ s) (buffer_ptr_ s) (metadata_type_ s) (metadata_ s) (sample_rate_ s) (sample_size_ s) (channel_ s) (aac_asc_type_ s) v (pkt_vhost_ s) (pkt_app_ s) (streamname_ s) (streamid_ s) (typeid_ s).
Definition set_pkt_vhost (v : bytes) (s : Media_Packet) : Media_Packet :=
  mkPacket (av_type_ s) (codec_type_ s) (fmt_type_ s) (dts_ s) (pts_ s) (is_key_frame_ s) (is_seq_hdr_ s) (has_flv_audio_asc_ s) (buffer_ptr_ s) (metadata_type_ s) (metadata_ s) (sample_rate_ s) (sample_size_ s) (channel_ s) (aac_asc_type_ s) (pkt_key_ s) v (pkt_app_ s) (streamname_ s) (streamid_ s) (typeid_ s).
Definition set_pkt_app (v : bytes) (s : Media_Packet) : Media_Packet :=
  mkPacket (av_type_ s) (codec_type_ s) (fmt_type_ s) (dts_ s) (pts_ s) (is_key_frame_ s) (is_seq_hdr_ s) (has_flv_audio_asc_ s) (buffer_ptr_ s) (metadata_type_ s) (metadata_ s) (sample_rate_ s) (sample_size_ s) (channel_ s) (aac_asc_type_ s) (pkt_key_ s) (pkt_vhost_ s) v (streamname_ s) (streamid_ s) (typeid_ s).
Definition set_streamname (v : bytes) (s : Media_Packet) : Media_Packet :=
  mkPacket (av_type_ s) (codec_type_ s) (fmt_type_ s) (dts_ s) (pts_ s) (is_key_frame_ s) (is_seq_hdr_ s) (has_flv_audio_asc_ s) (buffer_ptr_ s) (metadata_type_ s) (metadata_ s) (sample_rate_ s) (sample_size_ s) (channel_ s) (aac_asc_type_ s) (pkt_key_ s) (pkt_vhost_ s) (pkt_app_ s) v (streamid_ s) (typeid_ s).
Definition set_streamid (v : Z) (s : Media_Packet) : Media_Packet :=
  mkPacket (av_type_ s) (codec_type_ s) (fmt_type_ s) (dts_ s) (pts_ s) (is_key_frame_ s) (is_seq_hdr_ s) (has_flv_audio_asc_ s) (buffer_ptr_ s) (metadata_type_ s) (metadata_ s) (sample_rate_ s) (sample_size_ s) (channel_ s) (aac_asc_type_ s) (pkt_key_ s) (pkt_vhost_ s) (pkt_app_ s) (streamname_ s) v (typeid_ s).
Definition set_typeid (v : Z) (s : Media_Packet) : Media_Packet :=
  mkPacket (av_type_ s) (codec_type_ s) (fmt_type_ s) (dts_ s) (pts_ s) (is_key_frame_ s) (is_seq_hdr_ s) (has_flv_audio_asc_ s) (buffer_ptr_ s) (metadata_type_ s) (metadata_ s) (sample_rate_ s) (sample_size_ s) (channel_ s) (aac_asc_type_ s) (pkt_key_ s) (pkt_vhost_ s) (pkt_app_ s) (streamname_ s) (streamid_ s) v.

Section packet.
Context `{Allocator}.

(** [Media_Packet(size_t len)]; the default constructor has [len = EXTRA_LEN]. *)
Definition Media_Packet_len (len : Z) : outcome Media_Packet :=
  b ← DataBuffer_new len;
  mret (mkPacket MEDIA_UNKOWN_TYPE MEDIA_CODEC_UNKOWN MEDIA_FORMAT_UNKOWN (-1) (-1) false false false
          b None [] 44100 1 2 ASC_TYPE_AAC_LC [] [] [] [] 0 0).
Definition Media_Packet_new : outcome Media_Packet := Media_Packet_len EXTRA_LEN.

(** [this->copy_properties(pkt)] *)
Definition copy_properties (pkt this : Media_Packet) : Media_Packet :=
  let this := set_av_type (av_type_ pkt) this in
  let this := set_codec_type (codec_type_ pkt) this in
  let this := set_fmt_type (fmt_type_ pkt) this in
  let this := set_dts (dts_ pkt) this in
  let this := set_pts (pts_ pkt) this in
  let this := set_is_key_frame (is_key_frame_ pkt) this in
  let this := set_is_seq_hdr (is_seq_hdr_ pkt) this in
  let this := set_pkt_key (pkt_key_ pkt) this in
  let this := set_pkt_vhost (pkt_vhost_ pkt) this in
  let this := set_pkt_app (pkt_app_ pkt) this in
  let this := set_streamname (streamname_ pkt) this in
  let this := set_streamid (streamid_ pkt) this in
  set_typeid (typeid_ pkt) this.

(** [buffer_ptr_->AppendData(data, len)] on a packet. *)
Definition append_packet (data : bytes) (p : Media_Packet) : outcome Media_Packet :=
  '(_, b) ← AppendData (buffer_ptr_ p) data; mret (set_buffer_ptr b p).

(** [Media_Packet::copy] *)
Definition copy_packet (this : Media_Packet) : outcome Media_Packet :=
  p ← Media_Packet_len (DataLen (buffer_ptr_ this) + 1024);
  d ← read_range (Data (buffer_ptr_ this)) 0 (DataLen (buffer_ptr_ this));
  append_packet d (copy_properties this p).

(** ** FLV media headers *)

Definition FLV_TAG_AUDIO : Z := 0x08.
Definition FLV_TAG_VIDEO : Z := 0x09.
Definition FLV_TAG_TYPE_META : Z := 0x12.
Definition FLV_VIDEO_KEY_FLAG : Z := 0x10.
Definition FLV_VIDEO_INTER_FLAG : Z := 0x20.
Definition FLV_VIDEO_AVC_SEQHDR : Z := 0x00.
Definition FLV_VIDEO_AVC_NALU : Z := 0x01.
Definition FLV_VIDEO_H264_CODEC : Z := 0x07.
Definition FLV_VIDEO_H265_CODEC : Z := 0x0c.
Definition FLV_VIDEO_VP8_CODEC : Z := 0x0e.
Definition FLV_VIDEO_VP9_CODEC : Z := 0x0f.
Definition FLV_AUDIO_MP3_CODEC : Z := 0x20.
Definition FLV_AUDIO_OPUS_CODEC : Z := 0x90.
Definition FLV_AUDIO_AAC_CODEC : Z := 0xa0.

(** The codec bits of the first byte: [None] is the error return. *)
Definition flv_video_codec (c : MEDIA_CODEC_TYPE) : option Z :=
  match c with
  | MEDIA_CODEC_H264 => Some FLV_VIDEO_H264_CODEC | MEDIA_CODEC_H265 => Some FLV_VIDEO_H265_CODEC
  | MEDIA_CODEC_VP8 => Some FLV_VIDEO_VP8_CODEC | MEDIA_CODEC_VP9 => Some FLV_VIDEO_VP9_CODEC
  | _ => None
  end.
Definition flv_audio_codec (c : MEDIA_CODEC_TYPE) : option Z :=
  match c with
  | MEDIA_CODEC_AAC => Some FLV_AUDIO_AAC_CODEC | MEDIA_CODEC_OPUS => Some FLV_AUDIO_OPUS_CODEC
  | _ => None
  end.

(** [(pts_ > dts_) ? (pts_ - dts_) : 0] as a [uint32_t]. *)
Definition ts_delta_of (p : Media_Packet) : Z := if dts_ p <? pts_ p then u32 (pts_ p - dts_ p) else 0.

(** Stores through a pointer [k] bytes from the data pointer. *)
Definition poke (b : DataBuffer) (k : Z) (d : bytes) : outcome DataBuffer :=
  mem ← write_at (buffer_ b) (start_ b + k) d;
  mret (set_storage b mem (buffer_size_ b) (data_len_ b) (start_ b) (end_ b)).

(** [ConsumeData(-n)] and stores through the pointer it returns, null when the
    space before the data is too small. *)
Definition prepend (b : DataBuffer) (n : Z) (d : bytes) : outcome DataBuffer :=
  let '(ok, b) := ConsumeData b (- n) in
  if ok then poke b 0 d else Fault OutOfBounds.

Definition AddFlvMediaHeader (p : Media_Packet) : outcome (Z * Media_Packet) :=
  let p := set_fmt_type MEDIA_FORMAT_FLV p in
  if bool_decide (av_type_ p = MEDIA_AUDIO_TYPE) then
    match flv_audio_codec (codec_type_ p) with
    | None => mret (-1, set_buffer_ptr (ConsumeData (buffer_ptr_ p) (-2)).2 p)
    | Some c =>
        b ← prepend (buffer_ptr_ p) 2 [Z.lor c 0x0f; if is_seq_hdr_ p then 0x00 else 0x01];
        mret (0, set_buffer_ptr b p)
    end
  else if bool_decide (av_type_ p = MEDIA_VIDEO_TYPE) then
    match flv_video_codec (codec_type_ p) with
    | None => b ← prepend (buffer_ptr_ p) 5 [0]; mret (-1, set_buffer_ptr b p)
    | Some c =>
        let '(flag, b1) :=
          if is_key_frame_ p || is_seq_hdr_ p then (FLV_VIDEO_KEY_FLAG, if is_seq_hdr_ p then 0x00 else 0x01)
          else (FLV_VIDEO_INTER_FLAG, 0x01) in
        let ts_delta := ts_delta_of p in
        b ← prepend (buffer_ptr_ p) 5
              [Z.lor (Z.lor 0 c) flag; b1; Z.land (Z.shiftr ts_delta 16) 0xff;
               Z.land (Z.shiftr ts_delta 8) 0xff; Z.land ts_delta 0xff];
        mret (0, set_buffer_ptr b p)
    end
  else mret (0, p).
End packet.

(** ** A packet's buffer *)

Section packet_proofs.
Context `{Allocator}.

(** Appending to a packet that has only been appended to, or was just reset. *)
Lemma append_packet_spec d p :
  wf (buffer_ptr_ p) -> start_ (buffer_ptr_ p) = PRE_RESERVE_HEADER_SIZE ->
  zlen (contents (buffer_ptr_ p)) + zlen d <= max_queue ->
  exists b, append_packet d p = Done (set_buffer_ptr b p) /\ wf b /\
    contents b = contents (buffer_ptr_ p) ++ d /\ start_ b = PRE_RESERVE_HEADER_SIZE.
Proof.
  intros Hwf Hst Hmax. unfold append_packet. rewrite contents_length in Hmax by done.
  destruct (AppendData_cases (buffer_ptr_ p) d Hwf Hmax) as [(b' & -> & Hwf' & Hc & Hst')|[[Hno _]| ->]].
  - simpl_m. exists b'. split_and!; [done|done|done|]. by apply Hst'.
  - destruct Hno. by apply no_overlap_front.
  - exists (buffer_ptr_ p). rewrite AppendData_nil, app_nil_r. by split_and!.
Qed.

Lemma Media_Packet_new_spec : exists p, Media_Packet_new = Done p /\ wf (buffer_ptr_ p) /\
  contents (buffer_ptr_ p) = [] /\ start_ (buffer_ptr_ p) = PRE_RESERVE_HEADER_SIZE /\
  is_seq_hdr_ p = false /\ is_key_frame_ p = false /\ pkt_key_ p = [] /\ metadata_ p = [].
Proof.
  unfold Media_Packet_new, Media_Packet_len.
  destruct (DataBuffer_new_spec EXTRA_LEN) as (b & -> & ? & ? & ?); [by vm_compute|]. simpl_m.
  eexists. by split_and!.
Qed.
End packet_proofs.
