(* ===== verification/RtmpClient.v ===== *)
(** * [RtmpClientSession]: the client side of an RTMP connection

    Models [src/net/rtmp/rtmp_client_session.cpp] and [GetMediaPacket] of
    [src/net/rtmp/rtmp_session_base.cpp].  What the client does to the outside
    is the log [log_], in order: the calls of [ctrl_cb_] and [data_cb_], reads
    asked of the connection and its closing; the bytes it sends are in [sent_] of
    the session.  The handshake object [c1s1_obj_] (random bytes, HMAC digests)
    is the interface [HandshakeObject]; every theorem holds for any instance. *)
From S2P Require Import Prelude Double ByteStream DataBuffer Amf0 ChunkStream RtmpSession RtmpControl Media.

(** What [RtmpClientHandshake] uses of its [c1s1_obj_] of type [H]. *)
Class HandshakeObject (H : Type) := {
  MakeC0C1 : H -> Z * bytes * H;
  ParseS0S1S2 : bytes -> H -> Z * H;
  MakeC2 : H -> Z * bytes * H
}.

Definition s0s1s2_size : Z := 1536 * 2 + 1.

Inductive client_event :=
  | OnRtmpHandShakeSendC0C1 (ret : Z) (data : bytes)
  | OnRtmpHandShakeRecvS0S1S2 (ret : Z) (data : bytes)
  | OnRtmpConnectSend (ret : Z) (items : list (bytes * bytes))
  | OnRtmpConnectRecv (ret : Z) (result : bytes) (transaction_id : Z) (items : list (bytes * bytes))
  | OnRtmpChunkSize (ret chunk_size : Z)
  | OnRtmpWindowSize (ret window_size : Z)
  | OnRtmpBandWidth (ret bandwidth : Z)
  | OnRtmpCtrlAck
  | OnRtmpCreateStreamSend (ret transaction_id : Z)
  | OnRtmpCreateStreamRecv (ret : Z) (result : bytes) (transaction_id stream_id : Z)
      (items : list (bytes * bytes))
  | OnRtmpPlayPublishSend (oper : bytes) (transaction_id : Z) (stream_name : bytes)
  | OnRtmpPlayPublishRecv (ret : Z) (status : bytes) (transaction_id : Z) (items : list (bytes * bytes))
  | OnClose (ret : Z)
  | OnMessage (ret : Z) (pkt : Media_Packet)
  | ConnClose
  | ConnAsyncRead.

(** ** [RtmpSessionBase::GetMediaPacket] *)

Section media.
Context `{Allocator}.

Definition video_codec_of (codec : Z) : option MEDIA_CODEC_TYPE :=
  if codec =? FLV_VIDEO_H264_CODEC then Some MEDIA_CODEC_H264
  else if codec =? FLV_VIDEO_H265_CODEC then Some MEDIA_CODEC_H265
  else if codec =? FLV_VIDEO_VP8_CODEC then Some MEDIA_CODEC_VP8
  else if codec =? FLV_VIDEO_VP9_CODEC then Some MEDIA_CODEC_VP9
  else None.

(** What follows the branches on the message type. *)
Definition fill_packet (cs : ChunkStream) (r : RtmpRequest) (ts_delta : Z) (pkt : Media_Packet)
    : outcome Media_Packet :=
  let pkt := set_dts (timestamp32_ cs) pkt in
  let pkt := set_pts (dts_ pkt + ts_delta) pkt in
  pkt ← append_packet (chunk_data_ cs) (set_buffer_ptr (Reset (buffer_ptr_ pkt)) pkt);
  let pkt := set_pkt_app (app_ r) pkt in
  let pkt := set_streamname (stream_name_ r) pkt in
  let pkt := set_pkt_key (key_ r) pkt in
  mret (set_streamid (msg_stream_id_ cs) pkt).

(** [None] is the null packet. *)
Definition GetMediaPacket (cs : ChunkStream) (r : RtmpRequest) : outcome (option Media_Packet) :=
  let p := chunk_data_ cs in
  if zlen p <? 2 then mret None
  else
    pkt ← Media_Packet_new;
    let pkt := set_fmt_type MEDIA_FORMAT_FLV (set_typeid (type_id_ cs) pkt) in
    p0 ← p.[0]; p1 ← p.[1];
    if type_id_ cs =? RTMP_MEDIA_PACKET_VIDEO then
      let pkt := set_av_type MEDIA_VIDEO_TYPE pkt in
      match video_codec_of (Z.land p0 0x0f) with
      | None => mret (Some pkt)
      | Some codec =>
          let pkt := set_codec_type codec pkt in
          let frame_type := Z.land p0 0xf0 in
          if (frame_type =? FLV_VIDEO_KEY_FLAG) && negb (p1 =? FLV_VIDEO_AVC_SEQHDR)
             && negb (p1 =? FLV_VIDEO_AVC_NALU)
          then mret (Some pkt)
          else
            let pkt :=
              if frame_type =? FLV_VIDEO_KEY_FLAG then
                if p1 =? FLV_VIDEO_AVC_SEQHDR then set_is_seq_hdr true pkt else set_is_key_frame true pkt
              else if frame_type =? FLV_VIDEO_INTER_FLAG then set_is_key_frame false pkt
              else pkt in
            ts_delta ← Read3Bytes (drop 2 p);
            pkt ← fill_packet cs r ts_delta pkt; mret (Some pkt)
      end
    else if type_id_ cs =? RTMP_MEDIA_PACKET_AUDIO then
      let pkt := set_av_type MEDIA_AUDIO_TYPE pkt in
      let frame_type := Z.land p0 0xf0 in
      codec ← (if frame_type =? FLV_AUDIO_AAC_CODEC then Done MEDIA_CODEC_AAC
               else if frame_type =? FLV_AUDIO_OPUS_CODEC then Done MEDIA_CODEC_OPUS
               else Fault AssertFailure);
      let pkt := set_codec_type codec pkt in
      let pkt := if p1 =? 0x00 then set_is_seq_hdr true pkt
                 else if p1 =? 0x01 then set_is_seq_hdr false (set_is_key_frame false pkt) else pkt in
      pkt ← fill_packet cs r 0 pkt; mret (Some pkt)
    else if (type_id_ cs =? RTMP_COMMAND_MESSAGES_META_DATA0) || (type_id_ cs =? RTMP_COMMAND_MESSAGES_META_DATA3)
    then pkt ← fill_packet cs r 0 (set_av_type MEDIA_METADATA_TYPE pkt); mret (Some pkt)
    else Fault AssertFailure.
End media.

(** ** The client session *)

Section client.
Context {HS : Type} `{Alloc : Allocator} `{HO : HandshakeObject HS}.

Record RtmpClientSession := mkClient {
  base_ : RtmpSession;
  hs_ : HS;
  log_ : list client_event
}.

Definition set_base (s : RtmpSession) (c : RtmpClientSession) : RtmpClientSession :=
  mkClient s (hs_ c) (log_ c).
Definition set_hs (h : HS) (c : RtmpClientSession) : RtmpClientSession := mkClient (base_ c) h (log_ c).
Definition event (e : client_event) (c : RtmpClientSession) : RtmpClientSession :=
  mkClient (base_ c) (hs_ c) (log_ c ++ [e]).
Definition set_phase_c (p : RTMP_CLIENT_SESSION_PHASE) (c : RtmpClientSession) : RtmpClientSession :=
  set_base (set_client_phase p (base_ c)) c.
Definition reset_recv (c : RtmpClientSession) : RtmpClientSession :=
  set_base (set_recv_buffer [] (base_ c)) c.
Definition cphase (c : RtmpClientSession) : RTMP_CLIENT_SESSION_PHASE := client_phase_ (base_ c).

(** [RtmpSend(char* data, int len)] *)
Definition RtmpSend_chars (data : bytes) (c : RtmpClientSession) : Z * RtmpClientSession :=
  let c := set_base (RtmpSend data (base_ c)) c in
  if decide (cphase c = client_c0c1_phase) then (0, event (OnRtmpHandShakeSendC0C1 0 data) c)
  else if decide (cphase c = client_s0s1s2_phase) then (0, event (OnRtmpHandShakeRecvS0S1S2 0 data) c)
  else (0, c).

(** [RtmpClientHandshake::SendC0C1] and [SendC2] *)
Definition SendC0C1 (c : RtmpClientSession) : Z * RtmpClientSession :=
  let '(ret, d, h) := MakeC0C1 (hs_ c) in
  if ret <? 0 then (ret, set_hs h c) else RtmpSend_chars d (set_hs h c).
Definition SendC2 (c : RtmpClientSession) : Z * RtmpClientSession :=
  let '(ret, d, h) := MakeC2 (hs_ c) in
  if ret <? 0 then (ret, set_hs h c) else RtmpSend_chars d (set_hs h c).

(** A command on chunk stream 3 with message stream id 0. *)
Definition send_command (payload : bytes) (c : RtmpClientSession) : outcome (Z * RtmpClientSession) :=
  '(ret, s) ← session_write 3 0 RTMP_COMMAND_MESSAGES_AMF0 0 payload (base_ c);
  mret (ret, set_base s c).

Definition RtmpConnect (c : RtmpClientSession) : outcome (Z * RtmpClientSession) :=
  let r := req_ (base_ c) in
  let transid := double_of_int (transaction_id_ r) in
  '(_, b) ← Encode_string (str "connect") [] false;
  '(_, b) ← Encode_number transid b;
  let event_amf_obj := amf_map [(str "app", amf_string (app_ r)); (str "type", amf_string (str "nonprivate"));
                                (str "flashVer", amf_string (str "FMS.3.1"));
                                (str "tcUrl", amf_string (tcurl_ r))] in
  let items := fold_left (fun m p => map_insert p.1 p.2 m)
                 [(str "connect", to_string_double transid); (str "app", app_ r);
                  (str "type", str "nonprivate"); (str "flashVer", str "FMS.3.1"); (str "tcUrl", tcurl_ r)] [] in
  let c := event (OnRtmpConnectSend 0 items) c in
  '(_, b) ← Encode_map event_amf_obj b;
  send_command b c.

Definition RtmpCreatestream (c : RtmpClientSession) : outcome (Z * RtmpClientSession) :=
  let transid := double_of_int (transaction_id_ (req_ (base_ c))) in
  '(_, b) ← Encode_string (str "createStream") [] false;
  '(_, b) ← Encode_number transid b;
  '(_, b) ← EncodeNull b;
  id ← int64_of_double transid;
  send_command b (event (OnRtmpCreateStreamSend 0 id) c).

Definition RtmpPlay (c : RtmpClientSession) : outcome (Z * RtmpClientSession) :=
  let name := stream_name_ (req_ (base_ c)) in
  '(_, b) ← Encode_string (str "play") [] false;
  '(_, b) ← Encode_number (double_of_int 0) b;
  '(_, b) ← EncodeNull b;
  '(_, b) ← Encode_string name b false;
  send_command b (event (OnRtmpPlayPublishSend (str "play") 0 name) c).

Definition RtmpPublish (c : RtmpClientSession) : outcome (Z * RtmpClientSession) :=
  let name := stream_name_ (req_ (base_ c)) in
  '(_, b) ← Encode_string (str "publish") [] false;
  '(_, b) ← Encode_number (double_of_int 0) b;
  '(_, b) ← EncodeNull b;
  '(_, b) ← Encode_string name b false;
  '(_, b) ← Encode_string (str "live") b false;
  send_command b (event (OnRtmpPlayPublishSend (str "publish") 0 name) c).

(** ** Reports *)

Definition reportCtrlMsg (cs : ChunkStream) (c : RtmpClientSession) : outcome RtmpClientSession :=
  let report e :=
    if zlen (chunk_data_ cs) <? 4 then mret (event (e (-1) 0) c)
    else v ← Read4Bytes (chunk_data_ cs); mret (event (e 0 v) c) in
  if type_id_ cs =? RTMP_CONTROL_SET_CHUNK_SIZE then report OnRtmpChunkSize
  else if type_id_ cs =? RTMP_CONTROL_WINDOW_ACK_SIZE then report OnRtmpWindowSize
  else if type_id_ cs =? RTMP_CONTROL_SET_PEER_BANDWIDTH then report OnRtmpBandWidth
  else if type_id_ cs =? RTMP_CONTROL_ACK then mret (event OnRtmpCtrlAck c)
  else mret c.

(** The text of a value, empty for the other types. *)
Definition item_text (i : AMF_ITERM) : bytes :=
  match amf_type_ i with
  | AMF_DATA_TYPE_STRING => desc_str_ i
  | AMF_DATA_TYPE_NUMBER => to_string_double (number_ i)
  | AMF_DATA_TYPE_BOOL => if enable_ i then str "enable" else str "disable"
  | _ => []
  end.

Definition getItemMap (item : AMF_ITERM) (items : list (bytes * bytes)) : list (bytes * bytes) :=
  if bool_decide (amf_type_ item = AMF_DATA_TYPE_OBJECT) then
    fold_left (fun items p =>
      if bool_decide (p.1 = []) || bool_decide (item_text p.2 = []) then items
      else map_insert p.1 (item_text p.2) items) (amf_obj_ item) items
  else items.

(** The loop of the three reports: last string, last number (as an [int64_t]),
    all the fields of the objects. *)
Fixpoint report_items (amf_vec : list AMF_ITERM) (result : bytes) (id : Z) (items : list (bytes * bytes))
    : outcome (bytes * Z * list (bytes * bytes)) :=
  match amf_vec with
  | [] => mret (result, id, items)
  | item :: rest =>
      match amf_type_ item with
      | AMF_DATA_TYPE_STRING => report_items rest (desc_str_ item) id items
      | AMF_DATA_TYPE_NUMBER => v ← int64_of_double (number_ item); report_items rest result v items
      | AMF_DATA_TYPE_OBJECT => report_items rest result id (getItemMap item items)
      | _ => report_items rest result id items
      end
  end.

Definition reportConnectRespAmf (amf_vec : list AMF_ITERM) (c : RtmpClientSession) : outcome RtmpClientSession :=
  '(result, id, items) ← report_items amf_vec [] 0 []; mret (event (OnRtmpConnectRecv 0 result id items) c).

(** [index] stays 0: every number is taken for the transaction id. *)
Definition reportCreateStreamRespAmf (amf_vec : list AMF_ITERM) (c : RtmpClientSession)
    : outcome RtmpClientSession :=
  '(result, id, items) ← report_items amf_vec [] 0 [];
  mret (event (OnRtmpCreateStreamRecv 0 result id 0 items) c).

Definition reportPlayPublishRespAmf (amf_vec : list AMF_ITERM) (c : RtmpClientSession)
    : outcome RtmpClientSession :=
  '(status, id, items) ← report_items amf_vec [] 0 [];
  mret (event (OnRtmpPlayPublishRecv 0 status id items) c).

(** ** Receiving *)

(** The body of the loop of [ReceiveRespMessage] on the ready chunk stream of
    key [k]: [inl ret] returns (a [break] included), [inr ret] continues. *)
Definition handle_resp_message (fuel : nat) (k : Z) (cs : ChunkStream) (c : RtmpClientSession)
    : outcome ((Z + Z) * RtmpClientSession) :=
  let next ret c :=
    let c := set_base (store_cs k (Reset_chunk cs) (base_ c)) c in
    if 0 <? zlen (recv_buffer_ (base_ c)) then mret (inr ret, c) else mret (inl ret, c) in
  if (RTMP_CONTROL_SET_CHUNK_SIZE <=? type_id_ cs) && (type_id_ cs <=? RTMP_CONTROL_SET_PEER_BANDWIDTH) then
    '(ret, s) ← HandleRtmpControlMessage cs (base_ c);
    let c := set_base s c in
    if ret <? RTMP_OK then mret (inl ret, c)
    else c ← reportCtrlMsg cs c; next ret c
  else if type_id_ cs =? RTMP_COMMAND_MESSAGES_AMF0 then
    let current_phase := cphase c in
    '(ret, amf_vec, s) ← HandleServerCommandMessage fuel cs (base_ c);
    let c := set_base s c in
    if ret <? RTMP_OK then mret (inl ret, c)
    else
      c ← match current_phase with
          | client_connect_resp_phase => reportConnectRespAmf amf_vec c
          | client_create_stream_resp_phase => reportCreateStreamRespAmf amf_vec c
          | client_create_playpublish_resp_phase =>
              c ← reportPlayPublishRespAmf amf_vec c; mret (set_phase_c client_media_handle_phase c)
          | _ => mret c
          end;
      next ret c
  else if (type_id_ cs =? RTMP_MEDIA_PACKET_VIDEO) || (type_id_ cs =? RTMP_MEDIA_PACKET_AUDIO)
          || (type_id_ cs =? RTMP_COMMAND_MESSAGES_META_DATA0)
          || (type_id_ cs =? RTMP_COMMAND_MESSAGES_META_DATA3) then
    pkt ← GetMediaPacket cs (req_ (base_ c));
    match pkt with
    | None => mret (inl (-1), c)
    | Some pkt =>
        if DataLen (buffer_ptr_ pkt) =? 0 then mret (inl (-1), c)
        else
          let c := event (OnMessage RTMP_OK pkt) c in
          let c := set_base (store_cs k (Reset_chunk cs) (base_ c)) c in
          mret (inr (if 0 <? zlen (recv_buffer_ (base_ c)) then RTMP_OK else RTMP_NEED_READ_MORE), c)
    end
  else mret (inr RTMP_OK, c).

(** [while(true)]: [read_message] is the part that waits for a ready chunk stream. *)
Fixpoint ReceiveRespMessage (fuel : nat) (c : RtmpClientSession) : outcome (Z * RtmpClientSession) :=
  match fuel with
  | O => Fault OutOfFuel
  | S n =>
      '(ret, key, s) ← read_message fuel (base_ c);
      let c := set_base s c in
      match key with
      | None => mret (ret, c)
      | Some k =>
          match cs_map_ s !! k with
          | None => mret (ret, c)
          | Some cs =>
              '(r, c) ← handle_resp_message fuel k cs c;
              match r with inl ret => mret (ret, c) | inr _ => ReceiveRespMessage n c end
          end
      end
  end.

(** A piece of [HandleMessage]: a [return], or the code reached with [ret]. *)
Inductive flow := Return (ret : Z) (c : RtmpClientSession) | Next (ret : Z) (c : RtmpClientSession).
Definition andthen (m : outcome flow) (k : Z -> RtmpClientSession -> outcome flow) : outcome flow :=
  f ← m; match f with Return ret c => mret (Return ret c) | Next ret c => k ret c end.

Definition handle_c0c1 (ret : Z) (c : RtmpClientSession) : outcome flow :=
  if decide (cphase c = client_c0c1_phase) then
    if negb (require (recv_buffer_ (base_ c)) s0s1s2_size) then mret (Return RTMP_NEED_READ_MORE c)
    else
      let p := take (Z.to_nat s0s1s2_size) (recv_buffer_ (base_ c)) in
      let '(ret, h) := ParseS0S1S2 p (hs_ c) in
      let c := event (OnRtmpHandShakeRecvS0S1S2 ret p) (set_hs h c) in
      if ret <? 0 then mret (Return ret c)
      else
        let '(ret, c) := SendC2 (set_phase_c client_s0s1s2_phase c) in
        if ret <? 0 then mret (Return ret c)
        else
          '(ret, c) ← RtmpConnect (set_phase_c client_connect_phase c);
          if ret <? 0 then mret (Return (-1) c)
          else mret (Return RTMP_NEED_READ_MORE (reset_recv (set_phase_c client_connect_resp_phase c)))
  else mret (Next ret c).

Definition handle_connect_resp (fuel : nat) (ret : Z) (c : RtmpClientSession) : outcome flow :=
  if decide (cphase c = client_connect_resp_phase) then
    '(ret, c) ← ReceiveRespMessage fuel c;
    if ret <? 0 then mret (Return (-1) c)
    else if ret =? RTMP_NEED_READ_MORE then mret (Return RTMP_NEED_READ_MORE c)
    else if ret =? 0 then mret (Next ret (set_phase_c client_create_stream_phase c))
    else mret (Return (-1) c)
  else mret (Next ret c).

Definition handle_create_stream (ret : Z) (c : RtmpClientSession) : outcome flow :=
  if decide (cphase c = client_create_stream_phase) then
    '(ret, c) ← RtmpCreatestream c;
    if ret <? 0 then mret (Return ret c)
    else mret (Return RTMP_NEED_READ_MORE (set_phase_c client_create_stream_resp_phase (reset_recv c)))
  else mret (Next ret c).

Definition handle_create_stream_resp (fuel : nat) (ret : Z) (c : RtmpClientSession) : outcome flow :=
  if decide (cphase c = client_create_stream_resp_phase) then
    '(ret, c) ← ReceiveRespMessage fuel c;
    if ret <? 0 then mret (Return ret c)
    else if ret =? RTMP_NEED_READ_MORE then mret (Return RTMP_NEED_READ_MORE c)
    else if ret =? 0 then
      let p := if publish_flag_ (req_ (base_ c)) then client_create_publish_phase else client_create_play_phase in
      mret (Next ret (reset_recv (set_phase_c p c)))
    else mret (Return (-1) c)
  else mret (Next ret c).

Definition handle_create_play (ret : Z) (c : RtmpClientSession) : outcome flow :=
  if decide (cphase c = client_create_play_phase) then
    '(ret, c) ← RtmpPlay c;
    if ret <? 0 then mret (Return ret c)
    else mret (Return RTMP_NEED_READ_MORE (set_phase_c client_create_playpublish_resp_phase (reset_recv c)))
  else mret (Next ret c).

Definition handle_create_publish (ret : Z) (c : RtmpClientSession) : outcome flow :=
  if decide (cphase c = client_create_publish_phase) then
    '(ret, c) ← RtmpPublish c;
    if ret <? 0 then mret (Return ret c)
    else mret (Return RTMP_NEED_READ_MORE (set_phase_c client_create_playpublish_resp_phase (reset_recv c)))
  else mret (Next ret c).

Definition handle_playpublish_resp (fuel : nat) (ret : Z) (c : RtmpClientSession) : outcome flow :=
  if decide (cphase c = client_create_playpublish_resp_phase) then
    '(ret, c) ← ReceiveRespMessage fuel c;
    if ret <? 0 then mret (Return ret c)
    else if ret =? RTMP_NEED_READ_MORE then mret (Return RTMP_NEED_READ_MORE c)
    else if ret =? 0 then mret (Next ret (reset_recv (set_phase_c client_media_handle_phase c)))
    else mret (Return (-1) c)
  else mret (Next ret c).

Definition handle_media (fuel : nat) (ret : Z) (c : RtmpClientSession) : outcome flow :=
  if decide (cphase c = client_media_handle_phase) then
    '(ret, c) ← ReceiveRespMessage fuel c;
    if ret <? 0 then mret (Return ret c) else mret (Return RTMP_NEED_READ_MORE c)
  else mret (Return ret c).

Definition HandleMessage (fuel : nat) (c : RtmpClientSession) : outcome (Z * RtmpClientSession) :=
  f ← andthen (handle_c0c1 0 c) (fun ret c =>
      andthen (handle_connect_resp fuel ret c) (fun ret c =>
      andthen (handle_create_stream ret c) (fun ret c =>
      andthen (handle_create_stream_resp fuel ret c) (fun ret c =>
      andthen (handle_create_play ret c) (fun ret c =>
      andthen (handle_create_publish ret c) (fun ret c =>
      andthen (handle_playpublish_resp fuel ret c) (fun ret c =>
      handle_media fuel ret c)))))));
  match f with Return ret c | Next ret c => mret (ret, c) end.

(** ** Callbacks of the connection *)

Definition OnConnect (ret_code : Z) (c : RtmpClientSession) : RtmpClientSession :=
  if negb (ret_code =? 0) then event ConnClose c
  else
    let c := reset_recv (set_phase_c client_c0c1_phase c) in
    event ConnAsyncRead (SendC0C1 c).2.

Definition OnWrite (ret_code : Z) (c : RtmpClientSession) : RtmpClientSession :=
  if negb (ret_code =? 0) then event ConnClose c else c.

Definition OnRead (fuel : nat) (ret_code : Z) (data : bytes) (c : RtmpClientSession)
    : outcome RtmpClientSession :=
  if negb (ret_code =? 0) then mret (event (OnClose ret_code) c)
  else
    '(ret, c) ← HandleMessage fuel (set_base (feed data (base_ c)) c);
    if ret <? 0 then mret (event (OnClose ret) (event ConnClose c))
    else if ret =? RTMP_NEED_READ_MORE then mret (event ConnAsyncRead c)
    else mret c.

(** [is_connect] is what [conn_.IsConnect()] answers. *)
Definition RtmpWrite (is_connect : bool) (pkt : Media_Packet) (c : RtmpClientSession)
    : outcome (Z * RtmpClientSession) :=
  if negb is_connect then mret (-1, c)
  else
    let write csid type_id :=
      data ← read_range (Data (buffer_ptr_ pkt)) 0 (DataLen (buffer_ptr_ pkt));
      '(_, s) ← session_write csid (u32 (dts_ pkt)) type_id (streamid_ pkt) data (base_ c);
      mret (RTMP_OK, set_base s c) in
    match av_type_ pkt with
    | MEDIA_VIDEO_TYPE => write 6 RTMP_MEDIA_PACKET_VIDEO
    | MEDIA_AUDIO_TYPE => write 4 RTMP_MEDIA_PACKET_AUDIO
    | MEDIA_METADATA_TYPE => mret (RTMP_OK, c)
    | _ => mret (-1, c)
    end.

Definition IsReady_client (c : RtmpClientSession) : bool := bool_decide (cphase c = client_media_handle_phase).
End client.


(** ** What the client's commands carry *)

Lemma encodes (m : bytes -> outcome (Z * bytes)) out b : emits m out -> m b = Done (0, b ++ out).
Proof.
  intros Hm. destruct (Hm b 0) as (b' & -> & Hb & _); [done|exact I|]. cbn in Hb. by rewrite Hb.
Qed.

Lemma encode_string s b : Encode_string s b false = Done (0, b ++ string_marker s :: string_payload s).
Proof. apply (encodes (fun b => Encode_string s b false)), (Encode_string_emits s false). Qed.

Lemma encode_number n b : 0 <= n < 2 ^ 64 ->
  Encode_number n b = Done (0, b ++ value_bytes (amf_number n)).
Proof.
  intros Hn. unfold Encode_number, ByteDouble2Int, value_bytes. cbn [amf_type_ amf_number set_number number_].
  by rewrite u64_small by lia.
Qed.

Lemma encode_map m b : Forall (fun p => plain_value p.2) m -> Encode_map m b = Done (0, b ++ map_bytes m).
Proof. intros Hm. by apply (encodes (Encode_map m)), Encode_map_emits. Qed.

Lemma string_value s : value_bytes (amf_string s) = string_marker s :: string_payload s.
Proof. done. Qed.

Definition null_item : AMF_ITERM := SetAmfType AMF_DATA_TYPE_NULL amf_default.

(** The arguments of the four commands. *)
Definition connect_map (r : RtmpRequest) : list (bytes * AMF_ITERM) :=
  [(str "app", amf_string (app_ r)); (str "flashVer", amf_string (str "FMS.3.1"));
   (str "tcUrl", amf_string (tcurl_ r)); (str "type", amf_string (str "nonprivate"))].
Definition connect_args (r : RtmpRequest) : list amf_arg :=
  [ArgValue (amf_string (str "connect")); ArgValue (amf_number (double_of_int (transaction_id_ r)));
   ArgMap (connect_map r)].
Definition publish_args (r : RtmpRequest) : list amf_arg :=
  [ArgValue (amf_string (str "publish")); ArgValue (amf_number (double_of_int 0)); ArgValue null_item;
   ArgValue (amf_string (stream_name_ r)); ArgValue (amf_string (str "live"))].
Definition play_args (r : RtmpRequest) : list amf_arg :=
  [ArgValue (amf_string (str "play")); ArgValue (amf_number (double_of_int 0)); ArgValue null_item;
   ArgValue (amf_string (stream_name_ r))].

Lemma connect_map_plain r : zlen (app_ r) <= 0xffff -> zlen (tcurl_ r) <= 0xffff -> plain_map (connect_map r).
Proof.
  intros Ha Ht. split.
  - repeat constructor; cbn [fst snd]; try done; try (by vm_compute).
  - repeat constructor; vm_compute; done.
Qed.

Lemma zlen_string_value s : zlen s <= 0xffff -> zlen (value_bytes (amf_string s)) = 3 + zlen s.
Proof.
  intros Hs. rewrite string_value, zlen_cons, short_payload, zlen_app by done.
  change (zlen (Write2Bytes (zlen s))) with 2. lia.
Qed.

Lemma zlen_args_cons a args : zlen (args_bytes (a :: args)) = zlen (arg_bytes a) + zlen (args_bytes args).
Proof. unfold args_bytes. cbn [map concat]. apply zlen_app. Qed.

Lemma zlen_map_bytes m : zlen (map_bytes m) = 4 + zlen (pairs_bytes m).
Proof. unfold map_bytes. rewrite zlen_cons, zlen_app. change (zlen [0; 0; _]) with 3. lia. Qed.

Lemma zlen_pairs_cons k i m : zlen k <= 0xffff ->
  zlen (pairs_bytes ((k, i) :: m)) = 2 + zlen k + zlen (value_bytes i) + zlen (pairs_bytes m).
Proof.
  intros Hk. unfold pairs_bytes. cbn [map concat]. rewrite zlen_app. unfold pair_bytes at 1. cbn [fst snd].
  rewrite zlen_app, short_payload, zlen_app by done. change (zlen (Write2Bytes (zlen k))) with 2. lia.
Qed.

Lemma connect_args_length r : zlen (app_ r) <= 0xffff -> zlen (tcurl_ r) <= 0xffff ->
  zlen (args_bytes (connect_args r)) = 80 + zlen (app_ r) + zlen (tcurl_ r).
Proof.
  intros Ha Ht. unfold connect_args, connect_map. rewrite !zlen_args_cons. cbn [arg_bytes].
  rewrite zlen_map_bytes, !zlen_pairs_cons by (by vm_compute).
  rewrite (zlen_string_value (app_ r)), (zlen_string_value (tcurl_ r)) by done.
  change (zlen (args_bytes [])) with 0. change (zlen (pairs_bytes [])) with 0.
  change (zlen (value_bytes (amf_number _))) with 9.
  change (zlen (value_bytes (amf_string (str "connect")))) with 10.
  change (zlen (value_bytes (amf_string (str "FMS.3.1")))) with 10.
  change (zlen (value_bytes (amf_string (str "nonprivate")))) with 13.
  change (zlen (str "app")) with 3. change (zlen (str "flashVer")) with 8.
  change (zlen (str "tcUrl")) with 5. change (zlen (str "type")) with 4. lia.
Qed.

Lemma publish_args_length r : zlen (stream_name_ r) <= 0xffff ->
  zlen (args_bytes (publish_args r)) = 30 + zlen (stream_name_ r).
Proof.
  intros Hs. unfold publish_args. rewrite !zlen_args_cons. cbn [arg_bytes].
  rewrite (zlen_string_value (stream_name_ r)) by done.
  change (zlen (args_bytes [])) with 0. change (zlen (value_bytes (amf_number _))) with 9.
  change (zlen (value_bytes (amf_string (str "publish")))) with 10.
  change (zlen (value_bytes (amf_string (str "live")))) with 7.
  change (zlen (value_bytes null_item)) with 1. lia.
Qed.

Section commands.
Context {HS : Type}.
Implicit Types c : RtmpClientSession (HS := HS).

Lemma RtmpConnect_sends c (r := req_ (base_ c)) :
  zlen (app_ r) <= 0xffff -> zlen (tcurl_ r) <= 0xffff -> - 2 ^ 53 < transaction_id_ r < 2 ^ 53 ->
  exists items, RtmpConnect c =
    send_command (args_bytes (connect_args r)) (event (OnRtmpConnectSend 0 items) c).
Proof.
  intros Ha Ht Hid. unfold RtmpConnect. fold r. eexists. rewrite encode_string. simpl_m.
  rewrite encode_number by (by apply double_of_int_range). simpl_m.
  change (amf_map _) with (connect_map r).
  rewrite encode_map by (eapply Forall_impl; [apply (connect_map_plain r Ha Ht)|cbn; tauto]). simpl_m.
  unfold connect_args, args_bytes. cbn [map concat arg_bytes]. rewrite string_value, app_nil_r.
  rewrite <- app_assoc. reflexivity.
Qed.

Lemma RtmpPublish_sends c (r := req_ (base_ c)) :
  zlen (stream_name_ r) <= 0xffff ->
  RtmpPublish c =
    send_command (args_bytes (publish_args r))
      (event (OnRtmpPlayPublishSend (str "publish") 0 (stream_name_ r)) c).
Proof.
  intros Hs. unfold RtmpPublish. fold r. rewrite encode_string. simpl_m.
  rewrite encode_number by (by vm_compute). simpl_m. unfold EncodeNull. cbn [sink_append list_sink]. simpl_m.
  rewrite encode_string. simpl_m. rewrite encode_string. simpl_m.
  unfold publish_args, args_bytes. cbn [map concat arg_bytes]. rewrite !string_value, app_nil_r, <- !app_assoc.
  reflexivity.
Qed.
End commands.

(** A command written by one session, read and parsed by another. *)
Lemma session_write_ok csid ts ty msid data s :
  2 <= csid < 64 -> 0 <= ts < 0xffffff -> 0 <= msid < 2 ^ 32 -> 0 < s_chunk_size_ s < 2 ^ 31 ->
  0 < zlen data < 2 ^ 24 ->
  exists sent, session_write csid ts ty msid data s = Done (RTMP_OK, set_sent_log (sent_ s ++ sent) s) /\
    forall s1 rest fuel,
    fmt_ready_ s1 = false -> s_chunk_size_ s1 = s_chunk_size_ s ->
    match cs_map_ s1 !! csid with None => True | Some cs => idle_cs cs end ->
    recv_buffer_ s1 = concat sent ++ rest -> (length sent <= fuel)%nat ->
    exists s' cs, read_message fuel s1 = Done (RTMP_OK, Some csid, s') /\
      received csid ts ty msid data rest s1 s' cs.
Proof.
  intros Hcs Hts Hm Hc Hd.
  destruct (message_transport csid ts ty msid (s_chunk_size_ s) data Hcs Hts Hm Hc Hd) as (sent & Hw & Hr).
  exists sent. split; [|exact Hr]. unfold session_write, GetChunkSize. by rewrite Hw.
Qed.

(** ** The server side of the exchange *)

Lemma connect_resp_ok id s :
  0 <= id < 2 ^ 32 ->
  exists s', SendRtmpConnectResp id s = Done (RTMP_OK, s') /\ req_ s' = req_ s /\
    server_phase_ s' = create_stream_phase /\ s_chunk_size_ s' = g_config_chunk_size.
Proof.
  intros Hid. unfold SendRtmpConnectResp. cbv zeta.
  rewrite encode_string. simpl_m. rewrite encode_number by (by vm_compute). simpl_m.
  rewrite encode_map by (repeat constructor; vm_compute; done). simpl_m.
  rewrite encode_map by (repeat constructor; vm_compute; done). simpl_m.
  edestruct (session_write_ok 3 0 RTMP_COMMAND_MESSAGES_AMF0 id) as (sent & Hw & _);
    [lia..| | |rewrite Hw]; [by vm_compute|by vm_compute|]. simpl_m. by eexists.
Qed.

Lemma publish_resp_ok s :
  0 <= stream_id_ s < 2 ^ 32 -> 0 < s_chunk_size_ s < 2 ^ 31 ->
  exists s', SendRtmpPublishResp s = Done (RTMP_OK, s') /\ req_ s' = req_ s /\
    server_phase_ s' = media_handle_phase.
Proof.
  intros Hid Hc. unfold SendRtmpPublishResp, send_onStatus.
  rewrite encode_string. simpl_m. rewrite encode_number by (by vm_compute). simpl_m.
  unfold EncodeNull. cbn [sink_append list_sink]. simpl_m.
  rewrite encode_map by (repeat constructor; vm_compute; done).
  do 2 simpl_m.
  match goal with |- context [session_write _ _ _ _ ?d s] =>
    destruct (session_write_ok 3 0 RTMP_COMMAND_MESSAGES_AMF0 (stream_id_ s) d s) as (sent & -> & _);
    [lia..|by vm_compute|] end. simpl_m. by eexists.
Qed.

Lemma connect_args_plain r :
  zlen (app_ r) <= 0xffff -> zlen (tcurl_ r) <= 0xffff -> - 2 ^ 53 < transaction_id_ r < 2 ^ 53 ->
  Forall plain_arg (connect_args r).
Proof.
  intros Ha Ht Hid. unfold connect_args. apply Forall_cons. split; [apply plain_string; by vm_compute|].
  apply Forall_cons. split; [apply plain_number; by apply double_of_int_range|].
  apply Forall_cons. split; [by apply connect_map_plain|constructor].
Qed.

Lemma publish_args_plain r : zlen (stream_name_ r) <= 0xffff -> Forall plain_arg (publish_args r).
Proof.
  intros Hs. unfold publish_args. apply Forall_cons. split; [apply plain_string; by vm_compute|].
  apply Forall_cons. split; [apply plain_number; by vm_compute|].
  apply Forall_cons. split; [apply plain_null|].
  apply Forall_cons. split; [by apply plain_string|].
  apply Forall_cons. split; [apply plain_string; by vm_compute|constructor].
Qed.

(** The vectors the server makes of the two commands. *)
Definition connect_items_of (r : RtmpRequest) : list AMF_ITERM := args_items (connect_args r).
Definition publish_items_of (r : RtmpRequest) : list AMF_ITERM := args_items (publish_args r).

Lemma connect_handled r cs s fuel :
  zlen (app_ r) <= 0xffff -> zlen (tcurl_ r) <= 0xffff -> - 2 ^ 53 < transaction_id_ r < 2 ^ 53 ->
  chunk_data_ cs = args_bytes (connect_args r) -> 0 <= stream_id_ s < 2 ^ 32 -> (6 < fuel)%nat ->
  exists ret s', HandleClientCommandMessage fuel cs s = Done (ret, connect_items_of r, s') /\ 0 <= ret /\
    req_ s' = set_flash_ver (str "FMS.3.1") (set_tcurl (tcurl_ r) (set_app (app_ r) (req_ s))) /\
    server_phase_ s' = create_stream_phase.
Proof.
  intros Ha Ht Hid Hd Hsid Hf. unfold HandleClientCommandMessage. cbv zeta. rewrite Hd.
  rewrite command_items_args; [|..|exact Hf]; cycle 1.
  - by apply connect_args_plain.
  - rewrite connect_args_length by done. lia.
  - simpl_m. cbn [app]. change (args_items (connect_args r)) with
      (amf_string (str "connect") :: drop 1 (connect_items_of r)). cbn [amf_type_ amf_string set_desc SetAmfType].
    change (negb (bool_decide (AMF_DATA_TYPE_STRING = AMF_DATA_TYPE_STRING))) with false.
    change (bool_decide (desc_str_ (amf_string (str "connect")) = CMD_Connect)) with true. cbv iota.
    unfold HandleRtmpConnectCommand.
    match goal with |- context [(length ?l <? 3)%nat] => change ((length l <? 3)%nat) with false end.
    match goal with |- context [connect_items ?l ?r0] => replace (connect_items l r0) with
      (0, set_flash_ver (str "FMS.3.1") (set_tcurl (tcurl_ r) (set_app (app_ r) r0))) by reflexivity end.
    cbn [Z.eqb].
    destruct (connect_resp_ok (stream_id_ s) (set_req (set_flash_ver (str "FMS.3.1")
      (set_tcurl (tcurl_ r) (set_app (app_ r) (req_ s)))) s) Hsid) as (s' & Hs' & Hr & Hp & _).
    match goal with |- context [SendRtmpConnectResp ?a ?b] => change (SendRtmpConnectResp a b) with
      (SendRtmpConnectResp (stream_id_ s) b); rewrite Hs' end. simpl_m. cbn [Z.eqb RTMP_OK].
    destruct (_ && _); eexists _, _; (split; [reflexivity|]); unfold RTMP_NEED_READ_MORE; by split_and!.
Qed.

Lemma publish_handled r cs s fuel :
  stream_name_ r <> [] -> zlen (stream_name_ r) <= 0xffff ->
  chunk_data_ cs = args_bytes (publish_args r) -> 0 <= stream_id_ s < 2 ^ 32 ->
  0 < s_chunk_size_ s < 2 ^ 31 -> (10 < fuel)%nat ->
  exists s', HandleClientCommandMessage fuel cs s = Done (RTMP_NEED_READ_MORE, publish_items_of r, s') /\
    req_ s' = store_request true (stream_name_ r) (set_transaction_id 0 (req_ s)) /\
    server_phase_ s' = media_handle_phase.
Proof.
  intros Hne Hn Hd Hsid Hc Hf. unfold HandleClientCommandMessage. cbv zeta. rewrite Hd.
  rewrite command_items_args; [|..|exact Hf]; cycle 1.
  - by apply publish_args_plain.
  - rewrite publish_args_length by done. lia.
  - simpl_m. cbn [app]. change (args_items (publish_args r)) with
      (amf_string (str "publish") :: drop 1 (publish_items_of r)). cbn [amf_type_ amf_string set_desc SetAmfType].
    change (negb (bool_decide (AMF_DATA_TYPE_STRING = AMF_DATA_TYPE_STRING))) with false.
    change (bool_decide (desc_str_ (amf_string (str "publish")) = CMD_Connect)) with false.
    change (bool_decide (desc_str_ (amf_string (str "publish")) = CMD_CreateStream)) with false.
    change (bool_decide (desc_str_ (amf_string (str "publish")) = CMD_Publish)) with true. cbv iota.
    unfold HandleRtmpPublishCommand.
    match goal with |- context [(length ?l <? 3)%nat] => change ((length l <? 3)%nat) with false end.
    match goal with |- context [transaction_items ?l ?a ?r0] => replace (transaction_items l a r0) with
      (Done (double_of_int 0, set_transaction_id 0 r0)) by reflexivity end. simpl_m.
    match goal with |- context [name_items ?l []] => replace (name_items l []) with (stream_name_ r) end; cycle 1.
    { change (stream_name_ r = if bool_decide (stream_name_ r = []) then str "live" else stream_name_ r).
      by rewrite bool_decide_eq_false_2. }
    set (r' := store_request true _ _).
    destruct (publish_resp_ok (set_req r' s) Hsid Hc) as (s' & -> & Hr & Hp). simpl_m.
    cbn [Z.eqb RTMP_OK]. rewrite Hr. exists s'. split; [reflexivity|]. by split.
Qed.

(** ** Properties: commands reach the server *)

(** A server that has read everything so far, next to a client session [s]. *)
Definition listening (s srv : RtmpSession) : Prop :=
  fmt_ready_ srv = false /\ recv_buffer_ srv = [] /\ s_chunk_size_ srv = s_chunk_size_ s /\
  match cs_map_ srv !! 3 with None => True | Some cs => idle_cs cs end /\
  0 <= stream_id_ srv < 2 ^ 32.

(** The server reads the [sent] bytes, takes the message on chunk stream 3 for a
    command and handles it. *)
Definition serves (fuel : nat) (sent : list bytes) (srv : RtmpSession) (vec : list AMF_ITERM)
    (P : RtmpSession -> Prop) : Prop :=
  exists srv1 cs ret srv2,
    read_message (length sent) (feed (concat sent) srv) = Done (RTMP_OK, Some 3, srv1) /\
    cs_map_ srv1 !! 3 = Some cs /\ type_id_ cs = RTMP_COMMAND_MESSAGES_AMF0 /\ recv_buffer_ srv1 = [] /\
    HandleClientCommandMessage fuel cs srv1 = Done (ret, vec, srv2) /\ 0 <= ret /\ P srv2.

Lemma command_served {HS} payload (c : RtmpClientSession (HS := HS)) srv fuel vec P :
  listening (base_ c) srv -> 0 < s_chunk_size_ (base_ c) < 2 ^ 31 -> 0 < zlen payload < 2 ^ 24 ->
  (forall srv1 cs, chunk_data_ cs = payload -> frame srv1 = frame srv ->
     exists ret srv2, HandleClientCommandMessage fuel cs srv1 = Done (ret, vec, srv2) /\ 0 <= ret /\ P srv2) ->
  exists c' sent, send_command payload c = Done (RTMP_OK, c') /\
    sent_ (base_ c') = sent_ (base_ c) ++ sent /\ serves fuel sent srv vec P.
Proof.
  intros (Hf & Hb & Hcs & Hidle & Hid) Hc Hp Hh. unfold send_command.
  destruct (session_write_ok 3 0 RTMP_COMMAND_MESSAGES_AMF0 0 payload (base_ c)) as (sent & -> & Hread); [lia..|].
  simpl_m. eexists _, sent. split; [reflexivity|]. split; [done|].
  destruct (Hread (feed (concat sent) srv) [] (length sent)) as (srv1 & cs & Hr & Hrc);
    [done|done|done|cbn; by rewrite Hb, app_nil_r|done|].
  pose proof (read_message_frame _ _ _ _ _ Hr) as Hfr. destruct Hrc as (Hrb & _ & Hlk & _ & Hdat & Hty & _).
  destruct (Hh srv1 cs Hdat Hfr) as (ret & srv2 & Hhc & Hret & HP).
  exists srv1, cs, ret, srv2. by split_and!.
Qed.

(** C23. The connect command crosses the wire: the chunks [RtmpConnect] sends are
    read back by a listening server as one command message, from which
    [HandleClientCommandMessage] takes the client's application name and tcUrl,
    replies, and moves to the create-stream phase.  It holds for any names the
    16-bit length of an AMF0 string can describe and any chunk size. *)
Theorem connect_reaches_server {HS} (c : RtmpClientSession (HS := HS)) srv fuel (r := req_ (base_ c)) :
  listening (base_ c) srv -> 0 < s_chunk_size_ (base_ c) < 2 ^ 31 ->
  zlen (app_ r) <= 0xffff -> zlen (tcurl_ r) <= 0xffff -> - 2 ^ 53 < transaction_id_ r < 2 ^ 53 ->
  (6 < fuel)%nat ->
  exists c' sent, RtmpConnect c = Done (RTMP_OK, c') /\ sent_ (base_ c') = sent_ (base_ c) ++ sent /\
    serves fuel sent srv (connect_items_of r) (fun srv' =>
      app_ (req_ srv') = app_ r /\ tcurl_ (req_ srv') = tcurl_ r /\
      server_phase_ srv' = create_stream_phase).
Proof.
  intros Hl Hc Ha Ht Hid Hf. destruct (RtmpConnect_sends c Ha Ht Hid) as (items & ->). fold r.
  pose proof (connect_args_length r Ha Ht) as Hlen. pose proof (zlen_nonneg (app_ r)).
  pose proof (zlen_nonneg (tcurl_ r)).
  apply (command_served _ (event (OnRtmpConnectSend 0 items) c) srv); [exact Hl|exact Hc|lia|].
  intros srv1 cs Hd Hfr. assert (stream_id_ srv1 = stream_id_ srv) as Hs by (injection Hfr; congruence).
  destruct Hl as (_ & _ & _ & _ & Hrange).
  destruct (connect_handled r cs srv1 fuel Ha Ht Hid Hd) as (ret & srv2 & -> & Hret & Hreq & Hph); [lia|done|].
  exists ret, srv2. split_and!; try done; by rewrite Hreq.
Qed.

(** C24. The publish command crosses the wire: the listening server ends in the
    media phase with a ready publish request whose key is its application name, a
    slash and the client's stream name. *)
Theorem publish_reaches_server {HS} (c : RtmpClientSession (HS := HS)) srv fuel (r := req_ (base_ c)) :
  listening (base_ c) srv -> 0 < s_chunk_size_ (base_ c) < 2 ^ 31 ->
  stream_name_ r <> [] -> zlen (stream_name_ r) <= 0xffff -> (10 < fuel)%nat ->
  exists c' sent, RtmpPublish c = Done (RTMP_OK, c') /\ sent_ (base_ c') = sent_ (base_ c) ++ sent /\
    serves fuel sent srv (publish_items_of r) (fun srv' =>
      key_ (req_ srv') = app_ (req_ srv) ++ str "/" ++ stream_name_ r /\
      is_ready_ (req_ srv') = true /\ publish_flag_ (req_ srv') = true /\
      server_phase_ srv' = media_handle_phase).
Proof.
  intros Hl Hc Hne Hn Hf. rewrite RtmpPublish_sends by done. fold r.
  pose proof (publish_args_length r Hn) as Hlen. pose proof (zlen_nonneg (stream_name_ r)).
  eapply (command_served _ (event _ c) srv); [exact Hl|exact Hc|lia|].
  intros srv1 cs Hd Hfr.
  assert (stream_id_ srv1 = stream_id_ srv /\ s_chunk_size_ srv1 = s_chunk_size_ srv /\ req_ srv1 = req_ srv)
    as (Hs & Hsz & Hrq) by (injection Hfr; intros; by split_and!).
  destruct Hl as (_ & _ & Hcs & _ & Hrange). cbn [base_ event] in Hc.
  destruct (publish_handled r cs srv1 fuel Hne Hn Hd) as (srv2 & -> & Hreq & Hph); [lia|lia|done|].
  exists RTMP_NEED_READ_MORE, srv2. unfold RTMP_NEED_READ_MORE. rewrite Hreq, Hrq. by split_and!.
Qed.

(** A client and a server for concrete runs; the handshake object is inert. *)
#[export] Instance unit_handshake : HandshakeObject unit := {|
  MakeC0C1 h := (0, [], h); ParseS0S1S2 _ h := (0, h); MakeC2 h := (0, [], h) |}.

Definition demo_request : RtmpRequest :=
  set_stream_name (str "cam1") (set_tcurl (str "rtmp://host/live") (set_app (str "live") RtmpRequest_new)).
Definition demo_client (p : RTMP_CLIENT_SESSION_PHASE) : RtmpClientSession :=
  mkClient (set_client_phase p (set_req demo_request RtmpSessionBase_new)) tt [].

Lemma demo_listening p : listening (base_ (demo_client p)) RtmpSessionBase_new.
Proof. split_and!; try reflexivity. by vm_compute. Qed.

Lemma connect_reaches_server_witness :
  exists c' sent, RtmpConnect (demo_client client_connect_phase) = Done (RTMP_OK, c') /\
    sent_ (base_ c') = [] ++ sent /\
    serves 20 sent RtmpSessionBase_new (connect_items_of demo_request) (fun srv' =>
      app_ (req_ srv') = str "live" /\ tcurl_ (req_ srv') = str "rtmp://host/live" /\
      server_phase_ srv' = create_stream_phase).
Proof.
  apply (connect_reaches_server (demo_client client_connect_phase) RtmpSessionBase_new 20);
    [apply demo_listening|by vm_compute..|lia].
Defined.

Lemma publish_reaches_server_witness :
  exists c' sent, RtmpPublish (demo_client client_create_publish_phase) = Done (RTMP_OK, c') /\
    sent_ (base_ c') = [] ++ sent /\
    serves 20 sent RtmpSessionBase_new (publish_items_of demo_request) (fun srv' =>
      key_ (req_ srv') = [] ++ str "/" ++ str "cam1" /\ is_ready_ (req_ srv') = true /\
      publish_flag_ (req_ srv') = true /\ server_phase_ srv' = media_handle_phase).
Proof.
  apply (publish_reaches_server (demo_client client_create_publish_phase) RtmpSessionBase_new 20);
    [apply demo_listening|by vm_compute..|lia].
Defined.

(** ** Properties: the client's state machine *)

(** The order of the phases. *)
Definition phase_rank (p : RTMP_CLIENT_SESSION_PHASE) : Z :=
  match p with
  | client_initial_phase => 0 | client_c0c1_phase => 1 | client_s0s1s2_phase => 2
  | client_connect_phase => 3 | client_connect_resp_phase => 4 | client_create_stream_phase => 5
  | client_create_stream_resp_phase => 6 | client_create_play_phase => 7 | client_create_publish_phase => 7
  | client_create_playpublish_resp_phase => 8 | client_media_handle_phase => 9
  end.

(** A command only moves the phase on. *)
Lemma server_command_items_rank phase publish items : forall next next',
  phase_rank phase <= phase_rank next ->
  server_command_items phase next publish items = Some next' -> phase_rank phase <= phase_rank next'.
Proof.
  induction items as [|item items IH]; intros next next' Hn; cbn; [by intros [= <-]|].
  destruct (server_command_item phase next publish item) as [n|] eqn:Hi; [|discriminate].
  apply IH. revert Hi. unfold server_command_item. cbv zeta.
  destruct (amf_type_ item); try (by intros [= <-]).
  - repeat (case_bool_decide; cbn [orb andb negb] in * ); subst; try discriminate; intros [= <-];
      cbn in *; try done; destruct publish; cbn; lia.
  - destruct (map_find _ _) as [o|]; [|by intros [= <-]].
    repeat (case_bool_decide; cbn [orb andb negb] in * ); try discriminate; by intros [= <-].
Qed.

Section phases.
Context {HS : Type} `{Alloc : Allocator} `{HO : HandshakeObject HS}.
Implicit Types c : RtmpClientSession (HS := HS).

Lemma HandleServerCommandMessage_rank fuel cs s ret vec s' :
  HandleServerCommandMessage fuel cs s = Done (ret, vec, s') ->
  phase_rank (client_phase_ s) <= phase_rank (client_phase_ s').
Proof.
  unfold HandleServerCommandMessage. cbv zeta. destruct (command_items _ _ _ _) as [v|]; simpl_m; [|discriminate].
  destruct (_ <? _)%nat; [by intros [= <- <- <-]|].
  destruct (server_command_items _ _ _ v) as [p|] eqn:Hi; intros [= <- <- <-]; [|done].
  cbn. by eapply server_command_items_rank.
Qed.

Lemma HandleRtmpControlMessage_phase cs s ret s' :
  HandleRtmpControlMessage cs s = Done (ret, s') -> client_phase_ s' = client_phase_ s.
Proof.
  unfold HandleRtmpControlMessage.
  repeat (destruct (_ =? _) || destruct (_ <? _)); try (by intros [= <- <-]);
    (destruct (Read4Bytes _); simpl_m; [|discriminate]); cbv zeta; by intros [= <- <-].
Qed.

Lemma reports_phase cs c c' : reportCtrlMsg cs c = Done c' -> base_ c' = base_ c.
Proof.
  unfold reportCtrlMsg. cbv zeta.
  repeat (destruct (_ =? _) || destruct (_ <? _)); try (by intros [= <-]);
    (destruct (Read4Bytes _); simpl_m; [|discriminate]); by intros [= <-].
Qed.

Lemma report_amf_phase vec c c' :
  reportConnectRespAmf vec c = Done c' \/ reportCreateStreamRespAmf vec c = Done c' \/
  reportPlayPublishRespAmf vec c = Done c' -> base_ c' = base_ c.
Proof.
  unfold reportConnectRespAmf, reportCreateStreamRespAmf, reportPlayPublishRespAmf.
  destruct (report_items vec [] 0 []) as [[[? ?] ?]|]; simpl_m; intros [Hr|[Hr|Hr]]; inversion Hr; done.
Qed.

Lemma handle_resp_message_rank fuel k cs c r c' :
  handle_resp_message fuel k cs c = Done (r, c') -> phase_rank (cphase c) <= phase_rank (cphase c').
Proof.
  unfold handle_resp_message. cbv zeta. destruct (_ && _).
  - destruct (HandleRtmpControlMessage cs (base_ c)) as [[ret s]|] eqn:Hc; simpl_m; [|discriminate].
    apply HandleRtmpControlMessage_phase in Hc.
    destruct (_ <? _); [intros [= <- <-]; unfold cphase; cbn; by rewrite Hc|].
    destruct (reportCtrlMsg cs (set_base s c)) as [c1|] eqn:Hr; simpl_m; [|discriminate].
    apply reports_phase in Hr. destruct (_ <? _); intros [= <- <-]; unfold cphase; cbn; rewrite Hr; cbn; by rewrite Hc.
  - destruct (type_id_ cs =? RTMP_COMMAND_MESSAGES_AMF0).
    + destruct (HandleServerCommandMessage fuel cs (base_ c)) as [[[ret vec] s]|] eqn:Hc; simpl_m; [|discriminate].
      apply HandleServerCommandMessage_rank in Hc.
      destruct (_ <? _); [intros [= <- <-]; done|].
      match goal with |- mbind _ ?m = _ -> _ => destruct m as [c1|] eqn:Hm; simpl_m; [|discriminate] end.
      assert (phase_rank (cphase c) <= phase_rank (cphase c1)) as Hc1.
      { unfold cphase in *. destruct (client_phase_ (base_ c)) eqn:Hp; cbn [client_phase_] in *.
        all: try (injection Hm as <-; exact Hc).
        - assert (base_ c1 = s) as -> by (apply report_amf_phase in Hm || apply (report_amf_phase vec (set_base s c)); auto). done.
        - assert (base_ c1 = s) as -> by (apply (report_amf_phase vec (set_base s c)); auto). done.
        - destruct (reportPlayPublishRespAmf vec (set_base s c)); [|discriminate]. injection Hm as <-. cbn. lia. }
      destruct (_ <? _); intros [= <- <-]; exact Hc1.
    + destruct (_ || _); [|by intros [= <- <-]].
      destruct (GetMediaPacket cs (req_ (base_ c))) as [[p|]|]; simpl_m; [|by intros [= <- <-]|discriminate].
      destruct (_ =? _); by intros [= <- <-].
Qed.

Lemma ReceiveRespMessage_rank fuel : forall c ret c',
  ReceiveRespMessage fuel c = Done (ret, c') -> phase_rank (cphase c) <= phase_rank (cphase c').
Proof.
  induction fuel as [|fuel IH]; intros c ret c'; [discriminate|]. cbn [ReceiveRespMessage].
  destruct (read_message (S fuel) (base_ c)) as [[[r k] s]|] eqn:Hr; simpl_m; [|discriminate].
  apply read_message_frame in Hr. assert (client_phase_ s = client_phase_ (base_ c)) as Hp by (injection Hr; done).
  destruct k as [k|]; [|intros [= <- <-]; unfold cphase; cbn; by rewrite Hp].
  destruct (cs_map_ s !! k) as [cs|]; [|intros [= <- <-]; unfold cphase; cbn; by rewrite Hp].
  destruct (handle_resp_message (S fuel) k cs (set_base s c)) as [[q c1]|] eqn:Hh; simpl_m; [|discriminate].
  apply handle_resp_message_rank in Hh. unfold cphase in Hh at 1. cbn in Hh. rewrite Hp in Hh. fold (cphase c) in Hh.
  destruct q as [q|q]; [by intros [= <- <-]|]. intros Hrec. apply IH in Hrec. lia.
Qed.

Lemma send_command_phase p c ret c' : send_command p c = Done (ret, c') -> cphase c' = cphase c.
Proof.
  unfold send_command, session_write. destruct (WriteDataByChunkStream _ _ _ _ _ _) as [[? ?]|]; simpl_m;
    [|discriminate]. by intros [= <- <-].
Qed.

(** Peel the encoders off a command. *)
Ltac peel :=
  repeat match goal with
  | |- mbind _ ?m = Done _ -> _ =>
      lazymatch type of m with outcome (Z * bytes) => destruct m as [[? ?]|]; simpl_m; [|discriminate] end
  | |- mbind _ (int64_of_double ?d) = Done _ -> _ => destruct (int64_of_double d); simpl_m; [|discriminate]
  end.

Lemma commands_phase c ret c' :
  RtmpConnect c = Done (ret, c') \/ RtmpCreatestream c = Done (ret, c') \/ RtmpPlay c = Done (ret, c') \/
  RtmpPublish c = Done (ret, c') -> cphase c' = cphase c.
Proof.
  unfold RtmpConnect, RtmpCreatestream, RtmpPlay, RtmpPublish. cbv zeta.
  intros [Hs|[Hs|[Hs|Hs]]]; revert Hs; peel; intros Hs; by apply send_command_phase in Hs.
Qed.

Lemma RtmpSend_chars_phase d c : cphase (RtmpSend_chars d c).2 = cphase c.
Proof. unfold RtmpSend_chars. cbv zeta. by repeat destruct (decide _). Qed.

Lemma SendC2_phase c : cphase (SendC2 c).2 = cphase c.
Proof.
  unfold SendC2. destruct (MakeC2 (hs_ c)) as [[r d] h]. destruct (_ <? _); [done|].
  exact (RtmpSend_chars_phase d (set_hs h c)).
Qed.

Definition flow_client (f : flow (HS := HS)) : RtmpClientSession :=
  match f with Return _ c | Next _ c => c end.

(** A piece of [HandleMessage] that never goes back. *)
Definition forward (piece : Z -> RtmpClientSession -> outcome flow) : Prop :=
  forall ret c f, piece ret c = Done f -> phase_rank (cphase c) <= phase_rank (cphase (flow_client f)).

Lemma forward_andthen p q : forward p -> forward q -> forward (fun ret c => andthen (p ret c) q).
Proof.
  intros Hp Hq ret c f. unfold andthen. destruct (p ret c) as [[r c1|r c1]|] eqn:E; simpl_m; [..|discriminate];
    apply Hp in E; [by intros [= <-]|]. intros Hf. apply Hq in Hf. cbn in E. lia.
Qed.

Ltac start_piece := intros ret c f; destruct (decide _) as [Hph|]; [|by intros [= <-]].

Lemma receive_piece c fuel f
    (k : Z -> RtmpClientSession -> outcome flow) :
  (forall ret c1, phase_rank (cphase c) <= phase_rank (cphase c1) ->
     k ret c1 = Done f -> phase_rank (cphase c) <= phase_rank (cphase (flow_client f))) ->
  ('(ret, c1) ← ReceiveRespMessage fuel c; k ret c1) = Done f ->
  phase_rank (cphase c) <= phase_rank (cphase (flow_client f)).
Proof.
  intros Hk. destruct (ReceiveRespMessage fuel c) as [[r c1]|] eqn:Hr; simpl_m; [|discriminate].
  apply ReceiveRespMessage_rank in Hr. by apply Hk.
Qed.

Lemma handle_c0c1_forward : forward handle_c0c1.
Proof.
  unfold handle_c0c1. start_piece. destruct (negb _); [by intros [= <-]|]. cbv zeta.
  destruct (ParseS0S1S2 _ _) as [r h]. destruct (_ <? _); [by intros [= <-]|].
  match goal with |- context [SendC2 ?x] => pose proof (SendC2_phase x) as Hp; destruct (SendC2 x) as [r2 c2] end.
  cbn in Hp. destruct (_ <? _); [intros [= <-]; rewrite Hph; cbn; rewrite Hp; cbn; lia|].
  destruct (RtmpConnect _) as [[r3 c3]|] eqn:Hc; simpl_m; [|discriminate].
  assert (cphase c3 = client_connect_phase) as Hc3 
    by exact (commands_phase (set_phase_c client_connect_phase c2) r3 c3 (or_introl Hc)).
  destruct (_ <? _); intros [= <-]; rewrite Hph; cbn; [rewrite Hc3|]; cbn; lia.
Qed.

Ltac split_ifs := repeat match goal with |- (if ?c then _ else _) = _ -> _ => destruct c end.

Lemma handle_connect_resp_forward fuel : forward (handle_connect_resp fuel).
Proof.
  unfold handle_connect_resp. start_piece. apply receive_piece. intros r c1 Hc. cbn beta.
  split_ifs; intros [= <-]; try exact Hc; rewrite Hph; cbn; lia.
Qed.
Lemma handle_create_stream_resp_forward fuel : forward (handle_create_stream_resp fuel).
Proof.
  unfold handle_create_stream_resp. start_piece. apply receive_piece. intros r c1 Hc. cbn beta zeta.
  split_ifs; intros [= <-]; try exact Hc; rewrite Hph; cbn; try destruct (publish_flag_ _); cbn; lia.
Qed.
Lemma handle_playpublish_resp_forward fuel : forward (handle_playpublish_resp fuel).
Proof.
  unfold handle_playpublish_resp. start_piece. apply receive_piece. intros r c1 Hc. cbn beta.
  split_ifs; intros [= <-]; try exact Hc; rewrite Hph; cbn; lia.
Qed.
Lemma handle_media_forward fuel : forward (handle_media fuel).
Proof.
  unfold handle_media. start_piece. apply receive_piece. intros r c1 Hc. cbn beta.
  split_ifs; intros [= <-]; exact Hc.
Qed.

Lemma handle_create_stream_forward : forward handle_create_stream.
Proof.
  unfold handle_create_stream. start_piece. destruct (RtmpCreatestream c) as [[r c1]|] eqn:Hc; simpl_m; [|discriminate].
  assert (cphase c1 = cphase c) as Hp by (apply (commands_phase _ r); auto).
  split_ifs; intros [= <-]; cbn; [by rewrite Hp|rewrite Hph; cbn; lia].
Qed.
Lemma handle_create_play_forward : forward handle_create_play.
Proof.
  unfold handle_create_play. start_piece. destruct (RtmpPlay c) as [[r c1]|] eqn:Hc; simpl_m; [|discriminate].
  assert (cphase c1 = cphase c) as Hp by (apply (commands_phase _ r); auto).
  split_ifs; intros [= <-]; cbn; [by rewrite Hp|rewrite Hph; cbn; lia].
Qed.
Lemma handle_create_publish_forward : forward handle_create_publish.
Proof.
  unfold handle_create_publish. start_piece. destruct (RtmpPublish c) as [[r c1]|] eqn:Hc; simpl_m; [|discriminate].
  assert (cphase c1 = cphase c) as Hp by (apply (commands_phase _ r); auto).
  split_ifs; intros [= <-]; cbn; [by rewrite Hp|rewrite Hph; cbn; lia].
Qed.

(** C25. The client's state machine only moves forward: whatever the server
    sends and wherever the input stops, [HandleMessage] never takes the session
    back to an earlier phase. *)
Theorem HandleMessage_forward fuel c ret c' :
  HandleMessage fuel c = Done (ret, c') -> phase_rank (cphase c) <= phase_rank (cphase c').
Proof.
  unfold HandleMessage. intros Hm.
  assert (forall f, (match f with Return r c1 | Next r c1 => Done (r, c1) end) = Done (ret, c') ->
    flow_client f = c') as Hfc by (intros [? ?|? ?]; cbn; congruence).
  match type of Hm with mbind _ ?m = _ => destruct m as [f|] eqn:Hf; simpl_m; [|discriminate] end.
  rewrite <- (Hfc f Hm). revert Hf.
  apply (forward_andthen handle_c0c1); [apply handle_c0c1_forward|].
  apply (forward_andthen (handle_connect_resp fuel)); [apply handle_connect_resp_forward|].
  apply (forward_andthen handle_create_stream); [apply handle_create_stream_forward|].
  apply (forward_andthen (handle_create_stream_resp fuel)); [apply handle_create_stream_resp_forward|].
  apply (forward_andthen handle_create_play); [apply handle_create_play_forward|].
  apply (forward_andthen handle_create_publish); [apply handle_create_publish_forward|].
  apply (forward_andthen (handle_playpublish_resp fuel)); [apply handle_playpublish_resp_forward|].
  apply handle_media_forward.
Qed.
End phases.

(** A concrete run: the whole answer of a server to connect, in one segment. *)
Definition connect_answer : bytes :=
  match SendRtmpConnectResp 1 RtmpSessionBase_new with Done (_, s) => concat (sent_ s) | Fault _ => [] end.
Definition waiting_client (buf : bytes) : RtmpClientSession :=
  set_base (set_recv_buffer buf (base_ (demo_client client_connect_resp_phase)))
    (demo_client client_connect_resp_phase).

Lemma HandleMessage_forward_witness :
  exists c', HandleMessage (Alloc := zero_alloc) 30 (waiting_client connect_answer) = Done (RTMP_NEED_READ_MORE, c') /\
    cphase c' = client_create_stream_resp_phase /\
    phase_rank (cphase (waiting_client connect_answer)) <= phase_rank (cphase c').
Proof.
  eexists. split; [vm_compute; reflexivity|]. split; [reflexivity|].
  eapply (HandleMessage_forward (Alloc := zero_alloc) 30 (waiting_client connect_answer)).
  vm_compute. reflexivity.
Defined.

Section client_properties.
Context {HS : Type} `{Alloc : Allocator} `{HO : HandshakeObject HS}.
Implicit Types c : RtmpClientSession (HS := HS).

(** createStream is sent whenever its few bytes can be. *)
Lemma RtmpCreatestream_ok c (r := req_ (base_ c)) :
  - 2 ^ 53 < transaction_id_ r < 2 ^ 53 -> 0 < s_chunk_size_ (base_ c) < 2 ^ 31 ->
  exists c', RtmpCreatestream c = Done (RTMP_OK, c') /\
    log_ c' = log_ c ++ [OnRtmpCreateStreamSend 0 (transaction_id_ r)] /\ cphase c' = cphase c.
Proof.
  intros Hid Hc. unfold RtmpCreatestream. fold r. cbv zeta.
  rewrite encode_string. simpl_m. rewrite encode_number by (by apply double_of_int_range). simpl_m.
  unfold EncodeNull. cbn [sink_append list_sink]. simpl_m. rewrite double_of_int_exact by done. simpl_m.
  unfold send_command.
  match goal with |- context [session_write 3 0 _ 0 ?d ?s] =>
    destruct (session_write_ok 3 0 RTMP_COMMAND_MESSAGES_AMF0 0 d s) as (sent & -> & _);
    [lia|lia|lia|exact Hc| |] end.
  { rewrite !zlen_app. change (zlen (value_bytes (amf_number _))) with 9. by vm_compute. }
  simpl_m. by eexists.
Qed.

(** The connect response is not waited for: a window acknowledgement size
    message (which servers send before it) is enough for a client that waits for
    the result of connect to go on and send createStream.  No result was reported,
    and the next response will be taken for that of createStream. *)
Theorem window_ack_ends_connect_wait fuel c s k cs :
  cphase c = client_connect_resp_phase ->
  read_message (S fuel) (base_ c) = Done (RTMP_OK, Some k, s) -> cs_map_ s !! k = Some cs ->
  type_id_ cs = RTMP_CONTROL_WINDOW_ACK_SIZE -> 4 <= zlen (chunk_data_ cs) -> recv_buffer_ s = [] ->
  - 2 ^ 53 < transaction_id_ (req_ (base_ c)) < 2 ^ 53 -> 0 < s_chunk_size_ (base_ c) < 2 ^ 31 ->
  exists size c', HandleMessage (S fuel) c = Done (RTMP_NEED_READ_MORE, c') /\
    cphase c' = client_create_stream_resp_phase /\
    log_ c' = log_ c ++ [OnRtmpWindowSize 0 size; OnRtmpCreateStreamSend 0 (transaction_id_ (req_ (base_ c)))].
Proof.
  intros Hp Hr Hlk Hty Hlen Hb Hid Hc.
  assert (exists v, Read4Bytes (chunk_data_ cs) = Done v) as [v Hv].
  { destruct (Read4Bytes_cases (chunk_data_ cs)) as [(v & Hv & _)|Hv]; [by exists v|].
    rewrite Read4Bytes_take in Hv by (unfold zlen in Hlen; lia). discriminate. }
  pose proof (read_message_frame _ _ _ _ _ Hr) as Hfr. exists v.
  unfold HandleMessage, handle_c0c1. destruct (decide (cphase c = client_c0c1_phase)) as [E|_]; [congruence|].
  unfold andthen at 1. simpl_m. unfold handle_connect_resp.
  destruct (decide (cphase c = client_connect_resp_phase)) as [_|n]; [|by destruct n].
  cbn [ReceiveRespMessage]. rewrite Hr. simpl_m. rewrite Hlk.
  unfold handle_resp_message, HandleRtmpControlMessage, reportCtrlMsg. cbv zeta. rewrite Hty.
  cbn [Z.leb Z.compare Z.eqb andb RTMP_CONTROL_SET_CHUNK_SIZE RTMP_CONTROL_WINDOW_ACK_SIZE
    RTMP_CONTROL_SET_PEER_BANDWIDTH Pos.compare Pos.compare_cont Pos.eqb].
  destruct (Z.ltb_spec (zlen (chunk_data_ cs)) 4); [lia|]. rewrite Hv. simpl_m.
  cbn [Z.ltb Z.compare RTMP_OK]. simpl_m. cbn [base_ event set_base recv_buffer_ store_cs set_cs_map set_remote_window_acksize].
  rewrite Hb.
  change (0 <? zlen (A:=Z) []) with false. cbv iota. do 2 simpl_m. cbn [Z.ltb Z.compare Z.eqb RTMP_OK RTMP_NEED_READ_MORE]. simpl_m.
  unfold andthen at 1. simpl_m. unfold andthen at 1, handle_create_stream.
  match goal with |- context [decide ?P] => destruct (decide P) as [_|n]; [|by destruct n] end.
  match goal with |- context [RtmpCreatestream ?x] => destruct (RtmpCreatestream_ok x) as (c' & -> & Hlog & Hph) end.
  { cbn. by replace (req_ s) with (req_ (base_ c)) by (injection Hfr; congruence). }
  { cbn. by replace (s_chunk_size_ s) with (s_chunk_size_ (base_ c)) by (injection Hfr; congruence). }
  simpl_m. cbn [Z.ltb Z.compare RTMP_OK]. simpl_m. eexists. split; [reflexivity|]. split; [reflexivity|].
  cbn in Hlog |- *. rewrite Hlog, <- app_assoc. cbn. by replace (req_ s) with (req_ (base_ c)) by (injection Hfr; congruence).
Qed.

(** A refused publish or play is taken for an accepted one: while the client
    waits for the status of publish or play, any command message that is decoded
    at all ends the wait in the media phase, whatever its code says; the checks of
    the status code look for phases the client has already left. *)
Theorem refused_publish_accepted fuel k cs c r c' :
  cphase c = client_create_playpublish_resp_phase -> type_id_ cs = RTMP_COMMAND_MESSAGES_AMF0 ->
  chunk_data_ cs <> [] -> handle_resp_message fuel k cs c = Done (r, c') ->
  cphase c' = client_media_handle_phase.
Proof.
  intros Hp Hty Hne. unfold handle_resp_message, HandleServerCommandMessage. cbv zeta. rewrite Hty.
  destruct (command_items fuel (chunk_data_ cs) (zlen (chunk_data_ cs)) []) as [vec|] eqn:Hv; simpl_m; [|discriminate].
  assert ((length vec <? 1)%nat = false) as ->.
  { apply Nat.ltb_ge. by eapply command_items_nonempty. }
  assert (forall items next, server_command_items client_create_playpublish_resp_phase next
    (IsPublish (base_ c)) items = Some next) as Hitems.
  { induction items as [|i items IH]; intros next; [done|]. cbn. unfold server_command_item. cbv zeta.
    destruct (amf_type_ i); try apply IH; cbn -[str].
    destruct (map_find _ _) as [o|]; [|apply IH]. case_bool_decide; apply IH. }
  unfold cphase in Hp. rewrite Hp, Hitems. unfold cphase. rewrite Hp. simpl_m. cbn [Z.ltb Z.compare RTMP_OK].
  destruct (reportPlayPublishRespAmf vec _) as [c1|]; simpl_m; [|discriminate].
  cbn [Z.leb Z.compare Z.eqb andb RTMP_CONTROL_SET_CHUNK_SIZE RTMP_COMMAND_MESSAGES_AMF0
    RTMP_CONTROL_SET_PEER_BANDWIDTH Pos.compare Pos.compare_cont Pos.eqb].
  destruct (_ <? _); by intros [= <- <-].
Qed.
End client_properties.

(** A window acknowledgement size message and nothing else. *)
Definition ack_message : bytes := chunk_all_ (GenControlMessage RTMP_CONTROL_WINDOW_ACK_SIZE 4 2500000
                                                (ChunkStream_new 0 3 128)).2.

Lemma window_ack_ends_connect_wait_witness :
  exists size c', HandleMessage (Alloc := zero_alloc) 20 (waiting_client ack_message) = Done (RTMP_NEED_READ_MORE, c') /\
    cphase c' = client_create_stream_resp_phase /\
    log_ c' = [] ++ [OnRtmpWindowSize 0 size; OnRtmpCreateStreamSend 0 1].
Proof.
  eapply (window_ack_ends_connect_wait (Alloc := zero_alloc) 19 (waiting_client ack_message));
    [reflexivity|vm_compute; reflexivity|vm_compute; reflexivity|reflexivity|vm_compute; discriminate
    |reflexivity|by vm_compute|by vm_compute].
Defined.

(** ["NetStream.Publish.BadName"], the answer to a stream name in use. *)
Definition bad_name_answer : bytes :=
  args_bytes [ArgValue (amf_string (str "onStatus")); ArgValue (amf_number (double_of_int 0)); ArgValue null_item;
              ArgMap [(str "code", amf_string (str "NetStream.Publish.BadName"));
                      (str "level", amf_string (str "error"))]].

Lemma refused_publish_accepted_witness :
  let cs := set_type_id RTMP_COMMAND_MESSAGES_AMF0 (set_chunk_data bad_name_answer (ChunkStream_new 0 3 128)) in
  exists r c', handle_resp_message (Alloc := zero_alloc) 20 3 cs (demo_client client_create_playpublish_resp_phase) = Done (r, c') /\
    cphase c' = client_media_handle_phase.
Proof.
  eexists _, _. split; [vm_compute; reflexivity|].
  eapply (refused_publish_accepted (Alloc := zero_alloc) 20 3
    (set_type_id RTMP_COMMAND_MESSAGES_AMF0 (set_chunk_data bad_name_answer (ChunkStream_new 0 3 128)))
    (demo_client client_create_playpublish_resp_phase));
    [reflexivity|reflexivity|vm_compute; discriminate|vm_compute; reflexivity].
Defined.

(** ** Properties: media *)

Section media_properties.
Context `{Alloc : Allocator}.

Lemma fill_packet_spec cs r d p :
  wf (buffer_ptr_ p) -> zlen (chunk_data_ cs) <= max_queue ->
  exists p', fill_packet cs r d p = Done p' /\ contents (buffer_ptr_ p') = chunk_data_ cs /\
    dts_ p' = timestamp32_ cs /\ pts_ p' = timestamp32_ cs + d /\ streamid_ p' = msg_stream_id_ cs /\
    pkt_key_ p' = key_ r /\ av_type_ p' = av_type_ p /\ codec_type_ p' = codec_type_ p /\
    is_seq_hdr_ p' = is_seq_hdr_ p /\ is_key_frame_ p' = is_key_frame_ p.
Proof.
  intros Hwf Hmax. destruct (Reset_spec _ Hwf) as [Hwf' Hc]. unfold fill_packet. cbv zeta.
  match goal with |- context [append_packet _ ?q] =>
    destruct (append_packet_spec (chunk_data_ cs) q) as (b & -> & _ & Hb & _) end;
    cbn [buffer_ptr_ set_buffer_ptr set_pts set_dts]; [done|done|by rewrite Hc|].
  simpl_m. eexists. split; [reflexivity|]. cbn in Hb |- *. rewrite Hb. by rewrite Hc.
Qed.

(** A video message becomes a packet with all of its bytes: for the four
    supported codecs the packet carries the codec, the sequence-header or
    key-frame flag of its first two bytes, the message's timestamp as dts, and
    dts plus the 24-bit composition time as pts. *)
Theorem GetMediaPacket_video cs r p0 p1 ct rest codec :
  type_id_ cs = RTMP_MEDIA_PACKET_VIDEO -> chunk_data_ cs = p0 :: p1 :: ct ++ rest -> length ct = 3%nat ->
  zlen (chunk_data_ cs) <= max_queue ->
  video_codec_of (Z.land p0 0x0f) = Some codec ->
  (Z.land p0 0xf0 = FLV_VIDEO_KEY_FLAG -> p1 = FLV_VIDEO_AVC_SEQHDR \/ p1 = FLV_VIDEO_AVC_NALU) ->
  exists p, GetMediaPacket cs r = Done (Some p) /\ contents (buffer_ptr_ p) = chunk_data_ cs /\
    av_type_ p = MEDIA_VIDEO_TYPE /\ codec_type_ p = codec /\
    dts_ p = timestamp32_ cs /\ pts_ p = timestamp32_ cs + be_value ct /\
    is_seq_hdr_ p = bool_decide (Z.land p0 0xf0 = FLV_VIDEO_KEY_FLAG /\ p1 = FLV_VIDEO_AVC_SEQHDR) /\
    is_key_frame_ p = bool_decide (Z.land p0 0xf0 = FLV_VIDEO_KEY_FLAG /\ p1 = FLV_VIDEO_AVC_NALU) /\
    streamid_ p = msg_stream_id_ cs /\ pkt_key_ p = key_ r.
Proof.
  intros Hty Hd Hct Hmax Hcodec Hkey. unfold GetMediaPacket. cbv zeta. rewrite Hd in Hmax |- *.
  assert (2 <= zlen (p0 :: p1 :: ct ++ rest)) by (rewrite !zlen_cons; pose proof (zlen_nonneg (ct ++ rest)); lia).
  destruct (Z.ltb_spec (zlen (p0 :: p1 :: ct ++ rest)) 2); [lia|].
  destruct Media_Packet_new_spec as (q & -> & Hwf & _ & _ & Hsq & Hkf & _). simpl_m.
  change ((p0 :: p1 :: ct ++ rest).[0]) with (Done p0). change ((p0 :: p1 :: ct ++ rest).[1]) with (Done p1).
  simpl_m. rewrite Hty, Hcodec. cbn [Z.eqb RTMP_MEDIA_PACKET_VIDEO Pos.eqb].
  change (drop 2 (p0 :: p1 :: ct ++ rest)) with (drop 0 (ct ++ rest)). rewrite drop_0, Read3Bytes_spec by done.
  destruct (Z.eqb_spec (Z.land p0 0xf0) FLV_VIDEO_KEY_FLAG) as [Hk|Hk]; cbn [andb].
  - destruct (Hkey Hk) as [-> | ->]; cbn [negb andb Z.eqb FLV_VIDEO_AVC_SEQHDR FLV_VIDEO_AVC_NALU];
      (match goal with |- context [fill_packet cs r _ ?p] =>
        destruct (fill_packet_spec cs r (be_value ct) p) as (p' & Hp' & Hs); [done|by rewrite Hd|] end);
      simpl_m; rewrite Hp'; simpl_m; exists p'; cbn in Hs; rewrite Hd in Hs; destruct Hs as (? & ? & ? & ? & ? & -> & -> & -> & ->).
    all: split_and!; try done; try rewrite Hsq; try rewrite Hkf;
      first [by rewrite bool_decide_eq_true_2|by rewrite bool_decide_eq_false_2 by (intros [_ ?]; discriminate)].
  - match goal with |- context [fill_packet cs r _ ?p] =>
      destruct (fill_packet_spec cs r (be_value ct) p) as (p' & Hp' & Hs);
        [by destruct (_ =? _)|by rewrite Hd|] end.
    simpl_m; rewrite Hp'; simpl_m; exists p'; rewrite Hd in Hs; destruct Hs as (? & ? & ? & ? & ? & -> & -> & -> & ->).
    rewrite !bool_decide_eq_false_2 by (by intros [? _]).
    destruct (_ =? FLV_VIDEO_INTER_FLAG); split_and!; try done; cbn; by rewrite ?Hsq, ?Hkf.
Qed.

End media_properties.

Lemma GetMediaPacket_video_witness :
  let cs := set_type_id RTMP_MEDIA_PACKET_VIDEO (set_timestamp32 40
              (set_chunk_data [0x17; 1; 0; 0; 80; 1; 2; 3] (ChunkStream_new 0 6 128))) in
  exists p, GetMediaPacket (H := zero_alloc) cs demo_request = Done (Some p) /\
    contents (buffer_ptr_ p) = [0x17; 1; 0; 0; 80; 1; 2; 3] /\ av_type_ p = MEDIA_VIDEO_TYPE /\
    codec_type_ p = MEDIA_CODEC_H264 /\ dts_ p = 40 /\ pts_ p = 40 + be_value [0; 0; 80] /\
    is_seq_hdr_ p = bool_decide (0x10 = FLV_VIDEO_KEY_FLAG /\ 1 = FLV_VIDEO_AVC_SEQHDR) /\
    is_key_frame_ p = bool_decide (0x10 = FLV_VIDEO_KEY_FLAG /\ 1 = FLV_VIDEO_AVC_NALU) /\
    streamid_ p = 0 /\ pkt_key_ p = [].
Proof.
  apply (GetMediaPacket_video (Alloc := zero_alloc)
    (set_type_id RTMP_MEDIA_PACKET_VIDEO (set_timestamp32 40
       (set_chunk_data [0x17; 1; 0; 0; 80; 1; 2; 3] (ChunkStream_new 0 6 128)))) demo_request
    0x17 1 [0; 0; 80] [1; 2; 3] MEDIA_CODEC_H264);
    [reflexivity|reflexivity|reflexivity|vm_compute; discriminate|reflexivity|intros _; right; reflexivity].
Defined.
