(* ===== verification/AudioHeader.v ===== *)
(** * [AudioHeader]: AAC configuration, ADTS and Opus headers

    Models [src/format/audio_header.cpp].  The reference parameters of the ASC
    parsers are passed in and out as an [audio_info]; a pointer is the list of
    bytes from it on. *)
From S2P Require Import Prelude ByteStream DataBuffer Media.

Definition mpeg4audio_sample_rates : list Z :=
  [96000; 88200; 64000; 48000; 44100; 32000; 24000; 22050; 16000; 12000; 11025; 8000; 7350; 0; 0; 0].
Definition flv_audio_rates : list Z := [5512; 11025; 22050; 44100].

(** An access of a constant table. *)
Definition table (t : list Z) (i : Z) : outcome Z := t.[i].

Definition GetAudioInfoByFlvHeader (flag : Z) : outcome (option (MEDIA_CODEC_TYPE * Z * Z * Z)) :=
  let codec := Z.land flag 0xf0 in
  let found :=
    if codec =? FLV_AUDIO_AAC_CODEC then Some MEDIA_CODEC_AAC
    else if codec =? FLV_AUDIO_MP3_CODEC then Some MEDIA_CODEC_MP3
    else if codec =? FLV_AUDIO_OPUS_CODEC then Some MEDIA_CODEC_OPUS else None in
  match found with
  | None => mret None
  | Some codec_type =>
      sample_rate ← table flv_audio_rates (Z.shiftr (Z.land flag 0x0c) 2);
      let sample_size := if Z.land flag 0x02 =? 0 then 0 else 1 in
      let channel := if Z.land flag 0x01 =? 0x01 then 2 else 1 in
      mret (Some (codec_type, sample_rate, sample_size, channel))
  end.

Definition GetSampleRateByIndex (index : Z) : outcome Z :=
  if (16 <=? index) || (index <? 0) then mret (-1) else table mpeg4audio_sample_rates index.

(** The search of [GetSamplerateIndex], from [index] on. *)
Fixpoint samplerate_search (rates : list Z) (samplerate index : Z) : Z :=
  match rates with
  | [] => 4
  | r :: rates => if samplerate =? r then index else samplerate_search rates samplerate (index + 1)
  end.
Definition GetSamplerateIndex (samplerate : Z) : Z := samplerate_search mpeg4audio_sample_rates samplerate 0.

Definition GetAdtsTypeByAscType (asc_type : Z) : Z :=
  if asc_type =? 1 then 1
  else if (asc_type =? 5) || (asc_type =? 29) || (asc_type =? 2) then 2
  else if asc_type =? 3 then 3 else 4.

Definition GetAscTypeByAdtsType (adts_type : Z) : Z :=
  if adts_type =? 1 then 1 else if adts_type =? 2 then 2 else if adts_type =? 3 then 3 else 2.

Record audio_info := mkAudio { audio_type : Z; sample_rate : Z; channel : Z }.
#[export] Instance audio_info_eq_dec : EqDecision audio_info.
Proof. solve_decision. Defined.
Definition set_audio_type (v : Z) (a : audio_info) : audio_info := mkAudio v (sample_rate a) (channel a).
Definition set_sample_rate (v : Z) (a : audio_info) : audio_info := mkAudio (audio_type a) v (channel a).
Definition set_channel (v : Z) (a : audio_info) : audio_info := mkAudio (audio_type a) (sample_rate a) v.

(** [data_size] is a [size_t]; [left_len] its conversion to [int] less 2. *)
Definition GetAudioInfoByAsc (data : bytes) (data_size : Z) (a : audio_info) : outcome (bool * audio_info) :=
  _ ← cassert (2 <=? data_size);
  field ← Read2Bytes data;
  let p := drop 1 data in
  let left_len := i32 data_size - 2 in
  let a := set_audio_type (u8 (Z.shiftr (Z.land field 0xf900) 11)) a in
  if audio_type a =? 31 then
    let a := set_audio_type (u8 (Z.shiftr (Z.land field 0x07e0) 5)) a in
    let sample_rate_index := u8 (Z.shiftr (Z.land field 0x1e) 1) in
    if sample_rate_index =? 0x0f then
      let last_bit := Z.land field 0x01 in
      _ ← cassert (3 <? left_len);
      v ← Read3Bytes p;
      let field := u16 v in
      let p := drop 3 p in
      let a := set_sample_rate (Z.lor (Z.shiftr last_bit 24) (Z.shiftr field 1)) a in
      let last_bit := Z.land field 0x01 in
      p0 ← p.[0];
      mret (true, set_channel (u8 (Z.lor (Z.shiftl last_bit 3) (Z.land (Z.shiftr p0 5) 0x07))) a)
    else
      let last_bit := Z.land field 0x01 in
      p0 ← p.[0];
      let a := set_channel (u8 (Z.lor (Z.shiftl last_bit 3) (Z.land (Z.shiftr p0 5) 0x07))) a in
      r ← table mpeg4audio_sample_rates sample_rate_index;
      mret (true, set_sample_rate r a)
  else
    let sample_rate_index := Z.land (Z.shiftr (Z.land field 0x0790) 7) 0x0f in
    if sample_rate_index =? 0x0f then
      let last_bits := Z.land field 0x7f in
      field ← Read2Bytes p;
      mret (true, set_sample_rate (Z.lor (Z.land (Z.shiftl last_bits 17) 0xfe0000)
                                     (Z.land (Z.shiftr field 1) 0x7f)) a)
    else
      let a := set_channel (Z.land (Z.shiftr field 3) 0x0f) a in
      r ← table mpeg4audio_sample_rates sample_rate_index;
      mret (true, set_sample_rate r a).

Definition GetAudioInfo2ByAsc (data : bytes) (a : audio_info) : outcome (bool * audio_info) :=
  p0 ← data.[0];
  let a := set_audio_type (Z.land (Z.shiftr p0 3) 0x1f) a in
  if audio_type a =? 31 then mret (false, a)
  else
    p1 ← data.[1];
    let sample_rate_index := Z.lor (Z.shiftl (Z.land p0 0x07) 1) (Z.shiftr (Z.land p1 0x80) 7) in
    if 64 <? sample_rate_index then mret (false, a)
    else
      r ← table mpeg4audio_sample_rates sample_rate_index;
      let a := set_channel (Z.land (Z.shiftr p1 3) 0x0f) (set_sample_rate r a) in
      if (audio_type a =? 5) || (audio_type a =? 29) then
        p2 ← data.[2];
        r ← table mpeg4audio_sample_rates (Z.lor (Z.land (Z.shiftl p1 1) 0x0e) (Z.shiftr p2 7));
        mret (true, set_sample_rate r a)
      else mret (true, a).

(** The seven bytes [MakeAdts] writes. *)
Definition MakeAdts (object_type sample_rate channel full_frame_size : Z) (mpegts2 : bool) : bytes :=
  let sample_rate_index := GetSamplerateIndex sample_rate in
  let full_frame_size := Z.land (full_frame_size + 7) 0x1fff in
  let d2 := u8 (Z.lor 0 (Z.shiftl (object_type - 1) 6)) in
  let d2 := u8 (Z.lor d2 (Z.shiftl sample_rate_index 2)) in
  let d2 := u8 (Z.lor d2 (Z.shiftr channel 2)) in
  let d3 := u8 (Z.lor 0 (Z.shiftl channel 6)) in
  let d3 := u8 (Z.lor d3 (Z.shiftr (Z.shiftl full_frame_size 3) 14)) in
  let d4 := u8 (Z.lor 0 (Z.shiftr (Z.shiftl full_frame_size 5) 8)) in
  let d5 := u8 (Z.lor 0 (Z.shiftl (Z.shiftr (Z.shiftl full_frame_size 13) 13) 5)) in
  let d5 := u8 (Z.lor d5 (Z.shiftr (Z.shiftl 0x7c 1) 3)) in
  [0xff; if mpegts2 then 0xf9 else 0xf1; d2; d3; d4; d5; 0xfc].

Definition MakeOpusHeader (sample_rate channel : Z) : bytes :=
  str "OpusHead" ++ [1; u8 channel] ++ Write2Bytes_le 0 ++ Write4Bytes_le (u32 sample_rate) ++
  Write2Bytes_le 0 ++ [0].

(** ** Reading an ADTS header by its layout (ISO 13818-7) *)

Definition adts_profile (h : bytes) : Z := Z.shiftr (h !!! 2%nat) 6.
Definition adts_rate_index (h : bytes) : Z := Z.land (Z.shiftr (h !!! 2%nat) 2) 0x0f.
Definition adts_channels (h : bytes) : Z :=
  Z.lor (Z.shiftl (Z.land (h !!! 2%nat) 1) 2) (Z.shiftr (h !!! 3%nat) 6).
Definition adts_frame_length (h : bytes) : Z :=
  Z.lor (Z.lor (Z.shiftl (Z.land (h !!! 3%nat) 3) 11) (Z.shiftl (h !!! 4%nat) 3)) (Z.shiftr (h !!! 5%nat) 5).

(** The bytes of the header, by what each depends on. *)
Definition adts_byte2 (o i c : Z) : Z :=
  u8 (Z.lor (u8 (Z.lor (u8 (Z.lor 0 (Z.shiftl (o - 1) 6))) (Z.shiftl i 2))) (Z.shiftr c 2)).
Definition adts_byte3 (c n : Z) : Z :=
  u8 (Z.lor (u8 (Z.lor 0 (Z.shiftl c 6))) (Z.shiftr (Z.shiftl n 3) 14)).
Definition adts_byte4 (n : Z) : Z := u8 (Z.lor 0 (Z.shiftr (Z.shiftl n 5) 8)).
Definition adts_byte5 (n : Z) : Z :=
  u8 (Z.lor (u8 (Z.lor 0 (Z.shiftl (Z.shiftr (Z.shiftl n 13) 13) 5))) (Z.shiftr (Z.shiftl 0x7c 1) 3)).

Lemma MakeAdts_bytes o r c size b :
  0 <= size -> size + 7 < 8192 ->
  MakeAdts o r c size b =
  [0xff; if b then 0xf9 else 0xf1; adts_byte2 o (GetSamplerateIndex r) c; adts_byte3 c (size + 7);
   adts_byte4 (size + 7); adts_byte5 (size + 7); 0xfc].
Proof.
  intros H0 H1. unfold MakeAdts. cbv zeta.
  replace (Z.land (size + 7) 0x1fff) with (size + 7); [reflexivity|].
  change 0x1fff with (Z.ones 13). rewrite Z.land_ones by lia. symmetry. apply Z.mod_small. lia.
Qed.

Lemma adts_byte2_sum o i c :
  1 <= o <= 4 -> 0 <= i < 16 -> 0 <= c < 8 -> adts_byte2 o i c = (o - 1) * 64 + i * 4 + c / 4.
Proof.
  intros Ho Hi Hc. unfold adts_byte2, u8.
  rewrite Z.lor_0_l, !Z.shiftl_mul_pow2, Z.shiftr_div_pow2 by lia.
  rewrite (Z.mod_small ((o - 1) * 2 ^ 6)) by lia.
  rewrite lor_add, (Z.mod_small ((o - 1) * 2 ^ 6 + _)) by lia.
  replace ((o - 1) * 2 ^ 6 + i * 2 ^ 2) with (((o - 1) * 2 ^ 4 + i) * 2 ^ 2) by lia.
  rewrite lor_add by div_lia. rewrite Z.mod_small by div_lia. div_lia.
Qed.

Lemma adts_byte3_sum c n :
  0 <= c < 8 -> 0 <= n < 8192 -> adts_byte3 c n = (c mod 4) * 64 + n / 2048.
Proof.
  intros Hc Hn. unfold adts_byte3, u8.
  rewrite Z.lor_0_l, !Z.shiftl_mul_pow2, Z.shiftr_div_pow2 by lia.
  replace ((c * 2 ^ 6) mod 2 ^ 8) with ((c mod 4) * 2 ^ 6) by div_lia.
  rewrite lor_add by div_lia. rewrite Z.mod_small by div_lia. div_lia.
Qed.

Lemma adts_byte4_div n : adts_byte4 n = (n / 8) mod 256.
Proof.
  unfold adts_byte4, u8. rewrite Z.lor_0_l, Z.shiftl_mul_pow2, Z.shiftr_div_pow2 by lia. div_lia.
Qed.

Lemma adts_byte5_sum n : 0 <= n < 8192 -> adts_byte5 n = (n mod 8) * 32 + 31.
Proof.
  intros Hn. unfold adts_byte5, u8. change (Z.shiftr (Z.shiftl 124 1) 3) with 31.
  rewrite Z.lor_0_l, !Z.shiftl_mul_pow2, Z.shiftr_div_pow2 by lia.
  rewrite Z.div_mul by lia. replace ((n * 2 ^ 5) mod 2 ^ 8) with ((n mod 8) * 2 ^ 5) by div_lia.
  rewrite lor_add by lia. rewrite Z.mod_small by div_lia. lia.
Qed.

Lemma adts_byte2_fields o i c :
  1 <= o <= 4 -> 0 <= i < 16 -> 0 <= c < 8 ->
  Z.shiftr (adts_byte2 o i c) 6 = o - 1 /\ Z.land (Z.shiftr (adts_byte2 o i c) 2) 0x0f = i /\
  Z.land (adts_byte2 o i c) 1 = c / 4.
Proof.
  intros Ho Hi Hc. rewrite adts_byte2_sum by done.
  rewrite (shift_mask _ 0x0f 2 4), (low_mask _ 1 1), Z.shiftr_div_pow2 by done.
  repeat split; div_lia.
Qed.

(** The channel bits and the 13-bit length. *)
Lemma adts_length_fields c n :
  0 <= c < 8 -> 0 <= n < 8192 ->
  Z.lor (Z.shiftl (c / 4) 2) (Z.shiftr (adts_byte3 c n) 6) = c /\
  Z.lor (Z.lor (Z.shiftl (Z.land (adts_byte3 c n) 3) 11) (Z.shiftl (adts_byte4 n) 3))
    (Z.shiftr (adts_byte5 n) 5) = n.
Proof.
  intros Hc Hn. rewrite adts_byte3_sum, adts_byte4_div, adts_byte5_sum by done.
  rewrite (low_mask _ 3 2), !Z.shiftl_mul_pow2, !Z.shiftr_div_pow2 by done.
  split; [rewrite lor_add by div_lia; div_lia|].
  rewrite <- Z.lor_assoc, (lor_add ((n / 8) mod 256)) by div_lia.
  rewrite lor_add by div_lia. div_lia.
Qed.

Lemma GetSamplerateIndex_table i r :
  (i < 13)%nat -> mpeg4audio_sample_rates !! i = Some r -> GetSamplerateIndex r = Z.of_nat i.
Proof. intros Hi. do 13 (destruct i as [|i]; [by intros [= <-]|]). lia. Qed.

(** An ADTS header says what it was made from: for the four profiles of ADTS,
    the 13 sampling rates of the table, up to 7 channels and any frame that fits the
    13-bit length, the profile, rate index, channel count and frame length (header
    included) read back from their bit positions are the arguments of [MakeAdts]. *)
Theorem adts_roundtrip o i r c size mpegts2 :
  1 <= o <= 4 -> (i < 13)%nat -> mpeg4audio_sample_rates !! i = Some r -> 0 <= c < 8 ->
  0 <= size -> size + 7 < 8192 ->
  let h := MakeAdts o r c size mpegts2 in
  adts_profile h = o - 1 /\ adts_rate_index h = Z.of_nat i /\ adts_channels h = c /\
  adts_frame_length h = size + 7.
Proof.
  intros Ho Hi Hr Hc H0 Hs h. unfold h. rewrite MakeAdts_bytes by done.
  rewrite (GetSamplerateIndex_table i r Hi Hr).
  destruct (adts_byte2_fields o (Z.of_nat i) c Ho ltac:(lia) Hc) as (Hp & Hx & Hc2).
  destruct (adts_length_fields c (size + 7) Hc ltac:(lia)) as (Hc3 & Hl).
  unfold adts_profile, adts_rate_index, adts_channels, adts_frame_length.
  change ([?a; ?b; ?d; ?e; ?f; ?g; ?k] !!! 2%nat) with d. change ([?a; ?b; ?d; ?e; ?f; ?g; ?k] !!! 3%nat) with e.
  change ([?a; ?b; ?d; ?e; ?f; ?g; ?k] !!! 4%nat) with f. change ([?a; ?b; ?d; ?e; ?f; ?g; ?k] !!! 5%nat) with g.
  rewrite Hc2. tauto.
Qed.

Lemma adts_roundtrip_witness :
  let h := MakeAdts 2 44100 2 371 true in
  adts_profile h = 1 /\ adts_rate_index h = 4 /\ adts_channels h = 2 /\ adts_frame_length h = 371 + 7.
Proof. apply (adts_roundtrip 2 4%nat 44100 2 371 true); lia || reflexivity. Defined.

(** ** The two ASC parsers *)

(** The two-byte configurations without an escape value. *)
Definition asc_plain (x y : Z) : bool :=
  let t := x / 8 in
  let i := (x mod 8) * 2 + y / 128 in
  negb (t =? 31) && negb (t =? 5) && negb (t =? 29) && negb (i =? 15).

(** What both parsers answer on them, field by field. *)
Definition asc_fields (x y : Z) : outcome (bool * audio_info) :=
  r ← table mpeg4audio_sample_rates ((x mod 8) * 2 + y / 128);
  mret (true, mkAudio (x / 8) r ((y / 8) mod 16)).

Lemma Read2Bytes_pair x y : Read2Bytes [x; y] = Done (x * 256 + y).
Proof. apply (Read2Bytes_spec [x; y] []). done. Qed.

Lemma asc_plain_spec x y : asc_plain x y = true ->
  x / 8 <> 31 /\ x / 8 <> 5 /\ x / 8 <> 29 /\ (x mod 8) * 2 + y / 128 <> 15.
Proof. unfold asc_plain. rewrite !andb_true_iff, !negb_true_iff, !Z.eqb_neq. tauto. Qed.

Lemma GetAudioInfoByAsc_plain x y a :
  is_byte x -> is_byte y -> asc_plain x y = true -> GetAudioInfoByAsc [x; y] 2 a = asc_fields x y.
Proof.
  unfold is_byte. intros Hx Hy (H31 & _ & _ & H15)%asc_plain_spec.
  unfold GetAudioInfoByAsc. rewrite Read2Bytes_pair. simpl_m.
  change (cassert (2 <=? 2)) with (Done tt). cbv beta iota zeta.
  rewrite (mask_shift _ 0xf900 11 5) by done.
  replace (u8 (((x * 256 + y) / 2 ^ 11) mod 2 ^ 5)) with (x / 8) by (unfold u8; div_lia).
  cbn [audio_type set_audio_type]. rewrite (proj2 (Z.eqb_neq (x / 8) 31)) by done.
  rewrite (mask_shift _ 0x0790 7 4), (low_mask _ 0x0f 4), (shift_mask _ 0x0f 3 4) by done.
  replace ((((x * 256 + y) / 2 ^ 7) mod 2 ^ 4) mod 2 ^ 4) with ((x mod 8) * 2 + y / 128) by div_lia.
  replace (((x * 256 + y) / 2 ^ 3) mod 2 ^ 4) with ((y / 8) mod 16) by div_lia.
  by rewrite (proj2 (Z.eqb_neq _ 15)).
Qed.

Lemma GetAudioInfo2ByAsc_plain x y a :
  is_byte x -> is_byte y -> asc_plain x y = true -> GetAudioInfo2ByAsc [x; y] a = asc_fields x y.
Proof.
  unfold is_byte. intros Hx Hy (H31 & H5 & H29 & H15)%asc_plain_spec.
  unfold GetAudioInfo2ByAsc. change ([x; y].[0]) with (Done x). change ([x; y].[1]) with (Done y).
  simpl_m. cbv zeta. cbn [audio_type set_audio_type set_channel set_sample_rate].
  rewrite (shift_mask _ 0x1f 3 5), (low_mask _ 7 3), (mask_shift _ 0x80 7 1), (shift_mask _ 0x0f 3 4),
    Z.shiftl_mul_pow2 by done.
  rewrite lor_add by div_lia.
  replace ((x / 2 ^ 3) mod 2 ^ 5) with (x / 8) by div_lia.
  replace (x mod 2 ^ 3 * 2 ^ 1 + (y / 2 ^ 7) mod 2 ^ 1) with ((x mod 8) * 2 + y / 128) by div_lia.
  rewrite (proj2 (Z.ltb_ge 64 _)) by div_lia.
  by rewrite !(proj2 (Z.eqb_neq (x / 8) _)).
Qed.

(** The two parsers of an AAC AudioSpecificConfig are equivalent on two-byte
    configurations: outside the escape values (object type 31, explicit SBR/PS
    types 5 and 29, sampling-frequency escape 15) they report the same object
    type, rate and channel count, whatever the output variables held before. *)
Theorem asc_parsers_equivalent x y a :
  is_byte x -> is_byte y -> asc_plain x y = true ->
  GetAudioInfoByAsc [x; y] 2 a = GetAudioInfo2ByAsc [x; y] a.
Proof. intros. by rewrite GetAudioInfoByAsc_plain, GetAudioInfo2ByAsc_plain. Qed.

(** AAC-LC, 44.1 kHz, stereo. *)
Lemma asc_parsers_equivalent_witness :
  GetAudioInfo2ByAsc [0x12; 0x10] (mkAudio 0 0 0) = Done (true, mkAudio 2 44100 2) /\
  GetAudioInfoByAsc [0x12; 0x10] 2 (mkAudio 0 0 0) = GetAudioInfo2ByAsc [0x12; 0x10] (mkAudio 0 0 0).
Proof.
  split; [reflexivity|].
  apply asc_parsers_equivalent; [split; lia|split; lia|reflexivity].
Defined.
