(* ===== verification/H264.v ===== *)
(** * [H264]: NAL units and decoder configuration records

    Models [src/format/h264_h265_header.cpp] and [.hpp], and
    [get_video_extradata] of [src/utils/av/av.hpp]: the two framings of NAL
    units (Annex B start codes, AVCC length prefixes), the H.264 and H.265
    decoder configuration records and the L-HEVC record.  A pointer is the list
    of the bytes from it on, an address an offset from the first byte; the
    output vector of buffers is what the call appends to it. *)
From S2P Require Import Prelude ByteStream DataBuffer.

(** ** NAL unit types *)

Definition kIdr : Z := 5.
Definition kSei : Z := 6.
Definition kSps : Z := 7.
Definition kPps : Z := 8.
Definition kAud : Z := 9.
Definition kReserved22 : Z := 22.
Definition kReserved31 : Z := 31.
Definition NAL_UNIT_VPS : Z := 32.
Definition NAL_UNIT_SPS : Z := 33.
Definition NAL_UNIT_PPS : Z := 34.

Definition GET_H264_NALU_TYPE (code : Z) : Z := Z.land code 0x1f.
Definition GET_HEVC_NALU_TYPE (code : Z) : Z := Z.shiftr (Z.land code 0x7e) 1.

Definition H264_IS_KEYFRAME (nalu_type : Z) : bool := Z.land nalu_type 0x1f =? kIdr.
Definition H264_IS_AUD (nalu_type : Z) : bool := Z.land nalu_type 0x1f =? kAud.
Definition H264_IS_SEI (nalu_type : Z) : bool := Z.land nalu_type 0x1f =? kSei.
Definition H264_IS_SEQ (nalu_type : Z) : bool :=
  (Z.land nalu_type 0x1f =? kSps) || (Z.land nalu_type 0x1f =? kPps).
Definition H264_IS_SPS (nalu_type : Z) : bool := Z.land nalu_type 0x1f =? kSps.
Definition H264_IS_PPS (nalu_type : Z) : bool := Z.land nalu_type 0x1f =? kPps.
Definition H264_IS_RESERVE (nalu_type : Z) : bool :=
  let nalu_type := Z.land nalu_type 0x1f in (kReserved22 <=? nalu_type) && (nalu_type <=? kReserved31).

Definition H264_START_CODE : bytes := [0; 0; 0; 1].
Definition H265_START_CODE : bytes := [0; 0; 0; 1].

(** [p[0] == x0 && p[1] == x1 && ...]: a byte is read only if those before it are equal. *)
Fixpoint starts_with (pat p : bytes) : outcome bool :=
  match pat with
  | [] => mret true
  | x :: pat => b ← p.[0]; if b =? x then starts_with pat (drop 1 p) else mret false
  end.

Definition GetNaluTypePos (data : bytes) : outcome Z :=
  three ← starts_with [0; 0; 1] data;
  if three : bool then mret 3
  else
    four ← starts_with [0; 0; 0; 1] data;
    mret (if four : bool then 4 else -1).

Definition Is_AnnexB_Header (data : bytes) (len : Z) : outcome bool :=
  if len <? 4 then mret false
  else
    four ← starts_with [0; 0; 0; 1] data;
    if four : bool then mret true else starts_with [0; 0; 1] data.

Record Hevc_Header := mkHevcHeader { forbid : Z; nalu_type : Z; layer_id : Z; tid : Z }.

Definition GetHevcHeader (data : bytes) : outcome Hevc_Header :=
  p0 ← data.[0];
  p1 ← data.[1];
  mret (mkHevcHeader (Z.land (Z.shiftr p0 7) 0x01) (Z.land (Z.shiftr p0 1) 0x3f)
          (Z.lor (u8 (Z.shiftl (Z.land p0 0x01) 6)) (Z.shiftr (Z.land p1 0xf8) 3)) (Z.land p1 0x07)).

(** ** Framings *)

Section framing.
Context `{Allocator}.

(** [make_shared<DataBuffer>(size)] followed by one [AppendData] per part. *)
Fixpoint append_all (b : DataBuffer) (parts : list bytes) : outcome DataBuffer :=
  match parts with
  | [] => mret b
  | d :: parts => '(_, b) ← AppendData b d; append_all b parts
  end.
Definition make_buffer (size : Z) (parts : list bytes) : outcome DataBuffer :=
  b ← DataBuffer_new size; append_all b parts.

(** The first loop of [AnnexB2Nalus] ([after = false]: the offset of each start
    code is pushed) and of [AnnexB2Avcc] ([after = true]: the offset behind it). *)
Fixpoint start_codes (fuel : nat) (after : bool) (p : bytes) (left_len pos : Z) : outcome (list Z) :=
  match fuel with
  | O => Fault OutOfFuel
  | S fuel =>
      if left_len <=? 0 then mret []
      else
        four ← (if 4 <=? left_len then starts_with [0; 0; 0; 1] p else mret false);
        if four : bool then
          rest ← start_codes fuel after (drop 4 p) (left_len - 4) (pos + 4);
          mret ((if after then pos + 4 else pos) :: rest)
        else
          three ← (if 3 <=? left_len then starts_with [0; 0; 1] p else mret false);
          if three : bool then
            rest ← start_codes fuel after (drop 3 p) (left_len - 3) (pos + 3);
            mret ((if after then pos + 3 else pos) :: rest)
          else start_codes fuel after (drop 1 p) (left_len - 1) (pos + 1)
  end.

(** The second loop: a buffer per position, up to the next position or the end. *)
Fixpoint cut_nalus (avcc : bool) (data : bytes) (end_pos : Z) (pos_vec : list Z) : outcome (list DataBuffer) :=
  match pos_vec with
  | [] => mret []
  | current_pos :: pos_vec =>
      let next_pos := match pos_vec with [] => end_pos | q :: _ => q end in
      let nalu_len := u64 (next_pos - current_pos) in
      d ← read_range data current_pos nalu_len;
      b ← make_buffer (nalu_len + 1024) (if avcc then [Write4Bytes nalu_len; d] else [d]);
      nalus ← cut_nalus avcc data end_pos pos_vec;
      mret (b :: nalus)
  end.

Definition AnnexB2Nalus (data : bytes) (len : Z) : outcome (bool * list DataBuffer) :=
  if len <? 4 then mret (false, [])
  else
    pos_vec ← start_codes (S (Z.to_nat len)) false data len 0;
    nalus ← cut_nalus false data len pos_vec;
    mret (true, nalus).

Definition AnnexB2Avcc (data : bytes) (len : Z) : outcome (bool * list DataBuffer) :=
  if len <? 4 then mret (false, [])
  else
    pos_vec ← start_codes (S (Z.to_nat len)) true data len 0;
    nalus ← cut_nalus true data len pos_vec;
    mret (true, nalus).

Definition kMaxLen : Z := 10 * 1000 * 1000.

(** The loop of [Avcc2Nalus]; [nalus] holds the buffers pushed so far. *)
Fixpoint avcc_loop (fuel : nat) (p : bytes) (data_len : Z) (nalus : list DataBuffer)
    : outcome (bool * list DataBuffer) :=
  match fuel with
  | O => Fault OutOfFuel
  | S fuel =>
      if data_len <=? 0 then mret (true, nalus)
      else
        nalu_len ← Read4Bytes p;
        if kMaxLen <? nalu_len then mret (false, nalus)
        else
          let p := drop 4 p in
          let data_len := data_len - 4 in
          d ← read_range p 0 nalu_len;
          b ← make_buffer (4 + nalu_len + 1024) [[0; 0; 0; 1]; d];
          avcc_loop fuel (drop (Z.to_nat nalu_len) p) (data_len - nalu_len) (nalus ++ [b])
  end.
Definition Avcc2Nalus (data : bytes) (len : Z) : outcome (bool * list DataBuffer) :=
  if len <? 4 then mret (false, []) else avcc_loop (S (Z.to_nat len)) data (i64 len) [].
End framing.

(** ** The H.264 decoder configuration record *)

(** [get_video_extradata]: the region [extra_data] points to and [extra_len]
    after the call. *)
Definition get_video_extradata (pps : bytes) (pps_len : Z) (sps : bytes) (sps_len : Z)
    (extra_data : bytes) : outcome (bytes * Z) :=
  s1 ← sps.[1]; s2 ← sps.[2]; s3 ← sps.[3];
  s ← read_range sps 0 sps_len;
  p ← read_range pps 0 pps_len;
  let body :=
    [0x01; s1; s2; s3; 0xff; 0xe1; Z.land (Z.shiftr sps_len 8) 0xff; Z.land sps_len 0xff] ++ s ++
    [0x01; Z.land (Z.shiftr pps_len 8) 0xff; Z.land pps_len 0xff] ++ p in
  extra_data ← write_at extra_data 0 body;
  mret (extra_data, zlen body).

(** [GetSpsPpsFromExtraData]: the return value, the regions [pps] and [sps] point
    to and their lengths after the call. *)
Definition GetSpsPpsFromExtraData (pps : bytes) (pps_len : Z) (sps : bytes) (sps_len : Z)
    (extra_data : bytes) (extra_len : Z) : outcome (Z * bytes * Z * bytes * Z) :=
  if extra_len =? 0 then mret (-1, pps, pps_len, sps, sps_len)
  else
    let body := extra_data in
    ok ← (if 4 <? extra_len then starts_with [0xff; 0xe1] (drop 4 body) else mret true);
    if negb ok then mret (-1, pps, pps_len, sps, sps_len)
    else
      let iIndex := 6 in
      h ← body.[iIndex]; l ← body.[iIndex + 1];
      let sps_len := Z.shiftl h 8 + l in
      d ← read_range body (iIndex + 2) sps_len;
      sps ← write_at sps 0 d;
      let iIndex := iIndex + 2 + sps_len + 1 in
      h ← body.[iIndex]; l ← body.[iIndex + 1];
      let pps_len := Z.shiftl h 8 + l in
      d ← read_range body (iIndex + 2) pps_len;
      pps ← write_at pps 0 d;
      mret (0, pps, pps_len, sps, sps_len).

(** ** The H.265 decoder configuration record *)

Record HEVC_NALUnit := mkUnit {
  array_completeness : Z;
  nal_unit_type : Z;
  num_nalus : Z;
  nal_data_vec : list bytes
}.

Record HEVC_DEC_CONF_RECORD := mkHevc {
  configuration_version : Z;
  general_profile_space : Z;
  general_tier_flag : Z;
  general_profile_idc : Z;
  general_profile_compatibility_flags : Z;
  general_constraint_indicator_flags : Z;
  general_level_idc : Z;
  min_spatial_segmentation_idc : Z;
  parallelism_type : Z;
  chroma_format : Z;
  bitdepth_lumaminus8 : Z;
  bitdepth_chromaminus8 : Z;
  avg_framerate : Z;
  constant_frameRate : Z;
  num_temporallayers : Z;
  temporalid_nested : Z;
  lengthsize_minusone : Z;
  nalu_vec : list HEVC_NALUnit
}.

(** The inner loop over the NAL units of one array; [rest_len] is [end - p] and
    [None] the error return. *)
Fixpoint hevc_nalus (count : nat) (p : bytes) (rest_len : Z) (acc : list bytes)
    : outcome (option (bytes * Z * list bytes)) :=
  match count with
  | O => mret (Some (p, rest_len, acc))
  | S count =>
      nalUnitLength ← Read2Bytes p;
      let p := drop 2 p in
      let rest_len := rest_len - 2 in
      if rest_len <? nalUnitLength then mret None
      else
        d ← read_range p 0 nalUnitLength;
        hevc_nalus count (drop (Z.to_nat nalUnitLength) p) (rest_len - nalUnitLength) (acc ++ [d])
  end.

(** The outer loop over the arrays: the units read so far are kept on error. *)
Fixpoint hevc_arrays (count : nat) (p : bytes) (rest_len : Z) (acc : list HEVC_NALUnit)
    : outcome (Z * list HEVC_NALUnit) :=
  match count with
  | O => mret (0, acc)
  | S count =>
      if rest_len <? 5 then mret (-1, acc)
      else
        p0 ← p.[0];
        num ← Read2Bytes (drop 1 p);
        r ← hevc_nalus (Z.to_nat num) (drop 3 p) (rest_len - 3) [];
        match r with
        | None => mret (-1, acc)
        | Some (p, rest_len, nals) =>
            hevc_arrays count p rest_len
              (acc ++ [mkUnit (Z.land (Z.shiftr p0 7) 0x01) (Z.land p0 0x3f) num nals])
        end
  end.

(** The fixed part of the record, bytes 1 to 22, and the number of arrays. *)
Definition GetHevcDecInfoFromExtradata (info : HEVC_DEC_CONF_RECORD) (extra_data : bytes) (extra_len : Z)
    : outcome (Z * HEVC_DEC_CONF_RECORD) :=
  version ← extra_data.[0];
  let p := drop 1 extra_data in
  if negb (version =? 1) then
    mret (-1, mkHevc version (general_profile_space info) (general_tier_flag info) (general_profile_idc info)
      (general_profile_compatibility_flags info) (general_constraint_indicator_flags info)
      (general_level_idc info) (min_spatial_segmentation_idc info) (parallelism_type info)
      (chroma_format info) (bitdepth_lumaminus8 info) (bitdepth_chromaminus8 info) (avg_framerate info)
      (constant_frameRate info) (num_temporallayers info) (temporalid_nested info)
      (lengthsize_minusone info) (nalu_vec info))
  else
    b ← p.[0];
    let p := drop 1 p in
    compat ← Read4Bytes p;
    let p := drop 4 p in
    hi ← Read4Bytes p;
    let p := drop 4 p in
    lo ← Read2Bytes p;
    let p := drop 2 p in
    level ← p.[0];
    let p := drop 1 p in
    seg ← Read2Bytes p;
    let p := drop 2 p in
    par ← p.[0];
    let p := drop 1 p in
    chroma ← p.[0];
    let p := drop 1 p in
    luma8 ← p.[0];
    let p := drop 1 p in
    chroma8 ← p.[0];
    let p := drop 1 p in
    rate ← Read2Bytes p;
    let p := drop 2 p in
    f ← p.[0];
    let p := drop 1 p in
    arrays_num ← p.[0];
    let p := drop 1 p in
    '(ret, vec) ← hevc_arrays (Z.to_nat arrays_num) p (extra_len - 23) (nalu_vec info);
    mret (ret, mkHevc version (Z.land (Z.shiftr b 6) 0x03) (Z.land (Z.shiftr b 5) 0x01) (Z.land b 0x1f)
      compat (Z.lor (Z.shiftl hi 16) lo) level (Z.land seg 0x0fff) (Z.land par 0x03) (Z.land chroma 0x03)
      (Z.land luma8 0x07) (Z.land chroma8 0x07) rate (Z.land (Z.shiftr f 6) 0x03)
      (Z.land (Z.shiftr f 3) 0x07) (Z.land (Z.shiftr f 2) 0x01) (Z.land f 0x03) vec).

(** The regions and lengths of [GetVpsSpsPpsFromHevcDecInfo]. *)
Record param_sets := mkSets { vps : bytes; vps_len : Z; sps : bytes; sps_len : Z; pps : bytes; pps_len : Z }.

(** One [if] of its loop: the first NAL unit of the array, which must exist. *)
Definition take_set (u : HEVC_NALUnit) (wanted : Z) (region : bytes) (len : Z) : outcome (bytes * Z) :=
  if nal_unit_type u =? wanted then
    match nal_data_vec u with
    | [] => Fault OutOfBounds
    | d :: _ => region ← write_at region 0 d; mret (region, zlen d)
    end
  else mret (region, len).

Fixpoint take_sets (vec : list HEVC_NALUnit) (s : param_sets) : outcome param_sets :=
  match vec with
  | [] => mret s
  | u :: vec =>
      '(v, vl) ← take_set u NAL_UNIT_VPS (vps s) (vps_len s);
      '(q, ql) ← take_set u NAL_UNIT_SPS (sps s) (sps_len s);
      '(r, rl) ← take_set u NAL_UNIT_PPS (pps s) (pps_len s);
      take_sets vec (mkSets v vl q ql r rl)
  end.

Definition GetVpsSpsPpsFromHevcDecInfo (info : HEVC_DEC_CONF_RECORD) (v q r : bytes) : outcome (Z * param_sets) :=
  s ← take_sets (nalu_vec info) (mkSets v 0 q 0 r 0);
  mret (if (vps_len s =? 0) || (sps_len s =? 0) || (pps_len s =? 0) then -1 else 0, s).

(** ** The L-HEVC record *)

Record LHEVC_DEC_CONF_RECORD := mkLHevc {
  l_configuration_version : Z;
  l_reserved1 : Z;
  l_min_spatial_segmentation_idc : Z;
  l_reserved2 : Z;
  l_parallelismType : Z;
  l_reserved3 : Z;
  l_numTemporalLayers : Z;
  l_temporalIdNested : Z;
  l_lengthSizeMinusOne : Z;
  l_numOfArrays : Z;
  l_nalu_vec : list HEVC_NALUnit
}.

Definition GetLHevcDecInfoFromExtradata (info : LHEVC_DEC_CONF_RECORD) (extra_data : bytes) (extra_len : Z)
    : outcome (Z * LHEVC_DEC_CONF_RECORD) :=
  version ← extra_data.[0];
  b1 ← extra_data.[1];
  b2 ← extra_data.[2];
  b3 ← extra_data.[3];
  b4 ← extra_data.[4];
  arrays ← extra_data.[5];
  '(ret, vec) ← hevc_arrays (Z.to_nat arrays) (drop 6 extra_data) (extra_len - 6) (l_nalu_vec info);
  mret (ret, mkLHevc version 0 (Z.lor (Z.shiftl (Z.land b1 0x0f) 8) (Z.land b2 0xff)) 0 (Z.land b3 0x03) 0
    (if 3 <? Z.land b4 0x38 then 1 else 0) (if 2 <? Z.land b4 0x04 then 1 else 0) (Z.land b4 0x03) arrays vec).

(** ** Building a buffer *)

Section buffers.
Context `{Allocator}.

Lemma append_all_spec b parts :
  wf b -> start_ b = PRE_RESERVE_HEADER_SIZE -> zlen (contents b) + zlen (concat parts) <= max_queue ->
  exists b', append_all b parts = Done b' /\ wf b' /\ contents b' = contents b ++ concat parts.
Proof.
  revert b. induction parts as [|d parts IH]; intros b Hwf Hst Hmax.
  - exists b. by rewrite app_nil_r.
  - cbn [concat] in Hmax. rewrite zlen_app in Hmax. pose proof (zlen_nonneg (concat parts)) as Hp.
    assert (data_len_ b + zlen d <= max_queue) as Hroom by (rewrite <- (contents_length b Hwf); lia).
    cbn [append_all concat].
    destruct (AppendData_cases b d Hwf Hroom) as [(b' & -> & Hwf' & Hc & Hst')|[[Hno _]| ->]].
    + simpl_m. destruct (IH b') as (b2 & -> & Hwf2 & Hc2); [done|by apply Hst'| |].
      { rewrite Hc, zlen_app. lia. }
      exists b2. split_and!; [done|done|]. by rewrite Hc2, Hc, app_assoc.
    + destruct Hno. by apply no_overlap_front.
    + rewrite AppendData_nil. simpl_m. by apply IH.
Qed.

Lemma make_buffer_spec size parts :
  200 <= size < 2 ^ 31 - 200 -> zlen (concat parts) <= max_queue ->
  exists b, make_buffer size parts = Done b /\ wf b /\ contents b = concat parts.
Proof.
  intros Hs Hmax. unfold make_buffer.
  destruct (DataBuffer_new_spec size Hs) as (b & -> & Hwf & Hc & Hst). simpl_m.
  destruct (append_all_spec b parts Hwf Hst) as (b' & -> & Hwf' & Hc'); [by rewrite Hc|].
  exists b'. by rewrite Hc', Hc.
Qed.
End buffers.

(** ** Annex B *)

(** A NAL unit never holds 0 0 1: the emulation prevention of the encoder. *)
Fixpoint has_start_code (l : bytes) : bool :=
  match l with
  | [] => false
  | _ :: t => bool_decide (take 3 l = [0; 0; 1]) || has_start_code t
  end.
Definition clean (n : bytes) : Prop := has_start_code n = false.

(** A start code is four bytes long or three; the NAL units of a stream, each
    behind a start code ([true]: the long one). *)
Definition start_code (long : bool) : bytes := if long then [0; 0; 0; 1] else [0; 0; 1].
Definition framed (u : bool * bytes) : bytes := start_code u.1 ++ u.2.
Definition stream (us : list (bool * bytes)) : bytes := concat (map framed us).

(** No unit holds a start code, and none ends in a zero byte before a short start
    code, which would then be read as a long one. *)
Fixpoint stream_ok (us : list (bool * bytes)) : Prop :=
  match us with
  | [] => True
  | (_, n) :: us =>
      clean n /\ match us with (false, _) :: _ => last n <> Some 0 | _ => True end /\ stream_ok us
  end.

(** The framings of a list of NAL units the program itself writes. *)
Definition annexb (nals : list bytes) : bytes := concat (map (app H264_START_CODE) nals).
Definition avcc (nals : list bytes) : bytes := concat (map (fun n => Write4Bytes (zlen n) ++ n) nals).

Lemma starts_with_extend pat p x b : starts_with pat p = Done b -> starts_with pat (p ++ x) = Done b.
Proof.
  revert p. induction pat as [|c pat IH]; intros p; [done|]. cbn [starts_with]. intros Hs.
  destruct (rd p 0) as [v|] eqn:E; [|done]. unfold mret, outcome_ret in Hs; cbn [mbind outcome_bind] in Hs. rewrite (rd_extend _ x _ _ E). simpl_m.
  destruct (v =? c); [|done]. destruct p as [|y p]; [done|]. by apply IH.
Qed.

Lemma starts_with_spec pat p :
  (length pat <= length p)%nat -> starts_with pat p = Done (bool_decide (take (length pat) p = pat)).
Proof.
  revert p. induction pat as [|x pat IH]; intros p Hl; [by destruct p|].
  destruct p as [|b p]; [cbn in Hl; lia|]. cbn [starts_with length take]. change ((b :: p).[0]) with (Done b).
  simpl_m. destruct (Z.eqb_spec b x) as [->|Hne].
  - cbn [drop]. rewrite drop_0, IH by (cbn in Hl; lia). f_equal.
    apply bool_decide_ext. split; [by intros ->|by intros [= ->]].
  - rewrite bool_decide_eq_false_2; [done|]. by intros [=].
Qed.

Lemma annexb_stream nals : annexb nals = stream (map (pair true) nals).
Proof. unfold annexb, stream. by rewrite map_map. Qed.

Lemma annexb_ok nals : Forall clean nals -> stream_ok (map (pair true) nals).
Proof.
  induction 1 as [|n nals Hn Hc IH]; [done|]. cbn [map stream_ok]. split_and!; [done| |done]. by destruct nals.
Qed.

Lemma stream_cons l n us : stream ((l, n) :: us) = start_code l ++ n ++ stream us.
Proof. unfold stream, framed. cbn [map concat fst snd]. by rewrite <- app_assoc. Qed.

Lemma annexb_cons n nals : annexb (n :: nals) = H264_START_CODE ++ n ++ annexb nals.
Proof. unfold annexb. cbn [map concat]. by rewrite <- app_assoc. Qed.

(** What follows the unit [n] in a stream. *)
Definition stream_tail (n rest : bytes) : Prop :=
  rest = [] \/ (exists r, rest = [0; 0; 0; 1] ++ r) \/ (last n <> Some 0 /\ exists r, rest = [0; 0; 1] ++ r).

Lemma stream_ok_tail l n us : stream_ok ((l, n) :: us) -> stream_tail n (stream us).
Proof.
  intros (_ & Hl & _). destruct us as [|[[] m] us]; [by left|right; left|right; right].
  - eexists. by rewrite stream_cons.
  - split; [done|]. eexists. by rewrite stream_cons.
Qed.

Lemma stream_tail_next x n rest : stream_tail (x :: n) rest -> n <> [] -> stream_tail n rest.
Proof.
  intros [->|[Hr|[Hl Hr]]] Hn; [by left|by right; left|right; right]. split; [|done].
  destruct n; [done|exact Hl].
Qed.

Lemma no_start_code_here x n rest :
  clean (x :: n) -> stream_tail (x :: n) rest ->
  take 3 (x :: n ++ rest) <> [0; 0; 1] /\ take 4 (x :: n ++ rest) <> [0; 0; 0; 1].
Proof.
  unfold clean. cbn [has_start_code]. rewrite orb_false_iff, bool_decide_eq_false. intros [Hx Hn] Hr.
  destruct n as [|a [|b n]].
  - destruct Hr as [-> |[[r ->]|[Hl [r ->]]]]; [by split|by cbn; split; congruence|].
    cbn in Hl |- *. split; congruence.
  - destruct Hr as [-> |[[r ->]|[Hl [r ->]]]]; [by split|by cbn; split; congruence|].
    cbn in Hl |- *. split; congruence.
  - split; [done|]. cbn in Hx |- *. rewrite take_0 in Hx. destruct n as [|c n].
    + destruct Hr as [-> |[[r ->]|[Hl [r ->]]]]; [done|by cbn; congruence|cbn; congruence].
    + cbn [has_start_code] in Hn. rewrite orb_false_iff, bool_decide_eq_false in Hn. destruct Hn as [Hn _].
      cbn in Hn |- *. rewrite !take_0 in *. congruence.
Qed.

Lemma start_codes_skip after n rest fuel pos :
  clean n -> stream_tail n rest ->
  start_codes (length n + fuel) after (n ++ rest) (zlen (n ++ rest)) pos =
  start_codes fuel after rest (zlen rest) (pos + zlen n).
Proof.
  revert pos. induction n as [|x n IH]; intros pos Hn Hr; [by rewrite Z.add_0_r|].
  destruct (no_start_code_here x n rest Hn Hr) as [H3 H4].
  cbn [length plus app start_codes]. rewrite zlen_cons. pose proof (zlen_nonneg (n ++ rest)).
  destruct (Z.leb_spec (1 + zlen (n ++ rest)) 0); [lia|].
  replace (if 4 <=? _ then _ else _) with (@Done bool false).
  2: { destruct (Z.leb_spec 4 (1 + zlen (n ++ rest))); [|done]. unfold zlen in *.
       rewrite starts_with_spec by (cbn [length]; lia). by rewrite bool_decide_eq_false_2. }
  replace (if 3 <=? _ then _ else _) with (@Done bool false).
  2: { destruct (Z.leb_spec 3 (1 + zlen (n ++ rest))); [|done]. unfold zlen in *.
       rewrite starts_with_spec by (cbn [length]; lia). by rewrite bool_decide_eq_false_2. }
  simpl_m. change (drop 1 (x :: n ++ rest)) with (n ++ rest).
  replace (1 + zlen (n ++ rest) - 1) with (zlen (n ++ rest)) by lia.
  rewrite zlen_cons. replace (pos + (1 + zlen n)) with (pos + 1 + zlen n) by lia.
  destruct (decide (n = [])) as [-> |Hne].
  { cbn [length plus app]. by rewrite Z.add_0_r. }
  apply IH; [|by apply stream_tail_next in Hr].
  unfold clean in *. cbn [has_start_code] in Hn. by apply orb_false_iff in Hn as [_ Hn].
Qed.

(** The offsets the first loop finds. *)
Fixpoint code_positions (after : bool) (us : list (bool * bytes)) (pos : Z) : list Z :=
  match us with
  | [] => []
  | (l, n) :: us =>
      (if after then pos + zlen (start_code l) else pos)
      :: code_positions after us (pos + zlen (start_code l) + zlen n)
  end.

(** One step of the loop, on a start code. *)
Lemma start_codes_here fuel after l rest pos :
  start_codes (S fuel) after (start_code l ++ rest) (zlen (start_code l ++ rest)) pos =
  (q ← start_codes fuel after rest (zlen rest) (pos + zlen (start_code l));
   mret ((if after then pos + zlen (start_code l) else pos) :: q)).
Proof.
  cbn [start_codes]. rewrite zlen_app. pose proof (zlen_nonneg rest). destruct l; cbn [start_code].
  - change (zlen [0; 0; 0; 1]) with 4. destruct (Z.leb_spec (4 + zlen rest) 0); [lia|].
    destruct (Z.leb_spec 4 (4 + zlen rest)); [|lia].
    rewrite (starts_with_spec [0; 0; 0; 1]) by (rewrite length_app; cbn; lia). rewrite bool_decide_eq_true_2 by reflexivity.
    simpl_m. change (drop 4 _) with rest. by replace (4 + zlen rest - 4) with (zlen rest) by lia.
  - change (zlen [0; 0; 1]) with 3. destruct (Z.leb_spec (3 + zlen rest) 0); [lia|].
    replace (if 4 <=? _ then _ else _) with (@Done bool false).
    2: { destruct (Z.leb_spec 4 (3 + zlen rest)); [|done]. unfold zlen in *.
         rewrite starts_with_spec by (rewrite length_app; cbn; lia). by rewrite bool_decide_eq_false_2. }
    destruct (Z.leb_spec 3 (3 + zlen rest)); [|lia].
    rewrite (starts_with_spec [0; 0; 1]) by (rewrite length_app; cbn; lia). rewrite bool_decide_eq_true_2 by reflexivity.
    simpl_m. change (drop 3 _) with rest. by replace (3 + zlen rest - 3) with (zlen rest) by lia.
Qed.

Lemma start_codes_stream after us fuel pos :
  stream_ok us -> (length (stream us) < fuel)%nat ->
  start_codes fuel after (stream us) (zlen (stream us)) pos = Done (code_positions after us pos).
Proof.
  revert fuel pos. induction us as [|[l n] us IH]; intros fuel pos Hok Hf.
  - destruct fuel; [cbn in Hf; lia|]. done.
  - pose proof (stream_ok_tail _ _ _ Hok) as Ht. destruct Hok as (Hn & _ & Hok).
    rewrite stream_cons in *. rewrite !length_app in Hf. destruct fuel as [|fuel]; [lia|].
    rewrite start_codes_here. assert (3 <= length (start_code l))%nat by (destruct l; cbn; lia).
    replace fuel with (length n + (fuel - length n))%nat by lia.
    rewrite start_codes_skip by done. by rewrite IH by (done || lia).
Qed.

Section annexb.
Context `{Allocator}.

(** What the second loop makes of each NAL unit: the start code stays in front
    ([AnnexB2Nalus]) or, with the length prefix, that of the next unit stays
    behind ([AnnexB2Avcc]). *)
Fixpoint cut_expected (avcc : bool) (us : list (bool * bytes)) : list bytes :=
  match us with
  | [] => []
  | (l, n) :: us =>
      (if avcc
       then let d := n ++ match us with [] => [] | (l', _) :: _ => start_code l' end in Write4Bytes (zlen d) ++ d
       else start_code l ++ n) :: cut_expected avcc us
  end.

Lemma cut_nalus_stream avcc us pre :
  zlen (pre ++ stream us) <= max_queue - 4 ->
  exists bufs,
    cut_nalus avcc (pre ++ stream us) (zlen (pre ++ stream us)) (code_positions avcc us (zlen pre)) =
      Done bufs /\ map contents bufs = cut_expected avcc us /\ Forall wf bufs.
Proof.
  revert pre. induction us as [|[l n] us IH]; intros pre Hmax; [by exists []|].
  cbn [code_positions cut_nalus]. rewrite stream_cons in *.
  set (data := pre ++ start_code l ++ n ++ stream us) in *. set (k := zlen (start_code l)).
  assert (data = (pre ++ start_code l ++ n) ++ stream us) as Hd by (unfold data; by rewrite <- !app_assoc).
  set (next := match code_positions avcc us (zlen pre + k + zlen n) with [] => zlen data | q :: _ => q end).
  set (cur := if avcc then zlen pre + k else zlen pre).
  set (d := if avcc then n ++ match us with [] => [] | (l', _) :: _ => start_code l' end else start_code l ++ n).
  assert (exists a c, data = a ++ d ++ c /\ zlen a = cur /\ next - cur = zlen d) as (a & c & Hdata & Ha & Hlen).
  { unfold next, d, cur, k. clear Hd. unfold data in *. destruct avcc.
    - exists (pre ++ start_code l), (match us with [] => [] | (_, n') :: us' => n' ++ stream us' end).
      rewrite !zlen_app. split_and!; [|done|].
      + rewrite <- !app_assoc. do 3 f_equal. destruct us as [|[l' n'] us']; [done|]. by rewrite stream_cons.
      + destruct us as [|[l' n'] us']; cbn [code_positions]; [|lia].
        change (zlen (stream [])) with 0. change (zlen (@nil Z)) with 0. lia.
    - exists pre, (stream us). split_and!; [by rewrite <- !app_assoc|done|]. rewrite !zlen_app.
      destruct us as [|[l' n'] us']; cbn [code_positions]; [|lia]. change (zlen (stream [])) with 0. lia. }
  pose proof (zlen_nonneg d). pose proof (zlen_nonneg a). pose proof (zlen_nonneg c).
  assert (zlen d <= max_queue - 4) as Hdm by (revert Hmax; rewrite Hdata, !zlen_app; lia).
  change (if avcc then zlen pre + k else zlen pre) with cur. fold next. rewrite Hlen.
  unfold max_queue in Hdm. rewrite u64_small by lia. rewrite <- Ha, Hdata, read_range_mid. simpl_m.
  destruct (make_buffer_spec (zlen d + 1024) (if avcc then [Write4Bytes (zlen d); d] else [d]))
    as (b & -> & Hwfb & Hb); [lia| |].
  { unfold max_queue. destruct avcc; cbn [concat]; rewrite ?app_nil_r, ?zlen_app; change (zlen (Write4Bytes _)) with 4; lia. }
  simpl_m. rewrite <- Hdata, Hd.
  destruct (IH (pre ++ start_code l ++ n)) as (bufs & Hcut & Hbufs & Hwfs); [by rewrite <- Hd|].
  replace (zlen pre + k + zlen n) with (zlen (pre ++ start_code l ++ n)) by (rewrite !zlen_app; unfold k; lia).
  rewrite Hcut. simpl_m. eexists. split; [reflexivity|]. split; [|by constructor].
  cbn [map cut_expected]. rewrite Hb, Hbufs. f_equal.
  unfold d. destruct avcc; cbn [concat]; by rewrite !app_nil_r.
Qed.

Lemma annexb_len nals : nals <> [] -> 4 <= zlen (annexb nals).
Proof.
  destruct nals as [|n nals]; [done|]. rewrite annexb_cons, zlen_app. change (zlen H264_START_CODE) with 4.
  pose proof (zlen_nonneg (n ++ annexb nals)). lia.
Qed.

Lemma stream_cut avcc us :
  stream_ok us -> 4 <= zlen (stream us) <= max_queue - 4 ->
  exists pos bufs, start_codes (S (Z.to_nat (zlen (stream us)))) avcc (stream us) (zlen (stream us)) 0 = Done pos /\
    cut_nalus avcc (stream us) (zlen (stream us)) pos = Done bufs /\
    map contents bufs = cut_expected avcc us /\ (zlen (stream us) <? 4) = false /\ Forall wf bufs.
Proof.
  intros Hok [Hl Hmax]. destruct (cut_nalus_stream avcc us [] Hmax) as (bufs & Hcut & Hb & Hwf).
  exists (code_positions avcc us 0), bufs. split_and!; [|done|done|by apply Z.ltb_ge|done].
  apply start_codes_stream; [done|unfold zlen; lia].
Qed.

(** The loops do not look behind the bytes they are told of. *)
Lemma start_codes_extend fuel after p x left_len pos r :
  left_len <= zlen p -> start_codes fuel after p left_len pos = Done r ->
  start_codes fuel after (p ++ x) left_len pos = Done r.
Proof.
  revert p left_len pos r. induction fuel as [|fuel IH]; intros p left_len pos r Hl; [done|]. cbn [start_codes].
  destruct (Z.leb_spec left_len 0); [done|].
  assert (forall k, Z.of_nat k <= left_len -> drop k (p ++ x) = drop k p ++ x /\ left_len - Z.of_nat k <= zlen (drop k p)) as Hdrop.
  { intros k Hk. unfold zlen in *. rewrite drop_app_le, length_drop by lia. split; [done|lia]. }
  assert (forall pat : bytes, (if zlen pat <=? left_len then starts_with pat p else mret false) =
                              (if zlen pat <=? left_len then starts_with pat (p ++ x) else mret false)) as Hs.
  { intros pat. destruct (Z.leb_spec (zlen pat) left_len); [|done].
    assert (length pat <= length p)%nat as Hlp by (unfold zlen in *; lia).
    rewrite (starts_with_extend pat p x _ (starts_with_spec pat p Hlp)). by apply starts_with_spec. }
  pose proof (Hs [0; 0; 0; 1]) as H4. pose proof (Hs [0; 0; 1]) as H3. change (zlen [0; 0; 0; 1]) with 4 in H4.
  change (zlen [0; 0; 1]) with 3 in H3. rewrite <- H4, <- H3. clear Hs H4 H3.
  intros E. apply bind_inv in E as (four & E4 & E). rewrite E4. cbn [mbind outcome_bind]. destruct four.
  { destruct (Z.leb_spec 4 left_len); [|done]. destruct (Hdrop 4%nat) as [-> Hl4]; [lia|]. change (Z.of_nat 4) with 4 in Hl4.
    apply bind_inv in E as (rest & Er & E). rewrite (IH _ _ _ _ Hl4 Er). exact E. }
  apply bind_inv in E as (three & E3 & E). rewrite E3. cbn [mbind outcome_bind]. destruct three.
  { destruct (Z.leb_spec 3 left_len); [|done]. destruct (Hdrop 3%nat) as [-> Hl3]; [lia|]. change (Z.of_nat 3) with 3 in Hl3.
    apply bind_inv in E as (rest & Er & E). rewrite (IH _ _ _ _ Hl3 Er). exact E. }
  destruct (Hdrop 1%nat) as [-> Hl1]; [lia|]. change (Z.of_nat 1) with 1 in Hl1. by apply IH.
Qed.

Lemma read_range_behind buf x off n d : read_range buf off n = Done d -> read_range (buf ++ x) off n = Done d.
Proof.
  unfold read_range. case_bool_decide; [|done]. intros [= <-]. rewrite zlen_app. pose proof (zlen_nonneg x).
  rewrite bool_decide_eq_true_2 by lia. unfold zlen in *. by rewrite drop_app_le, take_app_le by (rewrite ?length_drop; lia).
Qed.

Lemma cut_nalus_extend avcc data x end_pos pos r :
  cut_nalus avcc data end_pos pos = Done r -> cut_nalus avcc (data ++ x) end_pos pos = Done r.
Proof.
  revert r. induction pos as [|p pos IH]; intros r; [done|]. cbn [cut_nalus]. intros E.
  apply bind_inv in E as (d & Ed & E). rewrite (read_range_behind _ x _ _ _ Ed). simpl_m.
  apply bind_inv in E as (b & Eb & E). rewrite Eb. simpl_m.
  apply bind_inv in E as (nalus & En & E). by rewrite (IH _ En).
Qed.

Lemma AnnexB2Nalus_stream us tail :
  stream_ok us -> 4 <= zlen (stream us) <= max_queue - 4 ->
  exists bufs, AnnexB2Nalus (stream us ++ tail) (zlen (stream us)) = Done (true, bufs) /\
    map contents bufs = map framed us /\ Forall wf bufs.
Proof.
  intros Hok Hl. destruct (stream_cut false us Hok Hl) as (pos & bufs & Hp & Hcut & Hb & Hlt & Hwf).
  exists bufs. unfold AnnexB2Nalus. rewrite Hlt, (start_codes_extend _ _ _ _ _ _ _ (Z.le_refl _) Hp). simpl_m.
  rewrite (cut_nalus_extend _ _ _ _ _ _ Hcut). split; [done|]. split; [|done].
  rewrite Hb. clear. induction us as [|[l n] us IH]; [done|]. cbn [cut_expected map]. by f_equal.
Qed.

Lemma AnnexB2Nalus_annexb nals tail :
  nals <> [] -> Forall clean nals -> zlen (annexb nals) <= max_queue - 4 ->
  exists bufs, AnnexB2Nalus (annexb nals ++ tail) (zlen (annexb nals)) = Done (true, bufs) /\
    map contents bufs = map (app H264_START_CODE) nals /\ Forall wf bufs.
Proof.
  intros Hne Hc Hmax. pose proof (annexb_len nals Hne). rewrite annexb_stream in *.
  destruct (AnnexB2Nalus_stream (map (pair true) nals) tail (annexb_ok _ Hc)) as (bufs & E & Hb & Hwf); [lia|].
  exists bufs. by rewrite Hb, map_map.
Qed.

(** C29. Splitting an Annex B stream gives back its NAL units: for every list of
    NAL units free of start codes, each put behind a four byte or a three byte
    start code, [AnnexB2Nalus] on the stream (and whatever memory follows it)
    returns one buffer per unit, in order, each holding the unit's own start code
    and exactly the unit; no byte is lost, invented or read outside the stream.
    Conditions: a unit before a three byte start code does not end in a zero byte
    (the four bytes would be a long start code), and the stream has at least the
    four bytes the function asks for. *)
Theorem annexb_roundtrip us tail :
  stream_ok us -> 4 <= zlen (stream us) <= max_queue - 4 ->
  exists bufs, AnnexB2Nalus (stream us ++ tail) (zlen (stream us)) = Done (true, bufs) /\
    map contents bufs = map (fun '(long, n) => start_code long ++ n) us.
Proof.
  intros Hok Hl. destruct (AnnexB2Nalus_stream us tail Hok Hl) as (bufs & E & Hb & _). exists bufs. split; [done|].
  rewrite Hb. apply map_ext. by intros [].
Qed.

(** [AnnexB2Avcc] counts the following start code as part of a NAL unit: of
    two units, the first comes out four bytes too long, in its length prefix and
    in its data; only the last unit is right. *)
Theorem AnnexB2Avcc_keeps_next_start_code m n :
  clean m -> clean n -> zlen (annexb [m; n]) <= max_queue - 4 ->
  exists bufs, AnnexB2Avcc (annexb [m; n]) (zlen (annexb [m; n])) = Done (true, bufs) /\
    map contents bufs =
      [Write4Bytes (zlen m + 4) ++ m ++ H264_START_CODE; Write4Bytes (zlen n) ++ n].
Proof.
  intros Hm Hn Hmax. pose proof (annexb_len [m; n] ltac:(done)). rewrite annexb_stream in *.
  destruct (stream_cut true (map (pair true) [m; n])) as (pos & bufs & Hp & Hcut & Hb & Hlt & _);
    [apply annexb_ok; auto|lia|].
  exists bufs. unfold AnnexB2Avcc. rewrite Hlt, Hp. simpl_m. rewrite Hcut. split; [done|].
  rewrite Hb. cbn [map cut_expected]. by rewrite zlen_app, app_nil_r.
Qed.

(** ** AVCC *)

Lemma avcc_cons n nals : avcc (n :: nals) = Write4Bytes (zlen n) ++ n ++ avcc nals.
Proof. unfold avcc. cbn [map concat]. by rewrite <- app_assoc. Qed.

(** The loop on a framed list of units, whatever lies behind it in memory. *)
Lemma avcc_loop_avcc nals tail fuel acc :
  Forall (fun n => zlen n <= kMaxLen) nals -> (length nals < fuel)%nat ->
  exists bufs, avcc_loop fuel (avcc nals ++ tail) (zlen (avcc nals)) acc = Done (true, acc ++ bufs) /\
    map contents bufs = map (app H264_START_CODE) nals /\ Forall wf bufs.
Proof.
  intros Hn. revert fuel acc. induction Hn as [|n nals Hn Hns IH]; intros fuel acc Hf.
  - destruct fuel; [lia|]. exists []. by rewrite app_nil_r.
  - destruct fuel as [|fuel]; [lia|]. cbn [length] in Hf. cbn [avcc_loop]. rewrite avcc_cons, <- !app_assoc.
    rewrite (zlen_app (Write4Bytes _)). change (zlen (Write4Bytes (zlen n))) with 4. rewrite zlen_app.
    pose proof (zlen_nonneg n). pose proof (zlen_nonneg (avcc nals)). unfold kMaxLen in Hn.
    destruct (Z.leb_spec (4 + (zlen n + zlen (avcc nals))) 0); [lia|].
    rewrite Read4Bytes_Write4Bytes. simpl_m. unfold u32. rewrite Z.mod_small by lia.
    destruct (Z.ltb_spec kMaxLen (zlen n)); [unfold kMaxLen in *; lia|].
    change (drop 4 (Write4Bytes (zlen n) ++ ?l)) with l. rewrite read_range_app by done. simpl_m.
    destruct (make_buffer_spec (4 + zlen n + 1024) [[0; 0; 0; 1]; n]) as (b & -> & Hwf & Hb); [lia| |].
    { cbn [concat]. rewrite app_nil_r, zlen_app. change (zlen [0; 0; 0; 1]) with 4. unfold max_queue. lia. }
    simpl_m. rewrite drop_zlen_app.
    replace (4 + (zlen n + zlen (avcc nals)) - 4 - zlen n) with (zlen (avcc nals)) by lia.
    destruct (IH fuel (acc ++ [b])) as (bufs & -> & Hbufs & Hall); [lia|].
    exists (b :: bufs). rewrite <- app_assoc. split; [done|]. split; [|by constructor].
    cbn [map]. rewrite Hb, Hbufs. cbn [concat]. by rewrite app_nil_r.
Qed.

Lemma avcc_length nals : (4 * length nals <= length (avcc nals))%nat.
Proof. induction nals as [|n nals IH]; [done|]. rewrite avcc_cons, !length_app, Write4Bytes_length. cbn [length]. lia. Qed.

Lemma Avcc2Nalus_avcc nals tail :
  nals <> [] -> Forall (fun n => zlen n <= kMaxLen) nals -> zlen (avcc nals) < 2 ^ 63 ->
  exists bufs, Avcc2Nalus (avcc nals ++ tail) (zlen (avcc nals)) = Done (true, bufs) /\
    map contents bufs = map (app H264_START_CODE) nals /\ Forall wf bufs.
Proof.
  intros Hne Hn Hmax. unfold Avcc2Nalus. pose proof (avcc_length nals) as Hl.
  destruct (Z.ltb_spec (zlen (avcc nals)) 4); [destruct nals; [done|]; unfold zlen in *; cbn [length] in *; lia|].
  replace (i64 (zlen (avcc nals))) with (zlen (avcc nals)).
  2: { unfold i64. pose proof (zlen_nonneg (avcc nals)). rewrite Z.mod_small; lia. }
  apply (avcc_loop_avcc nals tail (S (Z.to_nat (zlen (avcc nals)))) [] Hn). unfold zlen; lia.
Qed.

(** The AVCC framing (4-byte lengths) is turned into Annex B without loss:
    [Avcc2Nalus] on any list of NAL units of at most [kMaxLen] bytes returns,
    unit by unit, the start code followed by the unit, and splitting the
    concatenation of its buffers with [AnnexB2Nalus] gives the same buffers. *)
Theorem avcc_to_annexb nals :
  nals <> [] -> Forall clean nals -> Forall (fun n => zlen n <= kMaxLen) nals ->
  zlen (avcc nals) <= max_queue - 4 ->
  exists bufs bufs',
    Avcc2Nalus (avcc nals) (zlen (avcc nals)) = Done (true, bufs) /\
    map contents bufs = map (app H264_START_CODE) nals /\
    let stream := concat (map contents bufs) in
    AnnexB2Nalus stream (zlen stream) = Done (true, bufs') /\ map contents bufs' = map contents bufs.
Proof.
  intros Hne Hc Hn Hmax.
  destruct (Avcc2Nalus_avcc nals [] Hne Hn) as (bufs & Ha1 & Hb & _); [unfold max_queue in *; lia|].
  rewrite app_nil_r in Ha1. rewrite Ha1.
  exists bufs. rewrite Hb. change (concat (map (app H264_START_CODE) nals)) with (annexb nals).
  assert (zlen (annexb nals) = zlen (avcc nals)) as Heq.
  { clear. induction nals as [|n nals IH]; [done|]. rewrite annexb_cons, avcc_cons, !zlen_app, IH. done. }
  destruct (AnnexB2Nalus_annexb nals []) as (bufs' & Ha & Hb' & _); [done|done|lia|]. rewrite app_nil_r in Ha.
  exists bufs'. by split_and!.
Qed.
End annexb.

(** ** The configuration records *)

Lemma read_range_prefix d c : read_range (d ++ c) 0 (zlen d) = Done d.
Proof. apply (read_range_mid [] d c). Qed.

Lemma write_at_prefix dst d : zlen d <= zlen dst ->
  write_at dst 0 d = Done (d ++ drop (Z.to_nat (zlen d)) dst).
Proof.
  intros Hd. unfold write_at. pose proof (zlen_nonneg d). rewrite bool_decide_eq_true_2 by lia.
  by rewrite take_0, Z.add_0_l.
Qed.

(** A 16-bit length written as two bytes and read back at some offset. *)
Lemma length_bytes n : 0 <= n <= 0xffff ->
  [Z.land (Z.shiftr n 8) 0xff; Z.land n 0xff] = [n / 256; n mod 256] /\ Z.shiftl (n / 256) 8 + n mod 256 = n.
Proof.
  intros Hn. rewrite (shift_mask n 0xff 8 8), (low_mask n 0xff 8), Z.shiftl_mul_pow2 by done.
  split; [|div_lia]. rewrite Z.mod_small by div_lia. done.
Qed.

(** The record as ISO 14496-15 lays it out, with one set of each kind, in front of other bytes. *)
Definition avc_record (head sps pps : bytes) : bytes :=
  head ++ [255; 225; zlen sps / 256; zlen sps mod 256] ++ sps ++ [1; zlen pps / 256; zlen pps mod 256] ++ pps.
Lemma avc_record_read head sps pps rest n rs rp l1 l2 :
  zlen head = 4 -> zlen sps <= 0xffff -> zlen pps <= 0xffff -> zlen sps <= zlen rs -> zlen pps <= zlen rp -> 4 < n ->
  GetSpsPpsFromExtraData rp l1 rs l2 (avc_record head sps pps ++ rest) n =
  Done (0, pps ++ drop (Z.to_nat (zlen pps)) rp, zlen pps, sps ++ drop (Z.to_nat (zlen sps)) rs, zlen sps).
Proof.
  intros Hh Hs Hp Hrs Hrp Hn. pose proof (zlen_nonneg sps). pose proof (zlen_nonneg pps).
  destruct (length_bytes (zlen sps)) as [_ Hsl]; [lia|]. destruct (length_bytes (zlen pps)) as [_ Hpl]; [lia|].
  destruct head as [|a [|b [|c [|e [|? ?]]]]]; try (unfold zlen in Hh; cbn [length] in Hh; lia).
  unfold avc_record. rewrite <- !app_assoc. unfold GetSpsPpsFromExtraData.
  rewrite (proj2 (Z.eqb_neq _ _)), (proj2 (Z.ltb_lt _ _)) by lia. cbv zeta.
  set (h8 := [a; b; c; e; 255; 225; zlen sps / 256; zlen sps mod 256]).
  set (p3 := [1; zlen pps / 256; zlen pps mod 256]).
  change ([a; b; c; e] ++ [255; 225; ?x; ?y] ++ ?q) with (h8 ++ q).
  change (starts_with [255; 225] (drop 4 (h8 ++ ?x))) with (@Done bool true). simpl_m. cbn [negb].
  change ((h8 ++ ?x).[6]) with (Done (zlen sps / 256)).
  change ((h8 ++ ?x).[6 + 1]) with (Done (zlen sps mod 256)). simpl_m. rewrite Hsl.
  change (6 + 2) with (zlen h8). rewrite read_range_mid. simpl_m. rewrite write_at_prefix by done. simpl_m.
  replace (h8 ++ sps ++ p3 ++ pps ++ rest) with ((h8 ++ sps ++ [1]) ++ zlen pps / 256 :: zlen pps mod 256 :: pps ++ rest)
    at 1 by (by rewrite <- !app_assoc).
  replace (zlen h8 + zlen sps + 1) with (zlen (h8 ++ sps ++ [1])) by (rewrite !zlen_app; change (zlen [1]) with 1; lia).
  rewrite rd_mid. simpl_m.
  replace (h8 ++ sps ++ p3 ++ pps ++ rest) with ((h8 ++ sps ++ [1; zlen pps / 256]) ++ zlen pps mod 256 :: pps ++ rest)
    at 1 by (by rewrite <- !app_assoc).
  replace (zlen (h8 ++ sps ++ [1]) + 1) with (zlen (h8 ++ sps ++ [1; zlen pps / 256]))
    by (rewrite !zlen_app; change (zlen [1]) with 1; change (zlen [1; _]) with 2; lia).
  rewrite rd_mid. simpl_m. rewrite Hpl.
  replace (h8 ++ sps ++ p3 ++ pps ++ rest) with ((h8 ++ sps ++ p3) ++ pps ++ rest) by (by rewrite <- !app_assoc).
  replace (zlen (h8 ++ sps ++ [1]) + 2) with (zlen (h8 ++ sps ++ p3))
    by (rewrite !zlen_app; change (zlen [1]) with 1; change (zlen p3) with 3; lia).
  rewrite read_range_mid. simpl_m. by rewrite write_at_prefix.
Qed.

(** The AVC decoder configuration record is read back: the parameter sets that
    [get_video_extradata] stores are exactly those [GetSpsPpsFromExtraData] finds,
    with their lengths, for every SPS of 4 to 65535 bytes and every PPS up to
    65535 bytes, in any memory large enough; the bytes behind them keep. *)
Theorem extradata_roundtrip sps pps sx px ex rs rp l1 l2 :
  4 <= zlen sps <= 0xffff -> zlen pps <= 0xffff ->
  11 + zlen sps + zlen pps <= zlen ex -> zlen sps <= zlen rs -> zlen pps <= zlen rp ->
  exists ex', get_video_extradata (pps ++ px) (zlen pps) (sps ++ sx) (zlen sps) ex =
      Done (ex', 11 + zlen sps + zlen pps) /\
    GetSpsPpsFromExtraData rp l1 rs l2 ex' (11 + zlen sps + zlen pps) =
      Done (0, pps ++ drop (Z.to_nat (zlen pps)) rp, zlen pps, sps ++ drop (Z.to_nat (zlen sps)) rs, zlen sps).
Proof.
  intros Hs Hp Hex Hrs Hrp. pose proof (zlen_nonneg pps) as Hp0.
  destruct (length_bytes (zlen sps)) as [[= Hs1 Hs2] Hsl]; [lia|].
  destruct (length_bytes (zlen pps)) as [[= Hp1 Hp2] Hpl]; [lia|].
  unfold get_video_extradata. rewrite !read_range_prefix, Hs1, Hs2, Hp1, Hp2.
  rewrite !(rd_app sps) by lia.
  destruct (rd_done sps 1) as [s1 ->]; [lia|]. destruct (rd_done sps 2) as [s2 ->]; [lia|].
  destruct (rd_done sps 3) as [s3 ->]; [lia|]. simpl_m.
  set (h8 := [1; s1; s2; s3; 255; 225; zlen sps / 256; zlen sps mod 256]).
  set (p3 := [1; zlen pps / 256; zlen pps mod 256]).
  assert (zlen (h8 ++ sps ++ p3 ++ pps) = 11 + zlen sps + zlen pps) as Hbl.
  { rewrite !zlen_app. change (zlen h8) with 8. change (zlen p3) with 3. lia. }
  rewrite write_at_prefix, Hbl by lia. simpl_m. eexists. split; [reflexivity|].
  rewrite <- !app_assoc. set (rest := drop _ ex).
  change (h8 ++ sps ++ p3 ++ pps ++ rest) with ([1; s1; s2; s3] ++ [255; 225; zlen sps / 256; zlen sps mod 256] ++ sps ++ p3 ++ pps ++ rest).
  pose proof (avc_record_read [1; s1; s2; s3] sps pps rest (11 + zlen sps + zlen pps) rs rp l1 l2 eq_refl) as E.
  unfold avc_record in E. rewrite <- !app_assoc in E. apply E; lia.
Qed.

(** ** The HEVC decoder configuration record *)

(** The record of ISO/IEC 14496-15 as a byte string: what a muxer writes. *)
Definition hevc_nal_bytes (d : bytes) : bytes := Write2Bytes (zlen d) ++ d.
Definition hevc_unit_bytes (u : HEVC_NALUnit) : bytes :=
  (array_completeness u * 128 + nal_unit_type u) ::
  Write2Bytes (num_nalus u) ++ concat (map hevc_nal_bytes (nal_data_vec u)).
Definition hevc_bytes (r : HEVC_DEC_CONF_RECORD) : bytes :=
  [1; general_profile_space r * 64 + general_tier_flag r * 32 + general_profile_idc r] ++
  Write4Bytes (general_profile_compatibility_flags r) ++
  Write4Bytes (general_constraint_indicator_flags r / 2 ^ 16) ++
  Write2Bytes (general_constraint_indicator_flags r mod 2 ^ 16) ++
  [general_level_idc r] ++ Write2Bytes (0xf000 + min_spatial_segmentation_idc r) ++
  [0xfc + parallelism_type r; 0xfc + chroma_format r; 0xf8 + bitdepth_lumaminus8 r;
   0xf8 + bitdepth_chromaminus8 r] ++
  Write2Bytes (avg_framerate r) ++
  [constant_frameRate r * 64 + num_temporallayers r * 8 + temporalid_nested r * 4 + lengthsize_minusone r;
   zlen (nalu_vec r)] ++
  concat (map hevc_unit_bytes (nalu_vec r)).

(** Every field in the width the record gives it; no array is empty. *)
Definition hevc_unit_ok (u : HEVC_NALUnit) : Prop :=
  0 <= array_completeness u < 2 /\ 0 <= nal_unit_type u < 64 /\
  num_nalus u = zlen (nal_data_vec u) /\ 1 <= num_nalus u <= 0xffff /\
  Forall (fun d => zlen d <= 0xffff) (nal_data_vec u).
Record hevc_ok (r : HEVC_DEC_CONF_RECORD) : Prop := {
  ok_version : configuration_version r = 1;
  ok_profile : 0 <= general_profile_space r < 4 /\ 0 <= general_tier_flag r < 2 /\ 0 <= general_profile_idc r < 32;
  ok_flags : 0 <= general_profile_compatibility_flags r < 2 ^ 32 /\
    0 <= general_constraint_indicator_flags r < 2 ^ 48;
  ok_level : 0 <= general_level_idc r < 256 /\ 0 <= min_spatial_segmentation_idc r < 4096;
  ok_format : 0 <= parallelism_type r < 4 /\ 0 <= chroma_format r < 4 /\
    0 <= bitdepth_lumaminus8 r < 8 /\ 0 <= bitdepth_chromaminus8 r < 8;
  ok_rate : 0 <= avg_framerate r <= 0xffff /\ 0 <= constant_frameRate r < 4 /\
    0 <= num_temporallayers r < 8 /\ 0 <= temporalid_nested r < 2 /\ 0 <= lengthsize_minusone r < 4;
  ok_units : zlen (nalu_vec r) <= 255 /\ Forall hevc_unit_ok (nalu_vec r)
}.

Lemma hevc_nalus_bytes nals rest acc extra :
  Forall (fun d => zlen d <= 0xffff) nals -> 0 <= extra ->
  hevc_nalus (length nals) (concat (map hevc_nal_bytes nals) ++ rest)
    (zlen (concat (map hevc_nal_bytes nals)) + extra) acc = Done (Some (rest, extra, acc ++ nals)).
Proof.
  intros Hn He. revert acc. induction Hn as [|d nals Hd Hn IH]; intros acc; [by rewrite app_nil_r|].
  cbn [length hevc_nalus map concat]. change (hevc_nal_bytes d) with (Write2Bytes (zlen d) ++ d).
  rewrite <- !app_assoc.
  rewrite Read2Bytes_Write2Bytes. simpl_m. pose proof (zlen_nonneg d). rewrite u16_small by lia.
  pose proof (zlen_nonneg (concat (map hevc_nal_bytes nals))).
  rewrite !zlen_app. change (zlen (Write2Bytes _)) with 2.
  destruct (Z.ltb_spec (2 + (zlen d + zlen (concat (map hevc_nal_bytes nals))) + extra - 2) (zlen d)); [lia|].
  change (drop 2 (Write2Bytes (zlen d) ++ ?x)) with x. rewrite read_range_prefix. simpl_m.
  rewrite drop_zlen_app.
  match goal with |- hevc_nalus _ _ ?l _ = _ =>
    replace l with (zlen (concat (map hevc_nal_bytes nals)) + extra) by lia end.
  by rewrite IH, <- app_assoc.
Qed.

Lemma hevc_arrays_bytes units acc :
  Forall hevc_unit_ok units ->
  hevc_arrays (length units) (concat (map hevc_unit_bytes units))
    (zlen (concat (map hevc_unit_bytes units))) acc = Done (0, acc ++ units).
Proof.
  intros Hu. revert acc. induction Hu as [|u units Hu Hus IH]; intros acc; [by rewrite app_nil_r|].
  destruct u as [c ty num nals]. destruct Hu as (Hc & Ht & Hnum & Hrange & Hn). cbn in Hc, Ht, Hnum, Hrange, Hn.
  cbn [length hevc_arrays map concat].
  set (body := concat (map hevc_nal_bytes nals)). set (rest := concat (map hevc_unit_bytes units)) in *.
  change (hevc_unit_bytes _) with ((c * 128 + ty) :: Write2Bytes num ++ body).
  cbn [app]. rewrite <- app_assoc, zlen_cons, !zlen_app. change (zlen (Write2Bytes _)) with 2.
  assert (2 <= zlen body) as Hb.
  { unfold body. destruct nals as [|d nals]; [cbn in Hnum; unfold zlen in Hnum; cbn in Hnum; lia|]. cbn [map concat].
    unfold hevc_nal_bytes at 1. rewrite !zlen_app. change (zlen (Write2Bytes _)) with 2.
    pose proof (zlen_nonneg d). pose proof (zlen_nonneg (concat (map hevc_nal_bytes nals))). lia. }
  pose proof (zlen_nonneg rest) as Hr.
  destruct (Z.ltb_spec (1 + (2 + (zlen body + zlen rest))) 5); [lia|].
  change ((?x :: ?l).[0]) with (Done x). change (drop 1 (?x :: ?l)) with l. simpl_m.
  rewrite Read2Bytes_Write2Bytes. simpl_m. rewrite u16_small by lia.
  change (drop 3 (?x :: Write2Bytes num ++ ?l)) with l.
  replace (Z.to_nat num) with (length nals) by (rewrite Hnum; unfold zlen; lia).
  replace (1 + (2 + (zlen body + zlen rest)) - 3) with (zlen body + zlen rest) by lia.
  unfold body. rewrite hevc_nalus_bytes by done. simpl_m. rewrite IH, <- app_assoc. cbn [app].
  rewrite (shift_mask _ 0x01 7 1), (low_mask _ 0x3f 6) by done. do 3 f_equal. f_equal. f_equal; div_lia.
Qed.

(** Run the reads of a record against the bytes it was written as. *)
Ltac read_fields :=
  repeat (first
    [ progress (change ((?x :: ?l).[0]) with (Done x); change (drop 1 (?x :: ?l)) with l)
    | rewrite Read4Bytes_Write4Bytes; change (drop 4 (Write4Bytes _ ++ ?l)) with l
    | rewrite Read2Bytes_Write2Bytes; change (drop 2 (Write2Bytes _ ++ ?l)) with l
    | progress change (negb (1 =? 1)) with false ]; simpl_m; cbv iota).

(** The HEVC decoder configuration record is parsed completely: from the
    bytes of any record whose fields fit their widths, [GetHevcDecInfoFromExtradata]
    recovers every field and every parameter set array. *)
Theorem hevc_config_roundtrip r info :
  hevc_ok r -> nalu_vec info = [] ->
  GetHevcDecInfoFromExtradata info (hevc_bytes r) (zlen (hevc_bytes r)) = Done (0, r).
Proof.
  intros [Hv (Hp1 & Hp2 & Hp3) (Hf1 & Hf2) (Hl & Hs) (Hm1 & Hm2 & Hm3 & Hm4) (Hr1 & Hr2 & Hr3 & Hr4 & Hr5) (Hu & Hus)] Hi.
  unfold GetHevcDecInfoFromExtradata. rewrite Hi.
  assert (zlen (hevc_bytes r) - 23 = zlen (concat (map hevc_unit_bytes (nalu_vec r)))) as Hlen.
  { unfold hevc_bytes. rewrite !zlen_app. cbn. unfold zlen. cbn. lia. }
  rewrite Hlen. unfold hevc_bytes.
  destruct r as [v sp tf idc cf ci lv seg par chf bl bc rate cfr ntl tin lsm vec].
  cbn [configuration_version general_profile_space general_tier_flag general_profile_idc
    general_profile_compatibility_flags general_constraint_indicator_flags general_level_idc
    min_spatial_segmentation_idc parallelism_type chroma_format bitdepth_lumaminus8 bitdepth_chromaminus8
    avg_framerate constant_frameRate num_temporallayers temporalid_nested lengthsize_minusone nalu_vec] in *.
  set (units := concat (map hevc_unit_bytes vec)). cbn [app]. subst v. read_fields.
  replace (Z.to_nat (zlen vec)) with (length vec) by (unfold zlen; lia).
  unfold units. rewrite hevc_arrays_bytes by done. simpl_m. unfold u32. rewrite !u16_small by div_lia.
  rewrite !(shift_mask _ 0x03 6 2), (shift_mask _ 0x01 5 1), (shift_mask _ 0x07 3 3), (shift_mask _ 0x01 2 1),
    (low_mask _ 0x1f 5), (low_mask _ 0x0fff 12), !(low_mask _ 0x03 2), !(low_mask _ 0x07 3) by done.
  rewrite Z.shiftl_mul_pow2, lor_add by div_lia.
  do 2 f_equal. f_equal; div_lia.
Qed.

(** A record whose array announces two parameter sets but ends after the first:
    an SPS of two bytes. *)
Definition truncated_hevc : bytes :=
  hevc_bytes (mkHevc 1 0 0 1 0x60000000 0 93 0 0 1 0 0 0 0 1 1 3 []).
Definition truncated_array : bytes :=
  take 22 truncated_hevc ++ [1; 0x21; 0; 2; 0; 2; 0x42; 0x01].

(** The length of the second and later parameter sets of an array is read
    without a check: a record that ends before it makes the parser read past the
    end (the five-byte check is made once per array). *)
Theorem hevc_array_read_past_end info :
  GetHevcDecInfoFromExtradata info truncated_array (zlen truncated_array) = Fault OutOfBounds.
Proof. reflexivity. Qed.

(** The number of temporal layers of an L-HEVC record is compared with 3
    instead of being shifted by 3: whatever the record says, from 1 to 7 layers,
    the parser stores 1. *)
Theorem lhevc_temporal_layers_flattened info b0 b1 b2 b3 low layers n rest len ret r :
  1 <= layers <= 7 -> 0 <= low < 8 ->
  GetLHevcDecInfoFromExtradata info (b0 :: b1 :: b2 :: b3 :: layers * 8 + low :: n :: rest) len = Done (ret, r) ->
  l_numTemporalLayers r = 1.
Proof.
  intros Hl Hlow. unfold GetLHevcDecInfoFromExtradata. set (data := b0 :: _).
  change (data.[0]) with (Done b0). change (data.[1]) with (Done b1). change (data.[2]) with (Done b2).
  change (data.[3]) with (Done b3). change (data.[4]) with (Done (layers * 8 + low)).
  change (data.[5]) with (Done n). simpl_m.
  destruct (hevc_arrays _ _ _ _) as [[ret' vec]|]; [|done]. intros [= <- <-]. cbn [l_numTemporalLayers].
  assert (Z.land (layers * 8 + low) 0x38 = layers * 8) as ->.
  { change 0x38 with (Z.shiftl (Z.ones 3) 3).
    rewrite <- (Z.shiftl_mul_pow2 layers 3) at 2 by done.
    replace layers with (Z.land (Z.shiftr (layers * 8 + low) 3) (Z.ones 3)) at 2.
    2: { rewrite (shift_mask _ _ 3 3) by done. div_lia. }
    rewrite Z.shiftl_land. rewrite <- Z.ldiff_ones_r by lia.
    rewrite Z.ldiff_land, <- Z.land_assoc. f_equal. }
  by rewrite (proj2 (Z.ltb_lt _ _)) by lia.
Qed.

(** ** Concrete instances *)

Definition sample_nals : list bytes := [[0x67; 0x42; 0xc0; 0x1e]; [0x68; 0xce; 0x3c]; [0x65; 0; 0; 3; 1; 0]].

Lemma sample_nals_clean : Forall clean sample_nals.
Proof. repeat constructor. Defined.

(** The three units behind a long, a short and a short start code, in a memory
    that goes on behind the stream. *)
Definition sample_units : list (bool * bytes) :=
  [(true, [0x67; 0x42; 0xc0; 0x1e]); (false, [0x68; 0xce; 0x3c]); (false, [0x65; 0; 0; 3; 1; 0])].

Lemma annexb_roundtrip_witness :
  exists bufs,
    AnnexB2Nalus (H := zero_alloc) (stream sample_units ++ [0; 0; 1; 9]) (zlen (stream sample_units)) = Done (true, bufs) /\
    map contents bufs = [[0; 0; 0; 1; 0x67; 0x42; 0xc0; 0x1e]; [0; 0; 1; 0x68; 0xce; 0x3c]; [0; 0; 1; 0x65; 0; 0; 3; 1; 0]].
Proof.
  apply (annexb_roundtrip (H := zero_alloc) sample_units [0; 0; 1; 9]).
  - cbn. split_and!; by (reflexivity || congruence).
  - vm_compute. split; congruence.
Defined.

Lemma AnnexB2Avcc_keeps_next_start_code_witness :
  exists bufs, AnnexB2Avcc (H := zero_alloc) (annexb [[0x67; 0x42]; [0x68]]) 11 = Done (true, bufs) /\
    map contents bufs = [[0; 0; 0; 6; 0x67; 0x42; 0; 0; 0; 1]; [0; 0; 0; 1; 0x68]].
Proof. apply (AnnexB2Avcc_keeps_next_start_code [0x67; 0x42] [0x68]); by vm_compute. Defined.

Lemma avcc_to_annexb_witness :
  exists bufs bufs',
    Avcc2Nalus (H := zero_alloc) (avcc sample_nals) (zlen (avcc sample_nals)) = Done (true, bufs) /\
    map contents bufs = map (app H264_START_CODE) sample_nals /\
    let stream := concat (map contents bufs) in
    AnnexB2Nalus (H := zero_alloc) stream (zlen stream) = Done (true, bufs') /\ map contents bufs' = map contents bufs.
Proof. apply avcc_to_annexb; [done|apply sample_nals_clean|repeat constructor; by vm_compute|by vm_compute]. Defined.

Lemma extradata_roundtrip_witness :
  exists ex', get_video_extradata [0x68; 0xce; 9] 2 [0x67; 0x42; 0xc0; 0x1e; 0xda] 5 (replicate 32 0) = Done (ex', 18) /\
    GetSpsPpsFromExtraData (replicate 4 0) 0 (replicate 6 0) 0 ex' 18 =
      Done (0, [0x68; 0xce; 0; 0], 2, [0x67; 0x42; 0xc0; 0x1e; 0xda; 0], 5).
Proof.
  apply (extradata_roundtrip [0x67; 0x42; 0xc0; 0x1e; 0xda] [0x68; 0xce] [] [9] (replicate 32 0)
    (replicate 6 0) (replicate 4 0) 0 0); by vm_compute.
Defined.

Definition sample_hevc : HEVC_DEC_CONF_RECORD :=
  mkHevc 1 0 0 1 0x60000000 0xb00000000000 93 0 0 1 0 0 0 0 1 1 3
    [mkUnit 1 32 1 [[0x40; 0x01; 0x0c]]; mkUnit 1 33 1 [[0x42; 0x01]]; mkUnit 1 34 2 [[0x44; 0x01]; [0x44; 0x02]]].
Definition empty_hevc : HEVC_DEC_CONF_RECORD := mkHevc 0 0 0 0 0 0 0 0 0 0 0 0 0 0 0 0 0 [].

Lemma hevc_config_roundtrip_witness :
  GetHevcDecInfoFromExtradata empty_hevc (hevc_bytes sample_hevc) (zlen (hevc_bytes sample_hevc)) =
  Done (0, sample_hevc).
Proof.
  apply hevc_config_roundtrip; [|done].
  split; cbn; [done|lia..|]. split; [by vm_compute|]. unfold hevc_unit_ok.
  repeat constructor; cbn; try lia; try by vm_compute.
Defined.

Lemma lhevc_temporal_layers_flattened_witness :
  exists r, GetLHevcDecInfoFromExtradata (mkLHevc 0 0 0 0 0 0 0 0 0 0 []) [1; 0; 0; 0; 4 * 8 + 7; 0] 6 = Done (0, r) /\
    l_numTemporalLayers r = 1.
Proof.
  eexists. split; [reflexivity|].
  eapply (lhevc_temporal_layers_flattened _ 1 0 0 0 7 4 0 [] 6); [lia|lia|reflexivity].
Defined.
