(* ===== verification/FlvMux.v ===== *)
(** * [FlvMux]: the FLV muxer

    Models [src/format/flv/flv_mux.cpp]: the component that wraps media packets
    into FLV tags.  What [OutputPacket] hands to the sinks and what [Report] says
    are events appended to [m_log_], in order (the text of a report is not
    modelled).  [SourceData] rewrites the packet it is given, which the caller
    shares: the packet after the call is part of the result.  The names of the
    component and of its sinks are left out. *)
From S2P Require Import Prelude ByteStream DataBuffer Amf0 Media H264.

Inductive flv_event :=
  | EvPacket (p : Media_Packet)
  | EvReport (type : bytes).

Record FlvMuxer := mkMuxer {
  m_has_video_ : bool;
  m_has_audio_ : bool;
  sps_ : bytes;             (* uint8_t[128] *)
  pps_ : bytes;             (* uint8_t[128] *)
  sps_len_ : Z;
  pps_len_ : Z;
  first_video_ : bool;
  header_ready_ : bool;
  m_options_ : list (bytes * bytes);
  m_log_ : list flv_event
}.

(** The two arrays are not initialised by the constructor. *)
Definition FlvMuxer_new (sps pps : bytes) : FlvMuxer :=
  mkMuxer true true sps pps (-1) (-1) false false
    [(str "onlyaudio", str "false"); (str "onlyvideo", str "false")] [].

Definition set_has (v a : bool) (m : FlvMuxer) : FlvMuxer :=
  mkMuxer v a (sps_ m) (pps_ m) (sps_len_ m) (pps_len_ m) (first_video_ m) (header_ready_ m) (m_options_ m) (m_log_ m).
Definition set_sps (s : bytes) (n : Z) (m : FlvMuxer) : FlvMuxer :=
  mkMuxer (m_has_video_ m) (m_has_audio_ m) s (pps_ m) n (pps_len_ m) (first_video_ m) (header_ready_ m) (m_options_ m) (m_log_ m).
Definition set_pps (s : bytes) (n : Z) (m : FlvMuxer) : FlvMuxer :=
  mkMuxer (m_has_video_ m) (m_has_audio_ m) (sps_ m) s (sps_len_ m) n (first_video_ m) (header_ready_ m) (m_options_ m) (m_log_ m).
Definition set_first_video (b : bool) (m : FlvMuxer) : FlvMuxer :=
  mkMuxer (m_has_video_ m) (m_has_audio_ m) (sps_ m) (pps_ m) (sps_len_ m) (pps_len_ m) b (header_ready_ m) (m_options_ m) (m_log_ m).
Definition set_header_ready (b : bool) (m : FlvMuxer) : FlvMuxer :=
  mkMuxer (m_has_video_ m) (m_has_audio_ m) (sps_ m) (pps_ m) (sps_len_ m) (pps_len_ m) (first_video_ m) b (m_options_ m) (m_log_ m).
Definition set_m_options (o : list (bytes * bytes)) (m : FlvMuxer) : FlvMuxer :=
  mkMuxer (m_has_video_ m) (m_has_audio_ m) (sps_ m) (pps_ m) (sps_len_ m) (pps_len_ m) (first_video_ m) (header_ready_ m) o (m_log_ m).
Definition mux_event (e : flv_event) (m : FlvMuxer) : FlvMuxer :=
  mkMuxer (m_has_video_ m) (m_has_audio_ m) (sps_ m) (pps_ m) (sps_len_ m) (pps_len_ m) (first_video_ m) (header_ready_ m) (m_options_ m) (m_log_ m ++ [e]).

Definition Report_mux (m : FlvMuxer) : FlvMuxer := mux_event (EvReport (str "error")) m.

(** [options_[key] = value] on a map that has the key. *)
Fixpoint option_store (key value : bytes) (o : list (bytes * bytes)) : list (bytes * bytes) :=
  match o with
  | [] => []
  | (k, v) :: o => if decide (k = key) then (k, value) :: o else (k, v) :: option_store key value o
  end.

(** [None] is the exception of an unknown key. *)
Definition AddOption (key value : bytes) (m : FlvMuxer) : option FlvMuxer :=
  match map_find key (m_options_ m) with
  | None => None
  | Some _ =>
      let m := set_m_options (option_store key value (m_options_ m)) m in
      let m := if decide (map_find (str "onlyvideo") (m_options_ m) = Some (str "true"))
               then set_has true false m else m in
      let m := if decide (map_find (str "onlyaudio") (m_options_ m) = Some (str "true"))
               then set_has false true m else m in
      Some m
  end.

Section mux.
Context `{Allocator}.

Definition flv_file_header (has_video has_audio : bool) : bytes :=
  let flag := 0 in
  let flag := if has_video then Z.lor flag 0x01 else flag in
  let flag := if has_audio then Z.lor flag 0x04 else flag in
  [0x46; 0x4c; 0x56; 0x01; flag; 0x00; 0x00; 0x00; 0x09; 0; 0; 0; 0].

Definition MuxFlvHeader (pkt : Media_Packet) (m : FlvMuxer) : outcome Media_Packet :=
  append_packet (flv_file_header (m_has_video_ m) (m_has_audio_ m)) (set_fmt_type MEDIA_FORMAT_FLV pkt).

Definition OutputPacket (pkt : Media_Packet) (m : FlvMuxer) : FlvMuxer := mux_event (EvPacket pkt) m.

(** The tag type and [media_size] by packet type; [None] is the error return. *)
Definition tag_type_size (pkt : Media_Packet) (data_size : Z) : option (Z * Z) :=
  match av_type_ pkt with
  | MEDIA_VIDEO_TYPE => Some (FLV_TAG_VIDEO, 2 + 3 + data_size)
  | MEDIA_AUDIO_TYPE => Some (FLV_TAG_AUDIO, 2 + data_size)
  | MEDIA_METADATA_TYPE => Some (FLV_TAG_TYPE_META, data_size)
  | _ => None
  end.

(** [header_data[1..10]]: data size, timestamp and its extension, stream id. *)
Definition tag_fields (media_size dts : Z) : bytes :=
  let timestamp_base := u32 (Z.land dts 0xffffff) in
  let timestamp_ext := Z.land (Z.shiftr (u32 (Z.land dts 0xffffff)) 24) 0xff in
  [Z.land (Z.shiftr media_size 16) 0xff; Z.land (Z.shiftr media_size 8) 0xff; Z.land media_size 0xff;
   Z.land (Z.shiftr timestamp_base 16) 0xff; Z.land (Z.shiftr timestamp_base 8) 0xff; Z.land timestamp_base 0xff;
   Z.land timestamp_ext 0xff; 0; 0; 1].

(** [header_data[11..]] and the constant part of [pre_size]; [None] is the error
    return for an unsupported codec. *)
Definition media_header (pkt : Media_Packet) : option (bytes * Z) :=
  match av_type_ pkt with
  | MEDIA_VIDEO_TYPE =>
      let '(flag, b1) :=
        if is_seq_hdr_ pkt then (FLV_VIDEO_KEY_FLAG, FLV_VIDEO_AVC_SEQHDR)
        else if is_key_frame_ pkt then (FLV_VIDEO_KEY_FLAG, FLV_VIDEO_AVC_NALU)
        else (FLV_VIDEO_INTER_FLAG, FLV_VIDEO_AVC_NALU) in
      match flv_video_codec (codec_type_ pkt) with
      | None => None
      | Some c =>
          let ts_delta := ts_delta_of pkt in
          Some ([Z.lor flag c; b1; Z.land (Z.shiftr ts_delta 16) 0xff; Z.land (Z.shiftr ts_delta 8) 0xff;
                 Z.land ts_delta 0xff], 11 + 5)
      end
  | MEDIA_AUDIO_TYPE =>
      match flv_audio_codec (codec_type_ pkt) with
      | None => None
      | Some c => Some ([Z.lor 0x0f c; if is_seq_hdr_ pkt then 0x00 else 0x01], 11 + 2)
      end
  | _ => Some ([], 11)
  end.

(** [pre_tag_size_p] *)
Definition pre_tag_size (pre_size : Z) : bytes :=
  [Z.land (Z.shiftr pre_size 24) 0xff; Z.land (Z.shiftr pre_size 16) 0xff;
   Z.land (Z.shiftr pre_size 8) 0xff; Z.land pre_size 0xff].

Definition InputPacket (pkt : Media_Packet) (m : FlvMuxer) : outcome (Z * FlvMuxer) :=
  out ← Media_Packet_new;
  '(m, out) ← (if header_ready_ m then mret (m, out)
               else let m := set_header_ready true m in out ← MuxFlvHeader out m; mret (m, out));
  let data_size := DataLen (buffer_ptr_ pkt) in
  match tag_type_size pkt data_size with
  | None => mret (-1, Report_mux m)
  | Some (tag, media_size) =>
      match media_header pkt with
      | None => mret (-1, Report_mux m)
      | Some (hdr, base) =>
          let pre_size := base + DataLen (buffer_ptr_ pkt) in
          out ← append_packet ([tag] ++ tag_fields media_size (dts_ pkt) ++ hdr) out;
          d ← read_range (Data (buffer_ptr_ pkt)) 0 (DataLen (buffer_ptr_ pkt));
          out ← append_packet d out;
          out ← append_packet (pre_tag_size pre_size) out;
          let out := set_codec_type (codec_type_ pkt) (set_av_type (av_type_ pkt) out) in
          let out := set_pts (pts_ pkt) (set_dts (dts_ pkt) (set_fmt_type MEDIA_FORMAT_FLV out)) in
          mret (0, OutputPacket out m)
      end
  end.

(** The packet [SourceData] sends before a key frame: the decoder configuration
    record of the stored parameter sets.  [extra_data] is an uninitialised local
    array of 1024 bytes. *)
Definition send_seq_header (extra_data : bytes) (pkt : Media_Packet) (m : FlvMuxer) : outcome FlvMuxer :=
  let m := set_first_video true m in
  '(extra_data, extra_len) ← get_video_extradata (pps_ m) (pps_len_ m) (sps_ m) (sps_len_ m) extra_data;
  seq ← Media_Packet_new;
  let seq := set_is_key_frame false (set_is_seq_hdr true (copy_properties pkt seq)) in
  let seq := set_buffer_ptr (Reset (buffer_ptr_ seq)) seq in
  d ← read_range extra_data 0 extra_len;
  seq ← append_packet d seq;
  '(_, m) ← InputPacket seq m;
  mret m.

(** [p[0..3] = nalu_len], where [p] moves back one byte for a three-byte code. *)
Definition put_length (pos nalu_len : Z) (pkt : Media_Packet) : outcome Media_Packet :=
  let '(ok, b) := if pos =? 3 then ConsumeData (buffer_ptr_ pkt) (-1) else (true, buffer_ptr_ pkt) in
  b ← poke b (if ok : bool then 0 else -1) (Write4Bytes nalu_len);
  mret (set_buffer_ptr b pkt).

Definition store_set (region d : bytes) : outcome bytes := write_at region 0 d.

(** The result holds the packet as the call leaves it. *)
Definition SourceData (extra_data : bytes) (pkt : Media_Packet) (m : FlvMuxer)
    : outcome (Z * Media_Packet * FlvMuxer) :=
  if decide (av_type_ pkt = MEDIA_VIDEO_TYPE) then
    let p := Data (buffer_ptr_ pkt) in
    let len := i32 (DataLen (buffer_ptr_ pkt)) in
    if len <? 5 then mret (-1, pkt, Report_mux m)
    else
      pos ← GetNaluTypePos p;
      if pos <? 3 then mret (-1, pkt, m)
      else
        t ← p.[pos];
        if (len <? 128) && H264_IS_SPS t then
          d ← read_range p pos (len - pos); s ← store_set (sps_ m) d; mret (0, pkt, set_sps s (len - pos) m)
        else if (len <? 128) && H264_IS_PPS t then
          d ← read_range p pos (len - pos); s ← store_set (pps_ m) d; mret (0, pkt, set_pps s (len - pos) m)
        else if (pps_len_ m <=? 0) || (sps_len_ m <=? 0) then mret (-1, pkt, m)
        else
          m ← (if H264_IS_KEYFRAME t || negb (first_video_ m) then send_seq_header extra_data pkt m else mret m);
          pkt ← put_length pos (len - pos) pkt;
          '(ret, m) ← InputPacket pkt m;
          mret (ret, pkt, m)
  else
    '(ret, m) ← InputPacket pkt m;
    mret (ret, pkt, m).
End mux.

(** ** The bytes of a tag *)

(** An FLV tag as the format describes it: type, size, timestamp, stream id,
    body, and the size of the tag. *)
Definition flv_tag (type ts : Z) (body : bytes) : bytes :=
  [type] ++ be_bytes 3 (zlen body) ++ be_bytes 3 ts ++ [0; 0; 0; 1] ++ body ++ be_bytes 4 (11 + zlen body).

(** The tag of a packet; [None] if the muxer refuses it. *)
Definition packet_tag (pkt : Media_Packet) : option bytes :=
  let data := contents (buffer_ptr_ pkt) in
  match tag_type_size pkt (zlen data), media_header pkt with
  | Some (type, _), Some (hdr, _) => Some (flv_tag type (dts_ pkt) (hdr ++ data))
  | _, _ => None
  end.

Lemma tag_fields_bytes size dts :
  tag_fields size dts = be_bytes 3 size ++ be_bytes 3 dts ++ [0; 0; 0; 1].
Proof.
  unfold tag_fields. rewrite (low_mask dts 0xffffff 24) by done. unfold u32.
  rewrite (Z.mod_small (dts mod 2 ^ 24)) by div_lia.
  rewrite <- (be_bytes_mod 3 dts). change (256 ^ Z.of_nat 3) with (2 ^ 24).
  rewrite (shift_mask _ 0xff 24 8), (Z.div_small (dts mod 2 ^ 24)) by (done || div_lia). reflexivity.
Qed.

(** The media header is as long as [media_size] and [pre_size] say. *)
Lemma media_header_sizes pkt n type size hdr base :
  tag_type_size pkt n = Some (type, size) -> media_header pkt = Some (hdr, base) ->
  size = zlen hdr + n /\ base = 11 + zlen hdr /\ zlen hdr <= 5.
Proof.
  unfold tag_type_size, media_header. destruct (av_type_ pkt); try discriminate.
  - intros [= <- <-]. destruct (if is_seq_hdr_ pkt then _ else _) as [f b1].
    destruct (flv_video_codec _); intros [= <- <-]. unfold zlen. cbn [length]. lia.
  - intros [= <- <-]. destruct (flv_audio_codec _); intros [= <- <-]. unfold zlen. cbn [length]. lia.
  - intros [= <- <-] [= <- <-]. unfold zlen. cbn [length]. lia.
Qed.

Section mux_proofs.
Context `{Allocator}.

Definition building (p : Media_Packet) : Prop :=
  wf (buffer_ptr_ p) /\ start_ (buffer_ptr_ p) = PRE_RESERVE_HEADER_SIZE.

Lemma append_packet_building d p :
  building p -> zlen (contents (buffer_ptr_ p)) + zlen d <= max_queue ->
  exists b, append_packet d p = Done (set_buffer_ptr b p) /\ building (set_buffer_ptr b p) /\
    contents b = contents (buffer_ptr_ p) ++ d.
Proof.
  intros [Hwf Hst] Hmax. destruct (append_packet_spec d p Hwf Hst Hmax) as (b & -> & Hb & Hc & Hs).
  exists b. by split_and!.
Qed.

(** The file header, written in front of the first tag. *)
Definition header_part (m : FlvMuxer) : bytes :=
  if header_ready_ m then [] else flv_file_header (m_has_video_ m) (m_has_audio_ m).

Lemma header_part_written m p :
  building p -> contents (buffer_ptr_ p) = [] ->
  exists p', (if header_ready_ m then Done (m, p)
              else let m := set_header_ready true m in out ← MuxFlvHeader p m; mret (m, out)) =
      Done (set_header_ready true m, p') /\ building p' /\ contents (buffer_ptr_ p') = header_part m.
Proof.
  intros Hb Hc. unfold header_part, MuxFlvHeader. destruct (header_ready_ m) eqn:Hr.
  - exists p. split_and!; [|done|done]. do 2 f_equal. destruct m; cbn in Hr |- *. by rewrite Hr.
  - cbv zeta. cbn [m_has_video_ m_has_audio_ set_header_ready].
    destruct (append_packet_building (flv_file_header (m_has_video_ m) (m_has_audio_ m))
      (set_fmt_type MEDIA_FORMAT_FLV p)) as (b & -> & Hb' & Hc'); [by destruct Hb|cbn; rewrite Hc; by vm_compute|].
    simpl_m. eexists. split; [reflexivity|]. split; [done|]. cbn in Hc' |- *. by rewrite Hc', Hc.
Qed.

Lemma header_part_length m : 0 <= zlen (header_part m) <= 13.
Proof. unfold header_part. destruct (header_ready_ m); split; by vm_compute. Qed.

(** The muxer writes the tag of the packet: for every packet it supports, one
    packet goes to the sinks, holding the 13-byte file header exactly when it is
    the first, then the FLV tag with the packet's type, size, timestamp (its low
    24 bits), media header, data and tag size. *)
Theorem InputPacket_writes_tag pkt m tag :
  wf (buffer_ptr_ pkt) -> packet_tag pkt = Some tag -> zlen (contents (buffer_ptr_ pkt)) <= max_queue - 64 ->
  exists out, InputPacket pkt m = Done (0, OutputPacket out (set_header_ready true m)) /\
    contents (buffer_ptr_ out) = header_part m ++ tag /\ building out /\
    av_type_ out = av_type_ pkt /\ codec_type_ out = codec_type_ pkt /\
    dts_ out = dts_ pkt /\ pts_ out = pts_ pkt.
Proof.
  intros Hwf Htag Hmax. unfold packet_tag in Htag. unfold InputPacket.
  destruct Media_Packet_new_spec as (p0 & -> & Hw0 & Hc0 & Hs0 & _). simpl_m.
  destruct (header_part_written m p0) as (p1 & Hp1 & Hb1 & Hc1); [by split|done|].
  unfold mret, outcome_ret in Hp1. rewrite Hp1. simpl_m. clear Hp1.
  pose proof (read_contents _ Hwf) as Hrd. rewrite (DataLen_contents _ Hwf) in Hrd |- *.
  set (data := contents (buffer_ptr_ pkt)) in *. pose proof (zlen_nonneg data).
  destruct (tag_type_size pkt (zlen data)) as [[type size]|] eqn:Hty; [|discriminate].
  destruct (media_header pkt) as [[hdr base]|] eqn:Hh; [|discriminate].
  injection Htag as <-. destruct (media_header_sizes _ _ _ _ _ _ Hty Hh) as (-> & -> & Hhl).
  rewrite tag_fields_bytes. pose proof (zlen_nonneg hdr). pose proof (header_part_length m).
  set (front := [type] ++ _). unfold max_queue in *.
  assert (zlen front <= 16) as Hf.
  { unfold front. rewrite !zlen_app. change (zlen (be_bytes 3 _)) with 3. change (zlen [_]) with 1.
    change (zlen [_; _; _; _]) with 4. lia. }
  destruct (append_packet_building front p1) as (b2 & -> & Hb2 & Hc2);
    [done|rewrite Hc1; unfold max_queue; lia|].
  simpl_m. rewrite Hrd. simpl_m.
  destruct (append_packet_building data (set_buffer_ptr b2 p1)) as (b3 & -> & Hb3 & Hc3);
    [done|cbn [buffer_ptr_ set_buffer_ptr]; rewrite Hc2, Hc1, zlen_app; unfold max_queue; lia|].
  simpl_m. cbn [buffer_ptr_ set_buffer_ptr] in Hc3.
  destruct (append_packet_building (pre_tag_size (11 + zlen hdr + zlen data)) (set_buffer_ptr b3 (set_buffer_ptr b2 p1)))
    as (b4 & -> & Hb4 & Hc4);
    [done|cbn [buffer_ptr_ set_buffer_ptr]; rewrite Hc3, Hc2, Hc1, !zlen_app; change (zlen (pre_tag_size _)) with 4; unfold max_queue; lia|].
  simpl_m. cbn [buffer_ptr_ set_buffer_ptr] in Hc4. eexists. split; [reflexivity|]. split_and!; try done.
  cbn [buffer_ptr_ set_pts set_dts set_fmt_type set_codec_type set_av_type set_buffer_ptr].
  rewrite Hc4, Hc3, Hc2, Hc1. unfold front, flv_tag. rewrite <- !app_assoc, !zlen_app.
  replace (11 + (zlen hdr + zlen data)) with (11 + zlen hdr + zlen data) by lia. reflexivity.
Qed.

(** A packet that is refused takes the file header with it: [header_ready_] is
    set before the packet's type is looked at, so when the first packet is of an
    unsupported type no output ever holds the FLV header. *)
Theorem refused_first_packet_loses_header pkt m :
  header_ready_ m = false -> av_type_ pkt = MEDIA_UNKOWN_TYPE ->
  InputPacket pkt m = Done (-1, Report_mux (set_header_ready true m)).
Proof.
  intros Hh Hav. unfold InputPacket.
  destruct Media_Packet_new_spec as (p0 & -> & Hw0 & Hc0 & Hs0 & _). simpl_m.
  destruct (header_part_written m p0) as (p1 & Hp1 & _); [by split|done|].
  unfold mret, outcome_ret in Hp1. rewrite Hp1. simpl_m. unfold tag_type_size. by rewrite Hav.
Qed.
End mux_proofs.
