(* ===== verification/FlvDemux.v ===== *)
(** * [FlvDemux]: the FLV demuxer

    Models [src/format/flv/flv_demux.cpp].  [d_buffer_] is the queue of bytes
    received and not consumed yet, what the member [buffer_] holds as long as no append
    moves it onto itself (the last section of [DataBuffer]); packets handed to the sinks and reports are the events of
    [d_log_].  With the option [re] the source also sleeps before a packet, which
    changes nothing of the state; the text built by [DecodeMetaData] for its
    report is not modelled.  The loops of [InputPacket] and [DecodeMetaData] run
    on fuel. *)
From S2P Require Import Prelude ByteStream Double DataBuffer Amf0 AudioHeader Media H264 FlvMux.

Definition FLV_RET_NEED_MORE : Z := 1.
Definition FLV_HEADER_LEN : Z := 9.
Definition FLV_TAG_PRE_SIZE : Z := 4.
Definition FLV_TAG_HEADER_LEN : Z := 11.

Definition METADATA_TYPE_ONTMETADATA : Z := 0.
Definition METADATA_TYPE_ONTEXTDATA : Z := 1.
Definition METADATA_TYPE_ONCAPTION : Z := 2.
Definition METADATA_TYPE_ONCAPTIONINFO : Z := 3.
Definition METADATA_TYPE_UNKNOWN : Z := 9.

Record FlvDemuxer := mkDemuxer {
  d_buffer_ : bytes;
  d_key_ : bytes;
  d_has_video_ : bool;
  d_has_audio_ : bool;
  flv_header_ready_ : bool;
  tag_header_ready_ : bool;
  tag_type_ : Z;
  tag_data_size_ : Z;
  tag_timestamp_ : Z;
  d_aac_asc_type_ : Z;
  d_log_ : list flv_event
}.

Definition FlvDemuxer_new : FlvDemuxer :=
  mkDemuxer [] [] false false false false 0 0 0 ASC_TYPE_AAC_LC [].

Definition set_d_buffer (v : bytes) (d : FlvDemuxer) : FlvDemuxer :=
  mkDemuxer v (d_key_ d) (d_has_video_ d) (d_has_audio_ d) (flv_header_ready_ d) (tag_header_ready_ d) (tag_type_ d) (tag_data_size_ d) (tag_timestamp_ d) (d_aac_asc_type_ d) (d_log_ d).
Definition set_d_key (v : bytes) (d : FlvDemuxer) : FlvDemuxer :=
  mkDemuxer (d_buffer_ d) v (d_has_video_ d) (d_has_audio_ d) (flv_header_ready_ d) (tag_header_ready_ d) (tag_type_ d) (tag_data_size_ d) (tag_timestamp_ d) (d_aac_asc_type_ d) (d_log_ d).
Definition set_d_has_video (v : bool) (d : FlvDemuxer) : FlvDemuxer :=
  mkDemuxer (d_buffer_ d) (d_key_ d) v (d_has_audio_ d) (flv_header_ready_ d) (tag_header_ready_ d) (tag_type_ d) (tag_data_size_ d) (tag_timestamp_ d) (d_aac_asc_type_ d) (d_log_ d).
Definition set_d_has_audio (v : bool) (d : FlvDemuxer) : FlvDemuxer :=
  mkDemuxer (d_buffer_ d) (d_key_ d) (d_has_video_ d) v (flv_header_ready_ d) (tag_header_ready_ d) (tag_type_ d) (tag_data_size_ d) (tag_timestamp_ d) (d_aac_asc_type_ d) (d_log_ d).
Definition set_flv_header_ready (v : bool) (d : FlvDemuxer) : FlvDemuxer :=
  mkDemuxer (d_buffer_ d) (d_key_ d) (d_has_video_ d) (d_has_audio_ d) v (tag_header_ready_ d) (tag_type_ d) (tag_data_size_ d) (tag_timestamp_ d) (d_aac_asc_type_ d) (d_log_ d).
Definition set_tag_header_ready (v : bool) (d : FlvDemuxer) : FlvDemuxer :=
  mkDemuxer (d_buffer_ d) (d_key_ d) (d_has_video_ d) (d_has_audio_ d) (flv_header_ready_ d) v (tag_type_ d) (tag_data_size_ d) (tag_timestamp_ d) (d_aac_asc_type_ d) (d_log_ d).
Definition set_tag (type size ts : Z) (d : FlvDemuxer) : FlvDemuxer :=
  mkDemuxer (d_buffer_ d) (d_key_ d) (d_has_video_ d) (d_has_audio_ d) (flv_header_ready_ d) (tag_header_ready_ d) type size ts (d_aac_asc_type_ d) (d_log_ d).
Definition demux_event (e : flv_event) (d : FlvDemuxer) : FlvDemuxer :=
  mkDemuxer (d_buffer_ d) (d_key_ d) (d_has_video_ d) (d_has_audio_ d) (flv_header_ready_ d) (tag_header_ready_ d) (tag_type_ d) (tag_data_size_ d) (tag_timestamp_ d) (d_aac_asc_type_ d) (d_log_ d ++ [e]).

Definition Report_demux (d : FlvDemuxer) : FlvDemuxer := demux_event (EvReport (str "error")) d.
Definition SinkData (pkt : Media_Packet) (d : FlvDemuxer) : FlvDemuxer := demux_event (EvPacket pkt) d.

(** ** Metadata *)

(** [metadata_[key] = value] *)
Fixpoint map_assign (k v : bytes) (m : list (bytes * bytes)) : list (bytes * bytes) :=
  match m with
  | [] => [(k, v)]
  | (k', v') :: m' =>
      if str_ltb k k' then (k, v) :: m
      else if str_ltb k' k then (k', v') :: map_assign k v m'
      else (k', v) :: m'
  end.

Definition metadata_type_of (name : bytes) : Z :=
  if decide (name = str "onTextData") then METADATA_TYPE_ONTEXTDATA
  else if decide (name = str "onCaption") then METADATA_TYPE_ONCAPTION
  else if decide (name = str "onCaptionInfo") then METADATA_TYPE_ONCAPTIONINFO
  else if decide (name = str "onMetaData") then METADATA_TYPE_ONTMETADATA
  else METADATA_TYPE_UNKNOWN.

(** The text stored for a property; [snprintf] keeps 79 characters. *)
Definition metadata_text (i : AMF_ITERM) : option bytes :=
  match amf_type_ i with
  | AMF_DATA_TYPE_STRING => Some (desc_str_ i)
  | AMF_DATA_TYPE_NUMBER => Some (take 79 (fixed_double 2 (number_ i)))
  | AMF_DATA_TYPE_BOOL => Some (if enable_ i then str "true" else str "false")
  | _ => None
  end.

Definition metadata_pairs (obj : list (bytes * AMF_ITERM)) (m : list (bytes * bytes)) : list (bytes * bytes) :=
  fold_left (fun m '(k, i) => match metadata_text i with Some v => map_assign k v m | None => m end) obj m.

(** The loop of [DecodeMetaData]: [Some pkt] for the return value 0, [None] for -1.
    [first] is [index == 0] and [is_key] the parity flag of the report's text. *)
Fixpoint metadata_loop (fuel : nat) (data : bytes) (data_len : Z) (item : AMF_ITERM) (first is_key : bool)
    (pkt : Media_Packet) (d : FlvDemuxer) : outcome (option Media_Packet * FlvDemuxer) :=
  match fuel with
  | O => Fault OutOfFuel
  | S fuel =>
      '(ret, data, data_len, item) ← Decode (2 * length data + 1) data data_len item;
      if ret <? 0 then mret (Some pkt, d)
      else
        let is_key :=
          if bool_decide (amf_type_ item = AMF_DATA_TYPE_STRING) || bool_decide (amf_type_ item = AMF_DATA_TYPE_LONG_STRING)
          then negb is_key else true in
        _ ← (if (0 <? data_len) && is_key then data.[0] else mret 0);
        if first && negb (bool_decide (amf_type_ item = AMF_DATA_TYPE_STRING)) then mret (None, d)
        else
          let pkt :=
            if first then set_metadata_type (Some (metadata_type_of (desc_str_ item))) pkt
            else if bool_decide (amf_type_ item = AMF_DATA_TYPE_OBJECT)
            then set_metadata (metadata_pairs (amf_obj_ item) (metadata_ pkt)) pkt else pkt in
          if 1 <? data_len then metadata_loop fuel data data_len item false is_key pkt d
          else mret (Some pkt, demux_event (EvReport (str "MetaData")) d)
  end.
Definition DecodeMetaData (data : bytes) (data_len : Z) (pkt : Media_Packet) (d : FlvDemuxer)
    : outcome (option Media_Packet * FlvDemuxer) :=
  metadata_loop (S (length data)) data data_len amf_default true true pkt d.

Section demux.
Context `{Allocator}.

(** ** Tags *)

(** [GetAudioInfoByAsc] into the fields of a packet. *)
Definition asc_into (data : bytes) (size : Z) (pkt : Media_Packet) : outcome Media_Packet :=
  '(_, a) ← GetAudioInfoByAsc data size (mkAudio (aac_asc_type_ pkt) (sample_rate_ pkt) (channel_ pkt));
  mret (set_has_flv_audio_asc true
    (Media.set_channel (channel a) (Media.set_sample_rate (sample_rate a) (set_aac_asc_type (audio_type a) pkt)))).

Definition demux_audio_codec (b : Z) : option MEDIA_CODEC_TYPE :=
  if Z.land b 0xf0 =? FLV_AUDIO_AAC_CODEC then Some MEDIA_CODEC_AAC
  else if Z.land b 0xf0 =? FLV_AUDIO_OPUS_CODEC then Some MEDIA_CODEC_OPUS
  else if Z.land b 0xf0 =? FLV_AUDIO_MP3_CODEC then Some MEDIA_CODEC_MP3 else None.

(** The audio branch of [HandlePacket]; [None] is the error return. *)
Definition audio_tag (p : bytes) (asc_type : Z) (pkt : Media_Packet) : outcome (option Media_Packet) :=
  let pkt := set_av_type MEDIA_AUDIO_TYPE pkt in
  p0 ← p.[0];
  match demux_audio_codec p0 with
  | None => mret None
  | Some codec =>
      let pkt := set_codec_type codec pkt in
      p1 ← p.[1];
      if p1 =? 0x00 then
        pkt ← (if Z.land p0 0xf0 =? FLV_AUDIO_AAC_CODEC
               then asc_into (drop 2 p) (u64 (DataLen (buffer_ptr_ pkt) - 2)) pkt else mret pkt);
        mret (Some (set_is_seq_hdr true pkt))
      else
        mret (Some (set_aac_asc_type (u8 asc_type) (set_is_seq_hdr false (set_is_key_frame true pkt))))
  end.

Definition demux_video_codec (b : Z) : option MEDIA_CODEC_TYPE :=
  if Z.land b 0x0f =? FLV_VIDEO_H264_CODEC then Some MEDIA_CODEC_H264
  else if Z.land b 0x0f =? FLV_VIDEO_H265_CODEC then Some MEDIA_CODEC_H265
  else if Z.land b 0x0f =? FLV_VIDEO_VP8_CODEC then Some MEDIA_CODEC_VP8
  else if Z.land b 0x0f =? FLV_VIDEO_VP9_CODEC then Some MEDIA_CODEC_VP9 else None.

(** The flags of a video tag. *)
Definition video_flags (p : bytes) (p0 : Z) (pkt : Media_Packet) : outcome Media_Packet :=
  if Z.land p0 0xf0 =? FLV_VIDEO_KEY_FLAG then
    p1 ← p.[1];
    mret (if p1 =? 0x00 then set_is_seq_hdr true pkt
          else if p1 =? 0x01 then set_is_key_frame true (set_is_seq_hdr false pkt)
          else set_is_seq_hdr false (set_is_key_frame false pkt))
  else mret pkt.

Definition is_avc (c : MEDIA_CODEC_TYPE) : bool :=
  bool_decide (c = MEDIA_CODEC_H264) || bool_decide (c = MEDIA_CODEC_H265).

Definition stamp (ts ts_delta : Z) (pkt : Media_Packet) : Media_Packet :=
  set_pts (u32 (ts + ts_delta)) (set_dts ts pkt).

(** The SPS and PPS packets of an H.264 sequence header; the local arrays [sps]
    and [pps] of 512 bytes are read back only where they have been written. *)
Definition avc_seq_header (nalu : bytes) (size : Z) (pkt : Media_Packet) (d : FlvDemuxer) : outcome FlvDemuxer :=
  let start_code := [0; 0; 0; 1] in
  '(_, pps, pps_len, sps, sps_len) ←
    GetSpsPpsFromExtraData (replicate 512 0) 0 (replicate 512 0) 0 nalu size;
  sps_ptr ← Media_Packet_new;
  pps_ptr ← Media_Packet_new;
  let sps_ptr := set_is_key_frame false (set_is_seq_hdr true (copy_properties pkt sps_ptr)) in
  let pps_ptr := set_is_key_frame false (set_is_seq_hdr true (copy_properties pkt pps_ptr)) in
  sps_ptr ← append_packet start_code sps_ptr;
  pps_ptr ← append_packet start_code pps_ptr;
  s ← read_range sps 0 sps_len;
  sps_ptr ← append_packet s sps_ptr;
  q ← read_range pps 0 pps_len;
  pps_ptr ← append_packet q pps_ptr;
  mret (SinkData pps_ptr (SinkData sps_ptr d)).

(** A NAL unit of a tag, as it goes to the sinks. *)
Definition sink_nalu (pkt : Media_Packet) (b : DataBuffer) (d : FlvDemuxer) : outcome FlvDemuxer :=
  let nalu_data := Data b in
  pos ← GetNaluTypePos nalu_data;
  if pos <? 3 then mret d
  else
    out ← Media_Packet_new;
    let out := copy_properties pkt out in
    t ← nalu_data.[pos];
    let out := if H264_IS_PPS t || H264_IS_SPS t then set_is_key_frame false (set_is_seq_hdr true out) else out in
    let out := if H264_IS_KEYFRAME t then set_is_key_frame true (set_is_seq_hdr false out) else out in
    data ← read_range nalu_data 0 (DataLen b);
    out ← append_packet data out;
    mret (SinkData out d).
Fixpoint sink_nalus (pkt : Media_Packet) (nalus : list DataBuffer) (d : FlvDemuxer) : outcome FlvDemuxer :=
  match nalus with
  | [] => mret d
  | b :: nalus => d ← sink_nalu pkt b d; sink_nalus pkt nalus d
  end.

(** The end of [HandlePacket] for a packet that is ready. *)
Definition deliver (p : bytes) (header_len ts_delta : Z) (pkt : Media_Packet) (d : FlvDemuxer) : outcome FlvDemuxer :=
  if header_len <? i32 (tag_data_size_ d) then
    let pkt := stamp (tag_timestamp_ d) ts_delta pkt in
    let size := u32 (tag_data_size_ d - header_len) in
    if is_avc (codec_type_ pkt) then
      '(_, nalus) ← Avcc2Nalus (drop (Z.to_nat header_len) p) size;
      sink_nalus pkt nalus d
    else
      data ← read_range p header_len size;
      pkt ← append_packet data pkt;
      p0 ← p.[0];
      asc ← (if Z.land p0 0xf0 =? FLV_AUDIO_AAC_CODEC then p1 ← p.[1]; mret (p1 =? 0x00) else mret false);
      pkt ← (if asc : bool then asc_into (drop 2 p) (u64 (DataLen (buffer_ptr_ pkt) - 2)) pkt else mret pkt);
      mret (SinkData pkt d)
  else mret d.

(** ** [HandlePacket] *)

(** [buffer_.ConsumeData(tag_data_size_ + FLV_TAG_PRE_SIZE); tag_header_ready_ = false] *)
Definition tag_done (d : FlvDemuxer) : FlvDemuxer :=
  set_tag_header_ready false (set_d_buffer (consume (d_buffer_ d) (tag_data_size_ d + FLV_TAG_PRE_SIZE)) d).

(** The file header: [Some ret] ends the call. *)
Definition read_file_header (d : FlvDemuxer) : outcome (option Z * FlvDemuxer) :=
  if flv_header_ready_ d then mret (None, d)
  else if negb (require (d_buffer_ d) (FLV_HEADER_LEN + FLV_TAG_PRE_SIZE)) then mret (Some FLV_RET_NEED_MORE, d)
  else
    let p := d_buffer_ d in
    magic ← starts_with [70; 76; 86] p;
    if negb magic then mret (Some (-1), Report_demux d)
    else
      p4 ← p.[4];
      let d := if Z.land p4 0x01 =? 0x01 then set_d_has_video true d else d in
      let d := if Z.land p4 0x04 =? 0x04 then set_d_has_audio true d else d in
      size ← starts_with [0; 0; 0; 9] (drop 5 p);
      if negb size then mret (Some (-1), Report_demux d)
      else
        mret (None, set_flv_header_ready true (set_d_buffer (consume p (FLV_HEADER_LEN + FLV_TAG_PRE_SIZE)) d)).

Definition read_tag_header (d : FlvDemuxer) : outcome (option Z * FlvDemuxer) :=
  if tag_header_ready_ d then mret (None, d)
  else if negb (require (d_buffer_ d) FLV_TAG_HEADER_LEN) then mret (Some FLV_RET_NEED_MORE, d)
  else
    let p := d_buffer_ d in
    type ← p.[0];
    size ← Read3Bytes (drop 1 p);
    ts ← Read3Bytes (drop 4 p);
    ext ← (drop 7 p).[0];
    let ts := Z.lor ts (u32 (Z.shiftl ext 24)) in
    mret (None, set_d_buffer (consume p FLV_TAG_HEADER_LEN) (set_tag_header_ready true (set_tag type size ts d))).

(** The video branch. *)
Definition handle_video (p : bytes) (pkt : Media_Packet) (d : FlvDemuxer) : outcome (Z * FlvDemuxer) :=
  let header_len := 2 + 3 in
  p0 ← p.[0];
  let '(codec, d) :=
    match demux_video_codec p0 with Some c => (c, d) | None => (MEDIA_CODEC_UNKOWN, Report_demux d) end in
  pkt ← video_flags p p0 (set_codec_type codec (set_av_type MEDIA_VIDEO_TYPE pkt));
  ts_delta ← Read3Bytes (drop 2 p);
  let size := u32 (tag_data_size_ d - header_len) in
  let nalu := drop 5 p in
  if is_seq_hdr_ pkt && bool_decide (codec = MEDIA_CODEC_H264) && (size <? 512) then
    d ← avc_seq_header nalu size (stamp (tag_timestamp_ d) ts_delta pkt) d;
    mret (0, d)
  else if is_seq_hdr_ pkt && bool_decide (codec = MEDIA_CODEC_H265) then
    let pkt := set_fmt_type MEDIA_FORMAT_FLV (stamp (tag_timestamp_ d) ts_delta pkt) in
    data ← read_range nalu 0 size;
    pkt ← append_packet data (set_buffer_ptr (Reset (buffer_ptr_ pkt)) pkt);
    mret (0, SinkData pkt d)
  else
    d ← deliver p header_len ts_delta pkt d;
    mret (0, tag_done d).

(** The part of [HandlePacket] that runs once a whole tag is there. *)
Definition handle_tag (d : FlvDemuxer) : outcome (Z * FlvDemuxer) :=
  let p := d_buffer_ d in
  pkt ← Media_Packet_new;
  let pkt := set_pkt_key (d_key_ d) (set_fmt_type MEDIA_FORMAT_RAW pkt) in
  if tag_type_ d =? FLV_TAG_AUDIO then
    r ← audio_tag p (d_aac_asc_type_ d) pkt;
    match r with
    | None => mret (-1, Report_demux d)
    | Some pkt => d ← deliver p 2 0 pkt d; mret (0, tag_done d)
    end
  else if tag_type_ d =? FLV_TAG_VIDEO then handle_video p pkt d
  else if tag_type_ d =? FLV_TAG_TYPE_META then
    '(r, d) ← DecodeMetaData p (i32 (tag_data_size_ d)) (set_av_type MEDIA_METADATA_TYPE pkt) d;
    match r with
    | None => mret (0, Report_demux (tag_done d))
    | Some pkt => d ← deliver p 0 0 pkt d; mret (0, tag_done d)
    end
  else mret (0, tag_done d).

Definition HandlePacket (d : FlvDemuxer) : outcome (Z * FlvDemuxer) :=
  '(r, d) ← read_file_header d;
  match r with
  | Some ret => mret (ret, d)
  | None =>
      '(r, d) ← read_tag_header d;
      match r with
      | Some ret => mret (ret, d)
      | None =>
          if negb (require (d_buffer_ d) (tag_data_size_ d + FLV_TAG_PRE_SIZE)) then mret (FLV_RET_NEED_MORE, d)
          else handle_tag d
      end
  end.

(** The loop [do { ret = HandlePacket(); } while (ret == 0)]. *)
Fixpoint handle_packets (fuel : nat) (d : FlvDemuxer) : outcome (Z * FlvDemuxer) :=
  match fuel with
  | O => Fault OutOfFuel
  | S fuel =>
      '(ret, d) ← HandlePacket d;
      if ret =? 0 then handle_packets fuel d else mret (ret, d)
  end.

(** [InputPacket(data, data_len, key)] and [InputPacket(pkt_ptr)]. *)
Definition InputPacket_bytes (fuel : nat) (data key : bytes) (d : FlvDemuxer) : outcome (Z * FlvDemuxer) :=
  handle_packets fuel (set_d_key key (set_d_buffer (d_buffer_ d ++ data) d)).
Definition InputPacket_demux (fuel : nat) (pkt : Media_Packet) (d : FlvDemuxer) : outcome (Z * FlvDemuxer) :=
  data ← read_range (Data (buffer_ptr_ pkt)) 0 (DataLen (buffer_ptr_ pkt));
  let d := set_d_buffer (d_buffer_ d ++ data) d in
  let d := if bool_decide (d_key_ d = []) && negb (bool_decide (pkt_key_ pkt = []))
           then set_d_key (pkt_key_ pkt) d else d in
  handle_packets fuel d.
End demux.

(** ** Reading one tag *)

(** A demuxer between two tags, with [buf] still to read. *)
Definition between (buf : bytes) (d : FlvDemuxer) : Prop :=
  flv_header_ready_ d = true /\ tag_header_ready_ d = false /\ d_buffer_ d = buf.

(** The state in which the body of a tag is handled. *)
Definition at_tag (type ts : Z) (body rest : bytes) (d : FlvDemuxer) : FlvDemuxer :=
  set_d_buffer (body ++ be_bytes 4 (11 + zlen body) ++ rest)
    (set_tag_header_ready true (set_tag type (zlen body) (ts mod 2 ^ 24) d)).

Section demux_proofs.
Context `{Allocator}.

(** The eleven bytes in front of a body of [size] bytes. *)
Definition tag_header (type ts size : Z) : bytes := [type] ++ be_bytes 3 size ++ be_bytes 3 ts ++ [0; 0; 0; 1].

Lemma flv_tag_header type ts body :
  flv_tag type ts body = tag_header type ts (zlen body) ++ body ++ be_bytes 4 (11 + zlen body).
Proof. unfold flv_tag, tag_header. by rewrite <- !app_assoc. Qed.

Lemma read_tag_header_bytes type ts size y d :
  tag_header_ready_ d = false -> d_buffer_ d = tag_header type ts size ++ y -> 0 <= size < 2 ^ 24 ->
  read_tag_header d =
  Done (None, set_d_buffer y (set_tag_header_ready true (set_tag type size (ts mod 2 ^ 24) d))).
Proof.
  intros Ht Hb Hmax. unfold read_tag_header. rewrite Ht, Hb. rewrite require_app by done.
  unfold tag_header. rewrite <- !app_assoc, <- !Write3Bytes_be. cbn [app negb].
  set (l := Write3Bytes size ++ _).
  change ((type :: l).[0]) with (Done type). change (drop 1 (type :: l)) with l. simpl_m.
  unfold l. rewrite Read3Bytes_Write3Bytes. simpl_m.
  change (drop 4 (type :: Write3Bytes size ++ ?x)) with x.
  rewrite Read3Bytes_Write3Bytes. simpl_m.
  change (drop 7 (type :: Write3Bytes size ++ Write3Bytes ts ++ ?x)) with x.
  change ((0 :: ?x).[0]) with (Done 0). simpl_m.
  rewrite (Z.mod_small size) by lia. change (u32 (0 ≪ 24)) with 0. by rewrite Z.lor_0_r.
Qed.

Lemma HandlePacket_tag type ts body rest d :
  between (flv_tag type ts body ++ rest) d -> zlen body < 2 ^ 24 ->
  HandlePacket d = handle_tag (at_tag type ts body rest d).
Proof.
  intros (Hf & Ht & Hb) Hmax. pose proof (zlen_nonneg body). pose proof (zlen_nonneg rest).
  rewrite flv_tag_header, <- !app_assoc in Hb. unfold HandlePacket, read_file_header. rewrite Hf. simpl_m.
  rewrite (read_tag_header_bytes _ _ _ _ _ Ht Hb) by lia. simpl_m. cbn [set_d_buffer d_buffer_ tag_data_size_ set_tag set_tag_header_ready].
  rewrite require_true; [reflexivity|]. unfold FLV_TAG_PRE_SIZE. rewrite !zlen_app.
  change (zlen (be_bytes 4 _)) with 4. lia.
Qed.

(** Part of a tag is not enough. *)
Lemma HandlePacket_partial type ts body buf more d :
  between buf d -> buf ++ more = flv_tag type ts body -> more <> [] -> zlen body < 2 ^ 24 ->
  exists d', HandlePacket d = Done (FLV_RET_NEED_MORE, d').
Proof.
  intros (Hf & Ht & Hb) Hsplit Hmore Hmax. pose proof (zlen_nonneg body).
  unfold HandlePacket, read_file_header. rewrite Hf. simpl_m.
  destruct (Z.le_gt_cases FLV_TAG_HEADER_LEN (zlen buf)) as [Hl|Hl].
  2: { unfold read_tag_header, require. rewrite Ht, Hb.
       destruct (Z.leb_spec FLV_TAG_HEADER_LEN (zlen buf)); [lia|]. by eexists. }
  rewrite flv_tag_header in Hsplit. set (h := tag_header type ts (zlen body)) in *.
  assert (buf = h ++ drop 11 buf) as Hbuf.
  { transitivity (take 11 (buf ++ more) ++ drop 11 buf); [|by rewrite Hsplit].
    rewrite take_app_le by (unfold zlen, FLV_TAG_HEADER_LEN in Hl; lia). by rewrite take_drop. }
  rewrite Hbuf in Hb. rewrite (read_tag_header_bytes type ts (zlen body) (drop 11 buf) d Ht Hb) by lia. simpl_m.
  cbn [set_d_buffer d_buffer_ tag_data_size_ set_tag set_tag_header_ready].
  rewrite Hbuf, <- app_assoc in Hsplit. apply app_inv_head in Hsplit. apply (f_equal zlen) in Hsplit.
  rewrite !zlen_app in Hsplit. change (zlen (be_bytes 4 _)) with 4 in Hsplit.
  assert (1 <= zlen more) by (destruct more; [done|]; rewrite zlen_cons; pose proof (zlen_nonneg more); lia).
  unfold require, FLV_TAG_PRE_SIZE. destruct (Z.leb_spec (zlen body + 4) (zlen (drop 11 buf))); [lia|]. by eexists.
Qed.

(** ** Delivery in pieces *)

(** More bytes behind those still to be read: the first statements of
    [InputPacket]. *)
Definition flv_feed (x key : bytes) (d : FlvDemuxer) : FlvDemuxer := set_d_key key (set_d_buffer (d_buffer_ d ++ x) d).

Lemma read_file_header_cases d r d' x k :
  read_file_header d = Done (r, d') ->
  r = None /\ flv_header_ready_ d' = true /\ d_log_ d' = d_log_ d /\
    read_file_header (flv_feed x k d) = Done (None, flv_feed x k d') \/
  r = Some FLV_RET_NEED_MORE /\ d' = d \/ r = Some (-1).
Proof.
  unfold read_file_header. destruct (flv_header_ready_ d) eqn:Hf; [intros [= <- <-]; left; cbn; by rewrite Hf|].
  destruct (require _ _) eqn:Hq; [|intros [= <- <-]; right; by left]. cbn [negb flv_feed set_d_key set_d_buffer flv_header_ready_ d_buffer_].
  rewrite Hf, (require_extend _ x _ Hq). cbn [negb].
  destruct (starts_with [70; 76; 86] (d_buffer_ d)) as [magic|] eqn:E1; [|done]. rewrite (starts_with_extend _ _ x _ E1). simpl_m.
  destruct magic; cbn [negb]; [|intros [= <- <-]; right; by right].
  destruct (rd (d_buffer_ d) 4) as [p4|] eqn:E2; [|done]. rewrite (rd_extend _ x _ _ E2). simpl_m.
  rewrite (require_drop _ x _ 5 Hq) by done.
  destruct (starts_with [0; 0; 0; 9] (drop 5 (d_buffer_ d))) as [size|] eqn:E3; [|done]. rewrite (starts_with_extend _ _ x _ E3). simpl_m.
  destruct size; cbn [negb]; [|intros [= <- <-]; right; by right].
  intros [= <- <-]. left. rewrite (consume_extend _ x _ Hq).
  destruct (Z.land p4 1 =? 1), (Z.land p4 4 =? 4); by split_and!.
Qed.

Lemma read_tag_header_cases d r d' x k :
  read_tag_header d = Done (r, d') ->
  r = None /\ tag_header_ready_ d' = true /\ flv_header_ready_ d' = flv_header_ready_ d /\
    d_log_ d' = d_log_ d /\ read_tag_header (flv_feed x k d) = Done (None, flv_feed x k d') \/
  r = Some FLV_RET_NEED_MORE /\ d' = d.
Proof.
  unfold read_tag_header. destruct (tag_header_ready_ d) eqn:Hf; [intros [= <- <-]; left; cbn; by rewrite Hf|].
  destruct (require _ _) eqn:Hq; [|intros [= <- <-]; by right]. cbn [negb flv_feed set_d_key set_d_buffer tag_header_ready_ d_buffer_].
  rewrite Hf, (require_extend _ x _ Hq). cbn [negb].
  rewrite (require_drop _ x _ 1 Hq), (require_drop _ x _ 4 Hq), (require_drop _ x _ 7 Hq) by done.
  destruct (rd (d_buffer_ d) 0) as [t|] eqn:E1; [|done]. rewrite (rd_extend _ x _ _ E1). simpl_m.
  destruct (Read3Bytes (drop 1 (d_buffer_ d))) as [size|] eqn:E2; [|done]. rewrite (Read3Bytes_extend _ x _ E2). simpl_m.
  destruct (Read3Bytes (drop 4 (d_buffer_ d))) as [ts|] eqn:E3; [|done]. rewrite (Read3Bytes_extend _ x _ E3). simpl_m.
  destruct (rd (drop 7 (d_buffer_ d)) 0) as [e|] eqn:E4; [|done]. rewrite (rd_extend _ x _ _ E4). simpl_m.
  intros [= <- <-]. left. rewrite (consume_extend _ x _ Hq). by split_and!.
Qed.

(** A tag that is whole never asks for more. *)
Lemma handle_video_answers p pkt d r d' : handle_video p pkt d = Done (r, d') -> r = 0.
Proof.
  unfold handle_video. destruct (rd p 0) as [p0|]; [|done]. simpl_m.
  destruct (match demux_video_codec p0 with Some c => _ | None => _ end) as [codec d1].
  destruct (video_flags _ _ _) as [pk|]; [|done]. simpl_m. destruct (Read3Bytes _) as [delta|]; [|done]. simpl_m.
  destruct (is_seq_hdr_ pk && _ && _); [by destruct (avc_seq_header _ _ _ _); [intros [= <- _]|]|].
  destruct (is_seq_hdr_ pk && _); [|by destruct (deliver _ _ _ _ _); [intros [= <- _]|]].
  destruct (read_range _ _ _); [|done]. simpl_m. by destruct (append_packet _ _); [intros [= <- _]|].
Qed.

Lemma handle_tag_answers d r d' : handle_tag d = Done (r, d') -> r = 0 \/ r = -1.
Proof.
  unfold handle_tag. destruct Media_Packet_new; [|done]. simpl_m. destruct (_ =? FLV_TAG_AUDIO).
  - destruct (audio_tag _ _ _) as [[pk|]|]; simpl_m; [|by intros [= <- _]; right|done].
    destruct (deliver _ _ _ _ _); [|done]. simpl_m. intros [= <- _]. by left.
  - destruct (_ =? FLV_TAG_VIDEO); [intros Hv; left; by eapply handle_video_answers|].
    destruct (_ =? FLV_TAG_TYPE_META); [|intros [= <- _]; by left].
    destruct (DecodeMetaData _ _ _ _) as [[[pk|] d1]|]; simpl_m; [|by intros [= <- _]; left|done].
    destruct (deliver _ _ _ _ _); [|done]. simpl_m. intros [= <- _]. by left.
Qed.

Lemma HandlePacket_waits d d' x k :
  HandlePacket d = Done (FLV_RET_NEED_MORE, d') ->
  d_log_ d' = d_log_ d /\ HandlePacket (flv_feed x k d') = HandlePacket (flv_feed x k d).
Proof.
  unfold HandlePacket. destruct (read_file_header d) as [[r d1]|] eqn:E1; [|done]. simpl_m.
  destruct (read_file_header_cases _ _ _ x k E1) as [(-> & Hf & Hl1 & E1')|[[-> ->]| ->]]; [|by intros [= <-]|done].
  destruct (read_tag_header d1) as [[r d2]|] eqn:E2; [|done]. simpl_m. rewrite E1'. simpl_m.
  assert (forall d0, flv_header_ready_ d0 = true -> read_file_header (flv_feed x k d0) = Done (None, flv_feed x k d0)) as Hskip
    by (intros d0 Hd0; unfold read_file_header; cbn; by rewrite Hd0).
  destruct (read_tag_header_cases _ _ _ x k E2) as [(-> & Ht & Hf2 & Hl2 & E2')|[-> ->]];
    [|intros [= <-]; split; [done|]; by rewrite Hskip].
  destruct (require _ _) eqn:Hq; cbn [negb].
  - intros Hh. by destruct (handle_tag_answers _ _ _ Hh).
  - intros [= <-]. split; [congruence|]. rewrite Hskip by congruence. simpl_m. rewrite E2'. unfold read_tag_header. cbn [flv_feed set_d_key set_d_buffer tag_header_ready_].
    by rewrite Ht.
Qed.

(** C39. Delivery does not matter to the demuxer: when [HandlePacket] has asked for
    more, calling it again with more bytes is calling it for the first time with
    all of them: the parts of the file header and of the tag header it has read
    by then are neither lost nor read twice. *)
Theorem HandlePacket_resumable d d' x key :
  HandlePacket d = Done (FLV_RET_NEED_MORE, d') ->
  d_log_ d' = d_log_ d /\ HandlePacket (flv_feed x key d') = HandlePacket (flv_feed x key d).
Proof. apply HandlePacket_waits. Qed.

(** ** Delivering the body of a tag *)

(** What the sinks see of a packet. *)
Definition view (p : Media_Packet) :=
  (av_type_ p, codec_type_ p, (dts_ p, pts_ p), (is_key_frame_ p, is_seq_hdr_ p), contents (buffer_ptr_ p)).

(** [d'] is [d] with packets of the given views handed to the sinks. *)
Definition sank (views : list _) (d d' : FlvDemuxer) : Prop :=
  exists pkts, map view pkts = views /\ d' = fold_left (fun d p => SinkData p d) pkts d.

Lemma deliver_raw hdr data tail delta pkt d :
  building pkt -> contents (buffer_ptr_ pkt) = [] -> tag_data_size_ d = zlen hdr + zlen data ->
  1 <= zlen data -> zlen hdr + zlen data < 2 ^ 24 -> is_avc (codec_type_ pkt) = false ->
  (exists h0 h1 h, hdr = h0 :: h1 :: h /\ ((Z.land h0 0xf0 =? FLV_AUDIO_AAC_CODEC) && (h1 =? 0) = false)) ->
  0 <= tag_timestamp_ d + delta < 2 ^ 32 ->
  exists d', deliver (hdr ++ data ++ tail) (zlen hdr) delta pkt d = Done d' /\
    sank [(av_type_ pkt, codec_type_ pkt, (tag_timestamp_ d, tag_timestamp_ d + delta),
           (is_key_frame_ pkt, is_seq_hdr_ pkt), data)] d d'.
Proof.
  intros Hb Hc Hsz H1 Hmax Hcodec (h0 & h1 & h & -> & Hasc) Hts. pose proof (zlen_nonneg (h0 :: h1 :: h)).
  unfold deliver. rewrite Hsz. rewrite i32_small by lia.
  destruct (Z.ltb_spec (zlen (h0 :: h1 :: h)) (zlen (h0 :: h1 :: h) + zlen data)); [|lia].
  unfold stamp. cbn [codec_type_ set_pts set_dts]. rewrite Hcodec.
  replace (u32 (zlen (h0 :: h1 :: h) + zlen data - zlen (h0 :: h1 :: h))) with (zlen data)
    by (unfold u32; rewrite Z.mod_small; lia).
  rewrite read_range_mid. simpl_m. unfold u32. rewrite (Z.mod_small (tag_timestamp_ d + delta)) by lia.
  destruct (append_packet_building data (set_pts (tag_timestamp_ d + delta) (set_dts (tag_timestamp_ d) pkt)))
    as (b & -> & Hb' & Hc'); [done|cbn; rewrite Hc; unfold max_queue; change (zlen []) with 0; lia|].
  simpl_m. cbn [app]. change ((h0 :: ?l).[0]) with (Done h0). change ((h0 :: h1 :: ?l).[1]) with (Done h1). simpl_m.
  replace (if Z.land h0 0xf0 =? FLV_AUDIO_AAC_CODEC then Done (h1 =? 0) else Done false) with (@Done bool false).
  2: { destruct (Z.land h0 0xf0 =? FLV_AUDIO_AAC_CODEC); [|done]. cbn [andb] in Hasc. by rewrite Hasc. }
  simpl_m. eexists. split; [reflexivity|]. eexists [_]. split; [|reflexivity].
  cbn [map]. unfold view. cbn. cbn in Hc'. by rewrite Hc', Hc.
Qed.
(** The view of one NAL unit of a frame: the unit's own type overrides the flags
    of the frame. *)
Definition nal_view (pkt : Media_Packet) (ts pts : Z) (n : bytes) :=
  let t := n !!! 0%nat in
  let flags := (is_key_frame_ pkt, is_seq_hdr_ pkt) in
  let flags := if H264_IS_PPS t || H264_IS_SPS t then (false, true) else flags in
  let flags := if H264_IS_KEYFRAME t then (true, false) else flags in
  (av_type_ pkt, codec_type_ pkt, (ts, pts), flags, H264_START_CODE ++ n).

Lemma sink_nalu_view pkt b n d :
  wf b -> contents b = H264_START_CODE ++ n -> n <> [] -> zlen n <= kMaxLen ->
  exists p, sink_nalu pkt b d = Done (SinkData p d) /\ view p = nal_view pkt (dts_ pkt) (pts_ pkt) n.
Proof.
  intros Hwf Hc Hn Hmax. destruct n as [|t n]; [done|]. unfold sink_nalu.
  rewrite read_contents by done. destruct (Data_contents b Hwf) as [rest ->]. rewrite Hc.
  change (GetNaluTypePos ((H264_START_CODE ++ t :: n) ++ rest)) with (@Done Z 4). simpl_m.
  change (4 <? 3) with false. cbv iota.
  destruct Media_Packet_new_spec as (p0 & -> & Hw0 & Hc0 & Hs0 & Hrest). simpl_m.
  change (((H264_START_CODE ++ t :: n) ++ rest).[4]) with (Done t). simpl_m.
  unfold nal_view. change ((t :: n) !!! 0%nat) with t.
  set (out := if H264_IS_KEYFRAME t then _ else _).
  assert (buffer_ptr_ out = buffer_ptr_ p0) as Hbuf
    by (unfold out; destruct (H264_IS_KEYFRAME t), (H264_IS_PPS t || H264_IS_SPS t); reflexivity).
  destruct (append_packet_building (H264_START_CODE ++ t :: n) out) as (b' & -> & Hb' & Hc').
  { unfold building. by rewrite Hbuf. }
  { rewrite Hbuf, Hc0. unfold kMaxLen, max_queue in *. rewrite zlen_app. change (zlen []) with 0.
    change (zlen H264_START_CODE) with 4. lia. }
  simpl_m. eexists. split; [reflexivity|]. unfold view. cbn [buffer_ptr_ set_buffer_ptr].
  rewrite Hc', Hbuf, Hc0. unfold out.
  destruct (H264_IS_KEYFRAME t), (H264_IS_PPS t || H264_IS_SPS t); reflexivity.
Qed.

Lemma sink_nalus_views pkt bufs nals d :
  Forall wf bufs -> map contents bufs = map (app H264_START_CODE) nals ->
  Forall (fun n => n <> [] /\ zlen n <= kMaxLen) nals ->
  exists d', sink_nalus pkt bufs d = Done d' /\ sank (map (nal_view pkt (dts_ pkt) (pts_ pkt)) nals) d d'.
Proof.
  intros Hwf. revert nals d. induction Hwf as [|b bufs Hb Hwf IH]; intros nals d Hm Hn.
  - destruct nals; [|done]. exists d. split; [done|]. by exists [].
  - destruct nals as [|n nals]; [done|]. injection Hm as Hc Hm. inversion_clear Hn as [|? ? [Hn1 Hn2] Hns].
    cbn [sink_nalus]. destruct (sink_nalu_view pkt b n d Hb Hc Hn1 Hn2) as (p & -> & Hv). simpl_m.
    destruct (IH nals (SinkData p d) Hm Hns) as (d' & -> & pkts & Hp & ->).
    eexists. split; [reflexivity|]. exists (p :: pkts). split; [|reflexivity]. cbn [map]. by rewrite Hv, Hp.
Qed.

Lemma deliver_avc hdr nals tail delta pkt d :
  tag_data_size_ d = zlen hdr + zlen (avcc nals) -> zlen hdr + zlen (avcc nals) < 2 ^ 24 ->
  is_avc (codec_type_ pkt) = true -> nals <> [] ->
  Forall (fun n => n <> [] /\ zlen n <= kMaxLen) nals -> 0 <= tag_timestamp_ d + delta < 2 ^ 32 ->
  exists d', deliver (hdr ++ avcc nals ++ tail) (zlen hdr) delta pkt d = Done d' /\
    sank (map (nal_view pkt (tag_timestamp_ d) (tag_timestamp_ d + delta)) nals) d d'.
Proof.
  intros Hsz Hmax Hcodec Hne Hn Hts. pose proof (zlen_nonneg hdr). pose proof (avcc_length nals) as Hl.
  assert (1 <= zlen (avcc nals)) by (destruct nals; [done|]; unfold zlen; cbn [length] in Hl; lia).
  unfold deliver. rewrite Hsz. rewrite i32_small by lia.
  destruct (Z.ltb_spec (zlen hdr) (zlen hdr + zlen (avcc nals))); [|lia].
  unfold stamp. cbn [codec_type_ set_pts set_dts]. rewrite Hcodec.
  replace (u32 (zlen hdr + zlen (avcc nals) - zlen hdr)) with (zlen (avcc nals))
    by (unfold u32; rewrite Z.mod_small; lia).
  rewrite drop_zlen_app. destruct (Avcc2Nalus_avcc nals tail Hne) as (bufs & -> & Hm & Hwf);
    [by eapply Forall_impl; [exact Hn|intros ? []]|lia|].
  simpl_m. unfold u32. rewrite (Z.mod_small (tag_timestamp_ d + delta)) by lia.
  destruct (sink_nalus_views (set_pts (tag_timestamp_ d + delta) (set_dts (tag_timestamp_ d) pkt)) bufs nals d Hwf Hm Hn)
    as (d' & -> & Hs). by exists d'.
Qed.
End demux_proofs.

(** The file header and half a tag header; then the rest. *)
Lemma HandlePacket_resumable_witness :
  let d := set_d_buffer ([70; 76; 86; 1; 5; 0; 0; 0; 9; 0; 0; 0; 0] ++ [9; 0; 0; 5]) FlvDemuxer_new in
  let x := [0; 0; 40; 0; 0; 0; 1; 0x28] in
  exists d', HandlePacket (H := zero_alloc) d = Done (FLV_RET_NEED_MORE, d') /\ d_log_ d' = d_log_ d /\
    HandlePacket (H := zero_alloc) (flv_feed x [] d') = HandlePacket (H := zero_alloc) (flv_feed x [] d).
Proof. eexists. split; [vm_compute; reflexivity|]. apply (HandlePacket_resumable (H := zero_alloc)). vm_compute. reflexivity. Defined.
