(* ===== verification/FlvRoundtrip.v ===== *)
(** * [FlvRoundtrip]: the FLV muxer against the demuxer

    What the demuxer hands on when it is fed the muxer's output, frame by frame:
    over any cutting of that output into deliveries: the composition of [FlvMux]
    and [FlvDemux]. *)
From S2P Require Import Prelude ByteStream DataBuffer AudioHeader Media H264 FlvMux FlvDemux.

Section roundtrip.
Context `{Allocator}.

(** A frame is a packet and, for H.264 and H.265, the NAL units its data frames. *)
Definition frame : Type := Media_Packet * list bytes.

(** The low 24 bits of the timestamp, which is what a tag holds. *)
Definition ts24 (p : Media_Packet) : Z := dts_ p mod 2 ^ 24.

Definition expected (f : frame) :=
  let '(p, nals) := f in
  match av_type_ p with
  | MEDIA_VIDEO_TYPE =>
      if is_avc (codec_type_ p) then map (nal_view p (ts24 p) (ts24 p + ts_delta_of p)) nals
      else [(MEDIA_VIDEO_TYPE, codec_type_ p, (ts24 p, ts24 p + ts_delta_of p),
             (is_key_frame_ p && negb (is_seq_hdr_ p), is_seq_hdr_ p), contents (buffer_ptr_ p))]
  | t => [(t, codec_type_ p, (ts24 p, ts24 p), (negb (is_seq_hdr_ p), is_seq_hdr_ p), contents (buffer_ptr_ p))]
  end.

(** The frames the demuxer returns as they were: video that is not a sequence
    header of H.264 or H.265, audio that is not one of AAC. *)
Definition video_ok (p : Media_Packet) (nals : list bytes) : Prop :=
  av_type_ p = MEDIA_VIDEO_TYPE /\ ts_delta_of p < 2 ^ 24 /\
  (codec_type_ p = MEDIA_CODEC_VP8 \/ codec_type_ p = MEDIA_CODEC_VP9 \/
   is_avc (codec_type_ p) = true /\ is_seq_hdr_ p = false /\ contents (buffer_ptr_ p) = avcc nals /\
   nals <> [] /\ Forall (fun n => n <> [] /\ zlen n <= kMaxLen) nals).
Definition audio_ok (p : Media_Packet) : Prop :=
  av_type_ p = MEDIA_AUDIO_TYPE /\
  (codec_type_ p = MEDIA_CODEC_OPUS \/ codec_type_ p = MEDIA_CODEC_AAC /\ is_seq_hdr_ p = false).
Definition frame_ok (f : frame) : Prop :=
  wf (buffer_ptr_ f.1) /\ 1 <= zlen (contents (buffer_ptr_ f.1)) < 2 ^ 24 - 5 /\
  (video_ok f.1 f.2 \/ audio_ok f.1).

(** ** One tag *)

Lemma fold_sink pkts d :
  fold_left (fun d p => SinkData p d) pkts d =
  mkDemuxer (d_buffer_ d) (d_key_ d) (d_has_video_ d) (d_has_audio_ d) (flv_header_ready_ d) (tag_header_ready_ d)
    (tag_type_ d) (tag_data_size_ d) (tag_timestamp_ d) (d_aac_asc_type_ d) (d_log_ d ++ map EvPacket pkts).
Proof.
  revert d. induction pkts as [|p pkts IH]; intros d; cbn [fold_left map].
  - rewrite app_nil_r. by destruct d.
  - rewrite IH. unfold SinkData, demux_event. cbn. by rewrite <- app_assoc.
Qed.

(** [d'] comes after [d]: [rest] is still to read and packets of these views
    have gone to the sinks. *)
Definition advanced (views : list _) (rest : bytes) (d d' : FlvDemuxer) : Prop :=
  between rest d' /\ exists pkts, map view pkts = views /\ d_log_ d' = d_log_ d ++ map EvPacket pkts.

Lemma sank_advanced views type ts body rest d d' :
  flv_header_ready_ d = true -> sank views (at_tag type ts body rest d) d' -> advanced views rest d (tag_done d').
Proof.
  intros Hf (pkts & Hv & ->). rewrite fold_sink. split.
  - split; [done|]. split; [done|]. cbn -[be_bytes consume Z.add]. rewrite app_assoc. apply consume_app.
    by rewrite zlen_app.
  - exists pkts. by split.
Qed.

Lemma be3_delta v : [Z.land (Z.shiftr v 16) 0xff; Z.land (Z.shiftr v 8) 0xff; Z.land v 0xff] = Write3Bytes v.
Proof. by rewrite Write3Bytes_be. Qed.

Lemma ts_delta_range p : 0 <= ts_delta_of p.
Proof. unfold ts_delta_of, u32. destruct (_ <? _); [apply Z.mod_pos_bound|]; lia. Qed.

(** The flag and packet-type bytes of the muxer. *)
Definition video_flag_bytes (p : Media_Packet) : Z * Z :=
  if is_seq_hdr_ p then (FLV_VIDEO_KEY_FLAG, FLV_VIDEO_AVC_SEQHDR)
  else if is_key_frame_ p then (FLV_VIDEO_KEY_FLAG, FLV_VIDEO_AVC_NALU)
  else (FLV_VIDEO_INTER_FLAG, FLV_VIDEO_AVC_NALU).

Lemma video_header_read p pk flag b1 c tl :
  video_flag_bytes p = (flag, b1) -> flv_video_codec (codec_type_ p) = Some c ->
  is_seq_hdr_ pk = false -> is_key_frame_ pk = false ->
  demux_video_codec (Z.lor flag c) = Some (codec_type_ p) /\
  exists pk', video_flags (Z.lor flag c :: b1 :: tl) (Z.lor flag c) pk = Done pk' /\
    is_key_frame_ pk' = is_key_frame_ p && negb (is_seq_hdr_ p) /\ is_seq_hdr_ pk' = is_seq_hdr_ p /\
    buffer_ptr_ pk' = buffer_ptr_ pk /\ codec_type_ pk' = codec_type_ pk /\ av_type_ pk' = av_type_ pk.
Proof.
  unfold video_flag_bytes. intros Hfl Hc Hs Hk.
  assert (Z.land (Z.lor flag c) 0xf0 = flag /\ demux_video_codec (Z.lor flag c) = Some (codec_type_ p)) as [Hf Hd].
  { destruct (codec_type_ p); try discriminate Hc; injection Hc as <-;
      destruct (is_seq_hdr_ p), (is_key_frame_ p); injection Hfl as <- <-; split; reflexivity. }
  split; [done|]. unfold video_flags. rewrite Hf. change ((?x :: b1 :: tl).[1]) with (Done b1).
  destruct (is_seq_hdr_ p), (is_key_frame_ p); injection Hfl as <- <-; eexists;
    (split; [reflexivity|]); cbn; by split_and!.
Qed.

Lemma video_handled p nals tag rest d :
  wf (buffer_ptr_ p) -> 1 <= zlen (contents (buffer_ptr_ p)) < 2 ^ 24 - 5 -> video_ok p nals ->
  packet_tag p = Some tag -> between (tag ++ rest) d ->
  exists d', HandlePacket d = Done (0, d') /\ advanced (expected (p, nals)) rest d d'.
Proof.
  intros Hwf Hsz (Hav & Hdl & Hcodec) Htag Hb. pose proof (ts_delta_range p) as Hd0.
  unfold packet_tag, tag_type_size, media_header in Htag. rewrite Hav in Htag.
  set (data := contents (buffer_ptr_ p)) in *.
  fold (video_flag_bytes p) in Htag.
  destruct (video_flag_bytes p) as [flag b1] eqn:Hfl. destruct (flv_video_codec (codec_type_ p)) as [c|] eqn:Hc; [|done].
  injection Htag as <-. cbn [app] in Hb |- *.
  change (Z.lor flag c :: b1 :: ?x :: ?y :: ?z :: data) with (Z.lor flag c :: b1 :: [x; y; z] ++ data) in Hb.
  rewrite be3_delta in Hb.
  set (hdr := Z.lor flag c :: b1 :: Write3Bytes (ts_delta_of p)).
  change (Z.lor flag c :: b1 :: Write3Bytes (ts_delta_of p) ++ data) with (hdr ++ data) in Hb.
  assert (zlen hdr = 5) as Hh by done.
  rewrite (HandlePacket_tag _ _ _ _ _ Hb) by (rewrite zlen_app; lia).
  set (d1 := at_tag FLV_TAG_VIDEO (dts_ p) (hdr ++ data) rest d).
  unfold handle_tag. destruct Media_Packet_new_spec as (p0 & -> & Hw0 & Hc0 & Hs0 & Hseq0 & Hkey0 & _). simpl_m.
  change (tag_type_ d1 =? FLV_TAG_AUDIO) with false. change (tag_type_ d1 =? FLV_TAG_VIDEO) with true. cbv iota.
  unfold handle_video. change (d_buffer_ d1) with (hdr ++ data ++ be_bytes 4 (11 + zlen (hdr ++ data)) ++ rest).
  set (tail := be_bytes 4 (11 + zlen (hdr ++ data)) ++ rest).
  change ((hdr ++ data ++ tail).[0]) with (Done (Z.lor flag c)). simpl_m.
  set (pk := set_codec_type (codec_type_ p)
    (set_av_type MEDIA_VIDEO_TYPE (set_pkt_key (d_key_ d1) (set_fmt_type MEDIA_FORMAT_RAW p0)))).
  destruct (video_header_read p pk flag b1 c (Write3Bytes (ts_delta_of p) ++ data ++ tail) Hfl Hc Hseq0 Hkey0)
    as (-> & pk' & Hvf & Hk & Hs & Hbuf & Hcd & Hat).
  change (Z.lor flag c :: b1 :: Write3Bytes (ts_delta_of p) ++ data ++ tail) with (hdr ++ data ++ tail) in Hvf.
  fold pk. cbv iota beta. rewrite Hvf. simpl_m. change (drop 2 (hdr ++ data ++ tail)) with (Write3Bytes (ts_delta_of p) ++ data ++ tail).
  rewrite Read3Bytes_Write3Bytes. simpl_m. rewrite (Z.mod_small (ts_delta_of p)) by lia. cbv zeta.
  assert (building pk') as Hbd by (unfold building; by rewrite Hbuf).
  assert (contents (buffer_ptr_ pk') = []) as Hcd0 by by rewrite Hbuf.
  assert (tag_data_size_ d1 = zlen hdr + zlen data) as Hsize by exact (zlen_app hdr data).
  assert (tag_timestamp_ d1 = ts24 p) as Hts by done.
  assert (0 <= ts24 p < 2 ^ 24) as Ht24 by (unfold ts24; apply Z.mod_pos_bound; lia).
  assert (flv_header_ready_ d = true) as Hready by by destruct Hb.
  replace (is_seq_hdr_ pk' && bool_decide (codec_type_ p = MEDIA_CODEC_H264) && _) with false.
  2: { rewrite Hs. destruct Hcodec as [-> |[-> |(_ & -> & _)]]; by rewrite ?andb_false_r. }
  replace (is_seq_hdr_ pk' && bool_decide (codec_type_ p = MEDIA_CODEC_H265)) with false.
  2: { rewrite Hs. destruct Hcodec as [-> |[-> |(_ & -> & _)]]; by rewrite ?andb_false_r. }
  change (2 + 3) with (zlen hdr).
  assert (exists d', deliver (hdr ++ data ++ tail) (zlen hdr) (ts_delta_of p) pk' d1 = Done d' /\
    sank (expected (p, nals)) d1 d') as (d' & -> & Hsank).
  { unfold expected. rewrite Hav. fold data. destruct (is_avc (codec_type_ p)) eqn:Havc.
    - destruct Hcodec as [Hv|[Hv|(_ & Hns & Hdata & Hne & Hn)]]; [by rewrite Hv in Havc..|].
      rewrite Hdata in Hsize |- *. destruct (deliver_avc hdr nals tail (ts_delta_of p) pk' d1) as (d' & -> & Hsk);
        [done|rewrite <- Hdata; lia|by rewrite Hcd|done|done|lia|].
      exists d'. split; [done|]. rewrite Hts in Hsk. unfold nal_view in Hsk |- *.
      rewrite Hcd, Hat, Hk, Hs, Hns in Hsk. by rewrite Hav, Hns, andb_true_r in *.
    - destruct (deliver_raw hdr data tail (ts_delta_of p) pk' d1) as (d' & -> & Hsk); try done; try lia.
      + by rewrite Hcd.
      + eexists _, _, _. split; [reflexivity|]. revert Hfl. unfold video_flag_bytes.
        destruct (codec_type_ p); try discriminate Hc; injection Hc as <-;
          destruct (is_seq_hdr_ p), (is_key_frame_ p); intros [= <- <-]; reflexivity.
      + exists d'. split; [done|]. by rewrite Hts, Hcd, Hat, Hk, Hs in Hsk. }
  simpl_m. eexists. split; [reflexivity|]. by eapply sank_advanced.
Qed.

Lemma audio_header_read p pk c asc tl :
  flv_audio_codec (codec_type_ p) = Some c -> (codec_type_ p = MEDIA_CODEC_AAC -> is_seq_hdr_ p = false) ->
  is_seq_hdr_ pk = false -> is_key_frame_ pk = false ->
  exists pk', audio_tag (Z.lor 0x0f c :: (if is_seq_hdr_ p then 0x00 else 0x01) :: tl) asc pk = Done (Some pk') /\
    is_key_frame_ pk' = negb (is_seq_hdr_ p) /\ is_seq_hdr_ pk' = is_seq_hdr_ p /\
    buffer_ptr_ pk' = buffer_ptr_ pk /\ codec_type_ pk' = codec_type_ p /\ av_type_ pk' = MEDIA_AUDIO_TYPE.
Proof.
  intros Hc Ha Hs Hk. unfold audio_tag. change ((?x :: ?y :: tl).[0]) with (Done x). simpl_m.
  destruct (codec_type_ p); try discriminate Hc; injection Hc as <-;
    destruct (is_seq_hdr_ p); try discriminate (Ha eq_refl); eexists; (split; [reflexivity|]); cbn; by split_and!.
Qed.

Lemma audio_handled p nals tag rest d :
  wf (buffer_ptr_ p) -> 1 <= zlen (contents (buffer_ptr_ p)) < 2 ^ 24 - 5 -> audio_ok p ->
  packet_tag p = Some tag -> between (tag ++ rest) d ->
  exists d', HandlePacket d = Done (0, d') /\ advanced (expected (p, nals)) rest d d'.
Proof.
  intros Hwf Hsz (Hav & Hcodec) Htag Hb.
  unfold packet_tag, tag_type_size, media_header in Htag. rewrite Hav in Htag.
  set (data := contents (buffer_ptr_ p)) in *.
  destruct (flv_audio_codec (codec_type_ p)) as [c|] eqn:Hc; [|done]. injection Htag as <-.
  set (hdr := [Z.lor 0x0f c; if is_seq_hdr_ p then 0x00 else 0x01]).
  change (Z.lor 0x0f c :: (if is_seq_hdr_ p then 0x00 else 0x01) :: data) with (hdr ++ data) in Hb.
  assert (zlen hdr = 2) as Hh by done.
  rewrite (HandlePacket_tag _ _ _ _ _ Hb) by (rewrite zlen_app; lia).
  set (d1 := at_tag FLV_TAG_AUDIO (dts_ p) (hdr ++ data) rest d).
  unfold handle_tag. destruct Media_Packet_new_spec as (p0 & -> & Hw0 & Hc0 & Hs0 & Hseq0 & Hkey0 & _). simpl_m.
  change (tag_type_ d1 =? FLV_TAG_AUDIO) with true. cbv iota.
  set (tail := be_bytes 4 (11 + zlen (hdr ++ data)) ++ rest).
  change (d_buffer_ d1) with (hdr ++ data ++ tail).
  destruct (audio_header_read p (set_pkt_key (d_key_ d1) (set_fmt_type MEDIA_FORMAT_RAW p0)) c (d_aac_asc_type_ d1)
    (data ++ tail) Hc) as (pk & Hrd & Hk & Hs & Hbuf & Hcd & Hat); [by destruct Hcodec as [-> |[_ ->]]|done..|].
  change (Z.lor 0x0f c :: (if is_seq_hdr_ p then 0x00 else 0x01) :: data ++ tail) with (hdr ++ data ++ tail) in Hrd.
  rewrite Hrd. simpl_m.
  assert (tag_data_size_ d1 = zlen hdr + zlen data) as Hsize by exact (zlen_app hdr data).
  assert (0 <= tag_timestamp_ d1 < 2 ^ 24) as Ht24 by (apply Z.mod_pos_bound; lia).
  destruct (deliver_raw hdr data tail 0 pk d1) as (d' & Hd & Hsk); try (done || lia).
  - unfold building. by rewrite Hbuf.
  - by rewrite Hbuf.
  - rewrite Hcd. by destruct Hcodec as [-> |[-> _]].
  - eexists _, _, []. split; [reflexivity|]. destruct Hcodec as [Hq|[Hq Hq']]; rewrite Hq in Hc; injection Hc as <-;
      [by destruct (is_seq_hdr_ p)|by rewrite Hq'].
  - change 2 with (zlen hdr) at 1. rewrite Hd. simpl_m. eexists. split; [reflexivity|].
    eapply sank_advanced; [by destruct Hb|]. unfold expected. rewrite Hav. fold data.
    rewrite Z.add_0_r, Hat, Hcd, Hk, Hs in Hsk. exact Hsk.
Qed.

Lemma frame_handled f tag rest d :
  frame_ok f -> packet_tag f.1 = Some tag -> between (tag ++ rest) d ->
  exists d', HandlePacket d = Done (0, d') /\ advanced (expected f) rest d d'.
Proof.
  destruct f as [p nals]. intros (Hwf & Hsz & [Hv|Ha]); cbn [fst snd] in *;
    [by apply video_handled|by apply audio_handled].
Qed.

(** ** A stream of tags *)

(** The tag of a frame. *)
Definition frame_tag (f : frame) (t : bytes) : Prop := packet_tag f.1 = Some t.

Lemma packet_tag_shape p t :
  packet_tag p = Some t -> zlen (contents (buffer_ptr_ p)) < 2 ^ 24 - 5 ->
  exists type ts body, t = flv_tag type ts body /\ zlen body < 2 ^ 24.
Proof.
  unfold packet_tag. intros Ht Hsz. destruct (tag_type_size _ _) as [[type size]|] eqn:Hty; [|done].
  destruct (media_header p) as [[hdr base]|] eqn:Hh; [|done]. injection Ht as <-.
  destruct (media_header_sizes _ _ _ _ _ _ Hty Hh) as (_ & _ & Hl). eexists _, _, _. split; [done|].
  rewrite zlen_app. lia.
Qed.

Lemma HandlePacket_empty d : between [] d -> exists d', HandlePacket d = Done (FLV_RET_NEED_MORE, d').
Proof.
  intros (Hf & Ht & Hb). unfold HandlePacket, read_file_header. rewrite Hf. simpl_m.
  unfold read_tag_header. rewrite Ht, Hb. by eexists.
Qed.

(** The packets of a log. *)
Definition packets_of (log : list flv_event) : list Media_Packet :=
  omap (fun e => match e with EvPacket p => Some p | EvReport _ => None end) log.
Lemma packets_of_app l k : packets_of (l ++ k) = packets_of l ++ packets_of k.
Proof. apply omap_app. Qed.
Lemma packets_of_packets ps : packets_of (map EvPacket ps) = ps.
Proof. induction ps as [|p ps IH]; [done|]. cbn. by f_equal. Qed.

(** The views of the packets [d] has handed on. *)
Definition seen (d : FlvDemuxer) := map view (packets_of (d_log_ d)).

Lemma advanced_seen views rest d d' : advanced views rest d d' -> seen d' = seen d ++ views.
Proof.
  intros (_ & pkts & Hv & Hl). unfold seen. by rewrite Hl, packets_of_app, packets_of_packets, map_app, Hv.
Qed.

(** [d] has asked for more in a state [d0] between two tags, with [buf] of the
    stream unread. *)
Definition waiting (buf : bytes) (d0 d : FlvDemuxer) : Prop :=
  between buf d0 /\ HandlePacket d0 = Done (FLV_RET_NEED_MORE, d).

(** The loop handles the tags that are whole and waits in the middle of the next. *)
Lemma handle_packets_stream fs tags buf more d0 fuel :
  Forall frame_ok fs -> Forall2 frame_tag fs tags -> between buf d0 -> buf ++ more = concat tags ->
  (length fs < fuel)%nat ->
  exists d fs1 fs2 tags2 buf2 d2,
    handle_packets fuel d0 = Done (FLV_RET_NEED_MORE, d) /\ fs = fs1 ++ fs2 /\
    waiting buf2 d2 d /\ Forall2 frame_tag fs2 tags2 /\ buf2 ++ more = concat tags2 /\
    seen d2 = seen d0 ++ concat (map expected fs1) /\ (more = [] -> fs2 = []).
Proof.
  intros Hok Htags. revert Hok buf d0 fuel. induction Htags as [|f t fs tags Ht Htags IH]; intros Hok buf d0 fuel Hb Hs Hfuel;
    (destruct fuel as [|fuel]; [cbn in Hfuel; lia|]).
  - apply app_nil in Hs as [-> ->]. destruct (HandlePacket_empty d0 Hb) as [d Hd].
    exists d, [], [], [], [], d0. cbn [handle_packets]. rewrite Hd. simpl_m. cbn. rewrite app_nil_r. by split_and!.
  - inversion_clear Hok as [|? ? Hf Hfs]. cbn [concat] in Hs.
    destruct (app_split _ _ _ _ Hs) as [(buf' & -> & Hs')|(k & Hk & Hkt & Hmore)].
    + destruct (frame_handled f t _ d0 Hf Ht Hb) as (d1 & Hd1 & Hadv).
      destruct (IH Hfs buf' d1 fuel) as (d & fs1 & fs2 & tags2 & buf2 & d2 & Hd & -> & Hw & Ht2 & Hs2 & Hseen & Hm);
        [by destruct Hadv|done|cbn in Hfuel; lia|].
      exists d, (f :: fs1), fs2, tags2, buf2, d2. cbn [handle_packets]. rewrite Hd1. simpl_m. cbn [Z.eqb].
      split_and!; try done. rewrite Hseen, (advanced_seen _ _ _ _ Hadv). cbn [map concat]. by rewrite app_assoc.
    + destruct (packet_tag_shape _ _ Ht) as (type & ts & body & -> & Hmax); [destruct Hf as (_ & ? & _); lia|].
      destruct (HandlePacket_partial type ts body buf k d0 Hb Hkt Hk Hmax) as [d Hd].
      exists d, [], (f :: fs), (flv_tag type ts body :: tags), buf, d0. cbn [handle_packets]. rewrite Hd. simpl_m.
      cbn [map concat]. rewrite app_nil_r. split_and!; try done. by constructor.
Qed.

(** ** Deliveries *)

Section deliveries.
Context (has_video has_audio : bool).
Let file_header := flv_file_header has_video has_audio.

Lemma file_header_whole y d :
  flv_header_ready_ d = false -> tag_header_ready_ d = false -> d_buffer_ d = file_header ++ y ->
  exists d', between y d' /\ seen d' = seen d /\ HandlePacket d = HandlePacket d'.
Proof.
  intros Hf Ht Hb. set (d1 := if has_video then set_d_has_video true d else d).
  set (d2 := set_flv_header_ready true (set_d_buffer y (if has_audio then set_d_has_audio true d1 else d1))).
  assert (read_file_header d = Done (None, d2)) as Hr.
  { unfold read_file_header. rewrite Hf, Hb, require_app by done.
    subst d2 d1 file_header. destruct has_video, has_audio; reflexivity. }
  exists d2. split_and!.
  - subst d2 d1. by destruct has_video, has_audio.
  - subst d2 d1. by destruct has_video, has_audio.
  - unfold HandlePacket. by rewrite Hr.
Qed.

Lemma file_header_part buf k d :
  flv_header_ready_ d = false -> d_buffer_ d = buf -> buf ++ k = file_header -> k <> [] ->
  HandlePacket d = Done (FLV_RET_NEED_MORE, d).
Proof.
  intros Hf Hb Hs Hk. unfold HandlePacket, read_file_header, require. rewrite Hf, Hb.
  apply (f_equal zlen) in Hs. rewrite zlen_app in Hs. change (zlen file_header) with 13 in Hs.
  assert (1 <= zlen k) by (destruct k; [done|]; rewrite zlen_cons; pose proof (zlen_nonneg k); lia).
  unfold FLV_HEADER_LEN, FLV_TAG_PRE_SIZE. by destruct (Z.leb_spec (9 + 4) (zlen buf)); [lia|].
Qed.

(** With [more] still to come, [d] has the tags of [fs] before it: it goes on as a
    demuxer [d0] does that is in front of the file header or between two tags. *)
Definition pending (more : bytes) (fs : list frame) (d : FlvDemuxer) : Prop :=
  exists d0 tags, Forall2 frame_tag fs tags /\ tag_header_ready_ d0 = false /\ seen d0 = seen d /\
    (forall x key, HandlePacket (flv_feed x key d) = HandlePacket (flv_feed x key d0)) /\
    d_buffer_ d0 ++ more = (if flv_header_ready_ d0 then [] else file_header) ++ concat tags.

Lemma waiting_pending buf more fs tags d0 d :
  waiting buf d0 d -> Forall2 frame_tag fs tags -> buf ++ more = concat tags -> pending more fs d.
Proof.
  intros [(Hf & Ht & Hb) Hd] Htags Hs. destruct (HandlePacket_waits d0 d [] [] Hd) as [Hl _].
  exists d0, tags. rewrite Hf, Hb. split_and!; try done.
  - unfold seen. by rewrite Hl.
  - intros x key. by apply HandlePacket_waits.
Qed.

Lemma handle_packets_ext d d' n :
  HandlePacket d = HandlePacket d' -> handle_packets (S n) d = handle_packets (S n) d'.
Proof. intros E. cbn [handle_packets]. by rewrite E. Qed.

(** One delivery. *)
Lemma InputPacket_bytes_pending x key more fs d fuel :
  Forall frame_ok fs -> pending (x ++ more) fs d -> (length fs < fuel)%nat ->
  exists d' fs1 fs2, InputPacket_bytes fuel x key d = Done (FLV_RET_NEED_MORE, d') /\ fs = fs1 ++ fs2 /\
    pending more fs2 d' /\ seen d' = seen d ++ concat (map expected fs1) /\ (more = [] -> fs2 = []).
Proof.
  intros Hok (d0 & tags & Htags & Ht & Hseen & Heq & Hs) Hfuel. destruct fuel as [|fuel]; [lia|].
  unfold InputPacket_bytes. fold (flv_feed x key d). rewrite (handle_packets_ext _ _ fuel (Heq x key)).
  rewrite app_assoc in Hs.
  assert (forall d1 buf, between buf d1 -> seen d1 = seen d0 -> buf ++ more = concat tags ->
    exists d' fs1 fs2, handle_packets (S fuel) d1 = Done (FLV_RET_NEED_MORE, d') /\ fs = fs1 ++ fs2 /\
      pending more fs2 d' /\ seen d' = seen d ++ concat (map expected fs1) /\ (more = [] -> fs2 = [])) as Hgo.
  { intros d1 buf Hb Hs1 Hsp.
    destruct (handle_packets_stream fs tags buf more d1 (S fuel) Hok Htags Hb Hsp Hfuel)
      as (d' & fs1 & fs2 & tags2 & buf2 & d2 & Hd & -> & Hw & Ht2 & Hs2 & Hseen2 & Hm).
    exists d', fs1, fs2. split_and!; try done; [by eapply waiting_pending|].
    destruct Hw as [_ Hw]. destruct (HandlePacket_waits d2 d' [] [] Hw) as [Hl _].
    unfold seen in Hseen2 |- *. rewrite Hl, Hseen2. unfold seen in Hs1, Hseen. by rewrite Hs1, Hseen. }
  destruct (flv_header_ready_ d0) eqn:Hf; [by apply (Hgo (flv_feed x key d0) (d_buffer_ d0 ++ x))|].
  destruct (app_split _ _ _ _ Hs) as [(y & Hy & Hrest)|(k & Hk & Hkt & Hmore)].
  - destruct (file_header_whole y (flv_feed x key d0)) as (d1 & Hb1 & Hs1 & He); [done..|].
    rewrite (handle_packets_ext _ _ fuel He). by apply (Hgo d1 y).
  - exists (flv_feed x key d0), [], fs. cbn [handle_packets].
    rewrite (file_header_part (d_buffer_ d0 ++ x) k) by done. simpl_m. cbn [map concat]. rewrite app_nil_r.
    split_and!; try done. exists (flv_feed x key d0), tags. cbn [flv_feed set_d_key set_d_buffer flv_header_ready_ d_buffer_]. rewrite Hf.
    by split_and!.
Qed.

(** Deliveries one after the other, each with its key, while the demuxer asks for
    more. *)
Fixpoint receive (fuel : nat) (chunks : list (bytes * bytes)) (d : FlvDemuxer) : outcome (Z * FlvDemuxer) :=
  match chunks with
  | [] => mret (FLV_RET_NEED_MORE, d)
  | (x, key) :: chunks =>
      '(ret, d) ← InputPacket_bytes fuel x key d;
      if ret =? FLV_RET_NEED_MORE then receive fuel chunks d else mret (ret, d)
  end.

Lemma receive_pending fuel chunks fs d :
  Forall frame_ok fs -> pending (concat (map fst chunks)) fs d -> (length fs < fuel)%nat -> chunks <> [] ->
  exists d', receive fuel chunks d = Done (FLV_RET_NEED_MORE, d') /\ seen d' = seen d ++ concat (map expected fs).
Proof.
  revert fs d. induction chunks as [|[x key] chunks IH]; intros fs d Hok Hp Hfuel Hne; [done|].
  destruct (InputPacket_bytes_pending x key _ fs d fuel Hok Hp Hfuel) as (d1 & fs1 & fs2 & Hd & -> & Hp1 & Hseen & Hm).
  cbn [receive]. rewrite Hd. simpl_m. cbn [Z.eqb FLV_RET_NEED_MORE Pos.eqb].
  rewrite map_app, concat_app, app_assoc, <- Hseen. destruct chunks as [|c chunks].
  - rewrite (Hm eq_refl). cbn. rewrite app_nil_r. by eexists.
  - apply Forall_app in Hok as [_ Hok]. rewrite length_app in Hfuel. apply IH; try done. lia.
Qed.
End deliveries.

(** ** The muxer over a list of packets *)

Fixpoint mux_all (pkts : list Media_Packet) (m : FlvMuxer) : outcome FlvMuxer :=
  match pkts with
  | [] => mret m
  | p :: pkts => '(_, m) ← InputPacket p m; mux_all pkts m
  end.

(** The bytes the muxer has put out. *)
Definition output (m : FlvMuxer) : bytes := concat (map (fun p => contents (buffer_ptr_ p)) (packets_of (m_log_ m))).

Lemma frame_has_tag f : frame_ok f -> exists t, frame_tag f t /\ zlen (contents (buffer_ptr_ f.1)) <= max_queue - 64.
Proof.
  intros (_ & Hsz & Hk). unfold frame_tag, packet_tag, tag_type_size, media_header, max_queue.
  destruct Hk as [(Hav & _ & Hc)|[Hav Hc]]; rewrite Hav.
  - destruct (if is_seq_hdr_ f.1 then _ else _) as [fl b1].
    destruct (flv_video_codec (codec_type_ f.1)) eqn:E; [eexists; split; [reflexivity|lia]|].
    destruct Hc as [Hc|[Hc|(Hc & _)]]; [by rewrite Hc in E..|by destruct (codec_type_ f.1)].
  - destruct Hc as [Hc|[Hc _]]; rewrite Hc; (eexists; split; [reflexivity|lia]).
Qed.

Lemma mux_all_output fs m :
  Forall frame_ok fs -> exists m' tags, mux_all (map fst fs) m = Done m' /\ Forall2 frame_tag fs tags /\
    output m' = output m ++ (match fs with [] => [] | _ => header_part m end) ++ concat tags.
Proof.
  intros Hok. revert m. induction Hok as [|f fs Hf Hok IH]; intros m.
  - exists m, []. cbn. rewrite app_nil_r. by split_and!.
  - destruct (frame_has_tag f Hf) as (t & Ht & Hsz). destruct Hf as (Hwf & _).
    destruct (InputPacket_writes_tag _ m t Hwf Ht Hsz) as (out & Hout & Hc & _).
    destruct (IH (OutputPacket out (set_header_ready true m))) as (m' & tags & Hm & Htags & Ho).
    exists m', (t :: tags). cbn [map mux_all]. rewrite Hout. simpl_m. split_and!; [done|by constructor|].
    rewrite Ho. unfold output at 1. cbn [OutputPacket mux_event m_log_]. rewrite packets_of_app, map_app, concat_app.
    cbn [packets_of omap list_omap map concat]. rewrite Hc, app_nil_r.
    change (header_part (OutputPacket out (set_header_ready true m))) with (@nil Z).
    cbn [concat]. destruct fs; by rewrite <- !app_assoc.
Qed.

(** C38. FLV round trip.  Let a new muxer be given packets it supports (video that
    is not an AVC or HEVC sequence header, audio that is not an AAC one), and let
    its output, file header and all, reach a new demuxer in deliveries cut
    anywhere.  Then the demuxer accepts every delivery and hands on, in order,
    the packets that went in, with their type, codec, flags, data and timestamps
    (modulo 2^24); an H.264 or H.265 frame comes out as one packet per NAL unit,
    with a start code. *)
Theorem flv_roundtrip fs m chunks fuel :
  Forall frame_ok fs -> fs <> [] -> header_ready_ m = false -> output m = [] -> (length fs < fuel)%nat ->
  exists m', mux_all (map fst fs) m = Done m' /\
    (concat (map fst chunks) = output m' ->
     exists d, receive fuel chunks FlvDemuxer_new = Done (FLV_RET_NEED_MORE, d) /\
       seen d = concat (map expected fs)).
Proof.
  intros Hok Hne Hh Hout Hfuel. destruct (mux_all_output fs m Hok) as (m' & tags & Hm & Htags & Ho).
  exists m'. split; [done|]. intros Hc. destruct fs as [|f fs]; [done|].
  unfold header_part in Ho. rewrite Hout, Hh in Ho. cbn [app] in Ho.
  destruct (receive_pending (m_has_video_ m) (m_has_audio_ m) fuel chunks (f :: fs) FlvDemuxer_new) as (d & Hd & Hs);
    [done| |done| |by exists d].
  - exists FlvDemuxer_new, tags. rewrite Hc, Ho. by split_and!.
  - intros ->. by rewrite Ho in Hc.
Qed.
End roundtrip.

(** A buffer holding [data], and packets made of it. *)
Definition buffer_of (data : bytes) : DataBuffer :=
  mkDataBuffer false [] 0 (replicate 200 0 ++ data ++ [0]) (200 + zlen data + 1) (zlen data) 200 (200 + zlen data).
Definition packet_of (av : MEDIA_PKT_TYPE) (codec : MEDIA_CODEC_TYPE) (dts pts : Z) (key seq : bool) (data : bytes)
    : Media_Packet :=
  mkPacket av codec MEDIA_FORMAT_RAW dts pts key seq false (buffer_of data) None [] 0 0 0 0 [] [] [] [] 0 0.
Definition demo_frames : list frame :=
  [(packet_of MEDIA_VIDEO_TYPE MEDIA_CODEC_H264 40 50 true false (avcc [[0x65; 7; 8]; [0x41; 9]]), [[0x65; 7; 8]; [0x41; 9]]);
   (packet_of MEDIA_AUDIO_TYPE MEDIA_CODEC_OPUS 60 60 false false [1; 2; 3], [])].

Lemma demo_frames_ok : Forall frame_ok demo_frames.
Proof.
  apply Forall_cons. split; [|apply Forall_singleton]; (split; [split; vm_compute; intuition discriminate|]);
    (split; [by vm_compute|]); [left|right; split; [reflexivity|by left]].
  split; [reflexivity|]. split; [by vm_compute|]. right. right. split_and!; try done.
  repeat (apply Forall_cons; split); try apply Forall_nil; split; done.
Qed.

(** Two frames; the first delivery ends inside the first tag. *)
Lemma flv_roundtrip_witness :
  let m := FlvMuxer_new [] [] in
  Forall frame_ok demo_frames /\
  exists m', mux_all (H := zero_alloc) (map fst demo_frames) m = Done m' /\
  exists d, receive (H := zero_alloc) 3 [(take 20 (output m'), []); (drop 20 (output m'), [])] FlvDemuxer_new =
      Done (FLV_RET_NEED_MORE, d) /\
    seen d = [(MEDIA_VIDEO_TYPE, MEDIA_CODEC_H264, (40, 50), (true, false), [0; 0; 0; 1; 0x65; 7; 8]);
              (MEDIA_VIDEO_TYPE, MEDIA_CODEC_H264, (40, 50), (true, false), [0; 0; 0; 1; 0x41; 9]);
              (MEDIA_AUDIO_TYPE, MEDIA_CODEC_OPUS, (60, 60), (true, false), [1; 2; 3])].
Proof.
  split; [apply demo_frames_ok|].
  destruct (mux_all (H := zero_alloc) (map fst demo_frames) (FlvMuxer_new [] [])) as [m0|] eqn:E; [|by vm_compute in E].
  destruct (flv_roundtrip (H := zero_alloc) demo_frames (FlvMuxer_new [] []) [(take 20 (output m0), []); (drop 20 (output m0), [])] 3)
    as (m' & Hm & Hd); [apply demo_frames_ok|done|done|done|cbn; lia|].
  rewrite E in Hm. injection Hm as <-. exists m0. split; [done|]. apply Hd. cbn [map fst concat].
  by rewrite app_nil_r, take_drop.
Defined.
