(* ===== verification/FlvStuck.v ===== *)
(** * [FlvStuck]: the tags the FLV demuxer does not get past

    [HandlePacket] leaves a tag in its buffer when it returns before
    [ConsumeData]: sequence headers of H.264 and H.265 return 0, so that the loop
    of [InputPacket] takes the same tag again without end, and audio of a codec it
    does not know returns -1 at every later call.  An AAC sequence header with the
    usual two-byte configuration ends the process at an [assert]. *)
From S2P Require Import Prelude ByteStream DataBuffer AudioHeader Media H264 FlvMux FlvDemux.

Section stuck.
Context `{Allocator}.

(** The demuxer at a whole tag of this type whose body starts with [b0; b1]. *)
Definition holds_tag (type b0 b1 : Z) (d : FlvDemuxer) : Prop :=
  flv_header_ready_ d = true /\ tag_header_ready_ d = true /\ tag_type_ d = type /\
  require (d_buffer_ d) (tag_data_size_ d + FLV_TAG_PRE_SIZE) = true /\
  exists rest, d_buffer_ d = b0 :: b1 :: rest.

Lemma HandlePacket_holds type b0 b1 d : holds_tag type b0 b1 d -> HandlePacket d = handle_tag d.
Proof.
  intros (Hf & Ht & _ & Hq & _). unfold HandlePacket, read_file_header, read_tag_header. rewrite Hf. simpl_m.
  rewrite Ht. simpl_m. by rewrite Hq.
Qed.

(** A key frame flag, packet type 0, and a codec whose sequence header is handled
    apart. *)
Definition seq_header_tag (b0 b1 size : Z) : Prop :=
  Z.land b0 0xf0 = FLV_VIDEO_KEY_FLAG /\ b1 = 0 /\
  (Z.land b0 0x0f = FLV_VIDEO_H265_CODEC \/ Z.land b0 0x0f = FLV_VIDEO_H264_CODEC /\ u32 (size - 5) < 512).

Lemma avc_seq_header_sinks nalu size pkt d d' :
  avc_seq_header nalu size pkt d = Done d' -> exists p q, d' = SinkData q (SinkData p d).
Proof.
  unfold avc_seq_header. intros ([[[[r pps] pl] sps] sl] & _ & He)%bind_inv. revert He.
  do 8 (intros (? & _ & He)%bind_inv; revert He). intros [= <-]. by eexists _, _.
Qed.

Lemma holds_tag_sink type b0 b1 p d : holds_tag type b0 b1 d -> holds_tag type b0 b1 (SinkData p d).
Proof. done. Qed.

Lemma seq_header_kept b0 b1 d r d' :
  holds_tag FLV_TAG_VIDEO b0 b1 d -> seq_header_tag b0 b1 (tag_data_size_ d) -> HandlePacket d = Done (r, d') ->
  r = 0 /\ holds_tag FLV_TAG_VIDEO b0 b1 d' /\ tag_data_size_ d' = tag_data_size_ d.
Proof.
  intros Hh (Hk & -> & Hc). rewrite (HandlePacket_holds _ _ _ _ Hh). destruct Hh as (Hf & Ht & Hty & Hq & rest & Hb).
  unfold handle_tag. intros (p0 & _ & He)%bind_inv. revert He. rewrite Hty.
  change (FLV_TAG_VIDEO =? FLV_TAG_AUDIO) with false. change (FLV_TAG_VIDEO =? FLV_TAG_VIDEO) with true. cbv iota.
  unfold handle_video. rewrite Hb. set (body := b0 :: 0 :: rest). change (body.[0]) with (Done b0). simpl_m.
  set (c := match demux_video_codec b0 with Some c => _ | None => _ end).
  assert (exists codec, c = (codec, d) /\ (codec = MEDIA_CODEC_H265 \/
    codec = MEDIA_CODEC_H264 /\ u32 (tag_data_size_ d - 5) < 512)) as (codec & -> & Hcodec).
  { unfold c, demux_video_codec. destruct Hc as [Hc|[Hc Hsz]]; rewrite Hc; eexists; split; try reflexivity; tauto. }
  intros (pk & Hpk & He)%bind_inv. revert Hpk He. unfold video_flags. rewrite Hk.
  change (body.[1]) with (Done 0). simpl_m. cbn [Z.eqb]. change (FLV_VIDEO_KEY_FLAG =? FLV_VIDEO_KEY_FLAG) with true. cbv iota.
  intros [= <-] (delta & _ & He)%bind_inv. revert He. cbn [is_seq_hdr_ set_is_seq_hdr andb].
  destruct Hcodec as [-> |[-> Hsz]].
  - cbn [bool_decide andb]. intros (x & _ & He)%bind_inv. revert He.
    intros (y & _ & [= <- <-])%bind_inv. unfold holds_tag. split_and!; try done. by exists rest.
  - rewrite (bool_decide_eq_true_2 (MEDIA_CODEC_H264 = MEDIA_CODEC_H264)) by done. cbn [andb]. rewrite (proj2 (Z.ltb_lt (u32 (tag_data_size_ d - (2 + 3))) 512) Hsz).
    intros (d1 & (p & q & ->)%avc_seq_header_sinks & [= <- <-])%bind_inv. unfold holds_tag. split_and!; try done. by exists rest.
Qed.

Lemma seq_header_loop b0 b1 fuel d r :
  holds_tag FLV_TAG_VIDEO b0 b1 d -> seq_header_tag b0 b1 (tag_data_size_ d) -> handle_packets fuel d <> Done r.
Proof.
  revert d. induction fuel as [|fuel IH]; intros d Hh Hs; [done|]. cbn [handle_packets].
  intros ([ret d1] & Hd & He)%bind_inv. destruct (seq_header_kept _ _ _ _ _ Hh Hs Hd) as (-> & Hh1 & Hsz).
  revert He. apply IH; [done|]. by rewrite Hsz.
Qed.

(** Once the demuxer stands at an H.265 sequence header, or at an H.264 one of
    less than 512 bytes, [InputPacket] never returns, whatever is delivered: the
    tag is left in the buffer, so [while (ret == 0)] takes it again and again
    (or, with a malformed parameter set, the process fails). *)
Theorem sequence_header_never_answers dts b0 body rest fuel d r :
  between (flv_tag FLV_TAG_VIDEO dts (b0 :: 0 :: body) ++ rest) d ->
  zlen (b0 :: 0 :: body) < 2 ^ 24 -> seq_header_tag b0 0 (zlen (b0 :: 0 :: body)) ->
  handle_packets fuel d <> Done r.
Proof.
  intros Hb Hmax Hs. destruct fuel as [|fuel]; [done|].
  set (d1 := at_tag FLV_TAG_VIDEO dts (b0 :: 0 :: body) rest d).
  assert (holds_tag FLV_TAG_VIDEO b0 0 d1) as Hh.
  { destruct Hb as (Hf & _). split_and!; try done; [|by eexists].
    apply require_true. unfold d1, at_tag, FLV_TAG_PRE_SIZE. cbn [d_buffer_ set_d_buffer tag_data_size_ set_tag_header_ready set_tag].
    rewrite !zlen_app. change (zlen (be_bytes 4 _)) with 4. pose proof (zlen_nonneg rest). lia. }
  cbn [handle_packets]. rewrite (HandlePacket_tag _ _ _ _ _ Hb Hmax). fold d1.
  rewrite <- (HandlePacket_holds _ _ _ _ Hh). by apply (seq_header_loop b0 0 (S fuel)).
Qed.

Lemma asc_lc tail size a : 2 <= size ->
  GetAudioInfoByAsc (0x12 :: 0x10 :: tail) size a = Done (true, mkAudio 2 44100 2).
Proof.
  intros Hsz. unfold GetAudioInfoByAsc. rewrite (proj2 (Z.leb_le 2 size)) by done.
  change (Read2Bytes (0x12 :: 0x10 :: tail)) with (@Done Z 0x1210). simpl_m. by destruct a.
Qed.

Lemma asc_into_lc tail pkt : building pkt -> contents (buffer_ptr_ pkt) = [] ->
  asc_into (0x12 :: 0x10 :: tail) (u64 (DataLen (buffer_ptr_ pkt) - 2)) pkt =
  Done (set_has_flv_audio_asc true (Media.set_channel 2 (Media.set_sample_rate 44100 (set_aac_asc_type 2 pkt)))).
Proof.
  intros [Hb _] Hc. unfold asc_into. rewrite DataLen_contents, Hc by done. by rewrite asc_lc.
Qed.

Lemma deliver_asc_asserts x y tail pk d :
  building pk -> contents (buffer_ptr_ pk) = [] -> tag_data_size_ d = 4 -> is_avc (codec_type_ pk) = false ->
  deliver (0xaf :: 0 :: x :: y :: tail) 2 0 pk d = Fault AssertFailure.
Proof.
  intros Hb Hc Hsz Hcodec. unfold deliver. rewrite Hsz. change (2 <? i32 4) with true. cbv iota.
  change (codec_type_ (stamp (tag_timestamp_ d) 0 pk)) with (codec_type_ pk). rewrite Hcodec.
  change (u32 (4 - 2)) with (zlen [x; y]).
  rewrite (read_range_mid [0xaf; 0] [x; y] tail : read_range (0xaf :: 0 :: x :: y :: tail) 2 _ = _). simpl_m.
  destruct (append_packet_building [x; y] (stamp (tag_timestamp_ d) 0 pk)) as (b & -> & [Hb1 _] & Hc1);
    [done|cbn [buffer_ptr_ stamp set_pts set_dts]; by rewrite Hc|].
  cbn [stamp buffer_ptr_ set_pts set_dts] in Hc1. rewrite Hc in Hc1.
  simpl_m. change ((0xaf :: ?l).[0]) with (Done 0xaf). simpl_m.
  change (Z.land 0xaf 0xf0 =? FLV_AUDIO_AAC_CODEC) with true. cbv iota.
  change ((0xaf :: 0 :: ?l).[1]) with (Done 0). simpl_m. change (0 =? 0) with true. cbv iota.
  unfold asc_into, GetAudioInfoByAsc. cbn [buffer_ptr_ set_buffer_ptr].
  by rewrite (DataLen_contents b Hb1), Hc1.
Qed.

Lemma audio_tag_lc tail asc pkt : building pkt -> contents (buffer_ptr_ pkt) = [] ->
  exists pk, audio_tag (0xaf :: 0 :: 0x12 :: 0x10 :: tail) asc pkt = Done (Some pk) /\
    building pk /\ contents (buffer_ptr_ pk) = [] /\ is_avc (codec_type_ pk) = false.
Proof.
  intros Hb Hc. set (p := 0x12 :: 0x10 :: tail). unfold audio_tag. change ((0xaf :: ?l).[0]) with (Done 0xaf). simpl_m.
  change (demux_audio_codec 0xaf) with (Some MEDIA_CODEC_AAC). cbv iota.
  change ((0xaf :: 0 :: ?l).[1]) with (Done 0). simpl_m. change (0 =? 0) with true. cbv iota.
  change (Z.land 0xaf 0xf0 =? FLV_AUDIO_AAC_CODEC) with true. cbv iota.
  change (drop 2 (0xaf :: 0 :: p)) with p. unfold p.
  rewrite (asc_into_lc tail (set_codec_type MEDIA_CODEC_AAC (set_av_type MEDIA_AUDIO_TYPE pkt)) Hb Hc).
  simpl_m. eexists. by split_and!.
Qed.

(** An AAC sequence header with the two-byte configuration of AAC-LC at 44.1
    kHz ends the process: the size passed to [GetAudioInfoByAsc] has the two
    header bytes taken off once too often, and its [assert] fails. *)
Theorem aac_sequence_header_asserts dts rest d :
  between (flv_tag FLV_TAG_AUDIO dts [0xaf; 0; 0x12; 0x10] ++ rest) d -> HandlePacket d = Fault AssertFailure.
Proof.
  intros Hb. rewrite (HandlePacket_tag _ _ _ _ _ Hb) by done. set (d1 := at_tag _ _ _ _ _).
  unfold handle_tag. destruct Media_Packet_new_spec as (p0 & -> & Hw0 & Hc0 & Hs0 & _). simpl_m.
  change (tag_type_ d1 =? FLV_TAG_AUDIO) with true. cbv iota.
  set (tail := be_bytes 4 15 ++ rest).
  assert (d_buffer_ d1 = 0xaf :: 0 :: 0x12 :: 0x10 :: tail) as -> by done.
  destruct (audio_tag_lc tail (d_aac_asc_type_ d1) (set_pkt_key (d_key_ d1) (set_fmt_type MEDIA_FORMAT_RAW p0)))
    as (pk & -> & Hbk & Hck & Hcodec); [by split|exact Hc0|]. simpl_m.
  by rewrite (deliver_asc_asserts 0x12 0x10 tail pk d1 Hbk Hck eq_refl Hcodec).
Qed.

(** Audio of a codec that is none of AAC, Opus and MP3 is never consumed: every
    later delivery is answered with -1. *)
Theorem unknown_audio_wedges b0 b1 x key d fuel :
  holds_tag FLV_TAG_AUDIO b0 b1 d -> demux_audio_codec b0 = None ->
  InputPacket_bytes (S fuel) x key d = Done (-1, Report_demux (flv_feed x key d)) /\
  holds_tag FLV_TAG_AUDIO b0 b1 (Report_demux (flv_feed x key d)).
Proof.
  intros Hh Hc.
  assert (holds_tag FLV_TAG_AUDIO b0 b1 (flv_feed x key d)) as Hh'.
  { destruct Hh as (? & ? & ? & Hq & rest & Hb). split_and!; try done; [by apply require_extend|].
    exists (rest ++ x). cbn. by rewrite Hb. }
  split; [|exact Hh']. unfold InputPacket_bytes. fold (flv_feed x key d). cbn [handle_packets].
  rewrite (HandlePacket_holds _ _ _ _ Hh'). destruct Hh' as (_ & _ & Hty & _ & rest & Hb).
  unfold handle_tag. destruct Media_Packet_new_spec as (p0 & -> & _). simpl_m. rewrite Hty, Hb.
  change (FLV_TAG_AUDIO =? FLV_TAG_AUDIO) with true. cbv iota. unfold audio_tag.
  change ((b0 :: ?l).[0]) with (Done b0). simpl_m. by rewrite Hc.
Qed.
End stuck.

Definition demo_demuxer (tag : bytes) : FlvDemuxer := set_d_buffer tag (set_flv_header_ready true FlvDemuxer_new).

(** An H.265 sequence header. *)
Lemma sequence_header_never_answers_witness :
  let d := demo_demuxer (flv_tag FLV_TAG_VIDEO 40 (0x1c :: 0 :: [0; 0; 0; 1; 2]) ++ []) in
  between (flv_tag FLV_TAG_VIDEO 40 (0x1c :: 0 :: [0; 0; 0; 1; 2]) ++ []) d /\
  handle_packets (H := zero_alloc) 1000 d <> Done (FLV_RET_NEED_MORE, d).
Proof.
  split; [done|]. apply (sequence_header_never_answers (H := zero_alloc) 40 0x1c [0; 0; 0; 1; 2] []); [done|done|].
  split; [reflexivity|]. split; [reflexivity|]. left. reflexivity.
Defined.

Lemma aac_sequence_header_asserts_witness :
  HandlePacket (H := zero_alloc) (demo_demuxer (flv_tag FLV_TAG_AUDIO 40 [0xaf; 0; 0x12; 0x10] ++ [])) = Fault AssertFailure.
Proof. apply (aac_sequence_header_asserts (H := zero_alloc) 40 []). done. Defined.
