(* ===== verification/TsPub.v ===== *)
(** * [TsPub]: what the MPEG-TS muxer and demuxer share

    Models the constants and [GetMediaInfoByStreamtype] of
    [src/format/mpegts/mpegts_pub.hpp]. *)
From S2P Require Import Prelude DataBuffer Media.

Definition TS_PACKET_SIZE : Z := 188.
Definition STREAM_TYPE_PRIVATE_DATA : Z := 0x06.
Definition STREAM_TYPE_AUDIO_AAC : Z := 0x0f.
Definition STREAM_TYPE_VIDEO_H264 : Z := 0x1b.
Definition STREAM_TYPE_VIDEO_HEVC : Z := 0x24.
Definition PAT_TID_PAS : Z := 0x00.
Definition PAT_TID_PMS : Z := 0x02.
Definition PES_SID_AUDIO : Z := 0xC0.
Definition PES_SID_VIDEO : Z := 0xE0.

(** [data[k]] through the data pointer of a buffer: [k] may be negative. *)
Definition peek (b : DataBuffer) (k : Z) : outcome Z := (buffer_ b).[start_ b + k].

Definition GetMediaInfoByStreamtype (streamtype : Z) (media : MEDIA_PKT_TYPE) (codec : MEDIA_CODEC_TYPE)
    : Z * MEDIA_PKT_TYPE * MEDIA_CODEC_TYPE :=
  if streamtype =? STREAM_TYPE_AUDIO_AAC then (0, MEDIA_AUDIO_TYPE, MEDIA_CODEC_AAC)
  else if streamtype =? STREAM_TYPE_VIDEO_H264 then (0, MEDIA_VIDEO_TYPE, MEDIA_CODEC_H264)
  else if streamtype =? STREAM_TYPE_VIDEO_HEVC then (0, MEDIA_VIDEO_TYPE, MEDIA_CODEC_H265)
  else (-1, media, codec).
