(* ===== verification/TsCrc.v ===== *)
(** * [TsCrc]: the CRC of the MPEG-TS tables

    Models [crc32table] and [mpeg_crc32] of [src/format/mpegts/mpegts_mux.cpp].
    The table is that of the CRC-32/MPEG-2 with the bytes of every entry
    reversed, so that the loop can shift right: [crc32_mpeg] is the definition of
    the standard, bit by bit with the most significant bit first, and [bswap]
    relates the two. *)
From S2P Require Import Prelude ByteStream.

Definition crc32table : list Z :=
  [0x00000000; 0xB71DC104; 0x6E3B8209; 0xD926430D; 0xDC760413; 0x6B6BC517;
   0xB24D861A; 0x0550471E; 0xB8ED0826; 0x0FF0C922; 0xD6D68A2F; 0x61CB4B2B;
   0x649B0C35; 0xD386CD31; 0x0AA08E3C; 0xBDBD4F38; 0x70DB114C; 0xC7C6D048;
   0x1EE09345; 0xA9FD5241; 0xACAD155F; 0x1BB0D45B; 0xC2969756; 0x758B5652;
   0xC836196A; 0x7F2BD86E; 0xA60D9B63; 0x11105A67; 0x14401D79; 0xA35DDC7D;
   0x7A7B9F70; 0xCD665E74; 0xE0B62398; 0x57ABE29C; 0x8E8DA191; 0x39906095;
   0x3CC0278B; 0x8BDDE68F; 0x52FBA582; 0xE5E66486; 0x585B2BBE; 0xEF46EABA;
   0x3660A9B7; 0x817D68B3; 0x842D2FAD; 0x3330EEA9; 0xEA16ADA4; 0x5D0B6CA0;
   0x906D32D4; 0x2770F3D0; 0xFE56B0DD; 0x494B71D9; 0x4C1B36C7; 0xFB06F7C3;
   0x2220B4CE; 0x953D75CA; 0x28803AF2; 0x9F9DFBF6; 0x46BBB8FB; 0xF1A679FF;
   0xF4F63EE1; 0x43EBFFE5; 0x9ACDBCE8; 0x2DD07DEC; 0x77708634; 0xC06D4730;
   0x194B043D; 0xAE56C539; 0xAB068227; 0x1C1B4323; 0xC53D002E; 0x7220C12A;
   0xCF9D8E12; 0x78804F16; 0xA1A60C1B; 0x16BBCD1F; 0x13EB8A01; 0xA4F64B05;
   0x7DD00808; 0xCACDC90C; 0x07AB9778; 0xB0B6567C; 0x69901571; 0xDE8DD475;
   0xDBDD936B; 0x6CC0526F; 0xB5E61162; 0x02FBD066; 0xBF469F5E; 0x085B5E5A;
   0xD17D1D57; 0x6660DC53; 0x63309B4D; 0xD42D5A49; 0x0D0B1944; 0xBA16D840;
   0x97C6A5AC; 0x20DB64A8; 0xF9FD27A5; 0x4EE0E6A1; 0x4BB0A1BF; 0xFCAD60BB;
   0x258B23B6; 0x9296E2B2; 0x2F2BAD8A; 0x98366C8E; 0x41102F83; 0xF60DEE87;
   0xF35DA999; 0x4440689D; 0x9D662B90; 0x2A7BEA94; 0xE71DB4E0; 0x500075E4;
   0x892636E9; 0x3E3BF7ED; 0x3B6BB0F3; 0x8C7671F7; 0x555032FA; 0xE24DF3FE;
   0x5FF0BCC6; 0xE8ED7DC2; 0x31CB3ECF; 0x86D6FFCB; 0x8386B8D5; 0x349B79D1;
   0xEDBD3ADC; 0x5AA0FBD8; 0xEEE00C69; 0x59FDCD6D; 0x80DB8E60; 0x37C64F64;
   0x3296087A; 0x858BC97E; 0x5CAD8A73; 0xEBB04B77; 0x560D044F; 0xE110C54B;
   0x38368646; 0x8F2B4742; 0x8A7B005C; 0x3D66C158; 0xE4408255; 0x535D4351;
   0x9E3B1D25; 0x2926DC21; 0xF0009F2C; 0x471D5E28; 0x424D1936; 0xF550D832;
   0x2C769B3F; 0x9B6B5A3B; 0x26D61503; 0x91CBD407; 0x48ED970A; 0xFFF0560E;
   0xFAA01110; 0x4DBDD014; 0x949B9319; 0x2386521D; 0x0E562FF1; 0xB94BEEF5;
   0x606DADF8; 0xD7706CFC; 0xD2202BE2; 0x653DEAE6; 0xBC1BA9EB; 0x0B0668EF;
   0xB6BB27D7; 0x01A6E6D3; 0xD880A5DE; 0x6F9D64DA; 0x6ACD23C4; 0xDDD0E2C0;
   0x04F6A1CD; 0xB3EB60C9; 0x7E8D3EBD; 0xC990FFB9; 0x10B6BCB4; 0xA7AB7DB0;
   0xA2FB3AAE; 0x15E6FBAA; 0xCCC0B8A7; 0x7BDD79A3; 0xC660369B; 0x717DF79F;
   0xA85BB492; 0x1F467596; 0x1A163288; 0xAD0BF38C; 0x742DB081; 0xC3307185;
   0x99908A5D; 0x2E8D4B59; 0xF7AB0854; 0x40B6C950; 0x45E68E4E; 0xF2FB4F4A;
   0x2BDD0C47; 0x9CC0CD43; 0x217D827B; 0x9660437F; 0x4F460072; 0xF85BC176;
   0xFD0B8668; 0x4A16476C; 0x93300461; 0x242DC565; 0xE94B9B11; 0x5E565A15;
   0x87701918; 0x306DD81C; 0x353D9F02; 0x82205E06; 0x5B061D0B; 0xEC1BDC0F;
   0x51A69337; 0xE6BB5233; 0x3F9D113E; 0x8880D03A; 0x8DD09724; 0x3ACD5620;
   0xE3EB152D; 0x54F6D429; 0x7926A9C5; 0xCE3B68C1; 0x171D2BCC; 0xA000EAC8;
   0xA550ADD6; 0x124D6CD2; 0xCB6B2FDF; 0x7C76EEDB; 0xC1CBA1E3; 0x76D660E7;
   0xAFF023EA; 0x18EDE2EE; 0x1DBDA5F0; 0xAAA064F4; 0x738627F9; 0xC49BE6FD;
   0x09FDB889; 0xBEE0798D; 0x67C63A80; 0xD0DBFB84; 0xD58BBC9A; 0x62967D9E;
   0xBBB03E93; 0x0CADFF97; 0xB110B0AF; 0x060D71AB; 0xDF2B32A6; 0x6836F3A2;
   0x6D66B4BC; 0xDA7B75B8; 0x035D36B5; 0xB440F7B1].

(** [mpeg_crc32]: the loop counts [size] down instead of [i] up. *)
Fixpoint mpeg_crc32 (crc : Z) (buffer : bytes) (size : nat) : outcome Z :=
  match size with
  | O => mret crc
  | S n =>
      b ← buffer.[0];
      t ← crc32table.[Z.land (Z.lxor crc b) 0xff];
      mpeg_crc32 (Z.lxor t (Z.shiftr crc 8)) (drop 1 buffer) n
  end.

(** ** The CRC-32/MPEG-2 (ISO 13818-1, annex A) *)

Definition CRC_POLYNOMIAL : Z := 0x04C11DB7.

(** One shift of the register. *)
Definition crc_bit (c : Z) : Z :=
  Z.lxor (Z.land (Z.shiftl c 1) 0xffffffff) (if Z.testbit c 31 then CRC_POLYNOMIAL else 0).
Definition crc_byte (c b : Z) : Z := Nat.iter 8 crc_bit (Z.lxor c (Z.shiftl b 24)).
Definition crc32_mpeg (c : Z) (l : bytes) : Z := fold_left crc_byte l c.

(** The register with its bytes in the other order. *)
Definition bswap (c : Z) : Z :=
  Z.lxor (Z.lxor (Z.shiftl (byte_of c 0) 24) (Z.shiftl (byte_of c 1) 16))
         (Z.lxor (Z.shiftl (byte_of c 2) 8) (byte_of c 3)).

(** ** Linearity *)

Lemma crc_bit_lxor x y : crc_bit (Z.lxor x y) = Z.lxor (crc_bit x) (crc_bit y).
Proof.
  unfold crc_bit. rewrite Z.shiftl_lxor, land_lxor, Z.lxor_spec.
  set (a := Z.land _ _). set (b := Z.land _ _).
  destruct (Z.testbit x 31), (Z.testbit y 31); cbn [xorb]; rewrite ?Z.lxor_0_r; xor_bits.
Qed.

Lemma crc_bits_lxor n x y : Nat.iter n crc_bit (Z.lxor x y) = Z.lxor (Nat.iter n crc_bit x) (Nat.iter n crc_bit y).
Proof. induction n as [|n IH]; [done|]. cbn [Nat.iter nat_rect]. unfold Nat.iter in IH. by rewrite IH, crc_bit_lxor. Qed.

Lemma crc_bit_small x : 0 <= x < 2 ^ 31 -> crc_bit x = 2 * x.
Proof.
  intros Hx. unfold crc_bit.
  assert (Z.testbit x 31 = false) as -> by (rewrite <- (Z.mod_small x (2 ^ 31)) by done; by apply Z.mod_pow2_bits_high).
  rewrite Z.lxor_0_r, (low_mask _ 0xffffffff 32), Z.shiftl_mul_pow2 by done. rewrite Z.mod_small; lia.
Qed.

Lemma crc_bits_small n x : (n <= 8)%nat -> 0 <= x < 2 ^ 24 -> Nat.iter n crc_bit x = x * 2 ^ Z.of_nat n.
Proof.
  intros Hn Hx. induction n as [|n IH]; [cbn; lia|]. rewrite Nat.iter_succ, IH by lia.
  assert (2 ^ Z.of_nat n <= 2 ^ 7) by (apply Z.pow_le_mono_r; lia).
  rewrite Nat2Z.inj_succ, Z.pow_succ_r by lia. rewrite crc_bit_small; nia.
Qed.

Lemma byte_of_lxor x y i : byte_of (Z.lxor x y) i = Z.lxor (byte_of x i) (byte_of y i).
Proof. unfold byte_of. by rewrite Z.shiftr_lxor, land_lxor. Qed.

Lemma bswap_lxor x y : bswap (Z.lxor x y) = Z.lxor (bswap x) (bswap y).
Proof. unfold bswap. rewrite !byte_of_lxor, !Z.shiftl_lxor. xor_bits. Qed.

(** ** The loop with the table against the definition *)

(** The first byte of the register and the other three. *)
Lemma register_split c : 0 <= c < 2 ^ 32 -> c = Z.lxor (Z.shiftl (byte_of c 3) 24) (c mod 2 ^ 24).
Proof.
  intros Hc. assert (byte_of c 3 = c / 2 ^ 24) as ->.
  { rewrite byte_of_div. apply Z.mod_small. change (8 * Z.of_nat 3) with 24. div_lia. }
  rewrite Z.shiftl_mul_pow2, <- Z.add_nocarry_lxor; [div_lia| |done].
  - apply Z.bits_inj'. intros k Hk. rewrite Z.land_spec, Z.bits_0.
    destruct (Z.ltb_spec k 24); [by rewrite Z.mul_pow2_bits_low|].
    rewrite Z.mod_pow2_bits_high by lia. apply andb_false_r.
Qed.

Lemma crc_byte_split c b : 0 <= c < 2 ^ 32 ->
  crc_byte c b = Z.lxor (Nat.iter 8 crc_bit (Z.shiftl (Z.lxor (byte_of c 3) b) 24)) (c mod 2 ^ 24 * 2 ^ 8).
Proof.
  intros Hc. unfold crc_byte. rewrite (register_split c) at 1 by done.
  rewrite Z.shiftl_lxor. rewrite <- (crc_bits_small 8) by (done || apply Z.mod_pos_bound; lia).
  rewrite <- crc_bits_lxor. f_equal. xor_bits.
Qed.

Lemma crc_bit_range c : 0 <= crc_bit c < 2 ^ 32.
Proof.
  unfold crc_bit. rewrite (low_mask _ 0xffffffff 32) by done.
  set (r := Z.shiftl c 1 mod 2 ^ 32). assert (r = r mod 2 ^ 32) as -> by (unfold r; by rewrite Z.mod_mod).
  destruct (Z.testbit c 31); [|rewrite Z.lxor_0_r; apply Z.mod_pos_bound; lia].
  change CRC_POLYNOMIAL with (CRC_POLYNOMIAL mod 2 ^ 32).
  rewrite <- !Z.land_ones, <- land_lxor, Z.land_ones by lia. apply Z.mod_pos_bound. lia.
Qed.

Lemma crc_byte_range c b : 0 <= crc_byte c b < 2 ^ 32.
Proof. unfold crc_byte. rewrite Nat.iter_succ. apply crc_bit_range. Qed.

Lemma table_entry b : is_byte b -> crc32table.[b] = Done (bswap (Nat.iter 8 crc_bit (Z.shiftl b 24))).
Proof.
  intros Hb. set (P b := bool_decide (crc32table.[b] = Done (bswap (Nat.iter 8 crc_bit (Z.shiftl b 24))))).
  enough (P b = true) as E by by apply bool_decide_eq_true_1 in E.
  apply byte_all; [by vm_compute|done].
Qed.

(** The bytes of the swapped register. *)
Lemma byte_of_shift b k i : is_byte b -> byte_of (Z.shiftl b (8 * Z.of_nat k)) i = if decide (k = i) then b else 0.
Proof.
  intros Hb. unfold is_byte in Hb. rewrite byte_of_div, Z.shiftl_mul_pow2 by lia. case_decide as E.
  - subst i. rewrite Z.div_mul by lia. by apply Z.mod_small.
  - destruct (decide (k < i)%nat).
    + replace (8 * Z.of_nat i) with (8 * Z.of_nat k + 8 * Z.of_nat (i - k)) by lia. rewrite Z.pow_add_r by lia.
      assert (2 ^ 8 <= 2 ^ (8 * Z.of_nat (i - k))) by (apply Z.pow_le_mono_r; lia).
      rewrite <- Z.div_div, Z.div_mul, Z.div_small by lia. done.
    + replace (8 * Z.of_nat k) with (8 * Z.of_nat i + 8 * (Z.of_nat (k - i - 1) + 1)) by lia.
      rewrite Z.pow_add_r, (Z.mul_comm (2 ^ _)), Z.mul_assoc, Z.div_mul by lia.
      rewrite Z.mul_add_distr_l, Z.pow_add_r by lia. change (2 ^ (8 * 1)) with 256.
      rewrite Z.mul_assoc. apply Z.mod_mul. lia.
Qed.

Lemma byte_of_bswap c i : (i < 4)%nat -> byte_of (bswap c) i = byte_of c (3 - i).
Proof.
  intros Hi. unfold bswap. rewrite !byte_of_lxor.
  pose proof (byte_of_shift (byte_of c 0) 3 i (byte_of_range c 0)) as E0. change (8 * Z.of_nat 3) with 24 in E0. rewrite E0.
  pose proof (byte_of_shift (byte_of c 1) 2 i (byte_of_range c 1)) as E1. change (8 * Z.of_nat 2) with 16 in E1. rewrite E1.
  pose proof (byte_of_shift (byte_of c 2) 1 i (byte_of_range c 2)) as E2. change (8 * Z.of_nat 1) with 8 in E2. rewrite E2.
  pose proof (byte_of_shift (byte_of c 3) 0 i (byte_of_range c 3)) as E3. rewrite Z.shiftl_0_r in E3. rewrite E3.
  do 4 (destruct i as [|i]; [by rewrite ?Z.lxor_0_l, ?Z.lxor_0_r|]). lia.
Qed.

Lemma bswap_next c : 0 <= c < 2 ^ 32 -> bswap (c mod 2 ^ 24 * 2 ^ 8) = Z.shiftr (bswap c) 8.
Proof.
  intros Hc.
  assert (forall i, (i < 3)%nat -> byte_of (c mod 2 ^ 24 * 2 ^ 8) (S i) = byte_of c i) as Hs.
  { intros i Hi. rewrite !byte_of_div. do 3 (destruct i as [|i]; [cbn; div_lia|]). lia. }
  assert (byte_of (c mod 2 ^ 24 * 2 ^ 8) 0 = 0) as H0 by (rewrite byte_of_div; cbn; div_lia).
  unfold bswap. rewrite H0, !Hs by lia. rewrite Z.shiftl_0_l, Z.lxor_0_l, !Z.shiftr_lxor.
  rewrite !Z.shiftr_shiftl_l by done. pose proof (byte_of_range c 3) as H3. unfold is_byte in H3.
  assert (Z.shiftr (byte_of c 3) 8 = 0) as -> by (rewrite Z.shiftr_div_pow2 by done; apply Z.div_small; lia).
  rewrite Z.lxor_0_r, Z.shiftl_0_r. symmetry. apply Z.lxor_assoc.
Qed.

(** One turn of the loop. *)
Lemma table_step c b : 0 <= c < 2 ^ 32 -> is_byte b ->
  exists t, crc32table.[Z.land (Z.lxor (bswap c) b) 0xff] = Done t /\
    Z.lxor t (Z.shiftr (bswap c) 8) = bswap (crc_byte c b).
Proof.
  intros Hc Hb. rewrite land_lxor.
  assert (Z.land (bswap c) 0xff = byte_of c 3) as ->.
  { pose proof (byte_of_bswap c 0 ltac:(lia)) as E. unfold byte_of at 1 in E. by rewrite Z.shiftr_0_r in E. }
  rewrite (low_mask b 0xff 8), (Z.mod_small b (2 ^ 8)) by done.
  eexists. split; [apply table_entry, lxor_byte, Hb; apply byte_of_range|].
  by rewrite <- bswap_next, <- bswap_lxor, <- crc_byte_split.
Qed.

(** C7. The loop over the table computes the CRC of the standard, bit by bit, with the register in the other
    byte order, and never leaves the table. *)
Theorem mpeg_crc32_correct c l rest : 0 <= c < 2 ^ 32 -> bytes_ok l ->
  mpeg_crc32 (bswap c) (l ++ rest) (length l) = Done (bswap (crc32_mpeg c l)).
Proof.
  intros Hc Hl. revert c Hc. induction l as [|b l IH]; intros c Hc; [done|].
  apply Forall_cons in Hl as [Hb Hl]. cbn [length app mpeg_crc32].
  change ((b :: l ++ rest).[0]) with (Done b). simpl_m.
  destruct (table_step c b Hc Hb) as (t & -> & Et). simpl_m. rewrite Et.
  apply (IH Hl), crc_byte_range.
Qed.

(** ** Checking a section: the CRC over a section that ends in its CRC is zero *)

Lemma crc_byte_own a r : is_byte a -> 0 <= r < 2 ^ 24 -> crc_byte (a * 2 ^ 24 + r) a = r * 2 ^ 8.
Proof.
  intros Ha Hr. unfold is_byte in Ha. rewrite crc_byte_split by lia.
  assert (byte_of (a * 2 ^ 24 + r) 3 = a) as ->.
  { rewrite byte_of_div. change (8 * Z.of_nat 3) with 24. rewrite Z.div_add_l, Z.div_small, Z.add_0_r by lia.
    by apply Z.mod_small. }
  rewrite Z.lxor_nilpotent, Z.add_comm, Z.mod_add, (Z.mod_small r) by lia. apply Z.lxor_0_l.
Qed.

Lemma crc32_cons c b l : crc32_mpeg c (b :: l) = crc32_mpeg (crc_byte c b) l.
Proof. reflexivity. Qed.

Lemma crc_residue4 b3 b2 b1 b0 : is_byte b3 -> is_byte b2 -> is_byte b1 -> is_byte b0 ->
  crc32_mpeg (b3 * 2 ^ 24 + (b2 * 2 ^ 16 + b1 * 2 ^ 8 + b0)) [b3; b2; b1; b0] = 0.
Proof.
  unfold is_byte. intros. rewrite !crc32_cons, crc_byte_own by (done || lia).
  replace (_ * 2 ^ 8) with (b2 * 2 ^ 24 + (b1 * 2 ^ 16 + b0 * 2 ^ 8)) by lia. rewrite crc_byte_own by (done || lia).
  replace (_ * 2 ^ 8) with (b1 * 2 ^ 24 + b0 * 2 ^ 16) by lia. rewrite crc_byte_own by (done || lia).
  replace (_ * 2 ^ 8) with (b0 * 2 ^ 24 + 0) by lia. rewrite crc_byte_own by (done || lia). reflexivity.
Qed.

Lemma crc_residue c : 0 <= c < 2 ^ 32 -> crc32_mpeg c (be_bytes 4 c) = 0.
Proof.
  intros Hc. pose proof (crc_residue4 (byte_of c 3) (byte_of c 2) (byte_of c 1) (byte_of c 0)) as H.
  enough (byte_of c 3 * 2 ^ 24 + (byte_of c 2 * 2 ^ 16 + byte_of c 1 * 2 ^ 8 + byte_of c 0) = c) as E
    by (rewrite E in H; apply H; apply byte_of_range).
  rewrite !byte_of_div. change (8 * Z.of_nat 3) with 24. change (8 * Z.of_nat 2) with 16.
  change (8 * Z.of_nat 1) with 8. change (8 * Z.of_nat 0) with 0. div_lia.
Qed.

Lemma crc32_mpeg_range c l : 0 <= c < 2 ^ 32 -> 0 <= crc32_mpeg c l < 2 ^ 32.
Proof.
  revert c. induction l as [|b l IH]; intros c Hc; [done|]. apply IH, crc_byte_range.
Qed.

Lemma crc32_app c l k : crc32_mpeg c (l ++ k) = crc32_mpeg (crc32_mpeg c l) k.
Proof. apply fold_left_app. Qed.

Lemma crc_section l : crc32_mpeg 0xffffffff (l ++ be_bytes 4 (crc32_mpeg 0xffffffff l)) = 0.
Proof.
  rewrite crc32_app. apply crc_residue, crc32_mpeg_range. lia.
Qed.

(** The swapped register, least significant byte first, is the register in network order. *)
Lemma bswap_bytes c : [byte_of (bswap c) 0; byte_of (bswap c) 1; byte_of (bswap c) 2; byte_of (bswap c) 3] = be_bytes 4 c.
Proof. rewrite !byte_of_bswap by lia. reflexivity. Qed.

Lemma bswap_ones : bswap 0xffffffff = 0xffffffff.
Proof. reflexivity. Qed.

(** ** Concrete run: the check value of the CRC catalogue *)

Lemma mpeg_crc32_correct_witness :
  crc32_mpeg 0xffffffff (str "123456789") = 0x0376E6E7 /\
  mpeg_crc32 0xffffffff (str "123456789") 9 = Done 0xE7E67603.
Proof.
  split; [by vm_compute|].
  pose proof (mpeg_crc32_correct 0xffffffff (str "123456789") [] ltac:(lia)
    ltac:(apply (bool_decide_unpack _); vm_compute; exact I)) as H.
  rewrite bswap_ones, app_nil_r in H. etransitivity; [exact H|]. by vm_compute.
Defined.
