(* ===== verification/TsMux.v ===== *)
(** * [TsMux]: the MPEG-TS multiplexer

    Models [src/format/mpegts/mpegts_mux.*].
    The members the class never assigns after its initialisers ([pmt_count_],
    [video_pid_] and their like) are constants.  [ts_packet], a local array that is
    not initialised, is [ts_packet0] of the class [Locals], as is the record
    [hevc_info].  The packets given to the sinks and the reports are events of a
    log: every sink gets a packet of its own with the same contents, so the log
    holds one.  A packet handled by the muxer is returned as the call leaves it,
    because [HandleAudioAac] puts the ADTS header into the caller's buffer. *)
From S2P Require Import Prelude ByteStream DataBuffer Media AudioHeader H264 TsPub TsCrc.

Definition NAL_UNIT_CODED_SLICE_BLA : Z := 16.
Definition NAL_UNIT_RESERVED_23 : Z := 23.
Definition NAL_UNIT_ACCESS_UNIT_DELIMITER : Z := 35.

Definition H264_AUD_DATA : bytes := [0x00; 0x00; 0x00; 0x01; 0x09; 0xff].
Definition H265_AUD_DATA : bytes := [0x00; 0x00; 0x00; 0x01; 0x46; 0x01; 0x50].

(** Members that keep their initial values. *)
Definition pmt_count_ : Z := 1.
Definition transport_stream_id_ : Z := 1.
Definition pat_ver_ : Z := 0.
Definition program_number_ : Z := 1.
Definition pmt_pid_ : Z := 0x1001.
Definition pmt_pn : Z := 0x01.
Definition pmt_ver_ : Z := 0.
Definition pcr_id_ : Z := 0x100.
Definition pminfo_len_ : Z := 0.
Definition video_pid_ : Z := 0x100.
Definition audio_pid_ : Z := 0x101.
Definition video_sid_ : Z := 0.
Definition audio_sid_ : Z := 0.
Definition patpmt_interval_ : Z := 3000.

Inductive ts_event :=
  | TsPacket (p : Media_Packet)
  | TsReport (type : bytes).

Record MpegtsMux := mkTsMux {
  pat_data_ : bytes;
  pmt_data_ : bytes;
  pes_header_ : bytes;
  has_video_ : bool;
  has_audio_ : bool;
  video_codec_type_ : MEDIA_CODEC_TYPE;
  audio_codec_type_ : MEDIA_CODEC_TYPE;
  video_stream_type_ : Z;
  audio_stream_type_ : Z;
  pes_header_size_ : Z;
  video_cc_ : Z;
  audio_cc_ : Z;
  last_patpmt_ts_ : Z;
  pps_ : bytes;
  pps_len_ : Z;
  sps_ : bytes;
  sps_len_ : Z;
  vps_ : bytes;
  vps_len_ : Z;
  is_annexb_ : bool;
  aac_type_ : Z;
  mux_sample_rate_ : Z;
  mux_channel_ : Z;
  video_ready_ : bool;
  audio_ready_ : bool;
  ready_ : bool;
  keyframe_ready_ : bool;
  wait_queue_ : list Media_Packet;
  events_ : list ts_event
}.

(** Assignments. *)
Definition set_pat_data (v : bytes) (s : MpegtsMux) : MpegtsMux :=
  mkTsMux v (pmt_data_ s) (pes_header_ s) (has_video_ s) (has_audio_ s) (video_codec_type_ s) (audio_codec_type_ s) (video_stream_type_ s) (audio_stream_type_ s) (pes_header_size_ s) (video_cc_ s) (audio_cc_ s) (last_patpmt_ts_ s) (pps_ s) (pps_len_ s) (sps_ s) (sps_len_ s) (vps_ s) (vps_len_ s) (is_annexb_ s) (aac_type_ s) (mux_sample_rate_ s) (mux_channel_ s) (video_ready_ s) (audio_ready_ s) (ready_ s) (keyframe_ready_ s) (wait_queue_ s) (events_ s).
Definition set_pmt_data (v : bytes) (s : MpegtsMux) : MpegtsMux :=
  mkTsMux (pat_data_ s) v (pes_header_ s) (has_video_ s) (has_audio_ s) (video_codec_type_ s) (audio_codec_type_ s) (video_stream_type_ s) (audio_stream_type_ s) (pes_header_size_ s) (video_cc_ s) (audio_cc_ s) (last_patpmt_ts_ s) (pps_ s) (pps_len_ s) (sps_ s) (sps_len_ s) (vps_ s) (vps_len_ s) (is_annexb_ s) (aac_type_ s) (mux_sample_rate_ s) (mux_channel_ s) (video_ready_ s) (audio_ready_ s) (ready_ s) (keyframe_ready_ s) (wait_queue_ s) (events_ s).
Definition set_video_stream_type (v : Z) (s : MpegtsMux) : MpegtsMux :=
  mkTsMux (pat_data_ s) (pmt_data_ s) (pes_header_ s) (has_video_ s) (has_audio_ s) (video_codec_type_ s) (audio_codec_type_ s) v (audio_stream_type_ s) (pes_header_size_ s) (video_cc_ s) (audio_cc_ s) (last_patpmt_ts_ s) (pps_ s) (pps_len_ s) (sps_ s) (sps_len_ s) (vps_ s) (vps_len_ s) (is_annexb_ s) (aac_type_ s) (mux_sample_rate_ s) (mux_channel_ s) (video_ready_ s) (audio_ready_ s) (ready_ s) (keyframe_ready_ s) (wait_queue_ s) (events_ s).
Definition set_audio_stream_type (v : Z) (s : MpegtsMux) : MpegtsMux :=
  mkTsMux (pat_data_ s) (pmt_data_ s) (pes_header_ s) (has_video_ s) (has_audio_ s) (video_codec_type_ s) (audio_codec_type_ s) (video_stream_type_ s) v (pes_header_size_ s) (video_cc_ s) (audio_cc_ s) (last_patpmt_ts_ s) (pps_ s) (pps_len_ s) (sps_ s) (sps_len_ s) (vps_ s) (vps_len_ s) (is_annexb_ s) (aac_type_ s) (mux_sample_rate_ s) (mux_channel_ s) (video_ready_ s) (audio_ready_ s) (ready_ s) (keyframe_ready_ s) (wait_queue_ s) (events_ s).
Definition set_video_cc (v : Z) (s : MpegtsMux) : MpegtsMux :=
  mkTsMux (pat_data_ s) (pmt_data_ s) (pes_header_ s) (has_video_ s) (has_audio_ s) (video_codec_type_ s) (audio_codec_type_ s) (video_stream_type_ s) (audio_stream_type_ s) (pes_header_size_ s) v (audio_cc_ s) (last_patpmt_ts_ s) (pps_ s) (pps_len_ s) (sps_ s) (sps_len_ s) (vps_ s) (vps_len_ s) (is_annexb_ s) (aac_type_ s) (mux_sample_rate_ s) (mux_channel_ s) (video_ready_ s) (audio_ready_ s) (ready_ s) (keyframe_ready_ s) (wait_queue_ s) (events_ s).
Definition set_audio_cc (v : Z) (s : MpegtsMux) : MpegtsMux :=
  mkTsMux (pat_data_ s) (pmt_data_ s) (pes_header_ s) (has_video_ s) (has_audio_ s) (video_codec_type_ s) (audio_codec_type_ s) (video_stream_type_ s) (audio_stream_type_ s) (pes_header_size_ s) (video_cc_ s) v (last_patpmt_ts_ s) (pps_ s) (pps_len_ s) (sps_ s) (sps_len_ s) (vps_ s) (vps_len_ s) (is_annexb_ s) (aac_type_ s) (mux_sample_rate_ s) (mux_channel_ s) (video_ready_ s) (audio_ready_ s) (ready_ s) (keyframe_ready_ s) (wait_queue_ s) (events_ s).
Definition set_last_patpmt_ts (v : Z) (s : MpegtsMux) : MpegtsMux :=
  mkTsMux (pat_data_ s) (pmt_data_ s) (pes_header_ s) (has_video_ s) (has_audio_ s) (video_codec_type_ s) (audio_codec_type_ s) (video_stream_type_ s) (audio_stream_type_ s) (pes_header_size_ s) (video_cc_ s) (audio_cc_ s) v (pps_ s) (pps_len_ s) (sps_ s) (sps_len_ s) (vps_ s) (vps_len_ s) (is_annexb_ s) (aac_type_ s) (mux_sample_rate_ s) (mux_channel_ s) (video_ready_ s) (audio_ready_ s) (ready_ s) (keyframe_ready_ s) (wait_queue_ s) (events_ s).
Definition set_is_annexb (v : bool) (s : MpegtsMux) : MpegtsMux :=
  mkTsMux (pat_data_ s) (pmt_data_ s) (pes_header_ s) (has_video_ s) (has_audio_ s) (video_codec_type_ s) (audio_codec_type_ s) (video_stream_type_ s) (audio_stream_type_ s) (pes_header_size_ s) (video_cc_ s) (audio_cc_ s) (last_patpmt_ts_ s) (pps_ s) (pps_len_ s) (sps_ s) (sps_len_ s) (vps_ s) (vps_len_ s) v (aac_type_ s) (mux_sample_rate_ s) (mux_channel_ s) (video_ready_ s) (audio_ready_ s) (ready_ s) (keyframe_ready_ s) (wait_queue_ s) (events_ s).
Definition set_video_ready (v : bool) (s : MpegtsMux) : MpegtsMux :=
  mkTsMux (pat_data_ s) (pmt_data_ s) (pes_header_ s) (has_video_ s) (has_audio_ s) (video_codec_type_ s) (audio_codec_type_ s) (video_stream_type_ s) (audio_stream_type_ s) (pes_header_size_ s) (video_cc_ s) (audio_cc_ s) (last_patpmt_ts_ s) (pps_ s) (pps_len_ s) (sps_ s) (sps_len_ s) (vps_ s) (vps_len_ s) (is_annexb_ s) (aac_type_ s) (mux_sample_rate_ s) (mux_channel_ s) v (audio_ready_ s) (ready_ s) (keyframe_ready_ s) (wait_queue_ s) (events_ s).
Definition set_audio_ready (v : bool) (s : MpegtsMux) : MpegtsMux :=
  mkTsMux (pat_data_ s) (pmt_data_ s) (pes_header_ s) (has_video_ s) (has_audio_ s) (video_codec_type_ s) (audio_codec_type_ s) (video_stream_type_ s) (audio_stream_type_ s) (pes_header_size_ s) (video_cc_ s) (audio_cc_ s) (last_patpmt_ts_ s) (pps_ s) (pps_len_ s) (sps_ s) (sps_len_ s) (vps_ s) (vps_len_ s) (is_annexb_ s) (aac_type_ s) (mux_sample_rate_ s) (mux_channel_ s) (video_ready_ s) v (ready_ s) (keyframe_ready_ s) (wait_queue_ s) (events_ s).
Definition set_ready (v : bool) (s : MpegtsMux) : MpegtsMux :=
  mkTsMux (pat_data_ s) (pmt_data_ s) (pes_header_ s) (has_video_ s) (has_audio_ s) (video_codec_type_ s) (audio_codec_type_ s) (video_stream_type_ s) (audio_stream_type_ s) (pes_header_size_ s) (video_cc_ s) (audio_cc_ s) (last_patpmt_ts_ s) (pps_ s) (pps_len_ s) (sps_ s) (sps_len_ s) (vps_ s) (vps_len_ s) (is_annexb_ s) (aac_type_ s) (mux_sample_rate_ s) (mux_channel_ s) (video_ready_ s) (audio_ready_ s) v (keyframe_ready_ s) (wait_queue_ s) (events_ s).
Definition set_keyframe_ready (v : bool) (s : MpegtsMux) : MpegtsMux :=
  mkTsMux (pat_data_ s) (pmt_data_ s) (pes_header_ s) (has_video_ s) (has_audio_ s) (video_codec_type_ s) (audio_codec_type_ s) (video_stream_type_ s) (audio_stream_type_ s) (pes_header_size_ s) (video_cc_ s) (audio_cc_ s) (last_patpmt_ts_ s) (pps_ s) (pps_len_ s) (sps_ s) (sps_len_ s) (vps_ s) (vps_len_ s) (is_annexb_ s) (aac_type_ s) (mux_sample_rate_ s) (mux_channel_ s) (video_ready_ s) (audio_ready_ s) (ready_ s) v (wait_queue_ s) (events_ s).
Definition set_wait_queue (v : list Media_Packet) (s : MpegtsMux) : MpegtsMux :=
  mkTsMux (pat_data_ s) (pmt_data_ s) (pes_header_ s) (has_video_ s) (has_audio_ s) (video_codec_type_ s) (audio_codec_type_ s) (video_stream_type_ s) (audio_stream_type_ s) (pes_header_size_ s) (video_cc_ s) (audio_cc_ s) (last_patpmt_ts_ s) (pps_ s) (pps_len_ s) (sps_ s) (sps_len_ s) (vps_ s) (vps_len_ s) (is_annexb_ s) (aac_type_ s) (mux_sample_rate_ s) (mux_channel_ s) (video_ready_ s) (audio_ready_ s) (ready_ s) (keyframe_ready_ s) v (events_ s).
Definition set_events (v : list ts_event) (s : MpegtsMux) : MpegtsMux :=
  mkTsMux (pat_data_ s) (pmt_data_ s) (pes_header_ s) (has_video_ s) (has_audio_ s) (video_codec_type_ s) (audio_codec_type_ s) (video_stream_type_ s) (audio_stream_type_ s) (pes_header_size_ s) (video_cc_ s) (audio_cc_ s) (last_patpmt_ts_ s) (pps_ s) (pps_len_ s) (sps_ s) (sps_len_ s) (vps_ s) (vps_len_ s) (is_annexb_ s) (aac_type_ s) (mux_sample_rate_ s) (mux_channel_ s) (video_ready_ s) (audio_ready_ s) (ready_ s) (keyframe_ready_ s) (wait_queue_ s) v.
Definition set_pes_header (v : bytes) (n : Z) (s : MpegtsMux) : MpegtsMux :=
  mkTsMux (pat_data_ s) (pmt_data_ s) v (has_video_ s) (has_audio_ s) (video_codec_type_ s) (audio_codec_type_ s) (video_stream_type_ s) (audio_stream_type_ s) n (video_cc_ s) (audio_cc_ s) (last_patpmt_ts_ s) (pps_ s) (pps_len_ s) (sps_ s) (sps_len_ s) (vps_ s) (vps_len_ s) (is_annexb_ s) (aac_type_ s) (mux_sample_rate_ s) (mux_channel_ s) (video_ready_ s) (audio_ready_ s) (ready_ s) (keyframe_ready_ s) (wait_queue_ s) (events_ s).
Definition SetVideoFlag (flag : bool) (s : MpegtsMux) : MpegtsMux :=
  mkTsMux (pat_data_ s) (pmt_data_ s) (pes_header_ s) flag (has_audio_ s) (video_codec_type_ s) (audio_codec_type_ s) (video_stream_type_ s) (audio_stream_type_ s) (pes_header_size_ s) (video_cc_ s) (audio_cc_ s) (last_patpmt_ts_ s) (pps_ s) (pps_len_ s) (sps_ s) (sps_len_ s) (vps_ s) (vps_len_ s) (is_annexb_ s) (aac_type_ s) (mux_sample_rate_ s) (mux_channel_ s) (video_ready_ s) (audio_ready_ s) (ready_ s) (keyframe_ready_ s) (wait_queue_ s) (events_ s).
Definition SetAudioFlag (flag : bool) (s : MpegtsMux) : MpegtsMux :=
  mkTsMux (pat_data_ s) (pmt_data_ s) (pes_header_ s) (has_video_ s) flag (video_codec_type_ s) (audio_codec_type_ s) (video_stream_type_ s) (audio_stream_type_ s) (pes_header_size_ s) (video_cc_ s) (audio_cc_ s) (last_patpmt_ts_ s) (pps_ s) (pps_len_ s) (sps_ s) (sps_len_ s) (vps_ s) (vps_len_ s) (is_annexb_ s) (aac_type_ s) (mux_sample_rate_ s) (mux_channel_ s) (video_ready_ s) (audio_ready_ s) (ready_ s) (keyframe_ready_ s) (wait_queue_ s) (events_ s).
Definition SetVideoCodec (codec : MEDIA_CODEC_TYPE) (s : MpegtsMux) : MpegtsMux :=
  mkTsMux (pat_data_ s) (pmt_data_ s) (pes_header_ s) (has_video_ s) (has_audio_ s) codec (audio_codec_type_ s) (video_stream_type_ s) (audio_stream_type_ s) (pes_header_size_ s) (video_cc_ s) (audio_cc_ s) (last_patpmt_ts_ s) (pps_ s) (pps_len_ s) (sps_ s) (sps_len_ s) (vps_ s) (vps_len_ s) (is_annexb_ s) (aac_type_ s) (mux_sample_rate_ s) (mux_channel_ s) (video_ready_ s) (audio_ready_ s) (ready_ s) (keyframe_ready_ s) (wait_queue_ s) (events_ s).
Definition SetAudioCodec (codec : MEDIA_CODEC_TYPE) (s : MpegtsMux) : MpegtsMux :=
  mkTsMux (pat_data_ s) (pmt_data_ s) (pes_header_ s) (has_video_ s) (has_audio_ s) (video_codec_type_ s) codec (video_stream_type_ s) (audio_stream_type_ s) (pes_header_size_ s) (video_cc_ s) (audio_cc_ s) (last_patpmt_ts_ s) (pps_ s) (pps_len_ s) (sps_ s) (sps_len_ s) (vps_ s) (vps_len_ s) (is_annexb_ s) (aac_type_ s) (mux_sample_rate_ s) (mux_channel_ s) (video_ready_ s) (audio_ready_ s) (ready_ s) (keyframe_ready_ s) (wait_queue_ s) (events_ s).
Definition store_pps (v : bytes) (n : Z) (s : MpegtsMux) : MpegtsMux :=
  mkTsMux (pat_data_ s) (pmt_data_ s) (pes_header_ s) (has_video_ s) (has_audio_ s) (video_codec_type_ s) (audio_codec_type_ s) (video_stream_type_ s) (audio_stream_type_ s) (pes_header_size_ s) (video_cc_ s) (audio_cc_ s) (last_patpmt_ts_ s) v n (sps_ s) (sps_len_ s) (vps_ s) (vps_len_ s) (is_annexb_ s) (aac_type_ s) (mux_sample_rate_ s) (mux_channel_ s) (video_ready_ s) (audio_ready_ s) (ready_ s) (keyframe_ready_ s) (wait_queue_ s) (events_ s).
Definition store_sps (v : bytes) (n : Z) (s : MpegtsMux) : MpegtsMux :=
  mkTsMux (pat_data_ s) (pmt_data_ s) (pes_header_ s) (has_video_ s) (has_audio_ s) (video_codec_type_ s) (audio_codec_type_ s) (video_stream_type_ s) (audio_stream_type_ s) (pes_header_size_ s) (video_cc_ s) (audio_cc_ s) (last_patpmt_ts_ s) (pps_ s) (pps_len_ s) v n (vps_ s) (vps_len_ s) (is_annexb_ s) (aac_type_ s) (mux_sample_rate_ s) (mux_channel_ s) (video_ready_ s) (audio_ready_ s) (ready_ s) (keyframe_ready_ s) (wait_queue_ s) (events_ s).
Definition store_vps (v : bytes) (n : Z) (s : MpegtsMux) : MpegtsMux :=
  mkTsMux (pat_data_ s) (pmt_data_ s) (pes_header_ s) (has_video_ s) (has_audio_ s) (video_codec_type_ s) (audio_codec_type_ s) (video_stream_type_ s) (audio_stream_type_ s) (pes_header_size_ s) (video_cc_ s) (audio_cc_ s) (last_patpmt_ts_ s) (pps_ s) (pps_len_ s) (sps_ s) (sps_len_ s) v n (is_annexb_ s) (aac_type_ s) (mux_sample_rate_ s) (mux_channel_ s) (video_ready_ s) (audio_ready_ s) (ready_ s) (keyframe_ready_ s) (wait_queue_ s) (events_ s).
Definition set_aac (t : Z) (r : Z) (c : Z) (s : MpegtsMux) : MpegtsMux :=
  mkTsMux (pat_data_ s) (pmt_data_ s) (pes_header_ s) (has_video_ s) (has_audio_ s) (video_codec_type_ s) (audio_codec_type_ s) (video_stream_type_ s) (audio_stream_type_ s) (pes_header_size_ s) (video_cc_ s) (audio_cc_ s) (last_patpmt_ts_ s) (pps_ s) (pps_len_ s) (sps_ s) (sps_len_ s) (vps_ s) (vps_len_ s) (is_annexb_ s) t r c (video_ready_ s) (audio_ready_ s) (ready_ s) (keyframe_ready_ s) (wait_queue_ s) (events_ s).

Definition ReportEvent (type : bytes) (m : MpegtsMux) : MpegtsMux := set_events (events_ m ++ [TsReport type]) m.

(** The first five bytes of the PAT and PMT packets. *)
Definition table_packet (b1 b2 : Z) : bytes :=
  [0x47; b1; b2; 0x10; 0x00] ++ replicate (Z.to_nat (TS_PACKET_SIZE - 5)) 0xff.

(** The four arrays are not initialised by the constructor. *)
Definition MpegtsMux_new (pes_header pps sps vps : bytes) : MpegtsMux :=
  mkTsMux (table_packet 0x40 0x00) (table_packet 0x50 0x01) pes_header true true
    MEDIA_CODEC_H264 MEDIA_CODEC_AAC STREAM_TYPE_VIDEO_H264 STREAM_TYPE_AUDIO_AAC
    0 0 0 (-1) pps 0 sps 0 vps 0 false 0 0 0 false false false false [] [].

(** The arrays and records a call finds on its stack. *)
Class Locals := {
  ts_packet0 : bytes;
  ts_packet0_length : zlen ts_packet0 = TS_PACKET_SIZE;
  hevc_info0 : HEVC_DEC_CONF_RECORD;
  hevc_info0_units : nalu_vec hevc_info0 = []     (* a vector starts empty *)
}.

(** ** Tables *)

(** [GeneratePat]: [p] is the offset of the pointer of the source in [pat_data_]. *)
Definition GeneratePat (m : MpegtsMux) : outcome (Z * MpegtsMux) :=
  let len := u32 (pmt_count_ * 4 + 5 + 4) in
  let section :=
    [PAT_TID_PAS] ++ Write2Bytes (u16 (Z.lor 0xb000 len)) ++ Write2Bytes transport_stream_id_ ++
    [Z.lor 0xc1 (Z.shiftl pat_ver_ 1); 0; 0] ++
    concat (replicate (Z.to_nat pmt_count_) (Write2Bytes program_number_ ++ Write2Bytes (u16 (Z.lor 0xE000 pmt_pid_)))) in
  pat ← write_at (pat_data_ m) 5 section;
  let p := 5 + zlen section in
  crc ← mpeg_crc32 0xffffffff (drop 6 pat) (Z.to_nat len);
  pat ← write_at pat p (Write4Bytes crc);
  let p := p + 4 in
  pat ← write_at pat p (replicate (Z.to_nat (TS_PACKET_SIZE - p)) 0xff);
  mret (p, set_pat_data pat m).

Definition video_stream_type (codec : MEDIA_CODEC_TYPE) : Z :=
  match codec with
  | MEDIA_CODEC_H264 => STREAM_TYPE_VIDEO_H264
  | MEDIA_CODEC_H265 => STREAM_TYPE_VIDEO_HEVC
  | _ => STREAM_TYPE_PRIVATE_DATA
  end.
Definition audio_stream_type (codec : MEDIA_CODEC_TYPE) : Z :=
  match codec with MEDIA_CODEC_AAC => STREAM_TYPE_AUDIO_AAC | _ => STREAM_TYPE_PRIVATE_DATA end.

(** The registration and extension descriptors of a codec. *)
Definition descriptors (name : bytes) : bytes := [0x05; 4] ++ name ++ [0x7f; 2; 0x80; 2].
Definition codec_descriptors (codec : MEDIA_CODEC_TYPE) : bytes :=
  match codec with
  | MEDIA_CODEC_VP8 => descriptors (str "Vp80")
  | MEDIA_CODEC_VP9 => descriptors (str "Vp90")
  | _ => []
  end.
Definition audio_descriptors (codec : MEDIA_CODEC_TYPE) : bytes :=
  match codec with MEDIA_CODEC_OPUS => descriptors (str "Opus") | _ => [] end.

(** One stream: its type, PID, and the length and bytes of its descriptors. *)
Definition pmt_stream (stream_type pid : Z) (desc : bytes) : bytes :=
  let val := Z.lor 0xf000 (zlen desc) in
  [u8 stream_type] ++ Write2Bytes (Z.lor 0xE000 pid) ++ [u8 (Z.shiftr val 8); u8 val] ++ desc.

Definition GeneratePmt (m : MpegtsMux) : outcome (Z * MpegtsMux) :=
  let m := if has_video_ m then set_video_stream_type (video_stream_type (video_codec_type_ m)) m else m in
  let m := if has_audio_ m then set_audio_stream_type (audio_stream_type (audio_codec_type_ m)) m else m in
  pmt ← write_at (pmt_data_ m) 5 [PAT_TID_PMS];
  let body :=
    Write2Bytes pmt_pn ++ [u8 (Z.lor 0xC1 (Z.shiftl pmt_ver_ 1)); 0x00; 0x00] ++
    Write2Bytes (u16 (Z.lor 0xE000 pcr_id_)) ++ Write2Bytes (u16 (Z.lor 0xF000 pminfo_len_)) ++
    (if has_video_ m then pmt_stream (video_stream_type_ m) video_pid_ (codec_descriptors (video_codec_type_ m)) else []) ++
    (if has_audio_ m then pmt_stream (audio_stream_type_ m) audio_pid_ (audio_descriptors (audio_codec_type_ m)) else []) in
  pmt ← write_at pmt 8 body;
  let p := 8 + zlen body in
  let len := u16 (p + 4 - (5 + 3)) in
  pmt ← write_at pmt 6 (Write2Bytes (u16 (Z.lor 0xb000 len)));
  crc ← mpeg_crc32 0xffffffff (drop 5 pmt) (Z.to_nat (p - 5));
  pmt ← write_at pmt p [Z.land crc 0xff; Z.land (Z.shiftr crc 8) 0xff; Z.land (Z.shiftr crc 16) 0xff;
                        Z.land (Z.shiftr crc 24) 0xff];
  let p := p + 4 in
  pmt ← write_at pmt p (replicate (Z.to_nat (TS_PACKET_SIZE - p)) 0xff);
  mret (p, set_pmt_data pmt m).

(** ** PES headers and times *)

Definition WriteTs (flag ts : Z) : bytes :=
  let ts := if 0x1ffffffff <? ts then ts - 0x1ffffffff else ts in
  let v0 := Z.lor (Z.lor (u32 (Z.shiftl flag 4)) (Z.shiftl (Z.land (u32 (Z.shiftr ts 30)) 0x07) 1)) 1 in
  let v1 := Z.lor (Z.shiftl (Z.land (u32 (Z.shiftr ts 15)) 0x7fff) 1) 1 in
  let v2 := Z.lor (Z.shiftl (u32 (Z.land ts 0x7fff)) 1) 1 in
  [u8 v0; u8 (Z.shiftr v1 8); u8 v1; u8 (Z.shiftr v2 8); u8 v2].

Definition WritePcr (pcr : Z) : bytes :=
  [u8 (Z.shiftr pcr 25); u8 (Z.land (Z.shiftr pcr 17) 0xff); u8 (Z.land (Z.shiftr pcr 9) 0xff);
   u8 (Z.land (Z.shiftr pcr 1) 0xff); u8 (Z.lor (Z.shiftl (Z.land pcr 0x1) 7) 0x7e); 0x00].

Definition pes_header (data_size : Z) (is_video : bool) (dts pts : Z) : bytes :=
  let both := is_video && negb (dts =? pts) in
  let pts_pts_flag := if both then Z.lor 0x80 0x40 else 0x80 in
  let ptsdts_header_len := if both then 10 else 5 in
  let pes_packet_length := data_size + ptsdts_header_len + 3 in
  let pes_packet_length := if 0xffff <? pes_packet_length then 0 else pes_packet_length in
  [0x00; 0x00; 0x01; if is_video then PES_SID_VIDEO + video_sid_ else PES_SID_AUDIO + audio_sid_;
   Z.land (u8 (Z.shiftr pes_packet_length 8)) 0xff; Z.land pes_packet_length 0xff; 0x80; pts_pts_flag; ptsdts_header_len] ++
  WriteTs (Z.shiftr pts_pts_flag 6) pts ++ (if both then WriteTs 0x01 dts else []).

Definition WritePesHeader (data_size : Z) (is_video : bool) (dts pts : Z) (m : MpegtsMux) : outcome MpegtsMux :=
  let p := pes_header data_size is_video dts pts in
  h ← write_at (pes_header_ m) 0 p;
  mret (set_pes_header h (zlen p) m).

(** ** Packets of 188 bytes *)

Definition TS_DEF_DATALEN : Z := 184.

(** [data] is the offset of the pointer in the packet [t]. *)
Definition AdaptationBufInit (t : bytes) (data data_size remain_bytes : Z) : outcome bytes :=
  t ← write_at t data [u8 (remain_bytes - 1)];
  if remain_bytes =? 1 then mret t
  else write_at t (data + 1) (0x00 :: replicate (Z.to_nat (data_size - 2)) 0xff).

Definition next_cc (cc : Z) : Z := let cc := u8 (cc + 1) in if 0xf <? cc then 0 else cc.

(** The header of a packet, with the clock reference of a key frame; the
    result is the packet and the offset [i]. *)
Definition ts_header (first is_video is_keyframe : bool) (pid cc dts : Z) (t : bytes) : outcome (bytes * Z) :=
  t ← write_at t 0 [0x47; (if first then Z.lor (u8 (Z.shiftr pid 8)) 0x40 else u8 (Z.shiftr pid 8)); u8 pid;
                    Z.lor 0x10 (Z.land cc 0x0f)];
  if first && is_video && is_keyframe then
    b3 ← t.[3];
    t ← write_at t 3 [Z.lor b3 0x20];
    t ← write_at t 4 ([7; 0x50] ++ WritePcr dts);
    mret (t, 12)
  else mret (t, 4).

(** The stuffing in front of the last bytes of a frame; the result is the
    packet, [i] and [data_len]. *)
Definition ts_stuffing (first : bool) (packet_bytes_len i : Z) (t : bytes) : outcome (bytes * Z * Z) :=
  if TS_DEF_DATALEN <=? packet_bytes_len then
    mret (t, i, if first then u8 (TS_DEF_DATALEN - (i - 4)) else TS_DEF_DATALEN)
  else
    b3 ← t.[3];
    t ← write_at t 3 [Z.lor b3 0x20];
    let data_len := u8 packet_bytes_len in
    let remain_bytes := u8 (if first then TS_DEF_DATALEN - data_len - (i - 4) else TS_DEF_DATALEN - data_len) in
    t ← AdaptationBufInit t i (u8 (TS_PACKET_SIZE - i)) remain_bytes;
    mret (t, i + remain_bytes, data_len).

(** The PES header, in the first packet; the result is the packet, [i],
    [packet_bytes_len] and [data_len]. *)
Definition ts_pes_header (first : bool) (header : bytes) (header_size packet_bytes_len data_len i : Z) (t : bytes)
    : outcome (bytes * Z * Z * Z) :=
  if first && (i <? TS_PACKET_SIZE) then
    let tmpLen := u8 (TS_PACKET_SIZE - i) in
    let tmpLen := if header_size <=? tmpLen then u8 header_size else tmpLen in
    h ← read_range header 0 tmpLen;
    t ← write_at t i h;
    mret (t, i + tmpLen, packet_bytes_len - tmpLen, u8 (data_len - tmpLen))
  else mret (t, i, packet_bytes_len, data_len).

(** The bytes of the frame; the result is the packet, [packet_bytes_len] and [wBytes]. *)
Definition ts_payload (data : bytes) (wBytes packet_bytes_len data_len i : Z) (t : bytes) : outcome (bytes * Z * Z) :=
  if i <? TS_PACKET_SIZE then
    let tmpLen := u8 (TS_PACKET_SIZE - i) in
    let data_len := if tmpLen <=? data_len then tmpLen else data_len in
    d ← read_range data wBytes data_len;
    t ← write_at t i d;
    wBytes ← chk_int (wBytes + data_len);
    mret (t, packet_bytes_len - data_len, wBytes)
  else mret (t, packet_bytes_len, wBytes).

(** [*this] after [video_cc_++] or [audio_cc_++] and the wrap to 4 bits. *)
Definition step_cc (is_video : bool) (m : MpegtsMux) : MpegtsMux :=
  if is_video then set_video_cc (next_cc (video_cc_ m)) m else set_audio_cc (next_cc (audio_cc_ m)) m.
Definition current_cc (is_video : bool) (m : MpegtsMux) : Z := if is_video then video_cc_ m else audio_cc_ m.

Section mux.
Context `{Allocator} `{Locals}.

Definition TsOutput (pkt : option Media_Packet) (data : bytes) (m : MpegtsMux) : outcome MpegtsMux :=
  p ← Media_Packet_len 256;
  let p := match pkt with Some pkt => copy_properties pkt p | None => p end in
  let p := set_fmt_type MEDIA_FORMAT_MPEGTS p in
  d ← read_range data 0 TS_PACKET_SIZE;
  p ← append_packet d p;
  mret (set_events (events_ m ++ [TsPacket p]) m).

(** One turn of the loop of [WritePes]. *)
Definition pes_packet (pkt : Media_Packet) (is_video first : bool) (dts wBytes packet_bytes_len : Z) (m : MpegtsMux)
    : outcome (MpegtsMux * Z * Z) :=
  let pid := if is_video then video_pid_ else audio_pid_ in
  let m := step_cc is_video m in
  '(t, i) ← ts_header first is_video (is_key_frame_ pkt) pid (current_cc is_video m) dts ts_packet0;
  '(t, i, data_len) ← ts_stuffing first packet_bytes_len i t;
  '(t, i, packet_bytes_len, data_len) ←
    ts_pes_header first (pes_header_ m) (pes_header_size_ m) packet_bytes_len data_len i t;
  '(t, packet_bytes_len, wBytes) ← ts_payload (Data (buffer_ptr_ pkt)) wBytes packet_bytes_len data_len i t;
  m ← TsOutput (Some pkt) t m;
  mret (m, packet_bytes_len, wBytes).

Fixpoint pes_loop (fuel : nat) (pkt : Media_Packet) (is_video first : bool) (dts wBytes packet_bytes_len : Z)
    (m : MpegtsMux) : outcome MpegtsMux :=
  match fuel with
  | O => Fault OutOfFuel
  | S fuel =>
      if 0 <? packet_bytes_len then
        '(m, packet_bytes_len, wBytes) ← pes_packet pkt is_video first dts wBytes packet_bytes_len m;
        pes_loop fuel pkt is_video false dts wBytes packet_bytes_len m
      else mret m
  end.

Definition WritePes (pkt : Media_Packet) (m : MpegtsMux) : outcome (Z * MpegtsMux) :=
  let data_size := DataLen (buffer_ptr_ pkt) in
  let is_video := bool_decide (av_type_ pkt = MEDIA_VIDEO_TYPE) in
  dts ← chk_int64 (dts_ pkt * 90);
  pts ← chk_int64 (pts_ pkt * 90);
  m ← WritePesHeader data_size is_video dts pts m;
  let packet_bytes_len := data_size + pes_header_size_ m in
  m ← pes_loop (Z.to_nat packet_bytes_len + 2) pkt is_video true dts 0 packet_bytes_len m;
  mret (0, m).

Definition WritePat (m : MpegtsMux) : outcome (Z * MpegtsMux) :=
  '(ret, m) ← GeneratePat m;
  if ret <? 0 then mret (ret, m) else m ← TsOutput None (pat_data_ m) m; mret (0, m).

Definition WritePmt (m : MpegtsMux) : outcome (Z * MpegtsMux) :=
  '(ret, m) ← GeneratePmt m;
  if ret <? 0 then mret (ret, ReportEvent (str "error") m) else m ← TsOutput None (pmt_data_ m) m; mret (0, m).

(** ** Codecs *)

(** [memcpy(region, data, len)] of a whole buffer into [pps_] or [sps_]. *)
Definition save_set (region : bytes) (b : DataBuffer) : outcome bytes :=
  d ← read_range (Data b) 0 (DataLen b);
  write_at region 0 d.

(** The decoder configuration of a sequence header packet. *)
Definition h264_sequence_header (pkt : Media_Packet) (m : MpegtsMux) : outcome (Z * MpegtsMux) :=
  let b := buffer_ptr_ pkt in
  if negb (is_annexb_ m) then
    '(ret, pps, pps_len, sps, sps_len) ←
      GetSpsPpsFromExtraData (pps_ m) (pps_len_ m) (sps_ m) (sps_len_ m) (Data b) (DataLen b);
    let m := store_sps sps sps_len (store_pps pps pps_len m) in
    if negb (ret =? 0) then mret (0, store_sps sps 0 (store_pps pps 0 m)) else mret (0, m)
  else
    pos ← GetNaluTypePos (Data b);
    t ← peek b pos;
    let nalu_type := Z.land t 0x1f in
    if H264_IS_PPS nalu_type then r ← save_set (pps_ m) b; mret (0, store_pps r (DataLen b) m)
    else if H264_IS_SPS nalu_type then r ← save_set (sps_ m) b; mret (0, store_sps r (DataLen b) m)
    else mret (0, m).

(** The access unit of one NAL unit: delimiter, parameter sets of a key frame, the unit. *)
Definition h264_access_unit (nalu_type : Z) (item : DataBuffer) (out : Media_Packet) (m : MpegtsMux)
    : outcome (Media_Packet * MpegtsMux) :=
  out ← append_packet H264_AUD_DATA (set_buffer_ptr (Reset (buffer_ptr_ out)) out);
  '(out, m) ← (if H264_IS_KEYFRAME nalu_type then
                 let m := set_keyframe_ready true m in
                 s ← read_range (sps_ m) 0 (sps_len_ m);
                 out ← append_packet s out;
                 p ← read_range (pps_ m) 0 (pps_len_ m);
                 out ← append_packet p out;
                 mret (out, m)
               else mret (out, m));
  d ← read_range (Data item) 0 (DataLen item);
  out ← append_packet d out;
  mret (out, m).

(** The loop of [HandleH264] over the NAL units; [out] is [nalu_pkt_ptr]. *)
Fixpoint h264_nalus (nalus : list DataBuffer) (out : Media_Packet) (m : MpegtsMux) : outcome MpegtsMux :=
  match nalus with
  | [] => mret m
  | item :: nalus =>
      pos ← GetNaluTypePos (Data item);
      t ← peek item pos;
      let nalu_type := Z.land t 0x1f in
      if H264_IS_AUD nalu_type then h264_nalus nalus out m
      else if H264_IS_PPS nalu_type then
        r ← save_set (pps_ m) item; h264_nalus nalus out (store_pps r (DataLen item) m)
      else if H264_IS_SPS nalu_type then
        r ← save_set (sps_ m) item; h264_nalus nalus out (store_sps r (DataLen item) m)
      else
        '(out, m) ← h264_access_unit nalu_type item out m;
        if keyframe_ready_ m then '(_, m) ← WritePes out m; h264_nalus nalus out m
        else h264_nalus nalus out m
  end.

Definition HandleH264 (pkt : Media_Packet) (m : MpegtsMux) : outcome (Z * MpegtsMux) :=
  let b := buffer_ptr_ pkt in
  m ← (if negb (is_annexb_ m) then
         four ← starts_with [0; 0; 0; 1] (Data b); mret (set_is_annexb four m)
       else mret m);
  if is_seq_hdr_ pkt then h264_sequence_header pkt m
  else if (sps_len_ m <? 0) || (pps_len_ m <? 0) then mret (0, m)
  else
    '(ret, nalus) ← (if is_annexb_ m then AnnexB2Nalus (Data b) (DataLen b) else Avcc2Nalus (Data b) (DataLen b));
    if negb ret then mret (-1, ReportEvent (str "error") m)
    else
      out ← Media_Packet_new;
      m ← h264_nalus nalus (copy_properties pkt out) m;
      mret (0, m).

(** Appends of [HandleH265], in their order. *)
Fixpoint append_parts (parts : list bytes) (out : Media_Packet) : outcome Media_Packet :=
  match parts with
  | [] => mret out
  | d :: parts => out ← append_packet d out; append_parts parts out
  end.

(** The loop of [HandleH265]; [sent] is [append_vps_pps_sps]. *)
Fixpoint h265_nalus (nalus : list DataBuffer) (pkt out : Media_Packet) (sent : bool) (m : MpegtsMux)
    : outcome MpegtsMux :=
  match nalus with
  | [] => mret m
  | item :: nalus =>
      c ← peek item 4;
      let nalu_type := GET_HEVC_NALU_TYPE c in
      if nalu_type =? NAL_UNIT_ACCESS_UNIT_DELIMITER then h265_nalus nalus pkt out sent m
      else
        let out := copy_properties pkt out in
        let out := set_buffer_ptr (Reset (buffer_ptr_ out)) out in
        out ← append_packet H265_AUD_DATA out;
        let key := (NAL_UNIT_CODED_SLICE_BLA <=? nalu_type) && (nalu_type <=? NAL_UNIT_RESERVED_23) && negb sent in
        out ← (if key then
                 v ← read_range (vps_ m) 0 (vps_len_ m);
                 s ← read_range (sps_ m) 0 (sps_len_ m);
                 p ← read_range (pps_ m) 0 (pps_len_ m);
                 append_parts [H265_START_CODE; v; H265_START_CODE; s; H265_START_CODE; p] out
               else mret out);
        d ← read_range (Data item) 4 (u64 (DataLen item - 4));
        out ← append_parts [H265_START_CODE; d] out;
        '(_, m) ← WritePes out m;
        h265_nalus nalus pkt out (key || sent) m
  end.

Definition HandleH265 (pkt : Media_Packet) (m : MpegtsMux) : outcome (Z * MpegtsMux) :=
  let b := buffer_ptr_ pkt in
  if is_seq_hdr_ pkt then
    '(ret, info) ← GetHevcDecInfoFromExtradata hevc_info0 (Data b) (DataLen b);
    if ret =? 0 then
      '(_, s) ← GetVpsSpsPpsFromHevcDecInfo info (vps_ m) (sps_ m) (pps_ m);
      mret (ret, store_vps (vps s) (vps_len s) (store_sps (sps s) (sps_len s) (store_pps (pps s) (pps_len s) m)))
    else mret (ret, m)
  else
    '(ret, nalus) ← Avcc2Nalus (Data b) (DataLen b);
    if negb ret then mret (-1, ReportEvent (str "error") m)
    else
      out ← Media_Packet_new;
      m ← h265_nalus nalus pkt out false m;
      mret (0, m).

Definition HandleVpx (pkt : Media_Packet) (m : MpegtsMux) : outcome (Z * MpegtsMux) := WritePes pkt m.

Definition HandleVideo (pkt : Media_Packet) (m : MpegtsMux) : outcome (Z * MpegtsMux) :=
  match codec_type_ pkt with
  | MEDIA_CODEC_H264 => HandleH264 pkt m
  | MEDIA_CODEC_VP8 => HandleVpx pkt m
  | MEDIA_CODEC_H265 => HandleH265 pkt m
  | _ => mret (0, ReportEvent (str "error") m)
  end.

Definition HandleAudioAac (pkt : Media_Packet) (m : MpegtsMux) : outcome (Z * Media_Packet * MpegtsMux) :=
  if is_seq_hdr_ pkt && has_flv_audio_asc_ pkt then
    let m := SetAudioCodec (codec_type_ pkt) m in
    mret (0, pkt, set_aac (aac_asc_type_ pkt) (sample_rate_ pkt) (channel_ pkt) m)
  else if (aac_type_ m =? 0) || (mux_sample_rate_ m =? 0) || (mux_channel_ m =? 0) then mret (0, pkt, m)
  else
    let adts_type := GetAdtsTypeByAscType (aac_asc_type_ pkt) in
    let adts_data :=
      MakeAdts (u8 adts_type) (mux_sample_rate_ m) (mux_channel_ m) (i32 (DataLen (buffer_ptr_ pkt))) true in
    let adts_len := zlen adts_data in
    _ ← cassert (adts_len =? 7);
    let '(_, b) := ConsumeData (buffer_ptr_ pkt) (0 - adts_len) in
    b ← poke b 0 adts_data;
    let pkt := set_buffer_ptr b pkt in
    '(_, m) ← WritePes pkt m;
    mret (0, pkt, m).

Definition HandleAudioOpus (pkt : Media_Packet) (m : MpegtsMux) : outcome (Z * MpegtsMux) := WritePes pkt m.

Definition HandleAudio (pkt : Media_Packet) (m : MpegtsMux) : outcome (Z * Media_Packet * MpegtsMux) :=
  match codec_type_ pkt with
  | MEDIA_CODEC_AAC => HandleAudioAac pkt m
  | MEDIA_CODEC_OPUS => '(ret, m) ← HandleAudioOpus pkt m; mret (ret, pkt, m)
  | _ => mret (-1, pkt, ReportEvent (str "error") m)
  end.

Definition HandlePacket (pkt : Media_Packet) (m : MpegtsMux) : outcome (Z * Media_Packet * MpegtsMux) :=
  match av_type_ pkt with
  | MEDIA_VIDEO_TYPE => '(ret, m) ← HandleVideo pkt (SetVideoCodec (codec_type_ pkt) m); mret (ret, pkt, m)
  | MEDIA_AUDIO_TYPE => HandleAudio pkt (SetAudioCodec (codec_type_ pkt) m)
  | _ => mret (0, pkt, ReportEvent (str "error") m)
  end.

(** The loop that empties [wait_queue_]. *)
Fixpoint handle_queue (queue : list Media_Packet) (m : MpegtsMux) : outcome MpegtsMux :=
  match queue with
  | [] => mret m
  | pkt :: queue => '(_, _, m) ← HandlePacket pkt (set_wait_queue queue m); handle_queue queue m
  end.

(** A packet that waits: the first of each kind decides the codec in the PMT. *)
Definition enqueue (pkt : Media_Packet) (m : MpegtsMux) : MpegtsMux :=
  let m := match av_type_ pkt with
           | MEDIA_VIDEO_TYPE => SetVideoCodec (codec_type_ pkt) (set_video_ready true m)
           | MEDIA_AUDIO_TYPE => SetAudioCodec (codec_type_ pkt) (set_audio_ready true m)
           | _ => m
           end in
  set_wait_queue (wait_queue_ m ++ [pkt]) m.

(** [last_patpmt_ts_ < 0 || (dts - last_patpmt_ts_) >= patpmt_interval_] *)
Definition tables_due (dts : Z) (m : MpegtsMux) : outcome bool :=
  if last_patpmt_ts_ m <? 0 then mret true
  else d ← chk_int64 (dts - last_patpmt_ts_ m); mret (patpmt_interval_ <=? d).

Definition InputPacket (pkt : Media_Packet) (m : MpegtsMux) : outcome (Z * Media_Packet * MpegtsMux) :=
  if decide (av_type_ pkt = MEDIA_METADATA_TYPE) then mret (0, pkt, m)
  else if negb (ready_ m) && (negb (video_ready_ m) || negb (audio_ready_ m)) && (zlen (wait_queue_ m) <? 30) then
    mret (0, pkt, enqueue pkt m)
  else
    let m := set_ready true m in
    due ← tables_due (dts_ pkt) m;
    m ← (if due : bool then
           '(_, m) ← WritePat m;
           '(_, m) ← WritePmt m;
           mret (set_last_patpmt_ts (dts_ pkt) m)
         else mret m);
    m ← handle_queue (wait_queue_ m) m;
    HandlePacket pkt m.

(** [None] is a null pointer. *)
Definition SourceData (pkt : option Media_Packet) (m : MpegtsMux) : outcome (Z * option Media_Packet * MpegtsMux) :=
  match pkt with
  | None => mret (-1, None, m)
  | Some pkt => '(ret, pkt, m) ← InputPacket pkt m; mret (ret, Some pkt, m)
  end.
End mux.
