(* ===== verification/OpusHeader.v ===== *)
(** * [OpusHeader]: taking Opus access units and packets apart

    Models [src/format/opus_header.cpp].  The pointers of the source are offsets
    into [data], the bytes from the first pointer on (they may lie beyond [len]:
    the code reads some bytes without a check); a frame is its offset and length,
    which the code lets become negative. *)
From S2P Require Import Prelude ByteStream.

(** ** Access units *)

(** The loop over the bytes of [au_size]; the result is [i] and [unit_size]. *)
Fixpoint au_size_loop (fuel : nat) (data : bytes) (len i unit_size : Z) : outcome (Z * Z) :=
  match fuel with
  | O => Fault OutOfFuel
  | S fuel =>
      if i <? len then
        b ← data.[i - 1];
        if b =? 255 then c ← data.[i]; u ← chk_int (unit_size + c); au_size_loop fuel data len (i + 1) u
        else mret (i, unit_size)
      else mret (i, unit_size)
  end.

(** [None] is the null pointer; otherwise the offset of the payload and [ret_len]. *)
Definition GetOpusHeader (data : bytes) (len : Z) : outcome (option (Z * Z)) :=
  if len <? 3 then mret None
  else
    d0 ← data.[0]; d1 ← data.[1];
    let prefix := Z.lor (u16 (Z.shiftl d0 8)) d1 in
    if negb (Z.land prefix 0xffe0 =? 0x7fe0) then mret (Some (0, len))
    else
      let start_trim := Z.land (Z.shiftr prefix 4) 0x01 in
      let end_trim := Z.land (Z.shiftr prefix 3) 0x01 in
      let ctrl_ext := Z.land (Z.shiftr prefix 2) 0x01 in
      unit_size ← data.[2];
      '(i, unit_size) ← au_size_loop (Z.to_nat len) data len 3 unit_size;
      let i := if negb (start_trim =? 0) then i + 2 else i in
      let i := if negb (end_trim =? 0) then i + 2 else i in
      i ← (if negb (ctrl_ext =? 0) then c ← data.[i]; mret (i + 1 + c) else mret i);
      s ← chk_int (i + unit_size);
      mret (if len <? s then None else Some (i, unit_size)).

(** ** Frames of a packet *)

(** The results are the value and the pointer after the call. *)
Definition xiph_lacing_16bit (data : bytes) (ptr end_ : Z) : outcome (Z * Z) :=
  if end_ <=? ptr then mret (-1, ptr)
  else
    val ← data.[ptr];
    if 252 <=? val then
      if end_ <=? ptr + 1 then mret (-1, ptr + 1)
      else b ← data.[ptr + 1]; mret (val + 4 * b, ptr + 2)
    else mret (val, ptr + 1).

Definition INT_MAX : Z := 0x7fffffff.

Fixpoint xiph_lacing_full (fuel : nat) (data : bytes) (ptr end_ val : Z) : outcome (Z * Z) :=
  match fuel with
  | O => Fault OutOfFuel
  | S fuel =>
      if (end_ <=? ptr) || (INT_MAX - 254 <? val) then mret (-1, ptr)
      else
        next ← data.[ptr];
        let val := val + next in
        if next <? 255 then mret (val, ptr + 1) else xiph_lacing_full fuel data (ptr + 1) end_ (val - 1)
  end.

Abbreviation frame := (Z * Z)%type.

(** The first loop of the variable bit rate: the sizes, [p] and [total]; [None]
    is the error return. *)
Fixpoint vbr_sizes (count : nat) (data : bytes) (p end_ total : Z) : outcome (option (list Z * Z * Z)) :=
  match count with
  | O => mret (Some ([], p, total))
  | S count =>
      '(frame_len, p) ← xiph_lacing_16bit data p end_;
      if frame_len <? 0 then mret None
      else
        total ← chk_int (total + frame_len);
        r ← vbr_sizes count data p end_ total;
        mret (match r with Some (sizes, p, total) => Some (frame_len :: sizes, p, total) | None => None end)
  end.

(** The second loop: the last of the sizes gives way to the rest of the packet. *)
Fixpoint vbr_frames (sizes : list Z) (p last_len : Z) : list frame :=
  match sizes with
  | [] => []
  | [_] => [(p - 1, last_len + 1)]
  | s :: sizes => (p - 1, s + 1) :: vbr_frames sizes (p + s) last_len
  end.

Fixpoint cbr_frames (count : nat) (p frame_len : Z) : list frame :=
  match count with
  | O => []
  | S count => (p - 1, frame_len + 1) :: cbr_frames count (p + frame_len) frame_len
  end.

(** Case 3 of [GetOpusFrame]: 1 to 48 frames.  [p] is behind the first byte. *)
Definition many_frames (data : bytes) (p end_ : Z) : outcome (bool * list frame) :=
  index ← data.[p];
  let p := p + 1 in
  let frame_count := Z.land index 0x3f in
  let padding := Z.land (Z.shiftr index 6) 0x01 in
  let vbr := Z.land (Z.shiftr index 7) 0x01 in
  if (frame_count <=? 0) || (48 <? frame_count) then mret (false, [])
  else
    '(padding, p) ← (if negb (padding =? 0) then xiph_lacing_full (S (Z.to_nat (end_ - p))) data p end_ 0
                     else mret (0, p));
    if padding <? 0 then mret (false, [])
    else if negb (vbr =? 0) then
      r ← vbr_sizes (Z.to_nat (frame_count - 1)) data p end_ 0;
      match r with
      | None => mret (false, [])
      | Some (sizes, p, total) =>
          let frame_len := end_ - p - padding in
          if frame_len <? total then mret (false, [])
          else mret (true, vbr_frames sizes p (frame_len - total))
      end
    else
      let frame_len := end_ - p - padding in
      if negb (Z.rem frame_len frame_count =? 0) || (48 <? Z.quot frame_len frame_count) then mret (false, [])
      else mret (true, cbr_frames (Z.to_nat frame_count) p (Z.quot frame_len frame_count)).

(** The result holds the frames pushed by the call, as offsets from [data]. *)
Definition GetOpusFrame (data : bytes) (off len : Z) : outcome (bool * list frame) :=
  let end_ := off + len in
  type ← data.[off];
  let p := off + 1 in
  let len := len - 1 in
  match Z.land type 0x03 with
  | 0 => mret (true, [(p - 1, len + 1)])
  | 1 =>
      if Z.rem len 2 =? 1 then mret (false, [])
      else mret (true, [(p - 1, Z.quot len 2 + 1); (p + Z.quot len 2 - 1, Z.quot len 2 + 1)])
  | 2 =>
      '(frame_len, p) ← xiph_lacing_16bit data p end_;
      if frame_len <=? 0 then mret (false, [])
      else mret (true, [(p - 1, frame_len + 1); (p + frame_len - 1, end_ - (p + frame_len) + 1)])
  | _ => many_frames data p end_
  end.

Fixpoint frame_vector (fuel : nat) (data : bytes) (p end_ : Z) (frames_vec : list frame)
    : outcome (bool * list frame) :=
  match fuel with
  | O => Fault OutOfFuel
  | S fuel =>
      if p <? end_ then
        h ← GetOpusHeader (drop (Z.to_nat p) data) (end_ - p);
        match h with
        | None => mret (false, frames_vec)
        | Some (i, payload_len) =>
            '(ret, frames) ← GetOpusFrame data (p + i) payload_len;
            let frames_vec := frames_vec ++ frames in
            if negb ret then mret (false, frames_vec)
            else frame_vector fuel data (p + i + payload_len) end_ frames_vec
        end
      else mret (true, frames_vec)
  end.
Definition GetOpusFrameVector (data : bytes) (len : Z) : outcome (bool * list frame) :=
  frame_vector (S (Z.to_nat len)) data 0 len [].

(** The bytes written to [extra_data] and their number. *)
Definition GetOpusExtraData (clock_rate channel : Z) : bytes * Z :=
  let p := str "OpusHead" ++ [1; u8 channel] ++ Write2Bytes_le 0 ++ Write4Bytes_le (u32 clock_rate) ++
           Write2Bytes_le 0 ++ [0] in
  (p, zlen p).
