(* ===== verification/TsDemux.v ===== *)
(** * [TsDemux]: the MPEG-TS demultiplexer

    Models [src/format/mpegts/mpegts_demux.*], the classes [PatInfo] and [PmtInfo] of
    [mpegts_pub.hpp] and [String2Lower] of [utils/stringex.hpp].  A unit is the bytes from its first one to the end of the
    allocation it lies in: the code follows lengths it reads without comparing
    them with the 188 bytes of the unit.  The packets given to the sinks and the
    reports are events of a log; the pacing option [re] is left out. *)
From S2P Require Import Prelude ByteStream Ends DataBuffer Media H264 TsPub OpusHeader.
From S2P Require StringEx.
Import StringEx(String2Lower).

(** ** Headers and tables *)

Record TsHeader := mkTsHeader {
  _sync_byte : Z;
  _transport_error_indicator : Z;
  _payload_unit_start_indicator : Z;
  _transport_priority : Z;
  _PID : Z;
  _transport_scrambling_control : Z;
  _adaptation_field_control : Z;
  _continuity_counter : Z
}.

(** One of [_pid] and [_network_id] is assigned, the other keeps what it finds. *)
Record PID_INFO := mkPid { _program_number : Z; _pid : option Z; _network_id : option Z }.

Record PatInfo := mkPat {
  pat_table_id : Z;
  pat_section_syntax_indicator : Z;
  pat_section_length : Z;
  pat_transport_stream_id : Z;
  pat_version_number : Z;
  pat_current_next_indicator : Z;
  pat_section_number : Z;
  pat_last_section_number : Z;
  _pid_vec : list PID_INFO
}.

Record ES_INFO := mkEs { descriptor_tag_ : Z; desc_ : bytes }.
Record STREAM_PID_INFO := mkStreamPid {
  _stream_type : Z;
  _elementary_PID : Z;
  _ES_info_length : Z;
  es_info_vec : list ES_INFO
}.

Record PmtInfo := mkPmt {
  pmt_table_id : Z;
  pmt_section_syntax_indicator : Z;
  pmt_section_length : Z;
  pmt_program_number : Z;
  pmt_version_number : Z;
  pmt_current_next_indicator : Z;
  pmt_section_number : Z;
  pmt_last_section_number : Z;
  pmt_PCR_PID : Z;
  pmt_program_info_length : Z;
  _dscr : bytes;                          (* unsigned char[4096] *)
  _pid2steamtype : gmap Z Z;
  _stream_pid_vec : list STREAM_PID_INFO
}.

Inductive demux_event :=
  | DemuxPacket (p : Media_Packet)
  | DemuxReport (type : bytes).

Record MpegtsDemux := mkDemux {
  _pat : PatInfo;
  _pmt : PmtInfo;
  _data_buffer_vec : list DataBuffer;
  _data_total : Z;                        (* size_t *)
  _last_pid : Z;
  _last_dts : Z;                          (* uint64_t *)
  _last_pts : Z;                          (* uint64_t *)
  opus_count_ : Z;
  opus_dts_ : Z;
  demux_events_ : list demux_event
}.

(** The tables are not initialised by the constructor, but for their containers. *)
Definition MpegtsDemux_new (pat : PatInfo) (pmt : PmtInfo) : MpegtsDemux :=
  mkDemux
    (mkPat (pat_table_id pat) (pat_section_syntax_indicator pat) (pat_section_length pat) (pat_transport_stream_id pat)
       (pat_version_number pat) (pat_current_next_indicator pat) (pat_section_number pat) (pat_last_section_number pat) [])
    (mkPmt (pmt_table_id pmt) (pmt_section_syntax_indicator pmt) (pmt_section_length pmt) (pmt_program_number pmt)
       (pmt_version_number pmt) (pmt_current_next_indicator pmt) (pmt_section_number pmt) (pmt_last_section_number pmt)
       (pmt_PCR_PID pmt) (pmt_program_info_length pmt) (_dscr pmt) ∅ [])
    [] 0 0 0 0 0 (-1) [].

Definition set_pat (v : PatInfo) (d : MpegtsDemux) : MpegtsDemux :=
  mkDemux v (_pmt d) (_data_buffer_vec d) (_data_total d) (_last_pid d) (_last_dts d) (_last_pts d) (opus_count_ d) (opus_dts_ d) (demux_events_ d).
Definition set_pmt (v : PmtInfo) (d : MpegtsDemux) : MpegtsDemux :=
  mkDemux (_pat d) v (_data_buffer_vec d) (_data_total d) (_last_pid d) (_last_dts d) (_last_pts d) (opus_count_ d) (opus_dts_ d) (demux_events_ d).
Definition set_data (v : list DataBuffer) (n : Z) (d : MpegtsDemux) : MpegtsDemux :=
  mkDemux (_pat d) (_pmt d) v n (_last_pid d) (_last_dts d) (_last_pts d) (opus_count_ d) (opus_dts_ d) (demux_events_ d).
Definition set_last_pid (v : Z) (d : MpegtsDemux) : MpegtsDemux :=
  mkDemux (_pat d) (_pmt d) (_data_buffer_vec d) (_data_total d) v (_last_dts d) (_last_pts d) (opus_count_ d) (opus_dts_ d) (demux_events_ d).
Definition set_last_ts (dts pts : Z) (d : MpegtsDemux) : MpegtsDemux :=
  mkDemux (_pat d) (_pmt d) (_data_buffer_vec d) (_data_total d) (_last_pid d) dts pts (opus_count_ d) (opus_dts_ d) (demux_events_ d).
Definition set_opus (count dts : Z) (d : MpegtsDemux) : MpegtsDemux :=
  mkDemux (_pat d) (_pmt d) (_data_buffer_vec d) (_data_total d) (_last_pid d) (_last_dts d) (_last_pts d) count dts (demux_events_ d).
Definition demux_event_add (e : demux_event) (d : MpegtsDemux) : MpegtsDemux :=
  mkDemux (_pat d) (_pmt d) (_data_buffer_vec d) (_data_total d) (_last_pid d) (_last_dts d) (_last_pts d) (opus_count_ d) (opus_dts_ d) (demux_events_ d ++ [e]).

Definition ReportEvent (type : bytes) (d : MpegtsDemux) : MpegtsDemux := demux_event_add (DemuxReport type) d.
Definition reportPat (d : MpegtsDemux) : MpegtsDemux := ReportEvent (str "pat") d.
Definition reportPmt (d : MpegtsDemux) : MpegtsDemux := ReportEvent (str "pmt") d.
Definition Output (p : Media_Packet) (d : MpegtsDemux) : MpegtsDemux := demux_event_add (DemuxPacket p) d.

(** [(p[i] << 8) | p[i + 1]] *)
Definition two (p : bytes) (i : Z) : outcome Z := a ← p.[i]; b ← p.[i + 1]; mret (Z.lor (Z.shiftl a 8) b).

(** The first four bytes of a unit. *)
Definition ts_unit_header (data : bytes) : outcome TsHeader :=
  sync ← data.[0];
  b1 ← data.[1];
  w ← two data 1;
  b3 ← data.[3];
  mret (mkTsHeader sync (Z.shiftr (Z.land b1 0x80) 7) (Z.shiftr (Z.land b1 0x40) 6) (Z.shiftr (Z.land b1 0x20) 5)
          (Z.land w 0x1FFF) (Z.shiftr (Z.land b3 0xC0) 6) (Z.shiftr (Z.land b3 0x30) 4) (Z.land b3 0x0F)).

(** The optional parts of the adaptation field, from [pos]: the code reads them,
    and then goes on behind the field whatever they were. *)
Definition adaptation_parts (data : bytes) (pos flags : Z) : outcome unit :=
  let pos := if Z.shiftr (Z.land flags 0x10) 4 =? 1 then pos + 6 else pos in
  let pos := if Z.shiftr (Z.land flags 0x08) 3 =? 1 then pos + 6 else pos in
  let pos := if Z.shiftr (Z.land flags 0x04) 2 =? 1 then pos + 1 else pos in
  pos ← (if Z.shiftr (Z.land flags 0x02) 1 =? 1 then
           l ← data.[pos];
           _ ← read_range data (pos + 1) l;
           mret (pos + 1)
         else mret pos);
  if Z.land flags 0x01 =? 1 then _ ← data.[pos]; _ ← data.[pos + 1]; mret tt else mret tt.

(** [npos] behind the header and the adaptation field. *)
Definition adaptation_field (data : bytes) (control : Z) : outcome Z :=
  let pos := 4 in
  if (control =? 2) || (control =? 3) then
    len ← data.[pos];
    _ ← (if 0 <? len then flags ← data.[pos + 1]; adaptation_parts data (pos + 2) flags else mret tt);
    mret (pos + 1 + len)
  else mret pos.

(** ** The program association table *)

(** The loop over the programs, from [pos] while [pos + 4 <= limit]. *)
Fixpoint pat_programs (fuel : nat) (data : bytes) (pos limit : Z) : outcome (list PID_INFO) :=
  match fuel with
  | O => Fault OutOfFuel
  | S fuel =>
      if pos + 4 <=? limit then
        number ← two data pos;
        w ← two data (pos + 2);
        let pid := Z.land w 0x1FFF in
        rest ← pat_programs fuel data (pos + 4) limit;
        mret ((if number =? 0 then mkPid number None (Some pid) else mkPid number (Some pid) None) :: rest)
      else mret []
  end.

(** The fields in front of the loop, from the offset [pos] of the table id. *)
Definition pat_fields (data : bytes) (pos : Z) (programs : list PID_INFO) : outcome PatInfo :=
  table_id ← data.[pos];
  b ← data.[pos + 1];
  section_length ← two data (pos + 1);
  stream_id ← two data (pos + 3);
  version ← data.[pos + 5];
  number ← data.[pos + 6];
  last ← data.[pos + 7];
  mret (mkPat table_id (Z.land (Z.shiftr b 7) 0x01) (Z.land section_length 0x0FFF) stream_id
          (Z.shiftr (Z.land version 0x3E) 1) (Z.land version 0x01) number last programs).

Definition set_programs (v : list PID_INFO) (p : PatInfo) : PatInfo :=
  mkPat (pat_table_id p) (pat_section_syntax_indicator p) (pat_section_length p) (pat_transport_stream_id p)
    (pat_version_number p) (pat_current_next_indicator p) (pat_section_number p) (pat_last_section_number p) v.

Definition decode_pat (data : bytes) (npos start : Z) (d : MpegtsDemux) : outcome (Z * MpegtsDemux) :=
  let pos := if start =? 0 then npos else npos + 1 in
  pat ← pat_fields data pos (_pid_vec (_pat d));
  let d := set_pat pat d in
  if negb (pat_table_id pat =? 0x00) then mret (-1, ReportEvent (str "error") d)
  else if 188 - npos <=? pat_section_length pat + 3 then mret (-1, ReportEvent (str "error") d)
  else
    let limit := pat_section_length pat - 5 - 4 + 9 + npos in
    programs ← pat_programs (S (Z.to_nat limit)) data (pos + 8) limit;
    mret (0, reportPat (set_pat (set_programs programs pat) d)).

(** ** The program map table *)

(** The C string at the start of an array. *)
Fixpoint c_string (l : bytes) : bytes :=
  match l with [] => [] | b :: l => if b =? 0 then [] else b :: c_string l end.

(** The loop over the descriptors while [pos < limit]; the result has [pos]. *)
Fixpoint pmt_descriptors (fuel : nat) (data : bytes) (pos limit : Z) : outcome (list ES_INFO * Z) :=
  match fuel with
  | O => Fault OutOfFuel
  | S fuel =>
      if pos <? limit then
        tag ← data.[pos];
        len ← data.[pos + 1];
        desc ← read_range data (pos + 2) len;
        '(rest, pos) ← pmt_descriptors fuel data (pos + 2 + len) limit;
        mret (mkEs tag (c_string desc) :: rest, pos)
      else mret ([], pos)
  end.

(** The loop over the streams while [pos + 5 <= limit]. *)
Fixpoint pmt_streams (fuel : nat) (data : bytes) (pos limit : Z) : outcome (list STREAM_PID_INFO) :=
  match fuel with
  | O => Fault OutOfFuel
  | S fuel =>
      if pos + 5 <=? limit then
        type ← data.[pos];
        pid ← two data (pos + 1);
        len ← two data (pos + 3);
        let pid := Z.land pid 0x1FFF in
        let len := Z.land len 0x0FFF in
        let pos := pos + 5 in
        if limit <? pos + len then mret []
        else
          '(infos, pos) ← pmt_descriptors (S (Z.to_nat len)) data pos (pos + len);
          rest ← pmt_streams fuel data pos limit;
          mret (mkStreamPid type pid len infos :: rest)
      else mret []
  end.

(** [_pid2steamtype.insert(...)] of every stream: the first one of a PID stays. *)
Definition insert_stream (types : gmap Z Z) (s : STREAM_PID_INFO) : gmap Z Z :=
  match types !! _elementary_PID s with Some _ => types | None => <[_elementary_PID s := _stream_type s]> types end.
Definition stream_types (streams : list STREAM_PID_INFO) : gmap Z Z := fold_left insert_stream streams ∅.

(** The fields in front of the loop. *)
Definition pmt_fields (data : bytes) (pos : Z) (old : PmtInfo) : outcome PmtInfo :=
  table_id ← data.[pos];
  b ← data.[pos + 1];
  section_length ← two data (pos + 1);
  program ← two data (pos + 3);
  version ← data.[pos + 5];
  number ← data.[pos + 6];
  last ← data.[pos + 7];
  pcr ← two data (pos + 8);
  info ← two data (pos + 10);
  mret (mkPmt table_id (Z.land (Z.shiftr b 7) 0x01) (Z.land section_length 0x0FFF) program
          (Z.shiftr (Z.land version 0x3E) 1) (Z.land version 0x01) number last (Z.land pcr 0x1FFF) (Z.land info 0x0FFF)
          (_dscr old) (_pid2steamtype old) (_stream_pid_vec old)).

Definition set_streams (dscr : bytes) (types : gmap Z Z) (streams : list STREAM_PID_INFO) (p : PmtInfo) : PmtInfo :=
  mkPmt (pmt_table_id p) (pmt_section_syntax_indicator p) (pmt_section_length p) (pmt_program_number p)
    (pmt_version_number p) (pmt_current_next_indicator p) (pmt_section_number p) (pmt_last_section_number p)
    (pmt_PCR_PID p) (pmt_program_info_length p) dscr types streams.

Definition decode_pmt (data : bytes) (npos start : Z) (d : MpegtsDemux) : outcome (Z * MpegtsDemux) :=
  let pos := if start =? 0 then npos else npos + 1 in
  pmt ← pmt_fields data pos (_pmt d);
  let d := set_pmt pmt d in
  if negb (pmt_table_id pmt =? 0x02) then mret (-1, ReportEvent (str "error") d)
  else
    let pos := pos + 12 in
    info ← read_range data pos (pmt_program_info_length pmt);
    dscr ← write_at (_dscr pmt) 0 info;
    let pos := pos + pmt_program_info_length pmt in
    let limit := pmt_section_length pmt + 4 - 4 + npos in
    streams ← pmt_streams (S (Z.to_nat limit)) data pos limit;
    mret (0, reportPmt (set_pmt (set_streams dscr (stream_types streams) streams pmt) d)).

Definition IsPmt (pid : Z) (d : MpegtsDemux) : bool :=
  existsb (fun i => negb (_program_number i =? 0) && bool_decide (_pid i = Some pid)) (_pid_vec (_pat d)).

(** ** PES headers *)

(** [x << 30] on [int]: defined as long as the value fits in an [unsigned int]. *)
Definition shl30 (x : Z) : outcome Z :=
  if x * 2 ^ 30 <? 2 ^ 32 then mret (i32 (x * 2 ^ 30)) else Fault BadShift.

(** A time of 33 bits in five bytes, computed on [int] and converted to [uint64_t]. *)
Definition pes_time (p : bytes) (pos : Z) : outcome Z :=
  b0 ← p.[pos]; b1 ← p.[pos + 1]; b2 ← p.[pos + 2]; b3 ← p.[pos + 3]; b4 ← p.[pos + 4];
  hi ← shl30 (Z.land (Z.shiftr b0 1) 0x07);
  mret (u64 (Z.lor (Z.lor (Z.lor (Z.lor hi (Z.shiftl b1 22)) (Z.shiftl (Z.land (Z.shiftr b2 1) 0x7F) 15))
                          (Z.shiftl b3 7)) (Z.land (Z.shiftr b4 1) 0x7F))).

(** The bytes read at [pos .. pos + n - 1]: their values are not used. *)
Definition touch (p : bytes) (pos n : Z) : outcome unit := _ ← read_range p pos n; mret tt.

(** The time stamps by [PTS_DTS_flags]: [pos], [dts] and [pts]. *)
Definition pes_times (p : bytes) (pos flags : Z) : outcome (Z * Z * Z) :=
  if flags =? 2 then pts ← pes_time p pos; mret (pos + 5, 0, pts)
  else if flags =? 3 then
    pts ← pes_time p pos;
    dts ← pes_time p (pos + 5);
    mret (pos + 10, dts, pts)
  else mret (pos, 0, 0).

(** The PES extension: [pos] behind it. *)
Definition pes_extension (p : bytes) (pos : Z) : outcome Z :=
  b ← p.[pos];
  let pos := pos + 1 in
  let pos := if Z.shiftr (Z.land b 0x80) 7 =? 1 then pos + 16 else pos in
  let pos := if Z.shiftr (Z.land b 0x20) 5 =? 1 then pos + 2 else pos in
  let pos := if Z.shiftr (Z.land b 0x10) 4 =? 1 then pos + 2 else pos in
  if Z.land b 0x01 =? 1 then l ← p.[pos]; mret (pos + 1 + Z.land l 0x7F) else mret pos.

(** The optional fields behind the time stamps, by the second byte of flags. *)
Definition pes_optional (p : bytes) (pos flags : Z) : outcome Z :=
  pos ← (if Z.shiftr (Z.land flags 0x20) 5 =? 1 then _ ← touch p pos 6; mret (pos + 6) else mret pos);
  pos ← (if Z.shiftr (Z.land flags 0x10) 4 =? 1 then _ ← touch p pos 3; mret (pos + 3) else mret pos);
  pos ← (if Z.shiftr (Z.land flags 0x08) 3 =? 1 then _ ← touch p pos 1; mret (pos + 1) else mret pos);
  let pos := if Z.shiftr (Z.land flags 0x04) 2 =? 1 then pos + 1 else pos in
  let pos := if Z.shiftr (Z.land flags 0x02) 1 =? 1 then pos + 2 else pos in
  if Z.land flags 0x01 =? 1 then pes_extension p pos else mret pos.

(** The stream ids without an optional header. *)
Definition plain_stream_ids : list Z := [188; 190; 191; 240; 241; 255; 242; 248].

(** The result of [PesParse]: the value, the pointer as an offset with [ret_size], the times. *)
Record pes_result := mkPes { pes_ret : Z; pes_data : option (Z * Z); pes_dts : Z; pes_pts : Z }.

Definition pes_payload (npos pos dts pts : Z) : pes_result := mkPes pos (Some (pos, u64 (188 - (npos + pos)))) dts pts.

Definition PesParse (p : bytes) (npos : Z) (d : MpegtsDemux) : outcome (pes_result * MpegtsDemux) :=
  b0 ← p.[0]; b1 ← p.[1]; b2 ← p.[2];
  let packet_start_code_prefix := Z.lor (Z.lor (Z.shiftl b0 16) (Z.shiftl b1 8)) b2 in
  stream_id ← p.[3];
  _ ← two p 4;
  let pos := 6 in
  if negb (packet_start_code_prefix =? 0x00000001) then mret (mkPes 255 None 0 0, ReportEvent (str "error") d)
  else if bool_decide (stream_id ∈ plain_stream_ids) then mret (pes_payload npos pos 0 0, d)
  else
    b ← p.[pos];
    if negb (Z.land b 0xc0 =? 0x80) then mret (mkPes 255 None 0 0, ReportEvent (str "error") d)
    else
      flags ← p.[pos + 1];
      _ ← p.[pos + 2];
      '(pos, dts, pts) ← pes_times p (pos + 3) (Z.shiftr (Z.land flags 0xC0) 6);
      pos ← pes_optional p pos flags;
      mret (pes_payload npos pos dts pts, d).

(** ** Frames *)

(** The stream has a descriptor that names Opus. *)
Definition names_opus (pid : Z) (info : STREAM_PID_INFO) : bool :=
  (_elementary_PID info =? pid) && existsb (fun e => bool_decide (String2Lower (desc_ e) = str "opus")) (es_info_vec info).

Definition GetMediaInfoByPid (pid : Z) (d : MpegtsDemux) : MEDIA_PKT_TYPE * MEDIA_CODEC_TYPE :=
  let '(media, codec) :=
    match _pid2steamtype (_pmt d) !! pid with
    | Some t => let '(_, media, codec) := GetMediaInfoByStreamtype t MEDIA_UNKOWN_TYPE MEDIA_CODEC_UNKOWN in (media, codec)
    | None => (MEDIA_UNKOWN_TYPE, MEDIA_CODEC_UNKOWN)
    end in
  if bool_decide (media <> MEDIA_UNKOWN_TYPE) && bool_decide (codec <> MEDIA_CODEC_UNKOWN) then (media, codec)
  else if existsb (names_opus pid) (_stream_pid_vec (_pmt d)) then (MEDIA_AUDIO_TYPE, MEDIA_CODEC_OPUS)
  else (media, codec).

Section demux.
Context `{Allocator}.

(** [data_p + off]; [data_size] is a [size_t]. *)
Definition InsertIntoDatabuf (data : bytes) (off data_size pid : Z) (d : MpegtsDemux) : outcome MpegtsDemux :=
  let d := set_last_pid pid d in
  b ← DataBuffer_new EXTRA_LEN;
  s ← read_range data off data_size;
  '(_, b) ← AppendData b s;
  mret (set_data (_data_buffer_vec d ++ [b]) (u64 (_data_total d + data_size)) d).

(** The loop that puts the buffers together. *)
Fixpoint join_buffers (vec : list DataBuffer) (p : Media_Packet) : outcome Media_Packet :=
  match vec with
  | [] => mret p
  | b :: vec =>
      let len := i32 (DataLen b) in
      p ← (if 0 <? len then s ← read_range (Data b) 0 len; append_packet s p else mret p);
      join_buffers vec p
  end.

(** The loop over the NAL units of a video frame. *)
Fixpoint output_nalus (nalus : list DataBuffer) (pkt : Media_Packet) (d : MpegtsDemux) : outcome MpegtsDemux :=
  match nalus with
  | [] => mret d
  | nal :: nalus =>
      let nalu_len := i32 (DataLen nal) in
      if nalu_len <? 5 then output_nalus nalus pkt d
      else
        pos ← GetNaluTypePos (Data nal);
        t ← peek nal pos;
        if H264_IS_AUD t then output_nalus nalus pkt d
        else
          out ← Media_Packet_new;
          let out := copy_properties pkt out in
          let out := set_buffer_ptr (Reset (buffer_ptr_ out)) out in
          let out := set_is_seq_hdr (H264_IS_SPS t || H264_IS_PPS t) out in
          let out := set_is_key_frame (H264_IS_KEYFRAME t) out in
          s ← read_range (Data nal) 0 nalu_len;
          out ← append_packet s out;
          output_nalus nalus pkt (Output out d)
  end.

(** The loop over the frames of an Opus packet, the [i]th on. *)
Fixpoint output_opus (frames : list (Z * Z)) (i dts : Z) (pkt : Media_Packet) (d : MpegtsDemux) : outcome MpegtsDemux :=
  match frames with
  | [] => mret d
  | (off, len) :: frames =>
      new ← Media_Packet_new;
      let new := copy_properties pkt new in
      let new := set_buffer_ptr (Reset (buffer_ptr_ new)) new in
      s ← read_range (Data (buffer_ptr_ pkt)) off (u64 len);
      new ← append_packet s new;
      let ts := i64 (u64 (dts + 20 * i)) in
      let new := set_pts ts (set_dts ts new) in
      t ← chk_int64 (opus_dts_ d + 20);
      output_opus frames (i + 1) dts pkt (Output new (set_opus (opus_count_ d) t d))
  end.

(** What is done with a complete frame, by its kind. *)
Definition output_frame (pkt : Media_Packet) (d : MpegtsDemux) : outcome MpegtsDemux :=
  let b := buffer_ptr_ pkt in
  match av_type_ pkt, codec_type_ pkt with
  | MEDIA_VIDEO_TYPE, _ =>
      '(ret, nalus) ← AnnexB2Nalus (Data b) (DataLen b);
      if ret : bool then output_nalus nalus pkt d else mret d
  | MEDIA_AUDIO_TYPE, MEDIA_CODEC_OPUS =>
      let d := if opus_dts_ d <? 0 then set_opus (opus_count_ d) (dts_ pkt) d else d in
      '(ret, frames) ← GetOpusFrameVector (Data b) (i32 (DataLen b));
      if negb ret then mret d
      else
        c ← chk_int64 (opus_count_ d + 1);
        output_opus frames 0 (dts_ pkt) pkt (set_opus c (opus_dts_ d) d)
  | _, _ => mret (Output pkt d)
  end.

Definition OnCallback (pid dts pts : Z) (d : MpegtsDemux) : outcome MpegtsDemux :=
  if (_data_total d =? 0) || bool_decide (_data_buffer_vec d = []) then mret d
  else
    let '(media_type, codec_type) := GetMediaInfoByPid pid d in
    pkt ← Media_Packet_new;
    let pkt := set_fmt_type MEDIA_FORMAT_RAW (set_codec_type codec_type (set_av_type media_type pkt)) in
    let pkt := set_pts (i64 (pts / 90)) (set_dts (i64 (dts / 90)) pkt) in
    pkt ← join_buffers (_data_buffer_vec d) pkt;
    output_frame pkt (set_data [] 0 d).

(** ** Units *)

(** A unit of a stream of the program: the first of a frame, or one of the others. *)
Definition pes_unit (data : bytes) (npos start pid : Z) (d : MpegtsDemux) : outcome (Z * MpegtsDemux) :=
  if negb (start =? 0) then
    d ← OnCallback (_last_pid d) (_last_dts d) (_last_pts d) d;
    '(r, d) ← PesParse (drop (Z.to_nat npos) data) npos d;
    if 188 <? pes_ret r then mret (-1, ReportEvent (str "error") d)
    else
      let d := set_last_ts (if pes_dts r =? 0 then pes_pts r else pes_dts r) (pes_pts r) d in
      match pes_data r with
      | Some (off, size) =>
          if 0 <? size then d ← InsertIntoDatabuf data (npos + off) size pid d; mret (0, d) else mret (0, d)
      | None => mret (0, d)
      end
  else d ← InsertIntoDatabuf data npos (u64 (188 - npos)) pid d; mret (0, d).

(** The loop over the streams: a PID listed twice is handled twice. *)
Fixpoint pes_streams (streams : list STREAM_PID_INFO) (data : bytes) (npos start pid : Z) (d : MpegtsDemux)
    : outcome (Z * MpegtsDemux) :=
  match streams with
  | [] => mret (0, d)
  | s :: streams =>
      if pid =? _elementary_PID s then
        '(ret, d) ← pes_unit data npos start pid d;
        if ret <? 0 then mret (ret, d) else pes_streams streams data npos start pid d
      else pes_streams streams data npos start pid d
  end.

Definition reserved_pids : list Z := [0x01; 0x02; 0x03; 0x11].

Definition DecodeUnit (data : bytes) (d : MpegtsDemux) : outcome (Z * MpegtsDemux) :=
  h ← ts_unit_header data;
  npos ← adaptation_field data (_adaptation_field_control h);
  if (_adaptation_field_control h =? 1) || (_adaptation_field_control h =? 3) then
    let pid := _PID h in
    let start := _payload_unit_start_indicator h in
    if pid =? 0x00 then decode_pat data npos start d
    else if bool_decide (pid ∈ reserved_pids) then mret (0, d)
    else if IsPmt pid d then decode_pmt data npos start d
    else if (pid =? 0x0042) || (pid =? 0x1FFF) then mret (0, d)
    else pes_streams (_stream_pid_vec (_pmt d)) data npos start pid d
  else mret (0, d).

(** The loop over the units of a buffer; [ret] is the result so far. *)
Fixpoint decode_units (count : nat) (data : bytes) (ret : Z) (d : MpegtsDemux) : outcome (Z * MpegtsDemux) :=
  match count with
  | O => mret (ret, d)
  | S count =>
      b ← data.[0];
      if negb (b =? 0x47) then decode_units count (drop 188 data) ret d
      else
        '(ret, d) ← DecodeUnit data d;
        if ret <? 0 then mret (ret, d) else decode_units count (drop 188 data) ret d
  end.

(** [None] is a null pointer, which the error message dereferences. *)
Definition Decode (data_ptr : option DataBuffer) (d : MpegtsDemux) : outcome (Z * MpegtsDemux) :=
  match data_ptr with
  | None => Fault OutOfBounds
  | Some b =>
      if (DataLen b <? 188) || negb (DataLen b mod 188 =? 0) then mret (-1, ReportEvent (str "error") d)
      else decode_units (Z.to_nat (u32 (DataLen b / 188))) (Data b) (-1) d
  end.

Definition SourceData (pkt : Media_Packet) (d : MpegtsDemux) : outcome (Z * MpegtsDemux) := Decode (Some (buffer_ptr_ pkt)) d.
End demux.
