(* ===== verification/TsEnds.v ===== *)
(** * [TsEnds]: the demultiplexer ends on every input

    For every buffer of bytes and every state of the demuxer a call of [SourceData] returns, or does something that
    has no meaning in C++ (the code checks few of the lengths it reads); no loop of it runs on. *)
From S2P Require Import Prelude ByteStream Ends DataBuffer Media H264 TsPub TsMux OpusHeader TsDemux.

(** The memory of the buffer holds bytes. *)
Definition buffer_ok (b : DataBuffer) : Prop := bytes_ok (buffer_ b).

(** ** Buffers and packets *)

Section buffers.
Context `{Alloc : Allocator}.

Lemma ends_DataBuffer_new n : ends buffer_ok (DataBuffer_new n).
Proof.
  unfold DataBuffer_new. eapply ends_bind; [apply ends_write_bytes; [apply new_char_bytes|apply zeros_ok]|]. intros m Hm. exact Hm.
Qed.

Lemma ends_GetNewSize n : ends any (GetNewSize n).
Proof. unfold GetNewSize. ends. Qed.
#[local] Hint Resolve ends_GetNewSize : ends.

Lemma ends_AppendData b d : buffer_ok b -> bytes_ok d -> ends (fun r => buffer_ok r.2) (AppendData b d).
Proof.
  intros Hb Hd. unfold AppendData. destruct (_ =? 0); [done|]. destruct (_ <? _); [destruct (_ <=? _)|].
  - unfold append_realloc. do 3 (eapply (ends_bind any); [by auto with ends|intros ? _]).
    eapply ends_bind; [by apply ends_read_bytes|]. intros o Ho.
    eapply ends_bind; [apply ends_write_bytes; [apply new_char_bytes|done]|]. intros m1 Hm1.
    eapply ends_bind; [by apply ends_write_bytes|]. intros m2 Hm2.
    cbv zeta. eapply (ends_bind any); [by auto with ends|]. by intros ? _.
  - unfold append_move. eapply (ends_bind bytes_ok).
    + destruct (_ <=? _).
      * eapply ends_bind; [by apply ends_read_bytes|]. intros o Ho. by apply ends_write_bytes.
      * unfold memcpy_within. eapply ends_bind; [by apply ends_read_bytes|]. intros o Ho. destruct (_ || _); [by apply ends_write_bytes|done].
    + intros m1 Hm1. eapply ends_bind; [by apply ends_write_bytes|]. intros m2 Hm2.
      cbv zeta. eapply (ends_bind any); [by auto with ends|]. by intros ? _.
  - unfold append_in_place. eapply ends_bind; [by apply ends_write_bytes|]. intros m1 Hm1.
    do 2 (eapply (ends_bind any); [by auto with ends|intros ? _]). done.
Qed.

Lemma Data_bytes b : buffer_ok b -> bytes_ok (Data b).
Proof. intros Hb. by apply Forall_drop. Qed.

Definition packet_ok (p : Media_Packet) : Prop := buffer_ok (buffer_ptr_ p).

Lemma ends_Media_Packet_new : ends packet_ok Media_Packet_new.
Proof. unfold Media_Packet_new, Media_Packet_len. eapply ends_bind; [apply ends_DataBuffer_new|]. by intros b Hb. Qed.

Lemma ends_append_packet d p : packet_ok p -> bytes_ok d -> ends packet_ok (append_packet d p).
Proof. intros Hp Hd. unfold append_packet. eapply ends_bind; [by apply ends_AppendData|]. by intros [r b] Hb. Qed.
End buffers.

(** ** NAL units *)

Lemma ends_starts_with pat p : ends any (starts_with pat p).
Proof. revert p. induction pat as [|x pat IH]; intros p; [done|]. cbn [starts_with]. ends. Qed.
#[export] Hint Resolve ends_starts_with : ends.

Lemma ends_GetNaluTypePos p : ends any (GetNaluTypePos p).
Proof. unfold GetNaluTypePos. ends. Qed.
#[export] Hint Resolve ends_GetNaluTypePos : ends.

Lemma ends_start_codes fuel after p left_len pos : (Z.to_nat left_len < fuel)%nat -> ends any (start_codes fuel after p left_len pos).
Proof.
  revert p left_len pos. induction fuel as [|fuel IH]; intros p left_len pos Hf; [lia|]. cbn [start_codes].
  destruct (Z.leb_spec left_len 0); [done|].
  eapply (ends_bind any); [destruct (4 <=? left_len); [by auto with ends|done]|]. intros [] _.
  - eapply (ends_bind any); [apply IH; lia|]. by intros ? _.
  - eapply (ends_bind any); [destruct (3 <=? left_len); [by auto with ends|done]|]. intros [] _.
    + eapply (ends_bind any); [apply IH; lia|]. by intros ? _.
    + apply IH. lia.
Qed.

Section nalus.
Context `{Alloc : Allocator}.

Lemma ends_append_all b parts : buffer_ok b -> Forall bytes_ok parts -> ends buffer_ok (append_all b parts).
Proof.
  intros Hb Hp. revert b Hb. induction Hp as [|d parts Hd Hp IH]; intros b Hb; [done|]. cbn [append_all].
  eapply ends_bind; [by apply ends_AppendData|]. intros [r b'] Hb'. by apply IH.
Qed.

Lemma ends_cut_nalus data end_pos pos_vec : bytes_ok data -> ends (Forall buffer_ok) (cut_nalus false data end_pos pos_vec).
Proof.
  intros Hd. induction pos_vec as [|p pos_vec IH]; [by constructor|]. cbn [cut_nalus]. cbv zeta.
  eapply ends_bind; [by apply ends_read_bytes|]. intros d Hdd.
  eapply (ends_bind buffer_ok); [unfold make_buffer; eapply ends_bind; [apply ends_DataBuffer_new|]; intros b Hb; apply ends_append_all; [done|by repeat constructor]|].
  intros b Hb. eapply ends_bind; [exact IH|]. intros bs Hbs. by constructor.
Qed.

Lemma ends_AnnexB2Nalus data len : bytes_ok data -> ends (fun r => Forall buffer_ok r.2) (AnnexB2Nalus data len).
Proof.
  intros Hd. unfold AnnexB2Nalus. destruct (len <? 4); [by constructor|].
  eapply (ends_bind any); [apply ends_start_codes; lia|]. intros ps _. eapply ends_bind; [by apply ends_cut_nalus|]. by intros bs Hbs.
Qed.
End nalus.

(** ** Opus packets *)

Lemma ends_au_size_loop fuel data len i unit_size : bytes_ok data -> 0 <= unit_size -> (Z.to_nat (len - i) < fuel)%nat ->
  ends (fun r => i <= r.1 /\ 0 <= r.2) (au_size_loop fuel data len i unit_size).
Proof.
  intros Hd. revert i unit_size. induction fuel as [|fuel IH]; intros i u Hu Hf; [lia|]. cbn [au_size_loop].
  destruct (Z.ltb_spec i len); [|cbn; lia].
  eapply (ends_bind is_byte); [by apply ends_rd_byte|]. intros b Hb. destruct (b =? 255); [|cbn; lia].
  eapply (ends_bind is_byte); [by apply ends_rd_byte|]. intros c Hc.
  eapply (ends_bind (fun x => 0 <= x)); [unfold chk_int; case_bool_decide; cbn; [unfold is_byte in *; lia|done]|].
  intros x Hx. eapply ends_weaken; [apply IH; lia|]. cbn. lia.
Qed.

(** Unless all of the packet is taken, a header goes forward. *)
Lemma ends_GetOpusHeader data len : bytes_ok data -> 0 < len ->
  ends (fun r => match r with Some (i, n) => 0 < i + n | None => True end) (GetOpusHeader data len).
Proof.
  intros Hd Hl. unfold GetOpusHeader. destruct (len <? 3); [done|].
  do 2 (eapply (ends_bind any); [by auto with ends|intros ? _]). cbv zeta. destruct (negb _); [cbn; lia|].
  eapply (ends_bind is_byte); [by apply ends_rd_byte|]. intros u Hu.
  eapply (ends_bind (fun r : Z * Z => 3 <= r.1 /\ 0 <= r.2)); [apply ends_au_size_loop; [done|unfold is_byte in Hu; lia|lia]|].
  intros [i n] [Hi Hn]. cbn [fst snd] in *. set (i1 := if negb _ then i + 2 else i). set (i2 := if negb _ then i1 + 2 else i1).
  assert (3 <= i2) as Hi2 by (unfold i2, i1; repeat case_match; lia).
  clearbody i2. clear i1. eapply (ends_bind (fun x => 3 <= x)).
  { destruct (negb _); [|exact Hi2]. eapply (ends_bind is_byte); [by apply ends_rd_byte|]. intros c Hc. cbn. unfold is_byte in Hc. lia. }
  intros j Hj. eapply (ends_bind any); [by auto with ends|]. intros s _. cbn. destruct (len <? s); [done|lia].
Qed.

Lemma ends_xiph_lacing_16bit data p e : ends any (xiph_lacing_16bit data p e).
Proof. unfold xiph_lacing_16bit. ends. Qed.
#[export] Hint Resolve ends_xiph_lacing_16bit : ends.

Lemma ends_xiph_lacing_full fuel data p e val : (Z.to_nat (e - p) < fuel)%nat -> ends any (xiph_lacing_full fuel data p e val).
Proof.
  revert p val. induction fuel as [|fuel IH]; intros p val Hf; [lia|]. cbn [xiph_lacing_full].
  destruct (Z.leb_spec e p); [done|]. cbn [orb]. destruct (INT_MAX - 254 <? val); [done|].
  eapply (ends_bind any); [by auto with ends|]. intros n _. cbv zeta. destruct (n <? 255); [done|]. apply IH. lia.
Qed.

Lemma ends_vbr_sizes count data p e total : ends any (vbr_sizes count data p e total).
Proof.
  revert p total. induction count as [|count IH]; intros p total; [done|]. cbn [vbr_sizes].
  eapply (ends_bind any); [by auto with ends|]. intros [n q] _. destruct (n <? 0); [done|].
  eapply (ends_bind any); [by auto with ends|]. intros t _. eapply (ends_bind any); [apply IH|]. by intros ? _.
Qed.

Lemma ends_GetOpusFrame data off len : ends any (GetOpusFrame data off len).
Proof.
  unfold GetOpusFrame. cbv zeta. eapply (ends_bind any); [by auto with ends|]. intros t _.
  assert (forall p e, ends any (many_frames data p e)) as Hm.
  { intros p e. unfold many_frames. eapply (ends_bind any); [by auto with ends|]. intros x _. cbv zeta. destruct (_ || _); [done|].
    eapply (ends_bind any); [destruct (negb _); [apply ends_xiph_lacing_full; lia|done]|]. intros [pad q] _. destruct (pad <? 0); [done|].
    destruct (negb _).
    - eapply (ends_bind any); [apply ends_vbr_sizes|]. intros [[[]]|] _; ends.
    - ends. }
  destruct (Z.land t 3) as [|[[]|[]|]|]; try apply Hm; ends.
Qed.

Lemma ends_frame_vector fuel data p e v : bytes_ok data -> (Z.to_nat (e - p) < fuel)%nat -> ends any (frame_vector fuel data p e v).
Proof.
  intros Hd. revert p v. induction fuel as [|fuel IH]; intros p v Hf; [lia|]. cbn [frame_vector]. destruct (Z.ltb_spec p e); [|done].
  eapply ends_bind; [apply ends_GetOpusHeader; [by apply Forall_drop|lia]|]. intros [[i n]|] Hin; [|done].
  eapply (ends_bind any); [apply ends_GetOpusFrame|]. intros [ret fs] _. cbv zeta. destruct (negb ret); [done|]. apply IH. lia.
Qed.

Lemma ends_GetOpusFrameVector data len : bytes_ok data -> ends any (GetOpusFrameVector data len).
Proof. intros Hd. apply ends_frame_vector; [done|lia]. Qed.

(** ** Tables and headers *)

Lemma ends_two p i : ends any (two p i).
Proof. unfold two. ends. Qed.
#[export] Hint Resolve ends_two : ends.

Lemma ends_ts_unit_header p : ends any (ts_unit_header p).
Proof. unfold ts_unit_header. ends. Qed.

Lemma ends_adaptation_parts p pos flags : ends any (adaptation_parts p pos flags).
Proof. unfold adaptation_parts. cbv zeta. ends. Qed.

(** The payload starts behind the header, inside or outside of the packet. *)
Lemma ends_adaptation_field p control : bytes_ok p -> ends (fun npos => 4 <= npos) (adaptation_field p control).
Proof.
  intros Hp. unfold adaptation_field. cbv zeta. destruct (_ || _); [|cbn; lia].
  eapply (ends_bind is_byte); [by apply ends_rd_byte|]. intros l Hl.
  eapply (ends_bind any); [destruct (0 <? l); [eapply (ends_bind any); [by auto with ends|intros ? _; apply ends_adaptation_parts]|done]|].
  intros _ _. cbn. unfold is_byte in Hl. lia.
Qed.

Lemma ends_pat_programs fuel p pos limit : 0 <= pos -> (Z.to_nat (limit - pos) < fuel)%nat -> ends any (pat_programs fuel p pos limit).
Proof.
  revert pos. induction fuel as [|fuel IH]; intros pos Hpos Hf; [lia|]. cbn [pat_programs]. destruct (Z.leb_spec (pos + 4) limit); [|done].
  do 2 (eapply (ends_bind any); [by auto with ends|intros ? _]). cbv zeta. eapply (ends_bind any); [apply IH; lia|]. by intros ? _.
Qed.

Lemma ends_pmt_descriptors fuel p pos limit : bytes_ok p -> (Z.to_nat (limit - pos) < fuel)%nat ->
  ends (fun r => pos <= r.2) (pmt_descriptors fuel p pos limit).
Proof.
  intros Hp. revert pos. induction fuel as [|fuel IH]; intros pos Hf; [lia|]. cbn [pmt_descriptors]. destruct (Z.ltb_spec pos limit); [|cbn; lia].
  eapply (ends_bind any); [by auto with ends|intros ? _]. eapply (ends_bind is_byte); [by apply ends_rd_byte|]. intros l Hl. unfold is_byte in Hl.
  eapply (ends_bind any); [by auto with ends|intros ? _]. eapply ends_bind; [apply IH; lia|]. intros [r q] Hq. cbn in *. lia.
Qed.

Lemma ends_pmt_streams fuel p pos limit : bytes_ok p -> 0 <= pos -> (Z.to_nat (limit - pos) < fuel)%nat -> ends any (pmt_streams fuel p pos limit).
Proof.
  intros Hp. revert pos. induction fuel as [|fuel IH]; intros pos Hpos Hf; [lia|]. cbn [pmt_streams]. destruct (Z.leb_spec (pos + 5) limit); [|done].
  do 3 (eapply (ends_bind any); [by auto with ends|intros ? _]). cbv zeta. destruct (_ <? _); [done|].
  eapply ends_bind; [apply ends_pmt_descriptors; [done|lia]|]. intros [r q] Hq. cbn [snd] in Hq.
  eapply (ends_bind any); [apply IH; lia|]. by intros ? _.
Qed.

(** The buffers that wait hold bytes. *)
Definition demux_ok (d : MpegtsDemux) : Prop := Forall buffer_ok (_data_buffer_vec d).

Lemma ends_decode_pat p npos start d : 4 <= npos -> demux_ok d -> ends (fun r => demux_ok r.2) (decode_pat p npos start d).
Proof.
  intros Hn Hd. unfold decode_pat. cbv zeta. set (pos := if start =? 0 then npos else npos + 1).
  assert (4 <= pos) as Hpos by (unfold pos; destruct (start =? 0); lia).
  eapply (ends_bind any); [unfold pat_fields; ends|]. intros pat _. destruct (negb _); [done|]. destruct (_ <=? _); [done|].
  eapply (ends_bind any); [apply ends_pat_programs; lia|]. by intros ? _.
Qed.

Lemma ends_decode_pmt p npos start d : bytes_ok p -> 4 <= npos -> demux_ok d -> ends (fun r => demux_ok r.2) (decode_pmt p npos start d).
Proof.
  intros Hp Hn Hd. unfold decode_pmt. cbv zeta. set (pos := if start =? 0 then npos else npos + 1).
  assert (4 <= pos) as Hpos by (unfold pos; destruct (start =? 0); lia).
  eapply (ends_bind (fun pmt => 0 <= pmt_program_info_length pmt)).
  { unfold pmt_fields. do 9 (eapply (ends_bind any); [by auto with ends|intros ? _]). cbn. apply Z.land_nonneg. by right. }
  intros pmt Hpmt. destruct (negb _); [done|].
  do 2 (eapply (ends_bind any); [by auto with ends|intros ? _]).
  eapply (ends_bind any); [apply ends_pmt_streams; [done|lia|lia]|]. by intros ? _.
Qed.

Lemma ends_pes_time p pos : ends any (pes_time p pos).
Proof. unfold pes_time, shl30. ends. Qed.
Lemma ends_touch p pos n : ends any (touch p pos n).
Proof. unfold touch. ends. Qed.
#[export] Hint Resolve ends_pes_time ends_touch : ends.

Lemma ends_PesParse p npos d : ends (fun r => _data_buffer_vec r.2 = _data_buffer_vec d) (PesParse p npos d).
Proof.
  unfold PesParse. cbv zeta. do 5 (eapply (ends_bind any); [by auto with ends|intros ? _]).
  destruct (negb _); [done|]. case_bool_decide; [done|].
  eapply (ends_bind any); [by auto with ends|intros ? _]. destruct (negb _); [done|].
  do 2 (eapply (ends_bind any); [by auto with ends|intros ? _]).
  eapply (ends_bind any); [unfold pes_times; ends|]. intros [[q dts] pts] _.
  eapply (ends_bind any); [|by intros ? _].
  unfold pes_optional. do 3 (eapply (ends_bind any); [destruct (_ =? 1); ends|intros ? _]). cbv zeta.
  destruct (Z.land _ 1 =? 1); [|done]. unfold pes_extension. eapply (ends_bind any); [by auto with ends|intros ? _]. cbv zeta.
  destruct (Z.land _ 1 =? 1); [|done]. ends.
Qed.

(** ** Frames *)

Section frames.
Context `{Alloc : Allocator}.

Lemma ends_InsertIntoDatabuf p off n pid d : bytes_ok p -> demux_ok d -> ends demux_ok (InsertIntoDatabuf p off n pid d).
Proof.
  intros Hp Hd. unfold InsertIntoDatabuf. cbv zeta. eapply ends_bind; [apply ends_DataBuffer_new|]. intros b Hb.
  eapply ends_bind; [by apply ends_read_bytes|]. intros s Hs. eapply ends_bind; [by apply ends_AppendData|]. intros [r b'] Hb'.
  apply Forall_app. split; [done|by constructor].
Qed.

Lemma ends_join_buffers vec p : Forall buffer_ok vec -> packet_ok p -> ends packet_ok (join_buffers vec p).
Proof.
  intros Hv. revert p. induction Hv as [|b vec Hb Hv IH]; intros p Hp; [done|]. cbn [join_buffers]. cbv zeta.
  eapply (ends_bind packet_ok); [|intros q Hq; by apply IH]. destruct (0 <? _); [|done].
  eapply ends_bind; [apply ends_read_bytes, Data_bytes; exact Hb|]. intros s Hs. by apply ends_append_packet.
Qed.

Lemma ends_output_nalus nalus pkt d : Forall buffer_ok nalus -> demux_ok d -> ends demux_ok (output_nalus nalus pkt d).
Proof.
  intros Hn. revert d. induction Hn as [|b nalus Hb Hn IH]; intros d Hd; [done|]. cbn [output_nalus]. cbv zeta.
  destruct (_ <? 5); [by apply IH|]. eapply (ends_bind any); [by auto with ends|]. intros pos _.
  eapply (ends_bind any); [unfold peek; by auto with ends|]. intros t _. destruct (H264_IS_AUD t); [by apply IH|].
  eapply ends_bind; [apply ends_Media_Packet_new|]. intros p Hp.
  eapply ends_bind; [apply ends_read_bytes, Data_bytes; exact Hb|]. intros s Hs.
  eapply ends_bind; [apply ends_append_packet; [exact Hp|done]|]. intros q Hq. by apply IH.
Qed.

Lemma ends_output_opus frames i dts pkt d : packet_ok pkt -> demux_ok d -> ends demux_ok (output_opus frames i dts pkt d).
Proof.
  intros Hpkt. revert i d. induction frames as [|[off len] frames IH]; intros i d Hd; [done|]. cbn [output_opus]. cbv zeta.
  eapply ends_bind; [apply ends_Media_Packet_new|]. intros p Hp.
  eapply ends_bind; [apply ends_read_bytes, Data_bytes; exact Hpkt|]. intros s Hs.
  eapply ends_bind; [apply ends_append_packet; [exact Hp|done]|]. intros q Hq.
  eapply (ends_bind any); [by auto with ends|]. intros t _. by apply IH.
Qed.

Lemma ends_output_frame pkt d : packet_ok pkt -> demux_ok d -> ends demux_ok (output_frame pkt d).
Proof.
  intros Hp Hd. unfold output_frame. pose proof (Data_bytes _ Hp) as Hb. destruct (av_type_ pkt); try done.
  - eapply ends_bind; [by apply ends_AnnexB2Nalus|]. intros [[] nalus] Hn; [by apply ends_output_nalus|done].
  - destruct (codec_type_ pkt); try done. cbv zeta. set (d' := if _ <? 0 then _ else d).
    assert (demux_ok d') as Hd' by (unfold d'; destruct (_ <? 0); exact Hd).
    eapply (ends_bind any); [by apply ends_GetOpusFrameVector|]. intros [ret frames] _. destruct (negb ret); [done|].
    eapply (ends_bind any); [by auto with ends|]. intros c _. by apply ends_output_opus.
Qed.

Lemma ends_OnCallback pid dts pts d : demux_ok d -> ends demux_ok (OnCallback pid dts pts d).
Proof.
  intros Hd. unfold OnCallback. destruct (_ || _); [done|]. destruct (GetMediaInfoByPid pid d) as [media codec].
  eapply ends_bind; [apply ends_Media_Packet_new|]. intros p Hp. cbv zeta.
  eapply ends_bind; [by apply ends_join_buffers|]. intros q Hq. apply ends_output_frame; [done|by constructor].
Qed.

Lemma ends_pes_unit p npos start pid d : bytes_ok p -> demux_ok d -> ends (fun r => demux_ok r.2) (pes_unit p npos start pid d).
Proof.
  intros Hp Hd. unfold pes_unit. destruct (negb _).
  - eapply ends_bind; [by apply ends_OnCallback|]. intros d1 Hd1. eapply ends_bind; [apply ends_PesParse|]. intros [r d2] Hd2. cbn [snd] in Hd2.
    assert (demux_ok d2) as Hd2' by (unfold demux_ok; by rewrite Hd2). destruct (188 <? _); [done|]. cbv zeta.
    destruct (pes_data r) as [[off size]|]; [|done]. destruct (0 <? size); [|done].
    eapply ends_bind; [by apply ends_InsertIntoDatabuf|]. by intros d3 Hd3.
  - eapply ends_bind; [by apply ends_InsertIntoDatabuf|]. by intros d3 Hd3.
Qed.

Lemma ends_pes_streams streams p npos start pid d : bytes_ok p -> demux_ok d ->
  ends (fun r => demux_ok r.2) (pes_streams streams p npos start pid d).
Proof.
  intros Hp. revert d. induction streams as [|s streams IH]; intros d Hd; [done|]. cbn [pes_streams].
  destruct (pid =? _); [|by apply IH]. eapply ends_bind; [by apply ends_pes_unit|]. intros [r d'] Hd'. cbn [snd] in Hd'.
  destruct (r <? 0); [done|by apply IH].
Qed.

Lemma ends_DecodeUnit p d : bytes_ok p -> demux_ok d -> ends (fun r => demux_ok r.2) (DecodeUnit p d).
Proof.
  intros Hp Hd. unfold DecodeUnit. eapply (ends_bind any); [apply ends_ts_unit_header|]. intros h _.
  eapply ends_bind; [by apply ends_adaptation_field|]. intros npos Hn. destruct (_ || _); [|done]. cbv zeta.
  destruct (_ =? 0); [by apply ends_decode_pat|]. case_bool_decide; [done|]. destruct (IsPmt _ d); [by apply ends_decode_pmt|].
  destruct (_ || _); [done|]. by apply ends_pes_streams.
Qed.

Lemma ends_decode_units count p ret d : bytes_ok p -> demux_ok d -> ends (fun r => demux_ok r.2) (decode_units count p ret d).
Proof.
  revert p ret d. induction count as [|count IH]; intros p ret d Hp Hd; [done|]. cbn [decode_units].
  eapply (ends_bind any); [by auto with ends|]. intros b _. destruct (negb _); [apply IH; [by apply Forall_drop|done]|].
  eapply ends_bind; [by apply ends_DecodeUnit|]. intros [r d'] Hd'. cbn [snd] in Hd'.
  destruct (r <? 0); [done|]. apply IH; [by apply Forall_drop|done].
Qed.

(** C6. The demuxer ends: whatever bytes it is given, in whatever state its tables and its unfinished frame are, a
    call of [SourceData] runs through all of its loops (sections, descriptors, start codes, Opus packets), and the
    state it leaves is one for which the same holds: it returns or has no meaning in C++, but never hangs. *)
Theorem demux_ends pkt d : buffer_ok (buffer_ptr_ pkt) -> Forall buffer_ok (_data_buffer_vec d) ->
  match SourceData pkt d with
  | Done (_, d') => Forall buffer_ok (_data_buffer_vec d')
  | Fault e => e <> OutOfFuel
  end.
Proof.
  intros Hb Hd. assert (ends (fun r => demux_ok r.2) (SourceData pkt d)) as He.
  { unfold SourceData, Decode. destruct (_ || _); [done|]. apply ends_decode_units; [by apply Data_bytes|done]. }
  destruct (SourceData pkt d) as [[r d']|e]; exact He.
Qed.
End frames.

(** Twice 188 bytes of a PES packet that never was started. *)
Lemma demux_ends_witness :
  exists pkt d, zlen (contents (buffer_ptr_ pkt)) = 376 /\
    match SourceData (H := zero_alloc) pkt d with
    | Done (_, d') => Forall buffer_ok (_data_buffer_vec d')
    | Fault e => e <> OutOfFuel
    end.
Proof.
  set (unit := [0x47; 0x01; 0x00; 0x10] ++ replicate 184 0x55).
  set (b := mkDataBuffer false [] 0 (replicate (Z.to_nat PRE_RESERVE_HEADER_SIZE) 0 ++ unit ++ unit) 300 376 200 576).
  exists (mkPacket MEDIA_VIDEO_TYPE MEDIA_CODEC_H264 MEDIA_FORMAT_MPEGTS 0 0 false false false b None [] 0 0 0 0 [] [] [] [] 0 0).
  exists (mkDemux (mkPat 0 0 0 0 0 0 0 0 []) (mkPmt 2 1 18 1 0 1 0 0 256 0 [] empty [mkStreamPid 0x1b 0x100 0 []]) [] 0 0 0 0 0 0 []).
  split; [by vm_compute|]. apply (demux_ends (Alloc := zero_alloc)); [apply (bool_decide_unpack _); by vm_compute|by constructor].
Defined.
