(* ===== verification/TsPes.v ===== *)
(** * [TsPes]: a frame written as transport stream packets and read back

    [TsMux.WritePes] cuts a frame into packets of 188 bytes and [TsDemux.DecodeUnit]
    collects it again.  [ts_unit] is the layout of one packet and [ts_units] that
    of a frame; the muxer is shown to write it and the demuxer to read it. *)
From S2P Require Import Prelude ByteStream Ends DataBuffer Media TsPub TsMux TsDemux.

(** ** Time stamps *)

(** The five bytes of a time stamp, as sums. *)
Definition time_bytes (flag ts : Z) : bytes :=
  [(flag * 8 + ts / 2 ^ 30 mod 8) * 2 + 1; ts / 2 ^ 22 mod 2 ^ 8; (ts / 2 ^ 15 mod 2 ^ 7) * 2 + 1;
   ts / 2 ^ 7 mod 2 ^ 8; (ts mod 2 ^ 7) * 2 + 1].

Lemma WriteTs_bytes flag ts : 0 <= flag < 16 -> 0 <= ts <= 0x1ffffffff -> WriteTs flag ts = time_bytes flag ts.
Proof.
  intros Hf Ht. unfold WriteTs, time_bytes.
  destruct (Z.ltb_spec 0x1ffffffff ts) as [?|_]; [lia|].
  rewrite !(low_mask _ 0x7fff 15), (low_mask _ 0x07 3) by done.
  assert (forall x, Z.lor (Z.shiftl x 1) 1 = x * 2 + 1) as Hlor
    by (intros x; rewrite Z.shiftl_mul_pow2 by done; by apply (lor_add x 1 1)).
  rewrite !Hlor, !Z.shiftl_mul_pow2, !Z.shiftr_div_pow2 by done. unfold u8, u32.
  rewrite <- (Z.lor_assoc _ _ 1), (lor_add _ 1 1) by done.
  assert (forall x y, 0 <= y < 16 -> Z.lor (x * 2 ^ 4) y = x * 2 ^ 4 + y) as Hlor4 by (intros; by apply lor_add).
  rewrite (Z.mod_small (flag * 2 ^ 4)) by lia. rewrite Hlor4 by div_lia.
  repeat (f_equal; [div_lia|]). f_equal. div_lia.
Qed.

Lemma rd_shift a b k : 0 <= k -> rd (a ++ b) (zlen a + k) = rd b k.
Proof.
  intros Hk. unfold rd. pose proof (zlen_nonneg a). rewrite !bool_decide_eq_true_2 by lia.
  unfold zlen. rewrite lookup_app_r by lia. by replace (Z.to_nat (Z.of_nat (length a) + k) - length a)%nat with (Z.to_nat k) by lia.
Qed.

Lemma rd_nth l k x : 0 <= k -> l !! Z.to_nat k = Some x -> rd l k = Done x.
Proof. intros Hk Hl. unfold rd. by rewrite bool_decide_eq_true_2, Hl. Qed.

(** The reads at known places of a list that is written down. *)
Ltac rd_known := repeat match goal with |- context [rd ?l ?k] => rewrite (rd_nth l k _ ltac:(lia) eq_refl); simpl_m end.

Lemma pes_time_bytes a c flag ts : 0 <= flag < 16 -> 0 <= ts <= 0x1ffffffff ->
  pes_time (a ++ time_bytes flag ts ++ c) (zlen a) = if ts <? 2 ^ 32 then Done (u64 (i32 ts)) else Fault BadShift.
Proof.
  intros Hf Ht. unfold pes_time. rewrite <- (Z.add_0_r (zlen a)) at 1. rewrite !rd_shift by done.
  unfold time_bytes. cbn [app]. rd_known.  unfold shl30.
  rewrite (low_mask _ 0x07 3), !(low_mask _ 0x7F 7), !Z.shiftr_div_pow2, !Z.shiftl_mul_pow2 by done.
  replace (_ mod 2 ^ 3) with (ts / 2 ^ 30) by div_lia.
  destruct (Z.ltb_spec (ts / 2 ^ 30 * 2 ^ 30) (2 ^ 32)), (Z.ltb_spec ts (2 ^ 32)); try div_lia; [|done].
  simpl_m. do 2 f_equal.
  assert (((ts mod 2 ^ 7 * 2 + 1) / 2 ^ 1) mod 2 ^ 7 = ts mod 2 ^ 7) as -> by div_lia.
  assert ((((ts / 2 ^ 15) mod 2 ^ 7 * 2 + 1) / 2 ^ 1) mod 2 ^ 7 = (ts / 2 ^ 15) mod 2 ^ 7) as -> by div_lia.
  assert (i32 (ts / 2 ^ 30 * 2 ^ 30) = i32 ts - ts mod 2 ^ 30) as Hi by (unfold i32; div_lia).
  assert (i32 (ts / 2 ^ 30 * 2 ^ 30) mod 2 ^ 30 = 0) as Hm by (unfold i32; div_lia).
  revert Hi Hm. generalize (i32 (ts / 2 ^ 30 * 2 ^ 30)). intros hi Hi Hm.
  assert (hi = hi / 2 ^ 30 * 2 ^ 30) as Eh by div_lia. revert Hi. rewrite Eh. clear Eh Hm. generalize (hi / 2 ^ 30).
  clear hi. intros h Hi. rewrite (lor_add h 30) by div_lia.
  set (x := (ts / 2 ^ 22) mod 2 ^ 8). set (y := (ts / 2 ^ 15) mod 2 ^ 7). set (z := (ts / 2 ^ 7) mod 2 ^ 8).
  replace (h * 2 ^ 30 + x * 2 ^ 22) with ((h * 2 ^ 8 + x) * 2 ^ 22) by lia. rewrite lor_add by (unfold y; div_lia).
  replace (_ * 2 ^ 22 + y * 2 ^ 15) with ((h * 2 ^ 15 + x * 2 ^ 7 + y) * 2 ^ 15) by lia. rewrite lor_add by (unfold z; div_lia).
  replace (_ * 2 ^ 15 + z * 2 ^ 7) with ((h * 2 ^ 23 + x * 2 ^ 15 + y * 2 ^ 8 + z) * 2 ^ 7) by lia.
  rewrite lor_add by div_lia. unfold x, y, z. div_lia.
Qed.

(** What the demuxer makes of a time stamp the muxer wrote: the time below 2^31, a huge one below 2^32. *)
Lemma pes_time_small ts : 0 <= ts < 2 ^ 31 -> u64 (i32 ts) = ts.
Proof. intros. rewrite i32_small, u64_small; lia. Qed.

(** ** The layout of a packet *)

(** An adaptation field of [n] bytes that holds nothing. *)
Definition stuffing (n : Z) : bytes :=
  if n =? 0 then [] else if n =? 1 then [0] else (n - 1) :: 0 :: replicate (Z.to_nat (n - 2)) 0xff.

(** What comes before the [n] bytes of payload: the header, and either the clock
    reference [pcr] or the stuffing. *)
Definition ts_prefix (start : bool) (pid cc : Z) (pcr : option Z) (n : Z) : bytes :=
  let control := Z.lor 0x10 (Z.land cc 0x0f) in
  let adaptation := match pcr with Some ts => [7; 0x50] ++ WritePcr ts | None => stuffing (184 - n) end in
  [0x47; if start then Z.lor (u8 (Z.shiftr pid 8)) 0x40 else u8 (Z.shiftr pid 8); u8 pid;
   if bool_decide (adaptation = []) then control else Z.lor control 0x20] ++ adaptation.

Definition ts_unit (start : bool) (pid cc : Z) (pcr : option Z) (chunk : bytes) : bytes :=
  ts_prefix start pid cc pcr (zlen chunk) ++ chunk.

(** The payload a packet has room for. *)
Definition capacity (pcr : option Z) : Z := match pcr with Some _ => 176 | None => 184 end.

Lemma stuffing_length n : 0 <= n -> zlen (stuffing n) = n.
Proof.
  intros Hn. unfold stuffing. destruct (Z.eqb_spec n 0); [by subst|]. destruct (Z.eqb_spec n 1); [by subst|].
  rewrite !zlen_cons, zlen_replicate; lia.
Qed.

Lemma ts_prefix_length start pid cc pcr n : 0 <= n <= 184 -> (pcr = None \/ n = 176) ->
  zlen (ts_prefix start pid cc pcr n) = 188 - n.
Proof.
  intros Hn Hp. unfold ts_prefix. destruct pcr as [ts|]; rewrite zlen_app.
  - destruct Hp as [|Hp]; [done|]. rewrite Hp. reflexivity.
  - rewrite stuffing_length by lia. unfold zlen. cbn [length]. lia.
Qed.

(** ** Writing at the end of what is written *)

Lemma write_next a r d : zlen d <= zlen r ->
  write_at (a ++ r) (zlen a) d = Done ((a ++ d) ++ drop (Z.to_nat (zlen d)) r).
Proof.
  intros Hd. rewrite <- (take_drop (Z.to_nat (zlen d)) r) at 1.
  rewrite write_at_mid by (rewrite zlen_take by (pose proof (zlen_nonneg d); lia); done). by rewrite <- app_assoc.
Qed.

Lemma set_control x0 x1 x2 x3 r y : write_at (x0 :: x1 :: x2 :: x3 :: r) 3 [y] = Done (x0 :: x1 :: x2 :: y :: r).
Proof. by apply (write_at_mid [x0; x1; x2] [x3] r [y]). Qed.

(** The first four bytes and the clock reference. *)
Definition ts_head (start is_video key : bool) (pid cc dts : Z) : bytes :=
  let control := Z.lor 0x10 (Z.land cc 0x0f) in
  let pcr := start && is_video && key in
  [0x47; (if start then Z.lor (u8 (Z.shiftr pid 8)) 0x40 else u8 (Z.shiftr pid 8)); u8 pid;
   if pcr then Z.lor control 0x20 else control] ++ (if pcr then [7; 0x50] ++ WritePcr dts else []).

Lemma ts_header_spec start is_video key pid cc dts t : zlen t = 188 ->
  exists r, ts_header start is_video key pid cc dts t =
      Done (ts_head start is_video key pid cc dts ++ r, zlen (ts_head start is_video key pid cc dts)) /\
    zlen r = 188 - zlen (ts_head start is_video key pid cc dts).
Proof.
  intros Ht. unfold ts_header, ts_head.
  set (h := [0x47; _; u8 pid; Z.lor 0x10 (Z.land cc 0x0f)]).
  pose proof (write_next [] t h) as Ew. cbn [app] in Ew. change (zlen []) with 0 in Ew.
  rewrite Ew by (change (zlen h) with 4; lia). simpl_m. change (zlen h) with 4. clear Ew.
  assert (zlen (drop (Z.to_nat 4) t) = 184) as Hr by (rewrite zlen_drop; lia). revert Hr.
  generalize (drop (Z.to_nat 4) t). clear t Ht. intros r Hr.
  destruct (start && is_video && key); [|by exists r].
  unfold h. clear h. set (b1 := if start then _ else _). cbn [app]. rd_known. rewrite set_control. simpl_m.
  set (b3 := Z.lor _ 0x20). set (c := [0x47; b1; u8 pid; b3]). set (e := 7 :: 80 :: WritePcr dts).
  pose proof (write_next c r e) as Ew. change (zlen c) with 4 in Ew. change (zlen e) with 8 in Ew.
  change (0x47 :: b1 :: u8 pid :: b3 :: r) with (c ++ r). rewrite Ew by lia. simpl_m. clear Ew.
  eexists. split; [done|]. rewrite zlen_drop by lia. change (zlen _) with 12 at 2. lia.
Qed.

Lemma AdaptationBufInit_spec a r n : 0 <= n <= zlen r -> 2 <= zlen r <= 184 ->
  exists r', AdaptationBufInit (a ++ r) (zlen a) (u8 (zlen r)) n = Done ((a ++ stuffing n) ++ r') /\
    zlen r' = zlen r - n.
Proof.
  intros Hn Hr. unfold AdaptationBufInit, u8. rewrite (Z.mod_small (zlen r)) by lia.
  rewrite write_next by (unfold zlen in *; cbn [length]; lia). simpl_m. rewrite zlen_cons. change (zlen []) with 0.
  set (r1 := drop _ r). assert (zlen r1 = zlen r - 1) as Hr1 by (unfold r1; rewrite zlen_drop; unfold zlen in *; cbn [length]; lia).
  unfold stuffing. destruct (Z.eqb_spec n 1) as [->|Hn1]; [by exists r1|].
  set (b := (n - 1) mod 2 ^ 8). set (f := 0 :: replicate _ 255).
  assert (zlen f = zlen r - 1) as Hf by (unfold f; rewrite zlen_cons, zlen_replicate; lia).
  pose proof (write_next (a ++ [b]) r1 f ltac:(lia)) as Ew. rewrite zlen_app in Ew. change (zlen [b]) with 1 in Ew.
  rewrite Ew. assert (drop (Z.to_nat (zlen f)) r1 = []) as -> by (apply drop_ge; unfold zlen in *; lia).
  rewrite app_nil_r, <- app_assoc. cbn [app]. destruct (Z.eqb_spec n 0) as [->|Hn0].
  - exists (b :: f). rewrite app_nil_r. split; [done|]. rewrite zlen_cons. lia.
  - exists (replicate (Z.to_nat (zlen r - n)) 255). rewrite zlen_replicate by lia. split; [|done].
    rewrite <- app_assoc. cbn [app]. unfold b, f. rewrite Z.mod_small by lia.
    rewrite <- replicate_add. do 5 f_equal. lia.
Qed.

Lemma ts_stuffing_short start x0 x1 x2 x3 e r plen :
  zlen r = 184 - zlen e -> (start = true \/ e = []) -> zlen e <= 182 -> 0 < plen <= zlen r -> plen < 184 ->
  exists r', ts_stuffing start plen (4 + zlen e) (x0 :: x1 :: x2 :: x3 :: e ++ r) =
      Done (x0 :: x1 :: x2 :: Z.lor x3 0x20 :: e ++ stuffing (zlen r - plen) ++ r', 188 - plen, plen) /\ zlen r' = plen.
Proof.
  intros Hr He Hle Hp Hp'. unfold ts_stuffing, TS_DEF_DATALEN, TS_PACKET_SIZE.
  destruct (Z.leb_spec 184 plen); [lia|]. rd_known. rewrite set_control. simpl_m.
  pose proof (zlen_nonneg e) as He0. set (a := x0 :: x1 :: x2 :: Z.lor x3 0x20 :: e).
  assert (zlen a = 4 + zlen e) as Ha by (unfold a; rewrite !zlen_cons; lia).
  change (x0 :: x1 :: x2 :: Z.lor x3 0x20 :: e ++ r) with (a ++ r). rewrite <- Ha.
  assert (u8 plen = plen) as -> by (apply Z.mod_small; lia).
  assert ((if start then 184 - plen - (zlen a - 4) else 184 - plen) = zlen r - plen) as ->.
  { destruct He as [->| ->]; [lia|]. change (zlen []) with 0 in *. destruct start; lia. }
  replace (188 - zlen a) with (zlen r) by lia. assert (u8 (zlen r - plen) = zlen r - plen) as -> by (apply Z.mod_small; lia).
  destruct (AdaptationBufInit_spec a r (zlen r - plen)) as (r' & -> & Hr'); [lia..|]. simpl_m.
  exists r'. rewrite <- app_assoc. split; [|lia]. do 3 f_equal. lia.
Qed.

(** The header and stuffing of a packet that carries [n] bytes. *)
Lemma ts_prefix_written (start is_video key : bool) pid cc dts plen t :
  let pcr := if start && is_video && key then Some dts else None in
  let n := Z.min (capacity pcr) plen in
  zlen t = 188 -> 0 < plen -> (pcr = None \/ plen = 176 \/ 184 <= plen) ->
  exists r, ('(t, i) ← ts_header start is_video key pid cc dts t; ts_stuffing start plen i t) =
      Done (ts_prefix start pid cc pcr n ++ r, zlen (ts_prefix start pid cc pcr n), n) /\ zlen r = n.
Proof.
  intros pcr n Ht Hp Hk. destruct (ts_header_spec start is_video key pid cc dts t Ht) as (r & -> & Hr). simpl_m.
  assert (zlen (ts_prefix start pid cc pcr n) = 188 - n) as Hl.
  { unfold n, pcr, capacity in *. apply ts_prefix_length; destruct (start && is_video && key);
      (lia || (by left) || (right; destruct Hk as [?|?]; [done|lia])). }
  rewrite Hl. revert Hr Hk. unfold n, pcr, capacity, ts_head, ts_prefix. clear n pcr Hl.
  destruct (start && is_video && key) eqn:Ek; intros Hr Hk.
  - assert (start = true) as -> by by destruct start. destruct Hk as [?|Hk]; [done|].
    rewrite Z.min_l by lia. set (b1 := Z.lor (u8 _) 0x40) in *. set (e := [7; 80] ++ WritePcr dts) in *.
    set (c := Z.lor 0x10 _) in *. set (c' := Z.lor c 0x20) in *.
    change (zlen ([71; b1; u8 pid; c'] ++ e)) with (4 + zlen e) in *. assert (zlen r = 184 - zlen e) as Hr' by lia.
    cbn [app]. destruct (Z.leb_spec 184 plen); [|].
    + exists r. unfold ts_stuffing. destruct (Z.leb_spec TS_DEF_DATALEN plen); [|unfold TS_DEF_DATALEN in *; lia].
      split; [done|]. rewrite Hr'. reflexivity.
    + assert (plen = 176) as -> by lia.
      destruct (ts_stuffing_short true 0x47 b1 (u8 pid) c' e r 176)
        as (r' & -> & Hr2); [done|by left|by vm_compute|rewrite Hr'; by vm_compute|done|].
      exists r'. split; [|done]. unfold c'. rewrite <- Z.lor_assoc, Hr'. reflexivity.
  - rewrite app_nil_r in Hr |- *. change (zlen [_; _; _; _]) with 4 in *. set (b1 := if start then _ else _) in *.
    set (c := Z.lor 0x10 _) in *. cbn [app]. destruct (Z.leb_spec 184 plen).
    + exists r. rewrite Z.min_l by lia. unfold ts_stuffing. destruct (Z.leb_spec TS_DEF_DATALEN plen); [|unfold TS_DEF_DATALEN in *; lia].
      split; [by destruct start|lia].
    + rewrite Z.min_r by lia.
      destruct (ts_stuffing_short start 0x47 b1 (u8 pid) c [] r plen) as (r' & Es & Hr2);
        [change (zlen []) with 0; lia|by right|done|lia|done|].
      change (4 + zlen []) with 4 in Es. cbn [app] in Es. rewrite Es. exists r'. split; [|done].
      replace (zlen r - plen) with (184 - plen) by lia.
      rewrite bool_decide_eq_false_2; [done|].
      intros E. apply (f_equal zlen) in E. rewrite stuffing_length in E by lia. change (zlen []) with 0 in E. lia.
Qed.

(** ** The muxer writes the layout *)

Lemma ts_pes_header_spec hdr hrest plen n a r :
  zlen hdr <= n -> zlen a = 188 - n -> zlen r = n -> 0 < n <= 184 ->
  exists r', ts_pes_header true (hdr ++ hrest) (zlen hdr) plen n (zlen a) (a ++ r) =
    Done ((a ++ hdr) ++ r', zlen (a ++ hdr), plen - zlen hdr, n - zlen hdr) /\ zlen r' = n - zlen hdr.
Proof.
  intros Hn Ha Hr Hn'. unfold ts_pes_header, TS_PACKET_SIZE. cbn [andb].
  destruct (Z.ltb_spec (zlen a) 188); [|lia]. pose proof (zlen_nonneg hdr).
  replace (188 - zlen a) with n by lia. unfold u8. rewrite (Z.mod_small n), !(Z.mod_small (zlen hdr)) by lia.
  destruct (Z.leb_spec (zlen hdr) n); [|lia]. rewrite read_range_app by done. simpl_m.
  rewrite write_next by lia. simpl_m. rewrite Z.mod_small by lia. exists (drop (Z.to_nat (zlen hdr)) r).
  rewrite zlen_drop by lia. rewrite zlen_app. split; [done|lia].
Qed.

Lemma ts_payload_spec data rest w plen n a r :
  0 <= w -> 0 <= n -> w + n <= zlen data -> zlen data < 2 ^ 31 -> zlen a = 188 - n -> zlen r = n -> n <= 184 ->
  ts_payload (data ++ rest) w plen n (zlen a) (a ++ r) =
    Done (a ++ take (Z.to_nat n) (drop (Z.to_nat w) data), plen - n, w + n).
Proof.
  intros Hw Hn Hd Hmax Ha Hr Hn'. unfold ts_payload, TS_PACKET_SIZE. destruct (Z.ltb_spec (zlen a) 188).
  - replace (188 - zlen a) with n by lia. unfold u8. rewrite Z.mod_small, Z.leb_refl by lia.
    assert (read_range (data ++ rest) w n = Done (take (Z.to_nat n) (drop (Z.to_nat w) data))) as ->.
    { rewrite (read_range_ok (data ++ rest)) by (rewrite ?zlen_app; pose proof (zlen_nonneg rest); lia). f_equal.
      unfold zlen in *. rewrite drop_app_le, take_app_le by (rewrite ?length_drop; lia). done. }
    simpl_m. set (d := take _ _). assert (zlen d = n) as Hld by (unfold d; rewrite zlen_take; [done|rewrite zlen_drop; lia]).
    rewrite write_next by lia. simpl_m. rewrite chk_int_ok by lia. simpl_m.
    assert (drop (Z.to_nat (zlen d)) r = []) as -> by (apply drop_ge; unfold zlen in *; lia). by rewrite app_nil_r.
  - assert (n = 0) as -> by lia. destruct r; [|rewrite zlen_cons in Hr; pose proof (zlen_nonneg r); lia].
    rewrite Z.sub_0_r, Z.add_0_r. cbn [Z.to_nat take]. by rewrite !app_nil_r.
Qed.

(** An event of the log that carries these bytes. *)
Definition carries (e : ts_event) (l : bytes) : Prop :=
  exists p, e = TsPacket p /\ wf (buffer_ptr_ p) /\ contents (buffer_ptr_ p) = l.

Section mux_proofs.
Context `{Alloc : Allocator} `{Loc : Locals}.

Lemma TsOutput_spec pkt t m : zlen t = 188 ->
  exists e, TsOutput pkt t m = Done (set_events (events_ m ++ [e]) m) /\ carries e t.
Proof.
  intros Ht. unfold TsOutput, Media_Packet_len. destruct (DataBuffer_new_spec 256) as (b & -> & Hwf & Hc & Hst); [by vm_compute|].
  simpl_m. set (q := set_fmt_type _ _).
  assert (buffer_ptr_ q = b) as Hb by (unfold q; by destruct pkt).
  assert (read_range t 0 TS_PACKET_SIZE = Done t) as -> by (pose proof (read_range_app t [] TS_PACKET_SIZE) as E; rewrite app_nil_r in E; by apply E).
  simpl_m.
  destruct (append_packet_spec t q) as (b' & -> & Hwf' & Hc' & _); rewrite ?Hb; [done|done|rewrite Hc, Ht; by vm_compute|].
  simpl_m. eexists. split; [done|]. eexists. split; [done|]. split; [done|]. cbn. by rewrite Hc', Hb, Hc.
Qed.

(** One turn of the loop: [first] is its first turn, when [hdr] goes before the data. *)
Lemma pes_packet_spec pkt (is_video first : bool) dts w plen m hdr hrest :
  let data := contents (buffer_ptr_ pkt) in
  let pre := if first then hdr else [] in
  let pid := if is_video then video_pid_ else audio_pid_ in
  let pcr := if first && is_video && is_key_frame_ pkt then Some dts else None in
  let n := Z.min (capacity pcr) plen in
  wf (buffer_ptr_ pkt) -> 0 <= w -> plen = zlen pre + zlen data - w -> zlen pre <= n -> 0 < n -> w <= zlen data ->
  (first = true -> pes_header_ m = hdr ++ hrest /\ pes_header_size_ m = zlen hdr) ->
  (pcr = None \/ plen = 176 \/ 184 <= plen) ->
  exists e, pes_packet pkt is_video first dts w plen m =
      Done (set_events (events_ m ++ [e]) (step_cc is_video m), plen - n, w + (n - zlen pre)) /\
    carries e (ts_unit first pid (next_cc (current_cc is_video m)) pcr
                 (pre ++ take (Z.to_nat (n - zlen pre)) (drop (Z.to_nat w) data))).
Proof.
  intros data pre pid pcr n Hwf Hw Hplen Hpre Hn0 Hwd Hhdr Hpcr. unfold pes_packet. cbv zeta. fold pid.
  assert (capacity pcr <= 184) as Hcap by (unfold capacity; destruct pcr; lia).
  assert (current_cc is_video (step_cc is_video m) = next_cc (current_cc is_video m)) as -> by by destruct is_video.
  set (cc := next_cc _). pose proof ts_packet0_length as Hl0. unfold TS_PACKET_SIZE in Hl0.
  destruct (ts_prefix_written first is_video (is_key_frame_ pkt) pid cc dts plen ts_packet0 Hl0 ltac:(lia) Hpcr)
    as (r & E & Hr).
  apply bind_inv in E as ([t i] & Eh & Es). fold pcr n in Es, Hr. rewrite Eh. simpl_m. rewrite Es. simpl_m.
  set (a := ts_prefix _ _ _ _ _) in *.
  assert (zlen a = 188 - n) as Ha.
  { apply ts_prefix_length; [lia|]. unfold n, capacity in *. destruct pcr; [right; destruct Hpcr as [|]; [done|lia]|by left]. }
  replace (pes_header_ (step_cc is_video m)) with (pes_header_ m) by by destruct is_video.
  replace (pes_header_size_ (step_cc is_video m)) with (pes_header_size_ m) by by destruct is_video.
  assert (exists r', ts_pes_header first (pes_header_ m) (pes_header_size_ m) plen n (zlen a) (a ++ r) =
    Done ((a ++ pre) ++ r', zlen (a ++ pre), plen - zlen pre, n - zlen pre) /\ zlen r' = n - zlen pre) as (r' & -> & Hr').
  { destruct first; [destruct (Hhdr eq_refl) as [-> ->]; apply ts_pes_header_spec; (done || lia)|].
    exists r. unfold ts_pes_header, pre. cbn [andb]. rewrite app_nil_r. change (zlen []) with 0. by rewrite !Z.sub_0_r. }
  simpl_m. destruct (Data_contents _ Hwf) as [rest ->]. fold data.
  pose proof (contents_bound _ Hwf) as Hmax. fold data in Hmax. pose proof (zlen_nonneg pre) as Hp0.
  assert (plen - zlen pre = zlen data - w) as Hrem by lia.
  rewrite (ts_payload_spec data rest w) by (rewrite ?zlen_app; lia). simpl_m.
  set (t' := (a ++ pre) ++ _).
  assert (zlen t' = 188) as Ht'.
  { unfold t'. rewrite !zlen_app, zlen_take by (rewrite zlen_drop; lia). lia. }
  destruct (TsOutput_spec (Some pkt) t' (step_cc is_video m) Ht') as (e & -> & He). simpl_m.
  exists e. replace (events_ (step_cc is_video m)) with (events_ m) by by destruct is_video.
  replace (plen - zlen pre - (n - zlen pre)) with (plen - n) by lia. split; [done|].
  unfold ts_unit. rewrite zlen_app, zlen_take by (rewrite zlen_drop; lia).
  replace (zlen pre + (n - zlen pre)) with n by lia. fold a. unfold t' in He. by rewrite <- app_assoc in He.
Qed.

(** The packets behind the first one of a frame: the counter goes on from [cc]. *)
Fixpoint units_from (pid cc : Z) (chunks : list bytes) : list bytes :=
  match chunks with
  | [] => []
  | c :: chunks => ts_unit false pid (next_cc cc) None c :: units_from pid (next_cc cc) chunks
  end.

(** The muxer after a frame of [k] packets, the events [es]. *)
Definition after_frame (is_video : bool) (es : list ts_event) (m : MpegtsMux) : MpegtsMux :=
  let c := Nat.iter (length es) next_cc (current_cc is_video m) in
  set_events (events_ m ++ es) (if is_video then set_video_cc c m else set_audio_cc c m).

Lemma after_frame_nil is_video m : after_frame is_video [] m = m.
Proof. unfold after_frame. rewrite app_nil_r. by destruct is_video, m. Qed.

Lemma after_frame_cons is_video e es m :
  after_frame is_video es (set_events (events_ m ++ [e]) (step_cc is_video m)) = after_frame is_video (e :: es) m.
Proof.
  unfold after_frame. cbn [length]. rewrite Nat.iter_succ_r.
  destruct is_video, m; cbn; rewrite <- app_assoc; reflexivity.
Qed.

Lemma current_cc_step is_video e m :
  current_cc is_video (set_events (events_ m ++ [e]) (step_cc is_video m)) = next_cc (current_cc is_video m).
Proof. by destruct is_video. Qed.

Lemma pes_loop_rest fuel pkt (is_video : bool) dts w m :
  let data := contents (buffer_ptr_ pkt) in
  let pid := if is_video then video_pid_ else audio_pid_ in
  wf (buffer_ptr_ pkt) -> 0 <= w <= zlen data -> (Z.to_nat (zlen data - w) < fuel)%nat ->
  exists es chunks, pes_loop fuel pkt is_video false dts w (zlen data - w) m = Done (after_frame is_video es m) /\
    Forall2 carries es (units_from pid (current_cc is_video m) chunks) /\
    concat chunks = drop (Z.to_nat w) data /\ Forall (fun c => 0 < zlen c <= 184) chunks.
Proof.
  intros data pid Hwf. revert w m. induction fuel as [|fuel IH]; intros w m Hw Hfuel; [lia|]. cbn [pes_loop].
  destruct (Z.ltb_spec 0 (zlen data - w)).
  - set (n := Z.min 184 (zlen data - w)).
    destruct (pes_packet_spec pkt is_video false dts w (zlen data - w) m [] []) as (e & -> & He); cbn [andb capacity];
      (done || (by left) || (change (zlen []) with 0; fold data; lia) || idtac).
    fold data pid in He. cbn [andb capacity] in He. fold n in He. change (zlen []) with 0 in He.
    rewrite Z.sub_0_r in He. cbn [app] in He. cbn [andb capacity]. fold data n. change (zlen []) with 0.
    rewrite Z.sub_0_r. simpl_m. replace (zlen data - w - n) with (zlen data - (w + n)) by lia.
    destruct (IH (w + n) (set_events (events_ m ++ [e]) (step_cc is_video m))) as (es & chunks & -> & Hes & Hc & Hf); [lia..|].
    exists (e :: es), (take (Z.to_nat n) (drop (Z.to_nat w) data) :: chunks). rewrite after_frame_cons.
    rewrite current_cc_step in Hes. split; [done|]. split; [by constructor|]. split.
    + cbn [concat]. rewrite Hc. replace (Z.to_nat (w + n)) with (Z.to_nat w + Z.to_nat n)%nat by lia.
      by rewrite <- drop_drop, take_drop.
    + constructor; [|done]. rewrite zlen_take; [lia|]. rewrite zlen_drop by lia. lia.
  - exists [], []. rewrite after_frame_nil. split; [done|]. split; [constructor|]. split; [|constructor].
    symmetry. apply drop_ge. unfold zlen in *. lia.
Qed.

Lemma pes_header_length size v dts pts : zlen (pes_header size v dts pts) = if v && negb (dts =? pts) then 19 else 14.
Proof. unfold pes_header. by destruct (v && negb (dts =? pts)). Qed.

(** The clock reference of a frame, and whether the frame is cut into packets the
    way the layout says: a key frame that does not fill the first packet is not. *)
Definition frame_pcr (pkt : Media_Packet) : option Z :=
  if bool_decide (av_type_ pkt = MEDIA_VIDEO_TYPE) && is_key_frame_ pkt then Some (dts_ pkt * 90) else None.
Definition frame_pid (pkt : Media_Packet) : Z :=
  if bool_decide (av_type_ pkt = MEDIA_VIDEO_TYPE) then video_pid_ else audio_pid_.
Definition frame_header (pkt : Media_Packet) : bytes :=
  pes_header (zlen (contents (buffer_ptr_ pkt))) (bool_decide (av_type_ pkt = MEDIA_VIDEO_TYPE)) (dts_ pkt * 90) (pts_ pkt * 90).
Definition frame_bytes (pkt : Media_Packet) : bytes := frame_header pkt ++ contents (buffer_ptr_ pkt).

Record frame_ok (pkt : Media_Packet) : Prop := {
  fo_wf : wf (buffer_ptr_ pkt);
  fo_dts : 0 <= dts_ pkt * 90 < 2 ^ 63;
  fo_pts : 0 <= pts_ pkt * 90 < 2 ^ 63;
  fo_key : frame_pcr pkt <> None -> zlen (frame_bytes pkt) = 176 \/ 184 <= zlen (frame_bytes pkt)
}.

(** What [WritePes] appends to the log for a frame, and the chunks it carries. *)
Record frame_events (pkt : Media_Packet) (cc : Z) (es : list ts_event) (chunk : bytes) (chunks : list bytes) : Prop := {
  fe_units : Forall2 carries es
    (ts_unit true (frame_pid pkt) (next_cc cc) (frame_pcr pkt) chunk :: units_from (frame_pid pkt) (next_cc cc) chunks);
  fe_bytes : chunk ++ concat chunks = frame_bytes pkt;
  fe_first : zlen chunk = Z.min (capacity (frame_pcr pkt)) (zlen (frame_bytes pkt));
  fe_rest : Forall (fun c => 0 < zlen c <= 184) chunks
}.

Definition header_stored (pkt : Media_Packet) (m : MpegtsMux) : MpegtsMux :=
  let h := frame_header pkt in set_pes_header (h ++ drop (Z.to_nat (zlen h)) (pes_header_ m)) (zlen h) m.

Lemma WritePes_spec pkt m : frame_ok pkt -> zlen (pes_header_ m) = TS_PACKET_SIZE ->
  let is_video := bool_decide (av_type_ pkt = MEDIA_VIDEO_TYPE) in
  exists es chunk chunks, WritePes pkt m = Done (0, after_frame is_video es (header_stored pkt m)) /\
    frame_events pkt (current_cc is_video m) es chunk chunks.
Proof.
  intros [Hwf Hd Hp Hk] Hh is_video. unfold WritePes.
  rewrite (chk_int64_ok (dts_ pkt * 90)), (chk_int64_ok (pts_ pkt * 90)) by lia. simpl_m.
  fold is_video. rewrite DataLen_contents by done. set (data := contents (buffer_ptr_ pkt)) in *.
  unfold WritePesHeader. set (hdr := pes_header _ _ _ _). assert (hdr = frame_header pkt) as Ehdr by done.
  assert (zlen hdr = 14 \/ zlen hdr = 19) as Hl by (unfold hdr; rewrite pes_header_length; destruct (_ && _); lia).
  unfold TS_PACKET_SIZE in Hh. pose proof (write_next [] (pes_header_ m) hdr ltac:(lia)) as Ew.
  cbn [app] in Ew. change (zlen []) with 0 in Ew. rewrite Ew. simpl_m. clear Ew.
  change (set_pes_header _ _ m) with (header_stored pkt m). set (m1 := header_stored pkt m).
  change (pes_header_size_ m1) with (zlen hdr). set (plen := zlen data + zlen hdr).
  assert (zlen (frame_bytes pkt) = plen) as Hfb by (unfold frame_bytes, plen; rewrite zlen_app, <- Ehdr; fold data; lia).
  pose proof (zlen_nonneg data) as Hd0. replace (Z.to_nat plen + 2)%nat with (S (Z.to_nat plen + 1)) by lia.
  cbn [pes_loop]. destruct (Z.ltb_spec 0 plen); [|lia].
  assert (forall c, capacity c = 176 \/ capacity c = 184) as Hcap by (intros []; [by left|by right]).
  destruct (pes_packet_spec pkt is_video true (dts_ pkt * 90) 0 plen m1 hdr (drop (Z.to_nat (zlen hdr)) (pes_header_ m)))
    as (e & -> & He); [done|done|cbv iota; fold data; lia| | |fold data; lia|done| |].
  1,2: cbv iota; specialize (Hcap (if true && is_video && is_key_frame_ pkt then Some (dts_ pkt * 90) else None)); lia.
  1: { rewrite Hfb in Hk. destruct (true && is_video && is_key_frame_ pkt) eqn:E; [right|by left].
       apply Hk. unfold frame_pcr. fold is_video. cbn [andb] in E. by rewrite E. }
  cbn [andb] in *. change (if is_video && is_key_frame_ pkt then _ else None) with (frame_pcr pkt) in *.
  fold data in He. set (n := Z.min (capacity (frame_pcr pkt)) plen) in *. simpl_m.
  specialize (Hcap (frame_pcr pkt)). rewrite Z.add_0_l.
  replace (plen - n) with (zlen data - (n - zlen hdr)) by lia.
  pose proof (pes_loop_rest (Z.to_nat plen + 1) pkt is_video (dts_ pkt * 90) (n - zlen hdr)
    (set_events (events_ m1 ++ [e]) (step_cc is_video m1))) as Hrest. cbv zeta in Hrest. fold data in Hrest.
  destruct Hrest as (es & chunks & -> & Hes & Hc & Hf); [done|lia|lia|].
  simpl_m. exists (e :: es), (hdr ++ take (Z.to_nat (n - zlen hdr)) data), chunks. rewrite after_frame_cons. split; [done|].
  rewrite current_cc_step in Hes. change (current_cc is_video m1) with (current_cc is_video m) in *.
  split; [by constructor| | |done].
  - rewrite Hc. by rewrite <- app_assoc, take_drop.
  - rewrite Hfb, zlen_app, zlen_take; lia.
Qed.
End mux_proofs.

(** ** The demuxer reads the layout *)

Lemma control_bits cc (full : bool) :
  let c := Z.lor 0x10 (Z.land cc 0x0f) in
  let b := if full then c else Z.lor c 0x20 in
  Z.shiftr (Z.land b 0x30) 4 = (if full then 1 else 3) /\ Z.shiftr (Z.land b 0xC0) 6 = 0 /\ Z.land b 0x0F = Z.land cc 0x0f.
Proof.
  intros c b. assert (forall m, Z.land (Z.land cc 0x0f) m = Z.land cc (Z.land 0x0f m)) as Hm by (intros; by rewrite Z.land_assoc).
  unfold b, c. destruct full; rewrite !Z.land_lor_distr_l, !Hm; cbn [Z.land Z.lor]; split_and!;
    rewrite ?Z.land_0_r, ?Z.lor_0_l, ?Z.lor_0_r; reflexivity.
Qed.

(** The streams of the muxer: the PID in the two bytes. *)
Definition mux_pid (pid : Z) : Prop := pid = video_pid_ \/ pid = audio_pid_.

Lemma ts_unit_header_spec (start : bool) pid cc pcr n rest : mux_pid pid ->
  exists h, ts_unit_header (ts_prefix start pid cc pcr n ++ rest) = Done h /\ _PID h = pid /\
    _payload_unit_start_indicator h = (if start then 1 else 0) /\
    _adaptation_field_control h =
      (if bool_decide (match pcr with Some ts => [7; 0x50] ++ WritePcr ts | None => stuffing (184 - n) end = []) then 1 else 3).
Proof.
  intros Hpid. unfold ts_unit_header, two, ts_prefix. set (ad := match pcr with Some _ => _ | None => _ end).
  destruct (control_bits cc (bool_decide (ad = []))) as (E1 & E2 & E3). set (b3 := if bool_decide _ then _ else _) in *.
  rewrite <- app_assoc. cbn [app]. change (1 + 1) with 2. rd_known. eexists. split; [done|]. cbn.
  split; [|split; [|done]]; destruct Hpid as [-> | ->]; by destruct start.
Qed.

Lemma adaptation_parts_none data pos : adaptation_parts data pos 0 = Done tt.
Proof. reflexivity. Qed.

Lemma adaptation_field_spec (start : bool) pid cc pcr n rest :
  0 <= n <= 184 -> (pcr = None \/ n = 176) ->
  let ad := match pcr with Some ts => [7; 0x50] ++ WritePcr ts | None => stuffing (184 - n) end in
  adaptation_field (ts_prefix start pid cc pcr n ++ rest) (if bool_decide (ad = []) then 1 else 3) = Done (188 - n).
Proof.
  intros Hn Hp ad. unfold adaptation_field. case_bool_decide as E; cbn [Z.eqb Pos.eqb orb].
  - destruct pcr; [done|]. unfold ad in E. apply (f_equal zlen) in E. rewrite stuffing_length in E by lia.
    change (zlen []) with 0 in E. f_equal. lia.
  - unfold ts_prefix. fold ad. rewrite <- app_assoc. cbn [app]. destruct pcr as [ts|].
    + destruct Hp as [|Hp]; [done|]. rewrite Hp. reflexivity.
    + unfold ad, stuffing in *. destruct (Z.eqb_spec (184 - n) 0); [done|].
      destruct (Z.eqb_spec (184 - n) 1).
      * cbn [app]. rd_known. cbn [Z.ltb Z.compare]. simpl_m. f_equal. lia.
      * cbn [app]. rd_known. change (4 + 1) with 5. destruct (Z.ltb_spec 0 (184 - n - 1)); [|lia]. rd_known.
        rewrite adaptation_parts_none. simpl_m. f_equal. lia.
Qed.

(** A time of 33 bits, as the demuxer reads it. *)
Definition time_read (ts : Z) : Z := u64 (i32 ts).

Lemma pes_time_read a c flag ts : 0 <= flag < 16 -> 0 <= ts < 2 ^ 32 ->
  pes_time (a ++ WriteTs flag ts ++ c) (zlen a) = Done (time_read ts).
Proof.
  intros Hf Ht. rewrite WriteTs_bytes, pes_time_bytes by lia. destruct (Z.ltb_spec ts (2 ^ 32)); [done|lia].
Qed.

(** The fixed part of a header the muxer wrote. *)
Lemma PesParse_fixed (v both : bool) b4 b5 hl y npos d :
  let p := [0x00; 0x00; 0x01; if v then PES_SID_VIDEO + video_sid_ else PES_SID_AUDIO + audio_sid_; b4; b5; 0x80;
            if both then Z.lor 0x80 0x40 else 0x80; hl] ++ y in
  PesParse p npos d =
    '(pos, dts, pts) ← pes_times p 9 (if both then 3 else 2);
    mret (pes_payload npos pos dts pts, d).
Proof. by destruct v, both. Qed.

Lemma PesParse_header size v dts pts rest npos d : 0 <= dts < 2 ^ 32 -> 0 <= pts < 2 ^ 32 ->
  let both := v && negb (dts =? pts) in
  PesParse (pes_header size v dts pts ++ rest) npos d =
    Done (pes_payload npos (zlen (pes_header size v dts pts)) (if both then time_read dts else 0) (time_read pts), d).
Proof.
  intros Hd Hp both. rewrite pes_header_length. fold both. unfold pes_header. fold both.
  rewrite <- !app_assoc. rewrite PesParse_fixed. set (a := [_; _; _; _; _; _; _; _; _]). unfold pes_times.
  change 9 with (zlen a). destruct both; cbn [Z.eqb Pos.eqb].
  - rewrite pes_time_read by (done || reflexivity). simpl_m. rewrite app_assoc.
    change (zlen a + 5) with (zlen (a ++ WriteTs (Z.shiftr (Z.lor 0x80 0x40) 6) pts)). rewrite pes_time_read by done. reflexivity.
  - rewrite pes_time_read by (done || reflexivity). reflexivity.
Qed.

(** ** Frames in the demuxer *)

(** A program with exactly one stream of this PID. *)
Definition lists_once (pid : Z) (streams : list STREAM_PID_INFO) : Prop :=
  exists before s after, streams = before ++ s :: after /\ _elementary_PID s = pid /\
    Forall (fun s => _elementary_PID s <> pid) (before ++ after).

(** The demuxer knows the stream. *)
Definition stream_known (pid : Z) (d : MpegtsDemux) : Prop :=
  lists_once pid (_stream_pid_vec (_pmt d)) /\ IsPmt pid d = false.

(** [d] is [d1] but for the frame it is collecting. *)
Record pending (pid dts pts : Z) (data : bytes) (d1 d : MpegtsDemux) : Prop := {
  pe_state : d = set_last_ts dts pts (set_last_pid pid (set_data (_data_buffer_vec d) (zlen data) d1));
  pe_wf : Forall wf (_data_buffer_vec d);
  pe_data : concat (map contents (_data_buffer_vec d)) = data
}.

Section demux_proofs.
Context `{Alloc : Allocator}.

Lemma pes_streams_once streams data npos start pid d : lists_once pid streams ->
  forall d', pes_unit data npos start pid d = Done (0, d') -> pes_streams streams data npos start pid d = Done (0, d').
Proof.
  intros (before & s & after & -> & Hs & Hf) d' Hu. apply Forall_app in Hf as [Hb Ha].
  assert (pes_streams after data npos start pid d' = Done (0, d')) as Hafter.
  { clear Hu. induction after as [|x after IH]; [done|]. apply Forall_cons in Ha as [Hx Ha]. cbn.
    destruct (Z.eqb_spec pid (_elementary_PID x)); [by destruct Hx|by apply IH]. }
  induction before as [|x before IH]; cbn.
  - rewrite Hs, Z.eqb_refl, Hu. simpl_m. exact Hafter.
  - apply Forall_cons in Hb as [Hx Hb]. destruct (Z.eqb_spec pid (_elementary_PID x)); [by destruct Hx|by apply IH].
Qed.

(** A packet of a known stream is a call of [pes_unit] at its payload. *)
Lemma DecodeUnit_unit (start : bool) pid cc pcr chunk rest d d' :
  mux_pid pid -> stream_known pid d -> zlen chunk <= 184 -> (pcr = None \/ zlen chunk = 176) ->
  pes_unit (ts_unit start pid cc pcr chunk ++ rest) (188 - zlen chunk) (if start then 1 else 0) pid d = Done (0, d') ->
  DecodeUnit (ts_unit start pid cc pcr chunk ++ rest) d = Done (0, d').
Proof.
  intros Hpid [Hs Hpmt] Hn Hp Hu. pose proof (zlen_nonneg chunk) as Hn0. unfold DecodeUnit, ts_unit in *. rewrite <- app_assoc in *.
  destruct (ts_unit_header_spec start pid cc pcr (zlen chunk) (chunk ++ rest) Hpid) as (h & -> & Hpi & Hst & Hc). simpl_m.
  rewrite Hc, adaptation_field_spec by (done || lia). simpl_m. rewrite Hpi, Hst, Hpmt.
  assert (forall b : bool, ((if b then 1 else 3) =? 1) || ((if b then 1 else 3) =? 3) = true) as -> by by intros [].
  assert ((pid =? 0) = false /\ bool_decide (pid ∈ reserved_pids) = false /\ (pid =? 66) || (pid =? 0x1FFF) = false) as (-> & -> & ->)
    by by destruct Hpid as [-> | ->].
  by apply pes_streams_once.
Qed.

Lemma InsertIntoDatabuf_spec a c rest pid d : zlen c <= 184 ->
  exists b, InsertIntoDatabuf (a ++ c ++ rest) (zlen a) (zlen c) pid d =
      Done (set_data (_data_buffer_vec d ++ [b]) (u64 (_data_total d + zlen c)) (set_last_pid pid d)) /\
    wf b /\ contents b = c.
Proof.
  intros Hc. unfold InsertIntoDatabuf.
  destruct (DataBuffer_new_spec EXTRA_LEN) as (b & -> & Hwf & Hb & Hst); [by vm_compute|]. simpl_m.
  rewrite read_range_mid. simpl_m.
  destruct (AppendData_cases b c Hwf) as [(b' & -> & Hwf' & Hc' & _)|[[Hno _]| ->]].
  - rewrite <- (contents_length b), Hb by done. change (zlen []) with 0. unfold max_queue. lia.
  - simpl_m. exists b'. rewrite Hb in Hc'. by split_and!.
  - destruct Hno. by apply no_overlap_front.
  - exists b. rewrite AppendData_nil. simpl_m. by split_and!.
Qed.

(** What is collected grows by a packet. *)
Lemma pending_insert pid dts pts data d1 d a c rest :
  pending pid dts pts data d1 d -> zlen c <= 184 -> zlen data + zlen c < 2 ^ 64 ->
  exists d', InsertIntoDatabuf (a ++ c ++ rest) (zlen a) (zlen c) pid d = Done d' /\
    pending pid dts pts (data ++ c) d1 d'.
Proof.
  intros [Hs Hwf Hd] Hc Hmax. destruct (InsertIntoDatabuf_spec a c rest pid d Hc) as (b & -> & Hb & Hbc).
  eexists. split; [done|]. pose proof (zlen_nonneg data). pose proof (zlen_nonneg c). split.
  - rewrite zlen_app. assert (_data_total d = zlen data) as -> by by rewrite Hs.
    rewrite u64_small by lia. rewrite Hs. reflexivity.
  - cbn. apply Forall_app. split; [done|by constructor].
  - cbn. rewrite map_app, concat_app, Hd. cbn [map concat]. by rewrite Hbc, app_nil_r.
Qed.

Lemma pending_known pid dts pts data d1 d q : pending pid dts pts data d1 d -> stream_known q d1 -> stream_known q d.
Proof. intros [Hs _ _] Hk. rewrite Hs. exact Hk. Qed.

(** A packet that continues a frame. *)
Lemma continue_unit pid cc chunk rest dts pts data d1 d :
  mux_pid pid -> stream_known pid d1 -> 0 < zlen chunk <= 184 -> zlen data + zlen chunk < 2 ^ 64 ->
  pending pid dts pts data d1 d ->
  exists d', DecodeUnit (ts_unit false pid cc None chunk ++ rest) d = Done (0, d') /\
    pending pid dts pts (data ++ chunk) d1 d'.
Proof.
  intros Hpid Hk Hn Hmax Hp.
  assert (zlen (ts_prefix false pid cc None (zlen chunk)) = 188 - zlen chunk) as Hl
    by (apply ts_prefix_length; [lia|by left]).
  destruct (pending_insert pid dts pts data d1 d (ts_prefix false pid cc None (zlen chunk)) chunk rest Hp) as (d' & E & Hp'); [lia..|].
  exists d'. split; [|done]. apply DecodeUnit_unit; [done|by eapply pending_known|lia|by left|].
  unfold pes_unit. cbn [negb Z.eqb]. replace (u64 (188 - (188 - zlen chunk))) with (zlen chunk) by (rewrite u64_small; lia).
  unfold ts_unit. rewrite <- app_assoc, <- Hl, E. reflexivity.
Qed.

(** The packet that starts a frame ends the one before it. *)
Lemma start_unit pid cc pcr size v dts pts x rest d d1 :
  let hdr := pes_header size v dts pts in
  let both := v && negb (dts =? pts) in
  let last := if both && negb (time_read dts =? 0) then time_read dts else time_read pts in
  mux_pid pid -> stream_known pid d -> (pcr = None \/ zlen (hdr ++ x) = 176) -> zlen (hdr ++ x) <= 184 -> 0 < zlen x ->
  0 <= dts < 2 ^ 32 -> 0 <= pts < 2 ^ 32 ->
  OnCallback (_last_pid d) (_last_dts d) (_last_pts d) d = Done d1 -> _data_buffer_vec d1 = [] -> _data_total d1 = 0 ->
  exists d', DecodeUnit (ts_unit true pid cc pcr (hdr ++ x) ++ rest) d = Done (0, d') /\
    pending pid last (time_read pts) x d1 d'.
Proof.
  intros hdr both last Hpid Hk Hpcr Hn Hx Hd Hpt Hcb Hv0 Ht0.
  assert (zlen (ts_prefix true pid cc pcr (zlen (hdr ++ x))) = 188 - zlen (hdr ++ x)) as Hl
    by (apply ts_prefix_length; [pose proof (zlen_nonneg (hdr ++ x)); lia|done]).
  set (a := ts_prefix _ _ _ _ _) in Hl. pose proof (zlen_app hdr x) as Hc. pose proof (zlen_nonneg hdr).
  set (d2 := set_last_ts last (time_read pts) d1).
  destruct (InsertIntoDatabuf_spec (a ++ hdr) x rest pid d2 ltac:(lia)) as (b & E & Hb & Hbc).
  eexists. split.
  - apply DecodeUnit_unit; [done|done|done|done|]. unfold pes_unit. cbn [negb Z.eqb Pos.eqb]. rewrite Hcb. simpl_m.
    unfold ts_unit. fold a. rewrite <- Hl, <- app_assoc, drop_zlen_app. rewrite <- (app_assoc hdr x rest).
    pose proof (PesParse_header size v dts pts (x ++ rest) (zlen a) d1 Hd Hpt) as Ep. cbv zeta in Ep.
    fold both hdr in Ep. rewrite Ep. simpl_m. cbn [pes_ret pes_payload pes_dts pes_pts pes_data].
    destruct (Z.ltb_spec 188 (zlen hdr)); [lia|].
    assert ((if (if both then time_read dts else 0) =? 0 then time_read pts else if both then time_read dts else 0) = last) as ->
      by (unfold last; destruct both, (Z.eqb_spec (time_read dts) 0); reflexivity).
    fold d2. rewrite Hl. replace (u64 (188 - (188 - zlen (hdr ++ x) + zlen hdr))) with (zlen x) by (rewrite u64_small; lia).
    destruct (Z.ltb_spec 0 (zlen x)); [|lia]. replace (188 - zlen (hdr ++ x) + zlen hdr) with (zlen (a ++ hdr)) by (rewrite !zlen_app in *; lia).
    rewrite (app_assoc a hdr). rewrite E. simpl_m. reflexivity.
  - split.
    + unfold d2. cbn. rewrite Ht0, Hv0. rewrite u64_small by lia. rewrite Z.add_0_l. destruct d1. reflexivity.
    + cbn. rewrite Hv0. by constructor.
    + cbn. rewrite Hv0. cbn. by rewrite Hbc, app_nil_r.
Qed.
End demux_proofs.
