(* ===== verification/TsTables.v ===== *)
(** * [TsTables]: the program tables of the muxer

    What [GeneratePat] and [GeneratePmt] write, whether their checksums are right,
    and what the demuxer reads from them. *)
From S2P Require Import Prelude ByteStream Ends DataBuffer Media H264 TsPub TsCrc TsMux TsDemux TsPes.

(** ** What is written *)

(** The head of a table packet, which the constructor writes. *)
Definition pat_head : bytes := [0x47; 0x40; 0x00; 0x10; 0x00].
Definition pmt_head : bytes := [0x47; 0x50; 0x01; 0x10; 0x00].

(** The section of the PAT up to its checksum. *)
Definition pat_section : bytes := [0; 0xb0; 13; 0; 1; 0xc1; 0; 0; 0; 1; 0xf0; 0x01].

(** A packet that holds a section, with its checksum, and is filled up. *)
Definition table_bytes (head section crc : bytes) : bytes :=
  head ++ section ++ crc ++ replicate (Z.to_nat (179 - zlen section)) 0xff.

(** The arrays are as long as a packet and start as the constructor leaves them. *)
Record tables_ready (m : MpegtsMux) : Prop := {
  tr_pat : exists r, pat_data_ m = pat_head ++ r /\ zlen r = 183;
  tr_pmt : exists r, pmt_data_ m = pmt_head ++ r /\ zlen r = 183
}.

Lemma mpeg_crc32_total c l n : (n <= length l)%nat -> exists r, mpeg_crc32 c l n = Done r.
Proof.
  revert c l. induction n as [|n IH]; intros c l Hn; [by eexists|]. destruct l as [|b l]; [cbn in Hn; lia|].
  cbn [mpeg_crc32]. change ((b :: l).[0]) with (Done b). simpl_m.
  destruct (rd_done crc32table (Z.land (Z.lxor c b) 0xff)) as [t ->].
  { rewrite (low_mask _ 0xff 8) by done. change (zlen crc32table) with (2 ^ 8). apply Z.mod_pos_bound. lia. }
  simpl_m. apply IH. rewrite length_drop. cbn [length] in *. lia.
Qed.

(** A section, its checksum and the filling, written one after the other. *)
Lemma write_table head section crc r : zlen head = 5 -> zlen crc = 4 -> zlen section <= 100 -> zlen r = 183 - zlen section ->
  (t ← write_at (head ++ section ++ r) (5 + zlen section) crc;
   write_at t (5 + zlen section + 4) (replicate (Z.to_nat (TS_PACKET_SIZE - (5 + zlen section + 4))) 0xff)) =
  Done (table_bytes head section crc).
Proof.
  intros Hh Hc Hs Hr. pose proof (zlen_nonneg section). rewrite app_assoc.
  pose proof (write_next (head ++ section) r crc) as Ew. rewrite zlen_app, Hh in Ew. rewrite Ew by lia. simpl_m. clear Ew.
  set (f := replicate _ _). set (r1 := drop _ r).
  assert (zlen f = 179 - zlen section) as Hf by (unfold f, TS_PACKET_SIZE; rewrite zlen_replicate; lia).
  assert (zlen r1 = 179 - zlen section) as Hr1 by (unfold r1; rewrite zlen_drop; lia).
  pose proof (write_next ((head ++ section) ++ crc) r1 f) as Ew. rewrite !zlen_app, Hh, Hc in Ew. rewrite Ew by lia. simpl_m.
  assert (drop (Z.to_nat (zlen f)) r1 = []) as -> by (apply drop_ge; unfold zlen in *; lia).
  unfold table_bytes. rewrite app_nil_r, <- !app_assoc. do 5 f_equal. unfold TS_PACKET_SIZE. lia.
Qed.

Lemma GeneratePat_spec m : (exists r, pat_data_ m = pat_head ++ r /\ zlen r = 183) ->
  exists crc, GeneratePat m = Done (21, set_pat_data (table_bytes pat_head pat_section crc) m) /\ zlen crc = 4.
Proof.
  intros (r & Em & Hr). unfold GeneratePat. rewrite Em.
  change (u32 (pmt_count_ * 4 + 5 + 4)) with 13. set (s := [PAT_TID_PAS] ++ _).
  assert (s = pat_section) as -> by (by vm_compute).
  pose proof (write_next pat_head r pat_section) as Ew. change (zlen pat_head) with 5 in Ew. change (zlen pat_section) with 12 in Ew.
  rewrite Ew by lia. simpl_m. clear Ew. change (zlen pat_section) with 12.
  set (r1 := drop (Z.to_nat 12) r). assert (zlen r1 = 171) as Hr1 by (unfold r1; rewrite zlen_drop; lia).
  destruct (mpeg_crc32_total 0xffffffff (drop 6 ((pat_head ++ pat_section) ++ r1)) (Z.to_nat 13)) as [c ->].
  { rewrite length_drop, length_app. unfold zlen in Hr1. cbn. lia. }
  simpl_m. exists (Write4Bytes c). split; [|done].
  pose proof (write_table pat_head pat_section (Write4Bytes c) r1 ltac:(done) ltac:(done) ltac:(by vm_compute)) as Ew.
  change (zlen pat_section) with 12 in Ew. specialize (Ew Hr1).
  rewrite <- app_assoc. apply bind_inv in Ew as (t & E1 & E2). rewrite E1. simpl_m. rewrite E2. reflexivity.
Qed.

(** The body of the PMT, behind its length. *)
Definition pmt_body (m : MpegtsMux) : bytes :=
  [0; 1; 0xc1; 0; 0; 0xe1; 0; 0xf0; 0] ++
  (if has_video_ m then pmt_stream (video_stream_type (video_codec_type_ m)) video_pid_ (codec_descriptors (video_codec_type_ m)) else []) ++
  (if has_audio_ m then pmt_stream (audio_stream_type (audio_codec_type_ m)) audio_pid_ (audio_descriptors (audio_codec_type_ m)) else []).
Definition pmt_section (m : MpegtsMux) : bytes :=
  [PAT_TID_PMS] ++ Write2Bytes (Z.lor 0xb000 (zlen (pmt_body m) + 4)) ++ pmt_body m.

Lemma pmt_stream_length type pid desc : zlen (pmt_stream type pid desc) = 5 + zlen desc.
Proof. unfold pmt_stream. rewrite !zlen_app. change (zlen (Write2Bytes _)) with 2. change (zlen [_]) with 1. change (zlen [_; _]) with 2. lia. Qed.

Lemma pmt_body_length m : 9 <= zlen (pmt_body m) <= 47.
Proof.
  unfold pmt_body. rewrite !zlen_app. change (zlen [_; _; _; _; _; _; _; _; _]) with 9.
  assert (forall c, 0 <= zlen (codec_descriptors c) <= 10) as Hv by by intros [].
  assert (forall c, 0 <= zlen (audio_descriptors c) <= 10) as Ha by by intros [].
  specialize (Hv (video_codec_type_ m)). specialize (Ha (audio_codec_type_ m)).
  destruct (has_video_ m), (has_audio_ m); rewrite ?pmt_stream_length; change (zlen []) with 0; lia.
Qed.

Lemma pmt_stream_ok type pid desc : bytes_ok desc -> bytes_ok (pmt_stream type pid desc).
Proof.
  intros Hd. unfold pmt_stream. assert (forall x, is_byte (u8 x)) as Hu by (intros x; apply Z.mod_pos_bound; lia).
  apply Forall_app. split; [apply Forall_singleton, Hu|]. apply Forall_app. split; [apply (proj1 (Write_bytes_ok _))|].
  apply Forall_app. split; [|done]. apply Forall_cons. split; [apply Hu|apply Forall_singleton, Hu].
Qed.

Lemma pmt_section_ok m : bytes_ok (pmt_section m).
Proof.
  unfold pmt_section, pmt_body. apply Forall_app. split; [apply (bool_decide_unpack _); by vm_compute|].
  apply Forall_app. split; [apply (proj1 (Write_bytes_ok _))|]. apply Forall_app. split; [apply (bool_decide_unpack _); by vm_compute|].
  assert (forall c, bytes_ok (codec_descriptors c)) as Hv by (intros []; apply (bool_decide_unpack _); by vm_compute).
  assert (forall c, bytes_ok (audio_descriptors c)) as Ha by (intros []; apply (bool_decide_unpack _); by vm_compute).
  apply Forall_app. split; [destruct (has_video_ m); [by apply pmt_stream_ok|constructor]|].
  destruct (has_audio_ m); [by apply pmt_stream_ok|constructor].
Qed.

(** [*this] with the stream types of its codecs. *)
Definition typed (m : MpegtsMux) : MpegtsMux :=
  let m := if has_video_ m then set_video_stream_type (video_stream_type (video_codec_type_ m)) m else m in
  if has_audio_ m then set_audio_stream_type (audio_stream_type (audio_codec_type_ m)) m else m.

Lemma GeneratePmt_spec m : (exists r, pmt_data_ m = pmt_head ++ r /\ zlen r = 183) ->
  exists p, GeneratePmt m = Done (p, set_pmt_data
    (table_bytes pmt_head (pmt_section m) (be_bytes 4 (crc32_mpeg 0xffffffff (pmt_section m)))) (typed m)) /\ 0 <= p.
Proof.
  intros (r & Em & Hr). unfold GeneratePmt. fold (typed m). cbv zeta.
  assert (pmt_data_ (typed m) = pmt_head ++ r) as -> by (rewrite <- Em; unfold typed; by destruct m as [???[][]]).
  set (body := Write2Bytes pmt_pn ++ _). assert (body = pmt_body m) as Eb.
  { unfold body, pmt_body, typed. destruct m as [??? hv ha]. cbn. by destruct hv, ha. }
  clearbody body. subst body. pose proof (pmt_body_length m) as Hb.
  destruct r as [|x0 [|x1 [|x2 r]]]; rewrite ?zlen_cons in Hr; try (change (zlen []) with 0 in Hr; lia).
  pose proof (write_at_mid pmt_head [x0] (x1 :: x2 :: r) [PAT_TID_PMS] eq_refl) as E1. cbn [app] in E1.
  change (zlen pmt_head) with 5 in E1. rewrite E1. simpl_m. clear E1.
  set (body := pmt_body m) in *. set (a := pmt_head ++ [PAT_TID_PMS; x1; x2]).
  pose proof (write_next a r body ltac:(lia)) as E2. change (zlen a) with 8 in E2.
  change (pmt_head ++ PAT_TID_PMS :: x1 :: x2 :: r) with (a ++ r). rewrite E2. simpl_m. clear E2.
  set (r2 := drop (Z.to_nat (zlen body)) r). assert (zlen r2 = zlen r - zlen body) as Hr2 by (unfold r2; rewrite zlen_drop; lia).
  replace (8 + zlen body + 4 - (5 + 3)) with (zlen body + 4) by lia. rewrite (u16_small (zlen body + 4)) by lia.
  set (len := Write2Bytes _).
  assert (len = Write2Bytes (Z.lor 0xb000 (zlen body + 4))) as Elen
    by (unfold len; rewrite !Write2Bytes_be; apply (be_bytes_mod 2)).
  pose proof (write_at_mid (pmt_head ++ [PAT_TID_PMS]) [x1; x2] (body ++ r2) len eq_refl) as E3.
  change (zlen (pmt_head ++ [PAT_TID_PMS])) with 6 in E3.
  assert ((a ++ body) ++ r2 = (pmt_head ++ [PAT_TID_PMS]) ++ [x1; x2] ++ body ++ r2) as -> by (unfold a; by rewrite <- !app_assoc).
  rewrite E3. simpl_m. clear E3.
  set (s := pmt_section m). assert ((pmt_head ++ [PAT_TID_PMS]) ++ len ++ body ++ r2 = pmt_head ++ s ++ r2) as ->
    by (unfold s, pmt_section; fold body; rewrite Elen, <- !app_assoc; done).
  assert (zlen s = 3 + zlen body) as Hs by (unfold s, pmt_section; fold body; rewrite !zlen_app; change (zlen (Write2Bytes _)) with 2; change (zlen [_]) with 1; lia).
  change (drop 5 (pmt_head ++ s ++ r2)) with (s ++ r2).
  replace (Z.to_nat (8 + zlen body - 5)) with (length s) by (unfold zlen in *; lia).
  pose proof (mpeg_crc32_correct 0xffffffff s r2 ltac:(lia) (pmt_section_ok m)) as Ec. rewrite bswap_ones in Ec.
  rewrite Ec. simpl_m. clear Ec. set (c := bswap _). set (crc := [Z.land c 0xff; _; _; _]).
  assert (crc = be_bytes 4 (crc32_mpeg 0xffffffff s)) as Ecrc.
  { rewrite <- bswap_bytes. fold c. unfold crc, byte_of. by rewrite Z.shiftr_0_r. }
  clearbody crc. subst crc. replace (8 + zlen body) with (5 + zlen s) by lia.
  pose proof (write_table pmt_head s (be_bytes 4 (crc32_mpeg 0xffffffff s)) r2 eq_refl eq_refl ltac:(lia) ltac:(lia)) as Ew.
  apply bind_inv in Ew as (t & E1 & E2). rewrite E1. simpl_m. rewrite E2. simpl_m. eexists. split; [done|lia].
Qed.

(** ** The checksums *)

(** The bytes of a section with its checksum, by the length it states. *)
Definition section_of (packet : bytes) : bytes :=
  take (Z.to_nat (3 + Z.land (Z.lor (Z.shiftl (packet !!! 6%nat) 8) (packet !!! 7%nat)) 0x0FFF)) (drop 5 packet).

Lemma section_length_bytes n : 0 <= n < 2 ^ 12 ->
  Z.land (Z.lor (Z.shiftl (byte_of (Z.lor 0xb000 n) 1) 8) (byte_of (Z.lor 0xb000 n) 0)) 0x0FFF = n.
Proof.
  intros Hn. assert (Z.lor 0xb000 n = 0xb000 + n) as -> by (by apply (lor_add 11 12)).
  pose proof (byte_of_range (0xb000 + n) 0) as H0. unfold is_byte in H0.
  rewrite Z.shiftl_mul_pow2, lor_add, (low_mask _ 0xfff 12) by (done || lia). rewrite !byte_of_div.
  change (8 * Z.of_nat 1) with 8. change (8 * Z.of_nat 0) with 0. div_lia.
Qed.

Lemma pmt_section_of m crc : zlen crc = 4 -> section_of (table_bytes pmt_head (pmt_section m) crc) = pmt_section m ++ crc.
Proof.
  intros Hc. pose proof (pmt_body_length m) as Hb. unfold section_of, table_bytes.
  set (f := replicate _ _). change (drop 5 (pmt_head ++ ?x)) with x. set (n := zlen (pmt_body m) + 4).
  assert (forall x, (pmt_head ++ pmt_section m ++ x) !!! 6%nat = byte_of (Z.lor 0xb000 n) 1 /\
                    (pmt_head ++ pmt_section m ++ x) !!! 7%nat = byte_of (Z.lor 0xb000 n) 0) as Hx.
  { intros x. unfold pmt_section. fold n. by rewrite Write2Bytes_be. }
  destruct (Hx (crc ++ f)) as [-> ->]. rewrite section_length_bytes by (unfold n; lia).
  assert (3 + n = zlen (pmt_section m ++ crc)) as ->.
  { unfold pmt_section. rewrite !zlen_app, Hc. change (zlen (Write2Bytes _)) with 2. change (zlen [_]) with 1. unfold n. lia. }
  rewrite app_assoc. apply take_zlen_app.
Qed.

(** The PMT is right: for every configuration of streams and codecs the section the muxer writes has the
    length it states and ends in its CRC-32/MPEG-2, so that the CRC over all of it is zero. *)
Theorem pmt_checksum_valid m : (exists r, pmt_data_ m = pmt_head ++ r /\ zlen r = 183) ->
  exists p m', GeneratePmt m = Done (p, m') /\ zlen (pmt_data_ m') = TS_PACKET_SIZE /\
    crc32_mpeg 0xffffffff (section_of (pmt_data_ m')) = 0.
Proof.
  intros Hm. destruct (GeneratePmt_spec m Hm) as (p & -> & _). do 2 eexists. split; [done|].
  cbn [pmt_data_ set_pmt_data]. split; [|rewrite pmt_section_of by done; apply crc_section].
  pose proof (pmt_body_length m). unfold table_bytes. rewrite !zlen_app.
  assert (zlen (pmt_section m) = 3 + zlen (pmt_body m)) as ->
    by (unfold pmt_section; rewrite !zlen_app; change (zlen (Write2Bytes _)) with 2; change (zlen [_]) with 1; lia).
  rewrite zlen_replicate by lia. change (zlen pmt_head) with 5. change (zlen (be_bytes 4 _)) with 4. unfold TS_PACKET_SIZE. lia.
Qed.

Lemma pmt_checksum_valid_witness : exists p m',
  GeneratePmt (MpegtsMux_new [] [] [] []) = Done (p, m') /\ zlen (pmt_data_ m') = TS_PACKET_SIZE /\
  crc32_mpeg 0xffffffff (section_of (pmt_data_ m')) = 0.
Proof.
  apply (pmt_checksum_valid (MpegtsMux_new [] [] [] [])). exists (replicate 183 0xff). split; [by vm_compute|done].
Defined.

(** The first PAT of a new muxer does not pass the same check: the loop starts one byte late, covers two bytes
    of the place of the checksum itself, and the result is stored in the other byte order. *)
Lemma pat_checksum_wrong h p s v :
  exists m', GeneratePat (MpegtsMux_new h p s v) = Done (21, m') /\ crc32_mpeg 0xffffffff (section_of (pat_data_ m')) <> 0.
Proof. eexists. split; [by vm_compute|by vm_compute]. Qed.

(** ** What the demuxer reads *)

Definition mux_pat : PatInfo := mkPat 0 1 13 1 0 1 0 0 [mkPid program_number_ (Some pmt_pid_) None].

(** The streams of the PMT for a video and an audio codec. *)
Definition opus_infos : list ES_INFO := [mkEs 0x05 (str "Opus"); mkEs 0x7f [0x80; 2]].
Definition mux_streams (video audio : MEDIA_CODEC_TYPE) : list STREAM_PID_INFO :=
  [mkStreamPid (video_stream_type video) video_pid_ 0 [];
   mkStreamPid (audio_stream_type audio) audio_pid_ (zlen (audio_descriptors audio))
     (match audio with MEDIA_CODEC_OPUS => opus_infos | _ => [] end)].

(** The codecs the demuxer can tell from the PMT. *)
Definition known_codecs (video audio : MEDIA_CODEC_TYPE) : Prop :=
  (video = MEDIA_CODEC_H264 \/ video = MEDIA_CODEC_H265) /\ (audio = MEDIA_CODEC_AAC \/ audio = MEDIA_CODEC_OPUS).

(** The muxer announces two streams with these codecs. *)
Record announces (video audio : MEDIA_CODEC_TYPE) (m : MpegtsMux) : Prop := {
  an_video : has_video_ m = true;
  an_audio : has_audio_ m = true;
  an_vcodec : video_codec_type_ m = video;
  an_acodec : audio_codec_type_ m = audio;
  an_known : known_codecs video audio
}.

(** The demuxer has the tables of such a muxer. *)
Record tables_read (video audio : MEDIA_CODEC_TYPE) (d : MpegtsDemux) : Prop := {
  rd_programs : _pid_vec (_pat d) = [mkPid program_number_ (Some pmt_pid_) None];
  rd_streams : _stream_pid_vec (_pmt d) = mux_streams video audio;
  rd_types : _pid2steamtype (_pmt d) = stream_types (mux_streams video audio)
}.

Lemma bytes4 (l : bytes) : zlen l = 4 -> exists a b c d, l = [a; b; c; d].
Proof. destruct l as [|a [|b [|c [|d [|]]]]]; unfold zlen; cbn [length]; try lia. intros _. by exists a, b, c, d. Qed.

Section read.
Context `{Alloc : Allocator}.

Lemma DecodeUnit_pat crc rest d : zlen crc = 4 ->
  DecodeUnit (table_bytes pat_head pat_section crc ++ rest) d = Done (0, reportPat (set_pat mux_pat d)).
Proof. intros Hc. destruct (bytes4 crc Hc) as (a & b & e & f & ->). reflexivity. Qed.

(** [_pmt] after the section, for a descriptor array [dscr]. *)
Definition pmt_read (video audio : MEDIA_CODEC_TYPE) (dscr : bytes) (old : PmtInfo) : PmtInfo :=
  set_streams dscr (stream_types (mux_streams video audio)) (mux_streams video audio)
    (mkPmt 2 1 (23 + zlen (audio_descriptors audio)) pmt_pn 0 1 0 0 pcr_id_ 0 (_dscr old) (_pid2steamtype old) (_stream_pid_vec old)).

Lemma write_at_nil l : write_at l 0 [] = Done l.
Proof. pose proof (zlen_nonneg l). unfold write_at. change (zlen []) with 0. by rewrite bool_decide_eq_true_2 by lia. Qed.

Lemma DecodeUnit_pmt video audio m crc rest d : zlen crc = 4 -> announces video audio m ->
  _pid_vec (_pat d) = [mkPid program_number_ (Some pmt_pid_) None] ->
  DecodeUnit (table_bytes pmt_head (pmt_section m) crc ++ rest) d =
    Done (0, reportPmt (set_pmt (pmt_read video audio (_dscr (_pmt d)) (_pmt d)) d)).
Proof.
  intros Hc [Hv Ha Hvc Hac Hk] Hp. destruct (bytes4 crc Hc) as (a & b & e & f & ->).
  destruct d as [[pt1 pt2 pt3 pt4 pt5 pt6 pt7 pt8 vec] pmt ????????]. cbn in Hp. subst vec.
  unfold pmt_section, pmt_body. rewrite Hv, Ha, Hvc, Hac. clear Hv Ha Hvc Hac. set (d := mkDemux _ _ _ _ _ _ _ _ _ _).
  set (t := table_bytes _ _ _).
  assert (forall off n x, read_range t off n = Done x -> read_range (t ++ rest) off n = Done x) as Hr
    by (intros; by apply read_range_behind).
  destruct Hk as [Hkv [-> | ->]].
  - transitivity (info ← read_range (t ++ rest) 17 0; dscr ← write_at (_dscr pmt) 0 info;
                  mret (0, reportPmt (set_pmt (pmt_read video MEDIA_CODEC_AAC dscr pmt) d))).
    + unfold t. destruct Hkv as [-> | ->]; reflexivity.
    + rewrite (Hr 17 0 []) by (unfold t; by destruct Hkv as [-> | ->]). simpl_m. by rewrite write_at_nil.
  - assert (pmt_descriptors 11 (t ++ rest) 27 37 = Done (opus_infos, 37)) as Hd.
    { transitivity (desc ← read_range (t ++ rest) 29 4;
        '(rest, pos) ← (desc ← read_range (t ++ rest) 35 2; '(rest, pos) ← Done ([], 37);
                        mret (mkEs 0x7f (c_string desc) :: rest, pos));
        mret (mkEs 5 (c_string desc) :: rest, pos)).
      - unfold t. destruct Hkv as [-> | ->]; reflexivity.
      - rewrite (Hr 29 4 (str "Opus")), (Hr 35 2 [0x80; 2]) by (unfold t; by destruct Hkv as [-> | ->]). reflexivity. }
    transitivity (info ← read_range (t ++ rest) 17 0; dscr ← write_at (_dscr pmt) 0 info;
        streams ← (rest ← ('(infos, pos) ← pmt_descriptors 11 (t ++ rest) 27 37; rest ← pmt_streams 36 (t ++ rest) pos 37;
                           mret (mkStreamPid STREAM_TYPE_PRIVATE_DATA audio_pid_ 10 infos :: rest));
                   mret (mkStreamPid (video_stream_type video) video_pid_ 0 [] :: rest));
        mret (0, reportPmt (set_pmt (set_streams dscr (stream_types streams) streams
          (pmt_read video MEDIA_CODEC_OPUS dscr pmt)) d))).
    + unfold t. destruct Hkv as [-> | ->]; reflexivity.
    + rewrite (Hr 17 0 []), Hd by (unfold t; by destruct Hkv as [-> | ->]). simpl_m. rewrite write_at_nil. simpl_m.
      reflexivity.
Qed.
End read.

(** The tables name the streams of the muxer: each PID once, with its kind and codec. *)
Lemma tables_known video audio d : known_codecs video audio -> tables_read video audio d ->
  stream_known video_pid_ d /\ stream_known audio_pid_ d /\
  GetMediaInfoByPid video_pid_ d = (MEDIA_VIDEO_TYPE, video) /\ GetMediaInfoByPid audio_pid_ d = (MEDIA_AUDIO_TYPE, audio).
Proof.
  intros [Hv Ha] [Hp Hs Ht]. unfold stream_known, IsPmt, GetMediaInfoByPid. rewrite Hp, Hs, Ht.
  split_and!; try done.
  - exists [], (mkStreamPid (video_stream_type video) video_pid_ 0 []). eexists [_]. split; [done|]. split; [done|].
    by repeat constructor.
  - eexists [_], _, []. split; [done|]. split; [done|]. by repeat constructor.
  - destruct Hv as [-> | ->], Ha as [-> | ->]; reflexivity.
  - destruct Hv as [-> | ->], Ha as [-> | ->]; reflexivity.
Qed.

Lemma tables_read_pmt video audio dscr old d : _pid_vec (_pat d) = [mkPid program_number_ (Some pmt_pid_) None] ->
  tables_read video audio (reportPmt (set_pmt (pmt_read video audio dscr old) d)).
Proof. by destruct d. Qed.
