(* ===== verification/TsLink.v ===== *)
(** * [TsLink]: the multiplexer and the demultiplexer put together

    The packets of the muxer's log are given to the demuxer one by one, as the
    muxer's [TsOutput] gives them to its sinks.  A frame is collected by the
    demuxer and put out when the next one starts. *)
From S2P Require Import Prelude ByteStream Ends DataBuffer Media H264 TsPub TsMux TsDemux TsPes.

(** ** Events *)

Section deliver.
Context `{Alloc : Allocator}.

(** Every packet of the log goes to the demuxer, whose result the muxer ignores. *)
Fixpoint deliver (es : list ts_event) (d : MpegtsDemux) : outcome MpegtsDemux :=
  match es with
  | [] => mret d
  | TsPacket p :: es => '(_, d) ← SourceData p d; deliver es d
  | TsReport _ :: es => deliver es d
  end.

Lemma deliver_app es fs d : deliver (es ++ fs) d = (d ← deliver es d; deliver fs d).
Proof.
  revert d. induction es as [|[p|s] es IH]; intros d; cbn [deliver app]; [done| |apply IH].
  destruct (SourceData p d) as [[r d']|f]; simpl_m; [apply IH|done].
Qed.

Lemma deliver_unit e l es d : carries e l -> zlen l = 188 -> l !! 0%nat = Some 0x47 ->
  exists rest, deliver (e :: es) d = ('(_, d) ← DecodeUnit (l ++ rest) d; deliver es d).
Proof.
  intros (p & -> & Hwf & Hc) Hl Hs. destruct (Data_contents _ Hwf) as [rest Hd]. rewrite Hc in Hd. exists rest.
  cbn [deliver]. unfold SourceData, Decode. rewrite DataLen_contents, Hc, Hl by done. cbn [Z.ltb Z.compare orb negb].
  change ((188 mod 188 =? 0)) with true. cbn [negb orb]. change (Z.to_nat (u32 (188 / 188))) with 1%nat.
  rewrite Hd. cbn [decode_units]. destruct l as [|b l]; [done|]. injection Hs as ->. cbn [app]. rd_known.
  change (negb (0x47 =? 0x47)) with false. cbv iota. destruct (DecodeUnit _ d) as [[r d']|f]; simpl_m; [|done].
  by destruct (r <? 0).
Qed.

Lemma ts_unit_shape start pid cc pcr chunk : zlen chunk <= 184 -> (pcr = None \/ zlen chunk = 176) ->
  zlen (ts_unit start pid cc pcr chunk) = 188 /\ ts_unit start pid cc pcr chunk !! 0%nat = Some 0x47.
Proof.
  intros Hn Hp. pose proof (zlen_nonneg chunk). split; [|done]. unfold ts_unit. rewrite zlen_app, ts_prefix_length by (done || lia). lia.
Qed.

(** The packets behind the first one are collected. *)
Lemma deliver_rest pid cc chunks es dts pts data d1 d :
  Forall2 carries es (units_from pid cc chunks) -> mux_pid pid -> stream_known pid d1 ->
  Forall (fun c => 0 < zlen c <= 184) chunks -> zlen data + zlen (concat chunks) < 2 ^ 64 ->
  pending pid dts pts data d1 d ->
  exists d', deliver es d = Done d' /\ pending pid dts pts (data ++ concat chunks) d1 d'.
Proof.
  intros Hes Hpid Hk Hf. revert cc es data d Hes. induction Hf as [|c chunks Hc Hf IH]; intros cc es data d Hes Hmax Hp.
  - inversion Hes; subst. exists d. by rewrite app_nil_r.
  - cbn [units_from] in Hes. apply Forall2_cons_inv_r in Hes as (e & es' & He & Hes & ->).
    cbn [concat] in *. rewrite zlen_app in Hmax. pose proof (zlen_nonneg (concat chunks)).
    destruct (ts_unit_shape false pid (next_cc cc) None c) as [Hl Hs]; [lia|by left|].
    destruct (deliver_unit e _ es' d He Hl Hs) as [rest ->].
    destruct (continue_unit pid (next_cc cc) c rest dts pts data d1 d) as (d' & -> & Hp'); [done|done|lia|lia|done|]. simpl_m.
    rewrite app_assoc. apply (IH (next_cc cc)); [done|rewrite zlen_app; lia|done].
Qed.
End deliver.

(** ** A frame *)

Section frame.
Context `{Alloc : Allocator} `{Loc : Locals}.

(** The decoding time the demuxer keeps: a frame without one, or with zero, has its presentation time. *)
Definition frame_dts (pkt : Media_Packet) : Z :=
  let dts := dts_ pkt * 90 in
  let pts := pts_ pkt * 90 in
  if bool_decide (av_type_ pkt = MEDIA_VIDEO_TYPE) && negb (dts =? pts) && negb (dts =? 0) then dts else pts.

(** The frame can be read back: it is not empty and its times fit in 31 bits. *)
Record frame_readable (pkt : Media_Packet) : Prop := {
  fr_ok : frame_ok pkt;
  fr_data : 0 < zlen (contents (buffer_ptr_ pkt));
  fr_dts : dts_ pkt * 90 < 2 ^ 31;
  fr_pts : pts_ pkt * 90 < 2 ^ 31
}.

(** A frame of the muxer's log is collected by the demuxer. *)
Lemma deliver_frame pkt cc es chunk chunks d d1 :
  frame_readable pkt -> frame_events pkt cc es chunk chunks ->
  stream_known (frame_pid pkt) d -> stream_known (frame_pid pkt) d1 ->
  OnCallback (_last_pid d) (_last_dts d) (_last_pts d) d = Done d1 -> _data_buffer_vec d1 = [] -> _data_total d1 = 0 ->
  exists d', deliver es d = Done d' /\
    pending (frame_pid pkt) (frame_dts pkt) (pts_ pkt * 90) (contents (buffer_ptr_ pkt)) d1 d'.
Proof.
  intros [[Hwf Hd Hp Hk] H0 Hd31 Hp31] [Hu Hb Hf Hr] Hkn Hkn1 Hcb Hv Ht.
  set (data := contents (buffer_ptr_ pkt)) in *. set (v := bool_decide (av_type_ pkt = MEDIA_VIDEO_TYPE)).
  apply Forall2_cons_inv_r in Hu as (e & es' & He & Hes & ->).
  assert (mux_pid (frame_pid pkt)) as Hpid by (unfold frame_pid; fold v; destruct v; [by left|by right]).
  assert (exists x, chunk = frame_header pkt ++ x /\ x ++ concat chunks = data /\ 0 < zlen x) as (x & -> & Hx & Hx0).
  { assert (zlen (frame_header pkt) = 14 \/ zlen (frame_header pkt) = 19) as Hhl
      by (unfold frame_header; rewrite pes_header_length; destruct (_ && _); lia).
    unfold frame_bytes in Hb, Hf. fold data in Hb, Hf. rewrite zlen_app in Hf.
    assert (capacity (frame_pcr pkt) = 176 \/ capacity (frame_pcr pkt) = 184) by (destruct (frame_pcr pkt); [by left|by right]).
    apply app_eq_inv in Hb as [(k & E1 & E2)|(k & E1 & E2)]; [exists k|].
    - rewrite E1, zlen_app in Hf. split_and!; [done|done|lia].
    - rewrite E1, zlen_app in Hhl. pose proof (zlen_nonneg k). rewrite E1, zlen_app in Hf. lia. }
  assert (frame_pcr pkt = None \/ zlen (frame_header pkt ++ x) = 176) as Hpcr.
  { destruct (frame_pcr pkt) as [ts|] eqn:E; [right|by left]. specialize (Hk ltac:(done)). rewrite Hf. cbn [capacity]. lia. }
  assert (zlen (frame_header pkt ++ x) <= 184) as Hle by (rewrite Hf; unfold capacity; destruct (frame_pcr pkt); lia).
  destruct (ts_unit_shape true (frame_pid pkt) (next_cc cc) (frame_pcr pkt) (frame_header pkt ++ x) Hle Hpcr) as [Hl Hs].
  destruct (deliver_unit e _ es' d He Hl Hs) as [rest ->].
  destruct (start_unit (frame_pid pkt) (next_cc cc) (frame_pcr pkt) (zlen data) v (dts_ pkt * 90) (pts_ pkt * 90) x rest d d1)
    as (d' & Ed & Hpe); [done|done|done|done|done|lia|lia|done|done|done|].
  unfold frame_header. fold v data. rewrite Ed. simpl_m.
  pose proof (contents_bound _ Hwf) as Hmax. fold data in Hmax.
  assert (zlen x + zlen (concat chunks) = zlen data) as Hxl by (by rewrite <- zlen_app, Hx).
  eapply (deliver_rest _ _ chunks es') in Hpe as (d'' & -> & Hpe); [|exact Hes|done|done|done|lia].
  exists d''. split; [done|]. rewrite Hx in Hpe. unfold time_read in Hpe. rewrite !pes_time_small in Hpe by lia. exact Hpe.
Qed.
End frame.

(** ** What the demuxer puts out *)

(** A packet of media as its receiver sees it. *)
Record item := mkItem {
  i_type : MEDIA_PKT_TYPE;
  i_codec : MEDIA_CODEC_TYPE;
  i_dts : Z;
  i_pts : Z;
  i_seq : bool;
  i_key : bool;
  i_data : bytes
}.

Definition shows (e : demux_event) (i : item) : Prop :=
  exists q, e = DemuxPacket q /\ wf (buffer_ptr_ q) /\
    i = mkItem (av_type_ q) (codec_type_ q) (dts_ q) (pts_ q) (is_seq_hdr_ q) (is_key_frame_ q) (contents (buffer_ptr_ q)).

(** A NAL unit, with its first byte. *)
Definition nal_type (n : bytes) : Z := hd 0 n.

(** The items of a video frame: its NAL units without the delimiters. *)
Definition nal_items (codec : MEDIA_CODEC_TYPE) (dts pts : Z) (nals : list bytes) : list item :=
  map (fun n => mkItem MEDIA_VIDEO_TYPE codec dts pts (H264_IS_SPS (nal_type n) || H264_IS_PPS (nal_type n))
                  (H264_IS_KEYFRAME (nal_type n)) (H264_START_CODE ++ n))
      (filter (fun n => H264_IS_AUD (nal_type n) = false) nals).

Section outputs.
Context `{Alloc : Allocator}.

Lemma join_buffers_spec vec p :
  Forall wf vec -> wf (buffer_ptr_ p) -> start_ (buffer_ptr_ p) = PRE_RESERVE_HEADER_SIZE ->
  zlen (contents (buffer_ptr_ p)) + zlen (concat (map contents vec)) <= max_queue ->
  exists b, join_buffers vec p = Done (set_buffer_ptr b p) /\ wf b /\
    contents b = contents (buffer_ptr_ p) ++ concat (map contents vec).
Proof.
  intros Hv. revert p. induction Hv as [|b vec Hb Hv IH]; intros p Hwf Hst Hmax.
  - exists (buffer_ptr_ p). cbn. rewrite app_nil_r. split; [by destruct p|done].
  - cbn [map concat] in *. rewrite zlen_app in Hmax. cbn [join_buffers]. rewrite DataLen_contents by done.
    pose proof (contents_bound b Hb) as Hbb. rewrite i32_small by lia. pose proof (zlen_nonneg (concat (map contents vec))).
    destruct (Z.ltb_spec 0 (zlen (contents b))).
    + pose proof (read_contents b Hb) as Er. rewrite DataLen_contents in Er by done. rewrite Er. simpl_m.
      destruct (append_packet_spec (contents b) p) as (b1 & -> & Hwf1 & Hc1 & Hst1); [done|done|lia|]. simpl_m.
      destruct (IH (set_buffer_ptr b1 p)) as (b2 & -> & Hwf2 & Hc2); [done|done|cbn; rewrite Hc1, zlen_app; lia|].
      exists b2. split; [done|]. split; [done|]. rewrite Hc2. cbn. by rewrite Hc1, app_assoc.
    + simpl_m. assert (contents b = []) as -> by (apply length_zero_iff_nil; unfold zlen in *; lia).
      cbn [app]. apply IH; [done|done|lia].
Qed.

(** The packet the demuxer makes of the frame it collected. *)
Lemma OnCallback_pending pid dts pts data d1 d media codec :
  pending pid dts pts data d1 d -> 0 < zlen data <= max_queue -> 0 <= dts < 2 ^ 31 -> 0 <= pts < 2 ^ 31 ->
  GetMediaInfoByPid pid d1 = (media, codec) ->
  exists q, OnCallback pid dts pts d = output_frame q (set_data [] 0 d) /\ wf (buffer_ptr_ q) /\
    contents (buffer_ptr_ q) = data /\ av_type_ q = media /\ codec_type_ q = codec /\ dts_ q = dts / 90 /\ pts_ q = pts / 90 /\
    is_seq_hdr_ q = false /\ is_key_frame_ q = false.
Proof.
  intros [Hs Hwf Hd] Hl Hdts Hpts Hmedia. unfold OnCallback.
  assert (_data_total d = zlen data) as -> by by rewrite Hs.
  destruct (Z.eqb_spec (zlen data) 0); [lia|]. rewrite bool_decide_eq_false_2 by (intros E; rewrite E in Hd; cbn in Hd; rewrite <- Hd in Hl; unfold zlen in Hl; cbn in Hl; lia).
  cbn [orb]. assert (GetMediaInfoByPid pid d = (media, codec)) as -> by (rewrite <- Hmedia, Hs; reflexivity).
  destruct Media_Packet_new_spec as (p & -> & Hpw & Hpc & Hps & Hseq & Hkey & _). simpl_m.
  set (q := set_pts _ _). destruct (join_buffers_spec (_data_buffer_vec d) q) as (b & -> & Hb & Hc); [done|done|done|..].
  { change (buffer_ptr_ q) with (buffer_ptr_ p). rewrite Hpc, Hd. change (zlen []) with 0. lia. }
  simpl_m. eexists. split; [done|]. cbn. change (buffer_ptr_ q) with (buffer_ptr_ p) in Hc. rewrite Hpc in Hc.
  assert (forall x, 0 <= x < 2 ^ 31 -> i64 (x / 90) = x / 90) as Hi by (intros x Hx; unfold i64; rewrite Z.mod_small; div_lia).
  rewrite !Hi by done. split_and!; try done. by rewrite Hc, Hd.
Qed.

(** A NAL unit in a buffer of its own: where it starts. *)
Lemma nal_start b n : wf b -> contents b = H264_START_CODE ++ n -> n <> [] ->
  GetNaluTypePos (Data b) = Done 4 /\ peek b 4 = Done (nal_type n).
Proof.
  intros Hwf Hc Hn. destruct (Data_contents b Hwf) as [rest Hd]. rewrite Hc in Hd. split; [by rewrite Hd|].
  destruct n as [|x n]; [done|]. unfold peek. pose proof (wf_start b Hwf) as Hst.
  pose proof (wf_in b Hwf). pose proof (wf_len b Hwf). pose proof (wf_end b Hwf).
  rewrite <- (take_drop (Z.to_nat (start_ b)) (buffer_ b)). change (drop (Z.to_nat (start_ b)) (buffer_ b)) with (Data b). rewrite Hd.
  assert (zlen (take (Z.to_nat (start_ b)) (buffer_ b)) = start_ b) as Hl by (apply zlen_take; lia).
  rewrite <- Hl at 2. rewrite rd_shift by done. reflexivity.
Qed.

(** The log of the demuxer, longer. *)
Definition put_out (es : list demux_event) (d : MpegtsDemux) : MpegtsDemux :=
  mkDemux (_pat d) (_pmt d) (_data_buffer_vec d) (_data_total d) (_last_pid d) (_last_dts d) (_last_pts d)
    (opus_count_ d) (opus_dts_ d) (demux_events_ d ++ es).

Lemma put_out_nil d : put_out [] d = d.
Proof. unfold put_out. rewrite app_nil_r. by destruct d. Qed.
Lemma put_out_event e es d : put_out es (demux_event_add e d) = put_out (e :: es) d.
Proof. unfold put_out, demux_event_add. cbn. by rewrite <- app_assoc. Qed.

Lemma output_nalus_spec nals nalus pkt d :
  av_type_ pkt = MEDIA_VIDEO_TYPE -> Forall wf nalus -> map contents nalus = map (app H264_START_CODE) nals ->
  Forall (fun n => n <> [] /\ zlen n <= max_queue - 4) nals ->
  exists es, output_nalus nalus pkt d = Done (put_out es d) /\
    Forall2 shows es (nal_items (codec_type_ pkt) (dts_ pkt) (pts_ pkt) nals).
Proof.
  intros Hv Hwf. revert nals d. induction Hwf as [|b nalus Hb Hwf IH]; intros nals d Hc Hn.
  { destruct nals; [|done]. exists []. rewrite put_out_nil. split; [done|constructor]. }
  destruct nals as [|n nals]; [done|]. injection Hc as Hcb Hc. apply Forall_cons in Hn as [[Hne Hmax] Hn].
  destruct (nal_start b n Hb Hcb Hne) as [Hpos Hpeek]. cbn [output_nalus].
  assert (zlen (contents b) = 4 + zlen n) as Hl by (rewrite Hcb; rewrite !zlen_cons; lia).
  pose proof (contents_bound b Hb) as Hbb. rewrite DataLen_contents, i32_small by (done || lia).
  assert (0 < zlen n) as Hn0 by (destruct n; [done|rewrite zlen_cons; pose proof (zlen_nonneg n); lia]).
  destruct (Z.ltb_spec (zlen (contents b)) 5); [lia|]. rewrite Hpos. simpl_m. rewrite Hpeek. simpl_m.
  unfold nal_items. cbn [filter list_filter]. destruct (H264_IS_AUD (nal_type n)) eqn:Ea.
  { rewrite decide_False by done. by apply IH. }
  rewrite decide_True by done. cbn [map].
  destruct Media_Packet_new_spec as (p & -> & Hpw & Hpc & Hps & _). simpl_m.
  destruct (Reset_spec (buffer_ptr_ p) Hpw) as [Hrw Hrc].
  pose proof (read_contents b Hb) as Er. rewrite DataLen_contents in Er by done. rewrite Er. simpl_m.
  set (q := set_is_key_frame _ _).
  destruct (append_packet_spec (contents b) q) as (b1 & -> & Hb1 & Hc1 & _); [done|done|..].
  { change (buffer_ptr_ q) with (Reset (buffer_ptr_ p)). rewrite Hrc. change (zlen []) with 0. lia. }
  simpl_m. change (buffer_ptr_ q) with (Reset (buffer_ptr_ p)) in Hc1. rewrite Hrc in Hc1. cbn [app] in Hc1.
  set (out := set_buffer_ptr b1 q). destruct (IH nals (Output out d) Hc Hn) as (es & -> & Hes).
  exists (DemuxPacket out :: es). unfold Output. rewrite put_out_event. split; [done|]. constructor; [|done].
  exists out. split; [done|]. split; [done|]. cbn. by rewrite Hc1, Hcb, Hv.
Qed.

(** A frame of a stream whose frames are put out as they are. *)
Lemma output_raw q d : codec_type_ q = MEDIA_CODEC_AAC -> av_type_ q = MEDIA_AUDIO_TYPE -> output_frame q d = Done (put_out [DemuxPacket q] d).
Proof. intros Hc Ht. unfold output_frame. by rewrite Ht, Hc. Qed.

(** A video frame is put out by NAL units. *)
Lemma put_out_video q nals d :
  av_type_ q = MEDIA_VIDEO_TYPE -> wf (buffer_ptr_ q) -> contents (buffer_ptr_ q) = annexb nals ->
  nals <> [] -> Forall clean nals -> Forall (fun n => n <> []) nals -> zlen (annexb nals) <= max_queue - 4 ->
  exists es, output_frame q d = Done (put_out es d) /\ Forall2 shows es (nal_items (codec_type_ q) (dts_ q) (pts_ q) nals).
Proof.
  intros Ht Hwf Hc Hne Hcl Hnn Hmax. unfold output_frame. rewrite Ht, DataLen_contents by done.
  destruct (Data_contents _ Hwf) as [rest ->]. rewrite Hc.
  destruct (AnnexB2Nalus_annexb nals rest Hne Hcl Hmax) as (bufs & -> & Hb & Hw). simpl_m.
  apply output_nalus_spec; [done|done|done|]. apply Forall_and. split; [done|].
  clear -Hmax. induction nals as [|n nals IH]; [constructor|]. rewrite annexb_cons, !zlen_app in Hmax.
  pose proof (zlen_nonneg (annexb nals)). pose proof (zlen_nonneg n). change (zlen H264_START_CODE) with 4 in Hmax.
  constructor; [lia|]. apply IH. lia.
Qed.
End outputs.
