(* ===== verification/TsStream.v ===== *)
(** * [TsStream]: streams of frames over MPEG-TS

    What a demuxer that is fed by a muxer puts out, for sequences of frames: the tables, the frames one after
    another, and the access units that [HandleH264] makes of Annex B data. *)
From S2P Require Import Prelude ByteStream Ends DataBuffer Media AudioHeader H264 TsPub TsMux TsDemux TsPes TsTables TsLink.

(** ** Sequences of frames *)

(** Only the packets of the log of the demuxer. *)
Definition is_packet (e : demux_event) : bool := match e with DemuxPacket _ => true | DemuxReport _ => false end.

Definition packets (es : list demux_event) : list demux_event := filter (fun e => is_packet e = true) es.

Section stream.
Context `{Alloc : Allocator} `{Loc : Locals}.

(** What the demuxer does with the frame it has collected, when another one starts. *)
Definition flush (d : MpegtsDemux) : outcome MpegtsDemux := OnCallback (_last_pid d) (_last_dts d) (_last_pts d) d.

(** The items of a frame. *)
Definition frame_shows (video audio : MEDIA_CODEC_TYPE) (pkt : Media_Packet) (items : list item) : Prop :=
  let data := contents (buffer_ptr_ pkt) in
  let dts := if bool_decide (av_type_ pkt = MEDIA_VIDEO_TYPE) && negb (dts_ pkt =? 0) then dts_ pkt else pts_ pkt in
  (av_type_ pkt = MEDIA_VIDEO_TYPE /\ exists nals, data = annexb nals /\ nals <> [] /\ Forall clean nals /\
     Forall (fun n => n <> []) nals /\ zlen data <= max_queue - 4 /\ items = nal_items video dts (pts_ pkt) nals) \/
  (av_type_ pkt = MEDIA_AUDIO_TYPE /\ audio = MEDIA_CODEC_AAC /\ zlen data <= max_queue /\
     items = [mkItem MEDIA_AUDIO_TYPE audio dts (pts_ pkt) false false data]).

Lemma frame_dts_ms pkt : 0 <= dts_ pkt * 90 -> 0 <= pts_ pkt * 90 ->
  frame_dts pkt / 90 = if bool_decide (av_type_ pkt = MEDIA_VIDEO_TYPE) && negb (dts_ pkt =? 0) then dts_ pkt else pts_ pkt.
Proof.
  intros Hd Hp. unfold frame_dts. assert (forall x, x * 90 / 90 = x) as Hx by (intros; by rewrite Z.div_mul).
  case_bool_decide; cbn [andb]; [|apply Hx].
  destruct (Z.eqb_spec (dts_ pkt * 90) (pts_ pkt * 90)), (Z.eqb_spec (dts_ pkt * 90) 0), (Z.eqb_spec (dts_ pkt) 0);
    cbn [negb andb]; rewrite ?Hx; lia.
Qed.

Lemma shows_packets es items : Forall2 shows es items -> packets es = es.
Proof. unfold packets. induction 1 as [|e i es items He _ IH]; [done|]. destruct He as (q & -> & _). rewrite filter_cons_True by done. by rewrite IH. Qed.

(** With the frame it is collecting, if there is one, the demuxer has put out, in this order, [items]. *)
Definition linked (video audio : MEDIA_CODEC_TYPE) (items : list item) (d : MpegtsDemux) : Prop :=
  exists before last, items = before ++ last /\ Forall2 shows (packets (demux_events_ d)) before /\
    ((_data_buffer_vec d = [] /\ _data_total d = 0 /\ last = []) \/
     exists pkt, frame_readable pkt /\ frame_shows video audio pkt last /\
       pending (frame_pid pkt) (frame_dts pkt) (pts_ pkt * 90) (contents (buffer_ptr_ pkt)) d d).

Lemma linked_flush video audio items d : known_codecs video audio -> tables_read video audio d -> linked video audio items d ->
  exists es before last, flush d = Done (put_out es (set_data [] 0 d)) /\ items = before ++ last /\
    Forall2 shows (packets (demux_events_ d)) before /\ Forall2 shows es last.
Proof.
  intros Hk Htb (before & last & -> & Hb & [(Hv & Ht & ->)|(pkt & Hr & Hs & Hp)]).
  { exists [], before, []. rewrite put_out_nil. split_and!; [|done..]. unfold flush, OnCallback. rewrite Ht. destruct d; cbn in *. by subst. }
  destruct (tables_known video audio d Hk Htb) as (_ & _ & Hmv & Hma). destruct Hr as [[Hwf Hd Hpt _] H0 Hd31 Hp31].
  assert (0 <= frame_dts pkt < 2 ^ 31) as Hfd by (unfold frame_dts; destruct (_ && _); lia).
  pose proof (frame_dts_ms pkt (proj1 Hd) (proj1 Hpt)) as Hms. unfold flush.
  assert (_last_pid d = frame_pid pkt /\ _last_dts d = frame_dts pkt /\ _last_pts d = pts_ pkt * 90) as (-> & -> & ->)
    by (destruct Hp as [-> _ _]; done).
  destruct Hs as [(Hav & nals & Hc & Hne & Hcl & Hnn & Hmax & ->)|(Hav & -> & Hmax & ->)].
  - destruct (OnCallback_pending _ _ _ _ d d MEDIA_VIDEO_TYPE video Hp) as (q & -> & Hqw & Hqc & Hqa & Hqv & Hqd & Hqp & _);
      [lia|done|lia|unfold frame_pid; by rewrite bool_decide_eq_true_2|].
    rewrite Hc in Hqc, Hmax. destruct (put_out_video q nals (set_data [] 0 d)) as (es & -> & Hn); [done..|].
    eexists es, before, _. split; [done|]. split; [done|]. split; [done|]. rewrite Hqv, Hqd, Hqp, Hms, Z.div_mul in Hn by done. done.
  - destruct (OnCallback_pending _ _ _ _ d d MEDIA_AUDIO_TYPE MEDIA_CODEC_AAC Hp)
      as (q & -> & Hqw & Hqc & Hqa & Hqv & Hqd & Hqp & Hqs & Hqk);
      [lia|done|lia|unfold frame_pid; by rewrite Hav|].
    rewrite output_raw by done. eexists _, before, _. split; [done|]. split; [done|]. split; [done|]. constructor; [|constructor].
    exists q. split; [done|]. split; [done|]. by rewrite Hqc, Hqa, Hqv, Hqd, Hqp, Hqs, Hqk, Hms, Z.div_mul by done.
Qed.

(** One more frame. *)
Lemma linked_frame video audio pkt cc es chunk chunks items new d :
  known_codecs video audio -> frame_readable pkt -> frame_events pkt cc es chunk chunks -> frame_shows video audio pkt new ->
  tables_read video audio d -> linked video audio items d ->
  exists d', deliver es d = Done d' /\ tables_read video audio d' /\ linked video audio (items ++ new) d'.
Proof.
  intros Hk Hr He Hs Htb Hl. destruct (linked_flush video audio items d Hk Htb Hl) as (nes & before & last & Hf & -> & Hb & Hn).
  set (d1 := put_out nes _) in Hf. assert (tables_read video audio d1) as Htb1 by (by destruct Htb; split).
  destruct (tables_known video audio d Hk Htb) as (Hkv & Hka & _). destruct (tables_known video audio d1 Hk Htb1) as (Hkv1 & Hka1 & _).
  destruct (deliver_frame pkt cc es chunk chunks d d1 Hr He) as (d' & Ed & Hp); try done.
  1,2: unfold frame_pid; by case_bool_decide.
  exists d'. split; [done|]. destruct Hp as [Hp1 Hp2 Hp3]. split; [rewrite Hp1; destruct Htb1; by constructor|].
  exists (before ++ last), new. split; [done|]. split.
  - assert (demux_events_ d' = demux_events_ d ++ nes) as -> by by rewrite Hp1.
    unfold packets. rewrite filter_app. apply Forall2_app; [done|]. fold (packets nes). by rewrite (shows_packets _ _ Hn).
  - right. exists pkt. split; [done|]. split; [done|]. split; [|done|done]. destruct d'. unfold d1 in Hp1. cbn in *. by injection Hp1 as -> -> -> -> -> -> -> -> ->.
Qed.

(** The tables in between: the frame that is being collected stays. *)
Lemma linked_pat video audio crc rest items d : zlen crc = 4 -> linked video audio items d ->
  exists d', DecodeUnit (table_bytes pat_head pat_section crc ++ rest) d = Done (0, d') /\
    _pid_vec (_pat d') = [mkPid program_number_ (Some pmt_pid_) None] /\ linked video audio items d'.
Proof.
  intros Hc (before & last & -> & Hb & Hl). eexists. split; [by apply DecodeUnit_pat|]. split; [done|].
  exists before, last. split; [done|]. split; [cbn; unfold packets in *; rewrite filter_app; cbn; by rewrite app_nil_r|].
  destruct Hl as [?|(pkt & Hr & Hs & [Hp Hw Hd])]; [by left|right; exists pkt]. split; [done|]. split; [done|].
  split; [|done|done]. rewrite Hp. by destruct d.
Qed.

Lemma linked_pmt video audio m crc rest items d : zlen crc = 4 -> announces video audio m ->
  _pid_vec (_pat d) = [mkPid program_number_ (Some pmt_pid_) None] -> linked video audio items d ->
  exists d', DecodeUnit (table_bytes pmt_head (pmt_section m) crc ++ rest) d = Done (0, d') /\
    tables_read video audio d' /\ linked video audio items d'.
Proof.
  intros Hc Ha Hpid (before & last & -> & Hb & Hl). eexists. split; [by apply (DecodeUnit_pmt video audio)|].
  split; [by apply tables_read_pmt|].
  exists before, last. split; [done|]. split; [cbn; unfold packets in *; rewrite filter_app; cbn; by rewrite app_nil_r|].
  destruct Hl as [?|(pkt & Hr & Hs & [Hp Hw Hd])]; [by left|right; exists pkt]. split; [done|]. split; [done|].
  split; [|done|done]. rewrite Hp. by destruct d.
Qed.

Lemma table_shape section crc : zlen section <= 100 -> zlen crc = 4 ->
  zlen (table_bytes pat_head section crc) = 188 /\ zlen (table_bytes pmt_head section crc) = 188.
Proof.
  intros Hs Hc. pose proof (zlen_nonneg section). unfold table_bytes. rewrite !zlen_app, zlen_replicate, Hc by lia.
  change (zlen pat_head) with 5. change (zlen pmt_head) with 5. lia.
Qed.

Lemma WritePat_spec m : (exists r, pat_data_ m = pat_head ++ r /\ zlen r = 183) ->
  exists e crc, zlen crc = 4 /\ carries e (table_bytes pat_head pat_section crc) /\
    WritePat m = Done (0, set_events (events_ m ++ [e]) (set_pat_data (table_bytes pat_head pat_section crc) m)).
Proof.
  intros Hpat. unfold WritePat. destruct (GeneratePat_spec m Hpat) as (crc & -> & Hc). simpl_m. cbn [Z.ltb Z.compare].
  set (t := table_bytes _ _ _). destruct (TsOutput_spec None t (set_pat_data t m)) as (e & E & He); [by apply table_shape|].
  cbn [pat_data_ set_pat_data]. rewrite E. by exists e, crc.
Qed.

Lemma WritePmt_spec m : (exists r, pmt_data_ m = pmt_head ++ r /\ zlen r = 183) ->
  exists e crc, zlen crc = 4 /\ carries e (table_bytes pmt_head (pmt_section m) crc) /\
    WritePmt m = Done (0, set_events (events_ m ++ [e]) (set_pmt_data (table_bytes pmt_head (pmt_section m) crc) (typed m))).
Proof.
  intros Hpmt. unfold WritePmt. destruct (GeneratePmt_spec m Hpmt) as (p & -> & Hp). simpl_m. destruct (Z.ltb_spec p 0); [lia|].
  set (crc := be_bytes 4 _). set (t := table_bytes _ _ _). pose proof (pmt_body_length m) as Hb.
  destruct (TsOutput_spec None t (set_pmt_data t (typed m))) as (e & E & He).
  { apply table_shape; [|done]. unfold pmt_section. rewrite !zlen_app. change (zlen (Write2Bytes _)) with 2. change (zlen [_]) with 1. lia. }
  cbn [pmt_data_ set_pmt_data]. rewrite E. exists e, crc. split; [done|]. split; [done|]. by destruct m as [???[][]].
Qed.

(** [WritePat] and [WritePmt] as [InputPacket] calls them: their packets, and what else has changed. *)
Lemma linked_tables video audio m items d : announces video audio m -> tables_ready m -> linked video audio items d ->
  exists es t1 t2 m1 d', WritePat m = Done (0, m1) /\
    WritePmt m1 = Done (0, set_events (events_ m ++ es) (set_pmt_data t2 (set_pat_data t1 (typed m)))) /\
    tables_ready (set_pmt_data t2 (set_pat_data t1 m)) /\
    deliver es d = Done d' /\ tables_read video audio d' /\ linked video audio items d'.
Proof.
  intros Ha [Hpat Hpmt] Hl. destruct (WritePat_spec m Hpat) as (e1 & c1 & Hc1 & He1 & Ew1).
  set (m1 := set_events _ _) in Ew1. destruct (WritePmt_spec m1 Hpmt) as (e2 & c2 & Hc2 & He2 & Ew2).
  assert (zlen (pmt_section m1) <= 100) as Hs.
  { pose proof (pmt_body_length m1). unfold pmt_section. rewrite !zlen_app. change (zlen (Write2Bytes _)) with 2. change (zlen [_]) with 1. lia. }
  destruct (table_shape pat_section c1 ltac:(done) Hc1) as [Hl1 _]. destruct (table_shape (pmt_section m1) c2 Hs Hc2) as [_ Hl2].
  destruct (deliver_unit e1 _ [e2] d He1 Hl1 eq_refl) as [r1 E1].
  destruct (linked_pat video audio c1 r1 items d Hc1 Hl) as (d1 & D1 & Hp & Hld1).
  destruct (deliver_unit e2 _ [] d1 He2 Hl2 eq_refl) as [r2 E2].
  destruct (linked_pmt video audio m1 c2 r2 items d1 Hc2) as (d2 & D2 & Ht & Hld2); [by destruct Ha; split|done|done|].
   exists [e1; e2]. do 2 eexists. exists m1, d2. split; [done|]. split.
  { rewrite Ew2. unfold m1. cbn [events_ set_events]. rewrite <- app_assoc. by destruct m as [???[][]]. }
  split; [|rewrite E1, D1; simpl_m; rewrite E2, D2; done].
  unfold m1, table_bytes in *. rewrite !zlen_app in Hl1, Hl2. change (zlen pat_head) with 5 in Hl1. change (zlen pmt_head) with 5 in Hl2.
  split; cbn [pat_data_ pmt_data_ set_pat_data set_pmt_data]; unfold table_bytes; eexists; (split; [reflexivity|]); rewrite !zlen_app; lia.
Qed.
End stream.
