(* ===== verification/TsRun.v ===== *)
(** * [TsRun]: packets of H.264 and AAC through the muxer and the demuxer

    An abstract machine says what of a sequence of media packets comes out at the other end, and the two
    components are shown to implement it: parameter sets are kept and repeated before a key frame, what comes
    before the first key frame is dropped, and AAC frames get an ADTS header. *)
From S2P Require Import Prelude ByteStream Ends DataBuffer Media AudioHeader H264 TsPub TsMux TsDemux TsPes TsTables TsLink TsStream.

(** ** The abstract machine *)

Record ts_state := mkTsState {
  t_sps : list bytes;                     (* the last one, if there is one *)
  t_pps : list bytes;
  t_key : bool;                           (* a key frame has been seen *)
  t_aac : Z * Z * Z                       (* object type, sample rate, channels *)
}.
Definition ts_state0 : ts_state := mkTsState [] [] false (0, 0, 0).
Definition with_sps (n : bytes) (s : ts_state) : ts_state := mkTsState [n] (t_pps s) (t_key s) (t_aac s).
Definition with_pps (n : bytes) (s : ts_state) : ts_state := mkTsState (t_sps s) [n] (t_key s) (t_aac s).
Definition with_key (b : bool) (s : ts_state) : ts_state := mkTsState (t_sps s) (t_pps s) (b || t_key s) (t_aac s).
Definition with_aac (c : Z * Z * Z) (s : ts_state) : ts_state := mkTsState (t_sps s) (t_pps s) (t_key s) c.

(** What goes in: video packets of NAL units, a parameter set on its own, the AAC configuration, AAC frames. *)
Inductive media :=
  | MVideo (dts pts : Z) (key : bool) (nals : list bytes)
  | MSet (n : bytes)
  | MConfig (asc_type rate channels : Z)
  | MAac (dts pts asc_type : Z) (data : bytes).

(** The packet of the program for it. *)
Definition is_media (pkt : Media_Packet) (u : media) : Prop :=
  wf (buffer_ptr_ pkt) /\
  match u with
  | MVideo dts pts key nals =>
      av_type_ pkt = MEDIA_VIDEO_TYPE /\ codec_type_ pkt = MEDIA_CODEC_H264 /\ is_seq_hdr_ pkt = false /\
      dts_ pkt = dts /\ pts_ pkt = pts /\ is_key_frame_ pkt = key /\ contents (buffer_ptr_ pkt) = annexb nals
  | MSet n =>
      av_type_ pkt = MEDIA_VIDEO_TYPE /\ codec_type_ pkt = MEDIA_CODEC_H264 /\ is_seq_hdr_ pkt = true /\
      contents (buffer_ptr_ pkt) = annexb [n]
  | MConfig t r c =>
      av_type_ pkt = MEDIA_AUDIO_TYPE /\ codec_type_ pkt = MEDIA_CODEC_AAC /\ is_seq_hdr_ pkt = true /\
      has_flv_audio_asc_ pkt = true /\ aac_asc_type_ pkt = t /\ sample_rate_ pkt = r /\ channel_ pkt = c
  | MAac dts pts t data =>
      av_type_ pkt = MEDIA_AUDIO_TYPE /\ codec_type_ pkt = MEDIA_CODEC_AAC /\ is_seq_hdr_ pkt = false /\
      dts_ pkt = dts /\ pts_ pkt = pts /\ aac_asc_type_ pkt = t /\ contents (buffer_ptr_ pkt) = data /\
      7 <= start_ (buffer_ptr_ pkt)
  end.

(** One NAL unit: the new state, and the access unit it becomes, if any, without its delimiter. *)
Definition nal_step (s : ts_state) (n : bytes) : ts_state * list (list bytes) :=
  let t := nal_type n in
  if H264_IS_AUD t then (s, [])
  else if H264_IS_PPS t then (with_pps n s, [])
  else if H264_IS_SPS t then (with_sps n s, [])
  else
    let key := H264_IS_KEYFRAME t in
    let s := with_key key s in
    (s, if t_key s then [(if key then t_sps s ++ t_pps s else []) ++ [n]] else []).

Fixpoint nals_step (s : ts_state) (nals : list bytes) : ts_state * list (list bytes) :=
  match nals with
  | [] => (s, [])
  | n :: nals =>
      let '(s, us) := nal_step s n in
      let '(s, vs) := nals_step s nals in
      (s, us ++ vs)
  end.

(** The time the demuxer shows for a decoding time: zero is taken for none. *)
Definition shown_dts (dts pts : Z) : Z := if dts =? 0 then pts else dts.

(** The ADTS header for a frame in a state. *)
Definition adts_of (s : ts_state) (asc_type : Z) (data : bytes) : bytes :=
  let '(_, rate, channels) := t_aac s in
  MakeAdts (u8 (GetAdtsTypeByAscType asc_type)) rate channels (zlen data) true.

Definition media_step (s : ts_state) (u : media) : ts_state * list item :=
  match u with
  | MVideo dts pts _ nals =>
      let '(s, us) := nals_step s nals in
      (s, concat (map (nal_items MEDIA_CODEC_H264 (shown_dts dts pts) pts) us))
  | MSet n =>
      if H264_IS_PPS (nal_type n) then (with_pps n s, [])
      else if H264_IS_SPS (nal_type n) then (with_sps n s, []) else (s, [])
  | MConfig t r c => (with_aac (t, r, c) s, [])
  | MAac dts pts t data =>
      let '(a, r, c) := t_aac s in
      (s, if (a =? 0) || (r =? 0) || (c =? 0) then []
          else [mkItem MEDIA_AUDIO_TYPE MEDIA_CODEC_AAC pts pts false false (adts_of s t data ++ data)])
  end.

Fixpoint media_run (s : ts_state) (us : list media) : ts_state * list item :=
  match us with
  | [] => (s, [])
  | u :: us =>
      let '(s, i) := media_step s u in
      let '(s, j) := media_run s us in
      (s, i ++ j)
  end.

(** ** What the machine asks of its inputs *)

Definition set_ok (n : bytes) : Prop := n <> [] /\ clean n /\ zlen n <= 508.
Definition time_ok (t : Z) : Prop := 0 <= t * 90 < 2 ^ 31.

(** The access unit with its delimiter. *)
Definition delimited (u : list bytes) : list bytes := [9; 0xff] :: u.

(** Parameter sets fit their arrays; an access unit fits a buffer and, in a packet
    marked as a key frame, fills the first packet of the transport stream. *)
Definition nal_ok (key : bool) (s : ts_state) (n : bytes) : Prop :=
  n <> [] /\ clean n /\ zlen n <= max_queue - 10 /\ (H264_IS_PPS (nal_type n) || H264_IS_SPS (nal_type n) = true -> zlen n <= 508) /\
  Forall (fun u => zlen (annexb (delimited u)) <= max_queue - 4 /\ (key = true -> 170 <= zlen (annexb (delimited u)))) (nal_step s n).2.

Fixpoint nals_ok (key : bool) (s : ts_state) (nals : list bytes) : Prop :=
  match nals with
  | [] => True
  | n :: nals => nal_ok key s n /\ nals_ok key (nal_step s n).1 nals
  end.

Definition media_ok (s : ts_state) (u : media) : Prop :=
  match u with
  | MVideo dts pts key nals =>
      time_ok dts /\ time_ok pts /\ nals <> [] /\ zlen (annexb nals) <= max_queue - 4 /\ nals_ok key s nals
  | MSet n => set_ok n
  | MConfig t r c => True
  | MAac dts pts t data => time_ok dts /\ time_ok pts /\ zlen data <= max_queue - 7
  end.

Fixpoint run_ok (s : ts_state) (us : list media) : Prop :=
  match us with
  | [] => True
  | u :: us => media_ok s u /\ run_ok (media_step s u).1 us
  end.

#[export] Instance clean_dec n : Decision (clean n).
Proof. unfold clean. apply _. Defined.
#[export] Instance set_ok_dec n : Decision (set_ok n).
Proof. unfold set_ok. apply _. Defined.
#[export] Instance time_ok_dec t : Decision (time_ok t).
Proof. unfold time_ok. apply _. Defined.
#[export] Instance nal_ok_dec key s n : Decision (nal_ok key s n).
Proof. unfold nal_ok. apply _. Defined.
#[export] Instance nals_ok_dec key s nals : Decision (nals_ok key s nals).
Proof. revert s. induction nals; intros s; cbn [nals_ok]; apply _. Defined.
#[export] Instance media_ok_dec s u : Decision (media_ok s u).
Proof. destruct u; cbn [media_ok]; apply _. Defined.
#[export] Instance run_ok_dec s us : Decision (run_ok s us).
Proof. revert s. induction us; intros s; cbn [run_ok]; apply _. Defined.

(** The muxer waits for the first packets of both kinds, or for thirty packets: is it still waiting at the end? *)
Definition is_video_in (u : media) : bool := match u with MVideo _ _ _ _ | MSet _ => true | _ => false end.
Fixpoint still_waits (video audio : bool) (n : Z) (us : list media) : bool :=
  match us with
  | [] => true
  | u :: us =>
      if (video && audio) || (30 <=? n) then false
      else still_waits (video || is_video_in u) (audio || negb (is_video_in u)) (n + 1) us
  end.

Lemma media_run_app s us vs : media_run s (us ++ vs) =
  ((media_run (media_run s us).1 vs).1, (media_run s us).2 ++ (media_run (media_run s us).1 vs).2).
Proof.
  revert s. induction us as [|u us IH]; intros s; cbn [media_run app fst snd]; [by destruct (media_run s vs)|].
  destruct (media_step s u) as [s1 i]. rewrite IH. destruct (media_run s1 us) as [s2 j]. cbn [fst snd]. by rewrite app_assoc.
Qed.

Lemma run_ok_app s us vs : run_ok s (us ++ vs) <-> run_ok s us /\ run_ok (media_run s us).1 vs.
Proof.
  revert s. induction us as [|u us IH]; intros s; cbn [media_run run_ok app]; [tauto|].
  rewrite IH. destruct (media_step s u) as [s1 i]. cbn [fst]. destruct (media_run s1 us) as [s2 j]. cbn [fst]. tauto.
Qed.

(** The sets of the state. *)
Definition sets_ok (s : ts_state) : Prop := Forall set_ok (t_sps s) /\ Forall set_ok (t_pps s).

(** ** The muxer holds the state *)

Record mux_holds (s : ts_state) (m : MpegtsMux) : Prop := {
  mh_sps : exists r, sps_ m = annexb (t_sps s) ++ r;
  mh_sps_len : sps_len_ m = zlen (annexb (t_sps s));
  mh_sps_size : zlen (sps_ m) = 512;
  mh_pps : exists r, pps_ m = annexb (t_pps s) ++ r;
  mh_pps_len : pps_len_ m = zlen (annexb (t_pps s));
  mh_pps_size : zlen (pps_ m) = 512;
  mh_key : keyframe_ready_ m = t_key s;
  mh_aac : (aac_type_ m, mux_sample_rate_ m, mux_channel_ m) = t_aac s;
  mh_header : zlen (pes_header_ m) = TS_PACKET_SIZE;
  mh_tables : tables_ready m;
  mh_codecs : announces MEDIA_CODEC_H264 MEDIA_CODEC_AAC m
}.

Lemma h264_aac_known : known_codecs MEDIA_CODEC_H264 MEDIA_CODEC_AAC.
Proof. split; by left. Qed.

Lemma frame_header_length pkt : 14 <= zlen (frame_header pkt) <= 19.
Proof. unfold frame_header. rewrite pes_header_length. destruct (_ && _); lia. Qed.

Section run.
Context `{Alloc : Allocator} `{Loc : Locals}.

(** The log of the muxer, given to a demuxer that starts in [d0], makes it put out [items]. *)
Definition joined (d0 : MpegtsDemux) (items : list item) (m : MpegtsMux) : Prop :=
  exists d, deliver (events_ m) d0 = Done d /\ tables_read MEDIA_CODEC_H264 MEDIA_CODEC_AAC d /\
    linked MEDIA_CODEC_H264 MEDIA_CODEC_AAC items d.

(** The members a frame does not change. *)
Definition unsent (m : MpegtsMux) : MpegtsMux := set_video_cc 0 (set_audio_cc 0 (set_events [] (set_pes_header [] 0 m))).

Lemma after_frame_unsent is_video es pkt m : unsent (after_frame is_video es (header_stored pkt m)) = unsent m.
Proof. by destruct is_video, m. Qed.

Lemma holds_unsent s m m' : mux_holds s m -> unsent m' = unsent m -> zlen (pes_header_ m') = TS_PACKET_SIZE -> mux_holds s m'.
Proof.
  intros [] E Hh. destruct m, m'. cbn in *. injection E as ????????????????????????. subst. split; try done.
  - by destruct mh_tables0.
  - by destruct mh_codecs0.
Qed.

(** A frame is written, and the demuxer has it. *)
Lemma WritePes_joined s pkt new d0 items m :
  mux_holds s m -> frame_readable pkt -> frame_shows MEDIA_CODEC_H264 MEDIA_CODEC_AAC pkt new -> joined d0 items m ->
  exists m', WritePes pkt m = Done (0, m') /\ unsent m' = unsent m /\ mux_holds s m' /\ joined d0 (items ++ new) m'.
Proof.
  intros Hm Hr Hs (d & Hd & Ht & Hl). destruct (WritePes_spec pkt m (fr_ok _ Hr) (mh_header _ _ Hm)) as (es & c & cs & Hw & He).
  rewrite Hw. eexists. split; [done|]. rewrite after_frame_unsent. split; [done|]. split.
  - apply (holds_unsent s m); [done|apply after_frame_unsent|].
    set (v := bool_decide _). transitivity (zlen (pes_header_ (header_stored pkt m))); [by destruct v|].
    pose proof (mh_header _ _ Hm) as Hh. unfold TS_PACKET_SIZE, header_stored in *. cbn [pes_header_ set_pes_header]. pose proof (zlen_nonneg (frame_header pkt)).
    pose proof (frame_header_length pkt).
    rewrite zlen_app, zlen_drop by lia. lia.
  - destruct (linked_frame _ _ _ _ _ _ _ items new d h264_aac_known Hr He Hs Ht Hl) as (d' & Hd' & Ht' & Hl').
    exists d'. split; [|done]. set (v := bool_decide _).
    assert (events_ (after_frame v es (header_stored pkt m)) = events_ m ++ es) as -> by by destruct v.
    by rewrite deliver_app, Hd.
Qed.

(** ** NAL units *)

Lemma masked t : H264_IS_AUD (Z.land t 0x1f) = H264_IS_AUD t /\ H264_IS_PPS (Z.land t 0x1f) = H264_IS_PPS t /\
  H264_IS_SPS (Z.land t 0x1f) = H264_IS_SPS t /\ H264_IS_KEYFRAME (Z.land t 0x1f) = H264_IS_KEYFRAME t.
Proof.
  assert (Z.land (Z.land t 0x1f) 0x1f = Z.land t 0x1f) as E by by rewrite <- Z.land_assoc.
  unfold H264_IS_AUD, H264_IS_PPS, H264_IS_SPS, H264_IS_KEYFRAME. by rewrite E.
Qed.

(** Bytes appended to a packet that was built by appending. *)
Lemma append_next d q b c : wf b -> start_ b = PRE_RESERVE_HEADER_SIZE -> contents b = c -> zlen (c ++ d) <= max_queue ->
  exists b', append_packet d (set_buffer_ptr b q) = Done (set_buffer_ptr b' q) /\ wf b' /\ start_ b' = PRE_RESERVE_HEADER_SIZE /\
    contents b' = c ++ d.
Proof.
  intros Hw Hs Hc Hmax. rewrite zlen_app in Hmax.
  destruct (append_packet_spec d (set_buffer_ptr b q)) as (b' & -> & Hw' & Hc' & Hs'); [done|done|cbn; by rewrite Hc|].
  exists b'. split_and!; [by destruct q|done|done|]. cbn in Hc'. by rewrite Hc', Hc.
Qed.

Lemma annexb_app a b : annexb (a ++ b) = annexb a ++ annexb b.
Proof. unfold annexb. by rewrite map_app, concat_app. Qed.

Lemma read_prefix l a r : l = a ++ r -> read_range l 0 (zlen a) = Done a.
Proof. intros ->. by apply read_range_app. Qed.

Lemma read_buffer b : wf b -> read_range (Data b) 0 (DataLen b) = Done (contents b).
Proof. intros Hw. by apply read_contents. Qed.

Lemma h264_access_unit_spec s n item out m :
  let t := nal_type n in
  let key := H264_IS_KEYFRAME t in
  let u := (if key then t_sps s ++ t_pps s else []) ++ [n] in
  mux_holds s m -> wf item -> contents item = H264_START_CODE ++ n -> wf (buffer_ptr_ out) ->
  zlen (annexb (delimited u)) <= max_queue ->
  exists b, h264_access_unit (Z.land t 0x1f) item out m =
      Done (set_buffer_ptr b out, if key then set_keyframe_ready true m else m) /\
    wf b /\ contents b = annexb (delimited u).
Proof.
  intros t key u Hm Hi Hc Hw Hmax. unfold h264_access_unit. destruct (masked t) as (_ & _ & _ & ->). fold key.
  destruct (Reset_spec _ Hw) as [Hrw Hrc]. unfold delimited in *. rewrite annexb_cons in *.
  assert (zlen (H264_AUD_DATA ++ annexb u) <= max_queue) as Hmax' by exact Hmax. clear Hmax.
  assert (annexb u = (if key then annexb (t_sps s) ++ annexb (t_pps s) else []) ++ H264_START_CODE ++ n) as Hu.
  { unfold u. rewrite annexb_app, annexb_cons. change (annexb []) with (@nil Z). rewrite app_nil_r.
    destruct key; [by rewrite annexb_app|done]. }
  rewrite Hu in *. clear Hu. rewrite !zlen_app in Hmax'. pose proof (zlen_nonneg n). change (zlen H264_AUD_DATA) with 6 in Hmax'.
  change (zlen H264_START_CODE) with 4 in Hmax'.
  destruct (append_next H264_AUD_DATA out (Reset (buffer_ptr_ out)) []) as (b1 & -> & Hw1 & Hs1 & Hc1); [done|done|done| |].
  { change (zlen ([] ++ H264_AUD_DATA)) with 6. destruct key; rewrite ?zlen_app in Hmax'; pose proof (zlen_nonneg (annexb (t_sps s)));
      pose proof (zlen_nonneg (annexb (t_pps s))); unfold max_queue in *; lia. }
  simpl_m. rewrite (read_buffer item Hi), Hc. destruct Hm. destruct key; cbv iota in *.
  - rewrite zlen_app in Hmax'. change (sps_ (set_keyframe_ready true m)) with (sps_ m). change (pps_ (set_keyframe_ready true m)) with (pps_ m).
    change (sps_len_ (set_keyframe_ready true m)) with (sps_len_ m). change (pps_len_ (set_keyframe_ready true m)) with (pps_len_ m).
    destruct mh_sps0 as [r1 Hr1], mh_pps0 as [r2 Hr2]. rewrite mh_sps_len0, mh_pps_len0, (read_prefix _ _ _ Hr1). simpl_m.
    destruct (append_next (annexb (t_sps s)) out b1 _ Hw1 Hs1 Hc1) as (b2 & -> & Hw2 & Hs2 & Hc2).
    { rewrite !zlen_app. change (zlen [] + zlen H264_AUD_DATA) with 6. pose proof (zlen_nonneg (annexb (t_pps s))). lia. }
    simpl_m. rewrite (read_prefix _ _ _ Hr2). simpl_m.
    destruct (append_next (annexb (t_pps s)) out b2 _ Hw2 Hs2 Hc2) as (b3 & -> & Hw3 & Hs3 & Hc3).
    { rewrite !zlen_app. change (zlen [] + zlen H264_AUD_DATA) with 6. lia. }
    simpl_m. destruct (append_next (H264_START_CODE ++ n) out b3 _ Hw3 Hs3 Hc3) as (b4 & -> & Hw4 & Hs4 & Hc4).
    { rewrite !zlen_app. change (zlen [] + zlen H264_AUD_DATA) with 6. change (zlen H264_START_CODE) with 4. lia. }
    simpl_m. exists b4. split; [done|]. split; [done|]. rewrite Hc4. cbn [app]. by rewrite <- !app_assoc.
  - simpl_m. change (zlen []) with 0 in Hmax'. destruct (append_next (H264_START_CODE ++ n) out b1 _ Hw1 Hs1 Hc1) as (b4 & -> & Hw4 & Hs4 & Hc4).
    { rewrite !zlen_app. change (zlen [] + zlen H264_AUD_DATA) with 6. change (zlen H264_START_CODE) with 4. lia. }
    simpl_m. exists b4. split; [done|]. split; [done|]. by rewrite Hc4.
Qed.

(** The packet the muxer builds its access units in. *)
Record unit_packet (dts pts : Z) (key : bool) (out : Media_Packet) : Prop := {
  up_wf : wf (buffer_ptr_ out);
  up_video : av_type_ out = MEDIA_VIDEO_TYPE;
  up_dts : dts_ out = dts;
  up_pts : pts_ out = pts;
  up_key : is_key_frame_ out = key
}.

Lemma nal_items_delimited codec dts pts u : nal_items codec dts pts (delimited u) = nal_items codec dts pts u.
Proof. unfold nal_items, delimited. by rewrite filter_cons_False. Qed.

(** An access unit is a frame that can be read back. *)
Lemma unit_frame dts pts key out u :
  unit_packet dts pts key out -> contents (buffer_ptr_ out) = annexb (delimited u) -> time_ok dts -> time_ok pts ->
  Forall clean u -> Forall (fun n => n <> []) u ->
  zlen (annexb (delimited u)) <= max_queue - 4 -> (key = true -> 170 <= zlen (annexb (delimited u))) ->
  frame_readable out /\
  frame_shows MEDIA_CODEC_H264 MEDIA_CODEC_AAC out (nal_items MEDIA_CODEC_H264 (shown_dts dts pts) pts u).
Proof.
  intros [Hw Hv Hd Hp Hk] Hc Htd Htp Hcl Hne Hmax Hkey. unfold time_ok in *. subst dts pts. split.
  - split; [split| | |]; rewrite ?Hc; try lia; [done| |].
    + intros Hpcr. right. unfold frame_pcr in Hpcr. rewrite Hk in Hpcr. destruct key; [|by rewrite andb_false_r in Hpcr].
      unfold frame_bytes. rewrite zlen_app, Hc. pose proof (frame_header_length out). specialize (Hkey eq_refl). lia.
    + unfold delimited. rewrite annexb_cons, !zlen_app. change (zlen H264_START_CODE) with 4.
      pose proof (zlen_nonneg [9; 0xff]). pose proof (zlen_nonneg (annexb u)). lia.
  - left. split; [done|]. exists (delimited u). rewrite Hc. split; [done|]. split; [done|].
    split; [by constructor|]. split; [by constructor|]. split; [done|].
    rewrite nal_items_delimited, Hv, bool_decide_eq_true_2 by done. unfold shown_dts. by destruct (Z.eqb_spec (dts_ out) 0).
Qed.

Lemma save_set_spec region item n : wf item -> contents item = H264_START_CODE ++ n -> zlen region = 512 -> zlen n <= 508 ->
  exists r, save_set region item = Done (annexb [n] ++ r) /\ zlen (annexb [n] ++ r) = 512 /\ DataLen item = zlen (annexb [n]).
Proof.
  intros Hw Hc Hr Hn. assert (contents item = annexb [n]) as E by (rewrite Hc, annexb_cons; by rewrite app_nil_r).
  unfold save_set. rewrite (read_buffer item Hw), E. simpl_m.
  assert (zlen (annexb [n]) = 4 + zlen n) as Hl by (rewrite <- E, Hc, zlen_app; done).
  pose proof (write_next [] region (annexb [n])) as Ew. cbn [app] in Ew. change (zlen []) with 0 in Ew. rewrite Ew by lia.
  pose proof (zlen_nonneg n). eexists. split; [done|]. rewrite DataLen_contents, E, zlen_app, zlen_drop by (done || lia). split; [lia|done].
Qed.

(** Parameter sets. *)
Lemma holds_pps s n r m : mux_holds s m -> zlen (annexb [n] ++ r) = 512 ->
  mux_holds (with_pps n s) (store_pps (annexb [n] ++ r) (zlen (annexb [n])) m).
Proof. intros [] Hr. split; try done; [by exists r| |]; cbn; by destruct mh_tables0, mh_codecs0. Qed.
Lemma holds_sps s n r m : mux_holds s m -> zlen (annexb [n] ++ r) = 512 ->
  mux_holds (with_sps n s) (store_sps (annexb [n] ++ r) (zlen (annexb [n])) m).
Proof. intros [] Hr. split; try done; [by exists r| |]; cbn; by destruct mh_tables0, mh_codecs0. Qed.
Lemma holds_key (b : bool) s m : mux_holds s m -> mux_holds (with_key b s) (if b then set_keyframe_ready true m else m).
Proof. intros []. destruct b; (split; try done; cbn; by destruct mh_tables0, mh_codecs0). Qed.

(** ** The operations of the muxer against the machine *)

(** The muxer is in a state of the machine that has put out [items]. *)
Record running (d0 : MpegtsDemux) (s : ts_state) (items : list item) (m : MpegtsMux) : Prop := {
  rn_holds : mux_holds s m;
  rn_sets : sets_ok s;
  rn_joined : joined d0 items m
}.

(** The members that only [InputPacket] changes. *)
Definition kept (m : MpegtsMux) : bool * bool * bool * list Media_Packet * Z :=
  (ready_ m, video_ready_ m, audio_ready_ m, wait_queue_ m, last_patpmt_ts_ m).

Lemma kept_unsent m m' : unsent m' = unsent m -> kept m' = kept m.
Proof. intros E. change (kept (unsent m') = kept (unsent m)). by rewrite E. Qed.

Lemma joined_events d0 items m m' : events_ m' = events_ m -> joined d0 items m -> joined d0 items m'.
Proof. unfold joined. by intros ->. Qed.

(** The sets of the state go into the access unit. *)
Lemma unit_clean s n : sets_ok s -> n <> [] -> clean n ->
  let u := (if H264_IS_KEYFRAME (nal_type n) then t_sps s ++ t_pps s else []) ++ [n] in
  Forall clean u /\ Forall (fun n => n <> []) u.
Proof.
  intros [Hs Hp] Hn Hc u. unfold u, set_ok in *.
  split; apply Forall_app; (split; [|by repeat constructor]); destruct (H264_IS_KEYFRAME _); try constructor;
    (apply Forall_app; split; (eapply Forall_impl; [eassumption|by intros ? (? & ? & ?)])).
Qed.

(** A slice: its access unit is written once a key frame has been seen. *)
Lemma slice_step d0 s items m n bufs item out dts pts key :
  let t := nal_type n in
  H264_IS_AUD t = false -> H264_IS_PPS t = false -> H264_IS_SPS t = false ->
  wf item -> contents item = H264_START_CODE ++ n -> nal_ok key s n -> time_ok dts -> time_ok pts ->
  unit_packet dts pts key out -> running d0 s items m ->
  exists out' m', h264_nalus (item :: bufs) out m = h264_nalus bufs out' m' /\ unit_packet dts pts key out' /\ kept m' = kept m /\
    running d0 (nal_step s n).1 (items ++ concat (map (nal_items MEDIA_CODEC_H264 (shown_dts dts pts) pts) (nal_step s n).2)) m'.
Proof.
  intros t Ea Ep Es Hi Hc Hok Htd Htp Hout [Hm Hset Hj]. unfold nal_ok, nal_step in *. fold t in Hok |- *. rewrite Ea, Ep, Es in *.
  destruct Hok as (Hn & Hcl & Hl & _ & Hu). cbv zeta in *. cbn [fst snd] in *. set (kf := H264_IS_KEYFRAME t) in *. set (s1 := with_key kf s) in *.
  destruct (nal_start item n Hi Hc Hn) as [Hpos Hpeek]. cbn [h264_nalus]. rewrite Hpos. simpl_m. rewrite Hpeek. simpl_m. fold t.
  destruct (masked t) as (-> & -> & -> & _). rewrite Ea, Ep, Es. set (u := (if kf then _ else []) ++ [n]) in *.
  assert (u = (if kf then t_sps s ++ t_pps s else []) ++ [n]) as Eu by done.
  set (m1 := if kf then set_keyframe_ready true m else m). assert (mux_holds s1 m1) as Hm1 by by apply holds_key.
  assert (kept m1 = kept m) as Hk1 by (unfold m1; by destruct kf).
  assert (joined d0 items m1) as Hj1 by (eapply joined_events; [|done]; unfold m1; by destruct kf).
  destruct (h264_access_unit_spec s n item out m) as (b & E & Hw & Hcb); [done|done|done|by destruct Hout|..].
  { fold t kf u. destruct kf eqn:Ekf.
    - cbn [t_key s1 with_key orb] in Hu. apply Forall_singleton in Hu as [Hu _]. change (zlen (annexb (delimited u)) <= max_queue). lia.
    - unfold u, delimited. cbn [app]. rewrite !annexb_cons, !zlen_app. change (zlen H264_START_CODE) with 4.
      change (zlen [9; 0xff]) with 2. change (zlen (annexb [])) with 0. lia. }
  fold t kf in E. rewrite E. simpl_m. fold m1. rewrite (mh_key _ _ Hm1).
  assert (unit_packet dts pts key (set_buffer_ptr b out)) as Hout' by (by destruct Hout; split).
  destruct (t_key s1) eqn:Et.
  - apply Forall_singleton in Hu as [Hmax Hkey].
    destruct (unit_clean s n Hset Hn Hcl) as [Hc1 Hc2]. fold t kf u in Hc1, Hc2.
    destruct (unit_frame dts pts key (set_buffer_ptr b out) u) as [Hr Hs]; [done..|].
    destruct (WritePes_joined s1 _ _ d0 items m1 Hm1 Hr Hs Hj1) as (m2 & -> & Hun & Hm2 & Hj2). simpl_m.
    do 2 eexists. split; [done|]. split; [done|]. split; [by rewrite (kept_unsent _ _ Hun)|].
    cbn [map concat]. rewrite app_nil_r. by split.
  - do 2 eexists. split; [done|]. split; [done|]. split; [done|]. cbn. rewrite app_nil_r. by split.
Qed.

Lemma running_set d0 s s' items m m' : running d0 s items m -> mux_holds s' m' -> sets_ok s' -> events_ m' = events_ m ->
  running d0 s' items m'.
Proof. intros [] ???. split; [done|done|by eapply joined_events]. Qed.

(** A parameter set is kept, from a packet of its own or from among the NAL units. *)
Lemma keep_pps d0 s items m item n : wf item -> contents item = H264_START_CODE ++ n -> set_ok n -> running d0 s items m ->
  exists r, save_set (pps_ m) item = Done r /\ running d0 (with_pps n s) items (store_pps r (DataLen item) m).
Proof.
  intros Hw Hc Hn Hr. pose proof Hr as [Hm [Hs Hp] _].
  destruct (save_set_spec (pps_ m) item n Hw Hc (mh_pps_size _ _ Hm)) as (r & E & Hl & Hd); [by destruct Hn as (_ & _ & ?)|].
  exists (annexb [n] ++ r). split; [done|]. rewrite Hd. eapply running_set; [done|by apply holds_pps|split; [done|by constructor]|done].
Qed.
Lemma keep_sps d0 s items m item n : wf item -> contents item = H264_START_CODE ++ n -> set_ok n -> running d0 s items m ->
  exists r, save_set (sps_ m) item = Done r /\ running d0 (with_sps n s) items (store_sps r (DataLen item) m).
Proof.
  intros Hw Hc Hn Hr. pose proof Hr as [Hm [Hs Hp] _].
  destruct (save_set_spec (sps_ m) item n Hw Hc (mh_sps_size _ _ Hm)) as (r & E & Hl & Hd); [by destruct Hn as (_ & _ & ?)|].
  exists (annexb [n] ++ r). split; [done|]. rewrite Hd. eapply running_set; [done|by apply holds_sps|split; [by constructor|done]|done].
Qed.

Lemma h264_nalus_spec d0 dts pts key nals : time_ok dts -> time_ok pts ->
  forall bufs out m s items,
  Forall wf bufs -> map contents bufs = map (app H264_START_CODE) nals -> nals_ok key s nals ->
  unit_packet dts pts key out -> running d0 s items m ->
  exists m', h264_nalus bufs out m = Done m' /\ kept m' = kept m /\
    running d0 (nals_step s nals).1
      (items ++ concat (map (nal_items MEDIA_CODEC_H264 (shown_dts dts pts) pts) (nals_step s nals).2)) m'.
Proof.
  intros Htd Htp. induction nals as [|n nals IH]; intros [|item bufs] out m s items Hw Hc Hok Hout Hr; try done.
  { exists m. cbn. rewrite app_nil_r. by split_and!. }
  apply Forall_cons in Hw as [Hi Hw]. injection Hc as Hci Hc. cbn [nals_ok nals_step] in *. destruct Hok as [Hn Hok].
  destruct (nal_step s n) as [s1 us] eqn:Estep. cbn [fst] in Hok.
  assert (exists out1 m1, h264_nalus (item :: bufs) out m = h264_nalus bufs out1 m1 /\ unit_packet dts pts key out1 /\ kept m1 = kept m /\
    running d0 s1 (items ++ concat (map (nal_items MEDIA_CODEC_H264 (shown_dts dts pts) pts) us)) m1) as (out1 & m1 & -> & Hout1 & Hk & Hr1).
  { destruct (H264_IS_AUD (nal_type n) || H264_IS_PPS (nal_type n) || H264_IS_SPS (nal_type n)) eqn:E.
    - pose proof Hn as (Hne & Hcl & _ & Hlen & _). destruct (nal_start item n Hi Hci Hne) as [Hpos Hpeek].
      destruct (masked (nal_type n)) as (Ma & Mp & Ms & _). unfold nal_step in Estep.
      cbn [h264_nalus]. rewrite Hpos. simpl_m. rewrite Hpeek. simpl_m. rewrite Ma, Mp, Ms. exists out.
      destruct (H264_IS_AUD (nal_type n)); [exists m; injection Estep as <- <-; cbn; by rewrite app_nil_r|].
      destruct (H264_IS_PPS (nal_type n)); cbn [orb] in *.
      + destruct (keep_pps d0 s items m item n Hi Hci) as (r & -> & Hr1); [by split_and!; auto|done|]. simpl_m.
        eexists. injection Estep as <- <-. split; [done|]. split; [done|]. cbn. by rewrite app_nil_r.
      + rewrite E in Estep. destruct (keep_sps d0 s items m item n Hi Hci) as (r & E1 & Hr1); [by split_and!; auto|done|]. rewrite E, E1. simpl_m.
        eexists. injection Estep as <- <-. split; [done|]. split; [done|]. cbn. by rewrite app_nil_r.
    - apply orb_false_iff in E as [E Es]. apply orb_false_iff in E as [Ea Ep].
      destruct (slice_step d0 s items m n bufs item out dts pts key) as (out1 & m1 & H1 & H2 & H3 & H4); [done..|].
      rewrite Estep in H4. by exists out1, m1. }
  destruct (IH bufs out1 m1 s1 _ Hw Hc Hok Hout1 Hr1) as (m' & -> & Hk' & Hr').
  exists m'. split; [done|]. split; [by rewrite Hk'|]. destruct (nals_step s1 nals) as [s2 vs]. cbn [fst snd] in *.
  by rewrite map_app, concat_app, app_assoc.
Qed.

(** Bytes in front of the data of a buffer, when there is room. *)
Lemma prepend_contents b d : wf b -> zlen d <= start_ b -> zlen (contents b) + zlen d < 2 ^ 31 ->
  exists b1 b2, ConsumeData b (0 - zlen d) = (true, b1) /\ poke b1 0 d = Done b2 /\ wf b2 /\ contents b2 = d ++ contents b.
Proof.
  intros Hw Hd Hmax. rewrite contents_length in Hmax by done. pose proof Hw as [Hs Ha Hst Hl He Hin]. pose proof (zlen_nonneg d).
  unfold ConsumeData. destruct (Z.ltb_spec (data_len_ b) (0 - zlen d)); [lia|].
  destruct (Z.ltb_spec (start_ b + (0 - zlen d)) 0); [lia|]. rewrite andb_false_r.
  set (b1 := set_storage _ _ _ _ _ _). exists b1. set (k := start_ b - zlen d).
  assert (buffer_ b = take (Z.to_nat k) (buffer_ b) ++ drop (Z.to_nat k) (buffer_ b)) as Eb by by rewrite take_drop.
  assert (zlen (take (Z.to_nat k) (buffer_ b)) = k) as Hk by (apply zlen_take; unfold k; lia).
  pose proof (write_next (take (Z.to_nat k) (buffer_ b)) (drop (Z.to_nat k) (buffer_ b)) d) as Ew.
  rewrite zlen_drop in Ew by (unfold k; lia). rewrite <- Eb, Hk, drop_drop in Ew.
  unfold poke. change (start_ b1 + 0) with (start_ b + (0 - zlen d) + 0). change (buffer_ b1) with (buffer_ b).
  replace (start_ b + (0 - zlen d) + 0) with k by (unfold k; lia). rewrite Ew by (unfold k; lia). simpl_m.
  replace (Z.to_nat k + Z.to_nat (zlen d))%nat with (Z.to_nat (start_ b)) by (unfold k; lia).
  set (mem := (take (Z.to_nat k) (buffer_ b) ++ d) ++ _). assert (zlen mem = zlen (buffer_ b)) as Hm.
  { unfold mem. rewrite !zlen_app, Hk, zlen_drop by lia. unfold k. lia. }
  eexists. split; [done|]. split; [done|].
  split; [constructor; cbn -[Z.pow zlen]; rewrite ?Hm; lia|].
  unfold contents, Data. cbn [buffer_ set_storage start_ data_len_ b1].
  replace (start_ b + (0 - zlen d)) with (zlen (take (Z.to_nat k) (buffer_ b))) by (unfold k in *; lia).
  unfold mem. rewrite <- app_assoc, drop_zlen_app.
  replace (Z.to_nat (data_len_ b - (0 - zlen d))) with (length d + Z.to_nat (data_len_ b))%nat by (unfold zlen; lia).
  rewrite (take_app_add d). done.
Qed.

Lemma starts_annexb nals rest : nals <> [] -> starts_with [0; 0; 0; 1] (annexb nals ++ rest) = Done true.
Proof. destruct nals as [|n nals]; [done|]. rewrite annexb_cons. by intros _. Qed.

Lemma running_annexb d0 s items m : running d0 s items m -> running d0 s items (set_is_annexb true m).
Proof.
  intros Hr. eapply running_set; [done| |by destruct Hr|done]. destruct Hr as [[] _ _].
  split; try done; [by destruct mh_tables0|by destruct mh_codecs0].
Qed.

(** The start of [HandleH264]: data that begins with a start code. *)
Lemma annexb_seen d0 s items m nals rest : nals <> [] -> running d0 s items m ->
  exists m1, (if negb (is_annexb_ m) then four ← starts_with [0; 0; 0; 1] (annexb nals ++ rest); mret (set_is_annexb four m)
              else mret m) = Done m1 /\
    is_annexb_ m1 = true /\ kept m1 = kept m /\ running d0 s items m1.
Proof.
  intros Hn Hr. rewrite (starts_annexb nals rest Hn). destruct (is_annexb_ m) eqn:E; cbn [negb]; simpl_m.
  - by exists m.
  - eexists. split; [done|]. split; [done|]. split; [done|]. by apply running_annexb.
Qed.

Lemma HandleH264_video d0 s items m pkt dts pts key nals :
  is_media pkt (MVideo dts pts key nals) -> media_ok s (MVideo dts pts key nals) -> running d0 s items m ->
  exists m', HandleH264 pkt m = Done (0, m') /\ kept m' = kept m /\
    running d0 (media_step s (MVideo dts pts key nals)).1 (items ++ (media_step s (MVideo dts pts key nals)).2) m'.
Proof.
  intros (Hw & Hv & Hcd & Hq & Hd & Hp & Hk & Hc) (Htd & Htp & Hne & Hmax & Hok) Hr. unfold HandleH264.
  destruct (Data_contents _ Hw) as [rest Hrest]. rewrite Hrest, Hc.
  destruct (annexb_seen d0 s items m nals rest Hne Hr) as (m1 & -> & Ha & Hk1 & Hr1). simpl_m. rewrite Hq, Ha.
  assert ((sps_len_ m1 <? 0) || (pps_len_ m1 <? 0) = false) as ->.
  { pose proof (rn_holds _ _ _ _ Hr1) as Hm. rewrite (mh_sps_len _ _ Hm), (mh_pps_len _ _ Hm).
    pose proof (zlen_nonneg (annexb (t_sps s))). pose proof (zlen_nonneg (annexb (t_pps s))). lia. }
  rewrite DataLen_contents, Hc by done.
  assert (Forall clean nals) as Hcl.
  { clear -Hok. revert s Hok. induction nals as [|n nals IH]; intros s Hok; constructor; destruct Hok as [(_ & Hn & _) Hok]; [done|by eapply IH]. }
  destruct (AnnexB2Nalus_annexb nals rest Hne Hcl Hmax) as (bufs & -> & Hb & Hwb). simpl_m. cbn [negb].
  destruct Media_Packet_new_spec as (p & -> & Hpw & _). simpl_m.
  destruct (h264_nalus_spec d0 dts pts key nals Htd Htp bufs (copy_properties pkt p) m1 s items) as (m' & -> & Hk' & Hr');
    [done|done|done|by split|done|]. simpl_m.
  exists m'. split; [done|]. split; [by rewrite Hk'|]. unfold media_step. by destruct (nals_step s nals).
Qed.

Lemma HandleH264_set d0 s items m pkt n : is_media pkt (MSet n) -> set_ok n -> running d0 s items m ->
  exists m', HandleH264 pkt m = Done (0, m') /\ kept m' = kept m /\
    running d0 (media_step s (MSet n)).1 (items ++ (media_step s (MSet n)).2) m'.
Proof.
  intros (Hw & Hv & Hcd & Hq & Hc) Hok Hr. pose proof Hok as (Hn & _). unfold HandleH264, h264_sequence_header, media_step.
  destruct (Data_contents _ Hw) as [rest Hrest]. rewrite Hrest, Hc.
  destruct (annexb_seen d0 s items m [n] rest ltac:(done) Hr) as (m1 & -> & Ha & Hk1 & Hr1). simpl_m. rewrite Hq, Ha. cbn [negb].
  rewrite <- Hc, <- Hrest. rewrite annexb_cons in Hc. change (annexb []) with (@nil Z) in Hc. rewrite app_nil_r in Hc.
  destruct (nal_start _ n Hw Hc Hn) as [-> Hpeek]. simpl_m. rewrite Hpeek. simpl_m.
  destruct (masked (nal_type n)) as (_ & -> & -> & _). destruct (H264_IS_PPS (nal_type n)); [|destruct (H264_IS_SPS (nal_type n))].
  - destruct (keep_pps d0 s items m1 _ n Hw Hc Hok Hr1) as (r & -> & Hr'). simpl_m. eexists. split; [done|]. split; [done|]. by rewrite app_nil_r.
  - destruct (keep_sps d0 s items m1 _ n Hw Hc Hok Hr1) as (r & -> & Hr'). simpl_m. eexists. split; [done|]. split; [done|]. by rewrite app_nil_r.
  - exists m1. cbn [fst snd]. by rewrite app_nil_r.
Qed.

Lemma HandleAudioAac_frame d0 s items m pkt dts pts t data :
  is_media pkt (MAac dts pts t data) -> media_ok s (MAac dts pts t data) -> running d0 s items m ->
  exists pkt' m', HandleAudioAac pkt m = Done (0, pkt', m') /\ kept m' = kept m /\
    running d0 (media_step s (MAac dts pts t data)).1 (items ++ (media_step s (MAac dts pts t data)).2) m'.
Proof.
  intros (Hw & Hv & Hcd & Hq & Hd & Hp & Ht & Hc & Hroom) (Htd & Htp & Hmax) Hr. unfold HandleAudioAac, media_step, adts_of. rewrite Hq. cbn [andb].
  pose proof (mh_aac _ _ (rn_holds _ _ _ _ Hr)) as Haac. destruct (t_aac s) as [[a r] c]. injection Haac as -> -> ->.
  destruct ((a =? 0) || (r =? 0) || (c =? 0)). { do 2 eexists. split; [done|]. split; [done|]. cbn. by rewrite app_nil_r. }
  unfold max_queue in Hmax. rewrite DataLen_contents, Hc, Ht, i32_small by (done || (pose proof (zlen_nonneg data); lia)).
  set (h := MakeAdts _ _ _ _ _). assert (zlen h = 7) as Hh by done. rewrite Hh. simpl_m. cbn [Z.eqb Pos.eqb cassert]. simpl_m.
  destruct (prepend_contents (buffer_ptr_ pkt) h Hw) as (b1 & b2 & E1 & E2 & Hw2 & Hc2); [lia|rewrite Hc; lia|].
  rewrite Hh in E1. rewrite E1, E2. simpl_m. rewrite Hc in Hc2. unfold time_ok in *. subst dts pts.
  destruct (WritePes_joined s (set_buffer_ptr b2 pkt) [mkItem MEDIA_AUDIO_TYPE MEDIA_CODEC_AAC (pts_ pkt) (pts_ pkt) false false (h ++ data)]
    d0 items m) as (m' & -> & Hu & Hm' & Hj'); [by destruct Hr| | |by destruct Hr|].
  - split; [split; [done|cbn; lia|cbn; lia|]| |cbn; lia|cbn; lia].
    + intros []. unfold frame_pcr. cbn [av_type_ set_buffer_ptr]. by rewrite Hv.
    + cbn [buffer_ptr_ set_buffer_ptr]. rewrite Hc2, zlen_app. pose proof (zlen_nonneg data). lia.
  - right. cbn [buffer_ptr_ set_buffer_ptr av_type_ dts_ pts_]. rewrite Hc2, Hv. split; [done|]. split; [done|]. split; [|done].
    rewrite zlen_app. unfold max_queue. lia.
  - simpl_m. do 2 eexists. split; [done|]. split; [by apply kept_unsent|]. split; [done|by destruct Hr|done].
Qed.

(** A packet, by its kind. *)
Lemma HandlePacket_step d0 s items m pkt u : is_media pkt u -> media_ok s u -> running d0 s items m ->
  exists pkt' m', HandlePacket pkt m = Done (0, pkt', m') /\ kept m' = kept m /\
    running d0 (media_step s u).1 (items ++ (media_step s u).2) m'.
Proof.
  intros Hu Hok Hr. unfold HandlePacket, HandleVideo, HandleAudio. pose proof (mh_codecs _ _ (rn_holds _ _ _ _ Hr)) as [_ _ Hcv Hca _].
  assert (SetVideoCodec MEDIA_CODEC_H264 m = m) as Ev by (rewrite <- Hcv; by destruct m).
  assert (SetAudioCodec MEDIA_CODEC_AAC m = m) as Ea by (rewrite <- Hca; by destruct m).
  destruct u as [dts pts key nals|n|t r c|dts pts t data]; pose proof Hu as (Hw & -> & -> & Hx).
  - rewrite Ev. destruct (HandleH264_video d0 s items m pkt dts pts key nals Hu Hok Hr) as (m' & -> & ?). by do 2 eexists.
  - rewrite Ev. destruct (HandleH264_set d0 s items m pkt n Hu Hok Hr) as (m' & -> & ?). by do 2 eexists.
  - rewrite Ea. unfold HandleAudioAac. destruct Hx as (-> & -> & -> & -> & ->). cbn [andb]. destruct Hu as (_ & _ & -> & _). rewrite Ea.
    do 2 eexists. split; [done|]. split; [done|]. cbn [media_step fst snd]. rewrite app_nil_r.
    eapply running_set; [done| |by destruct Hr|done]. destruct Hr as [[] _ _]. split; try done; [by destruct mh_tables0|by destruct mh_codecs0].
  - rewrite Ea. by apply HandleAudioAac_frame.
Qed.

(** ** Sequences of packets *)

Lemma kept_queue m v : kept (set_wait_queue v m) = (ready_ m, video_ready_ m, audio_ready_ m, v, last_patpmt_ts_ m).
Proof. done. Qed.

(** A change of the members that only [InputPacket] changes. *)
Lemma running_same d0 s items m m' : running d0 s items m -> set_last_patpmt_ts 0 (set_wait_queue [] (set_ready false m')) =
  set_last_patpmt_ts 0 (set_wait_queue [] (set_ready false m)) -> running d0 s items m'.
Proof.
  intros Hr E. eapply running_set; [done| |by destruct Hr|destruct m, m'; cbn in *; by injection E].
  destruct Hr as [[] _ _]. destruct m, m'. cbn in *. injection E as ??????????????????????????. subst.
  split; try done; [by destruct mh_tables0|by destruct mh_codecs0].
Qed.

(** The queue is emptied in its order. *)
Lemma handle_queue_run d0 queue us : Forall2 is_media queue us -> forall s items m,
  run_ok s us -> wait_queue_ m = queue -> running d0 s items m ->
  exists m', handle_queue queue m = Done m' /\ kept m' = kept (set_wait_queue [] m) /\
    running d0 (media_run s us).1 (items ++ (media_run s us).2) m'.
Proof.
  induction 1 as [|pkt u queue us Hu _ IH]; intros s items m Hok Hq Hr; cbn [handle_queue media_run run_ok] in *.
  - exists m. split; [done|]. split; [by rewrite <- Hq; destruct m|]. by rewrite app_nil_r.
  - destruct Hok as [Hok1 Hok]. assert (running d0 s items (set_wait_queue queue m)) as Hr1 by (by eapply running_same).
    destruct (HandlePacket_step d0 s items _ pkt u Hu Hok1 Hr1) as (pkt' & m1 & -> & Hk & Hr2). simpl_m.
    destruct (media_step s u) as [s1 i]. cbn [fst snd] in *. rewrite kept_queue in Hk. unfold kept in Hk. injection Hk as H1 H2 H3 H4 H5.
    destruct (IH s1 _ m1 Hok H4 Hr2) as (m' & -> & Hk' & Hr'). exists m'. split; [done|].
    split; [by rewrite Hk', !kept_queue, H1, H2, H3, H5|]. destruct (media_run s1 us). cbn [fst snd] in *. by rewrite app_assoc.
Qed.

(** The tables in a call of [InputPacket], when they are due. *)
Definition send_tables (due : bool) (dts : Z) (m : MpegtsMux) : outcome MpegtsMux :=
  if due then '(_, m) ← WritePat m; '(_, m) ← WritePmt m; mret (set_last_patpmt_ts dts m) else mret m.

Lemma send_tables_spec d0 d s items due dts m :
  mux_holds s m -> sets_ok s -> deliver (events_ m) d0 = Done d -> linked MEDIA_CODEC_H264 MEDIA_CODEC_AAC items d ->
  (due = false -> tables_read MEDIA_CODEC_H264 MEDIA_CODEC_AAC d) ->
  exists m', send_tables due dts m = Done m' /\ running d0 s items m' /\
    kept m' = kept (if due then set_last_patpmt_ts dts m else m).
Proof.
  intros Hm Hs Hd Hl Ht. unfold send_tables. destruct due.
  - destruct (linked_tables _ _ m items d (mh_codecs _ _ Hm) (mh_tables _ _ Hm) Hl) as (es & t1 & t2 & m1 & d' & -> & E & Htr & Hd' & Ht' & Hl').
    simpl_m. rewrite E. simpl_m. eexists. split; [done|]. split; [|by destruct m as [???[][]]].
    assert (mux_holds s (set_pmt_data t2 (set_pat_data t1 m))) as Hm2.
    { destruct Hm. split; try done. by destruct mh_codecs0. }
    split; [|done|].
    + clear -Hm2. destruct m as [??? hv ha]. destruct hv, ha; destruct Hm2; (split; try done; [by destruct mh_tables0|by destruct mh_codecs0]).
    + exists d'. split; [|done]. cbn [events_ set_events set_last_patpmt_ts]. by rewrite deliver_app, Hd.
  - exists m. split; [done|]. split; [|done]. split; [done|done|]. exists d. by auto.
Qed.

(** A call of [InputPacket] that handles its packet, after those that wait. *)
Lemma InputPacket_handled d0 d s items m pkt u us :
  mux_holds s m -> sets_ok s -> deliver (events_ m) d0 = Done d -> linked MEDIA_CODEC_H264 MEDIA_CODEC_AAC items d ->
  (0 <= last_patpmt_ts_ m -> tables_read MEDIA_CODEC_H264 MEDIA_CODEC_AAC d) -> last_patpmt_ts_ m < 2 ^ 31 ->
  time_ok (dts_ pkt) -> Forall2 is_media (wait_queue_ m) us -> is_media pkt u -> run_ok s (us ++ [u]) ->
  negb (ready_ m) && (negb (video_ready_ m) || negb (audio_ready_ m)) && (zlen (wait_queue_ m) <? 30) = false ->
  exists pkt' m', InputPacket pkt m = Done (0, pkt', m') /\ ready_ m' = true /\ wait_queue_ m' = [] /\ last_patpmt_ts_ m' < 2 ^ 31 /\
    running d0 (media_run s (us ++ [u])).1 (items ++ (media_run s (us ++ [u])).2) m'.
Proof.
  intros Hm Hs Hd Hl Ht Hlast Htime Hq Hu Hok Hgo. unfold InputPacket.
  rewrite decide_False by (destruct u, Hu as (_ & -> & _); done). rewrite Hgo. set (m1 := set_ready true m).
  assert (exists due, tables_due (dts_ pkt) m1 = Done due /\ (due = false -> 0 <= last_patpmt_ts_ m)) as (due & -> & Hdue).
  { unfold tables_due, time_ok in *. change (last_patpmt_ts_ m1) with (last_patpmt_ts_ m).
    destruct (Z.ltb_spec (last_patpmt_ts_ m) 0); [by exists true|].
    rewrite chk_int64_ok by lia. simpl_m. eexists. by split. }
  simpl_m. assert (mux_holds s m1) as Hm1 by (destruct Hm; split; try done; [by destruct mh_tables0|by destruct mh_codecs0]).
  destruct (send_tables_spec d0 d s items due (dts_ pkt) m1 Hm1 Hs Hd Hl) as (m2 & E & Hr & Hk); [auto|].
  unfold send_tables, mret, outcome_ret in E. rewrite E. simpl_m. clear E.
  assert (kept m2 = (true, video_ready_ m, audio_ready_ m, wait_queue_ m, last_patpmt_ts_ m2) /\ last_patpmt_ts_ m2 < 2 ^ 31) as [Hk2 Hlast2].
  { unfold kept, time_ok in *. destruct due; cbn in Hk; injection Hk as -> -> -> -> ->; split; (done || lia). }
  apply run_ok_app in Hok as [Hok1 [Hok2 _]]. unfold kept in Hk2. injection Hk2 as H1 H2 H3 H4.
  rewrite H4. destruct (handle_queue_run d0 (wait_queue_ m) us Hq s items m2 Hok1 H4 Hr) as (m3 & -> & Hk3 & Hr3). simpl_m.
  destruct (HandlePacket_step d0 _ _ m3 pkt u Hu Hok2 Hr3) as (pkt' & m4 & -> & Hk4 & Hr4).
  exists pkt', m4. split; [done|]. rewrite Hk3, kept_queue in Hk4. unfold kept in Hk4. injection Hk4 as -> _ _ -> ->.
  split; [done|]. split; [done|]. split; [done|]. rewrite media_run_app. cbn [media_run fst snd].
  destruct (media_step (media_run s us).1 u) as [s2 j]. cbn [fst snd] in *. by rewrite app_nil_r, app_assoc.
Qed.

(** Every packet goes through [SourceData]. *)
Fixpoint mux_all (pkts : list Media_Packet) (m : MpegtsMux) : outcome MpegtsMux :=
  match pkts with
  | [] => mret m
  | pkt :: pkts => '(_, _, m) ← TsMux.SourceData (Some pkt) m; mux_all pkts m
  end.

(** The muxer after the packets of [us]: it waits, with all of them in its queue, or it runs. *)
Definition waiting (us : list media) (m : MpegtsMux) : Prop :=
  ready_ m = false /\ mux_holds ts_state0 m /\ events_ m = [] /\ last_patpmt_ts_ m = -1 /\ Forall2 is_media (wait_queue_ m) us /\
  video_ready_ m = existsb is_video_in us /\ audio_ready_ m = existsb (fun u => negb (is_video_in u)) us.
Definition started (d0 : MpegtsDemux) (us : list media) (m : MpegtsMux) : Prop :=
  ready_ m = true /\ wait_queue_ m = [] /\ last_patpmt_ts_ m < 2 ^ 31 /\
  running d0 (media_run ts_state0 us).1 (media_run ts_state0 us).2 m.

Lemma existsb_snoc {A} (f : A -> bool) l x : existsb f (l ++ [x]) = existsb f l || f x.
Proof. rewrite existsb_app. cbn. by rewrite orb_false_r. Qed.

Lemma enqueue_waiting us m pkt u : waiting us m -> is_media pkt u -> waiting (us ++ [u]) (enqueue pkt m).
Proof.
  intros (Hr & Hm & He & Hl & Hq & Hv & Ha) Hu. unfold waiting. rewrite !existsb_snoc, <- Hv, <- Ha.
  assert (Forall2 is_media (wait_queue_ m ++ [pkt]) (us ++ [u])) as Hq' by (apply Forall2_app; [done|by constructor]).
  unfold enqueue. assert (is_video_in u = bool_decide (av_type_ pkt = MEDIA_VIDEO_TYPE) /\
    (av_type_ pkt = MEDIA_VIDEO_TYPE /\ codec_type_ pkt = MEDIA_CODEC_H264 \/ av_type_ pkt = MEDIA_AUDIO_TYPE /\ codec_type_ pkt = MEDIA_CODEC_AAC))
    as [-> Hc] by (destruct u, Hu as (_ & -> & -> & _); split; auto).
  destruct Hc as [[-> ->]|[-> ->]]; cbn; rewrite ?orb_true_r, ?orb_false_r; (split_and!; try done);
    (destruct Hm; split; try done; [by destruct mh_tables0|by destruct mh_codecs0]).
Qed.

(** One call, waiting or not. *)
Lemma InputPacket_step d0 us m pkt u :
  _data_buffer_vec d0 = [] -> _data_total d0 = 0 -> packets (demux_events_ d0) = [] ->
  waiting us m \/ started d0 us m -> is_media pkt u -> time_ok (dts_ pkt) -> run_ok ts_state0 (us ++ [u]) ->
  let goes := (existsb is_video_in us && existsb (fun u => negb (is_video_in u)) us) || (30 <=? zlen us) in
  exists pkt' m', InputPacket pkt m = Done (0, pkt', m') /\
    (waiting us m /\ goes = false /\ waiting (us ++ [u]) m' \/ started d0 (us ++ [u]) m').
Proof.
  intros Hd1 Hd2 Hd3 Hph Hu Ht Hok goes. destruct Hph as [Hw|(Hr & Hq & Hl & [Hm Hs (d & Hd & Htb & Hlk)])].
  - pose proof Hw as (Hr & Hm & He & Hl & Hq & Hv & Ha). pose proof (Forall2_length _ _ _ Hq) as Hlen.
    destruct goes eqn:Eg; unfold goes in Eg.
    + destruct (InputPacket_handled d0 d0 ts_state0 [] m pkt u us) as (pkt' & m' & -> & H1 & H2 & H3 & H4); try done.
      * rewrite He. done.
      * exists [], []. rewrite Hd3. split; [done|]. split; [by constructor|]. by left.
      * intros ?. lia.
      * lia.
      * rewrite Hr, Hv, Ha. unfold zlen in *. rewrite Hlen. destruct (existsb is_video_in us), (existsb _ us); cbn in *; try done; lia.
      * do 2 eexists. split; [done|]. by right.
    + unfold InputPacket. rewrite decide_False by (destruct u, Hu as (_ & -> & _); done).
      rewrite Hr, Hv, Ha. unfold zlen in *. rewrite Hlen. apply orb_false_iff in Eg as [E1 E2].
      assert (negb (existsb is_video_in us) || negb (existsb (fun u => negb (is_video_in u)) us) = true) as ->
        by (rewrite <- negb_andb; by rewrite E1).
      destruct (Z.ltb_spec (Z.of_nat (length us)) 30); [|lia]. cbn [negb andb].
      do 2 eexists. split; [done|]. left. split; [done|]. split; [done|]. by apply enqueue_waiting.
  - apply run_ok_app in Hok as [_ Hok].
    destruct (InputPacket_handled d0 d (media_run ts_state0 us).1 (media_run ts_state0 us).2 m pkt u []) as (pkt' & m' & -> & H1 & H2 & H3 & H4);
      try done; [by rewrite Hq|by rewrite Hr|].
    do 2 eexists. split; [done|]. right. split; [done|]. split; [done|]. split; [done|]. by rewrite media_run_app.
Qed.

Lemma mux_all_spec d0 pkts us : _data_buffer_vec d0 = [] -> _data_total d0 = 0 -> packets (demux_events_ d0) = [] ->
  Forall2 is_media pkts us -> Forall (fun pkt => time_ok (dts_ pkt)) pkts -> forall us0 m,
  run_ok ts_state0 (us0 ++ us) -> waiting us0 m \/ started d0 us0 m ->
  exists m', mux_all pkts m = Done m' /\
    (waiting us0 m /\ still_waits (existsb is_video_in us0) (existsb (fun u => negb (is_video_in u)) us0) (zlen us0) us = true \/
     started d0 (us0 ++ us) m').
Proof.
  intros Hd1 Hd2 Hd3 Hus. induction Hus as [|pkt u pkts us Hu Hus IH]; intros Ht us0 m Hok Hph.
  - exists m. split; [done|]. rewrite app_nil_r. destruct Hph; [by left|by right].
  - apply Forall_cons in Ht as [Htp Ht]. assert (us0 ++ u :: us = (us0 ++ [u]) ++ us) as E by by rewrite <- app_assoc.
    rewrite E in Hok |- *. destruct (InputPacket_step d0 us0 m pkt u Hd1 Hd2 Hd3 Hph Hu Htp (proj1 (proj1 (run_ok_app _ _ _) Hok)))
      as (pkt' & m1 & Ei & Hph1). cbn [mux_all TsMux.SourceData]. rewrite Ei. simpl_m.
    destruct (IH Ht (us0 ++ [u]) m1 Hok) as (m' & Em & Hph'); [destruct Hph1 as [(_ & _ & ?)|?]; [by left|by right]|].
    exists m'. split; [exact Em|]. destruct Hph' as [[Hw1 Hs]|?]; [|by right].
    destruct Hph1 as [(Hw & Hgo & _)|Hst]; [left|destruct Hw1 as [Hr1 _], Hst as [Hr2 _]; by rewrite Hr1 in Hr2].
    split; [done|]. cbn [still_waits]. rewrite Hgo. rewrite !existsb_snoc in Hs. by rewrite zlen_app in Hs.
Qed.

Lemma new_waiting header pps sps vps :
  zlen header = TS_PACKET_SIZE -> zlen pps = 512 -> zlen sps = 512 -> waiting [] (MpegtsMux_new header pps sps vps).
Proof.
  intros Hh Hp Hs. split; [done|]. split; [|by split_and!].
  split; try done; [by exists sps|by exists pps|split; by eexists|split; [done..|apply h264_aac_known]].
Qed.

(** C2. MPEG-TS end to end: the muxer takes any sequence of H.264 packets in Annex B form, parameter set packets, AAC
    configurations and AAC frames, in any order; the demuxer, fed with the transport packets the muxer gives out
    (with the tables in between), puts out what the abstract machine says: after the first key frame every NAL unit
    in its order with its times, each key frame behind the last SPS and PPS, and every AAC frame behind its ADTS
    header; the last frame only when one more starts ([flush]). *)
Theorem media_over_ts pkts us header pps sps vps pat pmt :
  zlen header = TS_PACKET_SIZE -> zlen pps = 512 -> zlen sps = 512 ->
  Forall2 is_media pkts us -> Forall (fun pkt => time_ok (dts_ pkt)) pkts -> run_ok ts_state0 us ->
  still_waits false false 0 us = false ->
  exists m d d1, mux_all pkts (MpegtsMux_new header pps sps vps) = Done m /\
    deliver (events_ m) (MpegtsDemux_new pat pmt) = Done d /\ flush d = Done d1 /\
    Forall2 shows (packets (demux_events_ d1)) (media_run ts_state0 us).2.
Proof.
  intros Hh Hp Hs Hus Ht Hok Hgo.
  destruct (mux_all_spec (MpegtsDemux_new pat pmt) pkts us eq_refl eq_refl eq_refl Hus Ht [] (MpegtsMux_new header pps sps vps))
    as (m & Em & [[_ Hw]|Hst]); [done|left; by apply new_waiting|change (still_waits false false 0 us = true) in Hw; congruence|].
  destruct Hst as (_ & _ & _ & [_ _ (d & Hd & Htb & Hl)]).
  destruct (linked_flush _ _ _ d h264_aac_known Htb Hl) as (es & before & last & Hf & E & Hb & Hes).
  exists m, d, (put_out es (set_data [] 0 d)). split; [done|]. split; [done|]. split; [done|].
  cbn [app] in E. rewrite E. unfold packets. cbn [demux_events_ put_out set_data]. rewrite filter_app.
  fold (packets es). rewrite (shows_packets _ _ Hes). by apply Forall2_app.
Qed.
End run.

(** ** At concrete inputs *)

Definition demo_locals : Locals := {|
  ts_packet0 := replicate (Z.to_nat TS_PACKET_SIZE) 0xaa;
  ts_packet0_length := eq_refl;
  hevc_info0 := mkHevc 0 0 0 0 0 0 0 0 0 0 0 0 0 0 0 0 0 [];
  hevc_info0_units := eq_refl
|}.

Definition demo_buffer (d : bytes) : DataBuffer :=
  mkDataBuffer false [] 0 (replicate (Z.to_nat PRE_RESERVE_HEADER_SIZE) 0 ++ d) PRE_RESERVE_HEADER_SIZE (zlen d)
    PRE_RESERVE_HEADER_SIZE (PRE_RESERVE_HEADER_SIZE + zlen d).

Lemma demo_buffer_ok d : zlen d < 2 ^ 20 -> wf (demo_buffer d) /\ contents (demo_buffer d) = d.
Proof.
  intros Hd. pose proof (zlen_nonneg d). split; [split|]; unfold demo_buffer, PRE_RESERVE_HEADER_SIZE;
    cbn [buffer_size_ buffer_ start_ data_len_ end_]; rewrite ?zlen_app, ?zlen_replicate; try lia.
  unfold contents, Data. cbn [buffer_ start_ data_len_]. rewrite drop_app_length' by done. apply take_ge. unfold zlen. lia.
Qed.

(** A packet of each kind. *)
Definition demo_packet (u : media) : Media_Packet :=
  let packet av codec dts pts key seq d :=
    mkPacket av codec MEDIA_FORMAT_RAW dts pts key seq true (demo_buffer d) None [] 44100 1 2 2 [] [] [] [] 0 0 in
  match u with
  | MVideo dts pts key nals => packet MEDIA_VIDEO_TYPE MEDIA_CODEC_H264 dts pts key false (annexb nals)
  | MSet n => packet MEDIA_VIDEO_TYPE MEDIA_CODEC_H264 0 0 false true (annexb [n])
  | MConfig t r c => packet MEDIA_AUDIO_TYPE MEDIA_CODEC_AAC 0 0 false true []
  | MAac dts pts t data => packet MEDIA_AUDIO_TYPE MEDIA_CODEC_AAC dts pts false false data
  end.

Definition demo_media : list media :=
  [MSet [0x67; 1; 2]; MSet [0x68; 3]; MConfig 2 44100 2;
   MVideo 40 80 true [[0x09; 0x10]; 0x65 :: replicate 170 7]; MAac 33 33 2 [1; 2; 3]; MVideo 80 80 false [[0x41; 5; 6]]].

Lemma media_over_ts_witness :
  (media_run ts_state0 demo_media).2 =
    [mkItem MEDIA_VIDEO_TYPE MEDIA_CODEC_H264 40 80 true false [0; 0; 0; 1; 0x67; 1; 2];
     mkItem MEDIA_VIDEO_TYPE MEDIA_CODEC_H264 40 80 true false [0; 0; 0; 1; 0x68; 3];
     mkItem MEDIA_VIDEO_TYPE MEDIA_CODEC_H264 40 80 false true ([0; 0; 0; 1; 0x65] ++ replicate 170 7);
     mkItem MEDIA_AUDIO_TYPE MEDIA_CODEC_AAC 33 33 false false [0xff; 0xf9; 0x50; 0x80; 0x01; 0x5f; 0xfc; 1; 2; 3];
     mkItem MEDIA_VIDEO_TYPE MEDIA_CODEC_H264 80 80 false false [0; 0; 0; 1; 0x41; 5; 6]] /\
  exists m d d1,
    mux_all (Alloc := zero_alloc) (Loc := demo_locals) (map demo_packet demo_media)
      (MpegtsMux_new (replicate 188 0) (replicate 512 0) (replicate 512 0) (replicate 512 0)) = Done m /\
    deliver (Alloc := zero_alloc) (events_ m)
      (MpegtsDemux_new mux_pat (mkPmt 0 0 0 0 0 0 0 0 0 0 [] empty [])) = Done d /\
    flush (Alloc := zero_alloc) d = Done d1 /\
    Forall2 shows (packets (demux_events_ d1)) (media_run ts_state0 demo_media).2.
Proof.
  split; [vm_compute; reflexivity|].
  apply (media_over_ts (Alloc := zero_alloc) (Loc := demo_locals)); try reflexivity.
  - unfold demo_media. cbn [map]. do 6 (apply List.Forall2_cons;
      [split; [by apply demo_buffer_ok|cbn [demo_packet]; repeat split; try done; by apply demo_buffer_ok]|]). apply List.Forall2_nil.
  - unfold demo_media. cbn [map]. do 6 (apply List.Forall_cons; [by vm_compute|]). apply List.Forall_nil.
  - apply (bool_decide_unpack _). by vm_compute.
Defined.

(** A key frame that does not fill the first packet: the length byte of the adaptation field stays 7 while the
    stuffing goes behind the field, so that the payload does not start where the packet says.  A unit of 5 bytes
    is lost, with two errors; a unit of 165 bytes makes the demuxer read behind the packet. *)
Definition demo_demux : MpegtsDemux :=
  let streams := mux_streams MEDIA_CODEC_H264 MEDIA_CODEC_AAC in
  mkDemux mux_pat (mkPmt 2 1 23 1 0 1 0 0 256 0 [] (stream_types streams) streams) [] 0 0 0 0 0 0 [].
Definition key_frame_seen (n : nat) : outcome (list demux_event) :=
  '(_, m) ← WritePes (H := zero_alloc) (H0 := demo_locals) (demo_packet (MVideo 40 40 true [0x65 :: replicate n 7]))
    (MpegtsMux_new (replicate 188 0) [] [] []);
  d ← deliver (Alloc := zero_alloc) (events_ m) demo_demux;
  d ← flush (Alloc := zero_alloc) d;
  mret (demux_events_ d).

Lemma small_key_frame_lost :
  key_frame_seen 4 = Done [DemuxReport (str "error"); DemuxReport (str "error")] /\ key_frame_seen 160 = Fault OutOfBounds /\
  exists p, key_frame_seen 170 = Done [DemuxPacket p] /\ contents (buffer_ptr_ p) = annexb [0x65 :: replicate 170 7].
Proof. split; [by vm_compute|]. split; [by vm_compute|]. eexists. split; vm_compute; reflexivity. Qed.
