(* ===== verification/ZMap.v ===== *)
(** * [ZMap]: maps with integer keys in the order of a [std::map]

    An association list in increasing order of the keys: what iteration over a
    [std::map] visits.  [zset] is [m[k] = v], [zerase] is [m.erase(k)]; the first
    binding is [m.begin()]. *)
From Stdlib Require Import Sorting.Sorted.
From S2P Require Import Prelude.

Section zmap.
Context {V : Type}.
Implicit Types (m : list (Z * V)) (k : Z) (v : V).

Fixpoint zfind k m : option V :=
  match m with
  | [] => None
  | (k', v) :: m => if k =? k' then Some v else zfind k m
  end.

Fixpoint zset k v m : list (Z * V) :=
  match m with
  | [] => [(k, v)]
  | (k', v') :: m' =>
      if k <? k' then (k, v) :: m
      else if k' <? k then (k', v') :: zset k v m'
      else (k', v) :: m'
  end.

Fixpoint zerase k m : list (Z * V) :=
  match m with
  | [] => []
  | (k', v) :: m => if k =? k' then m else (k', v) :: zerase k m
  end.

(** The keys are in order, so none occurs twice. *)
Definition ordered m : Prop := StronglySorted Z.lt (map fst m).

Lemma above_keys k m : Forall (fun b => k < b.1) m <-> Forall (Z.lt k) (map fst m).
Proof. induction m as [|b m IH]; cbn [map]; rewrite ?Forall_nil, ?Forall_cons; [done|]. by rewrite IH. Qed.

Lemma ordered_nil : ordered [].
Proof. constructor. Qed.

Lemma ordered_cons k v m : ordered ((k, v) :: m) <-> Forall (fun b => k < b.1) m /\ ordered m.
Proof.
  unfold ordered. cbn [map fst]. split.
  - inversion_clear 1 as [|? ? Hs Hf]. split; [|done]. by apply above_keys.
  - intros [Hf Hs]. constructor; [done|]. by apply above_keys.
Qed.

Lemma zfind_above k m : Forall (fun b => k < b.1) m -> zfind k m = None.
Proof.
  induction 1 as [|[k' v] m Hk _ IH]; [done|]. cbn in Hk |- *. destruct (Z.eqb_spec k k'); [lia|done].
Qed.

Lemma zfind_In k v m : zfind k m = Some v -> (k, v) ∈ m.
Proof.
  induction m as [|[k' v'] m IH]; [done|]. cbn. destruct (Z.eqb_spec k k') as [->|]; [intros [= ->]; by left|].
  intros Hf. right. by apply IH.
Qed.

Lemma In_zfind k v m : ordered m -> (k, v) ∈ m -> zfind k m = Some v.
Proof.
  induction m as [|[k' v'] m IH]; intros Ho Hin; [by apply not_elem_of_nil in Hin|].
  apply ordered_cons in Ho as [Hf Ho]. apply elem_of_cons in Hin as [[= -> ->]|Hin]; cbn; [by rewrite Z.eqb_refl|].
  destruct (Z.eqb_spec k k') as [->|]; [|by apply IH].
  rewrite Forall_forall in Hf. specialize (Hf _ Hin). cbn in Hf. lia.
Qed.

Lemma zfind_zset k v k' m : ordered m -> zfind k' (zset k v m) = if k' =? k then Some v else zfind k' m.
Proof.
  induction m as [|[k0 v0] m IH]; intros Ho; [done|]. apply ordered_cons in Ho as [Hf Ho]. cbn [zset].
  destruct (Z.ltb_spec k k0); [done|]. destruct (Z.ltb_spec k0 k).
  - cbn [zfind]. rewrite IH by done. destruct (Z.eqb_spec k' k0), (Z.eqb_spec k' k); (done || lia).
  - assert (k = k0) as -> by lia. cbn [zfind]. by destruct (k' =? k0).
Qed.

Lemma zset_Forall (P : Z * V -> Prop) k v m : P (k, v) -> Forall P m -> Forall P (zset k v m).
Proof.
  intros Hp. induction 1 as [|[k0 v0] m H0 Hm IH]; cbn [zset]; [by repeat constructor|].
  destruct (Z.ltb_spec k k0); [by repeat constructor|]. destruct (Z.ltb_spec k0 k); [by constructor|].
  assert (k0 = k) as -> by lia. by constructor.
Qed.

Lemma zset_ordered k v m : ordered m -> ordered (zset k v m).
Proof.
  induction m as [|[k0 v0] m IH]; intros Ho; [by repeat constructor|]. cbn [zset].
  destruct (Z.ltb_spec k k0).
  - apply ordered_cons. split; [|done]. apply ordered_cons in Ho as [Hf _]. constructor; [done|].
    eapply Forall_impl; [exact Hf|]. cbn. lia.
  - apply ordered_cons in Ho as [Hf Ho]. destruct (Z.ltb_spec k0 k); apply ordered_cons; split; try done.
    + by apply zset_Forall.
    + by apply IH.
Qed.

Lemma zerase_sublist k m : zerase k m `sublist_of` m.
Proof.
  induction m as [|[k0 v0] m IH]; [done|]. cbn [zerase]. destruct (k =? k0); [by apply sublist_cons|by apply sublist_skip].
Qed.

Lemma sublist_Forall (P : Z * V -> Prop) m m' : m' `sublist_of` m -> Forall P m -> Forall P m'.
Proof. induction 1; rewrite ?Forall_cons; tauto. Qed.

Lemma sublist_ordered m m' : m' `sublist_of` m -> ordered m -> ordered m'.
Proof.
  induction 1 as [|[k v] m' m Hs IH|[k v] m' m Hs IH]; [done|..]; rewrite !ordered_cons.
  - intros [Hf Ho]. split; [by eapply sublist_Forall|by apply IH].
  - intros [_ Ho]. by apply IH.
Qed.

Lemma zfind_zerase k k' m : ordered m -> zfind k' (zerase k m) = if k' =? k then None else zfind k' m.
Proof.
  induction m as [|[k0 v0] m IH]; intros Ho; [by destruct (k' =? k)|]. apply ordered_cons in Ho as [Hf Ho]. cbn [zerase zfind].
  destruct (Z.eqb_spec k k0) as [->|].
  - destruct (Z.eqb_spec k' k0) as [->|]; [by apply zfind_above|done].
  - cbn [zfind]. rewrite IH by done. destruct (Z.eqb_spec k' k0), (Z.eqb_spec k' k); (done || lia).
Qed.

Lemma zerase_absent k m : zfind k m = None -> zerase k m = m.
Proof. induction m as [|[k0 v0] m IH]; [done|]. cbn. destruct (k =? k0); [done|]. intros Hf. by rewrite IH. Qed.

(** Two maps with the same bindings are the same list. *)
Lemma zmap_eq m m' : ordered m -> ordered m' -> (forall k, zfind k m = zfind k m') -> m = m'.
Proof.
  revert m'. induction m as [|[k v] m IH]; intros m' Ho Ho' He.
  - destruct m' as [|[k' v'] m']; [done|]. specialize (He k'). cbn in He. by rewrite Z.eqb_refl in He.
  - destruct m' as [|[k' v'] m']; [specialize (He k); cbn in He; by rewrite Z.eqb_refl in He|].
    apply ordered_cons in Ho as [Hf Ho], Ho' as [Hf' Ho'].
    assert (forall x w l, zfind x l = Some w -> forall y, Forall (fun b => y < b.1) l -> y < x) as Hlt.
    { intros x w l Hx y Hl. apply zfind_In in Hx. rewrite Forall_forall in Hl. by apply (Hl (x, w)). }
    assert (k = k') as <-.
    { pose proof (He k) as H1. pose proof (He k') as H2. cbn in H1, H2. rewrite Z.eqb_refl in H1, H2.
      destruct (Z.eqb_spec k k'); [done|]. destruct (Z.eqb_spec k' k); [done|].
      symmetry in H1. pose proof (Hlt _ _ _ H1 _ Hf'). pose proof (Hlt _ _ _ H2 _ Hf). lia. }
    pose proof (He k) as Hk. cbn in Hk. rewrite Z.eqb_refl in Hk. injection Hk as <-. f_equal.
    apply IH; [done|done|]. intros x. pose proof (He x) as Hx. cbn in Hx. destruct (Z.eqb_spec x k); [subst; by rewrite !zfind_above|done].
Qed.
Lemma sublist_zfind k m m' : ordered m -> m' `sublist_of` m -> zfind k m' = None \/ zfind k m' = zfind k m.
Proof.
  intros Ho Hs. destruct (zfind k m') as [i|] eqn:E; [|by left]. right. symmetry.
  apply In_zfind; [done|]. apply zfind_In in E. by eapply elem_of_submseteq, sublist_submseteq.
Qed.

End zmap.

Create HintDb zmap.
#[export] Hint Resolve ordered_nil zset_ordered : zmap.
