(* ===== verification/Nack.v ===== *)
(** * [Nack]: the list of lost RTP packets

    Models [src/net/webrtc/nack_generator.cpp] and the sequence number order of
    [src/net/rtprtcp/rtprtcp_pub.hpp].  Of a packet [UpdateNackList] reads only
    the sequence number.  [nack_map_] is the list of its bindings in key order;
    the lists given to [GenerateNackList] are appended to [n_sent_].  The clock is
    the argument of [OnTimer]. *)
From Stdlib Require Import Sorting.Sorted.
From stdpp Require Import sorting.
From S2P Require Import Prelude ZMap.

Definition NACK_LIST_MAX : Z := 5000.
Definition NACK_RETRY_MAX : Z := 20.
Definition NACK_DEFAULT_RTT : Z := 15.
Definition SEQUENCE_MAX : Z := 65535.

Definition SeqLowerThan (seq1 seq2 : Z) : bool :=
  if (seq2 <? seq1) && (SEQUENCE_MAX `quot` 2 <? seq1 - seq2) then true
  else if (seq1 <? seq2) && (seq2 - seq1 <=? SEQUENCE_MAX `quot` 2) then true else false.
Definition SeqHigherThan (seq1 seq2 : Z) : bool :=
  if seq1 =? seq2 then false else negb (SeqLowerThan seq1 seq2).

Record NACK_INFO := mkNack { n_seq : Z; sent_ms : Z; retry : Z }.

Record NackGenerator := mkNackGenerator {
  n_init_flag_ : bool;
  last_seq_ : Z;
  nack_map_ : list (Z * NACK_INFO);
  rtt_ : Z;
  n_sent_ : list (list Z)
}.
Definition NackGenerator_new : NackGenerator := mkNackGenerator false 0 [] NACK_DEFAULT_RTT [].

Definition set_last_seq (v : Z) (n : NackGenerator) : NackGenerator :=
  mkNackGenerator (n_init_flag_ n) v (nack_map_ n) (rtt_ n) (n_sent_ n).
Definition set_nack_map (v : list (Z * NACK_INFO)) (n : NackGenerator) : NackGenerator :=
  mkNackGenerator (n_init_flag_ n) (last_seq_ n) v (rtt_ n) (n_sent_ n).
Definition UpdateRtt (rtt : Z) (n : NackGenerator) : NackGenerator :=
  mkNackGenerator (n_init_flag_ n) (last_seq_ n) (nack_map_ n) rtt (n_sent_ n).
Definition GenerateNackList (seqs : list Z) (n : NackGenerator) : NackGenerator :=
  mkNackGenerator (n_init_flag_ n) (last_seq_ n) (nack_map_ n) (rtt_ n) (n_sent_ n ++ [seqs]).

(** [for (uint16_t key_seq = ...; key_seq < seq_end; key_seq++)] *)
Fixpoint add_gap (fuel : nat) (key_seq seq_end : Z) (m : list (Z * NACK_INFO)) : outcome (list (Z * NACK_INFO)) :=
  match fuel with
  | O => Fault OutOfFuel
  | S fuel =>
      if key_seq <? seq_end then
        add_gap fuel (u16 (key_seq + 1)) seq_end
          (match zfind key_seq m with None => zset key_seq (mkNack key_seq 0 0) m | Some _ => m end)
      else mret m
  end.

Definition UpdateNackList (seq : Z) (n : NackGenerator) : outcome NackGenerator :=
  if negb (n_init_flag_ n) then
    mret (mkNackGenerator true seq (nack_map_ n) (rtt_ n) (n_sent_ n))
  else if seq =? last_seq_ n then mret n
  else if SeqLowerThan seq (last_seq_ n) then
    match zfind seq (nack_map_ n) with
    | Some _ => mret (set_nack_map (zerase seq (nack_map_ n)) n)
    | None => mret n
    end
  else if last_seq_ n + 1 =? seq then mret (set_last_seq seq n)
  else
    let seq_start := last_seq_ n in
    let seq_end := seq in
    let n := set_last_seq seq n in
    m ← add_gap (S (Z.to_nat seq_end)) (u16 (seq_start + 1)) seq_end (nack_map_ n);
    mret (set_nack_map m n).

(** The loop over the map: what is left of it, and the numbers to ask for. *)
Fixpoint nack_loop (now_ms rtt : Z) (m : list (Z * NACK_INFO)) : list (Z * NACK_INFO) * list Z :=
  match m with
  | [] => ([], [])
  | (k, i) :: m =>
      let '(m', lost) := nack_loop now_ms rtt m in
      if NACK_RETRY_MAX <? retry i then (m', lost)
      else if now_ms - sent_ms i <? rtt then ((k, i) :: m', lost)
      else ((k, mkNack (n_seq i) now_ms (retry i + 1)) :: m', k :: lost)
  end.

(** [while (nack_map_.size() > NACK_LIST_MAX) nack_map_.erase(nack_map_.begin())] *)
Fixpoint trim (m : list (Z * NACK_INFO)) : list (Z * NACK_INFO) :=
  match m with
  | [] => []
  | _ :: m' => if NACK_LIST_MAX <? zlen m then trim m' else m
  end.

Definition OnTimer (now_ms : Z) (n : NackGenerator) : NackGenerator :=
  match nack_map_ n with
  | [] => n
  | _ =>
      let '(m, lost_seq_list) := nack_loop now_ms (rtt_ n) (nack_map_ n) in
      let n := set_nack_map m n in
      let n := match lost_seq_list with [] => n | _ => GenerateNackList (merge_sort Z.le lost_seq_list) n end in
      set_nack_map (trim (nack_map_ n)) n
  end.

(** ** The invariant *)

Definition is_seq (s : Z) : Prop := 0 <= s <= SEQUENCE_MAX.
Definition entry_ok (b : Z * NACK_INFO) : Prop :=
  is_seq b.1 /\ n_seq b.2 = b.1 /\ 0 <= retry b.2 <= NACK_RETRY_MAX + 1.
Record nack_ok (n : NackGenerator) : Prop := {
  ok_ordered : ordered (nack_map_ n);
  ok_entries : Forall entry_ok (nack_map_ n);
  ok_last : is_seq (last_seq_ n)
}.

Lemma add_gap_spec fuel key seq_end m :
  is_seq key -> is_seq seq_end -> ordered m -> Forall entry_ok m -> (Z.to_nat (seq_end - key) < fuel)%nat ->
  exists m', add_gap fuel key seq_end m = Done m' /\ ordered m' /\ Forall entry_ok m' /\
    forall k, zfind k m' =
      match zfind k m with
      | Some i => Some i
      | None => if (key <=? k) && (k <? seq_end) then Some (mkNack k 0 0) else None
      end.
Proof.
  unfold is_seq, SEQUENCE_MAX. revert key m. induction fuel as [|fuel IH]; intros key m Hk He Ho Hf Hfuel; [lia|].
  cbn [add_gap]. destruct (Z.ltb_spec key seq_end) as [Hlt|Hge].
  - set (m1 := match zfind key m with None => _ | Some _ => m end).
    assert (ordered m1 /\ Forall entry_ok m1) as [Ho1 Hf1].
    { unfold m1. destruct (zfind key m); [done|]. split; [by apply zset_ordered|].
      apply zset_Forall; [|done]. unfold entry_ok, is_seq, SEQUENCE_MAX, NACK_RETRY_MAX. cbn. lia. }
    rewrite u16_small by lia.
    destruct (IH (key + 1) m1) as (m' & -> & Ho' & Hf' & Hfind); [lia|lia|done|done|lia|].
    exists m'. split_and!; try done. intros k. rewrite Hfind. unfold m1. destruct (zfind key m) as [i|] eqn:E.
    + destruct (zfind k m) eqn:Ek; [done|]. destruct (Z.eqb_spec k key) as [->|]; [congruence|].
      destruct (Z.leb_spec (key + 1) k), (Z.leb_spec key k); (done || lia).
    + rewrite zfind_zset by done. destruct (Z.eqb_spec k key) as [->|].
      * rewrite E. destruct (Z.leb_spec key key); [|lia]. by destruct (Z.ltb_spec key seq_end); [|lia].
      * destruct (zfind k m); [done|]. destruct (Z.leb_spec (key + 1) k), (Z.leb_spec key k); (done || lia).
  - exists m. split_and!; try done. intros k. destruct (zfind k m); [done|].
    destruct (Z.leb_spec key k), (Z.ltb_spec k seq_end); (done || lia).
Qed.

(** What the loop makes of one binding. *)
Definition nack_step (now rtt : Z) (i : NACK_INFO) : option NACK_INFO :=
  if NACK_RETRY_MAX <? retry i then None
  else if now - sent_ms i <? rtt then Some i else Some (mkNack (n_seq i) now (retry i + 1)).
Definition nack_asks (now rtt : Z) (i : NACK_INFO) : bool :=
  negb (NACK_RETRY_MAX <? retry i) && negb (now - sent_ms i <? rtt).

Lemma nack_loop_ok now rtt m :
  ordered m -> Forall entry_ok m ->
  let '(m', lost) := nack_loop now rtt m in
  ordered m' /\ Forall entry_ok m' /\ StronglySorted Z.lt lost /\ (length m' <= length m)%nat /\
  (forall k, zfind k m' = zfind k m ≫= nack_step now rtt) /\
  (forall k, k ∈ lost <-> exists i, zfind k m = Some i /\ nack_asks now rtt i = true) /\
  (forall b, Forall (fun c => b < c.1) m -> Forall (fun c => b < c.1) m' /\ Forall (Z.lt b) lost).
Proof.
  induction m as [|[k0 i0] m IH]; intros Ho Hf.
  { cbn. split_and!; try by constructor. intros k. rewrite elem_of_nil. split; [done|by intros (? & ? & _)]. }
  pose proof Ho as Ho0. apply ordered_cons in Ho as [Hb Ho]. inversion_clear Hf as [|? ? [Hk [Hs Hr]] Hf'].
  specialize (IH Ho Hf'). cbn [nack_loop]. destruct (nack_loop now rtt m) as [m' lost] eqn:E.
  destruct IH as (Ho' & Hf2 & Hss & Hlen & Hfind & Hlost & Habove). destruct (Habove k0 Hb) as [Hm' Hl'].
  cbn [fst snd] in *. assert (zfind k0 m = None) as Hk0 by by apply zfind_above.
  assert (k0 ∉ lost) as Hnot by (intros Hin; rewrite Forall_forall in Hl'; specialize (Hl' _ Hin); lia).
  set (res := if NACK_RETRY_MAX <? retry i0 then _ else _).
  assert (res = (match nack_step now rtt i0 with Some i => (k0, i) :: m' | None => m' end,
                 if nack_asks now rtt i0 then k0 :: lost else lost)) as ->.
  { unfold res, nack_step, nack_asks. destruct (_ <? retry i0); [done|]. by destruct (_ <? rtt). }
  assert (forall i, nack_step now rtt i0 = Some i -> entry_ok (k0, i)) as Hstep.
  { unfold nack_step, entry_ok. cbn. destruct (Z.ltb_spec NACK_RETRY_MAX (retry i0)); [done|].
    destruct (_ <? rtt); intros i [= <-]; cbn; split_and!; (done || lia). }
  split_and!.
  - destruct (nack_step now rtt i0); [|done]. by apply ordered_cons.
  - destruct (nack_step now rtt i0); [|done]. constructor; [by apply Hstep|done].
  - destruct (nack_asks now rtt i0); [by constructor|done].
  - destruct (nack_step now rtt i0); cbn; lia.
  - intros k. assert (zfind k (match nack_step now rtt i0 with Some i => (k0, i) :: m' | None => m' end) =
      if k =? k0 then nack_step now rtt i0 else zfind k m') as ->.
    { destruct (nack_step now rtt i0); cbn; [by destruct (k =? k0)|].
      destruct (Z.eqb_spec k k0) as [->|]; [|done]. by rewrite Hfind, Hk0. }
    cbn [zfind]. destruct (k =? k0); [done|]. by rewrite Hfind.
  - intros k. cbn [zfind]. destruct (Z.eqb_spec k k0) as [->|Hne].
    + transitivity (nack_asks now rtt i0 = true); [|split; [intros Ha; by exists i0|by intros (i & [= <-] & Ha)]].
      destruct (nack_asks now rtt i0); [|done]. split; [done|]. intros _. by left.
    + rewrite <- Hlost. destruct (nack_asks now rtt i0); [|done]. rewrite elem_of_cons. tauto.
  - intros b Hb'. inversion_clear Hb' as [|? ? Hk0b Hbm]. cbn in Hk0b. destruct (Habove b Hbm) as [H1 H2].
    split; [destruct (nack_step now rtt i0)|destruct (nack_asks now rtt i0)]; try done; by constructor.
Qed.

Lemma trim_spec m :
  trim m `sublist_of` m /\ zlen (trim m) <= NACK_LIST_MAX /\ (zlen m <= NACK_LIST_MAX -> trim m = m).
Proof.
  induction m as [|b m (Hs & Hl & _)]; [done|]. cbn [trim]. destruct (Z.ltb_spec NACK_LIST_MAX (zlen (b :: m))).
  - split_and!; [by apply sublist_cons|done|lia].
  - by split_and!.
Qed.

Lemma lt_sorted_merge_sort l : StronglySorted Z.lt l -> merge_sort Z.le l = l.
Proof.
  intros Hl. apply (Sorted_unique Z.le); [apply Sorted_merge_sort; [apply _]| |apply merge_sort_Permutation].
  apply StronglySorted_Sorted. induction Hl as [|x l Hs IH Hf]; constructor; [done|].
  eapply Forall_impl; [exact Hf|]. cbn. lia.
Qed.

(** One timer: what it asks for and what becomes of each entry. *)
Lemma OnTimer_spec now n : nack_ok n ->
  nack_ok (OnTimer now n) /\ last_seq_ (OnTimer now n) = last_seq_ n /\ rtt_ (OnTimer now n) = rtt_ n /\
  zlen (nack_map_ (OnTimer now n)) <= NACK_LIST_MAX /\
  (forall k, zfind k (nack_map_ (OnTimer now n)) = None \/
             zfind k (nack_map_ (OnTimer now n)) = zfind k (nack_map_ n) ≫= nack_step now (rtt_ n)) /\
  exists lost, StronglySorted Z.lt lost /\
    n_sent_ (OnTimer now n) = n_sent_ n ++ (match lost with [] => [] | _ => [lost] end) /\
    forall k, k ∈ lost <-> exists i, zfind k (nack_map_ n) = Some i /\ nack_asks now (rtt_ n) i = true.
Proof.
  intros [Ho Hf Hl]. unfold OnTimer. pose proof (nack_loop_ok now (rtt_ n) (nack_map_ n) Ho Hf) as Hloop.
  destruct (nack_map_ n) as [|b m] eqn:E.
  - split_and!; try done; [by constructor; rewrite ?E|by rewrite E|intros k; left; by rewrite E|].
    exists []. split_and!; [constructor|by rewrite app_nil_r|]. intros k. rewrite elem_of_nil. split; [done|by intros (? & ? & _)].
  - destruct (nack_loop now (rtt_ n) (b :: m)) as [m' lost].
    destruct Hloop as (Ho' & Hf' & Hss & _ & Hfind & Hlost & _). destruct (trim_spec m') as (Hts & Htl & _).
    set (n1 := match lost with [] => _ | _ => _ end).
    assert (nack_map_ n1 = m' /\ last_seq_ n1 = last_seq_ n /\ rtt_ n1 = rtt_ n /\
      n_sent_ n1 = n_sent_ n ++ (match lost with [] => [] | _ => [lost] end)) as (Hm & Hn1 & Hr & Hsent).
    { unfold n1. destruct lost; [cbn; by rewrite app_nil_r|]. by rewrite (lt_sorted_merge_sort _ Hss). }
    cbn [set_nack_map nack_map_ last_seq_ rtt_ n_sent_]. rewrite Hm, Hn1, Hr, Hsent. split_and!; try done.
    + constructor; cbn; [by eapply sublist_ordered|by eapply sublist_Forall|by rewrite Hn1].
    + intros k. rewrite <- Hfind. by apply sublist_zfind.
    + exists lost. by split_and!.
Qed.

Lemma UpdateNackList_ok seq n : nack_ok n -> is_seq seq ->
  exists n', UpdateNackList seq n = Done n' /\ nack_ok n' /\ n_sent_ n' = n_sent_ n.
Proof.
  intros [Ho Hf Hl] Hs. unfold UpdateNackList.
  assert (is_seq (u16 (last_seq_ n + 1))) as Hk by (unfold is_seq, u16, SEQUENCE_MAX; pose proof (Z.mod_pos_bound (last_seq_ n + 1) (2 ^ 16)); lia).
  destruct (n_init_flag_ n); cbn [negb]; [|by eexists].
  destruct (seq =? last_seq_ n); [by eexists|]. destruct (SeqLowerThan _ _).
  - destruct (zfind seq (nack_map_ n)); [|by eexists]. eexists. split_and!; [done| |done].
    pose proof (zerase_sublist seq (nack_map_ n)). constructor; [by eapply sublist_ordered|by eapply sublist_Forall|done].
  - destruct (_ =? seq); [by eexists|]. cbn [set_last_seq nack_map_].
    destruct (add_gap_spec (S (Z.to_nat seq)) (u16 (last_seq_ n + 1)) seq (nack_map_ n)) as (m' & -> & Ho' & Hf' & _);
      [done..|unfold is_seq in *; lia|]. simpl_m. by eexists.
Qed.

(** ** A run *)

Inductive nack_op := OpPacket (seq : Z) | OpTimer (now_ms : Z) | OpRtt (rtt : Z).
Definition nack_op_ok (o : nack_op) : Prop := match o with OpPacket seq => is_seq seq | _ => True end.
Fixpoint nack_run (ops : list nack_op) (n : NackGenerator) : outcome NackGenerator :=
  match ops with
  | [] => mret n
  | OpPacket seq :: ops => n ← UpdateNackList seq n; nack_run ops n
  | OpTimer now :: ops => nack_run ops (OnTimer now n)
  | OpRtt rtt :: ops => nack_run ops (UpdateRtt rtt n)
  end.

(** C35. Over every sequence of packets, timers and round trip times the generator
    answers (the loop over a gap ends), its map stays in key order with the key
    of an entry in the entry and at most 21 requests counted, and every list it
    asks for is in strictly increasing order. *)
Theorem nack_run_ok ops : Forall nack_op_ok ops ->
  exists n, nack_run ops NackGenerator_new = Done n /\ nack_ok n /\ Forall (StronglySorted Z.lt) (n_sent_ n).
Proof.
  intros Hops. assert (nack_ok NackGenerator_new) as Hok by (constructor; [constructor|constructor|done]).
  assert (Forall (StronglySorted Z.lt) (n_sent_ NackGenerator_new)) as Hsent by constructor.
  revert Hok Hsent. generalize NackGenerator_new. induction Hops as [|o ops Ho Hops IH]; intros n Hok Hsent; [by eexists|].
  destruct o as [seq|now|rtt]; cbn [nack_run].
  - destruct (UpdateNackList_ok seq n Hok Ho) as (n' & -> & Hok' & Hs). apply IH; [done|]. by rewrite Hs.
  - destruct (OnTimer_spec now n Hok) as (Hok' & _ & _ & _ & _ & lost & Hss & Hs & _). apply IH; [done|].
    rewrite Hs. apply Forall_app. split; [done|]. destruct lost; [done|]. by apply Forall_singleton.
  - apply IH; [|done]. destruct Hok. by constructor.
Qed.

Lemma nack_run_ok_witness :
  let ops := [OpPacket 7; OpPacket 10; OpTimer 100; OpPacket 9; OpTimer 200] in
  Forall nack_op_ok ops /\
  exists n, nack_run ops NackGenerator_new = Done n /\ nack_ok n /\ n_sent_ n = [[8; 9]; [8]].
Proof.
  split; [repeat constructor; by vm_compute|].
  destruct (nack_run_ok [OpPacket 7; OpPacket 10; OpTimer 100; OpPacket 9; OpTimer 200]) as (n & Hn & Hok & Hs);
    [repeat constructor; by vm_compute|].
  exists n. split; [done|]. split; [done|]. vm_compute in Hn. injection Hn as <-. reflexivity.
Defined.

(** ** A gap and its repair *)

Lemma SeqLowerThan_plain a b : 0 <= a < b -> b - a <= 32767 -> SeqLowerThan a b = true /\ SeqLowerThan b a = false.
Proof.
  intros H1 H2. unfold SeqLowerThan. change (SEQUENCE_MAX `quot` 2) with 32767. split.
  - rewrite (proj2 (Z.ltb_ge b a)), (proj2 (Z.ltb_lt a b)), (proj2 (Z.leb_le _ _)) by lia. done.
  - rewrite (proj2 (Z.ltb_lt a b)), (proj2 (Z.ltb_ge 32767 _)), (proj2 (Z.ltb_ge b a)) by lia. done.
Qed.

Lemma UpdateNackList_gap seq n :
  nack_ok n -> n_init_flag_ n = true -> last_seq_ n < seq <= SEQUENCE_MAX -> seq - last_seq_ n <= 32767 ->
  exists m, UpdateNackList seq n = Done (set_nack_map m (set_last_seq seq n)) /\ ordered m /\
    forall k, zfind k m =
      match zfind k (nack_map_ n) with
      | Some i => Some i
      | None => if (last_seq_ n <? k) && (k <? seq) then Some (mkNack k 0 0) else None
      end.
Proof.
  intros [Ho Hf Hl] Hi Hs Hd. unfold is_seq, SEQUENCE_MAX in *. unfold UpdateNackList. rewrite Hi. cbn [negb].
  rewrite (proj2 (Z.eqb_neq seq (last_seq_ n))) by lia.
  destruct (SeqLowerThan_plain (last_seq_ n) seq) as [_ ->]; [lia|lia|].
  destruct (Z.eqb_spec (last_seq_ n + 1) seq) as [He|He].
  - exists (nack_map_ n). split_and!; [by destruct n|done|]. intros k. destruct (zfind k (nack_map_ n)); [done|].
    destruct (Z.ltb_spec (last_seq_ n) k), (Z.ltb_spec k seq); (done || lia).
  - rewrite u16_small by lia. cbn [set_last_seq nack_map_].
    destruct (add_gap_spec (S (Z.to_nat seq)) (last_seq_ n + 1) seq (nack_map_ n)) as (m & -> & Hm & _ & Hfind);
      [unfold is_seq, SEQUENCE_MAX; lia|unfold is_seq, SEQUENCE_MAX; lia|done|done|lia|].
    exists m. split_and!; [done|done|]. intros k. rewrite Hfind. destruct (zfind k (nack_map_ n)); [done|].
    destruct (Z.leb_spec (last_seq_ n + 1) k), (Z.ltb_spec (last_seq_ n) k); (done || lia).
Qed.

Fixpoint updates (seqs : list Z) (n : NackGenerator) : outcome NackGenerator :=
  match seqs with
  | [] => mret n
  | seq :: seqs => n ← UpdateNackList seq n; updates seqs n
  end.

(** Late packets only take their own numbers off the list. *)
Lemma updates_late seqs n :
  n_init_flag_ n = true -> ordered (nack_map_ n) ->
  Forall (fun k => 0 <= k < last_seq_ n /\ last_seq_ n - k <= 32767) seqs ->
  exists m, updates seqs n = Done (set_nack_map m n) /\ ordered m /\
    forall k, zfind k m = if bool_decide (k ∈ seqs) then None else zfind k (nack_map_ n).
Proof.
  intros Hi Ho Hs. revert n Hi Ho Hs. induction seqs as [|s seqs IH]; intros n Hi Ho Hs.
  { exists (nack_map_ n). split_and!; [by destruct n|done|done]. }
  inversion_clear Hs as [|? ? [Hr Hd] Hss]. cbn [updates].
  assert (UpdateNackList s n = Done (set_nack_map (zerase s (nack_map_ n)) n)) as ->.
  { unfold UpdateNackList. rewrite Hi. cbn [negb]. rewrite (proj2 (Z.eqb_neq s (last_seq_ n))) by lia.
    destruct (SeqLowerThan_plain s (last_seq_ n)) as [-> _]; [lia|lia|].
    destruct (zfind s (nack_map_ n)) eqn:E; [done|]. rewrite zerase_absent by done. by destruct n. }
  simpl_m. set (n1 := set_nack_map _ n).
  destruct (IH n1 Hi) as (m & Hm & Hom & Hfind); [by eapply sublist_ordered, Ho; apply zerase_sublist|done|].
  exists m. split_and!; [by rewrite Hm|done|]. intros k. rewrite Hfind. cbn [n1 set_nack_map nack_map_].
  rewrite zfind_zerase by done. destruct (Z.eqb_spec k s) as [->|Hne].
  - rewrite (bool_decide_eq_true_2 (s ∈ s :: seqs)) by by left. by case_bool_decide.
  - rewrite (bool_decide_ext (k ∈ s :: seqs) (k ∈ seqs)); [done|]. rewrite elem_of_cons. tauto.
Qed.

(** C36. A gap is listed exactly and repaired exactly: a packet ahead of the last
    one (by at most 32767, without wrapping) puts precisely the numbers in between
    on the list; once those packets have arrived late, in any order and any number
    of times, the list is what it was before the gap. *)
Theorem nack_recovers seq late n :
  nack_ok n -> n_init_flag_ n = true -> last_seq_ n < seq <= SEQUENCE_MAX -> seq - last_seq_ n <= 32767 ->
  (forall k, last_seq_ n < k < seq -> zfind k (nack_map_ n) = None) ->
  (forall k, k ∈ late <-> last_seq_ n < k < seq) ->
  exists n1 n2, UpdateNackList seq n = Done n1 /\ last_seq_ n1 = seq /\
    (forall k, zfind k (nack_map_ n1) = if decide (last_seq_ n < k < seq) then Some (mkNack k 0 0) else zfind k (nack_map_ n)) /\
    updates late n1 = Done n2 /\ nack_map_ n2 = nack_map_ n /\ last_seq_ n2 = seq.
Proof.
  intros Hok Hi Hs Hd Hnew Hlate. destruct (UpdateNackList_gap seq n Hok Hi Hs Hd) as (m & -> & Hm & Hfind).
  assert (forall k, zfind k m = if decide (last_seq_ n < k < seq) then Some (mkNack k 0 0) else zfind k (nack_map_ n)) as Hg.
  { intros k. rewrite Hfind. destruct (decide (last_seq_ n < k < seq)).
    - rewrite Hnew by done. destruct (Z.ltb_spec (last_seq_ n) k), (Z.ltb_spec k seq); (done || lia).
    - destruct (zfind k (nack_map_ n)); [done|]. destruct (Z.ltb_spec (last_seq_ n) k), (Z.ltb_spec k seq); (done || lia). }
  destruct Hok as [Ho Hf Hl]. unfold is_seq in Hl. set (n1 := set_nack_map m (set_last_seq seq n)).
  destruct (updates_late late n1) as (m2 & Hu & Hm2 & Hfind2); [done|done| |].
  { rewrite Forall_forall. intros k Hk%Hlate. cbn [n1 set_nack_map set_last_seq last_seq_]. lia. }
  exists n1, (set_nack_map m2 n1). split_and!; try done. apply zmap_eq; [done|done|].
  intros k. cbn [set_nack_map nack_map_]. rewrite Hfind2. cbn [n1 set_nack_map nack_map_]. rewrite Hg.
  case_bool_decide as Hk; rewrite Hlate in Hk; destruct (decide (last_seq_ n < k < seq)); try tauto.
  by rewrite Hnew.
Qed.

Lemma nack_recovers_witness :
  let n := set_nack_map [(3, mkNack 3 40 1)] (mkNackGenerator true 7 [] 15 []) in
  exists n1 n2, UpdateNackList 11 n = Done n1 /\ nack_map_ n1 = [(3, mkNack 3 40 1); (8, mkNack 8 0 0); (9, mkNack 9 0 0); (10, mkNack 10 0 0)] /\
    updates [9; 10; 9; 8] n1 = Done n2 /\ nack_map_ n2 = [(3, mkNack 3 40 1)].
Proof.
  set (n := set_nack_map [(3, mkNack 3 40 1)] (mkNackGenerator true 7 [] 15 [])).
  destruct (nack_recovers 11 [9; 10; 9; 8] n) as (n1 & n2 & H1 & _ & _ & H2 & H3 & _).
  - constructor; cbn; [repeat constructor|repeat constructor; by vm_compute|by vm_compute].
  - done.
  - by vm_compute.
  - by vm_compute.
  - intros k Hk. change (7 < k < 11) in Hk. cbn. destruct (Z.eqb_spec k 3); [lia|done].
  - intros k. change (last_seq_ n) with 7. rewrite !elem_of_cons, elem_of_nil. lia.
  - exists n1, n2. split_and!; [done| |done|done]. vm_compute in H1. injection H1 as <-. reflexivity.
Defined.

(** The number after a wrap hides a gap: when the next packet has a smaller
    number and is not taken for a late one, the loop from [last_seq_ + 1] to it
    does not run, so no packet lost across the wrap is ever asked for. *)
Theorem gap_across_wrap_unlisted seq n :
  n_init_flag_ n = true -> is_seq (last_seq_ n) -> 0 <= seq -> 32767 < last_seq_ n - seq ->
  last_seq_ n <> SEQUENCE_MAX -> UpdateNackList seq n = Done (set_last_seq seq n).
Proof.
  intros Hi Hl H0 Hd Hne. unfold is_seq, SEQUENCE_MAX in *. unfold UpdateNackList. rewrite Hi. cbn [negb].
  rewrite (proj2 (Z.eqb_neq seq (last_seq_ n))) by lia. unfold SeqLowerThan. change (SEQUENCE_MAX `quot` 2) with 32767.
  rewrite (proj2 (Z.ltb_ge (last_seq_ n) seq)), (proj2 (Z.ltb_lt seq (last_seq_ n))), (proj2 (Z.leb_gt _ 32767)) by lia.
  cbn [andb]. rewrite (proj2 (Z.eqb_neq (last_seq_ n + 1) seq)) by lia. rewrite u16_small by lia. cbn [add_gap].
  rewrite (proj2 (Z.ltb_ge (last_seq_ n + 1) seq)) by lia. simpl_m. by destruct n.
Qed.

(** After 65533 comes 2: 65534, 65535, 0 and 1 are lost. *)
Lemma gap_across_wrap_unlisted_witness :
  let n := mkNackGenerator true 65533 [] 15 [] in
  32767 < 65533 - 2 /\ UpdateNackList 2 n = Done (set_last_seq 2 n).
Proof. split; [done|]. by apply gap_across_wrap_unlisted. Defined.

(** ** Requests come to an end *)

Fixpoint timers (clocks : list Z) (n : NackGenerator) : NackGenerator :=
  match clocks with [] => n | now :: clocks => timers clocks (OnTimer now n) end.

(** How many of the lists sent ask for [k]. *)
Definition asked (k : Z) (n : NackGenerator) : Z := zlen (filter (fun l => k ∈ l) (n_sent_ n)).

(** Clock readings at least [rtt] apart, from [t] on. *)
Fixpoint spaced (t rtt : Z) (clocks : list Z) : Prop :=
  match clocks with [] => True | now :: clocks => t + rtt <= now /\ spaced now rtt clocks end.

Lemma asked_OnTimer k now n : nack_ok n ->
  asked k (OnTimer now n) = asked k n +
    (match zfind k (nack_map_ n) with Some i => if nack_asks now (rtt_ n) i then 1 else 0 | None => 0 end).
Proof.
  intros Hok. destruct (OnTimer_spec now n Hok) as (_ & _ & _ & _ & _ & lost & _ & Hs & Hl). specialize (Hl k).
  unfold asked. rewrite Hs, filter_app, zlen_app. f_equal. destruct lost as [|x lost].
  - cbn. destruct (zfind k (nack_map_ n)) as [i|]; [|done]. destruct (nack_asks now (rtt_ n) i) eqn:E; [|done].
    assert (k ∈ @nil Z) as Hn by (apply Hl; by exists i). by apply not_elem_of_nil in Hn.
  - rewrite filter_cons. destruct (zfind k (nack_map_ n)) as [i|].
    + destruct (nack_asks now (rtt_ n) i) eqn:E; destruct (decide (k ∈ x :: lost)) as [Hk|Hk]; try done.
      * destruct Hk. apply Hl. by exists i.
      * apply Hl in Hk as (? & [= <-] & Hk). by rewrite E in Hk.
    + destruct (decide (k ∈ x :: lost)) as [Hk|Hk]; [|done]. by apply Hl in Hk as (? & ? & _).
Qed.

Lemma zfind_entry_ok k i n : nack_ok n -> zfind k (nack_map_ n) = Some i -> entry_ok (k, i).
Proof. intros [_ Hf _] Hk. rewrite Forall_forall in Hf. apply Hf. by apply zfind_In. Qed.

Lemma gone_stays_gone k clocks n : nack_ok n -> zfind k (nack_map_ n) = None ->
  zfind k (nack_map_ (timers clocks n)) = None /\ asked k (timers clocks n) = asked k n.
Proof.
  revert n. induction clocks as [|now clocks IH]; intros n Hok Hk; [done|]. cbn [timers].
  pose proof (asked_OnTimer k now n Hok) as Ha. rewrite Hk in Ha.
  destruct (OnTimer_spec now n Hok) as (Hok' & _ & _ & _ & Hf & _).
  destruct (IH (OnTimer now n)) as [H1 H2]; [done|by destruct (Hf k) as [->| ->]; rewrite ?Hk|]. split; [done|lia].
Qed.

(** Requests come to an end.  Whatever the clock reads, a listed number is
    asked for at most [NACK_RETRY_MAX + 1] times in all; and when the timer runs
    at least a round trip time apart, 22 runs take it off the list. *)
Theorem nack_gives_up k i n clocks :
  nack_ok n -> zfind k (nack_map_ n) = Some i ->
  asked k (timers clocks n) <= asked k n + (NACK_RETRY_MAX + 1 - retry i) /\
  (spaced (sent_ms i) (rtt_ n) clocks -> NACK_RETRY_MAX + 2 <= retry i + zlen clocks ->
   zfind k (nack_map_ (timers clocks n)) = None).
Proof.
  revert i n. induction clocks as [|now clocks IH]; intros i n Hok Hk; cbn [timers spaced].
  all: destruct (zfind_entry_ok k i n Hok Hk) as (_ & _ & Hr); cbn [snd] in Hr.
  - split; [lia|]. intros _. change (zlen (@nil Z)) with 0. lia.
  - pose proof (asked_OnTimer k now n Hok) as Ha. rewrite Hk in Ha. rewrite zlen_cons.
    destruct (OnTimer_spec now n Hok) as (Hok' & _ & Hrtt & _ & Hf & _). specialize (Hf k). rewrite Hk in Hf. cbn in Hf.
    unfold nack_asks in Ha. unfold nack_step in Hf.
    destruct (Z.ltb_spec NACK_RETRY_MAX (retry i)); cbn [negb andb] in Ha.
    { assert (zfind k (nack_map_ (OnTimer now n)) = None) as Hn by by destruct Hf.
      destruct (gone_stays_gone k clocks _ Hok' Hn) as [H1 H2]. split; [lia|done]. }
    destruct (Z.ltb_spec (now - sent_ms i) (rtt_ n)); cbn [negb andb] in Ha;
      (destruct Hf as [Hn|Hn]; [destruct (gone_stays_gone k clocks _ Hok' Hn) as [H1 H2]; split; [lia|done]|]);
      destruct (IH _ _ Hok' Hn) as [H1 H2]; cbn [retry sent_ms] in *; rewrite Hrtt in H2; (split; [lia|]);
      intros [Hs1 Hs2] Hlen; [lia|apply H2; [done|lia]].
Qed.

Lemma nack_gives_up_witness :
  let n := set_nack_map [(8, mkNack 8 0 19)] (mkNackGenerator true 9 [] 15 []) in
  asked 8 (timers [20; 40; 60] n) <= 2 /\ zfind 8 (nack_map_ (timers [20; 40; 60] n)) = None.
Proof.
  set (n := set_nack_map [(8, mkNack 8 0 19)] (mkNackGenerator true 9 [] 15 [])).
  destruct (nack_gives_up 8 (mkNack 8 0 19) n [20; 40; 60]) as [H1 H2].
  - constructor; cbn; [repeat constructor|repeat constructor; by vm_compute|by vm_compute].
  - done.
  - split; [exact H1|]. apply H2; cbn; [lia|by vm_compute].
Defined.
