(* ===== verification/RtpPacket.v ===== *)
(** * [RtpPacket]: RTP packets in memory

    Models [src/net/rtprtcp/rtp_packet.cpp] and the bit fields of
    [rtprtcp_pub.hpp].  A packet does not own its bytes: [mem_] is the memory from
    the header on, as far as it may be accessed, and the pointers of the class are
    offsets into it, so that the setters, the extension updates and the RTX
    rewriting act on the shared bytes.  [None] stands for the exception of
    [CSM_THROW_ERROR].  The two extension maps are lists in key order; the
    extension loops run on fuel.  [Dump] is left out. *)
From S2P Require Import Prelude ByteStream Double ZMap.

Definition RTP_PACKET_MAX_SIZE : Z := 1500.
Definition RTP_HEADER_SIZE : Z := 12.       (* sizeof(RtpCommonHeader) *)
Definition RTP_SEQ_MOD : Z := Z.shiftl 1 16.

(** ** The header's bit fields *)

Definition csrc_count (m : bytes) : outcome Z := b ← m.[0]; mret (Z.land b 0x0f).
Definition extension (m : bytes) : outcome Z := b ← m.[0]; mret (Z.land (Z.shiftr b 4) 1).
Definition padding (m : bytes) : outcome Z := b ← m.[0]; mret (Z.land (Z.shiftr b 5) 1).
Definition version (m : bytes) : outcome Z := b ← m.[0]; mret (Z.land (Z.shiftr b 6) 3).
Definition payload_type (m : bytes) : outcome Z := b ← m.[1]; mret (Z.land b 0x7f).
Definition marker (m : bytes) : outcome Z := b ← m.[1]; mret (Z.land (Z.shiftr b 7) 1).

(** [lo] bits of [b] from bit [at], set to [v]: a store to a bit field. *)
Definition put_bits (b at_ n v : Z) : Z :=
  Z.lor (Z.land b (255 - Z.shiftl (Z.ones n) at_)) (Z.shiftl (Z.land v (Z.ones n)) at_).

Record RtpPacket := mkRtp {
  mem_ : bytes;
  ext_ : option Z;
  payload_ : Z;
  payload_len_ : Z;
  pad_len_ : Z;
  rtp_data_len_ : Z;
  local_ms_ : Z;
  need_delete_ : bool;
  mid_extension_id_ : Z;
  abs_time_extension_id_ : Z;
  onebyte_ext_map_ : list (Z * Z);
  twobytes_ext_map_ : list (Z * Z)
}.

Definition set_mem (m : bytes) (p : RtpPacket) : RtpPacket :=
  mkRtp m (ext_ p) (payload_ p) (payload_len_ p) (pad_len_ p) (rtp_data_len_ p) (local_ms_ p) (need_delete_ p)
    (mid_extension_id_ p) (abs_time_extension_id_ p) (onebyte_ext_map_ p) (twobytes_ext_map_ p).
Definition set_lens (payload_len pad_len data_len : Z) (p : RtpPacket) : RtpPacket :=
  mkRtp (mem_ p) (ext_ p) (payload_ p) payload_len pad_len data_len (local_ms_ p) (need_delete_ p)
    (mid_extension_id_ p) (abs_time_extension_id_ p) (onebyte_ext_map_ p) (twobytes_ext_map_ p).
Definition set_ext_maps (one two : list (Z * Z)) (p : RtpPacket) : RtpPacket :=
  mkRtp (mem_ p) (ext_ p) (payload_ p) (payload_len_ p) (pad_len_ p) (rtp_data_len_ p) (local_ms_ p) (need_delete_ p)
    (mid_extension_id_ p) (abs_time_extension_id_ p) one two.
Definition set_ext_ids (mid abs : Z) (p : RtpPacket) : RtpPacket :=
  mkRtp (mem_ p) (ext_ p) (payload_ p) (payload_len_ p) (pad_len_ p) (rtp_data_len_ p) (local_ms_ p) (need_delete_ p)
    mid abs (onebyte_ext_map_ p) (twobytes_ext_map_ p).
Definition set_need_delete (b : bool) (p : RtpPacket) : RtpPacket :=
  mkRtp (mem_ p) (ext_ p) (payload_ p) (payload_len_ p) (pad_len_ p) (rtp_data_len_ p) (local_ms_ p) b
    (mid_extension_id_ p) (abs_time_extension_id_ p) (onebyte_ext_map_ p) (twobytes_ext_map_ p).

(** A store of [d] at offset [off]. *)
Definition store (off : Z) (d : bytes) (p : RtpPacket) : outcome RtpPacket :=
  m ← write_at (mem_ p) off d; mret (set_mem m p).

Definition Version (p : RtpPacket) : outcome Z := version (mem_ p).
Definition HasPadding (p : RtpPacket) : outcome bool := v ← padding (mem_ p); mret (v =? 1).
Definition HasExtension (p : RtpPacket) : outcome bool := v ← extension (mem_ p); mret (v =? 1).
Definition CsrcCount (p : RtpPacket) : outcome Z := csrc_count (mem_ p).
Definition GetPayloadType (p : RtpPacket) : outcome Z := payload_type (mem_ p).
Definition GetMarker (p : RtpPacket) : outcome Z := marker (mem_ p).
Definition GetMPayloadType (p : RtpPacket) : outcome Z :=
  k ← marker (mem_ p); t ← payload_type (mem_ p); mret (u8 (Z.lor (Z.shiftl k 7) t)).
Definition GetSeq (p : RtpPacket) : outcome Z := Read2Bytes (drop 2 (mem_ p)).
Definition GetTimestamp (p : RtpPacket) : outcome Z := Read4Bytes (drop 4 (mem_ p)).
Definition GetSsrc (p : RtpPacket) : outcome Z := Read4Bytes (drop 8 (mem_ p)).
Definition GetPayload (p : RtpPacket) : outcome bytes := read_range (mem_ p) (payload_ p) (payload_len_ p).

Definition SetPadding (flag : bool) (p : RtpPacket) : outcome RtpPacket :=
  b ← (mem_ p).[0]; store 0 [put_bits b 5 1 (if flag then 1 else 0)] p.
Definition SetPayloadType (type : Z) (p : RtpPacket) : outcome RtpPacket :=
  b ← (mem_ p).[1]; store 1 [put_bits b 0 7 type] p.
Definition SetMarker (mk : Z) (p : RtpPacket) : outcome RtpPacket :=
  b ← (mem_ p).[1]; store 1 [put_bits b 7 1 mk] p.
Definition SetSeq (seq : Z) (p : RtpPacket) : outcome RtpPacket := store 2 (Write2Bytes seq) p.
Definition SetTimestamp (ts : Z) (p : RtpPacket) : outcome RtpPacket := store 4 (Write4Bytes ts) p.
Definition SetSsrc (ssrc : Z) (p : RtpPacket) : outcome RtpPacket := store 8 (Write4Bytes ssrc) p.
Definition SetPayloadLength (len : Z) (p : RtpPacket) : RtpPacket := set_lens len (pad_len_ p) (rtp_data_len_ p) p.
Definition SetMidExtensionId (id : Z) (p : RtpPacket) : RtpPacket := set_ext_ids id (abs_time_extension_id_ p) p.
Definition SetAbsTimeExtensionId (id : Z) (p : RtpPacket) : RtpPacket := set_ext_ids (mid_extension_id_ p) id p.

(** ** Header extensions *)

Definition GetExtId (m : bytes) (ext : option Z) : outcome Z :=
  match ext with None => mret 0 | Some e => Read2Bytes (drop (Z.to_nat e) m) end.
Definition GetExtLength (m : bytes) (ext : option Z) : outcome Z :=
  match ext with None => mret 0 | Some e => l ← Read2Bytes (drop (Z.to_nat (e + 2)) m); mret (u16 (l * 4)) end.
Definition HasOnebyteExt (m : bytes) (ext : option Z) : outcome bool := id ← GetExtId m ext; mret (id =? 0xbede).
Definition HasTwobytesExt (m : bytes) (ext : option Z) : outcome bool :=
  id ← GetExtId m ext; mret (Z.land id 0xfff0 =? 0x1000).

(** [while ((p < ext_end) && ( *p == 0)) p++] *)
Fixpoint skip_zeros (fuel : nat) (m : bytes) (p ext_end : Z) : outcome Z :=
  match fuel with
  | O => Fault OutOfFuel
  | S fuel =>
      if p <? ext_end then b ← m.[p]; if b =? 0 then skip_zeros fuel m (p + 1) ext_end else mret p
      else mret p
  end.

Fixpoint onebyte_loop (fuel : nat) (m : bytes) (p ext_end : Z) (map : list (Z * Z)) : outcome (option (list (Z * Z))) :=
  match fuel with
  | O => Fault OutOfFuel
  | S fuel =>
      if p <? ext_end then
        b ← m.[p];
        let id := Z.shiftr (Z.land b 0xf0) 4 in
        let len := Z.land b 0x0f + 1 in
        if id =? 0x0f then mret (Some map)
        else if negb (id =? 0) && (ext_end <? p + 1 + len) then mret None
        else
          let '(map, p) := if negb (id =? 0) then (zset id p map, p + (1 + len)) else (map, p + 1) in
          p ← skip_zeros (S (Z.to_nat (ext_end - p))) m p ext_end;
          onebyte_loop fuel m p ext_end map
      else mret (Some map)
  end.

Fixpoint twobytes_loop (fuel : nat) (m : bytes) (p ext_end : Z) (map : list (Z * Z)) : outcome (option (list (Z * Z))) :=
  match fuel with
  | O => Fault OutOfFuel
  | S fuel =>
      if p + 1 <? ext_end then
        id ← m.[p];
        len ← m.[p + 1];
        if negb (id =? 0) && (ext_end <? p + 2 + len) then mret None
        else
          let '(map, p) := if negb (id =? 0) then (zset id p map, p + (2 + len)) else (map, p + 1) in
          p ← skip_zeros (S (Z.to_nat (ext_end - p))) m p ext_end;
          twobytes_loop fuel m p ext_end map
      else mret (Some map)
  end.

Definition ParseOnebyteExt (e : Z) (p : RtpPacket) : outcome (option RtpPacket) :=
  let ext_start := e + 4 in
  l ← GetExtLength (mem_ p) (Some e);
  r ← onebyte_loop (S (Z.to_nat l)) (mem_ p) ext_start (ext_start + l) [];
  mret (match r with Some one => Some (set_ext_maps one (twobytes_ext_map_ p) p) | None => None end).
Definition ParseTwobytesExt (e : Z) (p : RtpPacket) : outcome (option RtpPacket) :=
  let ext_start := e + 4 in
  l ← GetExtLength (mem_ p) (Some e);
  r ← twobytes_loop (S (Z.to_nat l)) (mem_ p) ext_start (ext_start + l) [];
  mret (match r with Some two => Some (set_ext_maps (onebyte_ext_map_ p) two p) | None => None end).

Definition ParseExt (p : RtpPacket) : outcome (option RtpPacket) :=
  x ← extension (mem_ p);
  match ext_ p with
  | Some e =>
      if x =? 0 then mret (Some p)
      else
        one ← HasOnebyteExt (mem_ p) (Some e);
        if one : bool then ParseOnebyteExt e p
        else
          two ← HasTwobytesExt (mem_ p) (Some e);
          if two : bool then ParseTwobytesExt e p else mret None
  | None => mret (Some p)
  end.

Definition RtpPacket_new (m : bytes) (ext : option Z) (payload payload_len pad_len data_len now_ms : Z)
    : outcome (option RtpPacket) :=
  if RTP_PACKET_MAX_SIZE <? data_len then mret None
  else ParseExt (mkRtp m ext payload payload_len pad_len data_len now_ms false 0 0 [] []).

(** The header extension: its offset and the offset behind it. *)
Definition parse_extension (m : bytes) (len p : Z) : outcome (option (option Z * Z)) :=
  x ← extension m;
  if negb (x =? 0) then
    if len <? p + 4 then mret None
    else
      l ← Read2Bytes (drop (Z.to_nat (p + 2)) m);
      let extension_byte := l * 4 in
      if len <? p + 4 + extension_byte then mret None else mret (Some (Some p, p + (4 + extension_byte)))
  else mret (Some (None, p)).

(** The padding at the end: the length of the payload and of the padding. *)
Definition parse_padding (m : bytes) (len payload_len : Z) : outcome (option (Z * Z)) :=
  pd ← padding m;
  if negb (pd =? 0) then
    pad_len ← m.[len - 1];
    if 0 <? pad_len then
      if payload_len <=? pad_len then mret None else mret (Some (payload_len - pad_len, pad_len))
    else mret (Some (payload_len, pad_len))
  else mret (Some (payload_len, 0)).

Definition Parse (m : bytes) (len now_ms : Z) : outcome (option RtpPacket) :=
  let p := RTP_HEADER_SIZE in
  if RTP_PACKET_MAX_SIZE <? len then mret None
  else
    cc ← csrc_count m;
    let p := if 0 <? cc then p + 4 * cc else p in
    r ← parse_extension m len p;
    match r with
    | None => mret None
    | Some (ext, p) =>
        if len <=? p then mret None
        else
          r ← parse_padding m len (len - p);
          match r with
          | None => mret None
          | Some (payload_len, pad_len) => RtpPacket_new m ext p payload_len pad_len len now_ms
          end
    end.

(** [Clone]: [buffer] is the caller's, or a new one of [RTP_PACKET_MAX_SIZE]. *)
Definition Clone (buffer : option bytes) (fresh : bytes) (now_ms : Z) (p : RtpPacket) : outcome (option RtpPacket) :=
  let new_data := match buffer with Some b => b | None => fresh end in
  _ ← cassert (rtp_data_len_ p <? RTP_PACKET_MAX_SIZE);
  d ← read_range (mem_ p) 0 (rtp_data_len_ p);
  new_data ← write_at new_data 0 d;
  r ← Parse new_data (rtp_data_len_ p) now_ms;
  mret (match r with
        | None => None
        | Some new_pkt =>
            Some (set_ext_ids (mid_extension_id_ p) (abs_time_extension_id_ p)
                   (set_need_delete (match buffer with Some _ => false | None => true end) new_pkt))
        end).

(** The extension of this id: the offset of its value and its length. *)
Definition GetExtension (id : Z) (p : RtpPacket) : outcome (option (Z * Z)) :=
  one ← HasOnebyteExt (mem_ p) (ext_ p);
  if one : bool then
    match zfind id (onebyte_ext_map_ p) with
    | None => mret None
    | Some e => b ← (mem_ p).[e]; mret (Some (e + 1, Z.land b 0x0f + 1))
    end
  else
    two ← HasTwobytesExt (mem_ p) (ext_ p);
    if two : bool then
      match zfind id (twobytes_ext_map_ p) with
      | None => mret None
      | Some e => len ← (mem_ p).[e + 1]; mret (if len =? 0 then None else Some (e + 2, len))
      end
    else mret None.

(** [memset(extension->value + len, 0, current_len - len)] when it got shorter. *)
Definition clear_rest (value len current_len : Z) (p : RtpPacket) : outcome RtpPacket :=
  if len <? current_len then store (value + len) (replicate (Z.to_nat (current_len - len)) 0) p else mret p.

Definition UpdateExtensionLength (id len : Z) (p : RtpPacket) : outcome (bool * RtpPacket) :=
  if len =? 0 then mret (false, p)
  else
    one ← HasOnebyteExt (mem_ p) (ext_ p);
    if one : bool then
      match zfind id (onebyte_ext_map_ p) with
      | None => mret (false, p)
      | Some e =>
          b ← (mem_ p).[e];
          p ← clear_rest (e + 1) len (Z.land b 0x0f + 1) p;
          p ← store e [put_bits b 0 4 (len - 1)] p;
          mret (true, p)
      end
    else
      two ← HasTwobytesExt (mem_ p) (ext_ p);
      if two : bool then
        match zfind id (twobytes_ext_map_ p) with
        | None => mret (false, p)
        | Some e =>
            current_len ← (mem_ p).[e + 1];
            p ← clear_rest (e + 2) len current_len p;
            p ← store (e + 1) [len] p;
            mret (true, p)
        end
      else mret (false, p).

(** [std::to_string(uint8_t)] *)
Definition to_string_u8 (v : Z) : bytes := digits 1 v 4.

Definition UpdateMid (mid : Z) (p : RtpPacket) : outcome (bool * RtpPacket) :=
  r ← GetExtension (mid_extension_id_ p) p;
  match r with
  | None => mret (false, p)
  | Some (extern_value, _) =>
      let mid_str := to_string_u8 mid in
      p ← store extern_value mid_str p;
      UpdateExtensionLength (mid_extension_id_ p) (u8 (zlen mid_str)) p
  end.

(** [atoi]: white space, a sign, digits up to the first other byte. *)
Fixpoint atoi_digits (s : bytes) (acc : Z) : Z :=
  match s with
  | c :: s => if (48 <=? c) && (c <=? 57) then atoi_digits s (acc * 10 + (c - 48)) else acc
  | [] => acc
  end.
Definition atoi_sign (s : bytes) : Z :=
  match s with
  | 45 :: s => Z.max (- 2 ^ 63) (- atoi_digits s 0)
  | 43 :: s => Z.min (2 ^ 63 - 1) (atoi_digits s 0)
  | _ => Z.min (2 ^ 63 - 1) (atoi_digits s 0)
  end.
Fixpoint atoi (s : bytes) : Z :=
  match s with
  | c :: s' => if (c =? 32) || ((9 <=? c) && (c <=? 13)) then atoi s' else i32 (atoi_sign s)
  | [] => 0
  end.

Definition ReadMid (p : RtpPacket) : outcome (option Z) :=
  r ← GetExtension (mid_extension_id_ p) p;
  match r with
  | None => mret None
  | Some (extern_value, extern_len) =>
      s ← read_range (mem_ p) extern_value extern_len; mret (Some (u8 (atoi s)))
  end.

Definition ReadAbsTime (p : RtpPacket) : outcome (option Z) :=
  r ← GetExtension (abs_time_extension_id_ p) p;
  match r with
  | None => mret None
  | Some (extern_value, _) => t ← Read3Bytes (drop (Z.to_nat extern_value) (mem_ p)); mret (Some t)
  end.

Definition UpdateAbsTime (abs_time_24bits : Z) (p : RtpPacket) : outcome (bool * RtpPacket) :=
  r ← GetExtension (abs_time_extension_id_ p) p;
  match r with
  | None => mret (false, p)
  | Some (extern_value, _) =>
      p ← store extern_value (Write3Bytes abs_time_24bits) p;
      UpdateExtensionLength (abs_time_extension_id_ p) 3 p
  end.

(** ** Retransmission (RFC 4588) *)

(** The end of both functions: padding is taken off. *)
Definition drop_padding (p : RtpPacket) : outcome RtpPacket :=
  pd ← HasPadding p;
  if pd : bool then
    p ← SetPadding false p; mret (set_lens (payload_len_ p) 0 (u64 (rtp_data_len_ p - pad_len_ p)) p)
  else mret p.

Definition RtxDemux (ssrc payloadtype : Z) (p : RtpPacket) : outcome (option RtpPacket) :=
  if payload_len_ p <? 2 then mret None
  else
    replace_seq ← Read2Bytes (drop (Z.to_nat (payload_ p)) (mem_ p));
    p ← SetPayloadType payloadtype p;
    p ← SetSeq replace_seq p;
    p ← SetSsrc ssrc p;
    d ← read_range (mem_ p) (payload_ p + 2) (payload_len_ p - 2);
    p ← store (payload_ p) d p;
    p ← drop_padding (set_lens (payload_len_ p - 2) (pad_len_ p) (u64 (rtp_data_len_ p - 2)) p);
    mret (Some p).

Definition RtxMux (payload_type ssrc seq : Z) (p : RtpPacket) : outcome RtpPacket :=
  p ← SetPayloadType payload_type p;
  p ← SetSsrc ssrc p;
  d ← read_range (mem_ p) (payload_ p) (payload_len_ p);
  p ← store (payload_ p + 2) d p;
  s ← GetSeq p;
  p ← store (payload_ p) (Write2Bytes s) p;
  p ← SetSeq seq p;
  drop_padding (set_lens (payload_len_ p + 2) (pad_len_ p) (rtp_data_len_ p + 2) p).

(** ** What [Parse] makes *)

Lemma rd_byte m i b : bytes_ok m -> rd m i = Done b -> is_byte b.
Proof.
  intros Hm. unfold rd. case_bool_decide; [|done]. destruct (m !! Z.to_nat i) eqn:E; [|done]. intros [= <-].
  by eapply Forall_lookup_1.
Qed.

Lemma Read2Bytes_at m i : bytes_ok m -> 0 <= i -> i + 2 <= zlen m ->
  exists v, Read2Bytes (drop (Z.to_nat i) m) = Done v /\ 0 <= v < 2 ^ 16.
Proof.
  intros Hm Hi Hl. set (q := drop (Z.to_nat i) m).
  assert (zlen q = zlen m - i) as Hq by (apply zlen_drop; lia).
  assert (q = take 2 q ++ drop 2 q) as -> by by rewrite take_drop.
  assert (length (take 2 q) = 2%nat) as Ht by (rewrite length_take; unfold zlen in *; lia).
  rewrite Read2Bytes_spec by done. eexists. split; [done|].
  pose proof (be_value_bound (take 2 q)) as Hb. unfold zlen in Hb. rewrite Ht in Hb. apply Hb.
  apply Forall_take, Forall_drop, Hm.
Qed.

Lemma skip_zeros_total fuel m p ext_end :
  (Z.to_nat (ext_end - p) < fuel)%nat -> 0 <= p -> ext_end <= zlen m ->
  exists p', skip_zeros fuel m p ext_end = Done p' /\ p <= p'.
Proof.
  revert p. induction fuel as [|fuel IH]; intros p Hf Hp He; [lia|]. cbn [skip_zeros].
  destruct (Z.ltb_spec p ext_end); [|exists p; split; [done|lia]].
  destruct (rd_done m p) as [b ->]; [lia|]. simpl_m. destruct (b =? 0); [|exists p; split; [done|lia]].
  destruct (IH (p + 1)) as (p' & -> & Hp'); [lia..|]. exists p'. split; [done|lia].
Qed.

(** An element of a header extension: its offset, inside the extension with the
    bytes it claims. *)
Definition onebyte_ok (m : bytes) (lo hi : Z) (x : Z * Z) : Prop :=
  lo <= x.2 /\ exists b, rd m x.2 = Done b /\ x.2 + 1 + (Z.land b 0x0f + 1) <= hi.
Definition twobytes_ok (m : bytes) (lo hi : Z) (x : Z * Z) : Prop :=
  lo <= x.2 /\ exists len, rd m (x.2 + 1) = Done len /\ x.2 + 2 + len <= hi.

Lemma land_nonneg b n : 0 <= n -> 0 <= Z.land b n.
Proof. intros. apply Z.land_nonneg. by right. Qed.

Lemma onebyte_loop_total fuel m lo p ext_end map :
  (Z.to_nat (ext_end - p) < fuel)%nat -> 0 <= p -> lo <= p -> ext_end <= zlen m ->
  Forall (onebyte_ok m lo ext_end) map ->
  exists r, onebyte_loop fuel m p ext_end map = Done r /\
    forall map', r = Some map' -> Forall (onebyte_ok m lo ext_end) map'.
Proof.
  revert p map. induction fuel as [|fuel IH]; intros p map Hf Hp Hlo He Hmap; [lia|]. cbn [onebyte_loop].
  destruct (Z.ltb_spec p ext_end); [|eexists; split; [done|by intros map' [= <-]]].
  destruct (rd_done m p) as [b Hb]; [lia|]. rewrite Hb. simpl_m.
  set (id := Z.shiftr (Z.land b 0xf0) 4). pose proof (land_nonneg b 0x0f). destruct (id =? 0x0f); [eexists; split; [done|by intros map' [= <-]]|].
  destruct (id =? 0); cbn [negb andb].
  - destruct (skip_zeros_total (S (Z.to_nat (ext_end - (p + 1)))) m (p + 1) ext_end) as (p' & -> & Hp'); [lia..|].
    simpl_m. by apply IH; try lia.
  - destruct (Z.ltb_spec ext_end (p + 1 + (Z.land b 0x0f + 1))); [by eexists|].
    set (q := p + (1 + (Z.land b 0x0f + 1))). assert (q = p + 2 + Z.land b 0x0f) as Hq by (unfold q; lia). clearbody q.
    destruct (skip_zeros_total (S (Z.to_nat (ext_end - q))) m q ext_end) as (p' & -> & Hp'); [lia..|].
    simpl_m. apply IH; try lia. apply zset_Forall; [|done]. split; [cbn; lia|]. exists b. split; [done|]. cbn. lia.
Qed.

Lemma twobytes_loop_total fuel m lo p ext_end map :
  bytes_ok m -> (Z.to_nat (ext_end - p) < fuel)%nat -> 0 <= p -> lo <= p -> ext_end <= zlen m ->
  Forall (twobytes_ok m lo ext_end) map ->
  exists r, twobytes_loop fuel m p ext_end map = Done r /\
    forall map', r = Some map' -> Forall (twobytes_ok m lo ext_end) map'.
Proof.
  intros Hm. revert p map. induction fuel as [|fuel IH]; intros p map Hf Hp Hlo He Hmap; [lia|]. cbn [twobytes_loop].
  destruct (Z.ltb_spec (p + 1) ext_end); [|eexists; split; [done|by intros map' [= <-]]].
  destruct (rd_done m p) as [id Hid]; [lia|]. rewrite Hid. simpl_m.
  destruct (rd_done m (p + 1)) as [len Hlen]; [lia|]. rewrite Hlen. simpl_m.
  assert (0 <= len) by (pose proof (rd_byte _ _ _ Hm Hlen) as Hb; unfold is_byte in Hb; lia).
  destruct (id =? 0); cbn [negb andb].
  - destruct (skip_zeros_total (S (Z.to_nat (ext_end - (p + 1)))) m (p + 1) ext_end) as (p' & -> & Hp'); [lia..|].
    simpl_m. by apply IH; try lia.
  - destruct (Z.ltb_spec ext_end (p + 2 + len)); [by eexists|]. set (q := p + (2 + len)).
    assert (q = p + 2 + len) as Hq by (unfold q; lia). clearbody q.
    destruct (skip_zeros_total (S (Z.to_nat (ext_end - q))) m q ext_end) as (p' & -> & Hp'); [lia..|].
    simpl_m. apply IH; try lia. apply zset_Forall; [|done]. split; [cbn; lia|]. exists len. split; [done|]. cbn. lia.
Qed.

(** A packet as [Parse] makes it: its parts fill the datagram, one behind the
    other, and every extension element lies inside the extension. *)
Record rtp_ok (p : RtpPacket) : Prop := {
  ok_room : rtp_data_len_ p <= zlen (mem_ p);
  ok_max : rtp_data_len_ p <= RTP_PACKET_MAX_SIZE;
  ok_start : RTP_HEADER_SIZE <= payload_ p;
  ok_some : 1 <= payload_len_ p;
  ok_pad : 0 <= pad_len_ p <= 255;
  ok_sum : payload_ p + payload_len_ p + pad_len_ p = rtp_data_len_ p;
  ok_one : Forall (onebyte_ok (mem_ p) RTP_HEADER_SIZE (payload_ p)) (onebyte_ext_map_ p);
  ok_two : Forall (twobytes_ok (mem_ p) RTP_HEADER_SIZE (payload_ p)) (twobytes_ext_map_ p)
}.

Lemma header_bits m : 1 <= zlen m ->
  exists b, m.[0] = Done b /\ csrc_count m = Done (Z.land b 0x0f) /\
    extension m = Done (Z.land (Z.shiftr b 4) 1) /\ padding m = Done (Z.land (Z.shiftr b 5) 1).
Proof.
  intros Hl. destruct (rd_done m 0) as [b Hb]; [lia|]. exists b. unfold csrc_count, extension, padding. rewrite Hb. by split_and!.
Qed.

(** An extension accepted for a packet of [len] bytes. *)
Definition ext_fits (m : bytes) (len : Z) (ext : option Z) (p : Z) : Prop :=
  match ext with
  | None => RTP_HEADER_SIZE <= p
  | Some e => RTP_HEADER_SIZE <= e /\ exists l, Read2Bytes (drop (Z.to_nat (e + 2)) m) = Done l /\
      0 <= l /\ p = e + 4 + l * 4 /\ p <= len
  end.

Lemma parse_extension_total m len p :
  bytes_ok m -> RTP_HEADER_SIZE <= p -> 1 <= len <= zlen m ->
  exists r, parse_extension m len p = Done r /\ forall ext p', r = Some (ext, p') -> ext_fits m len ext p'.
Proof.
  intros Hm Hp Hlen. unfold parse_extension. destruct (header_bits m) as (b & _ & _ & -> & _); [lia|]. simpl_m.
  destruct (negb _); [|eexists; split; [done|by intros ext p' [= <- <-]]].
  destruct (Z.ltb_spec len (p + 4)); [by eexists|].
  destruct (Read2Bytes_at m (p + 2)) as (l & Hl & Hr); [done|unfold RTP_HEADER_SIZE in *; lia|lia|]. rewrite Hl. simpl_m.
  destruct (Z.ltb_spec len (p + 4 + l * 4)); [by eexists|]. eexists. split; [done|].
  intros ext p' [= <- <-]. split; [done|]. exists l. split_and!; (done || lia).
Qed.

Lemma parse_padding_total m len n :
  bytes_ok m -> 1 <= len <= zlen m -> 1 <= n ->
  exists r, parse_padding m len n = Done r /\
    forall n' pad, r = Some (n', pad) -> 1 <= n' /\ 0 <= pad <= 255 /\ n' + pad = n.
Proof.
  intros Hm Hlen Hn. unfold parse_padding. destruct (header_bits m) as (b & _ & _ & _ & ->); [lia|]. simpl_m.
  destruct (negb _); [|eexists; split; [done|intros n' pad [= <- <-]; lia]].
  destruct (rd_done m (len - 1)) as [pad Hpad]; [lia|]. rewrite Hpad. simpl_m.
  pose proof (rd_byte _ _ _ Hm Hpad) as Hb. unfold is_byte in Hb.
  destruct (Z.ltb_spec 0 pad); [|eexists; split; [done|intros n' pd [= <- <-]; lia]].
  destruct (Z.leb_spec n pad); [by eexists|]. eexists. split; [done|]. intros n' pd [= <- <-]. lia.
Qed.

Lemma ParseExt_total p :
  bytes_ok (mem_ p) -> ext_fits (mem_ p) (rtp_data_len_ p) (ext_ p) (payload_ p) -> rtp_ok p ->
  onebyte_ext_map_ p = [] -> twobytes_ext_map_ p = [] ->
  exists r, ParseExt p = Done r /\ forall p', r = Some p' -> rtp_ok p' /\ mem_ p' = mem_ p /\ rtp_data_len_ p' = rtp_data_len_ p.
Proof.
  intros Hm He Hok H1 H2. pose proof Hok as [Hroom Hmax Hst Hsome Hpad Hsum Hone Htwo]. unfold RTP_HEADER_SIZE, RTP_PACKET_MAX_SIZE in *.
  unfold ParseExt. destruct (header_bits (mem_ p)) as (b & _ & _ & -> & _); [lia|]. simpl_m.
  destruct (ext_ p) as [e|] eqn:Hext; [|eexists; split; [done|by intros p' [= <-]]].
  destruct (_ =? 0); [eexists; split; [done|by intros p' [= <-]]|].
  destruct He as (He & l & Hl & Hl0 & Hp & Hpl). unfold RTP_HEADER_SIZE in He.
  assert (GetExtLength (mem_ p) (Some e) = Done (l * 4)) as Hlen.
  { unfold GetExtLength. rewrite Hl. simpl_m. by rewrite u16_small by lia. }
  assert (exists v, Read2Bytes (drop (Z.to_nat e) (mem_ p)) = Done v) as [id Hid].
  { destruct (Read2Bytes_at (mem_ p) e Hm) as (v & Hv & _); [lia|lia|by exists v]. }
  unfold HasOnebyteExt, HasTwobytesExt, GetExtId. rewrite Hid. simpl_m. destruct (id =? 0xbede).
  - unfold ParseOnebyteExt. rewrite Hlen. simpl_m.
    destruct (onebyte_loop_total (S (Z.to_nat (l * 4))) (mem_ p) 12 (e + 4) (e + 4 + l * 4) []) as (r & -> & Hr); [lia..|constructor|].
    simpl_m. eexists. split; [reflexivity|]. destruct r as [map|]; [|done]. intros p' [= <-]. split_and!; [|done|done].
    specialize (Hr _ eq_refl). constructor; cbn; try done. by rewrite Hp.
  - destruct (_ =? 0x1000); [|by eexists]. unfold ParseTwobytesExt. rewrite Hlen. simpl_m.
    destruct (twobytes_loop_total (S (Z.to_nat (l * 4))) (mem_ p) 12 (e + 4) (e + 4 + l * 4) []) as (r & -> & Hr); [done|lia..|constructor|].
    simpl_m. eexists. split; [reflexivity|]. destruct r as [map|]; [|done]. intros p' [= <-]. split_and!; [|done|done].
    specialize (Hr _ eq_refl). constructor; cbn; try done. by rewrite Hp.
Qed.

(** C32. [Parse] is safe on every datagram: whatever its bytes, if there is one at
    least, it answers, with an exception or with a packet whose header, payload
    and padding are the datagram and whose extension elements lie in front of the
    payload.  No byte outside the datagram is read and both extension loops end. *)
Theorem Parse_safe m len now :
  bytes_ok m -> 1 <= len <= zlen m ->
  exists r, Parse m len now = Done r /\ forall p, r = Some p -> rtp_ok p /\ mem_ p = m /\ rtp_data_len_ p = len.
Proof.
  intros Hm Hlen. unfold Parse. destruct (Z.ltb_spec RTP_PACKET_MAX_SIZE len) as [|Hmax]; [by eexists|].
  destruct (header_bits m) as (b & _ & -> & _); [lia|]. simpl_m. pose proof (land_nonneg b 0x0f).
  set (p0 := if 0 <? Z.land b 0x0f then _ else _).
  assert (RTP_HEADER_SIZE <= p0) as Hp0 by (unfold p0; destruct (0 <? _); lia). clearbody p0.
  destruct (parse_extension_total m len p0 Hm Hp0 Hlen) as (r & -> & Hr). simpl_m.
  destruct r as [[ext p]|]; [|by eexists]. specialize (Hr _ _ eq_refl).
  destruct (Z.leb_spec len p); [by eexists|].
  destruct (parse_padding_total m len (len - p) Hm Hlen) as (r & -> & Hr2); [lia|]. simpl_m.
  destruct r as [[n pad]|]; [|by eexists]. destruct (Hr2 _ _ eq_refl) as (Hn & Hpad & Hsum).
  unfold RtpPacket_new. rewrite (proj2 (Z.ltb_ge _ _)) by done. apply ParseExt_total; try done.
  constructor; cbn; try done; try lia; try by constructor.
  destruct ext as [e|]; [|done]. destruct Hr as (He & l & _ & Hl & -> & _). lia.
Qed.

(** Extension flag set, and only three bytes there. *)
Lemma Parse_safe_witness :
  bytes_ok [0x90; 96; 0] /\ exists r, Parse [0x90; 96; 0] 3 1000 = Done r /\ r = None.
Proof.
  assert (bytes_ok [0x90; 96; 0]) as Hb by (repeat constructor; by vm_compute).
  split; [done|]. destruct (Parse_safe [0x90; 96; 0] 3 1000 Hb) as (r & Hr & _); [by vm_compute|].
  exists r. split; [done|]. vm_compute in Hr. by injection Hr as <-.
Defined.
