(* ===== verification/RtpFormat.v ===== *)
(** * [RtpFormat]: RTP packets as RFC 3550 writes them

    A packet built field by field, with contributing sources, one-byte header
    extensions (RFC 8285) and padding, is taken apart by [Parse] into the same
    fields; and what [RtxMux] wraps, [RtxDemux] unwraps. *)
From S2P Require Import Prelude ByteStream ZMap RtpPacket.

Record rtp_fields := mkFields {
  f_marker : Z;
  f_payload_type : Z;
  f_seq : Z;
  f_timestamp : Z;
  f_ssrc : Z;
  f_csrcs : list Z;
  f_exts : option (list (Z * bytes) * Z);   (* elements, and the zero bytes behind them *)
  f_payload : bytes;
  f_pad : Z                                  (* 0: no padding *)
}.

(** An element: its id and length, its bytes. *)
Definition ext_element (x : Z * bytes) : bytes := (x.1 * 16 + (zlen x.2 - 1)) :: x.2.
Definition ext_elements (xs : list (Z * bytes)) : bytes := concat (map ext_element xs).
Definition ext_body (x : list (Z * bytes) * Z) : bytes := ext_elements x.1 ++ replicate (Z.to_nat x.2) 0.
Definition ext_bytes (x : option (list (Z * bytes) * Z)) : bytes :=
  match x with
  | None => []
  | Some x => Write2Bytes 0xbede ++ Write2Bytes (zlen (ext_body x) / 4) ++ ext_body x
  end.
Definition pad_bytes (n : Z) : bytes := if n =? 0 then [] else replicate (Z.to_nat (n - 1)) 0 ++ [n].

Definition rtp_bytes (f : rtp_fields) : bytes :=
  [128 + (if f_pad f =? 0 then 0 else 32) + (if f_exts f is Some _ then 16 else 0) + zlen (f_csrcs f);
   f_marker f * 128 + f_payload_type f] ++
  Write2Bytes (f_seq f) ++ Write4Bytes (f_timestamp f) ++ Write4Bytes (f_ssrc f) ++
  concat (map Write4Bytes (f_csrcs f)) ++ ext_bytes (f_exts f) ++ f_payload f ++ pad_bytes (f_pad f).

Definition element_ok (x : Z * bytes) : Prop := 1 <= x.1 <= 14 /\ 1 <= zlen x.2 <= 16.
Definition exts_ok (x : list (Z * bytes) * Z) : Prop :=
  Forall element_ok x.1 /\ NoDup (map fst x.1) /\ 0 <= x.2 /\ zlen (ext_body x) mod 4 = 0.
Record fields_ok (f : rtp_fields) : Prop := {
  fo_marker : 0 <= f_marker f <= 1;
  fo_type : 0 <= f_payload_type f < 128;
  fo_csrcs : zlen (f_csrcs f) <= 15;
  fo_exts : match f_exts f with Some x => exts_ok x | None => True end;
  fo_payload : 1 <= zlen (f_payload f);
  fo_pad : 0 <= f_pad f <= 255;
  fo_max : zlen (rtp_bytes f) <= RTP_PACKET_MAX_SIZE
}.

(** ** The extension elements *)

Lemma skip_zeros_run n pre post fuel ext_end :
  (Z.to_nat (ext_end - zlen pre) < fuel)%nat -> zlen pre + Z.of_nat n <= ext_end ->
  (zlen pre + Z.of_nat n = ext_end \/ exists x r, post = x :: r /\ x <> 0) ->
  skip_zeros fuel (pre ++ replicate n 0 ++ post) (zlen pre) ext_end = Done (zlen pre + Z.of_nat n).
Proof.
  revert pre fuel. induction n as [|n IH]; intros pre fuel Hf Hn Hend; (destruct fuel as [|fuel]; [lia|]); cbn [skip_zeros].
  - change (Z.of_nat 0) with 0 in *. rewrite Z.add_0_r in *. cbn [replicate app].
    destruct (Z.ltb_spec (zlen pre) ext_end); [|done]. destruct Hend as [|(x & r & -> & Hx)]; [lia|].
    rewrite rd_mid. simpl_m. by rewrite (proj2 (Z.eqb_neq x 0)).
  - rewrite (proj2 (Z.ltb_lt _ _)) by lia. cbn [replicate app]. rewrite rd_mid. simpl_m.
    change (0 =? 0) with true. cbv iota.
    assert (zlen (pre ++ [0]) = zlen pre + 1) as Hp by by rewrite zlen_app.
    change (0 :: replicate n 0 ++ post) with ([0] ++ replicate n 0 ++ post). rewrite app_assoc, <- Hp.
    rewrite IH; [f_equal; lia|lia|lia|]. destruct Hend as [|]; [left; lia|by right].
Qed.

(** The offsets of the elements, from [off] on. *)
Fixpoint ext_map (off : Z) (xs : list (Z * bytes)) (m : list (Z * Z)) : list (Z * Z) :=
  match xs with
  | [] => m
  | x :: xs => ext_map (off + 1 + zlen x.2) xs (zset x.1 off m)
  end.

Lemma element_fields id n : 1 <= id <= 14 -> 1 <= n <= 16 ->
  Z.shiftr (Z.land (id * 16 + (n - 1)) 0xf0) 4 = id /\ Z.land (id * 16 + (n - 1)) 0x0f = n - 1.
Proof.
  intros Hid Hn. rewrite (mask_shift _ 0xf0 4 4), (low_mask _ 0x0f 4) by done. split; div_lia.
Qed.

Lemma ext_elements_cons x xs : ext_elements (x :: xs) = ext_element x ++ ext_elements xs.
Proof. done. Qed.
Lemma zlen_element x : zlen (ext_element x) = 1 + zlen x.2.
Proof. unfold ext_element. apply zlen_cons. Qed.

Lemma onebyte_loop_elements xs n pre post map fuel :
  Forall element_ok xs -> (length (ext_elements xs) + n < fuel)%nat ->
  onebyte_loop fuel (pre ++ ext_elements xs ++ replicate n 0 ++ post) (zlen pre)
    (zlen pre + zlen (ext_elements xs) + Z.of_nat n) map = Done (Some (ext_map (zlen pre) xs map)).
Proof.
  intros Hxs. revert pre map fuel. induction Hxs as [|[id d] xs [Hid Hd] Hxs IH]; intros pre map fuel Hf;
    (destruct fuel as [|fuel]; [lia|]).
  - cbn [ext_elements concat List.map app ext_map]. change (zlen (@nil Z)) with 0. rewrite Z.add_0_r. cbn [onebyte_loop].
    destruct n as [|n]; [by rewrite (proj2 (Z.ltb_ge _ _)) by lia|].
    rewrite (proj2 (Z.ltb_lt _ _)) by lia. cbn [replicate app]. rewrite rd_mid. simpl_m.
    change (Z.shiftr (Z.land 0 0xf0) 4) with 0. cbn [Z.eqb negb andb].
    change (0 :: replicate n 0 ++ post) with ([0] ++ replicate n 0 ++ post). rewrite app_assoc.
    replace (zlen pre + 1) with (zlen (pre ++ [0])) by by rewrite zlen_app.
    assert (zlen (pre ++ [0]) + Z.of_nat n = zlen pre + Z.of_nat (S n)) as He by (rewrite zlen_app; change (zlen [0]) with 1; lia).
    rewrite skip_zeros_run by lia. simpl_m. destruct fuel as [|fuel]; [cbn in Hf; lia|]. cbn [onebyte_loop].
    by rewrite (proj2 (Z.ltb_ge _ _)) by lia.
  - cbn [fst snd] in Hid, Hd. rewrite ext_elements_cons in *. rewrite length_app in Hf. rewrite zlen_app, zlen_element. cbn [snd].
    pose proof (zlen_nonneg (ext_elements xs)). cbn [onebyte_loop]. rewrite (proj2 (Z.ltb_lt _ _)) by lia.
    change (ext_element (id, d)) with ((id * 16 + (zlen d - 1)) :: d). rewrite <- (app_assoc (_ :: d)). cbn [app].
    rewrite rd_mid. simpl_m.
    destruct (element_fields id (zlen d)) as [-> ->]; [done..|].
    rewrite (proj2 (Z.eqb_neq id 0x0f)), (proj2 (Z.eqb_neq id 0)) by lia. cbn [negb andb].
    rewrite (proj2 (Z.ltb_ge _ _)) by lia.
    set (x := (id, d)). change ((id * 16 + (zlen d - 1)) :: d ++ ext_elements xs ++ replicate n 0 ++ post)
      with (ext_element x ++ ext_elements xs ++ replicate n 0 ++ post).
    rewrite app_assoc. set (pre' := pre ++ ext_element x).
    assert (zlen pre' = zlen pre + (1 + zlen d)) as Hpre by (unfold pre'; rewrite zlen_app, zlen_element; cbn; lia).
    replace (1 + (zlen d - 1 + 1)) with (1 + zlen d) by lia. rewrite <- Hpre.
    replace (zlen pre + (1 + zlen d + zlen (ext_elements xs)) + Z.of_nat n)
      with (zlen pre' + zlen (ext_elements xs) + Z.of_nat n) by lia.
    cbn [ext_map]. change (x.2) with d. change (x.1) with id. replace (zlen pre + 1 + zlen d) with (zlen pre') by lia.
    destruct xs as [|[id2 d2] xs].
    + cbn [ext_elements concat List.map app ext_map]. change (zlen (@nil Z)) with 0. rewrite Z.add_0_r.
      rewrite skip_zeros_run by lia. simpl_m. destruct fuel as [|fuel]; [cbn in Hf; lia|]. cbn [onebyte_loop].
      by rewrite (proj2 (Z.ltb_ge _ _)) by lia.
    + inversion_clear Hxs as [|? ? [Hid2 Hd2] Hxs']. cbn in Hid2, Hd2.
      pose proof (skip_zeros_run 0 pre' (ext_elements ((id2, d2) :: xs) ++ replicate n 0 ++ post)
        (S (Z.to_nat (zlen pre' + zlen (ext_elements ((id2, d2) :: xs)) + Z.of_nat n - zlen pre')))
        (zlen pre' + zlen (ext_elements ((id2, d2) :: xs)) + Z.of_nat n)) as Hskip.
      cbn [replicate app] in Hskip. rewrite Hskip; [|lia|lia|right; eexists _, _; split; [reflexivity|cbn; lia]].
      simpl_m. rewrite Z.add_0_r. apply IH. unfold ext_element in Hf. cbn [length] in Hf. lia.
Qed.

(** ** Finding an element *)

Lemma ext_map_other id off xs m : id ∉ map fst xs -> ordered m -> zfind id (ext_map off xs m) = zfind id m /\ ordered (ext_map off xs m).
Proof.
  revert off m. induction xs as [|[i d] xs IH]; intros off m Hid Ho; [done|]. cbn in Hid. apply not_elem_of_cons in Hid as [Hne Hid].
  cbn [ext_map fst snd]. destruct (IH (off + 1 + zlen d) (zset i off m) Hid) as [-> ?]; [by apply zset_ordered|].
  rewrite zfind_zset by done. by rewrite (proj2 (Z.eqb_neq id i)).
Qed.

Lemma ext_map_found id d xs pre post m :
  (id, d) ∈ xs -> NoDup (map fst xs) -> Forall element_ok xs -> ordered m ->
  exists e, zfind id (ext_map (zlen pre) xs m) = Some e /\
    rd (pre ++ ext_elements xs ++ post) e = Done (id * 16 + (zlen d - 1)) /\
    read_range (pre ++ ext_elements xs ++ post) (e + 1) (zlen d) = Done d.
Proof.
  intros Hin Hnd Hok. revert pre m Hin. induction Hok as [|[i di] xs [Hi Hdi] Hok IH]; intros pre m Hin Ho; [by apply not_elem_of_nil in Hin|].
  cbn [map fst] in Hnd. apply NoDup_cons in Hnd as [Hni Hnd]. cbn [ext_map fst snd]. rewrite ext_elements_cons, <- app_assoc.
  apply elem_of_cons in Hin as [[= -> ->]|Hin].
  - exists (zlen pre). destruct (ext_map_other i (zlen pre + 1 + zlen di) xs (zset i (zlen pre) m) Hni) as [-> _]; [by apply zset_ordered|].
    rewrite zfind_zset, Z.eqb_refl by done. split; [done|]. unfold ext_element. cbn [fst snd app].
    split; [apply rd_mid|]. change (?x :: di ++ ext_elements xs ++ post) with ([x] ++ di ++ ext_elements xs ++ post).
    rewrite app_assoc. replace (zlen pre + 1) with (zlen (pre ++ [i * 16 + (zlen di - 1)])) by by rewrite zlen_app.
    apply read_range_mid.
  - rewrite app_assoc. replace (zlen pre + 1 + zlen di) with (zlen (pre ++ ext_element (i, di)))
      by (rewrite zlen_app, zlen_element; cbn; lia).
    apply IH; [done|done|by apply zset_ordered].
Qed.

(** ** The whole packet *)

Definition b0_of (f : rtp_fields) : Z :=
  128 + (if f_pad f =? 0 then 0 else 32) + (if f_exts f is Some _ then 16 else 0) + zlen (f_csrcs f).
Definition csrc_bytes (f : rtp_fields) : bytes := concat (map Write4Bytes (f_csrcs f)).
Definition head_bytes (f : rtp_fields) : bytes :=
  [b0_of f; f_marker f * 128 + f_payload_type f] ++
  Write2Bytes (f_seq f) ++ Write4Bytes (f_timestamp f) ++ Write4Bytes (f_ssrc f) ++ csrc_bytes f.

Lemma rtp_bytes_split f : rtp_bytes f = head_bytes f ++ ext_bytes (f_exts f) ++ f_payload f ++ pad_bytes (f_pad f).
Proof. unfold rtp_bytes, head_bytes. by rewrite <- !app_assoc. Qed.

Lemma head_length f : zlen (head_bytes f) = 12 + 4 * zlen (f_csrcs f).
Proof.
  unfold head_bytes. rewrite !zlen_app. change (zlen (Write2Bytes _)) with 2. change (zlen (Write4Bytes _)) with 4.
  change (zlen [_; _]) with 2. assert (zlen (csrc_bytes f) = 4 * zlen (f_csrcs f)); [|lia].
  unfold csrc_bytes. induction (f_csrcs f) as [|c l IH]; [done|]. cbn [map concat]. rewrite zlen_app, IH, zlen_cons.
  change (zlen (Write4Bytes c)) with 4. lia.
Qed.

(** The first two bytes. *)
Lemma b0_bits f : fields_ok f ->
  Z.land (b0_of f) 0x0f = zlen (f_csrcs f) /\
  Z.land (Z.shiftr (b0_of f) 4) 1 = (if f_exts f is Some _ then 1 else 0) /\
  Z.land (Z.shiftr (b0_of f) 5) 1 = (if f_pad f =? 0 then 0 else 1) /\
  Z.land (Z.shiftr (b0_of f) 6) 3 = 2.
Proof.
  intros Hok. pose proof (fo_csrcs f Hok). pose proof (zlen_nonneg (f_csrcs f)). unfold b0_of.
  rewrite (low_mask _ 0x0f 4), (shift_mask _ 1 4 1), (shift_mask _ 1 5 1), (shift_mask _ 3 6 2) by done.
  destruct (f_pad f =? 0), (f_exts f) as [x|]; split_and!; div_lia.
Qed.

Lemma b1_bits f : fields_ok f ->
  Z.land (f_marker f * 128 + f_payload_type f) 0x7f = f_payload_type f /\
  Z.land (Z.shiftr (f_marker f * 128 + f_payload_type f) 7) 1 = f_marker f.
Proof.
  intros Hok. pose proof (fo_marker f Hok). pose proof (fo_type f Hok).
  rewrite (low_mask _ 0x7f 7), (shift_mask _ 1 7 1) by done. split; div_lia.
Qed.

(** What the header fields of a packet read as when its memory starts so. *)
Definition header_reads (f : rtp_fields) (p : RtpPacket) : Prop :=
  Version p = Done 2 /\ CsrcCount p = Done (zlen (f_csrcs f)) /\
  HasExtension p = Done (if f_exts f is Some _ then true else false) /\
  HasPadding p = Done (negb (f_pad f =? 0)) /\
  GetMarker p = Done (f_marker f) /\ GetPayloadType p = Done (f_payload_type f) /\
  GetSeq p = Done (u16 (f_seq f)) /\ GetTimestamp p = Done (u32 (f_timestamp f)) /\ GetSsrc p = Done (u32 (f_ssrc f)).

Lemma head_reads f p rest : fields_ok f -> mem_ p = head_bytes f ++ rest -> header_reads f p.
Proof.
  intros Hok Hm. destruct (b0_bits f Hok) as (H0 & H1 & H2 & H3). destruct (b1_bits f Hok) as (H4 & H5).
  unfold header_reads, Version, CsrcCount, HasExtension, HasPadding, GetMarker, GetPayloadType, GetSeq, GetTimestamp, GetSsrc.
  rewrite Hm. unfold head_bytes. rewrite <- !app_assoc. cbn [app].
  set (r8 := Write4Bytes (f_ssrc f) ++ csrc_bytes f ++ rest). set (r4 := Write4Bytes (f_timestamp f) ++ r8).
  set (r2 := Write2Bytes (f_seq f) ++ r4). set (m := b0_of f :: _ :: r2).
  change (drop 2 m) with r2. change (drop 4 m) with r4. change (drop 8 m) with r8. unfold r8, r4, r2 at 1.
  rewrite Read2Bytes_Write2Bytes, !Read4Bytes_Write4Bytes.
  unfold version, csrc_count, extension, padding, marker, payload_type.
  change (m.[0]) with (Done (b0_of f)). change (m.[1]) with (Done (f_marker f * 128 + f_payload_type f)). simpl_m.
  rewrite H0, H1, H2, H3, H4, H5. split_and!; try done; [by destruct (f_exts f)|by destruct (f_pad f =? 0)].
Qed.

Lemma head_bits f rest : fields_ok f ->
  csrc_count (head_bytes f ++ rest) = Done (zlen (f_csrcs f)) /\
  extension (head_bytes f ++ rest) = Done (if f_exts f is Some _ then 1 else 0) /\
  padding (head_bytes f ++ rest) = Done (if f_pad f =? 0 then 0 else 1).
Proof.
  intros Hok. destruct (b0_bits f Hok) as (H0 & H1 & H2 & _). unfold csrc_count, extension, padding.
  change ((head_bytes f ++ rest).[0]) with (Done (b0_of f)). simpl_m. by rewrite H0, H1, H2.
Qed.

Lemma ext_body_words x : exts_ok x -> zlen (ext_body x) / 4 * 4 = zlen (ext_body x).
Proof. intros (_ & _ & _ & Hm). pose proof (zlen_nonneg (ext_body x)). div_lia. Qed.

(** The extension length read at its place. *)
Lemma ext_words_read f x rest :
  exts_ok x -> zlen (ext_body x) <= RTP_PACKET_MAX_SIZE ->
  let m := head_bytes f ++ ext_bytes (Some x) ++ rest in
  Read2Bytes (drop (Z.to_nat (zlen (head_bytes f))) m) = Done 0xbede /\
  Read2Bytes (drop (Z.to_nat (zlen (head_bytes f) + 2)) m) = Done (zlen (ext_body x) / 4).
Proof.
  intros Hx Hmax m. unfold m, ext_bytes. rewrite <- !app_assoc. pose proof (zlen_nonneg (ext_body x)). split.
  - rewrite drop_zlen_app. by rewrite Read2Bytes_Write2Bytes.
  - rewrite (app_assoc (head_bytes f)).
    replace (zlen (head_bytes f) + 2) with (zlen (head_bytes f ++ Write2Bytes 0xbede)) by by rewrite zlen_app.
    rewrite drop_zlen_app, Read2Bytes_Write2Bytes, u16_small; [done|]. unfold RTP_PACKET_MAX_SIZE in *. div_lia.
Qed.

Lemma parse_extension_format f rest len :
  fields_ok f -> zlen (head_bytes f) + zlen (ext_bytes (f_exts f)) <= len -> len <= RTP_PACKET_MAX_SIZE ->
  parse_extension (head_bytes f ++ ext_bytes (f_exts f) ++ rest) len (zlen (head_bytes f)) =
  Done (Some (if f_exts f is Some _ then Some (zlen (head_bytes f)) else None,
              zlen (head_bytes f) + zlen (ext_bytes (f_exts f)))).
Proof.
  intros Hok Hl Hmax. unfold parse_extension. destruct (head_bits f (ext_bytes (f_exts f) ++ rest) Hok) as (_ & -> & _).
  simpl_m. pose proof (fo_exts f Hok) as Hx. pose proof (zlen_nonneg (head_bytes f)).
  destruct (f_exts f) as [x|]; [|cbn; by rewrite Z.add_0_r].
  change (negb (1 =? 0)) with true. cbv iota. unfold ext_bytes in Hl. rewrite !zlen_app in Hl.
  change (zlen (Write2Bytes _)) with 2 in Hl. pose proof (zlen_nonneg (ext_body x)).
  rewrite (proj2 (Z.ltb_ge len _)) by lia.
  destruct (ext_words_read f x rest) as [_ ->]; [done|lia|]. simpl_m. rewrite ext_body_words by done.
  rewrite (proj2 (Z.ltb_ge len _)) by lia. unfold ext_bytes. rewrite !zlen_app. change (zlen (Write2Bytes _)) with 2.
  do 3 f_equal. lia.
Qed.

Lemma parse_padding_format f pre tail n :
  fields_ok f -> padding (pre ++ pad_bytes (f_pad f) ++ tail) = Done (if f_pad f =? 0 then 0 else 1) ->
  1 <= n ->
  parse_padding (pre ++ pad_bytes (f_pad f) ++ tail) (zlen pre + zlen (pad_bytes (f_pad f))) (n + f_pad f) =
  Done (Some (n, f_pad f)).
Proof.
  intros Hok Hbit Hn. pose proof (fo_pad f Hok). unfold parse_padding. rewrite Hbit. simpl_m.
  destruct (Z.eqb_spec (f_pad f) 0) as [He|He]; [rewrite He; cbn; by rewrite Z.add_0_r|].
  change (negb (1 =? 0)) with true. cbv iota. unfold pad_bytes. rewrite (proj2 (Z.eqb_neq (f_pad f) 0)) by done.
  rewrite zlen_app, zlen_replicate by lia. change (zlen [f_pad f]) with 1.
  rewrite <- app_assoc. cbn [app]. rewrite app_assoc.
  replace (zlen pre + (f_pad f - 1 + 1) - 1) with (zlen (pre ++ replicate (Z.to_nat (f_pad f - 1)) 0))
    by (rewrite zlen_app, zlen_replicate by lia; lia).
  rewrite rd_mid. simpl_m. rewrite (proj2 (Z.ltb_lt 0 _)), (proj2 (Z.leb_gt _ (f_pad f))) by lia.
  do 3 f_equal. lia.
Qed.

(** The extension elements of the packet. *)
Definition exts_found (f : rtp_fields) (p : RtpPacket) : Prop :=
  match f_exts f with
  | None => forall id, GetExtension id p = Done None
  | Some x => forall id d, (id, d) ∈ x.1 ->
      exists e, GetExtension id p = Done (Some (e, zlen d)) /\ read_range (mem_ p) e (zlen d) = Done d
  end.

Lemma pad_length n : 0 <= n -> zlen (pad_bytes n) = n.
Proof.
  intros Hn. unfold pad_bytes. destruct (Z.eqb_spec n 0) as [->|]; [done|].
  rewrite zlen_app, zlen_replicate by lia. change (zlen [n]) with 1. lia.
Qed.

Lemma ParseExt_format f rest p :
  fields_ok f -> zlen (ext_bytes (f_exts f)) <= RTP_PACKET_MAX_SIZE ->
  mem_ p = head_bytes f ++ ext_bytes (f_exts f) ++ rest ->
  ext_ p = (if f_exts f is Some _ then Some (zlen (head_bytes f)) else None) ->
  exists one, ParseExt p = Done (Some (set_ext_maps one (twobytes_ext_map_ p) p)) /\
    exts_found f (set_ext_maps one (twobytes_ext_map_ p) p).
Proof.
  intros Hok Hmax Hm He. unfold ParseExt, exts_found. rewrite Hm, He. destruct (head_bits f (ext_bytes (f_exts f) ++ rest) Hok) as (_ & -> & _).
  simpl_m. pose proof (fo_exts f Hok) as Hx. destruct (f_exts f) as [x|].
  2: { exists (onebyte_ext_map_ p). split; [by destruct p|]. intros id. unfold GetExtension. cbn [set_ext_maps ext_]. by rewrite He. }
  cbn [Z.eqb]. assert (zlen (ext_bytes (Some x)) = 4 + zlen (ext_body x)) as Hxl.
  { unfold ext_bytes. rewrite !zlen_app. change (zlen (Write2Bytes _)) with 2. lia. }
  destruct (ext_words_read f x rest Hx) as [Hid Hw]; [lia|]. set (m := head_bytes f ++ ext_bytes (Some x) ++ rest) in *.
  assert (HasOnebyteExt m (Some (zlen (head_bytes f))) = Done true) as Hone by (unfold HasOnebyteExt, GetExtId; by rewrite Hid).
  rewrite Hone. simpl_m. unfold ParseOnebyteExt, GetExtLength. rewrite Hm. rewrite Hw. simpl_m.
  pose proof (zlen_nonneg (ext_body x)). pose proof Hx as (Hel & Hnd & Hz & Hmod).
  rewrite ext_body_words by done. rewrite u16_small by (unfold RTP_PACKET_MAX_SIZE in *; lia).
  set (pre := head_bytes f ++ Write2Bytes 0xbede ++ Write2Bytes (zlen (ext_body x) / 4)).
  assert (zlen (head_bytes f) + 4 = zlen pre) as Hpre by (unfold pre; by rewrite !zlen_app).
  assert (m = pre ++ ext_elements x.1 ++ replicate (Z.to_nat x.2) 0 ++ rest) as Hme
    by (unfold m, pre, ext_bytes, ext_body; by rewrite <- !app_assoc).
  assert (zlen (ext_body x) = zlen (ext_elements x.1) + Z.of_nat (Z.to_nat x.2)) as Hbl
    by (unfold ext_body; rewrite zlen_app, zlen_replicate by lia; lia).
  rewrite Hpre, Hbl, Z.add_assoc, Hme.
  rewrite onebyte_loop_elements; [|done|unfold zlen; lia].
  simpl_m. eexists. split; [reflexivity|]. intros id d Hin.
  destruct (ext_map_found id d x.1 pre (replicate (Z.to_nat x.2) 0 ++ rest) [] Hin Hnd Hel ordered_nil) as (e & Hf & Hb & Hr).
  exists (e + 1). unfold GetExtension. cbn [set_ext_maps ext_ mem_ onebyte_ext_map_]. rewrite He, Hm, Hone. simpl_m. rewrite Hf, Hme, Hb. simpl_m.
  split; [|done]. rewrite Forall_forall in Hel. destruct (Hel _ Hin) as [H1 H2]. cbn in H1, H2.
  destruct (element_fields id (zlen d) H1 H2) as [_ ->]. do 3 f_equal. lia.
Qed.

(** C30. Format round trip.  A packet written field by field as RFC 3550 and 8285
    prescribe is parsed, whatever memory follows it, into a packet whose header
    fields, payload, padding and extension elements are those fields. *)
Theorem rtp_parse_roundtrip f tail now :
  fields_ok f ->
  exists p, Parse (rtp_bytes f ++ tail) (zlen (rtp_bytes f)) now = Done (Some p) /\
    header_reads f p /\ exts_found f p /\ GetPayload p = Done (f_payload f) /\ pad_len_ p = f_pad f /\
    rtp_data_len_ p = zlen (rtp_bytes f) /\ local_ms_ p = now.
Proof.
  intros Hok. pose proof (fo_max f Hok) as Hmax. pose proof (fo_payload f Hok). pose proof (fo_pad f Hok) as Hp.
  pose proof (zlen_nonneg (f_csrcs f)). pose proof (zlen_nonneg (ext_bytes (f_exts f))).
  assert (zlen (rtp_bytes f) = zlen (head_bytes f) + (zlen (ext_bytes (f_exts f)) + (zlen (f_payload f) + f_pad f))) as Hlen.
  { rewrite rtp_bytes_split, !zlen_app, pad_length; lia. }
  pose proof (head_length f) as Hhd. set (len := zlen (rtp_bytes f)) in *.
  rewrite rtp_bytes_split, <- !app_assoc. set (rest := f_payload f ++ pad_bytes (f_pad f) ++ tail).
  set (m := head_bytes f ++ ext_bytes (f_exts f) ++ rest).
  destruct (head_bits f (ext_bytes (f_exts f) ++ rest) Hok) as (Hcc & _ & Hpb). fold m in Hcc, Hpb.
  unfold Parse. rewrite (proj2 (Z.ltb_ge _ _)) by done. rewrite Hcc. simpl_m.
  replace (if 0 <? zlen (f_csrcs f) then RTP_HEADER_SIZE + 4 * zlen (f_csrcs f) else RTP_HEADER_SIZE) with (zlen (head_bytes f)).
  2: { rewrite Hhd. unfold RTP_HEADER_SIZE. destruct (Z.ltb_spec 0 (zlen (f_csrcs f))); lia. }
  pose proof (parse_extension_format f rest len Hok) as Hpe0. fold m in Hpe0. rewrite Hpe0 by lia. simpl_m.
  rewrite (proj2 (Z.leb_gt len _)) by lia.
  assert (m = (head_bytes f ++ ext_bytes (f_exts f) ++ f_payload f) ++ pad_bytes (f_pad f) ++ tail) as Hm2
    by (unfold m, rest; by rewrite <- !app_assoc).
  assert (len = zlen (head_bytes f ++ ext_bytes (f_exts f) ++ f_payload f) + zlen (pad_bytes (f_pad f))) as Hlen2
    by (rewrite !zlen_app, pad_length; lia).
  assert (parse_padding m len (len - (zlen (head_bytes f) + zlen (ext_bytes (f_exts f)))) = Done (Some (zlen (f_payload f), f_pad f))) as ->.
  { replace (len - (zlen (head_bytes f) + zlen (ext_bytes (f_exts f)))) with (zlen (f_payload f) + f_pad f) by lia.
    rewrite Hlen2, Hm2. apply parse_padding_format; [done|by rewrite <- Hm2|done]. }
  simpl_m. unfold RtpPacket_new. rewrite (proj2 (Z.ltb_ge _ _)) by done. set (p0 := mkRtp m _ _ _ _ _ _ _ _ _ _ _).
  destruct (ParseExt_format f rest p0 Hok) as (one & Hpe & Hfound); [unfold RTP_PACKET_MAX_SIZE in *; lia|done|done|].
  eexists. split; [exact Hpe|]. split_and!; try done.
  - by apply (head_reads f _ (ext_bytes (f_exts f) ++ rest)).
  - unfold GetPayload. cbn [set_ext_maps mem_ payload_ payload_len_ p0]. unfold m. rewrite app_assoc, <- zlen_app. apply read_range_mid.
Qed.

Definition demo_fields : rtp_fields :=
  mkFields 1 96 17 9 5 [7] (Some ([(1, [170]); (3, [1; 2; 3])], 2)) [65; 66; 67] 2.

Lemma demo_fields_ok : fields_ok demo_fields.
Proof.
  constructor; try (by vm_compute). split_and!; [| |by vm_compute|by vm_compute].
  - repeat (apply Forall_cons; split); try apply Forall_nil; split; by vm_compute.
  - apply NoDup_cons. split; [|apply NoDup_singleton]. by intros ?%list_elem_of_singleton.
Qed.

Lemma rtp_parse_roundtrip_witness :
  exists p, Parse (rtp_bytes demo_fields ++ [9; 9]) (zlen (rtp_bytes demo_fields)) 1000 = Done (Some p) /\
    GetSeq p = Done 17 /\ GetPayload p = Done [65; 66; 67] /\ pad_len_ p = 2 /\
    exists e, GetExtension 3 p = Done (Some (e, 3)) /\ read_range (mem_ p) e 3 = Done [1; 2; 3].
Proof.
  destruct (rtp_parse_roundtrip demo_fields [9; 9] 1000 demo_fields_ok) as (p & Hp & Hh & He & Hpay & Hpad & _).
  exists p. split_and!; [done|apply Hh|done|done|]. apply (He 3 [1; 2; 3]). right. left.
Defined.
