(* ===== verification/Rtx.v ===== *)
(** * [Rtx]: the retransmission format, both ways

    [RtxMux] moves a packet to another stream and puts its sequence number in
    front of its payload; [RtxDemux] takes it back (RFC 4588).  Both rewrite the
    packet's memory in place. *)
From S2P Require Import Prelude ByteStream RtpPacket.

(** Memory as these functions see it: the header field by field, what is between
    it and the payload, and the rest. *)
Definition layout (b0 b1 : Z) (s t ss mid body : bytes) : bytes :=
  ([b0] ++ [b1] ++ s ++ t ++ ss) ++ mid ++ body.

Section layout.
Context (b0 b1 : Z) (s t ss mid body : bytes).
Context (Hs : zlen s = 2) (Ht : zlen t = 4) (Hss : zlen ss = 4).
Let m := layout b0 b1 s t ss mid body.

Lemma layout_store p d x :
  mem_ p = m ->
  store 0 [x] p = Done (set_mem (layout x b1 s t ss mid body) p) /\
  store 1 [x] p = Done (set_mem (layout b0 x s t ss mid body) p) /\
  (zlen d = 2 -> store 2 d p = Done (set_mem (layout b0 b1 d t ss mid body) p)) /\
  (zlen d = 4 -> store 8 d p = Done (set_mem (layout b0 b1 s t d mid body) p)).
Proof.
  intros Hm. unfold store. rewrite Hm. unfold m, layout. rewrite <- !app_assoc. split_and!; [..|intros Hd|intros Hd].
  - pose proof (write_at_mid [] [b0] ([b1] ++ s ++ t ++ ss ++ mid ++ body) [x] eq_refl) as H.
    change (zlen (@nil Z)) with 0 in H. cbn [app] in H |- *. by rewrite H.
  - pose proof (write_at_mid [b0] [b1] (s ++ t ++ ss ++ mid ++ body) [x] eq_refl) as H.
    change (zlen [b0]) with 1 in H. cbn [app] in H |- *. by rewrite H.
  - pose proof (write_at_mid [b0; b1] s (t ++ ss ++ mid ++ body) d) as H. change (zlen [b0; b1]) with 2 in H.
    cbn [app] in H |- *. by rewrite H by congruence.
  - pose proof (write_at_mid ([b0; b1] ++ s ++ t) ss (mid ++ body) d) as H.
    assert (zlen ([b0; b1] ++ s ++ t) = 8) as H8 by (rewrite !zlen_app, Hs, Ht; done).
    rewrite H8, <- !app_assoc in H. cbn [app] in H |- *. by rewrite H by congruence.
Qed.

Lemma layout_reads p : mem_ p = m ->
  GetSeq p = Done (be_value s) /\ GetTimestamp p = Done (be_value t) /\ GetSsrc p = Done (be_value ss) /\
  (mem_ p).[0] = Done b0 /\ (mem_ p).[1] = Done b1.
Proof.
  intros Hm. unfold GetSeq, GetTimestamp, GetSsrc. rewrite Hm. unfold m, layout. rewrite <- !app_assoc.
  assert (length s = 2%nat /\ length t = 4%nat /\ length ss = 4%nat) as (Hs' & Ht' & Hss') by (unfold zlen in *; lia).
  split_and!; [..|done|done].
  - change (drop 2 ([b0] ++ [b1] ++ ?x)) with x. by apply Read2Bytes_spec.
  - change (drop 4 ([b0] ++ [b1] ++ ?x)) with (drop 2 x). rewrite drop_app_length' by done. by apply Read4Bytes_spec.
  - change (drop 8 ([b0] ++ [b1] ++ ?x)) with (drop (2 + 4) x). rewrite <- drop_drop.
    rewrite !drop_app_length' by done. by apply Read4Bytes_spec.
Qed.

(** The body starts where the payload does. *)
Definition at_payload (p : RtpPacket) : Prop := mem_ p = m /\ payload_ p = RTP_HEADER_SIZE + zlen mid.

Lemma front_length : zlen (([b0] ++ [b1] ++ s ++ t ++ ss) ++ mid) = RTP_HEADER_SIZE + zlen mid.
Proof. rewrite !zlen_app, Hs, Ht, Hss. done. Qed.

Lemma body_read p a d c : at_payload p -> body = a ++ d ++ c ->
  read_range (mem_ p) (payload_ p + zlen a) (zlen d) = Done d.
Proof.
  intros [Hm Hp] Hb. rewrite Hm, Hp, <- front_length, <- zlen_app. unfold m, layout. rewrite Hb.
  rewrite (app_assoc _ mid), (app_assoc _ a). apply read_range_mid.
Qed.

Lemma body_store p a d c e : at_payload p -> body = a ++ d ++ c -> zlen e = zlen d ->
  store (payload_ p + zlen a) e p = Done (set_mem (layout b0 b1 s t ss mid (a ++ e ++ c)) p).
Proof.
  intros [Hm Hp] Hb He. unfold store. rewrite Hm, Hp, <- front_length, <- zlen_app. unfold m, layout. rewrite Hb.
  rewrite (app_assoc _ mid), (app_assoc _ a), write_at_mid by done. simpl_m. by rewrite <- !app_assoc.
Qed.

Definition padded : bool := Z.land (Z.shiftr b0 5) 1 =? 1.

Lemma drop_padding_layout p : mem_ p = m ->
  drop_padding p = Done
    (set_lens (payload_len_ p) (if padded then 0 else pad_len_ p)
      (if padded then u64 (rtp_data_len_ p - pad_len_ p) else rtp_data_len_ p)
      (set_mem (layout (if padded then put_bits b0 5 1 0 else b0) b1 s t ss mid body) p)).
Proof.
  intros Hm. unfold drop_padding, HasPadding, padding. destruct (layout_reads p Hm) as (_ & _ & _ & -> & _). simpl_m.
  fold padded. destruct padded.
  - unfold SetPadding. destruct (layout_reads p Hm) as (_ & _ & _ & -> & _). simpl_m.
    destruct (layout_store p [] (put_bits b0 5 1 0) Hm) as (-> & _). by simpl_m.
  - unfold mret, outcome_ret. f_equal. fold m. rewrite <- Hm. by destruct p.
Qed.
End layout.

(** ** Both directions *)

(** Two strings one behind the other, cut where the second's length ends. *)
Lemma app_swap_cut (a b : bytes) : exists h q, a ++ b = h ++ q /\ zlen h = zlen b /\ zlen q = zlen a.
Proof.
  exists (take (length b) (a ++ b)), (drop (length b) (a ++ b)). rewrite take_drop. unfold zlen.
  rewrite length_take, length_drop, length_app. split_and!; [done|lia|lia].
Qed.

(** The packet both functions end with. *)
Definition rewritten (b0 b1 : Z) (s t ss mid body : bytes) (len data_len : Z) (p : RtpPacket) : RtpPacket :=
  set_lens len (if padded b0 then 0 else pad_len_ p)
    (if padded b0 then u64 (data_len - pad_len_ p) else data_len)
    (set_mem (layout (if padded b0 then put_bits b0 5 1 0 else b0) b1 s t ss mid body) p).

Lemma RtxMux_layout b0 b1 s t ss mid pay room rest p pt ssrc seq :
  zlen s = 2 -> zlen t = 4 -> zlen ss = 4 -> zlen room = 2 ->
  at_payload b0 b1 s t ss mid (pay ++ room ++ rest) p -> payload_len_ p = zlen pay ->
  RtxMux pt ssrc seq p = Done (rewritten b0 (put_bits b1 0 7 pt) (Write2Bytes seq) t (Write4Bytes ssrc) mid
    (Write2Bytes (be_value s) ++ pay ++ rest) (zlen pay + 2) (rtp_data_len_ p + 2) p).
Proof.
  intros Hs Ht Hss Hr [Hm Hp] Hl. unfold RtxMux, SetPayloadType.
  destruct (layout_reads _ _ _ _ _ _ _ Hs Ht Hss p Hm) as (_ & _ & _ & _ & ->). simpl_m.
  destruct (layout_store _ _ _ _ _ _ _ Hs Ht Hss p [] (put_bits b1 0 7 pt) Hm) as (_ & -> & _). simpl_m.
  set (b1' := put_bits b1 0 7 pt). set (p1 := set_mem _ p). unfold SetSsrc.
  destruct (layout_store b0 b1' s t ss mid _ Hs Ht Hss p1 (Write4Bytes ssrc) 0 eq_refl) as (_ & _ & _ & Hst).
  rewrite Hst by done. simpl_m. clear Hst.
  set (ss' := Write4Bytes ssrc). set (p2 := set_mem _ p1). assert (zlen ss' = 4) as Hss' by done.
  assert (at_payload b0 b1' s t ss' mid (pay ++ room ++ rest) p2) as H2 by by split.
  pose proof (body_read _ _ _ _ _ _ _ Hs Ht Hss' p2 [] pay (room ++ rest) H2 eq_refl) as Hrd.
  change (zlen (@nil Z)) with 0 in Hrd. rewrite Z.add_0_r in Hrd.
  change (payload_len_ p2) with (payload_len_ p). rewrite Hl, Hrd. simpl_m.
  destruct (app_swap_cut pay room) as (h & q & Hhq & Hh & Hq). rewrite Hr in Hh.
  rewrite app_assoc, Hhq, <- app_assoc in H2.
  pose proof (body_store _ _ _ _ _ _ _ Hs Ht Hss' p2 h q rest pay H2 eq_refl (eq_sym Hq)) as Hst.
  rewrite Hh in Hst. rewrite Hst. simpl_m. clear Hst. set (p3 := set_mem _ p2).
  assert (at_payload b0 b1' s t ss' mid ([] ++ h ++ pay ++ rest) p3) as H3 by by split.
  destruct (layout_reads _ _ _ _ _ _ _ Hs Ht Hss' p3 (proj1 H3)) as (-> & _). simpl_m.
  pose proof (body_store _ _ _ _ _ _ _ Hs Ht Hss' p3 [] h (pay ++ rest) (Write2Bytes (be_value s)) H3 eq_refl (eq_sym Hh)) as Hst.
  change (zlen (@nil Z)) with 0 in Hst. rewrite Z.add_0_r in Hst. rewrite Hst. simpl_m. clear Hst. set (p4 := set_mem _ p3). unfold SetSeq.
  destruct (layout_store b0 b1' s t ss' mid _ Hs Ht Hss' p4 (Write2Bytes seq) 0 eq_refl) as (_ & _ & Hst & _).
  rewrite Hst by done. simpl_m. clear Hst.
  rewrite (drop_padding_layout b0 b1' (Write2Bytes seq) t ss' mid _ eq_refl Ht Hss') by done.
  do 2 f_equal. unfold rewritten. cbn -[Z.add]. by rewrite Hl.
Qed.

Lemma RtxDemux_layout b0 b1 s t ss mid w pay rest p pt ssrc :
  zlen s = 2 -> zlen t = 4 -> zlen ss = 4 -> zlen w = 2 ->
  at_payload b0 b1 s t ss mid (w ++ pay ++ rest) p -> payload_len_ p = zlen pay + 2 ->
  exists room, zlen room = 2 /\
  RtxDemux ssrc pt p = Done (Some (rewritten b0 (put_bits b1 0 7 pt) (Write2Bytes (be_value w)) t (Write4Bytes ssrc) mid
    (pay ++ room ++ rest) (zlen pay) (u64 (rtp_data_len_ p - 2)) p)).
Proof.
  intros Hs Ht Hss Hw [Hm Hp] Hl. pose proof (zlen_nonneg pay). unfold RtxDemux. rewrite Hl, (proj2 (Z.ltb_ge _ 2)) by lia.
  assert (Read2Bytes (drop (Z.to_nat (payload_ p)) (mem_ p)) = Done (be_value w)) as ->.
  { rewrite Hm, Hp, <- (front_length b0 b1 s t ss mid Hs Ht Hss). unfold layout. rewrite (app_assoc _ mid), drop_zlen_app.
    apply Read2Bytes_spec. unfold zlen in Hw. lia. }
  simpl_m. unfold SetPayloadType. destruct (layout_reads _ _ _ _ _ _ _ Hs Ht Hss p Hm) as (_ & _ & _ & _ & ->). simpl_m.
  destruct (layout_store _ _ _ _ _ _ _ Hs Ht Hss p [] (put_bits b1 0 7 pt) Hm) as (_ & -> & _). simpl_m.
  set (b1' := put_bits b1 0 7 pt). set (p1 := set_mem _ p). unfold SetSeq.
  destruct (layout_store b0 b1' s t ss mid _ Hs Ht Hss p1 (Write2Bytes (be_value w)) 0 eq_refl) as (_ & _ & Hst & _).
  rewrite Hst by done. simpl_m. clear Hst. set (s' := Write2Bytes (be_value w)). set (p2 := set_mem _ p1).
  assert (zlen s' = 2) as Hs' by done. unfold SetSsrc.
  destruct (layout_store b0 b1' s' t ss mid _ Hs' Ht Hss p2 (Write4Bytes ssrc) 0 eq_refl) as (_ & _ & _ & Hst).
  rewrite Hst by done. simpl_m. clear Hst. set (ss' := Write4Bytes ssrc). set (p3 := set_mem _ p2).
  assert (zlen ss' = 4) as Hss' by done.
  assert (at_payload b0 b1' s' t ss' mid (w ++ pay ++ rest) p3) as H3 by by split.
  pose proof (body_read _ _ _ _ _ _ _ Hs' Ht Hss' p3 w pay rest H3 eq_refl) as Hrd. rewrite Hw in Hrd.
  change (payload_len_ p3) with (payload_len_ p). rewrite Hl. replace (zlen pay + 2 - 2) with (zlen pay) by lia.
  rewrite Hrd. simpl_m. destruct (app_swap_cut w pay) as (h & q & Hhq & Hh & Hq). rewrite Hw in Hq.
  rewrite app_assoc, Hhq, <- app_assoc in H3. change (h ++ q ++ rest) with ([] ++ h ++ q ++ rest) in H3.
  pose proof (body_store _ _ _ _ _ _ _ Hs' Ht Hss' p3 [] h (q ++ rest) pay H3 eq_refl (eq_sym Hh)) as Hst.
  change (zlen (@nil Z)) with 0 in Hst. rewrite Z.add_0_r in Hst. rewrite Hst. simpl_m. clear Hst. set (p4 := set_mem _ p3).
  rewrite (drop_padding_layout b0 b1' s' t ss' mid _ Hs' Ht Hss') by done. simpl_m. exists q. split; [done|].
  do 2 f_equal. unfold rewritten. cbn -[Z.add Z.sub]. rewrite Hl. by replace (zlen pay + 2 - 2) with (zlen pay) by lia.
Qed.

(** ** The bit fields that are kept *)

Lemma put_type_kept b1 pt : is_byte b1 -> 0 <= pt < 128 ->
  Z.land (put_bits b1 0 7 pt) 0x7f = pt /\ Z.land (Z.shiftr (put_bits b1 0 7 pt) 7) 1 = Z.land (Z.shiftr b1 7) 1 /\
  is_byte (put_bits b1 0 7 pt).
Proof.
  unfold is_byte. intros Hb Hp.
  assert (put_bits b1 0 7 pt = (b1 / 2 ^ 7) * 2 ^ 7 + pt) as ->.
  { unfold put_bits. change (255 - Z.shiftl (Z.ones 7) 0) with (Z.shiftl 1 7). rewrite Z.shiftl_0_r, Z.land_ones, Z.mod_small by lia.
    assert (Z.land b1 (Z.shiftl 1 7) = (b1 / 2 ^ 7) * 2 ^ 7) as ->.
    { apply Z.eqb_eq. by apply (byte_all (fun b => Z.land b (Z.shiftl 1 7) =? (b / 2 ^ 7) * 2 ^ 7)). }
    by apply lor_add. }
  rewrite (low_mask _ 0x7f 7), !(shift_mask _ 1 7 1) by done. split_and!; div_lia.
Qed.

Lemma padding_cleared b : is_byte b ->
  padded (if padded b then put_bits b 5 1 0 else b) = false /\ is_byte (if padded b then put_bits b 5 1 0 else b).
Proof.
  intros Hb. destruct (padded b) eqn:E; [|done]. split.
  - apply negb_true_iff. by apply (byte_all (fun b => negb (padded (put_bits b 5 1 0)))).
  - pose proof (byte_all (fun b => (0 <=? put_bits b 5 1 0) && (put_bits b 5 1 0 <? 256)) b eq_refl Hb) as [? ?]%andb_true_iff.
    unfold is_byte. lia.
Qed.

(** What is read from the rewritten packet. *)
Lemma rewritten_reads b0 b1 s t ss mid body len dl p :
  zlen s = 2 -> zlen t = 4 -> zlen ss = 4 -> is_byte b0 ->
  let q := rewritten b0 b1 s t ss mid body len dl p in
  GetSeq q = Done (be_value s) /\ GetTimestamp q = Done (be_value t) /\ GetSsrc q = Done (be_value ss) /\
  GetPayloadType q = Done (Z.land b1 0x7f) /\ GetMarker q = Done (Z.land (Z.shiftr b1 7) 1) /\
  HasPadding q = Done false.
Proof.
  intros Hs Ht Hss Hb q. destruct (padding_cleared b0 Hb) as [Hpad _].
  set (b0' := if padded b0 then put_bits b0 5 1 0 else b0) in *.
  destruct (layout_reads b0' b1 s t ss mid body Hs Ht Hss q eq_refl) as (H1 & H2 & H3 & H4 & H5).
  unfold GetPayloadType, GetMarker, HasPadding, payload_type, marker, padding. rewrite H4, H5. simpl_m.
  unfold padded in Hpad. rewrite Hpad. by split_and!.
Qed.

Lemma rewritten_payload b0 b1 s t ss mid a c len dl p :
  zlen s = 2 -> zlen t = 4 -> zlen ss = 4 -> payload_ p = RTP_HEADER_SIZE + zlen mid -> len = zlen a ->
  GetPayload (rewritten b0 b1 s t ss mid (a ++ c) len dl p) = Done a.
Proof.
  intros Hs Ht Hss Hp ->. set (q := rewritten _ _ _ _ _ _ _ _ _ _).
  pose proof (body_read (if padded b0 then put_bits b0 5 1 0 else b0) b1 s t ss mid (a ++ c) Hs Ht Hss q [] a c) as H. change (zlen (@nil Z)) with 0 in H.
  rewrite Z.add_0_r in H. apply H; [by split|done].
Qed.

Lemma be_value_Write2Bytes v : be_value (Write2Bytes v) = u16 v.
Proof. rewrite Write2Bytes_be. apply be_value_be_bytes. Qed.
Lemma be_value_Write4Bytes v : be_value (Write4Bytes v) = u32 v.
Proof. rewrite Write4Bytes_be. apply be_value_be_bytes. Qed.

Lemma has_layout p :
  rtp_ok p -> payload_ p + payload_len_ p + 2 <= zlen (mem_ p) ->
  exists b0 b1 s t ss mid pay room rest, zlen s = 2 /\ zlen t = 4 /\ zlen ss = 4 /\ zlen room = 2 /\
    at_payload b0 b1 s t ss mid (pay ++ room ++ rest) p /\ payload_len_ p = zlen pay.
Proof.
  intros [_ _ Hst Hsome _ _ _ _] Hroom. unfold RTP_HEADER_SIZE in Hst.
  destruct (mem_ p) as [|b0 [|b1 m]] eqn:Hm; [unfold zlen in Hroom; cbn in Hroom; lia..|]. rewrite !zlen_cons in Hroom.
  assert (exists mid r, drop 10 m = mid ++ r /\ payload_ p = 12 + zlen mid) as (mid & r & Hmid & Hp).
  { exists (take (Z.to_nat (payload_ p - 12)) (drop 10 m)), (drop (Z.to_nat (payload_ p - 12)) (drop 10 m)).
    rewrite take_drop, zlen_take; [split; [done|lia]|]. change 10%nat with (Z.to_nat 10). rewrite zlen_drop; lia. }
  assert (zlen m = 10 + zlen mid + zlen r) as Hr.
  { rewrite <- (take_drop 10 m), zlen_app, Hmid, zlen_app. change 10%nat with (Z.to_nat 10). rewrite zlen_take; lia. }
  set (n := Z.to_nat (payload_len_ p)).
  exists b0, b1, (take 2 m), (take 4 (drop 2 m)), (take 4 (drop 6 m)), mid, (take n r), (take 2 (drop n r)), (drop 2 (drop n r)).
  unfold zlen in *. unfold at_payload, layout, RTP_HEADER_SIZE, zlen. rewrite !length_take, !length_drop. split_and!; try lia.
  rewrite !take_drop, <- !app_assoc, Hm. cbn [app]. do 2 f_equal.
  rewrite <- Hmid. rewrite <- (take_drop 2 m) at 1. f_equal. rewrite <- (take_drop 4 (drop 2 m)) at 1. rewrite drop_drop. f_equal.
  rewrite <- (take_drop 4 (drop (2 + 4) m)) at 1. by rewrite drop_drop.
Qed.

(** C31. RTX round trip.  Wrapping a packet for retransmission gives a packet of
    the other stream whose payload is the old sequence number and the old payload;
    unwrapping it with the original stream's identification gives back sequence
    number, timestamp, marker, type, source and payload, and the datagram without
    its padding. *)
Theorem rtx_roundtrip p pt ssrc seq pt0 ssrc0 seq0 pay pd :
  bytes_ok (mem_ p) -> rtp_ok p -> payload_ p + payload_len_ p + 2 <= zlen (mem_ p) -> 0 <= pt < 128 ->
  GetPayloadType p = Done pt0 -> GetSsrc p = Done ssrc0 -> GetSeq p = Done seq0 -> GetPayload p = Done pay ->
  HasPadding p = Done pd ->
  exists p1 p2, RtxMux pt ssrc seq p = Done p1 /\
    GetSeq p1 = Done (u16 seq) /\ GetSsrc p1 = Done (u32 ssrc) /\ GetPayloadType p1 = Done pt /\
    GetPayload p1 = Done (Write2Bytes seq0 ++ pay) /\ HasPadding p1 = Done false /\
    RtxDemux ssrc0 pt0 p1 = Done (Some p2) /\
    GetSeq p2 = Done seq0 /\ GetSsrc p2 = Done ssrc0 /\ GetPayloadType p2 = Done pt0 /\ GetPayload p2 = Done pay /\
    GetMarker p2 = GetMarker p /\ GetTimestamp p2 = GetTimestamp p /\ HasPadding p2 = Done false /\
    rtp_data_len_ p2 = rtp_data_len_ p - (if pd then pad_len_ p else 0).
Proof.
  intros Hbytes Hok Hroom Hpt Hpt0 Hssrc0 Hseq0 Hpay Hpd.
  destruct (has_layout p Hok Hroom) as (b0 & b1 & s & t & ss & mid & pay' & room & rest & Hs & Ht & Hss & Hr & Hat & Hl).
  pose proof Hat as [Hm Hp]. destruct (layout_reads _ _ _ _ _ _ _ Hs Ht Hss p Hm) as (Rseq & Rts & Rssrc & R0 & R1).
  pose proof (rd_byte _ _ _ Hbytes R0) as B0. pose proof (rd_byte _ _ _ Hbytes R1) as B1.
  assert (pay = pay') as ->.
  { pose proof (body_read _ _ _ _ _ _ _ Hs Ht Hss p [] pay' (room ++ rest) Hat eq_refl) as Hrd.
    change (zlen (@nil Z)) with 0 in Hrd. rewrite Z.add_0_r, <- Hl in Hrd. unfold GetPayload in Hpay. congruence. }
  rewrite Rseq in Hseq0. rewrite Rssrc in Hssrc0. injection Hseq0 as <-. injection Hssrc0 as <-.
  assert (GetPayloadType p = Done (Z.land b1 0x7f) /\ GetMarker p = Done (Z.land (Z.shiftr b1 7) 1) /\
    HasPadding p = Done (padded b0)) as (RT & RM & RP).
  { unfold GetPayloadType, GetMarker, HasPadding, payload_type, marker, padding. by rewrite R0, R1. }
  rewrite RT in Hpt0. rewrite RP in Hpd. injection Hpt0 as <-. injection Hpd as <-. rewrite Rts, RM.
  assert (bytes_ok s /\ bytes_ok ss) as [Bs Bss].
  { unfold bytes_ok in *. rewrite Hm in Hbytes. unfold layout in Hbytes. rewrite !Forall_app in Hbytes. tauto. }
  pose proof (be_value_bound s Bs) as Vs. pose proof (be_value_bound ss Bss) as Vss. rewrite Hs in Vs. rewrite Hss in Vss.
  destruct (put_type_kept b1 pt B1 Hpt) as (T1 & T2 & T3).
  assert (0 <= Z.land b1 0x7f < 128) as Ht0 by (rewrite (low_mask _ 0x7f 7) by done; apply Z.mod_pos_bound; lia).
  destruct (put_type_kept (put_bits b1 0 7 pt) (Z.land b1 0x7f) T3 Ht0) as (U1 & U2 & _). rewrite T2 in U2.
  destruct (padding_cleared b0 B0) as [P0 PB0].
  pose proof (RtxMux_layout b0 b1 s t ss mid pay' room rest p pt ssrc seq Hs Ht Hss Hr Hat Hl) as Hmux.
  set (p1 := rewritten _ _ _ _ _ _ _ _ _ _) in Hmux. exists p1.
  assert (at_payload (if padded b0 then put_bits b0 5 1 0 else b0) (put_bits b1 0 7 pt) (Write2Bytes seq) t (Write4Bytes ssrc) mid
    (Write2Bytes (be_value s) ++ pay' ++ rest) p1) as Hat1 by by split.
  destruct (RtxDemux_layout _ (put_bits b1 0 7 pt) (Write2Bytes seq) t (Write4Bytes ssrc) mid (Write2Bytes (be_value s)) pay' rest p1 (Z.land b1 0x7f) (be_value ss)
    eq_refl Ht eq_refl eq_refl Hat1 eq_refl) as (room2 & Hr2 & Hdemux).
  set (p2 := rewritten _ _ _ _ _ _ _ _ _ _) in Hdemux. exists p2.
  destruct (rewritten_reads b0 (put_bits b1 0 7 pt) (Write2Bytes seq) t (Write4Bytes ssrc) mid (Write2Bytes (be_value s) ++ pay' ++ rest)
    (zlen pay' + 2) (rtp_data_len_ p + 2) p eq_refl Ht eq_refl B0) as (A1 & _ & A3 & A4 & _ & A6). fold p1 in A1, A3, A4, A6.
  pose proof (rewritten_reads _ (put_bits (put_bits b1 0 7 pt) 0 7 (Z.land b1 0x7f)) (Write2Bytes (be_value (Write2Bytes (be_value s)))) t
    (Write4Bytes (be_value ss)) mid (pay' ++ room2 ++ rest) (zlen pay') (u64 (rtp_data_len_ p1 - 2)) p1 eq_refl Ht eq_refl PB0)
    as (C1 & C2 & C3 & C4 & C5 & C6). fold p2 in C1, C2, C3, C4, C5, C6.
  rewrite A1, A3, C1, C2, C3, A4, A6, C4, C5, C6, U1, U2, T1, !be_value_Write2Bytes, !be_value_Write4Bytes.
  assert (u16 (be_value s) = be_value s) as -> by (apply u16_small; lia).
  assert (u16 (be_value s) = be_value s) as -> by (apply u16_small; lia).
  assert (u32 (be_value ss) = be_value ss) as -> by (apply Z.mod_small; lia).
  split_and!; try done.
  - unfold p1. rewrite app_assoc. apply rewritten_payload; try done. rewrite zlen_app. change (zlen (Write2Bytes _)) with 2. lia.
  - by apply rewritten_payload.
  - unfold p2, rewritten at 1. cbn [set_lens rtp_data_len_ set_mem]. rewrite P0. unfold p1, rewritten.
    cbn [set_lens rtp_data_len_ set_mem]. fold (padded b0). destruct Hok as [_ Hmax Hst Hsome Hpad Hsum _ _].
    unfold RTP_HEADER_SIZE, RTP_PACKET_MAX_SIZE in *. pose proof (zlen_nonneg mid).
    assert (u64 (rtp_data_len_ p + 2 - pad_len_ p) = rtp_data_len_ p + 2 - pad_len_ p) as Hu by (apply u64_small; lia).
    destruct (padded b0); rewrite ?Hu, u64_small; lia.
Qed.

Definition demo_rtp : RtpPacket :=
  mkRtp ([0x80; 0xe0] ++ Write2Bytes 17 ++ Write4Bytes 9 ++ Write4Bytes 5 ++ [65; 66; 67] ++ [0; 0; 0]) None 12 3 0 15 1000
    false 0 0 [] [].

Lemma rtx_roundtrip_witness :
  exists p1 p2, RtxMux 97 8 500 demo_rtp = Done p1 /\ GetSeq p1 = Done 500 /\ GetPayload p1 = Done [0; 17; 65; 66; 67] /\
    RtxDemux 5 96 p1 = Done (Some p2) /\ GetSeq p2 = Done 17 /\ GetPayload p2 = Done [65; 66; 67] /\
    rtp_data_len_ p2 = 15.
Proof.
  destruct (rtx_roundtrip demo_rtp 97 8 500 96 5 17 [65; 66; 67] false) as
    (p1 & p2 & H1 & H2 & _ & _ & H5 & _ & H7 & H8 & _ & _ & H11 & _ & _ & _ & H15); try reflexivity.
  - repeat constructor; by vm_compute.
  - constructor; try (by vm_compute); constructor.
  - by vm_compute.
  - by vm_compute.
  - exists p1, p2. by split_and!.
Defined.
