(* ===== verification/RtpClone.v ===== *)
(** * [RtpClone]: copies of RTP packets

    [Clone] copies the datagram and parses it again.  The result is the packet
    [Parse] made before: the bytes behind the datagram, which differ, are not
    read.  [RtpLike] is what the jitter buffer relies on. *)
From S2P Require Import Prelude ByteStream ZMap DataBuffer RtpPacket.

(** Two memories with the same first [len] bytes. *)
Definition agree (len : Z) (m m' : bytes) : Prop := forall i, 0 <= i < len -> rd m i = rd m' i.

Lemma rd_drop m n i : 0 <= i -> 0 <= n -> rd (drop (Z.to_nat n) m) i = rd m (n + i).
Proof.
  intros. unfold rd. rewrite !bool_decide_eq_true_2 by lia. rewrite lookup_drop.
  by replace (Z.to_nat n + Z.to_nat i)%nat with (Z.to_nat (n + i)) by lia.
Qed.

Section agree.
Context (len : Z) (m m' : bytes) (Ha : agree len m m').

Lemma agree_Read2Bytes i : 0 <= i -> i + 2 <= len ->
  Read2Bytes (drop (Z.to_nat i) m') = Read2Bytes (drop (Z.to_nat i) m).
Proof. intros. unfold Read2Bytes. rewrite !rd_drop by lia. by rewrite !Ha by lia. Qed.

Lemma agree_skip_zeros fuel p ext_end : 0 <= p -> ext_end <= len ->
  skip_zeros fuel m' p ext_end = skip_zeros fuel m p ext_end.
Proof.
  revert p. induction fuel as [|fuel IH]; intros p Hp He; [done|]. cbn [skip_zeros].
  destruct (Z.ltb_spec p ext_end); [|done]. rewrite <- Ha by lia. destruct (rd m p); [|done]. simpl_m.
  destruct (_ =? 0); [|done]. apply IH; lia.
Qed.

Lemma skip_zeros_forward fuel p ext_end q : skip_zeros fuel m p ext_end = Done q -> p <= q.
Proof.
  revert p. induction fuel as [|fuel IH]; intros p; [done|]. cbn [skip_zeros].
  destruct (p <? ext_end); [|intros [= <-]; lia]. intros (b & _ & He)%bind_inv. revert He.
  destruct (b =? 0); [|intros [= <-]; lia]. intros Hq%IH. lia.
Qed.

Lemma agree_onebyte_loop fuel p ext_end map : 0 <= p -> ext_end <= len ->
  onebyte_loop fuel m' p ext_end map = onebyte_loop fuel m p ext_end map.
Proof.
  revert p map. induction fuel as [|fuel IH]; intros p map Hp He; [done|]. cbn [onebyte_loop].
  destruct (Z.ltb_spec p ext_end); [|done]. rewrite <- Ha by lia. destruct (rd m p) as [b|]; [|done]. simpl_m.
  destruct (_ =? 0x0f); [done|]. destruct (negb _ && _); [done|]. pose proof (land_nonneg b 0x0f).
  set (mp := if negb _ then _ else _). assert (0 <= mp.2) by (unfold mp; destruct (negb _); cbn; lia).
  destruct mp as [map' q]. cbn in H1. rewrite agree_skip_zeros by lia.
  destruct (skip_zeros _ m q ext_end) as [q'|] eqn:E; [|done]. simpl_m. apply skip_zeros_forward in E. apply IH; lia.
Qed.

Lemma agree_twobytes_loop fuel p ext_end map : bytes_ok m -> 0 <= p -> ext_end <= len ->
  twobytes_loop fuel m' p ext_end map = twobytes_loop fuel m p ext_end map.
Proof.
  intros Hm. revert p map. induction fuel as [|fuel IH]; intros p map Hp He; [done|]. cbn [twobytes_loop].
  destruct (Z.ltb_spec (p + 1) ext_end); [|done]. rewrite <- !Ha by lia. destruct (rd m p) as [id|]; [|done]. simpl_m.
  destruct (rd m (p + 1)) as [l|] eqn:El; [|done]. simpl_m. destruct (negb _ && _); [done|].
  pose proof (rd_byte _ _ _ Hm El) as Hl. unfold is_byte in Hl.
  set (mp := if negb _ then _ else _). assert (0 <= mp.2) by (unfold mp; destruct (negb _); cbn; lia).
  destruct mp as [map' q]. cbn in H0. rewrite agree_skip_zeros by lia.
  destruct (skip_zeros _ m q ext_end) as [q'|] eqn:E; [|done]. simpl_m. apply skip_zeros_forward in E. apply IH; lia.
Qed.

Lemma agree_bits : 1 <= len ->
  csrc_count m' = csrc_count m /\ extension m' = extension m /\ padding m' = padding m.
Proof. intros. unfold csrc_count, extension, padding. by rewrite <- Ha by lia. Qed.
End agree.

(** The packet [p] in another memory, made at another time. *)
Definition moved (m' : bytes) (now : Z) (p : RtpPacket) : RtpPacket :=
  mkRtp m' (ext_ p) (payload_ p) (payload_len_ p) (pad_len_ p) (rtp_data_len_ p) now (need_delete_ p)
    (mid_extension_id_ p) (abs_time_extension_id_ p) (onebyte_ext_map_ p) (twobytes_ext_map_ p).

Section parse.
Context (len : Z) (m m' : bytes) (now now' : Z).
Context (Ha : agree len m m') (Hm : bytes_ok m) (Hlen : 1 <= len <= zlen m).

Lemma agree_parse_extension p : RTP_HEADER_SIZE <= p -> parse_extension m' len p = parse_extension m len p.
Proof.
  unfold RTP_HEADER_SIZE. intros Hp. unfold parse_extension. destruct (agree_bits len m m' Ha) as (_ & -> & _); [lia|].
  destruct (extension m) as [x|]; [|done]. simpl_m. destruct (negb _); [|done].
  destruct (Z.ltb_spec len (p + 4)); [done|]. by rewrite (agree_Read2Bytes len m m' Ha) by lia.
Qed.

Lemma agree_parse_padding n : parse_padding m' len n = parse_padding m len n.
Proof.
  unfold parse_padding. destruct (agree_bits len m m' Ha) as (_ & _ & ->); [lia|]. by rewrite <- Ha by lia.
Qed.

Lemma agree_ParseExt p q :
  mem_ p = m -> ext_fits m len (ext_ p) (payload_ p) -> len <= RTP_PACKET_MAX_SIZE ->
  ParseExt p = Done (Some q) -> ParseExt (moved m' now' p) = Done (Some (moved m' now' q)).
Proof.
  intros Hmem He Hmax. unfold ParseExt. cbn [moved mem_ ext_]. rewrite Hmem.
  destruct (agree_bits len m m' Ha) as (_ & -> & _); [lia|]. destruct (extension m) as [x|]; [|done]. simpl_m.
  destruct (ext_ p) as [e|] eqn:Hext; [|by intros [= <-]]. destruct (x =? 0); [by intros [= <-]|].
  destruct He as (He & l & Hl & Hl0 & Hp & Hpl). unfold RTP_HEADER_SIZE, RTP_PACKET_MAX_SIZE in *.
  assert (Hid : Read2Bytes (drop (Z.to_nat e) m') = Read2Bytes (drop (Z.to_nat e) m)) by (apply (agree_Read2Bytes len); [done|lia..]).
  assert (Hln : Read2Bytes (drop (Z.to_nat (e + 2)) m') = Done l) by (rewrite (agree_Read2Bytes len m m' Ha) by lia; done).
  unfold HasOnebyteExt, HasTwobytesExt, GetExtId. rewrite Hid. destruct (Read2Bytes (drop (Z.to_nat e) m)) as [id|]; [|done]. simpl_m.
  destruct (id =? 0xbede).
  - unfold ParseOnebyteExt, GetExtLength. cbn [moved mem_]. rewrite Hmem, Hl, Hln. simpl_m. rewrite u16_small by lia.
    rewrite (agree_onebyte_loop len m m' Ha) by lia. destruct (onebyte_loop _ _ _ _ _) as [[map|]|]; [|done|done].
    simpl_m. by intros [= <-].
  - destruct (_ =? 0x1000); [|done]. unfold ParseTwobytesExt, GetExtLength. cbn [moved mem_]. rewrite Hmem, Hl, Hln. simpl_m.
    rewrite u16_small by lia. rewrite (agree_twobytes_loop len m m' Ha) by (done || lia).
    destruct (twobytes_loop _ _ _ _ _) as [[map|]|]; [|done|done]. simpl_m. by intros [= <-].
Qed.

Lemma agree_Parse p : Parse m len now = Done (Some p) -> Parse m' len now' = Done (Some (moved m' now' p)).
Proof.
  unfold Parse. destruct (Z.ltb_spec RTP_PACKET_MAX_SIZE len) as [|Hmax]; [done|].
  destruct (agree_bits len m m' Ha) as (-> & _ & _); [lia|].
  destruct (header_bits m) as (b & _ & -> & _); [lia|]. simpl_m. pose proof (land_nonneg b 0x0f).
  set (p0 := if 0 <? Z.land b 0x0f then _ else _).
  assert (RTP_HEADER_SIZE <= p0) as Hp0 by (unfold p0; destruct (0 <? _); lia). clearbody p0.
  rewrite agree_parse_extension by done. destruct (parse_extension_total m len p0 Hm Hp0 Hlen) as (r & -> & Hr). simpl_m.
  destruct r as [[ext q]|]; [|done]. specialize (Hr _ _ eq_refl). destruct (len <=? q); [done|].
  rewrite agree_parse_padding. destruct (parse_padding m len (len - q)) as [[[n pad]|]|]; [|done|done]. simpl_m.
  unfold RtpPacket_new. rewrite (proj2 (Z.ltb_ge _ _)) by done. intros Hp. by apply (agree_ParseExt (mkRtp m ext q n pad len now false 0 0 [] []) _ eq_refl Hr Hmax Hp).
Qed.
End parse.

(** A packet as [Parse] returned it, apart from the extension ids set later. *)
Definition parsed (p : RtpPacket) : Prop :=
  bytes_ok (mem_ p) /\ 1 <= rtp_data_len_ p < RTP_PACKET_MAX_SIZE /\ rtp_data_len_ p <= zlen (mem_ p) /\
  exists q, Parse (mem_ p) (rtp_data_len_ p) (local_ms_ p) = Done (Some q) /\
    p = set_ext_ids (mid_extension_id_ p) (abs_time_extension_id_ p) (set_need_delete (need_delete_ p) q).

Lemma Clone_spec p buffer fresh now :
  parsed p -> bytes_ok (default fresh buffer) -> zlen (default fresh buffer) = RTP_PACKET_MAX_SIZE ->
  exists p', Clone buffer fresh now p = Done (Some p') /\ parsed p' /\
    p' = set_need_delete (if buffer is Some _ then false else true) (moved (mem_ p') now p) /\
    read_range (mem_ p') 0 (rtp_data_len_ p) = read_range (mem_ p) 0 (rtp_data_len_ p).
Proof.
  intros (Hm & Hlen & Hroom & q & Hq & Hp) Hb Hbl.
  set (b := default fresh buffer) in *. set (len := rtp_data_len_ p) in *. unfold RTP_PACKET_MAX_SIZE in *.
  set (d := take (Z.to_nat len) (mem_ p)). assert (zlen d = len) as Hd by (apply zlen_take; lia).
  assert (mem_ p = d ++ drop (Z.to_nat len) (mem_ p)) as Hsplit by (unfold d; by rewrite take_drop).
  set (m' := d ++ drop (Z.to_nat len) b).
  assert (bytes_ok m') as Hm' by (apply Forall_app; split; [by apply Forall_take|by apply Forall_drop]).
  assert (zlen m' = 1500) as Hml by (unfold m'; rewrite zlen_app, zlen_drop; lia).
  assert (agree len (mem_ p) m') as Ha by (intros i Hi; rewrite Hsplit; unfold m'; by rewrite !rd_app by lia).
  pose proof (agree_Parse len (mem_ p) m' (local_ms_ p) now Ha Hm (conj (proj1 Hlen) Hroom) q Hq) as Hpq.
  assert (read_range (mem_ p) 0 len = Done d) as Hr1 by (rewrite Hsplit; by apply read_range_app).
  assert (write_at b 0 d = Done m') as Hw.
  { pose proof (write_at_mid [] (take (Z.to_nat len) b) (drop (Z.to_nat len) b) d) as Hw. cbn [app] in Hw.
    rewrite take_drop in Hw. apply Hw. rewrite zlen_take; lia. }
  set (own := if buffer is Some _ then false else true).
  set (p' := set_ext_ids (mid_extension_id_ p) (abs_time_extension_id_ p) (set_need_delete own (moved m' now q))).
  assert (p' = set_need_delete own (moved m' now p)) as Hp' by (unfold p'; rewrite Hp; reflexivity).
  exists p'. split_and!; [| |done|].
  - unfold Clone. fold len. unfold RTP_PACKET_MAX_SIZE. rewrite (proj2 (Z.ltb_lt len 1500)) by lia. unfold cassert. simpl_m.
    rewrite Hr1. simpl_m. replace (match buffer with Some b0 => b0 | None => fresh end) with b by by destruct buffer.
    rewrite Hw. simpl_m. rewrite Hpq. simpl_m. by destruct buffer.
  - rewrite Hp'. unfold parsed. cbn [set_need_delete moved mem_ rtp_data_len_ local_ms_ need_delete_ mid_extension_id_ abs_time_extension_id_].
    fold len. unfold RTP_PACKET_MAX_SIZE. split_and!; try done; try lia. exists (moved m' now q). split; [done|]. rewrite <- Hp'. reflexivity.
  - rewrite Hr1. change (mem_ p') with m'. unfold m'. by apply read_range_app.
Qed.

(** ** What the jitter buffer relies on *)

Class RtpLike (P : Type) := {
  rl_good : P -> Prop;
  rl_seq : P -> outcome Z;
  rl_ms : P -> Z;
  rl_data : P -> outcome bytes;
  rl_clone : option bytes -> bytes -> Z -> P -> outcome (option P);
  rl_seq_good p : rl_good p -> exists s, rl_seq p = Done s /\ 0 <= s < 2 ^ 16;
  rl_clone_good p buffer fresh now :
    rl_good p -> bytes_ok (default fresh buffer) -> zlen (default fresh buffer) = RTP_PACKET_MAX_SIZE ->
    exists p', rl_clone buffer fresh now p = Done (Some p') /\ rl_good p' /\ rl_seq p' = rl_seq p /\
      rl_ms p' = now /\ rl_data p' = rl_data p
}.

Definition GetDatagram (p : RtpPacket) : outcome bytes := read_range (mem_ p) 0 (rtp_data_len_ p).

Lemma parsed_length p : parsed p -> RTP_HEADER_SIZE < rtp_data_len_ p.
Proof.
  intros (Hm & Hlen & Hroom & q & Hq & Hp).
  destruct (Parse_safe (mem_ p) (rtp_data_len_ p) (local_ms_ p) Hm (conj (proj1 Hlen) Hroom)) as (r & Hr & Hok).
  rewrite Hq in Hr. injection Hr as <-. destruct (Hok q eq_refl) as ([_ _ Hst Hsome Hpad Hsum _ _] & _ & Hl). lia.
Qed.

Lemma GetSeq_agree p p' : agree 4 (mem_ p) (mem_ p') -> GetSeq p' = GetSeq p.
Proof. intros Ha. unfold GetSeq. by apply (agree_Read2Bytes 4 (mem_ p) (mem_ p') Ha 2). Qed.

#[export] Program Instance RtpPacket_like : RtpLike RtpPacket := {
  rl_good := parsed;
  rl_seq := GetSeq;
  rl_ms := local_ms_;
  rl_data := GetDatagram;
  rl_clone := Clone
}.
Next Obligation.
  intros p Hp. pose proof (parsed_length p Hp) as Hl. destruct Hp as (Hm & _ & Hroom & _). unfold RTP_HEADER_SIZE in Hl.
  unfold GetSeq. by apply (Read2Bytes_at (mem_ p) 2 Hm); lia.
Qed.
Next Obligation.
  intros p buffer fresh now Hp Hb Hl. destruct (Clone_spec p buffer fresh now Hp Hb Hl) as (p' & Hc & Hp' & He & Hd).
  exists p'. pose proof (parsed_length p Hp) as Hlen. unfold RTP_HEADER_SIZE in Hlen.
  assert (rtp_data_len_ p' = rtp_data_len_ p /\ local_ms_ p' = now) as [Hdl Hms] by (rewrite He; split; reflexivity).
  split_and!; [done|done| |done|unfold GetDatagram; by rewrite Hdl].
  apply GetSeq_agree. intros i Hi. destruct Hp' as (_ & _ & Hr' & _). rewrite Hdl in Hr'. destruct Hp as (_ & _ & Hr & _).
  unfold read_range in Hd. rewrite !bool_decide_eq_true_2 in Hd by lia. injection Hd as Hd. rewrite !drop_0 in Hd.
  rewrite <- (take_drop (Z.to_nat (rtp_data_len_ p)) (mem_ p)), <- (take_drop (Z.to_nat (rtp_data_len_ p)) (mem_ p')), Hd.
  by rewrite !rd_app by (rewrite zlen_take; lia).
Qed.
