(* ===== verification/Jitter.v ===== *)
(** * [Jitter]: the jitter buffer

    Models [src/net/webrtc/jitterbuffer.cpp].  Packets are anything [RtpLike]; the
    callbacks are events of [j_log_].  [rtp_packets_map_] is the list of its
    bindings in key order.  The buffers of the pool are written by the first
    [Clone] of a packet and not read again once [RtpPacketInfo] has cloned that
    one, so they are what the allocator gives.  A call reads the clock once
    ([now]), where the code may read it again a moment later.  [false] in a result
    stands for the exception of a packet that cannot be cloned. *)
From Stdlib Require Import Sorting.Sorted.
From S2P Require Import Prelude ZMap DataBuffer Media RtpPacket RtpClone.

Definition JITTER_BUFFER_AUDIO_TIMEOUT : Z := 100.
Definition JITTER_BUFFER_VIDEO_TIMEOUT : Z := 400.
Definition MAX_DROPOUT : Z := 3000.
Definition MAX_MISORDER : Z := 100.

Section jitter.
Context `{Alloc : Allocator} {P : Type} `{Rtp : RtpLike P}.

Record RtpPacketInfo := mkInfo { i_media_type_ : MEDIA_PKT_TYPE; i_pkt : P; extend_seq_ : Z; i_clock_rate_ : Z }.
Inductive jb_event :=
  | RtpPacketReset (i : RtpPacketInfo)
  | RtpPacketOutput (i : RtpPacketInfo).

Record JitterBuffer := mkJitter {
  j_media_type_ : MEDIA_PKT_TYPE;
  j_init_flag_ : bool;
  base_seq_ : Z;
  max_seq_ : Z;
  bad_seq_ : Z;
  cycles_ : Z;
  rtp_packets_map_ : list (Z * RtpPacketInfo);
  output_seq_ : Z;
  report_lost_ts_ : Z;
  buffer_index_ : Z;
  buffer_timeout_ : Z;
  j_log_ : list jb_event
}.

(** [None] is the exception of a type that is neither video nor audio. *)
Definition JitterBuffer_new (type : MEDIA_PKT_TYPE) : option JitterBuffer :=
  match type with
  | MEDIA_VIDEO_TYPE => Some (mkJitter type false 0 0 (RTP_SEQ_MOD + 1) 0 [] 0 (-1) 0 JITTER_BUFFER_VIDEO_TIMEOUT [])
  | MEDIA_AUDIO_TYPE => Some (mkJitter type false 0 0 (RTP_SEQ_MOD + 1) 0 [] 0 (-1) 0 JITTER_BUFFER_AUDIO_TIMEOUT [])
  | _ => None
  end.

Definition set_init_flag (b : bool) (j : JitterBuffer) : JitterBuffer :=
  mkJitter (j_media_type_ j) b (base_seq_ j) (max_seq_ j) (bad_seq_ j) (cycles_ j) (rtp_packets_map_ j) (output_seq_ j)
    (report_lost_ts_ j) (buffer_index_ j) (buffer_timeout_ j) (j_log_ j).
Definition set_seqs (base mx bad cycles : Z) (j : JitterBuffer) : JitterBuffer :=
  mkJitter (j_media_type_ j) (j_init_flag_ j) base mx bad cycles (rtp_packets_map_ j) (output_seq_ j)
    (report_lost_ts_ j) (buffer_index_ j) (buffer_timeout_ j) (j_log_ j).
Definition set_packets (m : list (Z * RtpPacketInfo)) (j : JitterBuffer) : JitterBuffer :=
  mkJitter (j_media_type_ j) (j_init_flag_ j) (base_seq_ j) (max_seq_ j) (bad_seq_ j) (cycles_ j) m (output_seq_ j)
    (report_lost_ts_ j) (buffer_index_ j) (buffer_timeout_ j) (j_log_ j).
Definition set_buffer_index (v : Z) (j : JitterBuffer) : JitterBuffer :=
  mkJitter (j_media_type_ j) (j_init_flag_ j) (base_seq_ j) (max_seq_ j) (bad_seq_ j) (cycles_ j) (rtp_packets_map_ j)
    (output_seq_ j) (report_lost_ts_ j) v (buffer_timeout_ j) (j_log_ j).

Definition OutputPacket (i : RtpPacketInfo) (j : JitterBuffer) : JitterBuffer :=
  mkJitter (j_media_type_ j) (j_init_flag_ j) (base_seq_ j) (max_seq_ j) (bad_seq_ j) (cycles_ j) (rtp_packets_map_ j)
    (extend_seq_ i) (report_lost_ts_ j) (buffer_index_ j) (buffer_timeout_ j) (j_log_ j ++ [RtpPacketOutput i]).

Definition ReportLost (now_ms : Z) (i : RtpPacketInfo) (j : JitterBuffer) : JitterBuffer :=
  if 500 <? now_ms - report_lost_ts_ j then
    mkJitter (j_media_type_ j) (j_init_flag_ j) (base_seq_ j) (max_seq_ j) (bad_seq_ j) (cycles_ j) (rtp_packets_map_ j)
      (output_seq_ j) now_ms (buffer_index_ j) (buffer_timeout_ j) (j_log_ j ++ [RtpPacketReset i])
  else j.

Definition InitSeq (seq : Z) (j : JitterBuffer) : JitterBuffer := set_seqs seq seq (RTP_SEQ_MOD + 1) 0 j.

(** The return value, [extend_seq] and [reset]. *)
Definition UpdateSeq (seq : Z) (j : JitterBuffer) : bool * Z * bool * JitterBuffer :=
  let udelta := u16 (seq - max_seq_ j) in
  if udelta <? MAX_DROPOUT then
    let cycles := if seq <? max_seq_ j then u32 (cycles_ j + RTP_SEQ_MOD) else cycles_ j in
    (true, u32 (cycles + seq), false, set_seqs (base_seq_ j) seq (bad_seq_ j) cycles j)
  else if udelta <=? RTP_SEQ_MOD - MAX_MISORDER then
    if seq =? bad_seq_ j then
      let j := InitSeq seq j in (true, u32 (cycles_ j + seq), true, j)
    else (false, 0, false, set_seqs (base_seq_ j) (max_seq_ j) (Z.land (seq + 1) (RTP_SEQ_MOD - 1)) (cycles_ j) j)
  else (true, u32 (cycles_ j + seq), false, j).

(** The loop that follows an in-order packet. *)
Fixpoint drain (m : list (Z * RtpPacketInfo)) (j : JitterBuffer) : JitterBuffer :=
  match m with
  | [] => set_packets [] j
  | (k, i) :: m' => if output_seq_ j + 1 =? k then drain m' (OutputPacket i j) else set_packets m j
  end.

(** The loop of [CheckTimeout]: the bindings it leaves. *)
Fixpoint timeout_loop (now_ms : Z) (m : list (Z * RtpPacketInfo)) (j : JitterBuffer) : list (Z * RtpPacketInfo) * JitterBuffer :=
  match m with
  | [] => ([], j)
  | (k, i) :: m =>
      if buffer_timeout_ j <? now_ms - rl_ms (i_pkt i) then
        timeout_loop now_ms m (ReportLost now_ms i (OutputPacket i j))
      else if output_seq_ j + 1 =? extend_seq_ i then timeout_loop now_ms m (OutputPacket i j)
      else let '(m', j) := timeout_loop now_ms m j in ((k, i) :: m', j)
  end.
Definition CheckTimeout (now_ms : Z) (j : JitterBuffer) : JitterBuffer :=
  match rtp_packets_map_ j with
  | [] => j
  | _ => let '(m, j) := timeout_loop now_ms (rtp_packets_map_ j) j in set_packets m j
  end.
Definition OnTimer (now_ms : Z) (j : JitterBuffer) : JitterBuffer := CheckTimeout now_ms j.

(** The constructor of [RtpPacketInfo], which clones the packet. *)
Definition RtpPacketInfo_new (media_type : MEDIA_PKT_TYPE) (clock_rate : Z) (input_pkt : P) (extend_seq now_ms : Z)
    : outcome (option RtpPacketInfo) :=
  r ← rl_clone None (new_char RTP_PACKET_MAX_SIZE) now_ms input_pkt;
  mret (match r with Some pkt => Some (mkInfo media_type pkt extend_seq clock_rate) | None => None end).

(** What is done with a packet that has its place in the sequence. *)
Definition place_packet (now_ms : Z) (i : RtpPacketInfo) (first reset : bool) (j : JitterBuffer) : JitterBuffer :=
  let j := if reset then ReportLost now_ms i j else j in
  if first || reset then OutputPacket i j
  else if output_seq_ j + 1 =? extend_seq_ i then
    let j := OutputPacket i j in drain (rtp_packets_map_ j) j
  else if extend_seq_ i <=? output_seq_ j then j
  else CheckTimeout now_ms (set_packets (zset (extend_seq_ i) i (rtp_packets_map_ j)) j).

Definition InputRtpPacket (now_ms clock_rate : Z) (pkt : P) (j : JitterBuffer) : outcome (bool * JitterBuffer) :=
  let j := set_buffer_index (u64 (buffer_index_ j + 1)) j in
  r ← rl_clone (Some (new_char RTP_PACKET_MAX_SIZE)) (new_char RTP_PACKET_MAX_SIZE) now_ms pkt;
  match r with
  | None => mret (false, j)
  | Some input_pkt =>
      seq ← rl_seq input_pkt;
      let '(ok, extend_seq, reset, first, j) :=
        if negb (j_init_flag_ j) then (true, seq, true, true, InitSeq seq (set_init_flag true j))
        else
          let '(ok, extend_seq, reset, j) := UpdateSeq seq j in
          (ok, extend_seq, reset, false, if ok && reset then set_init_flag false j else j) in
      if negb ok then mret (true, j)
      else
        r ← RtpPacketInfo_new (j_media_type_ j) clock_rate input_pkt extend_seq now_ms;
        match r with
        | None => mret (false, j)
        | Some i => mret (true, place_packet now_ms i first reset j)
        end
  end.

(** ** In-order delivery *)

(** The extended numbers put out so far. *)
Definition outputs (j : JitterBuffer) : list Z :=
  omap (fun e => match e with RtpPacketOutput i => Some (extend_seq_ i) | RtpPacketReset _ => None end) (j_log_ j).

(** The packets of the map carry their key. *)
Definition keyed (m : list (Z * RtpPacketInfo)) : Prop := ordered m /\ Forall (fun b => extend_seq_ b.2 = b.1) m.

Lemma outputs_OutputPacket i j : outputs (OutputPacket i j) = outputs j ++ [extend_seq_ i].
Proof. unfold outputs. cbn. by rewrite omap_app. Qed.

Lemma outputs_ReportLost now i j : outputs (ReportLost now i j) = outputs j.
Proof. unfold ReportLost, outputs. destruct (_ <? _); [|done]. cbn. by rewrite omap_app, app_nil_r. Qed.

(** Everything but the map, the output position and the log. *)
Definition same_frame (j j' : JitterBuffer) : Prop :=
  j_media_type_ j' = j_media_type_ j /\ j_init_flag_ j' = j_init_flag_ j /\ max_seq_ j' = max_seq_ j /\
  cycles_ j' = cycles_ j /\ buffer_timeout_ j' = buffer_timeout_ j.

Lemma drain_spec (Q : jb_event -> Prop) m j :
  keyed m -> Forall (fun b => output_seq_ j < b.1) m -> Forall (fun b => Q (RtpPacketOutput b.2)) m -> Forall Q (j_log_ j) ->
  exists n, 0 <= n /\ outputs (drain m j) = outputs j ++ seqZ (output_seq_ j + 1) n /\
    output_seq_ (drain m j) = output_seq_ j + n /\
    rtp_packets_map_ (drain m j) `sublist_of` m /\
    (forall k, zfind k (rtp_packets_map_ (drain m j)) = if k <=? output_seq_ j + n then None else zfind k m) /\
    (forall k, output_seq_ j < k <= output_seq_ j + n -> is_Some (zfind k m)) /\
    zfind (output_seq_ j + n + 1) m = None /\ Forall Q (j_log_ (drain m j)) /\ same_frame j (drain m j).
Proof.
  intros [Ho Hk] Hab HQ. revert j Ho Hk Hab. induction m as [|[k i] m IH]; intros j Ho Hk Hab Hlog.
  { exists 0. cbn. rewrite app_nil_r. split_and!; try done; try lia. intros k. by destruct (k <=? _). }
  apply ordered_cons in Ho as [Hb Ho]. inversion_clear Hk as [|? ? Hki Hk']. inversion_clear Hab as [|? ? Hki' Hab'].
  inversion_clear HQ as [|? ? HQi HQ']. cbn in Hki, Hki', HQi |- *. destruct (Z.eqb_spec (output_seq_ j + 1) k) as [He|Hne].
  - destruct (IH HQ' (OutputPacket i j)) as (n & Hn & Hout & Hos & Hsub & Hf & Hin & Hnone & Hlg & Hfr); try done.
    { cbn. rewrite Hki. done. } { apply Forall_app. by split; [|apply Forall_singleton]. }
    cbn [output_seq_ OutputPacket] in *. rewrite Hki in *. exists (n + 1). split_and!.
    + lia.
    + rewrite Hout, outputs_OutputPacket, Hki, <- app_assoc. f_equal. rewrite He, (seqZ_cons k (n + 1)) by lia.
      replace (Z.pred (n + 1)) with n by lia. by replace (Z.succ k) with (k + 1) by lia.
    + lia.
    + by apply sublist_cons.
    + intros x. rewrite Hf. replace (output_seq_ j + (n + 1)) with (k + n) by lia. cbn. destruct (Z.leb_spec x (k + n)); [done|].
      destruct (Z.eqb_spec x k); [lia|done].
    + intros x Hx. cbn. destruct (Z.eqb_spec x k); [done|]. apply Hin. lia.
    + cbn. destruct (Z.eqb_spec (output_seq_ j + (n + 1) + 1) k); [lia|].
      by replace (output_seq_ j + (n + 1) + 1) with (k + n + 1) by lia.
    + done.
    + by destruct Hfr as (? & ? & ? & ? & ?).
  - exists 0. cbn. rewrite app_nil_r, !Z.add_0_r. split_and!; try done; try lia.
    + intros x. destruct (Z.leb_spec x (output_seq_ j)); [|done]. destruct (Z.eqb_spec x k); [lia|].
      apply zfind_above. eapply Forall_impl; [exact Hab'|]. cbn. lia.
    + destruct (Z.eqb_spec (output_seq_ j + 1) k); [lia|]. apply zfind_above. eapply Forall_impl; [exact Hb|]. cbn. lia.
Qed.

Lemma conj_above a k (m : list (Z * RtpPacketInfo)) : k = a + 1 ->
  Forall (fun b => a < b.1) m -> zfind k m = None -> ordered m -> Forall (fun b => k < b.1) m.
Proof.
  intros -> Ha Hn Ho. rewrite Forall_forall in Ha |- *. intros [x i] Hin. specialize (Ha _ Hin). cbn in Ha |- *.
  destruct (Z.eq_dec x (a + 1)) as [->|]; [|lia]. apply In_zfind in Hin; [|done]. by rewrite Hn in Hin.
Qed.

Lemma timeout_loop_idle now m j :
  Forall (fun b => now - rl_ms (i_pkt b.2) <= buffer_timeout_ j /\ output_seq_ j + 1 <> extend_seq_ b.2) m ->
  timeout_loop now m j = (m, j).
Proof.
  induction 1 as [|[k i] m [Ht Hs] _ IH]; [done|]. cbn in Ht, Hs |- *. rewrite (proj2 (Z.ltb_ge _ _)) by done.
  rewrite (proj2 (Z.eqb_neq _ _)) by done. by rewrite IH.
Qed.

Section window.
Context (T n0 : Z) (Q : jb_event -> Prop).

(** The numbers [A] have arrived since time [T], all within a window of 100 from
    [n0] on that does not wrap. *)
Definition window (A : list Z) : Prop := 0 <= n0 /\ forall k, k ∈ A -> n0 <= k < n0 + MAX_MISORDER /\ k < RTP_SEQ_MOD.

Record in_order (A : list Z) (j : JitterBuffer) : Prop := {
  io_out : outputs j = seqZ n0 (output_seq_ j - n0 + 1);
  io_pos : n0 <= output_seq_ j;
  io_done : forall k, n0 <= k <= output_seq_ j -> k ∈ A;
  io_next : output_seq_ j + 1 ∉ A;
  io_keyed : keyed (rtp_packets_map_ j);
  io_map : forall k, is_Some (zfind k (rtp_packets_map_ j)) <-> k ∈ A /\ output_seq_ j < k;
  io_ms : Forall (fun b => T <= rl_ms (i_pkt b.2)) (rtp_packets_map_ j);
  io_Q : Forall (fun b => Q (RtpPacketOutput b.2)) (rtp_packets_map_ j);
  io_log : Forall Q (j_log_ j)
}.

Lemma place_in_order A j now i :
  in_order A j -> Q (RtpPacketOutput i) -> rl_ms (i_pkt i) = now -> n0 <= extend_seq_ i ->
  T <= now <= T + buffer_timeout_ j ->
  in_order (extend_seq_ i :: A) (place_packet now i false false j) /\ same_frame j (place_packet now i false false j).
Proof.
  intros [Hout Hpos Hdone Hnext [Ho Hk] Hmap Hms HQ Hlog] HQi Hi Hn Ht. unfold place_packet. cbn [orb].
  assert (Forall (fun b => output_seq_ j < b.1) (rtp_packets_map_ j)) as Habove.
  { rewrite Forall_forall. intros [k x] Hin. apply In_zfind in Hin; [|done]. apply (Hmap k). by eexists. }
  set (s := extend_seq_ i) in *. destruct (Z.eqb_spec (output_seq_ j + 1) s) as [He|Hne].
  - set (j1 := OutputPacket i j). assert (outputs j1 = seqZ n0 (s - n0 + 1)) as Hout1.
    { unfold j1. rewrite outputs_OutputPacket, Hout. fold s. replace (s - n0 + 1) with ((output_seq_ j - n0 + 1) + 1) by lia.
      rewrite (seqZ_app n0 (output_seq_ j - n0 + 1) 1) by lia. f_equal. rewrite seqZ_cons, seqZ_nil by lia. f_equal. lia. }
    destruct (drain_spec Q (rtp_packets_map_ j1) j1) as (n & Hn0 & Hd & Hp & Hsub & Hf & Hin & Hnone & Hlg & Hfr); try done.
    { apply (conj_above (output_seq_ j) s (rtp_packets_map_ j)); [lia|done| |done].
      destruct (zfind s (rtp_packets_map_ j)) eqn:E; [|done]. destruct Hnext. rewrite He. apply (Hmap s). by rewrite E. }
    { apply Forall_app. by split; [|apply Forall_singleton]. }
    set (j2 := drain _ j1) in *. change (output_seq_ j1) with s in *. change (rtp_packets_map_ j1) with (rtp_packets_map_ j) in *.
    split; [|exact Hfr]. constructor.
    + rewrite Hd, Hp, Hout1. replace (s + n - n0 + 1) with ((s - n0 + 1) + n) by lia.
      rewrite (seqZ_app n0 (s - n0 + 1) n) by lia. do 2 f_equal. lia.
    + lia.
    + intros k Hkk. rewrite Hp in Hkk. destruct (Z.le_gt_cases k (output_seq_ j)); [right; apply Hdone; lia|].
      destruct (Z.eq_dec k s) as [->|]; [by left|]. right. apply (Hmap k). apply Hin. lia.
    + rewrite Hp. intros [Hx|Hx]%elem_of_cons; [lia|]. assert (is_Some (zfind (s + n + 1) (rtp_packets_map_ j))) as [x Hx'] by (apply Hmap; split; [done|lia]).
      by rewrite Hnone in Hx'.
    + split; [by eapply sublist_ordered|by eapply sublist_Forall].
    + intros k. rewrite Hf, Hp, elem_of_cons. destruct (Z.leb_spec k (s + n)).
      * split; [by intros [? ?]|lia].
      * rewrite Hmap. split; [intros [? ?]; split; [by right|lia]|]. intros [[->|Hk'] Hkk]; [lia|]. split; [done|lia].
    + by eapply sublist_Forall.
    + by eapply sublist_Forall.
    + done.
  - destruct (Z.leb_spec s (output_seq_ j)) as [Hle|Hgt].
    + split; [|done]. assert (s ∈ A) as HsA by (apply Hdone; lia). constructor; try done.
      * intros k Hkk. right. by apply Hdone.
      * intros [Hx|Hx]%elem_of_cons; [lia|done].
      * intros k. rewrite Hmap, elem_of_cons. split; [tauto|]. intros [[->|?] ?]; tauto.
    + set (j1 := set_packets (zset s i (rtp_packets_map_ j)) j). assert (CheckTimeout now j1 = j1) as ->.
      { unfold CheckTimeout. change (rtp_packets_map_ j1) with (zset s i (rtp_packets_map_ j)).
        rewrite timeout_loop_idle; [by destruct (zset s i (rtp_packets_map_ j))|].
        change (buffer_timeout_ j1) with (buffer_timeout_ j). change (output_seq_ j1) with (output_seq_ j).
        apply zset_Forall; [cbn; fold s; split; [lia|done]|]. rewrite Forall_forall in Hms, Hk |- *. intros [k x] Hin. split.
        - specialize (Hms _ Hin). cbn in Hms |- *. lia.
        - intros Hx. destruct Hnext. rewrite Hx. rewrite (Hk _ Hin). cbn. apply (Hmap k). apply In_zfind in Hin; [|done]. by eexists. }
      split; [|done]. constructor; try done; cbn [j1 set_packets rtp_packets_map_ output_seq_].
      * intros k Hkk. right. by apply Hdone.
      * intros [Hx|Hx]%elem_of_cons; [lia|done].
      * split; [by apply zset_ordered|]. by apply zset_Forall.
      * intros k. rewrite zfind_zset, elem_of_cons by done. destruct (Z.eqb_spec k s) as [->|].
        -- split; [intros _; split; [by left|lia]|by eexists].
        -- rewrite Hmap. tauto.
      * apply zset_Forall; [cbn; lia|done].
      * by apply zset_Forall.
Qed.

(** The highest number so far; no cycle yet. *)
Definition at_max (A : list Z) (j : JitterBuffer) : Prop :=
  j_init_flag_ j = true /\ cycles_ j = 0 /\ max_seq_ j ∈ A /\ forall k, k ∈ A -> k <= max_seq_ j.

Lemma UpdateSeq_window A j s :
  window A -> window [s] -> at_max A j ->
  exists j', UpdateSeq s j = (true, s, false, j') /\ at_max (s :: A) j' /\
    (forall B, in_order B j -> in_order B j') /\ buffer_timeout_ j' = buffer_timeout_ j.
Proof.
  intros [H0 Hw] [_ Hs] (Hi & Hc & Hm & Hub). destruct (Hw _ Hm) as [Hm1 Hm2]. destruct (Hs s) as [Hs1 Hs2]; [by left|].
  unfold MAX_MISORDER in *. change RTP_SEQ_MOD with (2 ^ 16) in *. unfold UpdateSeq, MAX_DROPOUT, MAX_MISORDER. change RTP_SEQ_MOD with (2 ^ 16). rewrite Hc.
  assert (u32 (0 + s) = s) as Hu by (unfold u32; rewrite Z.mod_small; lia). destruct (Z.le_gt_cases (max_seq_ j) s) as [Hle|Hgt].
  - rewrite u16_small by lia. rewrite (proj2 (Z.ltb_lt (s - max_seq_ j) 3000)), (proj2 (Z.ltb_ge s (max_seq_ j))), Hu by lia.
    set (j' := set_seqs _ _ _ _ _). exists j'. split; [reflexivity|]. split; [|split; [|done]].
    + split; [done|]. split; [done|]. change (max_seq_ j') with s. split; [by left|].
      intros k [->|Hk]%elem_of_cons; [lia|]. specialize (Hub _ Hk). lia.
    + intros B []. by constructor.
  - assert (u16 (s - max_seq_ j) = s - max_seq_ j + 2 ^ 16) as ->.
    { unfold u16. symmetry. apply (Z.mod_unique _ _ (-1)); lia. }
    rewrite (proj2 (Z.ltb_ge _ 3000)), (proj2 (Z.leb_gt _ (2 ^ 16 - 100))), Hu by lia.
    exists j. split; [done|]. split; [|done]. split; [done|]. split; [done|]. split; [by right|].
    intros k [->|Hk]%elem_of_cons; [lia|by apply Hub].
Qed.

(** The packet information made for a packet received now. *)
Definition info_of (now : Z) (pkt : P) (s : Z) (i : RtpPacketInfo) : Prop :=
  extend_seq_ i = s /\ rl_ms (i_pkt i) = now /\ rl_data (i_pkt i) = rl_data pkt.

Lemma clones now pkt : rl_good pkt ->
  exists p, rl_clone (Some (new_char RTP_PACKET_MAX_SIZE)) (new_char RTP_PACKET_MAX_SIZE) now pkt = Done (Some p) /\
    rl_seq p = rl_seq pkt /\ forall type clock s, exists i, RtpPacketInfo_new type clock p s now = Done (Some i) /\ info_of now pkt s i.
Proof.
  intros Hg. destruct (rl_clone_good pkt (Some (new_char RTP_PACKET_MAX_SIZE)) (new_char RTP_PACKET_MAX_SIZE) now Hg)
    as (p & Hp & Hgp & Hs & _ & Hd); [apply new_char_bytes; done|by apply new_char_length|].
  exists p. split_and!; [done|done|]. intros type clock s.
  destruct (rl_clone_good p None (new_char RTP_PACKET_MAX_SIZE) now Hgp) as (q & Hq & _ & _ & Hms & Hdq);
    [apply new_char_bytes; done|by apply new_char_length|].
  unfold RtpPacketInfo_new. rewrite Hq. simpl_m. eexists. split; [reflexivity|]. split_and!; [done|done|]. cbn. congruence.
Qed.

(** A packet that has its place in the sequence is cloned twice and placed. *)
Lemma InputRtpPacket_placed now clock pkt j s e j1 :
  j_init_flag_ j = true -> rl_good pkt -> rl_seq pkt = Done s ->
  UpdateSeq s (set_buffer_index (u64 (buffer_index_ j + 1)) j) = (true, e, false, j1) ->
  exists i, info_of now pkt e i /\ InputRtpPacket now clock pkt j = Done (true, place_packet now i false false j1).
Proof.
  intros Hinit Hg Hs Hu. unfold InputRtpPacket. set (j0 := set_buffer_index _ j) in *.
  destruct (clones now pkt Hg) as (p & -> & Hps & Hinfo). simpl_m. rewrite Hps, Hs. simpl_m.
  change (j_init_flag_ j0) with (j_init_flag_ j). rewrite Hinit, Hu. cbn [andb negb].
  destruct (Hinfo (j_media_type_ j1) clock e) as (i & -> & Hi). by exists i.
Qed.

Lemma InputRtpPacket_window A j now clock pkt s :
  window A -> window [s] -> at_max A j -> in_order A j -> rl_good pkt -> rl_seq pkt = Done s ->
  T <= now <= T + buffer_timeout_ j -> (forall i, info_of now pkt s i -> Q (RtpPacketOutput i)) ->
  exists j', InputRtpPacket now clock pkt j = Done (true, j') /\ at_max (s :: A) j' /\ in_order (s :: A) j' /\
    buffer_timeout_ j' = buffer_timeout_ j.
Proof.
  intros Hw Hws Hmax Hio Hg Hs Ht HQ. set (j0 := set_buffer_index (u64 (buffer_index_ j + 1)) j).
  destruct (UpdateSeq_window A j0 s Hw Hws Hmax) as (j1 & Hu & Hmax1 & Hio1 & Hto1).
  destruct (InputRtpPacket_placed now clock pkt j s s j1 (proj1 Hmax) Hg Hs Hu) as (i & Hi & ->). pose proof Hi as (He & Hms & _).
  destruct Hws as [_ Hws]. destruct (Hws s) as [Hn _]; [by left|].
  assert (in_order A j0) as Hio0 by (destruct Hio; by constructor).
  destruct (place_in_order A j1 now i (Hio1 _ Hio0) (HQ i Hi) Hms) as [Hp Hfr]; [lia|rewrite Hto1; exact Ht|].
  rewrite He in Hp. eexists. split; [reflexivity|]. destruct Hfr as (_ & F1 & F2 & F3 & F4). split_and!; [|done|by rewrite F4, Hto1].
  unfold at_max in *. by rewrite F1, F2, F3.
Qed.

(** A packet numbered [n0 .. n0 + 99] that arrives in the window of time. *)
Definition arrival_ok (timeout : Z) (a : Z * P) : Prop :=
  rl_good a.2 /\ T <= a.1 <= T + timeout /\
  exists s, rl_seq a.2 = Done s /\ window [s] /\ forall i, info_of a.1 a.2 s i -> Q (RtpPacketOutput i).

Lemma InputRtpPacket_first j now clock pkt :
  j_init_flag_ j = false -> rtp_packets_map_ j = [] -> outputs j = [] -> Forall Q (j_log_ j) ->
  rl_good pkt -> rl_seq pkt = Done n0 -> (forall i, Q (RtpPacketReset i)) ->
  (forall i, info_of now pkt n0 i -> Q (RtpPacketOutput i)) ->
  exists j', InputRtpPacket now clock pkt j = Done (true, j') /\ at_max [n0] j' /\ in_order [n0] j' /\
    buffer_timeout_ j' = buffer_timeout_ j.
Proof.
  intros Hi Hm Ho Hl Hg Hs HQr HQ. unfold InputRtpPacket. set (j0 := set_buffer_index _ j).
  destruct (clones now pkt Hg) as (p & -> & Hps & Hinfo). simpl_m. rewrite Hps, Hs. simpl_m.
  change (j_init_flag_ j0) with (j_init_flag_ j). rewrite Hi. cbn [negb].
  set (j1 := InitSeq n0 _). destruct (Hinfo (j_media_type_ j1) clock n0) as (i & -> & Hii). simpl_m.
  eexists. split; [reflexivity|]. unfold place_packet. cbn [orb].
  assert (same_frame j1 (ReportLost now i j1) /\ rtp_packets_map_ (ReportLost now i j1) = [] /\ Forall Q (j_log_ (ReportLost now i j1)))
    as ((_ & F1 & F2 & F3 & F4) & F5 & F6).
  { unfold ReportLost. destruct (_ <? _); [|done]. split; [done|]. split; [done|]. cbn. apply Forall_app. by split; [|apply Forall_singleton]. }
  assert (outputs (ReportLost now i j1) = []) as Ho1 by (rewrite outputs_ReportLost; exact Ho).
  set (j2 := ReportLost now i j1) in *. destruct Hii as (He & Hms & Hd). split_and!.
  - split; [exact F1|]. split; [exact F3|]. change (max_seq_ (OutputPacket i j2)) with (max_seq_ j2). rewrite F2. change (max_seq_ j1) with n0.
    split; [by left|]. intros k [->|[]%elem_of_nil]%elem_of_cons. lia.
  - assert (rtp_packets_map_ (OutputPacket i j2) = []) as Hmap by exact F5. assert (output_seq_ (OutputPacket i j2) = n0) as Hos by exact He.
    constructor; rewrite ?Hmap, ?Hos.
    + rewrite outputs_OutputPacket, Ho1, He. by replace (n0 - n0 + 1) with 1 by lia.
    + done.
    + intros k Hk. replace k with n0 by lia. by left.
    + intros [Hx|[]%elem_of_nil]%elem_of_cons. lia.
    + split; [apply ordered_nil|constructor].
    + intros k. split; [by intros [? ?]|]. intros [[->|[]%elem_of_nil]%elem_of_cons ?]. lia.
    + constructor.
    + constructor.
    + cbn. apply Forall_app. split; [done|]. apply Forall_singleton. by apply HQ.
  - exact F4.
Qed.
End window.

(** Packets arriving one after the other, each with the time of its arrival. *)
Fixpoint input_all (clock : Z) (l : list (Z * P)) (j : JitterBuffer) : outcome (bool * JitterBuffer) :=
  match l with
  | [] => mret (true, j)
  | a :: l =>
      r ← InputRtpPacket a.1 clock a.2 j;
      if r.1 : bool then input_all clock l r.2 else mret r
  end.

Lemma input_all_window T n0 Q clock l A j :
  window n0 A -> at_max A j -> in_order T n0 Q A j -> Forall (arrival_ok T n0 Q (buffer_timeout_ j)) l ->
  exists j' ss, input_all clock l j = Done (true, j') /\ Forall2 (fun a s => rl_seq a.2 = Done s) l ss /\
    in_order T n0 Q (rev ss ++ A) j'.
Proof.
  intros Hw Hmax Hio Hl. revert A j Hw Hmax Hio Hl. induction l as [|[now pkt] l IH]; intros A j Hw Hmax Hio Hl.
  { exists j, []. split; [done|]. by split; [constructor|]. }
  apply Forall_cons in Hl as [(Hg & Ht & s & Hs & Hws & HQ) Hl']. cbn [fst snd] in *.
  destruct (InputRtpPacket_window T n0 Q A j now clock pkt s Hw Hws Hmax Hio Hg Hs Ht HQ) as (j1 & Hj1 & Hmax1 & Hio1 & Hto).
  cbn [input_all fst snd]. rewrite Hj1. simpl_m. rewrite <- Hto in Hl'. destruct (IH (s :: A) j1) as (j2 & ss & Hj2 & Hss & Hio2); try done.
  { split; [apply Hw|]. intros k [->|Hk]%elem_of_cons; [apply Hws; by left|by apply Hw]. }
  exists j2, (s :: ss). cbn [fst snd]. split; [exact Hj2|]. split; [by constructor|]. cbn [rev]. by rewrite <- app_assoc.
Qed.

Definition arrived (l : list (Z * P)) (k : Z) : Prop := exists a, a ∈ l /\ rl_seq a.2 = Done k.

(** An output is one of the arrivals: its number, its time and its datagram. *)
Definition from_arrival (l : list (Z * P)) (e : jb_event) : Prop :=
  match e with
  | RtpPacketOutput i =>
      exists a, a ∈ l /\ rl_seq a.2 = Done (extend_seq_ i) /\ rl_ms (i_pkt i) = a.1 /\ rl_data (i_pkt i) = rl_data a.2
  | RtpPacketReset _ => True
  end.

Definition in_window (T n0 timeout : Z) (a : Z * P) : Prop :=
  rl_good a.2 /\ T <= a.1 <= T + timeout /\ exists s, rl_seq a.2 = Done s /\ n0 <= s < n0 + MAX_MISORDER.

Lemma in_window_arrival T n0 timeout l a :
  0 <= n0 -> a ∈ l -> in_window T n0 timeout a -> arrival_ok T n0 (from_arrival l) timeout a.
Proof.
  intros H0 Hin (Hg & Ht & s & Hs & Hr). destruct (rl_seq_good _ Hg) as (s' & Hs' & Hr'). rewrite Hs in Hs'. injection Hs' as <-.
  split; [done|]. split; [done|]. exists s. split; [done|]. split.
  - split; [done|]. intros k [->|[]%elem_of_nil]%elem_of_cons. change RTP_SEQ_MOD with (2 ^ 16). lia.
  - intros i (He & Hms & Hd). exists a. rewrite He. by split_and!.
Qed.

Lemma arrived_seqs l ss k : Forall2 (fun a s => rl_seq a.2 = Done s) l ss -> k ∈ ss <-> arrived l k.
Proof.
  induction 1 as [|a s l ss Has _ IH].
  - split; [by intros []%elem_of_nil|]. intros (a & []%elem_of_nil & _).
  - rewrite elem_of_cons, IH. split.
    + intros [->|(b & Hb & Hk)]; [exists a|exists b]; (split; [|done]); [by left|by right].
    + intros (b & [->|Hb]%elem_of_cons & Hk); [left; congruence|right; by exists b].
Qed.

(** C33. Packets that arrive within the timeout of one another, in any order after
    the first and any number of times, numbered from [n0] on in a window of 100
    (short of the wrap) are put out in order and once each, up to the first number
    that has not arrived; the later ones wait in the map.  What is put out is what
    arrived: number, time and datagram. *)
Theorem jitter_in_order type j0 T n0 clock now pkt l :
  JitterBuffer_new type = Some j0 -> rl_seq pkt = Done n0 ->
  Forall (in_window T n0 (buffer_timeout_ j0)) ((now, pkt) :: l) ->
  exists j n, input_all clock ((now, pkt) :: l) j0 = Done (true, j) /\ 1 <= n /\ outputs j = seqZ n0 n /\
    (forall k, n0 <= k < n0 + n -> arrived ((now, pkt) :: l) k) /\ ~ arrived ((now, pkt) :: l) (n0 + n) /\
    (forall k, is_Some (zfind k (rtp_packets_map_ j)) <-> arrived ((now, pkt) :: l) k /\ n0 + n < k) /\
    Forall (from_arrival ((now, pkt) :: l)) (j_log_ j).
Proof.
  intros Hj Hn Hall. set (L := (now, pkt) :: l) in *.
  assert (rl_good pkt) as Hg by (apply Forall_cons in Hall as [(? & _) _]; done).
  destruct (rl_seq_good _ Hg) as (n0' & Hn' & Hr). rewrite Hn in Hn'. injection Hn' as <-.
  assert (Forall (arrival_ok T n0 (from_arrival L) (buffer_timeout_ j0)) L) as Hok.
  { rewrite Forall_forall in Hall |- *. intros a Ha. apply in_window_arrival; [lia|done|by apply Hall]. }
  apply Forall_cons in Hok as [(_ & _ & s & Hs & Hw & HQ) Hok]. cbn [fst snd] in *. rewrite Hn in Hs. injection Hs as <-.
  assert (j_init_flag_ j0 = false /\ rtp_packets_map_ j0 = [] /\ j_log_ j0 = []) as (Hi & Hm & Hl)
    by (destruct type; cbn in Hj; by simplify_eq).
  destruct (InputRtpPacket_first T n0 (from_arrival L) j0 now clock pkt) as (j1 & Hj1 & Hmax & Hio & Hto); try done;
    [by unfold outputs; rewrite Hl|by rewrite Hl|].
  rewrite <- Hto in Hok. destruct (input_all_window _ _ _ clock l [n0] j1 Hw Hmax Hio Hok) as (j & ss & Hjj & Hss & [Hout Hpos Hdone Hnext _ Hmap _ _ Hlog]).
  assert (forall k, k ∈ rev ss ++ [n0] <-> arrived L k) as Harr.
  { intros k. rewrite list_elem_of_In, in_app_iff, <- in_rev, <- !list_elem_of_In.
    rewrite <- (arrived_seqs L (n0 :: ss) k), !elem_of_cons, elem_of_nil; [tauto|by constructor]. }
  exists j, (output_seq_ j - n0 + 1). split_and!.
  - subst L. cbn [input_all fst snd]. rewrite Hj1. simpl_m. exact Hjj.
  - lia.
  - exact Hout.
  - intros k Hk. apply Harr, Hdone. lia.
  - rewrite <- Harr. by replace (n0 + (output_seq_ j - n0 + 1)) with (output_seq_ j + 1) by lia.
  - intros k. rewrite Hmap, Harr. split; intros [Hk ?]; (split; [done|]); [|lia].
    destruct (Z.eq_dec k (output_seq_ j + 1)) as [->|]; [by apply Harr in Hk|lia].
  - exact Hlog.
Qed.

(** ** Timeouts *)

Definition put_out (e : jb_event) : option RtpPacketInfo :=
  match e with RtpPacketOutput i => Some i | RtpPacketReset _ => None end.

Lemma put_out_ReportLost now i j : omap put_out (j_log_ (ReportLost now i j)) = omap put_out (j_log_ j).
Proof. unfold ReportLost. destruct (_ <? _); [|done]. cbn. by rewrite omap_app, app_nil_r. Qed.

Lemma put_out_OutputPacket i j : omap put_out (j_log_ (OutputPacket i j)) = omap put_out (j_log_ j) ++ [i].
Proof. cbn. by rewrite omap_app. Qed.

Lemma timeout_ReportLost now i j : buffer_timeout_ (ReportLost now i j) = buffer_timeout_ j.
Proof. unfold ReportLost. by destruct (_ <? _). Qed.

Lemma timeout_loop_spec now m j :
  exists out, let r := timeout_loop now m j in
    omap put_out (j_log_ r.2) = omap put_out (j_log_ j) ++ out /\ out `sublist_of` map snd m /\
    map snd m ≡ₚ out ++ map snd r.1 /\ r.1 `sublist_of` m /\
    Forall (fun b => now - rl_ms (i_pkt b.2) <= buffer_timeout_ j) r.1.
Proof.
  revert j. induction m as [|[k i] m IH]; intros j.
  { exists []. cbn. rewrite app_nil_r. split_and!; done. }
  assert (forall j', buffer_timeout_ j' = buffer_timeout_ j ->
    omap put_out (j_log_ j') = omap put_out (j_log_ j) ++ [i] ->
    exists out, let r := timeout_loop now m j' in
      omap put_out (j_log_ r.2) = omap put_out (j_log_ j) ++ out /\ out `sublist_of` i :: map snd m /\
      i :: map snd m ≡ₚ out ++ map snd r.1 /\ r.1 `sublist_of` (k, i) :: m /\
      Forall (fun b => now - rl_ms (i_pkt b.2) <= buffer_timeout_ j) r.1) as Hput.
  { intros j' Ht Ho. destruct (IH j') as (out & H1 & H2 & H3 & H4 & H5). exists (i :: out). cbn zeta. rewrite Ht in H5.
    split_and!; [by rewrite H1, Ho, <- app_assoc|by apply sublist_skip|by rewrite H3|by apply sublist_cons|done]. }
  cbn [timeout_loop map snd]. destruct (Z.ltb_spec (buffer_timeout_ j) (now - rl_ms (i_pkt i))).
  - apply Hput; [by rewrite timeout_ReportLost|]. by rewrite put_out_ReportLost, put_out_OutputPacket.
  - destruct (output_seq_ j + 1 =? extend_seq_ i); [apply Hput; [done|by rewrite put_out_OutputPacket]|].
    destruct (IH j) as (out & H1 & H2 & H3 & H4 & H5). destruct (timeout_loop now m j) as [m' j']. exists out. cbn zeta. cbn [fst snd] in *.
    split_and!; [done|by apply sublist_cons|cbn [map snd]; rewrite H3; apply Permutation_middle|by apply sublist_skip|by constructor].
Qed.

(** C34. The timer puts out packets of the map in key order, each once, and keeps the
    others as they are: nothing is lost or made up, and every packet that stays has
    not been there for longer than the timeout. *)
Theorem OnTimer_conserves now j :
  exists out, omap put_out (j_log_ (OnTimer now j)) = omap put_out (j_log_ j) ++ out /\
    out `sublist_of` map snd (rtp_packets_map_ j) /\
    map snd (rtp_packets_map_ j) ≡ₚ out ++ map snd (rtp_packets_map_ (OnTimer now j)) /\
    rtp_packets_map_ (OnTimer now j) `sublist_of` rtp_packets_map_ j /\
    Forall (fun b => now - rl_ms (i_pkt b.2) <= buffer_timeout_ j) (rtp_packets_map_ (OnTimer now j)).
Proof.
  unfold OnTimer, CheckTimeout. destruct (rtp_packets_map_ j) as [|b m] eqn:E.
  - exists []. rewrite E, app_nil_r. split_and!; done.
  - destruct (timeout_loop_spec now (b :: m) j) as (out & H). exists out. by destruct (timeout_loop now (b :: m) j) as [m' j'].
Qed.

(** ** Across the wrap *)

Lemma outputs_put_out j : outputs j = map extend_seq_ (omap put_out (j_log_ j)).
Proof.
  unfold outputs. induction (j_log_ j) as [|[i|i] l IH]; [done|done|]. cbn. by rewrite IH.
Qed.

(** After a wrap a packet sent before it, and arriving at most 99 numbers late,
    is given the number of a whole cycle later than its own, which is
    [cycles_ j + m - d].  It waits in the map; when it times
    out the output position jumps ahead by a cycle, and the next packet in sequence is
    thrown away as an old one. *)
Theorem late_across_wrap_stalls j m d t1 t2 t3 clock late next :
  j_init_flag_ j = true -> rtp_packets_map_ j = [] -> max_seq_ j = m -> output_seq_ j = cycles_ j + m ->
  0 <= m < d -> d < MAX_MISORDER -> 0 <= cycles_ j < 2 ^ 31 -> 0 <= buffer_timeout_ j < t2 - t1 ->
  rl_good late -> rl_seq late = Done (m - d + RTP_SEQ_MOD) -> rl_good next -> rl_seq next = Done (m + 1) ->
  exists j1 j3, InputRtpPacket t1 clock late j = Done (true, j1) /\ outputs j1 = outputs j /\
    outputs (OnTimer t2 j1) = outputs j ++ [cycles_ j + m - d + RTP_SEQ_MOD] /\
    InputRtpPacket t3 clock next (OnTimer t2 j1) = Done (true, j3) /\ outputs j3 = outputs (OnTimer t2 j1).
Proof.
  intros Hi Hm Hmax Hos Hmd Hd Hc Ht Hgl Hl Hgn Hn. unfold MAX_MISORDER in Hd. change RTP_SEQ_MOD with (2 ^ 16) in *.
  set (late_seq := m - d + 2 ^ 16) in *. set (j0 := set_buffer_index (u64 (buffer_index_ j + 1)) j).
  assert (UpdateSeq late_seq j0 = (true, cycles_ j + late_seq, false, j0)) as Hu.
  { unfold UpdateSeq, MAX_DROPOUT, MAX_MISORDER. change RTP_SEQ_MOD with (2 ^ 16). change (max_seq_ j0) with (max_seq_ j). rewrite Hmax.
    rewrite u16_small by lia. rewrite (proj2 (Z.ltb_ge _ 3000)), (proj2 (Z.leb_gt _ (2 ^ 16 - 100))) by lia.
    change (cycles_ j0) with (cycles_ j). do 3 f_equal. unfold u32. rewrite Z.mod_small; lia. }
  destruct (InputRtpPacket_placed t1 clock late j _ _ _ Hi Hgl Hl Hu) as (i & (He & Hms & _) & Hin).
  assert (place_packet t1 i false false j0 = set_packets [(cycles_ j + late_seq, i)] j0) as Hp.
  { unfold place_packet. cbn [orb]. change (output_seq_ j0) with (output_seq_ j). rewrite He, Hos.
    rewrite (proj2 (Z.eqb_neq _ _)), (proj2 (Z.leb_gt _ _)) by lia. change (rtp_packets_map_ j0) with (rtp_packets_map_ j). rewrite Hm. cbn [zset].
    unfold CheckTimeout. cbn [rtp_packets_map_ set_packets]. rewrite timeout_loop_idle; [done|]. constructor; [|constructor]. cbn. lia. }
  rewrite Hp in Hin. set (j1 := set_packets _ j0) in *.
  assert (OnTimer t2 j1 = set_packets [] (ReportLost t2 i (OutputPacket i j1))) as Hj2.
  { unfold OnTimer, CheckTimeout. change (rtp_packets_map_ j1) with [(cycles_ j + late_seq, i)]. cbn [timeout_loop].
    change (buffer_timeout_ j1) with (buffer_timeout_ j). rewrite Hms, (proj2 (Z.ltb_lt _ _)) by lia. done. }
  set (j2 := OnTimer t2 j1) in *. assert (same_frame j j2 /\ output_seq_ j2 = cycles_ j + late_seq) as ((_ & F1 & F2 & F3 & _) & Hos2).
  { rewrite Hj2. unfold ReportLost. by destruct (_ <? _). }
  set (j2' := set_buffer_index (u64 (buffer_index_ j2 + 1)) j2).
  assert (UpdateSeq (m + 1) j2' = (true, cycles_ j + (m + 1), false, set_seqs (base_seq_ j2) (m + 1) (bad_seq_ j2) (cycles_ j) j2')) as Hu2.
  { unfold UpdateSeq, MAX_DROPOUT. change (max_seq_ j2') with (max_seq_ j2). change (cycles_ j2') with (cycles_ j2). rewrite F2, F3, Hmax.
    rewrite u16_small by lia. rewrite (proj2 (Z.ltb_lt _ 3000)), (proj2 (Z.ltb_ge _ _)) by lia. do 3 f_equal. unfold u32. rewrite Z.mod_small; lia. }
  rewrite <- F1 in Hi. destruct (InputRtpPacket_placed t3 clock next j2 _ _ _ Hi Hgn Hn Hu2) as (i' & (He' & _) & Hin').
  exists j1. eexists. split; [exact Hin|]. split; [done|]. split; [|split; [exact Hin'|]].
  - change (OnTimer t2 j1) with j2. rewrite Hj2, !outputs_put_out. cbn [set_packets j_log_]. rewrite put_out_ReportLost, put_out_OutputPacket, map_app. cbn [map].
    rewrite He. do 2 f_equal. lia.
  - unfold place_packet. cbn [orb]. set (j2s := set_seqs _ _ _ _ _). change (output_seq_ j2s) with (output_seq_ j2).
    rewrite He', Hos2, (proj2 (Z.eqb_neq _ _)), (proj2 (Z.leb_le _ _)) by lia. done.
Qed.

(** ** Out of order after a timeout *)

(** Two packets wait, the later number for too long, the earlier one not, and the
    number before both is missing. *)
Definition waiting_pair (t k : Z) (x y : RtpPacketInfo) (j : JitterBuffer) : Prop :=
  rtp_packets_map_ j = [(k, x); (k + 1, y)] /\ extend_seq_ x = k /\ extend_seq_ y = k + 1 /\ output_seq_ j + 1 < k /\
  rl_ms (i_pkt y) < t - buffer_timeout_ j /\ t - buffer_timeout_ j <= rl_ms (i_pkt x).

(** When a packet has waited for too long and one with an earlier number has not,
    the timer puts out the later number first, and the earlier one when its own time
    is over: the output goes backwards. *)
Theorem timeout_out_of_order t t' k x y j :
  waiting_pair t k x y j -> rl_ms (i_pkt x) + buffer_timeout_ j < t' ->
  outputs (OnTimer t j) = outputs j ++ [k + 1] /\ outputs (OnTimer t' (OnTimer t j)) = outputs j ++ [k + 1; k].
Proof.
  intros (Hm & Hx & Hy & Hos & Hty & Htx) Ht'.
  assert (OnTimer t j = set_packets [(k, x)] (ReportLost t y (OutputPacket y j))) as ->.
  { unfold OnTimer, CheckTimeout. rewrite Hm. cbn [timeout_loop]. rewrite (proj2 (Z.ltb_ge _ _)) by lia.
    rewrite Hx, (proj2 (Z.eqb_neq _ _)), (proj2 (Z.ltb_lt _ _)) by lia. done. }
  set (j1 := set_packets _ _). assert (outputs j1 = outputs j ++ [k + 1]) as H1.
  { unfold j1. rewrite outputs_put_out, outputs_put_out. cbn [set_packets j_log_].
    rewrite put_out_ReportLost, put_out_OutputPacket, map_app. cbn [map]. by rewrite Hy. }
  split; [done|]. assert (buffer_timeout_ j1 = buffer_timeout_ j) as Hto by (exact (timeout_ReportLost t y (OutputPacket y j))).
  unfold OnTimer, CheckTimeout. change (rtp_packets_map_ j1) with [(k, x)]. cbn [timeout_loop]. rewrite Hto, (proj2 (Z.ltb_lt _ _)) by lia.
  rewrite outputs_put_out. cbn [set_packets j_log_]. rewrite put_out_ReportLost, put_out_OutputPacket, map_app, <- outputs_put_out, H1, <- app_assoc.
  cbn [map app]. by rewrite Hx.
Qed.
End jitter.

(** ** The theorems on RTP packets *)

(** ** The theorems on RTP packets *)

(** A packet of the given number and arrival time with one byte of payload. *)
Definition demo_packet (seq now_ms : Z) : RtpPacket :=
  mkRtp [0x80; 96; Z.shiftr seq 8; Z.land seq 0xff; 0; 0; 0; 0; 0; 0; 0; 1; 42] None 12 1 0 13 now_ms false 0 0 [] [].

Ltac demo_parsed :=
  unfold rl_good; cbn; split; [repeat constructor; by vm_compute|]; split; [by vm_compute|]; split; [by vm_compute|];
  eexists; (split; [reflexivity|]); reflexivity.

Ltac demo_arrival s :=
  split; [demo_parsed|]; split; [by vm_compute|]; exists s; (split; [by vm_compute|unfold MAX_MISORDER; lia]).

Lemma jitter_in_order_witness :
  exists j0 j n, JitterBuffer_new (P := RtpPacket) MEDIA_AUDIO_TYPE = Some j0 /\
    input_all (Alloc := zero_alloc) 8000 [(5, demo_packet 10 0); (7, demo_packet 12 0); (9, demo_packet 11 0)] j0 = Done (true, j) /\
    outputs j = seqZ 10 n /\ ~ arrived [(5, demo_packet 10 0); (7, demo_packet 12 0); (9, demo_packet 11 0)] (10 + n).
Proof.
  destruct (jitter_in_order (Alloc := zero_alloc) MEDIA_AUDIO_TYPE
    (mkJitter MEDIA_AUDIO_TYPE false 0 0 (RTP_SEQ_MOD + 1) 0 [] 0 (-1) 0 JITTER_BUFFER_AUDIO_TIMEOUT []) 0 10 8000 5 (demo_packet 10 0)
    [(7, demo_packet 12 0); (9, demo_packet 11 0)]) as (j & n & Hj & _ & Hout & _ & Hnot & _); [done|by vm_compute| |].
  - apply Forall_cons. split; [demo_arrival 10|]. apply Forall_cons. split; [demo_arrival 12|].
    apply Forall_cons. split; [demo_arrival 11|constructor].
  - eexists _, j, n. split; [reflexivity|]. split; [exact Hj|]. split; [exact Hout|exact Hnot].
Defined.

(** A buffer in its second cycle that has put out everything up to number 1. *)
Definition wrapped : JitterBuffer (P := RtpPacket) :=
  mkJitter MEDIA_AUDIO_TYPE true 65500 1 (RTP_SEQ_MOD + 1) RTP_SEQ_MOD [] (RTP_SEQ_MOD + 1) (-1) 40 JITTER_BUFFER_AUDIO_TIMEOUT [].

Lemma late_across_wrap_stalls_witness :
  exists j1 j3, InputRtpPacket (Alloc := zero_alloc) 0 8000 (demo_packet 65535 0) wrapped = Done (true, j1) /\
    outputs (OnTimer 200 j1) = [131071] /\
    InputRtpPacket (Alloc := zero_alloc) 220 8000 (demo_packet 2 0) (OnTimer 200 j1) = Done (true, j3) /\ outputs j3 = [131071].
Proof.
  destruct (late_across_wrap_stalls (Alloc := zero_alloc) wrapped 1 2 0 200 220 8000 (demo_packet 65535 0) (demo_packet 2 0))
    as (j1 & j3 & H1 & H2 & H3 & H4 & H5);
    [reflexivity|reflexivity|reflexivity|reflexivity|lia|by vm_compute|by vm_compute|by vm_compute
    |demo_parsed|by vm_compute|demo_parsed|by vm_compute|].
  exists j1, j3. rewrite H5, H3. by split_and!.
Defined.

Definition waiting_demo : JitterBuffer (P := RtpPacket) :=
  mkJitter MEDIA_AUDIO_TYPE true 10 13 (RTP_SEQ_MOD + 1) 0
    [(12, mkInfo MEDIA_AUDIO_TYPE (demo_packet 12 50) 12 8000); (13, mkInfo MEDIA_AUDIO_TYPE (demo_packet 13 0) 13 8000)]
    10 (-1) 3 JITTER_BUFFER_AUDIO_TIMEOUT [].

Lemma timeout_out_of_order_witness :
  outputs (OnTimer 101 waiting_demo) = [13] /\ outputs (OnTimer 151 (OnTimer 101 waiting_demo)) = [13; 12].
Proof.
  apply (timeout_out_of_order 101 151 12 (mkInfo MEDIA_AUDIO_TYPE (demo_packet 12 50) 12 8000)
    (mkInfo MEDIA_AUDIO_TYPE (demo_packet 13 0) 13 8000) waiting_demo); by vm_compute.
Defined.
