(* ===== verification/RtpPack.v ===== *)
(** * [RtpPack]: H.264 NAL units into RTP packets

    Models [src/net/rtprtcp/rtp_pack.hpp] and [rtp_h264_pack.cpp]: packets made
    from a fresh buffer, holding a whole NAL unit, several (STAP-A) or a fragment
    (FU-A).  A header extension is the bytes its pointer points to.  [None] is the
    exception of [RtpPacket::Parse]; using the null pointer that [MakeRtpPacket]
    returns for a packet that is too long is a fault. *)
From S2P Require Import Prelude ByteStream DataBuffer RtpPacket Rtx RtpClone.

Definition RTP_VERSION : Z := 2.
Definition kFBit : Z := 0x80.
Definition kNriMask : Z := 0x60.
Definition kTypeMask : Z := 0x1f.
Definition kSBit : Z := 0x80.
Definition kEBit : Z := 0x40.
Definition kNalHeaderSize : Z := 1.
Definition kFuAHeaderSize : Z := 2.
Definition kLengthFieldSize : Z := 2.
Definition kPayloadMaxSize : Z := 1200.
Definition kStapA : Z := 24.
Definition kFuA : Z := 28.

(** The sizes of the fragments. *)
Fixpoint split_loop (fuel : nat) (payload_left : Z) : outcome (list Z) :=
  match fuel with
  | O => Fault OutOfFuel
  | S fuel =>
      if 0 <? payload_left then
        if kPayloadMaxSize <? payload_left then
          l ← split_loop fuel (payload_left - kPayloadMaxSize); mret (kPayloadMaxSize :: l)
        else mret [payload_left]
      else mret []
  end.
Definition SplitNalu (payload_len : Z) : outcome (list Z) :=
  let payload_left := u64 payload_len in
  split_loop (S (Z.to_nat (payload_left / kPayloadMaxSize))) payload_left.

Section pack.
Context `{Alloc : Allocator}.

Inductive made := Thrown | Null | Made (p : RtpPacket).

Definition MakeRtpPacket (ext : option bytes) (payload_len now_ms : Z) : outcome made :=
  m ← write_at (new_char RTP_PACKET_MAX_SIZE) 0 (replicate (Z.to_nat RTP_HEADER_SIZE) 0);
  b ← m.[0];
  m ← write_at m 0 [put_bits b 6 2 RTP_VERSION];
  b ← m.[0];
  '(m, ext_len) ←
    match ext with
    | Some ext =>
        m ← write_at m 0 [put_bits b 4 1 1];
        length ← Read2Bytes (drop 2 ext);
        d ← read_range ext 0 (4 + 4 * length);
        m ← write_at m RTP_HEADER_SIZE d;
        mret (m, 4 + 4 * length)
    | None => m ← write_at m 0 [put_bits b 4 1 0]; mret (m, 0)
    end;
  let data_len := u64 (payload_len + RTP_HEADER_SIZE + ext_len) in
  if RTP_PACKET_MAX_SIZE <? data_len then mret Null
  else
    r ← Parse m data_len now_ms;
    mret (match r with None => Thrown | Some p => Made (set_need_delete true p) end).

(** The packet is used through its pointer. *)
Definition with_packet {A} (r : made) (f : RtpPacket -> outcome (option A)) : outcome (option A) :=
  match r with Thrown => mret None | Null => Fault OutOfBounds | Made p => f p end.

Definition GenerateSinglePackets (data : bytes) (len : Z) (ext : option bytes) (now_ms : Z) : outcome (option RtpPacket) :=
  r ← MakeRtpPacket ext len now_ms;
  with_packet r (fun packet =>
    d ← read_range data 0 len;
    packet ← store (payload_ packet) d packet;
    mret (Some (SetPayloadLength len packet))).

(** The loop over the NAL units, each behind its length. *)
Fixpoint stap_loop (NaluVec : list (bytes * Z)) (index : Z) (packet : RtpPacket) : outcome (Z * RtpPacket) :=
  match NaluVec with
  | [] => mret (index, packet)
  | nalu :: NaluVec =>
      packet ← store (payload_ packet + index) [u8 (Z.shiftr nalu.2 8)] packet;
      packet ← store (payload_ packet + (index + 1)) [u8 nalu.2] packet;
      let index := index + kLengthFieldSize in
      d ← read_range nalu.1 0 nalu.2;
      packet ← store (payload_ packet + index) d packet;
      stap_loop NaluVec (index + nalu.2) packet
  end.

Definition GenerateStapAPackets (NaluVec : list (bytes * Z)) (ext : option bytes) (now_ms : Z) : outcome (option RtpPacket) :=
  let data_len := fold_left (fun n nalu => u64 (n + kLengthFieldSize + nalu.2)) NaluVec kNalHeaderSize in
  r ← MakeRtpPacket ext data_len now_ms;
  with_packet r (fun packet =>
    match NaluVec with
    | [] => Fault OutOfBounds
    | nalu :: _ =>
        nalu_header ← nalu.1.[0];
        packet ← store (payload_ packet) [Z.lor (Z.land nalu_header (Z.lor kFBit kNriMask)) kStapA] packet;
        '(index, packet) ← stap_loop NaluVec kNalHeaderSize packet;
        mret (Some (SetPayloadLength index packet))
    end).

(** The loop over the fragments; [first] is [i == 0]. *)
Fixpoint fua_loop (nalu_header : Z) (fragment : bytes) (fragment_sizes : list Z) (first : bool) (ext : option bytes) (now_ms : Z)
    : outcome (option (list RtpPacket)) :=
  match fragment_sizes with
  | [] => mret (Some [])
  | size :: rest =>
      let last := match rest with [] => true | _ => false end in
      r ← MakeRtpPacket ext (kFuAHeaderSize + size) now_ms;
      with_packet r (fun packet =>
        let fu_indicator := Z.lor (Z.land nalu_header (Z.lor kFBit kNriMask)) kFuA in
        let fu_header := Z.lor (if first then kSBit else 0) (if last then kEBit else 0) in
        let type := Z.land nalu_header kTypeMask in
        let fu_header := Z.lor fu_header type in
        packet ← store (payload_ packet) [fu_indicator] packet;
        packet ← store (payload_ packet + 1) [fu_header] packet;
        d ← read_range fragment 0 size;
        packet ← store (payload_ packet + kFuAHeaderSize) d packet;
        let packet := SetPayloadLength (kFuAHeaderSize + size) packet in
        packet ← SetMarker (if last then 1 else 0) packet;
        r ← fua_loop nalu_header (drop (Z.to_nat size) fragment) rest false ext now_ms;
        mret (match r with Some packets => Some (packet :: packets) | None => None end))
  end.

Definition GenerateFuAPackets (nalu : bytes) (nalu_size : Z) (ext : option bytes) (now_ms : Z) : outcome (option (list RtpPacket)) :=
  let payload_left := u64 (nalu_size - kNalHeaderSize) in
  fragment_sizes ← SplitNalu (i32 payload_left);
  nalu_header ← nalu.[0];
  fua_loop nalu_header (drop 1 nalu) fragment_sizes true ext now_ms.

(** ** What the packets are *)

(** A packet of [MakeRtpPacket], with the fields the senders set. *)
Definition made_rtp (b1 : Z) (s t ss body : bytes) (n now_ms : Z) : RtpPacket :=
  mkRtp (layout 0x80 b1 s t ss [] body) None RTP_HEADER_SIZE n 0 (RTP_HEADER_SIZE + n) now_ms true 0 0 [] [].

Definition zeros (n : nat) : bytes := replicate n 0.

Lemma new_split n : 0 <= n <= RTP_PACKET_MAX_SIZE ->
  exists front body, new_char RTP_PACKET_MAX_SIZE = front ++ body /\ zlen front = n /\ zlen body = RTP_PACKET_MAX_SIZE - n /\ bytes_ok body.
Proof.
  intros Hn. exists (take (Z.to_nat n) (new_char RTP_PACKET_MAX_SIZE)), (drop (Z.to_nat n) (new_char RTP_PACKET_MAX_SIZE)).
  assert (zlen (new_char RTP_PACKET_MAX_SIZE) = RTP_PACKET_MAX_SIZE) as Hl by (by apply new_char_length).
  rewrite take_drop, zlen_take, zlen_drop, Hl by lia. split_and!; [done|done|done|]. by apply Forall_drop, new_char_bytes.
Qed.

Lemma Parse_layout b1 s t ss body n now : 1 <= n <= RTP_PACKET_MAX_SIZE - RTP_HEADER_SIZE ->
  Parse (layout 0x80 b1 s t ss [] body) (RTP_HEADER_SIZE + n) now =
  Done (Some (set_need_delete false (made_rtp b1 s t ss body n now))).
Proof.
  unfold Parse, RTP_PACKET_MAX_SIZE, RTP_HEADER_SIZE. intros Hn. rewrite (proj2 (Z.ltb_ge _ _)) by lia.
  change (csrc_count _) with (Done 0). simpl_m. change (0 <? 0) with false. cbn iota.
  change (parse_extension _ _ 12) with (Done (Some (@None Z, 12))). simpl_m. rewrite (proj2 (Z.leb_gt _ _)) by lia.
  change (parse_padding _ _ ?k) with (Done (Some (k, 0))). simpl_m.
  unfold RtpPacket_new, RTP_PACKET_MAX_SIZE. rewrite (proj2 (Z.ltb_ge _ _)) by lia. unfold ParseExt.
  change (extension _) with (Done 0). simpl_m. unfold made_rtp, set_need_delete, RTP_HEADER_SIZE. cbn -[Z.add Z.sub].
  by replace (12 + n - 12) with n by lia.
Qed.

Lemma rd_front x l : rd ([] ++ [x] ++ l) 0 = Done x.
Proof. done. Qed.

Lemma MakeRtpPacket_spec n now : 1 <= n <= RTP_PACKET_MAX_SIZE - RTP_HEADER_SIZE ->
  exists body, zlen body = RTP_PACKET_MAX_SIZE - RTP_HEADER_SIZE /\ bytes_ok body /\
    MakeRtpPacket None n now = Done (Made (made_rtp 0 (zeros 2) (zeros 4) (zeros 4) body n now)).
Proof.
  unfold RTP_PACKET_MAX_SIZE, RTP_HEADER_SIZE. intros Hn.
  destruct (new_split 12) as (front & body & Hnew & Hf & Hb & Hok); [by vm_compute|]. exists body. split_and!; [done|done|].
  unfold MakeRtpPacket. rewrite Hnew. change (replicate (Z.to_nat RTP_HEADER_SIZE) 0) with (zeros 12).
  pose proof (write_at_mid [] front body (zeros 12)) as Hw. cbn [app] in Hw. change (zlen []) with 0 in Hw. rewrite Hw by done. clear Hw.
  simpl_m. change (zeros 12 ++ body) with ([] ++ [0] ++ zeros 11 ++ body). rewrite rd_front. simpl_m.
  rewrite (write_at_mid [] [0] _ [put_bits 0 6 2 RTP_VERSION]) by done. simpl_m. rewrite rd_front. simpl_m.
  rewrite (write_at_mid [] [put_bits 0 6 2 RTP_VERSION]) by done. simpl_m.
  change (put_bits (put_bits 0 6 2 RTP_VERSION) 4 1 0) with 0x80.
  change ([] ++ [0x80] ++ zeros 11 ++ body) with (layout 0x80 0 (zeros 2) (zeros 4) (zeros 4) [] body).
  replace (u64 (n + RTP_HEADER_SIZE + 0)) with (RTP_HEADER_SIZE + n) by (unfold RTP_HEADER_SIZE; rewrite u64_small; lia).
  rewrite (proj2 (Z.ltb_ge _ _)) by (unfold RTP_PACKET_MAX_SIZE, RTP_HEADER_SIZE; lia). by rewrite Parse_layout.
Qed.

(** The memory behind the header: it is as long as the buffer allows. *)
Definition body_ok (body : bytes) : Prop := zlen body = RTP_PACKET_MAX_SIZE - RTP_HEADER_SIZE /\ bytes_ok body.

(** A packet that carries the payload [d], with the rest of its buffer behind it. *)
Definition carries (b1 : Z) (s t ss : bytes) (now_ms : Z) (d : bytes) (p : RtpPacket) : Prop :=
  exists tail, body_ok (d ++ tail) /\ p = made_rtp b1 s t ss (d ++ tail) (zlen d) now_ms.

Lemma filled b1 s t ss d body now : body_ok body -> bytes_ok d -> zlen d <= zlen body ->
  carries b1 s t ss now d (made_rtp b1 s t ss (d ++ drop (Z.to_nat (zlen d)) body) (zlen d) now).
Proof.
  intros [Hl Hb] Hd Hle. pose proof (zlen_nonneg d). eexists. split; [|reflexivity]. split.
  - rewrite zlen_app, zlen_drop; lia.
  - apply Forall_app. split; [done|]. by apply Forall_drop.
Qed.

(** A packet whose body has been overwritten with [w]. *)
Section written.
Context (body : bytes) (n now : Z).
Definition written (w : bytes) : RtpPacket :=
  made_rtp 0 (zeros 2) (zeros 4) (zeros 4) (w ++ drop (Z.to_nat (zlen w)) body) n now.

Lemma written_more w e k : k = RTP_HEADER_SIZE + zlen w -> zlen w + zlen e <= zlen body ->
  store k e (written w) = Done (written (w ++ e)).
Proof.
  intros -> He. pose proof (zlen_nonneg e). pose proof (zlen_nonneg w). set (rest := drop (Z.to_nat (zlen w)) body).
  assert (zlen e <= zlen rest) as Hle by (unfold rest; rewrite zlen_drop; lia).
  set (c := drop (Z.to_nat (zlen e)) rest). set (d := take (Z.to_nat (zlen e)) rest).
  pose proof (body_store 0x80 0 (zeros 2) (zeros 4) (zeros 4) [] (w ++ d ++ c) eq_refl eq_refl eq_refl (written w) w d c e) as H1.
  change (payload_ (written w)) with RTP_HEADER_SIZE in H1. rewrite H1; [|split; [|done]|done|unfold d; rewrite zlen_take; lia].
  - unfold written, made_rtp, set_mem. cbn -[Z.to_nat]. unfold c, rest.
    rewrite drop_drop, zlen_app, <- app_assoc, Z2Nat.inj_add by done. done.
  - unfold written, made_rtp, d, c, rest. cbn -[Z.to_nat]. by rewrite take_drop.
Qed.
End written.

Lemma GenerateSinglePackets_spec d rest now :
  bytes_ok d -> 1 <= zlen d <= RTP_PACKET_MAX_SIZE - RTP_HEADER_SIZE ->
  exists p, GenerateSinglePackets (d ++ rest) (zlen d) None now = Done (Some p) /\
    carries 0 (zeros 2) (zeros 4) (zeros 4) now d p.
Proof.
  intros Hd Hl. destruct (MakeRtpPacket_spec (zlen d) now Hl) as (body & Hb & Hok & Hm).
  unfold GenerateSinglePackets. rewrite Hm. simpl_m. cbn [with_packet]. rewrite read_range_app by done. simpl_m.
  change (made_rtp _ _ _ _ _ _ _) with (written body (zlen d) now []). change (payload_ (written _ _ _ _)) with RTP_HEADER_SIZE.
  rewrite written_more by (done || (change (zlen (@nil Z)) with 0; lia)). simpl_m. eexists. split; [reflexivity|].
  apply filled; [by split|done|lia].
Qed.

(** ** STAP-A *)

(** The type bytes made from a NAL unit's header. *)
Definition indicator (hdr type : Z) : Z := Z.lor (Z.land hdr (Z.lor kFBit kNriMask)) type.

Definition stap_unit (d : bytes) : bytes := Write2Bytes (zlen d) ++ d.
Definition stap_payload (hdr : Z) (ds : list bytes) : bytes := [indicator hdr kStapA] ++ concat (map stap_unit ds).

(** Pointers to NAL units, whatever is behind them. *)
Definition nalu_vec (ds : list (bytes * bytes)) : list (bytes * Z) := map (fun x => (x.1 ++ x.2, zlen x.1)) ds.

Lemma u8_land x : u8 x = Z.land x 255.
Proof. change 255 with (Z.ones 8). by rewrite Z.land_ones. Qed.

Lemma bytes_of_length v : [u8 (Z.shiftr v 8)] ++ [u8 v] = Write2Bytes v.
Proof. rewrite Write2Bytes_be, !u8_land. unfold be_bytes, byte_of. cbn -[Z.land Z.shiftr]. by rewrite Z.shiftr_0_r. Qed.

Lemma zlen_stap_unit d : zlen (stap_unit d) = 2 + zlen d.
Proof. unfold stap_unit. by rewrite zlen_app. Qed.

Lemma stap_loop_spec body n now ds w :
  let u := concat (map stap_unit (map fst ds)) in
  zlen w + zlen u <= zlen body ->
  stap_loop (nalu_vec ds) (zlen w) (written body n now w) = Done (zlen (w ++ u), written body n now (w ++ u)).
Proof.
  revert w. induction ds as [|[d r] ds IH]; intros w; cbn [map concat fst snd nalu_vec stap_loop]; cbn zeta.
  { by rewrite app_nil_r. }
  set (us := concat (map stap_unit (map fst ds))) in *. rewrite zlen_app, zlen_stap_unit. intros Hl.
  pose proof (zlen_nonneg us). pose proof (zlen_nonneg d). fold us in IH.
  change (payload_ (written _ _ _ _)) with RTP_HEADER_SIZE. set (h := u8 (Z.shiftr (zlen d) 8)). set (l := u8 (zlen d)).
  rewrite written_more by (change (zlen [h]) with 1; lia). simpl_m. change (payload_ (written _ _ _ _)) with RTP_HEADER_SIZE.
  rewrite written_more by (rewrite zlen_app; change (zlen [h]) with 1; change (zlen [l]) with 1; lia). simpl_m.
  rewrite read_range_app by done. simpl_m. change (payload_ (written _ _ _ _)) with RTP_HEADER_SIZE. unfold kLengthFieldSize.
  assert (zlen ((w ++ [h]) ++ [l]) = zlen w + 2) as H2 by (by rewrite !zlen_app, <- Z.add_assoc).
  rewrite written_more by lia. simpl_m. fold (nalu_vec ds).
  assert (((w ++ [h]) ++ [l]) ++ d = w ++ stap_unit d) as ->.
  { unfold stap_unit. rewrite <- bytes_of_length, <- !app_assoc. done. }
  assert (zlen w + 2 + zlen d = zlen (w ++ stap_unit d)) as -> by (rewrite zlen_app, zlen_stap_unit; lia).
  rewrite IH by (rewrite zlen_app, zlen_stap_unit; fold us; lia). by rewrite <- app_assoc.
Qed.

Lemma stap_length_sum ds n :
  0 <= n -> n + zlen (concat (map stap_unit (map fst ds))) < 2 ^ 64 ->
  fold_left (fun n nalu => u64 (n + kLengthFieldSize + nalu.2)) (nalu_vec ds) n = n + zlen (concat (map stap_unit (map fst ds))).
Proof.
  revert n. induction ds as [|[d r] ds IH]; intros n Hn; cbn [map concat fst snd nalu_vec fold_left]; [by rewrite Z.add_0_r|].
  rewrite zlen_app, zlen_stap_unit. intros Hl. pose proof (zlen_nonneg (concat (map stap_unit (map fst ds)))). pose proof (zlen_nonneg d).
  change kLengthFieldSize with 2 in *. fold (nalu_vec ds). rewrite u64_small by lia. rewrite IH; lia.
Qed.

Lemma stap_unit_ok d : bytes_ok d -> bytes_ok (stap_unit d).
Proof. intros Hd. apply Forall_app. split; [|done]. rewrite Write2Bytes_be. apply be_bytes_ok. Qed.

Lemma indicator_ok hdr : is_byte hdr -> is_byte (indicator hdr kStapA) /\ is_byte (indicator hdr kFuA).
Proof.
  intros Hb. pose proof (byte_all (fun b => bool_decide (is_byte (indicator b kStapA) /\ is_byte (indicator b kFuA))) hdr eq_refl Hb) as H.
  by apply bool_decide_eq_true in H.
Qed.

Lemma GenerateStapAPackets_spec b0 d0 r0 ds now :
  Forall bytes_ok (map fst ((b0 :: d0, r0) :: ds)) ->
  zlen (stap_payload b0 (map fst ((b0 :: d0, r0) :: ds))) <= RTP_PACKET_MAX_SIZE - RTP_HEADER_SIZE ->
  exists p, GenerateStapAPackets (nalu_vec ((b0 :: d0, r0) :: ds)) None now = Done (Some p) /\
    carries 0 (zeros 2) (zeros 4) (zeros 4) now (stap_payload b0 (map fst ((b0 :: d0, r0) :: ds))) p.
Proof.
  set (vec := (b0 :: d0, r0) :: ds). unfold stap_payload. set (hdr := indicator b0 kStapA). set (u := concat _). intros Hok Hl.
  rewrite zlen_app in Hl. change (zlen [hdr]) with 1 in Hl. pose proof (zlen_nonneg u).
  unfold GenerateStapAPackets. rewrite stap_length_sum by (fold u; unfold kNalHeaderSize, RTP_PACKET_MAX_SIZE, RTP_HEADER_SIZE in *; lia).
  fold u. destruct (MakeRtpPacket_spec (kNalHeaderSize + zlen u) now) as (body & Hb & Hbok & ->); [unfold kNalHeaderSize; lia|].
  simpl_m. cbn [with_packet]. change (made_rtp _ _ _ _ _ _ _) with (written body (kNalHeaderSize + zlen u) now []).
  unfold vec at 1. cbn [nalu_vec map fst app]. change (rd (b0 :: _) 0) with (Done b0). simpl_m.
  change (payload_ (written _ _ _ _)) with RTP_HEADER_SIZE. fold (indicator b0 kStapA). fold hdr.
  rewrite written_more by (done || (change (zlen (@nil Z)) with 0; change (zlen [hdr]) with 1; lia)). simpl_m.
  fold (nalu_vec vec). change (stap_loop (nalu_vec vec) kNalHeaderSize) with (stap_loop (nalu_vec vec) (zlen ([] ++ [hdr]))).
  rewrite stap_loop_spec by (fold u; change (zlen ([] ++ [hdr])) with 1; lia).
  simpl_m. fold u. eexists. split; [reflexivity|]. assert (kNalHeaderSize + zlen u = zlen (([] ++ [hdr]) ++ u)) as -> by (by rewrite zlen_app).
  apply (filled 0 (zeros 2) (zeros 4) (zeros 4) (([] ++ [hdr]) ++ u)); [by split| |rewrite zlen_app; change (zlen ([] ++ [hdr])) with 1; lia].
  apply Forall_app. apply Forall_cons in Hok as [Hd0 Hds]. split.
  - apply Forall_singleton. apply indicator_ok. by apply Forall_cons in Hd0 as [? _].
  - apply Forall_concat, Forall_map. eapply Forall_impl; [apply Forall_cons; split; [exact Hd0|exact Hds]|]. apply stap_unit_ok.
Qed.

(** ** The header fields the senders set *)

Section setters.
Context (b1 : Z) (s t ss : bytes) (now : Z) (d : bytes) (p : RtpPacket).
Context (Hs : zlen s = 2) (Ht : zlen t = 4) (Hss : zlen ss = 4) (Hp : carries b1 s t ss now d p).

Lemma SetSeq_carries v : exists p', SetSeq v p = Done p' /\ carries b1 (Write2Bytes v) t ss now d p'.
Proof.
  destruct Hp as (tail & Hb & ->). unfold SetSeq.
  destruct (layout_store 0x80 b1 s t ss [] (d ++ tail) Hs Ht Hss (made_rtp b1 s t ss (d ++ tail) (zlen d) now) (Write2Bytes v) 0 eq_refl) as (_ & _ & H & _).
  rewrite H by done. eexists. split; [reflexivity|]. by exists tail.
Qed.

Lemma SetSsrc_carries v : exists p', SetSsrc v p = Done p' /\ carries b1 s t (Write4Bytes v) now d p'.
Proof.
  destruct Hp as (tail & Hb & ->). unfold SetSsrc.
  destruct (layout_store 0x80 b1 s t ss [] (d ++ tail) Hs Ht Hss (made_rtp b1 s t ss (d ++ tail) (zlen d) now) (Write4Bytes v) 0 eq_refl) as (_ & _ & _ & H).
  rewrite H by done. eexists. split; [reflexivity|]. by exists tail.
Qed.

Lemma SetTimestamp_carries v : exists p', SetTimestamp v p = Done p' /\ carries b1 s (Write4Bytes v) ss now d p'.
Proof.
  destruct Hp as (tail & Hb & ->). unfold SetTimestamp, store, made_rtp, layout. cbn [mem_].
  pose proof (write_at_mid ([0x80; b1] ++ s) t (ss ++ [] ++ d ++ tail) (Write4Bytes v)) as H.
  assert (zlen ([0x80; b1] ++ s) = 4) as H4 by (by rewrite zlen_app, Hs). rewrite H4, <- !app_assoc in H. rewrite <- !app_assoc.
  cbn [app] in H |- *. rewrite H by (by rewrite Ht). eexists. split; [reflexivity|]. exists tail. split; [done|].
  unfold made_rtp, set_mem, layout. cbn -[Write4Bytes zlen Z.add]. by rewrite <- !app_assoc.
Qed.

Lemma store_b1_carries x : exists p', store 1 [x] p = Done p' /\ carries x s t ss now d p'.
Proof.
  destruct Hp as (tail & Hb & ->).
  destruct (layout_store 0x80 b1 s t ss [] (d ++ tail) Hs Ht Hss (made_rtp b1 s t ss (d ++ tail) (zlen d) now) [] x eq_refl) as (_ & -> & _).
  eexists. split; [reflexivity|]. by exists tail.
Qed.

Lemma b1_carries : (mem_ p).[1] = Done b1.
Proof.
  destruct Hp as (tail & Hb & ->). by destruct (layout_reads 0x80 b1 s t ss [] (d ++ tail) Hs Ht Hss (made_rtp b1 s t ss (d ++ tail) (zlen d) now) eq_refl) as (_ & _ & _ & _ & ?).
Qed.

Lemma SetPayloadType_carries v : exists p', SetPayloadType v p = Done p' /\ carries (put_bits b1 0 7 v) s t ss now d p'.
Proof. unfold SetPayloadType. rewrite b1_carries. simpl_m. apply store_b1_carries. Qed.

Lemma SetMarker_carries v : exists p', SetMarker v p = Done p' /\ carries (put_bits b1 7 1 v) s t ss now d p'.
Proof. unfold SetMarker. rewrite b1_carries. simpl_m. apply store_b1_carries. Qed.
End setters.

(** ** FU-A *)

Fixpoint zsum (l : list Z) : Z := match l with [] => 0 | x :: l => x + zsum l end.

Lemma split_loop_spec fuel n : 0 <= n -> n / kPayloadMaxSize < Z.of_nat fuel ->
  exists sizes, split_loop fuel n = Done sizes /\ Forall (fun s => 1 <= s <= kPayloadMaxSize) sizes /\ zsum sizes = n.
Proof.
  unfold kPayloadMaxSize. revert n. induction fuel as [|fuel IH]; intros n Hn Hf; [div_lia|]. cbn [split_loop]. unfold kPayloadMaxSize.
  destruct (Z.ltb_spec 0 n); [|exists []; split_and!; [done|constructor|cbn; lia]].
  destruct (Z.ltb_spec 1200 n).
  - destruct (IH (n - 1200)) as (l & -> & Hl & Hsum); [lia|div_lia|]. simpl_m. exists (1200 :: l). split_and!; [done|constructor; [lia|done]|cbn; lia].
  - exists [n]. split_and!; [done|repeat constructor; lia|cbn; lia].
Qed.

Lemma SplitNalu_spec n : 0 <= n < 2 ^ 31 ->
  exists sizes, SplitNalu n = Done sizes /\ Forall (fun s => 1 <= s <= kPayloadMaxSize) sizes /\ zsum sizes = n.
Proof.
  intros Hn. unfold SplitNalu. rewrite u64_small by lia. apply split_loop_spec; [lia|].
  rewrite Nat2Z.inj_succ, Z2Nat.id; [lia|]. apply Z.div_pos; [lia|done].
Qed.

Definition fu_header (hdr : Z) (first last : bool) : Z :=
  Z.lor (Z.lor (if first then kSBit else 0) (if last then kEBit else 0)) (Z.land hdr kTypeMask).

(** The fragments, each with the second byte of its RTP header, which holds the marker. *)
Fixpoint fragments (hdr : Z) (fragment : bytes) (sizes : list Z) (first : bool) : list (Z * bytes) :=
  match sizes with
  | [] => []
  | size :: rest =>
      let last := match rest with [] => true | _ => false end in
      (if last then 0x80 else 0, [indicator hdr kFuA; fu_header hdr first last] ++ take (Z.to_nat size) fragment)
        :: fragments hdr (drop (Z.to_nat size) fragment) rest false
  end.

Lemma fu_header_ok hdr first last : is_byte hdr -> is_byte (fu_header hdr first last).
Proof.
  intros Hb. pose proof (byte_all (fun b => bool_decide (is_byte (fu_header b first last))) hdr) as H.
  apply (bool_decide_eq_true (is_byte (fu_header hdr first last))). apply H; [by destruct first, last|done].
Qed.

Lemma fua_loop_spec hdr fragment behind sizes first now :
  is_byte hdr -> bytes_ok fragment -> Forall (fun s => 1 <= s <= kPayloadMaxSize) sizes -> zsum sizes <= zlen fragment ->
  exists ps, fua_loop hdr (fragment ++ behind) sizes first None now = Done (Some ps) /\
    Forall2 (fun x p => carries x.1 (zeros 2) (zeros 4) (zeros 4) now x.2 p) (fragments hdr fragment sizes first) ps.
Proof.
  intros Hh. revert fragment first. induction sizes as [|size rest IH]; intros fragment first Hf Hs Hl; [exists []; by split|].
  apply Forall_cons in Hs as [Hsize Hrest]. unfold kPayloadMaxSize in Hsize. cbn [zsum] in Hl.
  assert (0 <= zsum rest) as Hz by (clear -Hrest; induction Hrest; cbn; lia).
  cbn [fua_loop fragments]. set (last := match rest with [] => true | _ => false end).
  destruct (MakeRtpPacket_spec (kFuAHeaderSize + size) now) as (body & Hb & Hbok & ->);
    [unfold kFuAHeaderSize, RTP_PACKET_MAX_SIZE, RTP_HEADER_SIZE; lia|]. unfold RTP_PACKET_MAX_SIZE, RTP_HEADER_SIZE in Hb.
  simpl_m. cbn [with_packet]. fold (indicator hdr kFuA). fold (fu_header hdr first last).
  set (n := kFuAHeaderSize + size). change (made_rtp _ _ _ _ _ _ _) with (written body n now []).
  change (payload_ (written _ _ _ _)) with RTP_HEADER_SIZE. set (x := indicator hdr kFuA). set (y := fu_header hdr first last).
  rewrite written_more by (done || (change (zlen (@nil Z)) with 0; change (zlen [x]) with 1; lia)). simpl_m.
  change (payload_ (written _ _ _ _)) with RTP_HEADER_SIZE.
  rewrite written_more by (done || (change (zlen ([] ++ [x])) with 1; change (zlen [y]) with 1; lia)). simpl_m.
  set (d := take (Z.to_nat size) fragment). assert (zlen d = size) as Hd by (apply zlen_take; lia).
  assert (read_range (fragment ++ behind) 0 size = Done d) as ->.
  { rewrite <- (take_drop (Z.to_nat size) fragment), <- app_assoc. fold d. by apply read_range_app. }
  simpl_m. change (payload_ (written _ _ _ _)) with RTP_HEADER_SIZE.
  rewrite written_more by (done || (change (zlen (([] ++ [x]) ++ [y])) with 2; lia)). simpl_m. fold (fu_header hdr first last).
  assert (carries 0 (zeros 2) (zeros 4) (zeros 4) now ([x; y] ++ d) (SetPayloadLength n (written body n now ((([] ++ [x]) ++ [y]) ++ d)))) as Hc.
  { unfold n, kFuAHeaderSize. replace (2 + size) with (zlen ([x; y] ++ d)) by (rewrite zlen_app, Hd; done).
    apply (filled 0 (zeros 2) (zeros 4) (zeros 4) ([x; y] ++ d)); [by split| |rewrite zlen_app, Hd; change (zlen [x; y]) with 2; lia].
    apply Forall_app. split; [|by apply Forall_take]. apply Forall_cons. split; [by apply indicator_ok|].
    apply Forall_singleton. by apply fu_header_ok. }
  destruct (SetMarker_carries 0 (zeros 2) (zeros 4) (zeros 4) now ([x; y] ++ d) _ eq_refl eq_refl eq_refl Hc (if last then 1 else 0)) as (p & -> & Hp). simpl_m.
  rewrite drop_app_le by (unfold zlen in Hl; lia).
  destruct (IH (drop (Z.to_nat size) fragment) false) as (ps & -> & Hps); [by apply Forall_drop|done|rewrite zlen_drop; lia|].
  simpl_m. exists (p :: ps). split; [done|]. constructor; [|done]. cbn [fst snd]. by destruct last.
Qed.

Lemma GenerateFuAPackets_spec hdr body behind now :
  is_byte hdr -> bytes_ok body -> zlen body < 2 ^ 31 ->
  exists sizes ps, Forall (fun s => 1 <= s <= kPayloadMaxSize) sizes /\ zsum sizes = zlen body /\
    GenerateFuAPackets ((hdr :: body) ++ behind) (zlen (hdr :: body)) None now = Done (Some ps) /\
    Forall2 (fun x p => carries x.1 (zeros 2) (zeros 4) (zeros 4) now x.2 p) (fragments hdr body sizes true) ps.
Proof.
  intros Hh Hb Hl. pose proof (zlen_nonneg body). destruct (SplitNalu_spec (zlen body)) as (sizes & Hs & Hok & Hsum); [lia|].
  destruct (fua_loop_spec hdr body behind sizes true now) as (ps & Hps & Hc); [done..|lia|].
  exists sizes, ps. split_and!; [done|done| |done]. unfold GenerateFuAPackets, kNalHeaderSize. rewrite zlen_cons.
  replace (1 + zlen body - 1) with (zlen body) by lia. rewrite u64_small, i32_small, Hs by lia. simpl_m.
  cbn [app]. change (rd (hdr :: _) 0) with (Done hdr). simpl_m. exact Hps.
Qed.
End pack.
