(* ===== verification/PackH264.v ===== *)
(** * [PackH264]: NAL units out of RTP packets

    Models [src/net/webrtc/pack_handle_h264.cpp]: single NAL units, STAP-A and FU-A
    payloads become media packets, each behind a start code.  Payloads are read
    through their pointer, which reaches past the payload to the end of the
    packet's buffer.  The callbacks are events of [p_log_]; a call reads the clock
    once ([now_ms]). *)
From S2P Require Import Prelude ByteStream DataBuffer Media RtpPacket RtpClone Jitter.

Definition NAL_START_CODE : bytes := [0; 0; 0; 1].
Definition H264_STAPA_FIELD_SIZE : Z := 2.
Definition PACK_BUFFER_TIMEOUT : Z := 600.
Definition kAvcNaluTypeIDR : Z := 5.
Definition kAvcNaluTypeSPS : Z := 7.
Definition kAvcNaluTypePPS : Z := 8.

Abbreviation Info := (RtpPacketInfo (P := RtpPacket)).

Inductive pack_event :=
  | PackHandleReset (i : Info)
  | PackMediaPacketOutput (p : Media_Packet).

Record PackHandleH264 := mkPack {
  p_init_flag_ : bool;
  start_flag_ : bool;
  end_flag_ : bool;
  last_extend_seq_ : Z;
  packets_queue_ : list Info;
  p_report_lost_ts_ : Z;
  p_log_ : list pack_event
}.
Definition PackHandleH264_new : PackHandleH264 := mkPack false false false 0 [] (-1) [].

Definition set_init (seq : Z) (h : PackHandleH264) : PackHandleH264 :=
  mkPack true (start_flag_ h) (end_flag_ h) seq (packets_queue_ h) (p_report_lost_ts_ h) (p_log_ h).
Definition set_flags (st en : bool) (h : PackHandleH264) : PackHandleH264 :=
  mkPack (p_init_flag_ h) st en (last_extend_seq_ h) (packets_queue_ h) (p_report_lost_ts_ h) (p_log_ h).
Definition set_queue (q : list Info) (h : PackHandleH264) : PackHandleH264 :=
  mkPack (p_init_flag_ h) (start_flag_ h) (end_flag_ h) (last_extend_seq_ h) q (p_report_lost_ts_ h) (p_log_ h).
Definition MediaPacketOutput (p : Media_Packet) (h : PackHandleH264) : PackHandleH264 :=
  mkPack (p_init_flag_ h) (start_flag_ h) (end_flag_ h) (last_extend_seq_ h) (packets_queue_ h) (p_report_lost_ts_ h)
    (p_log_ h ++ [PackMediaPacketOutput p]).

Definition ReportLost (now_ms : Z) (i : Info) (h : PackHandleH264) : PackHandleH264 :=
  if 500 <? now_ms - p_report_lost_ts_ h then
    mkPack (p_init_flag_ h) (start_flag_ h) (end_flag_ h) (last_extend_seq_ h) (packets_queue_ h) now_ms
      (p_log_ h ++ [PackHandleReset i])
  else h.

Definition ResetRtpFua (h : PackHandleH264) : PackHandleH264 := set_queue [] (set_flags false false h).

(** [pkt->GetPayload()] as a pointer. *)
Definition payload_ptr (p : RtpPacket) : bytes := drop (Z.to_nat (payload_ p)) (mem_ p).

Definition GetStartEndBit (p : RtpPacket) : outcome (bool * bool) :=
  fu_header ← (payload_ptr p).[1];
  mret (negb (Z.land fu_header 0x80 =? 0), negb (Z.land fu_header 0x40 =? 0)).

Fixpoint fua_timeout (now_ms : Z) (q : list Info) : list Info :=
  match q with
  | [] => []
  | i :: q' => if now_ms - local_ms_ (i_pkt i) <? PACK_BUFFER_TIMEOUT then q else fua_timeout now_ms q'
  end.
Definition CheckFuaTimeout (now_ms : Z) (h : PackHandleH264) : PackHandleH264 :=
  set_queue (fua_timeout now_ms (packets_queue_ h)) h.
Definition OnTimer (now_ms : Z) (h : PackHandleH264) : PackHandleH264 := CheckFuaTimeout now_ms h.

(** The fields of an output packet. *)
Definition describe (nal_type dts : Z) (p : Media_Packet) : Media_Packet :=
  let p := set_av_type MEDIA_VIDEO_TYPE p in
  let p := set_codec_type MEDIA_CODEC_H264 p in
  let p := set_fmt_type MEDIA_FORMAT_RAW p in
  let p := set_dts dts p in
  let p := set_pts dts p in
  if (nal_type =? kAvcNaluTypeSPS) || (nal_type =? kAvcNaluTypePPS) then set_is_key_frame false (set_is_seq_hdr true p)
  else if nal_type =? kAvcNaluTypeIDR then set_is_key_frame true (set_is_seq_hdr false p)
  else set_is_key_frame false (set_is_seq_hdr false p).

Section pack.
Context `{Alloc : Allocator}.

(** The loop of [DemuxFua]: what is left of the queue, the packet, the timestamp and
    the two flags. *)
Fixpoint fua_demux (q : list Info) (first has_start : bool) (timestamp : Z) (p : Media_Packet)
    : outcome (list Info * Media_Packet * Z * bool * bool) :=
  match q with
  | [] => mret ([], p, timestamp, has_start, false)
  | i :: q =>
      timestamp ← GetTimestamp (i_pkt i);
      '(start, en) ← GetStartEndBit (i_pkt i);
      let payload := payload_ptr (i_pkt i) in
      let payload_len := payload_len_ (i_pkt i) in
      '(p, has_start) ←
        (if first then
          if start : bool then
            fu_indicator ← payload.[0];
            fu_header ← payload.[1];
            let nalu_header := Z.lor (Z.land fu_indicator 0xe0) (Z.land fu_header 0x1f) in
            p ← append_packet NAL_START_CODE p;
            p ← append_packet [nalu_header] p;
            d ← read_range payload 2 (u64 (payload_len - 2));
            p ← append_packet d p;
            mret (p, true)
          else mret (p, has_start)
        else if has_start : bool then
          d ← read_range payload 2 (u64 (payload_len - 2));
          p ← append_packet d p;
          mret (p, has_start)
        else mret (p, has_start));
      if en : bool then mret (q, p, timestamp, has_start, true)
      else fua_demux q false has_start timestamp p
  end.

Definition DemuxFua (p : Media_Packet) (timestamp : Z) (h : PackHandleH264) : outcome (bool * Media_Packet * Z * PackHandleH264) :=
  '(q, p, timestamp, has_start, has_end) ← fua_demux (packets_queue_ h) true false timestamp p;
  mret (has_start && has_end, p, timestamp, set_queue q h).

(** The loop of [ParseStapAOffsets]. *)
Fixpoint stap_offsets (fuel : nat) (p : bytes) (left_len offset : Z) : outcome (option (list Z)) :=
  match fuel with
  | O => Fault OutOfFuel
  | S fuel =>
      if 0 <? left_len then
        if left_len <? 2 then mret None
        else
          nalu_len ← Read2Bytes p;
          let p := drop 2 p in
          let left_len := left_len - 2 in
          if left_len <? nalu_len then mret None
          else
            r ← stap_offsets fuel (drop (Z.to_nat nalu_len) p) (left_len - nalu_len) (offset + (H264_STAPA_FIELD_SIZE + nalu_len));
            mret (match r with Some l => Some (offset + H264_STAPA_FIELD_SIZE :: l) | None => None end)
      else mret (Some [])
  end.
Definition ParseStapAOffsets (data : bytes) (data_len : Z) : outcome (option (list Z)) :=
  let offset := 1 in
  stap_offsets (S (Z.to_nat data_len)) (drop 1 data) (u64 (data_len - offset)) offset.

(** The loop of [DemuxStapA] over the offsets, the end offset last. *)
Fixpoint stap_demux (payload_data : bytes) (dts : Z) (offsets : list Z) (h : PackHandleH264) : outcome (bool * PackHandleH264) :=
  match offsets with
  | start_offset :: ((next :: _) as rest) =>
      let end_offset := u64 (next - H264_STAPA_FIELD_SIZE) in
      if u64 (end_offset - start_offset) <? 1 then mret (false, h)
      else
        p ← Media_Packet_len (4 + end_offset - start_offset + 1024);
        p ← append_packet NAL_START_CODE p;
        d ← read_range payload_data start_offset (end_offset - start_offset);
        p ← append_packet d p;
        b ← payload_data.[start_offset];
        stap_demux payload_data dts rest (MediaPacketOutput (describe (Z.land b 0x1f) dts p) h)
  | _ => mret (true, h)
  end.

Definition DemuxStapA (i : Info) (h : PackHandleH264) : outcome (bool * PackHandleH264) :=
  let payload_data := payload_ptr (i_pkt i) in
  let payload_length := payload_len_ (i_pkt i) in
  if payload_length <=? 1 + H264_STAPA_FIELD_SIZE then mret (false, h)
  else
    r ← ParseStapAOffsets payload_data payload_length;
    match r with
    | None => mret (false, h)
    | Some offsets =>
        dts ← GetTimestamp (i_pkt i);
        stap_demux payload_data dts (offsets ++ [payload_length + H264_STAPA_FIELD_SIZE]) h
    end.

(** The branch of a whole NAL unit. *)
Definition input_single (nal_type : Z) (i : Info) (h : PackHandleH264) : outcome PackHandleH264 :=
  dts ← GetTimestamp (i_pkt i);
  p ← Media_Packet_len (4 + payload_len_ (i_pkt i) + 1024);
  p ← append_packet NAL_START_CODE p;
  d ← read_range (payload_ptr (i_pkt i)) 0 (payload_len_ (i_pkt i));
  p ← append_packet d p;
  mret (MediaPacketOutput (describe nal_type dts p) h).

(** The branch of a fragment. *)
Definition input_fua (now_ms : Z) (i : Info) (h : PackHandleH264) : outcome PackHandleH264 :=
  '(start, en) ← GetStartEndBit (i_pkt i);
  if (start && en : bool) then mret (ReportLost now_ms i (ResetRtpFua h))
  else
    let h := if start : bool then set_queue [] (set_flags start (end_flag_ h) h) else h in
    if en && negb (start_flag_ h) then mret (ReportLost now_ms i (ResetRtpFua h))
    else
      let h := if en : bool then set_flags (start_flag_ h) true h else h in
      let h := set_queue (packets_queue_ h ++ [i]) h in
      if start_flag_ h && end_flag_ h then
        p ← Media_Packet_len (50 * 1024);
        '(ok, p, dts, h) ← DemuxFua p 0 h;
        h ← (if ok : bool then
               b ← (Data (buffer_ptr_ p)).[4];
               mret (MediaPacketOutput (describe (Z.land b 0x1f) dts p) h)
             else mret (ReportLost now_ms i h));
        mret (set_flags false false h)
      else mret (CheckFuaTimeout now_ms h).

(** What is done with a packet that follows the last one. *)
Definition input_payload (now_ms : Z) (i : Info) (h : PackHandleH264) : outcome PackHandleH264 :=
  b ← (payload_ptr (i_pkt i)).[0];
  let nal_type := Z.land b 0x1f in
  if (1 <=? nal_type) && (nal_type <=? 23) then input_single nal_type i h
  else if nal_type =? 28 then input_fua now_ms i h
  else if nal_type =? 24 then
    '(ret, h) ← DemuxStapA i h;
    mret (if ret : bool then h else ReportLost now_ms i h)
  else mret h.

Definition InputRtpPacket (now_ms : Z) (i : Info) (h : PackHandleH264) : outcome PackHandleH264 :=
  if negb (p_init_flag_ h) then input_payload now_ms i (set_init (extend_seq_ i) h)
  else if negb (last_extend_seq_ h + 1 =? extend_seq_ i) then
    mret (set_init (extend_seq_ i) (ReportLost now_ms i (set_flags false false (set_queue [] h))))
  else input_payload now_ms i (set_init (extend_seq_ i) h).
End pack.
