(* ===== verification/PackH264Roundtrip.v ===== *)
(** * [PackH264Roundtrip]: NAL units through RTP and back

    What [RtpPack] makes of NAL units, [PackH264] turns back into them: a NAL unit in
    one packet, several in one (STAP-A), one in several (FU-A).  The packets may be
    any that carry these payloads, as copied, sent and parsed again. *)
From S2P Require Import Prelude ByteStream DataBuffer Media RtpPacket Rtx RtpClone Jitter RtpPack PackH264.

Section roundtrip.
Context `{Alloc : Allocator}.

(** A packet with number [seq], timestamp [ts], arrival time [ms] and payload [d]. *)
Definition info_carries (seq ts ms : Z) (d : bytes) (i : Info) : Prop :=
  extend_seq_ i = seq /\ GetTimestamp (i_pkt i) = Done ts /\ local_ms_ (i_pkt i) = ms /\
  payload_len_ (i_pkt i) = zlen d /\ exists behind, payload_ptr (i_pkt i) = d ++ behind.

(** The handler expects number [seq] next. *)
Definition expects (seq : Z) (h : PackHandleH264) : Prop := p_init_flag_ h = false \/ last_extend_seq_ h + 1 = seq.

(** The media packet of a NAL unit. *)
Definition video_packet (nalu : bytes) (ts : Z) (p : Media_Packet) : Prop :=
  exists hdr body, nalu = hdr :: body /\ wf (buffer_ptr_ p) /\ contents (buffer_ptr_ p) = NAL_START_CODE ++ nalu /\
    av_type_ p = MEDIA_VIDEO_TYPE /\ codec_type_ p = MEDIA_CODEC_H264 /\ fmt_type_ p = MEDIA_FORMAT_RAW /\
    dts_ p = ts /\ pts_ p = ts /\
    is_seq_hdr_ p = (Z.land hdr 0x1f =? kAvcNaluTypeSPS) || (Z.land hdr 0x1f =? kAvcNaluTypePPS) /\
    is_key_frame_ p = (Z.land hdr 0x1f =? kAvcNaluTypeIDR).

Lemma describe_video hdr body ts p :
  wf (buffer_ptr_ p) -> contents (buffer_ptr_ p) = NAL_START_CODE ++ hdr :: body ->
  video_packet (hdr :: body) ts (describe (Z.land hdr 0x1f) ts p).
Proof.
  intros Hwf Hc. exists hdr, body. split; [done|]. unfold describe, kAvcNaluTypeSPS, kAvcNaluTypePPS, kAvcNaluTypeIDR.
  destruct (Z.eqb_spec (Z.land hdr 0x1f) 7) as [->|]; [by split_and!|].
  destruct (Z.eqb_spec (Z.land hdr 0x1f) 8) as [->|]; [by split_and!|]. cbn [orb].
  by destruct (Z.land hdr 0x1f =? 5); split_and!.
Qed.

(** A new packet, and what is appended to it. *)
Lemma new_packet n : 200 <= n < 2 ^ 31 - 200 ->
  exists p, Media_Packet_len n = Done p /\ wf (buffer_ptr_ p) /\ contents (buffer_ptr_ p) = [] /\
    start_ (buffer_ptr_ p) = PRE_RESERVE_HEADER_SIZE.
Proof.
  intros Hn. unfold Media_Packet_len. destruct (DataBuffer_new_spec n Hn) as (b & -> & Hb). simpl_m. by eexists.
Qed.

Definition growing (c : bytes) (p : Media_Packet) : Prop :=
  wf (buffer_ptr_ p) /\ contents (buffer_ptr_ p) = c /\ start_ (buffer_ptr_ p) = PRE_RESERVE_HEADER_SIZE.

Lemma append_growing c d p : growing c p -> zlen c + zlen d <= max_queue ->
  exists p', append_packet d p = Done p' /\ growing (c ++ d) p'.
Proof.
  intros (Hwf & Hc & Hst) Hl. destruct (append_packet_spec d p Hwf Hst) as (b & -> & Hb & Hcb & Hstb); [by rewrite Hc|].
  eexists. split; [done|]. split_and!; [done|cbn; by rewrite Hcb, Hc|done].
Qed.

(** ** A NAL unit in one packet *)

Lemma InputRtpPacket_expected now i h : expects (extend_seq_ i) h ->
  InputRtpPacket now i h = input_payload now i (set_init (extend_seq_ i) h).
Proof.
  unfold InputRtpPacket. intros [->| ->]; [done|]. rewrite Z.eqb_refl. by destruct (p_init_flag_ h).
Qed.

Lemma single_nalu seq ts ms hdr body now i h :
  expects seq h -> info_carries seq ts ms (hdr :: body) i -> 1 <= Z.land hdr 0x1f <= 23 ->
  zlen (hdr :: body) <= 2 ^ 30 ->
  exists p, InputRtpPacket now i h = Done (MediaPacketOutput p (set_init seq h)) /\ video_packet (hdr :: body) ts p.
Proof.
  intros He (Hseq & Hts & _ & Hlen & behind & Hp) Ht Hl. rewrite InputRtpPacket_expected by (by rewrite Hseq).
  rewrite Hseq. unfold input_payload. rewrite Hp. change (rd _ 0) with (Done hdr). simpl_m.
  rewrite (proj2 (Z.leb_le _ _)), (proj2 (Z.leb_le _ _)) by lia. cbn [andb]. unfold input_single. rewrite Hts, Hlen. simpl_m.
  pose proof (zlen_nonneg (hdr :: body)). destruct (new_packet (4 + zlen (hdr :: body) + 1024)) as (p0 & -> & Hp0); [lia|]. simpl_m.
  destruct (append_growing [] NAL_START_CODE p0) as (p1 & -> & Hp1); [done|by vm_compute|]. simpl_m.
  rewrite Hp, read_range_app by done. simpl_m.
  destruct (append_growing _ (hdr :: body) p1 Hp1) as (p2 & -> & Hwf & Hc & _); [change (zlen ([] ++ NAL_START_CODE)) with 4; unfold max_queue; lia|].
  simpl_m. eexists. split; [reflexivity|]. by apply describe_video.
Qed.

(** ** Several NAL units in one packet *)

Definition put_out (ps : list Media_Packet) (h : PackHandleH264) : PackHandleH264 := fold_left (fun h p => MediaPacketOutput p h) ps h.

(** Where the units of a STAP-A payload start, the end offset last. *)
Fixpoint stap_starts (off : Z) (ds : list bytes) : list Z :=
  match ds with [] => [] | d :: ds => off + 2 :: stap_starts (off + (2 + zlen d)) ds end.

Definition units (ds : list bytes) : bytes := concat (map stap_unit ds).

Lemma units_bounds ds : Forall (fun d => zlen d <= zlen (units ds)) ds.
Proof.
  unfold units. induction ds as [|d ds IH]; [constructor|]. cbn [map concat]. rewrite zlen_app, zlen_stap_unit.
  pose proof (zlen_nonneg (concat (map stap_unit ds))). pose proof (zlen_nonneg d). constructor; [lia|].
  eapply Forall_impl; [exact IH|]. cbn. lia.
Qed.

Lemma units_count ds : Z.of_nat (length ds) <= zlen (units ds).
Proof.
  unfold units. induction ds as [|d ds IH]; [done|]. cbn [map concat length]. rewrite zlen_app, zlen_stap_unit.
  pose proof (zlen_nonneg d). lia.
Qed.

Lemma stap_offsets_units ds behind off fuel :
  Forall (fun d => zlen d < 2 ^ 16) ds -> (length ds < fuel)%nat ->
  stap_offsets fuel (units ds ++ behind) (zlen (units ds)) off = Done (Some (stap_starts off ds)).
Proof.
  intros Hd. revert off fuel. induction Hd as [|d ds Hd _ IH]; intros off [|fuel] Hf; cbn [length] in Hf; [lia|done|lia|].
  unfold units in *. cbn [stap_offsets map concat stap_starts]. set (us := concat (map stap_unit ds)) in *.
  pose proof (zlen_nonneg d). pose proof (zlen_nonneg us). rewrite zlen_app, zlen_stap_unit.
  rewrite (proj2 (Z.ltb_lt 0 _)), (proj2 (Z.ltb_ge _ 2)) by lia. unfold stap_unit. rewrite <- !app_assoc.
  rewrite Read2Bytes_Write2Bytes, u16_small by lia. simpl_m.
  change (drop 2 (Write2Bytes (zlen d) ++ ?x)) with x. rewrite (proj2 (Z.ltb_ge _ _)) by lia. rewrite drop_zlen_app.
  replace (2 + zlen d + zlen us - 2 - zlen d) with (zlen us) by lia. rewrite IH by lia. simpl_m. done.
Qed.

Lemma stap_demux_cons payload_data dts start_offset next rest h :
  stap_demux payload_data dts (start_offset :: next :: rest) h =
  let end_offset := u64 (next - H264_STAPA_FIELD_SIZE) in
  if u64 (end_offset - start_offset) <? 1 then mret (false, h)
  else
    p ← Media_Packet_len (4 + end_offset - start_offset + 1024);
    p ← append_packet NAL_START_CODE p;
    d ← read_range payload_data start_offset (end_offset - start_offset);
    p ← append_packet d p;
    b ← payload_data.[start_offset];
    stap_demux payload_data dts (next :: rest) (MediaPacketOutput (describe (Z.land b 0x1f) dts p) h).
Proof. done. Qed.

Lemma stap_demux_units ts ds pre behind h :
  Forall (fun d => 1 <= zlen d) ds -> zlen pre + zlen (units ds) < 2 ^ 20 ->
  exists ps, Forall2 (fun d p => video_packet d ts p) ds ps /\
    stap_demux (pre ++ units ds ++ behind) ts (stap_starts (zlen pre) ds ++ [zlen pre + zlen (units ds) + 2]) h = Done (true, put_out ps h).
Proof.
  intros Hd. revert pre h. induction Hd as [|d ds Hd Hds IH]; intros pre h Hu; [by exists []|].
  unfold units in *. cbn [map concat stap_starts app] in *. set (us := concat (map stap_unit ds)) in *.
  rewrite zlen_app, zlen_stap_unit in *. pose proof (zlen_nonneg pre). pose proof (zlen_nonneg us).
  assert (exists next rest, stap_starts (zlen pre + (2 + zlen d)) ds ++ [zlen pre + (2 + zlen d + zlen us) + 2] = next :: rest /\
    next = zlen pre + (2 + zlen d) + 2) as (next & rest & Hnext & Hn).
  { destruct ds as [|d' ds']; [|by eexists _, _]. eexists _, _. split; [reflexivity|]. change (zlen us) with 0. lia. }
  rewrite Hnext, stap_demux_cons, <- Hnext, Hn. unfold H264_STAPA_FIELD_SIZE. cbn zeta. clear Hnext Hn next rest.
  rewrite !u64_small by (rewrite ?u64_small; lia). rewrite (proj2 (Z.ltb_ge _ 1)) by lia.
  destruct (new_packet (4 + (zlen pre + (2 + zlen d) + 2 - 2) - (zlen pre + 2) + 1024)) as (p0 & -> & Hp0); [lia|]. simpl_m.
  destruct (append_growing [] NAL_START_CODE p0) as (p1 & -> & Hp1); [done|by vm_compute|]. simpl_m.
  set (l := Write2Bytes (zlen d)). assert (zlen (pre ++ l) = zlen pre + 2) as Hl by (by rewrite zlen_app).
  assert (pre ++ (stap_unit d ++ us) ++ behind = (pre ++ l) ++ d ++ us ++ behind) as -> by (unfold stap_unit; by rewrite <- !app_assoc).
  replace (zlen pre + (2 + zlen d) + 2 - 2 - (zlen pre + 2)) with (zlen d) by lia. rewrite <- Hl, read_range_mid. simpl_m.
  destruct (append_growing _ d p1 Hp1) as (p2 & -> & Hwf & Hc & _); [change (zlen ([] ++ NAL_START_CODE)) with 4; unfold max_queue; lia|].
  simpl_m. destruct d as [|hdr body]; [change (zlen (@nil Z)) with 0 in Hd; lia|].
  change ((hdr :: body) ++ us ++ behind) with (hdr :: body ++ us ++ behind). rewrite rd_mid. simpl_m. set (d := hdr :: body) in *.
  change ((pre ++ l) ++ hdr :: body ++ us ++ behind) with ((pre ++ l) ++ d ++ us ++ behind).
  set (q := describe _ _ _). set (h' := MediaPacketOutput q h). destruct (IH (pre ++ stap_unit d) h') as (ps & Hps & Hrun); [rewrite zlen_app, zlen_stap_unit; fold us; lia|].
  exists (q :: ps). split; [constructor; [by apply describe_video|exact Hps]|]. change (put_out (q :: ps) h) with (put_out ps h'). rewrite <- Hrun.
  fold us. rewrite zlen_app, zlen_stap_unit. unfold stap_unit at 1. fold l. rewrite <- !app_assoc.
  by replace (zlen pre + (2 + zlen d) + zlen us + 2) with (zlen pre + (2 + zlen d + zlen us) + 2) by lia.
Qed.

Lemma stap_nalus seq ts ms hdr ds now i h :
  expects seq h -> info_carries seq ts ms (stap_payload hdr ds) i -> is_byte hdr -> ds <> [] -> Forall (fun d => 1 <= zlen d) ds ->
  zlen (stap_payload hdr ds) <= RTP_PACKET_MAX_SIZE ->
  exists ps, InputRtpPacket now i h = Done (put_out ps (set_init seq h)) /\ Forall2 (fun d p => video_packet d ts p) ds ps.
Proof.
  intros He (Hseq & Hts & _ & Hlen & behind & Hp) Hh Hne Hds Hl. rewrite InputRtpPacket_expected by (by rewrite Hseq).
  rewrite Hseq. unfold input_payload. rewrite Hp. unfold stap_payload in *. fold (units ds) in *.
  set (x := indicator hdr kStapA) in *. change (rd _ 0) with (Done x). simpl_m.
  assert (Z.land x 0x1f = 24) as ->.
  { apply Z.eqb_eq. by apply (byte_all (fun b => Z.land (indicator b kStapA) 0x1f =? 24)). }
  change ((1 <=? 24) && (24 <=? 23)) with false. cbn iota. change (24 =? 28) with false. change (24 =? 24) with true. cbn iota.
  unfold DemuxStapA, H264_STAPA_FIELD_SIZE. rewrite Hlen, Hp. rewrite zlen_app in *. change (zlen [x]) with 1 in *.
  pose proof (units_bounds ds) as Hb. destruct ds as [|d ds]; [done|]. pose proof Hds as Hds'. apply Forall_cons in Hds' as [Hd1 _].
  assert (4 <= 1 + zlen (units (d :: ds))) as H4.
  { unfold units. cbn [map concat]. rewrite zlen_app, zlen_stap_unit. pose proof (zlen_nonneg (concat (map stap_unit ds))). lia. }
  set (us := units (d :: ds)) in *. rewrite (proj2 (Z.leb_gt _ _)) by lia. unfold ParseStapAOffsets. rewrite u64_small by (unfold RTP_PACKET_MAX_SIZE in Hl; lia).
  replace (1 + zlen us - 1) with (zlen us) by lia. change (drop 1 (([x] ++ us) ++ behind)) with (us ++ behind).
  pose proof (stap_offsets_units (d :: ds) behind 1 (S (Z.to_nat (1 + zlen us)))) as Hoff. fold us in Hoff.
  rewrite Hoff; [|eapply Forall_impl; [exact Hb|]; intros y Hy; cbn beta in Hy; fold us in Hy; unfold RTP_PACKET_MAX_SIZE in *; lia|].
  - simpl_m. rewrite Hts. simpl_m. destruct (stap_demux_units ts (d :: ds) [x] behind (set_init seq h)) as (ps & Hps & Hrun).
    + done.
    + change (zlen [x]) with 1. fold us. unfold RTP_PACKET_MAX_SIZE in Hl. lia.
    + exists ps. split; [|done]. change (zlen [x]) with 1 in Hrun. fold us in Hrun. rewrite <- app_assoc, Hrun. done.
  - pose proof (units_count (d :: ds)) as Hc. fold us in Hc. lia.
Qed.

(** ** A NAL unit in several packets *)

Fixpoint inputs (l : list (Z * Info)) (h : PackHandleH264) : outcome PackHandleH264 :=
  match l with
  | [] => mret h
  | x :: l => h ← InputRtpPacket x.1 x.2 h; inputs l h
  end.

Fixpoint numbered (seq : Z) (l : list (Z * Info)) : Prop :=
  match l with [] => True | x :: l => extend_seq_ x.2 = seq /\ numbered (seq + 1) l end.

(** A payload of fragment flags [f] and [e] with the piece [d]. *)
Definition piece (hdr : Z) (f e : bool) (d : bytes) : bytes := [indicator hdr kFuA; fu_header hdr f e] ++ d.

Lemma fu_bits hdr f e : is_byte hdr ->
  (Z.land (fu_header hdr f e) 0x80 =? 0) = negb f /\ (Z.land (fu_header hdr f e) 0x40 =? 0) = negb e /\
  Z.lor (Z.land (indicator hdr kFuA) 0xe0) (Z.land (fu_header hdr f e) 0x1f) = hdr /\ Z.land (indicator hdr kFuA) 0x1f = 28.
Proof.
  intros Hb. pose proof (byte_all (fun b => (eqb (Z.land (fu_header b f e) 0x80 =? 0) (negb f) &&
    eqb (Z.land (fu_header b f e) 0x40 =? 0) (negb e)) &&
    ((Z.lor (Z.land (indicator b kFuA) 0xe0) (Z.land (fu_header b f e) 0x1f) =? b) && (Z.land (indicator b kFuA) 0x1f =? 28))) hdr) as H.
  assert (forall b : bool, b = true -> b) as Ht by (by intros [] ?).
  destruct (andb_prop _ _ (H ltac:(by destruct f, e) Hb)) as [[H1 H2]%andb_prop [H3 H4]%andb_prop].
  split_and!; [by apply eqb_prop|by apply eqb_prop|by apply Z.eqb_eq|by apply Z.eqb_eq].
Qed.

Lemma piece_bits hdr f e d seq ts ms i : is_byte hdr -> info_carries seq ts ms (piece hdr f e d) i ->
  GetStartEndBit (i_pkt i) = Done (f, e) /\ (payload_ptr (i_pkt i)).[0] = Done (indicator hdr kFuA) /\
  (payload_ptr (i_pkt i)).[1] = Done (fu_header hdr f e) /\
  (zlen d < 2 ^ 63 -> read_range (payload_ptr (i_pkt i)) 2 (u64 (payload_len_ (i_pkt i) - 2)) = Done d).
Proof.
  intros Hh (_ & _ & _ & Hlen & behind & Hp). rewrite Hp, Hlen. unfold piece in *. destruct (fu_bits hdr f e Hh) as (H1 & H2 & _).
  split_and!; [|done|done|].
  - unfold GetStartEndBit. rewrite Hp. change (rd _ 1) with (Done (fu_header hdr f e)). simpl_m. rewrite H1, H2. by destruct f, e.
  - intros Hd. pose proof (zlen_nonneg d). rewrite zlen_app. set (xy := [_; _]). change (zlen xy) with 2.
    replace (2 + zlen d - 2) with (zlen d) by lia. rewrite u64_small, <- app_assoc by lia. change 2 with (zlen xy). apply read_range_mid.
Qed.

(** The flags of a fragment are those of its place. *)
Lemma fragments_place hdr body sizes first l1 x l2 :
  fragments hdr body sizes first = l1 ++ x :: l2 ->
  exists d, x.2 = piece hdr (first && bool_decide (l1 = [])) (bool_decide (l2 = [])) d.
Proof.
  revert body first l1. induction sizes as [|size rest IH]; intros body first l1; cbn [fragments]; [by destruct l1|].
  destruct l1 as [|y l1]; cbn [app]; intros [= <- Hl].
  - rewrite <- Hl. eexists. cbn [snd]. unfold piece. rewrite bool_decide_eq_true_2, andb_true_r by done. do 3 f_equal. by destruct rest.
  - destruct (IH _ _ _ Hl) as (d & ->). exists d. rewrite andb_false_l. by rewrite (bool_decide_eq_false_2 (_ :: l1 = [])), andb_false_r by done.
Qed.

Lemma zsum_nonneg sizes : Forall (fun s => 1 <= s <= kPayloadMaxSize) sizes -> 0 <= zsum sizes.
Proof. induction 1; cbn; lia. Qed.

Lemma fua_demux_fragments hdr ts body sizes first l t0 c p :
  is_byte hdr -> Forall (fun s => 1 <= s <= kPayloadMaxSize) sizes -> sizes <> [] -> zsum sizes = zlen body ->
  Forall2 (fun x i => exists seq ms, info_carries seq ts ms x.2 i) (fragments hdr body sizes first) l ->
  growing c p -> zlen c + zlen body + (if first then 5 else 0) <= max_queue ->
  exists p', fua_demux l first (negb first) t0 p = Done ([], p', ts, true, true) /\
    growing (c ++ (if first then NAL_START_CODE ++ [hdr] else []) ++ body) p'.
Proof.
  intros Hh Hs. revert body first l t0 c p. induction Hs as [|size rest Hsize Hrest IH]; intros body first l t0 c p Hne Hsum His Hp Hroom; [done|].
  cbn [fragments] in His. set (last := match rest with [] => true | _ => false end) in *. set (d := take (Z.to_nat size) body) in *.
  apply Forall2_cons_inv_l in His as (i & l' & (seq & ms & Hi) & His & ->). cbn [snd zsum] in *. pose proof (zsum_nonneg rest Hrest).
  assert (zlen d = size) as Hd by (apply zlen_take; lia). fold (piece hdr first last d) in Hi. unfold kPayloadMaxSize in Hsize.
  destruct (piece_bits _ _ _ _ _ _ _ _ Hh Hi) as (Hse & H0 & H1 & Hrd). destruct Hi as (_ & Hts & _). unfold max_queue in Hroom. pose proof (zlen_nonneg c).
  cbn [fua_demux]. rewrite Hts. simpl_m. rewrite Hse. simpl_m. rewrite H0, H1, Hrd by lia. simpl_m.
  assert (exists p2, (if first then
      if first then p0 ← append_packet NAL_START_CODE p;
        p0 ← append_packet [Z.lor (Z.land (indicator hdr kFuA) 224) (Z.land (fu_header hdr first last) 31)] p0;
        p0 ← append_packet d p0; Done (p0, true)
      else Done (p, negb first)
    else if negb first then p0 ← append_packet d p; Done (p0, negb first) else Done (p, negb first)) = Done (p2, true) /\
    growing (c ++ (if first then NAL_START_CODE ++ [hdr] else []) ++ d) p2) as (p2 & -> & Hp2).
  { destruct first; cbn iota in Hroom; cbn [negb].
    - destruct (append_growing c NAL_START_CODE p Hp) as (q1 & -> & Hq1); [unfold max_queue; change (zlen NAL_START_CODE) with 4; lia|]. simpl_m.
      destruct (fu_bits hdr true last Hh) as (_ & _ & -> & _).
      destruct (append_growing _ [hdr] q1 Hq1) as (q2 & -> & Hq2); [rewrite zlen_app; unfold max_queue; change (zlen NAL_START_CODE) with 4; change (zlen [hdr]) with 1; lia|]. simpl_m.
      destruct (append_growing _ d q2 Hq2) as (q3 & -> & Hq3); [rewrite !zlen_app; unfold max_queue; change (zlen NAL_START_CODE) with 4; change (zlen [hdr]) with 1; lia|].
      exists q3. split; [done|]. rewrite <- !app_assoc in Hq3. rewrite <- !app_assoc. exact Hq3.
    - destruct (append_growing c d p Hp) as (q1 & -> & Hq1); [unfold max_queue; lia|]. by exists q1. }
  simpl_m. destruct rest as [|size2 rest]; subst last; cbn iota.
  - inversion_clear His. exists p2. cbn [zsum] in Hsum. split; [done|]. unfold d in Hp2. rewrite take_ge in Hp2; [done|unfold zlen in Hsum; lia].
  - destruct (IH (drop (Z.to_nat size) body) false l' ts (c ++ (if first then NAL_START_CODE ++ [hdr] else []) ++ d) p2) as (p3 & Hrun & Hp3); [done|rewrite zlen_drop; lia|done|exact Hp2| |].
    + rewrite !zlen_app, Hd, zlen_drop by lia. unfold max_queue. destruct first; cbn iota in Hroom; [change (zlen (NAL_START_CODE ++ [hdr])) with 5|change (zlen []) with 0]; lia.
    + cbn [negb] in Hrun. rewrite Hrun. exists p3. split; [done|]. cbn [app] in Hp3. unfold d in Hp3. rewrite <- !app_assoc, take_drop in Hp3. exact Hp3.
Qed.

(** ** The run over the fragments *)

Section run.
Context (hdr ts T : Z) (body : bytes) (sizes : list Z).
Context (Hh : is_byte hdr) (Hs : Forall (fun s => 1 <= s <= kPayloadMaxSize) sizes) (Hsum : zsum sizes = zlen body).
Context (Hroom : zlen body + 5 <= max_queue).

(** A fragment received: the arrivals are less than the timeout apart. *)
Definition arrives (x : Z * bytes) (a : Z * Info) : Prop :=
  T <= local_ms_ (i_pkt a.2) /\ a.1 < T + PACK_BUFFER_TIMEOUT /\ exists seq ms, info_carries seq ts ms x.2 a.2.

Lemma fua_timeout_fresh now q : now < T + PACK_BUFFER_TIMEOUT -> Forall (fun i => T <= local_ms_ (i_pkt i)) q -> fua_timeout now q = q.
Proof. intros Hn [|i q' Hi _]; [done|]. cbn. by rewrite (proj2 (Z.ltb_lt _ _)) by lia. Qed.

(** In the middle of the fragments: some have been queued. *)
Definition between (q : list Info) (h : PackHandleH264) : Prop :=
  start_flag_ h = true /\ end_flag_ h = false /\ packets_queue_ h = q.

(** The state after the last fragment. *)
Definition finished (p : Media_Packet) (seq : Z) (h : PackHandleH264) : PackHandleH264 :=
  mkPack true false false seq [] (p_report_lost_ts_ h) (p_log_ h ++ [PackMediaPacketOutput p]).

Lemma middle_fragment now i h f d seq ms :
  expects seq h -> info_carries seq ts ms (piece hdr f false d) i -> end_flag_ h = false ->
  (f = false -> start_flag_ h = true) -> T <= ms -> now < T + PACK_BUFFER_TIMEOUT ->
  Forall (fun i => T <= local_ms_ (i_pkt i)) (if f then [] else packets_queue_ h) ->
  exists h', InputRtpPacket now i h = Done h' /\ between ((if f then [] else packets_queue_ h) ++ [i]) h' /\
    p_init_flag_ h' = true /\ last_extend_seq_ h' = seq /\ p_log_ h' = p_log_ h /\ p_report_lost_ts_ h' = p_report_lost_ts_ h.
Proof.
  intros He Hi Hend Hf Hms Hnow Hq. destruct (piece_bits _ _ _ _ _ _ _ _ Hh Hi) as (Hse & H0 & _). destruct Hi as (Hseq & _ & Hl & _).
  rewrite InputRtpPacket_expected by (by rewrite Hseq). unfold input_payload. rewrite H0. simpl_m. destruct (fu_bits hdr f false Hh) as (_ & _ & _ & ->).
  change ((1 <=? 28) && (28 <=? 23)) with false. change (28 =? 28) with true. cbn iota. unfold input_fua. rewrite Hse. simpl_m. rewrite andb_false_r. cbn [andb].
  set (h1 := if f then _ else _). assert (start_flag_ h1 = true /\ end_flag_ h1 = false /\ packets_queue_ h1 = (if f then [] else packets_queue_ h) /\
    p_init_flag_ h1 = true /\ last_extend_seq_ h1 = extend_seq_ i /\ p_log_ h1 = p_log_ h /\ p_report_lost_ts_ h1 = p_report_lost_ts_ h) as (F1 & F2 & F3 & F4 & F5 & F6 & F7).
  { unfold h1. destruct f; cbn; [by split_and!|]. rewrite (Hf eq_refl). by split_and!. }
  clearbody h1. cbn [start_flag_ end_flag_ set_queue]. rewrite F1, F2. cbn [andb]. unfold CheckFuaTimeout. cbn [packets_queue_ set_queue]. rewrite F3.
  rewrite fua_timeout_fresh; [|done|apply Forall_app; split; [done|apply Forall_singleton; lia]].
  eexists. split; [reflexivity|]. unfold between. cbn. rewrite <- Hseq. by split_and!.
Qed.

Lemma last_fragment now i h d seq ms q :
  expects seq h -> info_carries seq ts ms (piece hdr false true d) i -> between q h ->
  Forall2 (fun x i => exists seq ms, info_carries seq ts ms x.2 i) (fragments hdr body sizes true) (q ++ [i]) ->
  exists p, InputRtpPacket now i h = Done (finished p seq h) /\ video_packet (hdr :: body) ts p.
Proof.
  intros He Hi (B1 & B2 & B3) Hall. destruct (piece_bits _ _ _ _ _ _ _ _ Hh Hi) as (Hse & H0 & _). destruct Hi as (Hseq & _).
  rewrite InputRtpPacket_expected by (by rewrite Hseq). unfold input_payload. rewrite H0. simpl_m. destruct (fu_bits hdr false true Hh) as (_ & _ & _ & ->).
  change ((1 <=? 28) && (28 <=? 23)) with false. change (28 =? 28) with true. cbn iota. unfold input_fua. rewrite Hse. simpl_m. cbn [andb negb].
  cbn [start_flag_ set_init set_flags set_queue end_flag_ packets_queue_]. rewrite B1. cbn [negb andb]. rewrite B3.
  destruct (new_packet (50 * 1024)) as (p0 & -> & Hp0); [by vm_compute|]. simpl_m.
  assert (sizes <> []) as Hne by (intros ->; cbn in Hall; inversion Hall as [Hx|]; by destruct q).
  destruct (fua_demux_fragments hdr ts body sizes true (q ++ [i]) 0 [] p0 Hh Hs Hne Hsum Hall Hp0) as (p & Hd & Hwf & Hc & _);
    [change (zlen (@nil Z)) with 0; lia|]. cbn [negb] in Hd. unfold DemuxFua. cbn [packets_queue_ set_queue]. rewrite Hd. simpl_m. cbn [andb].
  destruct (Data_contents _ Hwf) as (behind & ->). rewrite Hc. change (rd _ 4) with (Done hdr). simpl_m.
  eexists. split; [unfold finished; cbn; rewrite Hseq; reflexivity|]. apply describe_video; [done|]. by rewrite Hc.
Qed.
(** The number and place of an arrival. *)
Lemma arrival_place l1 x l2 a : fragments hdr body sizes true = l1 ++ x :: l2 ->
  (exists seq ms, info_carries seq ts ms x.2 a) ->
  exists ms d, info_carries (extend_seq_ a) ts ms (piece hdr (bool_decide (l1 = [])) (bool_decide (l2 = [])) d) a /\ ms = local_ms_ (i_pkt a).
Proof.
  intros Hp (seq & ms & Hi). destruct (fragments_place _ _ _ _ _ _ _ Hp) as (d & Hd). cbn [andb] in Hd. rewrite Hd in Hi.
  exists ms, d. pose proof Hi as (<- & _ & <- & _). by split.
Qed.

Lemma fua_rest l q h seq :
  q <> [] -> l <> [] -> between q h -> p_init_flag_ h = true -> last_extend_seq_ h + 1 = seq -> numbered seq l ->
  Forall (fun a => T <= local_ms_ (i_pkt a.2) /\ a.1 < T + PACK_BUFFER_TIMEOUT) l -> Forall (fun i => T <= local_ms_ (i_pkt i)) q ->
  Forall2 (fun x i => exists seq ms, info_carries seq ts ms x.2 i) (fragments hdr body sizes true) (q ++ map snd l) ->
  exists p, inputs l h = Done (finished p (seq + zlen l - 1) h) /\ video_packet (hdr :: body) ts p.
Proof.
  revert q h seq. induction l as [|[now i] l IH]; intros q h seq Hq Hne Hb Hinit Hlast Hnums Hl Hqt Hall; [done|].
  destruct Hnums as [Hseq Hnum]. cbn [fst snd map] in *.
  apply Forall_cons in Hl as [[Hms Hnow] Hl]. cbn [fst snd] in *. pose proof Hb as (B1 & B2 & B3).
  pose proof Hall as (l1 & l2' & Hl1 & Hl2 & Hsplit)%Forall2_app_inv_r. apply Forall2_cons_inv_r in Hl2 as (x & l2 & Hx & Hl2 & ->).
  destruct (arrival_place _ _ _ _ Hsplit Hx) as (ms & d & Hi & ->). rewrite Hseq in Hi.
  rewrite (bool_decide_eq_false_2 (l1 = [])) in Hi by (intros ->; inversion Hl1; by subst q). cbn [inputs fst snd].
  destruct l as [|a l].
  - inversion Hl2. subst l2. rewrite bool_decide_eq_true_2 in Hi by done.
    destruct (last_fragment now i h d seq _ q (or_intror Hlast) Hi Hb Hall) as (p & -> & Hv). simpl_m. exists p. split; [|done].
    cbn [inputs]. change (zlen [(now, i)]) with 1. replace (seq + 1 - 1) with seq by lia. done.
  - rewrite bool_decide_eq_false_2 in Hi by (intros ->; inversion Hl2).
    destruct (middle_fragment now i h false d seq _ (or_intror Hlast) Hi B2 (fun _ => B1) Hms Hnow) as (h1 & -> & Hb1 & Hi1 & Hl1' & Hlog & Hrep);
      [by rewrite B3|]. simpl_m. rewrite B3 in Hb1.
    destruct (IH (q ++ [i]) h1 (seq + 1)) as (p & Hrun & Hv); try done; [by destruct q|by rewrite Hl1'| |by rewrite <- app_assoc|].
    + apply Forall_app. split; [done|]. by apply Forall_singleton.
    + exists p. split; [|done]. rewrite Hrun. unfold finished. rewrite Hlog, Hrep, !zlen_cons.
      by replace (seq + 1 + (1 + zlen l) - 1) with (seq + (1 + (1 + zlen l)) - 1) by lia.
Qed.

Lemma fua_nalu l h seq :
  (2 <= length sizes)%nat -> expects seq h -> end_flag_ h = false -> numbered seq l ->
  Forall2 arrives (fragments hdr body sizes true) l ->
  exists p, inputs l h = Done (finished p (seq + zlen l - 1) h) /\ video_packet (hdr :: body) ts p.
Proof.
  intros H2 He Hend Hnum Hall.
  assert (Forall (fun a => T <= local_ms_ (i_pkt a.2) /\ a.1 < T + PACK_BUFFER_TIMEOUT) l) as Hl.
  { clear -Hall. induction Hall as [|x a xs l (? & ? & _)]; by constructor. }
  assert (Forall2 (fun x i => exists seq ms, info_carries seq ts ms x.2 i) (fragments hdr body sizes true) (map snd l)) as Hall'.
  { apply Forall2_fmap_r. eapply Forall2_impl; [exact Hall|]. by intros x a (_ & _ & ?). }
  assert (length l = length sizes) as Hlen.
  { rewrite <- (Forall2_length _ _ _ Hall). clear. generalize true. revert body. induction sizes as [|z zs IH]; intros b f; [done|]. cbn. f_equal. apply IH. }
  destruct l as [|[now i] l]; cbn in Hlen; [lia|]. cbn [map snd] in *. apply Forall_cons in Hl as [[Hms Hnow] Hl]. destruct Hnum as [Hseq Hnum].
  pose proof Hall' as Hall2. apply Forall2_cons_inv_r in Hall2 as (x & l2 & Hx & Hl2 & Hsplit). cbn [fst snd] in *.
  destruct (arrival_place [] _ _ _ Hsplit Hx) as (ms & d & Hi & ->). rewrite Hseq in Hi. rewrite (bool_decide_eq_true_2 ([] = [])) in Hi by done.
  rewrite bool_decide_eq_false_2 in Hi by (intros ->; inversion Hl2 as [Hx0|]; destruct l; [cbn in Hlen; lia|done]).
  destruct (middle_fragment now i h true d seq _ He Hi Hend ltac:(done) Hms Hnow) as (h1 & Hh1 & Hb1 & Hi1 & Hl1 & Hlog & Hrep); [constructor|].
  cbn [inputs fst snd]. rewrite Hh1. simpl_m. destruct (fua_rest l [i] h1 (seq + 1)) as (p & Hrun & Hv); try done.
  - destruct l; [cbn in Hlen; lia|done].
  - by rewrite Hl1.
  - by apply Forall_singleton.
  - exists p. split; [|done]. rewrite Hrun. unfold finished. rewrite Hlog, Hrep, zlen_cons. by replace (seq + 1 + zlen l - 1) with (seq + (1 + zlen l) - 1) by lia.
Qed.
End run.
End roundtrip.
