(* ===== verification/RtcpNack.v ===== *)
(** * [RtcpNack]: the feedback packet that asks for lost packets

    Models [src/net/rtprtcp/rtcpfb_nack.hpp].  The packet is its array [data], and
    the blocks of the list [nack_blocks_] are offsets into it. *)
From Stdlib Require Import Sorting.Sorted.
From stdpp Require Import sorting.
From S2P Require Import Prelude ByteStream DataBuffer RtpPacket.

Definition RTCP_RTPFB : Z := 205.
Definition FB_RTP_NACK : Z := 1.
Definition RTCP_DATA_SIZE : Z := 1500.
Definition FB_HEADERS_SIZE : Z := 12.     (* sizeof(RtcpFbCommonHeader) + sizeof(RtcpFbHeader) *)

Record RtcpFbNack := mkFbNack { fb_data : bytes; fb_data_len : Z; nack_blocks_ : list Z }.

(** The first four bytes: the bit fields [fmt], [padding] and [version], type and length. *)
Definition fb_common_header (fmt packet_type length : Z) (m : bytes) : outcome bytes :=
  b ← m.[0];
  m ← write_at m 0 [put_bits (put_bits (put_bits b 6 2 2) 5 1 0) 0 5 fmt; u8 packet_type];
  write_at m 2 (Write2Bytes length).

Section nack.
Context `{Alloc : Allocator}.

Definition RtcpFbNack_new (sender_ssrc media_ssrc : Z) : outcome RtcpFbNack :=
  m ← fb_common_header FB_RTP_NACK RTCP_RTPFB (FB_HEADERS_SIZE `quot` 4 - 1) (new_char RTCP_DATA_SIZE);
  m ← write_at m 4 (Write4Bytes sender_ssrc);
  m ← write_at m 8 (Write4Bytes media_ssrc);
  mret (mkFbNack m FB_HEADERS_SIZE []).

(** [bitmap |= 1 << (16 - (temp_seq - packet_id))] *)
Fixpoint bitmap_loop (packet_id : Z) (report_seqs : list Z) (bitmap : Z) : outcome Z :=
  match report_seqs with
  | [] => mret bitmap
  | temp_seq :: rest =>
      let shift := 16 - (temp_seq - packet_id) in
      if (0 <=? shift) && (shift <? 32) then bitmap_loop packet_id rest (u16 (Z.lor bitmap (Z.shiftl 1 shift)))
      else Fault BadShift
  end.

Definition InsertBlock (report_seqs : list Z) (n : RtcpFbNack) : outcome RtcpFbNack :=
  match report_seqs with
  | [] => Fault OutOfBounds
  | packet_id :: rest =>
      bitmap ← bitmap_loop packet_id rest 0;
      m ← write_at (fb_data n) (fb_data_len n) (Write2Bytes packet_id ++ Write2Bytes bitmap);
      let data_len := fb_data_len n + 4 in
      m ← write_at m 2 (Write2Bytes (u16 (data_len / 4 - 1)));
      mret (mkFbNack m data_len (nack_blocks_ n ++ [fb_data_len n]))
  end.

(** The loop of [InsertSeqList]; [report_seqs] are the numbers collected so far. *)
Fixpoint insert_seqs (seq_vec report_seqs : list Z) (n : RtcpFbNack) : outcome RtcpFbNack :=
  match seq_vec with
  | [] => match report_seqs with [] => mret n | _ => InsertBlock report_seqs n end
  | lost_seq :: seq_vec =>
      let report_seqs := report_seqs ++ [lost_seq] in
      if 16 <? lost_seq - hd 0 report_seqs then
        n ← InsertBlock report_seqs n; insert_seqs seq_vec [] n
      else insert_seqs seq_vec report_seqs n
  end.
Definition InsertSeqList (seq_vec : list Z) (n : RtcpFbNack) : outcome RtcpFbNack := insert_seqs seq_vec [] n.

(** The numbers of a bitmap: [for (bit_mask = ...; bit_mask != 0; bit_mask >>= 1, ++seq)]. *)
Fixpoint mask_loop (fuel : nat) (bit_mask seq : Z) : outcome (list Z) :=
  match fuel with
  | O => Fault OutOfFuel
  | S fuel =>
      if bit_mask =? 0 then mret []
      else
        l ← mask_loop fuel (Z.shiftr bit_mask 1) (u16 (seq + 1));
        mret (if negb (Z.land bit_mask 1 =? 0) then seq :: l else l)
  end.

Fixpoint lost_seqs (m : bytes) (blocks : list Z) : outcome (list Z) :=
  match blocks with
  | [] => mret []
  | block :: blocks =>
      seq ← Read2Bytes (drop (Z.to_nat block) m);
      bit_mask ← Read2Bytes (drop (Z.to_nat (block + 2)) m);
      l ← mask_loop 17 bit_mask (u16 (seq + 1));
      l' ← lost_seqs m blocks;
      mret (seq :: l ++ l')
  end.
Definition GetLostSeqs (n : RtcpFbNack) : outcome (list Z) := lost_seqs (fb_data n) (nack_blocks_ n).

Definition GetSenderSsrc (n : RtcpFbNack) : outcome Z := Read4Bytes (drop 4 (fb_data n)).
Definition GetMediaSsrc (n : RtcpFbNack) : outcome Z := Read4Bytes (drop 8 (fb_data n)).
Definition GetData (n : RtcpFbNack) : outcome bytes := read_range (fb_data n) 0 (fb_data_len n).

(** The offsets of the blocks of a packet of [data_len] bytes. *)
Fixpoint block_offsets (fuel : nat) (off data_len : Z) : outcome (list Z) :=
  match fuel with
  | O => Fault OutOfFuel
  | S fuel => if off <? data_len then l ← block_offsets fuel (off + 4) data_len; mret (off :: l) else mret []
  end.

Definition UpdateData (data : bytes) (len : Z) (n : RtcpFbNack) : outcome (bool * RtcpFbNack) :=
  if len <=? FB_HEADERS_SIZE then mret (false, n)
  else
    d ← read_range data 0 len;
    m ← write_at (fb_data n) 0 d;
    l ← block_offsets (S (Z.to_nat len)) FB_HEADERS_SIZE len;
    mret (true, mkFbNack m len (nack_blocks_ n ++ l)).

Definition RtcpFbNack_Parse (data : bytes) (len : Z) : outcome (option RtcpFbNack) :=
  if len <=? FB_HEADERS_SIZE then mret None
  else
    pkt ← RtcpFbNack_new 0 0;
    '(_, pkt) ← UpdateData data len pkt;
    mret (Some pkt).
End nack.

(** ** Reading the bitmap *)

(** The positions of the bits that are set, in order. *)
Fixpoint positions (n : nat) (mask : Z) : list Z :=
  match n with
  | O => []
  | S n => (if Z.odd mask then [0] else []) ++ map Z.succ (positions n (Z.shiftr mask 1))
  end.

Lemma positions_spec n mask k : k ∈ positions n mask <-> 0 <= k < Z.of_nat n /\ Z.testbit mask k = true.
Proof.
  revert mask k. induction n as [|n IH]; intros mask k; cbn [positions].
  { split; [intros []%elem_of_nil|lia]. }
  assert (k ∈ map Z.succ (positions n (Z.shiftr mask 1)) <-> 1 <= k < Z.of_nat (S n) /\ Z.testbit mask k = true) as Hs.
  { rewrite list_elem_of_fmap. split.
    - intros (j & -> & [Hj Hb]%IH). rewrite Z.shiftr_spec in Hb by lia. split; [lia|]. by rewrite <- Z.add_1_r.
    - intros [Hk Hb]. exists (Z.pred k). split; [lia|]. apply IH. rewrite Z.shiftr_spec by lia.
      replace (Z.pred k + 1) with k by lia. split; [lia|done]. }
  rewrite elem_of_app, Hs, <- Z.bit0_odd. destruct (Z.testbit mask 0) eqn:E.
  - rewrite elem_of_cons, elem_of_nil. split; [intros [[->|[]]|[? ?]]; (split; [lia|done])|]. intros [Hk Hb].
    destruct (Z.eq_dec k 0) as [->|]; [by left; left|right; split; [lia|done]].
  - rewrite elem_of_nil. split; [intros [[]|[? ?]]; (split; [lia|done])|]. intros [Hk Hb]. right.
    split; [|done]. assert (k <> 0) by congruence. lia.
Qed.

Lemma sorted_succ l : StronglySorted Z.lt l -> StronglySorted Z.lt (map Z.succ l).
Proof.
  induction 1 as [|x l _ IH Hx]; cbn; constructor; [done|]. apply Forall_map. eapply Forall_impl; [exact Hx|]. cbn. lia.
Qed.

Lemma positions_sorted n mask : StronglySorted Z.lt (positions n mask).
Proof.
  revert mask. induction n as [|n IH]; intros mask; cbn [positions]; [constructor|].
  destruct (Z.odd mask); [|by apply sorted_succ]. constructor; [by apply sorted_succ|].
  apply Forall_map, Forall_forall. intros k [Hk _]%positions_spec. lia.
Qed.

Lemma sorted_same l l' : StronglySorted Z.lt l -> StronglySorted Z.lt l' -> (forall k, k ∈ l <-> k ∈ l') -> l = l'.
Proof.
  assert (forall l, StronglySorted Z.lt l -> NoDup l) as Hnd.
  { induction 1 as [|x l0 _ IH Hx]; constructor; [|done]. intros Hin. rewrite Forall_forall in Hx. specialize (Hx x Hin). lia. }
  intros Hl Hl' He. assert (AntiSymm (=) Z.lt) by (intros x y; lia). apply (StronglySorted_unique Z.lt); [done|done|].
  apply NoDup_Permutation; auto.
Qed.

Lemma mask_loop_positions n mask x : 0 <= mask < 2 ^ Z.of_nat n ->
  mask_loop (S n) mask (u16 x) = Done (map (fun k => u16 (x + k)) (positions n mask)).
Proof.
  revert mask x. induction n as [|n IH]; intros mask x Hm; cbn [mask_loop positions].
  { change (2 ^ Z.of_nat 0) with 1 in Hm. by rewrite (proj2 (Z.eqb_eq mask 0)) by lia. }
  destruct (Z.eqb_spec mask 0) as [->|Hne].
  - cbn [Z.odd app]. rewrite Z.shiftr_0_l. assert (positions n 0 = []) as ->; [|done].
    clear. induction n as [|n IH]; [done|]. cbn [positions Z.odd app]. by rewrite Z.shiftr_0_l, IH.
  - assert (u16 (u16 x + 1) = u16 (x + 1)) as -> by apply Zplus_mod_idemp_l.
    rewrite Nat2Z.inj_succ, Z.pow_succ_r in Hm by lia. fold (mask_loop (S n) (Z.shiftr mask 1) (u16 (x + 1))).
    assert (mask_loop (S n) (Z.shiftr mask 1) (u16 (x + 1)) = Done (map (fun k => u16 (x + 1 + k)) (positions n (Z.shiftr mask 1)))) as Hrec.
    { apply IH. rewrite Z.shiftr_div_pow2 by lia. change (2 ^ 1) with 2. div_lia. }
    cbn [mask_loop] in Hrec. rewrite Hrec. simpl_m. f_equal. rewrite map_app, map_map.
    assert (forall l, map (fun k => u16 (x + 1 + k)) l = map (fun k => u16 (x + Z.succ k)) l) as ->
      by (intros l; apply map_ext; intros k; f_equal; lia).
    assert (Z.land mask 1 = if Z.odd mask then 1 else 0) as -> by (change 1 with (Z.ones 1) at 1; rewrite Z.land_ones by lia; apply Zmod_odd).
    destruct (Z.odd mask); cbn; [|done]. by rewrite Z.add_0_r.
Qed.

(** ** Writing it *)

Lemma bitmap_loop_spec p tail b : 0 <= b < 2 ^ 16 -> Forall (fun s => p < s <= p + 16) tail ->
  exists b', bitmap_loop p tail b = Done b' /\ 0 <= b' < 2 ^ 16 /\
    forall k, 0 <= k -> Z.testbit b' k = true <-> Z.testbit b k = true \/ exists s, s ∈ tail /\ k = 16 - (s - p).
Proof.
  intros Hb Ht. revert b Hb. induction Ht as [|s tail Hs _ IH]; intros b Hb; cbn [bitmap_loop].
  { exists b. split_and!; [done|lia|lia|]. intros k _. split; [by left|]. intros [?|(s & []%elem_of_nil & _)]. done. }
  rewrite (proj2 (Z.leb_le _ _)), (proj2 (Z.ltb_lt _ _)) by lia. cbn [andb]. set (sh := 16 - (s - p)).
  assert (0 <= Z.shiftl 1 sh < 2 ^ 16) as Hsh.
  { rewrite Z.shiftl_1_l. split; [by apply Z.pow_nonneg|]. apply Z.pow_lt_mono_r; lia. }
  assert (u16 (Z.lor b (Z.shiftl 1 sh)) = Z.lor b (Z.shiftl 1 sh)) as Hu.
  { unfold u16. rewrite <- Z.land_ones, Z.land_lor_distr_l, !Z.land_ones, !Z.mod_small by lia. done. }
  rewrite Hu. destruct (IH (Z.lor b (Z.shiftl 1 sh))) as (b' & -> & Hb' & Hbits).
  { split; [|]; rewrite <- Hu; apply Z.mod_pos_bound; done. }
  exists b'. split_and!; [done|lia|lia|]. intros k Hk. rewrite Hbits by done.
  rewrite Z.lor_spec, orb_true_iff, Z.shiftl_1_l, Z.pow2_bits_eqb by lia. rewrite Z.eqb_eq. split.
  - intros [[?|<-]|(s' & Hs' & ->)]; [by left|right; exists s; split; [by left|done]|right; exists s'; split; [by right|done]].
  - intros [?|(s' & [->|Hs']%elem_of_cons & ->)]; [by left; left|by left; right|right; by exists s'].
Qed.

Section write.
Context `{Alloc : Allocator}.

Lemma fb_byte b : is_byte b -> put_bits (put_bits (put_bits b 6 2 2) 5 1 0) 0 5 FB_RTP_NACK = 0x81.
Proof.
  intros Hb. apply Z.eqb_eq. by apply (byte_all (fun b => put_bits (put_bits (put_bits b 6 2 2) 5 1 0) 0 5 FB_RTP_NACK =? 0x81)).
Qed.

(** A packet: its header with the length [l], the rest of what is filled, and what is behind. *)
Definition fb_packet (l filled behind : bytes) (blocks : list Z) : RtcpFbNack :=
  mkFbNack ([0x81; RTCP_RTPFB] ++ l ++ filled ++ behind) (4 + zlen filled) blocks.

Lemma new_cut n : 0 <= n <= RTCP_DATA_SIZE ->
  exists a c, new_char RTCP_DATA_SIZE = a ++ c /\ zlen a = n /\ zlen c = RTCP_DATA_SIZE - n /\ bytes_ok a.
Proof.
  intros Hn. exists (take (Z.to_nat n) (new_char RTCP_DATA_SIZE)), (drop (Z.to_nat n) (new_char RTCP_DATA_SIZE)).
  assert (zlen (new_char RTCP_DATA_SIZE) = RTCP_DATA_SIZE) as Hl by (by apply new_char_length).
  rewrite take_drop, zlen_take, zlen_drop, Hl by lia. split_and!; [done|done|done|]. apply Forall_take, new_char_bytes.
Qed.

Lemma RtcpFbNack_new_spec sender media : exists behind, zlen behind = RTCP_DATA_SIZE - 12 /\
  RtcpFbNack_new sender media = Done (fb_packet (Write2Bytes 2) (Write4Bytes sender ++ Write4Bytes media) behind []).
Proof.
  destruct (new_cut 12) as (a & behind & Hnew & Ha & Hb & Hok); [by vm_compute|]. exists behind. split; [done|].
  destruct a as [|a0 [|a1 [|a2 [|a3 a]]]]; try (unfold zlen in Ha; cbn in Ha; lia). rewrite !zlen_cons in Ha.
  assert (exists x y, a = x ++ y /\ zlen x = 4 /\ zlen y = 4) as (x & y & -> & Hx & Hy).
  { exists (take 4 a), (drop 4 a). rewrite take_drop. unfold zlen in *. rewrite length_take, length_drop. split_and!; [done|lia|lia]. }
  unfold RtcpFbNack_new, fb_common_header. rewrite Hnew. change (rd (_ ++ behind) 0) with (Done a0). simpl_m.
  rewrite fb_byte by (by apply Forall_cons in Hok as [? _]). change (u8 RTCP_RTPFB) with RTCP_RTPFB.
  change ((a0 :: a1 :: a2 :: a3 :: x ++ y) ++ behind) with ([] ++ [a0; a1] ++ ([a2; a3] ++ x ++ y) ++ behind).
  change (write_at ?m 0) with (write_at m (zlen (@nil Z))). rewrite write_at_mid by done. simpl_m.
  change ([] ++ [129; RTCP_RTPFB] ++ ([a2; a3] ++ x ++ y) ++ behind) with ([129; RTCP_RTPFB] ++ [a2; a3] ++ (x ++ y) ++ behind).
  change (FB_HEADERS_SIZE `quot` 4 - 1) with 2. change (write_at ?m 2 ?d) with (write_at m (zlen [129; RTCP_RTPFB]) d).
  rewrite write_at_mid by done. simpl_m. rewrite <- (app_assoc x).
  change ([129; RTCP_RTPFB] ++ Write2Bytes 2 ++ x ++ y ++ behind) with (([129; RTCP_RTPFB] ++ Write2Bytes 2) ++ x ++ y ++ behind).
  change (write_at ?m 4 ?d) with (write_at m (zlen ([129; RTCP_RTPFB] ++ Write2Bytes 2)) d). rewrite write_at_mid by (by rewrite Hx). simpl_m.
  rewrite (app_assoc _ (Write4Bytes sender)).
  change (write_at ?m 8 ?d) with (write_at m (zlen (([129; RTCP_RTPFB] ++ Write2Bytes 2) ++ Write4Bytes sender)) d).
  rewrite write_at_mid by (by rewrite Hy). simpl_m. unfold fb_packet. rewrite <- !app_assoc. done.
Qed.

Lemma InsertBlock_spec p tail l filled behind blocks :
  zlen l = 2 -> 4 <= zlen behind -> Forall (fun s => p < s <= p + 16) tail ->
  exists bitmap, 0 <= bitmap < 2 ^ 16 /\
    (forall k, 0 <= k -> Z.testbit bitmap k = true <-> exists s, s ∈ tail /\ k = 16 - (s - p)) /\
    InsertBlock (p :: tail) (fb_packet l filled behind blocks) =
    Done (fb_packet (Write2Bytes (u16 ((4 + zlen filled + 4) / 4 - 1))) (filled ++ Write2Bytes p ++ Write2Bytes bitmap) (drop 4 behind)
      (blocks ++ [4 + zlen filled])).
Proof.
  intros Hl Hb Ht. destruct (bitmap_loop_spec p tail 0) as (bitmap & Hbm & Hr & Hbits); [done|done|].
  set (len := u16 ((4 + zlen filled + 4) / 4 - 1)). exists bitmap. split_and!; [lia|lia| |].
  { intros k Hk. rewrite Hbits, Z.bits_0 by done. split; [intros [?|?]; done|by right]. }
  unfold InsertBlock. rewrite Hbm. simpl_m. set (n := fb_packet l filled behind blocks).
  change (fb_data n) with ([129; RTCP_RTPFB] ++ l ++ filled ++ behind). change (fb_data_len n) with (4 + zlen filled). change (nack_blocks_ n) with blocks.
  set (blk := Write2Bytes p ++ Write2Bytes bitmap).
  assert (4 + zlen filled = zlen ([129; RTCP_RTPFB] ++ l ++ filled)) as He by (rewrite !zlen_app, Hl; change (zlen [129; RTCP_RTPFB]) with 2; lia).
  assert (write_at ([129; RTCP_RTPFB] ++ l ++ filled ++ behind) (4 + zlen filled) blk =
    Done (([129; RTCP_RTPFB] ++ l ++ filled) ++ blk ++ drop 4 behind)) as ->.
  { rewrite He. replace ([129; RTCP_RTPFB] ++ l ++ filled ++ behind) with (([129; RTCP_RTPFB] ++ l ++ filled) ++ take 4 behind ++ drop 4 behind)
      by (by rewrite take_drop, <- !app_assoc).
    apply write_at_mid. unfold zlen in *. rewrite length_take. change (length blk) with 4%nat. lia. }
  simpl_m.
  rewrite <- !app_assoc. change (write_at ?m 2 ?d) with (write_at m (zlen [129; RTCP_RTPFB]) d).
  fold len. rewrite write_at_mid by done. simpl_m. unfold fb_packet. rewrite zlen_app, <- !app_assoc. change (zlen blk) with 4. by rewrite Z.add_assoc.
Qed.

Lemma insert_seqs_near collected seqs n :
  Forall (fun s => s - hd 0 (collected ++ seqs) <= 16) seqs ->
  insert_seqs seqs collected n = match collected ++ seqs with [] => mret n | l => InsertBlock l n end.
Proof.
  revert collected. induction seqs as [|s seqs IH]; intros collected Hall; [by rewrite app_nil_r; destruct collected|].
  apply Forall_cons in Hall as [Hs Hall]. cbn [insert_seqs].
  assert (hd 0 (collected ++ [s]) = hd 0 (collected ++ s :: seqs)) as -> by (by destruct collected).
  rewrite (proj2 (Z.ltb_ge _ _)) by lia. rewrite IH; [by rewrite <- app_assoc|]. by rewrite <- app_assoc.
Qed.

(** What is read from the one block of a packet. *)
Lemma lost_seqs_block pre p bitmap behind tail :
  zlen pre = 12 -> 0 <= p <= 65535 -> 0 <= bitmap < 2 ^ 16 -> StronglySorted Z.lt tail -> Forall (fun s => p < s <= p + 16) tail ->
  (forall k, 0 <= k -> Z.testbit bitmap k = true <-> exists s, s ∈ tail /\ k = 16 - (s - p)) ->
  lost_seqs (pre ++ (Write2Bytes p ++ Write2Bytes bitmap) ++ behind) [12] = Done (p :: rev (map (fun s => u16 (p + 17 - (s - p))) tail)).
Proof.
  intros Hpre Hp Hb Hsort Ht Hbits. cbn [lost_seqs]. rewrite <- (app_assoc (Write2Bytes p)), <- Hpre at 1. rewrite drop_zlen_app, Read2Bytes_Write2Bytes.
  simpl_m. assert (12 + 2 = zlen (pre ++ Write2Bytes p)) as -> by (by rewrite zlen_app, Hpre).
  rewrite <- (app_assoc (Write2Bytes p)), (app_assoc pre), drop_zlen_app, Read2Bytes_Write2Bytes. simpl_m. rewrite !(u16_small p), (u16_small bitmap) by lia.
  rewrite (mask_loop_positions 16) by exact Hb. simpl_m. rewrite app_nil_r. do 2 f_equal.
  assert (positions 16 bitmap = rev (map (fun s => 16 - (s - p)) tail)) as ->.
  - apply sorted_same; [apply positions_sorted| |].
    + clear -Hsort. induction Hsort as [|s tail _ IH Hs]; [constructor|]. cbn. apply StronglySorted_app_2; [|done|by repeat constructor].
      intros x y Hx [->|[]%elem_of_nil]%elem_of_cons. rewrite list_elem_of_In, <- in_rev, <- list_elem_of_In, list_elem_of_fmap in Hx.
      destruct Hx as (t & -> & Hin). rewrite Forall_forall in Hs. specialize (Hs t Hin). lia.
    + intros k. rewrite positions_spec. rewrite (list_elem_of_In (rev _)), <- in_rev, <- list_elem_of_In, list_elem_of_fmap. split.
      * intros [Hk Hbit]. apply Hbits in Hbit as (s & Hs & ->); [|lia]. by exists s.
      * intros (s & -> & Hs). rewrite Forall_forall in Ht. specialize (Ht s Hs). split; [lia|]. apply Hbits; [lia|]. by exists s.
  - rewrite <- !map_rev, map_map. apply map_ext. intros s. f_equal. lia.
Qed.

(** A packet of one block, as it is on the wire. *)
Definition nack_data (sender media p bitmap : Z) : bytes :=
  ([0x81; RTCP_RTPFB] ++ Write2Bytes 3 ++ Write4Bytes sender ++ Write4Bytes media) ++ Write2Bytes p ++ Write2Bytes bitmap.

Lemma nack_written sender media p tail : Forall (fun s => p < s <= p + 16) tail ->
  exists n bitmap, (n ← RtcpFbNack_new sender media; InsertSeqList (p :: tail) n) = Done n /\ 0 <= bitmap < 2 ^ 16 /\
    (forall k, 0 <= k -> Z.testbit bitmap k = true <-> exists s, s ∈ tail /\ k = 16 - (s - p)) /\
    GetData n = Done (nack_data sender media p bitmap) /\
    exists behind, fb_data n = nack_data sender media p bitmap ++ behind /\ nack_blocks_ n = [12].
Proof.
  intros Ht. destruct (RtcpFbNack_new_spec sender media) as (rest & Hrest & Hnew). unfold RTCP_DATA_SIZE in Hrest.
  destruct (InsertBlock_spec p tail (Write2Bytes 2) (Write4Bytes sender ++ Write4Bytes media) rest [] eq_refl ltac:(lia) Ht) as (bitmap & Hb & Hbits & Hins).
  eexists _, bitmap. split.
  { rewrite Hnew. simpl_m. unfold InsertSeqList. rewrite insert_seqs_near; [exact Hins|]. cbn [app hd].
    apply Forall_cons; split; [lia|]. eapply Forall_impl; [exact Ht|]. cbn. lia. }
  split; [done|]. split; [exact Hbits|]. change (Write2Bytes (u16 _)) with (Write2Bytes 3). unfold GetData, fb_packet, nack_data. cbn [fb_data fb_data_len nack_blocks_].
  split; [|exists (drop 4 rest); rewrite <- !app_assoc; done].
  rewrite <- !app_assoc. rewrite !(app_assoc _ _ (drop 4 rest)). apply read_range_app. done.
Qed.

Lemma nack_parsed sender media p bitmap tail behind :
  0 <= p <= 65535 -> 0 <= bitmap < 2 ^ 16 -> StronglySorted Z.lt tail -> Forall (fun s => p < s <= p + 16) tail ->
  (forall k, 0 <= k -> Z.testbit bitmap k = true <-> exists s, s ∈ tail /\ k = 16 - (s - p)) ->
  exists n, RtcpFbNack_Parse (nack_data sender media p bitmap ++ behind) 16 = Done (Some n) /\
    GetLostSeqs n = Done (p :: rev (map (fun s => u16 (p + 17 - (s - p))) tail)) /\
    GetSenderSsrc n = Done (u32 sender) /\ GetMediaSsrc n = Done (u32 media).
Proof.
  intros Hp Hb Hsort Ht Hbits. destruct (RtcpFbNack_new_spec 0 0) as (rest & Hrest & Hnew). unfold RTCP_DATA_SIZE in Hrest.
  set (d := nack_data sender media p bitmap). exists (mkFbNack (d ++ drop 4 rest) 16 [12]). split.
  - unfold RtcpFbNack_Parse, UpdateData. change (16 <=? FB_HEADERS_SIZE) with false. cbn iota. rewrite Hnew. simpl_m.
    rewrite read_range_app by done. simpl_m. cbn [fb_packet fb_data].
    set (old := [0x81; RTCP_RTPFB] ++ Write2Bytes 2 ++ Write4Bytes 0 ++ Write4Bytes 0).
    assert (write_at (old ++ rest) 0 d = Done (d ++ drop 4 rest)) as Hw.
    { rewrite <- (take_drop 4 rest) at 1. rewrite app_assoc. change (write_at ?m 0 d) with (write_at ([] ++ m) (zlen (@nil Z)) d).
      rewrite write_at_mid; [done|]. rewrite zlen_app. unfold zlen in *. rewrite length_take. change (length old) with 12%nat. change (length d) with 16%nat. lia. }
    unfold old in Hw. rewrite <- !app_assoc in Hw. rewrite <- !app_assoc, Hw. simpl_m.
    change (block_offsets (S (Z.to_nat 16)) FB_HEADERS_SIZE 16) with (Done [12]). simpl_m. done.
  - unfold GetLostSeqs, GetSenderSsrc, GetMediaSsrc. cbn [fb_data nack_blocks_]. unfold d, nack_data. rewrite <- (app_assoc _ _ (drop 4 rest)).
    split; [by apply lost_seqs_block|]. rewrite <- !app_assoc.
    change (drop 4 ([129; RTCP_RTPFB] ++ Write2Bytes 3 ++ ?x)) with x.
    change (drop 8 ([129; RTCP_RTPFB] ++ Write2Bytes 3 ++ Write4Bytes sender ++ ?x)) with x.
    split; apply Read4Bytes_Write4Bytes.
Qed.

(** The numbers read from a feedback packet are not those it was made from: the
    bitmap is written with its first number at the top and read from the bottom, so
    that the number [s] behind the first one [p] is read as [p + 17 - (s - p)].  The
    packet goes through the wire unchanged, so its receiver sends other packets. *)
Theorem nack_numbers_mirrored sender media p tail behind :
  0 <= p -> StronglySorted Z.lt (p :: tail) -> Forall (fun s => s <= p + 16 /\ s <= 65535) (p :: tail) ->
  let lost := p :: rev (map (fun s => u16 (p + 17 - (s - p))) tail) in
  exists n data n', (n ← RtcpFbNack_new sender media; InsertSeqList (p :: tail) n) = Done n /\
    GetData n = Done data /\ zlen data = 16 /\ GetLostSeqs n = Done lost /\
    RtcpFbNack_Parse (data ++ behind) 16 = Done (Some n') /\ GetLostSeqs n' = Done lost /\
    GetSenderSsrc n' = Done (u32 sender) /\ GetMediaSsrc n' = Done (u32 media).
Proof.
  intros Hp Hsort Hall lost. apply StronglySorted_inv in Hsort as [Hsort Hlt].
  assert (Forall (fun s => p < s <= p + 16) tail) as Ht.
  { apply Forall_cons in Hall as [_ Hall]. rewrite Forall_forall in Hall, Hlt |- *. intros s Hs. specialize (Hall s Hs). specialize (Hlt s Hs). lia. }
  assert (0 <= p <= 65535) as Hp2 by (apply Forall_cons in Hall as [? _]; lia).
  destruct (nack_written sender media p tail Ht) as (n & bitmap & Hn & Hb & Hbits & Hd & rest & Hdata & Hblocks).
  destruct (nack_parsed sender media p bitmap tail behind Hp2 Hb Hsort Ht Hbits) as (n' & Hn' & Hlost & Hsender & Hmedia).
  exists n, (nack_data sender media p bitmap), n'. split_and!; try done.
  unfold GetLostSeqs. rewrite Hdata, Hblocks. unfold nack_data. rewrite <- app_assoc. by apply lost_seqs_block.
Qed.

Lemma bitmap_loop_far p near far rest b : Forall (fun s => p < s <= p + 16) near -> p + 16 < far ->
  bitmap_loop p (near ++ far :: rest) b = Fault BadShift.
Proof.
  intros Hn Hf. revert b. induction Hn as [|s near Hs _ IH]; intros b; cbn [app bitmap_loop].
  - rewrite (proj2 (Z.leb_gt _ _)) by lia. done.
  - rewrite (proj2 (Z.leb_le _ _)), (proj2 (Z.ltb_lt _ _)) by lia. apply IH.
Qed.

Lemma insert_seqs_far p collected near far rest n :
  Forall (fun s => p < s <= p + 16) (collected ++ near) -> p + 16 < far ->
  insert_seqs (near ++ far :: rest) (p :: collected) n = Fault BadShift.
Proof.
  revert collected. induction near as [|s near IH]; intros collected Hn Hf; cbn [app insert_seqs hd].
  - rewrite (proj2 (Z.ltb_lt _ _)) by lia. unfold InsertBlock. rewrite app_nil_r in Hn. by rewrite (bitmap_loop_far p collected far []).
  - assert (s <= p + 16) as Hs. { apply Forall_app in Hn as [_ Hn]. apply Forall_cons in Hn as [? _]. lia. }
    rewrite (proj2 (Z.ltb_ge _ _)) by lia. apply IH; [|done]. by rewrite <- app_assoc.
Qed.

(** A list that spans more than 16 numbers is undefined behaviour: the number
    behind the span is put into the block all the same, and 1 is shifted by a
    negative amount. *)
Theorem nack_span_undefined sender media p near far rest :
  StronglySorted Z.lt (p :: near ++ far :: rest) -> Forall (fun s => s <= p + 16) near -> p + 16 < far ->
  (n ← RtcpFbNack_new sender media; InsertSeqList (p :: near ++ far :: rest) n) = Fault BadShift.
Proof.
  intros Hsort Hn Hf. destruct (RtcpFbNack_new_spec sender media) as (behind & _ & ->). simpl_m.
  unfold InsertSeqList. cbn [insert_seqs app hd]. rewrite Z.sub_diag. change (16 <? 0) with false. cbn iota.
  apply insert_seqs_far; [|done]. apply StronglySorted_inv in Hsort as [_ Hlt]. apply Forall_app in Hlt as [Hlt _]. cbn [app].
  rewrite Forall_forall in Hn, Hlt |- *. intros s Hs. specialize (Hn s Hs). specialize (Hlt s Hs). lia.
Qed.
End write.

Lemma nack_numbers_mirrored_witness :
  exists n data n', (n ← RtcpFbNack_new (Alloc := zero_alloc) 0 7; InsertSeqList [10; 11; 14] n) = Done n /\
    GetData n = Done data /\ RtcpFbNack_Parse (Alloc := zero_alloc) data 16 = Done (Some n') /\
    GetLostSeqs n' = Done [10; 23; 26].
Proof.
  destruct (nack_numbers_mirrored (Alloc := zero_alloc) 0 7 10 [11; 14] []) as (n & data & n' & H1 & H2 & _ & _ & H3 & H4 & _);
    [lia|repeat constructor; lia|repeat constructor; lia|].
  rewrite app_nil_r in H3. exists n, data, n'. split; [exact H1|]. split; [exact H2|]. split; [exact H3|exact H4].
Defined.

Lemma nack_span_undefined_witness :
  (n ← RtcpFbNack_new (Alloc := zero_alloc) 0 7; InsertSeqList [10; 12; 40; 41] n) = Fault BadShift.
Proof.
  apply (nack_span_undefined (Alloc := zero_alloc) 0 7 10 [12] 40 [41]); [repeat constructor; lia|repeat constructor; lia|lia].
Defined.
