(* ===== verification/Rtcp.v ===== *)
(** * [Rtcp]: sender reports, receiver reports, key frame requests, extended reports

    Models [src/net/rtprtcp/rtcp_sr.hpp], [rtcp_rr.hpp], [rtcp_pspli.hpp],
    [rtcp_xr_rrt.hpp], [rtcp_xr_dlrr.hpp] and the tests of [rtprtcp_pub.hpp].  A
    packet is its array [data] of 1500 bytes; pointers are offsets into it.  Fresh
    arrays hold what the allocator gives.  [None] is the exception of [Parse]. *)
From S2P Require Import Prelude ByteStream DataBuffer RtpPacket RtcpNack.

Definition RTCP_SR : Z := 200.
Definition RTCP_RR : Z := 201.
Definition RTCP_PSFB : Z := 206.
Definition RTCP_XR : Z := 207.
Definition FB_PS_PLI : Z := 1.
Definition XR_RRT : Z := 4.
Definition XR_DLRR : Z := 5.
Definition RTCP_HEADER_SIZE : Z := 4.
Definition SR_SIZE : Z := 28.             (* header, ssrc, RtcpSrBlock *)
Definition RR_BLOCK_SIZE : Z := 24.

Definition get32 (m : bytes) (off : Z) : outcome Z := Read4Bytes (drop (Z.to_nat off) m).
Definition put32 (m : bytes) (off v : Z) : outcome bytes := write_at m off (Write4Bytes v).

(** [IsRtcp], [IsRtp] and [GetRtcpLength]; the data are read only when they are long enough. *)
Definition IsRtcp (data : bytes) (len : Z) : outcome bool :=
  if RTCP_HEADER_SIZE <=? len then
    b ← data.[0];
    if (127 <? b) && (b <? 192) then
      if Z.land (Z.shiftr b 6) 3 =? 2 then t ← data.[1]; mret ((192 <=? t) && (t <=? 223)) else mret false
    else mret false
  else mret false.
Definition IsRtp (data : bytes) (len : Z) : outcome bool :=
  if RTP_HEADER_SIZE <=? len then
    b ← data.[0];
    if (127 <? b) && (b <? 192) then mret (Z.land (Z.shiftr b 6) 3 =? 2) else mret false
  else mret false.
Definition GetRtcpLength (m : bytes) : outcome Z := l ← Read2Bytes (drop 2 m); mret (u16 (l * 4)).

(** ** Sender reports *)

Record RtcpSrPacket := mkSr { sr_data : bytes; sender_ssrc_ : Z }.

Definition zeroed : bytes := replicate (Z.to_nat RTCP_DATA_SIZE) 0.

Definition RtcpSrPacket_new : outcome RtcpSrPacket :=
  m ← fb_common_header 0 RTCP_SR ((SR_SIZE - RTCP_HEADER_SIZE) / 4) zeroed;
  m ← put32 m 4 1;
  mret (mkSr m 1).

Definition set_sr (off v : Z) (s : RtcpSrPacket) : outcome RtcpSrPacket :=
  m ← put32 (sr_data s) off v; mret (mkSr m (sender_ssrc_ s)).
Definition SrSetSsrc (ssrc : Z) (s : RtcpSrPacket) : outcome RtcpSrPacket :=
  m ← put32 (sr_data s) 4 ssrc; mret (mkSr m ssrc).
Definition SetNtp (ntp_sec ntp_frac : Z) (s : RtcpSrPacket) : outcome RtcpSrPacket :=
  s ← set_sr 8 ntp_sec s; set_sr 12 ntp_frac s.
Definition SetRtpTimestamp (ts : Z) (s : RtcpSrPacket) : outcome RtcpSrPacket := set_sr 16 ts s.
Definition SetPktCount (n : Z) (s : RtcpSrPacket) : outcome RtcpSrPacket := set_sr 20 n s.
Definition SetBytesCount (n : Z) (s : RtcpSrPacket) : outcome RtcpSrPacket := set_sr 24 n s.
Definition GetNtpSec (s : RtcpSrPacket) : outcome Z := get32 (sr_data s) 8.
Definition GetNtpFrac (s : RtcpSrPacket) : outcome Z := get32 (sr_data s) 12.
Definition GetRtpTimestamp (s : RtcpSrPacket) : outcome Z := get32 (sr_data s) 16.
Definition GetPktCount (s : RtcpSrPacket) : outcome Z := get32 (sr_data s) 20.
Definition GetBytesCount (s : RtcpSrPacket) : outcome Z := get32 (sr_data s) 24.
Definition SrGetData (s : RtcpSrPacket) : outcome bytes := read_range (sr_data s) 0 SR_SIZE.

(** ** Receiver reports *)

(** A block on its own: its 24 bytes. *)
Definition GetReporteeSsrc (b : bytes) : outcome Z := get32 b 0.
Definition GetFracLost (b : bytes) : outcome Z := b.[4].
Definition GetCumulativeLost (b : bytes) : outcome Z := Read3Bytes (drop 5 b).
Definition GetHighestSeq (b : bytes) : outcome Z := get32 b 8.
Definition GetJitter (b : bytes) : outcome Z := get32 b 12.
Definition GetLsr (b : bytes) : outcome Z := get32 b 16.
Definition GetDlsr (b : bytes) : outcome Z := get32 b 20.
Definition SetReporteeSsrc (v : Z) (b : bytes) : outcome bytes := put32 b 0 v.
Definition SetFracLost (v : Z) (b : bytes) : outcome bytes := write_at b 4 [u8 v].
Definition SetCumulativeLost (v : Z) (b : bytes) : outcome bytes := write_at b 5 (Write3Bytes v).
Definition SetHighestSeq (v : Z) (b : bytes) : outcome bytes := put32 b 8 v.
Definition SetJitter (v : Z) (b : bytes) : outcome bytes := put32 b 12 v.
Definition SetLsr (v : Z) (b : bytes) : outcome bytes := put32 b 16 v.
Definition SetDlsr (v : Z) (b : bytes) : outcome bytes := put32 b 20 v.

Record RtcpRrPacket := mkRr { rr_data : bytes; rr_blocks_ : list Z; rr_len_ : Z }.
Definition RtcpRrPacket_new : RtcpRrPacket := mkRr zeroed [] 0.

Definition AddRrBlock (block : bytes) (p : RtcpRrPacket) : outcome RtcpRrPacket :=
  d ← read_range block 0 RR_BLOCK_SIZE;
  let off := match last (rr_blocks_ p) with None => 8 | Some o => o + RR_BLOCK_SIZE end in
  m ← write_at (rr_data p) off d;
  mret (mkRr m (rr_blocks_ p ++ [off]) (rr_len_ p)).

(** The loop of [GetData]: each block is copied to its place from where it lies. *)
Fixpoint copy_blocks (m : bytes) (off : Z) (blocks : list Z) : outcome bytes :=
  match blocks with
  | [] => mret m
  | b :: blocks => m ← memcpy_within m off b RR_BLOCK_SIZE; copy_blocks m (off + RR_BLOCK_SIZE) blocks
  end.

(** [None] is the null pointer of an empty packet; the reporter's ssrc is stored as
    the machine has it. *)
Definition RrGetData (p : RtcpRrPacket) : outcome (option bytes * RtcpRrPacket) :=
  match rr_blocks_ p with
  | [] => mret (None, p)
  | _ =>
      let data_len := 8 + RR_BLOCK_SIZE * zlen (rr_blocks_ p) in
      m ← fb_common_header (zlen (rr_blocks_ p)) RTCP_RR (u16 data_len / 4 - 1) (rr_data p);
      m ← write_at m 4 (Write4Bytes_le 1);
      m ← copy_blocks m 8 (rr_blocks_ p);
      d ← read_range m 0 data_len;
      mret (Some d, mkRr m (rr_blocks_ p) (rr_len_ p))
  end.

Fixpoint rr_offsets (fuel : nat) (off len : Z) : outcome (list Z) :=
  match fuel with
  | O => Fault OutOfFuel
  | S fuel => if off <? len then l ← rr_offsets fuel (off + RR_BLOCK_SIZE) len; mret (off :: l) else mret []
  end.

Definition GetReporterSsrc (p : RtcpRrPacket) : outcome Z := get32 (rr_data p) 4.

(** The blocks of the packet, as [GetRrBlocks] hands them out. *)
Fixpoint rr_block_bytes (m : bytes) (blocks : list Z) : outcome (list bytes) :=
  match blocks with
  | [] => mret []
  | o :: blocks => b ← read_range m o RR_BLOCK_SIZE; l ← rr_block_bytes m blocks; mret (b :: l)
  end.
Definition GetRrBlocks (p : RtcpRrPacket) : outcome (list bytes) := rr_block_bytes (rr_data p) (rr_blocks_ p).

(** ** Key frame requests *)

Definition RtcpPsPli_new : outcome bytes := fb_common_header FB_PS_PLI RTCP_PSFB 2 zeroed.
Definition SetSenderSsrc (v : Z) (m : bytes) : outcome bytes := put32 m 4 v.
Definition SetMediaSsrc (v : Z) (m : bytes) : outcome bytes := put32 m 8 v.
Definition PliGetData (m : bytes) : outcome bytes := read_range m 0 FB_HEADERS_SIZE.
Definition RtcpPsPli_Parse (data : bytes) (len : Z) : outcome (option bytes) :=
  if negb (len =? FB_HEADERS_SIZE) then mret None
  else m ← RtcpPsPli_new; d ← read_range data 0 len; m ← write_at m 0 d; mret (Some m).

(** ** Extended reports *)

Definition RRT_SIZE : Z := 20.            (* header, ssrc, block header, XrRrtData *)
Definition XrRrt_new : outcome bytes :=
  m ← fb_common_header 0 RTCP_XR (RRT_SIZE / 4 - 1) zeroed;
  write_at m 8 ([XR_RRT; 0] ++ Write2Bytes 2).
Definition XrSetSsrc (v : Z) (m : bytes) : outcome bytes := put32 m 4 v.
Definition XrGetSsrc (m : bytes) : outcome Z := get32 m 4.
Definition RrtSetNtp (ntp_sec ntp_frac : Z) (m : bytes) : outcome bytes := m ← put32 m 12 ntp_sec; put32 m 16 ntp_frac.
Definition RrtGetNtp (m : bytes) : outcome (Z * Z) := s ← get32 m 12; f ← get32 m 16; mret (s, f).
Definition RrtGetData (m : bytes) : outcome bytes := read_range m 0 RRT_SIZE.
Definition RrtParse (rtcp_data : bytes) (len : Z) (m : bytes) : outcome bytes :=
  _ ← cassert (len =? RRT_SIZE); d ← read_range rtcp_data 0 len; write_at m 0 d.

Record XrDlrr := mkDlrr { dlrr_data : bytes; dlrr_len : Z; dlrr_block : option Z; dlrr_count : Z }.
Definition XrDlrr_new : outcome XrDlrr :=
  m ← fb_common_header 0 RTCP_XR 0 zeroed; mret (mkDlrr m 0 None 0).

(** [block_length += htons(3)] adds in the machine's byte order. *)
Definition AddrDlrrBlock (ssrc lrr dlrr : Z) (x : XrDlrr) : outcome XrDlrr :=
  '(m, off) ←
    (match dlrr_block x with
     | None => m ← write_at (dlrr_data x) 8 ([XR_DLRR; 0] ++ Write2Bytes 3); mret (m, 12)
     | Some off =>
         lo ← (dlrr_data x).[10];
         hi ← (dlrr_data x).[11];
         m ← write_at (dlrr_data x) 10 (Write2Bytes_le (u16 (lo + 256 * hi + 3 * 256)));
         mret (m, off + 12)
     end);
  m ← put32 m off ssrc;
  m ← put32 m (off + 4) lrr;
  m ← put32 m (off + 8) dlrr;
  let block_count := dlrr_count x + 1 in
  let len := 4 + 4 + 12 * block_count in
  m ← write_at m 2 (Write2Bytes (u16 len / 4));
  mret (mkDlrr m (4 + 4 + 4 + 12 * block_count) (Some off) block_count).

Fixpoint dlrr_blocks (n : nat) (m : bytes) (off : Z) : outcome (list (Z * Z * Z)) :=
  match n with
  | O => mret []
  | S n =>
      ssrc ← get32 m off;
      lrr ← get32 m (off + 4);
      dlrr ← get32 m (off + 8);
      l ← dlrr_blocks n m (off + 12);
      mret ((ssrc, lrr, dlrr) :: l)
  end.
Definition GetDlrrBlocks (x : XrDlrr) : outcome (list (Z * Z * Z)) :=
  if dlrr_len x <? 4 + 4 + 4 + 12 then mret []
  else dlrr_blocks (Z.to_nat ((dlrr_len x - 4 - 4 - 4) / 12)) (dlrr_data x) 12.

Section rtcp.
Context `{Alloc : Allocator}.

(** The parser of sender reports: the report is copied into a new packet. *)
Definition RtcpSrPacket_Parse (data : bytes) (len : Z) : outcome (option RtcpSrPacket) :=
  if negb (len =? SR_SIZE) then mret None
  else
    d ← read_range data 0 SR_SIZE;
    m ← write_at (new_char RTCP_DATA_SIZE) 0 d;
    ssrc ← get32 m 4;
    mret (Some (mkSr m ssrc)).

(** The parser of receiver reports copies [len] bytes, however many. *)
Definition RtcpRrPacket_Parse (data : bytes) (len : Z) : outcome (option RtcpRrPacket) :=
  if len <? 8 + RR_BLOCK_SIZE then mret None
  else
    d ← read_range data 0 len;
    m ← write_at (new_char RTCP_DATA_SIZE) 0 d;
    l ← rr_offsets (S (Z.to_nat len)) 8 len;
    mret (Some (mkRr m l len)).
End rtcp.

(** ** Fields of four bytes *)

Lemma put32_mid a b c v : zlen b = 4 -> put32 (a ++ b ++ c) (zlen a) v = Done (a ++ Write4Bytes v ++ c).
Proof. intros Hb. unfold put32. by rewrite write_at_mid. Qed.

Lemma get32_mid a v c : get32 (a ++ Write4Bytes v ++ c) (zlen a) = Done (u32 v).
Proof. unfold get32. rewrite drop_zlen_app. apply Read4Bytes_Write4Bytes. Qed.

(** Memory behind a header, as its fields. *)
Definition fields (h : bytes) (l : list Z) (rest : bytes) : bytes := h ++ concat (map Write4Bytes l) ++ rest.

Lemma zlen_fields l : zlen (concat (map Write4Bytes l)) = 4 * zlen l.
Proof. induction l as [|v l IH]; [done|]. cbn [map concat]. rewrite zlen_app, IH, zlen_cons. change (zlen (Write4Bytes v)) with 4. lia. Qed.

Lemma fields_split h l1 v l2 rest :
  fields h (l1 ++ v :: l2) rest = (h ++ concat (map Write4Bytes l1)) ++ Write4Bytes v ++ concat (map Write4Bytes l2) ++ rest.
Proof. unfold fields. rewrite map_app, concat_app. cbn [map concat]. by rewrite <- !app_assoc. Qed.

Lemma put_field h l1 old v l2 rest off : off = zlen h + 4 * zlen l1 ->
  put32 (fields h (l1 ++ old :: l2) rest) off v = Done (fields h (l1 ++ v :: l2) rest).
Proof.
  intros ->. rewrite !fields_split, <- zlen_fields, <- zlen_app. by rewrite put32_mid.
Qed.

Lemma get_field h l1 v l2 rest off : off = zlen h + 4 * zlen l1 -> get32 (fields h (l1 ++ v :: l2) rest) off = Done (u32 v).
Proof. intros ->. rewrite fields_split, <- zlen_fields, <- zlen_app. apply get32_mid. Qed.

(** ** Round trips *)

Section roundtrips.
Context `{Alloc : Allocator}.

Definition sr_header : bytes := [0x80; RTCP_SR; 0; 6].

(** The sender report with these fields. *)
Definition sr_packet (l : list Z) (rest : bytes) (ssrc : Z) : RtcpSrPacket := mkSr (fields sr_header l rest) ssrc.

Lemma RtcpSrPacket_new_spec : RtcpSrPacket_new = Done (sr_packet [1; 0; 0; 0; 0; 0] (replicate 1472 0) 1).
Proof.
  unfold RtcpSrPacket_new, fb_common_header, zeroed. change (replicate (Z.to_nat RTCP_DATA_SIZE) 0) with ([0; 0] ++ [0; 0] ++ Write4Bytes 0 ++ replicate 1492 0).
  change (rd ([0; 0] ++ _) 0) with (Done 0). simpl_m. set (big := replicate 1492 0).
  change (write_at ?m 0 ?d) with (write_at m (zlen (@nil Z)) d). change ([0; 0] ++ [0; 0] ++ ?x) with ([] ++ [0; 0] ++ [0; 0] ++ x).
  rewrite write_at_mid by done. simpl_m.
  set (ab := [put_bits _ 0 5 0; u8 RTCP_SR]). change (write_at ([] ++ ab ++ ?x) 2 ?d) with (write_at (ab ++ x) (zlen ab) d).
  rewrite write_at_mid by done. simpl_m.
  change (ab ++ Write2Bytes ((SR_SIZE - RTCP_HEADER_SIZE) / 4) ++ Write4Bytes 0 ++ big) with (sr_header ++ Write4Bytes 0 ++ big).
  change (put32 ?m 4 1) with (put32 m (zlen sr_header) 1). rewrite put32_mid by done. simpl_m. unfold sr_packet, fields.
  change big with (concat (map Write4Bytes [0; 0; 0; 0; 0]) ++ replicate 1472 0). done.
Qed.

(** A filled report, its bytes, and what parsing them gives. *)
Lemma sr_filled ssrc sec frac ts pkts octets :
  (s ← RtcpSrPacket_new; s ← SrSetSsrc ssrc s; s ← SetNtp sec frac s; s ← SetRtpTimestamp ts s; s ← SetPktCount pkts s;
   SetBytesCount octets s) = Done (sr_packet [ssrc; sec; frac; ts; pkts; octets] (replicate 1472 0) ssrc).
Proof.
  rewrite RtcpSrPacket_new_spec. simpl_m. set (rest := replicate 1472 0).
  assert (forall l1 old v l2 ss off, off = 4 + 4 * zlen l1 ->
    set_sr off v (sr_packet (l1 ++ old :: l2) rest ss) = Done (sr_packet (l1 ++ v :: l2) rest ss)) as Hset.
  { intros l1 old v l2 ss off Ho. unfold set_sr, sr_packet. cbn [sr_data sender_ssrc_]. by rewrite put_field. }
  unfold SrSetSsrc. cbn [sr_data sr_packet].
  rewrite (put_field sr_header [] 1 ssrc [0; 0; 0; 0; 0] rest 4 eq_refl : put32 (fields sr_header [1; 0; 0; 0; 0; 0] rest) 4 ssrc = _).
  simpl_m. fold (sr_packet [ssrc; 0; 0; 0; 0; 0] rest ssrc). unfold SetNtp, SetRtpTimestamp, SetPktCount, SetBytesCount. cbn [app].
  pose proof (fun off => Hset [ssrc] 0 sec [0; 0; 0; 0] ssrc off) as H1. pose proof (fun off => Hset [ssrc; sec] 0 frac [0; 0; 0] ssrc off) as H2.
  pose proof (fun off => Hset [ssrc; sec; frac] 0 ts [0; 0] ssrc off) as H3. pose proof (fun off => Hset [ssrc; sec; frac; ts] 0 pkts [0] ssrc off) as H4.
  pose proof (fun off => Hset [ssrc; sec; frac; ts; pkts] 0 octets [] ssrc off) as H5. cbn [app] in *.
  rewrite H1 by done. simpl_m. rewrite H2 by done. simpl_m. rewrite H3 by done. simpl_m. rewrite H4 by done. simpl_m. by rewrite H5.
Qed.

(** The 28 bytes of a report. *)
Definition sr_bytes (ssrc sec frac ts pkts octets : Z) : bytes := sr_header ++ concat (map Write4Bytes [ssrc; sec; frac; ts; pkts; octets]).

Lemma sr_packet_data ssrc sec frac ts pkts octets rest v :
  SrGetData (sr_packet [ssrc; sec; frac; ts; pkts; octets] rest v) = Done (sr_bytes ssrc sec frac ts pkts octets).
Proof. unfold SrGetData, sr_packet, fields. cbn [sr_data]. rewrite app_assoc. by apply read_range_app. Qed.

Lemma sr_parsed ssrc sec frac ts pkts octets behind : exists rest,
  RtcpSrPacket_Parse (sr_bytes ssrc sec frac ts pkts octets ++ behind) SR_SIZE =
  Done (Some (sr_packet [ssrc; sec; frac; ts; pkts; octets] rest (u32 ssrc))).
Proof.
  set (l := [ssrc; sec; frac; ts; pkts; octets]). set (d := sr_bytes _ _ _ _ _ _).
  assert (zlen (new_char RTCP_DATA_SIZE) = RTCP_DATA_SIZE) as Hn by (by apply new_char_length).
  set (rest := drop 28 (new_char RTCP_DATA_SIZE)). exists rest.
  unfold RtcpSrPacket_Parse. change (negb (SR_SIZE =? SR_SIZE)) with false. cbn iota. rewrite read_range_app by done. simpl_m.
  rewrite <- (take_drop 28 (new_char RTCP_DATA_SIZE)). fold rest. change (write_at ?m 0 ?x) with (write_at ([] ++ m) (zlen (@nil Z)) x).
  rewrite write_at_mid by (unfold zlen in *; rewrite length_take; unfold RTCP_DATA_SIZE in *; change (length d) with 28%nat; lia). simpl_m.
  pose proof (get_field sr_header [] ssrc [sec; frac; ts; pkts; octets] rest 4 eq_refl) as Hg. cbn [app] in Hg |- *.
  unfold d, sr_bytes. rewrite <- app_assoc. fold l. fold (fields sr_header l rest). fold l in Hg. by rewrite Hg.
Qed.

Lemma sr_packet_fields ssrc sec frac ts pkts octets rest v :
  let s := sr_packet [ssrc; sec; frac; ts; pkts; octets] rest v in
  GetNtpSec s = Done (u32 sec) /\ GetNtpFrac s = Done (u32 frac) /\ GetRtpTimestamp s = Done (u32 ts) /\
  GetPktCount s = Done (u32 pkts) /\ GetBytesCount s = Done (u32 octets).
Proof.
  split_and!; [by apply (get_field sr_header [ssrc])|by apply (get_field sr_header [ssrc; sec])|by apply (get_field sr_header [ssrc; sec; frac])
    |by apply (get_field sr_header [ssrc; sec; frac; ts])|by apply (get_field sr_header [ssrc; sec; frac; ts; pkts])].
Qed.

(** What a sender report is filled with is what its receiver reads. *)
Theorem sr_roundtrip ssrc sec frac ts pkts octets behind :
  exists s d s',
    (s ← RtcpSrPacket_new; s ← SrSetSsrc ssrc s; s ← SetNtp sec frac s; s ← SetRtpTimestamp ts s; s ← SetPktCount pkts s;
     SetBytesCount octets s) = Done s /\ SrGetData s = Done d /\ zlen d = SR_SIZE /\
    RtcpSrPacket_Parse (d ++ behind) SR_SIZE = Done (Some s') /\ sender_ssrc_ s' = u32 ssrc /\
    GetNtpSec s' = Done (u32 sec) /\ GetNtpFrac s' = Done (u32 frac) /\ GetRtpTimestamp s' = Done (u32 ts) /\
    GetPktCount s' = Done (u32 pkts) /\ GetBytesCount s' = Done (u32 octets).
Proof.
  destruct (sr_parsed ssrc sec frac ts pkts octets behind) as (rest & Hp). eexists _, _, _.
  split; [apply sr_filled|]. split; [apply sr_packet_data|]. split; [done|]. split; [exact Hp|]. split; [done|]. apply sr_packet_fields.
Qed.
End roundtrips.
