(* ===== verification/RtcTime.v ===== *)
(** * [RtcTime]: clocks, NTP timestamps and stream statistics

    Models [src/utils/timeex.hpp], [src/utils/stream_statics.hpp] and
    [src/net/webrtc/rtc_stream_pub.hpp].  [float] and
    [double] are the binary32 and binary64 values of the Standard Library's
    [SpecFloat], rounded to the nearest, to even on a tie; [FLT_EVAL_METHOD] is 0. *)
From Stdlib Require Import Floats.SpecFloat.
From S2P Require Import Prelude DataBuffer Media.

Abbreviation float := spec_float.
Abbreviation double := spec_float.

(** ** Arithmetic *)

Definition double_of_int (z : Z) : double := binary_normalize 53 1024 z 0 false.
Definition float_of_int (z : Z) : float := binary_normalize 24 128 z 0 false.
Definition double_add : double -> double -> double := SFadd 53 1024.
Definition double_sub : double -> double -> double := SFsub 53 1024.
Definition double_mul : double -> double -> double := SFmul 53 1024.
Definition double_div : double -> double -> double := SFdiv 53 1024.
Definition float_sub : float -> float -> float := SFsub 24 128.
Definition float_div : float -> float -> float := SFdiv 24 128.

(** A value of one width in another; a [float] is a [double] as it is. *)
Definition narrow (x : double) : float :=
  match x with S754_finite s m e => binary_normalize 24 128 (cond_Zopp s (Zpos m)) e s | _ => x end.

(** A finite value as [n * 2 ^ e]. *)
Definition sf_parts (x : spec_float) : option (Z * Z) :=
  match x with
  | S754_zero _ => Some (0, 0)
  | S754_finite s m e => Some (cond_Zopp s (Zpos m), e)
  | _ => None
  end.

(** Conversion to an integer of [[lo, hi)]: towards zero; undefined outside. *)
Definition int_of (lo hi : Z) (x : spec_float) : outcome Z :=
  match sf_parts x with
  | None => Fault BadConversion
  | Some (n, e) =>
      let v := if 0 <=? e then n * 2 ^ e else n `quot` 2 ^ (- e) in
      if (lo <=? v) && (v <? hi) then Done v else Fault BadConversion
  end.
Definition uint8_of : spec_float -> outcome Z := int_of 0 (2 ^ 8).
Definition uint32_of : spec_float -> outcome Z := int_of 0 (2 ^ 32).
Definition int64_of : spec_float -> outcome Z := int_of (- 2 ^ 63) (2 ^ 63).

(** [std::round]: to the nearest integer, away from zero on a tie.  The result of
    rounding a [double] is an integer or the [double] itself. *)
Definition sf_round (x : double) : double :=
  match x with
  | S754_finite s m e => if 0 <=? e then x else double_of_int (cond_Zopp s ((2 * Zpos m + 2 ^ (- e)) / 2 ^ (1 - e)))
  | _ => x
  end.

(** ** NTP timestamps *)

Definition NTP_FRACT_UNIT : Z := Z.shiftl 1 32.

Record NTP_TIMESTAMP := mkNtp { ntp_sec : Z; ntp_frac : Z }.

Definition millisec_to_ntp (ms : Z) : outcome NTP_TIMESTAMP :=
  frac ← uint32_of (double_mul (double_div (double_of_int (Z.rem ms 1000)) (double_of_int 1000)) (double_of_int NTP_FRACT_UNIT));
  mret (mkNtp (u32 (ms `quot` 1000)) frac).

Definition ntp_to_millisec (ntp : NTP_TIMESTAMP) : outcome Z :=
  r ← int64_of (sf_round (double_div (double_mul (double_of_int (ntp_frac ntp)) (double_of_int 1000)) (double_of_int NTP_FRACT_UNIT)));
  mret (ntp_sec ntp * 1000 + r).

(** The middle 32 bits: the low half of the seconds and the high half of the fraction. *)
Definition compact_ntp (ntp : NTP_TIMESTAMP) : Z :=
  Z.lor (u32 (Z.shiftl (Z.land (ntp_sec ntp) 0xffff) 16)) (Z.shiftr (Z.land (ntp_frac ntp) 0xffff0000) 16).

(** ** Statistics of a stream *)

Definition STREAM_STATICS_INTERVAL_MAX : Z := 10 * 1000.

Record StreamStatics := mkStatics { count_ : Z; last_count_ : Z; bytes_ : Z; last_bytes_ : Z; timestamp_ : Z }.
Definition StreamStatics_new : StreamStatics := mkStatics 0 0 0 0 0.

(** The counts are remembered, with the time. *)
Definition mark_statics (now_ms : Z) (s : StreamStatics) : StreamStatics :=
  mkStatics (count_ s) (count_ s) (bytes_ s) (bytes_ s) now_ms.

Definition Update (bytes now_ms : Z) (s : StreamStatics) : StreamStatics :=
  let s := mkStatics (u64 (count_ s + 1)) (last_count_ s) (u64 (bytes_ s + bytes)) (last_bytes_ s) (timestamp_ s) in
  if (timestamp_ s =? 0) || (STREAM_STATICS_INTERVAL_MAX <? now_ms - timestamp_ s) then mark_statics now_ms s else s.

Definition GetCount (s : StreamStatics) : Z := count_ s.
Definition GetBytes (s : StreamStatics) : Z := bytes_ s.

(** The bytes per second, and the count per second where it is written. *)
Definition BytesPerSecond (now_ms : Z) (s : StreamStatics) : Z * option Z * StreamStatics :=
  if (timestamp_ s =? 0) || (STREAM_STATICS_INTERVAL_MAX <? now_ms - timestamp_ s) then (0, None, mark_statics now_ms s)
  else if now_ms <=? timestamp_ s then (0, None, mark_statics now_ms s)
  else
    let speed := u64 (u64 (bytes_ s - last_bytes_ s) * 1000) / (now_ms - timestamp_ s) in
    let count_per_second := u64 (u64 (count_ s - last_count_ s) * 1000) / (now_ms - timestamp_ s) in
    (speed, Some count_per_second, mark_statics now_ms s).

Definition Reset (s : StreamStatics) : StreamStatics := mkStatics 0 0 0 0 0.

(** ** What the sending and the receiving stream share *)

(** The calls of [RtcSendStreamCallbackI]. *)
Inductive sent_event := SentRtpPacket (data : bytes) | SentRtcpPacket (data : bytes).

Record stream_ids := mkIds {
  ss_media_type_ : MEDIA_PKT_TYPE;
  ss_nack_enable_ : bool;
  ss_has_rtx_ : bool;
  ss_ssrc_ : Z;
  ss_pt_ : Z;
  ss_clock_rate_ : Z;
  ss_channel_ : Z;
  ss_rtx_payload_ : Z;
  ss_rtx_ssrc_ : Z
}.

(** The setters both classes have, for these members. *)
Module StreamIds.
Definition SetSsrc (v : Z) (i : stream_ids) : stream_ids :=
  mkIds (ss_media_type_ i) (ss_nack_enable_ i) (ss_has_rtx_ i) v (ss_pt_ i) (ss_clock_rate_ i) (ss_channel_ i) (ss_rtx_payload_ i) (ss_rtx_ssrc_ i).
Definition SetPT (v : Z) (i : stream_ids) : stream_ids :=
  mkIds (ss_media_type_ i) (ss_nack_enable_ i) (ss_has_rtx_ i) (ss_ssrc_ i) v (ss_clock_rate_ i) (ss_channel_ i) (ss_rtx_payload_ i) (ss_rtx_ssrc_ i).
Definition SetClockRate (v : Z) (i : stream_ids) : stream_ids :=
  mkIds (ss_media_type_ i) (ss_nack_enable_ i) (ss_has_rtx_ i) (ss_ssrc_ i) (ss_pt_ i) v (ss_channel_ i) (ss_rtx_payload_ i) (ss_rtx_ssrc_ i).
Definition SetChannel (v : Z) (i : stream_ids) : stream_ids :=
  mkIds (ss_media_type_ i) (ss_nack_enable_ i) (ss_has_rtx_ i) (ss_ssrc_ i) (ss_pt_ i) (ss_clock_rate_ i) v (ss_rtx_payload_ i) (ss_rtx_ssrc_ i).
Definition SetRtxPT (v : Z) (i : stream_ids) : stream_ids :=
  mkIds (ss_media_type_ i) (ss_nack_enable_ i) (ss_has_rtx_ i) (ss_ssrc_ i) (ss_pt_ i) (ss_clock_rate_ i) (ss_channel_ i) v (ss_rtx_ssrc_ i).
Definition SetRtxSsrc (v : Z) (i : stream_ids) : stream_ids :=
  mkIds (ss_media_type_ i) (ss_nack_enable_ i) (ss_has_rtx_ i) (ss_ssrc_ i) (ss_pt_ i) (ss_clock_rate_ i) (ss_channel_ i) (ss_rtx_payload_ i) v.
End StreamIds.

(** ** What the timestamps are *)

(** A time in milliseconds, in units of 1/65536 second. *)
Definition units (ms : Z) : Z := ms * 65536 / 1000.

(** The timestamp of a time. *)
Definition ntp_of (ms : Z) : NTP_TIMESTAMP := mkNtp (u32 (ms / 1000)) (ms mod 1000 * 2 ^ 32 / 1000).

#[export] Instance ntp_eq_dec : EqDecision NTP_TIMESTAMP.
Proof. solve_decision. Defined.

(** The fraction of [r] milliseconds is the exact one, and is read back. *)
Definition ntp_frac_ok (r : Z) : bool :=
  bool_decide (millisec_to_ntp r = Done (ntp_of r) /\ ntp_to_millisec (ntp_of r) = Done r).

Fixpoint all_below (n : nat) (f : Z -> bool) : bool :=
  match n with O => true | S n => f (Z.of_nat n) && all_below n f end.

Lemma all_below_spec n f r : all_below n f = true -> 0 <= r < Z.of_nat n -> f r = true.
Proof.
  induction n as [|n IH]; intros H Hr; [lia|]. cbn [all_below] in H. apply andb_prop in H as [H1 H2].
  destruct (Z.eq_dec r (Z.of_nat n)) as [->|]; [done|]. apply IH; [done|lia].
Qed.

Lemma ntp_fracs : all_below 1000 ntp_frac_ok = true.
Proof. vm_compute. reflexivity. Qed.

Lemma millisec_to_ntp_spec ms : 0 <= ms ->
  millisec_to_ntp ms = Done (ntp_of ms) /\ ntp_to_millisec (mkNtp 0 (ntp_frac (ntp_of ms))) = Done (ms mod 1000).
Proof.
  intros Hms. pose proof (Z.mod_pos_bound ms 1000 eq_refl) as Hb.
  pose proof (all_below_spec 1000 ntp_frac_ok (ms mod 1000) ntp_fracs Hb) as H. apply bool_decide_eq_true in H as [H1 H2].
  revert H1 H2. unfold millisec_to_ntp, ntp_of, ntp_to_millisec. cbn [ntp_frac ntp_sec].
  rewrite Z.quot_div_nonneg, Z.rem_mod_nonneg, Z.quot_div_nonneg, Z.rem_mod_nonneg, Z.mod_mod, (Z.div_small (ms mod 1000)) by lia.
  destruct (uint32_of _) as [frac|]; [|done]. simpl_m. intros [= ->] H2. by split.
Qed.

Lemma ntp_of_ok ms : 0 <= ntp_sec (ntp_of ms) < 2 ^ 32 /\ 0 <= ntp_frac (ntp_of ms) < 2 ^ 32.
Proof. split; [by apply Z.mod_pos_bound|]. cbn. pose proof (Z.mod_pos_bound ms 1000 eq_refl). div_lia. Qed.

(** The half of the seconds above the units of a second. *)
Lemma units_join sec r : 0 <= sec -> 0 <= r < 65536 -> Z.lor (u32 (Z.shiftl (Z.land sec 0xffff) 16)) r = u32 (sec * 65536 + r).
Proof.
  intros Hs Hr. change 0xffff with (Z.ones 16). rewrite Z.land_ones, Z.shiftl_mul_pow2 by lia. unfold u32.
  rewrite Z.mod_small by (pose proof (Z.mod_pos_bound sec (2 ^ 16) eq_refl); lia). rewrite lor_add by lia. div_lia.
Qed.

Lemma land_high x : 0 <= x < 2 ^ 32 -> Z.shiftr (Z.land x 0xffff0000) 16 = x / 65536.
Proof.
  intros Hx. rewrite Z.shiftr_land. change (Z.shiftr 0xffff0000 16) with (Z.ones 16). rewrite Z.land_ones, Z.shiftr_div_pow2 by lia.
  change (2 ^ 16) with 65536. apply Z.mod_small. div_lia.
Qed.

Lemma units_split ms : 0 <= ms -> units ms = ms / 1000 * 65536 + ms mod 1000 * 65536 / 1000.
Proof. intros H. unfold units. div_lia. Qed.

Lemma compact_ntp_of ms : 0 <= ms -> compact_ntp (ntp_of ms) = u32 (units ms).
Proof.
  intros Hms. unfold compact_ntp. destruct (ntp_of_ok ms) as [Hs Hf]. rewrite land_high by done.
  assert (ntp_frac (ntp_of ms) / 65536 = ms mod 1000 * 65536 / 1000) as ->.
  { cbn. rewrite Z.div_div by lia. change (2 ^ 32) with (65536 * 65536). rewrite Z.mul_assoc, Z.div_mul_cancel_r by lia. done. }
  pose proof (Z.mod_pos_bound ms 1000 eq_refl) as Hr. rewrite units_join by (lia || div_lia). rewrite units_split by done. cbn [ntp_sec ntp_of].
  unfold u32. div_lia.
Qed.

(** A time in milliseconds, as an NTP timestamp and back, is unchanged: no
    millisecond is lost to the rounding of the [double] arithmetic. *)
Theorem ntp_roundtrip ms : 0 <= ms < 2 ^ 32 * 1000 ->
  exists ntp, millisec_to_ntp ms = Done ntp /\ ntp_to_millisec ntp = Done ms.
Proof.
  intros Hms. destruct (millisec_to_ntp_spec ms) as [-> H]; [lia|]. eexists. split; [done|].
  unfold ntp_to_millisec in *. cbn [ntp_frac ntp_sec ntp_of] in *. destruct (int64_of _) as [r|]; [|done]. revert H. simpl_m. intros [= Hr].
  unfold u32. rewrite Z.mod_small by div_lia. f_equal. pose proof (Z.div_mod ms 1000). lia.
Qed.

Lemma ntp_roundtrip_witness : 0 <= 1700000000123 < 2 ^ 32 * 1000 /\
  exists ntp, millisec_to_ntp 1700000000123 = Done ntp /\ ntp_to_millisec ntp = Done 1700000000123.
Proof. split; [lia|]. apply ntp_roundtrip. lia. Defined.
