(* ===== verification/RtcSend.v ===== *)
(** * [RtcSend]: the stream that sends media over RTP

    Models [src/net/webrtc/rtc_send_stream.cpp]: media packets become RTP packets,
    which are numbered, kept for retransmission and sent; receiver reports give the
    round trip time, and lost packets that are asked for are sent again.  What the
    callback is given is appended to [ss_log_].  The members are grouped as the class
    groups them.  [false] stands for an exception.  The readings of the clock during
    one call are one number ([now_ms]). *)
From Stdlib Require Import Floats.SpecFloat.
From S2P Require Import Prelude ByteStream DataBuffer Media H264 RtpPacket Rtx RtpClone RtpPack RtcpNack Rtcp RtcTime.

Definition SEND_BUFFER_SIZE : Z := 2048.
Definition RTT_DEFAULT : Z := 30.
Definition PARAM_SET_SIZE : Z := 512.     (* sizeof(sps_), sizeof(pps_) *)

Record SendRtpPacketInfo := mkSend { retry_count : Z; last_ms : Z; pkt : option RtpPacket }.

Record send_params := mkParams { sps_ : bytes; pps_ : bytes; sps_len_ : Z; pps_len_ : Z }.
Record send_reports := mkReports {
  last_sr_ntp_ts_ : NTP_TIMESTAMP;
  last_sr_rtp_ts_ : Z;
  sent_count_ : Z;
  sent_bytes_ : Z;
  last_sr_ts_ : Z
}.
Record receiver_state := mkReceiver { ss_jitter_ : Z; lost_total_ : Z; lost_rate_ : float; rtt_ : float; avg_rtt_ : float }.
Record resend_counts := mkResends { resend_cnt_ : Z; last_resend_cnt_ : Z; last_resend_statics_ms_ : Z }.

Record RtcSendStream := mkSendStream {
  ids : stream_ids;
  seq_ : Z;
  rtx_seq_ : Z;
  params : send_params;
  send_buffer_ : list SendRtpPacketInfo;
  reports : send_reports;
  receiver : receiver_state;
  resends : resend_counts;
  ss_statics_ : StreamStatics;
  ss_log_ : list sent_event
}.

Definition set_ids (v : stream_ids) (s : RtcSendStream) : RtcSendStream :=
  mkSendStream v (seq_ s) (rtx_seq_ s) (params s) (send_buffer_ s) (reports s) (receiver s) (resends s) (ss_statics_ s) (ss_log_ s).
Definition set_seq (v : Z) (s : RtcSendStream) : RtcSendStream :=
  mkSendStream (ids s) v (rtx_seq_ s) (params s) (send_buffer_ s) (reports s) (receiver s) (resends s) (ss_statics_ s) (ss_log_ s).
Definition set_rtx_seq (v : Z) (s : RtcSendStream) : RtcSendStream :=
  mkSendStream (ids s) (seq_ s) v (params s) (send_buffer_ s) (reports s) (receiver s) (resends s) (ss_statics_ s) (ss_log_ s).
Definition set_params (v : send_params) (s : RtcSendStream) : RtcSendStream :=
  mkSendStream (ids s) (seq_ s) (rtx_seq_ s) v (send_buffer_ s) (reports s) (receiver s) (resends s) (ss_statics_ s) (ss_log_ s).
Definition set_send_buffer (v : list SendRtpPacketInfo) (s : RtcSendStream) : RtcSendStream :=
  mkSendStream (ids s) (seq_ s) (rtx_seq_ s) (params s) v (reports s) (receiver s) (resends s) (ss_statics_ s) (ss_log_ s).
Definition set_reports (v : send_reports) (s : RtcSendStream) : RtcSendStream :=
  mkSendStream (ids s) (seq_ s) (rtx_seq_ s) (params s) (send_buffer_ s) v (receiver s) (resends s) (ss_statics_ s) (ss_log_ s).
Definition set_receiver (v : receiver_state) (s : RtcSendStream) : RtcSendStream :=
  mkSendStream (ids s) (seq_ s) (rtx_seq_ s) (params s) (send_buffer_ s) (reports s) v (resends s) (ss_statics_ s) (ss_log_ s).
Definition set_resends (v : resend_counts) (s : RtcSendStream) : RtcSendStream :=
  mkSendStream (ids s) (seq_ s) (rtx_seq_ s) (params s) (send_buffer_ s) (reports s) (receiver s) v (ss_statics_ s) (ss_log_ s).
Definition set_statics (v : StreamStatics) (s : RtcSendStream) : RtcSendStream :=
  mkSendStream (ids s) (seq_ s) (rtx_seq_ s) (params s) (send_buffer_ s) (reports s) (receiver s) (resends s) v (ss_log_ s).
Definition emit (e : sent_event) (s : RtcSendStream) : RtcSendStream :=
  mkSendStream (ids s) (seq_ s) (rtx_seq_ s) (params s) (send_buffer_ s) (reports s) (receiver s) (resends s) (ss_statics_ s)
    (ss_log_ s ++ [e]).

(** The counters of the sender reports. *)
Definition count_packet (len : Z) (s : RtcSendStream) : RtcSendStream :=
  let r := reports s in
  set_reports (mkReports (last_sr_ntp_ts_ r) (last_sr_rtp_ts_ r) (u32 (sent_count_ r + 1)) (u32 (sent_bytes_ r + len)) (last_sr_ts_ r)) s.
Definition set_last_sr_ts (v : Z) (s : RtcSendStream) : RtcSendStream :=
  let r := reports s in
  set_reports (mkReports (last_sr_ntp_ts_ r) (last_sr_rtp_ts_ r) (sent_count_ r) (sent_bytes_ r) v) s.
Definition set_sr_times (ntp : NTP_TIMESTAMP) (rtp_ts : Z) (s : RtcSendStream) : RtcSendStream :=
  let r := reports s in
  set_reports (mkReports ntp rtp_ts (sent_count_ r) (sent_bytes_ r) (last_sr_ts_ r)) s.

Section send.
Context `{Alloc : Allocator}.

Definition empty_slot : SendRtpPacketInfo := mkSend 0 0 None.

(** The constructors: [rtx] is the payload type and the SSRC of the second one. *)
Definition RtcSendStream_new (type : MEDIA_PKT_TYPE) (ssrc payload clock_rate : Z) (nack : bool) (rtx : option (Z * Z)) : RtcSendStream :=
  mkSendStream
    (mkIds type nack (match rtx with Some _ => true | None => false end) ssrc payload clock_rate 0
      (match rtx with Some x => x.1 | None => 0 end) (match rtx with Some x => x.2 | None => 0 end))
    0 0 (mkParams (new_char PARAM_SET_SIZE) (new_char PARAM_SET_SIZE) 0 0)
    (replicate (Z.to_nat SEND_BUFFER_SIZE) empty_slot)
    (mkReports (mkNtp 0 0) 0 0 0 0) (mkReceiver 0 0 (S754_zero false) (float_of_int RTT_DEFAULT) (float_of_int RTT_DEFAULT))
    (mkResends 0 0 0) StreamStatics_new [].

Definition GetRtcpSr (now_ms : Z) (s : RtcSendStream) : outcome (RtcpSrPacket * RtcSendStream) :=
  sr_pkt ← RtcpSrPacket_new;
  ntp ← millisec_to_ntp now_ms;
  t ← chk_int64 (now_ms `quot` 1000 * ss_clock_rate_ (ids s));
  let s := set_sr_times ntp (u32 t) s in
  let r := reports s in
  sr_pkt ← SrSetSsrc (ss_ssrc_ (ids s)) sr_pkt;
  sr_pkt ← SetNtp (ntp_sec (last_sr_ntp_ts_ r)) (ntp_frac (last_sr_ntp_ts_ r)) sr_pkt;
  sr_pkt ← SetRtpTimestamp (last_sr_rtp_ts_ r) sr_pkt;
  sr_pkt ← SetPktCount (sent_count_ r) sr_pkt;
  sr_pkt ← SetBytesCount (sent_bytes_ r) sr_pkt;
  mret (sr_pkt, s).

(** A report is made and sent, as three callers do. *)
Definition send_report (now_ms : Z) (s : RtcSendStream) : outcome RtcSendStream :=
  let s := set_last_sr_ts now_ms s in
  '(sr, s) ← GetRtcpSr now_ms s;
  d ← SrGetData sr;
  mret (emit (SentRtcpPacket d) s).

(** The slot of the sequence number, where a clone of the packet is kept. *)
Definition SaveBuffer (now_ms : Z) (p : RtpPacket) (s : RtcSendStream) : outcome (bool * RtcSendStream) :=
  if ss_nack_enable_ (ids s) then
    seq ← GetSeq p;
    let index := Z.to_nat (seq mod SEND_BUFFER_SIZE) in
    match send_buffer_ s !! index with
    | None => Fault OutOfBounds
    | Some info =>
        r ← Clone None (new_char RTP_PACKET_MAX_SIZE) now_ms p;
        match r with
        | None => mret (false, set_send_buffer (<[index := mkSend (retry_count info) (last_ms info) None]> (send_buffer_ s)) s)
        | Some new_pkt => mret (true, set_send_buffer (<[index := mkSend 0 0 (Some new_pkt)]> (send_buffer_ s)) s)
        end
    end
  else mret (true, s).

(** The end of both functions below: the statistics, and the packet. *)
Definition send_datagram (now_ms : Z) (p : RtpPacket) (s : RtcSendStream) : outcome RtcSendStream :=
  let s := set_statics (Update (rtp_data_len_ p) now_ms (ss_statics_ s)) s in
  d ← GetDatagram p;
  mret (emit (SentRtpPacket d) s).

Definition SendVideoRtpPacket (now_ms : Z) (p : RtpPacket) (resend : bool) (s : RtcSendStream) : outcome (bool * RtcSendStream) :=
  let s := count_packet (rtp_data_len_ p) s in
  s ← (if last_sr_ts_ (reports s) =? 0 then send_report now_ms s else mret s);
  '(ok, s) ← (if negb resend then SaveBuffer now_ms p s else mret (true, s));
  if ok : bool then s ← send_datagram now_ms p s; mret (true, s) else mret (false, s).

Definition SendAudioRtpPacket (now_ms : Z) (p : RtpPacket) (s : RtcSendStream) : outcome RtcSendStream :=
  let s := count_packet (rtp_data_len_ p) s in
  s ← (if last_sr_ts_ (reports s) =? 0 then send_report now_ms s else mret s);
  send_datagram now_ms p s.

(** The fields of a packet, and the next sequence number. *)
Definition stamp (ts : Z) (p : RtpPacket) (s : RtcSendStream) : outcome (RtpPacket * RtcSendStream) :=
  p ← SetPayloadType (ss_pt_ (ids s)) p;
  p ← SetSsrc (ss_ssrc_ (ids s)) p;
  p ← SetSeq (seq_ s) p;
  let s := set_seq (u16 (seq_ s + 1)) s in
  p ← SetTimestamp (u32 ts) p;
  mret (p, s).

(** [dts * clock_rate / 1000] *)
Definition rtp_time (p : Media_Packet) (s : RtcSendStream) : outcome Z :=
  t ← chk_int64 (dts_ p * ss_clock_rate_ (ids s));
  mret (t `quot` 1000).

(** The length is a [uint8_t]. *)
Definition SendAudioPacket (now_ms : Z) (p : Media_Packet) (s : RtcSendStream) : outcome (bool * RtcSendStream) :=
  let data := Data (buffer_ptr_ p) in
  let len := u8 (DataLen (buffer_ptr_ p)) in
  ts ← rtp_time p s;
  r ← GenerateSinglePackets data len None now_ms;
  match r with
  | None => mret (false, s)
  | Some rtp =>
      '(rtp, s) ← stamp ts rtp s;
      rtp ← SetMarker 1 rtp;
      s ← SendAudioRtpPacket now_ms rtp s;
      mret (true, s)
  end.

(** The loop over the fragments. *)
Fixpoint send_fragments (now_ms ts : Z) (fuA_vec : list RtpPacket) (s : RtcSendStream) : outcome (bool * RtcSendStream) :=
  match fuA_vec with
  | [] => mret (true, s)
  | fuA_pkt :: fuA_vec =>
      '(fuA_pkt, s) ← stamp ts fuA_pkt s;
      '(ok, s) ← SendVideoRtpPacket now_ms fuA_pkt false s;
      if ok : bool then send_fragments now_ms ts fuA_vec s else mret (false, s)
  end.

(** The parameter sets, in one packet before a key frame. *)
Definition send_params_packet (now_ms ts : Z) (s : RtcSendStream) : outcome (bool * RtcSendStream) :=
  let ps := params s in
  r ← GenerateStapAPackets [(sps_ ps, sps_len_ ps); (pps_ ps, pps_len_ ps)] None now_ms;
  match r with
  | None => mret (false, s)
  | Some rtp =>
      '(rtp, s) ← stamp ts rtp s;
      rtp ← SetMarker 0 rtp;
      SendVideoRtpPacket now_ms rtp false s
  end.

(** What follows the parameter sets: one packet, or fragments. *)
Definition send_nalu (now_ms ts : Z) (data : bytes) (len : Z) (s : RtcSendStream) : outcome (bool * RtcSendStream) :=
  if len <=? kPayloadMaxSize then
    r ← GenerateSinglePackets data len None now_ms;
    match r with
    | None => mret (false, s)
    | Some rtp =>
        '(rtp, s) ← stamp ts rtp s;
        rtp ← SetMarker 1 rtp;
        SendVideoRtpPacket now_ms rtp false s
    end
  else
    r ← GenerateFuAPackets data len None now_ms;
    match r with
    | None => mret (false, s)
    | Some fuA_vec => send_fragments now_ms ts fuA_vec s
    end.

(** A parameter set is kept and not sent. *)
Definition keep_params (data : bytes) (len : Z) (s : RtcSendStream) : outcome RtcSendStream :=
  let ps := params s in
  if PARAM_SET_SIZE <=? len then mret s
  else
    b ← data.[0];
    let nalu_type := Z.land b 0x1f in
    ps ← (if H264_IS_SPS nalu_type then
            d ← read_range data 0 len; m ← write_at (sps_ ps) 0 d; mret (mkParams m (pps_ ps) len (pps_len_ ps))
          else mret ps);
    ps ← (if H264_IS_PPS nalu_type then
            d ← read_range data 0 len; m ← write_at (pps_ ps) 0 d; mret (mkParams (sps_ ps) m (sps_len_ ps) len)
          else mret ps);
    mret (set_params ps s).

(** The packet loses its start code, also for those who share it. *)
Definition SendH264Packet (now_ms : Z) (p : Media_Packet) (s : RtcSendStream) : outcome (bool * Media_Packet * RtcSendStream) :=
  ts ← rtp_time p s;
  pos ← GetNaluTypePos (Data (buffer_ptr_ p));
  b ← (buffer_ (buffer_ptr_ p)).[start_ (buffer_ptr_ p) + pos];
  if H264_IS_SEI b then mret (true, p, s)
  else
    let p := set_buffer_ptr (ConsumeData (buffer_ptr_ p) pos).2 p in
    let data := Data (buffer_ptr_ p) in
    let len := DataLen (buffer_ptr_ p) in
    if is_seq_hdr_ p then s ← keep_params data len s; mret (true, p, s)
    else
      '(ok, s) ← (if is_key_frame_ p && (0 <? sps_len_ (params s)) && (0 <? pps_len_ (params s))
                  then send_params_packet now_ms ts s else mret (true, s));
      if negb ok then mret (false, p, s)
      else '(ok, s) ← send_nalu now_ms ts data len s; mret (ok : bool, p, s).

Definition SendVideoPacket (now_ms : Z) (p : Media_Packet) (s : RtcSendStream) : outcome (bool * Media_Packet * RtcSendStream) :=
  if bool_decide (codec_type_ p = MEDIA_CODEC_H264) then SendH264Packet now_ms p s else mret (true, p, s).

Definition SendPacket (now_ms : Z) (p : Media_Packet) (s : RtcSendStream) : outcome (bool * Media_Packet * RtcSendStream) :=
  match av_type_ p with
  | MEDIA_VIDEO_TYPE => SendVideoPacket now_ms p s
  | MEDIA_AUDIO_TYPE => '(ok, s) ← SendAudioPacket now_ms p s; mret (ok : bool, p, s)
  | _ => mret (true, p, s)
  end.

Definition OnTimer (now_ts : Z) (s : RtcSendStream) : outcome RtcSendStream :=
  if 500 <? now_ts - last_sr_ts_ (reports s) then send_report now_ts s else mret s.

(** ** Retransmission *)

(** Whether the packet of a slot may be sent again, and what the slot becomes. *)
Definition retry (now_ms : Z) (avg_rtt : float) (info : SendRtpPacketInfo) : option SendRtpPacketInfo :=
  if last_ms info =? 0 then Some (mkSend 1 now_ms (pkt info))
  else
    let interval := if SFltb (float_of_int 10) avg_rtt then float_div avg_rtt (float_of_int 2) else avg_rtt in
    if SFltb (float_of_int (now_ms - last_ms info + 10)) interval then None
    else Some (mkSend (retry_count info + 1) now_ms (pkt info)).

Definition ResendRtpPacket (now_ms seq : Z) (s : RtcSendStream) : outcome (bool * RtcSendStream) :=
  let index := Z.to_nat (seq mod SEND_BUFFER_SIZE) in
  match send_buffer_ s !! index with
  | None => Fault OutOfBounds
  | Some info =>
      match pkt info with
      | None => mret (true, s)
      | Some p =>
          sq ← GetSeq p;
          if negb (sq =? seq) then mret (true, s)
          else
            match retry now_ms (avg_rtt_ (receiver s)) info with
            | None => mret (true, s)
            | Some info =>
                let s := set_send_buffer (<[index := info]> (send_buffer_ s)) s in
                let r := resends s in
                let s := set_resends (mkResends (resend_cnt_ r + 1) (last_resend_cnt_ r) (last_resend_statics_ms_ r)) s in
                if negb (ss_has_rtx_ (ids s)) then SendVideoRtpPacket now_ms p true s
                else
                  r ← Clone None (new_char RTP_PACKET_MAX_SIZE) now_ms p;
                  match r with
                  | None => mret (false, s)
                  | Some rtx_pkt =>
                      let rtx_seq := rtx_seq_ s in
                      let s := set_rtx_seq (u16 (rtx_seq + 1)) s in
                      rtx_pkt ← RtxMux (ss_rtx_payload_ (ids s)) (ss_rtx_ssrc_ (ids s)) rtx_seq rtx_pkt;
                      SendVideoRtpPacket now_ms rtx_pkt true s
                  end
            end
      end
  end.

Fixpoint resend_all (now_ms : Z) (seqs : list Z) (s : RtcSendStream) : outcome (bool * RtcSendStream) :=
  match seqs with
  | [] => mret (true, s)
  | seq :: seqs => '(ok, s) ← ResendRtpPacket now_ms seq s; if ok : bool then resend_all now_ms seqs s else mret (false, s)
  end.

Definition HandleRtcpNack (now_ms : Z) (nack_pkt : RtcpFbNack) (s : RtcSendStream) : outcome (bool * RtcSendStream) :=
  lost_seqs ← GetLostSeqs nack_pkt;
  if negb (ss_nack_enable_ (ids s)) then mret (true, s) else resend_all now_ms lost_seqs s.

(** ** Receiver reports *)

(** The time a report has been on its way, in units of 1/65536 second: 0 where the
    report gives none. *)
Definition report_rtt (compact lsr dlsr : Z) : Z :=
  if negb (lsr =? 0) && negb (dlsr =? 0) && (u32 (dlsr + lsr) <? compact) then u32 (compact - dlsr - lsr) else 0.

(** [rtt_], from that time. *)
Definition rtt_millisec (rtt : Z) : float :=
  let rtt_ := narrow (double_mul (float_of_int (Z.shiftr rtt 16)) (double_of_int 1000)) in
  narrow (double_add rtt_ (double_mul (double_div (float_of_int (Z.land rtt 0xffff)) (double_of_int 65536)) (double_of_int 1000))).

Definition HandleRtcpRr (now_ms : Z) (block : bytes) (s : RtcSendStream) : outcome RtcSendStream :=
  let r := receiver s in
  lost_total ← GetCumulativeLost block;
  frac_lost ← GetFracLost block;
  let lost_rate := narrow (double_div (double_of_int frac_lost) (double_of_int 256)) in
  jitter ← GetJitter block;
  lsr ← GetLsr block;
  dlsr ← GetDlsr block;
  if lsr =? 0 then mret (set_receiver (mkReceiver jitter lost_total lost_rate (float_of_int RTT_DEFAULT) (avg_rtt_ r)) s)
  else
    now_ntp ← millisec_to_ntp now_ms;
    let rtt_ := rtt_millisec (report_rtt (compact_ntp now_ntp) lsr dlsr) in
    let avg_rtt := narrow (double_add (avg_rtt_ r) (double_div (float_sub rtt_ (avg_rtt_ r)) (double_of_int 4))) in
    mret (set_receiver (mkReceiver jitter lost_total lost_rate rtt_ avg_rtt) s).

(** ** Statistics *)

Definition GetRtt (s : RtcSendStream) : outcome Z := uint32_of (avg_rtt_ (receiver s)).

(** [kbits], and [pps] where it is written. *)
Definition GetStatics (now_ms : Z) (s : RtcSendStream) : Z * option Z * RtcSendStream :=
  let '(speed, pps, st) := BytesPerSecond now_ms (ss_statics_ s) in
  (u64 (speed * 8) / 1000, pps, set_statics st s).

(** The count, and [resend_pps]. *)
Definition GetResendCount (now_ms : Z) (s : RtcSendStream) : Z * Z * RtcSendStream :=
  let r := resends s in
  if last_resend_statics_ms_ r <=? 0 then (resend_cnt_ r, 0, set_resends (mkResends (resend_cnt_ r) (resend_cnt_ r) now_ms) s)
  else
    let diff_ms := now_ms - last_resend_statics_ms_ r in
    let resend_pps := if 0 <? diff_ms then ((resend_cnt_ r - last_resend_cnt_ r) * 1000) `quot` diff_ms else 0 in
    (resend_cnt_ r, resend_pps, set_resends (mkResends (resend_cnt_ r) (resend_cnt_ r) now_ms) s).
End send.
