(* ===== verification/RtcDatagram.v ===== *)
(** * [RtcDatagram]: a packet as it is made, kept, sent, parsed and copied

    A packet of the senders holds a fixed header and a payload, with the rest of a
    buffer behind it; what is sent is the header and the payload, and parsing or
    cloning them gives such a packet again. *)
From Stdlib Require Import Floats.SpecFloat.
From S2P Require Import Prelude ByteStream DataBuffer Media H264 RtpPacket Rtx RtpClone RtpPack RtcpNack Rtcp RtcTime RtcSend.

(** The fixed header. *)
Definition rtp_header (b1 : Z) (s t ss : bytes) : bytes := [0x80] ++ [b1] ++ s ++ t ++ ss.

(** What is sent of a packet with these fields. *)
Definition datagram (b1 seq ts ssrc : Z) (d : bytes) : bytes :=
  rtp_header b1 (Write2Bytes seq) (Write4Bytes ts) (Write4Bytes ssrc) ++ d.

(** A packet with this header and payload; [own] is whether it deletes its buffer. *)
Definition holds (own : bool) (b1 : Z) (s t ss : bytes) (ms : Z) (d : bytes) (p : RtpPacket) : Prop :=
  exists tail, p = set_need_delete own (made_rtp b1 s t ss (d ++ tail) (zlen d) ms).

(** A payload that fits a packet that can be cloned. *)
Definition fits (d : bytes) : Prop := 1 <= zlen d < RTP_PACKET_MAX_SIZE - RTP_HEADER_SIZE.

Section datagram.
Context (b1 : Z) (s t ss : bytes) (Hs : zlen s = 2) (Ht : zlen t = 4) (Hss : zlen ss = 4).
Context (d : bytes) (Hd : fits d).

Lemma zlen_rtp_header : zlen (rtp_header b1 s t ss) = RTP_HEADER_SIZE.
Proof. unfold rtp_header. rewrite !zlen_app, Hs, Ht, Hss. done. Qed.

Lemma holds_mem own ms p : holds own b1 s t ss ms d p -> exists tail,
  mem_ p = rtp_header b1 s t ss ++ d ++ tail /\ rtp_data_len_ p = RTP_HEADER_SIZE + zlen d /\ payload_ p = RTP_HEADER_SIZE /\
  payload_len_ p = zlen d /\ local_ms_ p = ms /\ mid_extension_id_ p = 0 /\ abs_time_extension_id_ p = 0.
Proof. intros (tail & ->). by exists tail. Qed.

Lemma GetDatagram_holds own ms p : holds own b1 s t ss ms d p -> GetDatagram p = Done (rtp_header b1 s t ss ++ d).
Proof.
  intros (tail & Hm & Hl & _)%holds_mem. unfold GetDatagram. rewrite Hm, Hl, app_assoc. apply read_range_app.
  by rewrite zlen_app, zlen_rtp_header.
Qed.

Lemma GetSeq_holds own ms p : holds own b1 s t ss ms d p -> GetSeq p = Done (be_value s) /\ GetTimestamp p = Done (be_value t) /\
  GetSsrc p = Done (be_value ss).
Proof.
  intros (tail & ->). destruct (layout_reads 0x80 b1 s t ss [] (d ++ tail) Hs Ht Hss
    (set_need_delete own (made_rtp b1 s t ss (d ++ tail) (zlen d) ms)) eq_refl) as (? & ? & ? & _). by split_and!.
Qed.

Lemma Parse_made behind now :
  Parse ((rtp_header b1 s t ss ++ d) ++ behind) (zlen (rtp_header b1 s t ss ++ d)) now =
  Done (Some (set_need_delete false (made_rtp b1 s t ss (d ++ behind) (zlen d) now))).
Proof.
  rewrite zlen_app, zlen_rtp_header, <- app_assoc. pose proof (Parse_layout b1 s t ss (d ++ behind) (zlen d) now) as H.
  unfold layout in H. cbn [app] in H |- *. unfold rtp_header. cbn [app]. apply H. unfold fits in Hd. lia.
Qed.

Lemma Parse_datagram behind now : exists p,
  Parse ((rtp_header b1 s t ss ++ d) ++ behind) (zlen (rtp_header b1 s t ss ++ d)) now = Done (Some p) /\ holds false b1 s t ss now d p.
Proof. eexists. split; [apply Parse_made|]. by exists behind. Qed.

(** A clone has a buffer of the full size. *)
Lemma Clone_made own ms p `{Alloc : Allocator} (into : bool) now : holds own b1 s t ss ms d p -> exists tail,
  Clone (if into then Some (new_char RTP_PACKET_MAX_SIZE) else None) (new_char RTP_PACKET_MAX_SIZE) now p =
    Done (Some (set_need_delete (negb into) (made_rtp b1 s t ss (d ++ tail) (zlen d) now))) /\
  zlen tail = RTP_PACKET_MAX_SIZE - RTP_HEADER_SIZE - zlen d.
Proof.
  intros Hh. pose proof (GetDatagram_holds _ _ _ Hh) as Hdg. unfold GetDatagram in Hdg.
  apply holds_mem in Hh as (tail & Hm & Hl & _ & _ & _ & Hmid & Habs). unfold Clone. rewrite Hdg, Hl, Hmid, Habs.
  unfold fits in Hd. rewrite (proj2 (Z.ltb_lt _ _)) by lia. unfold cassert. simpl_m.
  replace (match (if into then Some (new_char RTP_PACKET_MAX_SIZE) else None) with Some b => b | None => new_char RTP_PACKET_MAX_SIZE end)
    with (new_char RTP_PACKET_MAX_SIZE) by by destruct into.
  pose proof Parse_made as Hparse. set (h := rtp_header b1 s t ss) in *. set (new := new_char RTP_PACKET_MAX_SIZE).
  assert (zlen new = RTP_PACKET_MAX_SIZE) as Hn by (by apply new_char_length).
  assert (zlen (h ++ d) = RTP_HEADER_SIZE + zlen d) as Hhd by (unfold h; by rewrite zlen_app, zlen_rtp_header).
  rewrite write_at_prefix by lia. simpl_m. rewrite <- Hhd, Hparse. simpl_m.
  exists (drop (Z.to_nat (zlen (h ++ d))) new). split; [by destruct into|]. unfold fits, RTP_PACKET_MAX_SIZE, RTP_HEADER_SIZE in *.
  pose proof (zlen_nonneg d). rewrite zlen_drop by lia. lia.
Qed.

Lemma Clone_holds own ms p `{Alloc : Allocator} (into : bool) now : holds own b1 s t ss ms d p -> exists p',
  Clone (if into then Some (new_char RTP_PACKET_MAX_SIZE) else None) (new_char RTP_PACKET_MAX_SIZE) now p = Done (Some p') /\
  holds (negb into) b1 s t ss now d p'.
Proof. intros (tail & -> & _)%(Clone_made _ _ _ into now). eexists. split; [done|]. by exists tail. Qed.
End datagram.

Lemma carries_holds `{Alloc : Allocator} b1 s t ss now d p : carries b1 s t ss now d p -> holds true b1 s t ss now d p.
Proof. intros (tail & _ & ->). by exists tail. Qed.

(** ** The fields the stream sets *)

Section sender.
Context `{Alloc : Allocator}.

Lemma stamp_carries b1 s0 t0 ss0 now d p ts s :
  zlen s0 = 2 -> zlen t0 = 4 -> zlen ss0 = 4 -> carries b1 s0 t0 ss0 now d p ->
  exists p', stamp ts p s = Done (p', set_seq (u16 (seq_ s + 1)) s) /\
    carries (put_bits b1 0 7 (ss_pt_ (ids s))) (Write2Bytes (seq_ s)) (Write4Bytes (u32 ts)) (Write4Bytes (ss_ssrc_ (ids s))) now d p'.
Proof.
  intros Hs Ht Hss Hp. unfold stamp.
  destruct (SetPayloadType_carries _ _ _ _ _ _ _ Hs Ht Hss Hp (ss_pt_ (ids s))) as (p1 & -> & Hp1). simpl_m.
  destruct (SetSsrc_carries _ _ _ _ _ _ _ Hs Ht Hss Hp1 (ss_ssrc_ (ids s))) as (p2 & -> & Hp2). simpl_m.
  destruct (SetSeq_carries _ s0 t0 (Write4Bytes (ss_ssrc_ (ids s))) _ _ _ Hs Ht eq_refl Hp2 (seq_ s)) as (p3 & -> & Hp3). simpl_m.
  destruct (SetTimestamp_carries _ (Write2Bytes (seq_ s)) t0 (Write4Bytes (ss_ssrc_ (ids s))) _ _ _ eq_refl Ht Hp3 (u32 ts)) as (p4 & -> & Hp4). simpl_m. by exists p4.
Qed.

(** ** What may be sent *)

(** What the stream needs to be: its ring of packets, a clock rate that a time can be multiplied with. *)
Definition MAX_TIME : Z := 2 ^ 42.
Definition stream_ok (s : RtcSendStream) : Prop :=
  length (send_buffer_ s) = Z.to_nat SEND_BUFFER_SIZE /\ 0 < ss_clock_rate_ (ids s) < 2 ^ 20 /\ 0 <= seq_ s < 2 ^ 16.

(** The RTP packets among what has been sent. *)
Definition rtp_of (l : list sent_event) : list bytes :=
  omap (fun e => match e with SentRtpPacket d => Some d | SentRtcpPacket _ => None end) l.

(** What sending does not change. *)
Definition same_stream (s s' : RtcSendStream) : Prop :=
  ids s' = ids s /\ seq_ s' = seq_ s /\ params s' = params s /\ length (send_buffer_ s') = length (send_buffer_ s).

Lemma same_stream_refl s : same_stream s s.
Proof. by split_and!. Qed.
Lemma same_stream_trans s1 s2 s3 : same_stream s1 s2 -> same_stream s2 s3 -> same_stream s1 s3.
Proof. intros (? & ? & ? & ?) (? & ? & ? & ?). split_and!; congruence. Qed.

Lemma stream_ok_same s s' : same_stream s s' -> stream_ok s -> stream_ok s'.
Proof. intros (Hi & Hq & _ & Hb) (? & ? & ?). unfold stream_ok. rewrite Hi, Hq, Hb. tauto. Qed.

(** A sender report, and what is in it. *)
Definition sr_rtp_time (now : Z) (s : RtcSendStream) : Z := u32 (now / 1000 * ss_clock_rate_ (ids s)).

Lemma GetRtcpSr_spec now s : stream_ok s -> 0 <= now < MAX_TIME -> exists sr,
  GetRtcpSr now s = Done (sr, set_sr_times (ntp_of now) (sr_rtp_time now s) s) /\
  SrGetData sr = Done (sr_bytes (ss_ssrc_ (ids s)) (ntp_sec (ntp_of now)) (ntp_frac (ntp_of now)) (sr_rtp_time now s)
    (sent_count_ (reports s)) (sent_bytes_ (reports s))).
Proof.
  intros (_ & Hrate & _) Hnow. unfold MAX_TIME in Hnow. destruct (millisec_to_ntp_spec now) as [Hn _]; [lia|].
  unfold GetRtcpSr. rewrite Hn. rewrite Z.quot_div_nonneg by lia.
  assert (0 <= now / 1000 < 2 ^ 42) as Hsec by div_lia.
  assert (0 <= now / 1000 * ss_clock_rate_ (ids s) < 2 ^ 62) as Hprod.
  { split; [apply Z.mul_nonneg_nonneg; lia|]. change (2 ^ 62) with (2 ^ 42 * 2 ^ 20). apply Z.mul_lt_mono_nonneg; lia. }
  pose proof (sr_filled (ss_ssrc_ (ids s)) (ntp_sec (ntp_of now)) (ntp_frac (ntp_of now)) (sr_rtp_time now s) (sent_count_ (reports s))
    (sent_bytes_ (reports s))) as Hfill. eexists. split; [|apply sr_packet_data].
  destruct RtcpSrPacket_new as [sr|]; [|done]. revert Hfill. simpl_m. rewrite chk_int64_ok by lia. simpl_m. fold (sr_rtp_time now s).
  cbn [reports set_sr_times set_reports last_sr_ntp_ts_ last_sr_rtp_ts_ sent_count_ sent_bytes_ ids].
  destruct (SrSetSsrc _ sr) as [sr1|]; [|done]. simpl_m. destruct (SetNtp _ _ sr1) as [sr2|]; [|done]. simpl_m.
  destruct (SetRtpTimestamp _ sr2) as [sr3|]; [|done]. simpl_m. destruct (SetPktCount _ sr3) as [sr4|]; [|done]. simpl_m.
  intros ->. done.
Qed.

Lemma send_report_spec now s : stream_ok s -> 0 <= now < MAX_TIME -> exists s' d,
  send_report now s = Done s' /\ same_stream s s' /\ ss_log_ s' = ss_log_ s ++ [SentRtcpPacket d].
Proof.
  intros Hok Hnow. unfold send_report. set (s1 := set_last_sr_ts now s).
  destruct (GetRtcpSr_spec now s1) as (sr & -> & Hd); [done..|]. simpl_m. rewrite Hd. simpl_m.
  eexists _, _. split; [reflexivity|]. by split.
Qed.

(** ** Sending a packet *)

Definition video_header (b1 : Z) (s : RtcSendStream) (ts : Z) : bytes :=
  rtp_header b1 (Write2Bytes (seq_ s)) (Write4Bytes (u32 ts)) (Write4Bytes (ss_ssrc_ (ids s))).

Lemma SaveBuffer_spec b1 s0 t0 ss0 ms d p now s :
  zlen s0 = 2 -> bytes_ok s0 -> zlen t0 = 4 -> zlen ss0 = 4 -> fits d -> holds true b1 s0 t0 ss0 ms d p -> stream_ok s ->
  exists s', SaveBuffer now p s = Done (true, s') /\ same_stream s s' /\ ss_log_ s' = ss_log_ s /\ reports s' = reports s.
Proof.
  intros Hs Hsb Ht Hss Hd Hp (Hb & _). unfold SaveBuffer. destruct (ss_nack_enable_ (ids s)).
  - destruct (GetSeq_holds b1 s0 t0 ss0 Hs Ht Hss d _ _ _ Hp) as (-> & _). simpl_m.
    pose proof (Z.mod_pos_bound (be_value s0) SEND_BUFFER_SIZE eq_refl) as Hi. set (index := Z.to_nat _).
    destruct (send_buffer_ s !! index) as [info|] eqn:E.
    + destruct (Clone_holds b1 s0 t0 ss0 Hs Ht Hss d Hd _ _ _ false now Hp) as (p' & -> & _). simpl_m.
      eexists. split; [reflexivity|]. split; [|by split]. split_and!; [done..|]. cbn. apply length_insert.
    + apply lookup_ge_None in E. unfold index in E. unfold SEND_BUFFER_SIZE in *. lia.
  - exists s. split; [done|]. split; [apply same_stream_refl|done].
Qed.

Lemma SendVideoRtpPacket_spec b1 s0 t0 ss0 ms d p now resend s :
  zlen s0 = 2 -> bytes_ok s0 -> zlen t0 = 4 -> zlen ss0 = 4 -> fits d -> holds true b1 s0 t0 ss0 ms d p -> stream_ok s -> 0 <= now < MAX_TIME ->
  exists s', SendVideoRtpPacket now p resend s = Done (true, s') /\ same_stream s s' /\
    rtp_of (ss_log_ s') = rtp_of (ss_log_ s) ++ [rtp_header b1 s0 t0 ss0 ++ d].
Proof.
  intros Hs Hsb Ht Hss Hd Hp Hok Hnow. unfold SendVideoRtpPacket. set (s1 := count_packet _ s).
  assert (same_stream s s1) as H1 by by split_and!.
  assert (exists s2, (if last_sr_ts_ (reports s1) =? 0 then send_report now s1 else Done s1) = Done s2 /\ same_stream s s2 /\
    rtp_of (ss_log_ s2) = rtp_of (ss_log_ s)) as (s2 & Hrep & H2 & Hlog2).
  { destruct (last_sr_ts_ (reports s1) =? 0); [|by exists s1].
    destruct (send_report_spec now s1) as (s2 & dr & -> & Hs2 & Hl2); [by eapply stream_ok_same|done|].
    exists s2. split; [done|]. split; [by eapply same_stream_trans|]. unfold rtp_of. rewrite Hl2, omap_app. apply app_nil_r. }
  simpl_m. rewrite Hrep. simpl_m.
  assert (exists s3, (if negb resend then SaveBuffer now p s2 else Done (true, s2)) = Done (true, s3) /\ same_stream s2 s3 /\
    ss_log_ s3 = ss_log_ s2) as (s3 & Hsave & H3 & Hlog3).
  { destruct resend; cbn [negb]; [exists s2; split; [done|]; split; [apply same_stream_refl|done]|].
    destruct (SaveBuffer_spec b1 s0 t0 ss0 ms d p now s2) as (s3 & ? & ? & ? & ?); [done..|by eapply stream_ok_same|]. by exists s3. }
  rewrite Hsave. simpl_m. unfold send_datagram. rewrite (GetDatagram_holds b1 s0 t0 ss0 Hs Ht Hss d _ _ _ Hp). simpl_m.
  eexists. split; [reflexivity|]. split; [by eapply same_stream_trans; [exact H2|exact H3]|].
  unfold rtp_of in *. cbn [emit ss_log_ set_statics]. rewrite omap_app, Hlog3, Hlog2. done.
Qed.
End sender.
