(* ===== verification/RtcSending.v ===== *)
(** * [RtcSending]: what a stream sends of a NAL unit

    The datagrams of [SendH264Packet]: the payloads of a NAL unit, numbered one after
    the other, with the timestamp and the ssrc of the stream. *)
From Stdlib Require Import Floats.SpecFloat.
From S2P Require Import Prelude ByteStream DataBuffer Media H264 RtpPacket Rtx RtpClone RtpPack Rtcp RtcTime RtcSend RtcDatagram.

(** The payloads of a NAL unit: itself, or fragments. *)
Definition packed (nalu : bytes) (ps : list bytes) : Prop :=
  (zlen nalu <= kPayloadMaxSize /\ ps = [nalu]) \/
  (kPayloadMaxSize < zlen nalu /\ exists hdr body sizes, nalu = hdr :: body /\ Forall (fun s => 1 <= s <= kPayloadMaxSize) sizes /\
     zsum sizes = zlen body /\ ps = map snd (fragments hdr body sizes true)).

(** Datagrams that carry these payloads from number [seq] on. *)
Fixpoint sent (seq ts ssrc : Z) (ps ds : list bytes) : Prop :=
  match ps, ds with
  | [], [] => True
  | p :: ps, d :: ds => (exists b1, d = datagram b1 seq ts ssrc p) /\ sent (u16 (seq + 1)) ts ssrc ps ds
  | _, _ => False
  end.

Lemma sent_app seq ts ssrc ps1 ds1 ps2 ds2 :
  0 <= seq < 2 ^ 16 -> sent seq ts ssrc ps1 ds1 -> sent (u16 (seq + zlen ps1)) ts ssrc ps2 ds2 -> sent seq ts ssrc (ps1 ++ ps2) (ds1 ++ ds2).
Proof.
  revert seq ds1. induction ps1 as [|p ps1 IH]; intros seq [|d ds1] Hq; cbn [sent app]; [| done.. |].
  - intros _. change (zlen []) with 0. rewrite Z.add_0_r, u16_small by lia. done.
  - intros [Hd H1] H2. split; [done|]. apply IH; [apply Z.mod_pos_bound; lia|done|]. rewrite zlen_cons in H2.
    replace (u16 (u16 (seq + 1) + zlen ps1)) with (u16 (seq + (1 + zlen ps1))); [done|].
    unfold u16. rewrite Zplus_mod_idemp_l. f_equal. lia.
Qed.

Lemma sent_length seq ts ssrc ps ds : sent seq ts ssrc ps ds -> length ds = length ps.
Proof. revert seq ds. induction ps as [|p ps IH]; intros seq [|d ds]; cbn; [done..|]. intros [_ H]. f_equal. by eapply IH. Qed.

(** A stream that has sent [n] packets more. *)
Definition advanced (n : Z) (s s' : RtcSendStream) : Prop :=
  ids s' = ids s /\ seq_ s' = u16 (seq_ s + n) /\ params s' = params s /\ length (send_buffer_ s') = length (send_buffer_ s).

Lemma stream_ok_advanced n s s' : advanced n s s' -> stream_ok s -> stream_ok s'.
Proof. intros (Hi & Hq & _ & Hb) (? & ? & ?). unfold stream_ok. rewrite Hi, Hq, Hb. split_and!; try tauto; apply Z.mod_pos_bound; lia. Qed.

Lemma advanced_trans n1 n2 s1 s2 s3 : advanced n1 s1 s2 -> advanced n2 s2 s3 -> advanced (n1 + n2) s1 s3.
Proof.
  intros (? & Hq & ? & ?) (? & Hq' & ? & ?). unfold advanced. rewrite Hq', Hq. unfold u16. rewrite Zplus_mod_idemp_l, <- Z.add_assoc.
  repeat split; congruence.
Qed.

(** A run that sends these payloads. *)
Definition sends (ts : Z) (ps : list bytes) (s : RtcSendStream) (r : outcome (bool * RtcSendStream)) : Prop :=
  exists s' ds, r = Done (true, s') /\ advanced (zlen ps) s s' /\ rtp_of (ss_log_ s') = rtp_of (ss_log_ s) ++ ds /\
    sent (seq_ s) (u32 ts) (ss_ssrc_ (ids s)) ps ds.

Section sending.
Context `{Alloc : Allocator}.

Lemma Write2Bytes_ok v : bytes_ok (Write2Bytes v).
Proof. rewrite Write2Bytes_be. apply be_bytes_ok. Qed.

Lemma same_advanced s s1 s2 : s1 = set_seq (u16 (seq_ s + 1)) s -> same_stream s1 s2 -> advanced 1 s s2.
Proof. intros -> (? & ? & ? & ?). by split_and!. Qed.

(** A stamped packet, once it is sent. *)
Lemma send_stamped b1 d p ts now ms s :
  carries b1 (Write2Bytes (seq_ s)) (Write4Bytes (u32 ts)) (Write4Bytes (ss_ssrc_ (ids s))) ms d p -> fits d -> stream_ok s -> 0 <= now < MAX_TIME ->
  sends ts [d] s (SendVideoRtpPacket now p false (set_seq (u16 (seq_ s + 1)) s)).
Proof.
  intros Hp Hd Hok Hnow. set (s1 := set_seq _ s). assert (stream_ok s1) as Hok1.
  { destruct Hok as (? & ? & ?). split_and!; try tauto; apply Z.mod_pos_bound; lia. }
  destruct (SendVideoRtpPacket_spec b1 (Write2Bytes (seq_ s)) (Write4Bytes (u32 ts)) (Write4Bytes (ss_ssrc_ (ids s))) ms d p now false s1 eq_refl (Write2Bytes_ok _) eq_refl eq_refl Hd (carries_holds _ _ _ _ _ _ _ Hp) Hok1 Hnow)
    as (s' & Hs' & Hsame & Hlog).
  exists s', [datagram b1 (seq_ s) (u32 ts) (ss_ssrc_ (ids s)) d]. split; [done|]. split; [by eapply same_advanced|].
  split; [done|]. split; [|done]. by exists b1.
Qed.

(** One packet: stamped, marked and sent. *)
Lemma send_one d p ts now ms mk s :
  carries 0 (zeros 2) (zeros 4) (zeros 4) ms d p -> fits d -> stream_ok s -> 0 <= now < MAX_TIME ->
  sends ts [d] s ('(rtp, s) ← stamp ts p s; rtp ← SetMarker mk rtp; SendVideoRtpPacket now rtp false s).
Proof.
  intros Hp Hd Hok Hnow. destruct (stamp_carries 0 (zeros 2) (zeros 4) (zeros 4) ms d p ts s eq_refl eq_refl eq_refl Hp) as (p1 & -> & Hp1). simpl_m.
  destruct (SetMarker_carries _ (Write2Bytes (seq_ s)) (Write4Bytes (u32 ts)) (Write4Bytes (ss_ssrc_ (ids s))) ms d p1 eq_refl eq_refl eq_refl Hp1 mk) as (p2 & -> & Hp2). simpl_m. by eapply send_stamped.
Qed.

Lemma send_fragments_spec frs packets ts now ms s :
  Forall2 (fun x p => carries x.1 (zeros 2) (zeros 4) (zeros 4) ms x.2 p) frs packets -> Forall (fun x => fits x.2) frs ->
  stream_ok s -> 0 <= now < MAX_TIME -> sends ts (map snd frs) s (send_fragments now ts packets s).
Proof.
  intros Hall. revert s. induction Hall as [|[b1 d] p frs packets Hp _ IH]; intros s Hf Hok Hnow; cbn [send_fragments map fst snd] in *.
  { exists s, []. split; [done|]. split; [|by rewrite app_nil_r]. destruct Hok as (? & ? & ?). unfold advanced. change (zlen []) with 0.
    rewrite Z.add_0_r, u16_small by lia. by split_and!. }
  apply Forall_cons in Hf as [Hd Hf]. cbn [snd] in Hd.
  destruct (stamp_carries b1 (zeros 2) (zeros 4) (zeros 4) ms d p ts s eq_refl eq_refl eq_refl Hp) as (p1 & -> & Hp1). simpl_m.
  destruct (send_stamped _ d p1 ts now ms s Hp1 Hd Hok Hnow) as (s1 & ds1 & -> & Ha1 & Hlog1 & Hs1). simpl_m.
  destruct (IH s1 Hf) as (s2 & ds2 & -> & Ha2 & Hlog2 & Hs2); [by eapply stream_ok_advanced|done|].
  exists s2, (ds1 ++ ds2). split; [done|]. rewrite zlen_cons. split; [by eapply advanced_trans|].
  split; [by rewrite Hlog2, Hlog1, app_assoc|]. change (d :: map snd frs) with ([d] ++ map snd frs).
  destruct Hok as (_ & _ & Hq). apply sent_app; [done|done|]. destruct Ha1 as (Hi & Hq1 & _). by rewrite Hi, Hq1 in Hs2.
Qed.

Lemma fragments_fit hdr body sizes first : Forall (fun s => 1 <= s <= kPayloadMaxSize) sizes -> zsum sizes <= zlen body ->
  Forall (fun x => fits x.2) (fragments hdr body sizes first).
Proof.
  intros Hs. revert body first. induction Hs as [|size rest Hsize Hrest IH]; intros body first Hsum; cbn [fragments]; constructor.
  - cbn [zsum] in Hsum. assert (0 <= zsum rest) by (clear -Hrest; induction Hrest; cbn; lia). cbn [snd]. unfold fits.
    set (x := [_; _]). rewrite zlen_app, zlen_take by lia. change (zlen x) with 2. unfold kPayloadMaxSize, RTP_PACKET_MAX_SIZE, RTP_HEADER_SIZE in *. lia.
  - cbn [zsum] in Hsum. assert (0 <= zsum rest) by (clear -Hrest; induction Hrest; cbn; lia). apply IH. rewrite zlen_drop; lia.
Qed.

Lemma send_nalu_spec hdr body behind ts now s :
  is_byte hdr -> bytes_ok body -> zlen body < 2 ^ 30 -> stream_ok s -> 0 <= now < MAX_TIME ->
  exists ps, packed (hdr :: body) ps /\ sends ts ps s (send_nalu now ts ((hdr :: body) ++ behind) (zlen (hdr :: body)) s).
Proof.
  intros Hh Hb Hl Hok Hnow. pose proof (zlen_nonneg body). unfold send_nalu. destruct (Z.leb_spec (zlen (hdr :: body)) kPayloadMaxSize) as [Hsmall|Hbig].
  - exists [hdr :: body]. split; [by left|]. unfold kPayloadMaxSize in Hsmall. assert (fits (hdr :: body)) as Hf.
    { unfold fits, RTP_PACKET_MAX_SIZE, RTP_HEADER_SIZE. rewrite zlen_cons in *. lia. }
    destruct (GenerateSinglePackets_spec (hdr :: body) behind now) as (p & -> & Hp); [by constructor|unfold fits in Hf; lia|]. simpl_m.
    by eapply send_one.
  - destruct (GenerateFuAPackets_spec hdr body behind now Hh Hb) as (sizes & packets & Hs & Hsum & -> & Hc); [lia|].
    exists (map snd (fragments hdr body sizes true)). split; [right; split; [done|]; by exists hdr, body, sizes|]. simpl_m.
    eapply send_fragments_spec; [exact Hc|apply fragments_fit; [done|lia]|done|done].
Qed.

(** ** The parameter sets that are kept *)

(** A parameter set in its array of 512 bytes, none yet where the string is empty. *)
Definition kept (d m : bytes) (len : Z) : Prop :=
  zlen m = PARAM_SET_SIZE /\ bytes_ok d /\ len = zlen d /\ zlen d < PARAM_SET_SIZE /\ exists rest, m = d ++ rest.
Definition params_are (sps pps : bytes) (ps : send_params) : Prop := kept sps (sps_ ps) (sps_len_ ps) /\ kept pps (pps_ ps) (pps_len_ ps).

Lemma kept_new : kept [] (new_char PARAM_SET_SIZE) 0.
Proof. split_and!; [by apply new_char_length|constructor|done|done|]. by eexists. Qed.

Lemma kept_write d m len n behind : kept d m len -> bytes_ok n -> zlen n < PARAM_SET_SIZE ->
  exists m', (d ← read_range (n ++ behind) 0 (zlen n); write_at m 0 d) = Done m' /\ kept n m' (zlen n).
Proof.
  intros (Hm & _) Hn Hl. rewrite read_range_app by done. simpl_m. rewrite write_at_prefix by lia. eexists. split; [done|].
  pose proof (zlen_nonneg n). split_and!; [rewrite zlen_app, zlen_drop; lia|done|done|done|by eexists].
Qed.

Lemma send_params_spec hdr sps pps ts now s :
  params_are (hdr :: sps) pps (params s) -> 1 <= zlen pps -> stream_ok s -> 0 <= now < MAX_TIME ->
  sends ts [stap_payload hdr [hdr :: sps; pps]] s (send_params_packet now ts s).
Proof.
  intros [(_ & Hsb & Hsn & Hsl & rs & Hs) (_ & Hpb & Hpn & Hpl & rp & Hp)] Hne Hok Hnow. unfold send_params_packet. rewrite Hs, Hp, Hsn, Hpn.
  set (vec := [((hdr :: sps), rs); (pps, rp)]). change [((hdr :: sps) ++ rs, zlen (hdr :: sps)); (pps ++ rp, zlen pps)] with (nalu_vec vec).
  assert (fits (stap_payload hdr (map fst vec))) as Hf.
  { unfold fits, stap_payload. cbn [map fst vec concat]. rewrite !zlen_app, !zlen_stap_unit. change (zlen [_]) with 1. change (zlen []) with 0.
    pose proof (zlen_nonneg (hdr :: sps)). unfold PARAM_SET_SIZE, RTP_PACKET_MAX_SIZE, RTP_HEADER_SIZE in *. lia. }
  destruct (GenerateStapAPackets_spec hdr sps rs [(pps, rp)] now) as (p & Hg & Hc).
  - cbn [map fst]. apply Forall_cons. split; [exact Hsb|]. apply Forall_singleton. exact Hpb.
  - unfold fits, vec in Hf. lia.
  - unfold vec. rewrite Hg. simpl_m. by eapply send_one.
Qed.

(** What the stream keeps after a parameter set. *)
Definition keep_set (n : bytes) (q : bytes * bytes) : bytes * bytes :=
  if PARAM_SET_SIZE <=? zlen n then q
  else
    match n with
    | [] => q
    | b :: _ => (if H264_IS_SPS (Z.land b 0x1f) then n else q.1, if H264_IS_PPS (Z.land b 0x1f) then n else q.2)
    end.

Lemma keep_params_spec hdr body behind q s :
  bytes_ok (hdr :: body) -> params_are q.1 q.2 (params s) ->
  exists ps, keep_params ((hdr :: body) ++ behind) (zlen (hdr :: body)) s = Done (set_params ps s) /\
    params_are (keep_set (hdr :: body) q).1 (keep_set (hdr :: body) q).2 ps.
Proof.
  intros Hn [Hs Hp]. unfold keep_params, keep_set. destruct (Z.leb_spec PARAM_SET_SIZE (zlen (hdr :: body))) as [|Hl].
  { exists (params s). split; [|done]. by destruct s. }
  change (rd ((hdr :: body) ++ behind) 0) with (Done hdr). simpl_m. set (n := hdr :: body) in *. cbn [fst snd].
  destruct (kept_write _ _ _ n behind Hs Hn Hl) as (m1 & H1 & Hm1). destruct (kept_write _ _ _ n behind Hp Hn Hl) as (m2 & H2 & Hm2).
  rewrite read_range_app in * by done. revert H1 H2. simpl_m. intros H1 H2.
  destruct (H264_IS_SPS (Z.land hdr 31)).
  - rewrite ?read_range_app by done. simpl_m. rewrite H1. simpl_m. cbn [pps_ sps_ sps_len_ pps_len_]. destruct (H264_IS_PPS (Z.land hdr 31)).
    + rewrite ?read_range_app by done. simpl_m. rewrite H2. simpl_m. eexists. split; [reflexivity|]. by split.
    + eexists. split; [reflexivity|]. by split.
  - destruct (H264_IS_PPS (Z.land hdr 31)).
    + rewrite ?read_range_app by done. simpl_m. rewrite H2. simpl_m. eexists. split; [reflexivity|]. by split.
    + eexists. split; [reflexivity|]. by split.
Qed.

(** ** A media packet *)

(** A NAL unit as the stream is given it, and what is sent of it. *)
Record nal_unit := mkNalUnit { u_hdr : Z; u_body : bytes; u_dts : Z; u_key : bool; u_seq_hdr : bool }.
Definition nalu_of (u : nal_unit) : bytes := u_hdr u :: u_body u.

Definition unit_ok (u : nal_unit) : Prop :=
  is_byte (u_hdr u) /\ bytes_ok (u_body u) /\ zlen (nalu_of u) < 2 ^ 30 /\ 0 <= u_dts u < MAX_TIME.

(** The media packet of a NAL unit, behind a start code of four or of three bytes. *)
Definition unit_packet (u : nal_unit) (p : Media_Packet) : Prop :=
  wf (buffer_ptr_ p) /\ dts_ p = u_dts u /\ is_key_frame_ p = u_key u /\ is_seq_hdr_ p = u_seq_hdr u /\
  exists code, (code = [0; 0; 0; 1] \/ code = [0; 0; 1]) /\ contents (buffer_ptr_ p) = code ++ nalu_of u.

(** Whether a unit is sent, whether the parameter sets [q] go before it, and what is kept of it. *)
Definition is_sent (u : nal_unit) : bool := negb (H264_IS_SEI (u_hdr u)) && negb (u_seq_hdr u).
Definition with_params (u : nal_unit) (q : bytes * bytes) : bool := u_key u && (0 <? zlen q.1) && (0 <? zlen q.2).
Definition next_params (u : nal_unit) (q : bytes * bytes) : bytes * bytes :=
  if negb (H264_IS_SEI (u_hdr u)) && u_seq_hdr u then keep_set (nalu_of u) q else q.

(** The payloads of a unit, the parameter sets first. *)
Definition unit_payloads (u : nal_unit) (q : bytes * bytes) (ps : list bytes) : Prop :=
  if is_sent u then
    exists l, packed (nalu_of u) l /\ ps = (if with_params u q then [stap_payload (hd 0 q.1) [q.1; q.2]] else []) ++ l
  else ps = [].

Definition unit_ts (u : nal_unit) (s : RtcSendStream) : Z := u_dts u * ss_clock_rate_ (ids s) / 1000.

Lemma rtp_time_spec u p s : unit_ok u -> dts_ p = u_dts u -> stream_ok s -> rtp_time p s = Done (unit_ts u s).
Proof.
  intros (_ & _ & _ & Hd) Hp (_ & Hr & _). unfold rtp_time, unit_ts. rewrite Hp. unfold MAX_TIME in Hd.
  assert (0 <= u_dts u * ss_clock_rate_ (ids s) < 2 ^ 62) as Hprod.
  { split; [apply Z.mul_nonneg_nonneg; lia|]. change (2 ^ 62) with (2 ^ 42 * 2 ^ 20). apply Z.mul_lt_mono_nonneg; lia. }
  rewrite chk_int64_ok by lia. simpl_m. by rewrite Z.quot_div_nonneg by lia.
Qed.

(** The start code is found, and gone once it is consumed. *)
Lemma unit_start u p : unit_packet u p -> exists pos b behind,
  GetNaluTypePos (Data (buffer_ptr_ p)) = Done pos /\ (buffer_ (buffer_ptr_ p)).[start_ (buffer_ptr_ p) + pos] = Done (u_hdr u) /\
  (ConsumeData (buffer_ptr_ p) pos).2 = b /\ Data b = nalu_of u ++ behind /\ DataLen b = zlen (nalu_of u).
Proof.
  intros (Hwf & _ & _ & _ & code & Hcode & Hc). destruct (Data_contents _ Hwf) as (rest & Hd). rewrite Hc, <- app_assoc in Hd.
  exists (zlen code). destruct (ConsumeData_spec (buffer_ptr_ p) (zlen code) Hwf) as (b & Hb & Hwfb & Hcb).
  { rewrite Hc, zlen_app. pose proof (zlen_nonneg code). pose proof (zlen_nonneg (nalu_of u)). lia. }
  rewrite Hc, drop_zlen_app in Hcb. destruct (Data_contents _ Hwfb) as (rest' & Hd'). exists b, rest'. rewrite Hd.
  split; [by destruct Hcode as [-> | ->]|]. split; [|split; [by rewrite Hb|split; [by rewrite Hd', Hcb|by rewrite DataLen_contents, Hcb]]].
  destruct Hwf as [_ _ Hst _ _ _]. pose proof (zlen_nonneg code). rewrite <- rd_drop by lia. fold (Data (buffer_ptr_ p)).
  rewrite Hd. unfold nalu_of. apply rd_mid.
Qed.

Lemma sends_app ts ps1 ps2 s s1 r ds1 : stream_ok s ->
  advanced (zlen ps1) s s1 -> rtp_of (ss_log_ s1) = rtp_of (ss_log_ s) ++ ds1 -> sent (seq_ s) (u32 ts) (ss_ssrc_ (ids s)) ps1 ds1 ->
  sends ts ps2 s1 r -> sends ts (ps1 ++ ps2) s r.
Proof.
  intros (_ & _ & Hq) Ha Hlog Hs (s2 & ds2 & -> & Ha2 & Hlog2 & Hs2). exists s2, (ds1 ++ ds2). split; [done|].
  rewrite zlen_app. split; [by eapply advanced_trans|]. split; [by rewrite Hlog2, Hlog, app_assoc|].
  apply sent_app; [done|done|]. destruct Ha as (Hi & Hq1 & _). by rewrite Hi, Hq1 in Hs2.
Qed.

Lemma SendH264Packet_spec u q now p s :
  unit_ok u -> unit_packet u p -> params_are q.1 q.2 (params s) -> stream_ok s -> 0 <= now < MAX_TIME ->
  exists p' s' ps ds, SendH264Packet now p s = Done (true, p', s') /\ unit_payloads u q ps /\
    rtp_of (ss_log_ s') = rtp_of (ss_log_ s) ++ ds /\ sent (seq_ s) (u32 (unit_ts u s)) (ss_ssrc_ (ids s)) ps ds /\
    seq_ s' = u16 (seq_ s + zlen ps) /\ ids s' = ids s /\ stream_ok s' /\ params_are (next_params u q).1 (next_params u q).2 (params s').
Proof.
  intros Hu Hp Hq Hok Hnow. unfold SendH264Packet. pose proof Hp as (_ & Hdts & Hkey & Hhdr & _).
  rewrite (rtp_time_spec u p s Hu Hdts Hok). simpl_m. destruct (unit_start u p Hp) as (pos & b & behind & -> & Hb & Hcons & Hdata & Hlen).
  simpl_m. rewrite Hb. simpl_m. unfold unit_payloads, is_sent, next_params.
  pose proof Hok as (Hbuf & _ & Hseq). assert (seq_ s = u16 (seq_ s + 0)) as Hseq0 by (rewrite Z.add_0_r, u16_small; [done|lia]).
  destruct (H264_IS_SEI (u_hdr u)); cbn [negb andb].
  { exists p, s, [], []. rewrite app_nil_r. by split_and!. }
  rewrite Hcons. set (p1 := set_buffer_ptr b p). change (is_seq_hdr_ p1) with (is_seq_hdr_ p). change (is_key_frame_ p1) with (is_key_frame_ p).
  change (buffer_ptr_ p1) with b. rewrite Hhdr, Hkey, Hdata, Hlen. destruct Hu as (Hh & Hbody & Hmax & _).
  destruct (u_seq_hdr u); cbn [negb].
  { destruct (keep_params_spec (u_hdr u) (u_body u) behind q s) as (ps & Hk & Hps); [by constructor|done|]. unfold nalu_of. rewrite Hk. simpl_m.
    exists p1, (set_params ps s), [], []. rewrite app_nil_r. by split_and!. }
  assert (exists s1 ds1 ps1, (if u_key u && (0 <? sps_len_ (params s)) && (0 <? pps_len_ (params s))
      then send_params_packet now (unit_ts u s) s else Done (true, s)) = Done (true, s1) /\ advanced (zlen ps1) s s1 /\
      rtp_of (ss_log_ s1) = rtp_of (ss_log_ s) ++ ds1 /\ sent (seq_ s) (u32 (unit_ts u s)) (ss_ssrc_ (ids s)) ps1 ds1 /\
      ps1 = (if with_params u q then [stap_payload (hd 0 q.1) [q.1; q.2]] else [])) as (s1 & ds1 & ps1 & -> & Ha1 & Hlog1 & Hs1 & Hps1).
  { pose proof Hq as [(_ & _ & -> & _) (_ & _ & -> & _)]. fold (with_params u q). unfold with_params.
    destruct (u_key u && (0 <? zlen q.1) && (0 <? zlen q.2)) eqn:E.
    - apply andb_prop in E as [[_ E1%Z.ltb_lt]%andb_prop E2%Z.ltb_lt]. destruct q as [[|h sps] pps]; [done|]. cbn [fst snd] in *.
      destruct (send_params_spec h sps pps (unit_ts u s) now s Hq) as (s1 & ds1 & -> & ? & ? & ?); [lia|done|done|].
      exists s1, ds1. eexists. by split_and!.
    - exists s, [], []. rewrite app_nil_r. by split_and!. }
  simpl_m. cbn [negb]. pose proof (stream_ok_advanced _ _ _ Ha1 Hok) as Hok1.
  destruct (send_nalu_spec (u_hdr u) (u_body u) behind (unit_ts u s) now s1) as (ps2 & Hpk & Hsend); [done..|unfold nalu_of in Hmax; rewrite zlen_cons in Hmax; lia|done|done|].
  pose proof (sends_app _ _ _ _ _ _ _ Hok Ha1 Hlog1 Hs1 Hsend) as (s2 & ds & Hrun & Ha & Hlog & Hsent).
  fold (nalu_of u) in Hrun. rewrite Hrun. simpl_m. exists p1, s2, (ps1 ++ ps2), ds. split; [done|].
  split; [exists ps2; by rewrite Hps1|]. split; [done|]. split; [done|]. pose proof Ha as (Hi & Hq2 & Hpar & _).
  split; [done|]. split; [done|]. split; [by eapply stream_ok_advanced|]. by rewrite Hpar.
Qed.
End sending.
