(* ===== verification/RtcRecv.v ===== *)
(** * [RtcRecv]: the stream that receives RTP

    Models [src/net/webrtc/rtc_recv_stream.cpp]: packets are counted and checked for
    gaps, lost ones are asked for, and reports are made for the sender.  The RTCP
    packets given to the callback are appended to [rs_log_].  The members are grouped
    as the class groups them.  [false] stands for an exception.  The readings of the
    clock during one call are one number ([now_ms]). *)
From Stdlib Require Import Floats.SpecFloat.
From S2P Require Import Prelude ByteStream DataBuffer Media RtpPacket Nack RtcpNack Rtcp RtcTime.

Definition REQ_KEYFRAME_INTERVAL : Z := 5 * 1000.
Definition MAX_DROPOUT : Z := 3000.
Definition MAX_MISORDER : Z := 100.

Record recv_seqs := mkSeqs { rs_first_pkt_ : bool; rs_base_seq_ : Z; rs_max_seq_ : Z; rs_bad_seq_ : Z; rs_cycles_ : Z; discard_count_ : Z }.
Record recv_reports := mkRecvReports {
  expect_recv_ : Z;
  last_recv_ : Z;
  rtp_timestamp_ : Z;
  last_sr_ms_ : Z;
  pkt_count_ : Z;
  bytes_count_ : Z;
  lsr_ : Z;
  frac_lost_ : Z;
  lost_percent_ : double;
  total_lost_ : Z
}.
Record recv_resends := mkRecvResends { resend_count_ : Z; last_resend_count_ : Z; last_resend_ms_ : Z }.
Record recv_jitter := mkRecvJitter { last_diff_ms_ : Z; jitter_ : Z }.

Record RtcRecvStream := mkRecvStream {
  rs_ids : stream_ids;
  seqs : recv_seqs;
  rs_reports : recv_reports;
  last_keyframe_ms_ : Z;
  rs_avg_rtt_ : Z;
  rs_resends : recv_resends;
  jitters : recv_jitter;
  nack_generator_ : NackGenerator;
  rs_statics_ : StreamStatics;
  rs_log_ : list sent_event
}.

Definition set_rs_ids (v : stream_ids) (s : RtcRecvStream) : RtcRecvStream :=
  mkRecvStream v (seqs s) (rs_reports s) (last_keyframe_ms_ s) (rs_avg_rtt_ s) (rs_resends s) (jitters s) (nack_generator_ s) (rs_statics_ s) (rs_log_ s).
Definition set_seqs (v : recv_seqs) (s : RtcRecvStream) : RtcRecvStream :=
  mkRecvStream (rs_ids s) v (rs_reports s) (last_keyframe_ms_ s) (rs_avg_rtt_ s) (rs_resends s) (jitters s) (nack_generator_ s) (rs_statics_ s) (rs_log_ s).
Definition set_rs_reports (v : recv_reports) (s : RtcRecvStream) : RtcRecvStream :=
  mkRecvStream (rs_ids s) (seqs s) v (last_keyframe_ms_ s) (rs_avg_rtt_ s) (rs_resends s) (jitters s) (nack_generator_ s) (rs_statics_ s) (rs_log_ s).
Definition set_last_keyframe_ms (v : Z) (s : RtcRecvStream) : RtcRecvStream :=
  mkRecvStream (rs_ids s) (seqs s) (rs_reports s) v (rs_avg_rtt_ s) (rs_resends s) (jitters s) (nack_generator_ s) (rs_statics_ s) (rs_log_ s).
Definition set_avg_rtt (v : Z) (s : RtcRecvStream) : RtcRecvStream :=
  mkRecvStream (rs_ids s) (seqs s) (rs_reports s) (last_keyframe_ms_ s) v (rs_resends s) (jitters s) (nack_generator_ s) (rs_statics_ s) (rs_log_ s).
Definition set_rs_resends (v : recv_resends) (s : RtcRecvStream) : RtcRecvStream :=
  mkRecvStream (rs_ids s) (seqs s) (rs_reports s) (last_keyframe_ms_ s) (rs_avg_rtt_ s) v (jitters s) (nack_generator_ s) (rs_statics_ s) (rs_log_ s).
Definition set_jitters (v : recv_jitter) (s : RtcRecvStream) : RtcRecvStream :=
  mkRecvStream (rs_ids s) (seqs s) (rs_reports s) (last_keyframe_ms_ s) (rs_avg_rtt_ s) (rs_resends s) v (nack_generator_ s) (rs_statics_ s) (rs_log_ s).
Definition set_nack_generator (v : NackGenerator) (s : RtcRecvStream) : RtcRecvStream :=
  mkRecvStream (rs_ids s) (seqs s) (rs_reports s) (last_keyframe_ms_ s) (rs_avg_rtt_ s) (rs_resends s) (jitters s) v (rs_statics_ s) (rs_log_ s).
Definition set_rs_statics (v : StreamStatics) (s : RtcRecvStream) : RtcRecvStream :=
  mkRecvStream (rs_ids s) (seqs s) (rs_reports s) (last_keyframe_ms_ s) (rs_avg_rtt_ s) (rs_resends s) (jitters s) (nack_generator_ s) v (rs_log_ s).
Definition send_rtcp (d : bytes) (s : RtcRecvStream) : RtcRecvStream :=
  mkRecvStream (rs_ids s) (seqs s) (rs_reports s) (last_keyframe_ms_ s) (rs_avg_rtt_ s) (rs_resends s) (jitters s) (nack_generator_ s) (rs_statics_ s)
    (rs_log_ s ++ [SentRtcpPacket d]).

(** The constructors: [rtx] is the payload type and the SSRC of the second one. *)
Definition RtcRecvStream_new (type : MEDIA_PKT_TYPE) (ssrc payload clock_rate : Z) (nack : bool) (rtx : option (Z * Z)) : RtcRecvStream :=
  mkRecvStream
    (mkIds type nack (match rtx with Some _ => true | None => false end) ssrc payload clock_rate 0
      (match rtx with Some x => x.1 | None => 0 end) (match rtx with Some x => x.2 | None => 0 end))
    (mkSeqs false 0 0 (RTP_SEQ_MOD + 1) 0 0)
    (mkRecvReports 0 0 0 0 0 0 0 0 (S754_zero false) 0) (-1) 10 (mkRecvResends 0 0 (-1)) (mkRecvJitter 0 0)
    NackGenerator_new StreamStatics_new [].

(** ** Receiving *)

(** [false] is the exception of a clock rate that is not positive. *)
Definition GenerateJitter (rtp_timestamp recv_pkt_ms : Z) (s : RtcRecvStream) : outcome (bool * RtcRecvStream) :=
  let clock_rate := ss_clock_rate_ (rs_ids s) in
  if clock_rate <=? 0 then mret (false, s)
  else
    let rtp_ms := u32 (rtp_timestamp * 1000) / clock_rate in
    let diff_t := recv_pkt_ms - rtp_ms in
    let j := jitters s in
    if last_diff_ms_ j =? 0 then mret (true, set_jitters (mkRecvJitter diff_t (jitter_ j)) s)
    else
      let d := Z.abs (diff_t - last_diff_ms_ j) in
      v ← int64_of (double_add (double_of_int (jitter_ j)) (double_div (double_of_int (d - jitter_ j)) (double_of_int 8)));
      mret (true, set_jitters (mkRecvJitter (last_diff_ms_ j) v) s).

Definition InitSeq (seq : Z) (s : RtcRecvStream) : RtcRecvStream :=
  let q := seqs s in set_seqs (mkSeqs (rs_first_pkt_ q) seq seq (RTP_SEQ_MOD + 1) 0 (discard_count_ q)) s.

Definition UpdateSeq (seq : Z) (s : RtcRecvStream) : RtcRecvStream :=
  let q := seqs s in
  let udelta := u16 (seq - rs_max_seq_ q) in
  if udelta <? MAX_DROPOUT then
    let cycles := if seq <? rs_max_seq_ q then u32 (rs_cycles_ q + RTP_SEQ_MOD) else rs_cycles_ q in
    set_seqs (mkSeqs (rs_first_pkt_ q) (rs_base_seq_ q) seq (rs_bad_seq_ q) cycles (discard_count_ q)) s
  else if udelta <=? RTP_SEQ_MOD - MAX_MISORDER then
    if seq =? rs_bad_seq_ q then InitSeq seq s
    else
      set_seqs (mkSeqs (rs_first_pkt_ q) (rs_base_seq_ q) (rs_max_seq_ q) (Z.land (seq + 1) (RTP_SEQ_MOD - 1)) (rs_cycles_ q)
        (discard_count_ q + 1)) s
  else s.

Definition set_first_pkt (s : RtcRecvStream) : RtcRecvStream :=
  let q := seqs s in set_seqs (mkSeqs true (rs_base_seq_ q) (rs_max_seq_ q) (rs_bad_seq_ q) (rs_cycles_ q) (discard_count_ q)) s.

(** The packet is changed in place when it is a retransmission. *)
Definition HandleRtpPacket (p : RtpPacket) (s : RtcRecvStream) : outcome (bool * RtpPacket * RtcRecvStream) :=
  ssrc ← GetSsrc p;
  '(ok, p, s) ←
    (if ssrc =? ss_rtx_ssrc_ (rs_ids s) then
      r ← RtxDemux (ss_ssrc_ (rs_ids s)) (ss_pt_ (rs_ids s)) p;
      mret (match r with Some p => (true, p, s) | None => (false, p, s) end)
    else
      ts ← GetTimestamp p;
      '(ok, s) ← GenerateJitter ts (local_ms_ p) s;
      mret (ok : bool, p, s));
  if negb ok then mret (false, p, s)
  else
    seq ← GetSeq p;
    let s := if negb (rs_first_pkt_ (seqs s)) then InitSeq seq (set_first_pkt s) else UpdateSeq seq s in
    s ← (if ss_nack_enable_ (rs_ids s) then n ← UpdateNackList seq (nack_generator_ s); mret (set_nack_generator n s) else mret s);
    mret (true, p, set_rs_statics (Update (rtp_data_len_ p) (local_ms_ p) (rs_statics_ s)) s).

(** ** Reports *)

(** Unsigned 32-bit arithmetic, then converted. *)
Definition GetExpectedPackets (s : RtcRecvStream) : Z :=
  let q := seqs s in u32 (rs_cycles_ q + rs_max_seq_ q - rs_bad_seq_ q + 1).

(** The fraction of the packets of an interval that did not arrive, in 1/256. *)
Definition lost_fraction (expected_interval recv_interval : Z) : outcome Z :=
  uint8_of (sf_round (double_div (double_of_int ((expected_interval - recv_interval) * 256)) (double_of_int expected_interval))).

Definition GetPacketLost (s : RtcRecvStream) : outcome (Z * RtcRecvStream) :=
  let expected := GetExpectedPackets s in
  let recv_count := i64 (GetCount (rs_statics_ s)) in
  let r := rs_reports s in
  let expected_interval := expected - expect_recv_ r in
  let recv_interval := recv_count - last_recv_ r in
  let put frac percent total := mkRecvReports expected recv_count (rtp_timestamp_ r) (last_sr_ms_ r) (pkt_count_ r) (bytes_count_ r)
    (lsr_ r) frac percent total in
  if last_recv_ r <=? 0 then mret (0, set_rs_reports (put (frac_lost_ r) (lost_percent_ r) (total_lost_ r)) s)
  else if (expected_interval <=? 0) || (recv_interval <=? 0) then
    mret (total_lost_ r, set_rs_reports (put 0 (lost_percent_ r) (total_lost_ r)) s)
  else
    let total := total_lost_ r + (expected_interval - recv_interval) in
    frac ← lost_fraction expected_interval recv_interval;
    mret (total, set_rs_reports (put frac (double_of_int ((expected_interval - recv_interval) `quot` expected_interval)) total) s).

Definition HandleRtcpSr (now_ms : Z) (sr_pkt : RtcpSrPacket) (s : RtcRecvStream) : outcome RtcRecvStream :=
  sec ← GetNtpSec sr_pkt;
  frac ← GetNtpFrac sr_pkt;
  rtp_timestamp ← GetRtpTimestamp sr_pkt;
  pkt_count ← GetPktCount sr_pkt;
  bytes_count ← GetBytesCount sr_pkt;
  let lsr := Z.lor (u32 (Z.shiftl (Z.land sec 0xffff) 16)) (Z.land (Z.shiftr frac 16) 0xffff) in
  let r := rs_reports s in
  mret (set_rs_reports (mkRecvReports (expect_recv_ r) (last_recv_ r) rtp_timestamp now_ms pkt_count bytes_count lsr
    (frac_lost_ r) (lost_percent_ r) (total_lost_ r)) s).

(** A time in milliseconds, in units of 1/65536 second. *)
Definition compact_delay (diff_t : Z) : Z := Z.lor (u32 (Z.shiftl (diff_t / 1000) 16)) (u32 (diff_t mod 1000 * 65536) / 1000).

Section recv.
Context `{Alloc : Allocator}.

(** The block is what [malloc] gives until its fields are written. *)
Definition GetRtcpRr (now_ms : Z) (s : RtcRecvStream) : outcome (bytes * RtcRecvStream) :=
  let q := seqs s in
  let highest_seq := u32 (rs_max_seq_ q + rs_cycles_ q) in
  let dlsr := if 0 <? last_sr_ms_ (rs_reports s) then compact_delay (u32 (now_ms - last_sr_ms_ (rs_reports s))) else 0 in
  '(total_lost, s) ← GetPacketLost s;
  b ← SetReporteeSsrc (ss_ssrc_ (rs_ids s)) (new_char RR_BLOCK_SIZE);
  b ← SetFracLost (frac_lost_ (rs_reports s)) b;
  b ← SetCumulativeLost total_lost b;
  b ← SetHighestSeq highest_seq b;
  b ← SetJitter (jitter_ (jitters s)) b;
  b ← SetLsr (lsr_ (rs_reports s)) b;
  b ← SetDlsr dlsr b;
  mret (b, s).

Definition SendXrRrt (now_ms : Z) (s : RtcRecvStream) : outcome RtcRecvStream :=
  rrt ← XrRrt_new;
  ntp_now ← millisec_to_ntp now_ms;
  rrt ← XrSetSsrc (ss_ssrc_ (rs_ids s)) rrt;
  rrt ← RrtSetNtp (ntp_sec ntp_now) (ntp_frac ntp_now) rrt;
  d ← RrtGetData rrt;
  mret (send_rtcp d s).

(** [now_ms] is -1 where the caller has no time; the clock then gives [clock_ms]. *)
Definition RequestKeyFrame (now_ms clock_ms : Z) (s : RtcRecvStream) : outcome RtcRecvStream :=
  match ss_media_type_ (rs_ids s) with
  | MEDIA_VIDEO_TYPE =>
      if (0 <? now_ms) && (0 <? last_keyframe_ms_ s) && (now_ms - last_keyframe_ms_ s <? REQ_KEYFRAME_INTERVAL) then mret s
      else
        let s := set_last_keyframe_ms (if 0 <? now_ms then now_ms else clock_ms) s in
        pspli_pkt ← RtcpPsPli_new;
        pspli_pkt ← SetSenderSsrc 1 pspli_pkt;
        pspli_pkt ← SetMediaSsrc (ss_ssrc_ (rs_ids s)) pspli_pkt;
        d ← PliGetData pspli_pkt;
        mret (send_rtcp d s)
  | _ => mret s
  end.

Definition OnTimer (now_ms : Z) (s : RtcRecvStream) : outcome RtcRecvStream :=
  s ← SendXrRrt now_ms s; RequestKeyFrame now_ms now_ms s.

(** The block's fields, in the machine's byte order. *)
Definition HandleXrDlrr (now_ms : Z) (block : Z * Z * Z) (s : RtcRecvStream) : outcome RtcRecvStream :=
  let '(_, lrr, dlrr) := block in
  ntp ← millisec_to_ntp now_ms;
  let compound_now := compact_ntp ntp in
  if compound_now <? u32 (dlrr + lrr) then mret s
  else
    let rtt := u32 (compound_now - dlrr - lrr) in
    let rtt_float := narrow (double_mul (double_of_int (Z.shiftr (Z.land rtt 0xffff0000) 16)) (double_of_int 1000)) in
    let rtt_float := narrow (double_add rtt_float
      (double_mul (double_div (double_of_int (Z.land rtt 0xffff)) (double_of_int 65536)) (double_of_int 1000))) in
    ms ← int64_of rtt_float;
    mret (set_avg_rtt (i32 (rs_avg_rtt_ s + (ms - rs_avg_rtt_ s) `quot` 5)) s).

(** ** Lost packets *)

(** The callback of the [NackGenerator]. *)
Definition GenerateNackList (seq_vec : list Z) (s : RtcRecvStream) : outcome RtcRecvStream :=
  nack_pkt ← RtcpFbNack_new 0 (ss_ssrc_ (rs_ids s));
  nack_pkt ← InsertSeqList seq_vec nack_pkt;
  let r := rs_resends s in
  let s := set_rs_resends (mkRecvResends (resend_count_ r + zlen seq_vec) (last_resend_count_ r) (last_resend_ms_ r)) s in
  d ← RtcpNack.GetData nack_pkt;
  mret (send_rtcp d s).

Fixpoint generate_all (lists : list (list Z)) (s : RtcRecvStream) : outcome RtcRecvStream :=
  match lists with
  | [] => mret s
  | l :: lists => s ← GenerateNackList l s; generate_all lists s
  end.

(** The timer of the [NackGenerator], whose calls are those it adds to its log. *)
Definition OnNackTimer (now_ms : Z) (s : RtcRecvStream) : outcome RtcRecvStream :=
  let n := Nack.OnTimer now_ms (nack_generator_ s) in
  generate_all (drop (length (n_sent_ (nack_generator_ s))) (n_sent_ n)) (set_nack_generator n s).
End recv.

(** ** Statistics *)

(** [kbits], and [pps] where it is written. *)
Definition GetStatics (now_ms : Z) (s : RtcRecvStream) : Z * option Z * RtcRecvStream :=
  let '(speed, pps, st) := BytesPerSecond now_ms (rs_statics_ s) in
  (u64 (speed * 8) / 1000, pps, set_rs_statics st s).

(** The count, and [resend_pps] where it is written. *)
Definition GetResendCount (now_ms : Z) (s : RtcRecvStream) : Z * option Z * RtcRecvStream :=
  let r := rs_resends s in
  let marked := set_rs_resends (mkRecvResends (resend_count_ r) (resend_count_ r) now_ms) s in
  if last_resend_ms_ r <=? 0 then (resend_count_ r, None, marked)
  else
    let diff_t := now_ms - last_resend_ms_ r in
    if diff_t <=? 0 then (resend_count_ r, None, s)
    else (resend_count_ r, Some (((resend_count_ r - last_resend_count_ r) * 1000) `quot` diff_t), marked).
