(* ===== verification/RtcJitter.v ===== *)
(** * [RtcJitter]: the jitter of a received stream is a number of milliseconds

    [RtcRecvStream::GenerateJitter] of [src/net/webrtc/rtc_recv_stream.cpp] moves the
    jitter by an eighth of the distance to the last difference, in [double]
    arithmetic, and stores the result as an [int64_t].  Here: for the times of a
    running stream every step of this arithmetic is exact, the conversion is defined,
    and the new jitter is [(7 j + d) / 8], so that it stays within the differences. *)
From Stdlib Require Import Floats.SpecFloat.
From S2P Require Import Prelude Media RtpPacket Nack RtcTime RtcRecv.

(** ** Exact [double] arithmetic *)

Lemma Zdigits2_log2 z : 0 < z -> Zdigits2 z = Z.log2 z + 1.
Proof.
  destruct z as [|p|p]; [lia| |lia]. intros _. cbn [Zdigits2]. induction p as [p IH|p IH|]; cbn [digits2_pos]; [| |done].
  - rewrite Pos2Z.inj_succ, IH, Pos2Z.inj_xI, Z.log2_succ_double by lia. lia.
  - rewrite Pos2Z.inj_succ, IH, Pos2Z.inj_xO, Z.log2_double by lia. lia.
Qed.

(** A mantissa of a normal [double]. *)
Definition full (m : Z) : Prop := 2 ^ 52 <= m < 2 ^ 53.

Lemma full_log2 m k : full m -> 0 <= k -> Z.log2 (m * 2 ^ k) = 52 + k.
Proof.
  intros [H1 H2] Hk. rewrite Z.log2_mul_pow2 by lia. assert (Z.log2 m = 52); [|lia].
  apply Z.log2_unique; [lia|]. change (Z.succ 52) with 53. lia.
Qed.

Lemma shr_exact p m : 0 < m ->
  SpecFloat.iter_pos shr_1 p (Build_shr_record (m * 2 ^ Zpos p) false false) = Build_shr_record m false false.
Proof.
  assert (forall m, 0 < m -> shr_1 (Build_shr_record (m * 2) false false) = Build_shr_record m false false) as H1.
  { intros [|q|q] Hq; [lia| |lia]. rewrite Z.mul_comm. reflexivity. }
  revert m. induction p as [p IH|p IH|]; intros m Hm.
  - rewrite (Pos2Z.inj_xI p). replace (m * 2 ^ (2 * Zpos p + 1)) with (m * 2 ^ Zpos p * 2 ^ Zpos p * 2).
    2: { rewrite Z.pow_add_r, <- Z.add_diag, Z.pow_add_r by lia. lia. }
    assert (0 < 2 ^ Zpos p) by lia. assert (0 < m * 2 ^ Zpos p) by nia. assert (0 < m * 2 ^ Zpos p * 2 ^ Zpos p) by nia.
    set (r := Build_shr_record (m * 2 ^ Zpos p * 2 ^ Zpos p * 2) false false). change (SpecFloat.iter_pos shr_1 p~1 r) with (SpecFloat.iter_pos shr_1 p (SpecFloat.iter_pos shr_1 p (shr_1 r))).
    unfold r. by rewrite H1, !IH.
  - rewrite (Pos2Z.inj_xO p). replace (m * 2 ^ (2 * Zpos p)) with (m * 2 ^ Zpos p * 2 ^ Zpos p).
    2: { rewrite <- Z.add_diag, Z.pow_add_r by lia. lia. }
    assert (0 < 2 ^ Zpos p) by lia. assert (0 < m * 2 ^ Zpos p) by nia.
    set (r := Build_shr_record (m * 2 ^ Zpos p * 2 ^ Zpos p) false false). change (SpecFloat.iter_pos shr_1 p~0 r) with (SpecFloat.iter_pos shr_1 p (SpecFloat.iter_pos shr_1 p r)).
    unfold r. by rewrite !IH.
  - change (2 ^ 1) with 2. by apply H1.
Qed.

(** Rounding what needs none. *)
Lemma round_aux_exact sx m k e : full m -> 0 <= k -> -1074 <= e + k <= 971 ->
  binary_round_aux 53 1024 sx (m * 2 ^ k) e loc_Exact = S754_finite sx (Z.to_pos m) (e + k).
Proof.
  intros Hm Hk He. pose proof (full_log2 m k Hm Hk) as Hl. pose proof (full_log2 m 0 Hm (Z.le_refl 0)) as Hl0.
  change (2 ^ 0) with 1 in Hl0. rewrite Z.mul_1_r in Hl0. unfold full in Hm.
  assert (0 < m * 2 ^ k) as Hpos by (assert (0 < 2 ^ k) by lia; lia).
  unfold binary_round_aux, shr_fexp, fexp. change (SpecFloat.emin 53 1024) with (-1074).
  rewrite (Zdigits2_log2 (m * 2 ^ k)), Hl by done.
  replace (Z.max (52 + k + 1 + e - 53) (-1074) - e) with k by lia. cbn [shr_record_of_loc].
  assert (shr (Build_shr_record (m * 2 ^ k) false false) e k = (Build_shr_record m false false, e + k)) as ->.
  { destruct k as [|p|p]; [|cbn [shr]; by rewrite shr_exact by lia|lia]. cbn [shr]. by rewrite Z.mul_1_r, Z.add_0_r. }
  cbn [shr_m loc_of_shr_record round_nearest_even shr_record_of_loc]. rewrite (Zdigits2_log2 m), Hl0 by lia.
  replace (Z.max (52 + 0 + 1 + (e + k) - 53) (-1074) - (e + k)) with 0 by lia. cbn [shr shr_m].
  destruct m as [|p|p]; [lia| |lia]. by rewrite (proj2 (Z.leb_le _ _)) by lia.
Qed.

Lemma shl_iter d m : Zpos (Pos.iter xO m d) = Zpos m * 2 ^ Zpos d.
Proof.
  induction d as [|d IH] using Pos.peano_ind; [cbn; lia|].
  rewrite Pos.iter_succ, Pos2Z.inj_xO, IH, Pos2Z.inj_succ, Z.pow_succ_r by lia. lia.
Qed.

(** The value [n * 2 ^ e], where [n] has at most 53 bits. *)
Definition is_value (x : double) (n e : Z) : Prop :=
  match x with
  | S754_zero _ => n = 0
  | S754_finite s m ex => full (Zpos m) /\ ex <= e /\ cond_Zopp s (Zpos m) = n * 2 ^ (e - ex) /\ e - 53 < ex
  | _ => False
  end.

Lemma round_value s p k e : Zpos p < 2 ^ 53 -> 0 <= k -> -900 <= e <= 900 ->
  is_value (binary_round 53 1024 s (Z.to_pos (Zpos p * 2 ^ k)) (e - k)) (cond_Zopp s (Zpos p)) e.
Proof.
  intros Hp Hk He. set (l := Z.log2 (Zpos p)). pose proof (Z.log2_spec (Zpos p) eq_refl) as Hl. fold l in Hl.
  assert (0 <= l < 53) as Hlr by (split; [apply Z.log2_nonneg|apply Z.log2_lt_pow2; lia]).
  assert (Zpos p * 2 ^ (52 - l) * 2 ^ l = Zpos p * 2 ^ 52) as Hm2.
  { rewrite <- Z.mul_assoc, <- Z.pow_add_r by lia. do 2 f_equal. lia. }
  set (m := Zpos p * 2 ^ (52 - l)) in *.
  assert (full m) as Hm. { unfold full. rewrite Z.pow_succ_r in Hl by lia. assert (0 < 2 ^ l) by lia. split; nia. }
  assert (0 < 2 ^ k) as Hk2 by lia.
  assert (is_value (S754_finite s (Z.to_pos m) (e - (52 - l))) (cond_Zopp s (Zpos p)) e) as Hval.
  { unfold is_value. unfold full in Hm. rewrite Z2Pos.id by lia. split; [done|]. split; [lia|]. split; [|lia].
    replace (e - (e - (52 - l))) with (52 - l) by lia. unfold m. destruct s; cbn [cond_Zopp]; lia. }
  unfold binary_round, fexp. change (SpecFloat.emin 53 1024) with (-1074).
  change (Zpos (digits2_pos (Z.to_pos (Zpos p * 2 ^ k)))) with (Zdigits2 (Zpos (Z.to_pos (Zpos p * 2 ^ k)))).
  rewrite Z2Pos.id by lia. rewrite Zdigits2_log2, Z.log2_mul_pow2 by lia. fold l.
  replace (Z.max _ (-1074)) with (e - (52 - l)) by lia. unfold shl_align.
  replace (e - (52 - l) - (e - k)) with (k - (52 - l)) by lia.
  destruct (k - (52 - l)) as [|d|d] eqn:Ed.
  - rewrite Z2Pos.id by lia. replace (Zpos p * 2 ^ k) with (m * 2 ^ 0) by (unfold m; change (2 ^ 0) with 1; replace k with (52 - l) by lia; lia).
    rewrite round_aux_exact by (done || lia). by replace (e - k + 0) with (e - (52 - l)) by lia.
  - rewrite Z2Pos.id by lia. replace (Zpos p * 2 ^ k) with (m * 2 ^ Zpos d).
    2: { unfold m. replace k with (52 - l + Zpos d) by lia. rewrite Z.pow_add_r by lia. lia. }
    rewrite round_aux_exact by (done || lia). by replace (e - k + Zpos d) with (e - (52 - l)) by lia.
  - rewrite shl_iter, Z2Pos.id by lia. replace (Zpos p * 2 ^ k * 2 ^ Zpos d) with (m * 2 ^ 0).
    2: { unfold m. change (2 ^ 0) with 1. replace (52 - l) with (k + Zpos d) by lia. rewrite Z.pow_add_r by lia. lia. }
    rewrite round_aux_exact by (done || lia). by rewrite Z.add_0_r.
Qed.

Lemma normalize_value n k e b : Z.abs n < 2 ^ 53 -> 0 <= k -> -900 <= e <= 900 ->
  is_value (binary_normalize 53 1024 (n * 2 ^ k) (e - k) b) n e.
Proof.
  intros Hn Hk He. assert (0 < 2 ^ k) by lia. destruct n as [|p|p]; [done| |].
  - pose proof (round_value false p k e ltac:(lia) Hk He) as H0. cbn [cond_Zopp] in H0.
    destruct (Zpos p * 2 ^ k) as [|q|q] eqn:E; [lia| |lia]. exact H0.
  - pose proof (round_value true p k e ltac:(lia) Hk He) as H'. change (cond_Zopp true (Zpos p)) with (Zneg p) in H'.
    change (Zneg p * 2 ^ k) with (- Zpos p * 2 ^ k). rewrite Z.mul_opp_l.
    destruct (Zpos p * 2 ^ k) as [|q|q] eqn:E; [lia| |lia]. exact H'.
Qed.

Lemma double_of_int_value n : Z.abs n < 2 ^ 53 -> is_value (double_of_int n) n 0.
Proof.
  intros Hn. pose proof (normalize_value n 0 0 false Hn ltac:(lia) ltac:(lia)) as H.
  change (2 ^ 0) with 1 in H. by rewrite Z.mul_1_r in H.
Qed.

(** An eighth. *)
Lemma div_8_value x n e : is_value x n e -> -800 <= e <= 800 -> is_value (double_div x (double_of_int 8)) n (e - 3).
Proof.
  change (double_of_int 8) with (S754_finite false 4503599627370496 (-49)). unfold double_div, is_value.
  destruct x as [s| | |s m ex]; [done|done|done|]. intros (Hm & Hex & Hv & Hlo) He. cbn [SFdiv].
  unfold SFdiv_core_binary, fexp. change (SpecFloat.emin 53 1024) with (-1074).
  change (Zdigits2 4503599627370496) with 53. pose proof (full_log2 (Zpos m) 0 Hm (Z.le_refl 0)) as Hl.
  change (2 ^ 0) with 1 in Hl. rewrite Z.mul_1_r in Hl. rewrite Zdigits2_log2, Hl by lia.
  replace (Z.min _ (ex - -49)) with (ex - 4) by lia. replace (ex - -49 - (ex - 4)) with 53 by lia.
  rewrite Z.shiftl_mul_pow2 by lia.
  assert (Z.div_eucl (Zpos m * 2 ^ 53) 4503599627370496 = (Zpos m * 2, 0)) as ->.
  { pose proof (Z_div_mod (Zpos m * 2 ^ 53) 4503599627370496 eq_refl) as H. destruct (Z.div_eucl _ _) as [q r].
    change (2 ^ 53) with (2 * 4503599627370496) in H. f_equal; lia. }
  change (new_location 4503599627370496 0) with loc_Exact. rewrite xorb_false_r.
  pose proof (round_aux_exact s (Zpos m) 1 (ex - 4) Hm ltac:(lia) ltac:(lia)) as Hr. change (2 ^ 1) with 2 in Hr. rewrite Hr.
  change (Z.to_pos (Zpos m)) with m. replace (ex - 4 + 1) with (ex - 3) by lia.
  split; [done|]. split; [lia|]. split; [|lia]. rewrite Hv. do 2 f_equal. lia.
Qed.

Lemma align_value s m ex ez n e : ez <= ex -> ex <= e -> cond_Zopp s (Zpos m) = n * 2 ^ (e - ex) ->
  cond_Zopp s (Zpos (fst (shl_align m ex ez))) = n * 2 ^ (e - ez).
Proof.
  intros Hz He Hv. assert (Zpos (fst (shl_align m ex ez)) = Zpos m * 2 ^ (ex - ez)) as ->.
  { unfold shl_align. destruct (ez - ex) as [|d|d] eqn:Ed; cbn [fst]; [|lia|].
    - replace (ex - ez) with 0 by lia. change (2 ^ 0) with 1. lia.
    - rewrite shl_iter. do 2 f_equal. lia. }
  replace (e - ez) with ((e - ex) + (ex - ez)) by lia. rewrite Z.pow_add_r by lia.
  destruct s; cbn [cond_Zopp] in *; [|rewrite Hv; lia]. rewrite <- Z.mul_opp_l, Hv. lia.
Qed.

(** The sum of an integer and a number of eighths. *)
Lemma add_value x y a b : is_value x a 0 -> is_value y b (-3) -> Z.abs a < 2 ^ 50 -> Z.abs (8 * a + b) < 2 ^ 53 ->
  is_value (double_add x y) (8 * a + b) (-3).
Proof.
  unfold double_add. intros Hx Hy Ha Hab. destruct x as [sx| | |sx mx ex]; [|done|done|].
  - cbn [is_value] in Hx. subst a. rewrite Z.mul_0_r, Z.add_0_l.
    destruct y as [sy| | |sy my ey]; [|done|done|done]. cbn [SFadd is_value] in *. by destruct sx, sy.
  - destruct Hx as (Hm & Hex & Hvx & Hlx). destruct y as [sy| | |sy my ey]; [|done|done|].
    + cbn [is_value] in Hy. subst b. cbn [SFadd]. rewrite Z.add_0_r.
      assert (Zpos mx = Z.abs a * 2 ^ (0 - ex)) as Habs.
      { rewrite <- (Z.abs_eq (2 ^ (0 - ex))), <- Z.abs_mul, <- Hvx by lia. by destruct sx. }
      assert (ex <= -3) as Hex3.
      { destruct (Z.le_gt_cases ex (-3)) as [|Hgt]; [done|]. unfold full in Hm.
        assert (2 ^ (0 - ex) <= 2 ^ 2) by (apply Z.pow_le_mono_r; lia). change (2 ^ 2) with 4 in *. nia. }
      split; [done|]. split; [done|]. split; [|lia]. rewrite Hvx.
      replace (0 - ex) with (3 + (-3 - ex)) by lia. rewrite Z.pow_add_r by lia. change (2 ^ 3) with 8. lia.
    + destruct Hy as (Hm' & Hey & Hvy & Hly). cbn [SFadd]. set (ez := Z.min ex ey).
      rewrite (align_value sx mx ex ez a 0), (align_value sy my ey ez b (-3)) by (done || lia).
      replace (a * 2 ^ (0 - ez) + b * 2 ^ (-3 - ez)) with ((8 * a + b) * 2 ^ (-3 - ez)).
      2: { replace (0 - ez) with (3 + (-3 - ez)) by lia. rewrite Z.pow_add_r by lia. change (2 ^ 3) with 8. lia. }
      pose proof (normalize_value (8 * a + b) (-3 - ez) (-3) false Hab ltac:(lia) ltac:(lia)) as H.
      by replace (-3 - (-3 - ez)) with ez in H by lia.
Qed.

(** Conversion cuts the fraction off. *)
Lemma int64_of_value x n : is_value x n (-3) -> 0 <= n < 2 ^ 53 -> int64_of x = Done (n / 8).
Proof.
  unfold int64_of, int_of, is_value. destruct x as [s| | |s m ex]; [|done|done|].
  - intros -> _. reflexivity.
  - intros (Hm & Hex & Hv & Hlo) Hn. cbn [sf_parts]. rewrite (proj2 (Z.leb_gt 0 ex)) by lia. rewrite Hv.
    assert (0 < 2 ^ (-3 - ex)) by lia. assert (0 <= n / 8 < 2 ^ 53) as Hb by div_lia.
    assert ((n * 2 ^ (-3 - ex)) `quot` 2 ^ (- ex) = n / 8) as ->.
    { rewrite Z.quot_div_nonneg by (lia || nia). replace (- ex) with (3 + (-3 - ex)) by lia. rewrite Z.pow_add_r by lia.
      apply Z.div_mul_cancel_r; lia. }
    by rewrite (proj2 (Z.leb_le (- 2 ^ 63) (n / 8))), (proj2 (Z.ltb_lt (n / 8) (2 ^ 63))) by lia.
Qed.

(** ** The jitter *)

(** The new jitter is that of RFC 3550, rounded down. *)
Lemma jitter_step j d : 0 <= j < 2 ^ 48 -> 0 <= d < 2 ^ 48 ->
  int64_of (double_add (double_of_int j) (double_div (double_of_int (d - j)) (double_of_int 8))) = Done ((7 * j + d) / 8).
Proof.
  intros Hj Hd. replace (7 * j + d) with (8 * j + (d - j)) by lia. apply int64_of_value; [|lia].
  apply add_value; [apply double_of_int_value; lia| |lia|lia].
  apply (div_8_value _ _ 0); [apply double_of_int_value; lia|lia].
Qed.

(** What is kept of the times: a difference of times of a running stream, a jitter within them. *)
Definition jitters_ok (j : recv_jitter) : Prop := Z.abs (last_diff_ms_ j) < 2 ^ 47 /\ 0 <= jitter_ j < 2 ^ 48.

(** A packet that arrives at such a time makes no exception and no undefined conversion. *)
Lemma GenerateJitter_ok ts ms s : 0 < ss_clock_rate_ (rs_ids s) -> jitters_ok (jitters s) -> 0 <= ms < 2 ^ 46 ->
  exists j, GenerateJitter ts ms s = Done (true, set_jitters j s) /\ jitters_ok j.
Proof.
  intros Hr (Hl & Hj) Hms. unfold GenerateJitter. rewrite (proj2 (Z.leb_gt _ _)) by lia.
  set (rtp_ms := u32 (ts * 1000) / ss_clock_rate_ (rs_ids s)).
  assert (0 <= rtp_ms < 2 ^ 32) as Hrtp.
  { pose proof (Z.mod_pos_bound (ts * 1000) (2 ^ 32) eq_refl) as Hu. fold (u32 (ts * 1000)) in Hu. unfold rtp_ms.
    split; [apply Z.div_pos; lia|]. apply Z.div_lt_upper_bound; nia. }
  destruct (_ =? 0); [eexists; split; [reflexivity|]; split; cbn; lia|].
  set (d := Z.abs _). assert (0 <= d < 2 ^ 48) as Hd by lia. rewrite jitter_step by done. simpl_m.
  eexists. split; [reflexivity|]. split; [done|]. cbn. div_lia.
Qed.
