(* ===== verification/RtcReport.v ===== *)
(** * [RtcReport]: the round trip time, from a sender's report to the receiver's

    A sender report carries the time it was sent; the receiver puts it and the time it
    kept it into a block of its own report; the sender takes both from its clock. *)
From Stdlib Require Import Floats.SpecFloat.
From S2P Require Import Prelude ByteStream DataBuffer Media RtpPacket RtcpNack Rtcp RtcTime RtcSend RtcDatagram.
From S2P Require RtcRecv.
Import RtcRecv(RtcRecvStream, compact_delay).

(** ** A block *)

(** The 24 bytes of a block. *)
Definition rr_block (ssrc frac lost highest jitter lsr dlsr : Z) : bytes :=
  Write4Bytes ssrc ++ [u8 frac] ++ Write3Bytes lost ++ Write4Bytes highest ++ Write4Bytes jitter ++ Write4Bytes lsr ++ Write4Bytes dlsr.

Lemma take_front {A} (n : Z) (l : list A) : 0 <= n <= zlen l -> exists a b, l = a ++ b /\ zlen a = n /\ zlen b = zlen l - n.
Proof.
  intros H. exists (take (Z.to_nat n) l), (drop (Z.to_nat n) l). rewrite take_drop, zlen_take, zlen_drop by lia. by split_and!.
Qed.

Lemma rr_block_filled m ssrc frac lost highest jitter lsr dlsr : zlen m = RR_BLOCK_SIZE ->
  (b ← SetReporteeSsrc ssrc m; b ← SetFracLost frac b; b ← SetCumulativeLost lost b; b ← SetHighestSeq highest b; b ← SetJitter jitter b;
   b ← SetLsr lsr b; SetDlsr dlsr b) = Done (rr_block ssrc frac lost highest jitter lsr dlsr).
Proof.
  unfold RR_BLOCK_SIZE. intros Hm.
  destruct (take_front 4 m) as (a & m1 & -> & Ha & H1); [lia|]. destruct (take_front 1 m1) as (b & m2 & -> & Hb & H2); [lia|].
  destruct (take_front 3 m2) as (c & m3 & -> & Hc & H3); [lia|]. destruct (take_front 4 m3) as (d & m4 & -> & Hd & H4); [lia|].
  destruct (take_front 4 m4) as (e & m5 & -> & He & H5); [lia|]. destruct (take_front 4 m5) as (f & g & -> & Hf & Hg); [lia|].
  unfold SetReporteeSsrc, SetFracLost, SetCumulativeLost, SetHighestSeq, SetJitter, SetLsr, SetDlsr.
  change (put32 ?m 0 ?v) with (put32 ([] ++ m) (zlen (@nil Z)) v). rewrite put32_mid by done. simpl_m. cbn [app].
  set (w0 := Write4Bytes ssrc). change 4 with (zlen w0) at 1. rewrite write_at_mid by done. simpl_m.
  set (w1 := [u8 frac]). rewrite (app_assoc w0 w1). change 5 with (zlen (w0 ++ w1)). rewrite write_at_mid by done. simpl_m.
  set (w2 := Write3Bytes lost). rewrite (app_assoc _ w2). change 8 with (zlen ((w0 ++ w1) ++ w2)). rewrite put32_mid by done. simpl_m.
  set (w3 := Write4Bytes highest). rewrite (app_assoc _ w3). change 12 with (zlen (((w0 ++ w1) ++ w2) ++ w3)). rewrite put32_mid by done. simpl_m.
  set (w4 := Write4Bytes jitter). rewrite (app_assoc _ w4). change 16 with (zlen ((((w0 ++ w1) ++ w2) ++ w3) ++ w4)). rewrite put32_mid by done. simpl_m.
  set (w5 := Write4Bytes lsr). rewrite (app_assoc _ w5). change 20 with (zlen (((((w0 ++ w1) ++ w2) ++ w3) ++ w4) ++ w5)).
  rewrite <- (app_nil_r g), put32_mid by lia. rewrite app_nil_r. unfold rr_block. by rewrite <- !app_assoc.
Qed.

Lemma rr_block_fields ssrc frac lost highest jitter lsr dlsr : let b := rr_block ssrc frac lost highest jitter lsr dlsr in
  GetReporteeSsrc b = Done (u32 ssrc) /\ GetFracLost b = Done (u8 frac) /\ GetCumulativeLost b = Read3Bytes (Write3Bytes lost ++ drop 8 b) /\
  GetJitter b = Done (u32 jitter) /\ GetLsr b = Done (u32 lsr) /\ GetDlsr b = Done (u32 dlsr).
Proof.
  unfold rr_block, GetReporteeSsrc, GetFracLost, GetCumulativeLost, GetJitter, GetLsr, GetDlsr.
  set (w0 := Write4Bytes ssrc). set (w1 := [u8 frac]). set (w2 := Write3Bytes lost). set (w3 := Write4Bytes highest).
  split_and!; [apply (get32_mid [])|apply (rd_mid w0)|done| | |].
  - pose proof (get32_mid (w0 ++ w1 ++ w2 ++ w3) jitter (Write4Bytes lsr ++ Write4Bytes dlsr)) as H. by rewrite <- !app_assoc in H.
  - pose proof (get32_mid (w0 ++ w1 ++ w2 ++ w3 ++ Write4Bytes jitter) lsr (Write4Bytes dlsr)) as H. by rewrite <- !app_assoc in H.
  - pose proof (get32_mid (w0 ++ w1 ++ w2 ++ w3 ++ Write4Bytes jitter ++ Write4Bytes lsr) dlsr []) as H. by rewrite <- !app_assoc, app_nil_r in H.
Qed.

(** ** A report: its blocks, there and back *)

Definition is_block (b : bytes) : Prop := zlen b = RR_BLOCK_SIZE.

(** The offsets of [n] blocks behind [off]. *)
Fixpoint offsets (n : nat) (off : Z) : list Z := match n with O => [] | S n => off :: offsets n (off + RR_BLOCK_SIZE) end.

Lemma zlen_blocks bs : Forall is_block bs -> zlen (concat bs) = RR_BLOCK_SIZE * zlen bs.
Proof. induction 1 as [|b bs Hb _ IH]; [done|]. cbn [concat]. rewrite zlen_app, zlen_cons, Hb, IH. lia. Qed.

Lemma offsets_snoc n off : offsets (S n) off = offsets n off ++ [off + RR_BLOCK_SIZE * Z.of_nat n].
Proof.
  revert off. induction n as [|n IH]; intros off; [cbn; f_equal; lia|]. change (offsets (S (S n)) off) with (off :: offsets (S n) (off + RR_BLOCK_SIZE)).
  rewrite IH. cbn [offsets app]. do 2 f_equal. f_equal. lia.
Qed.

(** A report with these blocks. *)
Definition rr_packet (h : bytes) (bs : list bytes) (rest : bytes) : RtcpRrPacket := mkRr (h ++ concat bs ++ rest) (offsets (length bs) 8) 0.

Lemma AddRrBlock_spec h bs rest b : zlen h = 8 -> Forall is_block bs -> is_block b -> RR_BLOCK_SIZE <= zlen rest ->
  AddRrBlock b (rr_packet h bs rest) = Done (rr_packet h (bs ++ [b]) (drop (Z.to_nat RR_BLOCK_SIZE) rest)).
Proof.
  intros Hh Hbs Hb Hr. unfold AddRrBlock, rr_packet. cbn [rr_data rr_blocks_ rr_len_].
  rewrite <- (app_nil_r b) at 1. rewrite read_range_app by done. simpl_m.
  assert (match last (offsets (length bs) 8) with Some o => o + RR_BLOCK_SIZE | None => 8 end = 8 + RR_BLOCK_SIZE * zlen bs) as ->.
  { unfold zlen. destruct (length bs) as [|n]; [done|]. rewrite offsets_snoc, last_snoc. lia. }
  destruct (take_front RR_BLOCK_SIZE rest) as (a & c & -> & Ha & Hc); [unfold RR_BLOCK_SIZE in *; lia|].
  assert (8 + RR_BLOCK_SIZE * zlen bs = zlen (h ++ concat bs)) as -> by (by rewrite zlen_app, Hh, zlen_blocks).
  rewrite (app_assoc h), write_at_mid by (by rewrite Ha). simpl_m. rewrite <- Ha, drop_zlen_app, concat_app. cbn [concat]. rewrite app_nil_r, <- !app_assoc.
  do 2 f_equal. rewrite length_app. cbn [length]. rewrite Nat.add_1_r, offsets_snoc. do 2 f_equal. rewrite zlen_app, Hh, (zlen_blocks bs) by done. done.
Qed.

Fixpoint add_blocks (bs : list bytes) (p : RtcpRrPacket) : outcome RtcpRrPacket :=
  match bs with [] => mret p | b :: bs => p ← AddRrBlock b p; add_blocks bs p end.

Lemma add_blocks_spec h bs0 bs rest : zlen h = 8 -> Forall is_block bs0 -> Forall is_block bs -> RR_BLOCK_SIZE * zlen bs <= zlen rest ->
  exists rest', add_blocks bs (rr_packet h bs0 rest) = Done (rr_packet h (bs0 ++ bs) rest') /\ zlen rest' = zlen rest - RR_BLOCK_SIZE * zlen bs.
Proof.
  intros Hh H0 Hbs. revert bs0 H0 rest. induction Hbs as [|b bs Hb _ IH]; intros bs0 H0 rest Hr; cbn [add_blocks].
  { exists rest. rewrite app_nil_r. split; [done|]. change (zlen []) with 0. lia. }
  rewrite zlen_cons in *. pose proof (zlen_nonneg bs). unfold RR_BLOCK_SIZE in *.
  rewrite AddRrBlock_spec by (done || (unfold RR_BLOCK_SIZE; lia)). simpl_m.
  destruct (IH (bs0 ++ [b])) with (rest := drop (Z.to_nat RR_BLOCK_SIZE) rest) as (rest' & -> & Hl).
  - apply Forall_app. split; [done|by apply Forall_singleton].
  - unfold RR_BLOCK_SIZE. rewrite zlen_drop; lia.
  - exists rest'. rewrite <- app_assoc. split; [done|]. rewrite Hl. unfold RR_BLOCK_SIZE. rewrite zlen_drop; lia.
Qed.

(** Copying each block onto itself. *)
Lemma copy_blocks_same h bs rest : Forall is_block bs -> copy_blocks (h ++ concat bs ++ rest) (zlen h) (offsets (length bs) (zlen h)) = Done (h ++ concat bs ++ rest).
Proof.
  intros Hbs. revert h. induction Hbs as [|b bs Hb _ IH]; intros h; [done|]. cbn [length offsets copy_blocks concat]. rewrite <- app_assoc.
  unfold memcpy_within. rewrite <- Hb, read_range_mid. simpl_m. rewrite Z.eqb_refl. cbn [orb]. rewrite write_at_mid by done. simpl_m.
  rewrite <- zlen_app, (app_assoc h). apply IH.
Qed.

Lemma rr_offsets_spec fuel n off : (n < fuel)%nat -> rr_offsets fuel off (off + RR_BLOCK_SIZE * Z.of_nat n) = Done (offsets n off).
Proof.
  unfold RR_BLOCK_SIZE. revert fuel off. induction n as [|n IH]; intros [|fuel] off Hf; [lia| |lia|]; cbn [rr_offsets offsets].
  - by rewrite (proj2 (Z.ltb_ge _ _)) by lia.
  - rewrite (proj2 (Z.ltb_lt _ _)) by lia. unfold RR_BLOCK_SIZE. replace (off + 24 * Z.of_nat (S n)) with (off + 24 + 24 * Z.of_nat n) by lia.
    by rewrite IH by lia.
Qed.

Lemma rr_block_bytes_spec h bs rest : Forall is_block bs -> rr_block_bytes (h ++ concat bs ++ rest) (offsets (length bs) (zlen h)) = Done bs.
Proof.
  intros Hbs. revert h. induction Hbs as [|b bs Hb _ IH]; intros h; [done|]. cbn [length offsets rr_block_bytes concat]. rewrite <- app_assoc, <- Hb, read_range_mid.
  simpl_m. rewrite <- zlen_app, (app_assoc h), IH. by simpl_m.
Qed.

(** The eight bytes before the blocks of a report that is sent. *)
Definition rr_header (n : Z) : bytes :=
  [put_bits (put_bits (put_bits 0 6 2 2) 5 1 0) 0 5 n; u8 RTCP_RR] ++ Write2Bytes (u16 (8 + RR_BLOCK_SIZE * n) / 4 - 1) ++ Write4Bytes_le 1.

Lemma RrGetData_spec bs rest : bs <> [] -> Forall is_block bs -> zlen rest = RTCP_DATA_SIZE - 8 - RR_BLOCK_SIZE * zlen bs ->
  exists p, RrGetData (rr_packet (replicate 8 0) bs rest) = Done (Some (rr_header (zlen bs) ++ concat bs), p).
Proof.
  intros Hne Hbs Hr. unfold RrGetData. cbn [rr_data rr_blocks_ rr_packet].
  assert (exists o l, offsets (length bs) 8 = o :: l) as (o & l & Ho) by (destruct bs; [done|by eexists _, _]). rewrite Ho.
  assert (zlen (o :: l) = zlen bs) as Hn.
  { rewrite <- Ho. unfold zlen. f_equal. clear. generalize 8. induction bs as [|b bs IH]; intros z; [done|]. cbn [length offsets]. by rewrite IH. }
  rewrite Hn, <- Ho. unfold fb_common_header. change (rd (replicate 8 0 ++ _) 0) with (Done 0). simpl_m. set (mem := concat bs ++ rest).
  set (ab := [_; u8 RTCP_RR]). change (replicate 8 0 ++ mem) with ([0; 0] ++ [0; 0] ++ [0; 0; 0; 0] ++ mem).
  pose proof (write_at_mid [] [0; 0] ([0; 0] ++ [0; 0; 0; 0] ++ mem) ab eq_refl) as Hw. cbn [app] in Hw |- *. change (zlen []) with 0 in Hw. rewrite Hw. simpl_m.
  set (ln := Write2Bytes _). pose proof (write_at_mid ab [0; 0] ([0; 0; 0; 0] ++ mem) ln eq_refl) as Hw2. change (zlen ab) with 2 in Hw2. cbn [app] in Hw2. 
  rewrite Hw2. simpl_m. pose proof (write_at_mid (ab ++ ln) [0; 0; 0; 0] mem (Write4Bytes_le 1) eq_refl) as Hw3. change (zlen (ab ++ ln)) with 4 in Hw3.
  rewrite <- !app_assoc in Hw3. cbn [app] in Hw3. rewrite Hw3. simpl_m.
  pose proof (copy_blocks_same (rr_header (zlen bs)) bs rest Hbs) as Hc. change (zlen (rr_header (zlen bs))) with 8 in Hc.
  assert (ab ++ ln ++ Write4Bytes_le 1 ++ mem = rr_header (zlen bs) ++ concat bs ++ rest) as -> by (unfold rr_header; by rewrite <- !app_assoc).
  rewrite Hc. simpl_m.
  rewrite app_assoc, read_range_app; [eexists; reflexivity|]. rewrite zlen_app, zlen_blocks by done. done.
Qed.

Section report.
Context `{Alloc : Allocator}.

Lemma rr_parsed bs behind : bs <> [] -> Forall is_block bs -> 8 + RR_BLOCK_SIZE * zlen bs <= RTCP_DATA_SIZE ->
  exists p, RtcpRrPacket_Parse ((rr_header (zlen bs) ++ concat bs) ++ behind) (8 + RR_BLOCK_SIZE * zlen bs) = Done (Some p) /\ GetRrBlocks p = Done bs.
Proof.
  intros Hne Hbs Hl. set (d := rr_header (zlen bs) ++ concat bs).
  assert (zlen d = 8 + RR_BLOCK_SIZE * zlen bs) as Hd by (unfold d; rewrite zlen_app, zlen_blocks; done).
  assert (1 <= zlen bs) as H1 by (destruct bs; [done|rewrite zlen_cons; pose proof (zlen_nonneg bs); lia]). unfold RtcpRrPacket_Parse.
  rewrite (proj2 (Z.ltb_ge _ _)) by (unfold RR_BLOCK_SIZE; lia). rewrite <- Hd, read_range_app by done. simpl_m.
  destruct (take_front (zlen d) (new_char RTCP_DATA_SIZE)) as (a & rest & Ha & Hza & _).
  { rewrite (new_char_length RTCP_DATA_SIZE) by done. rewrite Hd. pose proof (zlen_nonneg bs). unfold RR_BLOCK_SIZE in *. lia. }
  rewrite Ha. pose proof (write_at_mid [] a rest d (eq_sym Hza)) as Hw. cbn [app] in Hw. change (zlen []) with 0 in Hw. rewrite Hw. simpl_m.
  rewrite Hd. pose proof (rr_offsets_spec (S (Z.to_nat (8 + RR_BLOCK_SIZE * zlen bs))) (length bs) 8) as Ho. fold (zlen bs) in Ho.
  rewrite Ho by (unfold RR_BLOCK_SIZE, zlen; lia). simpl_m. eexists. split; [reflexivity|].
  unfold GetRrBlocks. cbn [rr_data rr_blocks_]. unfold d. rewrite <- app_assoc.
  apply (rr_block_bytes_spec (rr_header (zlen bs)) bs rest Hbs).
Qed.

(** The blocks of a receiver report, added, sent and parsed, are the same. *)
Theorem rr_roundtrip bs behind : bs <> [] -> Forall is_block bs -> 8 + RR_BLOCK_SIZE * zlen bs <= RTCP_DATA_SIZE ->
  exists p d p' q, add_blocks bs RtcpRrPacket_new = Done p /\ RrGetData p = Done (Some d, p') /\ zlen d = 8 + RR_BLOCK_SIZE * zlen bs /\
    RtcpRrPacket_Parse (d ++ behind) (zlen d) = Done (Some q) /\ GetRrBlocks q = Done bs.
Proof.
  intros Hne Hbs Hl. destruct (rr_parsed bs behind Hne Hbs Hl) as (q & Hq & Hb).
  destruct (add_blocks_spec (replicate 8 0) [] bs (replicate 1492 0) eq_refl (Forall_nil_2 _) Hbs) as (rest & Hp & Hr).
  { change (zlen (replicate 1492 0)) with 1492. unfold RTCP_DATA_SIZE in Hl. lia. }
  destruct (RrGetData_spec bs rest Hne Hbs) as (p' & Hd); [change (zlen (replicate 1492 0)) with 1492 in Hr; unfold RTCP_DATA_SIZE; lia|].
  assert (zlen (rr_header (zlen bs) ++ concat bs) = 8 + RR_BLOCK_SIZE * zlen bs) as Hz by (rewrite zlen_app, zlen_blocks; done).
  eexists _, _, p', q. split; [exact Hp|]. split; [exact Hd|]. split; [done|]. split; [by rewrite Hz|done].
Qed.

(** ** The round trip time *)

Lemma compact_delay_units d : 0 <= d < 2 ^ 32 -> compact_delay d = u32 (units d).
Proof.
  intros Hd. unfold compact_delay. pose proof (Z.mod_pos_bound d 1000 eq_refl) as Hr. unfold u32 at 2. rewrite (Z.mod_small (_ * 65536)) by lia.
  rewrite units_split by lia. set (r := d mod 1000 * 65536 / 1000). assert (0 <= r < 65536) by (unfold r; div_lia).
  assert (u32 (Z.shiftl (d / 1000) 16) = u32 (Z.shiftl (Z.land (d / 1000) 0xffff) 16)) as ->.
  { change 0xffff with (Z.ones 16). rewrite Z.land_ones, !Z.shiftl_mul_pow2 by lia. unfold u32. change (2 ^ 32) with (2 ^ 16 * 2 ^ 16).
    rewrite !Z.mul_mod_distr_r, Z.mod_mod by lia. done. }
  apply units_join; [div_lia|done].
Qed.

(** What a sender report changes in the receiving stream. *)
Definition after_sr (rtp_ts ms pkts octets lsr : Z) (r : RtcRecvStream) : RtcRecvStream :=
  let p := RtcRecv.rs_reports r in
  RtcRecv.set_rs_reports (RtcRecv.mkRecvReports (RtcRecv.expect_recv_ p) (RtcRecv.last_recv_ p) rtp_ts ms pkts octets lsr
    (RtcRecv.frac_lost_ p) (RtcRecv.lost_percent_ p) (RtcRecv.total_lost_ p)) r.

(** Its counting of losses does not depend on it, and keeps it. *)
Lemma GetPacketLost_after rtp_ts ms pkts octets lsr r lost r' :
  RtcRecv.GetPacketLost r = Done (lost, r') -> exists r2,
    RtcRecv.GetPacketLost (after_sr rtp_ts ms pkts octets lsr r) = Done (lost, r2) /\ RtcRecv.lsr_ (RtcRecv.rs_reports r2) = lsr.
Proof.
  unfold RtcRecv.GetPacketLost, after_sr. destruct r as [a b [c d e f g h i j k l] m n o p q t v].
  cbn [RtcRecv.rs_reports RtcRecv.set_rs_reports RtcRecv.expect_recv_ RtcRecv.last_recv_ RtcRecv.frac_lost_ RtcRecv.lost_percent_ RtcRecv.total_lost_
    RtcRecv.rs_statics_ RtcRecv.rtp_timestamp_ RtcRecv.last_sr_ms_ RtcRecv.pkt_count_ RtcRecv.bytes_count_ RtcRecv.lsr_].
  change (RtcRecv.GetExpectedPackets (RtcRecv.mkRecvStream a b ?x m n o p q t v)) with (RtcRecv.GetExpectedPackets (RtcRecv.mkRecvStream a b
    (RtcRecv.mkRecvReports 0 0 0 0 0 0 0 0 k 0) m n o p q t v)).
  destruct (d <=? 0); [intros [= <- _]; eexists; split; [reflexivity|done]|].
  destruct (_ || _); [intros [= <- _]; eexists; split; [reflexivity|done]|].
  destruct (RtcRecv.lost_fraction _ _) as [frac|]; [|done]. simpl_m. intros [= <- _]. eexists. split; [reflexivity|done].
Qed.

(** The time from the compact ones, where the clock has not wrapped. *)
Lemma report_rtt_spec t0 t3 d : 0 <= t0 -> 1 <= d -> 1 <= t3 - t0 - d ->
  units t0 / 2 ^ 32 = units t3 / 2 ^ 32 -> units t0 mod 2 ^ 32 <> 0 ->
  report_rtt (u32 (units t3)) (u32 (units t0)) (u32 (units d)) = units t3 - units t0 - units d /\
  65536 * (t3 - t0 - d) - 1000 < 1000 * (units t3 - units t0 - units d) < 65536 * (t3 - t0 - d) + 2000.
Proof.
  intros H0 Hd Hx Hwrap Hne. assert (65536 * (t3 - t0 - d) - 1000 < 1000 * (units t3 - units t0 - units d) < 65536 * (t3 - t0 - d) + 2000) as Hb.
  { unfold units. div_lia. }
  split; [|done]. assert (65 <= units d) by (unfold units; div_lia). assert (0 < units t3 - units t0 - units d) by lia.
  pose proof (Z.div_mod (units t0) (2 ^ 32) ltac:(lia)) as E0. pose proof (Z.div_mod (units t3) (2 ^ 32) ltac:(lia)) as E3. rewrite Hwrap in E0.
  pose proof (Z.mod_pos_bound (units t0) (2 ^ 32) eq_refl). pose proof (Z.mod_pos_bound (units t3) (2 ^ 32) eq_refl).
  unfold report_rtt. assert (u32 (units d) = units d) as -> by (apply Z.mod_small; lia). fold (u32 (units t0)) (u32 (units t3)) in *.
  rewrite (proj2 (Z.eqb_neq _ _)), (proj2 (Z.eqb_neq _ _)) by lia. cbn [negb andb].
  assert (u32 (units d + u32 (units t0)) = units d + u32 (units t0)) as -> by (apply Z.mod_small; lia).
  rewrite (proj2 (Z.ltb_lt _ _)) by lia. unfold u32 at 1. rewrite Z.mod_small by lia. lia.
Qed.

(** C9. The round trip time from a report of the sender at [t0] that arrives at [t1],
    and a report of the receiver at [t2] that arrives at [t3], is the time that was
    spent on the way, to within two units of 1/65536 second: the clocks of the two
    ends need not agree.  The clock of the sender must not pass a multiple of 65536
    seconds in between. *)
Theorem rtt_measured s r r' lost t0 t1 t2 t3 :
  stream_ok s -> 0 <= t0 -> t3 < MAX_TIME -> 0 < t1 -> t1 < t2 -> RtcRecv.GetPacketLost r = Done (lost, r') ->
  units t0 / 2 ^ 32 = units t3 / 2 ^ 32 -> units t0 mod 2 ^ 32 <> 0 -> 1 <= t3 - t0 - (t2 - t1) ->
  exists s1 d sr r1 block r2, send_report t0 s = Done s1 /\ ss_log_ s1 = ss_log_ s ++ [SentRtcpPacket d] /\
    RtcpSrPacket_Parse d SR_SIZE = Done (Some sr) /\ RtcRecv.HandleRtcpSr t1 sr r = Done r1 /\ RtcRecv.GetRtcpRr t2 r1 = Done (block, r2) /\
    forall s3, exists s4 u, HandleRtcpRr t3 block s3 = Done s4 /\ rtt_ (receiver s4) = rtt_millisec u /\
      65536 * (t3 - t0 - (t2 - t1)) - 1000 < 1000 * u < 65536 * (t3 - t0 - (t2 - t1)) + 2000.
Proof.
  intros Hok H0 H3 H1 H2 Hlost Hwrap Hne Hx. set (x := t2 - t1) in *. assert (0 <= t0 < MAX_TIME) as Ht0 by lia.
  set (sa := set_last_sr_ts t0 s). destruct (GetRtcpSr_spec t0 sa Hok Ht0) as (sr0 & Hsr & Hd).
  set (d := sr_bytes _ _ _ _ _ _) in Hd. destruct (sr_parsed (ss_ssrc_ (ids sa)) (ntp_sec (ntp_of t0)) (ntp_frac (ntp_of t0)) (sr_rtp_time t0 sa)
    (sent_count_ (reports sa)) (sent_bytes_ (reports sa)) []) as (rest & Hp). fold d in Hp. rewrite app_nil_r in Hp.
  set (sr := sr_packet _ rest _) in Hp. destruct (sr_packet_fields (ss_ssrc_ (ids sa)) (ntp_sec (ntp_of t0)) (ntp_frac (ntp_of t0)) (sr_rtp_time t0 sa)
    (sent_count_ (reports sa)) (sent_bytes_ (reports sa)) rest (u32 (ss_ssrc_ (ids sa)))) as (F1 & F2 & F3 & F4 & F5). fold sr in F1, F2, F3, F4, F5.
  destruct (ntp_of_ok t0) as [Hsec Hfrac].
  assert (exists r1, RtcRecv.HandleRtcpSr t1 sr r = Done r1 /\ r1 = after_sr (u32 (sr_rtp_time t0 sa)) t1 (u32 (sent_count_ (reports sa)))
    (u32 (sent_bytes_ (reports sa))) (u32 (units t0)) r) as (r1 & Hr1 & Er1).
  { unfold RtcRecv.HandleRtcpSr. rewrite F1, F2, F3, F4, F5. simpl_m. eexists. split; [reflexivity|]. unfold after_sr.
    rewrite <- compact_ntp_of by lia. unfold compact_ntp. assert (forall v, 0 <= v < 2 ^ 32 -> u32 v = v) as Hu by (intros v Hv; by apply Z.mod_small).
    rewrite (Hu (ntp_sec _)), (Hu (ntp_frac _)), Z.shiftr_land by done. done. }
  destruct (GetPacketLost_after (u32 (sr_rtp_time t0 sa)) t1 (u32 (sent_count_ (reports sa))) (u32 (sent_bytes_ (reports sa))) (u32 (units t0)) r lost r' Hlost)
    as (r2 & Hl2 & Hlsr). rewrite <- Er1 in Hl2.
  assert (0 <= x < 2 ^ 32) as Hxr.
  { split; [lia|]. pose proof (Z.div_mod (units t0) (2 ^ 32) ltac:(lia)). pose proof (Z.div_mod (units t3) (2 ^ 32) ltac:(lia)).
    pose proof (Z.mod_pos_bound (units t0) (2 ^ 32) eq_refl). pose proof (Z.mod_pos_bound (units t3) (2 ^ 32) eq_refl).
    assert (units t3 - units t0 < 2 ^ 32) by lia. unfold units in *. div_lia. }
  pose proof (rr_block_filled (new_char RR_BLOCK_SIZE) (ss_ssrc_ (RtcRecv.rs_ids r2)) (RtcRecv.frac_lost_ (RtcRecv.rs_reports r2)) lost
    (u32 (RtcRecv.rs_max_seq_ (RtcRecv.seqs r1) + RtcRecv.rs_cycles_ (RtcRecv.seqs r1))) (RtcRecv.jitter_ (RtcRecv.jitters r2)) (u32 (units t0)) (u32 (units x))
    (new_char_length RR_BLOCK_SIZE ltac:(done))) as Hblk. set (block := rr_block _ _ _ _ _ _ _) in Hblk.
  exists (emit (SentRtcpPacket d) (set_sr_times (ntp_of t0) (sr_rtp_time t0 sa) sa)), d, sr, r1, block, r2.
  split; [unfold send_report; fold sa; rewrite Hsr; simpl_m; rewrite Hd; by simpl_m|]. split; [done|]. split; [exact Hp|]. split; [exact Hr1|]. split.
  - unfold RtcRecv.GetRtcpRr. rewrite Hl2. simpl_m. rewrite Hlsr.
    assert (RtcRecv.last_sr_ms_ (RtcRecv.rs_reports r1) = t1) as -> by (by rewrite Er1). rewrite (proj2 (Z.ltb_lt _ _)) by lia. fold x.
    assert (u32 x = x) as -> by (by apply Z.mod_small). rewrite compact_delay_units by done.
    revert Hblk. simpl_m.
    destruct (SetReporteeSsrc _ _) as [b1|]; [|done]. simpl_m. destruct (SetFracLost _ b1) as [b2|]; [|done]. simpl_m.
    destruct (SetCumulativeLost _ b2) as [b3|]; [|done]. simpl_m. destruct (SetHighestSeq _ b3) as [b4|]; [|done]. simpl_m.
    destruct (SetJitter _ b4) as [b5|]; [|done]. simpl_m. destruct (SetLsr _ b5) as [b6|]; [|done]. simpl_m. by intros ->.
  - intros s3. destruct (report_rtt_spec t0 t3 x H0 ltac:(lia) Hx Hwrap Hne) as [Hrtt Hb].
    destruct (rr_block_fields (ss_ssrc_ (RtcRecv.rs_ids r2)) (RtcRecv.frac_lost_ (RtcRecv.rs_reports r2)) lost
      (u32 (RtcRecv.rs_max_seq_ (RtcRecv.seqs r1) + RtcRecv.rs_cycles_ (RtcRecv.seqs r1))) (RtcRecv.jitter_ (RtcRecv.jitters r2)) (u32 (units t0)) (u32 (units x)))
      as (_ & G1 & G2 & G3 & G4 & G5). fold block in G1, G2, G3, G4, G5. rewrite Read3Bytes_Write3Bytes in G2.
    unfold HandleRtcpRr. rewrite G1, G2, G3, G4, G5. simpl_m.
    assert (forall v, u32 (u32 v) = u32 v) as Huu by (intros v; apply Z.mod_mod; lia). rewrite !Huu.
    rewrite (proj2 (Z.eqb_neq _ _)) by done. destruct (millisec_to_ntp_spec t3) as [-> _]; [lia|]. simpl_m. rewrite compact_ntp_of, Hrtt by lia.
    eexists _, _. split; [reflexivity|]. split; [reflexivity|exact Hb].
Qed.
End report.

(** Ten milliseconds there, twenty at the receiver, five back. *)
Lemma rtt_measured_witness :
  let s := RtcSendStream_new (Alloc := zero_alloc) MEDIA_VIDEO_TYPE 7 96 90000 true None in
  let r := RtcRecv.RtcRecvStream_new MEDIA_VIDEO_TYPE 7 96 90000 true None in
  exists s1 d sr r1 block r2, send_report 1700000000000 s = Done s1 /\ ss_log_ s1 = ss_log_ s ++ [SentRtcpPacket d] /\
    RtcpSrPacket_Parse (Alloc := zero_alloc) d SR_SIZE = Done (Some sr) /\ RtcRecv.HandleRtcpSr 10 sr r = Done r1 /\
    RtcRecv.GetRtcpRr (Alloc := zero_alloc) 30 r1 = Done (block, r2) /\
    forall s3, exists s4 u, HandleRtcpRr 1700000000035 block s3 = Done s4 /\ rtt_ (receiver s4) = rtt_millisec u /\
      65536 * 15 - 1000 < 1000 * u < 65536 * 15 + 2000.
Proof.
  intros s r. apply (rtt_measured (Alloc := zero_alloc) s r (RtcRecv.set_rs_reports (RtcRecv.mkRecvReports (RtcRecv.GetExpectedPackets r) 0 0 0 0 0 0 0
    (S754_zero false) 0) r) 0 1700000000000 10 30 1700000000035); by vm_compute.
Defined.

(** Two blocks and the bytes of the next packet behind them. *)
Lemma rr_roundtrip_witness :
  let bs := [replicate 24 7; replicate 24 9] in
  exists p d p' q, add_blocks bs RtcpRrPacket_new = Done p /\ RrGetData p = Done (Some d, p') /\ zlen d = 8 + RR_BLOCK_SIZE * 2 /\
    RtcpRrPacket_Parse (Alloc := zero_alloc) (d ++ [1; 2]) (zlen d) = Done (Some q) /\ GetRrBlocks q = Done bs.
Proof. intros bs. apply (rr_roundtrip (Alloc := zero_alloc) bs [1; 2]); [done| |done]. repeat constructor. Defined.
