(* ===== verification/PeerConnection.v ===== *)
(** * [PeerConnection]: media and RTCP between the network and the streams

    Models the media path of [src/net/webrtc/peerconnection.cpp], from behind the
    SRTP decryption, and [pack_handle_audio.hpp].  The callbacks of the jitter buffers
    and of the packers, which do not change these, are taken from their logs and run
    after the call that makes them.  A receiver's data are memory [m] and an offset.
    The calls of [OnReceiveMediaPacket] are appended to [pc_media_], the RTCP packets
    the connection itself makes to [pc_rtcp_]; those of a stream are in its log.  A
    [None] where a number is returned is an exception. *)
From S2P Require Import Prelude ByteStream DataBuffer Media H264 RtpPacket RtpClone RtpPack Jitter PackH264 RtcpNack Rtcp RtcTime.
From S2P Require RtcSend RtcRecv.
Import RtcSend(RtcSendStream). Import RtcRecv(RtcRecvStream).

Definition RTCP_RR_INTERVAL : Z := 1 * 1000.
Definition RTCP_SDES : Z := 202.
Definition RTCP_BYE : Z := 203.
Definition RTCP_APP : Z := 204.

Inductive PC_STATE := PC_INIT_STATE | PC_SDP_DONE_STATE | PC_STUN_DONE_STATE | PC_DTLS_DONE_STATE.
Inductive WebRtcSdpDirection := DIRECTION_UNKNOWN | SEND_ONLY | RECV_ONLY | SEND_RECV.

Record PeerConnection := mkPeer {
  pc_state_ : PC_STATE;
  direct_type_ : WebRtcSdpDirection;
  mspull_ : bool;
  video_send_stream_ : option RtcSendStream;
  audio_send_stream_ : option RtcSendStream;
  video_recv_stream_ : option RtcRecvStream;
  audio_recv_stream_ : option RtcRecvStream;
  last_xr_ntp_ : NTP_TIMESTAMP;
  last_xr_ms_ : Z;
  last_send_xr_dlrr_ms_ : Z;
  last_rr_ms_ : Z;
  jb_video_ : JitterBuffer (P := RtpPacket);
  jb_audio_ : JitterBuffer (P := RtpPacket);
  h264_pack_ : option PackHandleH264;
  find_keyframe_ : bool;
  pc_media_ : list Media_Packet;
  pc_rtcp_ : list bytes
}.

Definition set_pc_state (v : PC_STATE) (s : PeerConnection) : PeerConnection :=
  mkPeer v (direct_type_ s) (mspull_ s) (video_send_stream_ s) (audio_send_stream_ s) (video_recv_stream_ s) (audio_recv_stream_ s) (last_xr_ntp_ s)
    (last_xr_ms_ s) (last_send_xr_dlrr_ms_ s) (last_rr_ms_ s) (jb_video_ s) (jb_audio_ s) (h264_pack_ s) (find_keyframe_ s) (pc_media_ s) (pc_rtcp_ s).
Definition set_video_send (v : option RtcSendStream) (s : PeerConnection) : PeerConnection :=
  mkPeer (pc_state_ s) (direct_type_ s) (mspull_ s) v (audio_send_stream_ s) (video_recv_stream_ s) (audio_recv_stream_ s) (last_xr_ntp_ s)
    (last_xr_ms_ s) (last_send_xr_dlrr_ms_ s) (last_rr_ms_ s) (jb_video_ s) (jb_audio_ s) (h264_pack_ s) (find_keyframe_ s) (pc_media_ s) (pc_rtcp_ s).
Definition set_audio_send (v : option RtcSendStream) (s : PeerConnection) : PeerConnection :=
  mkPeer (pc_state_ s) (direct_type_ s) (mspull_ s) (video_send_stream_ s) v (video_recv_stream_ s) (audio_recv_stream_ s) (last_xr_ntp_ s)
    (last_xr_ms_ s) (last_send_xr_dlrr_ms_ s) (last_rr_ms_ s) (jb_video_ s) (jb_audio_ s) (h264_pack_ s) (find_keyframe_ s) (pc_media_ s) (pc_rtcp_ s).
Definition set_video_recv (v : option RtcRecvStream) (s : PeerConnection) : PeerConnection :=
  mkPeer (pc_state_ s) (direct_type_ s) (mspull_ s) (video_send_stream_ s) (audio_send_stream_ s) v (audio_recv_stream_ s) (last_xr_ntp_ s)
    (last_xr_ms_ s) (last_send_xr_dlrr_ms_ s) (last_rr_ms_ s) (jb_video_ s) (jb_audio_ s) (h264_pack_ s) (find_keyframe_ s) (pc_media_ s) (pc_rtcp_ s).
Definition set_audio_recv (v : option RtcRecvStream) (s : PeerConnection) : PeerConnection :=
  mkPeer (pc_state_ s) (direct_type_ s) (mspull_ s) (video_send_stream_ s) (audio_send_stream_ s) (video_recv_stream_ s) v (last_xr_ntp_ s)
    (last_xr_ms_ s) (last_send_xr_dlrr_ms_ s) (last_rr_ms_ s) (jb_video_ s) (jb_audio_ s) (h264_pack_ s) (find_keyframe_ s) (pc_media_ s) (pc_rtcp_ s).
Definition set_last_xr (ntp : NTP_TIMESTAMP) (ms : Z) (s : PeerConnection) : PeerConnection :=
  mkPeer (pc_state_ s) (direct_type_ s) (mspull_ s) (video_send_stream_ s) (audio_send_stream_ s) (video_recv_stream_ s) (audio_recv_stream_ s) ntp
    ms (last_send_xr_dlrr_ms_ s) (last_rr_ms_ s) (jb_video_ s) (jb_audio_ s) (h264_pack_ s) (find_keyframe_ s) (pc_media_ s) (pc_rtcp_ s).
Definition set_last_send_xr_dlrr_ms (v : Z) (s : PeerConnection) : PeerConnection :=
  mkPeer (pc_state_ s) (direct_type_ s) (mspull_ s) (video_send_stream_ s) (audio_send_stream_ s) (video_recv_stream_ s) (audio_recv_stream_ s) (last_xr_ntp_ s)
    (last_xr_ms_ s) v (last_rr_ms_ s) (jb_video_ s) (jb_audio_ s) (h264_pack_ s) (find_keyframe_ s) (pc_media_ s) (pc_rtcp_ s).
Definition set_last_rr_ms (v : Z) (s : PeerConnection) : PeerConnection :=
  mkPeer (pc_state_ s) (direct_type_ s) (mspull_ s) (video_send_stream_ s) (audio_send_stream_ s) (video_recv_stream_ s) (audio_recv_stream_ s) (last_xr_ntp_ s)
    (last_xr_ms_ s) (last_send_xr_dlrr_ms_ s) v (jb_video_ s) (jb_audio_ s) (h264_pack_ s) (find_keyframe_ s) (pc_media_ s) (pc_rtcp_ s).
Definition set_jb_video (v : JitterBuffer (P := RtpPacket)) (s : PeerConnection) : PeerConnection :=
  mkPeer (pc_state_ s) (direct_type_ s) (mspull_ s) (video_send_stream_ s) (audio_send_stream_ s) (video_recv_stream_ s) (audio_recv_stream_ s) (last_xr_ntp_ s)
    (last_xr_ms_ s) (last_send_xr_dlrr_ms_ s) (last_rr_ms_ s) v (jb_audio_ s) (h264_pack_ s) (find_keyframe_ s) (pc_media_ s) (pc_rtcp_ s).
Definition set_jb_audio (v : JitterBuffer (P := RtpPacket)) (s : PeerConnection) : PeerConnection :=
  mkPeer (pc_state_ s) (direct_type_ s) (mspull_ s) (video_send_stream_ s) (audio_send_stream_ s) (video_recv_stream_ s) (audio_recv_stream_ s) (last_xr_ntp_ s)
    (last_xr_ms_ s) (last_send_xr_dlrr_ms_ s) (last_rr_ms_ s) (jb_video_ s) v (h264_pack_ s) (find_keyframe_ s) (pc_media_ s) (pc_rtcp_ s).
Definition set_h264_pack (v : option PackHandleH264) (s : PeerConnection) : PeerConnection :=
  mkPeer (pc_state_ s) (direct_type_ s) (mspull_ s) (video_send_stream_ s) (audio_send_stream_ s) (video_recv_stream_ s) (audio_recv_stream_ s) (last_xr_ntp_ s)
    (last_xr_ms_ s) (last_send_xr_dlrr_ms_ s) (last_rr_ms_ s) (jb_video_ s) (jb_audio_ s) v (find_keyframe_ s) (pc_media_ s) (pc_rtcp_ s).
Definition set_find_keyframe (v : bool) (s : PeerConnection) : PeerConnection :=
  mkPeer (pc_state_ s) (direct_type_ s) (mspull_ s) (video_send_stream_ s) (audio_send_stream_ s) (video_recv_stream_ s) (audio_recv_stream_ s) (last_xr_ntp_ s)
    (last_xr_ms_ s) (last_send_xr_dlrr_ms_ s) (last_rr_ms_ s) (jb_video_ s) (jb_audio_ s) (h264_pack_ s) v (pc_media_ s) (pc_rtcp_ s).
Definition OnReceiveMediaPacket (p : Media_Packet) (s : PeerConnection) : PeerConnection :=
  mkPeer (pc_state_ s) (direct_type_ s) (mspull_ s) (video_send_stream_ s) (audio_send_stream_ s) (video_recv_stream_ s) (audio_recv_stream_ s) (last_xr_ntp_ s)
    (last_xr_ms_ s) (last_send_xr_dlrr_ms_ s) (last_rr_ms_ s) (jb_video_ s) (jb_audio_ s) (h264_pack_ s) (find_keyframe_ s) (pc_media_ s ++ [p]) (pc_rtcp_ s).
Definition SendRtcpPacket (d : bytes) (s : PeerConnection) : PeerConnection :=
  mkPeer (pc_state_ s) (direct_type_ s) (mspull_ s) (video_send_stream_ s) (audio_send_stream_ s) (video_recv_stream_ s) (audio_recv_stream_ s) (last_xr_ntp_ s)
    (last_xr_ms_ s) (last_send_xr_dlrr_ms_ s) (last_rr_ms_ s) (jb_video_ s) (jb_audio_ s) (h264_pack_ s) (find_keyframe_ s) (pc_media_ s) (pc_rtcp_ s ++ [d]).

Definition ready (s : PeerConnection) : bool := match pc_state_ s with PC_DTLS_DONE_STATE => true | _ => false end.

Section peer.
Context `{Alloc : Allocator}.

(** A new connection: the constructors of the jitter buffers do not throw for these types. *)
Definition new_jitter (type : MEDIA_PKT_TYPE) (timeout : Z) : JitterBuffer (P := RtpPacket) :=
  mkJitter type false 0 0 (RTP_SEQ_MOD + 1) 0 [] 0 (-1) 0 timeout [].
Definition PeerConnection_new : PeerConnection :=
  mkPeer PC_INIT_STATE DIRECTION_UNKNOWN false None None None None (mkNtp 0 0) (-1) (-1) (-1)
    (new_jitter MEDIA_VIDEO_TYPE JITTER_BUFFER_VIDEO_TIMEOUT) (new_jitter MEDIA_AUDIO_TYPE JITTER_BUFFER_AUDIO_TIMEOUT) None false [] [].

(** ** Media out *)

Definition SendVideoPacket (now_ms : Z) (p : Media_Packet) (s : PeerConnection) : outcome (bool * Media_Packet * PeerConnection) :=
  match video_send_stream_ s with
  | None => mret (true, p, s)
  | Some st => '(ok, p, st) ← RtcSend.SendPacket now_ms p st; mret (ok, p, set_video_send (Some st) s)
  end.
Definition SendAudioPacket (now_ms : Z) (p : Media_Packet) (s : PeerConnection) : outcome (bool * Media_Packet * PeerConnection) :=
  match audio_send_stream_ s with
  | None => mret (true, p, s)
  | Some st => '(ok, p, st) ← RtcSend.SendPacket now_ms p st; mret (ok, p, set_audio_send (Some st) s)
  end.

(** ** Media in *)

Definition clock_rate_of (st : option RtcRecvStream) : outcome Z :=
  match st with Some st => mret (ss_clock_rate_ (RtcRecv.rs_ids st)) | None => Fault OutOfBounds end.

(** [dts_ = pts_ = dts_ * 1000 / clock_rate] *)
Definition rescale (st : option RtcRecvStream) (p : Media_Packet) : outcome Media_Packet :=
  rate ← clock_rate_of st;
  t ← chk_int64 (dts_ p * 1000);
  if rate =? 0 then Fault DivByZero else let t := t `quot` rate in mret (set_dts t (set_pts t p)).

Definition on_MediaPacketOutput (p : Media_Packet) (s : PeerConnection) : outcome PeerConnection :=
  match av_type_ p with
  | MEDIA_VIDEO_TYPE =>
      p ← rescale (video_recv_stream_ s) p;
      pos ← GetNaluTypePos (Data (buffer_ptr_ p));
      b ← (buffer_ (buffer_ptr_ p)).[start_ (buffer_ptr_ p) + pos];
      if H264_IS_AUD b then mret s
      else if find_keyframe_ s && negb (H264_IS_KEYFRAME b) then mret s
      else mret (OnReceiveMediaPacket p (set_find_keyframe false s))
  | MEDIA_AUDIO_TYPE => p ← rescale (audio_recv_stream_ s) p; mret (OnReceiveMediaPacket p s)
  | _ => mret s
  end.

Definition on_PackHandleReset (now_ms : Z) (s : PeerConnection) : outcome PeerConnection :=
  let s := set_find_keyframe true s in
  match video_recv_stream_ s with
  | Some st => st ← RtcRecv.RequestKeyFrame (-1) now_ms st; mret (set_video_recv (Some st) s)
  | None => mret s
  end.

Fixpoint run_pack_events (now_ms : Z) (l : list pack_event) (s : PeerConnection) : outcome PeerConnection :=
  match l with
  | [] => mret s
  | e :: l =>
      s ← (match e with PackHandleReset _ => on_PackHandleReset now_ms s | PackMediaPacketOutput p => on_MediaPacketOutput p s end);
      run_pack_events now_ms l s
  end.

(** [PackHandleAudio::InputRtpPacket] *)
Definition audio_packet (i : Info) : outcome Media_Packet :=
  p ← Media_Packet_len (payload_len_ (i_pkt i) + 1024);
  dts ← GetTimestamp (i_pkt i);
  let p := set_av_type MEDIA_AUDIO_TYPE p in
  let p := set_codec_type MEDIA_CODEC_OPUS p in
  let p := set_fmt_type MEDIA_FORMAT_RAW p in
  let p := set_pts dts (set_dts dts p) in
  d ← GetPayload (i_pkt i);
  append_packet d p.

Definition RtpPacketOutput (now_ms : Z) (i : Info) (s : PeerConnection) : outcome PeerConnection :=
  match i_media_type_ i with
  | MEDIA_VIDEO_TYPE =>
      let h := default PackHandleH264_new (h264_pack_ s) in
      h' ← PackH264.InputRtpPacket now_ms i h;
      run_pack_events now_ms (drop (length (p_log_ h)) (p_log_ h')) (set_h264_pack (Some h') s)
  | MEDIA_AUDIO_TYPE => p ← audio_packet i; on_MediaPacketOutput p s
  | _ => mret s
  end.

Fixpoint run_jitter_events (now_ms : Z) (l : list (jb_event (P := RtpPacket))) (s : PeerConnection) : outcome PeerConnection :=
  match l with
  | [] => mret s
  | Jitter.RtpPacketReset _ :: l => run_jitter_events now_ms l s
  | Jitter.RtpPacketOutput i :: l => s ← RtpPacketOutput now_ms i s; run_jitter_events now_ms l s
  end.

(** The callbacks of a jitter buffer that was [j] and is [j']. *)
Definition jitter_events (now_ms : Z) (j j' : JitterBuffer (P := RtpPacket)) (s : PeerConnection) : outcome PeerConnection :=
  run_jitter_events now_ms (drop (length (j_log_ j)) (j_log_ j')) s.

(** What a stream's packet is given to once the stream has counted it. *)
Definition input_video (now_ms clock_rate : Z) (p : RtpPacket) (s : PeerConnection) : outcome PeerConnection :=
  '(_, j) ← Jitter.InputRtpPacket now_ms clock_rate p (jb_video_ s);
  jitter_events now_ms (jb_video_ s) j (set_jb_video j s).
Definition input_audio (now_ms clock_rate : Z) (p : RtpPacket) (s : PeerConnection) : outcome PeerConnection :=
  '(_, j) ← Jitter.InputRtpPacket now_ms clock_rate p (jb_audio_ s);
  jitter_events now_ms (jb_audio_ s) j (set_jb_audio j s).

Definition receive_video (now_ms : Z) (p : RtpPacket) (st : RtcRecvStream) (s : PeerConnection) : outcome PeerConnection :=
  '(ok, p, st) ← RtcRecv.HandleRtpPacket p st;
  let s := set_video_recv (Some st) s in
  if negb ok then mret s else input_video now_ms (ss_clock_rate_ (RtcRecv.rs_ids st)) p s.

Definition receive_audio (now_ms : Z) (p : RtpPacket) (st : RtcRecvStream) (s : PeerConnection) : outcome PeerConnection :=
  '(ok, p, st) ← RtcRecv.HandleRtpPacket p st;
  let s := set_audio_recv (Some st) s in
  if negb ok then mret s else input_audio now_ms (ss_clock_rate_ (RtcRecv.rs_ids st)) p s.

(** Whether the stream receives this ssrc. *)
Definition video_of (ssrc : Z) (st : RtcRecvStream) : bool :=
  (ssrc =? ss_ssrc_ (RtcRecv.rs_ids st)) || (ssrc =? ss_rtx_ssrc_ (RtcRecv.rs_ids st)).
Definition audio_of (ssrc : Z) (st : RtcRecvStream) : bool := ssrc =? ss_ssrc_ (RtcRecv.rs_ids st).

(** An RTP packet that has been decrypted. *)
Definition HandleRtpData (now_ms : Z) (m : bytes) (len : Z) (s : PeerConnection) : outcome PeerConnection :=
  if negb (ready s) then mret s
  else
    r ← Parse m len now_ms;
    match r with
    | None => mret s
    | Some p =>
        ssrc ← GetSsrc p;
        if mspull_ s && (ssrc =? 1234) then mret s
        else
          match video_recv_stream_ s, audio_recv_stream_ s with
          | Some v, Some a => if video_of ssrc v then receive_video now_ms p v s else if audio_of ssrc a then receive_audio now_ms p a s else mret s
          | Some v, None => if video_of ssrc v then receive_video now_ms p v s else mret s
          | None, Some a => if audio_of ssrc a then receive_audio now_ms p a s else mret s
          | None, None => mret s
          end
    end.

(** The timers of the buffers and of the packer. *)
Definition OnJitterTimers (now_ms : Z) (s : PeerConnection) : outcome PeerConnection :=
  let j := Jitter.OnTimer now_ms (jb_video_ s) in
  s ← jitter_events now_ms (jb_video_ s) j (set_jb_video j s);
  let j := Jitter.OnTimer now_ms (jb_audio_ s) in
  jitter_events now_ms (jb_audio_ s) j (set_jb_audio j s).
Definition OnPackTimer (now_ms : Z) (s : PeerConnection) : PeerConnection :=
  set_h264_pack (match h264_pack_ s with Some h => Some (PackH264.OnTimer now_ms h) | None => None end) s.

(** ** RTCP in *)

(** Whether a stream is there and has this ssrc. *)
Definition recv_has_ssrc (ssrc : Z) (st : option RtcRecvStream) : bool :=
  match st with Some st => ssrc =? ss_ssrc_ (RtcRecv.rs_ids st) | None => false end.

(** A call on a stream, where its ssrc is this one. *)
Definition on_send (ssrc : Z) (f : RtcSendStream -> outcome (bool * RtcSendStream)) (st : option RtcSendStream)
    : outcome (bool * option RtcSendStream) :=
  match st with
  | Some x => if ssrc =? ss_ssrc_ (RtcSend.ids x) then '(ok, x) ← f x; mret (ok : bool, Some x) else mret (true, st)
  | None => mret (true, st)
  end.
Definition on_recv (ssrc : Z) (f : RtcRecvStream -> outcome RtcRecvStream) (st : option RtcRecvStream) : outcome (option RtcRecvStream) :=
  match st with
  | Some x => if ssrc =? ss_ssrc_ (RtcRecv.rs_ids x) then x ← f x; mret (Some x) else mret st
  | None => mret st
  end.

(** The same call on both: the audio stream's is not reached when the video stream's throws. *)
Definition on_senders (ssrc : Z) (f : RtcSendStream -> outcome (bool * RtcSendStream)) (s : PeerConnection) : outcome (bool * PeerConnection) :=
  '(ok, v) ← on_send ssrc f (video_send_stream_ s);
  let s := set_video_send v s in
  if negb ok then mret (false, s)
  else '(ok, a) ← on_send ssrc f (audio_send_stream_ s); mret (ok : bool, set_audio_send a s).

(** The return value, and the connection. *)
Definition HandleRtcpSr (now_ms : Z) (data : bytes) (len : Z) (s : PeerConnection) : outcome (Z * PeerConnection) :=
  r ← RtcpSrPacket_Parse data len;
  match r with
  | None => mret (-1, s)
  | Some sr =>
      let ssrc := sender_ssrc_ sr in
      s ← (if recv_has_ssrc ssrc (video_recv_stream_ s) then
             v ← on_recv ssrc (RtcRecv.HandleRtcpSr now_ms sr) (video_recv_stream_ s); mret (set_video_recv v s)
           else a ← on_recv ssrc (RtcRecv.HandleRtcpSr now_ms sr) (audio_recv_stream_ s); mret (set_audio_recv a s));
      mret (SR_SIZE, s)
  end.

Fixpoint rr_blocks (now_ms : Z) (blocks : list bytes) (s : PeerConnection) : outcome PeerConnection :=
  match blocks with
  | [] => mret s
  | block :: blocks =>
      ssrc ← GetReporteeSsrc block;
      '(_, s) ← on_senders ssrc (fun st => st ← RtcSend.HandleRtcpRr now_ms block st; mret (true, st)) s;
      rr_blocks now_ms blocks s
  end.

Definition HandleRtcpRr (now_ms : Z) (data : bytes) (len : Z) (s : PeerConnection) : outcome (option Z * PeerConnection) :=
  if len <=? RTCP_HEADER_SIZE + RR_BLOCK_SIZE then mret (Some len, s)
  else
    r ← RtcpRrPacket_Parse data len;
    match r with
    | None => mret (None, s)
    | Some rr => blocks ← GetRrBlocks rr; s ← rr_blocks now_ms blocks s; mret (Some len, s)
    end.

(** A packet that is too short for a number is no packet, and is read all the same. *)
Definition HandleRtcpRtpFb (now_ms : Z) (data : bytes) (data_len : Z) (s : PeerConnection) : outcome (Z * PeerConnection) :=
  if data_len <=? RTCP_HEADER_SIZE then mret (data_len, s)
  else
    b ← data.[0];
    if Z.land b 0x1f =? FB_RTP_NACK then
      r ← RtcpFbNack_Parse data data_len;
      match r with
      | None => Fault OutOfBounds
      | Some nack_pkt =>
          ssrc ← GetMediaSsrc nack_pkt;
          '(ok, s) ← on_senders ssrc (RtcSend.HandleRtcpNack now_ms nack_pkt) s;
          mret (if ok : bool then data_len else -1, s)
      end
    else mret (data_len, s).

Definition HandleRtcpPsFb (data_len : Z) (s : PeerConnection) : Z * PeerConnection := (data_len, s).

(** A DLRR block at an offset. *)
Definition HandleXrDlrr (now_ms : Z) (m : bytes) (off : Z) (s : PeerConnection) : outcome PeerConnection :=
  ssrc ← get32 m off;
  let f st := lrr ← get32 m (off + 4); dlrr ← get32 m (off + 8); RtcRecv.HandleXrDlrr now_ms (ssrc, lrr, dlrr) st in
  v ← on_recv ssrc f (video_recv_stream_ s);
  a ← on_recv ssrc f (audio_recv_stream_ s);
  mret (set_audio_recv a (set_video_recv v s)).

(** The loop over the blocks; [data] and [xr_hdr] are offsets. *)
Fixpoint xr_loop (fuel : nat) (now_ms : Z) (m : bytes) (data xr_hdr xr_len : Z) (s : PeerConnection) : outcome PeerConnection :=
  match fuel with
  | O => Fault OutOfFuel
  | S fuel =>
      if 0 <? xr_len then
        bt ← m.[xr_hdr];
        s ← (if bt =? XR_DLRR then HandleXrDlrr now_ms m (xr_hdr + 4) s
             else if bt =? XR_RRT then
               sec ← get32 m (xr_hdr + 4);
               frac ← get32 m (xr_hdr + 8);
               mret (set_last_xr (mkNtp sec frac) now_ms s)
             else mret s);
        block_length ← Read2Bytes (drop (Z.to_nat (xr_hdr + 2)) m);
        let offset := 4 + block_length * 4 in
        xr_loop fuel now_ms m (data + offset) (data + offset) (xr_len - offset) s
      else mret s
  end.
Definition HandleRtcpXr (now_ms : Z) (m : bytes) (data_len : Z) (s : PeerConnection) : outcome (Z * PeerConnection) :=
  let xr_len := i64 (u64 (data_len - RTCP_HEADER_SIZE - 4)) in
  s ← xr_loop (S (Z.to_nat xr_len)) now_ms m 0 8 xr_len s;
  mret (data_len, s).

(** One RTCP packet of those in a datagram. *)
Definition rtcp_item (now_ms : Z) (m : bytes) (p left_len : Z) (s : PeerConnection) : outcome (option Z * PeerConnection) :=
  packet_type ← m.[p + 1];
  let data := drop (Z.to_nat p) m in
  payload_length ← GetRtcpLength data;
  let item_total := RTCP_HEADER_SIZE + payload_length in
  if packet_type =? RTCP_SR then '(ret, s) ← HandleRtcpSr now_ms data item_total s; mret (Some ret, s)
  else if packet_type =? RTCP_RR then HandleRtcpRr now_ms data item_total s
  else if (packet_type =? RTCP_SDES) || (packet_type =? RTCP_BYE) || (packet_type =? RTCP_APP) then mret (Some left_len, s)
  else if packet_type =? RTCP_RTPFB then '(ret, s) ← HandleRtcpRtpFb now_ms data item_total s; mret (Some ret, s)
  else if packet_type =? RTCP_PSFB then let '(ret, s) := HandleRtcpPsFb item_total s in mret (Some ret, s)
  else if packet_type =? RTCP_XR then '(ret, s) ← HandleRtcpXr now_ms data item_total s; mret (Some ret, s)
  else mret (Some left_len, s).

(** The loop over the packets of a datagram; a pointer to before it is out of bounds. *)
Fixpoint rtcp_loop (fuel : nat) (now_ms : Z) (m : bytes) (p left_len : Z) (s : PeerConnection) : outcome PeerConnection :=
  match fuel with
  | O => Fault OutOfFuel
  | S fuel =>
      if 0 <? left_len then
        '(r, s) ← rtcp_item now_ms m p left_len s;
        match r with
        | None => mret s
        | Some ret => if p + ret <? 0 then Fault OutOfBounds else rtcp_loop fuel now_ms m (p + ret) (left_len - ret) s
        end
      else mret s
  end.

(** A datagram that has been decrypted. *)
Definition HandleRtcp (now_ms : Z) (m : bytes) (len : Z) (s : PeerConnection) : outcome PeerConnection :=
  rtcp_loop (Z.to_nat (2 * len + 4)) now_ms m 0 len s.

(** ** Reports *)

(** A block of a stream, where there is one. *)
Definition add_report (now_ms : Z) (st : option RtcRecvStream) (rr_pkt : RtcpRrPacket) : outcome (option RtcRecvStream * RtcpRrPacket) :=
  match st with
  | Some st => '(block, st) ← RtcRecv.GetRtcpRr now_ms st; rr_pkt ← AddRrBlock block rr_pkt; mret (Some st, rr_pkt)
  | None => mret (None, rr_pkt)
  end.

Definition SendRr (now_ms : Z) (s : PeerConnection) : outcome PeerConnection :=
  if last_rr_ms_ s <=? 0 then mret (set_last_rr_ms now_ms s)
  else if now_ms - last_rr_ms_ s <? RTCP_RR_INTERVAL then mret s
  else
    let s := set_last_rr_ms now_ms s in
    '(v, rr_pkt) ← add_report now_ms (video_recv_stream_ s) RtcpRrPacket_new;
    '(a, rr_pkt) ← add_report now_ms (audio_recv_stream_ s) rr_pkt;
    let s := set_audio_recv a (set_video_recv v s) in
    match v, a with
    | None, None => mret s
    | _, _ => '(d, _) ← RrGetData rr_pkt; mret (SendRtcpPacket (default [] d) s)
    end.

Definition add_dlrr (st : option RtcSendStream) (lrr dlrr : Z) (x : XrDlrr) : outcome XrDlrr :=
  match st with Some st => AddrDlrrBlock (ss_ssrc_ (RtcSend.ids st)) lrr dlrr x | None => mret x end.

Definition SendXrDlrr (now_ms : Z) (s : PeerConnection) : outcome PeerConnection :=
  match direct_type_ s with
  | SEND_ONLY =>
      if last_send_xr_dlrr_ms_ s <=? 0 then mret (set_last_send_xr_dlrr_ms now_ms s)
      else if now_ms - last_send_xr_dlrr_ms_ s <? 1000 then mret s
      else
        let s := set_last_send_xr_dlrr_ms now_ms s in
        if last_xr_ms_ s <=? 0 then mret s
        else if 5000 <? now_ms - last_xr_ms_ s then mret s
        else
          x ← XrDlrr_new;
          m ← XrSetSsrc 1 (dlrr_data x);
          let x := mkDlrr m (dlrr_len x) (dlrr_block x) (dlrr_count x) in
          let diff_ms := now_ms - last_xr_ms_ s in
          let dlrr := Z.lor (u32 (Z.shiftl (u32 (diff_ms `quot` 1000)) 16)) (u32 (Z.rem diff_ms 1000 * 65536 `quot` 1000)) in
          let lrr := compact_ntp (last_xr_ntp_ s) in
          x ← add_dlrr (video_send_stream_ s) lrr dlrr x;
          x ← add_dlrr (audio_send_stream_ s) lrr dlrr x;
          d ← read_range (dlrr_data x) 0 (dlrr_len x);
          mret (SendRtcpPacket d s)
  | _ => mret s
  end.

Definition timer_of_send (now_ms : Z) (st : option RtcSendStream) : outcome (option RtcSendStream) :=
  match st with Some st => st ← RtcSend.OnTimer now_ms st; mret (Some st) | None => mret None end.

(** What the timer does once DTLS is done, apart from STUN and the statistics. *)
Definition OnTimer (now_ms : Z) (s : PeerConnection) : outcome PeerConnection :=
  if negb (ready s) then mret s
  else
    v ← timer_of_send now_ms (video_send_stream_ s);
    a ← timer_of_send now_ms (audio_send_stream_ s);
    let s := set_audio_send a (set_video_send v s) in
    r ← (match video_recv_stream_ s with Some st => st ← RtcRecv.OnTimer now_ms st; mret (Some st) | None => mret None end);
    s ← SendRr now_ms (set_video_recv r s);
    SendXrDlrr now_ms s.
End peer.
