(* ===== verification/RtcResend.v ===== *)
(** * [RtcResend]: a packet that was lost is sent again

    A stream keeps its last 2048 packets.  For each number that it reads in a
    receiver's request it sends the packet of that number again, if it still has it:
    the same datagram, or the retransmission of it in the other stream (RFC 4588).
    The numbers it reads are those that were asked for only where one is asked for
    ([nack_numbers_mirrored]). *)
From Stdlib Require Import Sorting.Sorted.
From S2P Require Import Prelude ByteStream DataBuffer Media H264 RtpPacket Rtx RtpClone RtpPack RtcpNack Rtcp RtcTime RtcSend RtcDatagram.
From S2P Require PeerConnection RtcRecv.
Import PeerConnection(PeerConnection, video_send_stream_, audio_send_stream_). Import RtcRecv(RtcRecvStream).

(** ** Packets in sequence *)

(** A packet of this stream and number, and its datagram. *)
Definition numbered_packet (ssrc seq : Z) (p : RtpPacket) (d : bytes) : Prop :=
  exists b1 t ms payload, is_byte b1 /\ zlen t = 4 /\ fits payload /\ holds true b1 (Write2Bytes seq) t (Write4Bytes ssrc) ms payload p /\
    d = rtp_header b1 (Write2Bytes seq) t (Write4Bytes ssrc) ++ payload.

Fixpoint in_sequence (ssrc seq : Z) (ps : list RtpPacket) (ds : list bytes) : Prop :=
  match ps, ds with
  | [], [] => True
  | p :: ps, d :: ds => numbered_packet ssrc seq p d /\ in_sequence ssrc (u16 (seq + 1)) ps ds
  | _, _ => False
  end.

Lemma in_sequence_length ssrc seq ps ds : in_sequence ssrc seq ps ds -> length ds = length ps.
Proof. revert seq ds. induction ps as [|p ps IH]; intros seq [|d ds]; cbn; [done..|]. intros [_ H]. f_equal. by eapply IH. Qed.

(** The slot of a number. *)
Definition slot (seq : Z) : nat := Z.to_nat (seq mod SEND_BUFFER_SIZE).

Lemma slot_u16 x : slot (u16 x) = slot x.
Proof. unfold slot, u16, SEND_BUFFER_SIZE. f_equal. apply Z.mod_mod_divide. by exists 32. Qed.

Lemma slot_bound x : (slot x < Z.to_nat SEND_BUFFER_SIZE)%nat.
Proof. unfold slot, SEND_BUFFER_SIZE. pose proof (Z.mod_pos_bound x 2048 eq_refl). lia. Qed.

(** The numbers of [SEND_BUFFER_SIZE] packets have slots of their own. *)
Lemma slot_near x i : 0 < i < SEND_BUFFER_SIZE -> slot (x + i) <> slot x.
Proof.
  unfold slot, SEND_BUFFER_SIZE. intros Hi H. apply Z2Nat.inj in H; [|apply Z.mod_pos_bound; lia..].
  assert ((x + i - x) mod 2048 = 0) as He by (rewrite Zminus_mod, H, Z.sub_diag; done).
  replace (x + i - x) with i in He by lia. rewrite Z.mod_small in He; lia.
Qed.

Section resend.
Context `{Alloc : Allocator}.

(** ** What is sent again *)

(** The retransmission of a datagram (RFC 4588): in the stream of the
    retransmissions, with the next number of that stream, the payload type of the
    format, the marker and the time stamp of the packet, and its own number in front of
    its payload. *)
Definition rtx_datagram (ids : stream_ids) (rtx_seq : Z) (d : bytes) : bytes :=
  take 1 d ++ [hd 0 (drop 1 d) / 128 * 128 + ss_rtx_payload_ ids] ++ Write2Bytes rtx_seq ++ take 4 (drop 4 d) ++
  Write4Bytes (ss_rtx_ssrc_ ids) ++ take 2 (drop 2 d) ++ drop 12 d.

Definition resent (ids : stream_ids) (rtx_seq : Z) (d : bytes) : bytes :=
  if ss_has_rtx_ ids then rtx_datagram ids rtx_seq d else d.

Fixpoint resent_all (ids : stream_ids) (rtx_seq : Z) (ds : list bytes) : list bytes :=
  match ds with
  | [] => []
  | d :: ds => resent ids rtx_seq d :: resent_all ids (u16 (rtx_seq + 1)) ds
  end.

(** The datagram sent under a number, of those sent in sequence from [seq]. *)
Definition sent_under (seq : Z) (ds : list bytes) (n : Z) : option bytes := ds !! Z.to_nat (u16 (n - seq)).

(** The numbers read in a request for [p] and [tail]. *)
Definition numbers_read (p : Z) (tail : list Z) : list Z := p :: rev (map (fun s => u16 (p + 17 - (s - p))) tail).

(** What a stream with retransmissions needs: a payload type, and room for the
    number in front of the payload. *)
Definition rtx_fits (ids : stream_ids) (ds : list bytes) : Prop :=
  ss_has_rtx_ ids = true ->
  0 <= ss_rtx_payload_ ids < 128 /\ Forall (fun d => zlen d + 2 < RTP_PACKET_MAX_SIZE) ds.

(** No packet has been kept yet. *)
Definition empty_buffer (s : RtcSendStream) : Prop := Forall (fun i => pkt i = None) (send_buffer_ s).

(** ** A packet is kept *)

(** The stream can send the datagram of a number again. *)
Definition can_resend (ssrc seq : Z) (d : bytes) (s : RtcSendStream) : Prop :=
  exists p, send_buffer_ s !! slot seq = Some (mkSend 0 0 (Some p)) /\ numbered_packet ssrc seq p d.

Lemma send_report_buffer now s s' : stream_ok s -> 0 <= now < MAX_TIME -> send_report now s = Done s' -> send_buffer_ s' = send_buffer_ s.
Proof.
  intros Hok Hnow. unfold send_report. set (s1 := set_last_sr_ts now s).
  destruct (GetRtcpSr_spec now s1) as (sr & -> & Hd); [done..|]. simpl_m. rewrite Hd. simpl_m. by intros [= <-].
Qed.

Lemma send_report_rtx now s s' : stream_ok s -> 0 <= now < MAX_TIME -> send_report now s = Done s' -> rtx_seq_ s' = rtx_seq_ s.
Proof.
  intros Hok Hnow. unfold send_report. set (s1 := set_last_sr_ts now s).
  destruct (GetRtcpSr_spec now s1) as (sr & -> & Hd); [done..|]. simpl_m. rewrite Hd. simpl_m. by intros [= <-].
Qed.

Lemma SaveBuffer_keeps ssrc seq p d now s :
  0 <= seq < 2 ^ 16 -> numbered_packet ssrc seq p d -> stream_ok s -> ss_nack_enable_ (ids s) = true ->
  exists p', SaveBuffer now p s = Done (true, set_send_buffer (<[slot seq := mkSend 0 0 (Some p')]> (send_buffer_ s)) s) /\ numbered_packet ssrc seq p' d.
Proof.
  intros Hq (b1 & t & ms & payload & Hb1 & Ht & Hf & Hp & ->) (Hb & _) Hn. unfold SaveBuffer. rewrite Hn.
  destruct (GetSeq_holds b1 (Write2Bytes seq) t (Write4Bytes ssrc) eq_refl Ht eq_refl payload _ _ _ Hp) as (-> & _).
  rewrite be_value_Write2Bytes, u16_small by lia. simpl_m. fold (slot seq).
  destruct (lookup_lt_is_Some_2 (send_buffer_ s) (slot seq)) as [info ->]; [rewrite Hb; apply slot_bound|].
  destruct (Clone_holds b1 (Write2Bytes seq) t (Write4Bytes ssrc) eq_refl Ht eq_refl payload Hf _ _ _ false now Hp) as (p' & -> & Hp'). simpl_m.
  exists p'. split; [done|]. by exists b1, t, now, payload.
Qed.

Lemma SendVideoRtpPacket_keeps ssrc seq p d now s :
  0 <= seq < 2 ^ 16 -> numbered_packet ssrc seq p d -> stream_ok s -> ss_nack_enable_ (ids s) = true -> 0 <= now < MAX_TIME ->
  exists s' p', SendVideoRtpPacket now p false s = Done (true, s') /\ same_stream s s' /\ rtp_of (ss_log_ s') = rtp_of (ss_log_ s) ++ [d] /\
    send_buffer_ s' = <[slot seq := mkSend 0 0 (Some p')]> (send_buffer_ s) /\ numbered_packet ssrc seq p' d /\ rtx_seq_ s' = rtx_seq_ s.
Proof.
  intros Hq Hp Hok Hn Hnow. pose proof Hp as (b1 & t & ms & payload & Hb1 & Ht & Hf & Hh & Ed).
  destruct (SendVideoRtpPacket_spec b1 (Write2Bytes seq) t (Write4Bytes ssrc) ms payload p now false s) as (s' & Hs & Hsame & Hlog); try done.
  { rewrite Write2Bytes_be. apply be_bytes_ok. }
  revert Hs. unfold SendVideoRtpPacket. cbn [negb]. set (s1 := count_packet _ s). simpl_m.
  assert (exists s2, (if last_sr_ts_ (reports s1) =? 0 then send_report now s1 else Done s1) = Done s2 /\ same_stream s1 s2 /\
    send_buffer_ s2 = send_buffer_ s1 /\ rtx_seq_ s2 = rtx_seq_ s1) as (s2 & -> & H2 & Hb2 & Hr2).
  { destruct (_ =? 0); [|exists s1; split; [done|]; split; [apply same_stream_refl|done]].
    destruct (send_report_spec now s1) as (s2 & dr & H & Hs2 & _); [done..|]. exists s2. split; [done|]. split; [done|].
    split; [by eapply send_report_buffer|by eapply send_report_rtx]. }
  simpl_m. destruct (SaveBuffer_keeps ssrc seq p d now s2) as (p' & -> & Hp'); try done.
  { by eapply stream_ok_same. } { by rewrite (proj1 H2). }
  simpl_m. unfold send_datagram. rewrite (GetDatagram_holds b1 (Write2Bytes seq) t (Write4Bytes ssrc) eq_refl Ht eq_refl payload _ _ _ Hh). simpl_m.
  intros [= <-]. eexists _, p'. rewrite Ed. split; [reflexivity|]. split; [done|]. split; [done|]. split; [cbn; by rewrite Hb2|]. split; [by rewrite <- Ed|done].
Qed.

(** Packets sent one after the other. *)
Fixpoint send_all (now : Z) (ps : list RtpPacket) (s : RtcSendStream) : outcome (bool * RtcSendStream) :=
  match ps with
  | [] => mret (true, s)
  | p :: ps => '(ok, s) ← SendVideoRtpPacket now p false s; if ok : bool then send_all now ps s else mret (false, s)
  end.

Lemma send_all_spec ssrc seq ps ds now s :
  0 <= seq < 2 ^ 16 -> in_sequence ssrc seq ps ds -> zlen ps <= SEND_BUFFER_SIZE ->
  stream_ok s -> ss_nack_enable_ (ids s) = true -> 0 <= now < MAX_TIME ->
  exists s', send_all now ps s = Done (true, s') /\ same_stream s s' /\ rtp_of (ss_log_ s') = rtp_of (ss_log_ s) ++ ds /\
    (forall i d, ds !! i = Some d -> can_resend ssrc (u16 (seq + Z.of_nat i)) d s') /\
    (forall j, (forall i, 0 <= i < zlen ps -> slot (seq + i) <> j) -> send_buffer_ s' !! j = send_buffer_ s !! j) /\
    rtx_seq_ s' = rtx_seq_ s.
Proof.
  intros Hq Hps Hl Hok Hn Hnow. revert seq ds s Hq Hps Hl Hok Hn.
  induction ps as [|p ps IH]; intros seq [|d ds] s Hq Hps Hl Hok Hn; cbn [send_all in_sequence] in *; try done.
  { exists s. split; [done|]. split; [apply same_stream_refl|]. rewrite app_nil_r. done. }
  destruct Hps as [Hp Hps]. rewrite zlen_cons in *. pose proof (zlen_nonneg ps).
  destruct (SendVideoRtpPacket_keeps ssrc seq p d now s) as (s1 & p' & -> & H1 & Hlog1 & Hb1 & Hp' & Hr1); [done..|]. simpl_m.
  destruct (IH (u16 (seq + 1)) ds s1) as (s2 & -> & H2 & Hlog2 & Hkeep & Hother & Hr2);
    [apply Z.mod_pos_bound; lia|done|lia|by eapply stream_ok_same|by rewrite (proj1 H1)|].
  exists s2. split; [done|]. split; [by eapply same_stream_trans|]. split; [by rewrite Hlog2, Hlog1, <- app_assoc|].
  assert (forall i, slot (u16 (seq + 1) + i) = slot (seq + (1 + i))) as Hslot.
  { intros i. rewrite <- (slot_u16 (u16 _ + i)). unfold u16 at 1. unfold u16. rewrite Zplus_mod_idemp_l. fold (u16 (seq + 1 + i)). rewrite slot_u16. f_equal. lia. }
  split.
  - intros [|i] d' Hi; cbn in Hi.
    + injection Hi as <-. exists p'. rewrite Z.add_0_r, u16_small by lia. split; [|done]. rewrite Hother, Hb1.
      * apply list_lookup_insert_eq. destruct Hok as (-> & _). apply slot_bound.
      * intros i Hi. rewrite Hslot. apply slot_near. lia.
    + replace (u16 (seq + Z.of_nat (S i))) with (u16 (u16 (seq + 1) + Z.of_nat i)); [by apply Hkeep|].
      unfold u16. rewrite Zplus_mod_idemp_l. f_equal. lia.
  - split; [|by rewrite Hr2]. intros j Hj. rewrite Hother, Hb1.
    + apply list_lookup_insert_ne. specialize (Hj 0). rewrite Z.add_0_r in Hj. apply Hj. lia.
    + intros i Hi. rewrite Hslot. apply Hj. lia.
Qed.

(** What the buffer has for a number: the packet, or another one, or none. *)
Definition kept (ssrc n : Z) (d : option bytes) (s : RtcSendStream) : Prop :=
  match d with
  | Some d => can_resend ssrc n d s
  | None => exists info, send_buffer_ s !! slot n = Some info /\
      match pkt info with Some p => exists m, GetSeq p = Done m /\ m <> n | None => True end
  end.

Lemma u16_bound x : 0 <= u16 x < 2 ^ 16.
Proof. apply Z.mod_pos_bound. lia. Qed.

Lemma slot_of_index n seq : slot (seq + (n - seq) mod SEND_BUFFER_SIZE) = slot n.
Proof. unfold slot. rewrite Zplus_mod_idemp_r. do 2 f_equal. lia. Qed.

(** After sending from an empty buffer every number is kept as it was sent. *)
Lemma send_all_kept ssrc seq ps ds now s :
  0 <= seq < 2 ^ 16 -> in_sequence ssrc seq ps ds -> zlen ps <= SEND_BUFFER_SIZE ->
  stream_ok s -> empty_buffer s -> ss_nack_enable_ (ids s) = true -> 0 <= now < MAX_TIME ->
  exists s', send_all now ps s = Done (true, s') /\ same_stream s s' /\ rtp_of (ss_log_ s') = rtp_of (ss_log_ s) ++ ds /\
    (forall n, 0 <= n < 2 ^ 16 -> kept ssrc n (sent_under seq ds n) s') /\ rtx_seq_ s' = rtx_seq_ s.
Proof.
  intros Hq Hps Hl Hok He Hn Hnow. pose proof (in_sequence_length _ _ _ _ Hps) as Hlen.
  destruct (send_all_spec ssrc seq ps ds now s) as (s' & Hs' & Hsame & Hlog & Hkeep & Hother & Hr); [done..|].
  exists s'. split_and!; [done..| |done]. intros n Hnr. unfold kept, sent_under. pose proof (u16_bound (n - seq)) as Hk.
  assert (n = u16 (seq + u16 (n - seq))) as En.
  { unfold u16. rewrite Zplus_mod_idemp_r. replace (seq + (n - seq)) with n by lia. by rewrite Z.mod_small. }
  destruct (ds !! Z.to_nat (u16 (n - seq))) as [d|] eqn:Ed.
  { apply Hkeep in Ed. rewrite Z2Nat.id in Ed by lia. by rewrite En. }
  apply lookup_ge_None in Ed. set (k := (n - seq) mod SEND_BUFFER_SIZE).
  assert (0 <= k < SEND_BUFFER_SIZE) as Hkr by (by apply Z.mod_pos_bound).
  destruct (lookup_lt_is_Some_2 (send_buffer_ s') (slot n)) as [info Hi].
  { destruct Hsame as (_ & _ & _ & ->). destruct Hok as (-> & _). apply slot_bound. }
  exists info. split; [done|]. destruct (Z.ltb_spec k (zlen ps)) as [Hlt|Hge].
  - destruct (lookup_lt_is_Some_2 ds (Z.to_nat k)) as [d Hd]; [unfold zlen in *; lia|].
    destruct (Hkeep _ _ Hd) as (p & Hp & b1 & t & ms & payload & Hb1 & Ht & Hf & Hh & _). rewrite Z2Nat.id in Hp, Hh by lia.
    rewrite slot_u16 in Hp. unfold k in Hp at 1. rewrite slot_of_index, Hi in Hp. injection Hp as ->. cbn [pkt].
    destruct (GetSeq_holds b1 (Write2Bytes (u16 (seq + k))) t (Write4Bytes ssrc) eq_refl Ht eq_refl payload _ _ _ Hh) as (-> & _).
    eexists. split; [done|]. rewrite be_value_Write2Bytes, (u16_small (u16 _)) by (pose proof (u16_bound (seq + k)); lia).
    intros E. assert (u16 (n - seq) = k); [|unfold zlen in *; lia].
    rewrite <- E. unfold u16. rewrite Zminus_mod_idemp_l. replace (seq + k - seq) with k by lia.
    apply Z.mod_small. unfold SEND_BUFFER_SIZE in *. lia.
  - rewrite Hother in Hi.
    + unfold empty_buffer in He. rewrite Forall_lookup in He. by rewrite (He _ _ Hi).
    + intros i Hir E. rewrite <- (slot_of_index n seq) in E. fold k in E. unfold slot in E.
      apply Z2Nat.inj in E; [|apply Z.mod_pos_bound; done..].
      assert ((i - k) mod SEND_BUFFER_SIZE = 0) as E0.
      { replace (i - k) with (seq + i - (seq + k)) by lia. by rewrite Zminus_mod, E, Z.sub_diag. }
      unfold SEND_BUFFER_SIZE in *. assert (zlen ps <= 2048) by done. pose proof (Z.div_mod (i - k) 2048). lia.
Qed.

(** ** It is asked for, and sent again *)

(** A packet that is sent again is not kept again. *)
Lemma SendVideoRtpPacket_again own b1 s0 t0 ss0 ms d p now s :
  zlen s0 = 2 -> zlen t0 = 4 -> zlen ss0 = 4 -> holds own b1 s0 t0 ss0 ms d p -> stream_ok s -> 0 <= now < MAX_TIME ->
  exists s', SendVideoRtpPacket now p true s = Done (true, s') /\ same_stream s s' /\
    rtp_of (ss_log_ s') = rtp_of (ss_log_ s) ++ [rtp_header b1 s0 t0 ss0 ++ d] /\
    send_buffer_ s' = send_buffer_ s /\ rtx_seq_ s' = rtx_seq_ s.
Proof.
  intros Hs Ht Hss Hp Hok Hnow. unfold SendVideoRtpPacket. cbn [negb]. set (s1 := count_packet _ s).
  assert (exists s2, (if last_sr_ts_ (reports s1) =? 0 then send_report now s1 else Done s1) = Done s2 /\ same_stream s1 s2 /\
    send_buffer_ s2 = send_buffer_ s1 /\ rtp_of (ss_log_ s2) = rtp_of (ss_log_ s1) /\ rtx_seq_ s2 = rtx_seq_ s1)
    as (s2 & E & H2 & Hb2 & Hl2 & Hr2).
  { destruct (_ =? 0); [|exists s1; split; [done|]; split; [apply same_stream_refl|done]].
    destruct (send_report_spec now s1) as (s2 & dr & H & Hs2 & Hlog); [done..|]. exists s2. split_and!; [done|done| | |].
    - by eapply send_report_buffer.
    - unfold rtp_of. rewrite Hlog, omap_app. apply app_nil_r.
    - by eapply send_report_rtx. }
  simpl_m. rewrite E. simpl_m. unfold send_datagram. rewrite (GetDatagram_holds b1 s0 t0 ss0 Hs Ht Hss d _ _ _ Hp). simpl_m.
  eexists. split; [reflexivity|]. split_and!; [done| |done|done].
  unfold rtp_of in *. cbn [emit ss_log_ set_statics]. by rewrite omap_app, Hl2.
Qed.

(** The retransmission that [RtxMux] makes of a clone. *)
Lemma RtxMux_clone b1 seq t ssrc ms payload tail pt rssrc rseq :
  zlen t = 4 -> 2 <= zlen tail -> 0 <= seq < 2 ^ 16 ->
  exists p, RtxMux pt rssrc rseq (set_need_delete true (made_rtp b1 (Write2Bytes seq) t (Write4Bytes ssrc) (payload ++ tail) (zlen payload) ms)) =
      Done p /\
    holds true (put_bits b1 0 7 pt) (Write2Bytes rseq) t (Write4Bytes rssrc) ms (Write2Bytes seq ++ payload) p.
Proof.
  intros Ht Htail Hq. set (q := set_need_delete _ _).
  assert (exists gap rest, tail = gap ++ rest /\ zlen gap = 2) as (gap & rest & -> & Hgap).
  { exists (take (Z.to_nat 2) tail), (drop (Z.to_nat 2) tail). rewrite take_drop, zlen_take by lia. done. }
  rewrite (RtxMux_layout 0x80 b1 (Write2Bytes seq) t (Write4Bytes ssrc) [] payload gap rest q pt rssrc rseq eq_refl Ht eq_refl Hgap); [|by split|done].
  eexists. split; [reflexivity|]. exists rest. rewrite be_value_Write2Bytes, u16_small by lia.
  unfold rewritten, q, made_rtp, set_lens, set_mem, set_need_delete. change (padded 128) with false.
  cbn -[Z.add layout put_bits Write2Bytes Write4Bytes]. rewrite zlen_app. change (zlen (Write2Bytes seq)) with 2.
  f_equal; lia.
Qed.

Lemma put_type b1 pt : is_byte b1 -> 0 <= pt < 128 -> put_bits b1 0 7 pt = b1 / 128 * 128 + pt.
Proof.
  unfold is_byte. intros Hb Hp. unfold put_bits. change (255 - Z.shiftl (Z.ones 7) 0) with (Z.shiftl 1 7).
  rewrite Z.shiftl_0_r, Z.land_ones, Z.mod_small by lia.
  assert (Z.land b1 (Z.shiftl 1 7) = (b1 / 2 ^ 7) * 2 ^ 7) as ->.
  { apply Z.eqb_eq. by apply (byte_all (fun b => Z.land b (Z.shiftl 1 7) =? (b / 2 ^ 7) * 2 ^ 7)). }
  by apply lor_add.
Qed.

Lemma rtx_datagram_of b1 seq t ssrc payload i rtx_seq : zlen t = 4 -> is_byte b1 -> 0 <= ss_rtx_payload_ i < 128 ->
  rtx_datagram i rtx_seq (rtp_header b1 (Write2Bytes seq) t (Write4Bytes ssrc) ++ payload) =
  rtp_header (put_bits b1 0 7 (ss_rtx_payload_ i)) (Write2Bytes rtx_seq) t (Write4Bytes (ss_rtx_ssrc_ i)) ++ Write2Bytes seq ++ payload.
Proof.
  intros Ht Hb Hp. rewrite put_type by done. unfold rtx_datagram, rtp_header. rewrite <- !app_assoc.
  change (drop 4 ([128] ++ [b1] ++ Write2Bytes seq ++ ?x)) with x.
  change (drop 12 ([128] ++ [b1] ++ Write2Bytes seq ++ ?x)) with (drop 8 x).
  change (take 2 (drop 2 _)) with (Write2Bytes seq). cbn [take drop app hd].
  rewrite (take_app_length' t) by (unfold zlen in Ht; lia). change 8%nat with (4 + 4)%nat. rewrite <- drop_drop, (drop_app_length' t) by (unfold zlen in Ht; lia).
  done.
Qed.

(** The members that resending changes. *)
Definition resent_step (n : Z) (d : option bytes) (s s' : RtcSendStream) : Prop :=
  ids s' = ids s /\ stream_ok s' /\ (forall j, j <> slot n -> send_buffer_ s' !! j = send_buffer_ s !! j) /\
  rtx_seq_ s' = (if ss_has_rtx_ (ids s) then match d with Some _ => u16 (rtx_seq_ s + 1) | None => rtx_seq_ s end else rtx_seq_ s) /\
  rtp_of (ss_log_ s') = rtp_of (ss_log_ s) ++ match d with Some d => [resent (ids s) (rtx_seq_ s) d] | None => [] end.

Lemma ResendRtpPacket_spec ssrc n d now s :
  0 <= n < 2 ^ 16 -> kept ssrc n d s -> rtx_fits (ids s) (option_list d) -> stream_ok s -> 0 <= now < MAX_TIME ->
  exists s', ResendRtpPacket now n s = Done (true, s') /\ resent_step n d s s'.
Proof.
  intros Hq Hk Hrtx Hok Hnow. unfold ResendRtpPacket. fold (slot n). destruct d as [d|]; cbn [kept] in Hk.
  2: { destruct Hk as (info & -> & Hi). exists s. assert (resent_step n None s s) as Hstep.
       { split_and!; [done..| |by rewrite app_nil_r]. by destruct (ss_has_rtx_ _). }
       destruct (pkt info) as [p|]; [|done]. destruct Hi as (m & -> & Hm). simpl_m.
       by rewrite (proj2 (Z.eqb_neq _ _)) by done. }
  destruct Hk as (p & Hslot & b1 & t & ms & payload & Hb1 & Ht & Hf & Hp & ->). rewrite Hslot. cbn [pkt].
  destruct (GetSeq_holds b1 (Write2Bytes n) t (Write4Bytes ssrc) eq_refl Ht eq_refl payload _ _ _ Hp) as (-> & _).
  rewrite be_value_Write2Bytes, u16_small by lia. simpl_m. rewrite Z.eqb_refl. cbn [negb]. unfold retry. cbn [last_ms pkt].
  change (0 =? 0) with true. cbn iota. set (s1 := set_resends _ _). change (ids s1) with (ids s).
  assert (stream_ok s1) as Hok1. { destruct Hok as (Hb & Hr). split; [|exact Hr]. cbn. by rewrite length_insert. }
  assert (forall j, j <> slot n -> send_buffer_ s1 !! j = send_buffer_ s !! j) as Hbuf.
  { intros j Hj. by apply list_lookup_insert_ne. }
  assert (resent (ids s) (rtx_seq_ s) = if ss_has_rtx_ (ids s) then rtx_datagram (ids s) (rtx_seq_ s) else id) as Er
    by (unfold resent; by destruct (ss_has_rtx_ (ids s))).
  unfold resent_step. rewrite Er. destruct (ss_has_rtx_ (ids s)) eqn:Ex; cbn [negb].
  - destruct (Hrtx Ex) as [Hpt Hroom]. cbn [option_list] in Hroom. apply Forall_inv in Hroom. rewrite zlen_app, (zlen_rtp_header b1 (Write2Bytes n) t (Write4Bytes ssrc) eq_refl Ht eq_refl) in Hroom.
    destruct (Clone_made b1 (Write2Bytes n) t (Write4Bytes ssrc) eq_refl Ht eq_refl payload Hf _ _ _ false now Hp) as (tail & -> & Htail). simpl_m.
    change (ids (set_rtx_seq ?v s1)) with (ids s). cbn [negb].
    destruct (RtxMux_clone b1 n t ssrc now payload tail (ss_rtx_payload_ (ids s)) (ss_rtx_ssrc_ (ids s)) (rtx_seq_ s1) Ht) as (q & -> & Hh); [lia|lia|].
    simpl_m. destruct (SendVideoRtpPacket_again true _ (Write2Bytes (rtx_seq_ s1)) t (Write4Bytes (ss_rtx_ssrc_ (ids s))) _ _ q now (set_rtx_seq (u16 (rtx_seq_ s1 + 1)) s1) eq_refl Ht eq_refl Hh)
      as (s' & Hs & Hsame & Hlog & Hb & Hr); [done..|].
    exists s'. split; [exact Hs|]. split_and!; [by rewrite (proj1 Hsame)|by eapply stream_ok_same|intros j Hj; rewrite Hb; by apply Hbuf|done|].
    rewrite Hlog, rtx_datagram_of by done. done.
  - destruct (SendVideoRtpPacket_again _ b1 (Write2Bytes n) t (Write4Bytes ssrc) ms payload p now s1 eq_refl Ht eq_refl Hp)
      as (s' & Hs & Hsame & Hlog & Hb & Hr); [done..|].
    exists s'. split; [exact Hs|]. split_and!; [by rewrite (proj1 Hsame)|by eapply stream_ok_same|intros j Hj; rewrite Hb; by apply Hbuf|done|done].
Qed.

Lemma resent_all_plain i a b ds : ss_has_rtx_ i = false -> resent_all i a ds = resent_all i b ds.
Proof. intros H. revert a b. induction ds as [|d ds IH]; intros a b; [done|]. cbn. unfold resent. rewrite H. f_equal. apply IH. Qed.

(** All the numbers of a request, which have slots of their own. *)
Lemma resend_all_spec ssrc (under : Z -> option bytes) now nums s :
  NoDup (map slot nums) -> Forall (fun n => 0 <= n < 2 ^ 16 /\ kept ssrc n (under n) s) nums ->
  rtx_fits (ids s) (omap under nums) -> stream_ok s -> 0 <= now < MAX_TIME ->
  exists s', resend_all now nums s = Done (true, s') /\
    rtp_of (ss_log_ s') = rtp_of (ss_log_ s) ++ resent_all (ids s) (rtx_seq_ s) (omap under nums).
Proof.
  revert s. induction nums as [|n nums IH]; intros s Hnd Hk Hrtx Hok Hnow; cbn [resend_all].
  { exists s. split; [done|]. by rewrite app_nil_r. }
  cbn [map] in Hnd. apply NoDup_cons in Hnd as [Hni Hnd]. apply Forall_cons in Hk as [[Hn Hkn] Hk].
  assert (rtx_fits (ids s) (option_list (under n)) /\ rtx_fits (ids s) (omap under nums)) as [Hx1 Hx2].
  { unfold rtx_fits. cbn in Hrtx. split; intros Hx; destruct (Hrtx Hx) as [Hpt Hall]; (split; [exact Hpt|]).
    - destruct (under n); [by apply Forall_cons in Hall as [? _]; repeat constructor|constructor].
    - destruct (under n); [by apply Forall_cons in Hall as [_ ?]|done]. }
  destruct (ResendRtpPacket_spec ssrc n (under n) now s) as (s1 & -> & Hi & Hok1 & Hbuf & Hseq & Hlog); [done..|]. simpl_m.
  destruct (IH s1) as (s2 & -> & Hlog2); [done| |by rewrite Hi|done|done|].
  - rewrite Forall_forall in Hk |- *. intros m Hm. destruct (Hk m Hm) as [Hmr Hkm]. split; [done|].
    assert (slot m <> slot n) as Hne. { intros E. apply Hni. rewrite <- E. by apply list_elem_of_fmap_2. }
    revert Hkm. unfold kept, can_resend. destruct (under m); by rewrite Hbuf.
  - exists s2. split; [done|]. rewrite Hlog2, Hlog, Hi, Hseq, <- app_assoc. f_equal. cbn.
    destruct (under n) as [d|]; cbn [resent_all app]; [f_equal|]; destruct (ss_has_rtx_ (ids s)) eqn:Ex; try done; by apply resent_all_plain.
Qed.

(** The numbers read from a request are distinct, and so are their slots. *)
Lemma numbers_read_range p tail : 0 <= p < 2 ^ 16 -> Forall (fun n => 0 <= n < 2 ^ 16) (numbers_read p tail).
Proof.
  intros Hp. constructor; [done|]. apply Forall_rev, Forall_map, Forall_forall. intros s _. apply u16_bound.
Qed.

Lemma slot_inj_near p a b : 0 <= a < SEND_BUFFER_SIZE -> 0 <= b < SEND_BUFFER_SIZE -> slot (p + a) = slot (p + b) -> a = b.
Proof.
  intros Ha Hb E. destruct (Z.lt_trichotomy a b) as [H|[H|H]]; [|done|].
  - destruct (slot_near (p + a) (b - a)); [lia|]. rewrite E. f_equal. lia.
  - destruct (slot_near (p + b) (a - b)); [lia|]. rewrite <- E. f_equal. lia.
Qed.

Lemma numbers_read_slots p tail : StronglySorted Z.lt tail -> Forall (fun s => p < s <= p + 16) tail ->
  NoDup (map slot (numbers_read p tail)).
Proof.
  intros Hs Ht. unfold numbers_read. cbn [map]. rewrite map_rev, map_map.
  assert (map (fun x => slot (u16 (p + 17 - (x - p)))) tail = map (fun x => slot (p + (17 - (x - p)))) tail) as ->.
  { apply map_ext. intros x. rewrite slot_u16. f_equal. lia. }
  rewrite Forall_forall in Ht. constructor.
  - rewrite list_elem_of_In, <- in_rev, <- list_elem_of_In, list_elem_of_fmap. intros (x & E & Hx). specialize (Ht x Hx).
    rewrite <- (Z.add_0_r p) in E at 1. apply slot_inj_near in E; unfold SEND_BUFFER_SIZE in *; lia.
  - apply NoDup_ListNoDup, List.NoDup_rev, NoDup_ListNoDup. induction Hs as [|s tail _ IH Hlt]; [constructor|]. cbn [map]. constructor.
    + rewrite list_elem_of_fmap. intros (x & E & Hx). pose proof (Ht s ltac:(left)). pose proof (Ht x ltac:(by right)).
      rewrite Forall_forall in Hlt. specialize (Hlt x Hx). apply slot_inj_near in E; unfold SEND_BUFFER_SIZE in *; lia.
    + apply IH. intros x Hx. apply Ht. by right.
Qed.

(** The receiver's request: a feedback packet. *)
Lemma GenerateNackList_spec p tail r : Forall (fun s => p < s <= p + 16) tail ->
  exists r' bitmap, RtcRecv.GenerateNackList (p :: tail) r = Done r' /\ 0 <= bitmap < 2 ^ 16 /\
  (forall k, 0 <= k -> Z.testbit bitmap k = true <-> exists s, s ∈ tail /\ k = 16 - (s - p)) /\
  RtcRecv.rs_log_ r' = RtcRecv.rs_log_ r ++ [SentRtcpPacket (nack_data 0 (ss_ssrc_ (RtcRecv.rs_ids r)) p bitmap)].
Proof.
  intros Ht. destruct (nack_written 0 (ss_ssrc_ (RtcRecv.rs_ids r)) p tail Ht) as (n & bitmap & Hn & Hb & Hbits & Hd & _).
  unfold RtcRecv.GenerateNackList. revert Hn. destruct (RtcpFbNack_new _ _) as [n0|]; [|done]. simpl_m. intros ->. simpl_m. rewrite Hd. simpl_m.
  eexists _, bitmap. done.
Qed.

(** Another stream than this one, if there is one. *)
Definition other (ssrc : Z) (st : option RtcSendStream) : Prop := match st with Some s => ss_ssrc_ (ids s) <> ssrc | None => True end.

(** The sender's answer to it. *)
Lemma HandleRtcp_nack p tail bitmap now s s' pc :
  0 <= p <= 65535 -> 0 <= bitmap < 2 ^ 16 -> 0 <= ss_ssrc_ (ids s) < 2 ^ 32 ->
  StronglySorted Z.lt tail -> Forall (fun s => p < s <= p + 16) tail ->
  (forall k, 0 <= k -> Z.testbit bitmap k = true <-> exists s, s ∈ tail /\ k = 16 - (s - p)) ->
  ss_nack_enable_ (ids s) = true -> resend_all now (numbers_read p tail) s = Done (true, s') ->
  video_send_stream_ pc = Some s -> other (ss_ssrc_ (ids s)) (audio_send_stream_ pc) ->
  exists pc', PeerConnection.HandleRtcp now (nack_data 0 (ss_ssrc_ (ids s)) p bitmap) 16 pc = Done pc' /\
    video_send_stream_ pc' = Some s'.
Proof.
  intros Hq Hb Hssrc Hsort Ht Hbits Hn Hs Hv Ha. set (ssrc := ss_ssrc_ (ids s)) in *.
  destruct (nack_parsed 0 ssrc p bitmap tail []) as (n & Hpar & Hlost & _ & Hmedia); [done..|].
  rewrite app_nil_r in Hpar. change (u32 ssrc) with (ssrc mod 2 ^ 32) in Hmedia. rewrite Z.mod_small in Hmedia by done.
  fold (numbers_read p tail) in Hlost.
  exists (PeerConnection.set_audio_send (audio_send_stream_ pc) (PeerConnection.set_video_send (Some s') pc)). split; [|done].
  unfold PeerConnection.HandleRtcp. change (Z.to_nat (2 * 16 + 4)) with (S (S 34)). set (data := nack_data 0 ssrc p bitmap) in *.
  cbn [PeerConnection.rtcp_loop]. change (0 <? 16) with true. cbn iota.
  assert (PeerConnection.rtcp_item now data 0 16 pc =
    Done (Some 16, PeerConnection.set_audio_send (audio_send_stream_ pc) (PeerConnection.set_video_send (Some s') pc))) as ->.
  { unfold PeerConnection.rtcp_item. change (rd data (0 + 1)) with (Done RTCP_RTPFB). simpl_m. change (drop (Z.to_nat 0) data) with data.
    change (GetRtcpLength data) with (Done 12). simpl_m. change (RTCP_HEADER_SIZE + 12) with 16.
    unfold PeerConnection.HandleRtcpRtpFb. change (rd data 0) with (Done 0x81). simpl_m. rewrite Hpar. simpl_m. rewrite Hmedia. simpl_m.
    change (RTCP_RTPFB =? RTCP_SR) with false. change (RTCP_RTPFB =? RTCP_RR) with false. change (RTCP_RTPFB =? RTCP_RTPFB) with true.
    change (_ || _ || _) with false. change (16 <=? RTCP_HEADER_SIZE) with false. change (Z.land 129 31 =? FB_RTP_NACK) with true. cbn iota.
    unfold PeerConnection.on_senders. rewrite Hv. cbn [PeerConnection.on_send]. rewrite (proj2 (Z.eqb_eq ssrc _)) by done.
    assert (HandleRtcpNack now n s = Done (true, s')) as -> by (unfold HandleRtcpNack; rewrite Hlost; simpl_m; by rewrite Hn).
    simpl_m. cbn [negb].
    assert (PeerConnection.on_send ssrc (HandleRtcpNack now n) (audio_send_stream_ pc) = Done (true, audio_send_stream_ pc)) as Hother.
    { unfold other in Ha. destruct (audio_send_stream_ pc) as [x|]; [|done]. cbn. by rewrite (proj2 (Z.eqb_neq _ _)). }
    cbn [audio_send_stream_ PeerConnection.set_video_send]. rewrite Hother. done. }
  simpl_m. done.
Qed.

Lemma rtx_fits_some i ds seq nums : rtx_fits i ds -> rtx_fits i (omap (sent_under seq ds) nums).
Proof.
  intros H Hx. destruct (H Hx) as [Hpt Hds]. split; [done|]. rewrite Forall_forall in Hds |- *. intros d Hd. apply Hds.
  apply list_elem_of_omap in Hd as (n & _ & Hn). by eapply list_elem_of_lookup_2.
Qed.

(** C8. A new stream whose receiver may ask for lost packets has sent up to 2048
    packets, numbered in sequence.  The receiver asks with one feedback packet for a
    list of numbers [p :: tail] (in order, within 16 of each other, as
    [GenerateNackList] can put them into it, and not across the wrap of the numbers);
    the sender handles it and sends, for each number that it READS in the packet, in
    that order, the packet it sent under this number, and nothing for a number it has
    not sent: without RTX the same datagram, byte for byte, with RTX the
    retransmission of it (RFC 4588).
    The numbers read are [p], and [p + 17 - k] for each number [p + k] asked for:
    [InsertBlock] writes the bitmap with its first number at the top, and the sender
    reads it from the bottom ([nack_numbers_mirrored]).  So a request for the one number
    [p] is answered with what was lost, and a longer one with other packets.
    With RTX a datagram has room for two bytes more in a packet of 1500. *)
Theorem lost_packet_resent ps ds seq now s :
  let ssrc := ss_ssrc_ (ids s) in
  in_sequence ssrc seq ps ds -> zlen ps <= SEND_BUFFER_SIZE -> 0 <= seq < 2 ^ 16 -> 0 <= ssrc < 2 ^ 32 ->
  stream_ok s -> empty_buffer s -> ss_nack_enable_ (ids s) = true -> rtx_fits (ids s) ds -> 0 <= now < MAX_TIME ->
  exists s1, send_all now ps s = Done (true, s1) /\ rtp_of (ss_log_ s1) = rtp_of (ss_log_ s) ++ ds /\
    forall p tail r pc later,
      0 <= p -> StronglySorted Z.lt (p :: tail) -> Forall (fun n => n <= p + 16 /\ n <= 65535) (p :: tail) ->
      ss_ssrc_ (RtcRecv.rs_ids r) = ssrc -> 0 <= later < MAX_TIME ->
      video_send_stream_ pc = Some s1 -> other ssrc (audio_send_stream_ pc) ->
      exists r' request pc' s2, RtcRecv.GenerateNackList (p :: tail) r = Done r' /\
        RtcRecv.rs_log_ r' = RtcRecv.rs_log_ r ++ [SentRtcpPacket request] /\
        PeerConnection.HandleRtcp later request 16 pc = Done pc' /\ video_send_stream_ pc' = Some s2 /\
        rtp_of (ss_log_ s2) = rtp_of (ss_log_ s1) ++
          resent_all (ids s) (rtx_seq_ s) (omap (sent_under seq ds) (numbers_read p tail)).
Proof.
  intros ssrc Hseq Hl Hq Hssrc Hok He Hn Hrtx Hnow.
  destruct (send_all_kept ssrc seq ps ds now s) as (s1 & Hs1 & H1 & Hlog & Hkept & Hrseq); [done..|].
  exists s1. split; [done|]. split; [done|]. intros p tail r pc later Hp Hsort Hall Hr Hlater Hv Ha.
  apply StronglySorted_inv in Hsort as [Hsort Hlt]. apply Forall_cons in Hall as [[_ Hp2] Hall].
  assert (Forall (fun s => p < s <= p + 16) tail) as Ht.
  { rewrite Forall_forall in Hall, Hlt |- *. intros x Hx. specialize (Hall x Hx). specialize (Hlt x Hx). lia. }
  pose proof (proj1 H1) as Hids. assert (ssrc = ss_ssrc_ (ids s1)) as Hss by (by rewrite Hids).
  destruct (GenerateNackList_spec p tail r Ht) as (r' & bitmap & Hgen & Hb & Hbits & Hrlog). rewrite Hr in Hrlog.
  destruct (resend_all_spec ssrc (sent_under seq ds) later (numbers_read p tail) s1) as (s2 & Hs2 & Hlog2).
  { by apply numbers_read_slots. }
  { eapply Forall_impl; [apply numbers_read_range; lia|]. intros n Hnr. split; [exact Hnr|by apply Hkept]. }
  { rewrite Hids. by apply rtx_fits_some. } { by eapply stream_ok_same. } { done. }
  destruct (HandleRtcp_nack p tail bitmap later s1 s2 pc) as (pc' & Hpc & Hv2); rewrite <- ?Hss, ?Hids; try done.
  rewrite <- Hss in Hpc. exists r', (nack_data 0 ssrc p bitmap), pc', s2. split_and!; [done..|]. by rewrite Hlog2, Hids, Hrseq.
Qed.
End resend.

(** A stream that has sent two packets, and is asked for the second one. *)
Definition demo_packet (seq : Z) (payload : bytes) : RtpPacket :=
  set_need_delete true (made_rtp 0x60 (Write2Bytes seq) [0; 0; 0; 9] (Write4Bytes 7) (payload ++ []) (zlen payload) 0).
Definition demo_datagram (seq : Z) (payload : bytes) : bytes := rtp_header 0x60 (Write2Bytes seq) [0; 0; 0; 9] (Write4Bytes 7) ++ payload.

Lemma demo_numbered seq payload : fits payload -> numbered_packet 7 seq (demo_packet seq payload) (demo_datagram seq payload).
Proof. intros Hf. exists 0x60, [0; 0; 0; 9], 0, payload. split_and!; [done|done|done|by exists []|done]. Qed.

(** Without RTX the second packet is asked for, and sent again as it was; with RTX
    the numbers 0 and 2 are asked for, and 0 and 15 are read: the retransmission of
    packet 0 is sent. *)
Lemma lost_packet_resent_witness :
  let answered s1 numbers sent := forall r pc, ss_ssrc_ (RtcRecv.rs_ids r) = 7 -> video_send_stream_ pc = Some s1 -> audio_send_stream_ pc = None ->
      exists r' request pc' s2, RtcRecv.GenerateNackList (Alloc := zero_alloc) numbers r = Done r' /\
        RtcRecv.rs_log_ r' = RtcRecv.rs_log_ r ++ [SentRtcpPacket request] /\
        PeerConnection.HandleRtcp (Alloc := zero_alloc) 1100 request 16 pc = Done pc' /\ video_send_stream_ pc' = Some s2 /\
        rtp_of (ss_log_ s2) = rtp_of (ss_log_ s1) ++ sent in
  (exists s1, send_all (Alloc := zero_alloc) 1000 [demo_packet 65535 [1; 2]; demo_packet 0 [3]]
     (RtcSendStream_new (Alloc := zero_alloc) MEDIA_VIDEO_TYPE 7 96 90000 true None) = Done (true, s1) /\
     answered s1 [0] [demo_datagram 0 [3]]) /\
  (exists s1, send_all (Alloc := zero_alloc) 1000 [demo_packet 65535 [1; 2]; demo_packet 0 [3]]
     (RtcSendStream_new (Alloc := zero_alloc) MEDIA_VIDEO_TYPE 7 96 90000 true (Some (97, 8))) = Done (true, s1) /\
     answered s1 [0; 2] [[0x80; 97; 0; 0; 0; 0; 0; 9; 0; 0; 0; 8; 0; 0; 3]]).
Proof.
  intros answered. split.
  - destruct (lost_packet_resent (Alloc := zero_alloc) [demo_packet 65535 [1; 2]; demo_packet 0 [3]]
      [demo_datagram 65535 [1; 2]; demo_datagram 0 [3]] 65535 1000
      (RtcSendStream_new (Alloc := zero_alloc) MEDIA_VIDEO_TYPE 7 96 90000 true None)) as (s1 & Hs & _ & H); try done.
    { split; [by apply demo_numbered|]. split; [by apply demo_numbered|done]. }
    { unfold empty_buffer. cbn [send_buffer_ RtcSendStream_new]. by apply Forall_replicate. }
    exists s1. split; [exact Hs|]. intros r pc Hr Hv Ha.
    destruct (H 0 [] r pc 1100) as (r' & request & pc' & s2 & H1 & H2 & H3 & H4 & H5); try done; [by repeat constructor|by repeat constructor|by rewrite Ha|].
    by exists r', request, pc', s2.
  - destruct (lost_packet_resent (Alloc := zero_alloc) [demo_packet 65535 [1; 2]; demo_packet 0 [3]]
      [demo_datagram 65535 [1; 2]; demo_datagram 0 [3]] 65535 1000
      (RtcSendStream_new (Alloc := zero_alloc) MEDIA_VIDEO_TYPE 7 96 90000 true (Some (97, 8)))) as (s1 & Hs & _ & H); try done.
    { split; [by apply demo_numbered|]. split; [by apply demo_numbered|done]. }
    { unfold empty_buffer. cbn [send_buffer_ RtcSendStream_new]. by apply Forall_replicate. }
    { intros _. split; [done|]. by repeat constructor. }
    exists s1. split; [exact Hs|]. intros r pc Hr Hv Ha.
    destruct (H 0 [2] r pc 1100) as (r' & request & pc' & s2 & H1 & H2 & H3 & H4 & H5);
      try done; [by repeat constructor|by repeat constructor|by rewrite Ha|].
    by exists r', request, pc', s2.
Defined.
