(* ===== verification/RtcpHandling.v ===== *)
(** * [RtcpHandling]: what a connection does with the RTCP it receives

    The loop over the packets of a datagram of up to 8195 bytes ends, whatever the
    datagram is; a longer one can make it run for ever; some well-formed packets
    make it read outside the datagram. *)
From Stdlib Require Import Floats.SpecFloat.
From S2P Require Import Prelude ByteStream Ends DataBuffer Media RtpPacket Rtx RtpClone RtcpNack Rtcp RtcTime PeerConnection.
From S2P Require RtcSend RtcRecv.
Import RtcSend(RtcSendStream, SendRtpPacketInfo, pkt, send_buffer_). Import RtcRecv(RtcRecvStream).

(** ** Calls that end: the readers and writers of RTCP *)

Lemma ends_get32 m off : ends any (get32 m off).
Proof. unfold get32, Read4Bytes. ends. Qed.
Lemma ends_put32 m off v : ends any (put32 m off v).
Proof. unfold put32. ends. Qed.
Lemma ends_int_of lo hi x : ends any (int_of lo hi x).
Proof. unfold int_of. ends. Qed.
#[export] Hint Resolve ends_get32 ends_put32 ends_int_of : ends.
#[export] Hint Unfold uint8_of uint32_of int64_of : ends.

Lemma ends_millisec_to_ntp ms : ends any (millisec_to_ntp ms).
Proof. unfold millisec_to_ntp, uint32_of. ends. Qed.
Lemma ends_store off d p : ends any (store off d p).
Proof. unfold store. ends. Qed.
#[export] Hint Resolve ends_millisec_to_ntp ends_store : ends.

Section handling.
Context `{Alloc : Allocator}.

(** ** Retransmission *)

(** The packets a stream keeps are whole. *)
Definition slot_ok (i : SendRtpPacketInfo) : Prop := match pkt i with Some p => parsed p | None => True end.
Definition slots_ok (s : RtcSendStream) : Prop := Forall slot_ok (send_buffer_ s).
Definition sender_ok (st : option RtcSendStream) : Prop := match st with Some s => slots_ok s | None => True end.
Definition senders_ok (pc : PeerConnection) : Prop := sender_ok (video_send_stream_ pc) /\ sender_ok (audio_send_stream_ pc).

Definition same_buffer (s s' : RtcSendStream) : Prop := send_buffer_ s' = send_buffer_ s.

Lemma ends_fb_common_header count type len m : ends any (fb_common_header count type len m).
Proof. unfold fb_common_header. ends. Qed.
#[local] Hint Resolve ends_fb_common_header : ends.

Lemma ends_set_sr off v s : ends any (set_sr off v s).
Proof. unfold set_sr. ends. Qed.
#[local] Hint Resolve ends_set_sr : ends.

Lemma ends_GetRtcpSr now s : ends (fun x => same_buffer s x.2) (RtcSend.GetRtcpSr now s).
Proof.
  unfold RtcSend.GetRtcpSr, SetRtpTimestamp, SetPktCount, SetBytesCount.
  eapply (ends_bind any); [unfold RtcpSrPacket_new; ends|intros sr _]. do 2 (ends_step; []).
  eapply (ends_bind any); [unfold SrSetSsrc; ends|intros ? _]. eapply (ends_bind any); [unfold SetNtp; ends|intros ? _]. ends.
Qed.

Lemma ends_send_report now s : ends (same_buffer s) (RtcSend.send_report now s).
Proof.
  unfold RtcSend.send_report. eapply ends_bind; [apply ends_GetRtcpSr|]. intros [sr s'] Hs.
  eapply (ends_bind any); [unfold SrGetData; ends|]. intros d _. exact Hs.
Qed.

Lemma ends_resent now p s : ends (fun x => x.1 = true /\ same_buffer s x.2) (RtcSend.SendVideoRtpPacket now p true s).
Proof.
  unfold RtcSend.SendVideoRtpPacket. cbn [negb]. set (s1 := RtcSend.count_packet _ s). assert (same_buffer s s1) as H1 by reflexivity. clearbody s1.
  assert (ends (same_buffer s) (if RtcSend.last_sr_ts_ (RtcSend.reports s1) =? 0 then RtcSend.send_report now s1 else mret s1)) as Hrep.
  { destruct (_ =? 0); [|exact H1]. eapply ends_weaken; [apply ends_send_report|]. intros s2 H2. unfold same_buffer in *. congruence. }
  eapply ends_bind; [exact Hrep|]. intros s2 H2. eapply (ends_bind (fun x => x = (true, s2))); [done|]. intros x ->.
  eapply (ends_bind (same_buffer s)); [|intros s3 H3; by split].
  unfold RtcSend.send_datagram, GetDatagram. eapply ends_bind; [apply ends_read_range|]. intros d _. exact H2.
Qed.

Lemma ends_RtxMux pt ssrc seq p : ends any (RtxMux pt ssrc seq p).
Proof. unfold RtxMux, SetPayloadType, SetSsrc, SetSeq, GetSeq, drop_padding, HasPadding, SetPadding, padding. ends. Qed.

Lemma ends_ResendRtpPacket now seq s : slots_ok s -> ends (fun x => x.1 = true /\ slots_ok x.2) (RtcSend.ResendRtpPacket now seq s).
Proof.
  intros Hs. unfold RtcSend.ResendRtpPacket. set (index := Z.to_nat _). destruct (send_buffer_ s !! index) as [info|] eqn:E; [|discriminate].
  assert (slot_ok info) as Hi by (by eapply Forall_lookup_1). destruct (pkt info) as [p|] eqn:Ep; [|by split].
  unfold slot_ok in Hi. rewrite Ep in Hi. eapply ends_bind; [unfold GetSeq; apply ends_Read2Bytes|]. intros sq _.
  destruct (negb _); [by split|]. destruct (RtcSend.retry _ _ _) as [info'|] eqn:Er; [|by split].
  assert (pkt info' = Some p) as Ep'.
  { rewrite <- Ep. revert Er. unfold RtcSend.retry. destruct (_ =? 0); [by intros [= <-]|]. destruct (SFltb (float_of_int (_ - _ + 10)) _); [done|by intros [= <-]]. }
  set (s1 := RtcSend.set_resends _ _). assert (slots_ok s1) as H1 by (apply Forall_insert; [done|]; unfold slot_ok; by rewrite Ep').
  assert (forall p s2, same_buffer s1 s2 -> ends (fun x => x.1 = true /\ slots_ok x.2) (RtcSend.SendVideoRtpPacket now p true s2)) as Hsend.
  { intros q s2 H2. eapply ends_weaken; [apply ends_resent|]. intros [ok s3] [? H3]. split; [done|]. unfold slots_ok. cbn in *. by rewrite H3, H2. }
  destruct (negb _); [by apply Hsend|].
  destruct (Clone_spec p None (new_char RTP_PACKET_MAX_SIZE) now Hi (new_char_bytes _)) as (p' & -> & _); [by apply new_char_length|]. simpl_m.
  eapply ends_bind; [apply ends_RtxMux|]. intros q _. by apply Hsend.
Qed.

Lemma ends_resend_all now seqs s : slots_ok s -> ends (fun x => x.1 = true /\ slots_ok x.2) (RtcSend.resend_all now seqs s).
Proof.
  revert s. induction seqs as [|seq seqs IH]; intros s Hs; cbn [RtcSend.resend_all]; [by split|].
  eapply ends_bind; [by apply ends_ResendRtpPacket|]. intros [ok s'] [Hok Hs']. cbn in Hok. subst ok. by apply IH.
Qed.

(** ** The numbers that are asked for *)

Lemma ends_RtcpFbNack_new sender media : ends (fun n => bytes_ok (fb_data n)) (RtcpFbNack_new sender media).
Proof.
  assert (forall w v, bytes_ok (be_bytes w v)) as Hw by apply be_bytes_ok.
  unfold RtcpFbNack_new, fb_common_header. eapply (ends_bind bytes_ok).
  - eapply ends_bind; [apply ends_rd_byte, new_char_bytes|]. intros b Hb. rewrite fb_byte by done. eapply ends_bind.
    { apply ends_write_bytes; [apply new_char_bytes|]. by repeat constructor. }
    intros m Hm. apply ends_write_bytes; [done|]. rewrite Write2Bytes_be. apply Hw.
  - intros m Hm. eapply ends_bind; [apply ends_write_bytes; [exact Hm|rewrite Write4Bytes_be; apply Hw]|]. intros m1 H1.
    eapply ends_bind; [apply ends_write_bytes; [exact H1|rewrite Write4Bytes_be; apply Hw]|]. by intros m2 H2.
Qed.

Lemma ends_block_offsets fuel off len : Z.max 0 (len - off) < Z.of_nat fuel -> ends any (block_offsets fuel off len).
Proof.
  revert off. induction fuel as [|fuel IH]; intros off Hf; [lia|]. cbn [block_offsets]. destruct (Z.ltb_spec off len); [|done].
  eapply ends_bind; [apply IH; lia|]. done.
Qed.

Lemma ends_RtcpFbNack_Parse data len : bytes_ok data ->
  ends (fun r => match r with Some n => bytes_ok (fb_data n) | None => True end) (RtcpFbNack_Parse data len).
Proof.
  intros Hd. unfold RtcpFbNack_Parse, UpdateData. destruct (len <=? FB_HEADERS_SIZE) eqn:E; [done|]. apply Z.leb_gt in E.
  eapply ends_bind; [apply ends_RtcpFbNack_new|]. intros n Hn. eapply (ends_bind (fun x => bytes_ok (fb_data x.2))); [|by intros [? n'] ?].
  eapply ends_bind; [apply ends_read_bytes, Hd|]. intros d Hdd. eapply ends_bind; [by apply ends_write_bytes|]. intros m Hm.
  eapply ends_bind; [apply ends_block_offsets; unfold FB_HEADERS_SIZE in *; lia|]. done.
Qed.

Lemma ends_lost_seqs m blocks : bytes_ok m -> ends any (lost_seqs m blocks).
Proof.
  intros Hm. induction blocks as [|block blocks IH]; cbn [lost_seqs]; [done|].
  eapply ends_bind; [apply ends_Read2Bytes|]. intros seq _. eapply ends_bind; [by apply ends_Read2Bytes_range, Forall_drop|]. intros mask Hmask.
  rewrite (mask_loop_positions 16) by exact Hmask. simpl_m. eapply ends_bind; [exact IH|]. done.
Qed.

Lemma ends_HandleRtcpNack now n s : bytes_ok (fb_data n) -> slots_ok s -> ends (fun x => x.1 = true /\ slots_ok x.2) (RtcSend.HandleRtcpNack now n s).
Proof.
  intros Hn Hs. unfold RtcSend.HandleRtcpNack, GetLostSeqs. eapply ends_bind; [by apply ends_lost_seqs|]. intros seqs _.
  destruct (negb _); [by split|]. by apply ends_resend_all.
Qed.

(** ** The streams of a connection *)

Lemma ends_on_send ssrc f st :
  (forall s, slots_ok s -> ends (fun x => x.1 = true /\ slots_ok x.2) (f s)) -> sender_ok st ->
  ends (fun x => x.1 = true /\ sender_ok x.2) (on_send ssrc f st).
Proof.
  intros Hf Hst. unfold on_send. destruct st as [s|]; [|done]. destruct (_ =? _); [|done].
  eapply ends_bind; [by apply Hf|]. intros [ok s'] [? ?]. done.
Qed.

Lemma ends_on_senders ssrc f pc :
  (forall s, slots_ok s -> ends (fun x => x.1 = true /\ slots_ok x.2) (f s)) -> senders_ok pc ->
  ends (fun x => x.1 = true /\ senders_ok x.2) (on_senders ssrc f pc).
Proof.
  intros Hf [Hv Ha]. unfold on_senders. eapply ends_bind; [by apply ends_on_send|]. intros [ok v] [Hok Hv']. cbn in Hok. subst ok. cbn [negb].
  eapply ends_bind; [by apply (ends_on_send ssrc f (audio_send_stream_ pc))|]. intros [ok a] [? ?]. done.
Qed.

Lemma ends_on_recv ssrc f st : (forall s, ends any (f s)) -> ends any (on_recv ssrc f st).
Proof. intros Hf. unfold on_recv. destruct st as [s|]; [|done]. destruct (_ =? _); [|done]. eapply ends_bind; [apply Hf|]. done. Qed.

(** ** Each kind of packet *)

Lemma ends_HandleRtcpSr now data len pc : senders_ok pc ->
  ends (fun x => (x.1 = -1 \/ x.1 = len) /\ senders_ok x.2) (HandleRtcpSr now data len pc).
Proof.
  intros Hpc. unfold HandleRtcpSr.
  eapply (ends_bind (fun r => match r with Some _ => len = SR_SIZE | None => True end)).
  { unfold RtcpSrPacket_Parse. destruct (Z.eqb_spec len SR_SIZE); cbn [negb]; [|done]. ends. }
  intros [sr|] Hlen; [|by split; [left|]].
  assert (forall s, ends any (RtcRecv.HandleRtcpSr now sr s)) as Hr.
  { intros s. unfold RtcRecv.HandleRtcpSr, GetNtpSec, GetNtpFrac, GetRtpTimestamp, GetPktCount, GetBytesCount. ends. }
  eapply (ends_bind senders_ok); [|intros pc' Hpc'; split; [by right|done]].
  destruct (recv_has_ssrc _ _); (eapply ends_bind; [by apply ends_on_recv|]; done).
Qed.

Lemma ends_rr_offsets fuel off len : Z.max 0 (len - off) < Z.of_nat fuel -> ends any (rr_offsets fuel off len).
Proof.
  revert off. induction fuel as [|fuel IH]; intros off Hf; [lia|]. cbn [rr_offsets]. destruct (Z.ltb_spec off len); [|done].
  eapply ends_bind; [apply IH; unfold RR_BLOCK_SIZE; lia|]. done.
Qed.

Lemma ends_rr_block_bytes m blocks : ends any (rr_block_bytes m blocks).
Proof. induction blocks as [|o blocks IH]; cbn [rr_block_bytes]; ends. Qed.

Lemma ends_block_report now block s : slots_ok s -> ends slots_ok (RtcSend.HandleRtcpRr now block s).
Proof.
  intros Hs. unfold RtcSend.HandleRtcpRr, GetCumulativeLost, GetFracLost, GetJitter, GetLsr, GetDlsr. ends.
Qed.

Lemma ends_rr_blocks now blocks pc : senders_ok pc -> ends senders_ok (rr_blocks now blocks pc).
Proof.
  revert pc. induction blocks as [|block blocks IH]; intros pc Hpc; cbn [rr_blocks]; [done|].
  eapply ends_bind; [unfold GetReporteeSsrc; apply ends_get32|]. intros ssrc _. eapply ends_bind.
  { apply ends_on_senders; [|exact Hpc]. intros s Hs. eapply ends_bind; [by apply ends_block_report|]. done. }
  intros [ok pc'] [_ Hpc']. by apply IH.
Qed.

Lemma ends_HandleRtcpRr now data len pc : senders_ok pc ->
  ends (fun x => (x.1 = None \/ x.1 = Some len) /\ senders_ok x.2) (HandleRtcpRr now data len pc).
Proof.
  intros Hpc. unfold HandleRtcpRr. destruct (len <=? _); [by split; [right|]|].
  eapply (ends_bind any).
  { unfold RtcpRrPacket_Parse. destruct (Z.ltb_spec len (8 + RR_BLOCK_SIZE)); [done|].
    eapply ends_bind; [apply ends_read_range|]. intros d _. eapply ends_bind; [apply ends_write_at|]. intros m _.
    eapply ends_bind; [apply ends_rr_offsets; lia|]. done. }
  intros [rr|] _; [|by split; [left|]]. eapply ends_bind; [apply ends_rr_block_bytes|]. intros blocks _.
  eapply ends_bind; [by apply ends_rr_blocks|]. intros pc' Hpc'. by split; [right|].
Qed.

Lemma ends_HandleRtcpRtpFb now data len pc : bytes_ok data -> senders_ok pc ->
  ends (fun x => x.1 = len /\ senders_ok x.2) (HandleRtcpRtpFb now data len pc).
Proof.
  intros Hd Hpc. unfold HandleRtcpRtpFb. destruct (len <=? _); [done|]. eapply ends_bind; [apply ends_rd|]. intros b _. destruct (_ =? _); [|done].
  eapply ends_bind; [by apply ends_RtcpFbNack_Parse|]. intros [n|] Hn; [|done].
  eapply ends_bind; [unfold GetMediaSsrc; apply (ends_get32 _ 8)|]. intros ssrc _.
  eapply ends_bind; [apply ends_on_senders; [|exact Hpc]; intros s Hs; by apply ends_HandleRtcpNack|]. intros [ok pc'] [Hok Hpc']. cbn in Hok. by subst ok.
Qed.

Lemma ends_HandleXrDlrr now m off pc : senders_ok pc -> ends senders_ok (HandleXrDlrr now m off pc).
Proof.
  intros Hpc. unfold HandleXrDlrr. eapply ends_bind; [apply ends_get32|]. intros ssrc _.
  assert (forall s, ends any (lrr ← get32 m (off + 4); dlrr ← get32 m (off + 8); RtcRecv.HandleXrDlrr now (ssrc, lrr, dlrr) s)) as Hf.
  { intros s. unfold RtcRecv.HandleXrDlrr, int64_of. ends. }
  eapply ends_bind; [by apply ends_on_recv|]. intros v _. eapply ends_bind; [by apply ends_on_recv|]. done.
Qed.

Lemma ends_xr_loop fuel now m data xr_hdr xr_len pc : bytes_ok m -> senders_ok pc -> Z.max 0 xr_len < Z.of_nat fuel ->
  ends senders_ok (xr_loop fuel now m data xr_hdr xr_len pc).
Proof.
  intros Hm. revert data xr_hdr xr_len pc. induction fuel as [|fuel IH]; intros data xr_hdr xr_len pc Hpc Hf; [lia|]. cbn [xr_loop].
  destruct (Z.ltb_spec 0 xr_len); [|done].
  eapply ends_bind; [apply ends_rd|]. intros bt _. eapply (ends_bind senders_ok).
  { destruct (bt =? XR_DLRR); [by apply ends_HandleXrDlrr|]. destruct (bt =? XR_RRT); [|exact Hpc].
    eapply ends_bind; [apply ends_get32|]. intros sec _. eapply ends_bind; [apply ends_get32|]. done. }
  intros pc' Hpc'. eapply ends_bind; [by apply ends_Read2Bytes_range, Forall_drop|]. intros l Hl. cbv zeta beta in *. apply IH; [done|lia].
Qed.

Lemma ends_HandleRtcpXr now m len pc : bytes_ok m -> senders_ok pc -> ends (fun x => x.1 = len /\ senders_ok x.2) (HandleRtcpXr now m len pc).
Proof.
  intros Hm Hpc. unfold HandleRtcpXr. eapply ends_bind; [apply ends_xr_loop; [done|done|lia]|]. done.
Qed.

(** ** The loop *)

(** The length of the packet at an offset, and its type. *)
Definition total_at (m : bytes) (p : Z) : outcome Z := l ← GetRtcpLength (drop (Z.to_nat p) m); mret (RTCP_HEADER_SIZE + l).

(** What a packet does to the pointer: it is skipped, or it is the last one, or it was
    a sender report that is refused. *)
Definition moves (m : bytes) (p left_len : Z) (r : option Z) : Prop :=
  match r with
  | None => True
  | Some ret => ret = left_len \/ total_at m p = Done ret \/ (ret = -1 /\ rd m (p + 1) = Done RTCP_SR)
  end.

Lemma rtcp_item_moves now m p left_len pc : bytes_ok m -> senders_ok pc ->
  ends (fun x => moves m p left_len x.1 /\ senders_ok x.2) (rtcp_item now m p left_len pc).
Proof.
  intros Hm Hpc. unfold rtcp_item. destruct (rd m (p + 1)) as [type|] eqn:Et; [|by pose proof (ends_rd m (p + 1)) as H; rewrite Et in H]. simpl_m.
  assert (ends any (GetRtcpLength (drop (Z.to_nat p) m))) as Hl0 by (unfold GetRtcpLength; ends).
  destruct (GetRtcpLength _) as [l|] eqn:El; [|done]. simpl_m. set (total := RTCP_HEADER_SIZE + l).
  assert (total_at m p = Done total) as Htot by (unfold total_at; by rewrite El). assert (bytes_ok (drop (Z.to_nat p) m)) as Hd by by apply Forall_drop.
  unfold moves. destruct (Z.eqb_spec type RTCP_SR) as [->|].
  { eapply ends_bind; [by apply ends_HandleRtcpSr|]. intros [ret pc'] [[Hr|Hr] ?]; cbn in *; subst ret; split; auto. }
  destruct (type =? RTCP_RR).
  { eapply ends_weaken; [by apply ends_HandleRtcpRr|]. intros [r pc'] [[Hr|Hr] ?]; cbn in *; subst r; auto. }
  destruct (_ || _); [by split; [left|]|]. destruct (type =? RTCP_RTPFB).
  { eapply ends_bind; [by apply ends_HandleRtcpRtpFb|]. intros [ret pc'] [Hr ?]; cbn in *; subst ret; auto. }
  destruct (type =? RTCP_PSFB); [by split; [right; left|]|]. destruct (type =? RTCP_XR); [|by split; [left|]].
  eapply ends_bind; [by apply ends_HandleRtcpXr|]. intros [ret pc'] [Hr ?]; cbn in *; subst ret; auto.
Qed.

Lemma total_at_bound m p t : bytes_ok m -> total_at m p = Done t -> RTCP_HEADER_SIZE <= t.
Proof.
  unfold total_at, GetRtcpLength. intros Hm. pose proof (ends_Read2Bytes_range (drop 2 (drop (Z.to_nat p) m))) as H.
  destruct (Read2Bytes _) as [l|]; [|done]. simpl_m. intros [= <-]. pose proof (Z.mod_pos_bound (l * 4) (2 ^ 16) eq_refl). unfold u16. lia.
Qed.

(** The length of a packet that would begin one byte before a sender report: the type
    of the report is its high byte. *)
Lemma total_behind m q t : bytes_ok m -> 0 <= q -> rd m (q + 2) = Done RTCP_SR -> total_at m q = Done t -> 8196 <= t.
Proof.
  intros Hm Hq Hr. unfold total_at, GetRtcpLength, Read2Bytes. rewrite drop_drop. replace (Z.to_nat q + 2)%nat with (Z.to_nat (q + 2)) by lia.
  rewrite (rd_drop m _ 0) by lia. rewrite Z.add_0_r, Hr. simpl_m. pose proof (ends_rd_byte (drop (Z.to_nat (q + 2)) m) 1) as Hb.
  destruct (rd _ 1) as [b|]; [|done]. simpl_m. intros [= <-]. assert (is_byte b) as Hbb by (by apply Hb, Forall_drop). unfold is_byte in Hbb.
  cbn [le_value]. unfold u16, RTCP_SR, RTCP_HEADER_SIZE. div_lia.
Qed.

Lemma loop_done fuel now m p left_len pc : left_len <= 0 -> (1 <= fuel)%nat -> rtcp_loop fuel now m p left_len pc = Done pc.
Proof. intros Hl Hf. destruct fuel; [lia|]. cbn [rtcp_loop]. by rewrite (proj2 (Z.ltb_ge _ _)). Qed.

(** The largest datagram the loop is known to end on; [long_datagram_hangs] is a
    longer one it does not end on. *)
Definition RTCP_DATAGRAM_MAX : Z := 8195.

Context (now : Z) (m : bytes) (len : Z) (Hm : bytes_ok m).

(** Behind a refused report the loop goes back, but not for long. *)
Lemma loop_back fuel q left_len pc : len <= RTCP_DATAGRAM_MAX -> 0 <= q -> q + left_len = len -> rd m (q + 2) = Done RTCP_SR -> senders_ok pc -> q + 2 <= Z.of_nat fuel ->
  ends any (rtcp_loop fuel now m q left_len pc).
Proof.
  intros Hlen. revert q left_len pc. induction fuel as [|fuel IH]; intros q left_len pc Hq Hsum Hr Hpc Hf; [lia|]. cbn [rtcp_loop].
  destruct (Z.ltb_spec 0 left_len); [|done]. eapply ends_bind; [by apply rtcp_item_moves|]. intros [r pc'] [Hmove Hpc'].
  destruct r as [ret|]; [|done]. cbn [fst snd] in *. destruct (Z.ltb_spec (q + ret) 0); [done|].
  destruct Hmove as [->|[Ht|[-> Hr']]].
  - by rewrite loop_done by lia.
  - pose proof (total_behind m q ret Hm Hq Hr Ht). unfold RTCP_DATAGRAM_MAX in Hlen. by rewrite loop_done by lia.
  - apply IH; try done; try lia. by replace (q + -1 + 2) with (q + 1) by lia.
Qed.

Lemma loop_forward fuel p left_len pc : len <= RTCP_DATAGRAM_MAX -> 0 <= p -> p + left_len = len -> senders_ok pc -> Z.max 0 left_len + Z.max 0 len + 1 <= Z.of_nat fuel ->
  ends any (rtcp_loop fuel now m p left_len pc).
Proof.
  intros Hlen. revert p left_len pc. induction fuel as [|fuel IH]; intros p left_len pc Hp Hsum Hpc Hf; [lia|]. cbn [rtcp_loop].
  destruct (Z.ltb_spec 0 left_len); [|done]. eapply ends_bind; [by apply rtcp_item_moves|]. intros [r pc'] [Hmove Hpc'].
  destruct r as [ret|]; [|done]. cbn [fst snd] in *. destruct (Z.ltb_spec (p + ret) 0); [done|].
  destruct Hmove as [->|[Ht|[-> Hr']]].
  - by rewrite loop_done by lia.
  - pose proof (total_at_bound m p ret Hm Ht). unfold RTCP_HEADER_SIZE in *. apply IH; try done; lia.
  - apply loop_back; try done; try lia. by replace (p + -1 + 2) with (p + 1) by lia.
Qed.

(** C10. The loop over the packets of an RTCP datagram of at most 8195 bytes ends,
    whatever the datagram and the state of the connection: every packet is skipped
    or is the last one, and where a refused sender report makes the pointer go back,
    it goes back over reports of the same type only.  The fuel of the model is never
    used up.  The bound is needed: the socket takes datagrams of 10 KiB, and
    [long_datagram_hangs] is one of 10000 bytes on which the loop never ends. *)
Theorem HandleRtcp_terminates pc :
  0 <= len <= RTCP_DATAGRAM_MAX -> senders_ok pc -> HandleRtcp now m len pc <> Fault OutOfFuel.
Proof. intros [Hl Hmax] Hpc. unfold HandleRtcp. apply (ends_answers any), loop_forward; [done|lia|lia|exact Hpc|lia]. Qed.

(** A sender report that is longer than 28 bytes, as one with report blocks is,
    is refused with -1, which is added to the pointer: the connection goes on one byte
    before the datagram. *)
Theorem report_with_blocks_reads_before pc t :
  0 < len -> rd m 1 = Done RTCP_SR -> total_at m 0 = Done t -> t <> SR_SIZE -> HandleRtcp now m len pc = Fault OutOfBounds.
Proof.
  intros Hl Hr Ht Hne. unfold HandleRtcp. destruct (Z.to_nat (2 * len + 4)) eqn:E; [lia|]. cbn [rtcp_loop].
  rewrite (proj2 (Z.ltb_lt _ _)) by done. unfold rtcp_item. change (0 + 1) with 1. rewrite Hr. simpl_m. revert Ht. unfold total_at.
  change (drop (Z.to_nat 0) m) with m. destruct (GetRtcpLength m) as [l|]; [|done]. simpl_m. intros [= Ht]. rewrite Ht.
  change (RTCP_SR =? RTCP_SR) with true. cbn iota. unfold HandleRtcpSr, RtcpSrPacket_Parse. rewrite (proj2 (Z.eqb_neq t SR_SIZE)) by done. done.
Qed.

(** A request for lost packets that names none is no packet to its parser, whose
    result the connection uses all the same: a null pointer is read. *)
Theorem nack_without_numbers_reads_null pc b t :
  0 < len -> rd m 0 = Done b -> Z.land b 0x1f = FB_RTP_NACK -> rd m 1 = Done RTCP_RTPFB -> total_at m 0 = Done t ->
  RTCP_HEADER_SIZE < t <= FB_HEADERS_SIZE -> HandleRtcp now m len pc = Fault OutOfBounds.
Proof.
  intros Hl Hb0 Hb Hr Ht Hrange. unfold HandleRtcp. destruct (Z.to_nat (2 * len + 4)) eqn:E; [lia|]. cbn [rtcp_loop].
  rewrite (proj2 (Z.ltb_lt _ _)) by done. unfold rtcp_item. change (0 + 1) with 1. rewrite Hr. simpl_m. revert Ht. unfold total_at.
  change (drop (Z.to_nat 0) m) with m. destruct (GetRtcpLength m) as [l|]; [|done]. simpl_m. intros [= Ht]. rewrite Ht.
  change (RTCP_RTPFB =? RTCP_SR) with false. change (RTCP_RTPFB =? RTCP_RR) with false. change (RTCP_RTPFB =? RTCP_RTPFB) with true.
  change (_ || _ || _) with false. cbn iota. unfold HandleRtcpRtpFb. rewrite (proj2 (Z.leb_gt _ _)) by lia. rewrite Hb0. simpl_m. rewrite Hb.
  change (FB_RTP_NACK =? FB_RTP_NACK) with true. cbn iota. unfold RtcpFbNack_Parse. by rewrite (proj2 (Z.leb_le _ _)) by lia.
Qed.

(** *** A datagram on which the loop never ends *)

(** A payload feedback packet of 8996 bytes, whose bytes all are 200, the type of a
    sender report: the connection skips it, and goes back to its first byte over
    8996 reports that are refused. *)
Definition hanging_datagram : bytes := [0x80; RTCP_PSFB] ++ replicate (Z.to_nat 9998) RTCP_SR.

Lemma hanging_tail k : 0 <= k <= 9990 -> exists l,
  drop (Z.to_nat (2 + k)) hanging_datagram = RTCP_SR :: RTCP_SR :: l.
Proof.
  intros Hk. unfold hanging_datagram. rewrite drop_app_ge by (cbn [length]; lia). rewrite drop_replicate.
  change (length [_; _]) with 2%nat. destruct (Z.to_nat 9998 - (Z.to_nat (2 + k) - 2))%nat as [|[|n]] eqn:E; [lia|lia|].
  by eexists.
Qed.

Lemma hanging_length q : 0 <= q <= 8996 -> GetRtcpLength (drop (Z.to_nat q) hanging_datagram) = Done 8992.
Proof.
  intros Hq. unfold GetRtcpLength. rewrite drop_drop. replace (Z.to_nat q + 2)%nat with (Z.to_nat (2 + q)) by lia.
  by destruct (hanging_tail q) as [l ->]; [lia|].
Qed.

Lemma hanging_type q : 1 <= q <= 8996 -> rd hanging_datagram (q + 1) = Done RTCP_SR.
Proof.
  intros Hq. replace (q + 1) with (2 + (q - 1) + 0) by lia. rewrite <- rd_drop by lia.
  by destruct (hanging_tail (q - 1)) as [l ->]; [lia|].
Qed.

Lemma hanging_item q left_len pc : 0 <= q <= 8996 ->
  rtcp_item now hanging_datagram q left_len pc = Done (Some (if q =? 0 then 8996 else -1), pc).
Proof.
  intros Hq. unfold rtcp_item. rewrite hanging_length by done. destruct (Z.eqb_spec q 0) as [->|Hne].
  - change (rd hanging_datagram (0 + 1)) with (Done RTCP_PSFB). reflexivity.
  - rewrite hanging_type by lia. simpl_m. change (RTCP_SR =? RTCP_SR) with true. cbn iota. reflexivity.
Qed.

Lemma hanging_loop fuel q pc : 0 <= q <= 8996 ->
  rtcp_loop fuel now hanging_datagram q (10000 - q) pc = Fault OutOfFuel.
Proof.
  revert q. induction fuel as [|fuel IH]; intros q Hq; [done|]. cbn [rtcp_loop].
  rewrite (proj2 (Z.ltb_lt _ _)) by lia. rewrite hanging_item by done. simpl_m. destruct (Z.eqb_spec q 0) as [->|Hne].
  - rewrite (proj2 (Z.ltb_ge _ _)) by lia. apply (IH (0 + 8996)). lia.
  - rewrite (proj2 (Z.ltb_ge _ _)) by lia. replace (10000 - q - -1) with (10000 - (q + -1)) by lia. apply IH. lia.
Qed.

(** No number of turns is enough. *)
Theorem long_datagram_hangs fuel pc :
  zlen hanging_datagram = 10000 /\ rtcp_loop fuel now hanging_datagram 0 10000 pc = Fault OutOfFuel.
Proof. split; [reflexivity|]. by apply (hanging_loop fuel 0). Qed.
End handling.

(** A sender report that is refused, in front of another packet. *)
Lemma HandleRtcp_terminates_witness :
  HandleRtcp (Alloc := zero_alloc) 0 [0x80; 200; 0; 0; 200; 200; 0; 0] 8 PeerConnection_new <> Fault OutOfFuel.
Proof.
  apply (HandleRtcp_terminates (Alloc := zero_alloc) 0 [0x80; 200; 0; 0; 200; 200; 0; 0] 8); [by repeat constructor|done|done].
Defined.

(** A report with one block. *)
Lemma report_with_blocks_reads_before_witness :
  HandleRtcp (Alloc := zero_alloc) 0 ([0x81; 200; 0; 12] ++ replicate 48 0) 52 PeerConnection_new = Fault OutOfBounds.
Proof. apply (report_with_blocks_reads_before (Alloc := zero_alloc)) with (t := 52); done. Defined.

Lemma nack_without_numbers_reads_null_witness :
  HandleRtcp (Alloc := zero_alloc) 0 [0x81; 205; 0; 2; 0; 0; 0; 0; 0; 0; 0; 7] 12 PeerConnection_new = Fault OutOfBounds.
Proof. apply (nack_without_numbers_reads_null (Alloc := zero_alloc)) with (b := 0x81) (t := 12); done. Defined.
