(* ===== verification/RtcReceiving.v ===== *)
(** * [RtcReceiving]: what a connection makes of the datagrams of a stream

    Datagrams of the video stream that arrive in order are given to [HandleRtpData]:
    each goes through the state check, the choice of the stream by its SSRC, the
    stream's own counts, the jitter buffer and the packer at once; the NAL units they
    carry come out as media packets. *)
From S2P Require Import Prelude ByteStream DataBuffer Media H264 ZMap RtpPacket Rtx RtpClone RtpPack Nack Jitter PackH264 PackH264Roundtrip RtcTime.
From S2P Require Import RtcDatagram RtcSending PeerConnection.
From S2P Require RtcSend RtcRecv RtcJitter.
Import RtcRecv(RtcRecvStream, rs_ids, jitters, nack_generator_). Import RtcJitter(jitters_ok).

(** ** The packer's log only grows *)

Definition grows (h h' : PackHandleH264) : Prop := exists ev, p_log_ h' = p_log_ h ++ ev.

#[export] Instance grows_preorder : PreOrder grows.
Proof.
  split; [intros h; exists []; by rewrite app_nil_r|]. intros h1 h2 h3 [e1 H1] [e2 H2]. exists (e1 ++ e2). by rewrite H2, H1, app_assoc.
Qed.

Lemma grows_same h h' : p_log_ h' = p_log_ h -> grows h h'.
Proof. intros H. exists []. by rewrite H, app_nil_r. Qed.
Lemma grows_output p h : grows h (MediaPacketOutput p h).
Proof. by eexists. Qed.
Lemma grows_lost now i h h0 : grows h h0 -> grows h (PackH264.ReportLost now i h0).
Proof. intros [ev H]. unfold PackH264.ReportLost. destruct (_ <? _); [|by exists ev]. exists (ev ++ [PackHandleReset i]). cbn. by rewrite H, app_assoc. Qed.

Section grows.
Context `{Alloc : Allocator}.

Lemma stap_demux_grows data dts offs h ok h' : stap_demux data dts offs h = Done (ok, h') -> grows h h'.
Proof.
  revert h. induction offs as [|o [|n offs] IH]; intros h; [by intros [= _ <-]|by intros [= _ <-]|]. rewrite stap_demux_cons. cbn zeta.
  destruct (_ <? 1); [by intros [= _ <-]|]. intros (p0 & _ & H)%bind_inv. apply bind_inv in H as (p1 & _ & H).
  apply bind_inv in H as (d & _ & H). apply bind_inv in H as (p2 & _ & H). apply bind_inv in H as (b & _ & H).
  apply IH in H. etrans; [|exact H]. apply grows_output.
Qed.

Lemma input_fua_grows now i h h' : input_fua now i h = Done h' -> grows h h'.
Proof.
  unfold input_fua. intros ([st en] & _ & H)%bind_inv. destruct (st && en).
  { injection H as <-. apply grows_lost. by apply grows_same. }
  set (h1 := if st then _ else _) in H. assert (grows h h1) as H1 by (apply grows_same; by destruct st). destruct (en && negb (start_flag_ h1)).
  { injection H as <-. apply grows_lost. etrans; [exact H1|]. by apply grows_same. }
  set (h2 := set_queue _ _) in H. assert (grows h h2) as H2 by (etrans; [exact H1|]; apply grows_same; by destruct en).
  destruct (start_flag_ h2 && end_flag_ h2).
  - apply bind_inv in H as (p & _ & H). apply bind_inv in H as ([[[ok p'] dts] h3] & Hd & H). apply bind_inv in H as (h4 & H4 & H).
    injection H as <-. assert (grows h2 h3) as H3.
    { unfold DemuxFua in Hd. apply bind_inv in Hd as ([[[[q p3] t3] s3] e3] & _ & Hd). injection Hd as _ _ _ <-. by apply grows_same. }
    etrans; [exact H2|]. etrans; [exact H3|]. transitivity h4; [|by apply grows_same]. destruct ok.
    + apply bind_inv in H4 as (b & _ & H4). injection H4 as <-. apply grows_output.
    + injection H4 as <-. by apply grows_lost.
  - injection H as <-. etrans; [exact H2|]. by apply grows_same.
Qed.

Lemma InputRtpPacket_grows now i h h' : PackH264.InputRtpPacket now i h = Done h' -> grows h h'.
Proof.
  assert (forall h, grows h (set_init (extend_seq_ i) h)) as Hset by (intros ?; by apply grows_same).
  assert (forall h, input_payload now i h = Done h' -> grows h h') as Hin.
  { intros g. unfold input_payload. intros (b & _ & H)%bind_inv. destruct (_ && _).
    - unfold input_single in H. apply bind_inv in H as (dts & _ & H). apply bind_inv in H as (p0 & _ & H). apply bind_inv in H as (p1 & _ & H).
      apply bind_inv in H as (d & _ & H). apply bind_inv in H as (p2 & _ & H). injection H as <-. apply grows_output.
    - destruct (_ =? 28); [by eapply input_fua_grows|]. destruct (_ =? 24); [|by injection H as <-].
      apply bind_inv in H as ([ret g'] & Hd & H). injection H as <-. assert (grows g g') as Hg.
      { unfold DemuxStapA in Hd. destruct (_ <=? _); [by injection Hd as _ <-|]. apply bind_inv in Hd as ([offs|] & _ & Hd); [|by injection Hd as _ <-].
        apply bind_inv in Hd as (dts & _ & Hd). by eapply stap_demux_grows. }
      destruct ret; [done|]. by apply grows_lost. }
  unfold PackH264.InputRtpPacket. destruct (negb (p_init_flag_ h)); [|destruct (negb _)].
  - intros H%Hin. by etrans.
  - intros [= <-]. transitivity (PackH264.ReportLost now i (set_flags false false (set_queue [] h))); [|apply Hset]. apply grows_lost. by apply grows_same.
  - intros H%Hin. by etrans.
Qed.
End grows.

(** ** The jitter buffer, for packets in order *)

Abbreviation VideoBuffer := (JitterBuffer (P := RtpPacket)).

(** A buffer that waits for nothing, and whose next packet has the extended number [e]. *)
Definition next_is (e : Z) (j : VideoBuffer) : Prop :=
  rtp_packets_map_ j = [] /\ j_media_type_ j = MEDIA_VIDEO_TYPE /\
  ((j_init_flag_ j = false /\ 0 <= e < 2 ^ 16) \/
   (j_init_flag_ j = true /\ 0 < e < 2 ^ 32 /\ max_seq_ j = (e - 1) mod 2 ^ 16 /\ cycles_ j = e - 1 - (e - 1) mod 2 ^ 16 /\ output_seq_ j = e - 1)).

(** The number of the next packet, and the cycles it is extended with. *)
Lemma next_number e (j : VideoBuffer) : 0 < e < 2 ^ 32 -> max_seq_ j = (e - 1) mod 2 ^ 16 -> cycles_ j = e - 1 - (e - 1) mod 2 ^ 16 ->
  UpdateSeq (u16 e) j = (true, e, false, set_seqs (base_seq_ j) (u16 e) (bad_seq_ j) (e - u16 e) j).
Proof.
  intros He Hm Hc. unfold UpdateSeq, u16, u32, MAX_DROPOUT, RTP_SEQ_MOD in *. rewrite Hm, Hc. change (Z.shiftl 1 16) with (2 ^ 16).
  assert ((e mod 2 ^ 16 - (e - 1) mod 2 ^ 16) mod 2 ^ 16 = 1) as ->.
  { rewrite <- Zminus_mod. replace (e - (e - 1)) with 1 by lia. done. }
  change (1 <? 3000) with true. cbn iota.
  assert ((if e mod 2 ^ 16 <? (e - 1) mod 2 ^ 16 then (e - 1 - (e - 1) mod 2 ^ 16 + 2 ^ 16) mod 2 ^ 32 else e - 1 - (e - 1) mod 2 ^ 16) = e - e mod 2 ^ 16) as ->.
  { destruct (Z.ltb_spec (e mod 2 ^ 16) ((e - 1) mod 2 ^ 16)).
    - rewrite Z.mod_small; div_lia.
    - div_lia. }
  rewrite Z.mod_small by div_lia. by replace (e - e mod 2 ^ 16 + e mod 2 ^ 16) with e by lia.
Qed.

Section jitter.
Context `{Alloc : Allocator}.
Context (b1 : Z) (s t ss : bytes) (Hs : zlen s = 2) (Ht : zlen t = 4) (Hss : zlen ss = 4) (d : bytes) (Hd : fits d).

(** A packet of the buffer, as the packer reads it. *)
Lemma holds_info own ms e rate p : holds own b1 s t ss ms d p ->
  info_carries e (be_value t) ms d (mkInfo MEDIA_VIDEO_TYPE p e rate).
Proof.
  intros Hp. destruct (GetSeq_holds b1 s t ss Hs Ht Hss d _ _ _ Hp) as (_ & Hts & _).
  apply holds_mem in Hp as (tail & Hm & _ & Hpay & Hlen & Hms & _). split; [done|]. split; [exact Hts|]. split; [exact Hms|]. split; [exact Hlen|].
  exists tail. unfold payload_ptr. cbn [i_pkt]. rewrite Hm, Hpay, <- (zlen_rtp_header b1 s t ss Hs Ht Hss). by rewrite drop_zlen_app.
Qed.

Lemma buffer_in_order e ms now rate p j :
  next_is e j -> be_value s = u16 e -> holds false b1 s t ss ms d p -> exists i j' pre,
    Jitter.InputRtpPacket now rate p j = Done (true, j') /\ j_log_ j' = j_log_ j ++ pre ++ [Jitter.RtpPacketOutput i] /\
    (pre = [] \/ exists i', pre = [Jitter.RtpPacketReset i']) /\ (e < 2 ^ 32 - 1 -> next_is (e + 1) j') /\
    info_carries e (be_value t) now d i /\ i_media_type_ i = MEDIA_VIDEO_TYPE.
Proof.
  intros (Hmap & Htype & Hj) Hseq Hp. unfold Jitter.InputRtpPacket. cbn [rl_clone rl_seq RtpPacket_like].
  destruct (Clone_holds b1 s t ss Hs Ht Hss d Hd _ _ _ true now Hp) as (p1 & -> & Hp1). simpl_m.
  destruct (GetSeq_holds b1 s t ss Hs Ht Hss d _ _ _ Hp1) as (Hq & _). cbn [rl_seq RtpPacket_like] in *. rewrite Hq, Hseq. simpl_m.
  destruct (Clone_holds b1 s t ss Hs Ht Hss d Hd _ _ _ false now Hp1) as (p2 & Hc2 & Hp2).
  set (j0 := set_buffer_index _ j). change (j_init_flag_ j0) with (j_init_flag_ j).
  assert (forall e (k : VideoBuffer), RtpPacketInfo_new (j_media_type_ k) rate p1 e now = Done (Some (mkInfo (j_media_type_ k) p2 e rate))) as Hnew.
  { intros e' k. unfold RtpPacketInfo_new. cbn [rl_clone RtpPacket_like]. rewrite Hc2. by simpl_m. }
  destruct Hj as [(Hinit & He)|(Hinit & He & Hm & Hcy & Ho)]; rewrite Hinit; cbn [negb].
  - assert (u16 e = e) as -> by (apply u16_small; lia). rewrite Hnew. simpl_m. cbn [j_media_type_ InitSeq set_seqs set_init_flag j0 set_buffer_index].
    rewrite Htype. set (i := mkInfo MEDIA_VIDEO_TYPE p2 e rate). unfold place_packet. cbn [orb].
    set (j1 := InitSeq _ _). exists i, (OutputPacket i (Jitter.ReportLost now i j1)).
    assert (exists pre, j_log_ (Jitter.ReportLost now i j1) = j_log_ j ++ pre /\ (pre = [] \/ exists i', pre = [Jitter.RtpPacketReset i']) /\
      rtp_packets_map_ (Jitter.ReportLost now i j1) = [] /\ j_media_type_ (Jitter.ReportLost now i j1) = MEDIA_VIDEO_TYPE /\
      j_init_flag_ (Jitter.ReportLost now i j1) = true /\ max_seq_ (Jitter.ReportLost now i j1) = e /\ cycles_ (Jitter.ReportLost now i j1) = 0) as (pre & Hl & Hpre & F1 & F2 & F3 & F4 & F5).
    { unfold Jitter.ReportLost. destruct (_ <? _); [exists [Jitter.RtpPacketReset i]|exists []]; cbn; rewrite ?app_nil_r; (split_and!; [done| |done..]); [right; by exists i|by left]. }
    exists pre. split; [done|]. split; [cbn; by rewrite Hl, <- app_assoc|]. split; [done|]. split; [|split; [by apply (holds_info (negb false))|done]].
    intros _. split; [done|]. split; [done|]. right. cbn. rewrite F4, F5. replace (e + 1 - 1) with e by lia. rewrite Z.mod_small by lia. split_and!; (done || lia).
  - pose proof (next_number e j0 He Hm Hcy) as Hu. rewrite Hu. cbn [andb negb]. rewrite Hnew. simpl_m.
    cbn [j_media_type_ set_seqs j0 set_buffer_index]. rewrite Htype. set (i := mkInfo MEDIA_VIDEO_TYPE p2 e rate).
    unfold place_packet. cbn [orb]. cbn [output_seq_ set_seqs j0 set_buffer_index]. rewrite Ho. replace (e - 1 + 1) with e by lia.
    change (extend_seq_ i) with e. rewrite Z.eqb_refl. cbn [rtp_packets_map_ OutputPacket set_seqs j0 set_buffer_index]. rewrite Hmap.
    eexists i, _, []. split; [reflexivity|]. split; [done|]. split; [by left|]. split; [|split; [by apply (holds_info (negb false))|done]].
    intros Hlt. split; [done|]. split; [done|]. right. cbn. replace (e + 1 - 1) with e by lia. split_and!; (done || lia).
Qed.
End jitter.

(** ** The connection *)

(** *** The stream's own counts *)

(** A stream that receives the packets of an SSRC, with sound counts. *)
Record counts_ok (rate ssrc : Z) (st : RtcRecvStream) : Prop := {
  co_rate : ss_clock_rate_ (rs_ids st) = rate;
  co_ssrc : ss_ssrc_ (rs_ids st) = ssrc;
  co_rtx : ss_rtx_ssrc_ (rs_ids st) <> ssrc;
  co_jitter : jitters_ok (jitters st);
  co_nack : nack_ok (nack_generator_ st)
}.

(** Any time and number of a packet can be counted. *)
Lemma HandleRtpPacket_counts rate ssrc b1 s t ss d now p st :
  0 < rate -> counts_ok rate ssrc st -> zlen s = 2 -> bytes_ok s -> zlen t = 4 -> zlen ss = 4 -> be_value ss = ssrc ->
  fits d -> holds false b1 s t ss now d p -> 0 <= now < MAX_TIME ->
  exists st', RtcRecv.HandleRtpPacket p st = Done (true, p, st') /\ counts_ok rate ssrc st'.
Proof.
  intros Hrate [C1 C2 C3 C4 C5] Hs Hsb Ht Hss Hv Hd Hp Hnow. unfold RtcRecv.HandleRtpPacket.
  destruct (GetSeq_holds b1 s t ss Hs Ht Hss d _ _ _ Hp) as (Hq & Hts & Hssrc). rewrite Hssrc, Hv. simpl_m.
  rewrite (proj2 (Z.eqb_neq _ _)) by (intros E; by apply C3). rewrite Hts. simpl_m.
  assert (local_ms_ p = now) as -> by (by apply holds_mem in Hp as (? & _ & _ & _ & _ & ? & _)).
  unfold MAX_TIME in Hnow. destruct (RtcJitter.GenerateJitter_ok (be_value t) now st) as (j & -> & Hj); [lia|done|lia|]. simpl_m.
  cbn [negb]. rewrite Hq. simpl_m. set (st1 := if negb _ then _ else _).
  assert (rs_ids st1 = rs_ids st /\ jitters st1 = j /\ nack_generator_ st1 = nack_generator_ st) as (E1 & E2 & E3).
  { unfold st1, RtcRecv.UpdateSeq. repeat case_match; by split_and!. }
  clearbody st1. assert (is_seq (be_value s)) as Hseq.
  { pose proof (be_value_bound s Hsb) as H. rewrite Hs in H. unfold is_seq, SEQUENCE_MAX. lia. }
  rewrite E1. destruct (ss_nack_enable_ (rs_ids st)).
  - rewrite E3. destruct (UpdateNackList_ok (be_value s) (nack_generator_ st) C5 Hseq) as (n & -> & Hn & _). simpl_m.
    eexists. split; [reflexivity|]. split; cbn; congruence.
  - simpl_m. eexists. split; [reflexivity|]. split; cbn; congruence.
Qed.

Section receive.
Context `{Alloc : Allocator} (rate ssrc : Z) (Hrate : 0 < rate < 2 ^ 20) (Hssrc : 0 <= ssrc < 2 ^ 32).

(** Datagrams that have been decrypted, each with the time of its arrival, and with
    whatever lies behind it in its buffer. *)
Fixpoint receive_all (behind : bytes) (l : list (Z * bytes)) (s : PeerConnection) : outcome PeerConnection :=
  match l with
  | [] => mret s
  | (now, g) :: l => s ← HandleRtpData now (g ++ behind) (zlen g) s; receive_all behind l s
  end.

(** A connection whose DTLS is done, that receives the video stream of this SSRC, and
    has not lost any.  (A connection that pulls a test source drops the SSRC 1234.) *)
Record receiving (s : PeerConnection) : Prop := {
  re_ready : ready s = true;
  re_test : mspull_ s = false \/ ssrc <> 1234;
  re_stream : exists st, video_recv_stream_ s = Some st /\ counts_ok rate ssrc st;
  re_key : find_keyframe_ s = false
}.
Definition pack_of (s : PeerConnection) : PackHandleH264 := default PackHandleH264_new (h264_pack_ s).

(** The units of a list that are handed on: access unit delimiters are not. *)
Definition handed_on (n : bytes) : bool := negb (H264_IS_AUD (hd 0 n)).

(** A connection that has handed on [ms]. *)
Definition add_media (ms : list Media_Packet) (s : PeerConnection) : PeerConnection := fold_left (fun s p => OnReceiveMediaPacket p s) ms s.

Lemma add_media_fields ms s :
  pc_media_ (add_media ms s) = pc_media_ s ++ ms /\ jb_video_ (add_media ms s) = jb_video_ s /\ h264_pack_ (add_media ms s) = h264_pack_ s /\
  (receiving s -> receiving (add_media ms s)).
Proof.
  unfold add_media. revert s. induction ms as [|p ms IH]; intros s; cbn [fold_left]; [by rewrite app_nil_r|].
  destruct (IH (OnReceiveMediaPacket p s)) as (-> & -> & -> & H). split; [cbn; by rewrite <- app_assoc|]. split; [done|]. split; [done|].
  intros [H1 H2 H3 H4]. apply H. by split.
Qed.

(** One unit handed on. *)
Lemma output_video n ts p s : receiving s -> 0 <= ts < 2 ^ 32 -> video_packet n ts p ->
  exists ms, on_MediaPacketOutput p s = Done (add_media ms s) /\
    Forall2 (fun n p => video_packet n (ts * 1000 / rate) p) (if handed_on n then [n] else []) ms.
Proof.
  intros [_ _ (st & Hst & [Hr _ _ _ _]) Hkey] Hts Hp. pose proof Hp as (hdr & body & Hn & Hwf & Hc & Hav & _ & _ & Hdts & _).
  unfold on_MediaPacketOutput. rewrite Hav. unfold rescale. rewrite Hst. cbn [clock_rate_of]. simpl_m. rewrite Hr, Hdts.
  rewrite chk_int64_ok by lia. simpl_m. rewrite (proj2 (Z.eqb_neq _ _)) by lia. rewrite Z.quot_div_nonneg by lia.
  set (t := ts * 1000 / rate). simpl_m. set (p' := set_dts t (set_pts t p)). change (buffer_ptr_ p') with (buffer_ptr_ p).
  destruct (Data_contents _ Hwf) as (rest & Hd). rewrite Hc, Hn in Hd. change NAL_START_CODE with [0; 0; 0; 1] in Hd. cbn [app] in Hd. rewrite Hd.
  change (GetNaluTypePos _) with (Done 4). simpl_m. destruct Hwf as [_ _ Hstart _ _ _]. rewrite <- rd_drop by lia.
  fold (Data (buffer_ptr_ p)). rewrite Hd. change (rd (0 :: 0 :: 0 :: 1 :: hdr :: body ++ rest) 4) with (Done hdr). simpl_m.
  rewrite Hn. unfold handed_on. cbn [hd]. destruct (H264_IS_AUD hdr); cbn [negb]; [by exists []|].
  rewrite Hkey. cbn [andb]. exists [p']. split.
  - unfold add_media. cbn [fold_left]. do 2 f_equal. destruct s. cbn in *. by subst.
  - constructor; [|constructor]. destruct Hp as (h & b & E & H1 & H2 & H3 & H4 & H5 & H6 & H7 & H8 & H9). rewrite <- Hn. exists h, b. by split_and!.
Qed.

Lemma run_video now ns ts pks s : receiving s -> 0 <= ts < 2 ^ 32 -> Forall2 (fun n p => video_packet n ts p) ns pks ->
  exists ms, run_pack_events now (map PackMediaPacketOutput pks) s = Done (add_media ms s) /\
    Forall2 (fun n p => video_packet n (ts * 1000 / rate) p) (List.filter handed_on ns) ms.
Proof.
  intros Hs Hts Hall. revert s Hs. induction Hall as [|n p ns pks Hp _ IH]; intros s Hs; cbn [map run_pack_events List.filter]; [by exists []|].
  destruct (output_video n ts p s Hs Hts Hp) as (m1 & -> & H1). simpl_m.
  destruct (IH (add_media m1 s)) as (m2 & -> & H2); [by apply add_media_fields|]. exists (m1 ++ m2).
  split; [unfold add_media; by rewrite fold_left_app|]. destruct (handed_on n); [|by inversion H1].
  change (n :: List.filter handed_on ns) with ([n] ++ List.filter handed_on ns). by apply Forall2_app.
Qed.

(** [HandleRtpData] on a packet of the stream: the counts, then the packer. *)
Lemma receive_one behind e ts d now g j :
  next_is e j -> 0 <= e -> (exists b1, g = datagram b1 (u16 e) ts ssrc d) -> fits d -> 0 <= now < MAX_TIME -> exists i j',
    (forall s, jb_video_ s = j -> receiving s -> exists s1, jb_video_ s1 = j' /\ receiving s1 /\ pack_of s1 = pack_of s /\
      pc_media_ s1 = pc_media_ s /\ HandleRtpData now (g ++ behind) (zlen g) s = RtpPacketOutput now i s1) /\
    (e < 2 ^ 32 - 1 -> next_is (e + 1) j') /\ info_carries e (u32 ts) now d i /\ i_media_type_ i = MEDIA_VIDEO_TYPE.
Proof.
  intros Hj He (b1 & ->) Hd Hnow. unfold datagram.
  destruct (Parse_datagram b1 (Write2Bytes (u16 e)) (Write4Bytes ts) (Write4Bytes ssrc) eq_refl eq_refl eq_refl d Hd behind now) as (p & Hp & Hh).
  destruct (buffer_in_order b1 (Write2Bytes (u16 e)) (Write4Bytes ts) (Write4Bytes ssrc) eq_refl eq_refl eq_refl d Hd e now now rate p j Hj)
    as (i & j' & pre & Hin & Hlog & Hpre & Hnext & Hi & Hv); [|done|].
  { rewrite be_value_Write2Bytes. apply u16_small. pose proof (Z.mod_pos_bound e (2 ^ 16) eq_refl). unfold u16. lia. }
  assert (be_value (Write4Bytes ssrc) = ssrc) as Hss by (rewrite be_value_Write4Bytes; by apply Z.mod_small).
  exists i, j'. split; [|split; [done|split; [|done]]].
  - intros s <- [R1 R2 (st & R3 & C) R4]. unfold HandleRtpData. rewrite R1, Hp. cbn [negb]. simpl_m.
    destruct (GetSeq_holds b1 (Write2Bytes (u16 e)) (Write4Bytes ts) (Write4Bytes ssrc) eq_refl eq_refl eq_refl d _ _ _ Hh) as (_ & _ & ->). rewrite Hss. simpl_m.
    assert (mspull_ s && (ssrc =? 1234) = false) as ->.
    { destruct R2 as [-> |Hne]; [done|]. rewrite (proj2 (Z.eqb_neq _ _)) by done. by destruct (mspull_ s). }
    rewrite R3. assert (video_of ssrc st = true) as Hof.
    { unfold video_of. destruct C as [_ -> _ _ _]. by rewrite Z.eqb_refl. }
    destruct (HandleRtpPacket_counts rate ssrc b1 (Write2Bytes (u16 e)) (Write4Bytes ts) (Write4Bytes ssrc) d now p st) as (st' & Est & C'); try done; [lia| |].
    { rewrite Write2Bytes_be. apply be_bytes_ok. }
    set (s1 := set_jb_video j' (set_video_recv (Some st') s)).
    assert (receive_video now p st s = RtpPacketOutput now i s1) as Erv.
    { unfold receive_video. rewrite Est. simpl_m. cbn [negb]. unfold input_video. rewrite (co_rate _ _ _ C').
      change (jb_video_ (set_video_recv (Some st') s)) with (jb_video_ s). rewrite Hin. simpl_m. unfold jitter_events.
      rewrite Hlog, drop_app_length. destruct Hpre as [->|(i' & ->)]; cbn [app run_jitter_events]; fold s1; by destruct (RtpPacketOutput _ _ s1). }
    exists s1. split; [done|]. split; [split; [done|done|by exists st'|done]|]. split; [done|]. split; [done|].
    rewrite <- Erv, Hof. by destruct (audio_recv_stream_ s).
  - rewrite be_value_Write4Bytes in Hi. done.
Qed.

Lemma inputs_grows l h h' : inputs l h = Done h' -> grows h h'.
Proof.
  revert h. induction l as [|x l IH]; intros h; [by intros [= <-]|]. cbn [inputs]. intros (h1 & H1 & H)%bind_inv.
  etrans; [by eapply InputRtpPacket_grows|by apply IH].
Qed.

(** One step of the connection, where the packer's step puts out these packets. *)
Lemma output_step now i s h1 pks ns ts : i_media_type_ i = MEDIA_VIDEO_TYPE -> receiving s -> 0 <= ts < 2 ^ 32 ->
  PackH264.InputRtpPacket now i (pack_of s) = Done h1 -> p_log_ h1 = p_log_ (pack_of s) ++ map PackMediaPacketOutput pks ->
  Forall2 (fun n p => video_packet n ts p) ns pks ->
  exists ms, RtpPacketOutput now i s = Done (add_media ms (set_h264_pack (Some h1) s)) /\
    Forall2 (fun n p => video_packet n (ts * 1000 / rate) p) (List.filter handed_on ns) ms.
Proof.
  intros Hv Hs Hts Hin Hlog Hns. unfold RtpPacketOutput. rewrite Hv. fold (pack_of s). rewrite Hin. simpl_m. rewrite Hlog, drop_app_length.
  apply run_video; [by destruct Hs|done|done].
Qed.

(** A packet of the packer that carries this payload, and came at a time with [P]. *)
Definition carry (P : Z -> Prop) (ts : Z) (d : bytes) (a : Z * Info) : Prop := P a.1 /\ exists seq, info_carries seq ts a.1 d a.2.

Lemma receive_run (P : Z -> Prop) behind ts ps l e j :
  (forall n, P n -> 0 <= n < MAX_TIME) ->
  Forall (fun x => P x.1) l -> next_is e j -> 0 <= e -> e + zlen l < 2 ^ 32 - 1 -> 0 <= ts < 2 ^ 32 -> sent (u16 e) ts ssrc ps (map snd l) -> Forall fits ps ->
  exists infos j', numbered e infos /\ Forall2 (carry P ts) ps infos /\
    length infos = length l /\ next_is (e + zlen l) j' /\
    forall s h' pks ns, jb_video_ s = j -> receiving s -> inputs infos (pack_of s) = Done h' ->
      p_log_ h' = p_log_ (pack_of s) ++ map PackMediaPacketOutput pks -> Forall2 (fun n p => video_packet n ts p) ns pks ->
      exists s' ms, receive_all behind l s = Done s' /\ jb_video_ s' = j' /\ receiving s' /\ pack_of s' = h' /\
        pc_media_ s' = pc_media_ s ++ ms /\ Forall2 (fun n p => video_packet n (ts * 1000 / rate) p) (List.filter handed_on ns) ms.
Proof.
  intros Htime HP Hj He Hmax Hts. revert ps e j Hj He Hmax. induction HP as [|[now g] l Hnow HP IH]; intros [|d ps] e j Hj He Hmax; cbn [map snd sent]; [|done..|].
  { intros _ _. exists [], j. split; [done|]. split; [constructor|]. split; [done|]. change (zlen []) with 0. rewrite Z.add_0_r. split; [done|].
    intros s h' pks ns Hjs Hs [= <-] Hlog Hall. assert (pks = []) as -> by (destruct pks; [done|apply (f_equal length) in Hlog; rewrite length_app in Hlog; cbn in Hlog; lia]).
    inversion Hall; subst. exists s, []. rewrite app_nil_r. by split_and!. }
  intros [Hg Hsent] [Hd Hps]%Forall_cons. rewrite zlen_cons in Hmax. pose proof (zlen_nonneg l).
  destruct (receive_one behind e ts d now g j Hj He Hg Hd (Htime _ Hnow)) as (i & j1 & Hrun & Hnext & Hi & Hv).
  destruct (IH ps (e + 1) j1) as (infos & j' & Hnum & Hall & Hlen & Hj' & Hk); [apply Hnext; lia|lia|lia| |done|].
  { replace (u16 (e + 1)) with (u16 (u16 e + 1)) by (unfold u16; by rewrite Zplus_mod_idemp_l). exact Hsent. }
  unfold u32 in Hi. rewrite Z.mod_small in Hi by done.
  exists ((now, i) :: infos), j'. split; [split; [by apply Hi|done]|]. split; [constructor; [split; [done|by exists e]|done]|].
  split; [cbn; by f_equal|]. split; [rewrite zlen_cons; replace (e + (1 + zlen l)) with (e + 1 + zlen l) by lia; done|].
  intros s h' pks ns Hjs Hs Hin Hlog Hns. cbn [inputs fst snd] in Hin. apply bind_inv in Hin as (h1 & Hin1 & Hin).
  destruct (InputRtpPacket_grows _ _ _ _ Hin1) as [ev1 H1]. destruct (inputs_grows _ _ _ Hin) as [ev2 H2].
  rewrite H2, H1, <- app_assoc in Hlog. apply app_inv_head in Hlog. symmetry in Hlog. apply map_eq_app in Hlog as (pks1 & pks2 & -> & <- & <-).
  apply Forall2_app_inv_r in Hns as (ns1 & ns2 & Hns1 & Hns2 & ->).
  destruct (Hrun s Hjs Hs) as (s0 & Hj0 & Hs0 & Hp0 & Hm0 & Hdata). rewrite <- Hp0 in Hin1, H1.
  destruct (output_step now i s0 h1 pks1 ns1 ts Hv Hs0 Hts Hin1 H1 Hns1) as (m1 & Hout & Hm1).
  set (s1 := add_media m1 _) in Hout. destruct (add_media_fields m1 (set_h264_pack (Some h1) s0)) as (Hmed & Hjb & Hpk & Hrec). fold s1 in Hmed, Hjb, Hpk, Hrec.
  assert (pack_of s1 = h1) as Hp1 by (unfold pack_of; by rewrite Hpk).
  destruct (Hk s1 h' pks2 ns2) as (s' & m2 & Hall2 & Hjs' & Hs' & Hps' & Hmed' & Hm2);
    [by rewrite Hjb|apply Hrec; by destruct Hs0|by rewrite Hp1|by rewrite Hp1|done|].
  exists s', (m1 ++ m2). cbn [receive_all]. rewrite Hdata, Hout. simpl_m.
  split; [done|]. split; [done|]. split; [done|]. split; [done|].
  split; [rewrite Hmed', Hmed; cbn [pc_media_ set_h264_pack]; by rewrite Hm0, <- app_assoc|].
  rewrite List.filter_app. by apply Forall2_app.
Qed.

(** ** A NAL unit *)

Lemma inputs_app l1 l2 h : inputs (l1 ++ l2) h = inputs l1 h ≫= inputs l2.
Proof.
  revert h. induction l1 as [|x l1 IH]; intros h; [done|]. cbn [inputs app]. destruct (PackH264.InputRtpPacket x.1 x.2 h) as [h1|]; [|done]. apply IH.
Qed.

Lemma numbered_app e l1 l2 : numbered e (l1 ++ l2) -> numbered e l1 /\ numbered (e + zlen l1) l2.
Proof.
  revert e. induction l1 as [|x l1 IH]; intros e; cbn [numbered app]; [change (zlen []) with 0; by rewrite Z.add_0_r|].
  intros [Hx H]. destruct (IH _ H) as [H1 H2]. rewrite zlen_cons. by replace (e + (1 + zlen l1)) with (e + 1 + zlen l1) by lia.
Qed.

Lemma put_out_fields ps h : p_log_ (put_out ps h) = p_log_ h ++ map PackMediaPacketOutput ps /\ p_init_flag_ (put_out ps h) = p_init_flag_ h /\
  last_extend_seq_ (put_out ps h) = last_extend_seq_ h /\ end_flag_ (put_out ps h) = end_flag_ h.
Proof.
  unfold put_out. revert h. induction ps as [|p ps IH]; intros h; cbn [fold_left map]; [by rewrite app_nil_r|].
  destruct (IH (MediaPacketOutput p h)) as (-> & -> & -> & ->). cbn. by rewrite <- app_assoc.
Qed.

(** The packer puts out these units, and is ready for the next packet. *)
Definition puts_out (e ts : Z) (ns : list bytes) (infos : list (Z * Info)) (h : PackHandleH264) : Prop :=
  exists h' pks, inputs infos h = Done h' /\ p_log_ h' = p_log_ h ++ map PackMediaPacketOutput pks /\
    Forall2 (fun n p => video_packet n ts p) ns pks /\ expects (e + zlen infos) h' /\ end_flag_ h' = false.

Definition within (T now : Z) : Prop := T <= now < T + PACK_BUFFER_TIMEOUT.

(** A NAL unit that can be sent whole: of a plain type, and not of the length that
    makes a single fragment. *)
Definition plain (n : bytes) : Prop := 1 <= Z.land (hd 0 n) 0x1f <= 23 /\ zlen n <> kPayloadMaxSize + 1 /\ zlen n < 2 ^ 30.

Lemma packed_received e ts T hdr body ps infos h :
  is_byte hdr -> plain (hdr :: body) -> packed (hdr :: body) ps -> expects e h -> end_flag_ h = false -> numbered e infos ->
  Forall2 (carry (within T) ts) ps infos -> puts_out e ts [hdr :: body] infos h.
Proof.
  intros Hh (Htype & Hlen & Hmax) Hps He Hend Hnum Hall. unfold kPayloadMaxSize in Hlen. destruct Hps as [(_ & ->)|(Hbig & hdr' & body' & sizes & [= <- <-] & Hs & Hsum & ->)].
  - apply Forall2_cons_inv_l in Hall as ([now i] & l & (_ & seq & Hi) & Hl & ->). inversion Hl. subst l. destruct Hnum as [Hseq _]. cbn [fst snd] in *.
    assert (seq = e) as -> by (destruct Hi as [? _]; congruence).
    destruct (single_nalu e ts now hdr body now i h He Hi Htype) as (p & Hin & Hp); [lia|].
    eexists _, [p]. cbn [inputs fst snd]. rewrite Hin. simpl_m. split; [reflexivity|]. split; [done|]. split; [by repeat constructor|].
    split; [right; cbn; change (zlen [_]) with 1; done|done].
  - rewrite zlen_cons in *. unfold kPayloadMaxSize in Hbig. assert (2 <= length sizes)%nat as H2.
    { destruct sizes as [|s1 [|s2 sizes]]; cbn in *; [lia| |lia]. apply Forall_cons in Hs as [Hs1 _]. unfold kPayloadMaxSize in Hs1. lia. }
    destruct (fua_nalu hdr ts T body sizes Hh Hs Hsum ltac:(unfold max_queue; lia) infos h e H2 He Hend Hnum) as (p & Hin & Hp).
    { apply (proj1 (Forall2_fmap_l snd (carry (within T) ts) _ _)) in Hall. eapply Forall2_impl; [exact Hall|]. intros x a ((? & ?) & seq & Hi). split; [destruct Hi as (_ & _ & -> & _); done|].
      split; [done|]. by exists seq, a.1. }
    exists (finished p (e + zlen infos - 1) h), [p]. split; [done|]. split; [done|]. split; [by repeat constructor|]. split; [right; cbn; lia|done].
Qed.

(** What is put out of a unit, the parameter sets before it. *)
Definition heard (u : nal_unit) (q : bytes * bytes) : list bytes :=
  if is_sent u then (if with_params u q then [q.1; q.2] else []) ++ [nalu_of u] else [].

Definition sets_ok (q : bytes * bytes) : Prop := bytes_ok q.1 /\ bytes_ok q.2 /\ zlen q.1 < RtcSend.PARAM_SET_SIZE /\ zlen q.2 < RtcSend.PARAM_SET_SIZE.

Lemma params_received e ts T u q infos h : sets_ok q -> with_params u q = true ->
  expects e h -> end_flag_ h = false -> numbered e infos -> Forall2 (carry (within T) ts) [stap_payload (hd 0 q.1) [q.1; q.2]] infos ->
  puts_out e ts [q.1; q.2] infos h.
Proof.
  intros (Hb1 & Hb2 & Hl1 & Hl2) Hw He Hend Hnum Hall. unfold with_params in Hw. apply andb_prop in Hw as [[_ H1%Z.ltb_lt]%andb_prop H2%Z.ltb_lt].
  apply Forall2_cons_inv_l in Hall as ([now i] & l & (_ & seq & Hi) & Hl & ->). inversion Hl. subst l. destruct Hnum as [Hseq _]. cbn [fst snd] in *.
  assert (seq = e) as -> by (destruct Hi as [? _]; congruence).
  destruct (stap_nalus e ts now (hd 0 q.1) [q.1; q.2] now i h He Hi) as (pks & Hin & Hpks).
  - destruct q.1 as [|x q1]; [done|]. by apply Forall_cons in Hb1 as [? _].
  - done.
  - repeat constructor; lia.
  - unfold stap_payload. cbn [map concat]. rewrite !zlen_app, !zlen_stap_unit. change (zlen [_]) with 1. change (zlen []) with 0.
    unfold RtcSend.PARAM_SET_SIZE, RTP_PACKET_MAX_SIZE in *. lia.
  - destruct (put_out_fields pks (set_init e h)) as (F1 & F2 & F3 & F4). exists (put_out pks (set_init e h)), pks.
    cbn [inputs fst snd]. rewrite Hin. simpl_m. split; [done|]. split; [by rewrite F1|]. split; [done|].
    split; [right; rewrite F3; done|by rewrite F4].
Qed.

Lemma unit_received e ts T u q ps infos h :
  sets_ok q -> is_byte (u_hdr u) -> (is_sent u = true -> plain (nalu_of u)) -> unit_payloads u q ps -> expects e h -> end_flag_ h = false ->
  numbered e infos -> Forall2 (carry (within T) ts) ps infos -> puts_out e ts (heard u q) infos h.
Proof.
  intros Hq Hh Hplain Hps He Hend Hnum Hall. unfold unit_payloads, heard in *. destruct (is_sent u).
  - destruct Hps as (l & Hpk & ->). apply Forall2_app_inv_l in Hall as (i1 & i2 & Hall1 & Hall2 & ->). apply numbered_app in Hnum as [Hnum1 Hnum2].
    assert (puts_out e ts (if with_params u q then [q.1; q.2] else []) i1 h) as (h1 & pk1 & Hin1 & Hlog1 & Hv1 & He1 & Hend1).
    { destruct (with_params u q) eqn:E; [by eapply params_received|]. inversion Hall1. exists h, []. cbn [inputs map]. rewrite app_nil_r.
      change (zlen []) with 0. rewrite Z.add_0_r. by split_and!. }
    destruct (packed_received (e + zlen i1) ts T (u_hdr u) (u_body u) l i2 h1) as (h2 & pk2 & Hin2 & Hlog2 & Hv2 & He2 & Hend2); try done; [by apply Hplain|].
    exists h2, (pk1 ++ pk2). rewrite inputs_app, Hin1. cbn [mbind outcome_bind]. split; [done|].
    split; [by rewrite Hlog2, Hlog1, map_app, app_assoc|]. split; [by apply Forall2_app|]. split; [by rewrite zlen_app, Z.add_assoc|done].
  - subst ps. inversion Hall. exists h, []. cbn [inputs map]. rewrite app_nil_r. change (zlen []) with 0. rewrite Z.add_0_r. by split_and!.
Qed.

(** A connection between two NAL units: its next packet has the extended number [e]. *)
Record ready_for (e : Z) (s : PeerConnection) : Prop := {
  rf_jitter : next_is e (jb_video_ s);
  rf_receiving : receiving s;
  rf_expects : expects e (pack_of s);
  rf_end : end_flag_ (pack_of s) = false
}.

Lemma receive_unit behind e ts T u q ps l s :
  0 <= T -> T + PACK_BUFFER_TIMEOUT <= MAX_TIME -> ready_for e s -> sets_ok q -> is_byte (u_hdr u) -> (is_sent u = true -> plain (nalu_of u)) -> unit_payloads u q ps -> Forall fits ps ->
  0 <= e -> e + zlen l < 2 ^ 32 - 1 -> 0 <= ts < 2 ^ 32 -> sent (u16 e) ts ssrc ps (map snd l) -> Forall (fun x => within T x.1) l ->
  exists s' ms, receive_all behind l s = Done s' /\ ready_for (e + zlen l) s' /\ pc_media_ s' = pc_media_ s ++ ms /\
    Forall2 (fun n p => video_packet n (ts * 1000 / rate) p) (List.filter handed_on (heard u q)) ms.
Proof.
  intros HT0 HT1 [Hj Hr He Hend] Hq Hh Hplain Hps Hfit He0 Hmax Hts Hsent Htimes.
  destruct (receive_run (within T) behind ts ps l e (jb_video_ s) ltac:(unfold within; intros n Hn; lia) Htimes Hj He0 Hmax Hts Hsent Hfit) as (infos & j' & Hnum & Hall & Hlen & Hj' & Hk).
  destruct (unit_received e ts T u q ps infos (pack_of s) Hq Hh Hplain Hps He Hend Hnum Hall) as (h' & pks & Hin & Hlog & Hv & He' & Hend').
  destruct (Hk s h' pks (heard u q) eq_refl Hr Hin Hlog Hv) as (s' & ms & Hrun & Hjs & Hrs & Hp & Hm & Hms).
  exists s', ms. split; [done|]. split; [|done]. assert (zlen infos = zlen l) as Hz by (unfold zlen; by rewrite Hlen).
  split; [by rewrite Hjs|done|by rewrite Hp, <- Hz|by rewrite Hp].
Qed.
End receive.
