(* ===== verification/RtcLink.v ===== *)
(** * [RtcLink]: H.264 from one connection to another

    A connection that sends a video stream and one that receives it, with the network
    between them: the datagrams of each media packet arrive in order, each at its time,
    and are given to [HandleRtpData].  What the receiver hands on is compared with an
    abstract account of what was sent. *)
From S2P Require Import Prelude ByteStream DataBuffer Media H264 RtpPacket RtpPack PackH264 PackH264Roundtrip RtcTime RtcSend RtcDatagram RtcSending.
From S2P Require PeerConnection RtcReceiving RtcRecv.
Import RtcReceiving(handed_on, heard, sets_ok, plain, within, ready_for, receiving, receive_all, pack_of).
Import PeerConnection(PeerConnection, pc_media_, video_send_stream_).

Section link.
Context `{Alloc : Allocator} (rate ssrc : Z) (Hrate : 0 < rate < 2 ^ 20) (Hssrc : 0 <= ssrc < 2 ^ 32).

(** ** The two ends *)

Record link := mkLink { l_sender : PeerConnection; l_receiver : PeerConnection }.

(** The RTP datagrams a connection has sent of its video stream. *)
Definition sent_rtp (s : PeerConnection) : list bytes :=
  match video_send_stream_ s with Some st => rtp_of (ss_log_ st) | None => [] end.

(** A media packet, when it is sent, when each of its datagrams arrives, and what lies
    behind them where they are received. *)
Record transfer := mkTransfer { x_now : Z; x_packet : Media_Packet; x_arrival : nat -> Z; x_behind : bytes }.

Definition run_transfer (x : transfer) (l : link) : outcome link :=
  '(_, _, s) ← PeerConnection.SendVideoPacket (x_now x) (x_packet x) (l_sender l);
  let ds := drop (length (sent_rtp (l_sender l))) (sent_rtp s) in
  r ← receive_all (x_behind x) (imap (fun i d => (x_arrival x i, d)) ds) (l_receiver l);
  mret (mkLink s r).

Fixpoint run_transfers (xs : list transfer) (l : link) : outcome link :=
  match xs with [] => mret l | x :: xs => l ← run_transfer x l; run_transfers xs l end.

(** ** The abstract account *)

(** A time in milliseconds, after it has been an RTP timestamp. *)
Definition rtp_dts (t : Z) : Z := u32 (t * rate / 1000) * 1000 / rate.

(** The units that are handed on, each with its time; [q] are the parameter sets the
    sender keeps. *)
Fixpoint heard_all (us : list nal_unit) (q : bytes * bytes) : list (bytes * Z) :=
  match us with
  | [] => []
  | u :: us => map (fun n => (n, rtp_dts (u_dts u))) (List.filter handed_on (heard u q)) ++ heard_all us (next_params u q)
  end.

(** A transfer of a NAL unit: its datagrams arrive within the time a fragment is kept. *)
Definition transfers (u : nal_unit) (x : transfer) : Prop :=
  unit_ok u /\ unit_packet u (x_packet x) /\ av_type_ (x_packet x) = MEDIA_VIDEO_TYPE /\ codec_type_ (x_packet x) = MEDIA_CODEC_H264 /\
  (is_sent u = true -> plain (nalu_of u)) /\ 0 <= x_now x < MAX_TIME /\
  exists T, 0 <= T /\ T + PACK_BUFFER_TIMEOUT <= MAX_TIME /\ forall i, within T (x_arrival x i).

(** More packets than the units can need. *)
Definition packets_bound (us : list nal_unit) : Z := fold_right (fun u n => zlen (nalu_of u) + 1 + n) 0 us.

(** ** Payloads *)

Lemma fragments_count hdr body sizes first : length (fragments hdr body sizes first) = length sizes.
Proof. revert body first. induction sizes as [|z zs IH]; intros b f; [done|]. cbn. f_equal. apply IH. Qed.

Lemma sizes_sum sizes : Forall (fun s => 1 <= s <= kPayloadMaxSize) sizes -> Z.of_nat (length sizes) <= zsum sizes.
Proof. induction 1; cbn [length zsum]; lia. Qed.

Lemma packed_fits n ps : 1 <= zlen n -> packed n ps -> Forall fits ps /\ zlen ps <= zlen n.
Proof.
  intros Hn [(Hs & ->)|(_ & hdr & body & sizes & -> & Hs & Hsum & ->)].
  - split; [|done]. constructor; [|constructor]. unfold fits, kPayloadMaxSize, RTP_PACKET_MAX_SIZE, RTP_HEADER_SIZE in *. lia.
  - split; [apply Forall_map, fragments_fit; [done|lia]|]. unfold zlen at 1. rewrite length_map, fragments_count. pose proof (sizes_sum sizes Hs).
    rewrite zlen_cons. lia.
Qed.

Lemma payloads_fit u q ps : sets_ok q -> unit_payloads u q ps -> Forall fits ps /\ zlen ps <= zlen (nalu_of u) + 1.
Proof.
  intros (_ & _ & Hl1 & Hl2) Hps. unfold unit_payloads in Hps. pose proof (zlen_nonneg (u_body u)).
  assert (zlen (nalu_of u) = 1 + zlen (u_body u)) as Hn by apply zlen_cons. destruct (is_sent u); [|subst ps; split; [constructor|change (zlen []) with 0; lia]].
  destruct Hps as (l & Hpk & ->). destruct (packed_fits (nalu_of u) l ltac:(lia) Hpk) as [Hf Hl]. rewrite zlen_app. destruct (with_params u q).
  - split; [|change (zlen [_]) with 1; lia]. apply Forall_app. split; [|done]. apply Forall_singleton. unfold fits, stap_payload. cbn [map concat].
    rewrite !zlen_app, !zlen_stap_unit. change (zlen [_]) with 1. change (zlen []) with 0. pose proof (zlen_nonneg q.1). pose proof (zlen_nonneg q.2).
    unfold PARAM_SET_SIZE, RTP_PACKET_MAX_SIZE, RTP_HEADER_SIZE in *. lia.
  - split; [done|]. change (zlen []) with 0. lia.
Qed.

Lemma next_params_ok u q : unit_ok u -> sets_ok q -> sets_ok (next_params u q).
Proof.
  intros (Hh & Hb & _) Hq. unfold next_params, keep_set. destruct (_ && _); [|done]. destruct (Z.leb_spec PARAM_SET_SIZE (zlen (nalu_of u))); [done|].
  unfold nalu_of in *. destruct Hq as (H1 & H2 & H3 & H4). assert (bytes_ok (u_hdr u :: u_body u)) as Hn by by constructor.
  destruct (H264_IS_SPS _), (H264_IS_PPS _); by split_and!.
Qed.

(** ** One transfer, and all of them *)

(** A connection whose video stream has this SSRC, keeps these parameter sets, and
    gives the next packet the number [e]. *)
Definition sends_as (q : bytes * bytes) (e : Z) (s : PeerConnection) : Prop :=
  exists st, video_send_stream_ s = Some st /\ stream_ok st /\ ss_clock_rate_ (ids st) = rate /\ ss_ssrc_ (ids st) = ssrc /\
    params_are q.1 q.2 (params st) /\ seq_ st = u16 e.

Lemma run_transfer_spec u x e q s r :
  transfers u x -> sends_as q e s -> sets_ok q -> ready_for rate ssrc e r -> 0 <= e -> e + (zlen (nalu_of u) + 1) < 2 ^ 32 - 1 ->
  exists s' r' ms n, run_transfer x (mkLink s r) = Done (mkLink s' r') /\ 0 <= n <= zlen (nalu_of u) + 1 /\
    sends_as (next_params u q) (e + n) s' /\ ready_for rate ssrc (e + n) r' /\ pc_media_ r' = pc_media_ r ++ ms /\
    Forall2 (fun y p => video_packet y.1 y.2 p) (map (fun n => (n, rtp_dts (u_dts u))) (List.filter handed_on (heard u q))) ms.
Proof.
  intros (Hu & Hp & Hav & Hcodec & Hplain & Hnow & T & HT0 & HT1 & HT) (st & Hst & Hok & Hr & Hsc & Hpar & Hseq) Hq Hrf He Hmax. pose proof Hu as (Hh & _).
  destruct (SendH264Packet_spec u q (x_now x) (x_packet x) st Hu Hp Hpar Hok Hnow) as (p' & st' & ps & ds & Hsend & Hps & Hlog & Hsent & Hseq' & Hids & Hok' & Hpar').
  destruct (payloads_fit u q ps Hq Hps) as [Hfit Hlen]. unfold run_transfer, PeerConnection.SendVideoPacket, SendPacket, SendVideoPacket, sent_rtp. cbn [l_sender l_receiver].
  rewrite Hst, Hav, Hcodec, Hsend. rewrite bool_decide_eq_true_2 by done. simpl_m. cbn [video_send_stream_ PeerConnection.set_video_send]. rewrite Hlog, drop_app_length. set (l := imap _ ds). assert (map snd l = ds) as Hsnd.
  { unfold l. change (map snd ?x) with (snd <$> x). rewrite fmap_imap. clear. induction ds as [|d ds IH] using rev_ind; [done|].
    rewrite imap_app. cbn. f_equal. exact IH. }
  assert (zlen l = zlen ps) as Hzl by (unfold zlen; rewrite <- (length_map snd l), Hsnd; f_equal; by eapply sent_length). rewrite Hsc in Hsent.
  destruct (RtcReceiving.receive_unit rate ssrc Hrate Hssrc (x_behind x) e (u32 (unit_ts u st)) T u q ps l r) as (r' & ms & Hrun & Hrf' & Hmed & Hms);
    [done..|rewrite Hzl; lia|by apply Z.mod_pos_bound|by rewrite Hsnd, <- Hseq| |].
  - unfold l. apply Forall_forall. intros y (i & d & -> & _)%elem_of_lookup_imap. apply HT.
  - rewrite Hrun. simpl_m. eexists _, r', ms, (zlen ps). split; [done|]. pose proof (zlen_nonneg ps). split; [lia|]. rewrite Hzl in Hrf'.
    split; [|split; [done|split; [done|]]].
    + exists st'. split; [done|]. rewrite Hids. split_and!; [done..|]. rewrite Hseq', Hseq. unfold u16. by rewrite Zplus_mod_idemp_l.
    + apply Forall2_fmap_l. unfold rtp_dts. unfold unit_ts in Hms. rewrite Hr in Hms. exact Hms.
Qed.

Lemma run_transfers_spec us xs e q s r :
  Forall2 transfers us xs -> sends_as q e s -> sets_ok q -> ready_for rate ssrc e r -> 0 <= e -> e + packets_bound us < 2 ^ 32 - 1 ->
  exists s' r' ms, run_transfers xs (mkLink s r) = Done (mkLink s' r') /\ pc_media_ r' = pc_media_ r ++ ms /\
    Forall2 (fun y p => video_packet y.1 y.2 p) (heard_all us q) ms.
Proof.
  intros Hall. revert e q s r. induction Hall as [|u x us xs Hx _ IH]; intros e q s r Hs Hq Hrf He Hmax; cbn [run_transfers heard_all].
  { exists s, r, []. by rewrite app_nil_r. }
  cbn [packets_bound fold_right] in Hmax. fold (packets_bound us) in Hmax.
  assert (0 <= packets_bound us) as Hb.
  { clear. unfold packets_bound. induction us as [|u us IH]; cbn [fold_right]; [lia|]. pose proof (zlen_nonneg (nalu_of u)). lia. }
  destruct (run_transfer_spec u x e q s r Hx Hs Hq Hrf He) as (s1 & r1 & m1 & n & -> & Hn & Hs1 & Hrf1 & Hm1 & Hf1); [lia|].
  simpl_m. destruct (IH (e + n) (next_params u q) s1 r1) as (s2 & r2 & m2 & -> & Hm2 & Hf2); try done; [apply next_params_ok; [by destruct Hx|done]|lia|lia|].
  exists s2, r2, (m1 ++ m2). split; [done|]. split; [by rewrite Hm2, Hm1, app_assoc|]. by apply Forall2_app.
Qed.
End link.

(** ** From the constructors on *)

(** What both sides have agreed on of a video stream; the retransmissions have a
    payload type and an SSRC of their own. *)
Record agreed := mkAgreed { a_ssrc : Z; a_payload : Z; a_rate : Z; a_nack : bool; a_rtx : option (Z * Z) }.

(** The SSRC is an unsigned 32-bit number, and not that of the retransmissions (which
    is zero where there are none). *)
Definition agreed_ok (a : agreed) : Prop :=
  0 < a_rate a < 2 ^ 20 /\ 0 <= a_ssrc a < 2 ^ 32 /\ match a_rtx a with Some x => x.2 | None => 0 end <> a_ssrc a.

(** A connection that sends the stream, and one that receives it, next to any audio
    stream; the DTLS of the receiver is done. *)
Definition new_sender `{Alloc : Allocator} (a : agreed) : PeerConnection :=
  PeerConnection.set_video_send (Some (RtcSendStream_new MEDIA_VIDEO_TYPE (a_ssrc a) (a_payload a) (a_rate a) (a_nack a) (a_rtx a))) PeerConnection.PeerConnection_new.
Definition new_receiver `{Alloc : Allocator} (a : agreed) (audio : option RtcRecv.RtcRecvStream) : PeerConnection :=
  PeerConnection.set_pc_state PeerConnection.PC_DTLS_DONE_STATE
    (PeerConnection.set_video_recv (Some (RtcRecv.RtcRecvStream_new MEDIA_VIDEO_TYPE (a_ssrc a) (a_payload a) (a_rate a) (a_nack a) (a_rtx a)))
      (PeerConnection.set_audio_recv audio PeerConnection.PeerConnection_new)).

Lemma new_sender_sends `{Alloc : Allocator} a : agreed_ok a -> sends_as (a_rate a) (a_ssrc a) ([], []) 0 (new_sender a).
Proof.
  intros (Hr & _). eexists. split; [done|]. split; [split; [done|]; split; [exact Hr|by vm_compute]|]. split; [done|]. split; [done|].
  split; [split; apply kept_new|done].
Qed.

Lemma new_receiver_ready `{Alloc : Allocator} a audio : agreed_ok a -> ready_for (a_rate a) (a_ssrc a) 0 (new_receiver a audio).
Proof.
  intros (_ & _ & Hx). split; [|split; [done|by left| |done]|by left|done]; [split; [done|]; split; [done|]; by left|].
  eexists. split; [done|]. split; [done|done|revert Hx; cbn; by destruct (a_rtx a)| |].
  - split; cbn; lia.
  - constructor; [constructor|constructor|done].
Qed.

(** C1. H.264 from end to end: whatever NAL units a connection is given to send, SEI
    units, parameter sets and key frames among them, a connection that has agreed on
    the same stream and whose DTLS is done gives the datagrams, as they arrive in
    order, to its stream, its jitter buffer and its packer, and hands on exactly the
    units of the abstract account, in order and with their times: parameter sets before
    each key frame, no SEI unit and no delimiter.  The datagrams of a unit arrive
    within the time a fragment is kept; a unit is of a plain type, and not of the
    length that makes a single fragment ([plain]); no more packets are sent than can be
    numbered with 32 bits; the datagrams are decrypted, and no timer runs in between. *)
Theorem h264_over_rtp `{Alloc : Allocator} a audio us xs :
  agreed_ok a -> Forall2 transfers us xs -> packets_bound us < 2 ^ 32 - 1 ->
  exists l, run_transfers xs (mkLink (new_sender a) (new_receiver a audio)) = Done l /\
    Forall2 (fun y p => video_packet y.1 y.2 p) (heard_all (a_rate a) us ([], [])) (pc_media_ (l_receiver l)).
Proof.
  intros Ha Hall Hmax. pose proof Ha as (Hr & Hs & _).
  destruct (run_transfers_spec (a_rate a) (a_ssrc a) Hr Hs us xs 0 ([], []) _ (new_receiver a audio) Hall (new_sender_sends a Ha)) as (s' & r' & ms & Hrun & Hm & Hms);
    [by split_and!; [constructor|constructor|..]|by apply new_receiver_ready|done|done|].
  eexists. split; [exact Hrun|]. cbn [l_receiver]. by rewrite Hm.
Qed.

(** Parameter sets, a key frame, and the packets that bring them. *)
Definition demo_units : list nal_unit :=
  [mkNalUnit 0x67 [0x42; 0xc0] 0 false true; mkNalUnit 0x68 [0xce] 0 false true; mkNalUnit 0x65 [1; 2] 40 true false].
Definition demo_media (u : nal_unit) : Media_Packet :=
  let d := [0; 0; 0; 1] ++ nalu_of u in
  mkPacket MEDIA_VIDEO_TYPE MEDIA_CODEC_H264 MEDIA_FORMAT_RAW (u_dts u) (u_dts u) (u_key u) (u_seq_hdr u) false
    (mkDataBuffer false [] 0 (replicate (Z.to_nat 200) 0 ++ d) 200 (zlen d) 200 (200 + zlen d)) None [] 0 0 0 0 [] [] [] [] 0 0.
Definition demo_transfer (u : nal_unit) : transfer := mkTransfer 1000 (demo_media u) (fun _ => 1010) [].
Definition demo_agreed : agreed := mkAgreed 0xfedcba98 96 90000 true (Some (97, 8)).

Lemma h264_over_rtp_witness :
  heard_all 90000 demo_units ([], []) = [([0x67; 0x42; 0xc0], 40); ([0x68; 0xce], 40); ([0x65; 1; 2], 40)] /\
  exists l, run_transfers (Alloc := zero_alloc) (map demo_transfer demo_units)
      (mkLink (new_sender (Alloc := zero_alloc) demo_agreed) (new_receiver (Alloc := zero_alloc) demo_agreed None)) = Done l /\
    Forall2 (fun y p => video_packet y.1 y.2 p) (heard_all 90000 demo_units ([], [])) (pc_media_ (l_receiver l)).
Proof.
  split; [by vm_compute|]. apply (h264_over_rtp (Alloc := zero_alloc) demo_agreed None demo_units (map demo_transfer demo_units)).
  - split; [split; by vm_compute|]. split; [split; [intros H; by vm_compute in H|by vm_compute]|]. intros H. by vm_compute in H.
  - assert (forall u, unit_ok u -> (is_sent u = true -> plain (nalu_of u)) -> wf (buffer_ptr_ (demo_media u)) ->
      contents (buffer_ptr_ (demo_media u)) = [0; 0; 0; 1] ++ nalu_of u -> transfers u (demo_transfer u)) as H.
    { intros u Hu Hp Hwf Hc. split; [exact Hu|]. split; [|split; [reflexivity|split; [reflexivity|split; [exact Hp|split; [by vm_compute|]]]]].
      - split; [exact Hwf|]. split; [done|]. split; [done|]. split; [done|]. exists [0; 0; 0; 1]. split; [by left|exact Hc].
      - exists 1000. split; [by vm_compute|]. split; [by vm_compute|]. intros i. by vm_compute. }
    constructor; [|constructor; [|constructor; [|constructor]]]; apply H.
    1, 5, 9: split; [split; by vm_compute|].
    1-3: split; [repeat (apply Forall_cons; split; [split; by vm_compute|]); constructor|].
    1-3: split; [by vm_compute|split; by vm_compute].
    1, 4, 7: intros _; by vm_compute.
    1, 3, 5: split; by vm_compute.
    1-3: vm_compute; reflexivity.
  - by vm_compute.
Defined.
