(* ===== verification/ByteCrypto.v ===== *)
(** * [ByteCrypto]: the CRC-32 and the HMAC-SHA1 of the STUN messages

    Models [crc32_table], [GetCrc32] and [GetHmacSha1] of
    [src/utils/byte_crypto.cpp].  The CRC is that of Ethernet and of RFC 5389:
    [crc32_ieee] is its definition, bit by bit with the least significant bit
    first.  OpenSSL's HMAC is a class of operations, with its documented
    behaviour in a class of laws. *)
From S2P Require Import Prelude ByteStream.

(** ** CRC-32 *)

Definition crc32_table : list Z :=
  [0x00000000; 0x77073096; 0xee0e612c; 0x990951ba; 0x076dc419; 0x706af48f;
   0xe963a535; 0x9e6495a3; 0x0edb8832; 0x79dcb8a4; 0xe0d5e91e; 0x97d2d988;
   0x09b64c2b; 0x7eb17cbd; 0xe7b82d07; 0x90bf1d91; 0x1db71064; 0x6ab020f2;
   0xf3b97148; 0x84be41de; 0x1adad47d; 0x6ddde4eb; 0xf4d4b551; 0x83d385c7;
   0x136c9856; 0x646ba8c0; 0xfd62f97a; 0x8a65c9ec; 0x14015c4f; 0x63066cd9;
   0xfa0f3d63; 0x8d080df5; 0x3b6e20c8; 0x4c69105e; 0xd56041e4; 0xa2677172;
   0x3c03e4d1; 0x4b04d447; 0xd20d85fd; 0xa50ab56b; 0x35b5a8fa; 0x42b2986c;
   0xdbbbc9d6; 0xacbcf940; 0x32d86ce3; 0x45df5c75; 0xdcd60dcf; 0xabd13d59;
   0x26d930ac; 0x51de003a; 0xc8d75180; 0xbfd06116; 0x21b4f4b5; 0x56b3c423;
   0xcfba9599; 0xb8bda50f; 0x2802b89e; 0x5f058808; 0xc60cd9b2; 0xb10be924;
   0x2f6f7c87; 0x58684c11; 0xc1611dab; 0xb6662d3d; 0x76dc4190; 0x01db7106;
   0x98d220bc; 0xefd5102a; 0x71b18589; 0x06b6b51f; 0x9fbfe4a5; 0xe8b8d433;
   0x7807c9a2; 0x0f00f934; 0x9609a88e; 0xe10e9818; 0x7f6a0dbb; 0x086d3d2d;
   0x91646c97; 0xe6635c01; 0x6b6b51f4; 0x1c6c6162; 0x856530d8; 0xf262004e;
   0x6c0695ed; 0x1b01a57b; 0x8208f4c1; 0xf50fc457; 0x65b0d9c6; 0x12b7e950;
   0x8bbeb8ea; 0xfcb9887c; 0x62dd1ddf; 0x15da2d49; 0x8cd37cf3; 0xfbd44c65;
   0x4db26158; 0x3ab551ce; 0xa3bc0074; 0xd4bb30e2; 0x4adfa541; 0x3dd895d7;
   0xa4d1c46d; 0xd3d6f4fb; 0x4369e96a; 0x346ed9fc; 0xad678846; 0xda60b8d0;
   0x44042d73; 0x33031de5; 0xaa0a4c5f; 0xdd0d7cc9; 0x5005713c; 0x270241aa;
   0xbe0b1010; 0xc90c2086; 0x5768b525; 0x206f85b3; 0xb966d409; 0xce61e49f;
   0x5edef90e; 0x29d9c998; 0xb0d09822; 0xc7d7a8b4; 0x59b33d17; 0x2eb40d81;
   0xb7bd5c3b; 0xc0ba6cad; 0xedb88320; 0x9abfb3b6; 0x03b6e20c; 0x74b1d29a;
   0xead54739; 0x9dd277af; 0x04db2615; 0x73dc1683; 0xe3630b12; 0x94643b84;
   0x0d6d6a3e; 0x7a6a5aa8; 0xe40ecf0b; 0x9309ff9d; 0x0a00ae27; 0x7d079eb1;
   0xf00f9344; 0x8708a3d2; 0x1e01f268; 0x6906c2fe; 0xf762575d; 0x806567cb;
   0x196c3671; 0x6e6b06e7; 0xfed41b76; 0x89d32be0; 0x10da7a5a; 0x67dd4acc;
   0xf9b9df6f; 0x8ebeeff9; 0x17b7be43; 0x60b08ed5; 0xd6d6a3e8; 0xa1d1937e;
   0x38d8c2c4; 0x4fdff252; 0xd1bb67f1; 0xa6bc5767; 0x3fb506dd; 0x48b2364b;
   0xd80d2bda; 0xaf0a1b4c; 0x36034af6; 0x41047a60; 0xdf60efc3; 0xa867df55;
   0x316e8eef; 0x4669be79; 0xcb61b38c; 0xbc66831a; 0x256fd2a0; 0x5268e236;
   0xcc0c7795; 0xbb0b4703; 0x220216b9; 0x5505262f; 0xc5ba3bbe; 0xb2bd0b28;
   0x2bb45a92; 0x5cb36a04; 0xc2d7ffa7; 0xb5d0cf31; 0x2cd99e8b; 0x5bdeae1d;
   0x9b64c2b0; 0xec63f226; 0x756aa39c; 0x026d930a; 0x9c0906a9; 0xeb0e363f;
   0x72076785; 0x05005713; 0x95bf4a82; 0xe2b87a14; 0x7bb12bae; 0x0cb61b38;
   0x92d28e9b; 0xe5d5be0d; 0x7cdcefb7; 0x0bdbdf21; 0x86d3d2d4; 0xf1d4e242;
   0x68ddb3f8; 0x1fda836e; 0x81be16cd; 0xf6b9265b; 0x6fb077e1; 0x18b74777;
   0x88085ae6; 0xff0f6a70; 0x66063bca; 0x11010b5c; 0x8f659eff; 0xf862ae69;
   0x616bffd3; 0x166ccf45; 0xa00ae278; 0xd70dd2ee; 0x4e048354; 0x3903b3c2;
   0xa7672661; 0xd06016f7; 0x4969474d; 0x3e6e77db; 0xaed16a4a; 0xd9d65adc;
   0x40df0b66; 0x37d83bf0; 0xa9bcae53; 0xdebb9ec5; 0x47b2cf7f; 0x30b5ffe9;
   0xbdbdf21c; 0xcabac28a; 0x53b39330; 0x24b4a3a6; 0xbad03605; 0xcdd70693;
   0x54de5729; 0x23d967bf; 0xb3667a2e; 0xc4614ab8; 0x5d681b02; 0x2a6f2b94;
   0xb40bbe37; 0xc30c8ea1; 0x5a05df1b; 0x2d02ef8d].

(** The loop of [GetCrc32], with [size] left to read from the pointer on. *)
Fixpoint crc32_loop (crc : Z) (p : bytes) (size : nat) : outcome Z :=
  match size with
  | O => mret crc
  | S size =>
      b ← p.[0];
      t ← crc32_table.[Z.land (Z.lxor crc b) 0xFF];
      crc32_loop (Z.lxor t (Z.shiftr crc 8)) (drop 1 p) size
  end.

Definition GetCrc32 (data : bytes) (size : Z) : outcome Z :=
  crc ← crc32_loop 0xFFFFFFFF data (Z.to_nat size);
  mret (Z.lxor crc 0xFFFFFFFF).

(** ** HMAC-SHA1 *)

(** The calls of OpenSSL on a context; [HMAC_Final] gives the digest it stores. *)
Class HmacSha1 := {
  HMAC_CTX : Type;
  HMAC_Init_ex : HMAC_CTX -> bytes -> Z * HMAC_CTX;
  HMAC_Update : HMAC_CTX -> bytes -> Z * HMAC_CTX;
  HMAC_Final : HMAC_CTX -> Z * bytes * HMAC_CTX
}.

(** [None] is an exception.  The digest goes to a buffer of 20 bytes. *)
Definition GetHmacSha1 `{HmacSha1} (ctx : HMAC_CTX) (key data : bytes) (len : Z) : outcome (option bytes * HMAC_CTX) :=
  let '(ret, ctx) := HMAC_Init_ex ctx key in
  if negb (ret =? 1) then mret (None, ctx)
  else
    d ← read_range data 0 len;
    let '(ret, ctx) := HMAC_Update ctx d in
    if negb (ret =? 1) then mret (None, ctx)
    else
      let '(ret, digest, ctx) := HMAC_Final ctx in
      if 20 <? zlen digest then Fault OutOfBounds
      else if negb (ret =? 1) then mret (None, ctx)
      else if negb (zlen digest =? 20) then mret (None, ctx)
      else mret (Some digest, ctx).

(** What OpenSSL documents: the calls succeed, and the digest is a function of the key and the
    message, whatever the context was used for before. *)
Class HmacLaws `(HmacSha1) := {
  hmac : bytes -> bytes -> bytes;
  hmac_bytes key d : bytes_ok (hmac key d);
  hmac_length key d : zlen (hmac key d) = 20;
  hmac_run ctx key d :
    let '(r1, ctx1) := HMAC_Init_ex ctx key in
    let '(r2, ctx2) := HMAC_Update ctx1 d in
    let '(r3, digest, _) := HMAC_Final ctx2 in
    r1 = 1 /\ r2 = 1 /\ r3 = 1 /\ digest = hmac key d
}.

Lemma GetHmacSha1_spec `{HmacLaws} ctx key d rest :
  exists ctx', GetHmacSha1 ctx key (d ++ rest) (zlen d) = Done (Some (hmac key d), ctx').
Proof.
  unfold GetHmacSha1. pose proof (hmac_run ctx key d) as R. pose proof (hmac_length key d) as L.
  destruct (HMAC_Init_ex ctx key) as [r1 c1]. rewrite (read_range_mid [] d rest : read_range (d ++ rest) 0 _ = _). simpl_m.
  destruct (HMAC_Update c1 d) as [r2 c2] eqn:E2. destruct (HMAC_Final c2) as [[r3 dg] c3]. destruct R as (-> & -> & -> & ->).
  cbn [negb Z.eqb Pos.eqb]. rewrite L. cbn. by eexists.
Qed.

(** ** The CRC-32 of IEEE 802.3 *)

Definition crc_bit (c : Z) : Z := Z.lxor (Z.shiftr c 1) (if Z.testbit c 0 then 0xEDB88320 else 0).
Definition crc_bits (c : Z) : Z := Nat.iter 8 crc_bit c.
Definition crc_byte (c b : Z) : Z := crc_bits (Z.lxor c b).
Definition crc_from (c : Z) (l : bytes) : Z := fold_left crc_byte l c.
Definition crc32_ieee (l : bytes) : Z := Z.lxor (crc_from 0xFFFFFFFF l) 0xFFFFFFFF.

Lemma bit_lxor x y : crc_bit (Z.lxor x y) = Z.lxor (crc_bit x) (crc_bit y).
Proof.
  unfold crc_bit. rewrite Z.shiftr_lxor, Z.lxor_spec. set (a := Z.shiftr x 1). set (b := Z.shiftr y 1).
  destruct (Z.testbit x 0), (Z.testbit y 0); cbn [xorb]; rewrite ?Z.lxor_0_r; xor_bits.
Qed.

Lemma bits_lxor_n n x y : Nat.iter n crc_bit (Z.lxor x y) = Z.lxor (Nat.iter n crc_bit x) (Nat.iter n crc_bit y).
Proof. induction n as [|n IH]; [done|]. by rewrite !Nat.iter_succ, IH, bit_lxor. Qed.

Lemma bits_lxor x y : crc_bits (Z.lxor x y) = Z.lxor (crc_bits x) (crc_bits y).
Proof. apply bits_lxor_n. Qed.

(** A register whose low bits are zero is only shifted. *)
Lemma bits_shift n x : 0 <= x -> Nat.iter n crc_bit (x * 2 ^ Z.of_nat n) = x.
Proof.
  intros Hx. induction n as [|n IH] in x, Hx |- *; [cbn; lia|].
  rewrite Nat.iter_succ_r. rewrite <- (IH x Hx) at 2. f_equal. unfold crc_bit.
  rewrite Nat2Z.inj_succ, Z.pow_succ_r by lia. replace (x * (2 * _)) with (2 * (x * 2 ^ Z.of_nat n)) by lia.
  rewrite Z.testbit_even_0, Z.lxor_0_r, Z.shiftr_div_pow2, Z.mul_comm by done. by apply Z.div_mul.
Qed.

Lemma crc_bit_range32 c : 0 <= c < 2 ^ 32 -> 0 <= crc_bit c < 2 ^ 32.
Proof.
  intros Hc. unfold crc_bit. rewrite Z.shiftr_div_pow2 by done.
  assert (0 <= c / 2 ^ 1 < 2 ^ 32) as Hd by div_lia.
  destruct (Z.testbit c 0); [|by rewrite Z.lxor_0_r].
  rewrite <- (Z.mod_small (c / 2 ^ 1) (2 ^ 32)) by done. change 0xEDB88320 with (0xEDB88320 mod 2 ^ 32).
  rewrite <- !Z.land_ones, <- land_lxor, Z.land_ones by lia. apply Z.mod_pos_bound. lia.
Qed.

Lemma crc_bits_range c : 0 <= c < 2 ^ 32 -> 0 <= crc_bits c < 2 ^ 32.
Proof. unfold crc_bits. generalize 8%nat as n. intros n Hc. induction n as [|n IH]; [done|]. rewrite Nat.iter_succ. by apply crc_bit_range32. Qed.

Lemma lxor_range32 a b : 0 <= a < 2 ^ 32 -> 0 <= b < 2 ^ 32 -> 0 <= Z.lxor a b < 2 ^ 32.
Proof.
  intros Ha Hb. rewrite <- (Z.mod_small a (2 ^ 32)), <- (Z.mod_small b (2 ^ 32)) by lia.
  rewrite <- !Z.land_ones, <- land_lxor, Z.land_ones by lia. apply Z.mod_pos_bound. lia.
Qed.

Lemma crc_byte_range32 c b : 0 <= c < 2 ^ 32 -> is_byte b -> 0 <= crc_byte c b < 2 ^ 32.
Proof. unfold is_byte. intros. apply crc_bits_range, lxor_range32; lia. Qed.

(** The low byte of the register and the other three. *)
Lemma low_split c : 0 <= c -> c = Z.lxor (Z.land c 0xFF) (Z.shiftr c 8 * 2 ^ Z.of_nat 8).
Proof.
  intros Hc. rewrite <- Z.shiftl_mul_pow2 by done. apply Z.bits_inj'. intros n Hn.
  rewrite Z.lxor_spec, Z.land_spec. change 0xFF with (Z.ones 8). change (Z.of_nat 8) with 8.
  destruct (Z.ltb_spec n 8).
  - rewrite Z.ones_spec_low, Z.shiftl_spec_low by lia. by rewrite andb_true_r, xorb_false_r.
  - rewrite Z.ones_spec_high, Z.shiftl_spec, Z.shiftr_spec by lia. rewrite andb_false_r, xorb_false_l. f_equal. lia.
Qed.

Lemma crc32_entry b : is_byte b -> crc32_table.[b] = Done (crc_bits b).
Proof.
  intros Hb. set (P b := bool_decide (crc32_table.[b] = Done (crc_bits b))).
  enough (P b = true) as E by by apply bool_decide_eq_true_1 in E.
  apply byte_all; [by vm_compute|done].
Qed.

(** One turn of the loop. *)
Lemma crc32_step c b : 0 <= c < 2 ^ 32 -> is_byte b ->
  exists t, crc32_table.[Z.land (Z.lxor c b) 0xFF] = Done t /\ Z.lxor t (Z.shiftr c 8) = crc_byte c b.
Proof.
  intros Hc Hb. assert (0 <= Z.shiftr c 8) by (apply Z.shiftr_nonneg; lia).
  assert (is_byte (Z.land (Z.lxor c b) 0xFF)) as Hi.
  { rewrite (low_mask _ 0xFF 8) by done. apply Z.mod_pos_bound. lia. }
  eexists. split; [by apply crc32_entry|]. unfold crc_byte.
  assert (0 <= Z.lxor c b) as Hx by (unfold is_byte in Hb; pose proof (lxor_range32 c b); lia).
  rewrite (low_split _ Hx) at 2. rewrite bits_lxor.
  rewrite Z.shiftr_lxor. assert (Z.shiftr b 8 = 0) as ->.
  { rewrite Z.shiftr_div_pow2 by done. apply Z.div_small. done. }
  rewrite Z.lxor_0_r. f_equal. symmetry. by apply bits_shift.
Qed.

Lemma crc32_loop_spec l rest : forall c, 0 <= c < 2 ^ 32 -> bytes_ok l ->
  crc32_loop c (l ++ rest) (length l) = Done (crc_from c l).
Proof.
  induction l as [|b l IH]; intros c Hc Hl; [done|]. apply Forall_cons in Hl as [Hb Hl].
  cbn [length app crc32_loop]. change ((b :: l ++ rest).[0]) with (Done b). simpl_m.
  destruct (crc32_step c b Hc Hb) as (t & -> & Et). simpl_m. rewrite Et. by apply IH; [apply crc_byte_range32|].
Qed.

Lemma GetCrc32_spec l rest : bytes_ok l -> GetCrc32 (l ++ rest) (zlen l) = Done (crc32_ieee l).
Proof. intros Hl. unfold GetCrc32, zlen. rewrite Nat2Z.id, crc32_loop_spec by (done || lia). reflexivity. Qed.

Lemma crc_from_range c l : 0 <= c < 2 ^ 32 -> bytes_ok l -> 0 <= crc_from c l < 2 ^ 32.
Proof.
  revert c. induction l as [|b l IH]; intros c Hc Hl; [done|]. apply Forall_cons in Hl as [Hb Hl].
  by apply IH; [apply crc_byte_range32|].
Qed.

Lemma crc32_ieee_range l : bytes_ok l -> 0 <= crc32_ieee l < 2 ^ 32.
Proof. intros Hl. apply lxor_range32; [by apply crc_from_range|lia]. Qed.

(** ** Changing two neighbouring bytes changes the CRC *)

Lemma crc_bit_zero c : 0 <= c < 2 ^ 32 -> crc_bit c = 0 -> c = 0.
Proof.
  intros Hc. unfold crc_bit. rewrite Z.bit0_odd. destruct (Z.odd c) eqn:O.
  - intros E. exfalso. assert (Z.testbit (Z.lxor (Z.shiftr c 1) 0xEDB88320) 31 = false) as T by by rewrite E, Z.bits_0.
    rewrite Z.lxor_spec, Z.shiftr_spec in T by done.
    rewrite <- (Z.mod_small c (2 ^ 32)), Z.mod_pow2_bits_high in T by lia. by vm_compute in T.
  - rewrite Z.lxor_0_r, Z.shiftr_div_pow2 by done. intros E. pose proof (Zmod_odd c) as Hm. rewrite O in Hm. div_lia.
Qed.

Lemma crc_bits_zero c : 0 <= c < 2 ^ 32 -> crc_bits c = 0 -> c = 0.
Proof.
  unfold crc_bits. generalize 8%nat as n. intros n Hc. induction n as [|n IH] in c, Hc |- *; [done|].
  rewrite Nat.iter_succ_r. intros E. apply IH in E; [|by apply crc_bit_range32]. by apply crc_bit_zero.
Qed.

Lemma lxor_cancel_r x y m : Z.lxor x m = Z.lxor y m -> x = y.
Proof. intros E. apply Z.lxor_eq. replace (Z.lxor x y) with (Z.lxor (Z.lxor x m) (Z.lxor y m)) by xor_bits. by rewrite E, Z.lxor_nilpotent. Qed.

Lemma crc_byte_bits c b : crc_byte c b = crc_bits (Z.lxor c b).
Proof. reflexivity. Qed.
#[local] Opaque crc_bits.

(** The register before the shift tells the byte's difference. *)
Lemma crc_bits_inj u v : 0 <= u < 2 ^ 32 -> 0 <= v < 2 ^ 32 -> crc_bits u = crc_bits v -> u = v.
Proof.
  intros Hu Hv E. apply Z.lxor_eq, crc_bits_zero; [by apply lxor_range32|]. by rewrite bits_lxor, E, Z.lxor_nilpotent.
Qed.

Lemma crc_byte_inj c d b : 0 <= c < 2 ^ 32 -> 0 <= d < 2 ^ 32 -> is_byte b -> crc_byte c b = crc_byte d b -> c = d.
Proof.
  unfold is_byte. intros Hc Hd Hb E. rewrite !crc_byte_bits in E. apply crc_bits_inj in E; [|apply lxor_range32; lia..].
  exact (lxor_cancel_r _ _ _ E).
Qed.

Lemma crc_from_inj l c d : 0 <= c < 2 ^ 32 -> 0 <= d < 2 ^ 32 -> bytes_ok l -> crc_from c l = crc_from d l -> c = d.
Proof.
  revert c d. induction l as [|b l IH]; intros c d Hc Hd Hl E; [done|]. apply Forall_cons in Hl as [Hb Hl].
  apply (crc_byte_inj c d b); [done..|]. by apply IH; [apply crc_byte_range32..|done|].
Qed.

Lemma crc_bits_large a : is_byte a -> crc_bits a < 256 -> a = 0.
Proof.
  intros Ha. set (P a := implb (crc_bits a <? 256) (a =? 0)).
  assert (P a = true) as E by (apply byte_all; [by vm_compute|done]). unfold P in E.
  intros Hl. apply Z.ltb_lt in Hl. rewrite Hl in E. by apply Z.eqb_eq.
Qed.

Lemma crc_pair_inj s a b a' b' : 0 <= s < 2 ^ 32 -> is_byte a -> is_byte b -> is_byte a' -> is_byte b' ->
  crc_byte (crc_byte s a) b = crc_byte (crc_byte s a') b' -> a = a' /\ b = b'.
Proof.
  intros Hs Ha Hb Ha' Hb' E. rewrite !crc_byte_bits in E.
  assert (forall x, is_byte x -> 0 <= x < 2 ^ 32) as B by (unfold is_byte; lia).
  apply crc_bits_inj in E; [|by apply lxor_range32; [apply crc_bits_range, lxor_range32|]; auto..].
  assert (crc_bits (Z.lxor a a') = Z.lxor b b') as Eb.
  { replace (Z.lxor a a') with (Z.lxor (Z.lxor s a) (Z.lxor s a')) by xor_bits. rewrite bits_lxor.
    apply Z.lxor_eq. transitivity (Z.lxor (Z.lxor (crc_bits (Z.lxor s a)) b) (Z.lxor (crc_bits (Z.lxor s a')) b')); [xor_bits|].
    by rewrite E, Z.lxor_nilpotent. }
  pose proof (lxor_byte b b' Hb Hb') as Hbb. unfold is_byte in Hbb.
  assert (Z.lxor a a' = 0) as Ea by (apply crc_bits_large; [by apply lxor_byte|lia]).
  split; apply Z.lxor_eq; [done|]. rewrite <- Eb, Ea. by vm_compute.
Qed.

Lemma crc_from_app c l k : crc_from c (l ++ k) = crc_from (crc_from c l) k.
Proof. apply fold_left_app. Qed.
Lemma crc_from_cons c b l : crc_from c (b :: l) = crc_from (crc_byte c b) l.
Proof. reflexivity. Qed.

Lemma crc32_ieee_pair l a b a' b' r : bytes_ok l -> bytes_ok r -> is_byte a -> is_byte b -> is_byte a' -> is_byte b' ->
  crc32_ieee (l ++ a :: b :: r) = crc32_ieee (l ++ a' :: b' :: r) -> a = a' /\ b = b'.
Proof.
  intros Hl Hr Ha Hb Ha' Hb' E.
  assert (crc_from 0xFFFFFFFF (l ++ a :: b :: r) = crc_from 0xFFFFFFFF (l ++ a' :: b' :: r)) as E'.
  { exact (lxor_cancel_r _ _ 0xFFFFFFFF E). }
  rewrite !crc_from_app, !crc_from_cons in E'.
  assert (0 <= crc_from 0xFFFFFFFF l < 2 ^ 32) as Hs by (by apply crc_from_range).
  apply crc_from_inj in E'; [|by repeat apply crc_byte_range32..|done]. by eapply crc_pair_inj.
Qed.

(** The check value of the CRC catalogue. *)
Example crc32_check : GetCrc32 (str "123456789") 9 = Done 0xCBF43926.
Proof. by vm_compute. Qed.
