(* ===== verification/Stun.v ===== *)
(** * [Stun]: the STUN messages of the ICE connectivity checks

    Models [src/net/stun/stun.hpp] and [stun.cpp], apart from the text dump.  A
    datagram is the list of its bytes; pointers into it are offsets.  [None] is an
    exception of [Parse] or of the HMAC.  The integers of the address are those a
    little-endian machine finds in the [sockaddr_in].  The members a constructor
    does not initialise, and the bytes of [data_] behind the message, are what the
    memory held: the arguments [mem]. *)
From S2P Require Import Prelude ByteStream ByteCrypto.

Definition STUN_HEADER_SIZE : Z := 20.
Definition magic_cookie : bytes := [0x21; 0x12; 0xA4; 0x42].

Definition STUN_REQUEST : Z := 0.
Definition BINDING : Z := 1.

Definition STUN_USERNAME : Z := 0x0006.
Definition STUN_MESSAGE_INTEGRITY : Z := 0x0008.
Definition STUN_ERROR_CODE : Z := 0x0009.
Definition STUN_XOR_MAPPED_ADDRESS : Z := 0x0020.
Definition STUN_PRIORITY : Z := 0x0024.
Definition STUN_USE_CANDIDATE : Z := 0x0025.
Definition STUN_FINGERPRINT : Z := 0x8028.
Definition STUN_ICE_CONTROLLED : Z := 0x8029.
Definition STUN_ICE_CONTROLLING : Z := 0x802A.

Definition AF_INET : Z := 2.
Definition AF_INET6 : Z := 10.

(** The fields of [sockaddr_in]. *)
Record sockaddr := mkSockaddr { sin_family : Z; sin_port : Z; s_addr : Z }.

Record StunPacket := mkStun {
  data_ : bytes;
  data_len_ : Z;
  stun_class_ : Z;
  stun_method_ : Z;
  transaction_id_ : bytes;
  message_integrity_ : option Z;
  username_ : bytes;
  password_ : bytes;
  fingerprint_ : Z;
  priority_ : Z;
  ice_controlling_ : Z;
  ice_controlled_ : Z;
  error_code_ : Z;
  xor_address_ : option sockaddr;
  has_use_candidate_ : bool;
  add_msg_integrity_ : bool;
  has_fingerprint_ : bool
}.

Definition put_data (v : bytes) (s : StunPacket) : StunPacket :=
  mkStun v (data_len_ s) (stun_class_ s) (stun_method_ s) (transaction_id_ s) (message_integrity_ s) (username_ s) (password_ s) (fingerprint_ s) (priority_ s) (ice_controlling_ s) (ice_controlled_ s) (error_code_ s) (xor_address_ s) (has_use_candidate_ s) (add_msg_integrity_ s) (has_fingerprint_ s).
Definition put_data_len (v : Z) (s : StunPacket) : StunPacket :=
  mkStun (data_ s) v (stun_class_ s) (stun_method_ s) (transaction_id_ s) (message_integrity_ s) (username_ s) (password_ s) (fingerprint_ s) (priority_ s) (ice_controlling_ s) (ice_controlled_ s) (error_code_ s) (xor_address_ s) (has_use_candidate_ s) (add_msg_integrity_ s) (has_fingerprint_ s).
Definition put_message_integrity (v : option Z) (s : StunPacket) : StunPacket :=
  mkStun (data_ s) (data_len_ s) (stun_class_ s) (stun_method_ s) (transaction_id_ s) v (username_ s) (password_ s) (fingerprint_ s) (priority_ s) (ice_controlling_ s) (ice_controlled_ s) (error_code_ s) (xor_address_ s) (has_use_candidate_ s) (add_msg_integrity_ s) (has_fingerprint_ s).
Definition put_username (v : bytes) (s : StunPacket) : StunPacket :=
  mkStun (data_ s) (data_len_ s) (stun_class_ s) (stun_method_ s) (transaction_id_ s) (message_integrity_ s) v (password_ s) (fingerprint_ s) (priority_ s) (ice_controlling_ s) (ice_controlled_ s) (error_code_ s) (xor_address_ s) (has_use_candidate_ s) (add_msg_integrity_ s) (has_fingerprint_ s).
Definition put_fingerprint (v : Z) (s : StunPacket) : StunPacket :=
  mkStun (data_ s) (data_len_ s) (stun_class_ s) (stun_method_ s) (transaction_id_ s) (message_integrity_ s) (username_ s) (password_ s) v (priority_ s) (ice_controlling_ s) (ice_controlled_ s) (error_code_ s) (xor_address_ s) (has_use_candidate_ s) (add_msg_integrity_ s) (has_fingerprint_ s).
Definition put_priority (v : Z) (s : StunPacket) : StunPacket :=
  mkStun (data_ s) (data_len_ s) (stun_class_ s) (stun_method_ s) (transaction_id_ s) (message_integrity_ s) (username_ s) (password_ s) (fingerprint_ s) v (ice_controlling_ s) (ice_controlled_ s) (error_code_ s) (xor_address_ s) (has_use_candidate_ s) (add_msg_integrity_ s) (has_fingerprint_ s).
Definition put_ice_controlling (v : Z) (s : StunPacket) : StunPacket :=
  mkStun (data_ s) (data_len_ s) (stun_class_ s) (stun_method_ s) (transaction_id_ s) (message_integrity_ s) (username_ s) (password_ s) (fingerprint_ s) (priority_ s) v (ice_controlled_ s) (error_code_ s) (xor_address_ s) (has_use_candidate_ s) (add_msg_integrity_ s) (has_fingerprint_ s).
Definition put_ice_controlled (v : Z) (s : StunPacket) : StunPacket :=
  mkStun (data_ s) (data_len_ s) (stun_class_ s) (stun_method_ s) (transaction_id_ s) (message_integrity_ s) (username_ s) (password_ s) (fingerprint_ s) (priority_ s) (ice_controlling_ s) v (error_code_ s) (xor_address_ s) (has_use_candidate_ s) (add_msg_integrity_ s) (has_fingerprint_ s).
Definition put_error_code (v : Z) (s : StunPacket) : StunPacket :=
  mkStun (data_ s) (data_len_ s) (stun_class_ s) (stun_method_ s) (transaction_id_ s) (message_integrity_ s) (username_ s) (password_ s) (fingerprint_ s) (priority_ s) (ice_controlling_ s) (ice_controlled_ s) v (xor_address_ s) (has_use_candidate_ s) (add_msg_integrity_ s) (has_fingerprint_ s).
Definition put_xor_address (v : option sockaddr) (s : StunPacket) : StunPacket :=
  mkStun (data_ s) (data_len_ s) (stun_class_ s) (stun_method_ s) (transaction_id_ s) (message_integrity_ s) (username_ s) (password_ s) (fingerprint_ s) (priority_ s) (ice_controlling_ s) (ice_controlled_ s) (error_code_ s) v (has_use_candidate_ s) (add_msg_integrity_ s) (has_fingerprint_ s).
Definition put_has_use_candidate (v : bool) (s : StunPacket) : StunPacket :=
  mkStun (data_ s) (data_len_ s) (stun_class_ s) (stun_method_ s) (transaction_id_ s) (message_integrity_ s) (username_ s) (password_ s) (fingerprint_ s) (priority_ s) (ice_controlling_ s) (ice_controlled_ s) (error_code_ s) (xor_address_ s) v (add_msg_integrity_ s) (has_fingerprint_ s).
Definition put_has_fingerprint (v : bool) (s : StunPacket) : StunPacket :=
  mkStun (data_ s) (data_len_ s) (stun_class_ s) (stun_method_ s) (transaction_id_ s) (message_integrity_ s) (username_ s) (password_ s) (fingerprint_ s) (priority_ s) (ice_controlling_ s) (ice_controlled_ s) (error_code_ s) (xor_address_ s) (has_use_candidate_ s) (add_msg_integrity_ s) v.

(** [message_integrity_] is an offset into the message. *)
Definition new_StunPacket (mem_class mem_method : Z) (mem_id : bytes) : StunPacket :=
  mkStun (replicate (Z.to_nat 8192) 0) 0 mem_class mem_method mem_id None [] [] 0 0 0 0 0 None false false false.

Definition new_StunPacket_of (mem_class mem_method : Z) (mem_id mem data : bytes) (len : Z) : outcome StunPacket :=
  d ← read_range data 0 len;
  data_ ← write_at mem 0 d;
  mret (mkStun data_ len mem_class mem_method mem_id None [] [] 0 0 0 0 0 None false false false).

(** ** Telling a message *)

Definition IsStun (data : bytes) (len : Z) : outcome bool :=
  if len <? STUN_HEADER_SIZE then mret false
  else
    b0 ← data.[0]; if negb (b0 <? 3) then mret false
    else b4 ← data.[4]; if negb (b4 =? 0x21) then mret false
    else b5 ← data.[5]; if negb (b5 =? 0x12) then mret false
    else b6 ← data.[6]; if negb (b6 =? 0xA4) then mret false
    else b7 ← data.[7]; mret (b7 =? 0x42).

Definition IsBindingRequest (buf : bytes) (buf_size : Z) : outcome bool :=
  s ← IsStun buf buf_size;
  if negb s then mret false
  else b0 ← buf.[0]; b1 ← buf.[1]; mret ((1 <? buf_size) && (b0 =? 0x00) && (b1 =? 0x01)).

Definition IsBindingResponse (buf : bytes) (buf_size : Z) : outcome bool :=
  s ← IsStun buf buf_size;
  if negb s then mret false
  else b0 ← buf.[0]; b1 ← buf.[1]; mret ((1 <? buf_size) && (b0 =? 0x01) && (b1 =? 0x01)).

(** ** [Parse] *)

(** The conversions of a little-endian machine: the same bytes, in the other order. *)
Definition ntohs (v : Z) : Z := le_value (be_bytes 2 v).
Definition ntohl (v : Z) : Z := le_value (be_bytes 4 v).

(** The locals of the loop of [Parse] besides the pointer. *)
Record parsing := mkParsing {
  ret_packet : StunPacket;
  has_fingerprint : bool;
  has_message_integrity : bool;
  fingerprint_pos : Z
}.

(** The case of the address. *)
Definition xor_mapped_address (attr_data : bytes) (pkt : StunPacket) : outcome StunPacket :=
  ip_data ← read_range attr_data 0 8;
  net_family ← Read2Bytes ip_data;
  match ip_data with
  | [_; _; d2; d3; d4; d5; d6; d7] =>
      port ← Read2Bytes [Z.lxor d2 0x21; Z.lxor d3 0x12];
      addr ← Read4Bytes [Z.lxor d4 0x21; Z.lxor d5 0x12; Z.lxor d6 0xA4; Z.lxor d7 0x42];
      mret (put_xor_address (Some (mkSockaddr (if net_family =? 1 then AF_INET else AF_INET6) (ntohs port) (ntohl addr))) pkt)
  | _ => Fault OutOfBounds
  end.

(** The [switch]; [pos] is the offset of the attribute's value. *)
Definition attribute (attr_type attr_len : Z) (data : bytes) (pos : Z) (st : parsing) : outcome (option parsing) :=
  let attr_data := drop (Z.to_nat pos) data in
  let pkt := ret_packet st in
  let keep pkt := mkParsing pkt (has_fingerprint st) (has_message_integrity st) (fingerprint_pos st) in
  if attr_type =? STUN_USERNAME then
    name ← read_range attr_data 0 attr_len;
    mret (Some (keep (put_username name pkt)))
  else if attr_type =? STUN_PRIORITY then
    if negb (attr_len =? 4) then mret None
    else v ← Read4Bytes attr_data; mret (Some (keep (put_priority v pkt)))
  else if attr_type =? STUN_ICE_CONTROLLING then
    if negb (attr_len =? 8) then mret None
    else v ← Read8Bytes attr_data; mret (Some (keep (put_ice_controlling v pkt)))
  else if attr_type =? STUN_ICE_CONTROLLED then
    if negb (attr_len =? 8) then mret None
    else v ← Read8Bytes attr_data; mret (Some (keep (put_ice_controlled v pkt)))
  else if attr_type =? STUN_USE_CANDIDATE then
    if negb (attr_len =? 0) then mret None
    else mret (Some (keep (put_has_use_candidate true pkt)))
  else if attr_type =? STUN_MESSAGE_INTEGRITY then
    if negb (attr_len =? 20) then mret None
    else mret (Some (mkParsing (put_message_integrity (Some pos) pkt) (has_fingerprint st) true (fingerprint_pos st)))
  else if attr_type =? STUN_FINGERPRINT then
    if negb (attr_len =? 4) then mret None
    else
      v ← Read4Bytes attr_data;
      mret (Some (mkParsing (put_fingerprint v pkt) true (has_message_integrity st) (pos - 4)))
  else if attr_type =? STUN_ERROR_CODE then
    if negb (attr_len =? 4) then mret None
    else
      error_class ← attr_data.[2];
      error_number ← attr_data.[3];
      mret (Some (keep (put_error_code (u16 (error_class * 100 + error_number)) pkt)))
  else if attr_type =? STUN_XOR_MAPPED_ADDRESS then
    if negb (attr_len =? 8) then mret None
    else pkt ← xor_mapped_address attr_data pkt; mret (Some (keep pkt))
  else mret (Some st).

(** The loop over the attributes; the result is the last state and pointer. *)
Fixpoint parse_attributes (fuel : nat) (data : bytes) (len p : Z) (st : parsing) : outcome (option (parsing * Z)) :=
  match fuel with
  | O => Fault OutOfFuel
  | S fuel =>
      if p + 4 <? len then
        attr_type ← Read2Bytes (drop (Z.to_nat p) data);
        attr_len ← Read2Bytes (drop (Z.to_nat (p + 2)) data);
        let p := p + 4 in
        if len <? p + attr_len then mret None
        else if has_fingerprint st then mret None
        else if has_message_integrity st && negb (attr_type =? STUN_FINGERPRINT) then mret None
        else
          r ← attribute attr_type attr_len data p st;
          match r with
          | None => mret None
          | Some st => parse_attributes fuel data len (p + PadTo4Bytes16 attr_len) st
          end
      else mret (Some (st, p))
  end.

Definition STUN_XOR : Z := 0x5354554e.

Definition Parse (mem data : bytes) (len : Z) : outcome (option StunPacket) :=
  s ← IsStun data len;
  if negb s then mret None
  else
    msg_type ← Read2Bytes data;
    msg_len ← Read2Bytes (drop 2 data);
    if negb (msg_len =? len - 20) || negb (Z.land msg_len 0x03 =? 0) then mret None
    else
      let msg_method := Z.lor (Z.lor (Z.land msg_type 0x000f) (Z.shiftr (Z.land msg_type 0x00e0) 1)) (Z.shiftr (Z.land msg_type 0x3E00) 2) in
      d0 ← data.[0];
      d1 ← data.[1];
      let msg_class := Z.lor (Z.shiftl (Z.land d0 0x01) 1) (Z.shiftr (Z.land d1 0x10) 4) in
      id ← read_range data 8 12;
      pkt ← new_StunPacket_of msg_class msg_method id mem data len;
      r ← parse_attributes (S (Z.to_nat len)) data len STUN_HEADER_SIZE (mkParsing pkt false false 0);
      match r with
      | None => mret None
      | Some (st, p) =>
          if negb (p =? len) then mret None
          else if has_fingerprint st then
            crc ← GetCrc32 data (fingerprint_pos st);
            if negb (fingerprint_ (ret_packet st) =? Z.lxor crc STUN_XOR) then mret None
            else mret (Some (put_has_fingerprint true (ret_packet st)))
          else mret (Some (ret_packet st))
      end.

(** ** [Serialize] *)

(** Writing at the pointer and moving it. *)
Definition put (s : bytes * Z) (d : bytes) : outcome (bytes * Z) :=
  data ← write_at s.1 s.2 d; mret (data, s.2 + zlen d).

Definition put_username_attribute (name : bytes) (pad_len : Z) (s : bytes * Z) : outcome (bytes * Z) :=
  s ← put s (Write2Bytes STUN_USERNAME);
  s ← put s (Write2Bytes (u16 (zlen name)));
  data ← write_at s.1 s.2 name;
  mret (data, s.2 + pad_len).

Definition put_priority_attribute (priority : Z) (s : bytes * Z) : outcome (bytes * Z) :=
  s ← put s (Write2Bytes STUN_PRIORITY);
  s ← put s (Write2Bytes 4);
  put s (Write4Bytes priority).

Definition put_use_candidate (s : bytes * Z) : outcome (bytes * Z) :=
  s ← put s (Write2Bytes STUN_USE_CANDIDATE);
  put s (Write2Bytes 0).

(** [data_len_] as the first part of the function computes it. *)
Definition serialized_len (pkt : StunPacket) (user_name_pad_len : Z) : Z :=
  STUN_HEADER_SIZE + (if bool_decide (username_ pkt = []) then 0 else 4 + user_name_pad_len)
  + (if priority_ pkt =? 0 then 0 else 8) + (if has_use_candidate_ pkt then 4 else 0)
  + (if add_msg_integrity_ pkt then 24 else 0) + 8.

(** The header, with a length of zero, and the attributes before the integrity. *)
Definition put_head (pkt : StunPacket) (user_name_pad_len : Z) : outcome (bytes * Z) :=
  s ← put (replicate (Z.to_nat 8192) 0, 0) (Write2Bytes BINDING);
  s ← put s (Write2Bytes 0);
  s ← put s magic_cookie;
  s ← put s (transaction_id_ pkt);
  s ← (if bool_decide (username_ pkt = []) then mret s else put_username_attribute (username_ pkt) user_name_pad_len s);
  s ← (if priority_ pkt =? 0 then mret s else put_priority_attribute (priority_ pkt) s);
  if has_use_candidate_ pkt then put_use_candidate s else mret s.

Section serialize.
Context `{HmacSha1}.

(** The branch of [add_msg_integrity_]; the result holds the digest's offset, or is the exception. *)
Definition put_message_integrity_attribute (ctx : HMAC_CTX) (key : bytes) (data_len : Z) (s : bytes * Z)
  : outcome (option (bytes * Z * Z) * HMAC_CTX) :=
  data ← write_at s.1 2 (Write2Bytes (u16 (data_len - 20 - 8)));
  '(digest, ctx) ← GetHmacSha1 ctx key data s.2;
  match digest with
  | None => mret (None, ctx)
  | Some digest =>
      s ← put (data, s.2) (Write2Bytes STUN_MESSAGE_INTEGRITY);
      s ← put s (Write2Bytes 20);
      let pos := s.2 in
      s ← put s digest;
      data ← write_at s.1 2 (Write2Bytes (u16 (data_len - STUN_HEADER_SIZE)));
      mret (Some (data, s.2, pos), ctx)
  end.

Definition put_fingerprint_attribute (s : bytes * Z) : outcome (bytes * Z) :=
  crc ← GetCrc32 s.1 s.2;
  let caculate_fingerprint := Z.lxor crc STUN_XOR in
  s ← put s (Write2Bytes STUN_FINGERPRINT);
  s ← put s (Write2Bytes 4);
  put s (Write4Bytes caculate_fingerprint).

(** The value returned is the new [data_len_]. *)
Definition Serialize (ctx : HMAC_CTX) (pkt : StunPacket) : outcome (option (Z * StunPacket) * HMAC_CTX) :=
  let user_name_pad_len := PadTo4Bytes16 (u16 (zlen (username_ pkt))) in
  let data_len := serialized_len pkt user_name_pad_len in
  s ← put_head pkt user_name_pad_len;
  '(r, ctx) ← (if add_msg_integrity_ pkt then
                 '(r, ctx) ← put_message_integrity_attribute ctx (password_ pkt) data_len s;
                 mret (match r with Some (data, p, pos) => Some (data, p, Some pos) | None => None end, ctx)
               else mret (Some (s, None), ctx));
  match r with
  | None => mret (None, ctx)
  | Some (s, pos) =>
      s ← put_fingerprint_attribute s;
      data ← write_at s.1 2 (Write2Bytes (u16 (data_len - STUN_HEADER_SIZE)));
      mret (Some (data_len, put_data data (put_data_len data_len (put_message_integrity pos pkt))), ctx)
  end.
End serialize.

(** ** The layout of a message *)

Definition attr_bytes (t : Z) (v : bytes) : bytes :=
  Write2Bytes t ++ Write2Bytes (zlen v) ++ v ++ replicate (Z.to_nat (PadTo4Bytes16 (zlen v) - zlen v)) 0.
Definition header (msg_len : Z) (id : bytes) : bytes :=
  Write2Bytes BINDING ++ Write2Bytes msg_len ++ magic_cookie ++ id.

Lemma pad_spec n : 0 <= n <= 65532 -> PadTo4Bytes16 n = (n + 3) / 4 * 4.
Proof.
  intros Hn. unfold PadTo4Bytes16. rewrite (low_mask n 0x03 2) by done.
  change 0xFFFC with (Z.shiftl (Z.ones 14) 2). case_match; [div_lia|].
  assert (Z.land n (Z.shiftl (Z.ones 14) 2) = n / 4 * 4) as ->.
  { change (n / 4 * 4) with (n / 2 ^ 2 * 2 ^ 2). rewrite <- (Z.shiftl_mul_pow2 _ 2), <- (Z.shiftr_div_pow2 n 2) by done.
    apply Z.bits_inj'. intros k Hk. rewrite Z.land_spec. destruct (Z.ltb_spec k 2).
    - by rewrite !Z.shiftl_spec_low, andb_false_r by lia.
    - rewrite !Z.shiftl_spec, Z.shiftr_spec by lia. replace (k - 2 + 2) with k by lia.
      destruct (Z.ltb_spec (k - 2) 14); [by rewrite Z.ones_spec_low, andb_true_r by lia|].
      rewrite Z.ones_spec_high, andb_false_r by lia.
      rewrite <- (Z.mod_small n (2 ^ 16)) by lia. by rewrite Z.mod_pow2_bits_high by lia. }
  unfold u16. rewrite Z.mod_small; div_lia.
Qed.

Lemma zlen_attr t v : zlen v <= 65532 -> zlen (attr_bytes t v) = 4 + PadTo4Bytes16 (zlen v).
Proof.
  intros Hv. pose proof (zlen_nonneg v). unfold attr_bytes. rewrite !zlen_app.
  rewrite zlen_replicate by (rewrite pad_spec by lia; div_lia).
  change (zlen (Write2Bytes _)) with 2. lia.
Qed.

Lemma zlen_header n id : zlen id = 12 -> zlen (header n id) = 20.
Proof. intros H. unfold header. rewrite !zlen_app, H. reflexivity. Qed.

Lemma attr_bytes_ok t v : bytes_ok v -> bytes_ok (attr_bytes t v).
Proof.
  intros Hv. repeat (apply Forall_app; split; try done); try apply (proj1 (Write_bytes_ok _)).
  apply Forall_replicate. done.
Qed.

Lemma header_ok n id : bytes_ok id -> bytes_ok (header n id).
Proof.
  intros Hv. repeat (apply Forall_app; split; try done); try apply (proj1 (Write_bytes_ok _)).
  by repeat constructor.
Qed.

(** *** [Parse] reads it *)

Lemma read2_at a v b : 0 <= v < 2 ^ 16 -> Read2Bytes (drop (Z.to_nat (zlen a)) (a ++ Write2Bytes v ++ b)) = Done v.
Proof. intros Hv. rewrite drop_zlen_app, Read2Bytes_Write2Bytes. f_equal. by apply Z.mod_small. Qed.

(** One turn of the loop. *)
Lemma parse_attribute fuel a t v b st len :
  0 <= t < 2 ^ 16 -> zlen v <= 65532 -> (v <> [] \/ b <> []) ->
  has_fingerprint st = false -> (has_message_integrity st = true -> t = STUN_FINGERPRINT) ->
  len = zlen (a ++ attr_bytes t v ++ b) ->
  parse_attributes (S fuel) (a ++ attr_bytes t v ++ b) len (zlen a) st =
  (r ← attribute t (zlen v) (a ++ attr_bytes t v ++ b) (zlen a + 4) st;
   match r with
   | None => mret None
   | Some st => parse_attributes fuel (a ++ attr_bytes t v ++ b) len (zlen (a ++ attr_bytes t v)) st
   end).
Proof.
  intros Ht Hv Hne Hf Hm ->. pose proof (zlen_nonneg v) as Hv0. pose proof (zlen_nonneg b) as Hb0.
  assert (0 < zlen v + zlen b) as Hpos.
  { destruct Hne; [destruct v|destruct b]; rewrite ?zlen_cons in *; try done; pose proof (zlen_nonneg b); pose proof (zlen_nonneg v); lia. }
  pose proof (pad_spec (zlen v) ltac:(lia)) as Hp.
  cbn [parse_attributes]. rewrite !zlen_app, zlen_attr by done.
  assert ((zlen a + 4 <? zlen a + (4 + PadTo4Bytes16 (zlen v) + zlen b)) = true) as -> by (apply Z.ltb_lt; div_lia).
  assert (Read2Bytes (drop (Z.to_nat (zlen a)) (a ++ attr_bytes t v ++ b)) = Done t) as ->.
  { unfold attr_bytes. rewrite <- !app_assoc. by apply read2_at. }
  assert (Read2Bytes (drop (Z.to_nat (zlen a + 2)) (a ++ attr_bytes t v ++ b)) = Done (zlen v)) as ->.
  { unfold attr_bytes. rewrite <- !app_assoc, (app_assoc a). change 2 with (zlen (Write2Bytes t)).
    rewrite <- zlen_app. apply read2_at. lia. }
  simpl_m. assert ((zlen a + (4 + PadTo4Bytes16 (zlen v) + zlen b) <? zlen a + 4 + zlen v) = false) as -> by (apply Z.ltb_ge; div_lia).
  rewrite Hf. assert (has_message_integrity st && negb (t =? STUN_FINGERPRINT) = false) as ->.
  { destruct (has_message_integrity st); [|done]. by rewrite (Hm eq_refl). }
  destruct (attribute t (zlen v) _ _ st) as [[s|]|]; [|done..]. simpl_m. f_equal. lia.
Qed.

(** The value of an attribute, seen from its pointer. *)
Lemma attr_value a t v b :
  drop (Z.to_nat (zlen a + 4)) (a ++ attr_bytes t v ++ b) =
  v ++ replicate (Z.to_nat (PadTo4Bytes16 (zlen v) - zlen v)) 0 ++ b.
Proof.
  unfold attr_bytes. rewrite <- !app_assoc. change 4 with (zlen (Write2Bytes t) + zlen (Write2Bytes (zlen v))).
  rewrite Z.add_assoc, <- !zlen_app, !app_assoc, <- (app_assoc _ v), <- (app_assoc _ _ b), <- app_assoc.
  by rewrite drop_zlen_app, <- !app_assoc.
Qed.

Lemma zlen_Write2Bytes v : zlen (Write2Bytes v) = 2.
Proof. done. Qed.
Lemma zlen_Write4Bytes v : zlen (Write4Bytes v) = 4.
Proof. done. Qed.
Ltac zl := rewrite ?zlen_app, ?zlen_Write2Bytes, ?zlen_Write4Bytes; lia.

(** *** [Serialize] writes it *)

(** The buffer and the pointer behind what is written. *)
Definition written (w : bytes) : bytes * Z := (w ++ replicate (Z.to_nat (8192 - zlen w)) 0, zlen w).

Lemma replicate_split (n m : Z) : 0 <= m <= n ->
  replicate (Z.to_nat n) 0 = replicate (Z.to_nat m) 0 ++ replicate (Z.to_nat (n - m)) 0.
Proof. intros H. rewrite <- replicate_add. f_equal. lia. Qed.

Lemma put_written w d : zlen w + zlen d <= 8192 -> put (written w) d = Done (written (w ++ d)).
Proof.
  intros H. pose proof (zlen_nonneg d). unfold put, written. cbn [fst snd].
  rewrite (replicate_split (8192 - zlen w) (zlen d)) by lia.
  rewrite write_at_mid by (rewrite zlen_replicate; lia). simpl_m. rewrite !zlen_app, <- app_assoc.
  by replace (8192 - zlen w - zlen d) with (8192 - (zlen w + zlen d)) by lia.
Qed.

Lemma put_written_eq w d s : zlen w + zlen d <= 8192 -> w ++ d = s -> put (written w) d = Done (written s).
Proof. intros H <-. by apply put_written. Qed.

Lemma put_username_written w name : zlen w + zlen (attr_bytes STUN_USERNAME name) <= 8192 -> zlen name <= 65532 ->
  put_username_attribute name (PadTo4Bytes16 (u16 (zlen name))) (written w) = Done (written (w ++ attr_bytes STUN_USERNAME name)).
Proof.
  intros H Hn. pose proof (zlen_nonneg name). pose proof (zlen_nonneg w). rewrite zlen_attr in H by done.
  pose proof (pad_spec (zlen name) ltac:(lia)) as Hp. set (pad := PadTo4Bytes16 (zlen name)) in *.
  unfold put_username_attribute. rewrite u16_small by lia. fold pad.
  assert (zlen name <= pad) by div_lia.
  rewrite put_written by (zl). simpl_m.
  rewrite put_written by (zl). simpl_m.
  unfold written at 1 2 3. cbn [fst snd]. set (u := (w ++ Write2Bytes STUN_USERNAME) ++ Write2Bytes (zlen name)).
  assert (zlen u = zlen w + 4) as Hu by (unfold u; zl).
  rewrite (replicate_split (8192 - zlen u) (zlen name)) by lia.
  rewrite write_at_mid by (rewrite zlen_replicate; lia). simpl_m.
  assert (w ++ attr_bytes STUN_USERNAME name = u ++ name ++ replicate (Z.to_nat (pad - zlen name)) 0) as ->
    by (unfold attr_bytes, u; by rewrite <- !app_assoc).
  unfold written. rewrite !zlen_app, zlen_replicate, <- !app_assoc by lia.
  rewrite (replicate_split (8192 - zlen u - zlen name) (pad - zlen name)) by lia.
  replace (zlen u + (zlen name + (pad - zlen name))) with (zlen u + pad) by lia.
  by replace (8192 - zlen u - zlen name - (pad - zlen name)) with (8192 - (zlen u + pad)) by lia.
Qed.

Lemma written_length w : zlen w <= 8192 -> zlen (written w).1 = 8192.
Proof. intros H. unfold written. cbn [fst]. rewrite zlen_app, zlen_replicate; lia. Qed.

(** The length field of the header is written over. *)
Lemma set_length w n m id : zlen id = 12 -> 
  write_at (written (header n id ++ w)).1 2 (Write2Bytes (u16 m)) = Done (written (header m id ++ w)).1.
Proof.
  intros Hid. unfold written, header. cbn [fst]. rewrite <- !app_assoc.
  change 2 with (zlen (Write2Bytes BINDING)) at 1. rewrite write_at_mid by done. f_equal. f_equal. f_equal.
  by rewrite !Write2Bytes_be, <- (be_bytes_mod 2 m).
Qed.

Definition username_part (pkt : StunPacket) : bytes :=
  if bool_decide (username_ pkt = []) then [] else attr_bytes STUN_USERNAME (username_ pkt).
Definition priority_part (pkt : StunPacket) : bytes :=
  if priority_ pkt =? 0 then [] else attr_bytes STUN_PRIORITY (Write4Bytes (priority_ pkt)).
Definition candidate_part (pkt : StunPacket) : bytes :=
  if has_use_candidate_ pkt then attr_bytes STUN_USE_CANDIDATE [] else [].
Definition attributes (pkt : StunPacket) : bytes := username_part pkt ++ priority_part pkt ++ candidate_part pkt.

(** A packet that fits in the buffer. *)
Definition fits (pkt : StunPacket) : Prop := zlen (username_ pkt) <= 8120.

Lemma attributes_length pkt : fits pkt ->
  20 + zlen (attributes pkt) + (if add_msg_integrity_ pkt then 24 else 0) + 8 =
  serialized_len pkt (PadTo4Bytes16 (u16 (zlen (username_ pkt)))) /\ zlen (attributes pkt) <= 8136.
Proof.
  unfold fits. intros Hf. pose proof (zlen_nonneg (username_ pkt)). rewrite u16_small by lia.
  pose proof (pad_spec (zlen (username_ pkt)) ltac:(lia)) as Hp.
  unfold attributes, serialized_len, STUN_HEADER_SIZE. rewrite !zlen_app.
  assert (zlen (username_part pkt) = if bool_decide (username_ pkt = []) then 0 else 4 + PadTo4Bytes16 (zlen (username_ pkt))) as ->.
  { unfold username_part. case_bool_decide; [done|]. apply zlen_attr. lia. }
  assert (zlen (priority_part pkt) = if priority_ pkt =? 0 then 0 else 8) as ->.
  { unfold priority_part. by case_match. }
  assert (zlen (candidate_part pkt) = if has_use_candidate_ pkt then 4 else 0) as ->.
  { unfold candidate_part. by case_match. }
  repeat case_match; div_lia.
Qed.

(** The first part: the header, with a length of zero, and the attributes. *)
Lemma put_parts pkt : fits pkt -> zlen (transaction_id_ pkt) = 12 ->
  put_head pkt (PadTo4Bytes16 (u16 (zlen (username_ pkt)))) =
  Done (written (header 0 (transaction_id_ pkt) ++ attributes pkt)).
Proof.
  intros Hf Hid. destruct (attributes_length pkt Hf) as [_ Hl]. unfold attributes in *. rewrite !zlen_app in Hl.
  pose proof (zlen_nonneg (username_part pkt)). pose proof (zlen_nonneg (priority_part pkt)). pose proof (zlen_nonneg (candidate_part pkt)).
  unfold put_head. change (replicate (Z.to_nat 8192) 0, 0) with (written []).
  rewrite put_written by by vm_compute. simpl_m. rewrite put_written by by vm_compute. simpl_m. rewrite put_written by by vm_compute. simpl_m.
  rewrite put_written by (rewrite Hid; by vm_compute). simpl_m.
  replace (((([] ++ Write2Bytes BINDING) ++ Write2Bytes 0) ++ magic_cookie) ++ transaction_id_ pkt) with (header 0 (transaction_id_ pkt)) by done.
  set (h := header 0 (transaction_id_ pkt)). assert (zlen h = 20) as Hh by by apply zlen_header.
  assert ((if bool_decide (username_ pkt = []) then Done (written h)
    else put_username_attribute (username_ pkt) (PadTo4Bytes16 (u16 (zlen (username_ pkt)))) (written h)) = Done (written (h ++ username_part pkt))) as ->.
  { unfold username_part in *. case_bool_decide; [by rewrite app_nil_r|]. unfold fits in Hf. apply put_username_written; lia. }
  simpl_m. set (h1 := h ++ username_part pkt). assert (zlen h1 = 20 + zlen (username_part pkt)) as Hh1 by (unfold h1; rewrite zlen_app; lia).
  assert ((if priority_ pkt =? 0 then Done (written h1) else put_priority_attribute (priority_ pkt) (written h1)) = Done (written (h1 ++ priority_part pkt))) as ->.
  { unfold priority_part in *. case_match; [by rewrite app_nil_r|]. unfold put_priority_attribute.
    rewrite !zlen_attr in * by done. change (zlen (Write4Bytes _)) with 4 in *. change (PadTo4Bytes16 4) with 4 in *.
    do 2 (rewrite put_written by (zl); simpl_m).
    rewrite put_written by (zl).
    unfold attr_bytes. by rewrite <- !app_assoc. }
  simpl_m. rewrite (app_assoc h), (app_assoc (h ++ _)). fold h1. set (h2 := h1 ++ priority_part pkt).
  assert (zlen h2 = zlen h1 + zlen (priority_part pkt)) as Hh2 by (unfold h2; rewrite zlen_app; lia).
  unfold candidate_part in *. destruct (has_use_candidate_ pkt); [|by rewrite app_nil_r].
  unfold put_use_candidate. rewrite put_written by (change (zlen (attr_bytes _ [])) with 4 in *; zl). simpl_m.
  rewrite put_written by (change (zlen (attr_bytes _ [])) with 4 in *; zl).
  unfold attr_bytes. by rewrite <- !app_assoc.
Qed.

(** The message before the integrity, with this value in the length field. *)
Definition unsigned (pkt : StunPacket) (msg_len : Z) : bytes := header msg_len (transaction_id_ pkt) ++ attributes pkt.
Definition fingerprint (m : bytes) : bytes := Write4Bytes (Z.lxor (crc32_ieee m) STUN_XOR).

Section message.
Context `{HmacLaws}.

(** What the wire carries: the MAC covers the message with the length up to the integrity, and the
    CRC the message with the full length. *)
Definition integrity (pkt : StunPacket) : bytes :=
  hmac (password_ pkt) (unsigned pkt (zlen (attributes pkt) + 24)).
Definition signed (pkt : StunPacket) : bytes :=
  unsigned pkt (zlen (attributes pkt) + 32) ++ attr_bytes STUN_MESSAGE_INTEGRITY (integrity pkt).
Definition signed_message (pkt : StunPacket) : bytes :=
  signed pkt ++ attr_bytes STUN_FINGERPRINT (fingerprint (signed pkt)).
(** Without the integrity the CRC is that of the message with a length of zero. *)
Definition plain_message (pkt : StunPacket) : bytes :=
  unsigned pkt (zlen (attributes pkt) + 8) ++ attr_bytes STUN_FINGERPRINT (fingerprint (unsigned pkt 0)).

Definition packet_ok (pkt : StunPacket) : Prop :=
  fits pkt /\ zlen (transaction_id_ pkt) = 12 /\ bytes_ok (transaction_id_ pkt) /\ bytes_ok (username_ pkt).

Lemma zlen_unsigned pkt n : zlen (transaction_id_ pkt) = 12 -> zlen (unsigned pkt n) = 20 + zlen (attributes pkt).
Proof. intros Hid. unfold unsigned. rewrite zlen_app, zlen_header; lia. Qed.

Lemma attributes_ok pkt : packet_ok pkt -> bytes_ok (attributes pkt).
Proof.
  intros (_ & _ & _ & Hu). unfold attributes, bytes_ok. rewrite !Forall_app. split_and!.
  - unfold username_part. destruct (bool_decide _); [constructor|exact (attr_bytes_ok _ _ Hu)].
  - unfold priority_part. destruct (priority_ pkt =? 0); [constructor|apply attr_bytes_ok; rewrite Write4Bytes_be; apply be_bytes_ok].
  - unfold candidate_part. destruct (has_use_candidate_ pkt); [apply attr_bytes_ok|]; constructor.
Qed.

Lemma unsigned_ok pkt n : packet_ok pkt -> bytes_ok (unsigned pkt n).
Proof. intros Hp. apply Forall_app. split; [apply header_ok, Hp|by apply attributes_ok]. Qed.

Lemma zlen_integrity pkt : zlen (attr_bytes STUN_MESSAGE_INTEGRITY (integrity pkt)) = 24.
Proof. unfold integrity. by rewrite zlen_attr, hmac_length by (rewrite hmac_length; lia). Qed.

Lemma signed_ok pkt : packet_ok pkt -> bytes_ok (signed pkt).
Proof. intros Hp. apply Forall_app. split; [by apply unsigned_ok|]. apply attr_bytes_ok, hmac_bytes. Qed.

Lemma zlen_fingerprint m : zlen (attr_bytes STUN_FINGERPRINT (fingerprint m)) = 8.
Proof. by rewrite zlen_attr by done. Qed.

Lemma put_fingerprint_written w : bytes_ok w -> zlen w <= 8184 ->
  put_fingerprint_attribute (written w) = Done (written (w ++ attr_bytes STUN_FINGERPRINT (fingerprint w))).
Proof.
  intros Hw Hl. unfold put_fingerprint_attribute.
  rewrite (GetCrc32_spec w _ Hw : GetCrc32 (written w).1 (written w).2 = _). simpl_m.
  do 2 (rewrite put_written by zl; simpl_m). rewrite put_written by zl. unfold attr_bytes. by rewrite <- !app_assoc.
Qed.

Lemma set_length_unsigned pkt rest n m : zlen (transaction_id_ pkt) = 12 ->
  write_at (written (unsigned pkt n ++ rest)).1 2 (Write2Bytes (u16 m)) = Done (written (unsigned pkt m ++ rest)).1.
Proof. intros Hid. unfold unsigned. rewrite <- !app_assoc. by apply set_length. Qed.

Lemma put_integrity_written ctx pkt : packet_ok pkt ->
  exists ctx', put_message_integrity_attribute ctx (password_ pkt) (zlen (attributes pkt) + 52) (written (unsigned pkt 0)) =
    Done (Some ((written (signed pkt)).1, zlen (signed pkt), zlen (attributes pkt) + 24), ctx').
Proof.
  intros Hp. pose proof Hp as (Hf & Hid & _). destruct (attributes_length pkt Hf) as [_ Hl].
  unfold put_message_integrity_attribute. pose proof (set_length_unsigned pkt [] 0 (zlen (attributes pkt) + 52 - 20 - 8) Hid) as Hs.
  rewrite !app_nil_r in Hs. rewrite Hs. simpl_m. set (n := zlen (attributes pkt) + 52 - 20 - 8) in *.
  assert (n = zlen (attributes pkt) + 24) as Hn by lia.
  destruct (GetHmacSha1_spec ctx (password_ pkt) (unsigned pkt n) (replicate (Z.to_nat (8192 - zlen (unsigned pkt n))) 0)) as (ctx' & Hg).
  assert (zlen (unsigned pkt n) = zlen (unsigned pkt 0)) as Hz by by rewrite !zlen_unsigned.
  exists ctx'. change (written (unsigned pkt 0)).2 with (zlen (unsigned pkt 0)). rewrite <- Hz.
  change (GetHmacSha1 ctx (password_ pkt) (written (unsigned pkt n)).1 (zlen (unsigned pkt n)) = Done (Some (hmac (password_ pkt) (unsigned pkt n)), ctx')) in Hg.
  rewrite Hg. simpl_m. change ((written (unsigned pkt n)).1, zlen (unsigned pkt n)) with (written (unsigned pkt n)).
  rewrite Hn. fold (integrity pkt). set (d := integrity pkt). assert (zlen d = 20) as Hd by apply hmac_length.
  pose proof (zlen_unsigned pkt (zlen (attributes pkt) + 24) Hid) as Hu.
  do 2 (rewrite put_written by zl; simpl_m). rewrite put_written by zl. simpl_m.
  rewrite <- !app_assoc, set_length_unsigned by done. simpl_m. unfold signed, STUN_HEADER_SIZE.
  replace (zlen (attributes pkt) + 52 - 20) with (zlen (attributes pkt) + 32) by lia. fold d.
  assert (attr_bytes STUN_MESSAGE_INTEGRITY d = Write2Bytes STUN_MESSAGE_INTEGRITY ++ Write2Bytes 20 ++ d) as ->
    by (unfold attr_bytes; rewrite Hd; by rewrite app_nil_r).
  unfold written. cbn [fst snd]. rewrite <- !app_assoc. do 5 f_equal; zl.
Qed.

(** The packet after the call. *)
Definition sent (pkt : StunPacket) (m : bytes) (pos : option Z) : StunPacket :=
  put_data (written m).1 (put_data_len (zlen m) (put_message_integrity pos pkt)).

Lemma zlen_signed pkt : zlen (transaction_id_ pkt) = 12 -> zlen (signed pkt) = zlen (attributes pkt) + 44.
Proof. intros Hid. unfold signed. rewrite zlen_app, zlen_integrity, zlen_unsigned; lia. Qed.

Lemma zlen_signed_message pkt : zlen (transaction_id_ pkt) = 12 -> zlen (signed_message pkt) = zlen (attributes pkt) + 52.
Proof. intros Hid. unfold signed_message. rewrite zlen_app, zlen_fingerprint, zlen_signed; lia. Qed.

Lemma Serialize_signed ctx pkt : packet_ok pkt -> add_msg_integrity_ pkt = true ->
  exists ctx', Serialize ctx pkt =
    Done (Some (zlen (signed_message pkt), sent pkt (signed_message pkt) (Some (zlen (attributes pkt) + 24))), ctx').
Proof.
  intros Hp Hm. pose proof Hp as (Hf & Hid & Hb & Hu). destruct (attributes_length pkt Hf) as [Hs Hl].
  rewrite Hm in Hs. unfold Serialize. rewrite put_parts by done. simpl_m. rewrite Hm, <- Hs.
  replace (20 + zlen (attributes pkt) + 24 + 8) with (zlen (attributes pkt) + 52) by lia.
  destruct (put_integrity_written ctx pkt Hp) as (ctx' & E). fold (unsigned pkt 0). rewrite E. simpl_m.
  change ((written (signed pkt)).1, zlen (signed pkt)) with (written (signed pkt)).
  rewrite put_fingerprint_written; [|by apply signed_ok|rewrite zlen_signed; lia]. simpl_m.
  unfold signed at 1. rewrite <- app_assoc, set_length_unsigned by done. simpl_m. exists ctx'.
  unfold sent. rewrite zlen_signed_message by done. unfold STUN_HEADER_SIZE.
  replace (zlen (attributes pkt) + 52 - 20) with (zlen (attributes pkt) + 32) by lia.
  unfold signed_message, signed. by rewrite <- app_assoc.
Qed.

Lemma zlen_plain_message pkt : zlen (transaction_id_ pkt) = 12 -> zlen (plain_message pkt) = zlen (attributes pkt) + 28.
Proof. intros Hid. unfold plain_message. rewrite zlen_app, zlen_fingerprint, zlen_unsigned; lia. Qed.

Lemma Serialize_plain ctx pkt : packet_ok pkt -> add_msg_integrity_ pkt = false ->
  Serialize ctx pkt = Done (Some (zlen (plain_message pkt), sent pkt (plain_message pkt) None), ctx).
Proof.
  intros Hp Hm. pose proof Hp as (Hf & Hid & Hb & Hu). destruct (attributes_length pkt Hf) as [Hs Hl].
  rewrite Hm in Hs. unfold Serialize. rewrite put_parts by done. simpl_m. rewrite Hm, <- Hs. simpl_m. fold (unsigned pkt 0).
  rewrite put_fingerprint_written; [|by apply unsigned_ok|rewrite zlen_unsigned; lia]. simpl_m.
  rewrite set_length_unsigned by done. simpl_m.
  unfold sent. rewrite zlen_plain_message by done. unfold STUN_HEADER_SIZE.
  replace (20 + zlen (attributes pkt) + 0 + 8 - 20) with (zlen (attributes pkt) + 8) by lia.
  by replace (20 + zlen (attributes pkt) + 0 + 8) with (zlen (attributes pkt) + 28) by lia.
Qed.
End message.

(** *** [Parse] on such messages *)

(** What [Parse] makes of the attributes before the integrity. *)
Definition with_attributes (pkt q : StunPacket) : StunPacket :=
  let q := if bool_decide (username_ pkt = []) then q else put_username (username_ pkt) q in
  let q := if priority_ pkt =? 0 then q else put_priority (u32 (priority_ pkt)) q in
  if has_use_candidate_ pkt then put_has_use_candidate true q else q.

Ltac attr_case := unfold attribute; cbn [Z.eqb Pos.eqb negb STUN_USERNAME STUN_PRIORITY STUN_USE_CANDIDATE STUN_MESSAGE_INTEGRITY STUN_FINGERPRINT STUN_ICE_CONTROLLED STUN_ICE_CONTROLLING STUN_ERROR_CODE STUN_XOR_MAPPED_ADDRESS].

Lemma parse_username fuel a b pkt q len : zlen (username_ pkt) <= 65532 -> b <> [] -> len = zlen (a ++ username_part pkt ++ b) ->
  exists fuel', (fuel <= fuel')%nat /\
  parse_attributes (S fuel) (a ++ username_part pkt ++ b) len (zlen a) (mkParsing q false false 0) =
  parse_attributes fuel' (a ++ username_part pkt ++ b) len (zlen (a ++ username_part pkt))
    (mkParsing (if bool_decide (username_ pkt = []) then q else put_username (username_ pkt) q) false false 0).
Proof.
  intros Hu Hb Hlen. unfold username_part in *. case_bool_decide; [exists (S fuel); split; [lia|by rewrite app_nil_r]|].
  exists fuel. split; [lia|]. rewrite parse_attribute by (done || auto). attr_case. rewrite attr_value.
  rewrite (read_range_mid [] (username_ pkt) _ : read_range (username_ pkt ++ _) 0 _ = _). by simpl_m.
Qed.

Lemma parse_priority fuel a b pkt q len : b <> [] -> len = zlen (a ++ priority_part pkt ++ b) ->
  exists fuel', (fuel <= fuel')%nat /\
  parse_attributes (S fuel) (a ++ priority_part pkt ++ b) len (zlen a) (mkParsing q false false 0) =
  parse_attributes fuel' (a ++ priority_part pkt ++ b) len (zlen (a ++ priority_part pkt))
    (mkParsing (if priority_ pkt =? 0 then q else put_priority (u32 (priority_ pkt)) q) false false 0).
Proof.
  intros Hb Hlen. unfold priority_part in *. case_match; [exists (S fuel); split; [lia|by rewrite app_nil_r]|].
  exists fuel. split; [lia|]. rewrite parse_attribute by (done || auto). rewrite zlen_Write4Bytes. attr_case.
  rewrite attr_value, Read4Bytes_Write4Bytes. by simpl_m.
Qed.

Lemma parse_candidate fuel a b pkt q len : b <> [] -> len = zlen (a ++ candidate_part pkt ++ b) ->
  exists fuel', (fuel <= fuel')%nat /\
  parse_attributes (S fuel) (a ++ candidate_part pkt ++ b) len (zlen a) (mkParsing q false false 0) =
  parse_attributes fuel' (a ++ candidate_part pkt ++ b) len (zlen (a ++ candidate_part pkt))
    (mkParsing (if has_use_candidate_ pkt then put_has_use_candidate true q else q) false false 0).
Proof.
  intros Hb Hlen. unfold candidate_part in *. case_match; [|exists (S fuel); split; [lia|by rewrite app_nil_r]].
  exists fuel. split; [lia|]. rewrite parse_attribute by (done || auto). attr_case. by simpl_m.
Qed.

Lemma parse_parts fuel h b pkt q len : fits pkt -> b <> [] -> len = zlen ((h ++ attributes pkt) ++ b) ->
  exists fuel', (fuel <= fuel')%nat /\
  parse_attributes (3 + fuel) ((h ++ attributes pkt) ++ b) len (zlen h) (mkParsing q false false 0) =
  parse_attributes fuel' ((h ++ attributes pkt) ++ b) len (zlen (h ++ attributes pkt)) (mkParsing (with_attributes pkt q) false false 0).
Proof.
  intros Hf Hb Hlen. unfold fits in Hf. unfold attributes in *.
  assert (forall (x y : bytes), y <> [] -> x ++ y <> []) as Hne by (intros [|] [|]; done).
  replace ((h ++ username_part pkt ++ priority_part pkt ++ candidate_part pkt) ++ b)
    with (h ++ username_part pkt ++ (priority_part pkt ++ candidate_part pkt ++ b)) in * by by rewrite <- !app_assoc.
  destruct (parse_username (2 + fuel) h (priority_part pkt ++ candidate_part pkt ++ b) pkt q len) as (f1 & Hf1 & E1); [lia|auto|done|].
  cbn [Nat.add] in *. rewrite E1. destruct f1 as [|f1]; [lia|].
  rewrite (app_assoc h) in *.
  destruct (parse_priority f1 (h ++ username_part pkt) (candidate_part pkt ++ b) pkt
    (if bool_decide (username_ pkt = []) then q else put_username (username_ pkt) q) len) as (f2 & Hf2 & E2); [auto|done|].
  rewrite E2. destruct f2 as [|f2]; [lia|]. rewrite (app_assoc (h ++ _)) in *.
  destruct (parse_candidate f2 ((h ++ username_part pkt) ++ priority_part pkt) b pkt
    (if priority_ pkt =? 0 then if bool_decide (username_ pkt = []) then q else put_username (username_ pkt) q
     else put_priority (u32 (priority_ pkt)) (if bool_decide (username_ pkt = []) then q else put_username (username_ pkt) q)) len) as (f3 & Hf3 & E3); [auto|done|].
  rewrite E3. exists f3. split; [lia|]. by rewrite <- !app_assoc.
Qed.

(** The integrity and the fingerprint. *)
Lemma parse_integrity fuel a d b q len : zlen d = 20 -> len = zlen (a ++ attr_bytes STUN_MESSAGE_INTEGRITY d ++ b) ->
  parse_attributes (S fuel) (a ++ attr_bytes STUN_MESSAGE_INTEGRITY d ++ b) len (zlen a) (mkParsing q false false 0) =
  parse_attributes fuel (a ++ attr_bytes STUN_MESSAGE_INTEGRITY d ++ b) len (zlen (a ++ attr_bytes STUN_MESSAGE_INTEGRITY d))
    (mkParsing (put_message_integrity (Some (zlen a + 4)) q) false true 0).
Proof.
  intros Hd Hlen. rewrite parse_attribute; [|done..| | |done|done|done]; [|lia|left; by intros ->]. rewrite Hd. attr_case. by simpl_m.
Qed.

Lemma parse_fingerprint fuel a v q mi len : len = zlen (a ++ attr_bytes STUN_FINGERPRINT (Write4Bytes v)) ->
  parse_attributes (S (S fuel)) (a ++ attr_bytes STUN_FINGERPRINT (Write4Bytes v)) len (zlen a) (mkParsing q false mi 0) =
  Done (Some (mkParsing (put_fingerprint (u32 v) q) true mi (zlen a), len)).
Proof.
  intros Hlen. pose proof (parse_attribute (S fuel) a STUN_FINGERPRINT (Write4Bytes v) [] (mkParsing q false mi 0) len) as E.
  rewrite !app_nil_r in E. rewrite E; [|done..|by left|done|done|done]. clear E. rewrite zlen_Write4Bytes. attr_case.
  pose proof (attr_value a STUN_FINGERPRINT (Write4Bytes v) []) as Hv. rewrite !app_nil_r in Hv. rewrite Hv.
  rewrite (Read4Bytes_Write4Bytes v [] : Read4Bytes (Write4Bytes v) = _). simpl_m.
  cbn [parse_attributes]. rewrite <- Hlen. destruct (Z.ltb_spec (len + 4) len); [lia|]. simpl_m. do 4 f_equal. lia.
Qed.
