(* ===== verification/StunRun.v ===== *)
(** * [StunRun]: STUN messages from [Serialize] to [Parse]

    A message with an integrity comes out of [Parse] as it went in; a message
    without one is refused, since its fingerprint is computed before its length is
    known; and [Parse] answers on every datagram its buffer can hold. *)
From S2P Require Import Prelude ByteStream Ends ByteCrypto Stun.

(** What [Parse] starts from, and what it makes of the fields. *)
Definition received (mem m id : bytes) : StunPacket :=
  mkStun (m ++ drop (Z.to_nat (zlen m)) mem) (zlen m) STUN_REQUEST BINDING id None [] [] 0 0 0 0 0 None false false false.

(** The end of [Parse], behind the loop. *)
Definition conclude (m : bytes) (r : option (parsing * Z)) : outcome (option StunPacket) :=
  match r with
  | None => mret None
  | Some (st, p) =>
      if negb (p =? zlen m) then mret None
      else if has_fingerprint st then
        crc ← GetCrc32 m (fingerprint_pos st);
        if negb (fingerprint_ (ret_packet st) =? Z.lxor crc STUN_XOR) then mret None
        else mret (Some (put_has_fingerprint true (ret_packet st)))
      else mret (Some (ret_packet st))
  end.

Lemma IsStun_header n id rest : zlen id = 12 -> IsStun (header n id ++ rest) (zlen (header n id ++ rest)) = Done true.
Proof.
  intros Hid. unfold IsStun, STUN_HEADER_SIZE. pose proof (zlen_nonneg rest).
  rewrite zlen_app, zlen_header by done. destruct (Z.ltb_spec (20 + zlen rest) 20); [lia|]. reflexivity.
Qed.

Lemma Parse_header mem n id rest : zlen mem = 8192 -> zlen id = 12 -> 0 <= n <= 8172 -> n mod 4 = 0 -> zlen rest = n ->
  let m := header n id ++ rest in
  Parse mem m (zlen m) =
  parse_attributes (S (Z.to_nat (zlen m))) m (zlen m) 20 (mkParsing (received mem m id) false false 0) ≫= conclude m.
Proof.
  intros Hmem Hid Hn Hn4 Hr m. unfold Parse. rewrite (IsStun_header n id rest Hid : IsStun m (zlen m) = _). simpl_m. cbn [negb].
  assert (zlen m = n + 20) as Hm by (unfold m; rewrite zlen_app, zlen_header; lia).
  assert (m = Write2Bytes BINDING ++ Write2Bytes n ++ (magic_cookie ++ id) ++ rest) as Em by (unfold m, header; by rewrite <- !app_assoc).
  rewrite Em at 1. rewrite Read2Bytes_Write2Bytes. simpl_m.
  assert (Read2Bytes (drop 2 m) = Done n) as ->.
  { rewrite Em. change 2%nat with (length (Write2Bytes BINDING)). rewrite drop_app_length, Read2Bytes_Write2Bytes. f_equal. apply u16_small. lia. }
  simpl_m. rewrite (low_mask n 0x03 2) by done. change (2 ^ 2) with 4. rewrite Hn4, Hm. destruct (Z.eqb_spec n (n + 20 - 20)); [|lia].
  cbn [negb orb Z.eqb]. assert (m.[0] = Done 0) as -> by by rewrite Em. assert (m.[1] = Done 1) as -> by by rewrite Em. simpl_m.
  assert (read_range m 8 12 = Done id) as ->.
  { rewrite Em. replace (Write2Bytes BINDING ++ Write2Bytes n ++ (magic_cookie ++ id) ++ rest)
      with ((Write2Bytes BINDING ++ Write2Bytes n ++ magic_cookie) ++ id ++ rest) by (by rewrite <- !app_assoc).
    rewrite <- Hid. apply read_range_mid. }
  simpl_m. unfold new_StunPacket_of.
  pose proof (read_range_mid [] m []) as Er. rewrite app_nil_r in Er. change (read_range m 0 (zlen m) = Done m) in Er. rewrite <- Hm, Er. simpl_m.
  pose proof (write_at_mid [] (take (Z.to_nat (zlen m)) mem) (drop (Z.to_nat (zlen m)) mem) m) as Ew.
  rewrite zlen_take in Ew by lia. specialize (Ew eq_refl). cbn [app] in Ew. rewrite take_drop in Ew.
  change (zlen []) with 0 in Ew. rewrite Ew. simpl_m. reflexivity.
Qed.

Lemma attributes_mod4 pkt : fits pkt -> zlen (attributes pkt) mod 4 = 0.
Proof.
  intros Hf. destruct (attributes_length pkt Hf) as [Hs _]. unfold fits in Hf. pose proof (zlen_nonneg (username_ pkt)).
  rewrite u16_small in Hs by lia. unfold serialized_len, STUN_HEADER_SIZE in Hs.
  pose proof (pad_spec (zlen (username_ pkt)) ltac:(lia)) as Hp. revert Hs. repeat case_match; intros; div_lia.
Qed.

(** [Parse] up to the first attribute behind the common ones. *)
Lemma Parse_common mem pkt tail : zlen mem = 8192 -> fits pkt -> zlen (transaction_id_ pkt) = 12 ->
  4 < zlen tail <= 32 -> zlen tail mod 4 = 0 ->
  let u := unsigned pkt (zlen (attributes pkt) + zlen tail) in
  exists fuel, (6 <= fuel)%nat /\
  Parse mem (u ++ tail) (zlen (u ++ tail)) =
  parse_attributes fuel (u ++ tail) (zlen (u ++ tail)) (zlen u)
    (mkParsing (with_attributes pkt (received mem (u ++ tail) (transaction_id_ pkt))) false false 0) ≫= conclude (u ++ tail).
Proof.
  intros Hmem Hf Hid Ht Ht4 u. assert (tail <> []) as Hne by (destruct tail; [change (zlen []) with 0 in Ht; lia|done]).
  destruct (attributes_length pkt Hf) as [_ Hl].
  pose proof (attributes_mod4 pkt Hf) as H4. pose proof (zlen_nonneg (attributes pkt)) as H0.
  set (L := zlen (attributes pkt)) in *. set (h := header (L + zlen tail) (transaction_id_ pkt)).
  assert (zlen h = 20) as Hh by by apply zlen_header.
  assert (u ++ tail = h ++ (attributes pkt ++ tail)) as Em by (unfold u, unsigned; by rewrite <- app_assoc).
  pose proof (Parse_header mem (L + zlen tail) (transaction_id_ pkt) (attributes pkt ++ tail) Hmem Hid ltac:(lia) ltac:(div_lia) ltac:(apply zlen_app)) as Ep.
  fold h in Ep. cbv zeta in Ep. rewrite <- Em in Ep. rewrite Ep.
  assert (zlen (u ++ tail) = L + zlen tail + 20) as Hm by (rewrite Em, !zlen_app; lia).
  destruct (parse_parts (Z.to_nat (zlen (u ++ tail)) - 2) h tail pkt (received mem (u ++ tail) (transaction_id_ pkt)) (zlen (u ++ tail)))
    as (f & Hf' & E); [done..|].
  replace (S (Z.to_nat (zlen (u ++ tail)))) with (3 + (Z.to_nat (zlen (u ++ tail)) - 2))%nat by lia.
  change (h ++ attributes pkt) with u in E. rewrite Hh in E. rewrite E. exists f. split; [lia|done].
Qed.

(** The last attribute: the fingerprint of [signed], behind [w]. *)
Lemma Parse_fingerprint fuel w signed q mi : bytes_ok w -> bytes_ok signed ->
  let m := w ++ attr_bytes STUN_FINGERPRINT (fingerprint signed) in
  parse_attributes (S (S fuel)) m (zlen m) (zlen w) (mkParsing q false mi 0) ≫= conclude m =
  Done (if decide (crc32_ieee signed = crc32_ieee w)
        then Some (put_has_fingerprint true (put_fingerprint (Z.lxor (crc32_ieee w) STUN_XOR) q)) else None).
Proof.
  intros Hw Hs m. unfold m at 1 2, fingerprint. rewrite parse_fingerprint by done. simpl_m. unfold conclude.
  rewrite Z.eqb_refl. cbn [negb has_fingerprint fingerprint_pos ret_packet]. unfold m. rewrite GetCrc32_spec by done. simpl_m.
  cbn [put_fingerprint fingerprint_].
  assert (u32 (Z.lxor (crc32_ieee signed) STUN_XOR) = Z.lxor (crc32_ieee signed) STUN_XOR) as ->.
  { apply Z.mod_small, lxor_range32; [by apply crc32_ieee_range|done]. }
  destruct (Z.eqb_spec (Z.lxor (crc32_ieee signed) STUN_XOR) (Z.lxor (crc32_ieee w) STUN_XOR)) as [E|E]; cbn [negb].
  - apply lxor_cancel_r in E. rewrite decide_True by done. by rewrite E.
  - rewrite decide_False; [done|]. intros E'. by rewrite E' in E.
Qed.

(** The CRC tells the length fields of two messages apart. *)
Lemma crc_length l r n m : bytes_ok l -> bytes_ok r ->
  crc32_ieee (l ++ Write2Bytes n ++ r) = crc32_ieee (l ++ Write2Bytes m ++ r) -> u16 n = u16 m.
Proof.
  intros Hl Hr Hc.
  destruct (crc32_ieee_pair l (byte_of (u16 n) 1) (byte_of (u16 n) 0) (byte_of (u16 m) 1) (byte_of (u16 m) 0) r) as [H1 H2];
    [done|done|apply byte_of_range..|exact Hc|].
  rewrite !byte_of_div in H1, H2. change (8 * Z.of_nat 1) with 8 in H1. change (8 * Z.of_nat 0) with 0 in H2.
  unfold u16 in *. div_lia.
Qed.

Section run.
Context `{HmacLaws}.

Lemma Parse_signed mem pkt : zlen mem = 8192 -> packet_ok pkt ->
  Parse mem (signed_message pkt) (zlen (signed_message pkt)) =
  Done (Some (put_has_fingerprint true (put_fingerprint (Z.lxor (crc32_ieee (signed pkt)) STUN_XOR)
    (put_message_integrity (Some (zlen (attributes pkt) + 24)) (with_attributes pkt (received mem (signed_message pkt) (transaction_id_ pkt))))))).
Proof.
  intros Hmem Hp. pose proof Hp as (Hf & Hid & Hb & Hu).
  set (mi := attr_bytes STUN_MESSAGE_INTEGRITY (integrity pkt)). set (fp := attr_bytes STUN_FINGERPRINT (fingerprint (signed pkt))).
  assert (zlen (mi ++ fp) = 32) as Ht by (rewrite zlen_app; unfold mi, fp; by rewrite zlen_integrity, zlen_fingerprint).
  destruct (Parse_common mem pkt (mi ++ fp) Hmem Hf Hid ltac:(rewrite Ht; lia) ltac:(by rewrite Ht)) as (fuel & Hfuel & E).
  rewrite Ht in E. set (u := unsigned pkt (zlen (attributes pkt) + 32)) in *.
  assert (u ++ mi ++ fp = signed_message pkt) as Em by (unfold signed_message; fold fp; unfold signed; fold mi; fold u; by rewrite <- app_assoc).
  rewrite <- Em, E. destruct fuel as [|[|[|fuel]]]; [lia..|].
  unfold mi. rewrite parse_integrity; [|apply hmac_length|done]. fold mi.
  rewrite app_assoc. change (u ++ mi) with (signed pkt). unfold fp. rewrite Parse_fingerprint by by apply signed_ok.
  rewrite decide_True by done.
  by replace (zlen u + 4) with (zlen (attributes pkt) + 24) by (unfold u; rewrite zlen_unsigned by done; lia).
Qed.

Lemma Parse_plain mem pkt : zlen mem = 8192 -> packet_ok pkt ->
  Parse mem (plain_message pkt) (zlen (plain_message pkt)) = Done None.
Proof.
  intros Hmem Hp. pose proof Hp as (Hf & Hid & Hb & Hu). destruct (attributes_length pkt Hf) as [_ Hl].
  set (fp := attr_bytes STUN_FINGERPRINT (fingerprint (unsigned pkt 0))).
  assert (zlen fp = 8) as Ht by apply zlen_fingerprint.
  destruct (Parse_common mem pkt fp Hmem Hf Hid ltac:(rewrite Ht; lia) ltac:(by rewrite Ht)) as (fuel & Hfuel & E).
  rewrite Ht in E. unfold plain_message. fold fp. rewrite E. destruct fuel as [|[|fuel]]; [lia..|].
  unfold fp. rewrite Parse_fingerprint by by apply unsigned_ok. rewrite decide_False; [done|].
  unfold unsigned, header. rewrite <- !app_assoc. intros Hc. apply crc_length in Hc.
  - pose proof (zlen_nonneg (attributes pkt)). unfold u16 in Hc. change (0 mod 2 ^ 16) with 0 in Hc. rewrite Z.mod_small in Hc; lia.
  - by repeat constructor.
  - apply Forall_app. split; [by repeat constructor|]. apply Forall_app. split; [done|by apply attributes_ok].
Qed.
End run.

(** ** [Parse] answers *)

Lemma read_range_done data off n : 0 <= off -> 0 <= n -> off + n <= zlen data -> exists d, read_range data off n = Done d /\ zlen d = n.
Proof.
  intros. unfold read_range. rewrite bool_decide_eq_true_2 by lia. eexists. split; [done|].
  rewrite zlen_take; [done|]. rewrite zlen_drop; lia.
Qed.

Lemma Read2Bytes_done p : 2 <= zlen p -> bytes_ok p -> exists v, Read2Bytes p = Done v /\ 0 <= v < 2 ^ 16.
Proof.
  intros Hl Hp. destruct (Read2Bytes_cases p) as [(v & E & _)|E].
  - pose proof (ends_Read2Bytes_range p Hp) as H. rewrite E in H. by exists v.
  - exfalso. revert E. unfold Read2Bytes. destruct (rd_done p 0) as (a & ->); [lia|]. destruct (rd_done p 1) as (b & ->); [lia|done].
Qed.

Lemma Read4Bytes_done p : 4 <= zlen p -> exists v, Read4Bytes p = Done v.
Proof.
  intros Hl. unfold Read4Bytes. destruct (rd_done p 0) as (? & ->); [lia|]. destruct (rd_done p 1) as (? & ->); [lia|].
  destruct (rd_done p 2) as (? & ->); [lia|]. destruct (rd_done p 3) as (? & ->); [lia|]. by eexists.
Qed.

Lemma Read8Bytes_done p : 8 <= zlen p -> exists v, Read8Bytes p = Done v.
Proof.
  intros Hl. unfold Read8Bytes. destruct (rd_done p 0) as (? & ->); [lia|]. destruct (rd_done p 1) as (? & ->); [lia|].
  destruct (rd_done p 2) as (? & ->); [lia|]. destruct (rd_done p 3) as (? & ->); [lia|]. destruct (rd_done p 4) as (? & ->); [lia|].
  destruct (rd_done p 5) as (? & ->); [lia|]. destruct (rd_done p 6) as (? & ->); [lia|]. destruct (rd_done p 7) as (? & ->); [lia|]. by eexists.
Qed.

Lemma xor_mapped_done d pkt : 8 <= zlen d -> exists q, xor_mapped_address d pkt = Done q.
Proof.
  intros Hd. unfold xor_mapped_address. destruct (read_range_done d 0 8) as (ip & -> & Hip); [lia..|]. simpl_m.
  do 8 (destruct ip as [|? ip]; [done|]). destruct ip; [|rewrite !zlen_cons in Hip; pose proof (zlen_nonneg ip); lia].
  by eexists.
Qed.

(** The part of the state that the end of [Parse] uses to address the message. *)
Definition parsing_ok (len : Z) (st : parsing) : Prop := 0 <= fingerprint_pos st <= len.

Lemma attribute_done t n data pos st : 0 <= n -> 4 <= pos -> pos + n <= zlen data -> parsing_ok (zlen data) st ->
  exists r, attribute t n data pos st = Done r /\ forall st', r = Some st' -> parsing_ok (zlen data) st'.
Proof.
  intros Hn Hpos Hl Hst. unfold attribute. set (d := drop (Z.to_nat pos) data).
  assert (zlen d = zlen data - pos) as Hd by (apply zlen_drop; lia).
  assert (forall st', (exists r, @Done (option parsing) (Some st') = Done r /\ (forall s, r = Some s -> parsing_ok (zlen data) s)) <-> parsing_ok (zlen data) st') as Hsome.
  { intros st'. split; [intros (r & [= <-] & Hr); by apply Hr|intros Ho; exists (Some st'); split; [done|by intros ? [= <-]]]. }
  assert (exists r, @Done (option parsing) None = Done r /\ (forall s, r = Some s -> parsing_ok (zlen data) s)) as Hnone by (by exists None).
  repeat (match goal with |- context [if ?b then _ else _] => destruct b eqn:? end; simpl_m; try done; try by apply Hsome).
  all: repeat match goal with H : negb _ = false |- _ => apply negb_false_iff, Z.eqb_eq in H end.
  - destruct (read_range_done d 0 n) as (v & -> & _); [lia..|]. by apply Hsome.
  - destruct (Read4Bytes_done d) as (v & ->); [lia|]. by apply Hsome.
  - destruct (Read8Bytes_done d) as (v & ->); [lia|]. by apply Hsome.
  - destruct (Read8Bytes_done d) as (v & ->); [lia|]. by apply Hsome.
  - destruct (Read4Bytes_done d) as (v & ->); [lia|]. apply Hsome. unfold parsing_ok. cbn. lia.
  - destruct (rd_done d 2) as (? & ->); [lia|]. destruct (rd_done d 3) as (? & ->); [lia|]. by apply Hsome.
  - destruct (xor_mapped_done d (ret_packet st)) as (v & ->); [lia|]. by apply Hsome.
Qed.

Lemma parse_attributes_done data : bytes_ok data -> forall fuel p st, 0 <= p -> (Z.to_nat (zlen data - p) < fuel)%nat -> parsing_ok (zlen data) st ->
  exists r, parse_attributes fuel data (zlen data) p st = Done r /\ forall st' p', r = Some (st', p') -> parsing_ok (zlen data) st'.
Proof.
  intros Hok fuel. induction fuel as [|fuel IH]; intros p st Hp Hf Hst; [lia|]. cbn [parse_attributes].
  destruct (Z.ltb_spec (p + 4) (zlen data)); [|eexists; split; [done|by intros ? ? [= <- <-]]].
  destruct (Read2Bytes_done (drop (Z.to_nat p) data)) as (t & -> & Ht); [rewrite zlen_drop; lia|by apply Forall_drop|]. simpl_m.
  destruct (Read2Bytes_done (drop (Z.to_nat (p + 2)) data)) as (n & -> & Hn); [rewrite zlen_drop; lia|by apply Forall_drop|]. simpl_m.
  assert (exists r, @Done (option (parsing * Z)) None = Done r /\ (forall s p', r = Some (s, p') -> parsing_ok (zlen data) s)) as Hnone by (by exists None).
  destruct (Z.ltb_spec (zlen data) (p + 4 + n)); [done|]. destruct (has_fingerprint st); [done|].
  destruct (has_message_integrity st && negb (t =? STUN_FINGERPRINT)); [done|].
  destruct (attribute_done t n data (p + 4) st) as (r & -> & Hr); [lia..|done|]. simpl_m.
  destruct r as [st'|]; [|done].
  assert (0 <= PadTo4Bytes16 n) as Hpad.
  { unfold PadTo4Bytes16, u16. case_match; [lia|]. apply Z.mod_pos_bound. lia. }
  apply IH; [lia|lia|by apply Hr].
Qed.

Lemma GetCrc32_done data n : bytes_ok data -> 0 <= n <= zlen data -> exists c, GetCrc32 data n = Done c.
Proof.
  intros Hd Hn. pose proof (GetCrc32_spec (take (Z.to_nat n) data) (drop (Z.to_nat n) data)) as E.
  rewrite zlen_take, take_drop in E by done. eexists. by apply E, Forall_take.
Qed.

Lemma IsStun_done data : exists b, IsStun data (zlen data) = Done b /\ (b = true -> 20 <= zlen data).
Proof.
  unfold IsStun, STUN_HEADER_SIZE. destruct (Z.ltb_spec (zlen data) 20); [by exists false|].
  destruct (rd_done data 0) as (? & ->); [lia|]. simpl_m. case_match; [by exists false|].
  destruct (rd_done data 4) as (? & ->); [lia|]. simpl_m. case_match; [by exists false|].
  destruct (rd_done data 5) as (? & ->); [lia|]. simpl_m. case_match; [by exists false|].
  destruct (rd_done data 6) as (? & ->); [lia|]. simpl_m. case_match; [by exists false|].
  destruct (rd_done data 7) as (? & ->); [lia|]. simpl_m. by eexists.
Qed.

(** C17. On every datagram [Parse] answers, with a packet or with an exception, and reads only inside the datagram;
    the one fault is the copy of a datagram longer than the 8192 bytes of the packet's buffer. *)
Theorem stun_parse_safe mem data : zlen mem = 8192 -> bytes_ok data ->
  (exists r, Parse mem data (zlen data) = Done r) \/ (Parse mem data (zlen data) = Fault OutOfBounds /\ 8192 < zlen data).
Proof.
  intros Hmem Hd. unfold Parse. destruct (IsStun_done data) as (b & -> & Hb). simpl_m. destruct b; [|left; by eexists].
  specialize (Hb eq_refl). cbn [negb].
  destruct (Read2Bytes_done data) as (t & -> & _); [lia|done|]. simpl_m.
  destruct (Read2Bytes_done (drop 2 data)) as (n & -> & _); [change 2%nat with (Z.to_nat 2); rewrite zlen_drop; lia|by apply Forall_drop|]. simpl_m.
  case_match; [left; by eexists|]. destruct (rd_done data 0) as (d0 & ->); [lia|]. destruct (rd_done data 1) as (d1 & ->); [lia|]. simpl_m.
  destruct (read_range_done data 8 12) as (id & -> & _); [lia..|]. simpl_m. unfold new_StunPacket_of.
  destruct (read_range_done data 0 (zlen data)) as (d & -> & Hdl); [pose proof (zlen_nonneg data); lia..|]. simpl_m.
  destruct (Z.leb_spec (zlen data) 8192).
  2: { right. split; [|done]. unfold write_at. by rewrite bool_decide_eq_false_2 by lia. }
  left. unfold write_at. rewrite bool_decide_eq_true_2 by lia. simpl_m.
  match goal with |- context [parse_attributes ?f data ?l ?p ?st] =>
    destruct (parse_attributes_done data Hd f p st) as (r & -> & Hr); [done|unfold STUN_HEADER_SIZE; lia|unfold parsing_ok; cbn; lia|] end.
  simpl_m. destruct r as [[st p]|]; [|by eexists]. case_match; [by eexists|]. case_match; [|by eexists].
  destruct (GetCrc32_done data (fingerprint_pos st) Hd) as (c & ->); [by apply (Hr st p)|]. simpl_m. case_match; by eexists.
Qed.

Lemma stun_parse_safe_witness :
  (exists r, Parse (replicate (Z.to_nat 8192) 0) (header 4 (replicate 12 7) ++ [0; 0; 0; 0]) 24 = Done r) \/
  (Parse (replicate (Z.to_nat 8192) 0) (header 4 (replicate 12 7) ++ [0; 0; 0; 0]) 24 = Fault OutOfBounds /\ 8192 < 24).
Proof.
  apply (stun_parse_safe (replicate (Z.to_nat 8192) 0) (header 4 (replicate 12 7) ++ [0; 0; 0; 0])); [by apply zlen_replicate|].
  apply (bool_decide_unpack _). vm_compute. exact I.
Defined.

(** ** From [Serialize] to [Parse] *)

(** The datagram a packet's buffer holds. *)
Definition datagram (n : Z) (pkt : StunPacket) : bytes := take (Z.to_nat n) (data_ pkt).

Lemma datagram_sent pkt m pos : datagram (zlen m) (sent pkt m pos) = m.
Proof. unfold datagram, sent, written. cbn [fst]. apply take_zlen_app. Qed.

Lemma with_attributes_fields pkt q : username_ q = [] -> priority_ q = 0 -> has_use_candidate_ q = false ->
  let r := with_attributes pkt q in
  stun_class_ r = stun_class_ q /\ stun_method_ r = stun_method_ q /\ transaction_id_ r = transaction_id_ q /\
  username_ r = username_ pkt /\ priority_ r = u32 (priority_ pkt) /\ has_use_candidate_ r = has_use_candidate_ pkt.
Proof.
  intros Hu Hp Hc. unfold with_attributes. destruct (bool_decide_reflect (username_ pkt = [])) as [Eu|Eu];
    destruct (Z.eqb_spec (priority_ pkt) 0) as [Ep|Ep]; destruct (has_use_candidate_ pkt); cbn; rewrite ?Eu, ?Ep; by rewrite ?Hu, ?Hp, ?Hc.
Qed.

Section roundtrip.
Context `{HmacLaws}.

Lemma integrity_covers pkt : zlen (transaction_id_ pkt) = 12 ->
  read_range (signed_message pkt) (zlen (attributes pkt) + 24) 20 = Done (integrity pkt).
Proof.
  intros Hid. set (n := zlen (attributes pkt)).
  assert (zlen (integrity pkt) = 20) as Hi by apply hmac_length.
  set (a := unsigned pkt (n + 32) ++ Write2Bytes STUN_MESSAGE_INTEGRITY ++ Write2Bytes (zlen (integrity pkt))).
  assert (exists c, signed_message pkt = a ++ integrity pkt ++ c) as (c & ->).
  { eexists. unfold signed_message, signed, a. rewrite <- !app_assoc. unfold attr_bytes at 1. rewrite <- !app_assoc. reflexivity. }
  rewrite <- Hi. replace (n + 24) with (zlen a); [apply read_range_mid|].
  unfold a. rewrite !zlen_app, zlen_unsigned, !zlen_Write2Bytes by done. fold n. lia.
Qed.

(** C16. A binding request with an integrity, written by [Serialize] and sent, is accepted by [Parse], which finds
    the transaction, the user name, the priority, the candidate flag and a valid fingerprint; both sides see the
    integrity at the same place, and it is the MAC, under the password, of the message before it with the length
    that ends behind it. *)
Theorem stun_roundtrip ctx mem pkt : packet_ok pkt -> add_msg_integrity_ pkt = true -> zlen mem = 8192 ->
  exists ctx' n pkt' q, Serialize ctx pkt = Done (Some (n, pkt'), ctx') /\
    Parse mem (datagram n pkt') n = Done (Some q) /\
    stun_class_ q = STUN_REQUEST /\ stun_method_ q = BINDING /\ transaction_id_ q = transaction_id_ pkt /\
    username_ q = username_ pkt /\ priority_ q = u32 (priority_ pkt) /\ has_use_candidate_ q = has_use_candidate_ pkt /\
    has_fingerprint_ q = true /\
    exists pos, message_integrity_ pkt' = Some pos /\ message_integrity_ q = Some pos /\
      read_range (datagram n pkt') pos 20 = Done (hmac (password_ pkt) (unsigned pkt pos)).
Proof.
  intros Hp Hm Hmem. pose proof Hp as (_ & Hid & _). destruct (Serialize_signed ctx pkt Hp Hm) as (ctx' & Es).
  exists ctx'. do 3 eexists. split; [exact Es|]. rewrite datagram_sent. split; [by apply Parse_signed|].
  destruct (with_attributes_fields pkt (received mem (signed_message pkt) (transaction_id_ pkt))) as (F1 & F2 & F3 & F4 & F5 & F6); [done..|].
  split_and!; [done..|]. eexists. split; [done|]. split; [done|]. by rewrite integrity_covers.
Qed.

(** C40. A packet serialized without an integrity is refused by every receiver that runs [Parse]: its fingerprint is the
    CRC of a message whose length field is still zero. *)
Theorem stun_without_integrity_refused ctx mem pkt : packet_ok pkt -> add_msg_integrity_ pkt = false -> zlen mem = 8192 ->
  exists n pkt', Serialize ctx pkt = Done (Some (n, pkt'), ctx) /\ Parse mem (datagram n pkt') n = Done None.
Proof.
  intros Hp Hm Hmem. do 2 eexists. split; [by apply Serialize_plain|]. rewrite datagram_sent. by apply Parse_plain.
Qed.
End roundtrip.

(** ** A concrete run *)

(** A digest that mixes the key and the message; the context collects both. *)
#[local] Instance toy_hmac : HmacSha1 := {
  HMAC_CTX := bytes;
  HMAC_Init_ex _ key := (1, key);
  HMAC_Update ctx d := (1, ctx ++ d);
  HMAC_Final ctx := (1, be_bytes 20 (be_value ctx), ctx)
}.
#[local] Instance toy_laws : HmacLaws toy_hmac.
Proof.
  refine {| hmac key d := be_bytes 20 (be_value (key ++ d)) |}.
  - intros. apply be_bytes_ok.
  - intros. reflexivity.
  - intros ctx key d. by split_and!.
Defined.

Definition some_request (integrity : bool) : StunPacket :=
  mkStun [] 0 0 0 [1; 2; 3; 4; 5; 6; 7; 8; 9; 10; 11; 12] None (str "remote:local") (str "password") 0 100 0 0 0 None true integrity false.

Lemma some_request_ok b : packet_ok (some_request b).
Proof. split; [done|]. split; [done|]. split; apply (bool_decide_unpack _); vm_compute; exact I. Qed.

Lemma stun_roundtrip_witness : exists ctx' n pkt' q,
  @Serialize toy_hmac [] (some_request true) = Done (Some (n, pkt'), ctx') /\
  Parse (replicate (Z.to_nat 8192) 0) (datagram n pkt') n = Done (Some q) /\ username_ q = str "remote:local" /\ priority_ q = 100.
Proof.
  destruct (@stun_roundtrip toy_hmac toy_laws [] (replicate (Z.to_nat 8192) 0) (some_request true)) as (c & n & p & q & H1 & H2 & _ & _ & _ & H3 & H4 & _);
    [apply some_request_ok|done|by apply zlen_replicate|].
  exists c, n, p, q. by split_and!.
Defined.

Lemma stun_without_integrity_refused_witness : exists n pkt',
  @Serialize toy_hmac [] (some_request false) = Done (Some (n, pkt'), []) /\
  Parse (replicate (Z.to_nat 8192) 0) (datagram n pkt') n = Done None.
Proof.
  apply (@stun_without_integrity_refused toy_hmac [] (replicate (Z.to_nat 8192) 0) (some_request false));
    [apply some_request_ok|done|by apply zlen_replicate].
Defined.
