(* ===== verification/PeerIce.v ===== *)
(** * [PeerIce]: the datagrams of a peer connection, and its connectivity checks

    Models [SendStun], [OnRead] and the timer of
    [src/net/webrtc/peerconnection.cpp], [IsDtls] of [dtls.cpp] and [GetIpStr] of
    [src/utils/ipaddress.hpp], over the media path of [PeerConnection].  The SRTP
    session and [inet_ntop] are parameters; what goes to the socket, to DTLS and to
    the reports is the log [ice_log].  [None] is an exception. *)
From S2P Require Import Prelude ByteStream Ends DataBuffer Rtcp PeerConnection.
From S2P Require Import ByteCrypto Stun StunRun.

Inductive ICE_NET_TYPE := ICE_NET_UNKNOWN | ICE_TCP | ICE_UDP.
#[export] Instance ICE_NET_TYPE_eq_dec : EqDecision ICE_NET_TYPE.
Proof. solve_decision. Defined.
Record IceInfo := mkIceInfo { net_type : ICE_NET_TYPE; hostip : bytes; port : Z }.

(** The members of [RtcDtls] the checks use. *)
Record IceSetup := mkIceSetup {
  ice_infos : list IceInfo;
  remote_fragment_ : bytes;
  local_fragment_ : bytes;
  remote_pwd_ : bytes
}.

Inductive ice_event :=
  | Written (data : bytes) (ip : bytes) (port : Z)   (** [udp_client_->Write] *)
  | StunReady                                        (** the report *)
  | DtlsStarted
  | DtlsData (data : bytes).

Record PeerIce := mkPeerIce {
  pi_peer : PeerConnection;
  pi_setup : IceSetup;
  last_stun_ms_ : Z;
  pc_ipaddr_str_ : bytes;
  pc_udp_port_ : Z;
  ice_log : list ice_event
}.
Definition put_last_stun_ms (v : Z) (s : PeerIce) : PeerIce :=
  mkPeerIce (pi_peer s) (pi_setup s) v (pc_ipaddr_str_ s) (pc_udp_port_ s) (ice_log s).
Definition put_peer (v : PeerConnection) (s : PeerIce) : PeerIce :=
  mkPeerIce v (pi_setup s) (last_stun_ms_ s) (pc_ipaddr_str_ s) (pc_udp_port_ s) (ice_log s).
Definition put_address (ip : bytes) (port : Z) (s : PeerIce) : PeerIce :=
  mkPeerIce (pi_peer s) (pi_setup s) (last_stun_ms_ s) ip port (ice_log s).
Definition log_ice (e : ice_event) (s : PeerIce) : PeerIce :=
  mkPeerIce (pi_peer s) (pi_setup s) (last_stun_ms_ s) (pc_ipaddr_str_ s) (pc_udp_port_ s) (ice_log s ++ [e]).

Definition IsDtls (data : bytes) (len : Z) : outcome bool :=
  if 13 <=? len then b ← data.[0]; mret ((19 <? b) && (b <? 64)) else mret false.

(** The order of [PC_STATE]. *)
Definition pc_rank (st : PC_STATE) : Z :=
  match st with PC_INIT_STATE => 0 | PC_SDP_DONE_STATE => 1 | PC_STUN_DONE_STATE => 2 | PC_DTLS_DONE_STATE => 3 end.
Definition before (st st' : PC_STATE) : bool := pc_rank st <? pc_rank st'.

Section ice.
Context `{Allocator} `{HmacSha1}.
(** The text of an IPv4 address, from the integer in the [sockaddr_in]. *)
Variable inet_ntop : Z -> bytes.
(** [read_srtp_]: [None] where there is no session or the data are refused. *)
Variables DecryptSrtp DecryptSrtcp : bytes -> option bytes.

(** The result is the address and [port]; an IPv6 address is read behind the end of the 16 bytes of a [sockaddr]. *)
Definition GetIpStr (sa : option sockaddr) (port : Z) : outcome (bytes * Z) :=
  match sa with
  | None => mret ([], port)
  | Some a =>
      if sin_family a =? AF_INET then mret (inet_ntop (s_addr a), sin_port a)
      else if sin_family a =? AF_INET6 then Fault OutOfBounds
      else mret ([], port)
  end.

Definition stun_request (mem_class mem_method : Z) (mem_id : bytes) (d : IceSetup) : StunPacket :=
  let p := new_StunPacket mem_class mem_method mem_id in
  mkStun (data_ p) 0 mem_class mem_method mem_id None
    (remote_fragment_ d ++ str ":" ++ local_fragment_ d) (remote_pwd_ d) 0 100 0 0 0 None true true false.

(** [mem_class], [mem_method] and [mem_id] are what the stack held. *)
Definition SendStun (ctx : HMAC_CTX) (mem_class mem_method : Z) (mem_id : bytes) (now_ms : Z) (s : PeerIce)
  : outcome (option PeerIce * HMAC_CTX) :=
  if before (pc_state_ (pi_peer s)) PC_SDP_DONE_STATE then mret (Some s, ctx)
  else
    let first := last_stun_ms_ s <=? 0 in
    d ← (if first then mret 0 else chk_int64 (now_ms - last_stun_ms_ s));
    if negb first && (d <? 800) then mret (Some s, ctx)
    else
      let s := put_last_stun_ms now_ms s in
      match ice_infos (pi_setup s) with
      | [] => mret (Some s, ctx)
      | ice :: _ =>
          _ ← cassert (bool_decide (net_type ice = ICE_UDP));
          '(r, ctx) ← Serialize ctx (stun_request mem_class mem_method mem_id (pi_setup s));
          match r with
          | None => mret (None, ctx)
          | Some (_, pkt) => mret (Some (log_ice (Written (datagram (data_len_ pkt) pkt) (hostip ice) (port ice)) s), ctx)
          end
      end.

(** The branch of a STUN message that [Parse] accepted. *)
Definition on_stun (pkt : StunPacket) (s : PeerIce) : outcome PeerIce :=
  '(ip, port) ← GetIpStr (xor_address_ pkt) 0;
  let s := if (pc_udp_port_ s =? 0) || bool_decide (pc_ipaddr_str_ s = []) || negb (bool_decide (ip = pc_ipaddr_str_ s)) || negb (port =? pc_udp_port_ s)
           then put_address ip port s else s in
  mret (if before (pc_state_ (pi_peer s)) PC_STUN_DONE_STATE
        then log_ice DtlsStarted (log_ice StunReady (put_peer (set_pc_state PC_STUN_DONE_STATE (pi_peer s)) s)) else s).

Definition OnRead (mem : bytes) (now_ms : Z) (data : bytes) (s : PeerIce) : outcome PeerIce :=
  let data_size := zlen data in
  stun ← IsStun data data_size;
  if (stun : bool) then
    r ← Stun.Parse mem data data_size;
    match r with None => mret s | Some pkt => on_stun pkt s end
  else
    rtcp ← IsRtcp data data_size;
    if (rtcp : bool) then
      match DecryptSrtcp data with
      | None => mret s
      | Some m => p ← HandleRtcp now_ms m (zlen m) (pi_peer s); mret (put_peer p s)
      end
    else
      rtp ← IsRtp data data_size;
      if (rtp : bool) then
        if before (pc_state_ (pi_peer s)) PC_DTLS_DONE_STATE then mret s
        else
          match DecryptSrtp data with
          | None => mret s
          | Some m => p ← HandleRtpData now_ms m (zlen m) (pi_peer s); mret (put_peer p s)
          end
      else
        dtls ← IsDtls data data_size;
        if (dtls : bool) then
          dtls_data ← write_at (replicate (Z.to_nat (8 * 1024)) 0) 0 data;
          mret (log_ice (DtlsData (take (Z.to_nat data_size) dtls_data)) s)
        else mret s.

(** The timer; [OnStatics] only reports. *)
Definition OnTimer_ice (ctx : HMAC_CTX) (mem_class mem_method : Z) (mem_id : bytes) (now_ms : Z) (s : PeerIce)
  : outcome (option PeerIce * HMAC_CTX) :=
  if before (pc_state_ (pi_peer s)) PC_SDP_DONE_STATE then mret (Some s, ctx)
  else
    '(r, ctx) ← SendStun ctx mem_class mem_method mem_id now_ms s;
    match r with
    | None => mret (None, ctx)
    | Some s => p ← PeerConnection.OnTimer now_ms (pi_peer s); mret (Some (put_peer p s), ctx)
    end.
End ice.

(** ** The kinds of datagram exclude each other *)

Lemma IsStun_first data len : IsStun data len = Done true -> exists b, data.[0] = Done b /\ b < 3.
Proof.
  unfold IsStun. case_match; [done|]. destruct (data.[0]) as [b|]; [|done]. cbn [mbind outcome_bind].
  destruct (Z.ltb_spec b 3); [|done]. intros _. by exists b.
Qed.

Lemma datagram_kinds data len : IsStun data len = Done true ->
  IsRtcp data len <> Done true /\ IsRtp data len <> Done true /\ IsDtls data len <> Done true.
Proof.
  intros Hs. destruct (IsStun_first data len Hs) as (b & Eb & Hb). unfold IsRtcp, IsRtp, IsDtls. rewrite Eb. simpl_m.
  destruct (Z.ltb_spec 127 b), (Z.ltb_spec 19 b); try lia. cbn [andb]. split_and!; by case_match.
Qed.

(** The port that a well-formed address attribute gives is in the other byte order. *)
Lemma xor_port_swapped a b (inet_ntop : Z -> bytes) rest pkt : is_byte a -> is_byte b -> 4 <= zlen rest ->
  exists q ip, xor_mapped_address (Write2Bytes 1 ++ [Z.lxor a 0x21; Z.lxor b 0x12] ++ rest) pkt = Done q /\
    GetIpStr inet_ntop (xor_address_ q) 0 = Done (ip, 256 * b + a).
Proof.
  intros Ha Hb Hr. destruct rest as [|r0 [|r1 [|r2 [|r3 rest]]]]; try (unfold zlen in Hr; cbn in Hr; lia).
  unfold xor_mapped_address. change (Write2Bytes 1) with [0; 1].
  pose proof (read_range_mid [] [0; 1; Z.lxor a 0x21; Z.lxor b 0x12; r0; r1; r2; r3] rest) as Er.
  change (read_range ([0; 1] ++ [Z.lxor a 0x21; Z.lxor b 0x12] ++ r0 :: r1 :: r2 :: r3 :: rest) 0 8 = Done [0; 1; Z.lxor a 0x21; Z.lxor b 0x12; r0; r1; r2; r3]) in Er.
  rewrite Er. simpl_m.
  assert (forall x m, Z.lxor (Z.lxor x m) m = x) as Hx by (intros; rewrite Z.lxor_assoc, Z.lxor_nilpotent; apply Z.lxor_0_r).
  do 2 eexists. split; [reflexivity|]. rewrite !Hx. cbn [xor_address_ put_xor_address GetIpStr sin_family sin_port s_addr].
  change (le_value [1; 0] =? 1) with true. cbn iota. rewrite Z.eqb_refl. unfold mret, outcome_ret. do 2 f_equal.
  unfold ntohs. cbn [be_bytes le_value]. rewrite !byte_of_div. change (8 * Z.of_nat 1) with 8. change (8 * Z.of_nat 0) with 0.
  unfold is_byte in *. div_lia.
Qed.
