(* ===== verification/Base64.v ===== *)
(** * [Base64]: the base64 encoder and decoder

    Models [src/utils/base64.cpp].  A [std::string] is the list of its bytes; the
    arrays of three and four characters are the arguments of the two block
    functions.  Behind the last character the decoder looks up a zero, which the
    table does not have: the position is [npos], cut to a byte. *)
From S2P Require Import Prelude ByteStream.

Definition base64_chars : bytes := str "ABCDEFGHIJKLMNOPQRSTUVWXYZabcdefghijklmnopqrstuvwxyz0123456789+/".

(** [isalnum] in the C locale. *)
Definition isalnum (c : Z) : bool :=
  ((48 <=? c) && (c <=? 57)) || ((65 <=? c) && (c <=? 90)) || ((97 <=? c) && (c <=? 122)).
Definition is_base64 (c : Z) : bool := isalnum c || (c =? 43) || (c =? 47).

(** [std::string::find] of a character, cut to a byte; [npos] is the largest [size_t]. *)
Fixpoint find_char (l : bytes) (c : Z) : option Z :=
  match l with
  | [] => None
  | b :: l => if b =? c then Some 0 else option_map Z.succ (find_char l c)
  end.
Definition find_byte (c : Z) : Z := match find_char base64_chars c with Some i => u8 i | None => 255 end.

(** [char_array_4] from [char_array_3]. *)
Definition encode_block (a b c : Z) : list Z :=
  [Z.shiftr (Z.land a 0xfc) 2;
   u8 (Z.shiftl (Z.land a 0x03) 4 + Z.shiftr (Z.land b 0xf0) 4);
   u8 (Z.shiftl (Z.land b 0x0f) 2 + Z.shiftr (Z.land c 0xc0) 6);
   Z.land c 0x3f].

(** The characters at these positions. *)
Fixpoint put_chars (l : list Z) : outcome bytes :=
  match l with
  | [] => mret []
  | i :: l => c ← base64_chars.[i]; r ← put_chars l; mret (c :: r)
  end.

(** The loop; [left] holds the bytes of [char_array_3] so far. *)
Fixpoint encode_loop (left bytes_to_encode : bytes) : outcome bytes :=
  match bytes_to_encode with
  | [] =>
      match left with
      | [a] => r ← put_chars (take 2 (encode_block a 0 0)); mret (r ++ str "==")
      | [a; b] => r ← put_chars (take 3 (encode_block a b 0)); mret (r ++ str "=")
      | _ => mret []
      end
  | c :: rest =>
      match left with
      | [a; b] => r ← put_chars (encode_block a b c); s ← encode_loop [] rest; mret (r ++ s)
      | _ => encode_loop (left ++ [c]) rest
      end
  end.

Definition Base64Encode (bytes_to_encode : bytes) : outcome bytes := encode_loop [] bytes_to_encode.

(** [char_array_3] from the positions in [char_array_4]. *)
Definition decode_block (a b c d : Z) : bytes :=
  [u8 (Z.shiftl a 2 + Z.shiftr (Z.land b 0x30) 4);
   u8 (Z.shiftl (Z.land b 0xf) 4 + Z.shiftr (Z.land c 0x3c) 2);
   u8 (Z.shiftl (Z.land c 0x3) 6 + d)].

Definition decode_rest (left : bytes) : bytes :=
  match left with
  | [a] => take 0 (decode_block (find_byte a) (find_byte 0) (find_byte 0) (find_byte 0))
  | [a; b] => take 1 (decode_block (find_byte a) (find_byte b) (find_byte 0) (find_byte 0))
  | [a; b; c] => take 2 (decode_block (find_byte a) (find_byte b) (find_byte c) (find_byte 0))
  | _ => []
  end.

(** The loop; [left] holds the characters of [char_array_4] so far. *)
Fixpoint decode_loop (left encoded_string : bytes) : bytes :=
  match encoded_string with
  | [] => decode_rest left
  | ch :: rest =>
      if negb (ch =? 61) && is_base64 ch then
        match left with
        | [a; b; c] => decode_block (find_byte a) (find_byte b) (find_byte c) (find_byte ch) ++ decode_loop [] rest
        | _ => decode_loop (left ++ [ch]) rest
        end
      else decode_rest left
  end.

Definition Base64Decode (encoded_string : bytes) : bytes := decode_loop [] encoded_string.

(** ** Characters and positions *)

Definition char_at (i : Z) : Z := nth (Z.to_nat i) base64_chars 0.

(** A property of the 64 positions, tried on each. *)
Lemma position_all (P : Z -> bool) i : forallb P (map Z.of_nat (seq 0 64)) = true -> 0 <= i < 64 -> P i = true.
Proof.
  intros Hall Hi. rewrite forallb_forall in Hall. apply Hall, in_map_iff. exists (Z.to_nat i). split; [lia|]. apply in_seq. lia.
Qed.

Lemma char_at_spec i : 0 <= i < 64 ->
  base64_chars.[i] = Done (char_at i) /\ is_base64 (char_at i) = true /\ (char_at i =? 61) = false /\ find_byte (char_at i) = i.
Proof.
  intros Hi. set (P i := bool_decide (base64_chars.[i] = Done (char_at i) /\ is_base64 (char_at i) = true /\ (char_at i =? 61) = false /\ find_byte (char_at i) = i)).
  enough (P i = true) as E by by apply bool_decide_eq_true_1 in E. apply position_all; [by vm_compute|done].
Qed.

Lemma put_chars_spec l : Forall (fun i => 0 <= i < 64) l -> put_chars l = Done (map char_at l).
Proof.
  induction 1 as [|i l Hi Hl IH]; [done|]. cbn [put_chars map]. destruct (char_at_spec i Hi) as (-> & _). simpl_m. by rewrite IH.
Qed.

(** The block functions, in arithmetic. *)
Lemma encode_block_div a b c : is_byte a -> is_byte b -> is_byte c ->
  encode_block a b c = [a / 4; a mod 4 * 16 + b / 16; b mod 16 * 4 + c / 64; c mod 64].
Proof.
  unfold is_byte. intros Ha Hb Hc. unfold encode_block, u8.
  rewrite (mask_shift a 0xfc 2 6), (low_mask a 0x03 2), (mask_shift b 0xf0 4 4), (low_mask b 0x0f 4), (mask_shift c 0xc0 6 2), (low_mask c 0x3f 6) by done.
  rewrite !Z.shiftl_mul_pow2 by done. change (2 ^ 2) with 4. change (2 ^ 6) with 64. change (2 ^ 4) with 16. change (2 ^ 8) with 256.
  do 4 f_equal; [div_lia..|]. f_equal; div_lia.
Qed.

Lemma encode_block_range a b c : is_byte a -> is_byte b -> is_byte c -> Forall (fun i => 0 <= i < 64) (encode_block a b c).
Proof.
  intros Ha Hb Hc. rewrite encode_block_div by done. unfold is_byte in *. repeat constructor; div_lia.
Qed.

Lemma decode_block_div a b c d : 0 <= a < 64 -> 0 <= b < 64 -> 0 <= c < 256 -> 0 <= d < 256 ->
  decode_block a b c d = [a * 4 + b / 16; b mod 16 * 16 + c / 4 mod 16; (c mod 4 * 64 + d) mod 256].
Proof.
  intros. unfold decode_block, u8.
  rewrite (mask_shift b 0x30 4 2), (low_mask b 0xf 4), (mask_shift c 0x3c 2 4), (low_mask c 0x3 2) by done.
  rewrite !Z.shiftl_mul_pow2 by done. change (2 ^ 2) with 4. change (2 ^ 6) with 64. change (2 ^ 4) with 16. change (2 ^ 8) with 256.
  f_equal; [div_lia|]. f_equal. div_lia.
Qed.

Lemma decode_char l ch rest : 0 <= ch < 64 -> (length l < 3)%nat ->
  decode_loop l (char_at ch :: rest) = decode_loop (l ++ [char_at ch]) rest.
Proof.
  intros Hc Hl. destruct (char_at_spec ch Hc) as (_ & H1 & H2 & _). cbn [decode_loop]. rewrite H1, H2. cbn [negb andb].
  destruct l as [|x [|y [|z l]]]; cbn in Hl; done || lia.
Qed.

Lemma decode_fourth a b c d rest : 0 <= a < 64 -> 0 <= b < 64 -> 0 <= c < 64 -> 0 <= d < 64 ->
  decode_loop [char_at a; char_at b; char_at c] (char_at d :: rest) = decode_block a b c d ++ decode_loop [] rest.
Proof.
  intros Ha Hb Hc Hd. cbn [decode_loop]. destruct (char_at_spec d Hd) as (_ & -> & -> & ->). cbn [negb andb].
  by rewrite (proj2 (proj2 (proj2 (char_at_spec a Ha)))), (proj2 (proj2 (proj2 (char_at_spec b Hb)))), (proj2 (proj2 (proj2 (char_at_spec c Hc)))).
Qed.

Lemma find_zero : find_byte 0 = 255.
Proof. reflexivity. Qed.

(** Encoding then decoding a whole block, two bytes and one byte. *)
Lemma decode_three a b c rest : is_byte a -> is_byte b -> is_byte c ->
  decode_loop [] (map char_at (encode_block a b c) ++ rest) = [a; b; c] ++ decode_loop [] rest.
Proof.
  intros Ha Hb Hc. rewrite encode_block_div by done. unfold is_byte in *. cbn [map app].
  rewrite !decode_char by (cbn; div_lia). cbn [app]. rewrite decode_fourth, decode_block_div by div_lia. cbn [app].
  f_equal; [div_lia|]. f_equal; [div_lia|]. f_equal. div_lia.
Qed.

Lemma decode_two a b : is_byte a -> is_byte b ->
  decode_loop [] (map char_at (take 3 (encode_block a b 0)) ++ str "=") = [a; b].
Proof.
  intros Ha Hb. rewrite encode_block_div by (done || unfold is_byte; lia). unfold is_byte in *. cbn [take map app].
  rewrite !decode_char by (cbn; div_lia). cbn [app].
  change (decode_loop ?l (str "=")) with (decode_rest l). cbn [decode_rest].
  rewrite !(fun i H => proj2 (proj2 (proj2 (char_at_spec i H)))) by div_lia. rewrite find_zero, decode_block_div by div_lia. cbn [take].
  f_equal; [div_lia|]. f_equal. div_lia.
Qed.

Lemma decode_one a : is_byte a -> decode_loop [] (map char_at (take 2 (encode_block a 0 0)) ++ str "==") = [a].
Proof.
  intros Ha. rewrite encode_block_div by (done || unfold is_byte; lia). unfold is_byte in *. cbn [take map app].
  rewrite !decode_char by (cbn; div_lia). cbn [app].
  change (decode_loop ?l (str "==")) with (decode_rest l). cbn [decode_rest].
  rewrite !(fun i H => proj2 (proj2 (proj2 (char_at_spec i H)))) by div_lia. rewrite find_zero, decode_block_div by div_lia. cbn [take].
  f_equal. div_lia.
Qed.

Lemma encode_total l : bytes_ok l -> exists e, encode_loop [] l = Done e /\ decode_loop [] e = l.
Proof.
  intros Hl. remember (length l) as n eqn:Hn. revert l Hl Hn. induction n as [n IH] using lt_wf_ind. intros l Hl ->.
  assert (is_byte 0) as H0 by (unfold is_byte; lia).
  destruct l as [|a [|b [|c l]]].
  - by exists [].
  - apply Forall_cons in Hl as [Ha _]. cbn [encode_loop app]. rewrite put_chars_spec by by apply Forall_take, encode_block_range. simpl_m.
    eexists. split; [done|]. by apply decode_one.
  - apply Forall_cons in Hl as [Ha Hl]. apply Forall_cons in Hl as [Hb _]. cbn [encode_loop app].
    rewrite put_chars_spec by by apply Forall_take, encode_block_range. simpl_m. eexists. split; [done|]. by apply decode_two.
  - apply Forall_cons in Hl as [Ha Hl]. apply Forall_cons in Hl as [Hb Hl]. apply Forall_cons in Hl as [Hc Hl]. cbn [encode_loop app].
    rewrite put_chars_spec by by apply encode_block_range. simpl_m.
    destruct (IH (length l) ltac:(cbn; lia) l Hl eq_refl) as (e & -> & He). simpl_m. eexists. split; [done|].
    rewrite decode_three, He by done. done.
Qed.

(** What the encoder writes is made of its characters. *)
Definition base64_text (e : bytes) : Prop := Forall (fun c => is_base64 c = true \/ c = 61) e.

Lemma char_at_text l : Forall (fun i => 0 <= i < 64) l -> base64_text (map char_at l).
Proof. intros Hl. apply Forall_map. eapply Forall_impl; [exact Hl|]. intros i Hi. left. apply (char_at_spec i Hi). Qed.

Lemma Done_inj {A} (x y : A) : Done x = Done y -> x = y.
Proof. congruence. Qed.

Lemma encode_text l : bytes_ok l -> forall e, encode_loop [] l = Done e -> base64_text e.
Proof.
  intros Hl. remember (length l) as n eqn:Hn. revert l Hl Hn. induction n as [n IH] using lt_wf_ind. intros l Hl -> e.
  assert (is_byte 0) as H0 by (unfold is_byte; lia). assert (base64_text [61]) as He by (constructor; [by right|constructor]).
  destruct l as [|a [|b [|c l]]].
  - intros [= <-]. constructor.
  - apply Forall_cons in Hl as [Ha _]. cbn [encode_loop app]. rewrite put_chars_spec by by apply Forall_take, encode_block_range.
    simpl_m. intros E. apply Done_inj in E as <-. apply Forall_app. split; [by apply char_at_text, Forall_take, encode_block_range|]. constructor; [by right|done].
  - apply Forall_cons in Hl as [Ha Hl]. apply Forall_cons in Hl as [Hb _]. cbn [encode_loop app].
    rewrite put_chars_spec by by apply Forall_take, encode_block_range.
    simpl_m. intros E. apply Done_inj in E as <-. apply Forall_app. split; [by apply char_at_text, Forall_take, encode_block_range|done].
  - apply Forall_cons in Hl as [Ha Hl]. apply Forall_cons in Hl as [Hb Hl]. apply Forall_cons in Hl as [Hc Hl]. cbn [encode_loop app].
    rewrite put_chars_spec by by apply encode_block_range. simpl_m.
    destruct (encode_loop [] l) as [e'|] eqn:E; [|done]. simpl_m. intros E'. apply Done_inj in E' as <-.
    apply Forall_app. split; [by apply char_at_text, encode_block_range|]. apply (IH (length l) ltac:(cbn; lia) l Hl eq_refl e' E).
Qed.

(** C19. Decoding what the encoder makes of any bytes gives these bytes, and the encoder never leaves its table. *)
Theorem base64_roundtrip l : bytes_ok l -> exists e, Base64Encode l = Done e /\ Base64Decode e = l.
Proof. apply encode_total. Qed.

Lemma base64_roundtrip_witness : exists e, Base64Encode (str "any carnal pleas") = Done e /\ Base64Decode e = str "any carnal pleas".
Proof. apply base64_roundtrip. apply (bool_decide_unpack _). vm_compute. exact I. Defined.

Example base64_check : Base64Encode (str "any carnal pleas") = Done (str "YW55IGNhcm5hbCBwbGVhcw==").
Proof. by vm_compute. Qed.
