(* ===== verification/Http.v ===== *)
(** * [Http]: the HTTP client and the HTTP session of the server

    Models [src/net/http/http_client.cpp], [http_session.cpp] and [http_common.hpp].
    The buffers are the queues of their bytes, which their members hold as long as no
    append moves them onto themselves (the last section of [DataBuffer]); what goes to the socket and to the
    callbacks is a log of events.  A handler of the server is the list of the calls
    it makes on its response, up to the exception that ends it, if any.  [None] is
    an exception that leaves the function.  The keep-alive counters are left out. *)
From S2P Require Import Prelude StringEx.

(** ** [std::map] from strings to strings: sorted by the key *)

Fixpoint bytes_ltb (a b : bytes) : bool :=
  match a, b with
  | [], [] => false
  | [], _ :: _ => true
  | _ :: _, [] => false
  | x :: a, y :: b => (x <? y) || ((x =? y) && bytes_ltb a b)
  end.

Abbreviation smap := (list (bytes * bytes)).

(** [m[key] = value] *)
Fixpoint map_set (key value : bytes) (m : smap) : smap :=
  match m with
  | [] => [(key, value)]
  | (k, v) :: m => if bytes_ltb key k then (key, value) :: (k, v) :: m
                   else if bytes_ltb k key then (k, v) :: map_set key value m
                   else (key, value) :: m
  end.

(** ** The client *)

Inductive HTTP_METHOD := HTTP_GET | HTTP_POST.

Record HttpClientResponse := mkClientResponse {
  cr_status_ : bytes;
  cr_status_code_ : Z;
  cr_proto_ : bytes;
  cr_version_ : bytes;
  cr_headers_ : gmap bytes bytes;
  cr_content_length_ : Z;
  cr_data_ : bytes;
  cr_header_ready_ : bool;
  cr_body_ready_ : bool
}.
Definition HttpClientResponse_new : HttpClientResponse :=
  mkClientResponse (str "OK") 200 (str "HTTP") (str "1.1") ∅ 0 [] false false.
Definition cr_set_first (status : bytes) (code : Z) (proto version : bytes) (r : HttpClientResponse) : HttpClientResponse :=
  mkClientResponse status code proto version (cr_headers_ r) (cr_content_length_ r) (cr_data_ r) (cr_header_ready_ r) (cr_body_ready_ r).
Definition cr_add_header (key value : bytes) (r : HttpClientResponse) : HttpClientResponse :=
  mkClientResponse (cr_status_ r) (cr_status_code_ r) (cr_proto_ r) (cr_version_ r) (<[key := value]> (cr_headers_ r))
    (cr_content_length_ r) (cr_data_ r) (cr_header_ready_ r) (cr_body_ready_ r).
Definition cr_set_content_length (v : Z) (r : HttpClientResponse) : HttpClientResponse :=
  mkClientResponse (cr_status_ r) (cr_status_code_ r) (cr_proto_ r) (cr_version_ r) (cr_headers_ r)
    v (cr_data_ r) (cr_header_ready_ r) (cr_body_ready_ r).
Definition cr_set_data (v : bytes) (r : HttpClientResponse) : HttpClientResponse :=
  mkClientResponse (cr_status_ r) (cr_status_code_ r) (cr_proto_ r) (cr_version_ r) (cr_headers_ r)
    (cr_content_length_ r) v (cr_header_ready_ r) (cr_body_ready_ r).
Definition cr_set_header_ready (r : HttpClientResponse) : HttpClientResponse :=
  mkClientResponse (cr_status_ r) (cr_status_code_ r) (cr_proto_ r) (cr_version_ r) (cr_headers_ r)
    (cr_content_length_ r) (cr_data_ r) true (cr_body_ready_ r).
Definition cr_set_body_ready (r : HttpClientResponse) : HttpClientResponse :=
  mkClientResponse (cr_status_ r) (cr_status_code_ r) (cr_proto_ r) (cr_version_ r) (cr_headers_ r)
    (cr_content_length_ r) (cr_data_ r) (cr_header_ready_ r) true.

Inductive client_event :=
  | Connect (host : bytes) (port : Z)
  | Send (data : bytes)
  | AsyncRead
  | OnHttpRead (ret : Z) (resp : option HttpClientResponse).

Record HttpClient := mkHttpClient {
  host_ : bytes;
  hc_port_ : Z;
  method_ : HTTP_METHOD;
  hc_headers_ : smap;
  subpath_ : bytes;
  post_data_ : bytes;
  resp_ptr_ : option HttpClientResponse;
  hc_log : list client_event
}.
Definition HttpClient_new (host : bytes) (port : Z) : HttpClient := mkHttpClient host port HTTP_GET [] [] [] None [].
Definition hc_emit (e : client_event) (c : HttpClient) : HttpClient :=
  mkHttpClient (host_ c) (hc_port_ c) (method_ c) (hc_headers_ c) (subpath_ c) (post_data_ c) (resp_ptr_ c) (hc_log c ++ [e]).
Definition set_resp (r : HttpClientResponse) (c : HttpClient) : HttpClient :=
  mkHttpClient (host_ c) (hc_port_ c) (method_ c) (hc_headers_ c) (subpath_ c) (post_data_ c) (Some r) (hc_log c).

Definition Get (subpath : bytes) (headers : smap) (c : HttpClient) : HttpClient :=
  hc_emit (Connect (host_ c) (hc_port_ c)) (mkHttpClient (host_ c) (hc_port_ c) HTTP_GET headers subpath (post_data_ c) (resp_ptr_ c) (hc_log c)).
Definition Post (subpath : bytes) (headers : smap) (data : bytes) (c : HttpClient) : HttpClient :=
  hc_emit (Connect (host_ c) (hc_port_ c)) (mkHttpClient (host_ c) (hc_port_ c) HTTP_POST headers subpath data (resp_ptr_ c) (hc_log c)).

Definition CRLF : bytes := [13; 10].
Definition header_line (h : bytes * bytes) : bytes := h.1 ++ str ": " ++ h.2 ++ CRLF.

(** What [OnConnect] streams. *)
Definition request_text (c : HttpClient) : bytes :=
  (match method_ c with HTTP_GET => str "GET " | HTTP_POST => str "POST " end) ++ subpath_ c ++ str " HTTP/1.1" ++ CRLF ++
  str "Accept: */*" ++ CRLF ++
  str "Host: " ++ host_ c ++ CRLF ++
  concat (map header_line (hc_headers_ c)) ++
  (match method_ c with HTTP_POST => str "Content-Length: " ++ dec (zlen (post_data_ c)) ++ CRLF | HTTP_GET => [] end) ++
  CRLF ++
  (match method_ c with HTTP_POST => post_data_ c | HTTP_GET => [] end).

Definition OnConnect (ret_code : Z) (c : HttpClient) : HttpClient :=
  if ret_code <? 0 then hc_emit (OnHttpRead ret_code None) c else hc_emit (Send (request_text c)) c.

Definition OnWrite_client (ret_code : Z) (c : HttpClient) : HttpClient := if ret_code =? 0 then hc_emit AsyncRead c else c.

(** The first line of a response. *)
Definition status_line (line : bytes) (r : HttpClientResponse) : outcome HttpClientResponse :=
  item_vec ← StringSplit line (str " ");
  match item_vec with
  | proto :: code :: status :: more =>
      match find (str "/") proto with
      | None => Fault AssertFailure
      | Some pos =>
          status_code ← atoi code;
          mret (cr_set_first (concat (status :: more)) status_code (take pos proto) (drop (pos + 1) proto) r)
      end
  | _ => Fault AssertFailure
  end.

(** Another line; [None] is the exception of [substr]. *)
Definition response_line (line : bytes) (r : HttpClientResponse) : outcome (option HttpClientResponse) :=
  match find (str ":") line with
  | None => Fault AssertFailure
  | Some pos =>
      match substr_from line (pos + 2) with
      | None => mret None
      | Some value =>
          let key := take pos line in
          r ← (if bool_decide (key = str "Content-Length") then n ← atoi value; mret (cr_set_content_length n r) else mret r);
          mret (Some (cr_add_header key value r))
      end
  end.
Fixpoint response_lines (lines : list bytes) (r : HttpClientResponse) : outcome (option HttpClientResponse) :=
  match lines with
  | [] => mret (Some r)
  | line :: lines =>
      o ← response_line line r;
      match o with None => mret None | Some r => response_lines lines r end
  end.

Definition HEADER_END : bytes := [13; 10; 13; 10].

(** The branch of a header that is not ready: the response with its header, when the end of the header has come. *)
Definition response_header (r : HttpClientResponse) : outcome (option (bool * HttpClientResponse)) :=
  if cr_header_ready_ r then mret (Some (true, r))
  else
    match find HEADER_END (cr_data_ r) with
    | None => mret (Some (false, r))
    | Some pos =>
        let header_str := take pos (cr_data_ r) in
        let r := cr_set_data (drop (pos + 4) (cr_data_ r)) (cr_set_header_ready r) in
        lines_vec ← StringSplit header_str CRLF;
        match lines_vec with
        | [] => mret (Some (true, r))
        | first :: lines =>
            r ← status_line first r;
            o ← response_lines lines r;
            mret (option_map (fun r => (true, r)) o)
        end
    end.

Definition OnRead_client (ret_code : Z) (data : bytes) (c : HttpClient) : outcome (option HttpClient) :=
  if ret_code <? 0 then mret (Some (hc_emit (OnHttpRead ret_code (resp_ptr_ c)) c))
  else if zlen data =? 0 then mret (Some (hc_emit (OnHttpRead (-2) (resp_ptr_ c)) c))
  else
    let r := default HttpClientResponse_new (resp_ptr_ c) in
    o ← response_header (cr_set_data (cr_data_ r ++ data) r);
    match o with
    | None => mret None
    | Some (false, r) => mret (Some (hc_emit AsyncRead (set_resp r c)))
    | Some (true, r) =>
        if 0 <? cr_content_length_ r then
          if cr_content_length_ r <=? i32 (zlen (cr_data_ r)) then
            let r := cr_set_body_ready r in
            mret (Some (hc_emit (OnHttpRead 0 (Some r)) (set_resp r c)))
          else mret (Some (hc_emit AsyncRead (set_resp r c)))
        else mret (Some (hc_emit AsyncRead (hc_emit (OnHttpRead 0 (Some r)) (set_resp r c))))
    end.

(** ** The server: the request *)

Record HttpRequest := mkHttpRequest {
  rq_method_ : bytes;
  uri_ : bytes;
  params : gmap bytes bytes;
  rq_version_ : bytes;
  content_length_ : Z;
  rq_headers_ : gmap bytes bytes
}.
Definition HttpRequest_new : HttpRequest := mkHttpRequest [] [] ∅ [] 0 ∅.

Fixpoint add_params (items : list bytes) (params : gmap bytes bytes) : outcome (Z * gmap bytes bytes) :=
  match items with
  | [] => mret (0, params)
  | item :: items =>
      param_vec ← StringSplit item (str "=");
      match param_vec with
      | [k; v] => add_params items (<[k := v]> params)
      | _ => mret (-1, params)
      end
  end.

(** The value returned, [uri] and [params]. *)
Definition GetUriAndParams (input : bytes) (params : gmap bytes bytes) : outcome (Z * bytes * gmap bytes bytes) :=
  match find (str "?") input with
  | None => mret (0, input, params)
  | Some pos =>
      item_vec ← StringSplit (drop (pos + 1) input) (str "&");
      '(ret, params) ← add_params item_vec params;
      mret (ret, take pos input, params)
  end.

Definition rq_set_first (method uri : bytes) (params : gmap bytes bytes) (r : HttpRequest) : HttpRequest :=
  mkHttpRequest method uri params (rq_version_ r) (content_length_ r) (rq_headers_ r).
Definition rq_set_version (v : bytes) (r : HttpRequest) : HttpRequest :=
  mkHttpRequest (rq_method_ r) (uri_ r) (params r) v (content_length_ r) (rq_headers_ r).
(** [insert] keeps a value that is there. *)
Definition rq_add_header (key value : bytes) (length : Z) (r : HttpRequest) : HttpRequest :=
  mkHttpRequest (rq_method_ r) (uri_ r) (params r) (rq_version_ r) length
    (match rq_headers_ r !! key with Some _ => rq_headers_ r | None => <[key := value]> (rq_headers_ r) end).

(** The first line: [false] is an error return. *)
Definition request_line (line : bytes) (r : HttpRequest) : outcome (option (bool * HttpRequest)) :=
  version_vec ← StringSplit line (str " ");
  match version_vec with
  | [method; target; version_info] =>
      '(ret, uri, ps) ← GetUriAndParams target (params r);
      let r := rq_set_first method uri ps r in
      if ret <? 0 then mret (Some (false, r))
      else
        match find (str "HTTP") version_info with
        | None => mret (Some (false, r))
        | Some pos =>
            match substr_from version_info (pos + 5) with
            | None => mret None
            | Some v => mret (Some (true, rq_set_version v r))
            end
        end
  | _ => mret (Some (false, r))
  end.

Fixpoint request_lines (lines : list bytes) (r : HttpRequest) : outcome (option (bool * HttpRequest)) :=
  match lines with
  | [] => mret (Some (true, r))
  | info_line :: lines =>
      match find (str ":") info_line with
      | None => mret (Some (false, r))
      | Some pos =>
          match substr_from info_line (pos + 2) with
          | None => mret None
          | Some value =>
              let key := take pos info_line in
              n ← (if bool_decide (key = str "Content-Length") then atoi value else mret (content_length_ r));
              request_lines lines (rq_add_header key value n r)
          end
      end
  end.

(** ** The server: the response and the session *)

Record HttpResponse := mkHttpResponse {
  is_close_ : bool;
  written_header_ : bool;
  status_ : bytes;
  status_code_ : Z;
  rs_headers_ : smap;
  rs_continue_flag_ : bool;
  remain_bytes_ : Z
}.
Definition HttpResponse_new : HttpResponse := mkHttpResponse false false (str "OK") 200 [] false 0.

Inductive session_event :=
  | SessionWrite (data : bytes)
  | SessionRead
  | SessionClosed.

Record HttpSession := mkHttpSession {
  request_ : option HttpRequest;
  response_ptr_ : option HttpResponse;
  header_data_ : bytes;
  content_data_ : bytes;
  content_start_ : Z;
  header_is_ready_ : bool;
  is_closed_ : bool;
  continue_flag_ : bool;
  hs_log : list session_event
}.
(** The constructor starts to read. *)
Definition HttpSession_new : HttpSession := mkHttpSession (Some HttpRequest_new) None [] [] (-1) false false false [SessionRead].

Definition hs_emit (e : session_event) (s : HttpSession) : HttpSession :=
  mkHttpSession (request_ s) (response_ptr_ s) (header_data_ s) (content_data_ s) (content_start_ s) (header_is_ready_ s) (is_closed_ s) (continue_flag_ s) (hs_log s ++ [e]).
Definition set_request (v : HttpRequest) (s : HttpSession) : HttpSession :=
  mkHttpSession (Some v) (response_ptr_ s) (header_data_ s) (content_data_ s) (content_start_ s) (header_is_ready_ s) (is_closed_ s) (continue_flag_ s) (hs_log s).
Definition set_response (v : HttpResponse) (s : HttpSession) : HttpSession :=
  mkHttpSession (request_ s) (Some v) (header_data_ s) (content_data_ s) (content_start_ s) (header_is_ready_ s) (is_closed_ s) (continue_flag_ s) (hs_log s).
Definition set_header (data : bytes) (start : Z) (rdy : bool) (s : HttpSession) : HttpSession :=
  mkHttpSession (request_ s) (response_ptr_ s) data (content_data_ s) start rdy (is_closed_ s) (continue_flag_ s) (hs_log s).
Definition set_content (v : bytes) (s : HttpSession) : HttpSession :=
  mkHttpSession (request_ s) (response_ptr_ s) (header_data_ s) v (content_start_ s) (header_is_ready_ s) (is_closed_ s) (continue_flag_ s) (hs_log s).
Definition set_continue (v : bool) (s : HttpSession) : HttpSession :=
  mkHttpSession (request_ s) (response_ptr_ s) (header_data_ s) (content_data_ s) (content_start_ s) (header_is_ready_ s) (is_closed_ s) v (hs_log s).

Definition close_response (r : HttpResponse) : HttpResponse :=
  mkHttpResponse true (written_header_ r) (status_ r) (status_code_ r) (rs_headers_ r) (rs_continue_flag_ r) (remain_bytes_ r).

(** [HttpSession::Close]: the request is freed. *)
Definition Close (s : HttpSession) : HttpSession :=
  if is_closed_ s then s
  else hs_emit SessionClosed (mkHttpSession None (option_map close_response (response_ptr_ s)) (header_data_ s) (content_data_ s) (content_start_ s) (header_is_ready_ s) true (continue_flag_ s) (hs_log s)).

(** The header of a response, with the length of the data of the first write. *)
Definition response_text (r : HttpResponse) (len : Z) (continue_flag : bool) : bytes :=
  str "HTTP/1.1 " ++ dec (status_code_ r) ++ str " " ++ status_ r ++ CRLF ++
  (if continue_flag then [] else str "Content-Length:" ++ dec len ++ CRLF) ++
  concat (map header_line (rs_headers_ r)) ++ CRLF.

(** [HttpResponse::Write]: the value returned, the response and what it writes to the session. *)
Definition Write (data : bytes) (continue_flag : bool) (r : HttpResponse) : Z * HttpResponse * list session_event :=
  let r := mkHttpResponse (is_close_ r) (written_header_ r) (status_ r) (status_code_ r) (rs_headers_ r) continue_flag (remain_bytes_ r) in
  if is_close_ r then (-1, r, [])
  else
    let text := response_text r (zlen data) continue_flag in
    let '(r, out) :=
      if written_header_ r then (r, [])
      else (mkHttpResponse false true (status_ r) (status_code_ r) (rs_headers_ r) continue_flag (remain_bytes_ r + zlen text), [SessionWrite text]) in
    if 0 <? zlen data
    then (0, mkHttpResponse false (written_header_ r) (status_ r) (status_code_ r) (rs_headers_ r) continue_flag (remain_bytes_ r + zlen data), out ++ [SessionWrite data])
    else (0, r, out).

(** What a handler does with its response. *)
Inductive response_call :=
  | SetStatusCode (v : Z)
  | SetStatus (v : bytes)
  | AddHeader (key value : bytes)
  | WriteData (data : bytes) (continue_flag : bool)
  | CloseResponse.

Definition write_session (data : bytes) (continue_flag : bool) (s : HttpSession) : HttpSession :=
  match response_ptr_ s with
  | None => s
  | Some r => let '(_, r, out) := Write data continue_flag r in foldl (fun s e => hs_emit e s) (set_response r s) out
  end.

Definition run_call (s : HttpSession) (call : response_call) : HttpSession :=
  match response_ptr_ s with
  | None => s
  | Some r =>
      match call with
      | SetStatusCode v => set_response (mkHttpResponse (is_close_ r) (written_header_ r) (status_ r) v (rs_headers_ r) (rs_continue_flag_ r) (remain_bytes_ r)) s
      | SetStatus v => set_response (mkHttpResponse (is_close_ r) (written_header_ r) v (status_code_ r) (rs_headers_ r) (rs_continue_flag_ r) (remain_bytes_ r)) s
      | AddHeader k v => set_response (mkHttpResponse (is_close_ r) (written_header_ r) (status_ r) (status_code_ r) (map_set k v (rs_headers_ r)) (rs_continue_flag_ r) (remain_bytes_ r)) s
      | WriteData data c => write_session data c s
      | CloseResponse => if is_close_ r then s else Close (set_response (close_response r) s)
      end
  end.
Definition run_calls (calls : list response_call) (s : HttpSession) : HttpSession := foldl run_call s calls.

(** [AnalyzeHeader]: the value returned and the session. *)
Definition AnalyzeHeader (s : HttpSession) : outcome (option (Z * HttpSession)) :=
  match request_ s with
  | None => Fault OutOfBounds
  | Some rq =>
      match find HEADER_END (header_data_ s) with
      | None => mret (Some (0, set_header (header_data_ s) (content_start_ s) false s))
      | Some pos =>
          let s := set_header (header_data_ s) (Z.of_nat pos + 4) true s in
          header_vec ← StringSplit (take pos (header_data_ s)) CRLF;
          match header_vec with
          | [] => mret (Some (-1, s))
          | first_line :: lines =>
              o ← request_line first_line rq;
              match o with
              | None => mret None
              | Some (false, rq) => mret (Some (-1, set_request rq s))
              | Some (true, rq) =>
                  o ← request_lines lines rq;
                  match o with
                  | None => mret None
                  | Some (ok, rq) => mret (Some (if (ok : bool) then 0 else -1, set_request rq s))
                  end
              end
          end
      end
  end.

Section server.
(** [callback_->GetHandle], and the handler's calls on its response for this request
    and what its [content_body_] points to: [None] is the null pointer it is before a
    body was read (only the branch of the other methods sets it, and no [GET] follows
    one in a session, since the header is not read again). *)
Variable GetHandle : HttpRequest -> option (HttpRequest -> option bytes -> list response_call).

Definition options_headers : list response_call :=
  [AddHeader (str "Access-Control-Allow-Origin") (str "*");
   AddHeader (str "Access-Control-Allow-Methods") (str "GET, POST, PUT");
   AddHeader (str "Access-Control-Allow-Headers") (str "*");
   AddHeader (str "Access-Control-Allow-Private-Network") (str "true");
   AddHeader (str "Allow") (str "GET, HEAD, POST, PUT, DELETE, TRACE, OPTIONS, PATCH");
   WriteData [] false].

Definition ensure_response (s : HttpSession) : HttpSession :=
  match response_ptr_ s with Some _ => s | None => set_response HttpResponse_new s end.

(** The part behind the header: the method decides. *)
Definition dispatch (s : HttpSession) : outcome (Z * HttpSession) :=
  match request_ s with
  | None => Fault OutOfBounds
  | Some rq =>
      if bool_decide (rq_method_ rq = str "OPTIONS") then
        let s := run_calls options_headers (ensure_response s) in
        mret (0, set_continue true (set_header [] (content_start_ s) false s))
      else if bool_decide (rq_method_ rq = str "GET") then
        match GetHandle rq with
        | None => mret (-1, s)
        | Some handle =>
            let s := run_calls (handle rq None) (set_response HttpResponse_new s) in
            mret (0, set_continue (match response_ptr_ s with Some r => rs_continue_flag_ r | None => false end) s)
        end
      else if content_length_ rq <=? i32 (zlen (content_data_ s)) then
        match GetHandle rq with
        | None => mret (-1, s)
        | Some handle =>
            let s := run_calls (handle rq (Some (content_data_ s))) (ensure_response s) in
            mret (0, set_continue (match response_ptr_ s with Some r => rs_continue_flag_ r | None => false end) s)
        end
      else mret (0, s)
  end.

Definition HandleRequest (data : bytes) (s : HttpSession) : outcome (option (Z * HttpSession)) :=
  let s := set_continue true s in
  if header_is_ready_ s then r ← dispatch (set_content (content_data_ s ++ data) s); mret (Some r)
  else
    o ← AnalyzeHeader (set_header (header_data_ s ++ data) (content_start_ s) (header_is_ready_ s) s);
    match o with
    | None => mret None
    | Some (ret, s) =>
        if negb (ret =? 0) then mret (Some (-1, s))
        else if negb (header_is_ready_ s) then mret (Some (0, s))
        else r ← dispatch (set_content (content_data_ s ++ drop (Z.to_nat (content_start_ s)) (header_data_ s)) s); mret (Some r)
    end.

Definition OnRead (ret_code : Z) (data : bytes) (s : HttpSession) : outcome (option HttpSession) :=
  if negb (ret_code =? 0) then mret (Some (Close s))
  else
    o ← HandleRequest data s;
    mret (match o with
          | None => None
          | Some (ret, s) => Some (if ret <? 0 then Close s else if continue_flag_ s then hs_emit SessionRead s else s)
          end).

Definition OnWrite (ret_code sent_size : Z) (s : HttpSession) : HttpSession :=
  let s := if negb (ret_code =? 0) then Close s else s in
  match response_ptr_ s with
  | None => s
  | Some r =>
      let r := mkHttpResponse (is_close_ r) (written_header_ r) (status_ r) (status_code_ r) (rs_headers_ r) (rs_continue_flag_ r) (remain_bytes_ r - sent_size) in
      let s := set_continue (rs_continue_flag_ r) (set_response r s) in
      if negb (rs_continue_flag_ r) && (remain_bytes_ r <=? 0) then Close s else s
  end.
End server.
