(* ===== verification/HttpRun.v ===== *)
(** * [HttpRun]: requests and responses between the client and the server

    The request that [HttpClient] sends is read by [HttpSession] as it was meant;
    the [Content-Length] that the server writes loses its first digit in the client. *)
From S2P Require Import Prelude StringEx Http.

(** ** Lines *)

(** A line as the header is made of them. *)
Definition line_ok (l : bytes) : Prop := free_of 13 l /\ l <> [].
#[export] Instance line_ok_dec l : Decision (line_ok l).
Proof. unfold line_ok. apply _. Defined.

Lemma concat_lines lines : lines <> [] -> concat (map (fun l => l ++ CRLF) lines) = join CRLF lines ++ CRLF.
Proof.
  induction lines as [|l [|k lines] IH]; [done| |]; intros _; [cbn; by rewrite app_nil_r|].
  cbn [map concat] in *. rewrite IH by done. by rewrite (join_cons CRLF l), <- !app_assoc.
Qed.

Lemma find_skip c sep s t : free_of c s -> find (c :: sep) (s ++ t) = option_map (Nat.add (length s)) (find (c :: sep) t).
Proof.
  induction 1 as [|b s Hb Hs IH]; [cbn [app length]; by destruct (find _ t)|].
  cbn [app find is_prefix length]. destruct (Z.eqb_spec c b); [by subst|]. cbn [andb]. rewrite IH. by destruct (find _ t).
Qed.

(** The end of the header is found behind the last line. *)
Lemma find_header_end lines body : Forall line_ok lines -> lines <> [] ->
  find HEADER_END (join CRLF lines ++ HEADER_END ++ body) = Some (length (join CRLF lines)).
Proof.
  induction 1 as [|l lines [Hf Hne] Hl IH]; [done|]. intros _. destruct lines as [|k lines].
  - cbn [join]. unfold HEADER_END. by rewrite find_free.
  - rewrite join_cons by done. rewrite <- !app_assoc. unfold HEADER_END at 1. rewrite find_skip by done.
    fold HEADER_END. specialize (IH ltac:(done)). apply Forall_cons in Hl as [[Hkf Hkn] _].
    set (t := join CRLF (k :: lines) ++ HEADER_END ++ body) in *.
    assert (exists x r, t = x :: r /\ x <> 13) as (x & r & Et & Hx).
    { unfold t. destruct k as [|x k]; [done|]. apply Forall_cons in Hkf as [Hx _]. destruct lines; cbn; by do 2 eexists. }
    assert (find HEADER_END (CRLF ++ t) = option_map (Nat.add 2) (find HEADER_END t)) as ->.
    { rewrite Et. unfold HEADER_END, CRLF. cbn [app find is_prefix]. change (13 =? 13) with true. change (10 =? 10) with true.
      change (13 =? 10) with false. cbn [andb]. destruct (Z.eqb_spec 13 x); [by subst|]. cbn [andb].
      by destruct (find _ r). }
    rewrite IH. cbn [option_map]. f_equal. rewrite !length_app. cbn. lia.
Qed.

Lemma split_lines lines : Forall line_ok lines -> StringSplit (join CRLF lines) CRLF = Done lines.
Proof.
  intros Hl. destruct lines as [|l lines] using rev_ind; [done|]. clear IHlines. apply StringSplit_join.
  - eapply Forall_impl; [exact Hl|]. by intros ? [].
  - apply Forall_app in Hl as [_ Hl]. apply Forall_cons in Hl as [[_ Hn] _]. done.
Qed.

(** ** The request *)

Definition header_of (h : bytes * bytes) : bytes := h.1 ++ str ": " ++ h.2.
Definition header_ok (h : bytes * bytes) : Prop := free_of 58 h.1 /\ free_of 13 h.1 /\ free_of 13 h.2.
#[export] Instance header_ok_dec h : Decision (header_ok h).
Proof. unfold header_ok. apply _. Defined.

Definition method_name (m : HTTP_METHOD) : bytes := match m with HTTP_GET => str "GET" | HTTP_POST => str "POST" end.
Definition body_of (c : HttpClient) : bytes := match method_ c with HTTP_POST => post_data_ c | HTTP_GET => [] end.

(** The headers of a request, in order. *)
Definition all_headers (c : HttpClient) : list (bytes * bytes) :=
  [(str "Accept", str "*/*"); (str "Host", host_ c)] ++ hc_headers_ c ++
  match method_ c with HTTP_POST => [(str "Content-Length", dec (zlen (post_data_ c)))] | HTTP_GET => [] end.
Definition request_line_of (c : HttpClient) : bytes := join (str " ") [method_name (method_ c); subpath_ c; str "HTTP/1.1"].
Definition request_lines_of (c : HttpClient) : list bytes := request_line_of c :: map header_of (all_headers c).

Lemma header_line_of h : header_line h = header_of h ++ CRLF.
Proof. unfold header_line, header_of. by rewrite <- !app_assoc. Qed.

Lemma request_text_lines c : request_text c = join CRLF (request_lines_of c) ++ HEADER_END ++ body_of c.
Proof.
  change HEADER_END with (CRLF ++ CRLF). rewrite <- app_assoc, app_assoc, <- concat_lines by done.
  unfold request_text, request_lines_of, request_line_of, all_headers, body_of, method_name.
  assert (map header_line (hc_headers_ c) = map (fun l => l ++ CRLF) (map header_of (hc_headers_ c))) as ->.
  { rewrite map_map. apply map_ext. intros h. apply header_line_of. }
  destruct (method_ c); cbn [app map]; rewrite ?map_app, ?app_nil_r; cbn [map concat join]; rewrite ?concat_app; cbn [concat map];
    rewrite <- ?app_assoc, ?app_nil_r; rewrite <- ?app_assoc; reflexivity.
Qed.

Lemma line_of_header h : header_ok h -> line_ok (header_of h).
Proof.
  intros (_ & H1 & H2). split.
  - apply Forall_app. split; [done|]. apply Forall_app. split; [|done]. apply (bool_decide_unpack _). by vm_compute.
  - unfold header_of. by destruct h.1.
Qed.

Lemma split_header h : header_ok h ->
  find (str ":") (header_of h) = Some (length h.1) /\ substr_from (header_of h) (length h.1 + 2) = Some h.2 /\ take (length h.1) (header_of h) = h.1.
Proof.
  intros (H1 & _ & _). unfold header_of. split_and!.
  - change (str ": ") with ([58] ++ [32]). rewrite <- app_assoc. by apply find_free.
  - unfold substr_from. rewrite !length_app. cbn [length str]. rewrite decide_True by (cbn; lia). f_equal.
    rewrite app_assoc. replace (length h.1 + 2)%nat with (length (h.1 ++ str ": ")) by (rewrite length_app; cbn; lia). apply drop_app_length.
  - apply take_app_length.
Qed.

(** Headers whose keys are all different are added one by one. *)
Lemma request_lines_headers hs : forall rq, Forall header_ok hs -> NoDup (hs.*1) -> (forall k, k ∈ hs.*1 -> rq_headers_ rq !! k = None) ->
  Forall (fun h => h.1 <> str "Content-Length") hs ->
  request_lines (map header_of hs) rq =
  Done (Some (true, mkHttpRequest (rq_method_ rq) (uri_ rq) (params rq) (rq_version_ rq) (content_length_ rq) (list_to_map hs ∪ rq_headers_ rq))).
Proof.
  induction hs as [|h hs IH]; intros rq Hok Hnd Hno Hcl.
  - cbn [map request_lines list_to_map foldr]. rewrite map_empty_union. by destruct rq.
  - apply Forall_cons in Hok as [Hh Hok]. apply Forall_cons in Hcl as [Hc Hcl]. cbn [fmap list_fmap] in Hnd. apply NoDup_cons in Hnd as [Hni Hnd].
    cbn [map request_lines]. destruct (split_header h Hh) as (-> & -> & ->). rewrite bool_decide_eq_false_2 by done. simpl_m.
    rewrite IH; [|done|done| |done].
    + unfold rq_add_header. cbn. rewrite (Hno h.1) by (cbn; left). do 4 f_equal. destruct h as [k v]. cbn [fst snd list_to_map foldr].
      apply map_eq. intros j. destruct (decide (j = k)) as [->|Hj].
      * rewrite lookup_union, lookup_union, lookup_insert_eq, lookup_insert_eq.
        assert ((list_to_map hs : gmap bytes bytes) !! k = None) as -> by (apply not_elem_of_list_to_map_1; done).
        assert (rq_headers_ rq !! k = None) as -> by (apply Hno; cbn; left). reflexivity.
      * by rewrite !lookup_union, !lookup_insert_ne.
    + intros k Hk. unfold rq_add_header. cbn. rewrite (Hno h.1) by (cbn; left). rewrite lookup_insert_ne by (intros <-; done).
      apply Hno. cbn. by right.
Qed.

Lemma request_lines_app a b rq rq' : request_lines a rq = Done (Some (true, rq')) -> request_lines (a ++ b) rq = request_lines b rq'.
Proof.
  revert rq. induction a as [|l a IH]; intros rq; [by intros [= ->]|]. cbn [app request_lines].
  destruct (find (str ":") l) as [pos|]; [|done]. destruct (substr_from l (pos + 2)) as [v|]; [|done].
  case_bool_decide; [|apply IH]. destruct (atoi v) as [n|]; [|done]. cbn [mbind outcome_bind]. apply IH.
Qed.

(** A target: a path, and parameters behind a question mark. *)
Definition param_of (p : bytes * bytes) : bytes := p.1 ++ str "=" ++ p.2.
Definition target (path : bytes) (ps : list (bytes * bytes)) : bytes :=
  match ps with [] => path | _ => path ++ str "?" ++ join (str "&") (map param_of ps) end.

(** A target the request line can carry: no space and no line end; the path has no
    question mark, and the parameters neither [&] nor [=] within them nor an empty value. *)
Definition path_ok (path : bytes) : Prop := free_of 32 path /\ free_of 13 path /\ free_of 63 path.
Definition param_ok (p : bytes * bytes) : Prop :=
  (Forall (fun c => c <> 32 /\ c <> 13 /\ c <> 38 /\ c <> 61) p.1 /\
   Forall (fun c => c <> 32 /\ c <> 13 /\ c <> 38 /\ c <> 61) p.2) /\ p.2 <> [].
#[export] Instance path_ok_dec path : Decision (path_ok path).
Proof. unfold path_ok. apply _. Defined.
#[export] Instance param_ok_dec p : Decision (param_ok p).
Proof. unfold param_ok. apply _. Defined.

(** The parameters of a target; of two values of one parameter the last counts. *)
Definition params_of (ps : list (bytes * bytes)) : gmap bytes bytes := list_to_map (reverse ps).

(** The headers of a request the server can read. *)
Definition request_ok (c : HttpClient) : Prop :=
  free_of 13 (host_ c) /\ Forall header_ok (hc_headers_ c) /\ NoDup ((all_headers c).*1) /\ (str "Content-Length" ∉ (hc_headers_ c).*1) /\
  zlen (post_data_ c) < 2 ^ 31.

Definition expected_request (c : HttpClient) (uri : bytes) (ps : gmap bytes bytes) : HttpRequest :=
  mkHttpRequest (method_name (method_ c)) uri ps (str "1.1") (zlen (body_of c)) (list_to_map (all_headers c)).

Lemma free_of_check c s : bool_decide (free_of c s) = true -> free_of c s.
Proof. apply bool_decide_eq_true_1. Qed.

Lemma param_free c p : c = 32 \/ c = 13 \/ c = 38 -> param_ok p -> free_of c (param_of p).
Proof.
  intros Hc [[Hk Hv] _]. unfold param_of, free_of. rewrite !Forall_app. split_and!.
  - eapply Forall_impl; [exact Hk|]. cbn. lia.
  - constructor; [cbn; lia|constructor].
  - eapply Forall_impl; [exact Hv|]. cbn. lia.
Qed.

Lemma join_free c sep l : free_of c sep -> Forall (free_of c) l -> free_of c (join sep l).
Proof.
  intros Hs. induction 1 as [|x l Hx Hl IH]; [by constructor|]. destruct l as [|y l]; [done|].
  rewrite join_cons by done. unfold free_of in *. by rewrite !Forall_app.
Qed.

Lemma target_free c path ps : c = 32 \/ c = 13 -> path_ok path -> Forall param_ok ps -> free_of c (target path ps).
Proof.
  intros Hc (H32 & H13 & _) Hps. assert (free_of c path) as Hp by (by destruct Hc as [-> | ->]).
  unfold target. destruct ps as [|p ps]; [done|]. set (l := p :: ps) in *. unfold free_of in *. rewrite !Forall_app.
  split_and!; [done|constructor; [cbn; lia|constructor]|].
  apply join_free; [constructor; [cbn; lia|constructor]|]. apply Forall_map. eapply Forall_impl; [exact Hps|].
  intros q. apply param_free. lia.
Qed.

(** The parameters are read one by one. *)
Lemma add_params_read ps : forall m, Forall param_ok ps -> add_params (map param_of ps) m = Done (0, list_to_map (reverse ps) ∪ m).
Proof.
  induction ps as [|[k v] ps IH]; intros m Hps; cbn [map add_params]; [by rewrite reverse_nil, list_to_map_nil, map_empty_union|].
  apply Forall_cons in Hps as [[[Hk Hv] Hne] Hps].
  pose proof (StringSplit_join 61 [] [k] v) as E. change (join [61] ([k] ++ [v])) with (param_of (k, v)) in E.
  change (str "=") with [61]. rewrite E; [| |done].
  2: { constructor; [|constructor; [|constructor]]; eapply Forall_impl; try done; cbn; lia. }
  clear E. simpl_m. cbn [app]. rewrite IH by done. rewrite reverse_cons, list_to_map_app, <- map_union_assoc. do 3 f_equal.
  cbn [list_to_map foldr fst snd]. by rewrite <- insert_union_l, map_empty_union.
Qed.

Lemma target_read path ps : path_ok path -> Forall param_ok ps ->
  GetUriAndParams (target path ps) ∅ = Done (0, path, params_of ps).
Proof.
  intros (_ & _ & Hq) Hps. unfold GetUriAndParams, target, params_of. destruct ps as [|p ps].
  - change (str "?") with [63]. by rewrite find_none.
  - set (l := p :: ps) in *. change (str "?") with [63]. rewrite find_free by done.
    replace (drop (length path + 1) (path ++ [63] ++ join (str "&") (map param_of l))) with (join (str "&") (map param_of l)).
    2: { rewrite app_assoc. replace (length path + 1)%nat with (length (path ++ [63])) by (rewrite length_app; cbn; lia). by rewrite drop_app_length. }
    assert (exists l' q, l = l' ++ [q]) as (l' & q & El) by (destruct (exists_last (l := l)) as (l' & q & E); [done|by exists l', q]).
    rewrite El in *. rewrite map_app. pose proof (StringSplit_join 38 [] (map param_of l') (param_of q)) as E.
    change (str "&") with [38]. change (map param_of [q]) with [param_of q]. rewrite E; clear E.
    + change [param_of q] with (map param_of [q]). rewrite <- map_app. simpl_m. rewrite add_params_read by done. simpl_m.
      by rewrite take_app_length, map_union_empty.
    + change [param_of q] with (map param_of [q]). rewrite <- map_app. apply Forall_map. eapply Forall_impl; [exact Hps|].
      intros x. apply param_free. lia.
    + unfold param_of. destruct q as [[|? ?] ?]; done.
Qed.

Lemma request_line_read c path ps : subpath_ c = target path ps -> path_ok path -> Forall param_ok ps ->
  request_line (request_line_of c) HttpRequest_new =
  Done (Some (true, mkHttpRequest (method_name (method_ c)) path (params_of ps) (str "1.1") 0 ∅)).
Proof.
  intros Ht Hp Hps. unfold request_line, request_line_of. rewrite Ht.
  pose proof (StringSplit_join 32 [] [method_name (method_ c); target path ps] (str "HTTP/1.1")) as E.
  cbn [app] in E. change (str " ") with [32]. rewrite E; clear E.
  - simpl_m. change (params HttpRequest_new) with (∅ : gmap bytes bytes). rewrite target_read by done. simpl_m. reflexivity.
  - constructor; [by destruct (method_ c); apply free_of_check; vm_compute|].
    constructor; [apply target_free; [by left|done..]|]. constructor; [by apply free_of_check; vm_compute|constructor].
  - done.
Qed.

Lemma dec_free n c : 0 <= n -> ~ (48 <= c <= 57) -> free_of c (dec n).
Proof. intros Hn Hc. destruct (dec_chars n Hn) as [H _]. eapply Forall_impl; [exact H|]. cbn. intros x Hx ->. by apply Hc. Qed.

Lemma all_headers_ok c : request_ok c -> Forall header_ok (all_headers c).
Proof.
  intros (Hh & Hs & _). unfold all_headers. rewrite !Forall_app. split; [|split; [done|]].
  - constructor; [split_and!; by apply free_of_check; vm_compute|]. constructor; [|constructor]. split_and!; [by apply free_of_check; vm_compute..|done].
  - destruct (method_ c); [constructor|]. constructor; [|constructor]. split_and!; [by apply free_of_check; vm_compute..|].
    apply dec_free; [apply zlen_nonneg|lia].
Qed.

Lemma request_headers_read c uri ps : request_ok c ->
  request_lines (map header_of (all_headers c)) (mkHttpRequest (method_name (method_ c)) uri ps (str "1.1") 0 ∅) =
  Done (Some (true, expected_request c uri ps)).
Proof.
  intros Hok. pose proof (all_headers_ok c Hok) as Hall. destruct Hok as (_ & _ & Hnd & Hcl & Hlen).
  unfold all_headers in *. set (rest := match method_ c with HTTP_GET => _ | HTTP_POST => _ end) in *.
  rewrite app_assoc in *. set (hs := [(str "Accept", str "*/*"); (str "Host", host_ c)] ++ hc_headers_ c) in *.
  apply Forall_app in Hall as [Hall _]. rewrite fmap_app in Hnd. apply NoDup_app in Hnd as (Hnd & Hdis & _).
  assert (Forall (fun h => h.1 <> str "Content-Length") hs) as Hne.
  { constructor; [done|]. constructor; [done|]. apply Forall_forall. intros h Hh E. apply Hcl. rewrite <- E. by apply list_elem_of_fmap_2. }
  pose proof (request_lines_headers hs (mkHttpRequest (method_name (method_ c)) uri ps (str "1.1") 0 ∅) Hall Hnd (fun _ _ => lookup_empty _) Hne) as E.
  rewrite map_app, (request_lines_app _ _ _ _ E). clear E.
  cbn [rq_method_ uri_ params rq_version_ content_length_ rq_headers_]. rewrite map_union_empty. unfold expected_request, all_headers, body_of.
  fold rest. rewrite (app_assoc _ (hc_headers_ c)). fold hs. unfold rest. destruct (method_ c); [by rewrite app_nil_r|].
  cbn [map request_lines]. destruct (split_header (str "Content-Length", dec (zlen (post_data_ c)))) as (-> & -> & ->).
  { split_and!; [by apply free_of_check; vm_compute..|]. apply dec_free; [apply zlen_nonneg|lia]. }
  cbn [fst snd]. rewrite bool_decide_eq_true_2, atoi_dec by (done || pose proof (zlen_nonneg (post_data_ c)); lia). simpl_m.
  unfold rq_add_header. cbn [rq_method_ uri_ params rq_version_ rq_headers_].
  assert (str "Content-Length" ∉ hs.*1) as Hni.
  { intros Hin. apply list_elem_of_fmap in Hin as (h & E & Hin). rewrite Forall_forall in Hne. by apply (Hne h Hin). }
  rewrite not_elem_of_list_to_map_1 by done. do 5 f_equal. rewrite list_to_map_snoc by done. reflexivity.
Qed.

(** What [content_body_] points to when the handler is called. *)
Definition body_ptr (c : HttpClient) : option bytes :=
  match method_ c with HTTP_POST => Some (post_data_ c) | HTTP_GET => None end.

Lemma dispatch_handler GetHandle c s path ps handle : request_ s = Some (expected_request c path ps) ->
  zlen (body_of c) <= i32 (zlen (content_data_ s)) -> content_data_ s = body_of c ->
  GetHandle (expected_request c path ps) = Some handle -> response_ptr_ s = None ->
  dispatch GetHandle s =
  Done (0, let s := run_calls (handle (expected_request c path ps) (body_ptr c)) (set_response HttpResponse_new s) in
           set_continue (match response_ptr_ s with Some r => rs_continue_flag_ r | None => false end) s).
Proof.
  intros Hr Hl Hc Hg Hp. unfold dispatch. rewrite Hr. apply Z.leb_le in Hl. unfold ensure_response, body_ptr. rewrite Hp, Hg.
  change (content_length_ (expected_request c path ps)) with (zlen (body_of c)). rewrite Hl, Hc.
  change (rq_method_ (expected_request c path ps)) with (method_name (method_ c)). unfold body_of, method_name.
  by destruct (method_ c).
Qed.

(** C18. The request that the client sends for a GET or a POST, with any target (a path and parameters), headers
    and body the format can carry, read in one piece by a new session, calls the handler of exactly this request:
    the method, the path, every parameter under its name (the last value of one given twice), every header, and
    of a POST the body with its length; of a GET there is no body, and its pointer is null. *)
Theorem http_request_roundtrip GetHandle c path ps handle :
  request_ok c -> subpath_ c = target path ps -> path_ok path -> Forall param_ok ps ->
  let rq := expected_request c path (params_of ps) in
  GetHandle rq = Some handle ->
  exists s0, request_ s0 = Some rq /\ response_ptr_ s0 = Some HttpResponse_new /\ is_closed_ s0 = false /\
    hs_log s0 = hs_log HttpSession_new /\
    HandleRequest GetHandle (request_text c) HttpSession_new =
    Done (Some (0, let s := run_calls (handle rq (body_ptr c)) s0 in
                   set_continue (match response_ptr_ s with Some r => rs_continue_flag_ r | None => false end) s)).
Proof.
  intros Hok Ht Hp Hps rq Hg. assert (free_of 13 (subpath_ c)) as H13 by (rewrite Ht; apply target_free; [by right|done..]).
  assert (Forall line_ok (request_lines_of c)) as Hl.
  { constructor.
    - unfold request_line_of. split; [|by destruct (method_ c)]. cbn [join]. unfold free_of. rewrite !Forall_app. split_and!; [|by apply free_of_check; vm_compute|done|by apply free_of_check; vm_compute..].
      by destruct (method_ c); apply free_of_check; vm_compute.
    - apply Forall_map. eapply Forall_impl; [by apply all_headers_ok|]. apply line_of_header. }
  unfold HandleRequest. cbn [HttpSession_new set_continue header_is_ready_ set_header header_data_ content_start_ app].
  unfold AnalyzeHeader. cbn [request_ header_data_ content_start_ set_header]. rewrite request_text_lines.
  rewrite (find_header_end _ (body_of c) Hl ltac:(done)), take_app_length, split_lines by done. simpl_m.
  unfold request_lines_of at 1. change (request_ (set_continue true HttpSession_new)) with (Some HttpRequest_new). cbn iota.
  rewrite (request_line_read c path ps Ht Hp Hps). simpl_m. rewrite (request_headers_read c path (params_of ps) Hok). simpl_m.
  cbn [Z.eqb negb set_request set_header header_is_ready_ content_data_ content_start_ header_data_ app].
  replace (drop _ (join CRLF (request_lines_of c) ++ HEADER_END ++ body_of c)) with (body_of c).
  2: { replace (Z.to_nat (Z.of_nat (length (join CRLF (request_lines_of c))) + 4)) with (length (join CRLF (request_lines_of c) ++ HEADER_END)) by (rewrite length_app; cbn; lia).
       by rewrite app_assoc, drop_app_length. }
  assert (zlen (body_of c) <= i32 (zlen (body_of c))) as Hle.
  { pose proof (zlen_nonneg (body_of c)). destruct Hok as (_ & _ & _ & _ & Hlen). rewrite i32_small; [lia|].
    revert H. unfold body_of. destruct (method_ c); [change (zlen []) with 0|]; lia. }
  match goal with |- context [dispatch GetHandle ?s] =>
    pose proof (dispatch_handler GetHandle c s path (params_of ps) handle eq_refl) as Hd end.
  rewrite Hd; [|exact Hle|done..]. simpl_m. eexists. split_and!; [| | | |reflexivity]; reflexivity.
Qed.

(** ** The length of a response *)

Lemma response_header_lines text body r : cr_header_ready_ r = false -> Forall line_ok text -> forall first lines, text = first :: lines ->
  cr_data_ r = join CRLF text ++ HEADER_END ++ body ->
  response_header r =
  (r1 ← status_line first (cr_set_data body (cr_set_header_ready r)); o ← response_lines lines r1; mret (option_map (fun r => (true, r)) o)).
Proof.
  intros Hr Ht first lines -> Hd. unfold response_header. rewrite Hr, Hd, find_header_end, take_app_length, split_lines by done. simpl_m.
  replace (drop _ _) with body; [done|].
  replace (length (join CRLF (first :: lines)) + 4)%nat with (length (join CRLF (first :: lines) ++ HEADER_END)) by (rewrite length_app; cbn; lia).
  by rewrite app_assoc, drop_app_length.
Qed.

(** The server's own header, as the client's [substr] cuts it: the first digit is lost. *)
Lemma length_line n : 0 <= n ->
  response_line (str "Content-Length:" ++ dec n) HttpClientResponse_new =
  (v ← atoi (drop 1 (dec n)); mret (Some (cr_add_header (str "Content-Length") (drop 1 (dec n)) (cr_set_content_length v HttpClientResponse_new)))).
Proof.
  intros Hn. destruct (dec_chars n Hn) as [_ Hne]. unfold response_line.
  change (str "Content-Length:") with (str "Content-Length" ++ [58]). rewrite <- app_assoc.
  pose proof (find_free 58 [] (str "Content-Length") (dec n) ltac:(by apply free_of_check; vm_compute)) as E.
  change (str ":") with [58]. rewrite E. unfold substr_from.
  destruct (dec n) as [|d l] eqn:Ed; [done|].
  rewrite decide_True by (rewrite !length_app; cbn; lia).
  replace (drop (length (str "Content-Length") + 2) _) with l by done.
  rewrite take_app_length, bool_decide_eq_true_2 by done.
  change (drop 1 (d :: l)) with (drop 0 l). rewrite drop_0. destruct (atoi l); reflexivity.
Qed.

Example length_misread : response_line (str "Content-Length:" ++ dec 123) HttpClientResponse_new =
  Done (Some (cr_add_header (str "Content-Length") (str "23") (cr_set_content_length 23 HttpClientResponse_new))).
Proof. rewrite length_line by lia. reflexivity. Qed.

(** ** Concrete run *)

Definition some_client : HttpClient :=
  mkHttpClient (str "sfu.example.com") 443 HTTP_POST [(str "Content-Type", str "application/sdp"); (str "User-Agent", str "cpp_streamer")]
    (str "/rtc/v1/whip?app=live&stream=1") (str "v=0") None [].

Definition some_params : list (bytes * bytes) := [(str "app", str "live"); (str "stream", str "1")].
Definition answer (rq : HttpRequest) (body : option bytes) : list response_call := [WriteData (default [] body) false].

Lemma http_request_roundtrip_witness :
  let rq := mkHttpRequest (str "POST") (str "/rtc/v1/whip") (<[str "stream" := str "1"]> (<[str "app" := str "live"]> ∅))
    (str "1.1") 3 (list_to_map (all_headers some_client)) in
  exists s0, request_ s0 = Some rq /\
  HandleRequest (fun _ => Some answer) (request_text some_client) HttpSession_new =
  Done (Some (0, let s := run_calls (answer rq (Some (str "v=0"))) s0 in
                 set_continue (match response_ptr_ s with Some r => rs_continue_flag_ r | None => false end) s)).
Proof.
  destruct (http_request_roundtrip (fun _ => Some answer) some_client (str "/rtc/v1/whip") some_params answer) as (s0 & H1 & _ & _ & _ & H2).
  - split_and!; [by apply free_of_check; vm_compute|by apply (bool_decide_unpack _); vm_compute; exact I| | |done].
    + apply (bool_decide_unpack _). vm_compute. exact I.
    + apply (bool_decide_unpack _). vm_compute. exact I.
  - vm_compute. reflexivity.
  - apply (bool_decide_unpack _). vm_compute. exact I.
  - apply (bool_decide_unpack _). vm_compute. exact I.
  - done.
  - by exists s0.
Defined.
