(* ===== verification/WebSocket.v ===== *)
(** * [WebSocket]: frames and sessions

    Models [src/net/http/websocket/websocket_frame.cpp], [ws_session_base.cpp] and
    the frames written and handled by [websocket_session.cpp] and
    [websocket_client.cpp].  The receive buffer of a frame is the queue of bytes
    that its member holds as long as no append moves it onto itself (the last section of
    [DataBuffer]).  The virtual calls of the
    base class ([SendWsFrame], the callbacks, closing the connection) are a log; a
    frame is put in bytes by [ws_frame].  The random masking key is an argument. *)
From S2P Require Import Prelude ByteStream.

Definition WS_OP_CONTINUE_TYPE : Z := 0x00.
Definition WS_OP_TEXT_TYPE : Z := 0x01.
Definition WS_OP_BIN_TYPE : Z := 0x02.
Definition WS_OP_CLOSE_TYPE : Z := 0x08.
Definition WS_OP_PING_TYPE : Z := 0x09.
Definition WS_OP_PONG_TYPE : Z := 0x0a.

(** ** The frame parser *)

Record WebSocketFrame := mkFrame {
  buffer_ : bytes;
  payload_start_ : Z;
  payload_len_ : Z;
  opcode_ : Z;
  mask_enable_ : bool;
  fin_ : bool;
  header_ready_ : bool;
  masking_key_ : bytes
}.
Definition WebSocketFrame_new (mem : bytes) : WebSocketFrame := mkFrame [] 0 0 0 false false false mem.

Definition set_buffer (v : bytes) (f : WebSocketFrame) : WebSocketFrame :=
  mkFrame v (payload_start_ f) (payload_len_ f) (opcode_ f) (mask_enable_ f) (fin_ f) (header_ready_ f) (masking_key_ f).

(** [payload_len_] and [payload_start_] from the second byte; [None]: more data are needed.  The fields are
    those the function leaves when it stops there. *)
Definition extended_length (buf : bytes) (len7 : Z) : outcome (option Z * Z * Z) :=
  if len7 =? 127 then
    if zlen buf <? 10 then mret (None, len7, 2)
    else
      v ← Read8Bytes (drop 2 buf);
      mret (Some 0, i64 v, 10)
  else if len7 =? 126 then
    if zlen buf <? 4 then mret (None, len7, 2)
    else
      v ← Read2Bytes (drop 2 buf);
      mret (Some 0, v, 4)
  else mret (Some 0, len7, 2).

(** The part of [Parse] under [!header_ready_]: [false] where it returns 1. *)
Definition parse_header (f : WebSocketFrame) : outcome (bool * WebSocketFrame) :=
  b0 ← (buffer_ f).[0];
  b1 ← (buffer_ f).[1];
  let fin := negb (Z.shiftr b0 7 =? 0) in
  let opcode := Z.land b0 15 in
  '(r, len, start) ← extended_length (buffer_ f) (Z.land b1 127);
  match r with
  | None => mret (false, mkFrame (buffer_ f) start len opcode (mask_enable_ f) fin false (masking_key_ f))
  | Some _ =>
      let mask := negb (Z.shiftr b1 7 =? 0) in
      if mask then
        if i32 (zlen (buffer_ f)) <? start + 4 then mret (false, mkFrame (buffer_ f) start len opcode mask fin false (masking_key_ f))
        else
          key ← read_range (buffer_ f) start 4;
          mret (true, mkFrame (buffer_ f) (start + 4) len opcode mask fin true key)
      else mret (true, mkFrame (buffer_ f) start len opcode mask fin true (masking_key_ f))
  end.

(** The two loops over the payload: four bytes at a time, and the rest. *)
Fixpoint mask_data (key p : bytes) : bytes :=
  match key, p with
  | [k0; k1; k2; k3], a :: b :: c :: d :: r => Z.lxor a k0 :: Z.lxor b k1 :: Z.lxor c k2 :: Z.lxor d k3 :: mask_data key r
  | _, _ => zip_with (fun b k => Z.lxor b k) p key
  end.

(** Unmasking in place; [frame_length] is a [size_t]. *)
Definition unmask (f : WebSocketFrame) : outcome WebSocketFrame :=
  p ← read_range (buffer_ f) (payload_start_ f) (u64 (payload_len_ f));
  b ← write_at (buffer_ f) (payload_start_ f) (mask_data (masking_key_ f) p);
  mret (set_buffer b f).

(** The value returned and the frame. *)
Definition Parse (data : bytes) (f : WebSocketFrame) : outcome (Z * WebSocketFrame) :=
  let f := set_buffer (buffer_ f ++ data) f in
  if zlen (buffer_ f) <? 2 then mret (1, f)
  else
    '(go, f) ← (if header_ready_ f then mret (true, f) else parse_header f);
    if negb go then mret (1, f)
    else
      end_ ← chk_int64 (payload_start_ f + payload_len_ f);
      if i32 (zlen (buffer_ f)) <? end_ then mret (1, f)
      else if mask_enable_ f then f ← unmask f; mret (0, f)
      else mret (0, f).

Definition PayloadIsReady (f : WebSocketFrame) : bool := i32 (payload_len_ f) <=? i32 (zlen (buffer_ f)) - payload_start_ f.

(** [ConsumeData]: a length that is not there is ignored. *)
Definition Consume (len : Z) (f : WebSocketFrame) : WebSocketFrame :=
  if zlen (buffer_ f) <? i32 len then f else set_buffer (drop (Z.to_nat (i32 len)) (buffer_ f)) f.
Definition Reset (f : WebSocketFrame) : WebSocketFrame :=
  mkFrame (buffer_ f) 0 0 (opcode_ f) (mask_enable_ f) (fin_ f) false (masking_key_ f).

(** ** Writing a frame *)

(** [header_start] with its length. *)
Definition ws_header (len op_code : Z) : bytes :=
  let first := 0x80 + Z.land op_code 15 in
  let b i := Z.land (Z.shiftr len (8 * i)) 0xFF in
  if 126 <=? len then
    if 0xFFFF <? len then [first; 0x80 + 127; b 7; b 6; b 5; b 4; b 3; b 2; b 1; b 0]
    else [first; 0x80 + 126; b 1; b 0]
  else [first; 0x80 + Z.land len 127].

(** What [SendWsFrame] of the client sends in one write, and that of the server in three. *)
Definition ws_frame (masking_key data : bytes) (op_code : Z) : bytes :=
  ws_header (zlen data) op_code ++ masking_key ++ mask_data masking_key data.
Definition ws_writes (masking_key data : bytes) (op_code : Z) : list bytes :=
  [ws_header (zlen data) op_code; masking_key; mask_data masking_key data].

(** ** The session *)

Inductive ws_event :=
  | SendWsFrame (data : bytes) (op_code : Z)
  | OnReadText (text : bytes)
  | OnReadData (data : bytes)
  | OnClose (code : Z)                  (** the callback of the client; its description is left out *)
  | OnConnection
  | CloseTcp
  | HttpWrite (text : bytes)            (** a write that is not a frame *)
  | TcpRead.

(** A server session or a client. *)
Inductive ws_side := ServerSide | ClientSide.
#[export] Instance ws_side_eq_dec : EqDecision ws_side.
Proof. solve_decision. Defined.

Record WebSocketSession := mkSession {
  side : ws_side;
  has_cb : bool;
  frame_ : WebSocketFrame;
  recv_buffer_vec_ : list bytes;
  last_op_code_ : Z;
  die_count_ : Z;
  last_recv_pong_ms_ : Z;
  last_send_ping_ms_ : Z;
  is_connected_ : bool;
  close_ : bool;
  ws_log : list ws_event
}.

Definition set_frame (v : WebSocketFrame) (s : WebSocketSession) : WebSocketSession :=
  mkSession (side s) (has_cb s) v (recv_buffer_vec_ s) (last_op_code_ s) (die_count_ s) (last_recv_pong_ms_ s) (last_send_ping_ms_ s) (is_connected_ s) (close_ s) (ws_log s).
Definition set_recv_buffers (v : list bytes) (s : WebSocketSession) : WebSocketSession :=
  mkSession (side s) (has_cb s) (frame_ s) v (last_op_code_ s) (die_count_ s) (last_recv_pong_ms_ s) (last_send_ping_ms_ s) (is_connected_ s) (close_ s) (ws_log s).
Definition set_last_op_code (v : Z) (s : WebSocketSession) : WebSocketSession :=
  mkSession (side s) (has_cb s) (frame_ s) (recv_buffer_vec_ s) v (die_count_ s) (last_recv_pong_ms_ s) (last_send_ping_ms_ s) (is_connected_ s) (close_ s) (ws_log s).
Definition reset_die_count (s : WebSocketSession) : WebSocketSession :=
  mkSession (side s) (has_cb s) (frame_ s) (recv_buffer_vec_ s) (last_op_code_ s) 0 (last_recv_pong_ms_ s) (last_send_ping_ms_ s) (is_connected_ s) (close_ s) (ws_log s).
Definition set_recv_pong (v : Z) (s : WebSocketSession) : WebSocketSession :=
  mkSession (side s) (has_cb s) (frame_ s) (recv_buffer_vec_ s) (last_op_code_ s) (die_count_ s) v (last_send_ping_ms_ s) (is_connected_ s) (close_ s) (ws_log s).
Definition set_send_ping (v : Z) (s : WebSocketSession) : WebSocketSession :=
  mkSession (side s) (has_cb s) (frame_ s) (recv_buffer_vec_ s) (last_op_code_ s) (die_count_ s) (last_recv_pong_ms_ s) v (is_connected_ s) (close_ s) (ws_log s).
Definition set_connected (v : bool) (s : WebSocketSession) : WebSocketSession :=
  mkSession (side s) (has_cb s) (frame_ s) (recv_buffer_vec_ s) (last_op_code_ s) (die_count_ s) (last_recv_pong_ms_ s) (last_send_ping_ms_ s) v (close_ s) (ws_log s).
Definition set_close (s : WebSocketSession) : WebSocketSession :=
  mkSession (side s) (has_cb s) (frame_ s) (recv_buffer_vec_ s) (last_op_code_ s) (die_count_ s) (last_recv_pong_ms_ s) (last_send_ping_ms_ s) (is_connected_ s) true (ws_log s).
Definition emit (e : ws_event) (s : WebSocketSession) : WebSocketSession :=
  mkSession (side s) (has_cb s) (frame_ s) (recv_buffer_vec_ s) (last_op_code_ s) (die_count_ s) (last_recv_pong_ms_ s) (last_send_ping_ms_ s) (is_connected_ s) (close_ s) (ws_log s ++ [e]).

(** The members of the base class at their initial values. *)
Definition WebSocketSession_new (sd : ws_side) (cb : bool) (mem : bytes) : WebSocketSession :=
  mkSession sd cb (WebSocketFrame_new mem) [] 1 0 (-1) (-1) false false [].

Definition AsyncWriteText (text : bytes) (s : WebSocketSession) : WebSocketSession := emit (SendWsFrame text WS_OP_TEXT_TYPE) s.
Definition AsyncWriteData (data : bytes) (s : WebSocketSession) : WebSocketSession := emit (SendWsFrame data WS_OP_BIN_TYPE) s.

(** [SendClose]: the code is not used. *)
Definition SendClose (code : Z) (reason : bytes) (s : WebSocketSession) : WebSocketSession := emit (SendWsFrame reason WS_OP_CLOSE_TYPE) s.
Definition SendPingFrame (now_ms : Z) (s : WebSocketSession) : WebSocketSession :=
  emit (SendWsFrame (Write4Bytes (u32 (Z.quot now_ms 1000))) WS_OP_PING_TYPE) s.

Definition HandleWsData (data : bytes) (op_code : Z) (s : WebSocketSession) : WebSocketSession :=
  if has_cb s then
    if op_code =? WS_OP_TEXT_TYPE then emit (OnReadText data) s
    else if op_code =? WS_OP_BIN_TYPE then emit (OnReadData data) s
    else s
  else s.

(** The codes that are refused. *)
Definition invalid_close (code : Z) : bool :=
  (code <? 1000) || (5000 <=? code) || (code =? 1004) || (code =? 1005) || (code =? 1006) || (code =? 1015).

Definition HandleWsClose (data : bytes) (s : WebSocketSession) : outcome WebSocketSession :=
  if close_ s then mret s
  else
    s ← (if zlen data <=? 1 then mret (SendClose 1002 (str "Incomplete close code") s)
         else
           code ← Read2Bytes data;
           if invalid_close code then mret (SendClose 1002 (str "Invalid close code") s)
           else mret (emit (SendWsFrame data WS_OP_CLOSE_TYPE) s));
    let s := set_close s in
    match side s with
    | ServerSide => mret (emit CloseTcp s)
    | ClientSide => if has_cb s then mret (emit CloseTcp (set_connected false (emit (OnClose 0) s))) else Fault OutOfBounds
    end.

Fixpoint close_items (items : list bytes) (s : WebSocketSession) : outcome WebSocketSession :=
  match items with [] => mret s | i :: items => s ← HandleWsClose i s; close_items items s end.

Definition HandleWsPing (s : WebSocketSession) : WebSocketSession :=
  foldl (fun s item => emit (SendWsFrame item WS_OP_PONG_TYPE) s) s (recv_buffer_vec_ s).

(** The [switch] over the opcode of the last frame of a message. *)
Definition handle_message (now_ms : Z) (s : WebSocketSession) : outcome WebSocketSession :=
  let op := opcode_ (frame_ s) in
  let items := recv_buffer_vec_ s in
  if op =? WS_OP_PING_TYPE then mret (HandleWsPing s)
  else if op =? WS_OP_PONG_TYPE then mret (set_recv_pong now_ms s)
  else if op =? WS_OP_CLOSE_TYPE then close_items items s
  else if op =? WS_OP_CONTINUE_TYPE then mret (foldl (fun s item => HandleWsData item (last_op_code_ s) s) s items)
  else if (op =? WS_OP_TEXT_TYPE) || (op =? WS_OP_BIN_TYPE) then mret (foldl (fun s item => HandleWsData item op s) s items)
  else mret s.

(** A frame that [Parse] accepted: [inl] is a return out of the loop. *)
Definition take_frame (now_ms : Z) (s : WebSocketSession) : outcome ((Z * WebSocketSession) + WebSocketSession) :=
  let f := frame_ s in
  let s := if (opcode_ f =? WS_OP_TEXT_TYPE) || (opcode_ f =? WS_OP_BIN_TYPE) then set_last_op_code (opcode_ f) s else s in
  if negb (PayloadIsReady f) then mret (inl (1, s))
  else
    payload ← read_range (buffer_ f) (payload_start_ f) (u64 (payload_len_ f));
    let s := set_recv_buffers (recv_buffer_vec_ s ++ [payload]) s in
    let s := set_frame (Reset (Consume (payload_start_ f + payload_len_ f) f)) s in
    if negb (fin_ f) then mret (inr s)
    else s ← handle_message now_ms (reset_die_count s); mret (inr (set_recv_buffers [] s)).

Fixpoint frame_loop (fuel : nat) (now_ms : Z) (data : bytes) (s : WebSocketSession) : outcome (Z * WebSocketSession) :=
  match fuel with
  | O => Fault OutOfFuel
  | S fuel =>
      '(ret, f) ← Parse data (frame_ s);
      let s := set_frame f s in
      if negb (ret =? 0) then mret (ret, s)
      else
        r ← take_frame now_ms s;
        match r with
        | inl r => mret r
        | inr s => if 0 <? zlen (buffer_ (frame_ s)) then frame_loop fuel now_ms [] s else mret (0, s)
        end
  end.

(** Every turn of the loop takes a byte of the buffer at least. *)
Definition HandleFrame (now_ms : Z) (data : bytes) (s : WebSocketSession) : outcome (Z * WebSocketSession) :=
  frame_loop (S (length (buffer_ (frame_ s)) + length data)) now_ms data s.

Definition kWebSocketPongTimeout : Z := 15 * 1000.

Definition OnTimer (now_ms : Z) (s : WebSocketSession) : outcome WebSocketSession :=
  if negb (is_connected_ s) then mret s
  else
    let s := if 2000 <? now_ms - last_send_ping_ms_ s then SendPingFrame now_ms (set_send_ping now_ms s) else s in
    match side s with
    | ServerSide => mret s
    | ClientSide =>
        if last_recv_pong_ms_ s <=? 0 then mret (set_recv_pong now_ms s)
        else if kWebSocketPongTimeout <? now_ms - last_recv_pong_ms_ s then if has_cb s then mret (emit (OnClose (-1)) (emit CloseTcp (set_connected false s))) else Fault OutOfBounds
        else mret s
    end.
