(* ===== verification/WsRun.v ===== *)
(** * [WsRun]: WebSocket frames from one side to the other

    Whatever frames one side writes with [SendWsFrame], and however TCP cuts their
    bytes, the other side handles exactly these messages, in order: [messages] is the
    specification, which knows nothing of bytes and frames. *)
From S2P Require Import Prelude ByteStream WebSocket.

(** ** Masking *)

(** Blocks of four bytes. *)
Lemma four_ind (P : bytes -> Prop) :
  P [] -> (forall a, P [a]) -> (forall a b, P [a; b]) -> (forall a b c, P [a; b; c]) ->
  (forall a b c d r, P r -> P (a :: b :: c :: d :: r)) -> forall p, P p.
Proof.
  intros H0 H1 H2 H3 H4 p. enough (forall n p, (length p <= n)%nat -> P p) as H by by apply (H (length p)).
  induction n as [|n IH]; intros [|a [|b [|c [|d r]]]] Hl; cbn in Hl; try lia; auto. apply H4, IH. lia.
Qed.

Lemma lxor_back x k : Z.lxor (Z.lxor x k) k = x.
Proof. by rewrite Z.lxor_assoc, Z.lxor_nilpotent, Z.lxor_0_r. Qed.

Lemma mask_data_back key p : length key = 4%nat -> mask_data key (mask_data key p) = p.
Proof.
  destruct key as [|k0 [|k1 [|k2 [|k3 [|]]]]]; try done. intros _.
  induction p using four_ind; cbn [mask_data zip_with]; rewrite ?lxor_back; [done..|]. by rewrite IHp.
Qed.

Lemma mask_data_length key p : length key = 4%nat -> length (mask_data key p) = length p.
Proof.
  destruct key as [|k0 [|k1 [|k2 [|k3 [|]]]]]; try done. intros _.
  induction p using four_ind; cbn [mask_data zip_with length]; [done..|]. by rewrite IHp.
Qed.

(** ** A frame on the wire *)

(** A message: its masking key, payload and opcode. *)
Record message := mkMessage { m_key : bytes; m_data : bytes; m_op : Z }.
Definition wire (m : message) : bytes := ws_frame (m_key m) (m_data m) (m_op m).
Definition head (m : message) : bytes := ws_header (zlen (m_data m)) (m_op m).
Definition message_ok (m : message) : Prop := length (m_key m) = 4%nat /\ 0 <= m_op m < 16 /\ zlen (wire m) < 2 ^ 31.

Lemma wire_split m : wire m = (head m ++ m_key m) ++ mask_data (m_key m) (m_data m).
Proof. unfold wire, ws_frame, head. by rewrite app_assoc. Qed.

(** The seven bits of the length, and its extension. *)
Definition len7 (L : Z) : Z := if L <? 126 then L else if L <=? 0xFFFF then 126 else 127.
Definition ext (L : Z) : bytes := if L <? 126 then [] else if L <=? 0xFFFF then be_bytes 2 L else be_bytes 8 L.

Lemma len7_range L : 0 <= L -> 0 <= len7 L < 128.
Proof. intros H. unfold len7. destruct (Z.ltb_spec L 126); [lia|]. case_match; lia. Qed.

Lemma zlen_ext L : zlen (ext L) = if L <? 126 then 0 else if L <=? 0xFFFF then 2 else 8.
Proof. unfold ext, zlen. by repeat case_match. Qed.

Lemma ws_header_eq L op : 0 <= L -> ws_header L op = (0x80 + Z.land op 15) :: (0x80 + len7 L) :: ext L.
Proof.
  intros HL. unfold ws_header, len7, ext. destruct (Z.ltb_spec L 126), (Z.leb_spec 126 L); try lia.
  - rewrite (low_mask L 127 7), Z.mod_small by (done || lia). done.
  - by destruct (Z.ltb_spec 0xFFFF L), (Z.leb_spec L 0xFFFF); try lia.
Qed.

Lemma fin_bit op : 0 <= op < 16 -> Z.shiftr (0x80 + Z.land op 15) 7 = 1 /\ Z.land (0x80 + Z.land op 15) 15 = op.
Proof.
  intros Ho. rewrite (low_mask op 15 4), Z.mod_small by done. rewrite Z.shiftr_div_pow2, (low_mask _ 15 4) by done. split; div_lia.
Qed.

Lemma len_bits n : 0 <= n < 128 -> Z.land (0x80 + n) 127 = n /\ Z.shiftr (0x80 + n) 7 = 1.
Proof. intros Hn. rewrite Z.shiftr_div_pow2, (low_mask _ 127 7) by done. split; div_lia. Qed.

Lemma extended_length_whole x y L rest : 0 <= L < 2 ^ 63 ->
  extended_length (x :: y :: ext L ++ rest) (len7 L) = Done (Some 0, L, 2 + zlen (ext L)).
Proof.
  intros HL. unfold extended_length. rewrite zlen_ext, !zlen_cons, zlen_app, zlen_ext. pose proof (zlen_nonneg rest).
  unfold len7, ext. destruct (Z.ltb_spec L 126).
  - destruct (Z.eqb_spec L 127); [lia|]. destruct (Z.eqb_spec L 126); [lia|]. done.
  - destruct (Z.leb_spec L 0xFFFF); cbn [Z.eqb Pos.eqb drop].
    + destruct (Z.ltb_spec (1 + (1 + (2 + zlen rest))) 4); [lia|]. rewrite drop_0, Read2Bytes_spec, be_value_be_bytes by apply be_bytes_length.
      simpl_m. do 3 f_equal. apply Z.mod_small. lia.
    + destruct (Z.ltb_spec (1 + (1 + (8 + zlen rest))) 10); [lia|]. rewrite drop_0, Read8Bytes_spec, be_value_be_bytes by apply be_bytes_length.
      simpl_m. do 3 f_equal. rewrite Z.mod_small by lia. unfold i64. rewrite Z.mod_small; lia.
Qed.

Lemma extended_length_short buf L : 0 <= L -> 2 <= zlen buf < 2 + zlen (ext L) ->
  exists len start, extended_length buf (len7 L) = Done (None, len, start).
Proof.
  intros HL. rewrite zlen_ext. unfold extended_length, len7. destruct (Z.ltb_spec L 126); [lia|].
  destruct (Z.leb_spec L 0xFFFF); cbn [Z.eqb Pos.eqb]; intros Hb.
  - destruct (Z.ltb_spec (zlen buf) 4); [|lia]. by do 2 eexists.
  - destruct (Z.ltb_spec (zlen buf) 10); [|lia]. by do 2 eexists.
Qed.

Lemma head_eq m : head m = (0x80 + Z.land (m_op m) 15) :: (0x80 + len7 (zlen (m_data m))) :: ext (zlen (m_data m)).
Proof. apply ws_header_eq, zlen_nonneg. Qed.

Lemma zlen_head m : zlen (head m) = 2 + zlen (ext (zlen (m_data m))).
Proof. rewrite head_eq, !zlen_cons. lia. Qed.

Lemma zlen_masked key p : length key = 4%nat -> zlen (mask_data key p) = zlen p.
Proof. intros H. unfold zlen. by rewrite mask_data_length. Qed.

Lemma zlen_wire m : message_ok m -> zlen (wire m) = zlen (head m) + 4 + zlen (m_data m).
Proof. intros (H & _). rewrite wire_split, !zlen_app, zlen_masked by done. unfold zlen at 2. rewrite H. lia. Qed.

(** ** The parser on such frames *)

(** The frame behind its header. *)
Definition parsed (m : message) (buf : bytes) : WebSocketFrame :=
  mkFrame buf (zlen (head m) + 4) (zlen (m_data m)) (m_op m) true true true (m_key m).

(** The buffer holds [b], a part of the bytes of [m], and the frame agrees. *)
Definition partial (m : message) (b : bytes) (f : WebSocketFrame) : Prop :=
  buffer_ f = b /\ (header_ready_ f = true -> f = parsed m b).

Lemma prefix_two (b c : bytes) m : 2 <= zlen b -> b ++ c = wire m ->
  b.[0] = Done (0x80 + Z.land (m_op m) 15) /\ b.[1] = Done (0x80 + len7 (zlen (m_data m))).
Proof.
  rewrite wire_split, head_eq. intros Hb E. destruct b as [|x [|y b]]; try (unfold zlen in Hb; cbn in Hb; lia).
  by injection E as -> -> _.
Qed.

(** The header of a buffer that holds it whole. *)
Lemma parse_header_whole m f rest : message_ok m -> buffer_ f = (head m ++ m_key m) ++ rest -> zlen (buffer_ f) < 2 ^ 31 ->
  parse_header f = Done (true, parsed m (buffer_ f)).
Proof.
  intros Hm Hb Hl. pose proof Hm as (Hk & Ho & Hw). unfold parse_header.
  assert (zlen (m_key m) = 4) as Hk4 by (unfold zlen; by rewrite Hk). pose proof (zlen_nonneg (m_data m)). pose proof (zlen_nonneg rest).
  rewrite zlen_wire in Hw by done. pose proof (zlen_nonneg (head m)).
  assert (zlen (buffer_ f) = zlen (head m) + 4 + zlen rest) as Hz by (rewrite Hb, !zlen_app; lia).
  assert ((buffer_ f).[0] = Done (0x80 + Z.land (m_op m) 15)) as -> by (rewrite Hb, head_eq; reflexivity).
  assert ((buffer_ f).[1] = Done (0x80 + len7 (zlen (m_data m)))) as -> by (rewrite Hb, head_eq; reflexivity). simpl_m.
  destruct (len_bits (len7 (zlen (m_data m)))) as [-> ->]; [by apply len7_range|]. destruct (fin_bit (m_op m) Ho) as [-> ->].
  assert (extended_length (buffer_ f) (len7 (zlen (m_data m))) = Done (Some 0, zlen (m_data m), zlen (head m))) as ->.
  { rewrite Hb, zlen_head, head_eq. cbn [app]. rewrite <- !app_assoc. apply extended_length_whole. lia. }
  simpl_m. cbn [negb Z.eqb]. rewrite i32_small by lia. destruct (Z.ltb_spec (zlen (buffer_ f)) (zlen (head m) + 4)); [lia|].
  assert (read_range (buffer_ f) (zlen (head m)) 4 = Done (m_key m)) as ->; [|done].
  rewrite Hb, <- Hk4, <- app_assoc. apply read_range_mid.
Qed.

(** The header of a buffer that ends before it does. *)
Lemma parse_header_short m f c : message_ok m -> 2 <= zlen (buffer_ f) < zlen (head m) + 4 -> buffer_ f ++ c = wire m ->
  exists f', parse_header f = Done (false, f') /\ buffer_ f' = buffer_ f /\ header_ready_ f' = false.
Proof.
  intros Hm Hl Hb. pose proof Hm as (Hk & Ho & Hw). rewrite zlen_wire in Hw by done. unfold parse_header.
  destruct (prefix_two _ _ _ (proj1 Hl) Hb) as [-> ->]. simpl_m. pose proof (zlen_nonneg (m_data m)).
  destruct (len_bits (len7 (zlen (m_data m)))) as [-> ->]; [by apply len7_range|].
  destruct (Z.ltb_spec (zlen (buffer_ f)) (zlen (head m))) as [Hs|Hs].
  - destruct (extended_length_short (buffer_ f) (zlen (m_data m))) as (len & st & ->); [done|rewrite zlen_head in Hs; lia|]. simpl_m. by eexists.
  - assert (extended_length (buffer_ f) (len7 (zlen (m_data m))) = Done (Some 0, zlen (m_data m), zlen (head m))) as ->.
    { assert (exists k, buffer_ f = head m ++ k) as (k & ->).
      { rewrite wire_split, <- app_assoc in Hb. apply app_split in Hb as [(k & -> & _)|(k & Hk' & E & _)]; [by exists k|].
        exfalso. apply (f_equal zlen) in E. rewrite zlen_app in E. destruct k; [done|]. rewrite zlen_cons in E. pose proof (zlen_nonneg k). lia. }
      rewrite zlen_head, head_eq. cbn [app]. apply extended_length_whole. lia. }
    simpl_m. cbn [negb Z.eqb]. rewrite i32_small by lia. destruct (Z.ltb_spec (zlen (buffer_ f)) (zlen (head m) + 4)); [|lia]. by eexists.
Qed.

Lemma set_buffer_parsed m b d : set_buffer (b ++ d) (parsed m b) = parsed m (b ++ d).
Proof. reflexivity. Qed.

(** The header phase of [Parse], once two bytes are there. *)
Lemma header_phase m f c : message_ok m -> (header_ready_ f = true -> f = parsed m (buffer_ f)) -> zlen (buffer_ f) < 2 ^ 31 ->
  2 <= zlen (buffer_ f) -> buffer_ f ++ c = wire m \/ (exists r, buffer_ f = wire m ++ r /\ c = []) ->
  (zlen (head m) + 4 <= zlen (buffer_ f) /\ (if header_ready_ f then mret (true, f) else parse_header f) = Done (true, parsed m (buffer_ f))) \/
  (zlen (buffer_ f) < zlen (head m) + 4 /\ exists f', (if header_ready_ f then mret (true, f) else parse_header f) = Done (false, f') /\
    buffer_ f' = buffer_ f /\ header_ready_ f' = false) \/
  (zlen (buffer_ f) < zlen (head m) + 4 /\ f = parsed m (buffer_ f) /\ header_ready_ f = true).
Proof.
  intros Hm Hr Hl H2 Hc. pose proof Hm as (Hk & _). assert (zlen (m_key m) = 4) as Hk4 by (unfold zlen; by rewrite Hk).
  destruct (Z.leb_spec (zlen (head m) + 4) (zlen (buffer_ f))) as [Hz|Hz].
  - left. split; [done|]. destruct (header_ready_ f); [by rewrite <- Hr|].
    assert (exists k, buffer_ f = (head m ++ m_key m) ++ k) as (k & Ek).
    { destruct Hc as [Hc|(r & -> & _)]; [|rewrite wire_split, <- app_assoc; by eexists].
      rewrite wire_split in Hc. apply app_split in Hc as [(k & -> & _)|(k & Hk' & E & _)]; [by exists k|].
      exfalso. apply (f_equal zlen) in E. rewrite !zlen_app in E. destruct k; [done|]. rewrite zlen_cons in E. pose proof (zlen_nonneg k). lia. }
    by apply (parse_header_whole m f k).
  - right. destruct (header_ready_ f) eqn:E; [right; split; [done|split; [by apply Hr|done]]|]. left. split; [done|].
    apply (parse_header_short m f c Hm); [lia|]. destruct Hc as [Hc|(r & Hc & _)]; [done|].
    exfalso. rewrite Hc, zlen_app, zlen_wire in Hz by done. pose proof (zlen_nonneg (m_data m)). pose proof (zlen_nonneg r). lia.
Qed.

Lemma parse_more m b d c f : message_ok m -> partial m b f -> b ++ d ++ c = wire m -> c <> [] ->
  exists f', Parse d f = Done (1, f') /\ partial m (b ++ d) f'.
Proof.
  intros Hm [Hb Hr] E Hc. pose proof Hm as (Hk & _ & Hw). pose proof (zlen_wire m Hm) as Hzw. pose proof (zlen_nonneg (m_data m)).
  assert (zlen (b ++ d) < zlen (wire m)) as Hlt.
  { rewrite <- E, !zlen_app. destruct c; [done|]. rewrite zlen_cons. pose proof (zlen_nonneg c). lia. }
  unfold Parse. rewrite Hb. set (f1 := set_buffer (b ++ d) f). change (buffer_ f1) with (b ++ d).
  assert (header_ready_ f1 = true -> f1 = parsed m (b ++ d)) as Hr1 by (intros R; unfold f1; by rewrite (Hr R), set_buffer_parsed).
  destruct (Z.ltb_spec (zlen (b ++ d)) 2); [by exists f1|].
  destruct (header_phase m f1 c Hm Hr1 ltac:(change (buffer_ f1) with (b ++ d); lia) ltac:(done) ltac:(left; change (buffer_ f1) with (b ++ d); by rewrite <- app_assoc))
    as [(Hz & ->)|[(Hz & f' & -> & Hf' & Hh)|(Hz & Ef & Eh)]].
  - simpl_m. cbn [negb]. change (buffer_ f1) with (b ++ d). cbn [payload_start_ payload_len_ parsed buffer_ mask_enable_].
    rewrite chk_int64_ok, i32_small by (pose proof (zlen_nonneg (b ++ d)); pose proof (zlen_nonneg (head m)); lia). simpl_m.
    destruct (Z.ltb_spec (zlen (b ++ d)) (zlen (head m) + 4 + zlen (m_data m))); [|lia]. by eexists.
  - simpl_m. cbn [negb]. exists f'. split; [done|]. split; [by rewrite Hf'|by rewrite Hh].
  - rewrite Eh, Ef. simpl_m. cbn [negb]. change (buffer_ f1) with (b ++ d). cbn [payload_start_ payload_len_ parsed buffer_ mask_enable_].
    rewrite chk_int64_ok, i32_small by (pose proof (zlen_nonneg (b ++ d)); pose proof (zlen_nonneg (head m)); lia). simpl_m.
    destruct (Z.ltb_spec (zlen (b ++ d)) (zlen (head m) + 4 + zlen (m_data m))); [|lia]. by eexists.
Qed.

Lemma unmask_parsed m rest : message_ok m -> unmask (parsed m (wire m ++ rest)) = Done (parsed m (((head m ++ m_key m) ++ m_data m) ++ rest)).
Proof.
  intros (Hk & Ho & Hw). unfold unmask. cbn [buffer_ payload_start_ payload_len_ masking_key_ parsed]. rewrite wire_split, <- !(app_assoc (head m ++ m_key m)).
  assert (zlen (m_key m) = 4) as Hk4 by (unfold zlen; by rewrite Hk). pose proof (zlen_wire m (conj Hk (conj Ho Hw))) as Hzw.
  pose proof (zlen_nonneg (m_data m)). pose proof (zlen_nonneg (head m)).
  rewrite u64_small by lia. assert (zlen (head m) + 4 = zlen (head m ++ m_key m)) as -> by (rewrite zlen_app; lia).
  assert (zlen (m_data m) = zlen (mask_data (m_key m) (m_data m))) as E by (by rewrite zlen_masked).
  rewrite E at 1. rewrite read_range_mid. simpl_m. rewrite write_at_mid by (by rewrite !zlen_masked). simpl_m.
  rewrite mask_data_back by done. reflexivity.
Qed.

Lemma parse_whole m b d rest f : message_ok m -> partial m b f -> b ++ d = wire m ++ rest -> zlen (b ++ d) < 2 ^ 31 ->
  Parse d f = Done (0, parsed m (((head m ++ m_key m) ++ m_data m) ++ rest)).
Proof.
  intros Hm [Hb Hr] E Hl. pose proof Hm as (Hk & _ & Hw). pose proof (zlen_wire m Hm) as Hzw. pose proof (zlen_nonneg (m_data m)). pose proof (zlen_nonneg (head m)).
  pose proof (zlen_nonneg rest). pose proof (zlen_head m) as Hh. pose proof (zlen_nonneg (ext (zlen (m_data m)))).
  assert (zlen (b ++ d) = zlen (wire m) + zlen rest) as Hz by by rewrite E, zlen_app.
  unfold Parse. rewrite Hb. set (f1 := set_buffer (b ++ d) f). change (buffer_ f1) with (b ++ d).
  assert (header_ready_ f1 = true -> f1 = parsed m (b ++ d)) as Hr1 by (intros R; unfold f1; by rewrite (Hr R), set_buffer_parsed).
  destruct (Z.ltb_spec (zlen (b ++ d)) 2); [lia|].
  destruct (header_phase m f1 [] Hm Hr1 ltac:(done) ltac:(done) ltac:(right; by exists rest)) as [(_ & ->)|[(Hz' & _)|(Hz' & _)]];
    [|change (buffer_ f1) with (b ++ d) in Hz'; lia..].
  simpl_m. cbn [negb]. change (buffer_ f1) with (b ++ d). cbn [payload_start_ payload_len_ parsed buffer_ mask_enable_].
  rewrite chk_int64_ok, i32_small by lia. simpl_m. destruct (Z.ltb_spec (zlen (b ++ d)) (zlen (head m) + 4 + zlen (m_data m))); [lia|].
  fold (parsed m (b ++ d)). rewrite E, unmask_parsed by done. reflexivity.
Qed.

(** ** What a message does *)

(** The specification: one whole message, on a session whose frame parser is out of the picture. *)
Definition handled (now_ms : Z) (m : message) (s : WebSocketSession) : outcome WebSocketSession :=
  let op := m_op m in
  let s := reset_die_count (if (op =? WS_OP_TEXT_TYPE) || (op =? WS_OP_BIN_TYPE) then set_last_op_code op s else s) in
  if op =? WS_OP_PING_TYPE then mret (emit (SendWsFrame (m_data m) WS_OP_PONG_TYPE) s)
  else if op =? WS_OP_PONG_TYPE then mret (set_recv_pong now_ms s)
  else if op =? WS_OP_CLOSE_TYPE then HandleWsClose (m_data m) s
  else if op =? WS_OP_CONTINUE_TYPE then mret (HandleWsData (m_data m) (last_op_code_ s) s)
  else if (op =? WS_OP_TEXT_TYPE) || (op =? WS_OP_BIN_TYPE) then mret (HandleWsData (m_data m) op s)
  else mret s.
Fixpoint messages (now_ms : Z) (ms : list message) (s : WebSocketSession) : outcome WebSocketSession :=
  match ms with [] => mret s | m :: ms => s ← handled now_ms m s; messages now_ms ms s end.

(** The session without the state of its parser. *)
Definition forget (s : WebSocketSession) : WebSocketSession := set_frame (WebSocketFrame_new []) s.

(** The handlers neither read nor change the parser and the pending payloads. *)
Definition with_parser (f : WebSocketFrame) (l : list bytes) (s : WebSocketSession) : WebSocketSession := set_recv_buffers l (set_frame f s).

Lemma HandleWsData_parser f l d op s : HandleWsData d op (with_parser f l s) = with_parser f l (HandleWsData d op s).
Proof. destruct s. unfold HandleWsData, with_parser. cbn. by repeat case_match. Qed.

Lemma HandleWsClose_parser f l d s : HandleWsClose d (with_parser f l s) = (s' ← HandleWsClose d s; mret (with_parser f l s')).
Proof.
  destruct s as [sd cb ? ? ? ? ? ? ? cl ?]. unfold HandleWsClose. cbn. destruct cl; [done|]. destruct (zlen d <=? 1); simpl_m.
  - destruct sd; [done|]. cbn. by destruct cb.
  - destruct (Read2Bytes d) as [code|]; [|done]. simpl_m. destruct (invalid_close code); simpl_m; (destruct sd; [done|]; cbn; by destruct cb).
Qed.

Lemma handled_parser now f l m s : handled now m (with_parser f l s) = (s' ← handled now m s; mret (with_parser f l s')).
Proof.
  unfold handled. set (b := (m_op m =? WS_OP_TEXT_TYPE) || (m_op m =? WS_OP_BIN_TYPE)).
  set (prep s := reset_die_count (if b then set_last_op_code (m_op m) s else s)).
  change (reset_die_count (if b then set_last_op_code (m_op m) s else s)) with (prep s).
  assert (reset_die_count (if b then set_last_op_code (m_op m) (with_parser f l s) else with_parser f l s) = with_parser f l (prep s)) as ->
    by (unfold prep; by destruct s, b).
  generalize (prep s) as p. intros p. clear prep s.
  destruct (m_op m =? WS_OP_PING_TYPE); [by destruct p|]. destruct (m_op m =? WS_OP_PONG_TYPE); [by destruct p|].
  destruct (m_op m =? WS_OP_CLOSE_TYPE); [apply HandleWsClose_parser|].
  destruct (m_op m =? WS_OP_CONTINUE_TYPE); [simpl_m; by rewrite <- HandleWsData_parser; destruct p|].
  destruct b; [simpl_m; by rewrite HandleWsData_parser|done].
Qed.

(** A frame that was parsed whole is handled as its message. *)
Lemma take_frame_spec now m rest s : message_ok m -> recv_buffer_vec_ s = [] ->
  frame_ s = parsed m (((head m ++ m_key m) ++ m_data m) ++ rest) -> zlen (wire m ++ rest) < 2 ^ 31 ->
  exists f', buffer_ f' = rest /\ header_ready_ f' = false /\
    take_frame now s = (s' ← handled now m s; mret (inr (with_parser f' [] s'))).
Proof.
  intros Hm Hrecv Hf Hl. pose proof Hm as (Hk & Ho & Hw). pose proof (zlen_wire m Hm) as Hzw.
  assert (zlen (m_key m) = 4) as Hk4 by (unfold zlen; by rewrite Hk).
  pose proof (zlen_nonneg (m_data m)). pose proof (zlen_nonneg (head m)). pose proof (zlen_nonneg rest).
  rewrite zlen_app in Hl. set (buf := ((head m ++ m_key m) ++ m_data m) ++ rest) in *.
  assert (zlen buf = zlen (head m) + 4 + zlen (m_data m) + zlen rest) as Hz by (unfold buf; rewrite !zlen_app; lia).
  exists (Reset (set_buffer rest (parsed m buf))). split; [done|]. split; [done|].
  unfold take_frame. rewrite Hf. cbn [opcode_ parsed].
  assert (PayloadIsReady (parsed m buf) = true) as Hready.
  { unfold PayloadIsReady. cbn [payload_len_ payload_start_ buffer_ parsed]. rewrite !i32_small by lia. apply Z.leb_le. lia. }
  fold (parsed m buf). rewrite Hready. cbn [negb].
  assert (read_range (buffer_ (parsed m buf)) (payload_start_ (parsed m buf)) (u64 (payload_len_ (parsed m buf))) = Done (m_data m)) as ->.
  { cbn [payload_len_ payload_start_ buffer_ parsed]. rewrite u64_small by lia. unfold buf. rewrite <- app_assoc.
    replace (zlen (head m) + 4) with (zlen (head m ++ m_key m)) by (rewrite zlen_app; lia). apply read_range_mid. }
  simpl_m. assert (Consume (payload_start_ (parsed m buf) + payload_len_ (parsed m buf)) (parsed m buf) = set_buffer rest (parsed m buf)) as ->.
  { unfold Consume. cbn [payload_len_ payload_start_ buffer_ parsed]. rewrite i32_small by lia.
    destruct (Z.ltb_spec (zlen buf) (zlen (head m) + 4 + zlen (m_data m))); [lia|]. f_equal. unfold buf.
    replace (zlen (head m) + 4 + zlen (m_data m)) with (zlen ((head m ++ m_key m) ++ m_data m)) by (rewrite !zlen_app; lia). apply drop_zlen_app. }
  cbn [fin_ parsed negb]. set (f' := Reset (set_buffer rest (parsed m buf))).
  unfold handled. set (b := (m_op m =? WS_OP_TEXT_TYPE) || (m_op m =? WS_OP_BIN_TYPE)).
  set (s1 := if b then set_last_op_code (m_op m) s else s).
  assert (recv_buffer_vec_ s1 = []) as -> by (unfold s1; by destruct b). cbn [app].
  change (reset_die_count (set_frame f' (set_recv_buffers [m_data m] s1))) with (with_parser f' [m_data m] (reset_die_count s1)).
  assert (opcode_ f' = m_op m) as Hop by done.
  generalize (reset_die_count s1) as p. clearbody f'. clear s1 Hf Hrecv s. intros p.
  unfold handle_message. change (opcode_ (frame_ (with_parser f' [m_data m] p))) with (opcode_ f').
  change (recv_buffer_vec_ (with_parser f' [m_data m] p)) with [m_data m]. rewrite Hop. fold b. clearbody b.
  destruct (m_op m =? WS_OP_PING_TYPE); [by destruct p|]. destruct (m_op m =? WS_OP_PONG_TYPE); [by destruct p|].
  destruct (m_op m =? WS_OP_CLOSE_TYPE).
  { cbn [close_items]. rewrite HandleWsClose_parser. destruct (HandleWsClose (m_data m) p) as [q|]; [|done]. by destruct q. }
  destruct (m_op m =? WS_OP_CONTINUE_TYPE).
  { simpl_m. cbn [foldl]. rewrite HandleWsData_parser. change (last_op_code_ (with_parser f' [m_data m] p)) with (last_op_code_ p). by destruct (HandleWsData _ _ _). }
  destruct b; [|by destruct p]. simpl_m. cbn [foldl]. rewrite HandleWsData_parser. by destruct (HandleWsData _ _ _).
Qed.

(** ** The stream *)

(** The message that a session in the middle of [ms] is receiving; [last] is the one behind them. *)
Definition current (ms : list message) (last : message) : message := match ms with [] => last | m :: _ => m end.

Lemma wire_nonempty m : 0 < zlen (wire m).
Proof. unfold wire, ws_frame. rewrite zlen_app, ws_header_eq, !zlen_cons by apply zlen_nonneg. pose proof (zlen_nonneg (ext (zlen (m_data m)))). pose proof (zlen_nonneg (m_key m ++ mask_data (m_key m) (m_data m))). lia. Qed.

Lemma forget_parser s : forget s = with_parser (WebSocketFrame_new []) (recv_buffer_vec_ s) s.
Proof. by destruct s. Qed.

Lemma frame_loop_spec now last more part : message_ok last -> part ++ more = wire last -> more <> [] ->
  forall ms fuel b d s s1, Forall message_ok ms -> recv_buffer_vec_ s = [] -> partial (current ms last) b (frame_ s) ->
  b ++ d = concat (map wire ms) ++ part -> zlen (b ++ d) < 2 ^ 31 -> (length b + length d < fuel)%nat ->
  messages now ms (forget s) = Done s1 ->
  exists ret s2, frame_loop fuel now d s = Done (ret, s2) /\ forget s2 = s1 /\ recv_buffer_vec_ s2 = [] /\ partial last part (frame_ s2).
Proof.
  intros Hlast Hpart Hmore ms. induction ms as [|m ms IH]; intros fuel b d s s1 Hms Hrecv Hpar E Hl Hfuel Hs.
  - destruct fuel as [|fuel]; [lia|]. cbn [map concat app] in E. subst part. rewrite <- app_assoc in Hpart.
    destruct (parse_more last b d more (frame_ s) Hlast Hpar Hpart Hmore) as (f' & Ep & Hp').
    cbn [frame_loop]. rewrite Ep. simpl_m. cbn [Z.eqb negb]. do 2 eexists. split; [done|]. injection Hs as <-. by destruct s.
  - destruct fuel as [|fuel]; [lia|]. apply Forall_cons in Hms as [Hm Hms]. cbn [map concat] in E. rewrite <- app_assoc in E.
    set (rest := concat (map wire ms) ++ part) in *.
    cbn [frame_loop]. rewrite (parse_whole m b d rest (frame_ s) Hm Hpar E Hl). simpl_m. cbn [Z.eqb negb].
    set (s' := set_frame _ s). rewrite E in Hl.
    destruct (take_frame_spec now m rest s' Hm ltac:(by destruct s) ltac:(done) Hl) as (f' & Hbuf & Hrdy & ->).
    cbn [messages] in Hs. assert (forget s = with_parser (WebSocketFrame_new []) [] s') as Ef by (unfold s'; rewrite forget_parser, Hrecv; by destruct s).
    rewrite Ef, handled_parser in Hs. destruct (handled now m s') as [s0|]; [|done]. simpl_m. cbn [mbind outcome_bind] in Hs.
    change (buffer_ (frame_ (with_parser f' [] s0))) with (buffer_ f'). rewrite Hbuf.
    apply (f_equal length) in E. rewrite !length_app in E. pose proof (wire_nonempty m) as Hw. unfold zlen in Hw.
    destruct (Z.ltb_spec 0 (zlen rest)) as [Hr|Hr].
    + apply (IH fuel rest [] (with_parser f' [] s0) s1); [done|done| |by rewrite app_nil_r| |cbn [length]; lia|].
      * split; [done|]. intros R. cbn in R. congruence.
      * rewrite app_nil_r. rewrite zlen_app in Hl. pose proof (zlen_nonneg (wire m)). lia.
      * rewrite <- Hs. f_equal.
    + do 2 eexists. split; [done|]. assert (rest = []) as Hnil by (destruct rest; [done|rewrite zlen_cons in Hr; pose proof (zlen_nonneg rest); lia]).
      unfold rest in Hnil. apply app_eq_nil in Hnil as [Hc Hp]. destruct ms as [|m' ms].
      2: { exfalso. cbn [map concat] in Hc. apply app_eq_nil in Hc as [Hc _]. pose proof (wire_nonempty m') as W. rewrite Hc in W. change (zlen []) with 0 in W. lia. }
      injection Hs as <-. split; [by destruct s0|]. split; [by destruct s0|]. rewrite Hp. split; [|intros R; cbn in R; congruence].
      cbn. rewrite Hbuf. unfold rest. by rewrite Hp.
Qed.

(** Reading a connection: every delivery goes through [HandleFrame]. *)
Fixpoint feed (now_ms : Z) (chunks : list bytes) (s : WebSocketSession) : outcome WebSocketSession :=
  match chunks with
  | [] => mret s
  | d :: chunks => '(_, s) ← HandleFrame now_ms d s; feed now_ms chunks s
  end.

(** A stream cut at any place lies behind some of its messages, in the next one. *)
Lemma cut_stream last more part : part ++ more = wire last -> more <> [] -> forall ms x y, x ++ y = concat (map wire ms) ++ part ->
  exists ms1 ms2 p, ms = ms1 ++ ms2 /\ x = concat (map wire ms1) ++ p /\ p ++ y = concat (map wire ms2) ++ part /\
    exists q, p ++ q = wire (current ms2 last) /\ q <> [].
Proof.
  intros Hpart Hmore ms. induction ms as [|m ms IH]; intros x y E.
  - cbn [map concat app] in E. exists [], [], x. split_and!; [done..|]. exists (y ++ more). cbn [current]. rewrite app_assoc, E.
    split; [done|]. by destruct y.
  - cbn [map concat] in E. rewrite <- app_assoc in E. pose proof E as E0. apply app_split in E as [(x' & -> & E)|(k & Hk & E & Hy)].
    + destruct (IH x' y E) as (ms1 & ms2 & p & -> & -> & Ep & Hq). exists (m :: ms1), ms2, p. cbn [map concat app].
      rewrite <- app_assoc. by split_and!.
    + exists [], (m :: ms), x. cbn [map concat app current]. split_and!; [done..| |by exists k]. by rewrite <- app_assoc.
Qed.

(** A session between two messages. *)
Definition idle (s : WebSocketSession) : Prop := recv_buffer_vec_ s = [] /\ buffer_ (frame_ s) = [] /\ header_ready_ (frame_ s) = false.

Lemma messages_app now ms1 ms2 s : messages now (ms1 ++ ms2) s = (s' ← messages now ms1 s; messages now ms2 s').
Proof. revert s. induction ms1 as [|m ms1 IH]; intros s; [done|]. cbn [app messages]. destruct (handled now m s); [apply IH|done]. Qed.

Lemma feed_spec now last more part : message_ok last -> part ++ more = wire last -> more <> [] ->
  forall chunks ms b q s s1, Forall message_ok ms -> recv_buffer_vec_ s = [] -> partial (current ms last) b (frame_ s) ->
  b ++ q = wire (current ms last) -> q <> [] ->
  b ++ concat chunks = concat (map wire ms) ++ part -> zlen (b ++ concat chunks) < 2 ^ 31 -> messages now ms (forget s) = Done s1 ->
  exists s2, feed now chunks s = Done s2 /\ forget s2 = s1.
Proof.
  intros Hlast Hpart Hmore chunks. induction chunks as [|d chunks IH]; intros ms b q s s1 Hms Hrecv Hpar Hbq Hq E Hl Hs.
  - cbn [concat] in *. rewrite app_nil_r in E. destruct ms as [|m ms]; [exists s; split; [done|by injection Hs]|].
    exfalso. cbn [current map concat] in *. apply (f_equal length) in E, Hbq. rewrite !length_app in E, Hbq. rewrite length_app in E. destruct q; [done|cbn [length] in Hbq; lia].
  - cbn [concat] in E, Hl. rewrite app_assoc in E, Hl.
    destruct (cut_stream last more part Hpart Hmore ms (b ++ d) (concat chunks) E) as (ms1 & ms2 & p & -> & E1 & E2 & q' & Hpq & Hq').
    apply Forall_app in Hms as [Hms1 Hms2]. rewrite messages_app in Hs. destruct (messages now ms1 (forget s)) as [s0|] eqn:E0; [|done].
    assert (message_ok (current ms2 last)) as Hcur by (destruct ms2; [done|by apply Forall_cons in Hms2 as [? _]]).
    assert (current (ms1 ++ ms2) last = current ms1 (current ms2 last)) as Ec by by destruct ms1.
    rewrite Ec in Hpar.
    cbn [feed]. unfold HandleFrame. rewrite zlen_app in Hl. pose proof (zlen_nonneg (concat chunks)).
    destruct (frame_loop_spec now (current ms2 last) q' p Hcur Hpq Hq' ms1 (S (length (buffer_ (frame_ s)) + length d)) b d s s0 Hms1 Hrecv Hpar E1)
      as (ret & s2 & -> & Hf2 & Hr2 & Hp2); [lia|destruct Hpar as [-> _]; lia|done|].
    simpl_m. apply (IH ms2 p q'); [done..| |by rewrite Hf2].
    rewrite E1, zlen_app in Hl. rewrite zlen_app. pose proof (zlen_nonneg (concat (map wire ms1))). lia.
Qed.

(** C13. Whatever messages one side writes as frames, with whatever masking keys, and however their bytes are cut
    into deliveries, with the last frame still on its way, the other side does what the messages received whole
    say, in order. *)
Theorem ws_stream now ms last part more chunks s s1 : Forall message_ok ms -> message_ok last -> part ++ more = wire last -> more <> [] ->
  concat chunks = concat (map wire ms) ++ part -> zlen (concat chunks) < 2 ^ 31 -> idle s ->
  messages now ms (forget s) = Done s1 ->
  exists s2, feed now chunks s = Done s2 /\ forget s2 = s1.
Proof.
  intros Hms Hlast Hpart Hmore E Hl (Hr & Hb & Hh) Hs.
  apply (feed_spec now last more part Hlast Hpart Hmore chunks ms [] (wire (current ms last)) s s1); try done.
  - split; [done|]. intros R. congruence.
  - intros W. pose proof (wire_nonempty (current ms last)) as Hw. rewrite W in Hw. done.
Qed.

(** ** Concrete runs *)

Definition key : bytes := [1; 2; 3; 4].
Definition hello : message := mkMessage key (str "hello") WS_OP_TEXT_TYPE.
Definition ping : message := mkMessage key [7; 7] WS_OP_PING_TYPE.
Definition a_session : WebSocketSession := WebSocketSession_new ServerSide true [0; 0; 0; 0].

(** Two messages and the start of a third, a byte at a time. *)
Lemma ws_stream_witness : exists s2,
  feed 5 (map (fun b => [b]) (wire hello ++ wire ping ++ [0x81])) a_session = Done s2 /\
  ws_log s2 = [OnReadText (str "hello"); SendWsFrame [7; 7] WS_OP_PONG_TYPE].
Proof.
  destruct (ws_stream 5 [hello; ping] hello [0x81] (drop 1 (wire hello)) (map (fun b => [b]) (wire hello ++ wire ping ++ [0x81])) a_session
    (forget (reset_die_count (set_last_op_code 1 (emit (SendWsFrame [7; 7] WS_OP_PONG_TYPE) (emit (OnReadText (str "hello")) a_session))))))
    as (s2 & H1 & H2).
  - constructor; [|constructor; [|constructor]]; (split_and!; [done..|by vm_compute]).
  - split_and!; [done..|by vm_compute].
  - by vm_compute.
  - by vm_compute.
  - by vm_compute.
  - by vm_compute.
  - by split_and!.
  - by vm_compute.
  - exists s2. split; [exact H1|]. change (ws_log s2) with (ws_log (forget s2)). by rewrite H2.
Defined.

(** A ping between the two fragments of a text answers with the fragment too, and the fragment is lost. *)
Definition fragment (fin : bool) (op : Z) (data : bytes) : bytes :=
  (if fin then 0x80 + op else op) :: (0x80 + zlen data) :: key ++ mask_data key data.

Example ping_between_fragments : exists s2,
  feed 5 [fragment false WS_OP_TEXT_TYPE (str "hel"); wire ping; fragment true WS_OP_CONTINUE_TYPE (str "lo")] a_session = Done s2 /\
  ws_log s2 = [SendWsFrame (str "hel") WS_OP_PONG_TYPE; SendWsFrame [7; 7] WS_OP_PONG_TYPE; OnReadText (str "lo")].
Proof. eexists. split; [vm_compute; reflexivity|]. reflexivity. Qed.

(** A 64-bit length with its first bit set makes the unmasking run out of the buffer. *)
Example huge_length_crashes : HandleFrame 5 ([0x81; 0xFF; 0x80; 0; 0; 0; 0; 0; 0; 0] ++ key) a_session = Fault OutOfBounds.
Proof. by vm_compute. Qed.
