(* ===== verification/WsUpgrade.v ===== *)
(** * [WsUpgrade]: the opening of a WebSocket connection

    Models [src/net/http/websocket/websocket_session.cpp] (the upgrade request on the
    server), [websocket_server.cpp], [websocket_client.cpp] (the request and the check
    of the answer) and [websocket_pub.cpp].  SHA-1 is a parameter.  A handler of the
    server is the list of the calls it makes on its session. *)
From S2P Require Import Prelude StringEx Base64 Http WebSocket.

(** SHA-1 (OpenSSL): 20 bytes. *)
Class Sha1 := sha1 : bytes -> bytes.
Class Sha1Laws `(Sha1) := { sha1_length : forall b, length (sha1 b) = 20%nat; sha1_bytes : forall b, bytes_ok (sha1 b) }.

Definition Websocket_Key_Hash : bytes := str "258EAFA5-E914-47DA-95CA-C5AB0DC85B11".

(** What a handler of the server does with its session. *)
Inductive ws_call := SetSessionCallback (cb : bool) | WriteText (text : bytes) | WriteBin (data : bytes).
Abbreviation ws_handle := (bytes -> list ws_call).

Section sha1.
Context `{Sha1}.

Definition GenWebSocketHashcode (key : bytes) : outcome bytes := Base64Encode (sha1 (key ++ Websocket_Key_Hash)).

(** ** The session of the server *)

Record WsServerSession := mkWsServer {
  http_request_ready_ : bool;
  http_recv_buffer_ : bytes;
  ws_method_ : bytes;
  path_ : bytes;
  headers_ : gmap bytes bytes;
  sec_ws_ver_ : Z;
  sec_ws_key_ : bytes;
  sec_ws_protocol_ : bytes;
  hash_code_ : bytes;
  base_ : WebSocketSession
}.
Definition set_base (v : WebSocketSession) (s : WsServerSession) : WsServerSession :=
  mkWsServer (http_request_ready_ s) (http_recv_buffer_ s) (ws_method_ s) (path_ s) (headers_ s) (sec_ws_ver_ s) (sec_ws_key_ s) (sec_ws_protocol_ s) (hash_code_ s) v.
Definition set_http_recv (v : bytes) (s : WsServerSession) : WsServerSession :=
  mkWsServer (http_request_ready_ s) v (ws_method_ s) (path_ s) (headers_ s) (sec_ws_ver_ s) (sec_ws_key_ s) (sec_ws_protocol_ s) (hash_code_ s) (base_ s).
Definition set_request_ready (s : WsServerSession) : WsServerSession :=
  mkWsServer true (http_recv_buffer_ s) (ws_method_ s) (path_ s) (headers_ s) (sec_ws_ver_ s) (sec_ws_key_ s) (sec_ws_protocol_ s) (hash_code_ s) (base_ s).
Definition set_target (method path : bytes) (s : WsServerSession) : WsServerSession :=
  mkWsServer (http_request_ready_ s) (http_recv_buffer_ s) method path (headers_ s) (sec_ws_ver_ s) (sec_ws_key_ s) (sec_ws_protocol_ s) (hash_code_ s) (base_ s).
Definition set_headers (v : gmap bytes bytes) (s : WsServerSession) : WsServerSession :=
  mkWsServer (http_request_ready_ s) (http_recv_buffer_ s) (ws_method_ s) (path_ s) v (sec_ws_ver_ s) (sec_ws_key_ s) (sec_ws_protocol_ s) (hash_code_ s) (base_ s).
Definition set_sec (ver : Z) (key protocol : bytes) (s : WsServerSession) : WsServerSession :=
  mkWsServer (http_request_ready_ s) (http_recv_buffer_ s) (ws_method_ s) (path_ s) (headers_ s) ver key protocol (hash_code_ s) (base_ s).
Definition set_hash (v : bytes) (s : WsServerSession) : WsServerSession :=
  mkWsServer (http_request_ready_ s) (http_recv_buffer_ s) (ws_method_ s) (path_ s) (headers_ s) (sec_ws_ver_ s) (sec_ws_key_ s) (sec_ws_protocol_ s) v (base_ s).
Definition put_event (e : ws_event) (s : WsServerSession) : WsServerSession := set_base (emit e (base_ s)) s.

(** The constructor with [Init]: it starts to read, and the timer. *)
Definition WsServerSession_new (now_ms : Z) (mem : bytes) : WsServerSession :=
  mkWsServer false [] [] [] ∅ 13 [] [] [] (set_recv_pong now_ms (set_connected true (emit TcpRead (WebSocketSession_new ServerSide false mem)))).

Definition set_has_cb (v : bool) (s : WebSocketSession) : WebSocketSession :=
  mkSession (side s) v (frame_ s) (recv_buffer_vec_ s) (last_op_code_ s) (die_count_ s) (last_recv_pong_ms_ s) (last_send_ping_ms_ s) (is_connected_ s) (close_ s) (ws_log s).
Definition run_ws_call (s : WebSocketSession) (call : ws_call) : WebSocketSession :=
  match call with
  | SetSessionCallback cb => set_has_cb cb s
  | WriteText text => AsyncWriteText text s
  | WriteBin data => AsyncWriteData data s
  end.
Definition run_ws_calls (calls : list ws_call) (s : WsServerSession) : WsServerSession := set_base (foldl run_ws_call (base_ s) calls) s.

(** A function that returned, or threw. *)
Inductive upgrade_result := Returned (ret : Z) | Thrown.

(** A line of the header: the colon is the character before the first space. *)
Definition ws_header_line (line : bytes) (h : gmap bytes bytes) : gmap bytes bytes :=
  match find (str " ") line with
  | None => h
  | Some pos => <[String2Lower (match pos with O => line | S n => take n line end) := drop (pos + 1) line]> h
  end.
Definition ws_header_lines (lines : list bytes) (h : gmap bytes bytes) : gmap bytes bytes := foldl (fun h l => ws_header_line l h) h lines.

(** The version, the key, the protocol, and the handler. *)
Definition accept_upgrade (handle : ws_handle) (s : WsServerSession) : outcome (upgrade_result * WsServerSession) :=
  ver ← match headers_ s !! str "sec-websocket-version" with Some v => atoi v | None => mret 13 end;
  match headers_ s !! str "sec-websocket-key" with
  | None => mret (Thrown, set_sec ver (sec_ws_key_ s) (sec_ws_protocol_ s) s)
  | Some key =>
      let protocol := default (sec_ws_protocol_ s) (headers_ s !! str "sec-webSocket-protocol") in
      mret (Returned 0, run_ws_calls (handle (path_ s)) (set_sec ver key protocol s))
  end.

(** [Connection] and [Upgrade], whose values are put in lower case. *)
Definition check_upgrade (handle : ws_handle) (s : WsServerSession) : outcome (upgrade_result * WsServerSession) :=
  match headers_ s !! str "connection" with
  | None => mret (Thrown, s)
  | Some v =>
      let s := set_headers (<[str "connection" := String2Lower v]> (headers_ s)) s in
      if bool_decide (String2Lower v = str "upgrade") then
        match headers_ s !! str "upgrade" with
        | None => mret (Thrown, s)
        | Some v =>
            let s := set_headers (<[str "upgrade" := String2Lower v]> (headers_ s)) s in
            if bool_decide (String2Lower v = str "websocket") then accept_upgrade handle s else mret (Thrown, s)
        end
      else mret (Thrown, s)
  end.

Section server.
(** [server_->GetHandle] *)
Variable GetHandle : bytes -> option ws_handle.

Definition OnHandleHttpRequest (s : WsServerSession) : outcome (upgrade_result * WsServerSession) :=
  match find HEADER_END (http_recv_buffer_ s) with
  | None => mret (Returned 1, s)
  | Some pos =>
      let s := set_request_ready s in
      lines ← StringSplit (take pos (http_recv_buffer_ s)) CRLF;
      match lines with
      | [] => mret (Thrown, s)
      | first :: lines =>
          http_items ← StringSplit first (str " ");
          match http_items with
          | [method; path; _] =>
              let s := set_target method path s in
              match GetHandle path with
              | None => mret (Thrown, s)
              | Some handle =>
                  let s := set_target (String2Lower method) path s in
                  check_upgrade handle (set_headers (ws_header_lines lines (headers_ s)) s)
              end
          | _ => mret (Thrown, s)
          end
      end
  end.

Definition response_101 (hash_code : bytes) : bytes :=
  str "HTTP/1.1 101 Switching Protocols" ++ CRLF ++ str "Upgrade: websocket" ++ CRLF ++ str "Connection: Upgrade" ++ CRLF ++
  str "Sec-WebSocket-Accept: " ++ hash_code ++ CRLF ++ CRLF.

Definition SendHttpResponse (s : WsServerSession) : outcome WsServerSession :=
  hash_code ← GenWebSocketHashcode (sec_ws_key_ s);
  mret (put_event (HttpWrite (response_101 hash_code)) (set_hash hash_code s)).

Definition SendErrorResponse (s : WsServerSession) : WsServerSession := put_event (HttpWrite (str "HTTP/1.1 400 Bad Request" ++ HEADER_END)) s.

Definition OnWrite_ws (ret_code : Z) (s : WsServerSession) : WsServerSession :=
  if ret_code <? 0 then set_base (set_connected false (base_ s)) s else s.

Definition OnRead_ws (ret_code now_ms : Z) (data : bytes) (s : WsServerSession) : outcome WsServerSession :=
  if ret_code <? 0 then mret (set_base (set_connected false (base_ s)) s)
  else if negb (http_request_ready_ s) then
    '(r, s) ← OnHandleHttpRequest (set_http_recv (http_recv_buffer_ s ++ data) s);
    match r with
    | Thrown => mret (set_base (set_connected false (base_ s)) s)
    | Returned ret =>
        if ret =? 1 then mret (put_event TcpRead s)
        else if ret =? 0 then s ← SendHttpResponse s; mret (put_event TcpRead (set_http_recv [] s))
        else mret (SendErrorResponse s)
    end
  else
    '(_, b) ← HandleFrame now_ms data (base_ s);
    mret (put_event TcpRead (set_base b s)).
End server.

(** ** The server *)

Record WebSocketServer := mkWebSocketServer { uri_handles_ : gmap bytes ws_handle; sessions_ : gmap bytes WsServerSession }.
Definition AddHandle (uri : bytes) (handle_ptr : ws_handle) (v : WebSocketServer) : WebSocketServer :=
  mkWebSocketServer (<[uri := handle_ptr]> (uri_handles_ v)) (sessions_ v).
Definition GetHandle (v : WebSocketServer) (uri : bytes) : option ws_handle := uri_handles_ v !! uri.
(** [OnAccept] of a connection from this address. *)
Definition OnAccept (ret_code now_ms : Z) (address mem : bytes) (v : WebSocketServer) : WebSocketServer :=
  if ret_code <? 0 then v else mkWebSocketServer (uri_handles_ v) (<[address := WsServerSession_new now_ms mem]> (sessions_ v)).
(** The sessions without a pong for 15 seconds are removed. *)
Definition OnTimer_server (now_ms : Z) (v : WebSocketServer) : WebSocketServer :=
  mkWebSocketServer (uri_handles_ v) (filter (fun p => now_ms - last_recv_pong_ms_ (base_ p.2) <= 15 * 1000) (sessions_ v)).

(** ** The client *)

Definition WebSocket_Key_Len : nat := 16.
Definition Websocket_Response_Code : Z := 101.

Record WebSocketClient := mkWsClient {
  client_ptr_ : HttpClient;
  ws_subpath_ : bytes;
  key_ : bytes;
  http_ready_ : bool;
  client_base_ : WebSocketSession
}.
(** The key is [GetRandomString(WebSocket_Key_Len)]. *)
Definition WebSocketClient_new (hostname : bytes) (port : Z) (subpath random_key mem : bytes) : WebSocketClient :=
  mkWsClient (HttpClient_new hostname port) subpath random_key false (WebSocketSession_new ClientSide true mem).
Definition set_http_client (v : HttpClient) (c : WebSocketClient) : WebSocketClient := mkWsClient v (ws_subpath_ c) (key_ c) (http_ready_ c) (client_base_ c).
Definition set_client_base (v : WebSocketSession) (c : WebSocketClient) : WebSocketClient := mkWsClient (client_ptr_ c) (ws_subpath_ c) (key_ c) (http_ready_ c) v.
Definition set_http_ready (c : WebSocketClient) : WebSocketClient := mkWsClient (client_ptr_ c) (ws_subpath_ c) (key_ c) true (client_base_ c).

(** The bytes read are those of [key_] with the zero behind it. *)
Definition AsyncConnect (c : WebSocketClient) : outcome WebSocketClient :=
  k ← read_range (key_ c ++ [0]) 0 (Z.of_nat WebSocket_Key_Len);
  sec_key ← Base64Encode k;
  let headers := map_set (str "Sec-WebSocket-Version") (dec 13) (map_set (str "Sec-WebSocket-Key") sec_key
                   (map_set (str "Connection") (str "Upgrade") (map_set (str "Upgrade") (str "websocket") []))) in
  mret (set_http_client (Get (ws_subpath_ c) headers (client_ptr_ c)) c).

(** The end of a connection that could not be made or read. *)
Definition refuse_connection (c : WebSocketClient) : outcome WebSocketClient :=
  if has_cb (client_base_ c) then mret (set_client_base (emit (OnClose (-1)) (set_connected false (client_base_ c))) c) else Fault OutOfBounds.

(** [resp_ptr->headers_[key]], which makes an empty value where there is none. *)
Definition header_at (key : bytes) (r : HttpClientResponse) : bytes * HttpClientResponse :=
  match cr_headers_ r !! key with Some v => (v, r) | None => ([], cr_add_header key [] r) end.

Definition HandleHttpRespone (resp_ptr : HttpClientResponse) (c : WebSocketClient) : outcome (HttpClientResponse * WebSocketClient) :=
  let refuse r := c ← refuse_connection c; mret (r, c) in
  if negb (cr_status_code_ resp_ptr =? Websocket_Response_Code) then refuse resp_ptr
  else
    let '(connection_desc, r) := header_at (str "Connection") resp_ptr in
    if negb (bool_decide (connection_desc = str "Upgrade")) then refuse r
    else
      let '(upgrade_desc, r) := header_at (str "Upgrade") r in
      if negb (bool_decide (upgrade_desc = str "websocket")) then refuse r
      else
        sec_key ← Base64Encode (key_ c);
        hash_code ← GenWebSocketHashcode sec_key;
        let '(accept_hash, r) := header_at (str "Sec-WebSocket-Accept") r in
        if negb (bool_decide (hash_code = accept_hash)) then refuse r
        else if has_cb (client_base_ c) then
          mret (cr_set_data [] r, set_client_base (set_connected true (emit OnConnection (client_base_ c))) (set_http_ready c))
        else Fault OutOfBounds.

(** [OnHttpRead]: the response is shared with the HTTP client. *)
Definition OnHttpRead_ws (ret now_ms : Z) (resp_ptr : option HttpClientResponse) (c : WebSocketClient) : outcome (option HttpClientResponse * WebSocketClient) :=
  if ret <? 0 then c ← refuse_connection c; mret (resp_ptr, c)
  else
    match resp_ptr with
    | None => Fault OutOfBounds
    | Some r =>
        if negb (http_ready_ c) then '(r, c) ← HandleHttpRespone r c; mret (Some r, c)
        else
          '(_, b) ← HandleFrame now_ms (cr_data_ r) (client_base_ c);
          mret (Some (cr_set_data [] r), set_client_base b c)
    end.

(** The call of [cb_->OnHttpRead] among what the HTTP client did, if there is one. *)
Fixpoint read_callback (l : list client_event) : option (Z * option HttpClientResponse) :=
  match l with
  | [] => None
  | OnHttpRead ret resp :: _ => Some (ret, resp)
  | _ :: l => read_callback l
  end.

(** The callbacks of the connection, through the HTTP client; [None] is an exception. *)
Definition through_client (now_ms : Z) (h : HttpClient) (c : WebSocketClient) : outcome WebSocketClient :=
  let c' := set_http_client h c in
  match read_callback (drop (length (hc_log (client_ptr_ c))) (hc_log h)) with
  | None => mret c'
  | Some (ret, resp) =>
      '(resp, c') ← OnHttpRead_ws ret now_ms resp c';
      mret (match resp with Some r => set_http_client (set_resp r (client_ptr_ c')) c' | None => c' end)
  end.
Definition OnConnect_ws (ret_code now_ms : Z) (c : WebSocketClient) : outcome WebSocketClient := through_client now_ms (OnConnect ret_code (client_ptr_ c)) c.
Definition OnRead_wsclient (ret_code now_ms : Z) (data : bytes) (c : WebSocketClient) : outcome (option WebSocketClient) :=
  o ← OnRead_client ret_code data (client_ptr_ c);
  match o with
  | None => mret None
  | Some h => c ← through_client now_ms h c; mret (Some c)
  end.
End sha1.
