(* ===== verification/WsOpen.v ===== *)
(** * [WsOpen]: a client and a server open a WebSocket connection

    The request of the client is accepted by the server, the answer of the server by
    the client, however TCP cuts both. *)
From S2P Require Import Prelude StringEx Base64 Http HttpRun WebSocket WsUpgrade.

(** ** Texts in pieces *)

Lemma is_prefix_more sub s t : is_prefix sub s = true -> is_prefix sub (s ++ t) = true.
Proof.
  revert s. induction sub as [|c sub IH]; intros [|b s]; try done. cbn. intros H. apply andb_true_iff in H as [-> H]. cbn. by apply IH.
Qed.

Lemma is_prefix_length sub s : is_prefix sub s = true -> (length sub <= length s)%nat.
Proof.
  revert s. induction sub as [|c sub IH]; intros [|b s]; cbn; try (done || lia). intros H. apply andb_true_iff in H as [_ H].
  apply IH in H. lia.
Qed.

Lemma is_prefix_less sub s t : is_prefix sub (s ++ t) = true -> (length sub <= length s)%nat -> is_prefix sub s = true.
Proof.
  revert s. induction sub as [|c sub IH]; intros [|b s]; cbn; try (done || lia). intros H Hl. apply andb_true_iff in H as [-> H].
  cbn. apply IH; [done|lia].
Qed.

Lemma find_more sub s t n : find sub s = Some n -> find sub (s ++ t) = Some n.
Proof.
  revert n. induction s as [|b s IH]; intros n.
  - cbn [find app]. destruct sub as [|c sub]; [|done]. intros [= <-]. by destruct t.
  - cbn [find app]. destruct (is_prefix sub (b :: s)) eqn:E.
    + intros [= <-]. pose proof (is_prefix_more sub (b :: s) t E) as E'. cbn [app] in E'. by rewrite E'.
    + destruct (find sub s) as [m|] eqn:Em; [|done]. cbn. intros [= <-].
      destruct (is_prefix sub (b :: s ++ t)) eqn:E'; [|by rewrite (IH m eq_refl)].
      exfalso. apply find_bound in Em.
      change (b :: s ++ t) with ((b :: s) ++ t) in E'. apply is_prefix_less in E'; [congruence|cbn; lia].
Qed.

(** A part of a text that ends with its separator does not hold it. *)
Lemma find_part sub text s t : find sub text = Some (length text - length sub)%nat -> s ++ t = text -> t <> [] -> find sub s = None.
Proof.
  intros Hf <- Ht. destruct (find sub s) as [n|] eqn:E; [|done]. pose proof (find_bound _ _ _ E) as Hb.
  apply (find_more _ _ t) in E. rewrite E, length_app in Hf. injection Hf as ->. destruct t; [done|cbn in Hb; lia].
Qed.

Lemma find_text lines : Forall line_ok lines -> lines <> [] ->
  let text := join CRLF lines ++ HEADER_END in find HEADER_END text = Some (length text - length HEADER_END)%nat.
Proof.
  intros Hl Hn text. pose proof (find_header_end lines [] Hl Hn) as E. rewrite app_nil_r in E. unfold text. rewrite E. f_equal.
  rewrite length_app. lia.
Qed.

Lemma base64_free e c : base64_text e -> is_base64 c = false -> c <> 61 -> free_of c e.
Proof. intros He Hc H61. eapply Forall_impl; [exact He|]. cbn. intros x [Hx|Hx] E; congruence. Qed.

(** ** The request *)

Lemma ws_header_of k v h : free_of 32 k -> ws_header_line (header_of (k, v)) h = <[String2Lower k := v]> h.
Proof.
  intros Hk. unfold ws_header_line, header_of. cbn [fst snd]. change (str ": ") with ([58] ++ [32]). rewrite <- app_assoc, app_assoc.
  pose proof (find_free 32 [] (k ++ [58]) v) as E. cbn [app] in E. change (str " ") with [32]. change ([32] ++ v) with (32 :: v). rewrite E.
  2: { apply Forall_app. split; [done|]. constructor; [done|constructor]. }
  rewrite length_app. cbn [length]. rewrite Nat.add_1_r. f_equal.
  - f_equal. rewrite <- app_assoc. apply take_app_length.
  - replace ((k ++ [58]) ++ 32 :: v) with (((k ++ [58]) ++ [32]) ++ v) by by rewrite <- !app_assoc.
    replace (S (length k) + 1)%nat with (length ((k ++ [58]) ++ [32])) by (rewrite !length_app; cbn; lia). apply drop_app_length.
Qed.

(** The headers of the request, for this key. *)
Definition upgrade_headers (sec_key : bytes) : smap :=
  [(str "Connection", str "Upgrade"); (str "Sec-WebSocket-Key", sec_key); (str "Sec-WebSocket-Version", str "13"); (str "Upgrade", str "websocket")].

Definition upgrade_client (host : bytes) (port : Z) (subpath sec_key : bytes) (log : list client_event) : HttpClient :=
  mkHttpClient host port HTTP_GET (upgrade_headers sec_key) subpath [] None log.

Lemma AsyncConnect_spec host port subpath key mem : length key = 16%nat -> bytes_ok key -> exists sec_key,
  Base64Encode key = Done sec_key /\ base64_text sec_key /\
  AsyncConnect (WebSocketClient_new host port subpath key mem) =
  Done (mkWsClient (upgrade_client host port subpath sec_key [Connect host port]) subpath key false (WebSocketSession_new ClientSide true mem)).
Proof.
  intros Hk Hb. destruct (encode_total key Hb) as (e & E & _). exists e. split; [done|]. split; [by apply (encode_text key)|].
  unfold AsyncConnect. cbn [key_ WebSocketClient_new]. unfold WebSocket_Key_Len.
  replace (read_range (key ++ [0]) 0 (Z.of_nat 16)) with (Done key).
  2: { pose proof (read_range_mid [] key [0]) as R. unfold zlen in R. rewrite Hk in R. by rewrite <- R. }
  simpl_m. unfold Base64Encode. rewrite E. simpl_m. reflexivity.
Qed.

Lemma request_line_ok host port subpath sec_key log : free_of 13 subpath ->
  line_ok (request_line_of (upgrade_client host port subpath sec_key log)).
Proof.
  intros H13. split; [|done]. unfold request_line_of. cbn [join method_name method_ upgrade_client subpath_]. unfold free_of.
  rewrite !Forall_app. split_and!; try done; by apply free_of_check; vm_compute.
Qed.

Lemma upgrade_headers_ok host port subpath sec_key log : free_of 13 host -> base64_text sec_key ->
  Forall header_ok (all_headers (upgrade_client host port subpath sec_key log)).
Proof.
  intros Hh Hs. unfold all_headers, upgrade_client, upgrade_headers. cbn [host_ hc_headers_ method_ app].
  repeat constructor; cbn [fst snd]; try done; try (by apply free_of_check; vm_compute). by apply base64_free.
Qed.

Lemma upgrade_lines_ok host port subpath sec_key log : free_of 13 host -> free_of 13 subpath -> base64_text sec_key ->
  Forall line_ok (request_lines_of (upgrade_client host port subpath sec_key log)).
Proof.
  intros Hh Hp Hs. constructor; [by apply request_line_ok|]. apply Forall_map. eapply Forall_impl; [by apply upgrade_headers_ok|].
  apply line_of_header.
Qed.

(** ** The server *)

Lemma ws_header_lines_of hs : Forall (fun p : bytes * bytes => free_of 32 p.1) hs -> forall h,
  ws_header_lines (map header_of hs) h = foldl (fun h p => <[String2Lower p.1 := p.2]> h) h hs.
Proof.
  induction 1 as [|[k v] hs Hk Hhs IH]; intros h; [done|]. cbn [map foldl fst snd]. unfold ws_header_lines in *. cbn [foldl].
  by rewrite ws_header_of.
Qed.

Lemma request_headers_of host port subpath sec_key log :
  let h := ws_header_lines (map header_of (all_headers (upgrade_client host port subpath sec_key log))) ∅ in
  h !! str "connection" = Some (str "Upgrade") /\ h !! str "upgrade" = Some (str "websocket") /\
  h !! str "sec-websocket-version" = Some (str "13") /\ h !! str "sec-websocket-key" = Some sec_key.
Proof.
  cbv zeta. rewrite ws_header_lines_of.
  - unfold all_headers, upgrade_client, upgrade_headers. cbn [hc_headers_ host_ method_ app foldl fst snd].
    set (a := String2Lower (str "Accept")). set (b := String2Lower (str "Host")).
    split_and!; repeat first [rewrite lookup_insert_eq; reflexivity | rewrite lookup_insert_ne by done].
  - unfold all_headers, upgrade_client, upgrade_headers. cbn [hc_headers_ host_ method_ app].
    repeat (apply Forall_cons; split; [by apply free_of_check; vm_compute|]). constructor.
Qed.

Section opening.
Context `{Sha1Laws}.
Variable GetHandle : bytes -> option ws_handle.

Lemma upgrade_accepted host port subpath sec_key log handle s : free_of 13 host -> free_of 13 subpath -> free_of 32 subpath -> base64_text sec_key ->
  GetHandle subpath = Some handle -> headers_ s = ∅ -> http_recv_buffer_ s = request_text (upgrade_client host port subpath sec_key log) ->
  exists s', OnHandleHttpRequest GetHandle s = Done (Returned 0, s') /\ http_request_ready_ s' = true /\ path_ s' = subpath /\
    sec_ws_key_ s' = sec_key /\ base_ s' = foldl run_ws_call (base_ s) (handle subpath).
Proof.
  intros Hh Hp Hp32 Hk Hg Hhd Hbuf. set (c := upgrade_client host port subpath sec_key log) in *.
  assert (Forall line_ok (request_lines_of c)) as Hl by by apply upgrade_lines_ok.
  unfold OnHandleHttpRequest. cbv zeta. cbn [http_recv_buffer_ set_request_ready]. rewrite Hbuf, request_text_lines. change (body_of c) with (@nil Z).
  rewrite find_header_end, take_app_length, split_lines by done. simpl_m. unfold request_lines_of at 1.
  pose proof (StringSplit_join 32 [] [str "GET"; subpath] (str "HTTP/1.1")) as E. cbn [app] in E.
  unfold request_line_of. change (method_name (method_ c)) with (str "GET"). change (subpath_ c) with subpath. change (str " ") with [32].
  rewrite E; [|repeat (apply Forall_cons; split; [first [done | by apply free_of_check; vm_compute]|]); constructor|done]. simpl_m.
  rewrite Hg. cbn [headers_ set_target set_request_ready]. rewrite Hhd.
  destruct (request_headers_of host port subpath sec_key log) as (E1 & E2 & E3 & E4). fold c in E1, E2, E3, E4.
  set (h := ws_header_lines (map header_of (all_headers c)) ∅) in *.
  unfold check_upgrade. cbn [headers_ set_headers]. rewrite E1.
  change (bool_decide (String2Lower (str "Upgrade") = str "upgrade")) with true. cbn iota.
  rewrite lookup_insert_ne, E2 by done.
  change (bool_decide (String2Lower (str "websocket") = str "websocket")) with true. cbn iota.
  unfold accept_upgrade. cbn [headers_ set_headers]. rewrite !lookup_insert_ne, E3, E4 by done.
  change (atoi (str "13")) with (@Done Z 13). simpl_m. eexists. split; [reflexivity|]. by split_and!.
Qed.

(** What the server does with a session that has read a part of the request. *)
Fixpoint feed_server (now_ms : Z) (chunks : list bytes) (s : WsServerSession) : outcome WsServerSession :=
  match chunks with
  | [] => mret s
  | d :: chunks => s ← OnRead_ws GetHandle 0 now_ms d s; feed_server now_ms chunks s
  end.

Lemma feed_server_part now text chunks : forall rest s, find HEADER_END text = Some (length text - length HEADER_END)%nat ->
  http_recv_buffer_ s ++ concat chunks ++ rest = text -> rest <> [] -> http_request_ready_ s = false ->
  feed_server now chunks s = Done (set_http_recv (http_recv_buffer_ s ++ concat chunks) (Nat.iter (length chunks) (put_event TcpRead) s)).
Proof.
  induction chunks as [|d chunks IH]; intros rest s Hf E Hr Hn.
  - cbn [feed_server concat length Nat.iter]. rewrite app_nil_r. by destruct s.
  - cbn [feed_server concat] in *. unfold OnRead_ws. rewrite Hn. cbn [negb Z.ltb Z.compare].
    unfold OnHandleHttpRequest. cbn [http_recv_buffer_ set_http_recv].
    rewrite (find_part HEADER_END text (http_recv_buffer_ s ++ d) (concat chunks ++ rest) Hf).
    2: { rewrite <- E. by rewrite <- !app_assoc. }
    2: { intros E0. by apply app_eq_nil in E0 as [_ ?]. }
    simpl_m. change (1 =? 1) with true. cbn iota.
    simpl_m. rewrite (IH rest); [|done| |done|by destruct s].
    + f_equal. cbn [length]. rewrite Nat.iter_succ_r. cbn [http_recv_buffer_ put_event set_base set_http_recv]. rewrite <- app_assoc.
      generalize (length chunks) as n. intros n.
      set (f := put_event TcpRead). set (b := http_recv_buffer_ s ++ d ++ concat chunks).
      assert (forall v s, f (set_http_recv v s) = set_http_recv v (f s)) as Ef by done.
      assert (forall v s, Nat.iter n f (set_http_recv v s) = set_http_recv v (Nat.iter n f s)) as En.
      { intros v. clear -Ef. induction n as [|n IH]; intros s; [done|]. rewrite !Nat.iter_succ, IH. apply Ef. }
      unfold f at 2. change (put_event TcpRead (set_http_recv ?v ?s)) with (set_http_recv v (f s)). rewrite En. reflexivity.
    + cbn [http_recv_buffer_ put_event set_base set_http_recv]. rewrite <- E. by rewrite <- !app_assoc.
Qed.

(** The server reads the request in pieces. *)
Lemma server_opens now chunks last host port subpath sec_key log handle hash mem :
  free_of 13 host -> free_of 13 subpath -> free_of 32 subpath -> base64_text sec_key -> GetHandle subpath = Some handle ->
  GenWebSocketHashcode sec_key = Done hash ->
  concat chunks ++ last = request_text (upgrade_client host port subpath sec_key log) -> last <> [] ->
  exists s, feed_server now (chunks ++ [last]) (WsServerSession_new now mem) = Done s /\
    http_request_ready_ s = true /\ path_ s = subpath /\ sec_ws_key_ s = sec_key /\ http_recv_buffer_ s = [] /\
    base_ s = emit TcpRead (emit (HttpWrite (response_101 hash))
      (foldl run_ws_call (Nat.iter (length chunks) (emit TcpRead) (base_ (WsServerSession_new now mem))) (handle subpath))).
Proof.
  intros Hh Hp Hp32 Hk Hg Hhash E Hl. set (c := upgrade_client host port subpath sec_key log) in *.
  assert (Forall line_ok (request_lines_of c)) as Hlines by by apply upgrade_lines_ok.
  assert (forall a b s, feed_server now (a ++ b) s = (s ← feed_server now a s; feed_server now b s)) as Happ.
  { intros a b. induction a as [|d a IH]; intros s; [done|]. cbn [app feed_server]. destruct (OnRead_ws GetHandle 0 now d s); [apply IH|done]. }
  rewrite Happ, (feed_server_part now (request_text c) chunks last); [|rewrite request_text_lines, app_nil_r; by apply find_text|done..].
  simpl_m. cbn [feed_server]. unfold OnRead_ws.
  assert (forall n s, headers_ (Nat.iter n (put_event TcpRead) s) = headers_ s /\ http_request_ready_ (Nat.iter n (put_event TcpRead) s) = http_request_ready_ s /\
    base_ (Nat.iter n (put_event TcpRead) s) = Nat.iter n (emit TcpRead) (base_ s)) as Hi.
  { intros n s. induction n as [|n (I1 & I2 & I3)]; [done|]. rewrite !Nat.iter_succ. cbn [headers_ http_request_ready_ base_ put_event set_base]. by rewrite I3. }
  destruct (Hi (length chunks) (WsServerSession_new now mem)) as (I1 & I2 & I3).
  set (s := Nat.iter (length chunks) (put_event TcpRead) (WsServerSession_new now mem)) in *.
  change (http_request_ready_ (set_http_recv ?v ?s)) with (http_request_ready_ s). rewrite I2. cbn [negb Z.ltb Z.compare http_request_ready_ WsServerSession_new].
  destruct (upgrade_accepted host port subpath sec_key log handle (set_http_recv (concat chunks ++ last) (set_http_recv (concat chunks) s))
    Hh Hp Hp32 Hk Hg I1 E) as (s' & E' & R1 & R2 & R3 & R4).
  change (http_recv_buffer_ (set_http_recv ?v ?s)) with v. cbn [http_recv_buffer_ WsServerSession_new app]. rewrite E'. simpl_m.
  change (0 =? 1) with false. change (0 =? 0) with true. cbn iota. unfold SendHttpResponse. rewrite R3, Hhash. simpl_m.
  eexists. split; [reflexivity|]. cbn [http_request_ready_ path_ sec_ws_key_ http_recv_buffer_ base_ put_event set_base set_http_recv set_hash].
  rewrite R4. cbn [base_ set_http_recv]. rewrite I3. by split_and!.
Qed.
End opening.

(** ** The client *)

Lemma response_line_of k v r : header_ok (k, v) -> k <> str "Content-Length" ->
  response_line (header_of (k, v)) r = Done (Some (cr_add_header k v r)).
Proof. intros Hok Hk. unfold response_line. destruct (split_header (k, v) Hok) as (-> & -> & ->). cbn [fst snd]. by rewrite bool_decide_eq_false_2. Qed.

Definition answer_headers (hash : bytes) : list (bytes * bytes) :=
  [(str "Upgrade", str "websocket"); (str "Connection", str "Upgrade"); (str "Sec-WebSocket-Accept", hash)].
Definition answer_lines (hash : bytes) : list bytes := str "HTTP/1.1 101 Switching Protocols" :: map header_of (answer_headers hash).

Lemma response_101_lines hash : response_101 hash = join CRLF (answer_lines hash) ++ HEADER_END.
Proof.
  change HEADER_END with (CRLF ++ CRLF). unfold response_101, answer_lines, answer_headers, header_of, CRLF. cbn [map join fst snd]. rewrite <- !app_assoc. reflexivity.
Qed.

Lemma answer_headers_ok hash : base64_text hash -> Forall header_ok (answer_headers hash).
Proof.
  intros Hh. unfold answer_headers. repeat (apply Forall_cons; split; [split_and!; cbn [fst snd]; first [by apply base64_free | by apply free_of_check; vm_compute]|]). constructor.
Qed.

Lemma answer_lines_ok hash : base64_text hash -> Forall line_ok (answer_lines hash).
Proof.
  intros Hh. constructor; [split; [by apply free_of_check; vm_compute|done]|]. apply Forall_map.
  eapply Forall_impl; [by apply answer_headers_ok|]. apply line_of_header.
Qed.

(** The response as the client has it. *)
Definition read_answer (hash : bytes) : HttpClientResponse :=
  foldl (fun r h => cr_add_header h.1 h.2 r) (cr_set_first (str "SwitchingProtocols") 101 (str "HTTP") (str "1.1") (cr_set_header_ready HttpClientResponse_new)) (answer_headers hash).

Lemma answer_read hash : base64_text hash ->
  response_header (cr_set_data (response_101 hash) HttpClientResponse_new) = Done (Some (true, read_answer hash)).
Proof.
  intros Hh. rewrite (response_header_lines (answer_lines hash) [] (cr_set_data (response_101 hash) HttpClientResponse_new) eq_refl (answer_lines_ok hash Hh) _ _ eq_refl).
  2: { cbn [cr_data_ cr_set_data]. by rewrite response_101_lines, app_nil_r. }
  set (r0 := cr_set_data [] _).
  change (status_line (str "HTTP/1.1 101 Switching Protocols") r0) with (Done (cr_set_first (str "SwitchingProtocols") 101 (str "HTTP") (str "1.1") r0)).
  simpl_m. pose proof (answer_headers_ok hash Hh) as Hok. unfold read_answer, answer_headers in *.
  apply Forall_cons in Hok as [H1 Hok]. apply Forall_cons in Hok as [H2 Hok]. apply Forall_cons in Hok as [H3 _].
  cbn [map response_lines]. rewrite (response_line_of _ _ _ H1) by done. simpl_m. rewrite (response_line_of _ _ _ H2) by done. simpl_m.
  rewrite (response_line_of _ _ _ H3) by done. simpl_m. reflexivity.
Qed.

Lemma answer_lookup hash : let h := cr_headers_ (read_answer hash) in
  h !! str "Connection" = Some (str "Upgrade") /\ h !! str "Upgrade" = Some (str "websocket") /\ h !! str "Sec-WebSocket-Accept" = Some hash.
Proof.
  cbv zeta. unfold read_answer, answer_headers. cbn [foldl fst snd cr_headers_ cr_add_header cr_set_first cr_set_header_ready HttpClientResponse_new].
  split_and!; repeat first [rewrite lookup_insert_eq; reflexivity | rewrite lookup_insert_ne by done].
Qed.

Section answering.
Context `{Sha1Laws}.

Lemma hashcode_total sec_key : exists hash, GenWebSocketHashcode sec_key = Done hash /\ base64_text hash.
Proof.
  unfold GenWebSocketHashcode, Base64Encode. destruct (encode_total _ (sha1_bytes (sec_key ++ Websocket_Key_Hash))) as (e & E & _).
  exists e. split; [done|]. exact (encode_text _ (sha1_bytes (sec_key ++ Websocket_Key_Hash)) e E).
Qed.

Lemma answer_accepted sec_key hash c : Base64Encode (key_ c) = Done sec_key -> GenWebSocketHashcode sec_key = Done hash -> has_cb (client_base_ c) = true ->
  HandleHttpRespone (read_answer hash) c =
  Done (read_answer hash, set_client_base (set_connected true (emit OnConnection (client_base_ c))) (set_http_ready c)).
Proof.
  intros Hk Hh Hcb. unfold HandleHttpRespone. change (cr_status_code_ (read_answer hash)) with 101. cbn [Z.eqb negb Websocket_Response_Code Pos.eqb].
  destruct (answer_lookup hash) as (E1 & E2 & E3). unfold header_at. rewrite E1, bool_decide_eq_true_2 by done. cbn [negb].
  rewrite E2, bool_decide_eq_true_2 by done. cbn [negb]. rewrite Hk. simpl_m. rewrite Hh. simpl_m. rewrite E3, bool_decide_eq_true_2 by done.
  cbn [negb]. by rewrite Hcb.
Qed.

Fixpoint feed_client (now_ms : Z) (chunks : list bytes) (c : WebSocketClient) : outcome (option WebSocketClient) :=
  match chunks with
  | [] => mret (Some c)
  | d :: chunks =>
      o ← OnRead_wsclient 0 now_ms d c;
      match o with Some c => feed_client now_ms chunks c | None => mret None end
  end.

(** The response a client has so far. *)
Definition response_of (c : WebSocketClient) : HttpClientResponse := default HttpClientResponse_new (resp_ptr_ (client_ptr_ c)).
Definition same_session (c c' : WebSocketClient) : Prop :=
  key_ c' = key_ c /\ client_base_ c' = client_base_ c /\ http_ready_ c' = http_ready_ c.

Lemma through_client_none now h c : read_callback (drop (length (hc_log (client_ptr_ c))) (hc_log h)) = None ->
  through_client now h c = Done (set_http_client h c).
Proof. unfold through_client. by intros ->. Qed.

Lemma nonempty_length (d : bytes) : d <> [] -> (zlen d =? 0) = false.
Proof. destruct d; [done|]. intros _. rewrite zlen_cons. pose proof (zlen_nonneg d). apply Z.eqb_neq. lia. Qed.

Lemma client_part now text chunks : forall b rest c, find HEADER_END text = Some (length text - length HEADER_END)%nat ->
  response_of c = cr_set_data b HttpClientResponse_new -> b ++ concat chunks ++ rest = text -> rest <> [] -> Forall (fun d => d <> []) chunks ->
  exists c', feed_client now chunks c = Done (Some c') /\ response_of c' = cr_set_data (b ++ concat chunks) HttpClientResponse_new /\ same_session c c'.
Proof.
  induction chunks as [|d chunks IH]; intros b rest c Hf Hr E Hrest Hc.
  - exists c. cbn [concat]. rewrite app_nil_r. split; [done|]. split; [done|]. by split_and!.
  - apply Forall_cons in Hc as [Hd Hc]. cbn [feed_client concat] in *. unfold OnRead_wsclient, OnRead_client. cbn [Z.ltb Z.compare].
    fold (response_of c). rewrite nonempty_length, Hr by done. unfold response_header. cbn [cr_header_ready_ cr_data_ cr_set_data HttpClientResponse_new].
    rewrite (find_part HEADER_END text (b ++ d) (concat chunks ++ rest) Hf).
    2: { rewrite <- E. by rewrite <- !app_assoc. }
    2: { intros E0. by apply app_eq_nil in E0 as [_ ?]. }
    simpl_m. rewrite through_client_none.
    2: { cbn [hc_log hc_emit set_resp]. by rewrite drop_app_length. }
    simpl_m. set (c1 := set_http_client _ c).
    destruct (IH (b ++ d) rest c1 Hf) as (c' & -> & Hr' & K1 & K2 & K3); [done|by rewrite <- E, <- !app_assoc|done|done|].
    exists c'. split; [done|]. rewrite app_assoc. split; [done|]. by split_and!.
Qed.

Lemma feed_client_app now a b c : feed_client now (a ++ b) c =
  (o ← feed_client now a c; match o with Some c => feed_client now b c | None => mret None end).
Proof.
  revert c. induction a as [|d a IH]; intros c; [done|]. cbn [app feed_client]. destruct (OnRead_wsclient 0 now d c) as [[c'|]|]; [apply IH|done..].
Qed.

(** The client reads the answer in pieces. *)
Lemma client_opens now chunks last sec_key hash c : base64_text hash -> response_of c = HttpClientResponse_new -> http_ready_ c = false ->
  Base64Encode (key_ c) = Done sec_key -> GenWebSocketHashcode sec_key = Done hash -> has_cb (client_base_ c) = true ->
  concat chunks ++ last = response_101 hash -> last <> [] -> Forall (fun d => d <> []) chunks ->
  exists c', feed_client now (chunks ++ [last]) c = Done (Some c') /\ http_ready_ c' = true /\ cr_data_ (response_of c') = [] /\
    client_base_ c' = set_connected true (emit OnConnection (client_base_ c)).
Proof.
  intros Hh Hr Hn Hk Hhash Hcb E Hl Hc.
  assert (find HEADER_END (response_101 hash) = Some (length (response_101 hash) - length HEADER_END)%nat) as Hf.
  { rewrite response_101_lines. apply find_text; [by apply answer_lines_ok|done]. }
  destruct (client_part now (response_101 hash) chunks [] last c Hf Hr E Hl Hc) as (c1 & E1 & Hr1 & K1 & K2 & K3).
  rewrite feed_client_app, E1. simpl_m. cbn [feed_client]. unfold OnRead_wsclient, OnRead_client. cbn [Z.ltb Z.compare].
  fold (response_of c1). rewrite nonempty_length, Hr1 by done. cbn [app].
  change (cr_set_data (cr_data_ (cr_set_data ?v ?r) ++ ?d) (cr_set_data ?v ?r)) with (cr_set_data (v ++ d) r). rewrite E, answer_read by done. simpl_m.
  change (cr_content_length_ (read_answer hash)) with 0. change (0 <? 0) with false. cbn iota.
  simpl_m. unfold through_client. cbn [hc_log hc_emit set_resp]. rewrite <- app_assoc, drop_app_length. cbn [app read_callback].
  unfold OnHttpRead_ws. cbn [Z.ltb Z.compare]. cbn [http_ready_ set_http_client]. rewrite K3, Hn. cbn [negb].
  rewrite (answer_accepted sec_key) by (cbn [key_ client_base_ set_http_client]; congruence).
  simpl_m. eexists. split; [reflexivity|]. cbn [http_ready_ client_base_ set_client_base set_http_ready set_http_client]. rewrite K2. by split_and!.
Qed.
End answering.

(** C14. A client with any key of 16 bytes and a server with a handler for its path: the server accepts the
    request and calls the handler, the client accepts the answer, and both are connected, however TCP cuts the
    two texts. *)
Theorem ws_handshake `{Sha1Laws} GetHandle handle now host port subpath key mem mem' :
  length key = 16%nat -> bytes_ok key -> free_of 13 host -> free_of 13 subpath -> free_of 32 subpath -> GetHandle subpath = Some handle ->
  exists c sec_key request response,
    AsyncConnect (WebSocketClient_new host port subpath key mem) = Done c /\
    OnConnect_ws 0 now c = Done (set_http_client (hc_emit (Send request) (client_ptr_ c)) c) /\
    (forall chunks last, concat chunks ++ last = request -> last <> [] ->
      exists s, feed_server GetHandle now (chunks ++ [last]) (WsServerSession_new now mem') = Done s /\
        http_request_ready_ s = true /\ path_ s = subpath /\ sec_ws_key_ s = sec_key /\ http_recv_buffer_ s = [] /\
        base_ s = emit TcpRead (emit (HttpWrite response)
          (foldl run_ws_call (Nat.iter (length chunks) (emit TcpRead) (base_ (WsServerSession_new now mem'))) (handle subpath)))) /\
    (forall chunks last, concat chunks ++ last = response -> last <> [] -> Forall (fun d => d <> []) chunks ->
      exists c', feed_client now (chunks ++ [last]) (set_http_client (hc_emit (Send request) (client_ptr_ c)) c) = Done (Some c') /\
        http_ready_ c' = true /\ cr_data_ (response_of c') = [] /\
        client_base_ c' = set_connected true (emit OnConnection (WebSocketSession_new ClientSide true mem))).
Proof.
  intros Hk Hb Hh Hp Hp32 Hg. destruct (AsyncConnect_spec host port subpath key mem Hk Hb) as (sec_key & Ek & Htext & Ec).
  destruct (hashcode_total sec_key) as (hash & Ehash & Hhash).
  do 2 eexists. exists (request_text (upgrade_client host port subpath sec_key [Connect host port])), (response_101 hash).
  split; [exact Ec|]. split; [|split].
  - unfold OnConnect_ws, through_client. cbn [client_ptr_ OnConnect Z.ltb Z.compare hc_log hc_emit upgrade_client]. reflexivity.
  - intros chunks last E Hl. by apply (server_opens GetHandle now chunks last host port subpath sec_key [Connect host port] handle hash mem').
  - intros chunks last E Hl Hc.
    destruct (client_opens now chunks last sec_key hash (set_http_client (hc_emit (Send (request_text (upgrade_client host port subpath sec_key [Connect host port])))
      (upgrade_client host port subpath sec_key [Connect host port])) (mkWsClient (upgrade_client host port subpath sec_key [Connect host port]) subpath key false (WebSocketSession_new ClientSide true mem))))
      as (c' & E' & R1 & R2 & R3); try done. exists c'. by split_and!.
Qed.

(** ** Concrete runs *)

Definition zero_sha1 : Sha1 := fun _ => replicate 20 0.
Lemma zero_sha1_laws : Sha1Laws zero_sha1.
Proof. split; intros b; [done|]. apply (bool_decide_unpack _). vm_compute. exact I. Qed.

Definition greeting : ws_handle := fun _ => [SetSessionCallback true; WriteText (str "hi")].
Definition chat (uri : bytes) : option ws_handle := if bool_decide (uri = str "/chat") then Some greeting else None.
Definition some_key : bytes := str "0123456789abcdef".

Lemma ws_handshake_witness : exists c request,
  AsyncConnect (WebSocketClient_new (str "example.com") 80 (str "/chat") some_key [0; 0; 0; 0]) = Done c /\
  @OnConnect_ws zero_sha1 0 7 c = Done (set_http_client (hc_emit (Send request) (client_ptr_ c)) c) /\
  forall chunks last, concat chunks ++ last = request -> last <> [] ->
    exists s, feed_server (H := zero_sha1) chat 7 (chunks ++ [last]) (WsServerSession_new 7 [0; 0; 0; 0]) = Done s /\ http_request_ready_ s = true.
Proof.
  destruct (@ws_handshake zero_sha1 zero_sha1_laws chat greeting 7 (str "example.com") 80 (str "/chat") some_key [0; 0; 0; 0] [0; 0; 0; 0])
    as (c & sec_key & request & response & E & Eo & Hs & _).
  - reflexivity.
  - apply (bool_decide_unpack _). vm_compute. exact I.
  - by apply free_of_check; vm_compute.
  - by apply free_of_check; vm_compute.
  - by apply free_of_check; vm_compute.
  - reflexivity.
  - exists c, request. split; [exact E|]. split; [exact Eo|]. intros chunks last E1 E2.
    destruct (Hs chunks last E1 E2) as (s & Es & Er & _). by exists s.
Defined.

Definition chat_request : bytes := request_text (upgrade_client (str "example.com") 80 (str "/chat") (str "MDEyMzQ1Njc4OWFiY2RlZg==") []).

(** What a handler writes at once goes out before the answer. *)
Example frame_before_answer :
  (s ← @OnRead_ws zero_sha1 chat 0 7 chat_request (WsServerSession_new 7 [0; 0; 0; 0]); mret (ws_log (base_ s))) =
  Done [TcpRead; SendWsFrame (str "hi") WS_OP_TEXT_TYPE; HttpWrite (response_101 (str "AAAAAAAAAAAAAAAAAAAAAAAAAAA=")); TcpRead].
Proof. vm_compute. reflexivity. Qed.

(** A frame that comes with the request is dropped. *)
Example frame_with_request_dropped :
  @OnRead_ws zero_sha1 chat 0 7 (chat_request ++ ws_frame [1; 2; 3; 4] (str "hello") WS_OP_TEXT_TYPE) (WsServerSession_new 7 [0; 0; 0; 0]) =
  @OnRead_ws zero_sha1 chat 0 7 chat_request (WsServerSession_new 7 [0; 0; 0; 0]).
Proof. vm_compute. reflexivity. Qed.

(** A request that is refused is not answered: no function returns the error that would send the 400. *)
Lemma no_error_response `{Sha1} GetHandle s r s' : OnHandleHttpRequest GetHandle s = Done (r, s') -> r = Thrown \/ r = Returned 0 \/ r = Returned 1.
Proof.
  unfold OnHandleHttpRequest, check_upgrade, accept_upgrade. intros E.
  repeat match type of E with
  | mret _ = _ => injection E as <- _
  | (_ ≫= _) = _ => apply bind_inv in E as (? & _ & E)
  | context [match ?x with _ => _ end] => destruct x; try discriminate E
  end; auto.
Qed.
