(* ===== verification/Mp4Box.v ===== *)
(** * [Mp4Box]: the boxes of an MP4 file

    Models [src/format/mp4/mp4_box.hpp].  A pointer is the memory from it on; a
    parser takes the pointer and the [MovInfo] that the boxes fill in, and gives the
    box, the pointer behind what it read and the [MovInfo], or [None] where an
    exception leaves the function.  A comparison with [start + box_size_] compares
    the bytes left.  A box that says it has no bytes keeps the loops that contain
    it going for ever: they run out of fuel.  The functions [Dump] are left out. *)
From S2P Require Import Prelude ByteStream StringEx RtcTime H264.
From S2P Require Media.
Import Media(MEDIA_CODEC_TYPE(..)).

Record SampleEntry := mkSampleEntry { sample_count_ : Z; samples_delta_ : Z }.
Record SampleOffset := mkSampleOffset { sample_counts_ : Z; sample_offsets_ : Z }.
Record ChunkSample := mkChunkSample { first_chunk_ : Z; samples_per_chunk_ : Z; sample_description_index_ : Z }.

(** What the boxes of one track say. *)
Record TrakInfo := mkTrak {
  track_id_ : Z;
  timescale_ : Z;
  duration_ : double;
  handler_type_ : bytes;
  codec_type_ : MEDIA_CODEC_TYPE;
  width_ : Z;
  height_ : Z;
  horizontal_resolution_ : Z;
  vertical_resolution_ : Z;
  channelcount_ : Z;
  samplesize_ : Z;
  samplerate_ : Z;
  buffer_size_ : Z;
  max_bit_rate_ : Z;
  avg_bit_rate_ : Z;
  sequence_data_ : bytes;
  lhevc_dec_conf_ : LHEVC_DEC_CONF_RECORD;
  sample_entries_ : list SampleEntry;
  sample_offset_vec_ : list SampleOffset;
  iframe_sample_vec_ : list Z;
  chunk_sample_vec_ : list ChunkSample;
  sample_sizes_vec_ : list Z;
  chunk_offsets_vec_ : list Z
}.

Definition set_track_id (v : Z) (t : TrakInfo) : TrakInfo :=
  mkTrak v (timescale_ t) (duration_ t) (handler_type_ t) (codec_type_ t) (width_ t) (height_ t) (horizontal_resolution_ t) (vertical_resolution_ t) (channelcount_ t) (samplesize_ t) (samplerate_ t) (buffer_size_ t) (max_bit_rate_ t) (avg_bit_rate_ t) (sequence_data_ t) (lhevc_dec_conf_ t) (sample_entries_ t) (sample_offset_vec_ t) (iframe_sample_vec_ t) (chunk_sample_vec_ t) (sample_sizes_vec_ t) (chunk_offsets_vec_ t).
Definition set_timescale (v : Z) (t : TrakInfo) : TrakInfo :=
  mkTrak (track_id_ t) v (duration_ t) (handler_type_ t) (codec_type_ t) (width_ t) (height_ t) (horizontal_resolution_ t) (vertical_resolution_ t) (channelcount_ t) (samplesize_ t) (samplerate_ t) (buffer_size_ t) (max_bit_rate_ t) (avg_bit_rate_ t) (sequence_data_ t) (lhevc_dec_conf_ t) (sample_entries_ t) (sample_offset_vec_ t) (iframe_sample_vec_ t) (chunk_sample_vec_ t) (sample_sizes_vec_ t) (chunk_offsets_vec_ t).
Definition set_duration (v : double) (t : TrakInfo) : TrakInfo :=
  mkTrak (track_id_ t) (timescale_ t) v (handler_type_ t) (codec_type_ t) (width_ t) (height_ t) (horizontal_resolution_ t) (vertical_resolution_ t) (channelcount_ t) (samplesize_ t) (samplerate_ t) (buffer_size_ t) (max_bit_rate_ t) (avg_bit_rate_ t) (sequence_data_ t) (lhevc_dec_conf_ t) (sample_entries_ t) (sample_offset_vec_ t) (iframe_sample_vec_ t) (chunk_sample_vec_ t) (sample_sizes_vec_ t) (chunk_offsets_vec_ t).
Definition set_handler_type (v : bytes) (t : TrakInfo) : TrakInfo :=
  mkTrak (track_id_ t) (timescale_ t) (duration_ t) v (codec_type_ t) (width_ t) (height_ t) (horizontal_resolution_ t) (vertical_resolution_ t) (channelcount_ t) (samplesize_ t) (samplerate_ t) (buffer_size_ t) (max_bit_rate_ t) (avg_bit_rate_ t) (sequence_data_ t) (lhevc_dec_conf_ t) (sample_entries_ t) (sample_offset_vec_ t) (iframe_sample_vec_ t) (chunk_sample_vec_ t) (sample_sizes_vec_ t) (chunk_offsets_vec_ t).
Definition set_codec_type (v : MEDIA_CODEC_TYPE) (t : TrakInfo) : TrakInfo :=
  mkTrak (track_id_ t) (timescale_ t) (duration_ t) (handler_type_ t) v (width_ t) (height_ t) (horizontal_resolution_ t) (vertical_resolution_ t) (channelcount_ t) (samplesize_ t) (samplerate_ t) (buffer_size_ t) (max_bit_rate_ t) (avg_bit_rate_ t) (sequence_data_ t) (lhevc_dec_conf_ t) (sample_entries_ t) (sample_offset_vec_ t) (iframe_sample_vec_ t) (chunk_sample_vec_ t) (sample_sizes_vec_ t) (chunk_offsets_vec_ t).
Definition set_width (v : Z) (t : TrakInfo) : TrakInfo :=
  mkTrak (track_id_ t) (timescale_ t) (duration_ t) (handler_type_ t) (codec_type_ t) v (height_ t) (horizontal_resolution_ t) (vertical_resolution_ t) (channelcount_ t) (samplesize_ t) (samplerate_ t) (buffer_size_ t) (max_bit_rate_ t) (avg_bit_rate_ t) (sequence_data_ t) (lhevc_dec_conf_ t) (sample_entries_ t) (sample_offset_vec_ t) (iframe_sample_vec_ t) (chunk_sample_vec_ t) (sample_sizes_vec_ t) (chunk_offsets_vec_ t).
Definition set_height (v : Z) (t : TrakInfo) : TrakInfo :=
  mkTrak (track_id_ t) (timescale_ t) (duration_ t) (handler_type_ t) (codec_type_ t) (width_ t) v (horizontal_resolution_ t) (vertical_resolution_ t) (channelcount_ t) (samplesize_ t) (samplerate_ t) (buffer_size_ t) (max_bit_rate_ t) (avg_bit_rate_ t) (sequence_data_ t) (lhevc_dec_conf_ t) (sample_entries_ t) (sample_offset_vec_ t) (iframe_sample_vec_ t) (chunk_sample_vec_ t) (sample_sizes_vec_ t) (chunk_offsets_vec_ t).
Definition set_horizontal_resolution (v : Z) (t : TrakInfo) : TrakInfo :=
  mkTrak (track_id_ t) (timescale_ t) (duration_ t) (handler_type_ t) (codec_type_ t) (width_ t) (height_ t) v (vertical_resolution_ t) (channelcount_ t) (samplesize_ t) (samplerate_ t) (buffer_size_ t) (max_bit_rate_ t) (avg_bit_rate_ t) (sequence_data_ t) (lhevc_dec_conf_ t) (sample_entries_ t) (sample_offset_vec_ t) (iframe_sample_vec_ t) (chunk_sample_vec_ t) (sample_sizes_vec_ t) (chunk_offsets_vec_ t).
Definition set_vertical_resolution (v : Z) (t : TrakInfo) : TrakInfo :=
  mkTrak (track_id_ t) (timescale_ t) (duration_ t) (handler_type_ t) (codec_type_ t) (width_ t) (height_ t) (horizontal_resolution_ t) v (channelcount_ t) (samplesize_ t) (samplerate_ t) (buffer_size_ t) (max_bit_rate_ t) (avg_bit_rate_ t) (sequence_data_ t) (lhevc_dec_conf_ t) (sample_entries_ t) (sample_offset_vec_ t) (iframe_sample_vec_ t) (chunk_sample_vec_ t) (sample_sizes_vec_ t) (chunk_offsets_vec_ t).
Definition set_channelcount (v : Z) (t : TrakInfo) : TrakInfo :=
  mkTrak (track_id_ t) (timescale_ t) (duration_ t) (handler_type_ t) (codec_type_ t) (width_ t) (height_ t) (horizontal_resolution_ t) (vertical_resolution_ t) v (samplesize_ t) (samplerate_ t) (buffer_size_ t) (max_bit_rate_ t) (avg_bit_rate_ t) (sequence_data_ t) (lhevc_dec_conf_ t) (sample_entries_ t) (sample_offset_vec_ t) (iframe_sample_vec_ t) (chunk_sample_vec_ t) (sample_sizes_vec_ t) (chunk_offsets_vec_ t).
Definition set_samplesize (v : Z) (t : TrakInfo) : TrakInfo :=
  mkTrak (track_id_ t) (timescale_ t) (duration_ t) (handler_type_ t) (codec_type_ t) (width_ t) (height_ t) (horizontal_resolution_ t) (vertical_resolution_ t) (channelcount_ t) v (samplerate_ t) (buffer_size_ t) (max_bit_rate_ t) (avg_bit_rate_ t) (sequence_data_ t) (lhevc_dec_conf_ t) (sample_entries_ t) (sample_offset_vec_ t) (iframe_sample_vec_ t) (chunk_sample_vec_ t) (sample_sizes_vec_ t) (chunk_offsets_vec_ t).
Definition set_samplerate (v : Z) (t : TrakInfo) : TrakInfo :=
  mkTrak (track_id_ t) (timescale_ t) (duration_ t) (handler_type_ t) (codec_type_ t) (width_ t) (height_ t) (horizontal_resolution_ t) (vertical_resolution_ t) (channelcount_ t) (samplesize_ t) v (buffer_size_ t) (max_bit_rate_ t) (avg_bit_rate_ t) (sequence_data_ t) (lhevc_dec_conf_ t) (sample_entries_ t) (sample_offset_vec_ t) (iframe_sample_vec_ t) (chunk_sample_vec_ t) (sample_sizes_vec_ t) (chunk_offsets_vec_ t).
Definition set_buffer_size (v : Z) (t : TrakInfo) : TrakInfo :=
  mkTrak (track_id_ t) (timescale_ t) (duration_ t) (handler_type_ t) (codec_type_ t) (width_ t) (height_ t) (horizontal_resolution_ t) (vertical_resolution_ t) (channelcount_ t) (samplesize_ t) (samplerate_ t) v (max_bit_rate_ t) (avg_bit_rate_ t) (sequence_data_ t) (lhevc_dec_conf_ t) (sample_entries_ t) (sample_offset_vec_ t) (iframe_sample_vec_ t) (chunk_sample_vec_ t) (sample_sizes_vec_ t) (chunk_offsets_vec_ t).
Definition set_max_bit_rate (v : Z) (t : TrakInfo) : TrakInfo :=
  mkTrak (track_id_ t) (timescale_ t) (duration_ t) (handler_type_ t) (codec_type_ t) (width_ t) (height_ t) (horizontal_resolution_ t) (vertical_resolution_ t) (channelcount_ t) (samplesize_ t) (samplerate_ t) (buffer_size_ t) v (avg_bit_rate_ t) (sequence_data_ t) (lhevc_dec_conf_ t) (sample_entries_ t) (sample_offset_vec_ t) (iframe_sample_vec_ t) (chunk_sample_vec_ t) (sample_sizes_vec_ t) (chunk_offsets_vec_ t).
Definition set_avg_bit_rate (v : Z) (t : TrakInfo) : TrakInfo :=
  mkTrak (track_id_ t) (timescale_ t) (duration_ t) (handler_type_ t) (codec_type_ t) (width_ t) (height_ t) (horizontal_resolution_ t) (vertical_resolution_ t) (channelcount_ t) (samplesize_ t) (samplerate_ t) (buffer_size_ t) (max_bit_rate_ t) v (sequence_data_ t) (lhevc_dec_conf_ t) (sample_entries_ t) (sample_offset_vec_ t) (iframe_sample_vec_ t) (chunk_sample_vec_ t) (sample_sizes_vec_ t) (chunk_offsets_vec_ t).
Definition set_sequence_data (v : bytes) (t : TrakInfo) : TrakInfo :=
  mkTrak (track_id_ t) (timescale_ t) (duration_ t) (handler_type_ t) (codec_type_ t) (width_ t) (height_ t) (horizontal_resolution_ t) (vertical_resolution_ t) (channelcount_ t) (samplesize_ t) (samplerate_ t) (buffer_size_ t) (max_bit_rate_ t) (avg_bit_rate_ t) v (lhevc_dec_conf_ t) (sample_entries_ t) (sample_offset_vec_ t) (iframe_sample_vec_ t) (chunk_sample_vec_ t) (sample_sizes_vec_ t) (chunk_offsets_vec_ t).
Definition set_lhevc_dec_conf (v : LHEVC_DEC_CONF_RECORD) (t : TrakInfo) : TrakInfo :=
  mkTrak (track_id_ t) (timescale_ t) (duration_ t) (handler_type_ t) (codec_type_ t) (width_ t) (height_ t) (horizontal_resolution_ t) (vertical_resolution_ t) (channelcount_ t) (samplesize_ t) (samplerate_ t) (buffer_size_ t) (max_bit_rate_ t) (avg_bit_rate_ t) (sequence_data_ t) v (sample_entries_ t) (sample_offset_vec_ t) (iframe_sample_vec_ t) (chunk_sample_vec_ t) (sample_sizes_vec_ t) (chunk_offsets_vec_ t).
Definition set_sample_entries (v : list SampleEntry) (t : TrakInfo) : TrakInfo :=
  mkTrak (track_id_ t) (timescale_ t) (duration_ t) (handler_type_ t) (codec_type_ t) (width_ t) (height_ t) (horizontal_resolution_ t) (vertical_resolution_ t) (channelcount_ t) (samplesize_ t) (samplerate_ t) (buffer_size_ t) (max_bit_rate_ t) (avg_bit_rate_ t) (sequence_data_ t) (lhevc_dec_conf_ t) v (sample_offset_vec_ t) (iframe_sample_vec_ t) (chunk_sample_vec_ t) (sample_sizes_vec_ t) (chunk_offsets_vec_ t).
Definition set_sample_offset_vec (v : list SampleOffset) (t : TrakInfo) : TrakInfo :=
  mkTrak (track_id_ t) (timescale_ t) (duration_ t) (handler_type_ t) (codec_type_ t) (width_ t) (height_ t) (horizontal_resolution_ t) (vertical_resolution_ t) (channelcount_ t) (samplesize_ t) (samplerate_ t) (buffer_size_ t) (max_bit_rate_ t) (avg_bit_rate_ t) (sequence_data_ t) (lhevc_dec_conf_ t) (sample_entries_ t) v (iframe_sample_vec_ t) (chunk_sample_vec_ t) (sample_sizes_vec_ t) (chunk_offsets_vec_ t).
Definition set_iframe_sample_vec (v : list Z) (t : TrakInfo) : TrakInfo :=
  mkTrak (track_id_ t) (timescale_ t) (duration_ t) (handler_type_ t) (codec_type_ t) (width_ t) (height_ t) (horizontal_resolution_ t) (vertical_resolution_ t) (channelcount_ t) (samplesize_ t) (samplerate_ t) (buffer_size_ t) (max_bit_rate_ t) (avg_bit_rate_ t) (sequence_data_ t) (lhevc_dec_conf_ t) (sample_entries_ t) (sample_offset_vec_ t) v (chunk_sample_vec_ t) (sample_sizes_vec_ t) (chunk_offsets_vec_ t).
Definition set_chunk_sample_vec (v : list ChunkSample) (t : TrakInfo) : TrakInfo :=
  mkTrak (track_id_ t) (timescale_ t) (duration_ t) (handler_type_ t) (codec_type_ t) (width_ t) (height_ t) (horizontal_resolution_ t) (vertical_resolution_ t) (channelcount_ t) (samplesize_ t) (samplerate_ t) (buffer_size_ t) (max_bit_rate_ t) (avg_bit_rate_ t) (sequence_data_ t) (lhevc_dec_conf_ t) (sample_entries_ t) (sample_offset_vec_ t) (iframe_sample_vec_ t) v (sample_sizes_vec_ t) (chunk_offsets_vec_ t).
Definition set_sample_sizes_vec (v : list Z) (t : TrakInfo) : TrakInfo :=
  mkTrak (track_id_ t) (timescale_ t) (duration_ t) (handler_type_ t) (codec_type_ t) (width_ t) (height_ t) (horizontal_resolution_ t) (vertical_resolution_ t) (channelcount_ t) (samplesize_ t) (samplerate_ t) (buffer_size_ t) (max_bit_rate_ t) (avg_bit_rate_ t) (sequence_data_ t) (lhevc_dec_conf_ t) (sample_entries_ t) (sample_offset_vec_ t) (iframe_sample_vec_ t) (chunk_sample_vec_ t) v (chunk_offsets_vec_ t).
Definition set_chunk_offsets_vec (v : list Z) (t : TrakInfo) : TrakInfo :=
  mkTrak (track_id_ t) (timescale_ t) (duration_ t) (handler_type_ t) (codec_type_ t) (width_ t) (height_ t) (horizontal_resolution_ t) (vertical_resolution_ t) (channelcount_ t) (samplesize_ t) (samplerate_ t) (buffer_size_ t) (max_bit_rate_ t) (avg_bit_rate_ t) (sequence_data_ t) (lhevc_dec_conf_ t) (sample_entries_ t) (sample_offset_vec_ t) (iframe_sample_vec_ t) (chunk_sample_vec_ t) (sample_sizes_vec_ t) v.


Record MovInfo := mkMov {
  major_brand_ : bytes;
  minor_version_ : Z;
  compatible_brands_ : list bytes;
  mov_duration_ : double;
  next_track_id_ : Z;
  traks_info_ : list TrakInfo
}.

(** Members that are not initialised. *)
Class Uninit := uninit : nat -> Z.

Section uninit.
Context `{Uninit}.
Definition hevc_uninit (n : nat) : HEVC_DEC_CONF_RECORD :=
  mkHevc (uninit n) (uninit n) (uninit n) (uninit n) (uninit n) (uninit n) (uninit n) (uninit n) (uninit n)
    (uninit n) (uninit n) (uninit n) (uninit n) (uninit n) (uninit n) (uninit n) (uninit n) [].
Definition lhevc_uninit (n : nat) : LHEVC_DEC_CONF_RECORD :=
  mkLHevc (uninit n) (uninit n) (uninit n) (uninit n) (uninit n) (uninit n) (uninit n) (uninit n) (uninit n) (uninit n) [].
Definition TrakInfo_new : TrakInfo :=
  mkTrak (uninit 0) (uninit 1) (double_of_int (uninit 2)) [] MEDIA_CODEC_UNKOWN (uninit 3) (uninit 4) (uninit 5) (uninit 6)
    (uninit 7) (uninit 8) (uninit 9) (uninit 10) (uninit 11) (uninit 12) [] (lhevc_uninit 13) [] [] [] [] [] [].
Definition MovInfo_new : MovInfo := mkMov [] (uninit 14) [] (double_of_int 0) 0 [].
End uninit.

Definition set_brands (major : bytes) (minor : Z) (m : MovInfo) : MovInfo :=
  mkMov major minor (compatible_brands_ m) (mov_duration_ m) (next_track_id_ m) (traks_info_ m).
Definition add_brand (v : bytes) (m : MovInfo) : MovInfo :=
  mkMov (major_brand_ m) (minor_version_ m) (compatible_brands_ m ++ [v]) (mov_duration_ m) (next_track_id_ m) (traks_info_ m).
Definition set_mvhd (duration : double) (next_track : Z) (m : MovInfo) : MovInfo :=
  mkMov (major_brand_ m) (minor_version_ m) (compatible_brands_ m) duration next_track (traks_info_ m).
Definition set_traks (v : list TrakInfo) (m : MovInfo) : MovInfo :=
  mkMov (major_brand_ m) (minor_version_ m) (compatible_brands_ m) (mov_duration_ m) (next_track_id_ m) v.

(** ** Parsers *)

Definition parser (A : Type) : Type := bytes -> MovInfo -> outcome (option (A * bytes * MovInfo)).
#[export] Instance parser_ret : MRet parser := fun A a p m => Done (Some (a, p, m)).
#[export] Instance parser_bind : MBind parser := fun A B f x p m =>
  match x p m with
  | Done (Some (a, p, m)) => f a p m
  | Done None => Done None
  | Fault e => Fault e
  end.

Definition here : parser bytes := fun p m => Done (Some (p, p, m)).
Definition lift {A} (o : outcome A) : parser A := fun p m => a ← o; mret (Some (a, p, m)).
Definition throw {A} : parser A := fun _ _ => Done None.
Definition modify (f : MovInfo -> MovInfo) : parser unit := fun p m => Done (Some (tt, p, f m)).
Definition fault {A} (e : fault) : parser A := fun _ _ => Fault e.

(** [p += n] *)
Definition advance (n : Z) : parser unit := fun p m =>
  if n <=? zlen p then Done (Some (tt, drop (Z.to_nat n) p, m)) else Fault OutOfBounds.

Definition rd_with (read : bytes -> outcome Z) (n : Z) : parser Z := p ← here; v ← lift (read p); _ ← advance n; mret v.
Definition rd1 : parser Z := rd_with (fun p => p.[0]) 1.
Definition rd2 : parser Z := rd_with Read2Bytes 2.
Definition rd3 : parser Z := rd_with Read3Bytes 3.
Definition rd4 : parser Z := rd_with Read4Bytes 4.
Definition rd8 : parser Z := rd_with Read8Bytes 8.
(** A field of 4 bytes, or of 8 in a box whose version is not 0. *)
Definition rd48 (ver : Z) : parser Z := if ver =? 0 then rd4 else rd8.

(** A loop that reads [n] things. *)
Fixpoint times {A} (n : nat) (x : parser A) : parser (list A) :=
  match n with
  | O => mret []
  | S n => a ← x; l ← times n x; mret (a :: l)
  end.

(** [mov.traks_info_[mov.traks_info_.size() - 1]] *)
Definition trak (f : TrakInfo -> TrakInfo) : parser unit := fun p m =>
  match reverse (traks_info_ m) with
  | [] => Fault OutOfBounds
  | t :: before => Done (Some (tt, p, set_traks (reverse before ++ [f t]) m))
  end.
Definition the_trak : parser TrakInfo := fun p m =>
  match reverse (traks_info_ m) with [] => Fault OutOfBounds | t :: _ => Done (Some (t, p, m)) end.

(** ** The header of a box *)

Record BoxHeader := mkBox { box_size_ : Z; type_ : bytes; offset_ : Z }.

(** [DataToString]: the string ends before the first zero. *)
Fixpoint DataToString (data : bytes) : bytes :=
  match data with
  | [] => []
  | c :: data => if c =? 0 then [] else c :: DataToString data
  end.

(** The size, the type and the offset of the content. *)
Definition GetBoxHeaderInfo (p : bytes) : outcome (Z * bytes * Z) :=
  box_size ← Read4Bytes p;
  '(box_size, offset) ← (if box_size =? 1 then s ← Read8Bytes (drop 8 p); mret (s, 16) else mret (box_size, 8));
  t ← read_range p 4 4;
  mret (box_size, DataToString t, offset).
Definition box_type : parser (Z * bytes) := p ← here; '(size, t, _) ← lift (GetBoxHeaderInfo p); mret (size, t).

(** [Mp4BoxBase::Parse] *)
Definition Mp4BoxBase : parser BoxHeader :=
  start ← here;
  size ← lift (Read4Bytes start);
  t ← lift (read_range start 4 4);
  if size =? 1 then size ← lift (Read8Bytes (drop 8 start)); _ ← advance 16; mret (mkBox size (DataToString t) 16)
  else _ ← advance 8; mret (mkBox size (DataToString t) 8).

(** The bytes behind the box, in memory; and [start + box_size_ - p]. *)
Definition behind (start : bytes) (b : BoxHeader) : Z := zlen start - box_size_ b.
Definition left_in (start : bytes) (b : BoxHeader) : parser Z := p ← here; mret (zlen p - behind start b).
(** [return start + box_size_] *)
Definition box_end (start : bytes) (b : BoxHeader) : parser unit := fun _ m => advance (box_size_ b) start m.
(** [assert(p == start + box_size_)] *)
Definition assert_end (start : bytes) (b : BoxHeader) : parser unit := n ← left_in start b; lift (cassert (n =? 0)).

(** What the containers do with a box they do not know. *)
Definition unknown_box : parser BoxHeader := start ← here; b ← Mp4BoxBase; _ ← box_end start b; mret b.

(** The loop of a container: [slack] is what it takes off the end. *)
Fixpoint box_loop {A} (fuel : nat) (start : bytes) (b : BoxHeader) (slack : Z) (item : bytes -> A -> parser A) (acc : A) : parser A :=
  match fuel with
  | O => fault OutOfFuel
  | S fuel =>
      n ← left_in start b;
      if slack <? n then
        '(_, t) ← box_type;
        acc ← item t acc;
        box_loop fuel start b slack item acc
      else mret acc
  end.
(** As many rounds as there are bytes and one more. *)
Definition boxes {A} (start : bytes) (b : BoxHeader) (slack : Z) (item : bytes -> A -> parser A) (acc : A) : parser A :=
  box_loop (S (length start)) start b slack item acc.

(** The rest of the box, as a string or in a vector, whose size must not be negative. *)
Definition rest_of (start : bytes) (b : BoxHeader) : parser bytes :=
  n ← left_in start b;
  if n <? 0 then throw else p ← here; lift (read_range p 0 n).

(** ** The leaves *)

Definition BRANDS_MAX : Z := 8.
Record FtypBox := mkFtyp { ftyp_base : BoxHeader; ftyp_major_ : Z; ftyp_minor_ : Z; ftyp_brands_ : list Z; brands_count_ : Z }.

(** The array of brands has 8 places; their count is not initialised. *)
Fixpoint brands (fuel : nat) (start : bytes) (b : BoxHeader) (acc : list Z) : parser (list Z) :=
  match fuel with
  | O => fault OutOfFuel
  | S fuel =>
      n ← left_in start b;
      if 0 <? n then
        v ← rd_with Read4Bytes 0;
        if BRANDS_MAX <=? zlen acc then fault OutOfBounds
        else _ ← modify (add_brand (Uint32ToString v)); _ ← advance 4; brands fuel start b (acc ++ [v])
      else mret acc
  end.
Definition FtypBox_Parse `{Uninit} : parser FtypBox :=
  start ← here;
  b ← Mp4BoxBase;
  major ← rd4; minor ← rd4;
  _ ← modify (set_brands (Uint32ToString major) minor);
  l ← brands (S (length start)) start b [];
  _ ← assert_end start b;
  _ ← box_end start b;
  mret (mkFtyp b major minor l (u64 (uninit 15 + zlen l))).

Record MvhdBox := mkMvhd {
  mvhd_base : BoxHeader; mvhd_version_flag_ : Z; mvhd_creation_time_ : Z; mvhd_modification_time_ : Z; mvhd_timescale_ : Z;
  mvhd_duration_ : Z; mvhd_rate_ : Z; mvhd_volume_ : Z; mvhd_reserve1_ : Z; mvhd_reserve2_ : list Z; mvhd_matrix_ : list Z;
  mvhd_pre_defined_ : list Z; mvhd_next_track_id_ : Z
}.
Definition MvhdBox_Parse : parser MvhdBox :=
  start ← here;
  b ← Mp4BoxBase;
  version_flag ← rd4; creation ← rd4; modification ← rd4; timescale ← rd4; duration ← rd4;
  let mov_duration :=
    if negb (timescale =? 0) then double_div (double_mul (double_of_int duration) (double_of_int 1000000)) (double_of_int timescale)
    else double_mul (double_of_int duration) (double_of_int 1) in
  rate ← rd4; volume ← rd2; reserve1 ← rd2; reserve2 ← times 2 rd4; matrix ← times 9 rd4; pre_defined ← times 6 rd4;
  next ← rd4;
  _ ← modify (set_mvhd mov_duration next);
  _ ← assert_end start b;
  _ ← box_end start b;
  mret (mkMvhd b version_flag creation modification timescale duration rate volume reserve1 reserve2 matrix pre_defined next).

Record TkhdBox := mkTkhd {
  tkhd_base : BoxHeader; tkhd_version_flag_ : Z; tkhd_creation_time_ : Z; tkhd_modification_time_ : Z; tkhd_track_id_ : Z; tkhd_reserved1_ : Z;
  tkhd_duration_ : Z; tkhd_reserved2_ : list Z; tkhd_layer_ : Z; tkhd_alternate_group_ : Z; tkhd_volume_ : Z; tkhd_reserved3_ : Z;
  tkhd_transform_matrix_ : list Z; tkhd_width_ : Z; tkhd_height_ : Z
}.
Definition version_of (version_flag : Z) : Z := Z.shiftr version_flag 24.
Definition TkhdBox_Parse : parser TkhdBox :=
  start ← here;
  b ← Mp4BoxBase;
  version_flag ← rd4;
  let ver := version_of version_flag in
  creation ← rd48 ver; modification ← rd48 ver;
  track_id ← rd4; _ ← trak (set_track_id track_id);
  reserved1 ← rd4;
  duration ← rd48 ver; _ ← trak (set_duration (double_mul (double_of_int duration) (double_of_int 1)));
  reserved2 ← times 2 rd4; layer ← rd2; group ← rd2; volume ← rd2; reserved3 ← rd2; matrix ← times 9 rd4;
  width ← rd4; _ ← trak (set_width (Z.shiftr width 16));
  height ← rd4; _ ← trak (set_height (Z.shiftr height 16));
  _ ← assert_end start b;
  _ ← box_end start b;
  mret (mkTkhd b version_flag creation modification track_id reserved1 duration reserved2 layer group volume reserved3 matrix width height).

Record MdhdBox := mkMdhd {
  mdhd_base : BoxHeader; mdhd_version_flag_ : Z; mdhd_creation_time_ : Z; mdhd_modification_time_ : Z; mdhd_timescale_ : Z; mdhd_duration_ : Z
}.
Definition MdhdBox_Parse : parser MdhdBox :=
  start ← here;
  b ← Mp4BoxBase;
  version_flag ← rd4;
  let ver := version_of version_flag in
  creation ← rd48 ver; modification ← rd48 ver; timescale ← rd4; duration ← rd48 ver;
  _ ← trak (set_duration (double_div (double_mul (double_of_int duration) (double_of_int 1000000)) (double_of_int timescale)));
  _ ← trak (set_timescale timescale);
  _ ← box_end start b;
  mret (mkMdhd b version_flag creation modification timescale duration).

Record HdlrBox := mkHdlr {
  hdlr_base : BoxHeader; hdlr_version_flag_ : Z; hdlr_pre_defined_ : Z; hdlr_handler_type_ : Z; hdlr_reserved_ : list Z; handler_descr_ : bytes
}.
Definition HdlrBox_Parse : parser HdlrBox :=
  start ← here;
  b ← Mp4BoxBase;
  version_flag ← rd4; pre_defined ← rd4; handler_type ← rd4; reserved ← times 3 rd4;
  descr ← rest_of start b;
  _ ← trak (set_handler_type (Uint32ToString handler_type));
  _ ← box_end start b;
  mret (mkHdlr b version_flag pre_defined handler_type reserved descr).

Record SmhdBox := mkSmhd { smhd_base : BoxHeader; smhd_version_flag_ : Z; balance_ : Z; smhd_reserved_ : Z }.
Definition SmhdBox_Parse : parser SmhdBox :=
  start ← here;
  b ← Mp4BoxBase;
  version_flag ← rd4; balance ← rd2; reserved ← rd2;
  _ ← assert_end start b;
  _ ← box_end start b;
  mret (mkSmhd b version_flag balance reserved).

(** The fields of two bytes are kept in one. *)
Record VmhdBox := mkVmhd { vmhd_base : BoxHeader; vmhd_version_flag_ : Z; graphicsmode_ : Z; opcolor_ : list Z }.
Definition VmhdBox_Parse : parser VmhdBox :=
  start ← here;
  b ← Mp4BoxBase;
  version_flag ← rd4; graphicsmode ← rd2; opcolor ← times 3 rd2;
  _ ← assert_end start b;
  _ ← box_end start b;
  mret (mkVmhd b version_flag (u8 graphicsmode) (map u8 opcolor)).

Record UrlBox := mkUrl { url_base : BoxHeader; url_version_flag_ : Z; location_ : bytes }.
Definition UrlBox_Parse : parser UrlBox :=
  start ← here;
  b ← Mp4BoxBase;
  version_flag ← rd4;
  location ← rest_of start b;
  _ ← box_end start b;
  mret (mkUrl b version_flag location).

Record DrefBox := mkDref { dref_base : BoxHeader; dref_version_flag_ : Z; dref_entry_count_ : Z; urls_box_ : list UrlBox }.
Definition DrefBox_Parse : parser DrefBox :=
  start ← here;
  b ← Mp4BoxBase;
  version_flag ← rd4; entry_count ← rd4;
  urls ← times (Z.to_nat entry_count) UrlBox_Parse;
  _ ← assert_end start b;
  _ ← box_end start b;
  mret (mkDref b version_flag entry_count urls).

Record DinfBox := mkDinf { dinf_base : BoxHeader; dref_ : DrefBox }.
Definition DinfBox_Parse : parser DinfBox :=
  start ← here;
  b ← Mp4BoxBase;
  dref ← DrefBox_Parse;
  _ ← assert_end start b;
  _ ← box_end start b;
  mret (mkDinf b dref).

Record PaspBox := mkPasp { pasp_base : BoxHeader; h_spacing_ : Z; v_spacing_ : Z }.
(** The pointer returned is the one behind the two fields. *)
Definition PaspBox_Parse : parser PaspBox := b ← Mp4BoxBase; h ← rd4; v ← rd4; mret (mkPasp b h v).

Record BtrtBox := mkBtrt { btrt_base : BoxHeader; btrt_buffer_size_ : Z; btrt_max_bit_rate_ : Z; btrt_avg_bit_rate_ : Z }.
Definition BtrtBox_Parse : parser BtrtBox :=
  start ← here;
  b ← Mp4BoxBase;
  size ← rd4; _ ← trak (set_buffer_size size);
  max ← rd4; _ ← trak (set_max_bit_rate max);
  avg ← rd4; _ ← trak (set_avg_bit_rate avg);
  _ ← assert_end start b;
  _ ← box_end start b;
  mret (mkBtrt b size max avg).

(** ** Sample descriptions *)

Definition GetCodecTypeByBoxType (box_type : bytes) : MEDIA_CODEC_TYPE :=
  if bool_decide (box_type = str "avcC") then MEDIA_CODEC_H264
  else if bool_decide (box_type = str "hvcC") || bool_decide (box_type = str "hvc1") then MEDIA_CODEC_H265
  else if bool_decide (box_type = str "vvcC") then MEDIA_CODEC_H266
  else if bool_decide (box_type = str "av1C") then MEDIA_CODEC_AV1
  else if bool_decide (box_type = str "mp4a") then MEDIA_CODEC_AAC
  else if bool_decide (box_type = str "Opus") then MEDIA_CODEC_OPUS
  else MEDIA_CODEC_UNKOWN.

Record VideoSequenceBox := mkSequence { sequence_base : BoxHeader; sequence_box_data_ : bytes }.
Definition VideoSequenceBox_Parse : parser VideoSequenceBox :=
  start ← here;
  b ← Mp4BoxBase;
  _ ← trak (set_codec_type (GetCodecTypeByBoxType (type_ b)));
  data ← rest_of start b;
  _ ← trak (set_sequence_data data);
  _ ← box_end start b;
  mret (mkSequence b data).

(** Every shift is by 7 bits at least, so only the last of the four bytes counts. *)
Definition GetDescLen (p : bytes) : outcome Z :=
  b0 ← p.[0]; b1 ← p.[1]; b2 ← p.[2]; b3 ← p.[3];
  mret (u32 (Z.land (u32 (Z.shiftl b0 21)) 0x7f + Z.land (u32 (Z.shiftl b1 14)) 0x7f + Z.land (u32 (Z.shiftl b2 7)) 0x7f + Z.land b3 0x7f)).

Record EsdsBox := mkEsds {
  esds_base : BoxHeader; esds_version_ : Z; es_descr_tag_ : Z; es_descr_len_ : Z; es_id_ : Z; es_flags_ : Z;
  dependson_es_id_ : Z; url_length_ : Z; url_string_ : Z; ocr_es_id_ : Z;
  dec_conf_descr_tag_ : Z; decoder_specific_info_len_ : Z; object_type_indication_ : Z; streamtype_ : Z; upstream_ : Z;
  esds_buffer_size_ : Z; esds_maxbitrate_ : Z; esds_avg_bit_rate_ : Z; dec_specific_info_tag_ : Z; extra_data_len_ : Z; extra_data_ : bytes
}.
(** No box of the demuxer parses it.  [es_flags_] holds the four fields of the flag byte. *)
Definition EsdsBox_Parse `{Uninit} : parser EsdsBox :=
  start ← here;
  b ← Mp4BoxBase;
  version ← rd4; tag ← rd1;
  len ← rd_with GetDescLen 4;
  es_id ← rd2; flag ← rd1;
  depends ← (if negb (Z.land flag 0x80 =? 0) then rd2 else mret (uninit 16));
  '(url_len, url) ← (if negb (Z.land flag 0x40 =? 0) then l ← rd1; s ← rd1; mret (l, s) else mret (uninit 17, uninit 18));
  ocr ← (if negb (Z.land flag 0x20 =? 0) then rd2 else mret (uninit 19));
  conf_tag ← rd1;
  info_len ← rd_with GetDescLen 4;
  object_type ← rd1; flag2 ← rd1;
  size ← rd3; _ ← trak (set_buffer_size size);
  max ← rd4; _ ← trak (set_max_bit_rate max);
  avg ← rd4; _ ← trak (set_avg_bit_rate avg);
  info_tag ← rd1;
  extra_len ← rd_with GetDescLen 4;
  p ← here;
  extra ← (if 0 <? extra_len then d ← lift (read_range p 0 extra_len); _ ← trak (set_sequence_data d); mret d else mret []);
  n ← left_in start b; _ ← lift (cassert (0 <=? n));
  _ ← box_end start b;
  mret (mkEsds b version tag len es_id flag depends url_len url ocr conf_tag info_len object_type (Z.land (Z.shiftr flag2 2) 0x3f)
    (Z.land (Z.shiftr flag2 1) 0x01) size max avg info_tag extra_len extra).

(** The fields that the descriptions of a picture share. *)
Record StsdAvcInfo := mkAvcInfo {
  avc_reserved1_ : Z; avc_reserved2_ : Z; data_reference_index_ : Z; codec_stream_version_ : Z; codec_stream_reversion_ : Z; avc_reserved3_ : list Z;
  avc_width_ : Z; avc_height_ : Z; avc_horizontal_resolution_ : Z; avc_vertical_resolution_ : Z; data_size_ : Z; frame_count_ : Z;
  compressorname_ : bytes; alpha_ : Z; avc_reserved4_ : Z
}.
Definition StsdAvcInfo_Parse : parser StsdAvcInfo :=
  reserved1 ← rd4; reserved2 ← rd2; reference ← rd2; version ← rd2; reversion ← rd2; reserved3 ← times 3 rd4;
  width ← rd2; _ ← trak (set_width width);
  height ← rd2; _ ← trak (set_height height);
  horizontal ← rd4; _ ← trak (set_horizontal_resolution horizontal);
  vertical ← rd4; _ ← trak (set_vertical_resolution vertical);
  data_size ← rd4; frame_count ← rd2; name ← times 32 rd1; alpha ← rd2; reserved4 ← rd2;
  mret (mkAvcInfo reserved1 reserved2 reference version reversion reserved3 width height horizontal vertical data_size frame_count name alpha reserved4).

Section descriptions.
Context `{Uninit}.

Record LhvCBox := mkLhvC { lhvC_base : BoxHeader; lhvC_spspps_ : LHEVC_DEC_CONF_RECORD }.
Definition LhvCBox_Parse : parser LhvCBox :=
  start ← here;
  b ← Mp4BoxBase;
  n ← left_in start b;
  p ← here;
  '(_, r) ← lift (GetLHevcDecInfoFromExtradata (lhevc_uninit 20) p (i32 n));
  _ ← trak (set_lhevc_dec_conf r);
  _ ← box_end start b;
  mret (mkLhvC b r).

Record HvcCBox := mkHvcC { hvcC_base : BoxHeader; hevc_dec_info_ : HEVC_DEC_CONF_RECORD; hex_data_ : bytes }.
(** The length is a [size_t]. *)
Definition HvcCBox_Parse : parser HvcCBox :=
  start ← here;
  b ← Mp4BoxBase;
  n ← left_in start b;
  if 5 * 1024 <? u64 n then throw
  else
    p ← here;
    '(ret, r) ← lift (GetHevcDecInfoFromExtradata (hevc_uninit 21) p n);
    if ret <? 0 then throw
    else
      _ ← trak (set_codec_type (GetCodecTypeByBoxType (type_ b)));
      data ← lift (read_range p 0 n);
      _ ← trak (set_sequence_data data);
      _ ← box_end start b;
      mret (mkHvcC b r data).

Record StriBox := mkStri {
  stri_base : BoxHeader; stri_version_flag_ : Z; eye_views_reversed_ : bool; has_additional_views_ : bool; has_right_eye_view_ : bool; has_left_eye_view_ : bool
}.
Definition StriBox_Parse : parser StriBox :=
  start ← here;
  b ← Mp4BoxBase;
  version_flag ← rd4;
  value ← rd_with (fun p => p.[0]) 0;
  _ ← box_end start b;
  let bit k := negb (Z.land value k =? 0) in
  mret (mkStri b version_flag (bit 0x08) (bit 0x04) (bit 0x02) (bit 0x01)).

Record EyesBox := mkEyes { eyes_base : BoxHeader; stri_ : option StriBox; eyes_unknown_boxes_ : list BoxHeader }.
Definition eyes_item (t : bytes) (x : EyesBox) : parser EyesBox :=
  if bool_decide (t = str "stri") then s ← StriBox_Parse; mret (mkEyes (eyes_base x) (Some s) (eyes_unknown_boxes_ x))
  else u ← unknown_box; mret (mkEyes (eyes_base x) (stri_ x) (eyes_unknown_boxes_ x ++ [u])).
Definition EyesBox_Parse : parser EyesBox :=
  start ← here;
  b ← Mp4BoxBase;
  x ← boxes start b 6 eyes_item (mkEyes b None []);
  _ ← box_end start b;
  mret x.

Record MustBox := mkMust { must_base : BoxHeader }.
Definition MustBox_Parse : parser MustBox := start ← here; b ← Mp4BoxBase; _ ← box_end start b; mret (mkMust b).

Record VexuBox := mkVexu { vexu_base : BoxHeader; eyes_ : option EyesBox; must_ : option MustBox; vexu_unknown_boxes_ : list BoxHeader }.
Definition vexu_item (t : bytes) (x : VexuBox) : parser VexuBox :=
  if bool_decide (t = str "eyes") then e ← EyesBox_Parse; mret (mkVexu (vexu_base x) (Some e) (must_ x) (vexu_unknown_boxes_ x))
  else if bool_decide (t = str "must") then e ← MustBox_Parse; mret (mkVexu (vexu_base x) (eyes_ x) (Some e) (vexu_unknown_boxes_ x))
  else u ← unknown_box; mret (mkVexu (vexu_base x) (eyes_ x) (must_ x) (vexu_unknown_boxes_ x ++ [u])).
Definition VexuBox_Parse : parser VexuBox :=
  start ← here;
  b ← Mp4BoxBase;
  x ← boxes start b 6 vexu_item (mkVexu b None None []);
  _ ← box_end start b;
  mret x.

Record Hvc1Box := mkHvc1 {
  hvc1_base : BoxHeader; hvc1_info : StsdAvcInfo; hvcC_ : option HvcCBox; lhvC_ : option LhvCBox; vexu_ : option VexuBox; hvc1_unknown_boxes_ : list BoxHeader
}.
Definition hvc1_item (t : bytes) (x : Hvc1Box) : parser Hvc1Box :=
  if bool_decide (t = str "hvcC") then e ← HvcCBox_Parse; mret (mkHvc1 (hvc1_base x) (hvc1_info x) (Some e) (lhvC_ x) (vexu_ x) (hvc1_unknown_boxes_ x))
  else if bool_decide (t = str "lhvC") then e ← LhvCBox_Parse; mret (mkHvc1 (hvc1_base x) (hvc1_info x) (hvcC_ x) (Some e) (vexu_ x) (hvc1_unknown_boxes_ x))
  else if bool_decide (t = str "vexu") then e ← VexuBox_Parse; mret (mkHvc1 (hvc1_base x) (hvc1_info x) (hvcC_ x) (lhvC_ x) (Some e) (hvc1_unknown_boxes_ x))
  else u ← unknown_box; mret (mkHvc1 (hvc1_base x) (hvc1_info x) (hvcC_ x) (lhvC_ x) (vexu_ x) (hvc1_unknown_boxes_ x ++ [u])).
Definition Hvc1Box_Parse : parser Hvc1Box :=
  start ← here;
  b ← Mp4BoxBase;
  info ← StsdAvcInfo_Parse;
  x ← boxes start b 6 hvc1_item (mkHvc1 b info None None None []);
  _ ← box_end start b;
  mret x.

Record Avc1Box := mkAvc1 {
  avc1_base : BoxHeader; avc1_info : StsdAvcInfo; video_hdr_box_ : VideoSequenceBox; pasp_box_ : option PaspBox; avc1_unknown_boxes_ : list BoxHeader
}.
Definition avc1_item (t : bytes) (x : Avc1Box) : parser Avc1Box :=
  if bool_decide (t = str "pasp") then e ← PaspBox_Parse; mret (mkAvc1 (avc1_base x) (avc1_info x) (video_hdr_box_ x) (Some e) (avc1_unknown_boxes_ x))
  else u ← unknown_box; mret (mkAvc1 (avc1_base x) (avc1_info x) (video_hdr_box_ x) (pasp_box_ x) (avc1_unknown_boxes_ x ++ [u])).
(** Where the function returns before its loop, the loop does nothing. *)
Definition Avc1Box_Parse : parser Avc1Box :=
  start ← here;
  b ← Mp4BoxBase;
  info ← StsdAvcInfo_Parse;
  hdr ← VideoSequenceBox_Parse;
  x ← boxes start b 0 avc1_item (mkAvc1 b info hdr None []);
  _ ← assert_end start b;
  _ ← box_end start b;
  mret x.

Record Mp4aBox := mkMp4a {
  mp4a_base : BoxHeader; mp4a_reserved1_ : Z; mp4a_reserved2_ : Z; data_ref_index_ : Z; mp4a_version_ : Z; revision_level_ : Z; mp4a_reserved3_ : Z;
  mp4a_channelcount_ : Z; mp4a_samplesize_ : Z; mp4a_pre_defined_ : Z; mp4a_reserved4_ : Z; mp4a_samplerate_ : Z
}.
(** The boxes behind the fields are kept as they are for the sequence data. *)
Definition Mp4aBox_Parse : parser Mp4aBox :=
  start ← here;
  b ← Mp4BoxBase;
  reserved1 ← rd4; reserved2 ← rd2; reference ← rd2; version ← rd2; revision ← rd2; reserved3 ← rd4;
  channels ← rd2; _ ← trak (set_channelcount channels);
  samplesize ← rd2; _ ← trak (set_samplesize samplesize);
  pre_defined ← rd2; reserved4 ← rd2;
  rate ← rd4; _ ← trak (set_samplerate (Z.shiftr rate 16));
  n ← left_in start b; _ ← lift (cassert (0 <? n));
  p ← here; data ← (if i32 n <? 0 then throw else lift (read_range p 0 (i32 n)));
  _ ← trak (set_sequence_data data);
  _ ← box_end start b;
  mret (mkMp4a b reserved1 reserved2 reference version revision reserved3 channels samplesize pre_defined reserved4 (Z.shiftr rate 16)).

Record StsdBox := mkStsd {
  stsd_base : BoxHeader; stsd_version_flag_ : Z; stsd_entry_count_ : Z; box_type_vec_ : list bytes;
  avc1_box_ : option Avc1Box; hvc1_box_ : option Hvc1Box; mp4a_box_ : option Mp4aBox; stsd_unknown_boxes_ : list BoxHeader
}.
Definition stsd_unknown (x : StsdBox) : parser StsdBox :=
  u ← unknown_box;
  mret (mkStsd (stsd_base x) (stsd_version_flag_ x) (stsd_entry_count_ x) (box_type_vec_ x) (avc1_box_ x) (hvc1_box_ x) (mp4a_box_ x) (stsd_unknown_boxes_ x ++ [u])).
Definition stsd_item (t : bytes) (x : StsdBox) : parser StsdBox :=
  let x := mkStsd (stsd_base x) (stsd_version_flag_ x) (stsd_entry_count_ x) (box_type_vec_ x ++ [t]) (avc1_box_ x) (hvc1_box_ x) (mp4a_box_ x) (stsd_unknown_boxes_ x) in
  info ← the_trak;
  if bool_decide (handler_type_ info = str "vide") then
    if bool_decide (t = str "avc1") then
      e ← Avc1Box_Parse;
      mret (mkStsd (stsd_base x) (stsd_version_flag_ x) (stsd_entry_count_ x) (box_type_vec_ x) (Some e) (hvc1_box_ x) (mp4a_box_ x) (stsd_unknown_boxes_ x))
    else if bool_decide (t = str "hvc1") then
      e ← Hvc1Box_Parse;
      mret (mkStsd (stsd_base x) (stsd_version_flag_ x) (stsd_entry_count_ x) (box_type_vec_ x) (avc1_box_ x) (Some e) (mp4a_box_ x) (stsd_unknown_boxes_ x))
    else stsd_unknown x
  else if bool_decide (handler_type_ info = str "soun") then
    _ ← trak (set_codec_type (GetCodecTypeByBoxType t));
    if bool_decide (t = str "mp4a") then
      e ← Mp4aBox_Parse;
      mret (mkStsd (stsd_base x) (stsd_version_flag_ x) (stsd_entry_count_ x) (box_type_vec_ x) (avc1_box_ x) (hvc1_box_ x) (Some e) (stsd_unknown_boxes_ x))
    else stsd_unknown x
  else stsd_unknown x.
Fixpoint stsd_entries (n : nat) (start : bytes) (b : BoxHeader) (x : StsdBox) : parser StsdBox :=
  match n with
  | O => mret x
  | S n =>
      '(size, t) ← box_type;
      _ ← lift (cassert (size <? box_size_ b));
      x ← stsd_item t x;
      k ← left_in start b; _ ← lift (cassert (0 <=? k));
      stsd_entries n start b x
  end.
Definition StsdBox_Parse : parser StsdBox :=
  start ← here;
  b ← Mp4BoxBase;
  version_flag ← rd4; entry_count ← rd4;
  x ← stsd_entries (Z.to_nat entry_count) start b (mkStsd b version_flag entry_count [] None None None []);
  _ ← assert_end start b;
  _ ← box_end start b;
  mret x.

(** ** The tables of samples *)

Record SttsBox := mkStts { stts_base : BoxHeader; stts_version_flag_ : Z; stts_entry_count_ : Z; stts_sample_entries_ : list SampleEntry }.
Definition within (start : bytes) (b : BoxHeader) : parser unit := n ← left_in start b; lift (cassert (0 <=? n)).
Definition SttsBox_Parse : parser SttsBox :=
  start ← here;
  b ← Mp4BoxBase;
  version_flag ← rd4; entry_count ← rd4;
  l ← times (Z.to_nat entry_count)
        (count ← rd4; delta ← rd4;
         _ ← trak (fun t => set_sample_entries (sample_entries_ t ++ [mkSampleEntry count delta]) t);
         _ ← within start b;
         mret (mkSampleEntry count delta));
  _ ← assert_end start b;
  _ ← box_end start b;
  mret (mkStts b version_flag entry_count l).

Record StssBox := mkStss { stss_base : BoxHeader; stss_version_flag_ : Z; stss_entry_count_ : Z; stss_iframe_sample_vec_ : list Z }.
Definition StssBox_Parse : parser StssBox :=
  start ← here;
  b ← Mp4BoxBase;
  version_flag ← rd4; entry_count ← rd4;
  l ← times (Z.to_nat entry_count) (v ← rd4; _ ← trak (fun t => set_iframe_sample_vec (iframe_sample_vec_ t ++ [v]) t); mret v);
  _ ← box_end start b;
  mret (mkStss b version_flag entry_count l).

Record CttsBox := mkCtts { ctts_base : BoxHeader; ctts_version_flag_ : Z; ctts_entry_count_ : Z; ctts_sample_offset_vec_ : list SampleOffset }.
Definition CttsBox_Parse : parser CttsBox :=
  start ← here;
  b ← Mp4BoxBase;
  version_flag ← rd4; entry_count ← rd4;
  l ← times (Z.to_nat entry_count)
        (counts ← rd4; offsets ← rd4;
         _ ← trak (fun t => set_sample_offset_vec (sample_offset_vec_ t ++ [mkSampleOffset counts offsets]) t);
         _ ← within start b;
         mret (mkSampleOffset counts offsets));
  _ ← box_end start b;
  mret (mkCtts b version_flag entry_count l).

Record StscBox := mkStsc { stsc_base : BoxHeader; stsc_version_flag_ : Z; stsc_entry_count_ : Z; stsc_chunk_sample_vec_ : list ChunkSample }.
(** The loop stops at the end of the box. *)
Fixpoint stsc_entries (n : nat) (start : bytes) (b : BoxHeader) : parser (list ChunkSample) :=
  match n with
  | O => mret []
  | S n =>
      k ← left_in start b;
      if k <=? 0 then mret []
      else
        first ← rd4; per_chunk ← rd4; index ← rd4;
        let cs := mkChunkSample first per_chunk index in
        _ ← trak (fun t => set_chunk_sample_vec (chunk_sample_vec_ t ++ [cs]) t);
        l ← stsc_entries n start b;
        mret (cs :: l)
  end.
Definition StscBox_Parse : parser StscBox :=
  start ← here;
  b ← Mp4BoxBase;
  version_flag ← rd4; entry_count ← rd4;
  l ← stsc_entries (Z.to_nat entry_count) start b;
  _ ← assert_end start b;
  _ ← box_end start b;
  mret (mkStsc b version_flag entry_count l).

Record StszBox := mkStsz { stsz_base : BoxHeader; stsz_version_flag_ : Z; constant_size_ : Z; stsz_sample_count_ : Z; stsz_sample_sizes_vec_ : list Z }.
(** Of samples that all have one size only this size is kept, in the box. *)
Definition StszBox_Parse : parser StszBox :=
  start ← here;
  b ← Mp4BoxBase;
  version_flag ← rd4; constant_size ← rd4; sample_count ← rd4;
  l ← (if constant_size =? 0 then l ← times (Z.to_nat sample_count) rd4; _ ← trak (set_sample_sizes_vec l); mret l else mret []);
  _ ← assert_end start b;
  _ ← box_end start b;
  mret (mkStsz b version_flag constant_size sample_count l).

Record StcoBox := mkStco { stco_base : BoxHeader; stco_version_flag_ : Z; stco_entry_count_ : Z; stco_chunk_offsets_vec_ : list Z }.
Definition StcoBox_Parse : parser StcoBox :=
  start ← here;
  b ← Mp4BoxBase;
  version_flag ← rd4; entry_count ← rd4;
  l ← times (Z.to_nat entry_count) rd4;
  _ ← trak (set_chunk_offsets_vec l);
  _ ← assert_end start b;
  _ ← box_end start b;
  mret (mkStco b version_flag entry_count l).

(** ** The containers *)

Record StblBox := mkStbl {
  stbl_base : BoxHeader; stsd_ : option StsdBox; stts_ : option SttsBox; ctts_ : option CttsBox; stss_ : option StssBox; stsc_ : option StscBox;
  stsz_ : option StszBox; stco_ : option StcoBox; stbl_unknown_boxes_ : list BoxHeader
}.
Definition stbl_item (t : bytes) (x : StblBox) : parser StblBox :=
  let put d s c i n z o u := mret (mkStbl (stbl_base x) d s c i n z o u) in
  if bool_decide (t = str "stsd") then e ← StsdBox_Parse; put (Some e) (stts_ x) (ctts_ x) (stss_ x) (stsc_ x) (stsz_ x) (stco_ x) (stbl_unknown_boxes_ x)
  else if bool_decide (t = str "stts") then e ← SttsBox_Parse; put (stsd_ x) (Some e) (ctts_ x) (stss_ x) (stsc_ x) (stsz_ x) (stco_ x) (stbl_unknown_boxes_ x)
  else if bool_decide (t = str "ctts") then e ← CttsBox_Parse; put (stsd_ x) (stts_ x) (Some e) (stss_ x) (stsc_ x) (stsz_ x) (stco_ x) (stbl_unknown_boxes_ x)
  else if bool_decide (t = str "stss") then e ← StssBox_Parse; put (stsd_ x) (stts_ x) (ctts_ x) (Some e) (stsc_ x) (stsz_ x) (stco_ x) (stbl_unknown_boxes_ x)
  else if bool_decide (t = str "stsc") then e ← StscBox_Parse; put (stsd_ x) (stts_ x) (ctts_ x) (stss_ x) (Some e) (stsz_ x) (stco_ x) (stbl_unknown_boxes_ x)
  else if bool_decide (t = str "stsz") then e ← StszBox_Parse; put (stsd_ x) (stts_ x) (ctts_ x) (stss_ x) (stsc_ x) (Some e) (stco_ x) (stbl_unknown_boxes_ x)
  else if bool_decide (t = str "stco") then e ← StcoBox_Parse; put (stsd_ x) (stts_ x) (ctts_ x) (stss_ x) (stsc_ x) (stsz_ x) (Some e) (stbl_unknown_boxes_ x)
  else u ← unknown_box; put (stsd_ x) (stts_ x) (ctts_ x) (stss_ x) (stsc_ x) (stsz_ x) (stco_ x) (stbl_unknown_boxes_ x ++ [u]).
Definition StblBox_Parse : parser StblBox :=
  start ← here;
  b ← Mp4BoxBase;
  x ← boxes start b 0 stbl_item (mkStbl b None None None None None None None []);
  _ ← assert_end start b;
  _ ← box_end start b;
  mret x.

Record MinfBox := mkMinf {
  minf_base : BoxHeader; smhd_ : option SmhdBox; vmhd_ : option VmhdBox; dinf_ : option DinfBox; stbl_ : option StblBox; minf_unknown_boxes_ : list BoxHeader
}.
Definition minf_item (t : bytes) (x : MinfBox) : parser MinfBox :=
  let put s v d st u := mret (mkMinf (minf_base x) s v d st u) in
  if bool_decide (t = str "smhd") then e ← SmhdBox_Parse; put (Some e) (vmhd_ x) (dinf_ x) (stbl_ x) (minf_unknown_boxes_ x)
  else if bool_decide (t = str "vmhd") then e ← VmhdBox_Parse; put (smhd_ x) (Some e) (dinf_ x) (stbl_ x) (minf_unknown_boxes_ x)
  else if bool_decide (t = str "dinf") then e ← DinfBox_Parse; put (smhd_ x) (vmhd_ x) (Some e) (stbl_ x) (minf_unknown_boxes_ x)
  else if bool_decide (t = str "stbl") then e ← StblBox_Parse; put (smhd_ x) (vmhd_ x) (dinf_ x) (Some e) (minf_unknown_boxes_ x)
  else u ← unknown_box; put (smhd_ x) (vmhd_ x) (dinf_ x) (stbl_ x) (minf_unknown_boxes_ x ++ [u]).
Definition MinfBox_Parse : parser MinfBox :=
  start ← here;
  b ← Mp4BoxBase;
  x ← boxes start b 6 minf_item (mkMinf b None None None None []);
  _ ← assert_end start b;
  _ ← box_end start b;
  mret x.

Record MdiaBox := mkMdia { mdia_base : BoxHeader; mdhd_ : option MdhdBox; hdlr_ : option HdlrBox; minf_ : option MinfBox; mdia_unknown_boxes_ : list BoxHeader }.
Definition mdia_item (t : bytes) (x : MdiaBox) : parser MdiaBox :=
  let put d h m u := mret (mkMdia (mdia_base x) d h m u) in
  if bool_decide (t = str "mdhd") then e ← MdhdBox_Parse; put (Some e) (hdlr_ x) (minf_ x) (mdia_unknown_boxes_ x)
  else if bool_decide (t = str "hdlr") then e ← HdlrBox_Parse; put (mdhd_ x) (Some e) (minf_ x) (mdia_unknown_boxes_ x)
  else if bool_decide (t = str "minf") then e ← MinfBox_Parse; put (mdhd_ x) (hdlr_ x) (Some e) (mdia_unknown_boxes_ x)
  else u ← unknown_box; put (mdhd_ x) (hdlr_ x) (minf_ x) (mdia_unknown_boxes_ x ++ [u]).
Definition MdiaBox_Parse : parser MdiaBox :=
  start ← here;
  b ← Mp4BoxBase;
  x ← boxes start b 6 mdia_item (mkMdia b None None None []);
  _ ← assert_end start b;
  _ ← box_end start b;
  mret x.

Record ElstInfo := mkElstInfo { segment_duration_ : Z; media_time_ : Z; media_rate_integer_ : Z; media_rate_fraction_ : Z }.
Record ElstBox := mkElst { elst_base : BoxHeader; elst_version_flag_ : Z; elst_entry_count_ : Z; elst_list_ : list ElstInfo }.
Definition ElstBox_Parse : parser ElstBox :=
  start ← here;
  b ← Mp4BoxBase;
  version_flag ← rd4; entry_count ← rd4;
  let ver := version_of version_flag in
  l ← times (Z.to_nat entry_count) (d ← rd48 ver; t ← rd48 ver; i ← rd2; f ← rd2; mret (mkElstInfo d t i f));
  _ ← assert_end start b;
  _ ← box_end start b;
  mret (mkElst b version_flag entry_count l).

Record EdtsBox := mkEdts { edts_base : BoxHeader; elst_ : ElstBox }.
Definition EdtsBox_Parse : parser EdtsBox :=
  start ← here;
  b ← Mp4BoxBase;
  elst ← ElstBox_Parse;
  _ ← assert_end start b;
  _ ← box_end start b;
  mret (mkEdts b elst).

Record MetaBox := mkMeta { meta_base : BoxHeader; meta_version_flag_ : Z; meta_data_ : bytes }.
Definition MetaBox_Parse : parser MetaBox :=
  start ← here;
  b ← Mp4BoxBase;
  version_flag ← rd4;
  data ← rest_of start b;
  _ ← box_end start b;
  mret (mkMeta b version_flag data).

Record UdtaBox := mkUdta { udta_base : BoxHeader; meta_ : option MetaBox }.
Definition UdtaBox_Parse : parser UdtaBox :=
  start ← here;
  b ← Mp4BoxBase;
  n ← left_in start b;
  meta ← (if 0 <? n then e ← MetaBox_Parse; mret (Some e) else mret None);
  _ ← assert_end start b;
  _ ← box_end start b;
  mret (mkUdta b meta).

Record TrakBox := mkTrakBox { trak_base : BoxHeader; tkhd_ : option TkhdBox; edts_ : option EdtsBox; mdia_ : option MdiaBox; trak_unknown_boxes_ : list BoxHeader }.
Definition trak_item (t : bytes) (x : TrakBox) : parser TrakBox :=
  let put k d m u := mret (mkTrakBox (trak_base x) k d m u) in
  if bool_decide (t = str "tkhd") then e ← TkhdBox_Parse; put (Some e) (edts_ x) (mdia_ x) (trak_unknown_boxes_ x)
  else if bool_decide (t = str "edts") then e ← EdtsBox_Parse; put (tkhd_ x) (Some e) (mdia_ x) (trak_unknown_boxes_ x)
  else if bool_decide (t = str "mdia") then e ← MdiaBox_Parse; put (tkhd_ x) (edts_ x) (Some e) (trak_unknown_boxes_ x)
  else u ← unknown_box; put (tkhd_ x) (edts_ x) (mdia_ x) (trak_unknown_boxes_ x ++ [u]).
Definition TrakBox_Parse : parser TrakBox :=
  start ← here;
  b ← Mp4BoxBase;
  x ← boxes start b 0 trak_item (mkTrakBox b None None None []);
  _ ← box_end start b;
  mret x.

Record MoovBox := mkMoov { moov_base : BoxHeader; mvhd_ : option MvhdBox; traks_ : list TrakBox; udta_ : option UdtaBox; moov_unknown_boxes_ : list BoxHeader }.
Definition moov_item (t : bytes) (x : MoovBox) : parser MoovBox :=
  let put v k d u := mret (mkMoov (moov_base x) v k d u) in
  if bool_decide (t = str "mvhd") then e ← MvhdBox_Parse; put (Some e) (traks_ x) (udta_ x) (moov_unknown_boxes_ x)
  else if bool_decide (t = str "trak") then
    _ ← modify (fun m => set_traks (traks_info_ m ++ [TrakInfo_new]) m);
    e ← TrakBox_Parse;
    put (mvhd_ x) (traks_ x ++ [e]) (udta_ x) (moov_unknown_boxes_ x)
  else if bool_decide (t = str "udta") then e ← UdtaBox_Parse; put (mvhd_ x) (traks_ x) (Some e) (moov_unknown_boxes_ x)
  else u ← unknown_box; put (mvhd_ x) (traks_ x) (udta_ x) (moov_unknown_boxes_ x ++ [u]).
Definition MoovBox_Parse : parser MoovBox :=
  start ← here;
  b ← Mp4BoxBase;
  x ← boxes start b 0 moov_item (mkMoov b None [] None []);
  _ ← box_end start b;
  mret x.

Record MdatBox := mkMdat { mdat_base : BoxHeader }.
Definition MdatBox_Parse : parser MdatBox := start ← here; b ← Mp4BoxBase; _ ← box_end start b; mret (mkMdat b).

(** [FreeBox] has the [Parse] of the base class, whose pointer is behind the header only. *)
Record FreeBox := mkFree { free_base : BoxHeader }.
Definition FreeBox_Parse : parser FreeBox := b ← Mp4BoxBase; mret (mkFree b).
End descriptions.
