(* ===== verification/Mp4Demux.v ===== *)
(** * [Mp4Demux]: the MP4 demuxer

    Models [src/format/mp4/mp4_demux.cpp].  A reader of a file is a function from an
    offset and a length to the value returned and the bytes put in the buffer.  The
    packets and boxes given to the sinks are a log.  The buffer of the demuxer is the
    queue of its bytes; reading behind them is outside the data.  [None] is an
    exception that leaves the function.  The pacing option [re] waits only. *)
From S2P Require Import Prelude ByteStream DataBuffer Media H264 RtcTime Mp4Box.

Definition may_throw (A : Type) : Type := outcome (option A).
#[export] Instance may_throw_ret : MRet may_throw := fun A a => Done (Some a).
#[export] Instance may_throw_bind : MBind may_throw := fun A B f x =>
  match x with Done (Some a) => f a | Done None => Done None | Fault e => Fault e end.
Definition ok {A} (o : outcome A) : may_throw A := a ← o; Done (Some a).
Definition throws {A} : may_throw A := Done None.

Record MovItem := mkItem {
  it_av_type_ : MEDIA_PKT_TYPE; it_codec_type_ : MEDIA_CODEC_TYPE; it_offset : Z; it_len : Z; it_dts : Z; it_pts : Z; it_timescale_ : Z; it_is_keyframe_ : bool
}.
Definition set_times (dts pts : Z) (i : MovItem) : MovItem :=
  mkItem (it_av_type_ i) (it_codec_type_ i) (it_offset i) (it_len i) dts pts (it_timescale_ i) (it_is_keyframe_ i).

(** [std::multimap]: sorted by the key, equal keys in the order of insertion. *)
Fixpoint multi_insert {A} (k : Z) (v : A) (l : list (Z * A)) : list (Z * A) :=
  match l with
  | [] => [(k, v)]
  | (k', v') :: l' => if k <? k' then (k, v) :: l else (k', v') :: multi_insert k v l'
  end.

Abbreviation io_reader := (Z -> Z -> Z * bytes).

Inductive mp4_box := IsFtyp (b : FtypBox) | IsMoov (b : MoovBox) | IsFree (b : FreeBox) | IsMdat (b : MdatBox) | IsUnknown (b : BoxHeader).
Inductive mp4_event := OutPacket (p : Media_Packet) | OutBox (t : bytes) (b : mp4_box).

Record Mp4Demuxer := mkMp4 {
  options_ : gmap bytes bytes;
  m_buffer_ : bytes;
  mov_ : MovInfo;
  ftyp_box_ : option FtypBox;
  moov_box_ : option MoovBox;
  free_box_ : option FreeBox;
  mdat_box_ : option MdatBox;
  unknown_boxes_ : list BoxHeader;
  sample_items_ : list (Z * MovItem);
  io_reader_ : option io_reader;
  m_log : list mp4_event
}.
Definition def_options_ : gmap bytes bytes := <[str "re" := str "false"]> (<[str "box_detail" := str "false"]> ∅).
Definition Mp4Demuxer_new `{Uninit} : Mp4Demuxer := mkMp4 def_options_ [] MovInfo_new None None None None [] [] None [].

Definition m_set_buffer (v : bytes) (d : Mp4Demuxer) : Mp4Demuxer :=
  mkMp4 (options_ d) v (mov_ d) (ftyp_box_ d) (moov_box_ d) (free_box_ d) (mdat_box_ d) (unknown_boxes_ d) (sample_items_ d) (io_reader_ d) (m_log d).
Definition m_set_mov (v : MovInfo) (d : Mp4Demuxer) : Mp4Demuxer :=
  mkMp4 (options_ d) (m_buffer_ d) v (ftyp_box_ d) (moov_box_ d) (free_box_ d) (mdat_box_ d) (unknown_boxes_ d) (sample_items_ d) (io_reader_ d) (m_log d).
(** A box is kept in its member, or with the boxes that are not known. *)
Definition m_set_box (b : mp4_box) (d : Mp4Demuxer) : Mp4Demuxer :=
  let mk f m r a u := mkMp4 (options_ d) (m_buffer_ d) (mov_ d) f m r a u (sample_items_ d) (io_reader_ d) (m_log d) in
  match b with
  | IsFtyp x => mk (Some x) (moov_box_ d) (free_box_ d) (mdat_box_ d) (unknown_boxes_ d)
  | IsMoov x => mk (ftyp_box_ d) (Some x) (free_box_ d) (mdat_box_ d) (unknown_boxes_ d)
  | IsFree x => mk (ftyp_box_ d) (moov_box_ d) (Some x) (mdat_box_ d) (unknown_boxes_ d)
  | IsMdat x => mk (ftyp_box_ d) (moov_box_ d) (free_box_ d) (Some x) (unknown_boxes_ d)
  | IsUnknown x => mk (ftyp_box_ d) (moov_box_ d) (free_box_ d) (mdat_box_ d) (unknown_boxes_ d ++ [x])
  end.
Definition m_set_items (v : list (Z * MovItem)) (d : Mp4Demuxer) : Mp4Demuxer :=
  mkMp4 (options_ d) (m_buffer_ d) (mov_ d) (ftyp_box_ d) (moov_box_ d) (free_box_ d) (mdat_box_ d) (unknown_boxes_ d) v (io_reader_ d) (m_log d).
Definition m_set_reader (v : io_reader) (d : Mp4Demuxer) : Mp4Demuxer :=
  mkMp4 (options_ d) (m_buffer_ d) (mov_ d) (ftyp_box_ d) (moov_box_ d) (free_box_ d) (mdat_box_ d) (unknown_boxes_ d) (sample_items_ d) (Some v) (m_log d).
Definition Output (e : mp4_event) (d : Mp4Demuxer) : Mp4Demuxer :=
  mkMp4 (options_ d) (m_buffer_ d) (mov_ d) (ftyp_box_ d) (moov_box_ d) (free_box_ d) (mdat_box_ d) (unknown_boxes_ d) (sample_items_ d) (io_reader_ d) (m_log d ++ [e]).

Definition AddOption (key value : bytes) (d : Mp4Demuxer) : option Mp4Demuxer :=
  match options_ d !! key with
  | None => None
  | Some _ => Some (mkMp4 (<[key := value]> (options_ d)) (m_buffer_ d) (mov_ d) (ftyp_box_ d) (moov_box_ d) (free_box_ d) (mdat_box_ d) (unknown_boxes_ d) (sample_items_ d) (io_reader_ d) (m_log d))
  end.

(** ** Samples *)

Fixpoint duration_loop (entries : list SampleEntry) (sample_count sample_index : Z) : Z :=
  match entries with
  | [] => 0
  | e :: entries =>
      let next := u32 (sample_count + sample_count_ e) in
      if (sample_count <=? sample_index) && (sample_index <? next) then samples_delta_ e
      else duration_loop entries next sample_index
  end.
Definition getDurationBySampleIndex (sample_index : Z) (t : TrakInfo) : Z := duration_loop (sample_entries_ t) 0 sample_index.

Fixpoint offset_loop (l : list SampleOffset) (sample_count sample_index : Z) : Z :=
  match l with
  | [] => 0
  | o :: l =>
      let sample_count := u32 (sample_count + sample_counts_ o) in
      if sample_count =? sample_index then sample_offsets_ o else offset_loop l sample_count sample_index
  end.
Definition getPtsBySampleIndex (sample_index dts : Z) (t : TrakInfo) : outcome Z :=
  chk_int64 (dts + offset_loop (sample_offset_vec_ t) 0 sample_index).

Definition isKeyframe (sample_index : Z) (t : TrakInfo) : bool := existsb (Z.eqb sample_index) (iframe_sample_vec_ t).

(** A time in the units of the track, in microseconds. *)
Definition to_us (time timescale : Z) : outcome Z :=
  if 0 <? timescale then v ← chk_int64 (time * 1000000); mret (Z.quot v timescale) else mret time.

Definition the_av_type (t : TrakInfo) : option MEDIA_PKT_TYPE :=
  if bool_decide (handler_type_ t = str "soun") then Some MEDIA_AUDIO_TYPE
  else if bool_decide (handler_type_ t = str "vide") then Some MEDIA_VIDEO_TYPE else None.

(** The text for the log is not modelled, its arithmetic is. *)
Definition MovItemDump (i : MovItem) : outcome unit :=
  if 0 <? it_timescale_ i then _ ← chk_int64 (it_dts i * 1000); _ ← chk_int64 (it_pts i * 1000); mret tt else mret tt.

(** One sample: the item, and the size and duration that move on to the next. *)
Definition sample_item (av_type : MEDIA_PKT_TYPE) (sample_offset sample_index dts : Z) (t : TrakInfo) : outcome (MovItem * Z * Z) :=
  match sample_sizes_vec_ t !! Z.to_nat (u32 (sample_index - 1)) with
  | None => Fault OutOfBounds
  | Some sample_size =>
      let duration := getDurationBySampleIndex sample_index t in
      pts ← getPtsBySampleIndex sample_index dts t;
      d ← to_us dts (timescale_ t);
      p ← to_us pts (timescale_ t);
      let item := mkItem av_type (Mp4Box.codec_type_ t) sample_offset sample_size d p 1000000 (isKeyframe sample_index t) in
      _ ← MovItemDump item;
      mret (item, sample_size, duration)
  end.

(** The loop over the samples of a chunk: the items and the time of the next sample. *)
Fixpoint chunk_samples (n : nat) (av_type : MEDIA_PKT_TYPE) (sample_offset sample_index dts : Z) (t : TrakInfo) (items : list (Z * MovItem))
  : outcome (list (Z * MovItem) * Z) :=
  match n with
  | O => mret (items, dts)
  | S n =>
      '(item, size, duration) ← sample_item av_type sample_offset sample_index dts t;
      dts ← chk_int64 (dts + duration);
      chunk_samples n av_type (u64 (sample_offset + size)) (u32 (sample_index + 1)) dts t (multi_insert (it_dts item) item items)
  end.
Definition getSampleInfoInChunk (chunk_offset sample_per_chunk start_sample_index dts : Z) (t : TrakInfo) (items : list (Z * MovItem))
  : outcome (list (Z * MovItem) * Z) :=
  match the_av_type t with
  | None => mret (items, dts)
  | Some av_type => chunk_samples (Z.to_nat sample_per_chunk) av_type chunk_offset start_sample_index dts t items
  end.

(** The inner loop: every range of chunks that the chunk is in; the last one has no end. *)
Fixpoint chunk_entries (l : list ChunkSample) (chunk_offset chunk_index sample_index dts : Z) (t : TrakInfo) (items : list (Z * MovItem))
  : outcome (list (Z * MovItem) * Z * Z) :=
  match l with
  | [] => mret (items, sample_index, dts)
  | e :: l =>
      let found := (first_chunk_ e <=? chunk_index) && match l with [] => true | next :: _ => chunk_index <? first_chunk_ next end in
      if found then
        '(items, dts) ← getSampleInfoInChunk chunk_offset (samples_per_chunk_ e) sample_index dts t items;
        chunk_entries l chunk_offset chunk_index (u32 (sample_index + samples_per_chunk_ e)) dts t items
      else chunk_entries l chunk_offset chunk_index sample_index dts t items
  end.
Fixpoint trak_chunks (chunk_offsets : list Z) (chunk_index sample_index dts : Z) (t : TrakInfo) (items : list (Z * MovItem))
  : outcome (list (Z * MovItem)) :=
  match chunk_offsets with
  | [] => mret items
  | chunk_offset :: chunk_offsets =>
      '(items, sample_index, dts) ← chunk_entries (chunk_sample_vec_ t) chunk_offset chunk_index sample_index dts t items;
      trak_chunks chunk_offsets (chunk_index + 1) sample_index dts t items
  end.
Definition trak_items (t : TrakInfo) (items : list (Z * MovItem)) : outcome (list (Z * MovItem)) :=
  trak_chunks (chunk_offsets_vec_ t) 1 1 0 t items.
Fixpoint traks_items (l : list TrakInfo) (items : list (Z * MovItem)) : outcome (list (Z * MovItem)) :=
  match l with [] => mret items | t :: l => items ← trak_items t items; traks_items l items end.

(** ** [adjustAllDts] *)

(** The duration of the first samples of the tracks of a kind: the last such track counts. *)
Fixpoint first_duration (handler : bytes) (l : list TrakInfo) (acc : Z) : Z :=
  match l with
  | [] => acc
  | t :: l =>
      first_duration handler l
        (if bool_decide (handler_type_ t = handler) then
           match sample_entries_ t with
           | e :: _ => if 0 <? timescale_ t then u32 (samples_delta_ e * 1000000) / timescale_ t else acc
           | [] => acc
           end
         else acc)
  end.

(** [x += duration] with a [double] duration. *)
Definition add_duration (x duration : Z) : outcome Z := int64_of (double_add (double_of_int x) (double_of_int duration)).

(** The loop that looks for the first times: [v_dts], [a_dts] and [update_video]. *)
Fixpoint find_times (items : list (Z * MovItem)) (v_duration a_duration v_dts a_dts : Z) : outcome (Z * Z * bool) :=
  match items with
  | [] => mret (v_dts, a_dts, false)
  | (_, i) :: items =>
      if decide (it_av_type_ i = MEDIA_AUDIO_TYPE) then
        if (0 <? v_dts) && (a_dts <=? 0) then a_dts ← add_duration v_dts a_duration; mret (v_dts, a_dts, false)
        else find_times items v_duration a_duration v_dts (it_dts i)
      else if decide (it_av_type_ i = MEDIA_VIDEO_TYPE) then
        if (0 <? a_dts) && (v_dts <=? 0) then v_dts ← add_duration a_dts v_duration; mret (v_dts, a_dts, true)
        else find_times items v_duration a_duration (it_dts i) a_dts
      else find_times items v_duration a_duration v_dts a_dts
  end.

Fixpoint shift_items (items : list (Z * MovItem)) (which : MEDIA_PKT_TYPE) (by_ : Z) : outcome (list (Z * MovItem)) :=
  match items with
  | [] => mret []
  | (k, i) :: items =>
      i ← (if decide (it_av_type_ i = which) then d ← chk_int64 (it_dts i + by_); p ← chk_int64 (it_pts i + by_); mret (set_times d p i) else mret i);
      r ← shift_items items which by_;
      mret ((k, i) :: r)
  end.

Definition adjust_items (l : list TrakInfo) (items : list (Z * MovItem)) : outcome (list (Z * MovItem)) :=
  let a_duration := first_duration (str "soun") l 0 in
  let v_duration := first_duration (str "vide") l 0 in
  '(v_dts, a_dts, update_video) ← find_times items v_duration a_duration (-1) (-1);
  if (update_video : bool) then shift_items items MEDIA_VIDEO_TYPE v_dts else shift_items items MEDIA_AUDIO_TYPE a_dts.
Definition adjustAllDts (d : Mp4Demuxer) : outcome Mp4Demuxer :=
  items ← adjust_items (traks_info_ (mov_ d)) (sample_items_ d); mret (m_set_items items d).

(** ** Output *)

(** The arrays of 2048 bytes that a call finds on its stack. *)
Class Stack := { stack : nat -> bytes; stack_length : forall n, zlen (stack n) = 2048 }.

Section demux.
Context `{Allocator} `{Uninit} `{Stack}.

Definition sendMediaPacket (av_type : MEDIA_PKT_TYPE) (codec_type : MEDIA_CODEC_TYPE) (dts pts : Z) (is_keyframe is_seqhdr : bool) (data : bytes) (len : Z)
    (d : Mp4Demuxer) : outcome Mp4Demuxer :=
  p ← Media_Packet_len len;
  bytes ← read_range data 0 len;
  '(_, b) ← AppendData (buffer_ptr_ p) bytes;
  let p := set_fmt_type MEDIA_FORMAT_RAW (Media.set_codec_type codec_type (set_av_type av_type p)) in
  let p := set_is_seq_hdr is_seqhdr (set_is_key_frame is_keyframe (set_pts pts (set_dts dts p))) in
  mret (Output (OutPacket (set_buffer_ptr b p)) d).

Definition handleAACExtraData (t : TrakInfo) (d : Mp4Demuxer) : may_throw Mp4Demuxer :=
  if negb (bool_decide (handler_type_ t = str "soun")) then mret d
  else if negb (bool_decide (Mp4Box.codec_type_ t = MEDIA_CODEC_AAC)) then mret d
  else ok (sendMediaPacket MEDIA_AUDIO_TYPE (Mp4Box.codec_type_ t) 0 0 false true (sequence_data_ t) (zlen (sequence_data_ t)) d).

(** The type of the last array of a kind. *)
Definition last_type (wanted : Z) (l : list HEVC_NALUnit) (old : Z) : Z :=
  foldl (fun acc u => if nal_unit_type u =? wanted then nal_unit_type u else acc) old l.

(** A set is written five bytes into its array; the lengths sent do not count these. *)
Definition handleH265VpsSpsPps (t : TrakInfo) (d : Mp4Demuxer) : may_throw Mp4Demuxer :=
  if negb (bool_decide (handler_type_ t = str "vide")) then throws
  else if negb (bool_decide (Mp4Box.codec_type_ t = MEDIA_CODEC_H265)) then throws
  else
    '(_, info) ← ok (GetHevcDecInfoFromExtradata (hevc_uninit 22) (sequence_data_ t) (i32 (zlen (sequence_data_ t))));
    '(_, s) ← ok (GetVpsSpsPpsFromHevcDecInfo info (drop 5 (stack 0)) (drop 5 (stack 1)) (drop 5 (stack 2)));
    let set wanted n region := [0; 0; 0; 1; last_type wanted (nalu_vec info) (nth 4 (stack n) 0)] ++ region in
    let send data len := sendMediaPacket MEDIA_VIDEO_TYPE (Mp4Box.codec_type_ t) 0 0 false true data len in
    d ← ok (send (set NAL_UNIT_VPS 0%nat (vps s)) (vps_len s) d);
    d ← ok (send (set NAL_UNIT_SPS 1%nat (sps s)) (sps_len s) d);
    ok (send (set NAL_UNIT_PPS 2%nat (pps s)) (pps_len s) d).

Definition handleH264SpsPps (t : TrakInfo) (d : Mp4Demuxer) : may_throw Mp4Demuxer :=
  if negb (bool_decide (handler_type_ t = str "vide")) then throws
  else if negb (bool_decide (Mp4Box.codec_type_ t = MEDIA_CODEC_H264)) then throws
  else
    '(ret, pps, pps_len, sps, sps_len) ← ok (GetSpsPpsFromExtraData (drop 4 (stack 0)) 0 (drop 4 (stack 1)) 0 (sequence_data_ t) (zlen (sequence_data_ t)));
    if (ret <? 0) || (pps_len =? 0) || (sps_len =? 0) then throws
    else
      let send data len := sendMediaPacket MEDIA_VIDEO_TYPE (Mp4Box.codec_type_ t) 0 0 false true data len in
      d ← ok (send (H264_START_CODE ++ sps) (sps_len + 4) d);
      ok (send (H264_START_CODE ++ pps) (pps_len + 4) d).

(** The first loop of [makeMovItems]. *)
Definition sequence_data (t : TrakInfo) (d : Mp4Demuxer) : may_throw Mp4Demuxer :=
  if bool_decide (handler_type_ t = str "vide") then
    if decide (Mp4Box.codec_type_ t = MEDIA_CODEC_H264) then handleH264SpsPps t d
    else if decide (Mp4Box.codec_type_ t = MEDIA_CODEC_H265) then handleH265VpsSpsPps t d
    else throws
  else if bool_decide (handler_type_ t = str "soun") then
    if decide (Mp4Box.codec_type_ t = MEDIA_CODEC_AAC) then handleAACExtraData t d else throws
  else mret d.
Fixpoint sequence_datas (l : list TrakInfo) (d : Mp4Demuxer) : may_throw Mp4Demuxer :=
  match l with [] => mret d | t :: l => d ← sequence_data t d; sequence_datas l d end.

Definition makeMovItems (d : Mp4Demuxer) : may_throw Mp4Demuxer :=
  d ← sequence_datas (traks_info_ (mov_ d)) d;
  items ← ok (traks_items (traks_info_ (mov_ d)) (sample_items_ d));
  mret (m_set_items items d).

(** The NAL units of a sample; the byte behind the start code gives the kind. *)
Fixpoint send_nalus (nalus : list DataBuffer) (av_type : MEDIA_PKT_TYPE) (codec_type : MEDIA_CODEC_TYPE) (dts pts : Z) (d : Mp4Demuxer) : outcome Mp4Demuxer :=
  match nalus with
  | [] => mret d
  | b :: nalus =>
      let data := H264_START_CODE ++ drop 4 (contents b) in
      c ← data.[4];
      d ← sendMediaPacket av_type codec_type dts pts
            (negb (H264_IS_SPS c || H264_IS_PPS c) && H264_IS_KEYFRAME c) (H264_IS_SPS c || H264_IS_PPS c) data (DataLen b) d;
      send_nalus nalus av_type codec_type dts pts d
  end.

(** A sample whose bytes have been read. *)
Definition handle_item (i : MovItem) (data : bytes) (d : Mp4Demuxer) : outcome Mp4Demuxer :=
  let ms time := if 0 <? it_timescale_ i then v ← chk_int64 (time * 1000); mret (Z.quot v (it_timescale_ i)) else mret time in
  dts ← ms (it_dts i);
  pts ← ms (it_pts i);
  if bool_decide (it_av_type_ i = MEDIA_VIDEO_TYPE) && (bool_decide (it_codec_type_ i = MEDIA_CODEC_H264) || bool_decide (it_codec_type_ i = MEDIA_CODEC_H265)) then
    if it_len i <=? 5 then mret d
    else
      '(ret, nalus) ← Avcc2Nalus data (it_len i);
      if negb ret then mret d else send_nalus nalus (it_av_type_ i) (it_codec_type_ i) dts pts d
  else sendMediaPacket (it_av_type_ i) (it_codec_type_ i) dts pts false false data (it_len i) d.

(** [vector::resize] to a larger size, and a read into a buffer. *)
Definition grow (n : Z) (buffer : bytes) : bytes := if zlen buffer <? n then buffer ++ replicate (Z.to_nat (n - zlen buffer)) 0 else buffer.
Definition read_into (r : io_reader) (offset len : Z) (buffer : bytes) : Z * bytes :=
  let '(ret, data) := r offset len in (ret, data ++ drop (length data) buffer).

(** The value that [Read] returns is compared as unsigned. *)
Fixpoint handle_items (items : list (Z * MovItem)) (r : option io_reader) (data_buffer : bytes) (d : Mp4Demuxer) : outcome Mp4Demuxer :=
  match items with
  | [] => mret d
  | (_, i) :: items =>
      match r with
      | None => Fault OutOfBounds
      | Some read =>
          let '(ret, data) := read_into read (it_offset i) (it_len i) (grow (it_len i) data_buffer) in
          if u64 ret <? it_len i then mret d
          else d ← handle_item i data d; handle_items items r data d
      end
  end.
Definition handleMovItems (d : Mp4Demuxer) : outcome Mp4Demuxer :=
  handle_items (sample_items_ d) (io_reader_ d) (replicate (Z.to_nat (10 * 1024)) 0) d.

(** ** Boxes *)

Definition out_box (t : bytes) (b : mp4_box) (d : Mp4Demuxer) : Mp4Demuxer :=
  let d := m_set_box b d in
  if bool_decide (options_ d !! str "box_detail" = Some (str "true")) then Output (OutBox t b) d else d.

(** A box at [p]: the pointer behind what it parsed. *)
Definition handle_box (t p : bytes) (d : Mp4Demuxer) : may_throw (bytes * Mp4Demuxer) :=
  if bool_decide (t = str "ftyp") then
    '(b, p, m) ← (FtypBox_Parse p (mov_ d) : may_throw _); mret (p, out_box t (IsFtyp b) (m_set_mov m d))
  else if bool_decide (t = str "moov") then
    '(b, p, m) ← (MoovBox_Parse p (mov_ d) : may_throw _);
    d ← makeMovItems (out_box t (IsMoov b) (m_set_mov m d));
    d ← ok (adjustAllDts d);
    d ← ok (handleMovItems d);
    mret (p, d)
  else if bool_decide (t = str "free") then
    '(b, p, m) ← (FreeBox_Parse p (mov_ d) : may_throw _); mret (p, out_box t (IsFree b) (m_set_mov m d))
  else if bool_decide (t = str "mdat") then
    '(b, p, m) ← (MdatBox_Parse p (mov_ d) : may_throw _); mret (p, out_box t (IsMdat b) (m_set_mov m d))
  else
    '(b, p, m) ← (unknown_box p (mov_ d) : may_throw _); mret (p, out_box (type_ b) (IsUnknown b) (m_set_mov m d)).

(** The loop of [OnRead] over the boxes of a file. *)
Fixpoint read_boxes (fuel : nat) (r : io_reader) (offset : Z) (buffer : bytes) (d : Mp4Demuxer) : may_throw Mp4Demuxer :=
  match fuel with
  | O => Fault OutOfFuel
  | S fuel =>
      let '(ret, buffer) := read_into r offset 16 buffer in
      if ret <? 16 then mret d
      else
        '(box_size, t, _) ← ok (GetBoxHeaderInfo buffer);
        let '(ret, buffer) := read_into r offset box_size (grow box_size buffer) in
        if u64 ret <? box_size then mret d
        else
          offset ← ok (chk_int64 (offset + i64 box_size));
          '(_, d) ← handle_box t buffer d;
          read_boxes fuel r offset buffer d
  end.
Definition OnRead (fuel : nat) (r : io_reader) (d : Mp4Demuxer) : may_throw Mp4Demuxer := read_boxes fuel r 0 (replicate 16 0) d.

(** The loop over the boxes of the buffer. *)
Fixpoint buffer_boxes (fuel : nat) (p : bytes) (d : Mp4Demuxer) : may_throw (bytes * Mp4Demuxer) :=
  match fuel with
  | O => Fault OutOfFuel
  | S fuel =>
      if 0 <? zlen p then
        '(box_size, t, _) ← ok (GetBoxHeaderInfo p);
        if zlen p <? box_size then mret (p, d)
        else '(p, d) ← handle_box t p d; buffer_boxes fuel p d
      else mret (p, d)
  end.

(** A packet with a reader, or with data: [p - Data()] bytes are consumed. *)
Definition SourceData (fuel : nat) (reader : option io_reader) (data : bytes) (d : Mp4Demuxer) : may_throw Mp4Demuxer :=
  match reader with
  | Some r => OnRead fuel r (m_set_reader r d)
  | None =>
      let d := m_set_buffer (m_buffer_ d ++ data) d in
      '(p, d) ← buffer_boxes fuel (m_buffer_ d) d;
      mret (m_set_buffer p d)
  end.
End demux.
