(* ===== verification/Mp4Parse.v ===== *)
(** * [Mp4Parse]: boxes are parsed from the bytes that stand for them

    A writer for every box that carries the description of a film: the source has
    none, so these are the layouts of the file format.  [parsed s v e] says of the
    parser [x] that behind whatever bytes [s] it gives [v], moves behind [s] and
    applies [e] to the track that is being read. *)
From S2P Require Import Prelude ByteStream StringEx RtcTime H264 Mp4Box.

(** ** One step of a parser *)

Lemma bind_ok {A B} (x : parser A) (f : A -> parser B) p m v q m' :
  x p m = Done (Some (v, q, m')) -> (x ≫= f) p m = f v q m'.
Proof. intros E. unfold mbind, parser_bind. by rewrite E. Qed.

Definition is32 (v : Z) : Prop := 0 <= v < 2 ^ 32.
Definition is16 (v : Z) : Prop := 0 <= v < 2 ^ 16.
Definition is64 (v : Z) : Prop := 0 <= v < 2 ^ 64.

Lemma advance_ok s p m : advance (zlen s) (s ++ p) m = Done (Some (tt, p, m)).
Proof.
  unfold advance. rewrite zlen_app. pose proof (zlen_nonneg p).
  rewrite (proj2 (Z.leb_le _ _)) by lia. by rewrite drop_zlen_app.
Qed.
Lemma rd_with_ok (read : bytes -> outcome Z) n s p m v :
  zlen s = n -> read (s ++ p) = Done v -> rd_with read n (s ++ p) m = Done (Some (v, p, m)).
Proof.
  intros <- E. unfold rd_with. erewrite bind_ok by reflexivity.
  unfold lift at 1. erewrite bind_ok by (rewrite E; reflexivity).
  erewrite bind_ok by apply advance_ok. done.
Qed.
Lemma rd4_ok v p m : is32 v -> rd4 (Write4Bytes v ++ p) m = Done (Some (v, p, m)).
Proof. intros Hv. apply rd_with_ok; [done|]. rewrite Read4Bytes_Write4Bytes. f_equal. by apply Z.mod_small. Qed.
Lemma rd2_ok v p m : is16 v -> rd2 (Write2Bytes v ++ p) m = Done (Some (v, p, m)).
Proof. intros Hv. apply rd_with_ok; [done|]. rewrite Read2Bytes_Write2Bytes. f_equal. by apply Z.mod_small. Qed.
Lemma rd8_ok v p m : is64 v -> rd8 (Write8Bytes v ++ p) m = Done (Some (v, p, m)).
Proof. intros Hv. apply rd_with_ok; [done|]. rewrite Read8Bytes_Write8Bytes. f_equal. by apply Z.mod_small. Qed.
Lemma rd1_ok v p m : rd1 ([v] ++ p) m = Done (Some (v, p, m)).
Proof. by apply rd_with_ok. Qed.

Definition Write48 (ver v : Z) : bytes := if ver =? 0 then Write4Bytes v else Write8Bytes v.
Definition is48 (ver v : Z) : Prop := if ver =? 0 then is32 v else is64 v.
Lemma rd48_ok ver v p m : is48 ver v -> rd48 ver (Write48 ver v ++ p) m = Done (Some (v, p, m)).
Proof. unfold rd48, Write48, is48. destruct (ver =? 0); [apply rd4_ok|apply rd8_ok]. Qed.

(** ** The track being read *)

(** There is a track that is read, of which [P] holds. *)
Definition has_trak (P : TrakInfo -> Prop) (m : MovInfo) : Prop := exists l t, traks_info_ m = l ++ [t] /\ P t.
Definition any (_ : TrakInfo) : Prop := True.
Definition with_trak (e : TrakInfo -> TrakInfo) (m : MovInfo) : MovInfo :=
  match reverse (traks_info_ m) with [] => m | t :: before => set_traks (reverse before ++ [e t]) m end.

Lemma has_trak_any P m : has_trak P m -> has_trak any m.
Proof. intros (l & t & E & _). by exists l, t. Qed.
Lemma with_trak_last e l t m : traks_info_ m = l ++ [t] -> with_trak e m = set_traks (l ++ [e t]) m.
Proof. intros E. unfold with_trak. by rewrite E, reverse_snoc, reverse_involutive. Qed.
Lemma trak_ok e p m : has_trak any m -> trak e p m = Done (Some (tt, p, with_trak e m)).
Proof.
  intros (l & t & E & _). rewrite (with_trak_last _ _ _ _ E).
  unfold trak. by rewrite E, reverse_snoc, reverse_involutive.
Qed.
Lemma the_trak_ok l t p m : traks_info_ m = l ++ [t] -> the_trak p m = Done (Some (t, p, m)).
Proof. intros E. unfold the_trak. by rewrite E, reverse_snoc. Qed.
Lemma has_trak_after (P Q : TrakInfo -> Prop) e m : (forall t, P t -> Q (e t)) -> has_trak P m -> has_trak Q (with_trak e m).
Proof.
  intros HQ (l & t & E & HP). rewrite (with_trak_last _ _ _ _ E). exists l, (e t). by split; [|apply HQ].
Qed.
Lemma has_trak_with e m : has_trak any m -> has_trak any (with_trak e m).
Proof. by apply has_trak_after. Qed.
Lemma with_trak_with e f m : with_trak e (with_trak f m) = with_trak (fun t => e (f t)) m.
Proof.
  unfold with_trak at 2 3. destruct (reverse (traks_info_ m)) as [|t l] eqn:E.
  - unfold with_trak. by rewrite E.
  - by rewrite (with_trak_last _ (reverse l) (f t)).
Qed.
Lemma with_trak_id m : with_trak (fun t => t) m = m.
Proof.
  unfold with_trak. destruct (reverse (traks_info_ m)) as [|t l] eqn:E; [done|].
  rewrite <- reverse_cons, <- E, reverse_involutive. by destruct m.
Qed.
Lemma with_trak_ext e f m : (forall t, e t = f t) -> with_trak e m = with_trak f m.
Proof. intros E. unfold with_trak. by destruct (reverse _); rewrite ?E. Qed.

Definition parsed {A} (P : TrakInfo -> Prop) (x : parser A) (s : bytes) (v : A) (e : TrakInfo -> TrakInfo) : Prop :=
  forall p m, has_trak P m -> x (s ++ p) m = Done (Some (v, p, with_trak e m)).
Lemma parsed_weaken {A} P (x : parser A) s v e : parsed any x s v e -> parsed P x s v e.
Proof. intros H p m Hm. apply H. by eapply has_trak_any. Qed.
Lemma parsed_step {A} P (x : parser A) s v e p m :
  parsed P x s v e -> has_trak P m -> x (s ++ p) m = Done (Some (v, p, with_trak e m)).
Proof. intros H. apply H. Qed.

(** ** Boxes *)

Definition box (t body : bytes) : bytes := Write4Bytes (8 + zlen body) ++ t ++ body.
Definition hd (t body : bytes) : BoxHeader := mkBox (8 + zlen body) t 8.
(** A type of four bytes that are not zero, and a size that its field holds. *)
Definition box_ok (t body : bytes) : Prop := zlen t = 4 /\ Forall (fun c => c <> 0) t /\ 8 + zlen body < 2 ^ 32.

Lemma box_zlen t body : zlen t = 4 -> zlen (box t body) = 8 + zlen body.
Proof. intros H. unfold box. rewrite !zlen_app, H. change (zlen (Write4Bytes _)) with 4. lia. Qed.
Lemma DataToString_id t : Forall (fun c => c <> 0) t -> DataToString t = t.
Proof. induction 1 as [|c t Hc _ IH]; [done|]. cbn. destruct (Z.eqb_spec c 0); [done|]. by rewrite IH. Qed.

Lemma header_reads t body p : box_ok t body ->
  Read4Bytes (box t body ++ p) = Done (8 + zlen body) /\ read_range (box t body ++ p) 4 4 = Done t.
Proof.
  intros (Ht & _ & Hs). pose proof (zlen_nonneg body). unfold box. rewrite <- !app_assoc. split.
  - rewrite Read4Bytes_Write4Bytes. f_equal. apply Z.mod_small. lia.
  - rewrite <- Ht at 2. apply read_range_mid.
Qed.
(** The header alone, whatever follows it. *)
Lemma header_head n t q : zlen t = 4 -> Forall (fun c => c <> 0) t -> 8 <= n < 2 ^ 32 ->
  GetBoxHeaderInfo (Write4Bytes n ++ t ++ q) = Done (n, t, 8).
Proof.
  intros Ht Hz Hn. unfold GetBoxHeaderInfo. rewrite Read4Bytes_Write4Bytes. simpl_m.
  replace (u32 n) with n by (symmetry; apply Z.mod_small; lia). destruct (Z.eqb_spec n 1); [lia|]. simpl_m.
  rewrite <- Ht at 2. change 4 with (zlen (Write4Bytes n)) at 1. rewrite read_range_mid. simpl_m. by rewrite DataToString_id.
Qed.
Lemma box_header_ok t body p : box_ok t body -> GetBoxHeaderInfo (box t body ++ p) = Done (8 + zlen body, t, 8).
Proof.
  intros (Ht & Hz & Hs). pose proof (zlen_nonneg body). unfold box. rewrite <- !app_assoc. apply header_head; (done || lia).
Qed.
Lemma box_type_ok t body p m : box_ok t body ->
  box_type (box t body ++ p) m = Done (Some ((8 + zlen body, t), box t body ++ p, m)).
Proof.
  intros H. unfold box_type. erewrite bind_ok by reflexivity.
  unfold lift. erewrite bind_ok by (rewrite (box_header_ok _ _ _ H); reflexivity). done.
Qed.
Lemma Mp4BoxBase_ok t body p m : box_ok t body ->
  Mp4BoxBase (box t body ++ p) m = Done (Some (hd t body, body ++ p, m)).
Proof.
  intros H. destruct (header_reads _ _ p H) as [E1 E2]. pose proof (zlen_nonneg body).
  unfold Mp4BoxBase. erewrite bind_ok by reflexivity.
  unfold lift at 1. erewrite bind_ok by (rewrite E1; reflexivity).
  unfold lift at 1. erewrite bind_ok by (rewrite E2; reflexivity).
  destruct (Z.eqb_spec (8 + zlen body) 1); [lia|].
  assert (box t body ++ p = (Write4Bytes (8 + zlen body) ++ t) ++ body ++ p) as -> by (unfold box; by rewrite <- !app_assoc).
  replace 8 with (zlen (Write4Bytes (8 + zlen body) ++ t)) at 1
    by (rewrite zlen_app; change (zlen (Write4Bytes _)) with 4; destruct H; lia).
  erewrite bind_ok by apply advance_ok. rewrite DataToString_id by apply H. done.
Qed.

(** What the parser of a box knows of its start: what is left in it, and its end. *)
Record at_start (start : bytes) (b : BoxHeader) (p : bytes) : Prop := {
  at_left q m : left_in start b q m = Done (Some (zlen q - zlen p, q, m));
  at_end q m : box_end start b q m = Done (Some (tt, p, m));
  at_fuel : zlen start = box_size_ b + zlen p
}.
Lemma box_at_start t body p : box_ok t body -> at_start (box t body ++ p) (hd t body) p.
Proof.
  intros (Ht & _ & _). assert (zlen (box t body ++ p) = 8 + zlen body + zlen p) as E by (rewrite zlen_app, box_zlen; lia).
  split.
  - intros q m. unfold left_in, behind, hd. erewrite bind_ok by reflexivity. rewrite E. cbn [box_size_].
    unfold mret, parser_ret. do 4 f_equal. lia.
  - intros q m. unfold box_end. cbn [hd box_size_]. rewrite <- (box_zlen t body) by done. apply advance_ok.
  - done.
Qed.
Lemma assert_end_ok start b p m : at_start start b p -> assert_end start b p m = Done (Some (tt, p, m)).
Proof.
  intros H. unfold assert_end. erewrite bind_ok by apply (at_left _ _ _ H). by rewrite Z.sub_diag.
Qed.
Lemma within_ok start b q p m : at_start start b p -> within start b (q ++ p) m = Done (Some (tt, q ++ p, m)).
Proof.
  intros H. unfold within. erewrite bind_ok by apply (at_left _ _ _ H).
  rewrite zlen_app. pose proof (zlen_nonneg q). by rewrite (proj2 (Z.leb_le _ _)) by lia.
Qed.

(** The beginning of every parser. *)
Lemma box_parsed {A} t body (k : bytes -> BoxHeader -> parser A) p m r : box_ok t body ->
  (forall start, at_start start (hd t body) p -> k start (hd t body) (body ++ p) m = r) ->
  (start ← here; b ← Mp4BoxBase; k start b) (box t body ++ p) m = r.
Proof.
  intros H Hk. erewrite bind_ok by reflexivity. erewrite bind_ok by by apply Mp4BoxBase_ok.
  by apply Hk, box_at_start.
Qed.

(** ** Loops *)

Lemma times_ok {A} (x : parser A) (enc : A -> bytes) (e : A -> TrakInfo -> TrakInfo) n l p m :
  n = length l ->
  (forall a q m, a ∈ l -> has_trak any m -> x (enc a ++ q ++ p) m = Done (Some (a, q ++ p, with_trak (e a) m))) -> has_trak any m ->
  times n x (concat (map enc l) ++ p) m = Done (Some (l, p, with_trak (fun t => foldl (fun t a => e a t) t l) m)).
Proof.
  intros -> Hx. revert m. induction l as [|a l IH]; intros m Hm.
  - cbn [times length map concat foldl]. rewrite with_trak_id. done.
  - cbn [times length map concat foldl]. rewrite <- app_assoc.
    erewrite bind_ok by (apply Hx; [by left|done]).
    erewrite bind_ok by (apply IH; [intros; apply Hx; [by right|done]|by apply has_trak_with]).
    by rewrite with_trak_with.
Qed.
Lemma times_plain {A} (x : parser A) (enc : A -> bytes) n l p m :
  n = length l -> (forall a q, a ∈ l -> x (enc a ++ q) m = Done (Some (a, q, m))) ->
  times n x (concat (map enc l) ++ p) m = Done (Some (l, p, m)).
Proof.
  intros -> Hx. induction l as [|a l IH]; [done|].
  cbn [times length map concat]. rewrite <- app_assoc.
  erewrite bind_ok by (apply Hx; by left). by erewrite bind_ok by (apply IH; intros; apply Hx; by right).
Qed.

Definition Write4s (l : list Z) : bytes := concat (map Write4Bytes l).
Definition Write2s (l : list Z) : bytes := concat (map Write2Bytes l).
Lemma times_rd4 n l p m : n = length l -> Forall is32 l -> times n rd4 (Write4s l ++ p) m = Done (Some (l, p, m)).
Proof. intros Hn H. apply times_plain; [done|]. intros a q Ha. apply rd4_ok. by eapply Forall_forall in Ha. Qed.
Lemma times_rd2 n l p m : n = length l -> Forall is16 l -> times n rd2 (Write2s l ++ p) m = Done (Some (l, p, m)).
Proof. intros Hn H. apply times_plain; [done|]. intros a q Ha. apply rd2_ok. by eapply Forall_forall in Ha. Qed.
Lemma times_rd1 n l p m : n = length l -> times n rd1 (l ++ p) m = Done (Some (l, p, m)).
Proof.
  intros Hn. replace l with (concat (map (fun c => [c]) l)) at 1 by (clear; induction l as [|c l IH]; [done|cbn; by rewrite IH]).
  apply times_plain; [done|]. intros; apply rd1_ok.
Qed.

(** The children of a container, one behind the other. *)
Inductive children {A} (item : bytes -> A -> parser A) : (TrakInfo -> Prop) -> A -> bytes -> A -> (TrakInfo -> TrakInfo) -> Prop :=
  | children_nil P x : children item P x [] x (fun t => t)
  | children_cons (P Q : TrakInfo -> Prop) t body x y s z e f :
      box_ok t body -> parsed P (item t x) (box t body) y e -> (forall t, P t -> Q (e t)) -> children item Q y s z f ->
      children item P x (box t body ++ s) z (fun t => f (e t)).

Lemma box_loop_ok {A} item P (x : A) s y e : children item P x s y e ->
  forall fuel start b slack p m, at_start start b p -> 0 <= slack < 8 -> zlen s < Z.of_nat fuel -> has_trak P m ->
  box_loop fuel start b slack item x (s ++ p) m = Done (Some (y, p, with_trak e m)).
Proof.
  induction 1 as [P x|P Q t body x y s z e f Hb Hx HQ _ IH]; intros fuel start b slack p m Hp Hs Hf Hm.
  - destruct fuel as [|fuel]; [unfold zlen in Hf; simpl in Hf; lia|]. cbn [box_loop]. erewrite bind_ok by apply (at_left _ _ _ Hp).
    cbn [app]. rewrite Z.sub_diag, (proj2 (Z.ltb_ge _ _)) by lia. by rewrite with_trak_id.
  - destruct fuel as [|fuel]; [pose proof (zlen_nonneg (box t body ++ s)); lia|].
    rewrite zlen_app, box_zlen in Hf by apply Hb. pose proof (zlen_nonneg s). pose proof (zlen_nonneg body).
    rewrite <- app_assoc. cbn [box_loop].
    erewrite bind_ok by apply (at_left _ _ _ Hp). rewrite !zlen_app, box_zlen by apply Hb.
    rewrite (proj2 (Z.ltb_lt _ _)) by lia.
    erewrite bind_ok by by apply box_type_ok. cbv beta iota.
    erewrite bind_ok by by apply Hx.
    rewrite (IH _ _ _ _ _ _ Hp) by (try eapply has_trak_after; try done; lia). by rewrite with_trak_with.
Qed.
Lemma boxes_ok {A} item P (x : A) s y e start b slack p m : children item P x s y e ->
  at_start start b p -> zlen s <= box_size_ b -> 0 <= slack < 8 -> has_trak P m ->
  boxes start b slack item x (s ++ p) m = Done (Some (y, p, with_trak e m)).
Proof.
  intros Hc Hp Hb Hs Hm. unfold boxes. eapply box_loop_ok; try done.
  pose proof (at_fuel _ _ _ Hp) as E. pose proof (zlen_nonneg p). pose proof (zlen_nonneg s). unfold zlen in *. lia.
Qed.

(** A child that may be left out: [put] gives the container with it and without it. *)
Definition opt_bytes {X} (enc : X -> bytes) (o : option X) : bytes := match o with Some x => enc x | None => [] end.
Definition opt_info {X} (info : X -> TrakInfo -> TrakInfo) (o : option X) (t : TrakInfo) : TrakInfo :=
  match o with Some x => info x t | None => t end.
Definition opt_ok {X} (ok : X -> Prop) (o : option X) : Prop := match o with Some x => ok x | None => True end.
Lemma children_weaken {A} item (P Q : TrakInfo -> Prop) (x : A) s y e :
  children item Q x s y e -> (forall t, P t -> Q t) -> children item P x s y e.
Proof.
  intros Hc HQ. destruct Hc as [Q x|Q R t body x y s z e f Hb Hp HR Hc]; [apply children_nil|].
  eapply children_cons with (Q := R); [done| |by auto|done]. intros p m (l & tr & E & HP). apply Hp. exists l, tr. auto.
Qed.
Lemma children_opt {A X} item (P Q : TrakInfo -> Prop) (put : option X -> A) o t body enc info ok s z f :
  (forall x, ok x -> box_ok t (body x) /\ enc x = box t (body x) /\ parsed P (item t (put None)) (enc x) (put (Some x)) (info x)) ->
  opt_ok ok o -> (forall t, P t -> Q (opt_info info o t)) -> children item Q (put o) s z f ->
  children item P (put None) (opt_bytes enc o ++ s) z (fun t => f (opt_info info o t)).
Proof.
  intros Hx Ho HQ Hc. destruct o as [x|]; cbn [opt_bytes opt_info opt_ok app] in *.
  - destruct (Hx x Ho) as (Hb & E & Hp). rewrite E in *. by eapply children_cons.
  - by eapply children_weaken.
Qed.

(** ** The leaves *)

(** The header of a box of a type with a content. *)
Definition stands (t : bytes) (b : BoxHeader) (body : bytes) : Prop := b = hd t body /\ box_ok t body.

Lemma stands_parsed {A} t b body (k : bytes -> BoxHeader -> parser A) p m r : stands t b body ->
  (forall start, at_start start b p -> k start b (body ++ p) m = r) ->
  (start ← here; b ← Mp4BoxBase; k start b) (box t body ++ p) m = r.
Proof. intros [-> Hb]. by apply box_parsed. Qed.

Lemma rest_of_ok start b s p m : at_start start b p -> rest_of start b (s ++ p) m = Done (Some (s, s ++ p, m)).
Proof.
  intros H. unfold rest_of. erewrite bind_ok by apply (at_left _ _ _ H).
  rewrite zlen_app. replace (zlen s + zlen p - zlen p) with (zlen s) by lia. pose proof (zlen_nonneg s).
  rewrite (proj2 (Z.ltb_ge _ _)) by lia. erewrite bind_ok by reflexivity.
  unfold lift. replace (read_range (s ++ p) 0 (zlen s)) with (@Done bytes s) by (symmetry; apply (read_range_mid [] s p)). done.
Qed.
Lemma at_end' start b p q m : at_start start b p -> box_end start b q m = Done (Some (tt, p, m)).
Proof. intros H. apply (at_end _ _ _ H). Qed.

Create HintDb mp4.
#[export] Hint Opaque is32 is16 is64 is48 rd4 rd2 rd8 rd1 rd48 version_of : mp4.
#[export] Hint Constants Opaque : mp4.
#[export] Hint Resolve rd4_ok rd2_ok rd8_ok rd1_ok rd48_ok times_rd4 times_rd2 times_rd1 assert_end_ok within_ok at_end' rest_of_ok
  trak_ok has_trak_with : mp4.

(** The facts on the fields one by one; the next step of a parser; its end. *)
Ltac fields := repeat match goal with H : Forall _ (_ :: _) |- _ => apply Forall_cons_1 in H as [? H] end.
Ltac pstep := erewrite bind_ok by (typeclasses eauto with mp4 nocore); cbv beta iota zeta.
Ltac psteps := cbv zeta; rewrite <- ?app_assoc; repeat pstep.
Ltac pdone x := unfold mret, parser_ret; rewrite ?with_trak_with; by destruct x.

(** The times have 32 bits in version 0 and 64 in version 1, which the code does not
    know ([mvhd_version_1_asserts]). *)
Definition mvhd_body (x : MvhdBox) : bytes :=
  let ver := version_of (mvhd_version_flag_ x) in
  Write4Bytes (mvhd_version_flag_ x) ++ Write48 ver (mvhd_creation_time_ x) ++ Write48 ver (mvhd_modification_time_ x) ++
  Write4Bytes (mvhd_timescale_ x) ++ Write48 ver (mvhd_duration_ x) ++ Write4Bytes (mvhd_rate_ x) ++ Write2Bytes (mvhd_volume_ x) ++
  Write2Bytes (mvhd_reserve1_ x) ++ Write4s (mvhd_reserve2_ x) ++ Write4s (mvhd_matrix_ x) ++ Write4s (mvhd_pre_defined_ x) ++
  Write4Bytes (mvhd_next_track_id_ x).
Definition mvhd_bytes (x : MvhdBox) : bytes := box (str "mvhd") (mvhd_body x).
Record mvhd_ok (x : MvhdBox) : Prop := {
  mvhd_stands : stands (str "mvhd") (mvhd_base x) (mvhd_body x);
  mvhd_version : version_of (mvhd_version_flag_ x) = 0;
  mvhd_32 : Forall is32 [mvhd_version_flag_ x; mvhd_creation_time_ x; mvhd_modification_time_ x; mvhd_timescale_ x; mvhd_duration_ x; mvhd_rate_ x; mvhd_next_track_id_ x];
  mvhd_16 : Forall is16 [mvhd_volume_ x; mvhd_reserve1_ x];
  mvhd_lists : Forall is32 (mvhd_reserve2_ x) /\ Forall is32 (mvhd_matrix_ x) /\ Forall is32 (mvhd_pre_defined_ x);
  mvhd_counts : 2%nat = length (mvhd_reserve2_ x) /\ 9%nat = length (mvhd_matrix_ x) /\ 6%nat = length (mvhd_pre_defined_ x)
}.
Definition mvhd_duration (x : MvhdBox) : double :=
  if negb (mvhd_timescale_ x =? 0)
  then double_div (double_mul (double_of_int (mvhd_duration_ x)) (double_of_int 1000000)) (double_of_int (mvhd_timescale_ x))
  else double_mul (double_of_int (mvhd_duration_ x)) (double_of_int 1).
Lemma modify_ok f p m : modify f p m = Done (Some (tt, p, f m)).
Proof. done. Qed.
#[export] Hint Resolve modify_ok : mp4.
Lemma mvhd_parsed x p m : mvhd_ok x ->
  MvhdBox_Parse (mvhd_bytes x ++ p) m = Done (Some (x, p, set_mvhd (mvhd_duration x) (mvhd_next_track_id_ x) m)).
Proof.
  intros [Hb Hv H1 H2 (?&?&?) (?&?&?)]. fields. unfold MvhdBox_Parse. apply (stands_parsed _ _ _ _ _ _ _ Hb).
  intros start Hs. unfold mvhd_body. rewrite Hv. change (Write48 0) with Write4Bytes. psteps. pdone x.
Qed.

Definition tkhd_body (x : TkhdBox) : bytes :=
  let ver := version_of (tkhd_version_flag_ x) in
  Write4Bytes (tkhd_version_flag_ x) ++ Write48 ver (tkhd_creation_time_ x) ++ Write48 ver (tkhd_modification_time_ x) ++
  Write4Bytes (tkhd_track_id_ x) ++ Write4Bytes (tkhd_reserved1_ x) ++ Write48 ver (tkhd_duration_ x) ++ Write4s (tkhd_reserved2_ x) ++
  Write2Bytes (tkhd_layer_ x) ++ Write2Bytes (tkhd_alternate_group_ x) ++ Write2Bytes (tkhd_volume_ x) ++ Write2Bytes (tkhd_reserved3_ x) ++
  Write4s (tkhd_transform_matrix_ x) ++ Write4Bytes (tkhd_width_ x) ++ Write4Bytes (tkhd_height_ x).
Definition tkhd_bytes (x : TkhdBox) : bytes := box (str "tkhd") (tkhd_body x).
Record tkhd_ok (x : TkhdBox) : Prop := {
  tkhd_stands : stands (str "tkhd") (tkhd_base x) (tkhd_body x);
  tkhd_32 : Forall is32 [tkhd_version_flag_ x; tkhd_track_id_ x; tkhd_reserved1_ x; tkhd_width_ x; tkhd_height_ x];
  tkhd_48 : Forall (is48 (version_of (tkhd_version_flag_ x))) [tkhd_creation_time_ x; tkhd_modification_time_ x; tkhd_duration_ x];
  tkhd_16 : Forall is16 [tkhd_layer_ x; tkhd_alternate_group_ x; tkhd_volume_ x; tkhd_reserved3_ x];
  tkhd_lists : Forall is32 (tkhd_reserved2_ x) /\ Forall is32 (tkhd_transform_matrix_ x);
  tkhd_counts : 2%nat = length (tkhd_reserved2_ x) /\ 9%nat = length (tkhd_transform_matrix_ x)
}.
Definition tkhd_info (x : TkhdBox) (t : TrakInfo) : TrakInfo :=
  set_height (Z.shiftr (tkhd_height_ x) 16) (set_width (Z.shiftr (tkhd_width_ x) 16)
    (set_duration (double_mul (double_of_int (tkhd_duration_ x)) (double_of_int 1)) (set_track_id (tkhd_track_id_ x) t))).
Lemma tkhd_parsed x : tkhd_ok x -> parsed any TkhdBox_Parse (tkhd_bytes x) x (tkhd_info x).
Proof.
  intros [Hb H1 H2 H3 (?&?) (?&?)] p m Hm. fields. unfold TkhdBox_Parse. apply (stands_parsed _ _ _ _ _ _ _ Hb).
  intros start Hs. unfold tkhd_body. psteps. pdone x.
Qed.

Definition mdhd_body (x : MdhdBox) : bytes :=
  let ver := version_of (mdhd_version_flag_ x) in
  Write4Bytes (mdhd_version_flag_ x) ++ Write48 ver (mdhd_creation_time_ x) ++ Write48 ver (mdhd_modification_time_ x) ++
  Write4Bytes (mdhd_timescale_ x) ++ Write48 ver (mdhd_duration_ x).
(** Behind the fields the box may have more. *)
Definition mdhd_bytes (x : MdhdBox) (more : bytes) : bytes := box (str "mdhd") (mdhd_body x ++ more).
Record mdhd_ok (x : MdhdBox) (more : bytes) : Prop := {
  mdhd_stands : stands (str "mdhd") (mdhd_base x) (mdhd_body x ++ more);
  mdhd_32 : Forall is32 [mdhd_version_flag_ x; mdhd_timescale_ x];
  mdhd_48 : Forall (is48 (version_of (mdhd_version_flag_ x))) [mdhd_creation_time_ x; mdhd_modification_time_ x; mdhd_duration_ x]
}.
Definition mdhd_info (x : MdhdBox) (t : TrakInfo) : TrakInfo :=
  set_timescale (mdhd_timescale_ x)
    (set_duration (double_div (double_mul (double_of_int (mdhd_duration_ x)) (double_of_int 1000000)) (double_of_int (mdhd_timescale_ x))) t).
Lemma mdhd_parsed x more : mdhd_ok x more -> parsed any MdhdBox_Parse (mdhd_bytes x more) x (mdhd_info x).
Proof.
  intros [Hb H1 H2] p m Hm. fields. unfold MdhdBox_Parse. apply (stands_parsed _ _ _ _ _ _ _ Hb).
  intros start Hs. unfold mdhd_body. psteps. pdone x.
Qed.

Definition hdlr_body (x : HdlrBox) : bytes :=
  Write4Bytes (hdlr_version_flag_ x) ++ Write4Bytes (hdlr_pre_defined_ x) ++ Write4Bytes (hdlr_handler_type_ x) ++ Write4s (hdlr_reserved_ x) ++ handler_descr_ x.
Definition hdlr_bytes (x : HdlrBox) : bytes := box (str "hdlr") (hdlr_body x).
Record hdlr_ok (x : HdlrBox) : Prop := {
  hdlr_stands : stands (str "hdlr") (hdlr_base x) (hdlr_body x);
  hdlr_32 : Forall is32 [hdlr_version_flag_ x; hdlr_pre_defined_ x; hdlr_handler_type_ x];
  hdlr_list : Forall is32 (hdlr_reserved_ x) /\ 3%nat = length (hdlr_reserved_ x)
}.
Definition hdlr_info (x : HdlrBox) (t : TrakInfo) : TrakInfo := set_handler_type (Uint32ToString (hdlr_handler_type_ x)) t.
Lemma hdlr_parsed x : hdlr_ok x -> parsed any HdlrBox_Parse (hdlr_bytes x) x (hdlr_info x).
Proof.
  intros [Hb H1 (?&?)] p m Hm. fields. unfold HdlrBox_Parse. apply (stands_parsed _ _ _ _ _ _ _ Hb).
  intros start Hs. unfold hdlr_body. psteps. pdone x.
Qed.

Definition smhd_body (x : SmhdBox) : bytes := Write4Bytes (smhd_version_flag_ x) ++ Write2Bytes (balance_ x) ++ Write2Bytes (smhd_reserved_ x).
Definition smhd_bytes (x : SmhdBox) : bytes := box (str "smhd") (smhd_body x).
Record smhd_ok (x : SmhdBox) : Prop := {
  smhd_stands : stands (str "smhd") (smhd_base x) (smhd_body x);
  smhd_32 : is32 (smhd_version_flag_ x); smhd_16 : is16 (balance_ x) /\ is16 (smhd_reserved_ x)
}.
Lemma parsed_id {A} (x : parser A) s v : (forall p m, x (s ++ p) m = Done (Some (v, p, m))) -> parsed any x s v (fun t => t).
Proof. intros H p m _. by rewrite with_trak_id. Qed.
Lemma smhd_parsed x : smhd_ok x -> parsed any SmhdBox_Parse (smhd_bytes x) x (fun t => t).
Proof.
  intros [Hb H1 (?&?)]. apply parsed_id. intros p m. unfold SmhdBox_Parse. apply (stands_parsed _ _ _ _ _ _ _ Hb).
  intros start Hs. unfold smhd_body. psteps. pdone x.
Qed.

(** The fields of two bytes hold what one byte holds. *)
Definition vmhd_body (x : VmhdBox) : bytes := Write4Bytes (vmhd_version_flag_ x) ++ Write2Bytes (graphicsmode_ x) ++ Write2s (opcolor_ x).
Definition vmhd_bytes (x : VmhdBox) : bytes := box (str "vmhd") (vmhd_body x).
Record vmhd_ok (x : VmhdBox) : Prop := {
  vmhd_stands : stands (str "vmhd") (vmhd_base x) (vmhd_body x);
  vmhd_32 : is32 (vmhd_version_flag_ x); vmhd_8 : is_byte (graphicsmode_ x) /\ bytes_ok (opcolor_ x); vmhd_count : 3%nat = length (opcolor_ x)
}.
Lemma byte_is16 v : is_byte v -> is16 v.
Proof. unfold is_byte, is16. lia. Qed.
Lemma u8_byte v : is_byte v -> u8 v = v.
Proof. intros H. apply Z.mod_small. unfold is_byte in H. lia. Qed.
Lemma map_u8 l : bytes_ok l -> map u8 l = l.
Proof. induction 1 as [|v l Hv _ IH]; [done|]. cbn [map]. by rewrite u8_byte, IH. Qed.
Lemma vmhd_parsed x : vmhd_ok x -> parsed any VmhdBox_Parse (vmhd_bytes x) x (fun t => t).
Proof.
  intros [Hb H1 (Hg&Ho) Hc]. apply parsed_id. intros p m. unfold VmhdBox_Parse. apply (stands_parsed _ _ _ _ _ _ _ Hb).
  assert (is16 (graphicsmode_ x)) by by apply byte_is16. assert (Forall is16 (opcolor_ x)) by (eapply Forall_impl; eauto using byte_is16).
  intros start Hs. unfold vmhd_body. psteps. rewrite u8_byte by done.
  rewrite map_u8 by done.
  pdone x.
Qed.
