(* ===== verification/Mp4Movie.v ===== *)
(** * [Mp4Movie]: a whole [moov] box is parsed from the bytes that stand for it

    The tables of samples, the descriptions of H.264 and AAC and the containers, over
    the steps and leaves of [Mp4Parse].  What the boxes of a track say of it is its
    [TrakInfo]: [trak_info]. *)
From S2P Require Import Prelude ByteStream StringEx RtcTime H264 Mp4Box Mp4Parse.
From S2P Require Media.
Import Media(MEDIA_CODEC_TYPE(..)).

(** ** References to data *)

Definition url_body (x : UrlBox) : bytes := Write4Bytes (url_version_flag_ x) ++ location_ x.
Definition url_bytes (x : UrlBox) : bytes := box (str "url ") (url_body x).
Definition url_ok (x : UrlBox) : Prop := stands (str "url ") (url_base x) (url_body x) /\ is32 (url_version_flag_ x).
Lemma url_parsed x p m : url_ok x -> UrlBox_Parse (url_bytes x ++ p) m = Done (Some (x, p, m)).
Proof.
  intros [Hb H1]. unfold UrlBox_Parse. apply (stands_parsed _ _ _ _ _ _ _ Hb).
  intros start Hs. unfold url_body. psteps. pdone x.
Qed.

Definition dref_body (x : DrefBox) : bytes :=
  Write4Bytes (dref_version_flag_ x) ++ Write4Bytes (dref_entry_count_ x) ++ concat (map url_bytes (urls_box_ x)).
Definition dref_bytes (x : DrefBox) : bytes := box (str "dref") (dref_body x).
Record dref_ok (x : DrefBox) : Prop := {
  dref_stands : stands (str "dref") (dref_base x) (dref_body x);
  dref_32 : Forall is32 [dref_version_flag_ x; dref_entry_count_ x];
  dref_urls : Forall url_ok (urls_box_ x) /\ dref_entry_count_ x = zlen (urls_box_ x)
}.
Lemma to_nat_zlen {A} n (l : list A) : n = zlen l -> Z.to_nat n = length l.
Proof. intros ->. apply Nat2Z.id. Qed.
Lemma times_urls n l p m : n = zlen l -> Forall url_ok l ->
  times (Z.to_nat n) UrlBox_Parse (concat (map url_bytes l) ++ p) m = Done (Some (l, p, m)).
Proof. intros Hn H. apply times_plain; [by apply to_nat_zlen|]. intros a q Ha. apply url_parsed. by eapply Forall_forall in Ha. Qed.
#[export] Hint Resolve times_urls : mp4.
Lemma dref_parsed x p m : dref_ok x -> DrefBox_Parse (dref_bytes x ++ p) m = Done (Some (x, p, m)).
Proof.
  intros [Hb H1 (?&?)]. fields. unfold DrefBox_Parse. apply (stands_parsed _ _ _ _ _ _ _ Hb).
  intros start Hs. unfold dref_body. psteps. pdone x.
Qed.

Definition dinf_body (x : DinfBox) : bytes := dref_bytes (dref_ x).
Definition dinf_bytes (x : DinfBox) : bytes := box (str "dinf") (dinf_body x).
Definition dinf_ok (x : DinfBox) : Prop := stands (str "dinf") (dinf_base x) (dinf_body x) /\ dref_ok (dref_ x).
#[export] Hint Resolve dref_parsed : mp4.
Lemma dinf_parsed x : dinf_ok x -> parsed any DinfBox_Parse (dinf_bytes x) x (fun t => t).
Proof.
  intros [Hb H1]. apply parsed_id. intros p m. unfold DinfBox_Parse. apply (stands_parsed _ _ _ _ _ _ _ Hb).
  intros start Hs. unfold dinf_body. psteps. pdone x.
Qed.

(** ** Sample descriptions *)

(** The box [avcC] of a description, with the decoder configuration. *)
Definition sequence_bytes (x : VideoSequenceBox) : bytes := box (type_ (sequence_base x)) (sequence_box_data_ x).
Definition sequence_ok (x : VideoSequenceBox) : Prop := stands (type_ (sequence_base x)) (sequence_base x) (sequence_box_data_ x).
Definition sequence_info (x : VideoSequenceBox) (t : TrakInfo) : TrakInfo :=
  set_sequence_data (sequence_box_data_ x) (set_codec_type (GetCodecTypeByBoxType (type_ (sequence_base x))) t).
Lemma sequence_parsed x : sequence_ok x -> parsed any VideoSequenceBox_Parse (sequence_bytes x) x (sequence_info x).
Proof.
  intros Hb p m Hm. unfold VideoSequenceBox_Parse. apply (stands_parsed _ _ _ _ _ _ _ Hb).
  intros start Hs. psteps. pdone x.
Qed.

Definition avc_info_bytes (x : StsdAvcInfo) : bytes :=
  Write4Bytes (avc_reserved1_ x) ++ Write2Bytes (avc_reserved2_ x) ++ Write2Bytes (data_reference_index_ x) ++ Write2Bytes (codec_stream_version_ x) ++
  Write2Bytes (codec_stream_reversion_ x) ++ Write4s (avc_reserved3_ x) ++ Write2Bytes (avc_width_ x) ++ Write2Bytes (avc_height_ x) ++
  Write4Bytes (avc_horizontal_resolution_ x) ++ Write4Bytes (avc_vertical_resolution_ x) ++ Write4Bytes (data_size_ x) ++ Write2Bytes (frame_count_ x) ++
  compressorname_ x ++ Write2Bytes (alpha_ x) ++ Write2Bytes (avc_reserved4_ x).
Record avc_info_ok (x : StsdAvcInfo) : Prop := {
  avc_32 : Forall is32 [avc_reserved1_ x; avc_horizontal_resolution_ x; avc_vertical_resolution_ x; data_size_ x];
  avc_16 : Forall is16 [avc_reserved2_ x; data_reference_index_ x; codec_stream_version_ x; codec_stream_reversion_ x; avc_width_ x; avc_height_ x;
                        frame_count_ x; alpha_ x; avc_reserved4_ x];
  avc_lists : Forall is32 (avc_reserved3_ x) /\ 3%nat = length (avc_reserved3_ x) /\ 32%nat = length (compressorname_ x)
}.
Definition avc_info (x : StsdAvcInfo) (t : TrakInfo) : TrakInfo :=
  set_vertical_resolution (avc_vertical_resolution_ x) (set_horizontal_resolution (avc_horizontal_resolution_ x)
    (Mp4Box.set_height (avc_height_ x) (Mp4Box.set_width (avc_width_ x) t))).
Lemma avc_info_parsed x : avc_info_ok x -> parsed any StsdAvcInfo_Parse (avc_info_bytes x) x (avc_info x).
Proof.
  intros [H1 H2 (?&?&?)] p m Hm. fields. unfold StsdAvcInfo_Parse, avc_info_bytes. psteps. pdone x.
Qed.

(** Of the boxes behind the decoder configuration, [pasp] is written. *)
Definition pasp_body (x : PaspBox) : bytes := Write4Bytes (h_spacing_ x) ++ Write4Bytes (v_spacing_ x).
Definition pasp_bytes (x : PaspBox) : bytes := box (str "pasp") (pasp_body x).
Definition pasp_ok (x : PaspBox) : Prop := stands (str "pasp") (pasp_base x) (pasp_body x) /\ is32 (h_spacing_ x) /\ is32 (v_spacing_ x).
Lemma pasp_parsed x p m : pasp_ok x -> PaspBox_Parse (pasp_bytes x ++ p) m = Done (Some (x, p, m)).
Proof.
  intros (Hb & H1 & H2). unfold PaspBox_Parse, pasp_bytes. destruct Hb as [Hb Hok].
  erewrite bind_ok by by apply Mp4BoxBase_ok. unfold pasp_body at 2. psteps. rewrite <- Hb. pdone x.
Qed.
#[export] Hint Resolve parsed_step | 20 : mp4.
#[export] Hint Resolve sequence_parsed avc_info_parsed pasp_parsed : mp4.

(** Tests on the types of boxes are decided. *)
Ltac pdecide := repeat match goal with |- context [bool_decide (?a = ?b)] =>
  let v := eval vm_compute in (bool_decide (a = b)) in change (bool_decide (a = b)) with v; cbv iota end.

(** One case of [children_opt]: its header stands, and the parser moves over it. *)
Ltac opt_child Hx := split; [destruct Hx as [[_ ?]]; assumption|]; split; [done|]; apply parsed_id; intros p m.

(** The loop over the children that fill the rest of a box. *)
Lemma stands_size t b s : stands t b s -> zlen s <= box_size_ b.
Proof. intros [-> _]. cbn [hd box_size_]. lia. Qed.
Lemma app_size {A} (a s : list A) n : zlen (a ++ s) <= n -> zlen s <= n.
Proof. rewrite zlen_app. pose proof (zlen_nonneg a). lia. Qed.
Ltac pchildren C Hb := erewrite bind_ok by
  (eapply boxes_ok; [eapply C; eassumption|eassumption|eapply stands_size in Hb; repeat first [exact Hb|apply app_size in Hb]|lia|
    first [eassumption|typeclasses eauto with mp4 nocore]]); cbv beta iota zeta.

Definition avc1_tail (x : Avc1Box) : bytes := opt_bytes pasp_bytes (pasp_box_ x) ++ [].
Definition avc1_body (x : Avc1Box) : bytes := avc_info_bytes (avc1_info x) ++ sequence_bytes (video_hdr_box_ x) ++ avc1_tail x.
Definition avc1_bytes (x : Avc1Box) : bytes := box (str "avc1") (avc1_body x).
Record avc1_ok (x : Avc1Box) : Prop := {
  avc1_stands : stands (str "avc1") (avc1_base x) (avc1_body x);
  avc1_info_ok : avc_info_ok (avc1_info x);
  avc1_hdr_ok : sequence_ok (video_hdr_box_ x);
  avc1_pasp_ok : opt_ok pasp_ok (pasp_box_ x);
  avc1_unknown : avc1_unknown_boxes_ x = []
}.
Definition avc1_trak (x : Avc1Box) (t : TrakInfo) : TrakInfo := sequence_info (video_hdr_box_ x) (avc_info (avc1_info x) t).
Lemma avc1_children x : opt_ok pasp_ok (pasp_box_ x) -> avc1_unknown_boxes_ x = [] ->
  children avc1_item any (mkAvc1 (avc1_base x) (avc1_info x) (video_hdr_box_ x) None []) (avc1_tail x) x (opt_info (fun _ t => t) (pasp_box_ x)).
Proof.
  intros Ho Hu. destruct x as [b i h o u]. cbn in Hu. subst u. unfold avc1_tail. cbn [pasp_box_] in *.
  apply (children_opt avc1_item any any (fun o => mkAvc1 b i h o []) o (str "pasp") pasp_body pasp_bytes (fun _ t => t) pasp_ok [] _ (fun t => t));
    [|done|done|apply children_nil].
  intros x Hx. opt_child Hx. unfold avc1_item. pdecide. psteps. done.
Qed.
Lemma opt_info_id {X} (o : option X) t : opt_info (fun _ t => t) o t = t.
Proof. by destruct o. Qed.
Lemma avc1_parsed x : avc1_ok x -> parsed any Avc1Box_Parse (avc1_bytes x) x (avc1_trak x).
Proof.
  intros [Hb H1 H2 H3 H4] p m Hm. unfold Avc1Box_Parse. apply (stands_parsed _ _ _ _ _ _ _ Hb).
  intros start Hs. unfold avc1_body in *. psteps. pchildren avc1_children Hb. psteps.
  rewrite !with_trak_with. unfold mret, parser_ret. do 3 f_equal. apply with_trak_ext. intros. by rewrite opt_info_id.
Qed.

(** The description of AAC: what follows the fields is the sequence data. *)
Definition mp4a_body (x : Mp4aBox) (rest : bytes) : bytes :=
  Write4Bytes (mp4a_reserved1_ x) ++ Write2Bytes (mp4a_reserved2_ x) ++ Write2Bytes (data_ref_index_ x) ++ Write2Bytes (mp4a_version_ x) ++
  Write2Bytes (revision_level_ x) ++ Write4Bytes (mp4a_reserved3_ x) ++ Write2Bytes (mp4a_channelcount_ x) ++ Write2Bytes (mp4a_samplesize_ x) ++
  Write2Bytes (mp4a_pre_defined_ x) ++ Write2Bytes (mp4a_reserved4_ x) ++ Write4Bytes (Z.shiftl (mp4a_samplerate_ x) 16) ++ rest.
Definition mp4a_bytes (x : Mp4aBox) (rest : bytes) : bytes := box (str "mp4a") (mp4a_body x rest).
Record mp4a_ok (x : Mp4aBox) (rest : bytes) : Prop := {
  mp4a_stands : stands (str "mp4a") (mp4a_base x) (mp4a_body x rest);
  mp4a_32 : Forall is32 [mp4a_reserved1_ x; mp4a_reserved3_ x];
  mp4a_16 : Forall is16 [mp4a_reserved2_ x; data_ref_index_ x; mp4a_version_ x; revision_level_ x; mp4a_channelcount_ x; mp4a_samplesize_ x;
                         mp4a_pre_defined_ x; mp4a_reserved4_ x; mp4a_samplerate_ x];
  mp4a_rest : 0 < zlen rest < 2 ^ 31
}.
Definition mp4a_trak (x : Mp4aBox) (rest : bytes) (t : TrakInfo) : TrakInfo :=
  set_sequence_data rest (set_samplerate (mp4a_samplerate_ x) (set_samplesize (mp4a_samplesize_ x) (set_channelcount (mp4a_channelcount_ x) t))).
Lemma left_ok start b s p m : at_start start b p -> left_in start b (s ++ p) m = Done (Some (zlen s, s ++ p, m)).
Proof. intros H. rewrite (at_left _ _ _ H), zlen_app. do 4 f_equal. lia. Qed.
Lemma here_ok p m : here p m = Done (Some (p, p, m)).
Proof. done. Qed.
#[export] Hint Resolve left_ok here_ok : mp4.
Lemma read_all s p : read_range (s ++ p) 0 (zlen s) = Done s.
Proof. apply (read_range_mid [] s p). Qed.
Lemma lift_ok {A} (o : outcome A) v p m : o = Done v -> lift o p m = Done (Some (v, p, m)).
Proof. by intros ->. Qed.
Lemma shift16 v : Z.shiftr (Z.shiftl v 16) 16 = v.
Proof. rewrite Z.shiftr_shiftl_l by lia. apply Z.shiftl_0_r. Qed.
Lemma is16_shift v : is16 v -> is32 (Z.shiftl v 16).
Proof. unfold is16, is32. rewrite Z.shiftl_mul_pow2 by lia. lia. Qed.
Lemma mp4a_parsed x rest : mp4a_ok x rest -> parsed any Mp4aBox_Parse (mp4a_bytes x rest) x (mp4a_trak x rest).
Proof.
  intros [Hb H1 H2 H3] p m Hm. fields. unfold Mp4aBox_Parse. apply (stands_parsed _ _ _ _ _ _ _ Hb).
  assert (is32 (Z.shiftl (mp4a_samplerate_ x) 16)) by by apply is16_shift.
  intros start Hs. unfold mp4a_body. psteps. rewrite (proj2 (Z.ltb_lt 0 (zlen rest))) by lia.
  erewrite bind_ok by by apply lift_ok. psteps. cbv beta. rewrite i32_small, (proj2 (Z.ltb_ge _ _)) by lia.
  erewrite bind_ok by apply lift_ok, read_all. psteps. rewrite !shift16. pdone x.
Qed.

(** [stsd] with one entry, for the kind of the track. *)
Definition is_handler (h : bytes) (t : TrakInfo) : Prop := handler_type_ t = h.
Inductive description := Video (x : Avc1Box) | Audio (x : Mp4aBox) (rest : bytes).
Definition description_bytes (d : description) : bytes :=
  match d with Video x => avc1_bytes x | Audio x rest => mp4a_bytes x rest end.
Definition description_ok (d : description) : Prop :=
  match d with Video x => avc1_ok x | Audio x rest => mp4a_ok x rest end.
Definition description_info (d : description) (t : TrakInfo) : TrakInfo :=
  match d with Video x => avc1_trak x t | Audio x rest => mp4a_trak x rest (set_codec_type MEDIA_CODEC_AAC t) end.
Definition description_handler (d : description) : bytes := match d with Video _ => str "vide" | Audio _ _ => str "soun" end.
Definition stsd_of (version_flag : Z) (d : description) : StsdBox :=
  let b := hd (str "stsd") (Write4Bytes version_flag ++ Write4Bytes 1 ++ description_bytes d) in
  match d with
  | Video x => mkStsd b version_flag 1 [str "avc1"] (Some x) None None []
  | Audio x _ => mkStsd b version_flag 1 [str "mp4a"] None None (Some x) []
  end.
Definition stsd_body (version_flag : Z) (d : description) : bytes := Write4Bytes version_flag ++ Write4Bytes 1 ++ description_bytes d.
Definition stsd_bytes (version_flag : Z) (d : description) : bytes := box (str "stsd") (stsd_body version_flag d).
Definition stsd_ok (version_flag : Z) (d : description) : Prop :=
  is32 version_flag /\ box_ok (str "stsd") (stsd_body version_flag d) /\ description_ok d.
#[export] Hint Resolve avc1_parsed mp4a_parsed : mp4.

Section movie.
Context `{Uninit}.

Lemma stsd_item_ok d start (b b' : BoxHeader) v n p m : at_start start b p -> description_ok d -> has_trak (is_handler (description_handler d)) m ->
  stsd_item (match d with Video _ => str "avc1" | Audio _ _ => str "mp4a" end) (mkStsd b' v n [] None None None []) (description_bytes d ++ p) m =
  Done (Some (match d with
              | Video x => mkStsd b' v n [str "avc1"] (Some x) None None []
              | Audio x _ => mkStsd b' v n [str "mp4a"] None None (Some x) []
              end, p, with_trak (description_info d) m)).
Proof.
  intros Hs Hd (l & t & E & Ht). assert (has_trak any m) as Hm by by exists l, t.
  unfold stsd_item. erewrite bind_ok by by eapply the_trak_ok. unfold is_handler in Ht.
  destruct d as [x|x rest]; cbn [description_handler description_bytes description_info description_ok] in *; rewrite Ht; pdecide.
  - psteps. done.
  - psteps. change (GetCodecTypeByBoxType (str "mp4a")) with MEDIA_CODEC_AAC. unfold mret, parser_ret. by rewrite with_trak_with.
Qed.
Lemma description_box d : description_ok d -> exists body,
  description_bytes d = box (match d with Video _ => str "avc1" | Audio _ _ => str "mp4a" end) body /\
  box_ok (match d with Video _ => str "avc1" | Audio _ _ => str "mp4a" end) body.
Proof. destruct d as [x|x rest]; intros [[_ Hb]]; by eexists. Qed.
Lemma stsd_parsed v d : stsd_ok v d -> parsed (is_handler (description_handler d)) StsdBox_Parse (stsd_bytes v d) (stsd_of v d) (description_info d).
Proof.
  intros (Hv & Hb & Hd) p m Hm. unfold StsdBox_Parse.
  apply (stands_parsed _ (hd (str "stsd") (stsd_body v d))); [done|]. intros start Hs.
  assert (is32 1) by done. destruct (description_box d Hd) as (body & E & Hd').
  assert (zlen body < zlen (stsd_body v d)) as Hz.
  { unfold stsd_body. rewrite E, !zlen_app, box_zlen by apply Hd'. change (zlen (Write4Bytes _)) with 4. lia. }
  replace (stsd_body v d ++ p) with (Write4Bytes v ++ Write4Bytes 1 ++ description_bytes d ++ p) by (unfold stsd_body; by rewrite <- !app_assoc).
  psteps. change (Z.to_nat 1) with 1%nat. cbn [stsd_entries].
  erewrite bind_ok; [|erewrite bind_ok by (rewrite E; by apply box_type_ok); cbv beta iota; rewrite <- E;
    erewrite bind_ok by (apply lift_ok; cbn [hd box_size_]; by rewrite (proj2 (Z.ltb_lt _ _)) by lia);
    erewrite bind_ok by (by apply (stsd_item_ok _ start (hd (str "stsd") (stsd_body v d))));
    erewrite bind_ok by apply (at_left _ _ _ Hs); rewrite Z.sub_diag; by erewrite bind_ok by by apply lift_ok].
  cbv beta. psteps. by destruct d.
Qed.

(** ** The tables of samples *)

Definition sample_entry_ok (e : SampleEntry) : Prop := is32 (sample_count_ e) /\ is32 (samples_delta_ e).
Definition sample_entry_bytes (e : SampleEntry) : bytes := Write4Bytes (sample_count_ e) ++ Write4Bytes (samples_delta_ e).
Definition stts_body (x : SttsBox) : bytes :=
  Write4Bytes (stts_version_flag_ x) ++ Write4Bytes (stts_entry_count_ x) ++ concat (map sample_entry_bytes (stts_sample_entries_ x)).
Definition stts_bytes (x : SttsBox) : bytes := box (str "stts") (stts_body x).
Record stts_ok (x : SttsBox) : Prop := {
  stts_stands : stands (str "stts") (stts_base x) (stts_body x);
  stts_32 : Forall is32 [stts_version_flag_ x; stts_entry_count_ x];
  stts_entries : Forall sample_entry_ok (stts_sample_entries_ x);
  stts_count : stts_entry_count_ x = zlen (stts_sample_entries_ x)
}.
Definition stts_info (x : SttsBox) (t : TrakInfo) : TrakInfo := set_sample_entries (sample_entries_ t ++ stts_sample_entries_ x) t.
(** Entries that a loop appends to a vector one by one. *)
Lemma append_all {B} (get : TrakInfo -> list B) (set : list B -> TrakInfo -> TrakInfo) l t :
  (forall v t, get (set v t) = v) -> (forall v w t, set v (set w t) = set v t) -> (forall t, set (get t) t = t) ->
  foldl (fun t a => set (get t ++ [a]) t) t l = set (get t ++ l) t.
Proof.
  intros H1 H2 H3. revert t. induction l as [|a l IH]; intros t; cbn [foldl]; [by rewrite app_nil_r, H3|].
  by rewrite IH, H1, H2, <- app_assoc.
Qed.
Lemma times_append {B} (x : parser B) enc ok (get : TrakInfo -> list B) set n l p m :
  n = zlen l -> Forall ok l ->
  (forall v t, get (set v t) = v) -> (forall v w t, set v (set w t) = set v t) -> (forall t, set (get t) t = t) ->
  (forall a q m, ok a -> has_trak any m -> x (enc a ++ q ++ p) m = Done (Some (a, q ++ p, with_trak (fun t => set (get t ++ [a]) t) m))) ->
  has_trak any m ->
  times (Z.to_nat n) x (concat (map enc l) ++ p) m = Done (Some (l, p, with_trak (fun t => set (get t ++ l) t) m)).
Proof.
  intros Hn Hl H1 H2 H3 Hx Hm. erewrite (times_ok x enc (fun a t => set (get t ++ [a]) t)); [|by apply to_nat_zlen| |done].
  - do 3 f_equal. apply with_trak_ext. intros. by apply append_all.
  - intros a q m' Ha. apply Hx. by eapply Forall_forall in Ha.
Qed.
Lemma stts_parsed x : stts_ok x -> parsed any SttsBox_Parse (stts_bytes x) x (stts_info x).
Proof.
  intros [Hb H1 H2 H3] p m Hm. fields. unfold SttsBox_Parse. apply (stands_parsed _ _ _ _ _ _ _ Hb).
  intros start Hs. unfold stts_body. psteps.
  erewrite bind_ok by (apply (times_append _ _ sample_entry_ok sample_entries_ set_sample_entries); try done; [by intros []|];
    intros a q m' [? ?] ?; unfold sample_entry_bytes; psteps; by destruct a).
  psteps. pdone x.
Qed.

Definition sample_offset_ok (e : SampleOffset) : Prop := is32 (sample_counts_ e) /\ is32 (sample_offsets_ e).
Definition sample_offset_bytes (e : SampleOffset) : bytes := Write4Bytes (sample_counts_ e) ++ Write4Bytes (sample_offsets_ e).
(** The offsets are unsigned in version 0; those of version 1 have a sign, which the code
    does not know ([signed_offset_unsigned]). *)
Definition ctts_body (x : CttsBox) : bytes :=
  Write4Bytes (ctts_version_flag_ x) ++ Write4Bytes (ctts_entry_count_ x) ++ concat (map sample_offset_bytes (ctts_sample_offset_vec_ x)).
Definition ctts_bytes (x : CttsBox) : bytes := box (str "ctts") (ctts_body x).
Record ctts_ok (x : CttsBox) : Prop := {
  ctts_stands : stands (str "ctts") (ctts_base x) (ctts_body x);
  ctts_version : version_of (ctts_version_flag_ x) = 0;
  ctts_32 : Forall is32 [ctts_version_flag_ x; ctts_entry_count_ x];
  ctts_entries : Forall sample_offset_ok (ctts_sample_offset_vec_ x);
  ctts_count : ctts_entry_count_ x = zlen (ctts_sample_offset_vec_ x)
}.
Definition ctts_info (x : CttsBox) (t : TrakInfo) : TrakInfo := set_sample_offset_vec (sample_offset_vec_ t ++ ctts_sample_offset_vec_ x) t.
Lemma ctts_parsed x : ctts_ok x -> parsed any CttsBox_Parse (ctts_bytes x) x (ctts_info x).
Proof.
  intros [Hb _ H1 H2 H3] p m Hm. fields. unfold CttsBox_Parse. apply (stands_parsed _ _ _ _ _ _ _ Hb).
  intros start Hs. unfold ctts_body. psteps.
  erewrite bind_ok by (apply (times_append _ _ sample_offset_ok sample_offset_vec_ set_sample_offset_vec); try done; [by intros []|];
    intros a q m' [? ?] ?; unfold sample_offset_bytes; psteps; by destruct a).
  psteps. pdone x.
Qed.

Definition stss_body (x : StssBox) : bytes :=
  Write4Bytes (stss_version_flag_ x) ++ Write4Bytes (stss_entry_count_ x) ++ Write4s (stss_iframe_sample_vec_ x).
Definition stss_bytes (x : StssBox) : bytes := box (str "stss") (stss_body x).
Record stss_ok (x : StssBox) : Prop := {
  stss_stands : stands (str "stss") (stss_base x) (stss_body x);
  stss_32 : Forall is32 [stss_version_flag_ x; stss_entry_count_ x];
  stss_entries : Forall is32 (stss_iframe_sample_vec_ x);
  stss_count : stss_entry_count_ x = zlen (stss_iframe_sample_vec_ x)
}.
Definition stss_info (x : StssBox) (t : TrakInfo) : TrakInfo := set_iframe_sample_vec (iframe_sample_vec_ t ++ stss_iframe_sample_vec_ x) t.
Lemma stss_parsed x : stss_ok x -> parsed any StssBox_Parse (stss_bytes x) x (stss_info x).
Proof.
  intros [Hb H1 H2 H3] p m Hm. fields. unfold StssBox_Parse. apply (stands_parsed _ _ _ _ _ _ _ Hb).
  intros start Hs. unfold stss_body. psteps.
  erewrite bind_ok by (apply (times_append _ _ is32 iframe_sample_vec_ set_iframe_sample_vec); try done; [by intros []|];
    intros a q m' ? ?; psteps; done).
  psteps. pdone x.
Qed.

Definition chunk_sample_ok (e : ChunkSample) : Prop := is32 (first_chunk_ e) /\ is32 (samples_per_chunk_ e) /\ is32 (sample_description_index_ e).
Definition chunk_sample_bytes (e : ChunkSample) : bytes :=
  Write4Bytes (first_chunk_ e) ++ Write4Bytes (samples_per_chunk_ e) ++ Write4Bytes (sample_description_index_ e).
Definition stsc_body (x : StscBox) : bytes :=
  Write4Bytes (stsc_version_flag_ x) ++ Write4Bytes (stsc_entry_count_ x) ++ concat (map chunk_sample_bytes (stsc_chunk_sample_vec_ x)).
Definition stsc_bytes (x : StscBox) : bytes := box (str "stsc") (stsc_body x).
Record stsc_ok (x : StscBox) : Prop := {
  stsc_stands : stands (str "stsc") (stsc_base x) (stsc_body x);
  stsc_32 : Forall is32 [stsc_version_flag_ x; stsc_entry_count_ x];
  stsc_entries_ok : Forall chunk_sample_ok (stsc_chunk_sample_vec_ x);
  stsc_count : stsc_entry_count_ x = zlen (stsc_chunk_sample_vec_ x)
}.
Definition stsc_info (x : StscBox) (t : TrakInfo) : TrakInfo := set_chunk_sample_vec (chunk_sample_vec_ t ++ stsc_chunk_sample_vec_ x) t.
Lemma stsc_entries_parsed l start b p m : at_start start b p -> Forall chunk_sample_ok l -> has_trak any m ->
  stsc_entries (length l) start b (concat (map chunk_sample_bytes l) ++ p) m =
  Done (Some (l, p, with_trak (fun t => set_chunk_sample_vec (chunk_sample_vec_ t ++ l) t) m)).
Proof.
  intros Hs Hl. revert m. induction Hl as [|a l (H1 & H2 & H3) _ IH]; intros m Hm; cbn [length stsc_entries map concat].
  - cbn [app]. rewrite (with_trak_ext _ (fun t => t)), with_trak_id; [done|]. intros []. cbn. by rewrite app_nil_r.
  - rewrite <- app_assoc. erewrite bind_ok by apply (at_left _ _ _ Hs).
    rewrite (proj2 (Z.leb_gt _ _)) by (unfold chunk_sample_bytes; rewrite !zlen_app; change (zlen (Write4Bytes _)) with 4;
      match goal with |- context [zlen (concat ?l)] => pose proof (zlen_nonneg (concat l)) end; lia).
    unfold chunk_sample_bytes at 1. psteps.
    unfold mret, parser_ret. rewrite with_trak_with. destruct a. do 3 f_equal.
    apply with_trak_ext. intros []. cbn. by rewrite <- app_assoc.
Qed.
Lemma stsc_parsed x : stsc_ok x -> parsed any StscBox_Parse (stsc_bytes x) x (stsc_info x).
Proof.
  intros [Hb H1 H2 H3] p m Hm. fields. unfold StscBox_Parse. apply (stands_parsed _ _ _ _ _ _ _ Hb).
  intros start Hs. unfold stsc_body. psteps. rewrite (to_nat_zlen _ _ H3).
  erewrite bind_ok by by apply stsc_entries_parsed. psteps. pdone x.
Qed.

(** A size for each sample, or one size for all of them: of those the code makes no
    sizes ([constant_size_lost]), so that only the former are taken here. *)
Definition stsz_body (x : StszBox) : bytes :=
  Write4Bytes (stsz_version_flag_ x) ++ Write4Bytes (constant_size_ x) ++ Write4Bytes (stsz_sample_count_ x) ++ Write4s (stsz_sample_sizes_vec_ x).
Definition stsz_bytes (x : StszBox) : bytes := box (str "stsz") (stsz_body x).
Record stsz_ok (x : StszBox) : Prop := {
  stsz_stands : stands (str "stsz") (stsz_base x) (stsz_body x);
  stsz_32 : Forall is32 [stsz_version_flag_ x; constant_size_ x; stsz_sample_count_ x];
  stsz_entries : Forall is32 (stsz_sample_sizes_vec_ x);
  stsz_each : constant_size_ x = 0;
  stsz_count : stsz_sample_count_ x = zlen (stsz_sample_sizes_vec_ x)
}.
Definition stsz_sizes (x : StszBox) : list Z :=
  if constant_size_ x =? 0 then stsz_sample_sizes_vec_ x else replicate (Z.to_nat (stsz_sample_count_ x)) (constant_size_ x).
Definition stsz_info (x : StszBox) : TrakInfo -> TrakInfo := set_sample_sizes_vec (stsz_sizes x).
Lemma times_table n l p m : n = zlen l -> Forall is32 l -> times (Z.to_nat n) rd4 (Write4s l ++ p) m = Done (Some (l, p, m)).
Proof. intros Hn. apply times_rd4. by apply to_nat_zlen. Qed.
Hint Resolve times_table : mp4.
Lemma stsz_parsed x : stsz_ok x -> parsed any StszBox_Parse (stsz_bytes x) x (stsz_info x).
Proof.
  intros [Hb H1 H2 H0 H3] p m Hm. fields. unfold StszBox_Parse. apply (stands_parsed _ _ _ _ _ _ _ Hb).
  intros start Hs. unfold stsz_body. psteps. unfold stsz_info, stsz_sizes. rewrite (proj2 (Z.eqb_eq _ _) H0).
  erewrite bind_ok by (psteps; done). psteps. pdone x.
Qed.

Definition stco_body (x : StcoBox) : bytes :=
  Write4Bytes (stco_version_flag_ x) ++ Write4Bytes (stco_entry_count_ x) ++ Write4s (stco_chunk_offsets_vec_ x).
Definition stco_bytes (x : StcoBox) : bytes := box (str "stco") (stco_body x).
Record stco_ok (x : StcoBox) : Prop := {
  stco_stands : stands (str "stco") (stco_base x) (stco_body x);
  stco_32 : Forall is32 [stco_version_flag_ x; stco_entry_count_ x];
  stco_entries : Forall is32 (stco_chunk_offsets_vec_ x);
  stco_count : stco_entry_count_ x = zlen (stco_chunk_offsets_vec_ x)
}.
Definition stco_info (x : StcoBox) (t : TrakInfo) : TrakInfo := set_chunk_offsets_vec (stco_chunk_offsets_vec_ x) t.
Lemma stco_parsed x : stco_ok x -> parsed any StcoBox_Parse (stco_bytes x) x (stco_info x).
Proof.
  intros [Hb H1 H2 H3] p m Hm. fields. unfold StcoBox_Parse. apply (stands_parsed _ _ _ _ _ _ _ Hb).
  intros start Hs. unfold stco_body. psteps. pdone x.
Qed.

(** ** The containers *)

Hint Resolve stts_parsed ctts_parsed stss_parsed stsc_parsed stsz_parsed stco_parsed smhd_parsed vmhd_parsed dinf_parsed
  mdhd_parsed hdlr_parsed tkhd_parsed : mp4.

Record stbl_desc := mkStblDesc {
  d_stsd_flag : Z; d_description : description; d_stts : SttsBox; d_stss : option StssBox; d_ctts : option CttsBox; d_stsc : StscBox; d_stsz : StszBox; d_stco : StcoBox
}.
Definition stbl_body (s : stbl_desc) : bytes :=
  stsd_bytes (d_stsd_flag s) (d_description s) ++ stts_bytes (d_stts s) ++ opt_bytes stss_bytes (d_stss s) ++ opt_bytes ctts_bytes (d_ctts s) ++
  stsc_bytes (d_stsc s) ++ stsz_bytes (d_stsz s) ++ stco_bytes (d_stco s) ++ [].
Definition stbl_bytes (s : stbl_desc) : bytes := box (str "stbl") (stbl_body s).
Record stbl_ok (s : stbl_desc) : Prop := {
  stbl_box : box_ok (str "stbl") (stbl_body s);
  stbl_stsd : stsd_ok (d_stsd_flag s) (d_description s);
  stbl_stts : stts_ok (d_stts s);
  stbl_opts : opt_ok stss_ok (d_stss s) /\ opt_ok ctts_ok (d_ctts s);
  stbl_chunks : stsc_ok (d_stsc s) /\ stsz_ok (d_stsz s) /\ stco_ok (d_stco s)
}.
Definition stbl_of (s : stbl_desc) : StblBox :=
  mkStbl (hd (str "stbl") (stbl_body s)) (Some (stsd_of (d_stsd_flag s) (d_description s))) (Some (d_stts s)) (d_ctts s) (d_stss s)
    (Some (d_stsc s)) (Some (d_stsz s)) (Some (d_stco s)) [].
Definition stbl_info (s : stbl_desc) (t : TrakInfo) : TrakInfo :=
  stco_info (d_stco s) (stsz_info (d_stsz s) (stsc_info (d_stsc s)
    (opt_info ctts_info (d_ctts s) (opt_info stss_info (d_stss s) (stts_info (d_stts s) (description_info (d_description s) t)))))).

(** A child of a container: its type picks the parser, and the parser reads it. *)
Ltac head_of t := lazymatch t with ?f _ => head_of f | _ => t end.
Ltac unfold_item := lazymatch goal with |- ?l = _ => let h := head_of l in unfold h end; cbv beta zeta; pdecide.
Ltac child_item L :=
  let p := fresh "p" in let m := fresh "m" in let Hm := fresh "Hm" in
  intros p m Hm; unfold_item; erewrite bind_ok by (eapply L; first [eassumption|eapply has_trak_any; eassumption]); cbv beta zeta iota; reflexivity.
Ltac child R L H := eapply (children_cons _ _ R); [destruct H as [[_ ?]]; eassumption|child_item L|try done|].
Ltac child_opt R put info ok L := eapply (children_opt _ R R put _ _ _ _ info ok);
  [let x := fresh "x" in let Hx := fresh "Hx" in
   intros x Hx; split; [destruct Hx as [[_ ?]]; eassumption|]; split; [reflexivity|child_item L]|assumption|intros; first [exact I|by rewrite opt_info_id]|].

(** A container whose children do to the track what [e] says. *)
Definition holds_children {A} (item : bytes -> A -> parser A) P x s y (e : TrakInfo -> TrakInfo) : Prop :=
  exists f, children item P x s y f /\ forall t, f t = e t.
Lemma container_ok {A} item P (x : A) s y e start b slack p m : holds_children item P x s y e ->
  at_start start b p -> zlen s <= box_size_ b -> 0 <= slack < 8 -> has_trak P m ->
  boxes start b slack item x (s ++ p) m = Done (Some (y, p, with_trak e m)).
Proof.
  intros (f & Hc & Hf) Hs Hb Hk Hm. rewrite (boxes_ok _ _ _ _ _ _ _ _ _ _ _ Hc Hs Hb Hk Hm). by rewrite (with_trak_ext f e).
Qed.

Lemma stbl_children s b : stbl_ok s ->
  holds_children stbl_item (is_handler (description_handler (d_description s))) (mkStbl b None None None None None None None []) (stbl_body s)
    (mkStbl b (Some (stsd_of (d_stsd_flag s) (d_description s))) (Some (d_stts s)) (d_ctts s) (d_stss s)
      (Some (d_stsc s)) (Some (d_stsz s)) (Some (d_stco s)) []) (stbl_info s).
Proof.
  intros [_ H1 H2 (H3&H4) (H5&H6&H7)]. destruct s as [v d i s c k z o]. unfold stbl_body, stbl_info.
  cbn [d_stsd_flag d_description d_stts d_stss d_ctts d_stsc d_stsz d_stco] in *. eexists. split.
  { eapply children_cons with (Q := any); [apply H1| |done|].
    { intros p m Hm. unfold_item. by erewrite bind_ok by by apply stsd_parsed. }
    child any stts_parsed H2. cbn [stbl_base stsd_ stts_ ctts_ stss_ stsc_ stsz_ stco_ stbl_unknown_boxes_].
    child_opt any (fun o => mkStbl b (Some (stsd_of v d)) (Some i) None o None None None []) stss_info stss_ok stss_parsed.
    child_opt any (fun o => mkStbl b (Some (stsd_of v d)) (Some i) o s None None None []) ctts_info ctts_ok ctts_parsed.
    child any stsc_parsed H5. child any stsz_parsed H6. child any stco_parsed H7.
    cbn [stbl_base stsd_ stts_ ctts_ stss_ stsc_ stsz_ stco_ stbl_unknown_boxes_]. apply children_nil. }
  done.
Qed.
Lemma stbl_parsed s : stbl_ok s ->
  parsed (is_handler (description_handler (d_description s))) StblBox_Parse (stbl_bytes s) (stbl_of s) (stbl_info s).
Proof.
  intros Hs p m Hm. unfold StblBox_Parse. apply (stands_parsed _ (hd (str "stbl") (stbl_body s))); [split; [done|apply Hs]|].
  intros start Ha. erewrite bind_ok by (eapply container_ok; [by apply stbl_children|exact Ha|cbn [hd box_size_]; lia|lia|exact Hm]).
  psteps. done.
Qed.

Record minf_desc := mkMinfDesc { d_vmhd : option VmhdBox; d_smhd : option SmhdBox; d_dinf : option DinfBox; d_stbl : stbl_desc }.
Definition minf_body (s : minf_desc) : bytes :=
  opt_bytes vmhd_bytes (d_vmhd s) ++ opt_bytes smhd_bytes (d_smhd s) ++ opt_bytes dinf_bytes (d_dinf s) ++ stbl_bytes (d_stbl s) ++ [].
Definition minf_bytes (s : minf_desc) : bytes := box (str "minf") (minf_body s).
Record minf_ok (s : minf_desc) : Prop := {
  minf_box : box_ok (str "minf") (minf_body s);
  minf_opts : opt_ok vmhd_ok (d_vmhd s) /\ opt_ok smhd_ok (d_smhd s) /\ opt_ok dinf_ok (d_dinf s);
  minf_stbl_ok : stbl_ok (d_stbl s)
}.
Definition minf_of (s : minf_desc) : MinfBox :=
  mkMinf (hd (str "minf") (minf_body s)) (d_smhd s) (d_vmhd s) (d_dinf s) (Some (stbl_of (d_stbl s))) [].
Definition minf_handler (s : minf_desc) : bytes := description_handler (d_description (d_stbl s)).
Lemma minf_children s b : minf_ok s ->
  holds_children minf_item (is_handler (minf_handler s)) (mkMinf b None None None None []) (minf_body s)
    (mkMinf b (d_smhd s) (d_vmhd s) (d_dinf s) (Some (stbl_of (d_stbl s))) []) (stbl_info (d_stbl s)).
Proof.
  intros [_ (H1&H2&H3) H4]. destruct s as [v s d k]. unfold minf_body, minf_handler. cbn [d_vmhd d_smhd d_dinf d_stbl] in *. eexists. split.
  { child_opt (is_handler (description_handler (d_description k))) (fun o => mkMinf b None o None None []) (fun (_ : VmhdBox) (t : TrakInfo) => t) vmhd_ok vmhd_parsed.
    child_opt (is_handler (description_handler (d_description k))) (fun o => mkMinf b o v None None []) (fun (_ : SmhdBox) (t : TrakInfo) => t) smhd_ok smhd_parsed.
    child_opt (is_handler (description_handler (d_description k))) (fun o => mkMinf b s v o None []) (fun (_ : DinfBox) (t : TrakInfo) => t) dinf_ok dinf_parsed.
    eapply (children_cons _ _ any); [apply H4|child_item stbl_parsed|done|apply children_nil]. }
  intros t. cbv beta. by rewrite !opt_info_id.
Qed.
Lemma minf_parsed s : minf_ok s -> parsed (is_handler (minf_handler s)) MinfBox_Parse (minf_bytes s) (minf_of s) (stbl_info (d_stbl s)).
Proof.
  intros Hs p m Hm. unfold MinfBox_Parse. apply (stands_parsed _ (hd (str "minf") (minf_body s))); [split; [done|apply Hs]|].
  intros start Ha. erewrite bind_ok by (eapply container_ok; [by apply minf_children|exact Ha|cbn [hd box_size_]; lia|lia|exact Hm]).
  psteps. done.
Qed.

(** The handler of a track is the one of its sample description. *)
Record mdia_desc := mkMdiaDesc { d_mdhd : MdhdBox; d_mdhd_more : bytes; d_hdlr : HdlrBox; d_minf : minf_desc }.
Definition mdia_body (s : mdia_desc) : bytes := mdhd_bytes (d_mdhd s) (d_mdhd_more s) ++ hdlr_bytes (d_hdlr s) ++ minf_bytes (d_minf s) ++ [].
Definition mdia_bytes (s : mdia_desc) : bytes := box (str "mdia") (mdia_body s).
Record mdia_ok (s : mdia_desc) : Prop := {
  mdia_box : box_ok (str "mdia") (mdia_body s);
  mdia_mdhd_ok : mdhd_ok (d_mdhd s) (d_mdhd_more s);
  mdia_hdlr_ok : hdlr_ok (d_hdlr s);
  mdia_minf_ok : minf_ok (d_minf s);
  mdia_kind : Uint32ToString (hdlr_handler_type_ (d_hdlr s)) = minf_handler (d_minf s)
}.
Definition mdia_of (s : mdia_desc) : MdiaBox := mkMdia (hd (str "mdia") (mdia_body s)) (Some (d_mdhd s)) (Some (d_hdlr s)) (Some (minf_of (d_minf s))) [].
Definition mdia_info (s : mdia_desc) (t : TrakInfo) : TrakInfo := stbl_info (d_stbl (d_minf s)) (hdlr_info (d_hdlr s) (mdhd_info (d_mdhd s) t)).
Lemma mdia_children s b : mdia_ok s ->
  holds_children mdia_item any (mkMdia b None None None []) (mdia_body s)
    (mkMdia b (Some (d_mdhd s)) (Some (d_hdlr s)) (Some (minf_of (d_minf s))) []) (mdia_info s).
Proof.
  intros [_ H1 H2 H3 H4]. destruct s as [h e l k]. unfold mdia_body, mdia_info. cbn [d_mdhd d_mdhd_more d_hdlr d_minf] in *. eexists. split.
  { child any mdhd_parsed H1. child (is_handler (minf_handler k)) hdlr_parsed H2.
    eapply (children_cons _ _ any); [apply H3|child_item minf_parsed|done|apply children_nil]. }
  done.
Qed.
Lemma mdia_parsed s : mdia_ok s -> parsed any MdiaBox_Parse (mdia_bytes s) (mdia_of s) (mdia_info s).
Proof.
  intros Hs p m Hm. unfold MdiaBox_Parse. apply (stands_parsed _ (hd (str "mdia") (mdia_body s))); [split; [done|apply Hs]|].
  intros start Ha. erewrite bind_ok by (eapply container_ok; [by apply mdia_children|exact Ha|cbn [hd box_size_]; lia|lia|exact Hm]).
  psteps. done.
Qed.

Definition elst_entry_ok (ver : Z) (e : ElstInfo) : Prop :=
  is48 ver (segment_duration_ e) /\ is48 ver (media_time_ e) /\ is16 (media_rate_integer_ e) /\ is16 (media_rate_fraction_ e).
Definition elst_entry_bytes (ver : Z) (e : ElstInfo) : bytes :=
  Write48 ver (segment_duration_ e) ++ Write48 ver (media_time_ e) ++ Write2Bytes (media_rate_integer_ e) ++ Write2Bytes (media_rate_fraction_ e).
Definition elst_body (x : ElstBox) : bytes :=
  Write4Bytes (elst_version_flag_ x) ++ Write4Bytes (elst_entry_count_ x) ++
  concat (map (elst_entry_bytes (version_of (elst_version_flag_ x))) (elst_list_ x)).
Definition elst_bytes (x : ElstBox) : bytes := box (str "elst") (elst_body x).
Record elst_ok (x : ElstBox) : Prop := {
  elst_stands : stands (str "elst") (elst_base x) (elst_body x);
  elst_32 : Forall is32 [elst_version_flag_ x; elst_entry_count_ x];
  elst_entries : Forall (elst_entry_ok (version_of (elst_version_flag_ x))) (elst_list_ x);
  elst_count : elst_entry_count_ x = zlen (elst_list_ x)
}.
Lemma elst_parsed x p m : elst_ok x -> ElstBox_Parse (elst_bytes x ++ p) m = Done (Some (x, p, m)).
Proof.
  intros [Hb H1 H2 H3]. fields. unfold ElstBox_Parse. apply (stands_parsed _ _ _ _ _ _ _ Hb).
  intros start Hs. unfold elst_body. psteps.
  erewrite bind_ok by (apply (times_plain _ (elst_entry_bytes (version_of (elst_version_flag_ x)))); [by apply to_nat_zlen|];
    intros a q Ha; eapply Forall_forall in H2; [|exact Ha]; destruct H2 as (?&?&?&?); unfold elst_entry_bytes; psteps; by destruct a).
  psteps. pdone x.
Qed.
Definition edts_body (x : EdtsBox) : bytes := elst_bytes (elst_ x).
Definition edts_bytes (x : EdtsBox) : bytes := box (str "edts") (edts_body x).
Definition edts_ok (x : EdtsBox) : Prop := stands (str "edts") (edts_base x) (edts_body x) /\ elst_ok (elst_ x).
Hint Resolve elst_parsed : mp4.
Lemma edts_parsed x : edts_ok x -> parsed any EdtsBox_Parse (edts_bytes x) x (fun t => t).
Proof.
  intros [Hb H1]. apply parsed_id. intros p m. unfold EdtsBox_Parse. apply (stands_parsed _ _ _ _ _ _ _ Hb).
  intros start Hs. unfold edts_body. psteps. pdone x.
Qed.

Record trak_desc := mkTrakDesc { d_tkhd : TkhdBox; d_edts : option EdtsBox; d_mdia : mdia_desc }.
Definition trak_body (s : trak_desc) : bytes := tkhd_bytes (d_tkhd s) ++ opt_bytes edts_bytes (d_edts s) ++ mdia_bytes (d_mdia s) ++ [].
Definition trak_bytes (s : trak_desc) : bytes := box (str "trak") (trak_body s).
Record trak_desc_ok (s : trak_desc) : Prop := {
  trak_box : box_ok (str "trak") (trak_body s);
  trak_tkhd_ok : tkhd_ok (d_tkhd s);
  trak_edts_ok : opt_ok edts_ok (d_edts s);
  trak_mdia_ok : mdia_ok (d_mdia s)
}.
Definition trak_of (s : trak_desc) : TrakBox := mkTrakBox (hd (str "trak") (trak_body s)) (Some (d_tkhd s)) (d_edts s) (Some (mdia_of (d_mdia s))) [].
(** What the boxes of a track make of the [TrakInfo] they find. *)
Definition trak_info (s : trak_desc) (t : TrakInfo) : TrakInfo := mdia_info (d_mdia s) (tkhd_info (d_tkhd s) t).
Lemma trak_children s b : trak_desc_ok s ->
  holds_children trak_item any (mkTrakBox b None None None []) (trak_body s)
    (mkTrakBox b (Some (d_tkhd s)) (d_edts s) (Some (mdia_of (d_mdia s))) []) (trak_info s).
Proof.
  intros [_ H1 H2 H3]. destruct s as [h e k]. unfold trak_body, trak_info. cbn [d_tkhd d_edts d_mdia] in *. eexists. split.
  { child any tkhd_parsed H1. cbn [trak_base tkhd_ edts_ mdia_ trak_unknown_boxes_].
    child_opt any (fun o => mkTrakBox b (Some h) o None []) (fun (_ : EdtsBox) (t : TrakInfo) => t) edts_ok edts_parsed.
    eapply (children_cons _ _ any); [apply H3|child_item mdia_parsed|done|apply children_nil]. }
  intros t. cbv beta. by rewrite opt_info_id.
Qed.
Lemma trak_parsed s : trak_desc_ok s -> parsed any TrakBox_Parse (trak_bytes s) (trak_of s) (trak_info s).
Proof.
  intros Hs p m Hm. unfold TrakBox_Parse. apply (stands_parsed _ (hd (str "trak") (trak_body s))); [split; [done|apply Hs]|].
  intros start Ha. erewrite bind_ok by (eapply container_ok; [by apply trak_children|exact Ha|cbn [hd box_size_]; lia|lia|exact Hm]).
  psteps. done.
Qed.

Definition meta_body (x : MetaBox) : bytes := Write4Bytes (meta_version_flag_ x) ++ meta_data_ x.
Definition meta_bytes (x : MetaBox) : bytes := box (str "meta") (meta_body x).
Definition meta_ok (x : MetaBox) : Prop := stands (str "meta") (meta_base x) (meta_body x) /\ is32 (meta_version_flag_ x).
Definition udta_body (x : UdtaBox) : bytes := opt_bytes meta_bytes (meta_ x).
Definition udta_bytes (x : UdtaBox) : bytes := box (str "udta") (udta_body x).
Definition udta_ok (x : UdtaBox) : Prop := stands (str "udta") (udta_base x) (udta_body x) /\ opt_ok meta_ok (meta_ x).
Lemma meta_parsed x p m : meta_ok x -> MetaBox_Parse (meta_bytes x ++ p) m = Done (Some (x, p, m)).
Proof.
  intros [Hb H1]. unfold MetaBox_Parse. apply (stands_parsed _ _ _ _ _ _ _ Hb).
  intros start Hs. unfold meta_body. psteps. pdone x.
Qed.
Lemma udta_parsed x p m : udta_ok x -> UdtaBox_Parse (udta_bytes x ++ p) m = Done (Some (x, p, m)).
Proof.
  intros [Hb H1]. unfold UdtaBox_Parse. apply (stands_parsed _ _ _ _ _ _ _ Hb).
  intros start Hs. unfold udta_body. psteps. destruct x as [b [x|]]; cbn [meta_ opt_bytes opt_ok udta_base app] in *.
  - rewrite (proj2 (Z.ltb_lt _ _)) by (unfold meta_bytes; rewrite box_zlen by apply H1; pose proof (zlen_nonneg (meta_body x)); lia).
    erewrite bind_ok by (by erewrite bind_ok by by eapply meta_parsed). psteps. done.
  - by erewrite !bind_ok by (done || typeclasses eauto with mp4 nocore).
Qed.

(** ** [moov] *)

(** A round of the loop of a container, and its end. *)
Lemma loop_round {A} item (x y : A) fuel start b slack t body s p m m' :
  at_start start b p -> 0 <= slack < 8 -> box_ok t body ->
  item t x (box t body ++ s ++ p) m = Done (Some (y, s ++ p, m')) ->
  box_loop (S fuel) start b slack item x (box t body ++ s ++ p) m = box_loop fuel start b slack item y (s ++ p) m'.
Proof.
  intros Hs Hk Hb Hi. cbn [box_loop]. erewrite bind_ok by apply (at_left _ _ _ Hs).
  rewrite !zlen_app, box_zlen by apply Hb. pose proof (zlen_nonneg s). pose proof (zlen_nonneg body).
  rewrite (proj2 (Z.ltb_lt _ _)) by lia.
  erewrite bind_ok by by apply box_type_ok. cbv beta iota. by erewrite bind_ok by exact Hi.
Qed.
Lemma loop_end {A} item (x : A) fuel start b slack p m : at_start start b p -> 0 <= slack ->
  box_loop (S fuel) start b slack item x p m = Done (Some (x, p, m)).
Proof.
  intros Hs Hk. cbn [box_loop]. erewrite bind_ok by apply (at_left _ _ _ Hs).
  by rewrite Z.sub_diag, (proj2 (Z.ltb_ge _ _)) by lia.
Qed.

Record moov_desc := mkMoovDesc { d_mvhd : MvhdBox; d_traks : list trak_desc; d_udta : option UdtaBox }.
Definition traks_bytes (l : list trak_desc) : bytes := concat (map trak_bytes l).
Definition moov_body (s : moov_desc) : bytes := mvhd_bytes (d_mvhd s) ++ traks_bytes (d_traks s) ++ opt_bytes udta_bytes (d_udta s).
Definition moov_bytes (s : moov_desc) : bytes := box (str "moov") (moov_body s).
Record moov_ok (s : moov_desc) : Prop := {
  moov_box : box_ok (str "moov") (moov_body s);
  moov_mvhd_ok : mvhd_ok (d_mvhd s);
  moov_traks_ok : Forall trak_desc_ok (d_traks s);
  moov_udta_ok : opt_ok udta_ok (d_udta s)
}.
Definition moov_of (s : moov_desc) : MoovBox := mkMoov (hd (str "moov") (moov_body s)) (Some (d_mvhd s)) (map trak_of (d_traks s)) (d_udta s) [].
Definition new_trak (d : trak_desc) : TrakInfo := trak_info d TrakInfo_new.
Definition moov_info (s : moov_desc) (m : MovInfo) : MovInfo :=
  let m := set_mvhd (mvhd_duration (d_mvhd s)) (mvhd_next_track_id_ (d_mvhd s)) m in
  set_traks (traks_info_ m ++ map new_trak (d_traks s)) m.

Lemma trak_round d b v l u n p m : trak_desc_ok d ->
  moov_item (str "trak") (mkMoov b v l u n) (trak_bytes d ++ p) m =
  Done (Some (mkMoov b v (l ++ [trak_of d]) u n, p, set_traks (traks_info_ m ++ [new_trak d]) m)).
Proof.
  intros Hd. unfold_item. erewrite bind_ok by apply modify_ok.
  assert (has_trak any (set_traks (traks_info_ m ++ [TrakInfo_new]) m)) as Hm by by exists (traks_info_ m), TrakInfo_new.
  erewrite bind_ok by by apply trak_parsed. unfold mret, parser_ret. by rewrite (with_trak_last _ (traks_info_ m) TrakInfo_new) by done.
Qed.
Lemma traks_loop l fuel start b v k u n s p m : at_start start b p -> Forall trak_desc_ok l ->
  box_loop (length l + fuel) start b 0 moov_item (mkMoov b v k u n) (traks_bytes l ++ s ++ p) m =
  box_loop fuel start b 0 moov_item (mkMoov b v (k ++ map trak_of l) u n) (s ++ p) (set_traks (traks_info_ m ++ map new_trak l) m).
Proof.
  intros Hs Hl. revert k m. induction Hl as [|d l Hd _ IH]; intros k m.
  - cbn [length map traks_bytes concat Nat.add app]. rewrite !app_nil_r. by destruct m.
  - unfold traks_bytes. cbn [length map concat Nat.add]. fold (traks_bytes l). rewrite <- app_assoc.
    rewrite (app_assoc (traks_bytes l) s p).
    unfold trak_bytes at 1. erewrite loop_round; [|exact Hs|lia|apply Hd|rewrite <- app_assoc; by apply trak_round].
    rewrite <- app_assoc, IH. cbn [traks_info_ set_traks]. by rewrite <- !app_assoc.
Qed.
Lemma moov_fuel s : moov_ok s -> (2 + length (d_traks s) <= length (moov_body s))%nat.
Proof.
  intros [_ H1 H2 _]. unfold moov_body. rewrite !length_app.
  assert (8 <= length (mvhd_bytes (d_mvhd s)))%nat as H0.
  { unfold mvhd_bytes. assert (zlen (str "mvhd") = 4) as E by done. pose proof (box_zlen _ (mvhd_body (d_mvhd s)) E) as E'.
    pose proof (zlen_nonneg (mvhd_body (d_mvhd s))). unfold zlen in *. lia. }
  assert (length (d_traks s) <= length (traks_bytes (d_traks s)))%nat as H'; [|lia].
  clear H0 H1 H2. induction (d_traks s) as [|d l IH]; [done|]. unfold traks_bytes in *. cbn [map concat length]. rewrite length_app.
  assert (zlen (str "trak") = 4) as E by done. pose proof (box_zlen _ (trak_body d) E) as E'.
  pose proof (zlen_nonneg (trak_body d)). unfold trak_bytes, zlen in *. lia.
Qed.

(** The bytes of a movie give its boxes and the [TrakInfo] of its tracks. *)
Lemma moov_parsed s p m : moov_ok s ->
  MoovBox_Parse (moov_bytes s ++ p) m = Done (Some (moov_of s, p, moov_info s m)).
Proof.
  intros Hs. pose proof (moov_fuel s Hs) as Hf. unfold MoovBox_Parse.
  apply (stands_parsed _ (hd (str "moov") (moov_body s))); [split; [done|apply Hs]|].
  intros start Ha. destruct Hs as [_ H1 H2 H3].
  assert (exists n, S (length start) = S (length (d_traks s) + S (S n))) as [n Hn].
  { pose proof (at_fuel _ _ _ Ha) as E. cbn [hd box_size_] in E. exists (length start - length (d_traks s) - 2)%nat. unfold zlen in E. lia. }
  unfold boxes. rewrite Hn. erewrite bind_ok.
  - psteps. reflexivity.
  - unfold moov_body at 3. rewrite <- !app_assoc.
    rewrite (app_assoc (traks_bytes _) _ p). unfold mvhd_bytes at 1.
    erewrite loop_round; [|exact Ha|lia|apply H1|unfold_item; by erewrite bind_ok by by apply mvhd_parsed].
    cbn [moov_base traks_ udta_ moov_unknown_boxes_]. rewrite <- app_assoc, traks_loop by done. cbn [app].
    destruct (d_udta s) as [x|] eqn:E; cbn [opt_bytes opt_ok app] in *.
    + change (udta_bytes x ++ p) with (box (str "udta") (udta_body x) ++ [] ++ p).
      erewrite loop_round; [|exact Ha|lia|apply H3|unfold_item; by erewrite bind_ok by by apply udta_parsed].
      cbn [app]. rewrite (loop_end _ _ _ _ _ _ _ _ Ha) by lia. unfold moov_of. by rewrite E.
    + rewrite (loop_end _ _ _ _ _ _ _ _ Ha) by lia. unfold moov_of. by rewrite E.
Qed.
End movie.
