(* ===== verification/Mp4Samples.v ===== *)
(** * [Mp4Samples]: the tables of a track give its samples

    The loops of [makeMovItems] against the tables of ISO 14496-12: where each
    sample lies, how large it is, when it is decoded and shown and whether it is a
    key frame.  [multi_insert] keeps the samples in the order of their times. *)
From S2P Require Import Prelude ByteStream Media RtcTime H264 Mp4Box Mp4Demux.
From Stdlib Require Import Sorting.Sorted.

(** ** What the tables say *)

(** The samples of a chunk, one behind the other from its offset. *)
Fixpoint chunk_layout (offset : Z) (sizes : list Z) : list (Z * Z) :=
  match sizes with [] => [] | s :: sizes => (offset, s) :: chunk_layout (offset + s) sizes end.
(** The samples of all chunks: [chunks] has the offset of each and the number of its samples. *)
Fixpoint layout (chunks : list (Z * nat)) (sizes : list Z) : list (Z * Z) :=
  match chunks with
  | [] => []
  | (offset, n) :: chunks => chunk_layout offset (take n sizes) ++ layout chunks (drop n sizes)
  end.
(** The samples per chunk of the chunk [k]: the last range that starts at it or before. *)
Fixpoint per_chunk (l : list ChunkSample) (k : Z) (n : Z) : Z :=
  match l with
  | [] => n
  | e :: l => if first_chunk_ e <=? k then per_chunk l k (samples_per_chunk_ e) else n
  end.
Fixpoint with_counts (l : list ChunkSample) (k : Z) (offsets : list Z) : list (Z * nat) :=
  match offsets with [] => [] | o :: offsets => (o, Z.to_nat (per_chunk l k 0)) :: with_counts l (k + 1) offsets end.
Definition trak_layout (t : TrakInfo) : list (Z * Z) := layout (with_counts (chunk_sample_vec_ t) 1 (chunk_offsets_vec_ t)) (sample_sizes_vec_ t).

(** The range that holds a sample, counted from 0: ISO 14496-12, 8.6.1. *)
Fixpoint run_of {A} (count : A -> Z) (value : A -> Z) (l : list A) (k : Z) : Z :=
  match l with [] => 0 | e :: l => if k <? count e then value e else run_of count value l (k - count e) end.
Definition delta_of (t : TrakInfo) (k : Z) : Z := run_of sample_count_ samples_delta_ (sample_entries_ t) k.
Definition offset_of (t : TrakInfo) (k : Z) : Z := run_of sample_counts_ sample_offsets_ (sample_offset_vec_ t) k.
Fixpoint time_of (t : TrakInfo) (k : nat) : Z := match k with O => 0 | S k => time_of t k + delta_of t (Z.of_nat k) end.

Definition micros (time timescale : Z) : Z := if 0 <? timescale then Z.quot (time * 1000000) timescale else time.
(** The sample [k], counted from 0. *)
Definition the_item (av : MEDIA_PKT_TYPE) (t : TrakInfo) (k : nat) (place : Z * Z) : MovItem :=
  mkItem av (Mp4Box.codec_type_ t) place.1 place.2 (micros (time_of t k) (timescale_ t))
    (micros (time_of t k + offset_of t (Z.of_nat k)) (timescale_ t)) 1000000 (bool_decide (Z.of_nat k + 1 ∈ iframe_sample_vec_ t)).
Definition the_items (av : MEDIA_PKT_TYPE) (t : TrakInfo) : list MovItem := imap (the_item av t) (trak_layout t).

(** ** What the code makes of them *)

(** The time a sample is given: the durations are looked up one sample ahead, so that
    the first is never counted. *)
Definition made_time (t : TrakInfo) (k : nat) : Z := time_of t (S k) - delta_of t 0.
(** The offset of presentation: of a run of samples only the last has it. *)
Fixpoint run_ends {A} (count : A -> Z) (n : Z) (l : list A) : list Z :=
  match l with [] => [] | e :: l => n + count e :: run_ends count (n + count e) l end.
Definition made_offset (t : TrakInfo) (k : Z) : Z :=
  if bool_decide (k + 1 ∈ run_ends sample_counts_ 0 (sample_offset_vec_ t)) then offset_of t k else 0.
Definition made_item (av : MEDIA_PKT_TYPE) (t : TrakInfo) (k : nat) (place : Z * Z) : MovItem :=
  mkItem av (Mp4Box.codec_type_ t) place.1 place.2 (micros (made_time t k) (timescale_ t))
    (micros (made_time t k + made_offset t (Z.of_nat k)) (timescale_ t)) 1000000 (bool_decide (Z.of_nat k + 1 ∈ iframe_sample_vec_ t)).
Definition made_items (av : MEDIA_PKT_TYPE) (t : TrakInfo) : list MovItem := imap (made_item av t) (trak_layout t).

Definition insert_all (l : list MovItem) (items : list (Z * MovItem)) : list (Z * MovItem) :=
  foldl (fun items i => multi_insert (it_dts i) i items) items l.

(** ** Tables that hold together *)

Definition total {A} (count : A -> Z) (l : list A) : Z := foldr (fun e n => count e + n) 0 l.
Definition later (a b : ChunkSample) : Prop := first_chunk_ a < first_chunk_ b.

(** As many samples in the chunks as there are sizes, and numbers that stay in their
    types; durations and offsets of any kind. *)
Record table_fits (t : TrakInfo) : Prop := {
  to_sizes : Forall (fun s => 0 <= s < 2 ^ 32) (sample_sizes_vec_ t);
  to_offsets : Forall (fun o => 0 <= o < 2 ^ 32) (chunk_offsets_vec_ t);
  to_ranges : StronglySorted later (chunk_sample_vec_ t) /\ Forall (fun e => 0 <= samples_per_chunk_ e < 2 ^ 32) (chunk_sample_vec_ t);
  to_first : match chunk_sample_vec_ t with [] => False | e :: _ => first_chunk_ e <= 1 end;
  to_count : total (fun c => Z.of_nat c.2) (with_counts (chunk_sample_vec_ t) 1 (chunk_offsets_vec_ t)) = zlen (sample_sizes_vec_ t);
  to_durations : Forall (fun e => 0 <= sample_count_ e /\ 0 <= samples_delta_ e < 2 ^ 32) (sample_entries_ t) /\ total sample_count_ (sample_entries_ t) < 2 ^ 32;
  to_shifts : Forall (fun e => 0 <= sample_counts_ e /\ 0 <= sample_offsets_ e < 2 ^ 32) (sample_offset_vec_ t) /\ total sample_counts_ (sample_offset_vec_ t) < 2 ^ 32;
  to_bounds : zlen (sample_sizes_vec_ t) < 2 ^ 31 /\ (time_of t (S (length (sample_sizes_vec_ t))) + 2 ^ 32) * 1000000 * 1000 < 2 ^ 63
}.

(** Tables that are handled as the standard says: a constant rate [d], and offsets for
    each sample or none. *)
Record tables_ok (t : TrakInfo) (d : Z) : Prop := {
  to_fits : table_fits t;
  to_rate : Forall (fun e => samples_delta_ e = d) (sample_entries_ t) /\ total sample_count_ (sample_entries_ t) = zlen (sample_sizes_vec_ t);
  to_shift : Forall (fun e => sample_counts_ e = 1) (sample_offset_vec_ t)
}.

Lemma u32_small x : 0 <= x < 2 ^ 32 -> u32 x = x.
Proof. apply Z.mod_small. Qed.

Lemma total_nonneg {A} (count : A -> Z) l : Forall (fun e => 0 <= count e) l -> 0 <= total count l.
Proof. induction 1; cbn [total foldr] in *; [lia|]. unfold total in IHForall. lia. Qed.
Lemma run_of_range {A} (count value : A -> Z) l k B : 0 < B -> Forall (fun e => 0 <= value e < B) l -> 0 <= run_of count value l k < B.
Proof. intros HB Hl. revert k. induction Hl as [|e l He _ IH]; intros k; cbn [run_of]; [lia|]. destruct (_ <? _); [done|apply IH]. Qed.
Lemma run_of_past {A} (count value : A -> Z) l k : Forall (fun e => 0 <= count e) l -> total count l <= k -> run_of count value l k = 0.
Proof.
  intros Hl. revert k. induction Hl as [|e l He Hl IH]; intros k Hk; cbn [run_of total foldr] in *; [done|].
  pose proof (total_nonneg _ _ Hl). fold (total count l) in *. rewrite (proj2 (Z.ltb_ge _ _)) by lia. apply IH. lia.
Qed.
Lemma run_of_rate d l k : Forall (fun e => 0 <= sample_count_ e) l -> Forall (fun e => samples_delta_ e = d) l ->
  0 <= k < total sample_count_ l -> run_of sample_count_ samples_delta_ l k = d.
Proof.
  intros Hc Hl. revert k. induction Hl as [|e l He _ IH]; intros k Hk; cbn [run_of total foldr] in *; [lia|].
  apply Forall_cons in Hc as [Hc Hcs]. fold (total sample_count_ l) in *. destruct (Z.ltb_spec k (sample_count_ e)); [done|]. apply IH; [done|lia].
Qed.

(** The loop over the durations looks a sample up by its number, counted from 0. *)
Lemma duration_loop_ok l c i : Forall (fun e => 0 <= sample_count_ e) l -> 0 <= c <= i -> c + total sample_count_ l < 2 ^ 32 ->
  duration_loop l c i = run_of sample_count_ samples_delta_ l (i - c).
Proof.
  intros Hl. revert c. induction Hl as [|e l He Hl IH]; intros c Hi Hb; cbn [duration_loop run_of total foldr] in *; [done|].
  pose proof (total_nonneg _ _ Hl). fold (total sample_count_ l) in *. rewrite u32_small by lia.
  rewrite (proj2 (Z.leb_le _ _)) by lia. cbn [andb].
  destruct (Z.ltb_spec i (c + sample_count_ e)), (Z.ltb_spec (i - c) (sample_count_ e)); try lia.
  rewrite IH by lia. f_equal. lia.
Qed.

(** The loop over the offsets finds the run that ends at a sample, counted from 1. *)
Lemma run_ends_above {A} (count : A -> Z) n l x : Forall (fun e => 0 <= count e) l -> x ∈ run_ends count n l -> n <= x.
Proof.
  intros Hl. revert n. induction Hl as [|e l He _ IH]; intros n; cbn [run_ends]; [by intros ?%elem_of_nil|].
  intros [->|H%IH]%elem_of_cons; lia.
Qed.
Lemma offset_loop_ok l c k : Forall (fun e => 0 <= sample_counts_ e) l -> 0 <= c -> c + total sample_counts_ l < 2 ^ 32 -> 0 <= k ->
  offset_loop l c (c + k + 1) =
  if bool_decide (c + k + 1 ∈ run_ends sample_counts_ c l) then run_of sample_counts_ sample_offsets_ l k else 0.
Proof.
  intros Hl. revert c k. induction Hl as [|e l He Hl IH]; intros c k Hc Hb Hk; cbn [offset_loop run_of run_ends total foldr] in *; [done|].
  pose proof (total_nonneg _ _ Hl). fold (total sample_counts_ l) in *. rewrite u32_small by lia.
  destruct (Z.eqb_spec (c + sample_counts_ e) (c + k + 1)) as [E|E].
  - rewrite bool_decide_eq_true_2 by (rewrite E; apply elem_of_cons; by left). by rewrite (proj2 (Z.ltb_lt _ _)) by lia.
  - destruct (Z.ltb_spec k (sample_counts_ e)) as [Hlt|Hge].
    + assert (c + k + 1 ∉ run_ends sample_counts_ (c + sample_counts_ e) l) as Hn by (intros Hin%run_ends_above; [lia|done]).
      rewrite bool_decide_eq_false_2 by (intros [?|?]%elem_of_cons; [lia|done]).
      assert (c + k + 1 < c + sample_counts_ e) as Hlt' by lia. assert (c + sample_counts_ e + total sample_counts_ l < 2 ^ 32) as Hb' by lia. assert (0 <= c + sample_counts_ e) as Hc' by lia.
      clear -Hl Hlt' Hb' Hc'. revert Hlt' Hb' Hc'. generalize (c + sample_counts_ e) as n, (c + k + 1) as i. induction Hl as [|x l Hx Hl IH]; intros n i Hi Hb Hc; [done|].
      cbn [offset_loop total foldr] in *. pose proof (total_nonneg _ _ Hl). fold (total sample_counts_ l) in *. rewrite u32_small by lia.
      rewrite (proj2 (Z.eqb_neq _ _)) by lia. apply IH; lia.
    + replace (c + k + 1) with (c + sample_counts_ e + (k - sample_counts_ e) + 1) by lia. rewrite IH by lia.
      rewrite (bool_decide_ext (_ ∈ _ :: _) (c + sample_counts_ e + (k - sample_counts_ e) + 1 ∈ run_ends sample_counts_ (c + sample_counts_ e) l)); [done|].
      rewrite elem_of_cons. split; [intros [?|?]; [lia|done]|by right].
Qed.
Lemma isKeyframe_ok i t : isKeyframe i t = bool_decide (i ∈ iframe_sample_vec_ t).
Proof.
  unfold isKeyframe. apply eq_true_iff_eq. rewrite existsb_exists, bool_decide_eq_true. split.
  - intros (x & Hx & E). apply Z.eqb_eq in E. subst. by apply list_elem_of_In.
  - intros H. exists i. split; [by apply list_elem_of_In|apply Z.eqb_refl].
Qed.

Lemma micros_bound x s : 0 <= x -> 0 <= micros x s <= x * 1000000.
Proof.
  intros Hx. unfold micros. destruct (Z.ltb_spec 0 s); [|lia]. split; [apply Z.quot_pos; lia|].
  apply Z.quot_le_upper_bound; nia.
Qed.

Section track.
Context (t : TrakInfo) (Ht : table_fits t).
Abbreviation N := (zlen (sample_sizes_vec_ t)).

Lemma counts_nonneg : Forall (fun e => 0 <= sample_count_ e) (sample_entries_ t).
Proof. eapply Forall_impl; [exact (proj1 (to_durations _ Ht))|]. by intros ? []. Qed.
Lemma offset_counts_nonneg : Forall (fun e => 0 <= sample_counts_ e) (sample_offset_vec_ t).
Proof. eapply Forall_impl; [exact (proj1 (to_shifts _ Ht))|]. by intros ? []. Qed.
Lemma delta_range k : 0 <= delta_of t k < 2 ^ 32.
Proof. apply run_of_range; [done|]. eapply Forall_impl; [exact (proj1 (to_durations _ Ht))|]. by intros ? []. Qed.
Lemma time_mono j k : (j <= k)%nat -> time_of t j <= time_of t k.
Proof. induction 1 as [|k _ IH]; [done|]. cbn [time_of]. pose proof (delta_range (Z.of_nat k)). lia. Qed.
Lemma made_time_0 : made_time t 0 = 0.
Proof. unfold made_time. cbn [time_of]. change (Z.of_nat 0) with 0. lia. Qed.
Lemma made_time_S k : made_time t (S k) = made_time t k + delta_of t (Z.of_nat k + 1).
Proof. unfold made_time. cbn [time_of]. replace (Z.of_nat (S k)) with (Z.of_nat k + 1) by lia. lia. Qed.
Lemma made_time_mono j k : (j <= k)%nat -> made_time t j <= made_time t k.
Proof. intros H. unfold made_time. pose proof (time_mono (S j) (S k) ltac:(lia)). lia. Qed.
Lemma made_time_range k : (k <= length (sample_sizes_vec_ t))%nat -> 0 <= made_time t k <= time_of t (S (length (sample_sizes_vec_ t))).
Proof.
  intros Hk. pose proof (made_time_mono 0 k ltac:(lia)) as H. rewrite made_time_0 in H. split; [done|].
  unfold made_time. pose proof (time_mono (S k) (S (length (sample_sizes_vec_ t))) ltac:(lia)). pose proof (delta_range 0). lia.
Qed.
Lemma made_offset_range k : 0 <= made_offset t k < 2 ^ 32.
Proof.
  unfold made_offset. destruct (bool_decide _); [|lia]. apply run_of_range; [done|].
  eapply Forall_impl; [exact (proj1 (to_shifts _ Ht))|]. by intros ? [].
Qed.
Lemma duration_ok k : 0 <= k -> getDurationBySampleIndex (k + 1) t = delta_of t (k + 1).
Proof.
  intros Hk. unfold getDurationBySampleIndex. pose proof (proj2 (to_durations _ Ht)).
  rewrite duration_loop_ok by first [apply counts_nonneg|lia]. by rewrite Z.sub_0_r.
Qed.
Lemma to_us_ok x : 0 <= x -> x * 1000000 < 2 ^ 63 -> to_us x (timescale_ t) = Done (micros x (timescale_ t)).
Proof. intros H0 H1. unfold to_us, micros. destruct (0 <? timescale_ t); [|done]. by rewrite chk_int64_ok by lia. Qed.

Lemma sample_item_ok av offset k size : sample_sizes_vec_ t !! k = Some size ->
  sample_item av offset (Z.of_nat k + 1) (made_time t k) t = Done (made_item av t k (offset, size), size, delta_of t (Z.of_nat k + 1)).
Proof.
  intros Hs. apply lookup_lt_Some in Hs as Hk. assert (0 <= Z.of_nat k < N) as Hk' by (unfold zlen; lia).
  destruct (to_bounds _ Ht) as (Hb & Hm). pose proof (proj2 (to_shifts _ Ht)) as Ho.
  pose proof (offset_loop_ok (sample_offset_vec_ t) 0 (Z.of_nat k) offset_counts_nonneg ltac:(lia) ltac:(lia) ltac:(lia)) as E.
  rewrite Z.add_0_l in E. fold (offset_of t (Z.of_nat k)) in E. fold (made_offset t (Z.of_nat k)) in E. unfold sample_item. rewrite u32_small by lia.
  replace (Z.to_nat (Z.of_nat k + 1 - 1)) with k by lia. rewrite Hs, duration_ok by lia.
  unfold getPtsBySampleIndex. rewrite E. pose proof (made_offset_range (Z.of_nat k)). pose proof (made_time_range k ltac:(lia)).
  rewrite chk_int64_ok by lia. simpl_m. rewrite !to_us_ok by lia. simpl_m.
  pose proof (micros_bound (made_time t k) (timescale_ t) ltac:(lia)).
  pose proof (micros_bound (made_time t k + made_offset t (Z.of_nat k)) (timescale_ t) ltac:(lia)).
  unfold MovItemDump. cbn [it_timescale_ it_dts it_pts]. change (0 <? 1000000) with true. cbv iota.
  rewrite !chk_int64_ok by lia. simpl_m. unfold made_item. by rewrite isKeyframe_ok.
Qed.

(** The items of a part of the samples. *)
Definition items_from (av : MEDIA_PKT_TYPE) (k : nat) (places : list (Z * Z)) : list MovItem := imap (fun j => made_item av t (k + j)) places.
Lemma items_from_cons av k p l : items_from av k (p :: l) = made_item av t k p :: items_from av (S k) l.
Proof.
  unfold items_from. cbn [imap]. rewrite Nat.add_0_r. f_equal. apply imap_ext. intros i x _. cbn. f_equal. lia.
Qed.
Lemma items_from_app av k l l' : items_from av k (l ++ l') = items_from av k l ++ items_from av (k + length l) l'.
Proof. unfold items_from. rewrite imap_app. f_equal. apply imap_ext. intros i x _. cbn. f_equal. lia. Qed.
Lemma chunk_layout_length o sizes : length (chunk_layout o sizes) = length sizes.
Proof. revert o. induction sizes as [|s l IH]; intros o; cbn; [done|by rewrite IH]. Qed.

Lemma chunk_samples_ok av n offset k items : (k + n <= length (sample_sizes_vec_ t))%nat ->
  0 <= offset -> offset + Z.of_nat n * 2 ^ 32 < 2 ^ 64 ->
  chunk_samples n av offset (u32 (Z.of_nat k + 1)) (made_time t k) t items =
  Done (insert_all (items_from av k (chunk_layout offset (take n (drop k (sample_sizes_vec_ t))))) items, made_time t (k + n)).
Proof.
  destruct (to_bounds _ Ht) as (Hb & Hm).
  revert offset k items. induction n as [|n IH]; intros offset k items Hn Ho Hs.
  { by rewrite Nat.add_0_r, take_0. }
  destruct (lookup_lt_is_Some_2 (sample_sizes_vec_ t) k ltac:(lia)) as [size Hsize].
  assert (0 <= size < 2 ^ 32) as Hr by exact (proj1 (Forall_lookup _ _) (to_sizes _ Ht) _ _ Hsize).
  assert (Z.of_nat k < N) as HkN by (unfold zlen; lia).
  cbn [chunk_samples]. rewrite (u32_small (Z.of_nat k + 1)), (sample_item_ok _ _ _ _ Hsize) by lia. simpl_m.
  pose proof (made_time_range (S k) ltac:(lia)). rewrite <- made_time_S, chk_int64_ok by lia. simpl_m.
  rewrite u64_small by lia. replace (Z.of_nat k + 1 + 1) with (Z.of_nat (S k) + 1) by lia.
  rewrite IH by lia. rewrite Nat.add_succ_r. do 2 f_equal.
  rewrite (drop_S _ _ _ Hsize). cbn [take chunk_layout]. by rewrite items_from_cons.
Qed.

(** ** The ranges of chunks *)

Lemma chunk_entries_none l offset c i dts items : Forall (fun e => c < first_chunk_ e) l ->
  chunk_entries l offset c i dts t items = Done (items, i, dts).
Proof.
  induction 1 as [|e l He _ IH]; [done|]. cbn [chunk_entries]. by rewrite (proj2 (Z.leb_gt _ _)) by lia.
Qed.
Lemma chunk_entries_ok l offset c i dts items n : StronglySorted later l ->
  match l with [] => False | e :: _ => first_chunk_ e <= c end ->
  chunk_entries l offset c i dts t items =
  ('(items, dts) ← getSampleInfoInChunk offset (per_chunk l c n) i dts t items; mret (items, u32 (i + per_chunk l c n), dts)).
Proof.
  intros Hl. revert n. induction Hl as [|e l Hl IH He]; intros n Hf; [done|]. cbn [chunk_entries per_chunk].
  rewrite (proj2 (Z.leb_le _ _)) by lia. cbn [andb]. destruct l as [|e' l]; [done|].
  destruct (Z.ltb_spec c (first_chunk_ e')) as [Hc|Hc].
  - cbn [per_chunk]. rewrite (proj2 (Z.leb_gt _ _)) by lia.
    destruct (getSampleInfoInChunk _ _ _ _ _ _) as [[items' dts']|]; [simpl_m|done].
    apply chunk_entries_none. apply Forall_cons; split; [done|].
    inversion Hl as [|? ? _ Hle]. subst. eapply Forall_impl; [exact Hle|]. unfold later. cbn. lia.
  - by apply IH.
Qed.
Lemma per_chunk_range l c n : Forall (fun e => 0 <= samples_per_chunk_ e < 2 ^ 32) l -> 0 <= n < 2 ^ 32 -> 0 <= per_chunk l c n < 2 ^ 32.
Proof. intros Hl. revert n. induction Hl as [|e l He _ IH]; intros n Hn; cbn; [done|]. destruct (_ <=? _); [by apply IH|done]. Qed.

Lemma trak_chunks_ok av os c k items : the_av_type t = Some av -> 1 <= c ->
  Forall (fun o => 0 <= o < 2 ^ 32) os -> Z.of_nat k + total (fun c => Z.of_nat c.2) (with_counts (chunk_sample_vec_ t) c os) = N ->
  trak_chunks os c (u32 (Z.of_nat k + 1)) (made_time t k) t items =
  Done (insert_all (items_from av k (layout (with_counts (chunk_sample_vec_ t) c os) (drop k (sample_sizes_vec_ t)))) items).
Proof.
  intros Hav Hc Hos. destruct (to_bounds _ Ht) as (Hb & Hm). destruct (to_ranges _ Ht) as [Hs Hr].
  pose proof (to_first _ Ht) as Hf. revert c k items Hc.
  induction Hos as [|o os Ho _ IH]; intros c k items Hc Htot; [done|].
  cbn [trak_chunks with_counts layout total foldr snd] in *.
  fold (total (fun c : Z * nat => Z.of_nat c.2) (with_counts (chunk_sample_vec_ t) (c + 1) os)) in Htot.
  assert (0 <= total (fun c : Z * nat => Z.of_nat c.2) (with_counts (chunk_sample_vec_ t) (c + 1) os)) by (apply total_nonneg, Forall_true; lia).
  pose proof (per_chunk_range _ c 0 Hr ltac:(lia)) as Hn. set (n := per_chunk _ c 0) in *.
  rewrite (chunk_entries_ok _ _ _ _ _ _ 0) by (done || (destruct (chunk_sample_vec_ t); [done|lia])). fold n.
  unfold getSampleInfoInChunk. rewrite Hav.
  rewrite (chunk_samples_ok av (Z.to_nat n) o k items) by (unfold zlen in *; lia). simpl_m. replace (u32 (u32 (Z.of_nat k + 1) + n)) with (u32 (Z.of_nat (k + Z.to_nat n) + 1))
    by (unfold u32; rewrite Zplus_mod_idemp_l; f_equal; lia).
  rewrite IH by (done || lia). f_equal. unfold insert_all. rewrite items_from_app, foldl_app, chunk_layout_length, length_take, length_drop, drop_drop.
  rewrite Nat.min_l by (unfold zlen in *; lia). done.
Qed.

(** The loops put in the items of the track. *)
Lemma trak_items_ok av items : the_av_type t = Some av -> trak_items t items = Done (insert_all (made_items av t) items).
Proof.
  intros Hav. unfold trak_items. change 1 with (u32 (Z.of_nat 0 + 1)) at 2. rewrite <- made_time_0.
  rewrite (trak_chunks_ok av) by (done || apply Ht). done.
Qed.
End track.

(** ** The order of the items *)

Definition entry (i : MovItem) : Z * MovItem := (it_dts i, i).
Definition by_time (a b : Z * MovItem) : Prop := a.1 <= b.1.

Lemma multi_insert_perm {A} k (v : A) l : multi_insert k v l ≡ₚ (k, v) :: l.
Proof.
  induction l as [|[k' v'] l IH]; cbn [multi_insert]; [done|]. destruct (k <? k'); [done|]. rewrite IH. apply Permutation_swap.
Qed.
Lemma multi_insert_sorted k v l : StronglySorted by_time l -> StronglySorted by_time (multi_insert k v l).
Proof.
  induction 1 as [|[k' v'] l Hl IH Hf]; cbn [multi_insert]; [by repeat constructor|]. destruct (Z.ltb_spec k k').
  - constructor; [by constructor|]. constructor; [unfold by_time; cbn; lia|]. eapply Forall_impl; [exact Hf|]. unfold by_time. cbn. lia.
  - constructor; [done|]. rewrite multi_insert_perm. by constructor; [unfold by_time; cbn; lia|].
Qed.
Lemma multi_insert_last {A} k (v : A) l : Forall (fun e => e.1 <= k) l -> multi_insert k v l = l ++ [(k, v)].
Proof. induction 1 as [|[k' v'] l Hk _ IH]; cbn in *; [done|]. by rewrite (proj2 (Z.ltb_ge _ _)), IH by lia. Qed.

Lemma insert_all_perm l items : insert_all l items ≡ₚ items ++ map entry l.
Proof.
  unfold insert_all. revert items. induction l as [|i l IH]; intros items; cbn [foldl map]; [by rewrite app_nil_r|].
  rewrite IH, multi_insert_perm. cbn. rewrite Permutation_middle. done.
Qed.
Lemma insert_all_sorted l items : StronglySorted by_time items -> StronglySorted by_time (insert_all l items).
Proof. unfold insert_all. revert items. induction l as [|i l IH]; intros items H; [done|]. by apply IH, multi_insert_sorted. Qed.
Lemma insert_all_last l items : StronglySorted by_time (map entry l) -> Forall (fun i => Forall (fun e => e.1 <= it_dts i) items) l ->
  insert_all l items = items ++ map entry l.
Proof.
  unfold insert_all. revert items. induction l as [|i l IH]; intros items Hs Hl; cbn [foldl map] in *; [by rewrite app_nil_r|].
  apply Forall_cons in Hl as [Hi Hl]. inversion Hs as [|? ? Hs' Hle]. subst.
  rewrite multi_insert_last by done. rewrite Forall_map in Hle. rewrite IH.
  - by rewrite <- app_assoc.
  - done.
  - apply Forall_forall. intros j Hj. rewrite Forall_app. rewrite Forall_forall in Hl, Hle. split; [by apply Hl|].
    apply Forall_singleton. by apply Hle.
Qed.

Lemma layout_length chunks sizes : total (fun c : Z * nat => Z.of_nat c.2) chunks = zlen sizes -> length (layout chunks sizes) = length sizes.
Proof.
  revert sizes. induction chunks as [|[o n] chunks IH]; intros sizes E; cbn [layout total foldr snd] in *; [unfold zlen in E; cbn; lia|].
  fold (total (fun c : Z * nat => Z.of_nat c.2) chunks) in E.
  assert (0 <= total (fun c : Z * nat => Z.of_nat c.2) chunks) by (apply total_nonneg, Forall_true; lia).
  unfold zlen in *. rewrite length_app, chunk_layout_length, length_take, IH, length_drop by (unfold zlen; rewrite length_drop; lia). lia.
Qed.

Section sorted.
Context (t : TrakInfo) (Ht : table_fits t).
Abbreviation N := (zlen (sample_sizes_vec_ t)).

Lemma trak_layout_length : zlen (trak_layout t) = N.
Proof. unfold trak_layout, zlen. f_equal. apply layout_length, Ht. Qed.
Lemma micros_le x y s : x <= y -> micros x s <= micros y s.
Proof. intros Hx. unfold micros. destruct (Z.ltb_spec 0 s); [|done]. apply Z.quot_le_mono; lia. Qed.
Lemma later_items av k k' l p : (k <= k')%nat -> Forall (by_time (entry (made_item av t k p))) (map entry (items_from t av k' l)).
Proof.
  revert k'. induction l as [|q l IH]; intros k' Hk; [constructor|].
  rewrite items_from_cons. constructor; [|apply IH; lia].
  unfold by_time, entry, made_item. cbn [fst it_dts]. by apply micros_le, made_time_mono.
Qed.
Lemma items_sorted av k l : StronglySorted by_time (map entry (items_from t av k l)).
Proof.
  revert k. induction l as [|p l IH]; intros k; [constructor|]. rewrite items_from_cons.
  constructor; [apply IH|]. apply later_items. lia.
Qed.
(** The samples of one track come in the order of the tables. *)
Lemma made_one_trak av : the_av_type t = Some av -> traks_items [t] [] = Done (map entry (made_items av t)).
Proof.
  intros Hav. cbn [traks_items]. rewrite (trak_items_ok t Ht av) by done. simpl_m.
  rewrite insert_all_last; [done|apply (items_sorted av 0 (trak_layout t))|]. apply Forall_forall. intros i _. constructor.
Qed.
End sorted.

(** All tracks: the samples of each, in the order of their times. *)
Definition items_of (items : MEDIA_PKT_TYPE -> TrakInfo -> list MovItem) (t : TrakInfo) : list MovItem :=
  match the_av_type t with Some av => items av t | None => [] end.
Definition shown (t : TrakInfo) : Prop := is_Some (the_av_type t) /\ table_fits t.
Lemma traks_items_ok l items : Forall shown l -> StronglySorted by_time items -> exists items', traks_items l items = Done items' /\
  StronglySorted by_time items' /\ items' ≡ₚ items ++ map entry (concat (map (items_of made_items) l)).
Proof.
  intros Hl. revert items. induction Hl as [|t l [[av Hav] Ht] _ IH]; intros items Hs; cbn [traks_items map concat].
  - exists items. by rewrite app_nil_r.
  - rewrite (trak_items_ok t Ht av) by done. simpl_m. unfold items_of at 1. rewrite Hav.
    destruct (IH (insert_all (made_items av t) items)) as (items' & E & Hs' & Hp); [by apply insert_all_sorted|].
    exists items'. split; [done|]. split; [done|]. rewrite Hp, insert_all_perm, map_app. by rewrite app_assoc.
Qed.

(** ** Tables that are handled as the standard says *)

Section standard.
Context (t : TrakInfo) (d : Z) (Ht : tables_ok t d).
Abbreviation N := (zlen (sample_sizes_vec_ t)).

Lemma delta_ok k : 0 <= k < N -> delta_of t k = d.
Proof. intros Hk. destruct (to_rate _ _ Ht) as [Hr Hn]. apply run_of_rate; [apply counts_nonneg, Ht|done|lia]. Qed.
Lemma time_ok k : Z.of_nat k <= N -> time_of t k = Z.of_nat k * d.
Proof. induction k as [|k IH]; intros Hk; cbn [time_of]; [lia|]. rewrite IH, delta_ok by lia. lia. Qed.
Lemma made_time_ok k : Z.of_nat k < N -> made_time t k = time_of t k.
Proof. intros Hk. unfold made_time. rewrite !time_ok, delta_ok by lia. lia. Qed.
Lemma ends_of_ones n l k : Forall (fun e => sample_counts_ e = 1) l -> n <= k -> k + 1 ∈ run_ends sample_counts_ n l <-> k < n + zlen l.
Proof.
  intros Hl. revert n. induction Hl as [|e l He _ IH]; intros n Hk; cbn [run_ends].
  - rewrite elem_of_nil. change (zlen []) with 0. lia.
  - rewrite elem_of_cons, He, zlen_cons. pose proof (zlen_nonneg l). destruct (Z.eq_dec k n); [split; [lia|by left; lia]|]. rewrite IH by lia. split; [intros [?|?]; lia|right; lia].
Qed.
Lemma total_ones l : Forall (fun e => sample_counts_ e = 1) l -> total sample_counts_ l = zlen l.
Proof. induction 1 as [|e l He _ IH]; cbn [total foldr]; [done|]. fold (total sample_counts_ l). rewrite zlen_cons. lia. Qed.
Lemma made_offset_ok k : 0 <= k -> made_offset t k = offset_of t k.
Proof.
  intros Hk. pose proof (to_shift _ _ Ht) as Hs. unfold made_offset. case_bool_decide as Hin; [done|].
  rewrite (ends_of_ones 0 (sample_offset_vec_ t) k Hs Hk) in Hin. symmetry.
  apply run_of_past; [apply offset_counts_nonneg, Ht|]. rewrite total_ones by done. lia.
Qed.
Lemma standard_items av : made_items av t = the_items av t.
Proof.
  apply imap_ext. intros k p Hp%lookup_lt_Some. pose proof (trak_layout_length t (to_fits _ _ Ht)).
  unfold made_item, the_item. rewrite made_time_ok, made_offset_ok by (unfold zlen in *; lia). done.
Qed.
Lemma one_trak av : the_av_type t = Some av -> traks_items [t] [] = Done (map entry (the_items av t)).
Proof. intros Hav. rewrite <- standard_items. by apply made_one_trak; [apply Ht|]. Qed.
End standard.

(** The samples of tracks that are handled as the standard says. *)
Lemma standard_tracks l : Forall (fun t => exists d, tables_ok t d) l -> map (items_of made_items) l = map (items_of the_items) l.
Proof.
  induction 1 as [|t l [d Ht] _ IH]; cbn [map]; [done|]. rewrite IH. f_equal. unfold items_of.
  destruct (the_av_type t); [|done]. by apply (standard_items t d).
Qed.
