(* ===== verification/Mp4Run.v ===== *)
(** * [Mp4Run]: what the demuxer gives its sinks

    The packets that a file with a track of H.264 comes out as, over the parser
    ([Mp4Movie]), the tables ([Mp4Samples]) and the queue of bytes ([DataBuffer]). *)
From S2P Require Import Prelude ByteStream StringEx DataBuffer Media H264 RtcTime Mp4Box Mp4Demux Mp4Parse Mp4Movie Mp4Samples.
From Stdlib Require Import Sorting.Sorted.

(** ** Packets *)

(** What a sink sees of a packet. *)
Record sent := mkSent { s_av : MEDIA_PKT_TYPE; s_codec : MEDIA_CODEC_TYPE; s_dts : Z; s_pts : Z; s_key : bool; s_hdr : bool; s_data : bytes }.
Definition sees (e : mp4_event) (s : sent) : Prop :=
  exists p, e = OutPacket p /\ fmt_type_ p = MEDIA_FORMAT_RAW /\ contents (buffer_ptr_ p) = s_data s /\
    s = mkSent (av_type_ p) (Media.codec_type_ p) (dts_ p) (pts_ p) (is_key_frame_ p) (is_seq_hdr_ p) (s_data s).

Section packets.
Context `{Allocator}.

(** A buffer of less than 200 bytes: the room it says it has wraps around, and the
    bytes are put behind the reserve, which they just fit. *)
Lemma small_append n d : zlen d = n -> 0 < n < 200 ->
  exists b k b', DataBuffer_new n = Done b /\ AppendData b d = Done (k, b') /\ contents b' = d.
Proof.
  intros Hd Hn. unfold DataBuffer_new, PRE_RESERVE_HEADER_SIZE. rewrite u64_small by lia.
  pose proof (new_char_length (n + 200) ltac:(lia)) as Hf.
  destruct (write_at_extend (new_char (n + 200)) 0 0 (replicate (Z.to_nat n) 0)) as (m & Hm & Hlen & _).
  1-3: unfold zlen in *; rewrite ?length_replicate; lia.
  rewrite Z.add_0_l in Hm. rewrite Hm. simpl_m.
  set (b := mkDataBuffer _ _ _ _ _ _ _ _). exists b.
  unfold AppendData. rewrite Hd, (proj2 (Z.eqb_neq _ _)) by lia.
  cbn [b DataBuffer.buffer_size_ end_ data_len_]. unfold PRE_RESERVE_HEADER_SIZE.
  rewrite !(u64_small 200), (u64_small (200 + n)) by lia.
  replace (u64 (n - 200)) with (n - 200 + 2 ^ 64) by (unfold u64; rewrite <- (Z.mod_add _ 1) by lia; rewrite Z.mod_small; lia).
  destruct (Z.ltb_spec (n - 200 + 2 ^ 64) (200 + n)); [lia|]. unfold append_in_place. cbn [b buffer_ end_ data_len_ start_ DataBuffer.buffer_size_].
  destruct (write_at_extend m 200 0 d) as (m' & Hm' & Hlen' & Hc); [lia..|]. rewrite Z.add_0_r in Hm'. rewrite Hm', Hd. simpl_m.
  rewrite i32_small, !chk_int_ok by lia. simpl_m. do 2 eexists. split; [done|]. split; [reflexivity|].
  unfold contents, Data. cbn [data_len_ start_ buffer_ set_storage]. rewrite Z.add_0_l in *. rewrite <- Hd, Hc. by rewrite take_0.
Qed.

(** A packet made for some bytes holds these bytes. *)
Lemma fresh_append n d : zlen d = n -> n <= max_queue - 400 ->
  exists b k b', DataBuffer_new n = Done b /\ AppendData b d = Done (k, b') /\ contents b' = d.
Proof.
  intros Hd Hn. pose proof (zlen_nonneg d). unfold max_queue in *.
  destruct (Z.leb_spec 200 n) as [H200|H200]; [|destruct (Z.eqb_spec n 0) as [Hz|Hz]].
  - destruct (DataBuffer_new_spec n) as (b & Hb & Hwf & Hc & Hs); [lia|].
    assert (data_len_ b = 0) as Hz by (pose proof (contents_length b Hwf) as E; rewrite Hc in E; change (zlen []) with 0 in E; lia).
    destruct (AppendData_cases b d Hwf) as [(b' & Ha & _ & Hb' & _)|[[Hno _]|E]]; [unfold max_queue; lia| | |].
    + exists b, (zlen (contents b) + zlen d), b'. split; [done|]. split; [done|]. by rewrite Hb', Hc.
    + exfalso. by apply Hno, no_overlap_front.
    + subst d. change (zlen []) with 0 in *. lia.
  - destruct d; [|rewrite zlen_cons in Hd; pose proof (zlen_nonneg d); lia]. rewrite Hz.
    unfold DataBuffer_new, PRE_RESERVE_HEADER_SIZE. rewrite u64_small by lia. pose proof (new_char_length (0 + 200) ltac:(lia)).
    destruct (write_at_extend (new_char (0 + 200)) 0 0 (replicate (Z.to_nat 0) 0)) as (m & Hm & _); [unfold zlen in *; rewrite ?length_replicate; lia..|].
    change (0 + 0) with 0 in Hm. rewrite Hm. simpl_m. by do 3 eexists.
  - apply small_append; [done|lia].
Qed.

Lemma send_ok `{Uninit} av codec dts pts key hdr data tail d : zlen data <= max_queue - 400 ->
  exists e, sendMediaPacket av codec dts pts key hdr (data ++ tail) (zlen data) d = Done (Output e d) /\
    sees e (mkSent av codec dts pts key hdr data).
Proof.
  intros Hlen. destruct (fresh_append (zlen data) data eq_refl Hlen) as (b & k & b' & Hb & Ha & Hc).
  unfold sendMediaPacket, Media_Packet_len. rewrite Hb. simpl_m. rewrite read_range_prefix. simpl_m. cbn [buffer_ptr_]. rewrite Ha. simpl_m.
  eexists. split; [reflexivity|]. eexists. split; [reflexivity|]. by rewrite <- Hc.
Qed.

Definition Outputs (es : list mp4_event) (d : Mp4Demuxer) : Mp4Demuxer := foldl (fun d e => Output e d) d es.
Lemma Outputs_app es es' d : Outputs es' (Outputs es d) = Outputs (es ++ es') d.
Proof. unfold Outputs. by rewrite foldl_app. Qed.
Lemma Outputs_log es d : m_log (Outputs es d) = m_log d ++ es.
Proof.
  revert d. induction es as [|e es IH]; intros d; [by rewrite app_nil_r|].
  cbn [Outputs foldl]. fold (Outputs es (Output e d)). rewrite IH. cbn [m_log Output]. by rewrite <- app_assoc.
Qed.
(** The other members keep. *)
Lemma Outputs_keep es d : mov_ (Outputs es d) = mov_ d /\ sample_items_ (Outputs es d) = sample_items_ d /\
  io_reader_ (Outputs es d) = io_reader_ d /\ options_ (Outputs es d) = options_ d.
Proof. revert d. induction es as [|e es IH]; intros d; [done|]. apply (IH (Output e d)). Qed.

(** What a call gives the sinks. *)
Definition gives (r : outcome Mp4Demuxer) (d : Mp4Demuxer) (ss : list sent) : Prop :=
  exists es, r = Done (Outputs es d) /\ Forall2 sees es ss.
Lemma gives_nil d : gives (Done d) d [].
Proof. by exists []. Qed.
Lemma gives_bind r (f : Mp4Demuxer -> outcome Mp4Demuxer) d ss ss' :
  gives r d ss -> (forall es, gives (f (Outputs es d)) (Outputs es d) ss') -> gives (r ≫= f) d (ss ++ ss').
Proof.
  intros (es & -> & He) Hf. destruct (Hf es) as (es' & E & He'). exists (es ++ es').
  split; [simpl_m; by rewrite E, Outputs_app|by apply Forall2_app].
Qed.

Section sending.
Context `{Uninit}.

Lemma send_gives av codec dts pts key hdr data tail n d : zlen data <= max_queue - 400 -> n = zlen data ->
  gives (sendMediaPacket av codec dts pts key hdr (data ++ tail) n d) d [mkSent av codec dts pts key hdr data].
Proof.
  intros Hd ->. destruct (send_ok av codec dts pts key hdr data tail d Hd) as (e & E & Hs). exists [e]. split; [done|]. by repeat constructor.
Qed.

(** The packet of a NAL unit: parameter sets are headers, pictures of the kind IDR key frames. *)
Definition nal_packet (av : MEDIA_PKT_TYPE) (codec : MEDIA_CODEC_TYPE) (dts pts : Z) (nal : bytes) : sent :=
  let c := nth 0 nal 0 in
  let set := H264_IS_SPS c || H264_IS_PPS c in
  mkSent av codec dts pts (negb set && H264_IS_KEYFRAME c) set (H264_START_CODE ++ nal).
Definition nal_ok (nal : bytes) : Prop := nal <> [] /\ zlen nal <= kMaxLen.

Lemma send_nalus_gives av codec dts pts nals bufs d : Forall nal_ok nals ->
  map contents bufs = map (app H264_START_CODE) nals -> Forall wf bufs ->
  gives (send_nalus bufs av codec dts pts d) d (map (nal_packet av codec dts pts) nals).
Proof.
  intros Hn. revert bufs d. induction Hn as [|nal nals [Hne Hmax] _ IH]; intros bufs d Hb Hw; (destruct bufs as [|b bufs]; [|]); try done.
  { apply gives_nil. }
  cbn [map] in Hb. injection Hb as Hc Hb. apply Forall_cons in Hw as [Hw Hws].
  cbn [send_nalus map]. rewrite Hc. change (drop 4 (H264_START_CODE ++ nal)) with nal.
  destruct nal as [|c nal]; [done|]. change ((H264_START_CODE ++ c :: nal).[4]) with (Done c). simpl_m.
  assert (DataLen b = zlen (H264_START_CODE ++ c :: nal)) as Hl.
  { transitivity (zlen (contents b)); [|by rewrite Hc]. rewrite contents_length by done. destruct Hw. unfold DataLen. apply u64_small. lia. }
  apply (gives_bind _ _ _ [_]); [|intros es; by apply IH].
  rewrite <- (app_nil_r (H264_START_CODE ++ c :: nal)) at 1.
  apply send_gives; [|done]. rewrite zlen_app. change (zlen H264_START_CODE) with 4. unfold kMaxLen, max_queue in *. lia.
Qed.

(** A sample of NAL units, each with its length in front. *)
Definition sample_ok (nals : list bytes) : Prop := nals <> [] /\ Forall nal_ok nals /\ 5 < zlen (avcc nals) < 2 ^ 32.
Definition millis (us : Z) : Z := Z.quot (us * 1000) 1000000.
Definition sample_packets (i : MovItem) (nals : list bytes) : list sent :=
  map (nal_packet (it_av_type_ i) (it_codec_type_ i) (millis (it_dts i)) (millis (it_pts i))) nals.
Record item_ok (i : MovItem) (nals : list bytes) : Prop := {
  item_kind : it_av_type_ i = MEDIA_VIDEO_TYPE /\ it_codec_type_ i = MEDIA_CODEC_H264;
  item_scale : it_timescale_ i = 1000000;
  item_len : it_len i = zlen (avcc nals);
  item_times : - 2 ^ 63 <= it_dts i * 1000 < 2 ^ 63 /\ - 2 ^ 63 <= it_pts i * 1000 < 2 ^ 63;
  item_sample : sample_ok nals
}.
Lemma handle_item_gives i nals tail d : item_ok i nals -> gives (handle_item i (avcc nals ++ tail) d) d (sample_packets i nals).
Proof.
  intros [[Hk1 Hk2] Hs Hl [Hd Hp] (Hne & Hn & Hz)]. unfold handle_item. rewrite Hs. change (0 <? 1000000) with true. cbv iota.
  rewrite !chk_int64_ok by done. simpl_m. rewrite Hk1, Hk2, Hl. rewrite (bool_decide_eq_true_2 (MEDIA_VIDEO_TYPE = _)), (bool_decide_eq_true_2 (MEDIA_CODEC_H264 = MEDIA_CODEC_H264)) by done.
  cbn [andb orb]. rewrite (proj2 (Z.leb_gt _ _)) by lia.
  destruct (Avcc2Nalus_avcc nals tail Hne) as (bufs & -> & Hb & Hw); [by eapply Forall_impl; [exact Hn|intros ? []]|lia|].
  simpl_m. cbn [negb]. unfold sample_packets. rewrite Hk1, Hk2. by apply send_nalus_gives.
Qed.

(** ** A file *)

(** A reader that gives the bytes of a file, as many as there are. *)
Definition file_reader (file : bytes) : io_reader := fun offset len =>
  let data := take (Z.to_nat len) (drop (Z.to_nat offset) file) in (zlen data, data).
(** The bytes of a file at an offset. *)
Definition at_offset (file : bytes) (offset : Z) (data : bytes) : Prop := take (length data) (drop (Z.to_nat offset) file) = data.
Lemma read_into_ok file offset n data buffer : at_offset file offset data -> zlen data = n ->
  read_into (file_reader file) offset n buffer = (n, data ++ drop (length data) buffer).
Proof.
  intros Hd Hn. unfold read_into, file_reader. replace (Z.to_nat n) with (length data) by (unfold zlen in Hn; lia).
  by rewrite Hd, Hn.
Qed.

(** Each item with the sample that the file has where it lies. *)
Definition item_in (file : bytes) (i : MovItem) (nals : list bytes) : Prop := item_ok i nals /\ at_offset file (it_offset i) (avcc nals).
Lemma handle_items_gives file its samples buffer d : Forall2 (item_in file) its samples ->
  gives (handle_items (map entry its) (Some (file_reader file)) buffer d) d (concat (zip_with sample_packets its samples)).
Proof.
  intros Hi. revert buffer d. induction Hi as [|i nals its samples [Hi Ha] _ IH]; intros buffer d; [apply gives_nil|].
  cbn [map entry handle_items zip_with concat]. pose proof (item_len _ _ Hi) as Hl. destruct (item_sample _ _ Hi) as (_ & _ & Hz).
  rewrite (read_into_ok file _ _ (avcc nals)) by done. cbv beta iota zeta.
  rewrite u64_small, Z.ltb_irrefl by lia. cbv iota.
  apply gives_bind; [by apply handle_item_gives|]. intros es. apply IH.
Qed.

(** ** The headers *)

(** [gives], of a function that may throw and does not. *)
Definition gives' (r : may_throw Mp4Demuxer) (d : Mp4Demuxer) (ss : list sent) : Prop :=
  exists es, r = Done (Some (Outputs es d)) /\ Forall2 sees es ss.
Lemma gives_ok r d ss : gives r d ss -> gives' (ok r) d ss.
Proof. intros (es & -> & He). by exists es. Qed.
Lemma ok_step {A B} (o : outcome A) (f : A -> may_throw B) a : o = Done a -> (ok o ≫= f) = f a.
Proof. by intros ->. Qed.
Lemma may_step {A B} (a : A) (f : A -> may_throw B) : mbind (M:=may_throw) f (Done (Some a)) = f a.
Proof. done. Qed.
Lemma gives_bind' (r : may_throw Mp4Demuxer) (f : Mp4Demuxer -> may_throw Mp4Demuxer) d ss ss' :
  gives' r d ss -> (forall es, gives' (f (Outputs es d)) (Outputs es d) ss') -> gives' (r ≫= f) d (ss ++ ss').
Proof.
  intros (es & -> & He) Hf. destruct (Hf es) as (es' & E & He'). exists (es ++ es').
  split; [unfold mbind, may_throw_bind; by rewrite E, Outputs_app|by apply Forall2_app].
Qed.

(** The description of a track of H.264 with one set of each kind. *)
Record h264_trak (t : TrakInfo) (head sps pps : bytes) : Prop := {
  h264_kind : handler_type_ t = str "vide" /\ Mp4Box.codec_type_ t = MEDIA_CODEC_H264;
  h264_data : sequence_data_ t = avc_record head sps pps /\ zlen head = 4;
  h264_sets : 0 < zlen sps <= 2044 /\ 0 < zlen pps <= 2044
}.
Definition header_packet (set : bytes) : sent := mkSent MEDIA_VIDEO_TYPE MEDIA_CODEC_H264 0 0 false true (H264_START_CODE ++ set).

Lemma header_gives `{Stack} t head sps pps d : h264_trak t head sps pps ->
  gives' (handleH264SpsPps t d) d ([header_packet sps] ++ [header_packet pps]).
Proof.
  intros [[Hk1 Hk2] [Hd Hh] [Hs Hp]]. unfold handleH264SpsPps. rewrite Hk1, Hk2, Hd.
  rewrite bool_decide_eq_true_2, bool_decide_eq_true_2 by done. cbn [negb].
  assert (forall n, zlen (drop 4 (stack n)) = 2044) as Hst.
  { intros n. change 4%nat with (Z.to_nat 4). rewrite zlen_drop; rewrite stack_length; lia. }
  assert (4 < zlen (avc_record head sps pps)) as Hlen.
  { unfold avc_record. rewrite !zlen_app. rewrite Hh. pose proof (zlen_nonneg sps). pose proof (zlen_nonneg pps).
    change (zlen [255; 225; _; _]) with 4. change (zlen [1; _; _]) with 3. lia. }
  pose proof (avc_record_read head sps pps [] _ (drop 4 (stack 1)) (drop 4 (stack 0)) 0 0 Hh
    ltac:(lia) ltac:(lia) ltac:(rewrite Hst; lia) ltac:(rewrite Hst; lia) Hlen) as E.
  rewrite app_nil_r in E. rewrite E. rewrite (ok_step _ _ _ eq_refl). cbv beta iota zeta.
  rewrite (proj2 (Z.eqb_neq _ _)), (proj2 (Z.eqb_neq (zlen sps) _)) by lia. cbn [orb Z.ltb Z.compare].
  assert (forall set tail d, 0 < zlen set <= 2044 ->
    gives' (ok (sendMediaPacket MEDIA_VIDEO_TYPE MEDIA_CODEC_H264 0 0 false true (H264_START_CODE ++ set ++ tail) (zlen set + 4) d)) d [header_packet set]) as Hsend.
  { intros set tail d' Hset. apply gives_ok. rewrite app_assoc. apply send_gives; rewrite zlen_app; change (zlen H264_START_CODE) with 4; [unfold max_queue; lia|lia]. }
  apply gives_bind'; [by apply Hsend|]. intros es. by apply Hsend.
Qed.

(** ** The times of a single track of video keep *)

Definition video_entry (e : Z * MovItem) : Prop := it_av_type_ e.2 = MEDIA_VIDEO_TYPE.
Lemma find_times_video items v a v0 : Forall video_entry items -> exists v1, find_times items v a v0 (-1) = Done (v1, -1, false).
Proof.
  intros Hi. revert v0. induction Hi as [|[k i] items Hi _ IH]; intros v0; cbn [find_times]; [by eexists|].
  unfold video_entry in Hi. cbn in Hi. rewrite Hi. rewrite decide_False, decide_True by done. apply IH.
Qed.
Lemma shift_video items x : Forall video_entry items -> shift_items items MEDIA_AUDIO_TYPE x = Done items.
Proof.
  induction 1 as [|[k i] items Hi _ IH]; cbn [shift_items]; [done|].
  unfold video_entry in Hi. cbn in Hi. rewrite Hi, decide_False by done. simpl_m. by rewrite IH.
Qed.
Lemma adjust_video l items : Forall video_entry items -> adjust_items l items = Done items.
Proof.
  intros Hi. unfold adjust_items. destruct (find_times_video items (first_duration (str "vide") l 0) (first_duration (str "soun") l 0) (-1) Hi) as (v & ->).
  simpl_m. by apply shift_video.
Qed.

(** ** A film: one track of H.264 *)

(** The tables lead to where the file has its samples. *)
Record film (file : bytes) (t : TrakInfo) (head sps pps : bytes) (d : Z) (samples : list (list bytes)) : Prop := {
  film_track : h264_trak t head sps pps;
  film_tables : tables_ok t d;
  film_samples : Forall2 (fun place nals => sample_ok nals /\ place.2 = zlen (avcc nals) /\ at_offset file place.1 (avcc nals)) (trak_layout t) samples
}.
(** The packets of a film: the parameter sets, and the NAL units of each sample. *)
Definition film_packets (t : TrakInfo) (sps pps : bytes) (samples : list (list bytes)) : list sent :=
  [header_packet sps; header_packet pps] ++ concat (zip_with sample_packets (the_items MEDIA_VIDEO_TYPE t) samples).

Lemma film_items file t head sps pps d samples : film file t head sps pps d samples ->
  Forall2 (item_in file) (the_items MEDIA_VIDEO_TYPE t) samples.
Proof.
  intros [[[_ Hc] _ _] Htab Hs]. rewrite <- (standard_items t d Htab). pose proof (to_fits _ _ Htab) as Ht.
  destruct (to_bounds _ Ht) as (_ & Hb). pose proof (trak_layout_length t Ht) as Hlen.
  assert (forall k, (k <= length (trak_layout t))%nat -> forall l ss,
    drop k (trak_layout t) = l -> Forall2 (fun place nals => sample_ok nals /\ place.2 = zlen (avcc nals) /\ at_offset file place.1 (avcc nals)) l ss ->
    Forall2 (item_in file) (items_from t MEDIA_VIDEO_TYPE k l) ss) as H'; [|by apply (H' 0%nat ltac:(lia))].
  intros k Hk l ss El Hss. revert k Hk El. induction Hss as [|place nals l ss (Hok & Hz & Ha) _ IH]; intros k Hk El; [constructor|].
  assert (k < length (trak_layout t))%nat as Hk'.
  { assert (length (drop k (trak_layout t)) = S (length l)) as E by by rewrite El. rewrite length_drop in E. lia. }
  rewrite items_from_cons. constructor.
  - pose proof (made_time_range t Ht k ltac:(unfold zlen in *; lia)). pose proof (made_offset_range t Ht (Z.of_nat k)).
    pose proof (micros_bound (made_time t k) (timescale_ t) ltac:(lia)). pose proof (micros_bound (made_time t k + made_offset t (Z.of_nat k)) (timescale_ t) ltac:(lia)).
    split; [|done]. by split; cbn; [|done|done|lia|].
  - apply IH; [lia|]. change (S k) with (1 + k)%nat. rewrite Nat.add_comm, <- drop_drop, El. done.
Qed.

(** ** [OnRead] *)

Section reading.
Context `{Stack}.

(** The state of a demuxer that reads a file: no track is known yet, and what it sent. *)
Record reading (file : bytes) (d : Mp4Demuxer) : Prop := {
  reading_option : options_ d !! str "box_detail" = Some (str "false");
  reading_reader : io_reader_ d = Some (file_reader file);
  reading_items : sample_items_ d = [];
  reading_traks : traks_info_ (mov_ d) = []
}.
Lemma out_box_quiet t b d : options_ d !! str "box_detail" = Some (str "false") -> out_box t b d = m_set_box b d.
Proof.
  intros Ho. unfold out_box. replace (options_ (m_set_box b d)) with (options_ d) by by destruct b. rewrite Ho.
  by rewrite bool_decide_eq_false_2 by by intros [= E].
Qed.
Lemma parser_step {A B} (x : parser A) (f : A * bytes * MovInfo -> may_throw B) p m r :
  x p m = Done (Some r) -> ((x p m : may_throw _) ≫= f) = f r.
Proof. intros E. unfold mbind, may_throw_bind. by rewrite E. Qed.

Lemma video_kind t head sps pps : h264_trak t head sps pps -> the_av_type t = Some MEDIA_VIDEO_TYPE.
Proof. intros [[Hv _] _ _]. unfold the_av_type. rewrite Hv. by rewrite bool_decide_eq_false_2, bool_decide_eq_true_2 by done. Qed.
Lemma makeMovItems_gives t head sps pps dur d : h264_trak t head sps pps -> tables_ok t dur ->
  traks_info_ (mov_ d) = [t] -> sample_items_ d = [] ->
  exists es, makeMovItems d = Done (Some (m_set_items (map entry (the_items MEDIA_VIDEO_TYPE t)) (Outputs es d))) /\
    Forall2 sees es [header_packet sps; header_packet pps].
Proof.
  intros Hh Htab Ht Hi. destruct (header_gives t head sps pps d Hh) as (es & E & Hes). exists es. split; [|done].
  unfold makeMovItems. rewrite Ht. cbn [sequence_datas]. unfold sequence_data. destruct (h264_kind _ _ _ _ Hh) as [Hv Hc].
  rewrite Hv, Hc. rewrite bool_decide_eq_true_2, decide_True by done. rewrite E.
  rewrite may_step. change (mret (Outputs es d)) with (Done (Some (Outputs es d)) : may_throw Mp4Demuxer). rewrite may_step.
  destruct (Outputs_keep es d) as (Hm & Hit & _). rewrite Hm, Hit, Ht, Hi.
  by rewrite (one_trak t dur Htab MEDIA_VIDEO_TYPE) by by apply (video_kind t head sps pps).
Qed.
Lemma the_items_video t : Forall video_entry (map entry (the_items MEDIA_VIDEO_TYPE t)).
Proof.
  apply Forall_map, Forall_forall. intros i Hi. apply list_elem_of_lookup in Hi as [k Hk].
  unfold the_items in Hk. rewrite list_lookup_imap in Hk. destruct (trak_layout t !! k); [|done]. by injection Hk as <-.
Qed.

Lemma moov_gives file (k : trak_desc) s head sps pps dur samples d p : reading file d ->
  moov_ok s -> d_traks s = [k] -> film file (new_trak k) head sps pps dur samples ->
  exists d' es, handle_box (str "moov") (moov_bytes s ++ p) d = Done (Some (p, d')) /\
    m_log d' = m_log d ++ es /\ Forall2 sees es (film_packets (new_trak k) sps pps samples) /\
    options_ d' = options_ d /\ io_reader_ d' = io_reader_ d.
Proof.
  intros [Ho Hr Hi Ht] Hm Hk Hf. unfold handle_box. rewrite bool_decide_eq_false_2, bool_decide_eq_true_2 by done.
  rewrite (parser_step _ _ _ _ _ (moov_parsed s p (mov_ d) Hm)). cbv beta iota zeta.
  rewrite out_box_quiet by done. set (d1 := m_set_box _ _).
  assert (traks_info_ (mov_ d1) = [new_trak k]) as Ht1.
  { cbn [d1 m_set_box mov_ m_set_mov moov_info set_traks traks_info_ set_mvhd]. by rewrite Ht, Hk. }
  pose proof (film_items _ _ _ _ _ _ _ Hf) as Hitems. destruct Hf as [Hh Htab _].
  destruct (makeMovItems_gives _ _ _ _ _ d1 Hh Htab Ht1 Hi) as (es & -> & Hes).
  rewrite may_step.
  set (items := map entry _). destruct (Outputs_keep es d1) as (Hm1 & _ & Hr1 & Ho1).
  rewrite (ok_step _ _ (m_set_items items (Outputs es d1))).
  2: { unfold adjustAllDts. cbn [m_set_items sample_items_ mov_]. rewrite adjust_video by apply the_items_video. done. }
  destruct (handle_items_gives file _ _ (replicate (Z.to_nat (10 * 1024)) 0) (m_set_items items (Outputs es d1)) Hitems) as (es' & E & Hes').
  rewrite (ok_step _ _ (Outputs es' (m_set_items items (Outputs es d1)))).
  2: { unfold handleMovItems. cbn [m_set_items sample_items_ io_reader_]. rewrite Hr1. change (io_reader_ d1) with (io_reader_ d). by rewrite Hr. }
  exists (Outputs es' (m_set_items items (Outputs es d1))), (es ++ es').
  destruct (Outputs_keep es' (m_set_items items (Outputs es d1))) as (_ & _ & Hr2 & Ho2).
  split; [done|]. split; [rewrite Outputs_log; cbn [m_log m_set_items]; rewrite Outputs_log; by rewrite <- app_assoc|].
  split; [by apply Forall2_app|]. rewrite Ho2, Hr2. cbn [m_set_items options_ io_reader_]. by rewrite Ho1, Hr1.
Qed.

(** A round of the loop of [OnRead]: the box at the offset is handled, in front of whatever the buffer holds. *)
Lemma at_offset_app pre data post : at_offset (pre ++ data ++ post) (zlen pre) data.
Proof. unfold at_offset, zlen. by rewrite Nat2Z.id, drop_app_length, take_app_length. Qed.
Lemma box_round pre t body post fuel buffer d : box_ok t body -> 16 <= zlen (box t body ++ post) -> zlen (pre ++ box t body ++ post) < 2 ^ 63 ->
  exists buffer' junk, read_boxes (S fuel) (file_reader (pre ++ box t body ++ post)) (zlen pre) buffer d =
    ('(_, d) ← handle_box t (box t body ++ junk) d;
     read_boxes fuel (file_reader (pre ++ box t body ++ post)) (zlen (pre ++ box t body)) buffer' d).
Proof.
  intros Hb H16 Hmax. set (file := pre ++ box t body ++ post) in *. pose proof Hb as (Ht & Hz & Hs).
  pose proof (zlen_nonneg pre). pose proof (zlen_nonneg body). pose proof (zlen_nonneg post).
  assert (zlen file = zlen pre + (8 + zlen body) + zlen post) as Hfile by (unfold file; rewrite !zlen_app, box_zlen by done; lia).
  cbn [read_boxes].
  rewrite (read_into_ok file _ 16 (take 16 (box t body ++ post))).
  2: { unfold at_offset, file, zlen. rewrite Nat2Z.id, drop_app_length. rewrite length_take, Nat.min_l by (unfold zlen in H16; lia). done. }
  2: { change 16%nat with (Z.to_nat 16). apply zlen_take. lia. }
  cbv beta iota zeta. rewrite Z.ltb_irrefl. set (q := drop _ buffer).
  assert (take 16 (box t body ++ post) ++ q = Write4Bytes (8 + zlen body) ++ t ++ take 8 (body ++ post) ++ q) as E.
  { unfold box. rewrite <- !app_assoc. do 4 (destruct t as [|? t]; [done|]). destruct t; [done|unfold zlen in Ht; cbn [length] in Ht; lia]. }
  rewrite E. rewrite (ok_step _ _ _ (header_head (8 + zlen body) t _ Ht Hz ltac:(lia))). cbv beta iota zeta. rewrite <- E.
  rewrite (read_into_ok file _ _ (box t body)) by (first [apply at_offset_app|by rewrite box_zlen]).
  cbv beta iota zeta. rewrite u64_small, Z.ltb_irrefl by lia.
  assert (i64 (8 + zlen body) = 8 + zlen body) as -> by (unfold i64; rewrite Z.mod_small; lia).
  rewrite (ok_step _ _ _ (chk_int64_ok (zlen pre + (8 + zlen body)) ltac:(lia))).
  do 2 eexists. rewrite (zlen_app pre), box_zlen by done. reflexivity.
Qed.

(** ** The boxes around the movie *)

(** [ftyp], or a box that is passed over: data, free space, and types that are not known. *)
Inductive part := Brands (major minor : Z) (brands : list Z) | Passed (t body : bytes).
Definition brands_body (major minor : Z) (l : list Z) : bytes := Write4Bytes major ++ Write4Bytes minor ++ Write4s l.
Definition part_type (x : part) : bytes := match x with Brands _ _ _ => str "ftyp" | Passed t _ => t end.
Definition part_body (x : part) : bytes := match x with Brands major minor l => brands_body major minor l | Passed _ body => body end.
Definition part_bytes (x : part) : bytes := box (part_type x) (part_body x).
Definition parts_bytes (l : list part) : bytes := concat (map part_bytes l).
Definition part_ok (x : part) : Prop :=
  box_ok (part_type x) (part_body x) /\
  match x with
  | Brands major minor l => is32 major /\ is32 minor /\ Forall is32 l /\ zlen l <= BRANDS_MAX
  | Passed t _ => t <> str "ftyp" /\ t <> str "moov"
  end.

(** The state a box leaves that says nothing of a track: what matters of it keeps. *)
Record alike (d d' : Mp4Demuxer) : Prop := {
  alike_log : m_log d' = m_log d;
  alike_items : sample_items_ d' = sample_items_ d;
  alike_reader : io_reader_ d' = io_reader_ d;
  alike_options : options_ d' = options_ d;
  alike_traks : traks_info_ (mov_ d') = traks_info_ (mov_ d)
}.
Lemma alike_trans d d' d'' : alike d d' -> alike d' d'' -> alike d d''.
Proof. intros [] []. split; congruence. Qed.
Lemma alike_reading file d d' : alike d d' -> reading file d -> reading file d'.
Proof. intros [] []. split; congruence. Qed.

Lemma peek4 v q m : is32 v -> rd_with Read4Bytes 0 (Write4Bytes v ++ q) m = Done (Some (v, Write4Bytes v ++ q, m)).
Proof.
  intros Hv. change (Write4Bytes v ++ q) with ([] ++ (Write4Bytes v ++ q)) at 1. apply rd_with_ok; [done|].
  cbn [app]. rewrite Read4Bytes_Write4Bytes. f_equal. by apply Z.mod_small.
Qed.
Lemma brands_parsed l start b acc fuel p m : at_start start b p -> Forall is32 l -> zlen acc + zlen l <= BRANDS_MAX -> (length l < fuel)%nat ->
  exists m', brands fuel start b acc (Write4s l ++ p) m = Done (Some (acc ++ l, p, m')) /\ traks_info_ m' = traks_info_ m.
Proof.
  intros Hs Hl. revert acc fuel m. induction Hl as [|v l Hv _ IH]; intros acc fuel m Hn Hf; (destruct fuel as [|fuel]; [lia|]); cbn [brands].
  - erewrite bind_ok by apply (at_left _ _ _ Hs). cbn [Write4s map concat app]. rewrite Z.sub_diag. exists m. by rewrite app_nil_r.
  - unfold Write4s. cbn [map concat]. fold (Write4s l). rewrite <- app_assoc.
    erewrite bind_ok by apply (at_left _ _ _ Hs). rewrite zlen_cons in Hn. pose proof (zlen_nonneg l). pose proof (zlen_nonneg (Write4s l)).
    rewrite !zlen_app. change (zlen (Write4Bytes v)) with 4. rewrite (proj2 (Z.ltb_lt _ _)) by lia.
    erewrite bind_ok by by apply peek4.
    rewrite (proj2 (Z.leb_gt _ _)) by lia. erewrite bind_ok by apply modify_ok.
    erewrite bind_ok by apply (advance_ok (Write4Bytes v)).
    destruct (IH (acc ++ [v]) fuel (add_brand (Uint32ToString v) m)) as (m' & E & Ht); [rewrite zlen_app; change (zlen [v]) with 1; lia|cbn [length] in Hf; lia|].
    exists m'. by rewrite E, <- app_assoc.
Qed.
Lemma ftyp_parsed major minor l p m : box_ok (str "ftyp") (brands_body major minor l) -> is32 major -> is32 minor -> Forall is32 l -> zlen l <= BRANDS_MAX ->
  exists b m', FtypBox_Parse (box (str "ftyp") (brands_body major minor l) ++ p) m = Done (Some (b, p, m')) /\ traks_info_ m' = traks_info_ m.
Proof.
  intros Hb Hmaj Hmin Hl Hn.
  unfold FtypBox_Parse.
  destruct (brands_parsed l (box (str "ftyp") (brands_body major minor l) ++ p) (hd (str "ftyp") (brands_body major minor l)) []
    (S (length (box (str "ftyp") (brands_body major minor l) ++ p))) p (set_brands (Uint32ToString major) minor m)) as (m' & E & Ht).
  - by apply box_at_start.
  - done.
  - done.
  - assert (length l <= length (Write4s l))%nat as Hw by (clear; induction l as [|v l IH]; [done|]; unfold Write4s in *; cbn [map concat length]; rewrite length_app; change (length (Write4Bytes v)) with 4%nat; lia).
    unfold box, brands_body. rewrite !length_app. lia.
  - erewrite bind_ok by reflexivity. erewrite bind_ok by by apply Mp4BoxBase_ok. pose proof (box_at_start _ _ p Hb) as Hs.
    revert E Hs. generalize (box (str "ftyp") (brands_body major minor l) ++ p). intros start E Hs. replace (brands_body major minor l ++ p) with (Write4Bytes major ++ Write4Bytes minor ++ Write4s l ++ p)
      by (unfold brands_body; by rewrite <- !app_assoc).
    psteps. by do 2 eexists.
Qed.

Lemma part_handled x d p : part_ok x -> options_ d !! str "box_detail" = Some (str "false") ->
  exists q d', handle_box (part_type x) (part_bytes x ++ p) d = Done (Some (q, d')) /\ alike d d'.
Proof.
  intros [Hb Hx] Ho. unfold handle_box, part_bytes. destruct x as [major minor l|t body]; cbn [part_type part_body] in *.
  - destruct Hx as (H2 & H3 & Hl & Hn). rewrite bool_decide_eq_true_2 by done.
    destruct (ftyp_parsed major minor l p (mov_ d) Hb H2 H3 Hl Hn) as (b & m' & E & Ht).
    rewrite (parser_step _ _ _ _ _ E). cbv beta iota zeta. do 2 eexists. split; [reflexivity|].
    rewrite out_box_quiet by done. by split.
  - destruct Hx as [Hf Hm]. rewrite !(bool_decide_eq_false_2 (t = str "ftyp")), (bool_decide_eq_false_2 (t = str "moov")) by done.
    case_bool_decide as Hfree; [|case_bool_decide as Hdat].
    + assert (FreeBox_Parse (box t body ++ p) (mov_ d) = Done (Some (mkFree (hd t body), body ++ p, mov_ d))) as E.
      { unfold FreeBox_Parse. by erewrite bind_ok by by apply Mp4BoxBase_ok. }
      rewrite (parser_step _ _ _ _ _ E). cbv beta iota zeta. do 2 eexists. split; [reflexivity|].
      rewrite out_box_quiet by done. by split.
    + assert (MdatBox_Parse (box t body ++ p) (mov_ d) = Done (Some (mkMdat (hd t body), p, mov_ d))) as E.
      { unfold MdatBox_Parse. apply box_parsed; [done|]. intros start Hs. by erewrite bind_ok by apply (at_end _ _ _ Hs). }
      rewrite (parser_step _ _ _ _ _ E). cbv beta iota zeta. do 2 eexists. split; [reflexivity|].
      rewrite out_box_quiet by done. by split.
    + assert (unknown_box (box t body ++ p) (mov_ d) = Done (Some (hd t body, p, mov_ d))) as E.
      { unfold unknown_box. apply box_parsed; [done|]. intros start Hs. by erewrite bind_ok by apply (at_end _ _ _ Hs). }
      rewrite (parser_step _ _ _ _ _ E). cbv beta iota zeta. do 2 eexists. split; [reflexivity|].
      rewrite out_box_quiet by done. by split.
Qed.

Lemma alike_refl d : alike d d.
Proof. by split. Qed.
Lemma option_alike d d' : alike d d' -> options_ d !! str "box_detail" = Some (str "false") -> options_ d' !! str "box_detail" = Some (str "false").
Proof. intros [] ?. congruence. Qed.

(** The boxes up to a point of the file are handled one by one. *)
Lemma parts_round l pre post fuel buffer d : Forall part_ok l -> options_ d !! str "box_detail" = Some (str "false") ->
  16 <= zlen post -> zlen (pre ++ parts_bytes l ++ post) < 2 ^ 63 ->
  exists buffer' d', read_boxes (length l + fuel) (file_reader (pre ++ parts_bytes l ++ post)) (zlen pre) buffer d =
    read_boxes fuel (file_reader (pre ++ parts_bytes l ++ post)) (zlen (pre ++ parts_bytes l)) buffer' d' /\ alike d d'.
Proof.
  intros Hl. revert pre buffer d. induction Hl as [|x l Hx _ IH]; intros pre buffer d Ho H16 Hmax.
  - exists buffer, d. unfold parts_bytes. cbn [map concat length Nat.add]. rewrite app_nil_r. split; [done|apply alike_refl].
  - unfold parts_bytes in *. cbn [map concat] in *. fold (parts_bytes l) in *. cbn [length Nat.add].
    rewrite <- app_assoc in *.
    destruct (box_round pre (part_type x) (part_body x) (parts_bytes l ++ post) (length l + fuel) buffer d) as (buffer' & junk & E);
      [apply Hx| |done|].
    { rewrite !zlen_app. pose proof (zlen_nonneg (parts_bytes l)). pose proof (zlen_nonneg (box (part_type x) (part_body x))). lia. }
    destruct (part_handled x d junk Hx Ho) as (q & d1 & E1 & Ha). fold (part_bytes x) in E. rewrite E, E1, may_step. cbv beta iota zeta.
    rewrite app_assoc in *. destruct (IH (pre ++ part_bytes x) buffer' d1) as (b2 & d2 & E2 & Ha2); [by eapply option_alike|done|done|].
    exists b2, d2. rewrite E2. split; [by rewrite <- !app_assoc|by eapply alike_trans].
Qed.

(** The loop ends at the end of the file, or where less than 16 bytes are left. *)
Lemma read_end pre post fuel buffer d : zlen post < 16 ->
  read_boxes (S fuel) (file_reader (pre ++ post)) (zlen pre) buffer d = Done (Some d).
Proof.
  intros Hp. cbn [read_boxes]. unfold read_into, file_reader. cbv zeta.
  assert (drop (Z.to_nat (zlen pre)) (pre ++ post) = post) as -> by apply drop_zlen_app.
  rewrite (proj2 (Z.ltb_lt _ _)); [done|]. rewrite take_ge by (unfold zlen in Hp; lia). done.
Qed.
Lemma parts_end l pre fuel buffer d : Forall part_ok l -> options_ d !! str "box_detail" = Some (str "false") ->
  zlen (pre ++ parts_bytes l) < 2 ^ 63 -> (length l < fuel)%nat ->
  exists d', read_boxes fuel (file_reader (pre ++ parts_bytes l)) (zlen pre) buffer d = Done (Some d') /\ alike d d'.
Proof.
  intros Hl. revert pre fuel buffer d. induction Hl as [|x l Hx _ IH]; intros pre fuel buffer d Ho Hmax Hf;
    (destruct fuel as [|fuel]; [lia|]).
  - exists d. split; [by apply read_end|apply alike_refl].
  - destruct (Z.ltb_spec (zlen (parts_bytes (x :: l))) 16) as [Hs|Hs]; [exists d; split; [by apply read_end|apply alike_refl]|].
    unfold parts_bytes in *. cbn [map concat length] in *. fold (parts_bytes l) in *.
    destruct (box_round pre (part_type x) (part_body x) (parts_bytes l) fuel buffer d) as (buffer' & junk & E); [apply Hx|done|done|].
    destruct (part_handled x d junk Hx Ho) as (q & d1 & E1 & Ha). fold (part_bytes x) in E. rewrite E, E1, may_step. cbv beta iota zeta.
    rewrite app_assoc in *. destruct (IH (pre ++ part_bytes x) fuel buffer' d1) as (d2 & E2 & Ha2); [by eapply option_alike|done|lia|].
    exists d2. split; [done|by eapply alike_trans].
Qed.

(** A new demuxer reads a file. *)
Lemma reading_new file : reading file (m_set_reader (file_reader file) Mp4Demuxer_new).
Proof. by split. Qed.
End reading.
End sending.
End packets.

(** C3. A file with a track of H.264 comes out as the packets of its pictures.  The file is any
    boxes around a [moov] written as ISO 14496-12 lays it out, as for [moov_roundtrip]; its one track has a
    constant rate and offsets of presentation for each sample or none, and its tables of
    chunks, sizes and offsets lead to samples made of NAL units with their lengths in
    front.  Then [SourceData] with a reader of the file ends, and what the sinks get is
    exactly: the SPS and the PPS of the track, and behind them, sample by sample in
    the order of decoding, a packet for each NAL unit with the start code of
    Annex B, the times of the tables in milliseconds, and the mark of a key frame or header
    that its kind says. *)
Theorem mp4_file_demuxed `{Allocator} `{Uninit} `{Stack} before after s k head sps pps dur samples fuel :
  let file := parts_bytes before ++ moov_bytes s ++ parts_bytes after in
  Forall part_ok before -> Forall part_ok after -> moov_ok s -> d_traks s = [k] ->
  film file (new_trak k) head sps pps dur samples -> zlen file < 2 ^ 63 ->
  (length before + length after + 2 <= fuel)%nat ->
  exists d, SourceData fuel (Some (file_reader file)) [] Mp4Demuxer_new = Done (Some d) /\
    Forall2 sees (m_log d) (film_packets (new_trak k) sps pps samples).
Proof.
  intros file Hb Ha Hs Hk Hf Hmax Hfuel. pose proof (reading_new file) as Hr. unfold SourceData, OnRead.
  set (d0 := m_set_reader _ _) in *.
  assert (16 <= zlen (moov_bytes s ++ parts_bytes after)) as H16.
  { pose proof (moov_fuel s Hs). rewrite zlen_app. unfold moov_bytes. rewrite box_zlen by done. pose proof (zlen_nonneg (parts_bytes after)).
    assert (8 <= zlen (moov_body s)); [|lia]. unfold moov_body, mvhd_bytes. rewrite zlen_app, box_zlen by done.
    pose proof (zlen_nonneg (mvhd_body (d_mvhd s))). pose proof (zlen_nonneg (traks_bytes (d_traks s) ++ opt_bytes udta_bytes (d_udta s))). lia. }
  replace fuel with (length before + S (fuel - length before - 1))%nat by lia.
  destruct (parts_round before [] (moov_bytes s ++ parts_bytes after) (S (fuel - length before - 1)) (replicate 16 0) d0)
    as (b1 & d1 & E1 & Ha1); [done|apply Hr|done|done|]. cbn [app] in E1. change (zlen []) with 0 in E1. fold file in E1. rewrite E1.
  destruct (box_round (parts_bytes before) (str "moov") (moov_body s) (parts_bytes after) (fuel - length before - 1) b1 d1)
    as (b2 & junk & E2); [apply Hs|done|done|]. fold (moov_bytes s) in E2. fold file in E2. rewrite E2.
  destruct (moov_gives file k s head sps pps dur samples d1 junk) as (d2 & es & E3 & Hlog & Hes & Ho & _); [by eapply alike_reading|done..|].
  rewrite E3, may_step. cbv beta iota zeta.
  destruct (parts_end after (parts_bytes before ++ moov_bytes s) (fuel - length before - 1) b2 d2) as (d3 & E4 & Ha4).
  - done.
  - rewrite Ho, (alike_options _ _ Ha1). apply Hr.
  - by rewrite <- app_assoc.
  - lia.
  - rewrite <- app_assoc in E4. fold file in E4. exists d3. split; [exact E4|].
    rewrite (alike_log _ _ Ha4), Hlog, (alike_log _ _ Ha1). exact Hes.
Qed.

(** C4. A movie that is written as ISO 14496-12 lays it out is read back: for every
    description of the boxes [mvhd], [trak] (with [tkhd], [edts], [mdhd], [hdlr], [minf] and the
    tables of samples, of any number and any values that their fields hold) and [udta],
    [MoovBox::Parse] moves behind the bytes, gives the tree of boxes, and fills
    [MovInfo] with one [TrakInfo] per track that holds what the track's boxes say.  The
    boxes come in their usual order with 32-bit sizes; [mvhd] and [ctts] are of version 0,
    and [stsz] gives a size for each sample: the code takes version 1 for version 0
    ([mvhd_version_1_asserts], [signed_offset_unsigned]) and loses a size that is given
    once for all samples ([constant_size_lost]).  The sequence data of an AAC track is, as
    the code has it, all that stands behind the fields of [mp4a]; a track has one sample
    description, of H.264 or AAC. *)
Theorem moov_roundtrip `{Uninit} s p m : moov_ok s ->
  MoovBox_Parse (moov_bytes s ++ p) m = Done (Some (moov_of s, p, moov_info s m)) /\
  traks_info_ (moov_info s m) = traks_info_ m ++ map new_trak (d_traks s).
Proof. intros Hs. by split; [apply moov_parsed|]. Qed.

(** C5. How the tables of a file with any number of tracks are expanded, whatever durations
    and offsets they hold.  All samples of all tracks are there, once each, in the order
    of their decoding times.  The places, sizes and key frames are those of ISO 14496-12:
    each sample lies behind the ones before it in its chunk, and the chunks have the
    numbers of samples that the last range that starts at them or before gives.  The times
    are not: a sample is decoded when the standard says that the next one is, less the
    first duration ([made_time]), and of a run of samples with an offset of presentation
    only the last has it ([made_offset]).  Where the durations are all the same and the
    runs have one sample each, the samples are those of the standard, times included
    ([the_items]).  The tables give as many samples in chunks as sizes, and their numbers
    stay in their types ([table_fits]). *)
Theorem mp4_sample_tables l : Forall shown l ->
  exists items, traks_items l [] = Done items /\ StronglySorted by_time items /\ items ≡ₚ map entry (concat (map (items_of made_items) l)) /\
    (Forall (fun t => exists d, tables_ok t d) l -> items ≡ₚ map entry (concat (map (items_of the_items) l))).
Proof.
  intros Hl. destruct (traks_items_ok l [] Hl ltac:(constructor)) as (items & E & Hs & Hp). exists items. split; [done|]. split; [done|]. split; [done|].
  intros Ht. by rewrite <- (standard_tracks l Ht).
Qed.

(** ** A small film *)

#[export] Instance zero_uninit : Uninit := fun _ => 0.
#[export] Instance zero_stack : Stack := {| stack _ := replicate 2048 0; stack_length _ := eq_refl |}.

Section small.
Local Abbreviation b0 := (mkBox 0 [] 0).
Definition small_mvhd : MvhdBox :=
  let x b := mkMvhd b 0 0 0 1000 80 65536 256 0 [0; 0] (replicate 9 0) (replicate 6 0) 2 in x (hd (str "mvhd") (mvhd_body (x b0))).
Definition small_tkhd : TkhdBox :=
  let x b := mkTkhd b 3 0 0 1 0 80 [0; 0] 0 0 0 0 (replicate 9 0) 0x1400000 0xf00000 in x (hd (str "tkhd") (tkhd_body (x b0))).
Definition small_mdhd : MdhdBox := let x b := mkMdhd b 0 0 0 1000 80 in x (hd (str "mdhd") (mdhd_body (x b0) ++ [0x55; 0xc4; 0; 0])).
Definition small_hdlr : HdlrBox := let x b := mkHdlr b 0 0 0x76696465 [0; 0; 0] [0x56; 0] in x (hd (str "hdlr") (hdlr_body (x b0))).
Definition small_vmhd : VmhdBox := let x b := mkVmhd b 1 0 [0; 0; 0] in x (hd (str "vmhd") (vmhd_body (x b0))).
Definition small_sps : bytes := [0x67; 0x42; 0xc0; 0x1e].
Definition small_pps : bytes := [0x68; 0xce].
Definition small_avcC : bytes := avc_record [1; 0x42; 0xc0; 0x1e] small_sps small_pps.
Definition small_info : StsdAvcInfo := mkAvcInfo 0 0 1 0 0 [0; 0; 0] 320 240 0x480000 0x480000 0 1 (replicate 32 0) 24 0xffff.
Definition small_avc1 : Avc1Box :=
  let x b := mkAvc1 b small_info (mkSequence (hd (str "avcC") small_avcC) small_avcC) None [] in x (hd (str "avc1") (avc1_body (x b0))).
Definition small_stts : SttsBox := let x b := mkStts b 0 1 [mkSampleEntry 2 40] in x (hd (str "stts") (stts_body (x b0))).
Definition small_ctts : CttsBox := let x b := mkCtts b 0 2 [mkSampleOffset 1 40; mkSampleOffset 1 40] in x (hd (str "ctts") (ctts_body (x b0))).
Definition small_stss : StssBox := let x b := mkStss b 0 1 [1] in x (hd (str "stss") (stss_body (x b0))).
Definition small_stsc : StscBox := let x b := mkStsc b 0 1 [mkChunkSample 1 2 1] in x (hd (str "stsc") (stsc_body (x b0))).
Definition small_stsz : StszBox := let x b := mkStsz b 0 0 2 [7; 7] in x (hd (str "stsz") (stsz_body (x b0))).
Definition small_stco : StcoBox := let x b := mkStco b 0 1 [8] in x (hd (str "stco") (stco_body (x b0))).
End small.
Definition small_stbl : stbl_desc := mkStblDesc 0 (Video small_avc1) small_stts (Some small_stss) (Some small_ctts) small_stsc small_stsz small_stco.
Definition small_mdia : mdia_desc := mkMdiaDesc small_mdhd [0x55; 0xc4; 0; 0] small_hdlr (mkMinfDesc (Some small_vmhd) None None small_stbl).
Definition small_trak : trak_desc := mkTrakDesc small_tkhd None small_mdia.
Definition small_moov : moov_desc := mkMoovDesc small_mvhd [small_trak] None.
(** An IDR picture and another one. *)
Definition small_samples : list (list bytes) := [[[0x65; 0x88; 0x84]]; [[0x41; 0x9a; 0x02]]].
Definition small_data : part := Passed (str "mdat") (concat (map avcc small_samples)).

Ltac small_box := split; [vm_compute; reflexivity|split; [vm_compute; reflexivity|split; [vm_compute; repeat constructor; discriminate|vm_compute; reflexivity]]].
Ltac small_head := split; [vm_compute; reflexivity|split; [vm_compute; repeat constructor; discriminate|vm_compute; reflexivity]].
Ltac small_fields := repeat lazymatch goal with
  | |- Forall ?P ?l => let l' := eval vm_compute in l in change (Forall P l'); repeat (apply Forall_cons; split); try apply Forall_nil
  | |- _ /\ _ => split
  | |- bytes_ok ?l => unfold bytes_ok
  | |- True => exact I
  | _ => vm_compute; first [reflexivity|discriminate|split; [discriminate|reflexivity]|repeat split; discriminate]
  end.
Ltac small := split; [small_box|small_fields..].
Lemma small_trak_ok : trak_desc_ok small_trak.
Proof.
  split; [small_head|small|exact I|].
  split; [small_head|small|small| |reflexivity].
  split; [small_head|split; [small|by split]|].
  split; [small_head| |small|split; small|split; [small|split; small]].
  split; [by vm_compute|]. split; [small_head|].
  split; [small_box|split; small_fields|small_box|exact I|reflexivity].
Qed.
Lemma small_moov_ok : moov_ok small_moov.
Proof.
  split; [small_head|small|constructor; [apply small_trak_ok|constructor]|exact I].
Qed.
Lemma small_tables : tables_ok (new_trak small_trak) 40.
Proof.
  split; [|small_fields|small_fields]. split; [small_fields|small_fields| |small_fields..]. split; [repeat constructor|small_fields].
Qed.
(** Three samples, of which the first lasts 40 and the others 20; the first two are shown
    80 after they are decoded. *)
Definition uneven_trak : TrakInfo :=
  set_sample_entries [mkSampleEntry 1 40; mkSampleEntry 2 20] (set_sample_offset_vec [mkSampleOffset 2 80; mkSampleOffset 1 0]
    (set_sample_sizes_vec [7; 5; 6] (set_chunk_sample_vec [mkChunkSample 1 2 1; mkChunkSample 2 1 1] (set_chunk_offsets_vec [8; 100] (new_trak small_trak))))).
Lemma small_film : film (parts_bytes [small_data] ++ moov_bytes small_moov ++ parts_bytes []) (new_trak small_trak) [1; 0x42; 0xc0; 0x1e] small_sps small_pps 40 small_samples.
Proof.
  split; [split; small_fields|apply small_tables|].
  assert (trak_layout (new_trak small_trak) = [(8, 7); (15, 7)]) as -> by (vm_compute; reflexivity).
  repeat constructor; try small_fields.
Qed.

Lemma mp4_file_demuxed_witness :
  exists d, SourceData (H := zero_alloc) 4 (Some (file_reader (parts_bytes [small_data] ++ moov_bytes small_moov ++ parts_bytes []))) [] Mp4Demuxer_new = Done (Some d) /\
    Forall2 sees (m_log d)
      [header_packet small_sps; header_packet small_pps;
       mkSent MEDIA_VIDEO_TYPE MEDIA_CODEC_H264 0 40 true false [0; 0; 0; 1; 0x65; 0x88; 0x84];
       mkSent MEDIA_VIDEO_TYPE MEDIA_CODEC_H264 40 80 false false [0; 0; 0; 1; 0x41; 0x9a; 0x02]].
Proof.
  destruct (mp4_file_demuxed (H := zero_alloc) [small_data] [] small_moov small_trak [1; 0x42; 0xc0; 0x1e] small_sps small_pps 40 small_samples 4) as (d & E & Hd).
  - repeat constructor; small_fields.
  - constructor.
  - apply small_moov_ok.
  - reflexivity.
  - apply small_film.
  - small_fields.
  - cbn. lia.
  - exists d. split; [exact E|].
    assert (film_packets (new_trak small_trak) small_sps small_pps small_samples =
      [header_packet small_sps; header_packet small_pps;
       mkSent MEDIA_VIDEO_TYPE MEDIA_CODEC_H264 0 40 true false [0; 0; 0; 1; 0x65; 0x88; 0x84];
       mkSent MEDIA_VIDEO_TYPE MEDIA_CODEC_H264 40 80 false false [0; 0; 0; 1; 0x41; 0x9a; 0x02]]) as <- by (vm_compute; reflexivity).
    exact Hd.
Defined.

Lemma moov_roundtrip_witness :
  exists t, MoovBox_Parse (moov_bytes small_moov ++ [7; 8]) MovInfo_new = Done (Some (moov_of small_moov, [7; 8], moov_info small_moov MovInfo_new)) /\
    traks_info_ (moov_info small_moov MovInfo_new) = [t] /\ timescale_ t = 1000 /\ Mp4Box.codec_type_ t = MEDIA_CODEC_H264 /\ sequence_data_ t = small_avcC.
Proof.
  destruct (moov_roundtrip small_moov [7; 8] MovInfo_new small_moov_ok) as [E1 E2].
  exists (new_trak small_trak). split; [exact E1|]. split; [exact E2|]. repeat split.
Defined.

Lemma mp4_sample_tables_witness :
  map it_dts (items_of the_items uneven_trak) = [0; 40000; 60000] /\ map it_dts (items_of made_items uneven_trak) = [0; 20000; 40000] /\
  map it_pts (items_of the_items uneven_trak) = [80000; 120000; 60000] /\ map it_pts (items_of made_items uneven_trak) = [0; 100000; 40000] /\
  let l := [new_trak small_trak; uneven_trak] in
  exists items, traks_items l [] = Done items /\ StronglySorted by_time items /\ items ≡ₚ map entry (concat (map (items_of made_items) l)) /\
    (Forall (fun t => exists d, tables_ok t d) l -> items ≡ₚ map entry (concat (map (items_of the_items) l))).
Proof.
  split; [vm_compute; reflexivity|]. split; [vm_compute; reflexivity|]. split; [vm_compute; reflexivity|]. split; [vm_compute; reflexivity|].
  apply mp4_sample_tables. constructor; [|constructor; [|constructor]].
  - split; [exists MEDIA_VIDEO_TYPE; vm_compute; reflexivity|]. apply (to_fits _ 40), small_tables.
  - split; [exists MEDIA_VIDEO_TYPE; vm_compute; reflexivity|]. split; [small_fields|small_fields| |small_fields..]. split; [repeat constructor|small_fields].
Defined.
