(* ===== verification/Mp4Faults.v ===== *)
(** * [Mp4Faults]: what the demuxer does with other files

    The files that [Mp4Run] leaves out: boxes that keep the loops going for ever,
    tables that are not expanded the way ISO 14496-12 says, and times that are
    moved. *)
From S2P Require Import Prelude ByteStream DataBuffer Media H264 RtcTime Mp4Box Mp4Demux Mp4Parse Mp4Movie Mp4Samples Mp4Run.

Section faults.
Context `{Allocator} `{Uninit} `{Stack}.

(** ** Loops without an end *)

(** Eight zeros are the header of a box of size 0 and of no type. *)
Lemma zero_type q : read_range (replicate 8 0 ++ q) 4 4 = Done (replicate 4 0).
Proof. apply (read_range_mid (replicate 4 0) (replicate 4 0) q). Qed.
Lemma zero_header q : GetBoxHeaderInfo (replicate 8 0 ++ q) = Done (0, [], 8).
Proof. unfold GetBoxHeaderInfo. change (Read4Bytes _) with (Done 0). simpl_m. cbv beta iota zeta. by rewrite zero_type. Qed.
Lemma zero_box q m : unknown_box (replicate 8 0 ++ q) m = Done (Some (mkBox 0 [] 8, replicate 8 0 ++ q, m)).
Proof.
  unfold unknown_box. erewrite bind_ok by reflexivity.
  assert (Mp4BoxBase (replicate 8 0 ++ q) m = Done (Some (mkBox 0 [] 8, q, m))) as E.
  { unfold Mp4BoxBase. erewrite bind_ok by reflexivity. erewrite (bind_ok (lift _)) by reflexivity.
    erewrite bind_ok by (apply lift_ok, zero_type). change (le_value _) with 0. change (0 =? 1) with false. cbv beta iota. erewrite bind_ok by apply (advance_ok (replicate 8 0) q). done. }
  erewrite bind_ok by exact E. unfold box_end. erewrite bind_ok by (apply (advance_ok [])). done.
Qed.
(** Data that is not read from a file: the loop stays at the box for ever. *)
Lemma zero_box_stuck q fuel d : buffer_boxes fuel (replicate 8 0 ++ q) d = Fault OutOfFuel.
Proof.
  revert d. induction fuel as [|fuel IH]; intros d; [done|]. cbn [buffer_boxes].
  rewrite (proj2 (Z.ltb_lt _ _)) by (rewrite zlen_app; pose proof (zlen_nonneg q); change (zlen (replicate 8 0)) with 8; lia).
  rewrite (ok_step _ _ _ (zero_header q)). cbv beta iota zeta.
  rewrite (proj2 (Z.ltb_ge _ _)) by apply zlen_nonneg.
  unfold handle_box. rewrite !bool_decide_eq_false_2 by done.
  rewrite (parser_step _ _ _ _ _ (zero_box q (mov_ d))). cbv beta iota zeta. apply IH.
Qed.
(** A [free] box is what sends it there: only its header is passed. *)
Lemma free_box_stuck body fuel d : box_ok (str "free") (replicate 8 0 ++ body) -> m_buffer_ d = [] ->
  SourceData fuel None (box (str "free") (replicate 8 0 ++ body)) d = Fault OutOfFuel.
Proof.
  intros Hb Hd. unfold SourceData. cbn [m_set_buffer m_buffer_]. rewrite Hd. cbn [app].
  destruct fuel as [|fuel]; [done|]. cbn [buffer_boxes]. rewrite box_zlen by apply Hb. pose proof (zlen_nonneg (replicate 8 0 ++ body)).
  rewrite (proj2 (Z.ltb_lt _ _)) by lia. set (w := box _ _).
  assert (GetBoxHeaderInfo w = Done (8 + zlen (replicate 8 0 ++ body), str "free", 8)) as E.
  { unfold w. rewrite <- (app_nil_r (box _ _)). by apply box_header_ok. }
  rewrite (ok_step _ _ _ E). cbv beta iota zeta. rewrite Z.ltb_irrefl.
  unfold handle_box. rewrite !(bool_decide_eq_false_2 (str "free" = _)), (bool_decide_eq_true_2 (str "free" = str "free")) by done.
  set (m := mov_ _).
  assert (FreeBox_Parse w m = Done (Some (mkFree (hd (str "free") (replicate 8 0 ++ body)), replicate 8 0 ++ body, m))) as E'.
  { unfold FreeBox_Parse, w. rewrite <- (app_nil_r (box _ _)). erewrite bind_ok by by apply Mp4BoxBase_ok. by rewrite app_nil_r. }
  rewrite (parser_step _ _ _ _ _ E'). cbv beta iota zeta.
  match goal with |- ?l = _ => change l with (buffer_boxes fuel (replicate 8 0 ++ body) (out_box (str "free") (IsFree (mkFree (hd (str "free") (replicate 8 0 ++ body)))) (m_set_mov m (m_set_buffer w d))) ≫= fun '(p, d) => mret (m_set_buffer p d)) end.
  by rewrite zero_box_stuck.
Qed.

(** Data with a movie, not read from a file: there is no reader to get the samples from. *)
Lemma no_reader_faults e items buffer d : handle_items (e :: items) None buffer d = Fault OutOfBounds.
Proof. by destruct e. Qed.

(** ** Tables *)

(** An [mvhd] of version 1, as ISO 14496-12 writes it: its times are read with 32 bits, and the end is not met. *)
Definition long_mvhd : MvhdBox :=
  let x b := mkMvhd b 0x1000000 0 0 1000 80 65536 256 0 [0; 0] (replicate 9 0) (replicate 6 0) 2 in x (hd (str "mvhd") (mvhd_body (x (mkBox 0 [] 0)))).
Lemma mvhd_version_1_asserts : MvhdBox_Parse (mvhd_bytes long_mvhd) MovInfo_new = Fault AssertFailure.
Proof. by vm_compute. Qed.

(** An [stsz] that names one size for all samples: the box is read, and no size is kept. *)
Lemma constant_size_lost x p m : stands (str "stsz") (stsz_base x) (stsz_body x) ->
  Forall is32 [stsz_version_flag_ x; constant_size_ x; stsz_sample_count_ x] -> constant_size_ x <> 0 -> stsz_sample_sizes_vec_ x = [] -> has_trak any m ->
  StszBox_Parse (stsz_bytes x ++ p) m = Done (Some (x, p, m)).
Proof.
  intros Hb Hf Hne He Hm. fields. unfold StszBox_Parse. apply (stands_parsed _ _ _ _ _ _ _ Hb).
  intros start Hs. unfold stsz_body. psteps. rewrite (proj2 (Z.eqb_neq _ _) Hne), He.
  erewrite bind_ok by done. cbn [Write4s map concat app]. psteps. destruct x. cbn in He. by subst.
Qed.
(** There is then no size to look up. *)
Lemma constant_size_faults av offset index dts t : sample_sizes_vec_ t = [] -> sample_item av offset index dts t = Fault OutOfBounds.
Proof. intros Ht. unfold sample_item. by rewrite Ht. Qed.

(** The index that the durations are looked up with starts at 1 and not at 0: a sample gets the
    duration of the one behind it, and decoding times are those of the standard only where
    the durations do not change. *)
Lemma duration_of_next t k : Forall (fun e => 0 <= sample_count_ e) (sample_entries_ t) -> 0 <= k -> total sample_count_ (sample_entries_ t) < 2 ^ 32 ->
  getDurationBySampleIndex (k + 1) t = delta_of t (k + 1).
Proof.
  unfold getDurationBySampleIndex, delta_of. intros Hl Hk Hb. rewrite duration_loop_ok by (done || lia). by rewrite Z.sub_0_r.
Qed.
(** A run of two samples that are shown 40 later: the first is not. *)
Lemma only_last_of_run (t : TrakInfo) : sample_offset_vec_ t = [mkSampleOffset 2 40] ->
  getPtsBySampleIndex 1 0 t = Done 0 /\ getPtsBySampleIndex 2 40 t = Done 80 /\ offset_of t 0 = 40.
Proof. intros Ht. unfold getPtsBySampleIndex, offset_of. by rewrite Ht. Qed.

(** An offset of -40, as version 1 of [ctts] has it: it is read as one of more than four thousand million. *)
Lemma signed_offset_unsigned (t : TrakInfo) : sample_offset_vec_ t = [mkSampleOffset 1 (u32 (-40))] ->
  getPtsBySampleIndex 1 100 t = Done (100 - 40 + 2 ^ 32).
Proof. intros Ht. unfold getPtsBySampleIndex. by rewrite Ht. Qed.

(** ** Times *)

Definition at_time (av : MEDIA_PKT_TYPE) (dts : Z) : Z * MovItem := (dts, mkItem av MEDIA_CODEC_H264 0 0 dts dts 1000000 false).
Definition a_trak (handler : bytes) (delta : Z) : TrakInfo :=
  set_sample_entries [mkSampleEntry 2 delta] (set_timescale 1000 (set_handler_type handler TrakInfo_new)).
Definition dts_of (r : outcome (list (Z * MovItem))) : option (list Z) := match r with Done l => Some (map (fun e => it_dts e.2) l) | Fault _ => None end.
(** Two tracks that both start at 0: the pictures are moved behind the second frame of sound. *)
Lemma pictures_are_moved :
  dts_of (adjust_items [a_trak (str "vide") 40; a_trak (str "soun") 20]
    [at_time MEDIA_VIDEO_TYPE 0; at_time MEDIA_AUDIO_TYPE 0; at_time MEDIA_AUDIO_TYPE 20000; at_time MEDIA_VIDEO_TYPE 40000]) =
  Some [60000; 0; 20000; 100000].
Proof. reflexivity. Qed.
(** A track of sound alone is moved by the time of its last frame. *)
Lemma sound_is_moved :
  dts_of (adjust_items [a_trak (str "soun") 20] [at_time MEDIA_AUDIO_TYPE 0; at_time MEDIA_AUDIO_TYPE 20000; at_time MEDIA_AUDIO_TYPE 40000]) =
  Some [40000; 60000; 80000].
Proof. reflexivity. Qed.
End faults.

(** Of the four bytes of a length only the last counts: the length 256 is read as 0. *)
Lemma shifted_out v k : 7 <= k <= 32 -> Z.land (u32 (Z.shiftl v k)) 0x7f = 0.
Proof.
  intros Hk. rewrite (low_mask _ _ 7) by done. rewrite Z.shiftl_mul_pow2 by lia. unfold u32.
  replace (2 ^ k) with (2 ^ (k - 7) * 2 ^ 7) by (rewrite <- Z.pow_add_r by lia; f_equal; lia).
  change (2 ^ 32) with (2 ^ 25 * 2 ^ 7). rewrite Z.mul_assoc, Zmult_mod_distr_r. by rewrite Z.mod_mul.
Qed.
Lemma GetDescLen_last_byte a b c e : is_byte e -> GetDescLen [a; b; c; e] = Done (Z.land e 0x7f).
Proof.
  intros He. unfold GetDescLen. change ([a; b; c; e].[0]) with (Done a). change ([a; b; c; e].[1]) with (Done b).
  change ([a; b; c; e].[2]) with (Done c). change ([a; b; c; e].[3]) with (Done e). simpl_m.
  rewrite !shifted_out by lia. rewrite u32_small; [done|]. rewrite (low_mask _ _ 7) by done. pose proof (Z.mod_pos_bound e (2 ^ 7)). lia.
Qed.
