(* ===== verification/Sdp.v ===== *)
(** * [Sdp]: session descriptions

    Models [src/format/sdp/sdp.cpp] and [src/utils/uuid.hpp].  The members of
    [SdpTransform] that exist for video and for audio ([video_pt_vec_] and
    [audio_pt_vec_] ...) are two records [MediaSdp]; members nothing reads are left
    out.  What the class reads and writes of [RtcDtls] is the record [DtlsSdp],
    passed along.  The random numbers are a sequence, [drawn] counts those used;
    the members of an [SSRCInfo] that its declaration does not set hold what the
    memory held, by SSRC.  [None] is the exception of [substr]. *)
From S2P Require Import Prelude StringEx ZMap.
From S2P Require PeerIce.
Import PeerIce(IceInfo, mkIceInfo, ICE_NET_TYPE, ICE_NET_UNKNOWN, ICE_TCP, ICE_UDP, net_type, hostip, port).
Import PeerIce(IceSetup, mkIceSetup, ice_infos, remote_fragment_, local_fragment_, remote_pwd_).
#[local] Existing Instance PeerIce.ICE_NET_TYPE_eq_dec.

(** ** Random numbers and identifiers *)

(** [std::uniform_int_distribution]: the [n]-th number drawn, from a range. *)
Class Random := { draw : nat -> Z -> Z -> Z; draw_range n min max : min <= max -> min <= draw n min max <= max }.

Section random.
Context `{Random}.

(** [count] numbers, the first one after [n]. *)
Definition draws (n count : nat) (min max : Z) : list Z := map (fun i => draw i min max) (seq n count).

Definition hex_char (d : Z) : Z := if d <? 10 then 48 + d else 87 + d.
(** ["%04x"] and ["%02x"] of a number of at most this width. *)
Definition hex (width : nat) (v : Z) : bytes := map (fun i => hex_char (v / 16 ^ Z.of_nat i mod 16)) (rev (seq 0 width)).

(** Each takes the numbers from [n] on. *)
Definition MakeUUID2 (n : nat) : bytes :=
  let d i := hex 4 (draw (n + i) 0 0xffff) in
  d 0%nat ++ d 1%nat ++ str "-" ++ d 2%nat ++ str "-" ++ d 3%nat ++ str "-" ++ d 4%nat ++ str "-" ++ d 5%nat ++ d 6%nat ++ d 7%nat.
Definition MakeUUID (n : nat) : bytes := concat (map (hex 2) (draws n 12 0 255)).
Definition MakeNumString (n count : nat) : bytes := concat (map (fun v => dec (v `rem` 10)) (draws n count 0 9)).

(** [ByteCrypto::GetRandomString], up to the 256 bytes of its buffer. *)
Definition random_chars : bytes := str "0123456789abcdefghijklmnopqrstuvwxyz".
Definition GetRandomString (n len : nat) : bytes :=
  map (fun v => nth (Z.to_nat v) random_chars 0) (draws n (Nat.min len 256) 0 35).
End random.

(** ** The data *)

Record RtpMapInfo := mkRtpMap { rm_payload_type : Z; rm_codec_type : bytes; rm_clock_rate : Z; rm_channel : Z }.
Record FmtpInfo := mkFmtp { fi_payload_type : Z; fi_attr_string : bytes; fi_is_video : bool; fi_is_rtx : bool; fi_rtx_payload_type : Z }.
Record RtcpFbInfo := mkRtcpFb { fb_payload_type : Z; fb_attr_string : bytes }.
Record ExtInfo := mkExt { ext_id : Z; ext_desc : bytes }.
Record SSRCInfo := mkSsrc {
  si_ssrc : Z; si_is_video : bool; si_is_rtx : bool; si_msid : bytes; si_msid_appdata : bytes; si_cname : bytes; si_rtx_ssrc : Z
}.

Record MediaSdp := mkMediaSdp {
  has_ : bool;
  pt_vec_ : list Z;
  rtp_map_infos_ : list (Z * RtpMapInfo);
  fmtp_vec_ : list FmtpInfo;
  rtcpfb_vec_ : list RtcpFbInfo;
  fid_vec_ : list Z;
  msid_ : bytes;
  msid_appdata_ : bytes;
  mid_ : Z;
  md_ssrc_ : Z;
  md_clock_rate_ : Z;
  md_cname_ : bytes
}.

(** The identifiers of the header extensions. *)
Record ExtIds := mkExtIds {
  em_toffset_ : Z; em_abs_send_time_ : Z; em_video_rotation_ : Z; em_tcc_ : Z; em_playout_delay_ : Z; em_video_content_ : Z;
  em_video_timing_ : Z; em_color_space_ : Z; em_sdes_ : Z; em_rtp_streamid_ : Z; em_rp_rtp_streamid_ : Z; em_audio_level_ : Z
}.

Record SdpTransform := mkSdp {
  proto_ver_ : bytes;
  session_name_ : bytes;
  session_id_ : bytes;
  sd_video : MediaSdp;
  sd_audio : MediaSdp;
  ext_map_ : list (Z * ExtInfo);
  ssrc_info_map_ : list (Z * SSRCInfo);
  em_ : ExtIds;
  setup_ : bytes;
  direction_ : bytes;
  video_rtx_ssrc_ : Z;
  video_rtx_clock_rate_ : Z;
  sd_channel_ : Z;
  current_is_video_ : bool;
  rtx_enable_ : bool;
  drawn : nat
}.

Record DtlsSdp := mkDtlsSdp { ds_ice : IceSetup; local_pwd_ : bytes; fg_algorithm_ : bytes; fingerprint_ : bytes }.

Definition set_has (v : bool) (s : MediaSdp) : MediaSdp :=
    mkMediaSdp v (pt_vec_ s) (rtp_map_infos_ s) (fmtp_vec_ s) (rtcpfb_vec_ s) (fid_vec_ s) (msid_ s) (msid_appdata_ s) (mid_ s) (md_ssrc_ s)
    (md_clock_rate_ s) (md_cname_ s).
Definition set_pt_vec (v : list Z) (s : MediaSdp) : MediaSdp :=
    mkMediaSdp (has_ s) v (rtp_map_infos_ s) (fmtp_vec_ s) (rtcpfb_vec_ s) (fid_vec_ s) (msid_ s) (msid_appdata_ s) (mid_ s) (md_ssrc_ s)
    (md_clock_rate_ s) (md_cname_ s).
Definition set_rtp_map (v : list (Z * RtpMapInfo)) (s : MediaSdp) : MediaSdp :=
    mkMediaSdp (has_ s) (pt_vec_ s) v (fmtp_vec_ s) (rtcpfb_vec_ s) (fid_vec_ s) (msid_ s) (msid_appdata_ s) (mid_ s) (md_ssrc_ s)
    (md_clock_rate_ s) (md_cname_ s).
Definition set_fmtp (v : list FmtpInfo) (s : MediaSdp) : MediaSdp :=
    mkMediaSdp (has_ s) (pt_vec_ s) (rtp_map_infos_ s) v (rtcpfb_vec_ s) (fid_vec_ s) (msid_ s) (msid_appdata_ s) (mid_ s) (md_ssrc_ s)
    (md_clock_rate_ s) (md_cname_ s).
Definition set_rtcpfb (v : list RtcpFbInfo) (s : MediaSdp) : MediaSdp :=
    mkMediaSdp (has_ s) (pt_vec_ s) (rtp_map_infos_ s) (fmtp_vec_ s) v (fid_vec_ s) (msid_ s) (msid_appdata_ s) (mid_ s) (md_ssrc_ s)
    (md_clock_rate_ s) (md_cname_ s).
Definition set_fid (v : list Z) (s : MediaSdp) : MediaSdp :=
    mkMediaSdp (has_ s) (pt_vec_ s) (rtp_map_infos_ s) (fmtp_vec_ s) (rtcpfb_vec_ s) v (msid_ s) (msid_appdata_ s) (mid_ s) (md_ssrc_ s)
    (md_clock_rate_ s) (md_cname_ s).
Definition set_msid (v : bytes) (s : MediaSdp) : MediaSdp :=
    mkMediaSdp (has_ s) (pt_vec_ s) (rtp_map_infos_ s) (fmtp_vec_ s) (rtcpfb_vec_ s) (fid_vec_ s) v (msid_appdata_ s) (mid_ s) (md_ssrc_ s)
    (md_clock_rate_ s) (md_cname_ s).
Definition set_msid_appdata (v : bytes) (s : MediaSdp) : MediaSdp :=
    mkMediaSdp (has_ s) (pt_vec_ s) (rtp_map_infos_ s) (fmtp_vec_ s) (rtcpfb_vec_ s) (fid_vec_ s) (msid_ s) v (mid_ s) (md_ssrc_ s)
    (md_clock_rate_ s) (md_cname_ s).
Definition set_mid (v : Z) (s : MediaSdp) : MediaSdp :=
    mkMediaSdp (has_ s) (pt_vec_ s) (rtp_map_infos_ s) (fmtp_vec_ s) (rtcpfb_vec_ s) (fid_vec_ s) (msid_ s) (msid_appdata_ s) v (md_ssrc_ s)
    (md_clock_rate_ s) (md_cname_ s).
Definition set_md_ssrc (v : Z) (s : MediaSdp) : MediaSdp :=
    mkMediaSdp (has_ s) (pt_vec_ s) (rtp_map_infos_ s) (fmtp_vec_ s) (rtcpfb_vec_ s) (fid_vec_ s) (msid_ s) (msid_appdata_ s) (mid_ s) v
    (md_clock_rate_ s) (md_cname_ s).
Definition set_md_clock_rate (v : Z) (s : MediaSdp) : MediaSdp :=
    mkMediaSdp (has_ s) (pt_vec_ s) (rtp_map_infos_ s) (fmtp_vec_ s) (rtcpfb_vec_ s) (fid_vec_ s) (msid_ s) (msid_appdata_ s) (mid_ s)
    (md_ssrc_ s) v (md_cname_ s).
Definition set_md_cname (v : bytes) (s : MediaSdp) : MediaSdp :=
    mkMediaSdp (has_ s) (pt_vec_ s) (rtp_map_infos_ s) (fmtp_vec_ s) (rtcpfb_vec_ s) (fid_vec_ s) (msid_ s) (msid_appdata_ s) (mid_ s)
    (md_ssrc_ s) (md_clock_rate_ s) v.

Definition set_proto_ver (v : bytes) (s : SdpTransform) : SdpTransform :=
    mkSdp v (session_name_ s) (session_id_ s) (sd_video s) (sd_audio s) (ext_map_ s) (ssrc_info_map_ s) (em_ s) (setup_ s) (direction_ s)
    (video_rtx_ssrc_ s) (video_rtx_clock_rate_ s) (sd_channel_ s) (current_is_video_ s) (rtx_enable_ s) (drawn s).
Definition set_session_name (v : bytes) (s : SdpTransform) : SdpTransform :=
    mkSdp (proto_ver_ s) v (session_id_ s) (sd_video s) (sd_audio s) (ext_map_ s) (ssrc_info_map_ s) (em_ s) (setup_ s) (direction_ s)
    (video_rtx_ssrc_ s) (video_rtx_clock_rate_ s) (sd_channel_ s) (current_is_video_ s) (rtx_enable_ s) (drawn s).
Definition set_session_id (v : bytes) (s : SdpTransform) : SdpTransform :=
    mkSdp (proto_ver_ s) (session_name_ s) v (sd_video s) (sd_audio s) (ext_map_ s) (ssrc_info_map_ s) (em_ s) (setup_ s) (direction_ s)
    (video_rtx_ssrc_ s) (video_rtx_clock_rate_ s) (sd_channel_ s) (current_is_video_ s) (rtx_enable_ s) (drawn s).
Definition set_video (v : MediaSdp) (s : SdpTransform) : SdpTransform :=
    mkSdp (proto_ver_ s) (session_name_ s) (session_id_ s) v (sd_audio s) (ext_map_ s) (ssrc_info_map_ s) (em_ s) (setup_ s) (direction_ s)
    (video_rtx_ssrc_ s) (video_rtx_clock_rate_ s) (sd_channel_ s) (current_is_video_ s) (rtx_enable_ s) (drawn s).
Definition set_audio (v : MediaSdp) (s : SdpTransform) : SdpTransform :=
    mkSdp (proto_ver_ s) (session_name_ s) (session_id_ s) (sd_video s) v (ext_map_ s) (ssrc_info_map_ s) (em_ s) (setup_ s) (direction_ s)
    (video_rtx_ssrc_ s) (video_rtx_clock_rate_ s) (sd_channel_ s) (current_is_video_ s) (rtx_enable_ s) (drawn s).
Definition set_ext_map (v : list (Z * ExtInfo)) (s : SdpTransform) : SdpTransform :=
    mkSdp (proto_ver_ s) (session_name_ s) (session_id_ s) (sd_video s) (sd_audio s) v (ssrc_info_map_ s) (em_ s) (setup_ s) (direction_ s)
    (video_rtx_ssrc_ s) (video_rtx_clock_rate_ s) (sd_channel_ s) (current_is_video_ s) (rtx_enable_ s) (drawn s).
Definition set_ssrc_info (v : list (Z * SSRCInfo)) (s : SdpTransform) : SdpTransform :=
    mkSdp (proto_ver_ s) (session_name_ s) (session_id_ s) (sd_video s) (sd_audio s) (ext_map_ s) v (em_ s) (setup_ s) (direction_ s)
    (video_rtx_ssrc_ s) (video_rtx_clock_rate_ s) (sd_channel_ s) (current_is_video_ s) (rtx_enable_ s) (drawn s).
Definition set_em (v : ExtIds) (s : SdpTransform) : SdpTransform :=
    mkSdp (proto_ver_ s) (session_name_ s) (session_id_ s) (sd_video s) (sd_audio s) (ext_map_ s) (ssrc_info_map_ s) v (setup_ s)
    (direction_ s) (video_rtx_ssrc_ s) (video_rtx_clock_rate_ s) (sd_channel_ s) (current_is_video_ s) (rtx_enable_ s) (drawn s).
Definition set_direction (v : bytes) (s : SdpTransform) : SdpTransform :=
    mkSdp (proto_ver_ s) (session_name_ s) (session_id_ s) (sd_video s) (sd_audio s) (ext_map_ s) (ssrc_info_map_ s) (em_ s) (setup_ s) v
    (video_rtx_ssrc_ s) (video_rtx_clock_rate_ s) (sd_channel_ s) (current_is_video_ s) (rtx_enable_ s) (drawn s).
Definition set_video_rtx_ssrc (v : Z) (s : SdpTransform) : SdpTransform :=
    mkSdp (proto_ver_ s) (session_name_ s) (session_id_ s) (sd_video s) (sd_audio s) (ext_map_ s) (ssrc_info_map_ s) (em_ s) (setup_ s)
    (direction_ s) v (video_rtx_clock_rate_ s) (sd_channel_ s) (current_is_video_ s) (rtx_enable_ s) (drawn s).
Definition set_video_rtx_clock_rate (v : Z) (s : SdpTransform) : SdpTransform :=
    mkSdp (proto_ver_ s) (session_name_ s) (session_id_ s) (sd_video s) (sd_audio s) (ext_map_ s) (ssrc_info_map_ s) (em_ s) (setup_ s)
    (direction_ s) (video_rtx_ssrc_ s) v (sd_channel_ s) (current_is_video_ s) (rtx_enable_ s) (drawn s).
Definition set_channel (v : Z) (s : SdpTransform) : SdpTransform :=
    mkSdp (proto_ver_ s) (session_name_ s) (session_id_ s) (sd_video s) (sd_audio s) (ext_map_ s) (ssrc_info_map_ s) (em_ s) (setup_ s)
    (direction_ s) (video_rtx_ssrc_ s) (video_rtx_clock_rate_ s) v (current_is_video_ s) (rtx_enable_ s) (drawn s).
Definition set_current (v : bool) (s : SdpTransform) : SdpTransform :=
    mkSdp (proto_ver_ s) (session_name_ s) (session_id_ s) (sd_video s) (sd_audio s) (ext_map_ s) (ssrc_info_map_ s) (em_ s) (setup_ s)
    (direction_ s) (video_rtx_ssrc_ s) (video_rtx_clock_rate_ s) (sd_channel_ s) v (rtx_enable_ s) (drawn s).
Definition SetVideoRtxFlag (v : bool) (s : SdpTransform) : SdpTransform :=
    mkSdp (proto_ver_ s) (session_name_ s) (session_id_ s) (sd_video s) (sd_audio s) (ext_map_ s) (ssrc_info_map_ s) (em_ s) (setup_ s)
    (direction_ s) (video_rtx_ssrc_ s) (video_rtx_clock_rate_ s) (sd_channel_ s) (current_is_video_ s) v (drawn s).
Definition set_drawn (v : nat) (s : SdpTransform) : SdpTransform :=
    mkSdp (proto_ver_ s) (session_name_ s) (session_id_ s) (sd_video s) (sd_audio s) (ext_map_ s) (ssrc_info_map_ s) (em_ s) (setup_ s)
    (direction_ s) (video_rtx_ssrc_ s) (video_rtx_clock_rate_ s) (sd_channel_ s) (current_is_video_ s) (rtx_enable_ s) v.

Definition MediaSdp_new (clock_rate : Z) : MediaSdp := mkMediaSdp false [] [] [] [] [] [] [] (-1) 0 clock_rate [].
Definition ExtIds_new : ExtIds := mkExtIds (-1) (-1) (-1) (-1) (-1) (-1) (-1) (-1) (-1) (-1) (-1) (-1).
Definition SdpTransform_new : SdpTransform :=
  mkSdp (str "0") [] [] (MediaSdp_new 90000) (MediaSdp_new 48000) [] [] ExtIds_new (str "passive") (str "sendonly") 0 90000 2 true false 0.

(** The members of the kind of media the parser is at, or that is asked for. *)
Definition media (is_video : bool) (s : SdpTransform) : MediaSdp := if is_video then sd_video s else sd_audio s.
Definition put_media (is_video : bool) (m : MediaSdp) (s : SdpTransform) : SdpTransform := if is_video then set_video m s else set_audio m s.

(** ** Parsing *)

(** A computation that may throw. *)
Definition throwing (A : Type) := outcome (option A).
Definition tbind {A B} (m : throwing A) (f : A -> throwing B) : throwing B :=
  match m with Done (Some a) => f a | Done None => Done None | Fault e => Fault e end.
Definition tret {A} (a : A) : throwing A := Done (Some a).
Definition tlift {A} (m : outcome A) : throwing A := match m with Done a => Done (Some a) | Fault e => Fault e end.
Declare Scope sdp_scope.
Notation "x ⇐ m ; k" := (tbind m (fun x => k)) (at level 20, m at level 100, k at level 200) : sdp_scope.
Open Scope sdp_scope.

Definition substr (s : bytes) (pos : nat) : throwing bytes := Done (substr_from s pos).
(** [s.substr(0, pos)] for the result of [find]; [npos] takes all. *)
Definition substr_to (s : bytes) (pos : option nat) : bytes := match pos with Some n => take n s | None => s end.
(** [s.substr(pos + 1)] for the result of [find]; [npos + 1] is 0. *)
Definition substr_behind (s : bytes) (pos : option nat) : bytes := match pos with Some n => drop (S n) s | None => s end.

Fixpoint atoi_all (l : list bytes) : outcome (list Z) :=
  match l with
  | [] => mret []
  | s :: l => v ← atoi s; r ← atoi_all l; mret (v :: r)
  end.

(** Each gives the [int] returned. *)
Definition ParseM (line : bytes) (s : SdpTransform) : throwing (Z * SdpTransform) :=
  match find (str "=") line with
  | None => tret (-1, s)
  | Some pos =>
      m_attr ⇐ substr line (pos + 1);
      attr_vec ⇐ tlift (StringSplit m_attr (str " "));
      if (length attr_vec <? 4)%nat then tret (-1, s)
      else
        let current := bool_decide (nth 0 attr_vec [] = str "video") in
        let s := set_current current s in
        pts ⇐ tlift (atoi_all (drop 3 attr_vec));
        let m := media current s in
        tret (0, put_media current (set_has true (set_pt_vec (pt_vec_ m ++ pts) m)) s)
  end.

Definition ParseRtpMap (line : bytes) (s : SdpTransform) : throwing (Z * SdpTransform) :=
  rtp_map_str ⇐ substr line (length (str "a=rtpmap") + 1);
  let pos := find (str " ") rtp_map_str in
  pt ⇐ tlift (atoi (substr_to rtp_map_str pos));
  items ⇐ tlift (StringSplit (substr_behind rtp_map_str pos) (str "/"));
  match items with
  | codec :: rate :: rest =>
      clock_rate ⇐ tlift (atoi rate);
      channel ⇐ tlift (match rest with [] => mret 0 | c :: _ => atoi c end);
      let info := mkRtpMap pt codec clock_rate channel in
      let v := current_is_video_ s in
      let m := set_rtp_map (zset pt info (rtp_map_infos_ (media v s))) (media v s) in
      tret (0,
        if v then
          if bool_decide (codec = str "rtx") then set_video_rtx_clock_rate clock_rate (set_video m s)
          else set_video (set_md_clock_rate clock_rate m) s
        else set_channel channel (set_audio (set_md_clock_rate clock_rate m) s))
  | _ => tret (-1, s)
  end.

(** The attribute that follows the payload type, in three kinds of line. *)
Definition pt_attr (prefix line : bytes) : throwing (option (Z * bytes)) :=
  attr_str ⇐ substr line (length prefix + 1);
  match find (str " ") attr_str with
  | None => tret None
  | Some pos => pt ⇐ tlift (atoi (take pos attr_str)); tret (Some (pt, drop (pos + 1) attr_str))
  end.

Definition fmtp_of (is_video : bool) (pt : Z) (attr : bytes) : throwing FmtpInfo :=
  match find (str "apt") attr with
  | Some pos =>
      rtx_type_str ⇐ substr attr (pos + length (str "apt") + 1);
      rtx ⇐ tlift (atoi rtx_type_str);
      tret (mkFmtp pt attr is_video true rtx)
  | None => tret (mkFmtp pt attr is_video false 0)
  end.

Definition ParseFmtp (line : bytes) (s : SdpTransform) : throwing (Z * SdpTransform) :=
  r ⇐ pt_attr (str "a=fmtp") line;
  match r with
  | None => tret (-1, s)
  | Some (pt, attr) =>
      let v := current_is_video_ s in
      info ⇐ fmtp_of v pt attr;
      tret (0, put_media v (set_fmtp (fmtp_vec_ (media v s) ++ [info]) (media v s)) s)
  end.

Definition ParseRtcpFb (line : bytes) (s : SdpTransform) : throwing (Z * SdpTransform) :=
  r ⇐ pt_attr (str "a=rtcp-fb") line;
  match r with
  | None => tret (-1, s)
  | Some (pt, attr) =>
      let v := current_is_video_ s in
      tret (0, put_media v (set_rtcpfb (rtcpfb_vec_ (media v s) ++ [mkRtcpFb pt attr]) (media v s)) s)
  end.

Definition ParseExtMap (line : bytes) (s : SdpTransform) : throwing (Z * SdpTransform) :=
  r ⇐ pt_attr (str "a=extmap") line;
  match r with
  | None => tret (-1, s)
  | Some (id, desc) => tret (0, set_ext_map (zset id (mkExt id desc) (ext_map_ s)) s)
  end.

Section parse.
(** [is_rtx] and [rtx_ssrc] of an [SSRCInfo] just declared. *)
Variables (mem_is_rtx : Z -> bool) (mem_rtx_ssrc : Z -> Z).

(** The entry of an SSRC, or the one made for it. *)
Definition ssrc_entry (ssrc : Z) (s : SdpTransform) : SSRCInfo :=
  match zfind ssrc (ssrc_info_map_ s) with
  | Some i => mkSsrc ssrc (current_is_video_ s) (si_is_rtx i) (si_msid i) (si_msid_appdata i) (si_cname i) (si_rtx_ssrc i)
  | None => mkSsrc ssrc (current_is_video_ s) (mem_is_rtx ssrc) [] [] [] (mem_rtx_ssrc ssrc)
  end.
Definition with_cname (cname : bytes) (i : SSRCInfo) : SSRCInfo :=
  mkSsrc (si_ssrc i) (si_is_video i) (si_is_rtx i) (si_msid i) (si_msid_appdata i) cname (si_rtx_ssrc i).
Definition with_msid (msid msid_appdata : bytes) (i : SSRCInfo) : SSRCInfo :=
  mkSsrc (si_ssrc i) (si_is_video i) (si_is_rtx i) msid msid_appdata (si_cname i) (si_rtx_ssrc i).
Definition with_rtx (is_rtx : bool) (rtx_ssrc : Z) (i : SSRCInfo) : SSRCInfo :=
  mkSsrc (si_ssrc i) (si_is_video i) is_rtx (si_msid i) (si_msid_appdata i) (si_cname i) rtx_ssrc.

Definition ParseSsrcInfo (line : bytes) (s : SdpTransform) : throwing (Z * SdpTransform) :=
  r ⇐ pt_attr (str "a=ssrc") line;
  match r with
  | None => tret (-1, s)
  | Some (n, ssrc_string) =>
      let ssrc := u32 n in
      if bool_decide (find (str "cname") ssrc_string = Some O) then
        cname ⇐ substr ssrc_string (length (str "cname") + 1);
        tret (0, set_ssrc_info (zset ssrc (with_cname cname (ssrc_entry ssrc s)) (ssrc_info_map_ s)) s)
      else if bool_decide (find (str "msid") ssrc_string = Some O) then
        msid_string ⇐ substr ssrc_string (length (str "msid") + 1);
        match find (str " ") msid_string with
        | None => tret (-1, s)
        | Some pos =>
            tret (0, set_ssrc_info (zset ssrc (with_msid (take pos msid_string) (drop (pos + 1) msid_string) (ssrc_entry ssrc s)) (ssrc_info_map_ s)) s)
        end
      else tret (0, s)
  end.

Definition ParseSsrcGroupFid (line : bytes) (s : SdpTransform) : throwing (Z * SdpTransform) :=
  ssrcs_string ⇐ substr line (length (str "a=ssrc-group:FID") + 1);
  ssrc_vec ⇐ tlift (StringSplit ssrcs_string (str " "));
  if (length ssrc_vec <? 2)%nat then tret (-1, s)
  else
    fids ⇐ tlift (atoi_all ssrc_vec);
    let fids := map u32 fids in
    let v := current_is_video_ s in
    let s := put_media v (set_fid (fid_vec_ (media v s) ++ fids) (media v s)) s in
    let main_ssrc := nth 0 fids 0 in
    let slave_ssrc := nth 1 fids 0 in
    match zfind main_ssrc (ssrc_info_map_ s) with
    | None => tret (-1, s)
    | Some i =>
        let s := set_ssrc_info (zset main_ssrc (with_rtx false slave_ssrc i) (ssrc_info_map_ s)) s in
        match zfind slave_ssrc (ssrc_info_map_ s) with
        | None => tret (-1, s)
        | Some j =>
            let s := set_ssrc_info (zset slave_ssrc (with_rtx true main_ssrc j) (ssrc_info_map_ s)) s in
            tret (0, set_video_rtx_ssrc slave_ssrc (set_video (set_md_ssrc main_ssrc (sd_video s)) s))
        end
    end.

(** A line [line.find(attr) == 0]. *)
Definition starts (attr line : bytes) : bool := bool_decide (find attr line = Some O).

Definition same_ice (a b : IceInfo) : bool :=
  bool_decide (net_type a = net_type b) && bool_decide (hostip a = hostip b) && (port a =? port b).
Definition set_ice_infos (l : list IceInfo) (d : DtlsSdp) : DtlsSdp :=
  let i := ds_ice d in
  mkDtlsSdp (mkIceSetup l (remote_fragment_ i) (local_fragment_ i) (remote_pwd_ i)) (local_pwd_ d) (fg_algorithm_ d) (fingerprint_ d).
Definition set_remote_fragment (v : bytes) (d : DtlsSdp) : DtlsSdp :=
  let i := ds_ice d in
  mkDtlsSdp (mkIceSetup (ice_infos i) v (local_fragment_ i) (remote_pwd_ i)) (local_pwd_ d) (fg_algorithm_ d) (fingerprint_ d).
Definition set_remote_pwd (v : bytes) (d : DtlsSdp) : DtlsSdp :=
  let i := ds_ice d in
  mkDtlsSdp (mkIceSetup (ice_infos i) (remote_fragment_ i) (local_fragment_ i) v) (local_pwd_ d) (fg_algorithm_ d) (fingerprint_ d).

(** The branch of [a=candidate]. *)
Definition ParseCandidate (line : bytes) (d : DtlsSdp) : throwing DtlsSdp :=
  candidate ⇐ substr line (length (str "a=candidate:"));
  items ⇐ tlift (StringSplit candidate (str " "));
  if (6 <? length items)%nat then
    let item i := nth i items [] in
    let type := if bool_decide (item 2%nat = str "tcp") then ICE_TCP else if bool_decide (item 2%nat = str "udp") then ICE_UDP else ICE_NET_UNKNOWN in
    p ⇐ tlift (atoi (item 5%nat));
    let ice_info := mkIceInfo type (item 4%nat) (u16 p) in
    let l := ice_infos (ds_ice d) in
    tret (if existsb (same_ice ice_info) l then d else set_ice_infos (l ++ [ice_info]) d)
  else tret d.

(** The branch of [o=]. *)
Definition ParseSession (line : bytes) (s : SdpTransform) : throwing SdpTransform :=
  attr_vec ⇐ tlift (StringSplit line (str " "));
  if (length attr_vec <? 2)%nat then tret s
  else
    let id := nth 0 attr_vec [] in
    let s := set_session_id id s in
    match find (str "=") id with
    | None => tret s
    | Some pos => tret (set_session_id (drop (pos + 1) id) s)
    end.

Definition with_dtls (d : DtlsSdp) (m : throwing (Z * SdpTransform)) : throwing (Z * (SdpTransform * DtlsSdp)) :=
  r ⇐ m; tret (r.1, (r.2, d)).

Definition ParseLine (line : bytes) (st : SdpTransform * DtlsSdp) : throwing (Z * (SdpTransform * DtlsSdp)) :=
  let '(s, d) := st in
  let line := RemoveSubfix line [13] in
  if starts (str "v=") line then tret (0, (set_proto_ver (drop 2 line) s, d))
  else if starts (str "s=") line then
    match find (str "=") line with
    | None => tret (0, st)
    | Some pos => tret (0, (set_session_name (drop (pos + 1) line) s, d))
    end
  else if starts (str "o=") line then s ⇐ ParseSession line s; tret (0, (s, d))
  else if starts (str "m=") line then with_dtls d (ParseM line s)
  else if starts (str "a=rtpmap") line then with_dtls d (ParseRtpMap line s)
  else if starts (str "a=fmtp") line then with_dtls d (ParseFmtp line s)
  else if starts (str "a=rtcp-fb") line then with_dtls d (ParseRtcpFb line s)
  else if starts (str "a=extmap") line then with_dtls d (ParseExtMap line s)
  else if starts (str "a=ssrc-group:FID") line then with_dtls d (ParseSsrcGroupFid line s)
  else if starts (str "a=ssrc") line then with_dtls d (ParseSsrcInfo line s)
  else if starts (str "a=candidate:") line then d ⇐ ParseCandidate line d; tret (0, (s, d))
  else if starts (str "a=ice-ufrag:") line then
    tret (0, (s, if bool_decide (remote_fragment_ (ds_ice d) = []) then set_remote_fragment (drop (length (str "a=ice-ufrag:")) line) d else d))
  else if starts (str "a=ice-pwd:") line then
    tret (0, (s, if bool_decide (remote_pwd_ (ds_ice d) = []) then set_remote_pwd (drop (length (str "a=ice-pwd:")) line) d else d))
  else tret (0, st).

Fixpoint parse_lines (l : list bytes) (st : SdpTransform * DtlsSdp) : throwing (SdpTransform * DtlsSdp) :=
  match l with
  | [] => tret st
  | line :: l => r ⇐ ParseLine line st; parse_lines l r.2
  end.

Definition Parse (sdp : bytes) (st : SdpTransform * DtlsSdp) : throwing (Z * (SdpTransform * DtlsSdp)) :=
  sdp_lines ⇐ tlift (StringSplit sdp [10]);
  st ⇐ parse_lines sdp_lines st;
  tret (0, st).
End parse.

(** ** Writing *)

Definition nl : bytes := [10].

Section gen.
Context `{Random}.

Definition GetProtoVersion (s : SdpTransform) : bytes := str "v=" ++ proto_ver_ s ++ nl.

Definition GetSessionIdentifier (s : SdpTransform) : bytes * SdpTransform :=
  let s := set_drawn (drawn s + 19) (set_session_id (MakeNumString (drawn s) 19) s) in
  (str "o=- " ++ session_id_ s ++ str " 2" ++ str " IN IP4 127.0.0.1" ++ nl, s).

Definition GetSessionName (s : SdpTransform) : bytes * SdpTransform :=
  let s := if bool_decide (session_name_ s = []) then set_session_name (str "cpp_streamer") s else s in
  (str "s=" ++ session_name_ s ++ nl, s).

Definition GetTimeScale (start end_ : Z) : bytes := str "t=" ++ dec start ++ str " " ++ dec end_ ++ nl.

Definition GetBasicAttr (has_video has_audio : bool) : bytes :=
  str "a=extmap-allow-mixed" ++ nl ++ str "a=msid-semantic: WMS" ++ nl ++ str "a=group:BUNDLE" ++
  (if has_video then str " " ++ dec 0 else []) ++ (if has_audio then str " " ++ dec (if has_video then 1 else 0) else []) ++ nl.

Definition GetConnection : bytes := str "c=IN IP4 0.0.0.0" ++ nl.

Definition GetMediaDesc (is_video : bool) (s : SdpTransform) : bytes :=
  str "m=" ++ (if is_video then str "video" else str "audio") ++ str " 9 " ++ str "UDP/TLS/RTP/SAVPF" ++
  concat (map (fun payload => str " " ++ dec payload) (pt_vec_ (media is_video s))) ++ nl.

Definition GetRtpMap (is_video : bool) (s : SdpTransform) : bytes :=
  concat (map (fun item : Z * RtpMapInfo =>
    let i := item.2 in
    str "a=rtpmap:" ++ dec (rm_payload_type i) ++ str " " ++ rm_codec_type i ++ str "/" ++ dec (rm_clock_rate i) ++
    (if negb is_video && (0 <? rm_channel i) then str "/" ++ dec (rm_channel i) else []) ++ nl) (rtp_map_infos_ (media is_video s))).

Definition GetFmtp (is_video : bool) (s : SdpTransform) : bytes :=
  concat (map (fun i => str "a=fmtp:" ++ dec (fi_payload_type i) ++ str " " ++ fi_attr_string i ++ nl) (fmtp_vec_ (media is_video s))).

Definition GetRtcp (is_video : bool) (s : SdpTransform) : bytes :=
  str "a=rtcp:9 IN IP4 0.0.0.0" ++ nl ++
  concat (map (fun i => str "a=rtcp-fb:" ++ dec (fb_payload_type i) ++ str " " ++ fb_attr_string i ++ nl) (rtcpfb_vec_ (media is_video s))).

(** The identifiers and the extensions written for a kind of media, in order. *)
Definition ext_table (is_video : bool) (e : ExtIds) : list (Z * bytes) :=
  if is_video then
    [(em_toffset_ e, str "urn:ietf:params:rtp-hdrext:toffset");
     (em_abs_send_time_ e, str "http://www.webrtc.org/experiments/rtp-hdrext/abs-send-time");
     (em_video_rotation_ e, str "urn:3gpp:video-orientation");
     (em_tcc_ e, str "http://www.ietf.org/id/draft-holmer-rmcat-transport-wide-cc-extensions-01");
     (em_playout_delay_ e, str "http://www.webrtc.org/experiments/rtp-hdrext/playout-delay");
     (em_video_content_ e, str "http://www.webrtc.org/experiments/rtp-hdrext/video-content-type");
     (em_video_timing_ e, str "http://www.webrtc.org/experiments/rtp-hdrext/video-timing");
     (em_color_space_ e, str "http://www.webrtc.org/experiments/rtp-hdrext/color-space");
     (em_sdes_ e, str "urn:ietf:params:rtp-hdrext:sdes:mid");
     (em_rtp_streamid_ e, str "urn:ietf:params:rtp-hdrext:sdes:rtp-stream-id");
     (em_rp_rtp_streamid_ e, str "urn:ietf:params:rtp-hdrext:sdes:repaired-rtp-stream-id")]
  else
    [(em_audio_level_ e, str "urn:ietf:params:rtp-hdrext:ssrc-audio-level");
     (em_abs_send_time_ e, str "http://www.webrtc.org/experiments/rtp-hdrext/abs-send-time");
     (em_tcc_ e, str "http://www.ietf.org/id/draft-holmer-rmcat-transport-wide-cc-extensions-01");
     (em_sdes_ e, str "urn:ietf:params:rtp-hdrext:sdes:mid")].
Definition ext_used (is_video : bool) (e : ExtIds) : list (Z * bytes) := List.filter (fun x => 0 <? x.1) (ext_table is_video e).
Definition GetExtMap (is_video : bool) (s : SdpTransform) : bytes :=
  concat (map (fun x : Z * bytes => str "a=extmap:" ++ dec x.1 ++ str " " ++ x.2 ++ nl) (ext_used is_video (em_ s))).

Definition GetMidInfo (is_video : bool) (s : SdpTransform) : bytes * SdpTransform :=
  let m := media is_video s in
  let '(m, n) := if bool_decide (msid_ m = []) then (set_msid (MakeUUID (drawn s)) m, (drawn s + 12)%nat) else (m, drawn s) in
  let '(m, n) := if bool_decide (msid_appdata_ m = []) then (set_msid_appdata (MakeUUID2 n) m, (n + 8)%nat) else (m, n) in
  let s := set_drawn n (put_media is_video m s) in
  (str "a=setup:" ++ setup_ s ++ nl ++
   (if (if is_video then 0 <=? mid_ m else negb (mid_ m =? 0)) then str "a=mid:" ++ dec (mid_ m) ++ nl else []) ++
   (if negb (bool_decide (msid_ m = [])) && negb (bool_decide (msid_appdata_ m = [])) then str "a=msid:" ++ msid_ m ++ str " " ++ msid_appdata_ m ++ nl else []) ++
   str "a=" ++ direction_ s ++ nl, s).

Definition GetIceInfo (d : DtlsSdp) : bytes :=
  str "a=ice-ufrag:" ++ local_fragment_ (ds_ice d) ++ nl ++ str "a=ice-pwd:" ++ local_pwd_ d ++ nl ++
  str "a=fingerprint:" ++ fg_algorithm_ d ++ str " " ++ fingerprint_ d ++ nl ++ str "a=ice-options:trickle" ++ nl.

Definition ssrc_text (i : SSRCInfo) : bytes :=
  str "a=ssrc:" ++ dec (si_ssrc i) ++ str " msid:" ++ si_msid i ++ str " " ++ si_msid_appdata i ++ nl ++
  str "a=ssrc:" ++ dec (si_ssrc i) ++ str " cname:" ++ si_cname i ++ nl.

(** The loops; the SSRC written last is kept. *)
Fixpoint video_ssrcs (l : list (Z * SSRCInfo)) (ss_video ss_rtx : bytes) (s : SdpTransform) : bytes * SdpTransform :=
  match l with
  | [] => (ss_video ++ ss_rtx, s)
  | (_, i) :: l =>
      if negb (si_is_video i) then video_ssrcs l ss_video ss_rtx s
      else if si_is_rtx i then video_ssrcs l ss_video (ss_rtx ++ ssrc_text i) (set_video_rtx_ssrc (si_ssrc i) s)
      else video_ssrcs l (ss_video ++ ssrc_text i) ss_rtx (set_video (set_md_ssrc (si_ssrc i) (sd_video s)) s)
  end.
Fixpoint audio_ssrcs (l : list (Z * SSRCInfo)) (ss : bytes) (s : SdpTransform) : bytes * SdpTransform :=
  match l with
  | [] => (ss, s)
  | (_, i) :: l =>
      if si_is_video i then audio_ssrcs l ss s
      else audio_ssrcs l (ss ++ ssrc_text i) (set_audio (set_md_ssrc (si_ssrc i) (sd_audio s)) s)
  end.

Definition GetSsrcs (is_video : bool) (s : SdpTransform) : bytes * SdpTransform :=
  if is_video then
    let '(ss, s) := video_ssrcs (ssrc_info_map_ s) [] [] s in
    (ss ++ str "a=ssrc-group:FID " ++ dec (md_ssrc_ (sd_video s)) ++ str " " ++ dec (video_rtx_ssrc_ s) ++ nl ++
     str "a=rtcp-mux" ++ nl ++ str "a=rtcp-rsize" ++ nl, s)
  else
    let '(ss, s) := audio_ssrcs (ssrc_info_map_ s) [] s in
    let '(ssrc, n) := if md_ssrc_ (sd_audio s) =? 0 then (draw (drawn s) 0 0xffffffff, S (drawn s)) else (md_ssrc_ (sd_audio s), drawn s) in
    let m := set_md_cname (GetRandomString n 16) (set_md_ssrc ssrc (sd_audio s)) in
    (ss ++ str "a=ssrc:" ++ dec ssrc ++ str " msid:- " ++ msid_ m ++ nl ++ str "a=ssrc:" ++ dec ssrc ++ str " cname:" ++ md_cname_ m ++ nl ++
     str "a=rtcp-mux" ++ nl, set_drawn (n + 16) (set_audio m s)).

Definition media_desc (is_video : bool) (d : DtlsSdp) (s : SdpTransform) : bytes * SdpTransform :=
  let a := GetMediaDesc is_video s ++ GetConnection ++ GetRtpMap is_video s ++ GetFmtp is_video s ++ GetRtcp is_video s ++ GetExtMap is_video s in
  let '(b, s) := GetMidInfo is_video s in
  let '(c, s) := GetSsrcs is_video s in
  (a ++ b ++ GetIceInfo d ++ c, s).
Definition GetVideoDesc : DtlsSdp -> SdpTransform -> bytes * SdpTransform := media_desc true.
Definition GetAudioDesc : DtlsSdp -> SdpTransform -> bytes * SdpTransform := media_desc false.

Definition GenSdpString_for (has_video has_audio : bool) (d : DtlsSdp) (s : SdpTransform) : bytes * SdpTransform :=
  let v := GetProtoVersion s in
  let '(o, s) := GetSessionIdentifier s in
  let '(n, s) := GetSessionName s in
  let '(video, s) := GetVideoDesc d s in
  let '(audio, s) := GetAudioDesc d s in
  (v ++ o ++ n ++ GetTimeScale 0 0 ++ GetBasicAttr has_video has_audio ++ video ++ audio, s).
Definition GenSdpString (d : DtlsSdp) (s : SdpTransform) : bytes * SdpTransform :=
  GenSdpString_for (has_ (sd_video s)) (has_ (sd_audio s)) d s.
End gen.

(** ** Questions *)

Definition first_ssrc (p : SSRCInfo -> bool) (s : SdpTransform) : Z :=
  match List.find (fun item : Z * SSRCInfo => p item.2) (ssrc_info_map_ s) with Some item => item.1 | None => 0 end.
Definition GetVideoSsrc : SdpTransform -> Z := first_ssrc (fun i => si_is_video i && negb (si_is_rtx i)).
Definition GetAudioSsrc : SdpTransform -> Z := first_ssrc (fun i => negb (si_is_video i)).
Definition GetVideoRtxSsrc : SdpTransform -> Z := first_ssrc (fun i => si_is_video i && si_is_rtx i).

Definition contains (sub s : bytes) : bool := match find sub s with Some _ => true | None => false end.
Definition IsVideoNackEnable (s : SdpTransform) : bool := existsb (fun i => contains (str "nack") (fb_attr_string i)) (rtcpfb_vec_ (sd_video s)).
Definition IsAudioNackEnable (s : SdpTransform) : bool := existsb (fun i => contains (str "nack") (fb_attr_string i)) (rtcpfb_vec_ (sd_audio s)).

(** The payload type of the first codec with one of these names. *)
Definition codec_payload (names : list bytes) (l : list (Z * RtpMapInfo)) : Z :=
  match List.find (fun item : Z * RtpMapInfo => bool_decide (String2Lower (rm_codec_type item.2) ∈ names)) l with
  | Some item => rm_payload_type item.2
  | None => -1
  end.
Definition GetVideoPayloadType (s : SdpTransform) : Z :=
  match List.find (fun i => fi_is_video i && negb (fi_is_rtx i)) (fmtp_vec_ (sd_video s)) with
  | Some i => fi_payload_type i
  | None => codec_payload [str "h264"; str "vp8"; str "vp9"] (rtp_map_infos_ (sd_video s))
  end.
Definition GetVideoRtxPayloadType (s : SdpTransform) : Z :=
  match List.find (fun i => fi_is_video i && fi_is_rtx i) (fmtp_vec_ (sd_video s)) with Some i => fi_payload_type i | None => -1 end.
Definition GetAudioPayloadType (s : SdpTransform) : Z :=
  match List.find (fun i => negb (fi_is_video i)) (fmtp_vec_ (sd_audio s)) with
  | Some i => fi_payload_type i
  | None => codec_payload [str "opus"] (rtp_map_infos_ (sd_audio s))
  end.

(** The flag is set to the answer. *)
Definition IsVideoRtxEnable (s : SdpTransform) : bool * SdpTransform :=
  let b := existsb (fun i => fi_is_video i && fi_is_rtx i) (fmtp_vec_ (sd_video s)) in (b, SetVideoRtxFlag b s).
Definition GetVideoClockRate (s : SdpTransform) : Z := md_clock_rate_ (sd_video s).
Definition GetVideoRtxClockRate (s : SdpTransform) : Z := video_rtx_clock_rate_ s.
Definition GetAudioClockRate (s : SdpTransform) : Z := md_clock_rate_ (sd_audio s).
