(* ===== verification/PeerSdp.v ===== *)
(** * [PeerSdp]: setting up a peer connection

    Models the part of [src/net/webrtc/peerconnection.cpp] that makes the offer, reads
    the answer and creates the streams from them, the functions through which the
    signalling of mediasoup does the same, and of [dtls.cpp] the constructor, the
    fingerprint and the keys of SRTP.  The checks, the media and the descriptions are
    those of [PeerIce], [PeerConnection] and [Sdp].  The digest of the certificate
    that OpenSSL makes is a parameter, or none where a call of OpenSSL fails. *)
From S2P Require Import Prelude StringEx ZMap Sdp.
From S2P Require DataBuffer Media RtcTime RtcSend RtcRecv PeerConnection PeerIce.
Import PeerIce(IceInfo, mkIceInfo, ICE_NET_TYPE, ICE_UDP, IceSetup, mkIceSetup, ice_infos, remote_fragment_, local_fragment_, remote_pwd_).
Import PeerIce(PeerIce, mkPeerIce, pi_peer, pi_setup, last_stun_ms_, pc_ipaddr_str_, pc_udp_port_, ice_log, put_peer, before).
Import PeerConnection(PC_STATE, PC_INIT_STATE, PC_SDP_DONE_STATE, PC_STUN_DONE_STATE, PC_DTLS_DONE_STATE).
Import PeerConnection(WebRtcSdpDirection, DIRECTION_UNKNOWN, SEND_ONLY, RECV_ONLY, SEND_RECV, pc_state_, direct_type_, mspull_).
Import Media(MEDIA_VIDEO_TYPE, MEDIA_AUDIO_TYPE).
Open Scope sdp_scope.

Inductive SDP_TYPE := SDP_OFFER | SDP_ANSWER.
Inductive CC_TYPE := CC_UNKNOWN_TYPE | GCC_TYPE | TCC_TYPE.
#[export] Instance CC_TYPE_eq_dec : EqDecision CC_TYPE.
Proof. solve_decision. Defined.

Definition VPLAYLOAD_DEF_TYPE : Z := 106.
Definition RTX_PAYLOAD_DEF_TYPE : Z := 107.
Definition APLAYLOAD_DEF_TYPE : Z := 111.

Record PeerSdp := mkPeerSdp {
  ps_ice : PeerIce;
  ps_dtls : bytes * bytes * bytes;   (** [local_pwd_], [fg_algorithm_], [fingerprint_] *)
  offer_sdp_ : SdpTransform;
  answer_sdp_ : SdpTransform;
  has_rtx_ : bool;
  ps_reports : list (bytes * bytes)
}.
Definition put_ice (v : PeerIce) (p : PeerSdp) : PeerSdp := mkPeerSdp v (ps_dtls p) (offer_sdp_ p) (answer_sdp_ p) (has_rtx_ p) (ps_reports p).
Definition put_offer (v : SdpTransform) (p : PeerSdp) : PeerSdp := mkPeerSdp (ps_ice p) (ps_dtls p) v (answer_sdp_ p) (has_rtx_ p) (ps_reports p).
Definition put_answer (v : SdpTransform) (p : PeerSdp) : PeerSdp := mkPeerSdp (ps_ice p) (ps_dtls p) (offer_sdp_ p) v (has_rtx_ p) (ps_reports p).
Definition put_has_rtx (v : bool) (p : PeerSdp) : PeerSdp := mkPeerSdp (ps_ice p) (ps_dtls p) (offer_sdp_ p) (answer_sdp_ p) v (ps_reports p).
Definition Report (type value : bytes) (p : PeerSdp) : PeerSdp :=
  mkPeerSdp (ps_ice p) (ps_dtls p) (offer_sdp_ p) (answer_sdp_ p) (has_rtx_ p) (ps_reports p ++ [(type, value)]).
Definition put_fingerprint (v : bytes) (p : PeerSdp) : PeerSdp :=
  mkPeerSdp (ps_ice p) ((ps_dtls p).1, v) (offer_sdp_ p) (answer_sdp_ p) (has_rtx_ p) (ps_reports p).

Definition peer (p : PeerSdp) : PeerConnection.PeerConnection := pi_peer (ps_ice p).
Definition put_pc (v : PeerConnection.PeerConnection) (p : PeerSdp) : PeerSdp := put_ice (put_peer v (ps_ice p)) p.
Definition put_setup (v : IceSetup) (p : PeerSdp) : PeerSdp :=
  let i := ps_ice p in put_ice (mkPeerIce (pi_peer i) v (last_stun_ms_ i) (pc_ipaddr_str_ i) (pc_udp_port_ i) (ice_log i)) p.

(** [dtls_], as the descriptions see it. *)
Definition dtls_of (p : PeerSdp) : DtlsSdp := mkDtlsSdp (pi_setup (ps_ice p)) (ps_dtls p).1.1 (ps_dtls p).1.2 (ps_dtls p).2.

Definition put_direct_type (v : WebRtcSdpDirection) (s : PeerConnection.PeerConnection) : PeerConnection.PeerConnection :=
  let '(PeerConnection.mkPeer st _ pull vs as_ vr ar ntp xr dlrr rr jv ja h k m r) := s in
  PeerConnection.mkPeer st v pull vs as_ vr ar ntp xr dlrr rr jv ja h k m r.

(** ** DTLS *)

(** ["%02X"], joined by colons. *)
Definition hex_upper (v : Z) : bytes := map toupper (hex 2 v).
Definition fingerprint_text (md : bytes) : bytes := join (str ":") (map hex_upper md).

(** The keys of [SetupSRtp] from the exported material, for lengths of key and salt. *)
Definition master_keys (keylength saltlength : nat) (srtp_material : bytes) : bytes * bytes :=
  let at_ (n len : nat) := take len (drop n srtp_material) in
  let remote_key := at_ 0%nat keylength in
  let local_key := at_ keylength keylength in
  let remote_salt := at_ (keylength + keylength)%nat saltlength in
  let local_salt := at_ (keylength + keylength + saltlength)%nat saltlength in
  (local_key ++ local_salt, remote_key ++ remote_salt).

Inductive CRYPTO_SUITE_ENUM :=
  | CRYPTO_SUITE_NONE | CRYPTO_SUITE_AES_CM_128_HMAC_SHA1_80 | CRYPTO_SUITE_AES_CM_128_HMAC_SHA1_32 | CRYPTO_SUITE_AEAD_AES_256_GCM | CRYPTO_SUITE_AEAD_AES_128_GCM.

(** The lengths of key and salt of a suite, and what is given to [OnDtlsConnected]: the local key and the remote one; nothing where OpenSSL
    does not export ([SSL_export_keying_material], of a length). *)
Definition suite_lengths (srtp_suite : CRYPTO_SUITE_ENUM) : option (nat * nat) :=
  match srtp_suite with
  | CRYPTO_SUITE_AES_CM_128_HMAC_SHA1_80 | CRYPTO_SUITE_AES_CM_128_HMAC_SHA1_32 => Some (16, 14)%nat
  | CRYPTO_SUITE_AEAD_AES_256_GCM => Some (32, 12)%nat
  | CRYPTO_SUITE_AEAD_AES_128_GCM => Some (16, 12)%nat
  | CRYPTO_SUITE_NONE => None
  end.
Definition SetupSRtp (export_keying_material : nat -> option bytes) (srtp_suite : CRYPTO_SUITE_ENUM) : option (bytes * bytes) :=
  match suite_lengths srtp_suite with
  | None => None
  | Some (keylength, saltlength) => option_map (master_keys keylength saltlength) (export_keying_material ((keylength + saltlength) * 2)%nat)
  end.

Section setup.
Context `{Alloc : DataBuffer.Allocator} `{Random}.
Variables (mem_is_rtx : Z -> bool) (mem_rtx_ssrc : Z -> Z).
(** The digest of the new certificate. *)
Variable new_certificate : option bytes.

(** The constructors; those of [dtls_] draw the fragment and the password. *)
Definition PeerSdp_new : PeerSdp :=
  let ice := mkIceSetup [] [] (GetRandomString 0 16) [] in
  mkPeerSdp (mkPeerIce PeerConnection.PeerConnection_new ice (-1) [] 0 []) (GetRandomString 16 32, str "sha-256", [])
    (set_drawn 48 SdpTransform_new) SdpTransform_new false [].

(** The serial number of the certificate is drawn, too. *)
Definition SslContextInit (p : PeerSdp) : Z * PeerSdp :=
  let p := put_offer (set_drawn (S (drawn (offer_sdp_ p))) (offer_sdp_ p)) p in
  match new_certificate with
  | None => (-1, p)
  | Some md => (0, put_fingerprint (fingerprint_text md) p)
  end.

(** ** The offer *)

Definition GetDirectionString (d : WebRtcSdpDirection) : bytes :=
  match d with SEND_ONLY => str "sendonly" | RECV_ONLY => str "recvonly" | SEND_RECV => str "sendrecv" | DIRECTION_UNKNOWN => [] end.

Definition h264_fmtp : bytes := str "level-asymmetry-allowed=1;packetization-mode=1;profile-level-id=42e01f".

(** What is set up for video and for audio, before the SSRCs. *)
Definition offer_video (m : MediaSdp) : MediaSdp :=
  let m := set_pt_vec (pt_vec_ m ++ [VPLAYLOAD_DEF_TYPE; RTX_PAYLOAD_DEF_TYPE]) m in
  let m := set_rtp_map (zset VPLAYLOAD_DEF_TYPE (mkRtpMap VPLAYLOAD_DEF_TYPE (str "H264") 90000 0) (rtp_map_infos_ m)) m in
  let m := set_rtp_map (zset RTX_PAYLOAD_DEF_TYPE (mkRtpMap RTX_PAYLOAD_DEF_TYPE (str "rtx") 90000 0) (rtp_map_infos_ m)) m in
  let m := set_fmtp (fmtp_vec_ m ++ [mkFmtp VPLAYLOAD_DEF_TYPE h264_fmtp true false RTX_PAYLOAD_DEF_TYPE;
                                     mkFmtp RTX_PAYLOAD_DEF_TYPE (str "apt=" ++ dec VPLAYLOAD_DEF_TYPE) true true 0]) m in
  set_rtcpfb (rtcpfb_vec_ m ++
    [mkRtcpFb VPLAYLOAD_DEF_TYPE (str "goog-remb"); mkRtcpFb VPLAYLOAD_DEF_TYPE (str "transport-cc"); mkRtcpFb VPLAYLOAD_DEF_TYPE (str "cmm fir");
     mkRtcpFb VPLAYLOAD_DEF_TYPE (str "nack"); mkRtcpFb VPLAYLOAD_DEF_TYPE (str "nack pli")]) m.
Definition offer_audio (m : MediaSdp) : MediaSdp :=
  let m := set_pt_vec (pt_vec_ m ++ [APLAYLOAD_DEF_TYPE]) m in
  let m := set_rtp_map (zset APLAYLOAD_DEF_TYPE (mkRtpMap APLAYLOAD_DEF_TYPE (str "opus") 48000 2) (rtp_map_infos_ m)) m in
  let m := set_fmtp (fmtp_vec_ m ++ [mkFmtp APLAYLOAD_DEF_TYPE (str "minptime=10;useinbandfec=1") false false 0]) m in
  set_rtcpfb (rtcpfb_vec_ m ++ [mkRtcpFb APLAYLOAD_DEF_TYPE (str "transport-cc")]) m.

Definition offer_ext : ExtIds := mkExtIds 1 2 3 4 5 6 7 8 9 10 11 14.

(** The offer's members, up to the call of [GenSdpString]; the numbers are drawn in the order of the calls. *)
Definition fill_offer (d : WebRtcSdpDirection) (s : SdpTransform) : SdpTransform :=
  let n := drawn s in
  let s := SetVideoRtxFlag true (set_direction (GetDirectionString d) s) in
  let v := set_msid_appdata (MakeUUID2 (n + 24)) (set_msid (MakeUUID n) (set_mid 0 (sd_video s))) in
  let a := set_msid_appdata (MakeUUID2 (n + 32)) (set_msid (MakeUUID (n + 12)) (set_mid 1 (sd_audio s))) in
  let v := offer_video v in
  let a := offer_audio a in
  let video_ssrc := draw (n + 40) 1 0xffffffff in
  let video_rtx_ssrc := draw (n + 41) 1 0xffffffff in
  let audio_ssrc := draw (n + 42) 1 0xffffffff in
  let v := set_md_cname (GetRandomString (n + 43) 16) (set_md_ssrc video_ssrc v) in
  let a := set_md_cname (GetRandomString (n + 59) 16) (set_md_ssrc audio_ssrc a) in
  let s := set_drawn (n + 75) (set_video_rtx_ssrc video_rtx_ssrc (set_video v (set_audio a s))) in
  let m := ssrc_info_map_ s in
  let m := zset video_ssrc (mkSsrc video_ssrc true false (msid_ v) (msid_appdata_ v) (md_cname_ v) video_rtx_ssrc) m in
  let m := zset video_rtx_ssrc (mkSsrc video_rtx_ssrc true true (msid_ v) (msid_appdata_ v) (md_cname_ v) video_ssrc) m in
  let m := zset audio_ssrc (mkSsrc audio_ssrc false false (msid_ a) (msid_appdata_ a) (md_cname_ a) 0) m in
  set_em offer_ext (set_ssrc_info m s).

(** The result is empty where OpenSSL fails. *)
Definition CreateOfferSdp (d : WebRtcSdpDirection) (p : PeerSdp) : bytes * PeerSdp :=
  let p := put_pc (put_direct_type d (peer p)) p in
  let p := put_offer (fill_offer d (offer_sdp_ p)) p in
  let '(r, p) := SslContextInit p in
  if r <? 0 then ([], p)
  else let '(sdp, s) := GenSdpString_for true true (dtls_of p) (offer_sdp_ p) in (sdp, put_offer s p).

(** ** The answer *)

(** The flag of the answer is set by the question in the log. *)
Definition ParseAnswerSdp (sdp : bytes) (p : PeerSdp) : throwing (Z * PeerSdp) :=
  r ⇐ Parse mem_is_rtx mem_rtx_ssrc sdp (answer_sdp_ p, dtls_of p);
  let '(ret, (s, d)) := r in
  let s := if bool_decide (ssrc_info_map_ s = []) then set_ssrc_info (ssrc_info_map_ (offer_sdp_ p)) s else s in
  let p := put_answer (IsVideoRtxEnable s).2 (put_setup (ds_ice d) p) in
  if before (pc_state_ (peer p)) PC_SDP_DONE_STATE then
    tret (ret, Report (str "sdp") (str "ready") (put_pc (PeerConnection.set_pc_state PC_SDP_DONE_STATE (peer p)) p))
  else tret (0, p).

(** ** The streams *)

(** The payload type and the SSRC of retransmission, where there is one. *)
Definition rtx_of (has_rtx : bool) (s : SdpTransform) : option (Z * Z) :=
  let rtx_payload := u8 (GetVideoRtxPayloadType s) in
  if has_rtx && (0 <? rtx_payload) && (0 <? GetVideoRtxSsrc s) then Some (rtx_payload, GetVideoRtxSsrc s) else None.

Definition set_channel_of (v : Z) (st : RtcSend.RtcSendStream) : RtcSend.RtcSendStream :=
  RtcSend.set_ids (RtcTime.StreamIds.SetChannel v (RtcSend.ids st)) st.

Definition CreateVideoRecvStream (now_ms : Z) (p : PeerSdp) : outcome PeerSdp :=
  let s := answer_sdp_ p in
  let '(has_rtx, s) := IsVideoRtxEnable s in
  let p := put_has_rtx has_rtx (put_answer s p) in
  if 0 <? GetVideoSsrc s then
    st ← RtcRecv.RequestKeyFrame (-1) now_ms
           (RtcRecv.RtcRecvStream_new MEDIA_VIDEO_TYPE (GetVideoSsrc s) (u8 (GetVideoPayloadType s)) (GetVideoClockRate s)
              (IsVideoNackEnable s) (rtx_of has_rtx s));
    mret (put_pc (PeerConnection.set_video_recv (Some st) (peer p)) p)
  else mret p.

Definition CreateAudioRecvStream (p : PeerSdp) : PeerSdp :=
  let s := answer_sdp_ p in
  if 0 <? GetAudioSsrc s then
    let st := RtcRecv.RtcRecvStream_new MEDIA_AUDIO_TYPE (GetAudioSsrc s) (u8 (GetAudioPayloadType s)) (GetAudioClockRate s) (IsAudioNackEnable s) None in
    put_pc (PeerConnection.set_audio_recv (Some (RtcRecv.set_rs_ids (RtcTime.StreamIds.SetChannel (sd_channel_ s) (RtcRecv.rs_ids st)) st)) (peer p)) p
  else p.

Definition CreateRecvStream (now_ms : Z) (p : PeerSdp) : outcome PeerSdp :=
  p ← CreateVideoRecvStream now_ms p; mret (CreateAudioRecvStream p).

(** The streams of a description, the answer or the offer; [put] stores its changed flag. *)
Definition create_send_streams (s : SdpTransform) (put : SdpTransform -> PeerSdp -> PeerSdp) (p : PeerSdp) : PeerSdp :=
  let p :=
    if 0 <? GetVideoSsrc s then
      let '(has_rtx, s) := IsVideoRtxEnable s in
      let st := RtcSend.RtcSendStream_new MEDIA_VIDEO_TYPE (GetVideoSsrc s) (u8 (GetVideoPayloadType s)) (GetVideoClockRate s)
                  (IsVideoNackEnable s) (rtx_of has_rtx s) in
      let p := put_has_rtx has_rtx (put s p) in
      put_pc (PeerConnection.set_video_send (Some st) (peer p)) p
    else p in
  if 0 <? GetAudioSsrc s then
    let st := RtcSend.RtcSendStream_new MEDIA_AUDIO_TYPE (GetAudioSsrc s) (u8 (GetAudioPayloadType s)) (GetAudioClockRate s) (IsAudioNackEnable s) None in
    put_pc (PeerConnection.set_audio_send (Some (set_channel_of (sd_channel_ s) st)) (peer p)) p
  else p.

(** The log asks the answer in both. *)
Definition ask_answer (p : PeerSdp) : PeerSdp := put_answer (IsVideoRtxEnable (answer_sdp_ p)).2 p.
Definition CreateSendStream (p : PeerSdp) : PeerSdp :=
  let p := ask_answer p in create_send_streams (answer_sdp_ p) put_answer p.
Definition CreateSendStream2 (p : PeerSdp) : PeerSdp :=
  let p := ask_answer p in create_send_streams (offer_sdp_ p) put_offer p.

(** [srtp_ready]: neither constructor of the SRTP sessions throws. *)
Definition OnDtlsConnected (srtp_ready : bool) (now_ms : Z) (p : PeerSdp) : outcome PeerSdp :=
  match pc_state_ (peer p) with
  | PC_DTLS_DONE_STATE => mret p
  | _ =>
      let p := Report (str "dtls") (str "ready") (put_pc (PeerConnection.set_pc_state PC_DTLS_DONE_STATE (peer p)) p) in
      if srtp_ready then
        match direct_type_ (peer p) with
        | SEND_ONLY => mret (CreateSendStream p)
        | RECV_ONLY => if mspull_ (peer p) then mret p else CreateRecvStream now_ms p
        | _ => mret p
        end
      else mret p
  end.
End setup.

(** ** The functions for mediasoup *)

Definition sdp_of (type : SDP_TYPE) (p : PeerSdp) : SdpTransform := match type with SDP_OFFER => offer_sdp_ p | SDP_ANSWER => answer_sdp_ p end.
Definition put_sdp (type : SDP_TYPE) (s : SdpTransform) (p : PeerSdp) : PeerSdp :=
  match type with SDP_OFFER => put_offer s p | SDP_ANSWER => put_answer s p end.
Definition on_media (type : SDP_TYPE) (is_video : bool) (f : MediaSdp -> MediaSdp) (p : PeerSdp) : PeerSdp :=
  let s := sdp_of type p in put_sdp type (put_media is_video (f (media is_video s)) s) p.

Definition SetRemoteIcePwd (ice_pwd : bytes) (p : PeerSdp) : PeerSdp := put_setup (ds_ice (set_remote_pwd ice_pwd (dtls_of p))) p.
Definition SetRemoteIceUserFrag (user_frag : bytes) (p : PeerSdp) : PeerSdp := put_setup (ds_ice (set_remote_fragment user_frag (dtls_of p))) p.
Definition SetRemoteUdpAddress (ip : bytes) (port : Z) (p : PeerSdp) : PeerSdp :=
  let ice_info := mkIceInfo ICE_UDP ip port in
  let l := ice_infos (ds_ice (dtls_of p)) in
  if existsb (same_ice ice_info) l then p else put_setup (ds_ice (set_ice_infos (l ++ [ice_info]) (dtls_of p))) p.
Definition SetFingerPrintsSha256 (sha256_value : bytes) (p : PeerSdp) : PeerSdp := p.
Definition GetFingerSha256 (p : PeerSdp) : bytes := fingerprint_ (dtls_of p).

Definition GetVideoMid (type : SDP_TYPE) (p : PeerSdp) : Z := mid_ (sd_video (sdp_of type p)).
Definition SetVideoMid (type : SDP_TYPE) (mid : Z) : PeerSdp -> PeerSdp := on_media type true (set_mid mid).
Definition GetAudioMid (type : SDP_TYPE) (p : PeerSdp) : Z := mid_ (sd_audio (sdp_of type p)).
Definition SetAudioMid (type : SDP_TYPE) (mid : Z) : PeerSdp -> PeerSdp := on_media type false (set_mid mid).

Definition GetVideoSsrc_of (type : SDP_TYPE) (p : PeerSdp) : Z := md_ssrc_ (sd_video (sdp_of type p)).
Definition SetVideoSsrc (type : SDP_TYPE) (ssrc : Z) (p : PeerSdp) : PeerSdp :=
  let s := sdp_of type p in
  let v := sd_video s in
  let i := mkSsrc ssrc true false (msid_ v) (msid_appdata_ v) (md_cname_ v) (video_rtx_ssrc_ s) in
  put_sdp type (set_video (set_md_ssrc ssrc v) (set_ssrc_info (zset ssrc i (ssrc_info_map_ s)) s)) p.
Definition GetVideoRtxSsrc_of (type : SDP_TYPE) (p : PeerSdp) : Z := video_rtx_ssrc_ (sdp_of type p).
Definition SetVideoRtxSsrc (type : SDP_TYPE) (ssrc : Z) (p : PeerSdp) : PeerSdp :=
  let s := sdp_of type p in
  let v := sd_video s in
  let i := mkSsrc ssrc true true (msid_ v) (msid_appdata_ v) (md_cname_ v) (md_ssrc_ v) in
  put_sdp type (set_video_rtx_ssrc ssrc (set_ssrc_info (zset ssrc i (ssrc_info_map_ s)) s)) p.
Definition GetAudioSsrc_of (type : SDP_TYPE) (p : PeerSdp) : Z := md_ssrc_ (sd_audio (sdp_of type p)).
Definition SetAudioSsrc (type : SDP_TYPE) (ssrc : Z) (p : PeerSdp) : PeerSdp :=
  let s := sdp_of type p in
  let a := sd_audio s in
  let i := mkSsrc ssrc false false (msid_ a) (msid_appdata_ a) (md_cname_ a) 0 in
  put_sdp type (set_audio (set_md_ssrc ssrc a) (set_ssrc_info (zset ssrc i (ssrc_info_map_ s)) s)) p.
(** [None] is the exception. *)
Definition GetVideoRtx (type : SDP_TYPE) (p : PeerSdp) : option bool :=
  let s := sdp_of type p in option_map si_is_rtx (zfind (video_rtx_ssrc_ s) (ssrc_info_map_ s)).

Definition is_rtx_codec (item : Z * RtpMapInfo) : bool := bool_decide (rm_codec_type item.2 = str "rtx").
Definition find_codec (rtx is_video : bool) (type : SDP_TYPE) (p : PeerSdp) : option (Z * RtpMapInfo) :=
  List.find (fun item => Bool.eqb (is_rtx_codec item) rtx) (rtp_map_infos_ (media is_video (sdp_of type p))).
Definition key_or (o : option (Z * RtpMapInfo)) : Z := match o with Some item => item.1 | None => -1 end.

Definition GetVideoPayloadType_of (type : SDP_TYPE) (p : PeerSdp) : Z := key_or (find_codec false true type p).
(** [channel] of the new entry is not set: [mem_channel]. *)
Definition SetVideoPayloadType (mem_channel : Z) (type : SDP_TYPE) (payloadType : Z) : PeerSdp -> PeerSdp :=
  on_media type true (fun m => set_rtp_map (zset payloadType (mkRtpMap payloadType (str "H264") 90000 mem_channel) (rtp_map_infos_ m)) m).
Definition GetVideoRtxPayloadType_of (type : SDP_TYPE) (p : PeerSdp) : Z := key_or (find_codec true true type p).
Definition SetVideoRtxPayloadType (mem_channel : Z) (type : SDP_TYPE) (payloadType : Z) (p : PeerSdp) : PeerSdp :=
  let fmtp_info := mkFmtp (GetVideoPayloadType_of type p) (str "apt=") true true payloadType in
  on_media type true (fun m =>
    set_fmtp (fmtp_vec_ m ++ [fmtp_info])
      (set_rtp_map (zset payloadType (mkRtpMap payloadType (str "rtx") 90000 mem_channel) (rtp_map_infos_ m)) m)) p.
Definition GetAudioPayloadType_of (type : SDP_TYPE) (p : PeerSdp) : Z := key_or (find_codec false false type p).
Definition SetAudioPayloadType (type : SDP_TYPE) (payloadType : Z) : PeerSdp -> PeerSdp :=
  on_media type false (fun m => set_rtp_map (zset payloadType (mkRtpMap payloadType (str "opus") 48000 2) (rtp_map_infos_ m)) m).

Definition GetVideoCodecType (type : SDP_TYPE) (p : PeerSdp) : bytes :=
  match find_codec false true type p with Some item => rm_codec_type item.2 | None => [] end.
Definition GetAudioCodecType (type : SDP_TYPE) (p : PeerSdp) : bytes :=
  match rtp_map_infos_ (sd_audio (sdp_of type p)) with item :: _ => rm_codec_type item.2 | [] => [] end.

Definition with_clock_rate (clock_rate : Z) (i : RtpMapInfo) : RtpMapInfo := mkRtpMap (rm_payload_type i) (rm_codec_type i) clock_rate (rm_channel i).
Definition GetVideoClockRate_of (type : SDP_TYPE) (p : PeerSdp) : Z :=
  match find_codec false true type p with Some item => rm_clock_rate item.2 | None => -1 end.
Definition SetVideoClockRate (type : SDP_TYPE) (clock_rate : Z) : PeerSdp -> PeerSdp :=
  on_media type true (fun m =>
    set_rtp_map (map (fun item => if is_rtx_codec item then item else (item.1, with_clock_rate clock_rate item.2)) (rtp_map_infos_ m)) m).
Definition GetAudioClockRate_of (type : SDP_TYPE) (p : PeerSdp) : Z :=
  match rtp_map_infos_ (sd_audio (sdp_of type p)) with item :: _ => rm_clock_rate item.2 | [] => -1 end.
Definition SetAudioClockRate (type : SDP_TYPE) (clock_rate : Z) : PeerSdp -> PeerSdp :=
  on_media type false (fun m => set_rtp_map (map (fun item : Z * RtpMapInfo => (item.1, with_clock_rate clock_rate item.2)) (rtp_map_infos_ m)) m).

Definition has_nack (payload_type : Z) (l : list RtcpFbInfo) : bool :=
  existsb (fun i => (fb_payload_type i =? payload_type) && bool_decide (fb_attr_string i = str "nack")) l.
Definition SetVideoNack (type : SDP_TYPE) (enable : bool) (payload_type : Z) : PeerSdp -> PeerSdp :=
  on_media type true (fun m => if has_nack payload_type (rtcpfb_vec_ m) then m else set_rtcpfb (rtcpfb_vec_ m ++ [mkRtcpFb payload_type (str "nack")]) m).
Definition GetVideoNack (type : SDP_TYPE) (payload_type : Z) (p : PeerSdp) : bool := has_nack payload_type (rtcpfb_vec_ (sd_video (sdp_of type p))).

(** [pt_set] after the loop, in the order of the set. *)
Definition cc_string (cc_type : CC_TYPE) : bytes := if bool_decide (cc_type = TCC_TYPE) then str "transport-cc" else str "goog-remb".
Definition cc_step (cc_type : CC_TYPE) (pt_set : list (Z * unit)) (i : RtcpFbInfo) : list (Z * unit) :=
  let says s := bool_decide (fb_attr_string i = s) in
  if says (str "transport-cc") && bool_decide (cc_type = TCC_TYPE) then zerase (fb_payload_type i) pt_set
  else if says (str "goog-remb") && bool_decide (cc_type = GCC_TYPE) then zerase (fb_payload_type i) pt_set
  else zset (fb_payload_type i) tt pt_set.
Definition SetCCType (type : SDP_TYPE) (cc_type : CC_TYPE) : PeerSdp -> PeerSdp :=
  on_media type true (fun m =>
    let pt_set := foldl (cc_step cc_type) [] (rtcpfb_vec_ m) in
    set_rtcpfb (rtcpfb_vec_ m ++ map (fun item : Z * unit => mkRtcpFb item.1 (cc_string cc_type)) pt_set) m).
Fixpoint cc_of (l : list RtcpFbInfo) : CC_TYPE :=
  match l with
  | [] => CC_UNKNOWN_TYPE
  | i :: l =>
      if bool_decide (fb_attr_string i = str "transport-cc") then TCC_TYPE
      else if bool_decide (fb_attr_string i = str "goog-remb") then GCC_TYPE else cc_of l
  end.
Definition GetCCType (type : SDP_TYPE) (p : PeerSdp) : CC_TYPE := cc_of (rtcpfb_vec_ (sd_video (sdp_of type p))).

(** [rtp_ext_headers_], which nothing reads, is left out. *)
Definition AddRtpExtInfo (type : SDP_TYPE) (id : Z) (uri : bytes) (p : PeerSdp) : PeerSdp :=
  let s := sdp_of type p in put_sdp type (set_ext_map (zset id (mkExt id uri) (ext_map_ s)) s) p.
Definition GetVideoRtcpFbInfo (p : PeerSdp) : list RtcpFbInfo := rtcpfb_vec_ (sd_video (offer_sdp_ p)).
Definition GetAudioRtcpFbInfo (p : PeerSdp) : list RtcpFbInfo := rtcpfb_vec_ (sd_audio (offer_sdp_ p)).
Definition GetHeaderExternId (p : PeerSdp) : ExtIds := em_ (offer_sdp_ p).
Definition GetVideoCName (p : PeerSdp) : bytes := md_cname_ (sd_video (offer_sdp_ p)).
Definition GetAudioCName (p : PeerSdp) : bytes := md_cname_ (sd_audio (offer_sdp_ p)).
