(* ===== verification/SdpRun.v ===== *)
(** * [SdpRun]: a description written is heard as it was meant

    The lines that [Sdp] writes, read by [Sdp]'s parser: a lemma for every kind of
    line, one for every part of a description, and the theorem of the whole. *)
From S2P Require Import Prelude StringEx ZMap Sdp.
From S2P Require PeerIce.
Import PeerIce(IceSetup, mkIceSetup, ice_infos, remote_fragment_, local_fragment_, remote_pwd_).

(** ** Strings *)

Lemma starts_prefix attr line : starts attr line = is_prefix attr line.
Proof.
  unfold starts. destruct line; cbn [find]; destruct (is_prefix attr _); try done; case_bool_decide; try done.
  by destruct (find attr line).
Qed.

Lemma rfind_free c s : free_of c s -> rfind [c] s = None.
Proof.
  induction 1 as [|b s Hb Hs IH]; [done|]. cbn [rfind is_prefix]. rewrite IH.
  destruct (Z.eqb_spec c b) as [<-|]; [done|]. by destruct s.
Qed.

Lemma RemoveSubfix_free c s : free_of c s -> RemoveSubfix s [c] = s.
Proof. intros Hs. unfold RemoveSubfix. by rewrite rfind_free. Qed.

Lemma free_dec c n : 0 <= n -> ~ 48 <= c <= 57 -> free_of c (dec n).
Proof. intros Hn Hc. destruct (dec_chars n Hn) as [Hd _]. eapply Forall_impl; [exact Hd|]. cbn. lia. Qed.

Lemma free_app c s t : free_of c s -> free_of c t -> free_of c (s ++ t).
Proof. intros. by apply Forall_app. Qed.

Lemma free_const c s : bool_decide (free_of c s) = true -> free_of c s.
Proof. apply bool_decide_eq_true_1. Qed.

Create HintDb sdp.
#[export] Hint Resolve free_app : sdp.
#[export] Hint Extern 1 (free_of _ (str _)) => apply free_const; vm_compute; reflexivity : sdp.
#[export] Hint Extern 1 (free_of _ [_]) => apply free_const; vm_compute; reflexivity : sdp.
#[export] Hint Extern 2 (free_of _ (dec _)) => apply free_dec; lia : sdp.
#[export] Hint Extern 1 (free_of _ []) => apply Forall_nil_2 : sdp.

(** Splitting words that are joined. *)
Lemma split_words c l : l <> [] -> Forall (free_of c) l -> Forall (fun s => s <> []) l -> StringSplit (join [c] l) [c] = Done l.
Proof.
  intros Hne Hf Hw. destruct (exists_last Hne) as (l' & last & ->). apply StringSplit_join; [done|]. by apply Forall_app in Hw as [_ Hw%Forall_inv].
Qed.

(** Lines, each with its end. *)
Definition text (l : list bytes) : bytes := concat (map (fun line => line ++ nl) l).

Lemma text_app l l' : text (l ++ l') = text l ++ text l'.
Proof. unfold text. by rewrite map_app, concat_app. Qed.

Lemma text_nil l : text l = [] -> l = [].
Proof. destruct l as [|x l]; [done|]. cbn. by destruct x. Qed.

Lemma split_text fuel x l : Forall (free_of 10) (x :: l) -> (length l < fuel)%nat -> split_loop fuel [10] (text (x :: l)) = Done (x :: l).
Proof.
  revert x fuel. induction l as [|y l IH]; intros x fuel Hl Hf; (destruct fuel as [|fuel]; [cbn in Hf; lia|]);
    apply Forall_cons in Hl as [Hx Hl]; cbn [split_loop].
  - change (text [x]) with ((x ++ [10]) ++ []). rewrite <- app_assoc, (find_free 10 [] x []) by done. cbn [length].
    rewrite take_app_length. replace (drop _ _) with (@nil Z); [done|]. rewrite app_assoc, drop_app_ge by (rewrite length_app; cbn; lia).
    rewrite length_app. cbn [length]. by rewrite Nat.sub_diag.
  - change (text (x :: y :: l)) with ((x ++ [10]) ++ text (y :: l)). rewrite <- app_assoc, (find_free 10 [] x (text (y :: l))) by done.
    cbn [length]. rewrite take_app_length. replace (drop _ _) with (text (y :: l)).
    + rewrite bool_decide_eq_false_2 by (intros E; by apply text_nil in E). rewrite IH by (done || (cbn in Hf |- *; lia)). done.
    + rewrite app_assoc, drop_app_ge by (rewrite length_app; cbn; lia). rewrite length_app. cbn [length]. by rewrite Nat.sub_diag.
Qed.

Lemma text_length l : (length l <= length (text l))%nat.
Proof.
  induction l as [|x l IH]; [done|]. change (text (x :: l)) with ((x ++ nl) ++ text l). rewrite !length_app. cbn [length nl]. lia.
Qed.

Lemma StringSplit_text l : Forall (free_of 10) l -> StringSplit (text l) [10] = Done l.
Proof.
  intros Hl. unfold StringSplit. destruct l as [|x l]; [done|].
  rewrite bool_decide_eq_false_2 by (intros E; by apply text_nil in E).
  apply split_text; [done|]. pose proof (text_length (x :: l)). cbn [length] in *. lia.
Qed.

Lemma text_map {A} (f : A -> bytes) l : text (map f l) = concat (map (fun x => f x ++ nl) l).
Proof. unfold text. by rewrite map_map. Qed.

Lemma substr_app p r : substr (p ++ r) (length p) = Done (Some r).
Proof.
  unfold substr, substr_from. rewrite decide_True by (rewrite length_app; lia). by rewrite drop_app_length.
Qed.

(** ** Attributes with a number in front *)

Lemma find_space s r : free_of 32 s -> find (str " ") (s ++ str " " ++ r) = Some (length s).
Proof. intros. by apply (find_free 32 [] s r). Qed.

Lemma drop_behind s c (r : bytes) : drop (length s + 1) (s ++ c :: r) = r.
Proof. change (c :: r) with ([c] ++ r). rewrite app_assoc. replace (length s + 1)%nat with (length (s ++ [c])) by (rewrite length_app; done). apply drop_app_length. Qed.

Lemma pt_attr_line prefix c pt attr : 0 <= pt < 2 ^ 31 ->
  pt_attr prefix ((prefix ++ [c]) ++ dec pt ++ str " " ++ attr) = Done (Some (Some (pt, attr))).
Proof.
  intros Hp. unfold pt_attr. replace (length prefix + 1)%nat with (length (prefix ++ [c])) by (rewrite length_app; done).
  rewrite substr_app. cbn [tbind]. rewrite find_space by auto with sdp lia.
  rewrite take_app_length, atoi_dec by done. cbn [tlift tbind]. unfold tret. change (str " " ++ attr) with (32 :: attr). by rewrite drop_behind.
Qed.

(** ** Maps *)

Lemma zfind_zset_same {V} k (v : V) m : zfind k (zset k v m) = Some v.
Proof.
  induction m as [|[k0 v0] m IH]; cbn [zset zfind]; [by rewrite Z.eqb_refl|]. destruct (Z.ltb_spec k k0); [cbn; by rewrite Z.eqb_refl|].
  destruct (Z.ltb_spec k0 k); cbn [zfind]; [by destruct (Z.eqb_spec k k0); [lia|]|]. by destruct (Z.eqb_spec k k0); [|lia].
Qed.
Lemma zset_zset {V} k (v w : V) m : zset k v (zset k w m) = zset k v m.
Proof.
  induction m as [|[k0 v0] m IH]; cbn [zset]; [by rewrite Z.ltb_irrefl|].
  destruct (k <? k0) eqn:E; [cbn [zset]; by rewrite Z.ltb_irrefl|]. destruct (k0 <? k) eqn:E'; cbn [zset]; by rewrite E, E', ?IH.
Qed.

(** ** Running the parser over lines *)

Section run.
Variables (mem_is_rtx : Z -> bool) (mem_rtx_ssrc : Z -> Z).
Abbreviation ParseLine := (ParseLine mem_is_rtx mem_rtx_ssrc).
Abbreviation parse_lines := (parse_lines mem_is_rtx mem_rtx_ssrc).

Definition runs (l : list bytes) (st st' : SdpTransform * DtlsSdp) : Prop := parse_lines l st = Done (Some st').
(** One line, whatever number is returned. *)
Definition steps (line : bytes) (st st' : SdpTransform * DtlsSdp) : Prop := exists r, ParseLine line st = Done (Some (r, st')).

Lemma runs_nil st : runs [] st st.
Proof. done. Qed.

Lemma runs_cons line l st st' st'' : steps line st st' -> runs l st' st'' -> runs (line :: l) st st''.
Proof. intros [r E] Hr. unfold runs. cbn [Sdp.parse_lines]. by rewrite E. Qed.

Lemma runs_app l l' st st' st'' : runs l st st' -> runs l' st' st'' -> runs (l ++ l') st st''.
Proof.
  revert st. induction l as [|x l IH]; intros st; unfold runs; cbn [app Sdp.parse_lines].
  - by intros [= ->].
  - destruct (ParseLine x st) as [[[r s]|]|]; [|done..]. apply IH.
Qed.

Lemma Parse_text l st st' : Forall (free_of 10) l -> runs l st st' ->
  Parse mem_is_rtx mem_rtx_ssrc (text l) st = Done (Some (0, st')).
Proof. intros Hl Hr. unfold Parse. rewrite StringSplit_text by done. cbn [tlift tbind]. by rewrite Hr. Qed.

(** *** Lines by their beginning *)

(** The line is not empty behind a known beginning; its last byte is no carriage return. *)
Ltac line_kind :=
  intros; unfold Sdp.ParseLine; rewrite RemoveSubfix_free by auto with sdp; rewrite !starts_prefix; reflexivity.

Lemma line_version r s d : free_of 13 r -> ParseLine (str "v=" ++ r) (s, d) = tret (0, (set_proto_ver r s, d)).
Proof. line_kind. Qed.
Lemma line_name r s d : free_of 13 r -> ParseLine (str "s=" ++ r) (s, d) = tret (0, (set_session_name r s, d)).
Proof. line_kind. Qed.
Lemma line_media r s d : free_of 13 r -> ParseLine (str "m=" ++ r) (s, d) = with_dtls d (ParseM (str "m=" ++ r) s).
Proof. line_kind. Qed.
Lemma line_rtpmap r s d : free_of 13 r -> ParseLine (str "a=rtpmap:" ++ r) (s, d) = with_dtls d (ParseRtpMap (str "a=rtpmap:" ++ r) s).
Proof. line_kind. Qed.
Lemma line_fmtp r s d : free_of 13 r -> ParseLine (str "a=fmtp:" ++ r) (s, d) = with_dtls d (ParseFmtp (str "a=fmtp:" ++ r) s).
Proof. line_kind. Qed.
Lemma line_rtcpfb r s d : free_of 13 r -> ParseLine (str "a=rtcp-fb:" ++ r) (s, d) = with_dtls d (ParseRtcpFb (str "a=rtcp-fb:" ++ r) s).
Proof. line_kind. Qed.
Lemma line_extmap r s d : free_of 13 r -> ParseLine (str "a=extmap:" ++ r) (s, d) = with_dtls d (ParseExtMap (str "a=extmap:" ++ r) s).
Proof. line_kind. Qed.
Lemma line_ssrc r s d : free_of 13 r -> ParseLine (str "a=ssrc:" ++ r) (s, d) = with_dtls d (ParseSsrcInfo mem_is_rtx mem_rtx_ssrc (str "a=ssrc:" ++ r) s).
Proof. line_kind. Qed.
Lemma line_fid r s d : free_of 13 r -> ParseLine (str "a=ssrc-group:FID " ++ r) (s, d) = with_dtls d (ParseSsrcGroupFid (str "a=ssrc-group:FID " ++ r) s).
Proof. line_kind. Qed.
Lemma line_ufrag r s d : free_of 13 r -> remote_fragment_ (ds_ice d) = [] ->
  ParseLine (str "a=ice-ufrag:" ++ r) (s, d) = tret (0, (s, set_remote_fragment r d)).
Proof. intros Hr E. unfold Sdp.ParseLine. rewrite RemoveSubfix_free by auto with sdp. rewrite !starts_prefix, E. reflexivity. Qed.
Lemma line_ufrag_again r s d : free_of 13 r -> remote_fragment_ (ds_ice d) <> [] ->
  ParseLine (str "a=ice-ufrag:" ++ r) (s, d) = tret (0, (s, d)).
Proof.
  intros Hr E. unfold Sdp.ParseLine. rewrite RemoveSubfix_free by auto with sdp. rewrite !starts_prefix, (bool_decide_eq_false_2 (_ = [])) by done.
  reflexivity.
Qed.
Lemma line_pwd r s d : free_of 13 r -> remote_pwd_ (ds_ice d) = [] ->
  ParseLine (str "a=ice-pwd:" ++ r) (s, d) = tret (0, (s, set_remote_pwd r d)).
Proof. intros Hr E. unfold Sdp.ParseLine. rewrite RemoveSubfix_free by auto with sdp. rewrite !starts_prefix, E. reflexivity. Qed.
Lemma line_pwd_again r s d : free_of 13 r -> remote_pwd_ (ds_ice d) <> [] ->
  ParseLine (str "a=ice-pwd:" ++ r) (s, d) = tret (0, (s, d)).
Proof.
  intros Hr E. unfold Sdp.ParseLine. rewrite RemoveSubfix_free by auto with sdp. rewrite !starts_prefix.
  rewrite (bool_decide_eq_false_2 (remote_pwd_ _ = [])) by done. reflexivity.
Qed.

(** The beginnings the parser does not know. *)
Definition ignored : list bytes :=
  [str "t="; str "c="; str "a=msid"; str "a=group"; str "a=rtcp:"; str "a=setup:"; str "a=mid:"; str "a=send"; str "a=recv"; str "a=fingerprint:";
   str "a=ice-options"; str "a=rtcp-mux"; str "a=rtcp-rsize"].
Lemma line_ignored p r s d : p ∈ ignored -> free_of 13 r -> steps (p ++ r) (s, d) (s, d).
Proof.
  intros Hp Hr. exists 0. unfold Sdp.ParseLine. rewrite RemoveSubfix_free.
  - rewrite !starts_prefix. unfold ignored in Hp. repeat (apply elem_of_cons in Hp as [->|Hp]; [reflexivity|]). by apply not_elem_of_nil in Hp.
  - apply free_app; [|done]. revert p Hp. apply Forall_forall. apply (bool_decide_eq_true_1 (Forall (free_of 13) ignored)). by vm_compute.
Qed.
Lemma line_is_ignored line s d : existsb (fun p => is_prefix p line) ignored = true -> free_of 13 line -> steps line (s, d) (s, d).
Proof.
  intros He Hl. apply existsb_exists in He as (p & Hp & Hs). apply list_elem_of_In in Hp.
  assert (exists r, line = p ++ r) as [r ->].
  { clear Hp Hl. revert line Hs. induction p as [|c p IH]; intros line Hs; [by exists line|]. destruct line as [|b line]; [done|].
    cbn in Hs. apply andb_true_iff in Hs as [Hc Hs]. apply Z.eqb_eq in Hc as ->. destruct (IH _ Hs) as [r ->]. by exists r. }
  apply line_ignored; [done|]. by apply Forall_app in Hl as [_ Hl].
Qed.

(** *** The lines of one kind of media *)

Definition num_ok (n : Z) : Prop := 0 <= n < 2 ^ 31.
(** A text that a line can hold. *)
Definition word_ok (s : bytes) : Prop := free_of 10 s /\ free_of 13 s.

Definition media_line (is_video : bool) (pts : list Z) : bytes :=
  str "m=" ++ (if is_video then str "video" else str "audio") ++ str " 9 UDP/TLS/RTP/SAVPF" ++ concat (map (fun pt => str " " ++ dec pt) pts).

Lemma atoi_all_dec l : Forall num_ok l -> atoi_all (map dec l) = Done l.
Proof. induction 1 as [|n l Hn Hl IH]; [done|]. cbn [map atoi_all]. rewrite atoi_dec by done. cbn. by rewrite IH. Qed.

Lemma join_nums first l : join [32] (first :: map dec l) = first ++ concat (map (fun n => str " " ++ dec n) l).
Proof.
  revert first. induction l as [|n l IH]; intros first; [by rewrite app_nil_r|]. cbn [map]. rewrite join_cons by done. by rewrite IH.
Qed.

Lemma media_step is_video pts s d : pts <> [] -> Forall num_ok pts ->
  steps (media_line is_video pts) (s, d)
    (put_media is_video (set_has true (set_pt_vec (pt_vec_ (media is_video s) ++ pts) (media is_video s))) (set_current is_video s), d).
Proof.
  intros Hne Hp. exists 0. unfold media_line. rewrite line_media.
  - set (kind := if is_video then str "video" else str "audio").
    assert (kind ++ str " 9 UDP/TLS/RTP/SAVPF" ++ concat (map (fun pt => str " " ++ dec pt) pts) =
            join [32] (kind :: str "9" :: str "UDP/TLS/RTP/SAVPF" :: map dec pts)) as ->.
    { rewrite !join_cons by done. rewrite join_nums. done. }
    unfold ParseM. replace (find (str "=") _) with (Some 1%nat) by done. change (1 + 1)%nat with (length (str "m=")). rewrite substr_app. cbn [tbind].
    change (str " ") with [32]. rewrite split_words.
    + cbn [tlift tbind length]. rewrite length_map. destruct pts as [|pt pts]; [done|]. change (drop 3 _) with (map dec (pt :: pts)). cbn [length Nat.ltb Nat.leb nth].
      assert (bool_decide (kind = str "video") = is_video) as -> by (subst kind; by destruct is_video).
      rewrite atoi_all_dec by done. by destruct is_video.
    + done.
    + repeat (constructor; [subst kind; destruct is_video; apply free_const; by vm_compute|]). apply Forall_map.
      eapply Forall_impl; [exact Hp|]. intros n Hn. apply free_dec; unfold num_ok in Hn; lia.
    + repeat (constructor; [subst kind; by destruct is_video|]). apply Forall_map.
      eapply Forall_impl; [exact Hp|]. intros n Hn. apply dec_chars. unfold num_ok in Hn; lia.
  - assert (free_of 13 (concat (map (fun pt => str " " ++ dec pt) pts))) as Hc.
    { clear Hne. induction Hp as [|n l Hn Hl IH]; [constructor|]. cbn [map concat]. unfold num_ok in Hn. auto with sdp lia. }
    destruct is_video; auto with sdp.
Qed.

(** Codecs. *)
Definition codec_ok (i : RtpMapInfo) : Prop :=
  num_ok (rm_payload_type i) /\ num_ok (rm_clock_rate i) /\ num_ok (rm_channel i) /\ word_ok (rm_codec_type i) /\ free_of 47 (rm_codec_type i) /\ rm_codec_type i <> [].
Definition codec_line (is_video : bool) (i : RtpMapInfo) : bytes :=
  str "a=rtpmap:" ++ dec (rm_payload_type i) ++ str " " ++ rm_codec_type i ++ str "/" ++ dec (rm_clock_rate i) ++
  (if negb is_video && (0 <? rm_channel i) then str "/" ++ dec (rm_channel i) else []).

(** The channels of a video codec are not written. *)
Definition heard_codec (is_video : bool) (i : RtpMapInfo) : RtpMapInfo :=
  mkRtpMap (rm_payload_type i) (rm_codec_type i) (rm_clock_rate i) (if is_video then 0 else rm_channel i).
Definition hear_codec (is_video : bool) (s : SdpTransform) (i : RtpMapInfo) : SdpTransform :=
  let m := set_rtp_map (zset (rm_payload_type i) (heard_codec is_video i) (rtp_map_infos_ (media is_video s))) (media is_video s) in
  if is_video then
    if bool_decide (rm_codec_type i = str "rtx") then set_video_rtx_clock_rate (rm_clock_rate i) (set_video m s)
    else set_video (set_md_clock_rate (rm_clock_rate i) m) s
  else set_channel (rm_channel i) (set_audio (set_md_clock_rate (rm_clock_rate i) m) s).

Lemma codec_step is_video i s d : codec_ok i -> current_is_video_ s = is_video ->
  steps (codec_line is_video i) (s, d) (hear_codec is_video s i, d).
Proof.
  intros (Hp & Hr & Hc & [H10 H13] & Hs & Hne) Hv. exists 0. unfold num_ok in *. unfold codec_line. rewrite line_rtpmap.
  - unfold ParseRtpMap. change (length (str "a=rtpmap") + 1)%nat with (length (str "a=rtpmap:")). rewrite substr_app. cbn [tbind].
    rewrite find_space by auto with sdp lia. unfold substr_to, substr_behind. rewrite take_app_length, atoi_dec by done. cbn [tlift tbind].
    change (str " " ++ ?r) with (32 :: r). rewrite <- Nat.add_1_r, drop_behind.
    set (chs := if negb is_video && (0 <? rm_channel i) then [dec (rm_channel i)] else []).
    assert (rm_codec_type i ++ str "/" ++ dec (rm_clock_rate i) ++ (if negb is_video && (0 <? rm_channel i) then str "/" ++ dec (rm_channel i) else []) =
            join [47] (rm_codec_type i :: dec (rm_clock_rate i) :: chs)) as ->.
    { subst chs. destruct (negb is_video && (0 <? rm_channel i)); cbn [join]; [done|]. by rewrite app_nil_r. }
    change (str "/") with [47]. rewrite split_words.
    + cbn [tlift tbind]. rewrite atoi_dec by done. cbn [tlift tbind].
      assert (match chs with [] => mret 0 | c :: _ => atoi c end = Done (if is_video then 0 else rm_channel i)) as ->.
      { subst chs. destruct is_video; [done|]. destruct (Z.ltb_spec 0 (rm_channel i)); cbn [negb andb]; [by apply atoi_dec|]. unfold mret, outcome_ret. f_equal. lia. }
      cbn [tlift tbind]. rewrite Hv. destruct is_video; [by case_bool_decide as E; unfold hear_codec; [rewrite bool_decide_eq_true_2|rewrite bool_decide_eq_false_2]|done].
    + done.
    + subst chs. repeat (constructor; [done || (apply free_dec; lia)|]). destruct (_ && _); repeat constructor. apply free_dec; lia.
    + subst chs. repeat (constructor; [done || (apply dec_chars; lia)|]). destruct (_ && _); repeat constructor. apply dec_chars; lia.
  - destruct (_ && _); auto 10 with sdp lia.
Qed.

(** The lines of a list, one step each. *)
Lemma runs_map {A} (P : A -> Prop) (line : A -> bytes) (hear : SdpTransform -> A -> SdpTransform) (ok : SdpTransform -> Prop) d l s :
  (forall a s, P a -> ok s -> steps (line a) (s, d) (hear s a, d) /\ ok (hear s a)) -> Forall P l -> ok s ->
  runs (map line l) (s, d) (foldl hear s l, d).
Proof.
  intros Hstep Hl. revert s. induction Hl as [|a l Ha Hl IH]; intros s Hs; [apply runs_nil|].
  destruct (Hstep a s Ha Hs) as [H1 H2]. eapply runs_cons; [exact H1|]. by apply IH.
Qed.

Lemma hear_codec_current is_video s i : current_is_video_ (hear_codec is_video s i) = current_is_video_ s.
Proof. unfold hear_codec. destruct is_video; [|done]. by case_bool_decide. Qed.

Lemma codecs_run is_video l s d : Forall codec_ok l -> current_is_video_ s = is_video ->
  runs (map (codec_line is_video) l) (s, d) (foldl (hear_codec is_video) s l, d).
Proof.
  intros Hl Hv. apply (runs_map codec_ok _ _ (fun s => current_is_video_ s = is_video)); [|done..].
  intros i s' Hi Hs. split; [by apply codec_step|]. by rewrite hear_codec_current.
Qed.

(** Format parameters, feedback and extensions.  What a parameter says: [apt=n] at
    the front names the payload type [n] that is retransmitted; a parameter that
    does not hold [apt] anywhere names none. *)
Definition heard_fmtp (is_video : bool) (i : FmtpInfo) : FmtpInfo :=
  let says_apt := is_prefix (str "apt=") (fi_attr_string i) in
  mkFmtp (fi_payload_type i) (fi_attr_string i) is_video says_apt
    (if says_apt then digits 0 (drop 4 (fi_attr_string i)) else 0).

Definition names_apt (attr : bytes) (n : Z) : Prop :=
  exists rest, attr = str "apt=" ++ dec n ++ rest /\ num_ok n /\ no_digit rest.
Definition names_no_apt (attr : bytes) : Prop := ~ exists a b, attr = a ++ str "apt" ++ b.

Definition fmtp_ok (i : FmtpInfo) : Prop :=
  num_ok (fi_payload_type i) /\ word_ok (fi_attr_string i) /\
  (names_no_apt (fi_attr_string i) \/ exists n, names_apt (fi_attr_string i) n).

(** The number heard is the number written. *)
Lemma heard_apt is_video i n : names_apt (fi_attr_string i) n ->
  fi_is_rtx (heard_fmtp is_video i) = true /\ fi_rtx_payload_type (heard_fmtp is_video i) = n.
Proof.
  intros (rest & E & Hn & Hd). unfold heard_fmtp. rewrite E, is_prefix_app. split; [done|]. cbn [fi_rtx_payload_type].
  change (drop 4 _) with (dec n ++ rest). by apply digits_of_dec.
Qed.

Lemma fmtp_of_heard is_video i : fmtp_ok i ->
  fmtp_of is_video (fi_payload_type i) (fi_attr_string i) = Done (Some (heard_fmtp is_video i)).
Proof.
  intros (_ & _ & [Hno|[n (rest & E & Hn & Hd)]]); unfold fmtp_of, heard_fmtp.
  - rewrite (proj2 (find_occurs _ _) Hno). destruct (is_prefix (str "apt=") (fi_attr_string i)) eqn:Ep; [|done].
    apply is_prefix_inv in Ep as [r Hr]. destruct Hno. by exists [], (str "=" ++ r).
  - rewrite E, is_prefix_app. change (str "apt=" ++ dec n ++ rest) with (str "apt" ++ str "=" ++ dec n ++ rest) at 1.
    replace (find (str "apt") (str "apt" ++ str "=" ++ dec n ++ rest)) with (Some O) by reflexivity.
    change (0 + length (str "apt") + 1)%nat with (length (str "apt=")). rewrite substr_app. cbn [tbind].
    change (drop 4 _) with (dec n ++ rest). rewrite atoi_dec_app, digits_of_dec by done. reflexivity.
Qed.

Definition fmtp_line (i : FmtpInfo) : bytes := str "a=fmtp:" ++ dec (fi_payload_type i) ++ str " " ++ fi_attr_string i.
Definition hear_fmtp (is_video : bool) (s : SdpTransform) (i : FmtpInfo) : SdpTransform :=
  put_media is_video (set_fmtp (fmtp_vec_ (media is_video s) ++ [heard_fmtp is_video i]) (media is_video s)) s.

Lemma fmtp_step is_video i s d : fmtp_ok i -> current_is_video_ s = is_video -> steps (fmtp_line i) (s, d) (hear_fmtp is_video s i, d).
Proof.
  intros Hf Hv. pose proof (fmtp_of_heard is_video i Hf) as Ef. destruct Hf as (Hp & [H10 H13] & _).
  exists 0. unfold num_ok in *. unfold fmtp_line. rewrite line_fmtp by auto with sdp lia.
  unfold ParseFmtp. change (str "a=fmtp:") with (str "a=fmtp" ++ [58]). rewrite pt_attr_line by done. cbn [tbind]. by rewrite Hv, Ef.
Qed.

Definition fb_ok (i : RtcpFbInfo) : Prop := num_ok (fb_payload_type i) /\ word_ok (fb_attr_string i).
Definition fb_line (i : RtcpFbInfo) : bytes := str "a=rtcp-fb:" ++ dec (fb_payload_type i) ++ str " " ++ fb_attr_string i.
Definition hear_fb (is_video : bool) (s : SdpTransform) (i : RtcpFbInfo) : SdpTransform :=
  put_media is_video (set_rtcpfb (rtcpfb_vec_ (media is_video s) ++ [i]) (media is_video s)) s.

Lemma fb_step is_video i s d : fb_ok i -> current_is_video_ s = is_video -> steps (fb_line i) (s, d) (hear_fb is_video s i, d).
Proof.
  intros (Hp & [H10 H13]) Hv. exists 0. unfold num_ok in *. unfold fb_line. rewrite line_rtcpfb by auto with sdp lia.
  unfold ParseRtcpFb. change (str "a=rtcp-fb:") with (str "a=rtcp-fb" ++ [58]). rewrite pt_attr_line by done. cbn [tbind]. rewrite Hv. by destruct i.
Qed.

Definition ext_ok (x : Z * bytes) : Prop := num_ok x.1 /\ word_ok x.2.
Definition ext_line (x : Z * bytes) : bytes := str "a=extmap:" ++ dec x.1 ++ str " " ++ x.2.
Definition hear_ext (s : SdpTransform) (x : Z * bytes) : SdpTransform := set_ext_map (zset x.1 (mkExt x.1 x.2) (ext_map_ s)) s.

Lemma ext_step x s d : ext_ok x -> steps (ext_line x) (s, d) (hear_ext s x, d).
Proof.
  intros (Hp & [H10 H13]). exists 0. unfold num_ok in *. unfold ext_line. rewrite line_extmap by auto with sdp lia.
  unfold ParseExtMap. change (str "a=extmap:") with (str "a=extmap" ++ [58]). by rewrite pt_attr_line.
Qed.

Lemma fmtps_run is_video l s d : Forall fmtp_ok l -> current_is_video_ s = is_video ->
  runs (map fmtp_line l) (s, d) (put_media is_video (set_fmtp (fmtp_vec_ (media is_video s) ++ map (heard_fmtp is_video) l) (media is_video s)) s, d).
Proof.
  intros Hl Hv. replace (put_media is_video _ s) with (foldl (hear_fmtp is_video) s l).
  - apply (runs_map fmtp_ok _ _ (fun s => current_is_video_ s = is_video)); [|done..].
    intros i s' Hi Hs. split; [by apply fmtp_step|]. by destruct is_video.
  - clear Hl Hv. revert s. induction l as [|i l IH]; intros s; cbn [foldl map].
    + rewrite app_nil_r. by destruct s as [? ? ? [] []], is_video.
    + rewrite IH. destruct is_video; cbn; by rewrite <- app_assoc.
Qed.
Lemma fbs_run is_video l s d : Forall fb_ok l -> current_is_video_ s = is_video ->
  runs (map fb_line l) (s, d) (put_media is_video (set_rtcpfb (rtcpfb_vec_ (media is_video s) ++ l) (media is_video s)) s, d).
Proof.
  intros Hl Hv. replace (put_media is_video _ s) with (foldl (hear_fb is_video) s l).
  - apply (runs_map fb_ok _ _ (fun s => current_is_video_ s = is_video)); [|done..].
    intros i s' Hi Hs. split; [by apply fb_step|]. by destruct is_video.
  - clear Hl Hv. revert s. induction l as [|i l IH]; intros s; cbn [foldl].
    + rewrite app_nil_r. by destruct s as [? ? ? [] []], is_video.
    + rewrite IH. destruct is_video; cbn; by rewrite <- app_assoc.
Qed.
Lemma exts_run l s d : Forall ext_ok l -> runs (map ext_line l) (s, d) (foldl hear_ext s l, d).
Proof. intros Hl. apply (runs_map ext_ok _ _ (fun _ => True)); [|done..]. intros. split; [by apply ext_step|done]. Qed.

(** *** Connectivity checks *)

Definition ice_ok (d : DtlsSdp) : Prop :=
  word_ok (local_fragment_ (ds_ice d)) /\ word_ok (local_pwd_ d) /\ word_ok (fg_algorithm_ d) /\ word_ok (fingerprint_ d) /\
  local_fragment_ (ds_ice d) <> [] /\ local_pwd_ d <> [].
Definition ice_lines (d : DtlsSdp) : list bytes :=
  [str "a=ice-ufrag:" ++ local_fragment_ (ds_ice d); str "a=ice-pwd:" ++ local_pwd_ d;
   str "a=fingerprint:" ++ fg_algorithm_ d ++ str " " ++ fingerprint_ d; str "a=ice-options:trickle"].

Definition heard_ice (d d0 : DtlsSdp) : DtlsSdp := set_remote_pwd (local_pwd_ d) (set_remote_fragment (local_fragment_ (ds_ice d)) d0).

Lemma ice_run d s d0 : ice_ok d -> remote_fragment_ (ds_ice d0) = [] -> remote_pwd_ (ds_ice d0) = [] ->
  runs (ice_lines d) (s, d0) (s, heard_ice d d0).
Proof.
  intros ([_ Hf] & [_ Hp] & [_ Ha] & [_ Hg] & _) E1 E2.
  eapply runs_cons; [by exists 0; apply line_ufrag|]. eapply runs_cons; [by exists 0; apply line_pwd|].
  eapply runs_cons; [by apply line_is_ignored; [|auto with sdp]|]. eapply runs_cons; [by apply line_is_ignored; [|auto with sdp]|]. apply runs_nil.
Qed.
(** The second time nothing changes. *)
Lemma ice_again d s d0 : ice_ok d -> runs (ice_lines d) (s, heard_ice d d0) (s, heard_ice d d0).
Proof.
  intros ([_ Hf] & [_ Hp] & [_ Ha] & [_ Hg] & N1 & N2).
  eapply runs_cons; [by exists 0; apply line_ufrag_again|]. eapply runs_cons; [by exists 0; apply line_pwd_again|].
  eapply runs_cons; [by apply line_is_ignored; [|auto with sdp]|]. eapply runs_cons; [by apply line_is_ignored; [|auto with sdp]|]. apply runs_nil.
Qed.

(** *** SSRCs *)

Definition ssrc_ok (i : SSRCInfo) : Prop :=
  num_ok (si_ssrc i) /\ word_ok (si_msid i) /\ free_of 32 (si_msid i) /\ word_ok (si_msid_appdata i) /\ word_ok (si_cname i).
Definition ssrc_lines (i : SSRCInfo) : list bytes :=
  [str "a=ssrc:" ++ dec (si_ssrc i) ++ str " " ++ (str "msid:" ++ si_msid i ++ str " " ++ si_msid_appdata i);
   str "a=ssrc:" ++ dec (si_ssrc i) ++ str " " ++ (str "cname:" ++ si_cname i)].
Definition hear_ssrc (s : SdpTransform) (i : SSRCInfo) : SdpTransform :=
  set_ssrc_info (zset (si_ssrc i) (with_cname (si_cname i) (with_msid (si_msid i) (si_msid_appdata i) (ssrc_entry mem_is_rtx mem_rtx_ssrc (si_ssrc i) s)))
    (ssrc_info_map_ s)) s.

Lemma hear_ssrc_twice s i :
  hear_ssrc s i =
  let s1 := set_ssrc_info (zset (si_ssrc i) (with_msid (si_msid i) (si_msid_appdata i) (ssrc_entry mem_is_rtx mem_rtx_ssrc (si_ssrc i) s)) (ssrc_info_map_ s)) s in
  set_ssrc_info (zset (si_ssrc i) (with_cname (si_cname i) (ssrc_entry mem_is_rtx mem_rtx_ssrc (si_ssrc i) s1)) (ssrc_info_map_ s1)) s1.
Proof.
  unfold hear_ssrc, ssrc_entry. cbn [set_ssrc_info ssrc_info_map_ current_is_video_]. rewrite zfind_zset_same, zset_zset.
  by destruct (zfind _ _).
Qed.

Lemma ssrc_run i s d : ssrc_ok i -> runs (ssrc_lines i) (s, d) (hear_ssrc s i, d).
Proof.
  intros (Hn & [_ Hm] & H32 & [_ Ha] & [_ Hc]). unfold num_ok in Hn. assert (u32 (si_ssrc i) = si_ssrc i) as Hu by (apply Z.mod_small; lia).
  eapply runs_cons; [|eapply runs_cons; [|apply runs_nil]].
  - exists 0. rewrite line_ssrc by auto 10 with sdp lia. unfold ParseSsrcInfo. change (str "a=ssrc:") with (str "a=ssrc" ++ [58]).
    rewrite pt_attr_line by done. cbn [tbind]. rewrite Hu. change (bool_decide (find ?a ?l = Some O)) with (starts a l). rewrite !starts_prefix.
    cbn [is_prefix str app]. change (length (str "msid") + 1)%nat with (length (str "msid:")). rewrite substr_app. cbn [tbind].
    rewrite find_space by done. rewrite take_app_length. change (str " " ++ ?r) with (32 :: r). rewrite drop_behind. reflexivity.
  - exists 0. rewrite line_ssrc by auto 10 with sdp lia. unfold ParseSsrcInfo. change (str "a=ssrc:") with (str "a=ssrc" ++ [58]).
    rewrite pt_attr_line by done. cbn [tbind]. rewrite Hu. change (bool_decide (find ?a ?l = Some O)) with (starts a l). rewrite !starts_prefix.
    cbn [is_prefix str app]. change (length (str "cname") + 1)%nat with (length (str "cname:")). rewrite substr_app. cbn [tbind].
    rewrite hear_ssrc_twice. reflexivity.
Qed.

Definition fid_line (main slave : Z) : bytes := str "a=ssrc-group:FID " ++ dec main ++ str " " ++ dec slave.
Definition hear_fid (is_video : bool) (main slave : Z) (i j : SSRCInfo) (s : SdpTransform) : SdpTransform :=
  let s := put_media is_video (set_fid (fid_vec_ (media is_video s) ++ [main; slave]) (media is_video s)) s in
  let s := set_ssrc_info (zset slave (with_rtx true main j) (zset main (with_rtx false slave i) (ssrc_info_map_ s))) s in
  set_video_rtx_ssrc slave (set_video (set_md_ssrc main (sd_video s)) s).

Lemma fid_step main slave i j s d : num_ok main -> num_ok slave -> main <> slave -> ordered (ssrc_info_map_ s) ->
  zfind main (ssrc_info_map_ s) = Some i -> zfind slave (ssrc_info_map_ s) = Some j ->
  steps (fid_line main slave) (s, d) (hear_fid (current_is_video_ s) main slave i j s, d).
Proof.
  intros Hm Hs Hne Ho Hi Hj. unfold num_ok in *. exists 0. unfold fid_line. rewrite line_fid by auto with sdp lia.
  unfold ParseSsrcGroupFid. change (length (str "a=ssrc-group:FID") + 1)%nat with (length (str "a=ssrc-group:FID ")). rewrite substr_app. cbn [tbind].
  change (dec main ++ str " " ++ dec slave) with (join [32] [dec main; dec slave]). change (str " ") with [32]. rewrite split_words.
  - cbn [tlift tbind length Nat.ltb Nat.leb]. change [dec main; dec slave] with (map dec [main; slave]).
    rewrite atoi_all_dec by (repeat constructor; unfold num_ok; lia). cbn [tlift tbind map nth].
    unfold u32. rewrite !Z.mod_small by lia. 
    assert (ssrc_info_map_ (put_media (current_is_video_ s) (set_fid (fid_vec_ (media (current_is_video_ s) s) ++ [main; slave]) (media (current_is_video_ s) s)) s)
            = ssrc_info_map_ s) as E by by destruct (current_is_video_ s).
    rewrite E, Hi. cbn [set_ssrc_info ssrc_info_map_]. rewrite zfind_zset by done. destruct (Z.eqb_spec slave main); [lia|]. rewrite Hj.
    unfold hear_fid. rewrite E. reflexivity.
  - done.
  - repeat constructor; apply free_dec; lia.
  - repeat constructor; apply dec_chars; lia.
Qed.
End run.

(** ** What is written, as lines *)

Section lines.
Context `{Random}.

Definition mid_lines (is_video : bool) (s : SdpTransform) : list bytes :=
  let m := media is_video s in
  (str "a=setup:" ++ setup_ s) ::
  (if (if is_video then 0 <=? mid_ m else negb (mid_ m =? 0)) then [str "a=mid:" ++ dec (mid_ m)] else []) ++
  (if negb (bool_decide (msid_ m = [])) && negb (bool_decide (msid_appdata_ m = [])) then [str "a=msid:" ++ msid_ m ++ str " " ++ msid_appdata_ m] else []) ++
  [str "a=" ++ direction_ s].

Ltac flat := unfold text; cbn [map concat app]; rewrite <- ?app_assoc, ?app_nil_r; reflexivity.

(** The identifiers of the media are made up where there are none. *)
Lemma mid_media is_video s : exists id app n,
  GetMidInfo is_video s = ((GetMidInfo is_video s).1, set_drawn n (put_media is_video (set_msid_appdata app (set_msid id (media is_video s))) s)) /\
  id = (if bool_decide (msid_ (media is_video s) = []) then MakeUUID (drawn s) else msid_ (media is_video s)) /\
  app = (if bool_decide (msid_appdata_ (media is_video s) = [])
         then MakeUUID2 (if bool_decide (msid_ (media is_video s) = []) then drawn s + 12 else drawn s) else msid_appdata_ (media is_video s)).
Proof.
  set (n1 := if bool_decide (msid_ (media is_video s) = []) then (drawn s + 12)%nat else drawn s).
  set (n2 := if bool_decide (msid_appdata_ (media is_video s) = []) then (n1 + 8)%nat else n1).
  eexists _, _, n2. split; [|done]. subst n1 n2. unfold GetMidInfo.
  destruct (media is_video s) as [h pts rm fm fb fid id app mid ssrc rate cname] eqn:E. cbn [msid_ msid_appdata_].
  destruct (bool_decide (id = [])); cbn [set_msid msid_appdata_ msid_]; by destruct (bool_decide (app = [])).
Qed.

Lemma mid_text is_video s : (GetMidInfo is_video s).1 = text (mid_lines is_video (GetMidInfo is_video s).2).
Proof.
  unfold GetMidInfo. destruct (if bool_decide (msid_ _ = []) then _ else _) as [m n]. destruct (if bool_decide (msid_appdata_ m = []) then _ else _) as [m' n'].
  cbn [fst snd]. unfold mid_lines.
  assert (media is_video (set_drawn n' (put_media is_video m' s)) = m') as -> by by destruct is_video.
  assert (setup_ (set_drawn n' (put_media is_video m' s)) = setup_ s) as -> by by destruct is_video.
  assert (direction_ (set_drawn n' (put_media is_video m' s)) = direction_ s) as -> by by destruct is_video.
  assert (direction_ (put_media is_video m' s) = direction_ s) as E by by destruct is_video.
  destruct (if is_video then _ else _), (_ && _); flat.
Qed.

Definition vids (l : list SSRCInfo) : list SSRCInfo := List.filter (fun i => si_is_video i && negb (si_is_rtx i)) l.
Definition rtxs (l : list SSRCInfo) : list SSRCInfo := List.filter (fun i => si_is_video i && si_is_rtx i) l.
Definition auds (l : list SSRCInfo) : list SSRCInfo := List.filter (fun i => negb (si_is_video i)) l.
Definition keep_main (s : SdpTransform) (i : SSRCInfo) : SdpTransform := set_video (set_md_ssrc (si_ssrc i) (sd_video s)) s.
Definition keep_rtx (s : SdpTransform) (i : SSRCInfo) : SdpTransform := set_video_rtx_ssrc (si_ssrc i) s.
Definition keep_audio (s : SdpTransform) (i : SSRCInfo) : SdpTransform := set_audio (set_md_ssrc (si_ssrc i) (sd_audio s)) s.

Lemma ssrc_text_lines i : ssrc_text i = text (ssrc_lines i).
Proof. unfold ssrc_text, ssrc_lines. flat. Qed.

Lemma keep_rtx_main s l i : foldl keep_main (keep_rtx s i) l = keep_rtx (foldl keep_main s l) i.
Proof. revert s. induction l as [|j l IH]; intros s; [done|]. cbn [foldl]. by rewrite <- IH. Qed.

Lemma video_ssrcs_eq m a b s :
  video_ssrcs m a b s =
  ((a ++ concat (map ssrc_text (vids (map snd m)))) ++ b ++ concat (map ssrc_text (rtxs (map snd m))),
   foldl keep_rtx (foldl keep_main s (vids (map snd m))) (rtxs (map snd m))).
Proof.
  revert a b s. induction m as [|[k i] m IH]; intros a b s; cbn [video_ssrcs map snd vids rtxs List.filter].
  - cbn. by rewrite !app_nil_r.
  - destruct (si_is_video i); cbn [negb andb]; [|apply IH]. destruct (si_is_rtx i); cbn [negb]; rewrite IH; cbn [map concat foldl].
    + rewrite <- !app_assoc. f_equal. change (set_video_rtx_ssrc (si_ssrc i) s) with (keep_rtx s i). by rewrite keep_rtx_main.
    + by rewrite <- !app_assoc.
Qed.

Lemma audio_ssrcs_eq m a s :
  audio_ssrcs m a s = (a ++ concat (map ssrc_text (auds (map snd m))), foldl keep_audio s (auds (map snd m))).
Proof.
  revert a s. induction m as [|[k i] m IH]; intros a s; cbn [audio_ssrcs map snd auds List.filter].
  - cbn. by rewrite !app_nil_r.
  - destruct (si_is_video i); cbn [negb]; [apply IH|]. rewrite IH. cbn [map concat foldl]. by rewrite <- !app_assoc.
Qed.

Definition desc_head (is_video : bool) (s : SdpTransform) : list bytes :=
  let m := media is_video s in
  [media_line is_video (pt_vec_ m); str "c=IN IP4 0.0.0.0"] ++ map (codec_line is_video) (map snd (rtp_map_infos_ m)) ++ map fmtp_line (fmtp_vec_ m) ++
  [str "a=rtcp:9 IN IP4 0.0.0.0"] ++ map fb_line (rtcpfb_vec_ m) ++ map ext_line (ext_used is_video (em_ s)).

Lemma concat_map_eq {A} (f g : A -> bytes) l : (forall x, f x = g x) -> concat (map f l) = concat (map g l).
Proof. intros E. f_equal. by apply map_ext. Qed.

Lemma media_line_text is_video s : GetMediaDesc is_video s = media_line is_video (pt_vec_ (media is_video s)) ++ nl.
Proof. unfold GetMediaDesc, media_line. rewrite <- !app_assoc. done. Qed.

Lemma head_text is_video s :
  GetMediaDesc is_video s ++ GetConnection ++ GetRtpMap is_video s ++ GetFmtp is_video s ++ GetRtcp is_video s ++ GetExtMap is_video s =
  text (desc_head is_video s).
Proof.
  unfold desc_head. rewrite !text_app, !text_map, map_map, media_line_text. unfold GetRtpMap, GetFmtp, GetRtcp, GetExtMap.
  rewrite (concat_map_eq _ (fun item : Z * RtpMapInfo => codec_line is_video item.2 ++ nl)) by (intros i; unfold codec_line; by rewrite <- !app_assoc).
  rewrite (concat_map_eq _ (fun i => fmtp_line i ++ nl)) by (intros i; unfold fmtp_line; by rewrite <- !app_assoc).
  rewrite (concat_map_eq _ (fun i => fb_line i ++ nl)) by (intros i; unfold fb_line; by rewrite <- !app_assoc).
  rewrite (concat_map_eq _ (fun x => ext_line x ++ nl)) by (intros i; unfold ext_line; by rewrite <- !app_assoc).
  unfold text at 1 2. cbn [map concat]. rewrite !app_nil_r, <- !app_assoc. reflexivity.
Qed.
End lines.

(** ** What a peer is told *)

(** The clock rates and the number of channels: those of the last codec. *)
Definition rtx_name : bytes := str "rtx".
Definition said_rate (is_video : bool) (l : list RtpMapInfo) (r : Z) : Z :=
  foldl (fun r i => if is_video && bool_decide (rm_codec_type i = rtx_name) then r else rm_clock_rate i) r l.
Definition said_rtx_rate (l : list RtpMapInfo) (r : Z) : Z :=
  foldl (fun r i => if bool_decide (rm_codec_type i = rtx_name) then rm_clock_rate i else r) r l.
Definition said_channel (l : list RtpMapInfo) (c : Z) : Z := foldl (fun _ i => rm_channel i) c l.

Definition put_codec (is_video : bool) (m : list (Z * RtpMapInfo)) (i : RtpMapInfo) : list (Z * RtpMapInfo) :=
  zset (rm_payload_type i) (heard_codec is_video i) m.
Definition put_ext (m : list (Z * ExtInfo)) (x : Z * bytes) : list (Z * ExtInfo) := zset x.1 (mkExt x.1 x.2) m.

Definition codecs_told (is_video : bool) (l : list RtpMapInfo) (t : SdpTransform) : SdpTransform :=
  let m := media is_video t in
  let m := set_md_clock_rate (said_rate is_video l (md_clock_rate_ m)) (set_rtp_map (foldl (put_codec is_video) (rtp_map_infos_ m) l) m) in
  let t := put_media is_video m t in
  if is_video then set_video_rtx_clock_rate (said_rtx_rate l (video_rtx_clock_rate_ t)) t else set_channel (said_channel l (sd_channel_ t)) t.

Lemma hear_codecs is_video l t : foldl (hear_codec is_video) t l = codecs_told is_video l t.
Proof.
  revert t. induction l as [|i l IH]; intros t; cbn [foldl].
  - by destruct t as [? ? ? [] []], is_video.
  - rewrite IH. unfold codecs_told, hear_codec. cbn [said_rate said_rtx_rate said_channel foldl]. destruct is_video; [|done].
    change rtx_name with (str "rtx"). by destruct (bool_decide (rm_codec_type i = str "rtx")).
Qed.

Lemma hear_exts l t : foldl hear_ext t l = set_ext_map (foldl put_ext (ext_map_ t) l) t.
Proof. revert t. induction l as [|x l IH]; intros t; cbn [foldl]; [by destruct t|]. by rewrite IH. Qed.

Record media_ok (is_video : bool) (m : MediaSdp) (e : ExtIds) : Prop := {
  mo_pts : pt_vec_ m <> [] /\ Forall num_ok (pt_vec_ m);
  mo_codecs : Forall codec_ok (map snd (rtp_map_infos_ m));
  mo_keys : ordered (rtp_map_infos_ m) /\ Forall (fun item : Z * RtpMapInfo => item.1 = rm_payload_type item.2) (rtp_map_infos_ m);
  mo_fmtp : Forall fmtp_ok (fmtp_vec_ m);
  mo_fb : Forall fb_ok (rtcpfb_vec_ m);
  mo_ext : Forall ext_ok (ext_used is_video e);
  mo_mid : num_ok (mid_ m);
  mo_msid : word_ok (msid_ m) /\ word_ok (msid_appdata_ m)
}.

(** The members the first part of a description leaves in a new parser. *)
Definition heard_media (is_video : bool) (m : MediaSdp) (rate : Z) : MediaSdp :=
  mkMediaSdp true (pt_vec_ m) (map (fun item : Z * RtpMapInfo => (item.1, heard_codec is_video item.2)) (rtp_map_infos_ m))
    (map (heard_fmtp is_video) (fmtp_vec_ m)) (rtcpfb_vec_ m) [] [] [] (-1) 0 (said_rate is_video (map snd (rtp_map_infos_ m)) rate) [].
Definition hear_head (is_video : bool) (s t : SdpTransform) : SdpTransform :=
  let l := map snd (rtp_map_infos_ (media is_video s)) in
  let t := put_media is_video (heard_media is_video (media is_video s) (md_clock_rate_ (media is_video t))) (set_current is_video t) in
  let t := if is_video then set_video_rtx_clock_rate (said_rtx_rate l (video_rtx_clock_rate_ t)) t else set_channel (said_channel l (sd_channel_ t)) t in
  set_ext_map (foldl put_ext (ext_map_ t) (ext_used is_video (em_ s))) t.

Lemma zset_last {V} k (v : V) m : Forall (fun b => b.1 < k) m -> zset k v m = m ++ [(k, v)].
Proof.
  induction 1 as [|[k0 v0] m Hk Hm IH]; [done|]. cbn in Hk |- *. destruct (Z.ltb_spec k k0); [lia|]. destruct (Z.ltb_spec k0 k); [|lia]. by rewrite IH.
Qed.

Lemma codecs_kept is_video (m acc : list (Z * RtpMapInfo)) :
  ordered m -> Forall (fun item : Z * RtpMapInfo => item.1 = rm_payload_type item.2) m ->
  Forall (fun item : Z * RtpMapInfo => Forall (fun b : Z * RtpMapInfo => b.1 < item.1) acc) m ->
  foldl (put_codec is_video) acc (map snd m) = acc ++ map (fun item : Z * RtpMapInfo => (item.1, heard_codec is_video item.2)) m.
Proof.
  revert acc. induction m as [|[k i] m IH]; intros acc Ho Hk Ha; cbn [map foldl]; [by rewrite app_nil_r|].
  apply ordered_cons in Ho as [Hf Ho]. apply Forall_cons in Hk as [Hki Hk]. apply Forall_cons in Ha as [Hacc Ha]. cbn [fst snd] in *.
  unfold put_codec at 2. rewrite <- Hki, zset_last by done. rewrite IH; [by rewrite <- app_assoc|done|done|].
  apply Forall_forall. intros b Hb. apply Forall_app. rewrite Forall_forall in Ha, Hf. split; [by apply Ha|].
  constructor; [|constructor]. by apply Hf.
Qed.

Section told.
Variables (mem_is_rtx : Z -> bool) (mem_rtx_ssrc : Z -> Z).
Abbreviation runs := (runs mem_is_rtx mem_rtx_ssrc).

Lemma head_run is_video s t dd : media_ok is_video (media is_video s) (em_ s) -> media is_video t = MediaSdp_new (md_clock_rate_ (media is_video t)) ->
  runs (desc_head is_video s) (t, dd) (hear_head is_video s t, dd).
Proof.
  intros [[P1 P2] C [K1 K2] F B E _ _] Ht. unfold desc_head.
  eapply runs_cons; [by apply media_step|]. eapply runs_cons; [by apply line_is_ignored; [|auto with sdp]|].
  eapply runs_app; [apply codecs_run; [done|by destruct is_video]|]. rewrite hear_codecs.
  eapply runs_app; [apply fmtps_run; [done|by destruct is_video]|].
  eapply runs_cons; [by apply line_is_ignored; [|auto with sdp]|].
  eapply runs_app; [apply fbs_run; [done|by destruct is_video]|].
  match goal with |- runs _ (?u, _) _ => assert (hear_head is_video s t = foldl hear_ext u (ext_used is_video (em_ s))) as -> end; [|by apply exts_run].
  rewrite hear_exts. pose proof (codecs_kept is_video (rtp_map_infos_ (media is_video s)) []) as Hk. cbn [app] in Hk.
  unfold hear_head, heard_media. rewrite <- Hk by (done || (apply Forall_forall; intros; apply Forall_nil_2)). clear Hk.
  destruct is_video; destruct t as [? ? ? tv ta]; cbn [media sd_video sd_audio] in Ht; rewrite Ht; reflexivity.
Qed.

Definition direction_ok (s : bytes) : Prop := s ∈ [str "sendonly"; str "recvonly"; str "sendrecv"].

Lemma mid_run is_video s t dd : word_ok (setup_ s) -> direction_ok (direction_ s) -> num_ok (mid_ (media is_video s)) ->
  word_ok (msid_ (media is_video s)) -> word_ok (msid_appdata_ (media is_video s)) -> runs (mid_lines is_video s) (t, dd) (t, dd).
Proof.
  intros [_ Hs] Hd Hm [_ H1] [_ H2]. unfold num_ok in Hm. unfold mid_lines.
  eapply runs_cons; [by apply line_is_ignored; [|auto with sdp]|].
  eapply runs_app; [destruct (if is_video then _ else _); [|apply runs_nil]; eapply runs_cons; [by apply line_is_ignored; [|auto with sdp lia]|apply runs_nil]|].
  eapply runs_app; [destruct (_ && _); [|apply runs_nil]; eapply runs_cons; [by apply line_is_ignored; [|auto with sdp lia]|apply runs_nil]|].
  eapply runs_cons; [|apply runs_nil]. unfold direction_ok in Hd. rewrite !elem_of_cons, elem_of_nil in Hd.
  destruct Hd as [->|[->|[->|[]]]]; (apply line_is_ignored; [done|auto with sdp]).
Qed.

(** The SSRCs of the video, and of the audio. *)
Definition video_ssrc_lines (vi ri : SSRCInfo) : list bytes :=
  ssrc_lines vi ++ ssrc_lines ri ++ [fid_line (si_ssrc vi) (si_ssrc ri); str "a=rtcp-mux"; str "a=rtcp-rsize"].
Definition audio_ssrc_lines (ai again : SSRCInfo) : list bytes := ssrc_lines ai ++ ssrc_lines again ++ [str "a=rtcp-mux"].

Definition told_video (vi ri : SSRCInfo) : list (Z * SSRCInfo) :=
  zset (si_ssrc vi) (mkSsrc (si_ssrc vi) true false (si_msid vi) (si_msid_appdata vi) (si_cname vi) (si_ssrc ri))
    (zset (si_ssrc ri) (mkSsrc (si_ssrc ri) true true (si_msid ri) (si_msid_appdata ri) (si_cname ri) (si_ssrc vi)) []).
Definition told_audio (ai : SSRCInfo) : SSRCInfo :=
  mkSsrc (si_ssrc ai) false (mem_is_rtx (si_ssrc ai)) (si_msid ai) (si_msid_appdata ai) (si_cname ai) (mem_rtx_ssrc (si_ssrc ai)).

Definition hear_video_ssrcs (vi ri : SSRCInfo) (t : SdpTransform) : SdpTransform :=
  set_video_rtx_ssrc (si_ssrc ri)
    (set_ssrc_info (told_video vi ri) (set_video (set_md_ssrc (si_ssrc vi) (set_fid [si_ssrc vi; si_ssrc ri] (sd_video t))) t)).

(** An SSRC not heard of before. *)
Lemma hear_new_ssrc i t : zfind (si_ssrc i) (ssrc_info_map_ t) = None ->
  hear_ssrc mem_is_rtx mem_rtx_ssrc t i =
  set_ssrc_info (zset (si_ssrc i) (mkSsrc (si_ssrc i) (current_is_video_ t) (mem_is_rtx (si_ssrc i)) (si_msid i) (si_msid_appdata i) (si_cname i)
    (mem_rtx_ssrc (si_ssrc i))) (ssrc_info_map_ t)) t.
Proof. intros E. unfold hear_ssrc, ssrc_entry. by rewrite E. Qed.

Lemma video_ssrcs_run vi ri t dd : ssrc_ok vi -> ssrc_ok ri -> si_ssrc vi <> si_ssrc ri -> current_is_video_ t = true ->
  ssrc_info_map_ t = [] -> fid_vec_ (sd_video t) = [] ->
  runs (video_ssrc_lines vi ri) (t, dd) (hear_video_ssrcs vi ri t, dd).
Proof.
  intros Hv Hr Hne Hc Hm Hf. unfold video_ssrc_lines. pose proof Hv as (Nv & _). pose proof Hr as (Nr & _).
  eapply runs_app; [by apply ssrc_run|]. eapply runs_app; [by apply ssrc_run|].
  rewrite (hear_new_ssrc vi) by by rewrite Hm. rewrite Hm, Hc. cbn [zset].
  rewrite (hear_new_ssrc ri) by (cbn [ssrc_info_map_ set_ssrc_info zfind]; by destruct (Z.eqb_spec (si_ssrc ri) (si_ssrc vi))).
  cbn [ssrc_info_map_ set_ssrc_info current_is_video_]. rewrite Hc.
  set (X := mkSsrc (si_ssrc vi) _ _ _ _ _ _). set (Y := mkSsrc (si_ssrc ri) _ _ _ _ _ _).
  assert (forall A B : SSRCInfo, zset (si_ssrc ri) A [(si_ssrc vi, B)] = zset (si_ssrc vi) B [(si_ssrc ri, A)]) as Hsw.
  { intros A B. cbn [zset]. destruct (Z.ltb_spec (si_ssrc ri) (si_ssrc vi)), (Z.ltb_spec (si_ssrc vi) (si_ssrc ri)); (done || lia). }
  eapply runs_cons; [apply (fid_step _ _ _ _ X Y); [done..| | |]|].
  - cbn [ssrc_info_map_ set_ssrc_info]. apply zset_ordered, ordered_cons. split; [constructor|apply ordered_nil].
  - cbn [ssrc_info_map_ set_ssrc_info]. rewrite Hsw. apply zfind_zset_same.
  - cbn [ssrc_info_map_ set_ssrc_info]. apply zfind_zset_same.
  - eapply runs_cons; [by apply line_is_ignored; [|auto with sdp]|]. eapply runs_cons; [by apply line_is_ignored; [|auto with sdp]|].
    replace (hear_video_ssrcs vi ri t) with (hear_fid (current_is_video_ t) (si_ssrc vi) (si_ssrc ri) X Y
      (set_ssrc_info (zset (si_ssrc ri) Y [(si_ssrc vi, X)]) t)); [apply runs_nil|].
    rewrite Hc. unfold hear_fid. cbn [ssrc_info_map_ set_ssrc_info media sd_video put_media set_video]. rewrite Hf, Hsw, zset_zset, <- Hsw, zset_zset, Hsw. reflexivity.
Qed.

Lemma audio_ssrcs_run ai again t dd : ssrc_ok ai -> ssrc_ok again -> si_ssrc again = si_ssrc ai -> current_is_video_ t = false ->
  zfind (si_ssrc ai) (ssrc_info_map_ t) = None ->
  runs (audio_ssrc_lines ai again) (t, dd) (set_ssrc_info (zset (si_ssrc ai) (told_audio again) (ssrc_info_map_ t)) t, dd).
Proof.
  intros Ha Hg Hs Hc Hm. unfold audio_ssrc_lines. eapply runs_app; [by apply ssrc_run|]. eapply runs_app; [by apply ssrc_run|].
  eapply runs_cons; [by apply line_is_ignored; [|auto with sdp]|]. rewrite (hear_new_ssrc ai t) by done. unfold hear_ssrc, ssrc_entry.
  cbn [ssrc_info_map_ set_ssrc_info]. rewrite Hs, zfind_zset_same, zset_zset. unfold told_audio. rewrite Hs.
  cbn [current_is_video_ set_ssrc_info]. rewrite Hc. apply runs_nil.
Qed.

(** The lines of the session. *)
Definition session_lines (id : bytes) (hv ha : bool) (s : SdpTransform) : list bytes :=
  [str "v=" ++ proto_ver_ s; str "o=- " ++ id ++ str " 2 IN IP4 127.0.0.1"; str "s=" ++ session_name_ s; str "t=0 0";
   str "a=extmap-allow-mixed"; str "a=msid-semantic: WMS";
   str "a=group:BUNDLE" ++ (if hv then str " " ++ dec 0 else []) ++ (if ha then str " " ++ dec (if hv then 1 else 0) else [])].

Lemma session_step id s dd : free_of 13 id -> free_of 32 id -> id <> [] ->
  steps mem_is_rtx mem_rtx_ssrc (str "o=- " ++ id ++ str " 2 IN IP4 127.0.0.1") (s, dd) (set_session_id (str "-") s, dd).
Proof.
  intros Hi H32 Hne. exists 0. unfold ParseLine. rewrite RemoveSubfix_free by auto with sdp. rewrite !starts_prefix.
  cbn [is_prefix str app].
  assert (str "o=- " ++ id ++ str " 2 IN IP4 127.0.0.1" = join [32] [str "o=-"; id; str "2"; str "IN"; str "IP4"; str "127.0.0.1"]) as ->.
  { rewrite !join_cons by done. done. }
  assert (ParseSession (join [32] [str "o=-"; id; str "2"; str "IN"; str "IP4"; str "127.0.0.1"]) s = tret (set_session_id (str "-") s)) as E.
  { unfold ParseSession. change (str " ") with [32]. rewrite split_words; [done|done| |].
    - repeat (constructor; [done || (apply free_const; by vm_compute)|]). constructor.
    - repeat (constructor; [done|]). constructor. }
  cbn [join] in *. by rewrite E.
Qed.

Lemma session_run id hv ha s dd : free_of 13 id -> free_of 32 id -> id <> [] -> free_of 13 (proto_ver_ s) -> free_of 13 (session_name_ s) ->
  runs (session_lines id hv ha s) (SdpTransform_new, dd)
    (set_session_name (session_name_ s) (set_session_id (str "-") (set_proto_ver (proto_ver_ s) SdpTransform_new)), dd).
Proof.
  intros Hi H32 Hne Hv Hn. unfold session_lines.
  eapply runs_cons; [by exists 0; apply line_version|]. eapply runs_cons; [by apply session_step|]. eapply runs_cons; [by exists 0; apply line_name|].
  eapply runs_cons; [by apply line_is_ignored; [|auto with sdp]|].
  eapply runs_cons; [exists (-1); reflexivity|].
  eapply runs_cons; [by apply line_is_ignored; [|auto with sdp]|].
  eapply runs_cons; [|apply runs_nil]. apply line_is_ignored; [done|]. destruct hv, ha; auto with sdp.
Qed.
End told.

(** ** What is made up is a word *)

Definition plain (s : bytes) : Prop := Forall (fun c => 45 <= c <= 122) s.

Lemma plain_free c s : plain s -> ~ 45 <= c <= 122 -> free_of c s.
Proof. intros Hs Hc. eapply Forall_impl; [exact Hs|]. cbn. lia. Qed.
Lemma plain_word s : plain s -> word_ok s.
Proof. intros. split; apply plain_free; (done || lia). Qed.
Lemma plain_dec n : 0 <= n -> plain (dec n).
Proof. intros Hn. destruct (dec_chars n Hn) as [Hd _]. eapply Forall_impl; [exact Hd|]. cbn. lia. Qed.
Lemma plain_hex w v : plain (hex w v).
Proof.
  apply Forall_map, Forall_forall. intros i _. unfold hex_char. pose proof (Z.mod_pos_bound (v / 16 ^ Z.of_nat i) 16 ltac:(lia)).
  destruct (Z.ltb_spec (v / 16 ^ Z.of_nat i mod 16) 10); lia.
Qed.
Lemma plain_concat {A} (f : A -> bytes) l : (forall x, x ∈ l -> plain (f x)) -> plain (concat (map f l)).
Proof.
  induction l as [|x l IH]; intros Hp; [constructor|]. apply Forall_app. split; [apply Hp; by left|]. apply IH. intros y Hy. apply Hp. by right.
Qed.

Section random_words.
Context `{Random}.

Lemma draws_range n count a b v : a <= b -> v ∈ draws n count a b -> a <= v <= b.
Proof. intros Hab Hv. apply list_elem_of_In, in_map_iff in Hv as (i & <- & _). by apply draw_range. Qed.

Lemma plain_uuid n : plain (MakeUUID n).
Proof. apply plain_concat. intros. apply plain_hex. Qed.
Lemma plain_dash : plain (str "-").
Proof. apply (bool_decide_eq_true_1 (Forall _ _)). by vm_compute. Qed.
Lemma plain_uuid2 n : plain (MakeUUID2 n).
Proof. unfold MakeUUID2, plain. repeat (apply Forall_app_2; [first [apply plain_hex|by apply plain_dash]|]). apply plain_hex. Qed.
Lemma plain_num n count : plain (MakeNumString n count).
Proof.
  apply plain_concat. intros v Hv. apply draws_range in Hv; [|lia]. apply plain_dec. apply Z.rem_nonneg; lia.
Qed.
Lemma num_nonempty n count : MakeNumString n (S count) <> [].
Proof.
  unfold MakeNumString. cbn [draws seq map concat]. intros E. apply app_eq_nil in E as [E _].
  assert (0 <= draw n 0 9 `rem` 10) as Hd by (pose proof (draw_range n 0 9); apply Z.rem_nonneg; lia). by destruct (dec_chars _ Hd).
Qed.
Lemma plain_random n len : plain (GetRandomString n len).
Proof.
  apply Forall_map, Forall_forall. intros v Hv. apply draws_range in Hv; [|lia].
  assert (Forall (fun c => 45 <= c <= 122) random_chars) as Hr by (apply (bool_decide_eq_true_1 (Forall _ _)); by vm_compute).
  rewrite Forall_forall in Hr. apply Hr, list_elem_of_In, nth_In. change (length random_chars) with 36%nat. lia.
Qed.
Lemma random_nonempty n len : GetRandomString n (S len) <> [].
Proof. done. Qed.
End random_words.

(** ** The whole description *)

(** A description with one video stream, its retransmissions and one audio stream. *)
Record describable (s : SdpTransform) (vi ri ai : SSRCInfo) : Prop := {
  de_words : word_ok (proto_ver_ s) /\ word_ok (session_name_ s) /\ word_ok (setup_ s) /\ direction_ok (direction_ s);
  de_video : media_ok true (sd_video s) (em_ s);
  de_audio : media_ok false (sd_audio s) (em_ s);
  de_ssrcs : map snd (ssrc_info_map_ s) ≡ₚ [vi; ri; ai];
  de_kinds : si_is_video vi = true /\ si_is_rtx vi = false /\ si_is_video ri = true /\ si_is_rtx ri = true /\ si_is_video ai = false;
  de_ok : ssrc_ok vi /\ ssrc_ok ri /\ ssrc_ok ai;
  de_diff : si_ssrc vi <> si_ssrc ri /\ si_ssrc vi <> si_ssrc ai /\ si_ssrc ri <> si_ssrc ai /\ si_ssrc ai <> 0
}.

(** The second pair of lines of the audio stream. *)
Definition audio_again (s : SdpTransform) (ai : SSRCInfo) : SSRCInfo :=
  mkSsrc (si_ssrc ai) false false (str "-") (msid_ (sd_audio s)) (md_cname_ (sd_audio s)) 0.

Definition desc_lines (id : bytes) (hv ha : bool) (d : DtlsSdp) (s : SdpTransform) (vi ri ai : SSRCInfo) : list bytes :=
  session_lines id hv ha s ++
  (desc_head true s ++ mid_lines true s ++ ice_lines d ++ video_ssrc_lines vi ri) ++
  (desc_head false s ++ mid_lines false s ++ ice_lines d ++ audio_ssrc_lines ai (audio_again s ai)).

Section whole.
Context `{Random}.

(** What writing changes: the identifiers and names made up, and the SSRCs written last. *)
Definition written (id name i1 a1 i2 a2 cname : bytes) (n : nat) (vi ri ai : SSRCInfo) (s : SdpTransform) : SdpTransform :=
  let s := set_session_name name (set_session_id id s) in
  let s := set_video_rtx_ssrc (si_ssrc ri) (set_video (set_md_ssrc (si_ssrc vi) (set_msid_appdata a1 (set_msid i1 (sd_video s)))) s) in
  set_drawn n (set_audio (set_md_cname cname (set_md_ssrc (si_ssrc ai) (set_msid_appdata a2 (set_msid i2 (sd_audio s))))) s).

Lemma filter_perm (p : SSRCInfo -> bool) l l' x : l ≡ₚ l' -> List.filter p l' = [x] -> List.filter p l = [x].
Proof.
  intros Hp Hx. assert (List.filter p l ≡ₚ List.filter p l') as Hf.
  { clear Hx. induction Hp as [|y l l' Hp IH|y z l|l l' l'' _ IH1 _ IH2]; cbn [List.filter]; [done|by destruct (p y); [constructor|]| |by etrans].
    destruct (p y), (p z); try done. constructor. }
  rewrite Hx in Hf. symmetry in Hf. by apply Permutation_length_1_inv.
Qed.

Lemma describable_kinds s vi ri ai : describable s vi ri ai ->
  vids (map snd (ssrc_info_map_ s)) = [vi] /\ rtxs (map snd (ssrc_info_map_ s)) = [ri] /\ auds (map snd (ssrc_info_map_ s)) = [ai].
Proof.
  intros [_ _ _ P (K1 & K2 & K3 & K4 & K5) _ _].
  split_and!; (eapply filter_perm; [exact P|]); cbn [List.filter]; by rewrite ?K1, ?K2, ?K3, ?K4, ?K5.
Qed.

Lemma made_up (b : bool) made s : plain made -> word_ok s -> word_ok (if b then made else s).
Proof. intros. destruct b; [by apply plain_word|done]. Qed.

Lemma video_desc_text d s vi ri : vids (map snd (ssrc_info_map_ s)) = [vi] -> rtxs (map snd (ssrc_info_map_ s)) = [ri] ->
  word_ok (msid_ (sd_video s)) -> word_ok (msid_appdata_ (sd_video s)) ->
  exists i1 a1 n, word_ok i1 /\ word_ok a1 /\
  let s' := set_drawn n (set_video_rtx_ssrc (si_ssrc ri) (set_video (set_md_ssrc (si_ssrc vi) (set_msid_appdata a1 (set_msid i1 (sd_video s)))) s)) in
  GetVideoDesc d s = (text (desc_head true s ++ mid_lines true s' ++ ice_lines d ++ video_ssrc_lines vi ri), s').
Proof.
  intros Hv Hr W1 W2. destruct (mid_media true s) as (id & ap & n & Em & Ei & Ea). exists id, ap, n.
  split; [rewrite Ei; by apply made_up; [apply plain_uuid|]|]. split; [rewrite Ea; by apply made_up; [apply plain_uuid2|]|]. cbv zeta.
  unfold GetVideoDesc, media_desc. rewrite head_text. pose proof (mid_text true s) as Et. rewrite Em in Et |- *. cbn [fst snd] in Et |- *.
  unfold GetSsrcs. rewrite video_ssrcs_eq. cbn [put_media media set_drawn set_video ssrc_info_map_]. rewrite Hv, Hr. cbn [foldl map concat app].
  f_equal. rewrite Et, !text_app. f_equal. f_equal. unfold video_ssrc_lines. rewrite !text_app, <- !ssrc_text_lines.
  f_equal; [unfold GetIceInfo, ice_lines, text; cbn [map concat]; by rewrite <- !app_assoc, app_nil_r|].
  rewrite !app_nil_r, <- !app_assoc. f_equal. f_equal. unfold text, fid_line. cbn [map concat]. by rewrite <- !app_assoc.
Qed.

Lemma audio_desc_text d s ai : auds (map snd (ssrc_info_map_ s)) = [ai] -> si_ssrc ai <> 0 ->
  word_ok (msid_ (sd_audio s)) -> word_ok (msid_appdata_ (sd_audio s)) ->
  exists i2 a2 cname n, word_ok i2 /\ word_ok a2 /\ plain cname /\
  let s' := set_drawn n (set_audio (set_md_cname cname (set_md_ssrc (si_ssrc ai) (set_msid_appdata a2 (set_msid i2 (sd_audio s))))) s) in
  GetAudioDesc d s = (text (desc_head false s ++ mid_lines false s' ++ ice_lines d ++ audio_ssrc_lines ai (audio_again s' ai)), s').
Proof.
  intros Ha Hz W1 W2. destruct (mid_media false s) as (id & ap & n & Em & Ei & Ea). exists id, ap, (GetRandomString n 16), (n + 16)%nat.
  split; [rewrite Ei; by apply made_up; [apply plain_uuid|]|]. split; [rewrite Ea; by apply made_up; [apply plain_uuid2|]|].
  split; [apply plain_random|]. cbv zeta.
  unfold GetAudioDesc, media_desc. rewrite head_text. pose proof (mid_text false s) as Et. rewrite Em in Et |- *. cbn [fst snd] in Et |- *.
  unfold GetSsrcs. rewrite audio_ssrcs_eq. cbn [put_media media set_drawn set_audio ssrc_info_map_]. rewrite Ha. cbn [foldl map concat app].
  cbn [keep_audio set_audio set_drawn sd_audio set_md_ssrc md_ssrc_ drawn]. destruct (Z.eqb_spec (si_ssrc ai) 0); [done|].
  f_equal. rewrite Et, !text_app. f_equal. f_equal.
  f_equal; [unfold GetIceInfo, ice_lines, text; cbn [map concat]; by rewrite <- !app_assoc, app_nil_r|].
  unfold audio_ssrc_lines. rewrite !text_app, <- !ssrc_text_lines. unfold ssrc_text, audio_again. rewrite <- !app_assoc. f_equal.
Qed.

Lemma session_name_same s : set_session_name (session_name_ s) s = s.
Proof. by destruct s. Qed.

Lemma gen_lines hv ha d s vi ri ai : describable s vi ri ai ->
  exists id i1 a1 i2 a2 cname n, plain id /\ id <> [] /\ word_ok i1 /\ word_ok a1 /\ word_ok i2 /\ word_ok a2 /\ plain cname /\
  let s' := written id (if bool_decide (session_name_ s = []) then str "cpp_streamer" else session_name_ s) i1 a1 i2 a2 cname n vi ri ai s in
  GenSdpString_for hv ha d s = (text (desc_lines id hv ha d s' vi ri ai), s').
Proof.
  intros D. destruct (describable_kinds _ _ _ _ D) as (Kv & Kr & Ka). destruct D as [_ [_ _ _ _ _ _ _ [V1 V2]] [_ _ _ _ _ _ _ [A1 A2]] _ _ _ (_ & _ & _ & Hz)].
  set (s0 := set_drawn (drawn s + 19) (set_session_id (MakeNumString (drawn s) 19) s)).
  set (s1 := if bool_decide (session_name_ s0 = []) then set_session_name (str "cpp_streamer") s0 else s0).
  assert (sd_video s1 = sd_video s /\ sd_audio s1 = sd_audio s /\ ssrc_info_map_ s1 = ssrc_info_map_ s) as (Mv & Ma & Mm) by (subst s1; by case_bool_decide).
  assert (set_session_name (if bool_decide (session_name_ s = []) then str "cpp_streamer" else session_name_ s) s0 = s1) as E1.
  { subst s1. change (session_name_ s0) with (session_name_ s). repeat case_bool_decide; (done || apply (session_name_same s0)). }
  destruct (video_desc_text d s1 vi ri) as (i1 & a1 & n1 & W1 & W2 & Ev); [by rewrite ?Mm, ?Mv..|].
  set (s2 := set_drawn n1 _) in Ev.
  destruct (audio_desc_text d s2 ai) as (i2 & a2 & cn & n2 & W3 & W4 & Pc & Ea); [change (ssrc_info_map_ s2) with (ssrc_info_map_ s1); by rewrite Mm|done|change (sd_audio s2) with (sd_audio s1); by rewrite Ma..|].
  exists (MakeNumString (drawn s) 19), i1, a1, i2, a2, cn, n2. split; [apply plain_num|]. split; [apply num_nonempty|]. do 5 (split; [done|]).
  cbv zeta. unfold GenSdpString_for, GetSessionIdentifier. fold s0. unfold GetSessionName. fold s1. rewrite Ev, Ea.
  set (s' := written _ _ _ _ _ _ _ _ _ _ _ _).
  assert (set_drawn n2 (set_audio (set_md_cname cn (set_md_ssrc (si_ssrc ai) (set_msid_appdata a2 (set_msid i2 (sd_audio s2))))) s2) = s') as Es.
  { subst s2 s'. rewrite <- E1. reflexivity. }
  rewrite Es. assert (session_name_ s1 = session_name_ s') as En by (rewrite <- E1; reflexivity).
  assert (desc_head true s1 = desc_head true s') as -> by (rewrite <- E1; reflexivity).
  assert (desc_head false s2 = desc_head false s') as -> by (subst s2; rewrite <- E1; reflexivity).
  assert (mid_lines true s2 = mid_lines true s') as -> by (subst s2; rewrite <- E1; reflexivity).
  f_equal. unfold desc_lines. rewrite !text_app, En. unfold session_lines. rewrite !app_assoc. do 8 f_equal.
  unfold text, GetProtoVersion, GetTimeScale, GetBasicAttr. cbn [map concat]. rewrite <- ?app_assoc, ?app_nil_r. reflexivity.
Qed.
End whole.

(** ** No line has an end inside *)

Abbreviation free := (free_of 10).
Lemma head_free is_video s : media_ok is_video (media is_video s) (em_ s) -> Forall free (desc_head is_video s).
Proof.
  intros [[_ P] C _ F B E _ _]. unfold desc_head. apply Forall_app. split; [|apply Forall_app; split; [|apply Forall_app; split]].
  - constructor; [|constructor; [auto with sdp|constructor]]. unfold media_line.
    assert (free (concat (map (fun pt => str " " ++ dec pt) (pt_vec_ (media is_video s))))) as Hc.
    { induction P as [|n l Hn Hl IH]; [constructor|]. cbn [map concat]. unfold num_ok in Hn. auto with sdp lia. }
    destruct is_video; auto with sdp.
  - apply Forall_map. eapply Forall_impl; [exact C|]. intros i (Hp & Hr & Hc & [H10 _] & _). unfold num_ok in *. unfold codec_line.
    destruct (_ && _); auto 10 with sdp lia.
  - apply Forall_map. eapply Forall_impl; [exact F|]. intros i (Hp & [H10 _] & _). unfold num_ok in *. unfold fmtp_line. auto with sdp lia.
  - apply Forall_app. split; [constructor; [auto with sdp|constructor]|]. apply Forall_app. split; apply Forall_map.
    + eapply Forall_impl; [exact B|]. intros i (Hp & [H10 _]). unfold num_ok in *. unfold fb_line. auto with sdp lia.
    + eapply Forall_impl; [exact E|]. intros i (Hp & [H10 _]). unfold num_ok in *. unfold ext_line. auto with sdp lia.
Qed.

Lemma mid_free is_video s : word_ok (setup_ s) -> direction_ok (direction_ s) -> num_ok (mid_ (media is_video s)) ->
  word_ok (msid_ (media is_video s)) -> word_ok (msid_appdata_ (media is_video s)) -> Forall free (mid_lines is_video s).
Proof.
  intros [Hs _] Hd Hm [H1 _] [H2 _]. unfold num_ok in Hm. unfold mid_lines. constructor; [auto with sdp|].
  apply Forall_app. split; [destruct (if is_video then _ else _); [|constructor]; constructor; [auto with sdp lia|constructor]|].
  apply Forall_app. split; [destruct (_ && _); [|constructor]; constructor; [auto with sdp lia|constructor]|].
  constructor; [|constructor]. unfold direction_ok in Hd. rewrite !elem_of_cons, elem_of_nil in Hd. destruct Hd as [->|[->|[->|[]]]]; auto with sdp.
Qed.

Lemma ice_free d : ice_ok d -> Forall free (ice_lines d).
Proof. intros ([Hf _] & [Hp _] & [Ha _] & [Hg _] & _). unfold ice_lines. repeat (constructor; [auto with sdp|]). constructor. Qed.

Lemma ssrc_free i : ssrc_ok i -> Forall free (ssrc_lines i).
Proof. intros (Hn & [Hm _] & H32 & [Ha _] & [Hc _]). unfold num_ok in Hn. constructor; [|constructor; [|constructor]]; auto 10 with sdp lia. Qed.

Lemma session_free id hv ha s : free id -> free (proto_ver_ s) -> free (session_name_ s) -> Forall free (session_lines id hv ha s).
Proof.
  intros. unfold session_lines. repeat (constructor; [solve [auto with sdp]|]). constructor; [|constructor]. destruct hv, ha; auto 10 with sdp lia.
Qed.

(** ** The theorem *)

Section roundtrip.
Context `{Random}.
Variables (mem_is_rtx : Z -> bool) (mem_rtx_ssrc : Z -> Z).

(** What a new parser knows after a description; of the audio stream, the second pair of lines. *)
Definition heard (s : SdpTransform) (vi ri ai : SSRCInfo) : SdpTransform :=
  mkSdp (proto_ver_ s) (session_name_ s) (str "-")
    (set_md_ssrc (si_ssrc vi) (set_fid [si_ssrc vi; si_ssrc ri] (heard_media true (sd_video s) 90000)))
    (heard_media false (sd_audio s) 48000)
    (foldl put_ext [] (ext_used true (em_ s) ++ ext_used false (em_ s)))
    (zset (si_ssrc ai) (told_audio mem_is_rtx mem_rtx_ssrc (audio_again s ai)) (told_video vi ri))
    ExtIds_new (str "passive") (str "sendonly") (si_ssrc ri)
    (said_rtx_rate (map snd (rtp_map_infos_ (sd_video s))) 90000)
    (said_channel (map snd (rtp_map_infos_ (sd_audio s))) 2) false false 0.

Lemma again_ok s vi ri ai : describable s vi ri ai -> word_ok (msid_ (sd_audio s)) -> plain (md_cname_ (sd_audio s)) -> ssrc_ok (audio_again s ai).
Proof.
  intros [_ _ _ _ _ (_ & _ & (Hn & _)) _] Hm Hc. split; [done|]. repeat split; try (apply free_const; by vm_compute); [apply Hm|apply Hm|apply plain_word, Hc..].
Qed.

Lemma desc_run id hv ha d d0 s vi ri ai : describable s vi ri ai -> ice_ok d -> plain id -> id <> [] -> plain (md_cname_ (sd_audio s)) ->
  remote_fragment_ (ds_ice d0) = [] -> remote_pwd_ (ds_ice d0) = [] ->
  runs mem_is_rtx mem_rtx_ssrc (desc_lines id hv ha d s vi ri ai) (SdpTransform_new, d0) (heard s vi ri ai, heard_ice d d0).
Proof.
  intros D Hd Hi Hne Hc R1 R2. pose proof (again_ok s vi ri ai D) as Hag. destruct D as [([_ W1] & [_ W2] & W3 & W4) Mv Ma _ _ (O1 & O2 & O3) (D1 & D2 & D3 & D4)].
  pose proof Mv as [_ _ _ _ _ _ Vm [V1 V2]]. pose proof Ma as [_ _ _ _ _ _ Am [A1 A2]]. unfold desc_lines.
  eapply runs_app; [by apply session_run; try (apply plain_free; [done|lia])|]. eapply runs_app.
  - eapply runs_app; [by apply head_run|]. eapply runs_app; [by apply mid_run|]. eapply runs_app; [by apply ice_run|]. by apply video_ssrcs_run.
  - eapply runs_app; [by apply head_run|]. eapply runs_app; [by apply mid_run|]. eapply runs_app; [by apply ice_again|].
    eassert (heard s vi ri ai = _) as ->; [|apply audio_ssrcs_run; [done|by apply Hag|done|done|]].
    + unfold heard. rewrite foldl_app. reflexivity.
    + cbn [hear_head hear_video_ssrcs ssrc_info_map_ set_ssrc_info set_ext_map set_channel put_media set_audio set_current set_video_rtx_ssrc].
      unfold told_video. rewrite !zfind_zset by auto with zmap. destruct (Z.eqb_spec (si_ssrc ai) (si_ssrc vi)); [lia|].
      destruct (Z.eqb_spec (si_ssrc ai) (si_ssrc ri)); [lia|done].
Qed.

Lemma media_ok_msid is_video m e i a ssrc cname : media_ok is_video m e -> word_ok i -> word_ok a ->
  media_ok is_video (set_md_cname cname (set_md_ssrc ssrc (set_msid_appdata a (set_msid i m)))) e.
Proof. intros [P C K F B E M _] Hi Ha. by split. Qed.

Lemma written_describable id name i1 a1 i2 a2 cname n s vi ri ai : describable s vi ri ai -> word_ok name ->
  word_ok i1 -> word_ok a1 -> word_ok i2 -> word_ok a2 -> describable (written id name i1 a1 i2 a2 cname n vi ri ai s) vi ri ai.
Proof.
  intros [(W1 & _ & W3 & W4) Mv Ma P K O D] Hn H1 H2 H3 H4. split; try done.
  - unfold written. cbn [sd_video set_drawn set_audio set_video_rtx_ssrc set_video em_].
    change (set_md_ssrc (si_ssrc vi) ?m) with (set_md_cname (md_cname_ m) (set_md_ssrc (si_ssrc vi) m)). by apply media_ok_msid.
  - by apply media_ok_msid.
Qed.

(** The text of a description, and the description it leaves. *)
Lemma gen_heard hv ha d d0 s vi ri ai :
  describable s vi ri ai -> ice_ok d -> remote_fragment_ (ds_ice d0) = [] -> remote_pwd_ (ds_ice d0) = [] ->
  exists sdp id name i1 a1 i2 a2 cname n, let s' := written id name i1 a1 i2 a2 cname n vi ri ai s in
  GenSdpString_for hv ha d s = (sdp, s') /\ describable s' vi ri ai /\
  Parse mem_is_rtx mem_rtx_ssrc sdp (SdpTransform_new, d0) = Done (Some (0, (heard s' vi ri ai, heard_ice d d0))).
Proof.
  intros D Hd R1 R2. destruct (gen_lines hv ha d s vi ri ai D) as (id & i1 & a1 & i2 & a2 & cn & n & Pi & Ni & W1 & W2 & W3 & W4 & Pc & E).
  revert E. set (name := if bool_decide _ then _ else _). set (s' := written _ _ _ _ _ _ _ _ _ _ _ _). intros E.
  assert (word_ok name) as Wn by (subst name; case_bool_decide; [split; apply free_const; by vm_compute|apply D]).
  assert (describable s' vi ri ai) as D' by by apply written_describable.
  eexists _, id, name, i1, a1, i2, a2, cn, n. cbv zeta. split; [exact E|]. split; [exact D'|].
  apply Parse_text; [|by apply desc_run]. pose proof (again_ok s' vi ri ai D' W3 Pc) as Hag. clear E.
  destruct D' as [([X1 _] & [X2 _] & X3 & X4) Mv Ma _ _ (O1 & O2 & O3) _].
  pose proof Mv as [_ _ _ _ _ _ Vm [V1 V2]]. pose proof Ma as [_ _ _ _ _ _ Am [A1 A2]].
  unfold desc_lines, video_ssrc_lines, audio_ssrc_lines, fid_line. rewrite !Forall_app. split_and!;
    try (first [by apply session_free; [apply plain_free; [done|lia]| |]|by apply head_free|by apply mid_free|by apply ice_free|by apply ssrc_free]).
  - destruct O1 as [N1 _], O2 as [N2 _]. unfold num_ok in *. repeat (constructor; [solve [auto with sdp lia]|]). constructor.
  - constructor; [auto with sdp|constructor].
Qed.

(** C11. Whatever [describable] description of a video stream, its retransmissions and an audio stream is written with [GenSdpString], a
    new parser that reads the text knows what was described: of each kind of media the payload types, the codecs with their clock rates and
    channels, the format parameters with the flags their text gives (a retransmission format, of the payload type named, exactly where the
    text begins with [apt=]), the feedback messages; the header extensions; the SSRCs, with the two of the video tied together; and as the
    remote fragment and password those of the writer.  Writing changes nothing of the description but the names and identifiers it makes up
    and the SSRCs written last.  [describable] asks for exactly these three SSRCs, distinct, and for every number written - SSRCs, payload
    types, rates - to be below 2^31, since the parser reads them with [atoi] ([large_ssrc_undefined] is what happens above); names and
    texts hold no line ends, and a format parameter either begins with [apt=] and a number or does not hold [apt] at all ([apt_anywhere]). *)
Theorem sdp_roundtrip hv ha d d0 s vi ri ai :
  describable s vi ri ai -> ice_ok d -> remote_fragment_ (ds_ice d0) = [] -> remote_pwd_ (ds_ice d0) = [] ->
  let '(sdp, s') := GenSdpString_for hv ha d s in
  (exists id name i1 a1 i2 a2 cname n, s' = written id name i1 a1 i2 a2 cname n vi ri ai s) /\
  Parse mem_is_rtx mem_rtx_ssrc sdp (SdpTransform_new, d0) = Done (Some (0, (heard s' vi ri ai, heard_ice d d0))).
Proof.
  intros D Hd R1 R2. destruct (gen_heard hv ha d d0 s vi ri ai D Hd R1 R2) as (sdp & id & name & i1 & a1 & i2 & a2 & cn & n & -> & _ & E).
  split; [by eexists _, _, _, _, _, _, _, _|done].
Qed.
End roundtrip.

(** A description, to see that the theorem applies. *)
Lemma counting_range (n : nat) min max : min <= max -> min <= min + Z.of_nat n mod (max - min + 1) <= max.
Proof. intros Hm. pose proof (Z.mod_pos_bound (Z.of_nat n) (max - min + 1)). lia. Qed.
#[export] Instance counting : Random := {| draw n min max := min + Z.of_nat n mod (max - min + 1); draw_range := counting_range |}.

Definition sample_ssrc (ssrc : Z) (is_video is_rtx : bool) : SSRCInfo := mkSsrc ssrc is_video is_rtx (str "m") (str "a") (str "c") 0.
Definition sample : SdpTransform :=
  let v := mkMediaSdp true [96; 97] [(96, mkRtpMap 96 (str "H264") 90000 0); (97, mkRtpMap 97 (str "rtx") 90000 0)]
             [mkFmtp 96 (str "packetization-mode=1") true false 0; mkFmtp 97 (str "apt=96") true true 96] [mkRtcpFb 96 (str "nack")]
             [] (str "m") (str "a") 0 0 90000 [] in
  let a := mkMediaSdp true [111] [(111, mkRtpMap 111 (str "opus") 48000 2)] [mkFmtp 111 (str "minptime=10") false false 0] []
             [] (str "m") (str "a") 1 0 48000 [] in
  set_ssrc_info [(5, sample_ssrc 5 true false); (6, sample_ssrc 6 true true); (7, sample_ssrc 7 false false)]
    (set_em (mkExtIds 1 2 (-1) (-1) (-1) (-1) (-1) (-1) 9 (-1) (-1) 14) (set_video v (set_audio a SdpTransform_new))).
Definition sample_dtls (fragment pwd : bytes) : DtlsSdp := mkDtlsSdp (mkIceSetup [] [] fragment []) pwd (str "sha-256") (str "AB:CD").

Ltac concrete :=
  lazymatch goal with
  | |- _ /\ _ => split; concrete
  | |- num_ok _ => unfold num_ok; cbn; lia
  | |- free_of _ _ => apply free_const; vm_compute; reflexivity
  | |- word_ok _ => split; concrete
  | |- codec_ok _ => unfold codec_ok; concrete
  | |- fmtp_ok _ => unfold fmtp_ok; concrete
  | |- names_no_apt ?attr \/ _ =>
      first [left; apply find_occurs; vm_compute; reflexivity
            | let n := eval vm_compute in (digits 0 (drop 4 attr)) in
              right; exists n, []; split; [vm_compute; reflexivity|split; [unfold num_ok; lia|exact I]]]
  | |- fb_ok _ => unfold fb_ok; concrete
  | |- ext_ok _ => unfold ext_ok; concrete
  | |- ssrc_ok _ => unfold ssrc_ok; concrete
  | |- Forall _ [] => constructor
  | |- Forall _ (_ :: _) => constructor; concrete
  | |- Forall _ ?l => let l' := eval vm_compute in l in change l with l'; concrete
  | |- ordered _ => unfold ordered; cbn; repeat constructor
  | |- _ <> _ => vm_compute; discriminate
  | |- _ => vm_compute; reflexivity
  end.

Lemma sample_describable : describable sample (sample_ssrc 5 true false) (sample_ssrc 6 true true) (sample_ssrc 7 false false).
Proof.
  split.
  - repeat (split; [concrete|]). unfold direction_ok. by left.
  - split; concrete.
  - split; concrete.
  - reflexivity.
  - done.
  - concrete.
  - concrete.
Qed.

Lemma sdp_roundtrip_witness :
  let '(sdp, s') := GenSdpString_for true true (sample_dtls (str "frag") (str "pass")) sample in
  exists t d, Parse (fun _ => false) (fun _ => 0) sdp (SdpTransform_new, sample_dtls (str "f") (str "p")) = Done (Some (0, (t, d))) /\
    pt_vec_ (sd_video t) = [96; 97] /\ rtp_map_infos_ (sd_audio t) = [(111, mkRtpMap 111 (str "opus") 48000 2)] /\
    map fst (ext_map_ t) = [1; 2; 9; 14] /\ GetVideoSsrc t = 5 /\ GetVideoRtxSsrc t = 6 /\ GetAudioSsrc t = 7 /\
    remote_fragment_ (ds_ice d) = str "frag".
Proof.
  pose proof (sdp_roundtrip (fun _ => false) (fun _ => 0) true true (sample_dtls (str "frag") (str "pass")) (sample_dtls (str "f") (str "p")) sample
    (sample_ssrc 5 true false) (sample_ssrc 6 true true) (sample_ssrc 7 false false) sample_describable) as R.
  destruct (GenSdpString_for true true _ sample) as [sdp s'] eqn:E. vm_compute in E. injection E as <- <-.
  destruct R as [_ R]; [unfold ice_ok; concrete|done|done|]. eexists _, _. split; [exact R|]. split_and!; vm_compute; reflexivity.
Defined.
