(* ===== verification/PeerSdpRun.v ===== *)
(** * [PeerSdpRun]: an offer and its answer open the streams they describe

    The set-up of a connection in [PeerSdp], over the round trip of [SdpRun]: the offer is
    a description that [Sdp] reads back, and the streams are those of the answer. *)
From S2P Require Import Prelude ByteStream StringEx ZMap Sdp SdpRun PeerSdp.
From S2P Require DataBuffer Media RtcTime Rtcp RtcSend RtcRecv PeerConnection PeerIce.
Import PeerIce(IceSetup, mkIceSetup, ice_infos, remote_fragment_, local_fragment_, remote_pwd_, pi_peer, pi_setup).
Import PeerConnection(PC_STATE, PC_INIT_STATE, PC_SDP_DONE_STATE, PC_STUN_DONE_STATE, PC_DTLS_DONE_STATE).
Import PeerConnection(WebRtcSdpDirection, DIRECTION_UNKNOWN, SEND_ONLY, RECV_ONLY, SEND_RECV, pc_state_, direct_type_, mspull_).
Import PeerConnection(video_send_stream_, audio_send_stream_, video_recv_stream_, audio_recv_stream_).
Import Media(MEDIA_VIDEO_TYPE, MEDIA_AUDIO_TYPE).

(** ** Asking for a key frame *)

Definition pli_bytes (ssrc : Z) : bytes := [129; 206; 0; 2] ++ Write4Bytes 1 ++ Write4Bytes ssrc.

Lemma RequestKeyFrame_new ssrc pt rate nack rtx now_ms :
  let s := RtcRecv.RtcRecvStream_new MEDIA_VIDEO_TYPE ssrc pt rate nack rtx in
  RtcRecv.RequestKeyFrame (-1) now_ms s = Done (RtcRecv.send_rtcp (pli_bytes ssrc) (RtcRecv.set_last_keyframe_ms now_ms s)).
Proof.
  intros s. unfold RtcRecv.RequestKeyFrame. cbn [s RtcRecv.RtcRecvStream_new RtcRecv.rs_ids RtcTime.ss_media_type_].
  change ((0 <? -1) && _ && _) with false. cbn [andb].
  assert (exists rest, Rtcp.RtcpPsPli_new = Done ([129; 206; 0; 2] ++ [0; 0; 0; 0] ++ [0; 0; 0; 0] ++ rest)) as [rest ->].
  { eexists. vm_compute. reflexivity. }
  unfold mret, outcome_ret. cbn [mbind outcome_bind]. unfold Rtcp.SetSenderSsrc. rewrite (Rtcp.put32_mid [129; 206; 0; 2]) by done. cbn [mbind outcome_bind].
  unfold Rtcp.SetMediaSsrc. rewrite app_assoc, (Rtcp.put32_mid ([129; 206; 0; 2] ++ Write4Bytes 1)) by done. cbn [mbind outcome_bind].
  unfold Rtcp.PliGetData. rewrite !app_assoc. set (l := ([129; 206; 0; 2] ++ _) ++ _).
  rewrite DataBuffer.read_range_app by done. done.
Qed.

(** ** The SSRCs of a description *)

(** The only entry of its kind is found. *)
Lemma first_ssrc_only (p : SSRCInfo -> bool) s k i : zfind k (ssrc_info_map_ s) = Some i -> p i = true ->
  Forall (fun item : Z * SSRCInfo => p item.2 = true -> item.1 = k) (ssrc_info_map_ s) -> first_ssrc p s = k.
Proof.
  intros Hk Hp Hf. unfold first_ssrc. destruct (List.find _ _) as [item|] eqn:E.
  - apply List.find_some in E as [Hin E]. rewrite Forall_forall in Hf. apply Hf; [by apply list_elem_of_In|done].
  - apply zfind_In in Hk. apply list_elem_of_In in Hk. pose proof (List.find_none _ _ E _ Hk) as Hn. cbn in Hn. congruence.
Qed.

Section told_ssrcs.
Variables (mem_is_rtx : Z -> bool) (mem_rtx_ssrc : Z -> Z).
Abbreviation heard := (heard mem_is_rtx mem_rtx_ssrc).

Lemma heard_ssrcs s vi ri ai : describable s vi ri ai ->
  let t := heard s vi ri ai in GetVideoSsrc t = si_ssrc vi /\ GetVideoRtxSsrc t = si_ssrc ri /\ GetAudioSsrc t = si_ssrc ai.
Proof.
  intros [_ _ _ _ _ _ (D1 & D2 & D3 & _)] t.
  assert (forall k, zfind k (ssrc_info_map_ t) =
    if k =? si_ssrc ai then Some (told_audio mem_is_rtx mem_rtx_ssrc (audio_again s ai))
    else if k =? si_ssrc vi then Some (mkSsrc (si_ssrc vi) true false (si_msid vi) (si_msid_appdata vi) (si_cname vi) (si_ssrc ri))
    else if k =? si_ssrc ri then Some (mkSsrc (si_ssrc ri) true true (si_msid ri) (si_msid_appdata ri) (si_cname ri) (si_ssrc vi)) else None) as Hz.
  { intros k. cbn [t SdpRun.heard ssrc_info_map_]. unfold told_video. rewrite !zfind_zset by auto with zmap. done. }
  assert (forall p k i, zfind k (ssrc_info_map_ t) = Some i -> p i = true ->
    (p (told_audio mem_is_rtx mem_rtx_ssrc (audio_again s ai)) = true -> si_ssrc ai = k) ->
    (p (mkSsrc (si_ssrc vi) true false (si_msid vi) (si_msid_appdata vi) (si_cname vi) (si_ssrc ri)) = true -> si_ssrc vi = k) ->
    (p (mkSsrc (si_ssrc ri) true true (si_msid ri) (si_msid_appdata ri) (si_cname ri) (si_ssrc vi)) = true -> si_ssrc ri = k) ->
    first_ssrc p t = k) as Hf.
  { intros p k i Hk Hp H1 H2 H3. apply (first_ssrc_only p t k i); [done..|]. cbn [t SdpRun.heard ssrc_info_map_]. unfold told_video.
    repeat (apply zset_Forall; [done|]). constructor. }
  split_and!.
  - eapply Hf; [rewrite Hz; destruct (Z.eqb_spec (si_ssrc vi) (si_ssrc ai)); [lia|]; rewrite Z.eqb_refl; done|done..].
  - eapply Hf; [rewrite Hz; destruct (Z.eqb_spec (si_ssrc ri) (si_ssrc ai)); [lia|]; destruct (Z.eqb_spec (si_ssrc ri) (si_ssrc vi)); [lia|]; rewrite Z.eqb_refl; done|done..].
  - eapply Hf; [rewrite Hz, Z.eqb_refl; done|done..].
Qed.
End told_ssrcs.

(** ** What a description says of its streams *)

(** The members of a description agree with what it writes: the flags of the parameters with their texts, the rates with the codecs. *)
Definition consistent (s : SdpTransform) : Prop :=
  Forall (fun i => fi_is_video i = true /\ fi_is_rtx i = fi_is_rtx (heard_fmtp true i)) (fmtp_vec_ (sd_video s)) /\
  Forall (fun i => fi_is_video i = false) (fmtp_vec_ (sd_audio s)) /\
  md_clock_rate_ (sd_video s) = said_rate true (map snd (rtp_map_infos_ (sd_video s))) 90000 /\
  md_clock_rate_ (sd_audio s) = said_rate false (map snd (rtp_map_infos_ (sd_audio s))) 48000 /\
  sd_channel_ s = said_channel (map snd (rtp_map_infos_ (sd_audio s))) 2.

Lemma heard_fmtp_same is_video i :
  fi_payload_type (heard_fmtp is_video i) = fi_payload_type i /\ fi_is_video (heard_fmtp is_video i) = is_video.
Proof. done. Qed.

(** Searching for a parameter by its flags finds the same payload type. *)
Lemma find_heard (q : bool -> bool -> bool) is_video l :
  Forall fmtp_ok l -> Forall (fun i => fi_is_video i = is_video /\ fi_is_rtx i = fi_is_rtx (heard_fmtp is_video i)) l ->
  option_map fi_payload_type (List.find (fun i => q (fi_is_video i) (fi_is_rtx i)) (map (heard_fmtp is_video) l)) =
  option_map fi_payload_type (List.find (fun i => q (fi_is_video i) (fi_is_rtx i)) l).
Proof.
  intros Hok Hf. induction l as [|i l IH]; [done|]. apply Forall_cons in Hok as [Hi Hok]. apply Forall_cons in Hf as [[H1 H2] Hf].
  destruct (heard_fmtp_same is_video i) as [_ E2]. cbn [map List.find]. rewrite E2, <- H2, H1. destruct (q _ _); [done|by apply IH].
Qed.
Lemma exists_heard (q : bool -> bool -> bool) is_video l :
  Forall fmtp_ok l -> Forall (fun i => fi_is_video i = is_video /\ fi_is_rtx i = fi_is_rtx (heard_fmtp is_video i)) l ->
  existsb (fun i => q (fi_is_video i) (fi_is_rtx i)) (map (heard_fmtp is_video) l) = existsb (fun i => q (fi_is_video i) (fi_is_rtx i)) l.
Proof.
  intros Hok Hf. induction l as [|i l IH]; [done|]. apply Forall_cons in Hok as [Hi Hok]. apply Forall_cons in Hf as [[H1 H2] Hf].
  destruct (heard_fmtp_same is_video i) as [_ E2]. cbn [map existsb]. rewrite E2, <- H2, H1. by rewrite IH.
Qed.

Lemma answer_of (a b : option FmtpInfo) d : option_map fi_payload_type a = option_map fi_payload_type b ->
  match a with Some i => fi_payload_type i | None => d end = match b with Some i => fi_payload_type i | None => d end.
Proof. destruct a, b; cbn [option_map]; intros [=]; done. Qed.

Lemma codec_payload_heard names is_video l :
  codec_payload names (map (fun item : Z * RtpMapInfo => (item.1, heard_codec is_video item.2)) l) = codec_payload names l.
Proof.
  unfold codec_payload. induction l as [|[k i] l IH]; [done|]. cbn [map List.find fst snd heard_codec rm_codec_type].
  by destruct (bool_decide (String2Lower (rm_codec_type i) ∈ names)).
Qed.

Section told_answers.
Variables (mem_is_rtx : Z -> bool) (mem_rtx_ssrc : Z -> Z).
Abbreviation heard := (heard mem_is_rtx mem_rtx_ssrc).

(** A peer's answers are the describer's own. *)
Lemma heard_answers s vi ri ai : describable s vi ri ai -> consistent s ->
  let t := heard s vi ri ai in
  GetVideoPayloadType t = GetVideoPayloadType s /\ GetVideoRtxPayloadType t = GetVideoRtxPayloadType s /\
  GetAudioPayloadType t = GetAudioPayloadType s /\ (IsVideoRtxEnable t).1 = (IsVideoRtxEnable s).1 /\
  IsVideoNackEnable t = IsVideoNackEnable s /\ IsAudioNackEnable t = IsAudioNackEnable s /\
  GetVideoClockRate t = GetVideoClockRate s /\ GetAudioClockRate t = GetAudioClockRate s /\ sd_channel_ t = sd_channel_ s.
Proof.
  intros [_ [_ _ _ Fv _ _ _ _] [_ _ _ Fa _ _ _ _] _ _ _ _] (C1 & C2 & C3 & C4 & C5) t.
  pose proof (find_heard (fun v r => v && negb r) _ _ Fv C1) as E1. pose proof (find_heard (fun v r => v && r) _ _ Fv C1) as E2.
  cbv beta in E1, E2. split_and!; [| | |by apply (exists_heard (fun v r => v && r))|done|done|by symmetry..].
  - unfold GetVideoPayloadType. cbn [t SdpRun.heard sd_video set_md_ssrc set_fid heard_media fmtp_vec_ rtp_map_infos_]. rewrite codec_payload_heard.
    by apply answer_of.
  - unfold GetVideoRtxPayloadType. cbn [t SdpRun.heard sd_video set_md_ssrc set_fid heard_media fmtp_vec_].
    by apply answer_of.
  - unfold GetAudioPayloadType. cbn [t SdpRun.heard sd_audio heard_media fmtp_vec_ rtp_map_infos_]. rewrite codec_payload_heard.
    destruct (fmtp_vec_ (sd_audio s)) as [|i l]; [done|]. cbn [map List.find]. apply Forall_inv in Fa, C2.
    destruct (heard_fmtp_same false i) as [H1 H2]. by rewrite H2, C2.
Qed.
End told_answers.

(** ** A session *)

Section session.
Context `{Alloc : DataBuffer.Allocator} `{Random}.
Variables (mem_is_rtx : Z -> bool) (mem_rtx_ssrc : Z -> Z) (md : bytes).

Definition offering (dir : WebRtcSdpDirection) : PeerSdp := (CreateOfferSdp (Some md) dir PeerSdp_new).2.

(** After the offer the connection waits for its answer. *)
Lemma offering_state dir : let p := offering dir in
  answer_sdp_ p = SdpTransform_new /\ peer p = put_direct_type dir PeerConnection.PeerConnection_new /\
  remote_fragment_ (ds_ice (dtls_of p)) = [] /\ remote_pwd_ (ds_ice (dtls_of p)) = [].
Proof.
  unfold offering, CreateOfferSdp, SslContextInit. change (0 <? 0) with false. cbv iota beta. by destruct (GenSdpString_for _ _ _ _).
Qed.

(** The retransmissions of a description whose retransmitting SSRC is known. *)
Definition rtx_said (s : SdpTransform) (rtx_ssrc : Z) : option (Z * Z) :=
  let pt := u8 (GetVideoRtxPayloadType s) in
  if (IsVideoRtxEnable s).1 && (0 <? pt) && (0 <? rtx_ssrc) then Some (pt, rtx_ssrc) else None.

(** The streams that a description asks for. *)
Definition video_sender (s : SdpTransform) (vi ri : SSRCInfo) : RtcSend.RtcSendStream :=
  RtcSend.RtcSendStream_new MEDIA_VIDEO_TYPE (si_ssrc vi) (u8 (GetVideoPayloadType s)) (GetVideoClockRate s) (IsVideoNackEnable s) (rtx_said s (si_ssrc ri)).
Definition audio_sender (s : SdpTransform) (ai : SSRCInfo) : RtcSend.RtcSendStream :=
  set_channel_of (sd_channel_ s)
    (RtcSend.RtcSendStream_new MEDIA_AUDIO_TYPE (si_ssrc ai) (u8 (GetAudioPayloadType s)) (GetAudioClockRate s) (IsAudioNackEnable s) None).
Definition video_receiver (now_ms : Z) (s : SdpTransform) (vi ri : SSRCInfo) : RtcRecv.RtcRecvStream :=
  RtcRecv.send_rtcp (pli_bytes (si_ssrc vi)) (RtcRecv.set_last_keyframe_ms now_ms
    (RtcRecv.RtcRecvStream_new MEDIA_VIDEO_TYPE (si_ssrc vi) (u8 (GetVideoPayloadType s)) (GetVideoClockRate s) (IsVideoNackEnable s) (rtx_said s (si_ssrc ri)))).
Definition audio_receiver (s : SdpTransform) (ai : SSRCInfo) : RtcRecv.RtcRecvStream :=
  let st := RtcRecv.RtcRecvStream_new MEDIA_AUDIO_TYPE (si_ssrc ai) (u8 (GetAudioPayloadType s)) (GetAudioClockRate s) (IsAudioNackEnable s) None in
  RtcRecv.set_rs_ids (RtcTime.StreamIds.SetChannel (sd_channel_ s) (RtcRecv.rs_ids st)) st.

Definition opened (dir : WebRtcSdpDirection) (now_ms : Z) (s : SdpTransform) (vi ri ai : SSRCInfo) (c : PeerConnection.PeerConnection) : Prop :=
  match dir with
  | SEND_ONLY => video_send_stream_ c = Some (video_sender s vi ri) /\ audio_send_stream_ c = Some (audio_sender s ai) /\
                 video_recv_stream_ c = None /\ audio_recv_stream_ c = None
  | RECV_ONLY => video_recv_stream_ c = Some (video_receiver now_ms s vi ri) /\ audio_recv_stream_ c = Some (audio_receiver s ai) /\
                 video_send_stream_ c = None /\ audio_send_stream_ c = None
  | _ => False
  end.

Lemma send_opened p : let t := answer_sdp_ p in 0 < GetVideoSsrc t -> 0 < GetAudioSsrc t -> let c := peer (CreateSendStream p) in
  video_send_stream_ c = Some (RtcSend.RtcSendStream_new MEDIA_VIDEO_TYPE (GetVideoSsrc t) (u8 (GetVideoPayloadType t)) (GetVideoClockRate t)
    (IsVideoNackEnable t) (rtx_said t (GetVideoRtxSsrc t))) /\
  audio_send_stream_ c = Some (set_channel_of (sd_channel_ t)
    (RtcSend.RtcSendStream_new MEDIA_AUDIO_TYPE (GetAudioSsrc t) (u8 (GetAudioPayloadType t)) (GetAudioClockRate t) (IsAudioNackEnable t) None)) /\
  video_recv_stream_ c = video_recv_stream_ (peer p) /\ audio_recv_stream_ c = audio_recv_stream_ (peer p) /\ pc_state_ c = pc_state_ (peer p).
Proof.
  intros t Hv Ha. unfold CreateSendStream, create_send_streams, ask_answer. cbn [answer_sdp_ put_answer].
  change (GetVideoSsrc (IsVideoRtxEnable (answer_sdp_ p)).2) with (GetVideoSsrc t). change (GetAudioSsrc (IsVideoRtxEnable (answer_sdp_ p)).2) with (GetAudioSsrc t).
  rewrite !(proj2 (Z.ltb_lt _ _)) by done. done.
Qed.

Lemma recv_opened now_ms p : let t := answer_sdp_ p in 0 < GetVideoSsrc t -> 0 < GetAudioSsrc t -> exists p', CreateRecvStream now_ms p = Done p' /\ let c := peer p' in
  video_recv_stream_ c = Some (RtcRecv.send_rtcp (pli_bytes (GetVideoSsrc t)) (RtcRecv.set_last_keyframe_ms now_ms
    (RtcRecv.RtcRecvStream_new MEDIA_VIDEO_TYPE (GetVideoSsrc t) (u8 (GetVideoPayloadType t)) (GetVideoClockRate t) (IsVideoNackEnable t)
      (rtx_said t (GetVideoRtxSsrc t))))) /\
  audio_recv_stream_ c = Some (let st := RtcRecv.RtcRecvStream_new MEDIA_AUDIO_TYPE (GetAudioSsrc t) (u8 (GetAudioPayloadType t)) (GetAudioClockRate t)
    (IsAudioNackEnable t) None in RtcRecv.set_rs_ids (RtcTime.StreamIds.SetChannel (sd_channel_ t) (RtcRecv.rs_ids st)) st) /\
  video_send_stream_ c = video_send_stream_ (peer p) /\ audio_send_stream_ c = audio_send_stream_ (peer p) /\ pc_state_ c = pc_state_ (peer p).
Proof.
  intros t Hv Ha. unfold CreateRecvStream, CreateVideoRecvStream. cbn [IsVideoRtxEnable]. cbv beta iota.
  change (GetVideoSsrc (SetVideoRtxFlag _ (answer_sdp_ p))) with (GetVideoSsrc t). rewrite (proj2 (Z.ltb_lt _ _)) by done.
  rewrite RequestKeyFrame_new. unfold mret, outcome_ret. cbn [mbind outcome_bind]. eexists. split; [reflexivity|]. cbv zeta. unfold CreateAudioRecvStream.
  match goal with |- context [0 <? GetAudioSsrc ?x] => change (GetAudioSsrc x) with (GetAudioSsrc t) end. rewrite (proj2 (Z.ltb_lt _ _)) by done. done.
Qed.

(** The streams of a description heard are those of the description. *)
Lemma heard_streams s vi ri ai p : describable s vi ri ai -> consistent s -> 0 < si_ssrc vi ->
  answer_sdp_ p = SetVideoRtxFlag (IsVideoRtxEnable s).1 (heard mem_is_rtx mem_rtx_ssrc s vi ri ai) ->
  (let c := peer (CreateSendStream p) in
   video_send_stream_ c = Some (video_sender s vi ri) /\ audio_send_stream_ c = Some (audio_sender s ai) /\
   video_recv_stream_ c = video_recv_stream_ (peer p) /\ audio_recv_stream_ c = audio_recv_stream_ (peer p) /\ pc_state_ c = pc_state_ (peer p)) /\
  (forall now_ms, exists p', CreateRecvStream now_ms p = Done p' /\ let c := peer p' in
   video_recv_stream_ c = Some (video_receiver now_ms s vi ri) /\ audio_recv_stream_ c = Some (audio_receiver s ai) /\
   video_send_stream_ c = video_send_stream_ (peer p) /\ audio_send_stream_ c = audio_send_stream_ (peer p) /\ pc_state_ c = pc_state_ (peer p)).
Proof.
  intros D C Hv Ha. destruct (heard_ssrcs mem_is_rtx mem_rtx_ssrc s vi ri ai D) as (S1 & S2 & S3).
  destruct (heard_answers mem_is_rtx mem_rtx_ssrc s vi ri ai D C) as (A1 & A2 & A3 & A4 & A5 & A6 & A7 & A8 & A9).
  assert (0 < si_ssrc ai) as Hz.
  { destruct D as [_ _ _ _ _ (_ & _ & (Hn & _)) (_ & _ & _ & Hne)]. unfold num_ok in Hn. lia. }
  set (t := heard _ _ s vi ri ai) in *.
  assert (rtx_said t (si_ssrc ri) = rtx_said s (si_ssrc ri)) as Hr by (unfold rtx_said; by rewrite A2, A4).
  split.
  - pose proof (send_opened p) as R. rewrite Ha in R. unfold video_sender, audio_sender. rewrite <- S1, <- S3, <- A1, <- A3, <- A5, <- A6, <- A7, <- A8, <- A9, <- Hr, <- S2.
    apply R; [by rewrite <- S1 in Hv|by rewrite <- S3 in Hz].
  - intros now_ms. pose proof (recv_opened now_ms p) as R. rewrite Ha in R. unfold video_receiver, audio_receiver.
    rewrite <- S1, <- S3, <- A1, <- A3, <- A5, <- A6, <- A7, <- A8, <- A9, <- Hr, <- S2. apply R; [by rewrite <- S1 in Hv|by rewrite <- S3 in Hz].
Qed.

(** ** The offer *)

Definition offer_start : SdpTransform := offer_sdp_ PeerSdp_new.
Definition offered_video (dir : WebRtcSdpDirection) : SSRCInfo :=
  let s := fill_offer dir offer_start in let v := sd_video s in
  mkSsrc (md_ssrc_ v) true false (msid_ v) (msid_appdata_ v) (md_cname_ v) (video_rtx_ssrc_ s).
Definition offered_rtx (dir : WebRtcSdpDirection) : SSRCInfo :=
  let s := fill_offer dir offer_start in let v := sd_video s in
  mkSsrc (video_rtx_ssrc_ s) true true (msid_ v) (msid_appdata_ v) (md_cname_ v) (md_ssrc_ v).
Definition offered_audio (dir : WebRtcSdpDirection) : SSRCInfo :=
  let s := fill_offer dir offer_start in let a := sd_audio s in
  mkSsrc (md_ssrc_ a) false false (msid_ a) (msid_appdata_ a) (md_cname_ a) 0.

(** The SSRCs drawn, as [atoi] can read them. *)
Definition ssrcs_ok (v r a : Z) : Prop := num_ok v /\ num_ok r /\ num_ok a /\ v <> r /\ v <> a /\ r <> a /\ a <> 0.

Lemma zset_perm {V} k (v : V) m : zfind k m = None -> map snd (zset k v m) ≡ₚ v :: map snd m.
Proof.
  induction m as [|[k0 v0] m IH]; intros Hf; [done|]. cbn [zset zfind] in *. destruct (Z.eqb_spec k k0); [done|].
  destruct (Z.ltb_spec k k0); [done|]. destruct (Z.ltb_spec k0 k); [|lia]. cbn [map snd]. rewrite IH by done. constructor.
Qed.

Lemma three_perm {V} v r a (V1 V2 V3 : V) : v <> r -> v <> a -> r <> a ->
  map snd (zset a V3 (zset r V2 (zset v V1 []))) ≡ₚ [V1; V2; V3].
Proof.
  intros H1 H2 H3. assert (zfind r (zset v V1 []) = None) as E1 by (cbn; destruct (Z.eqb_spec r v); [lia|done]).
  rewrite zset_perm, zset_perm by (first [done|rewrite zfind_zset by auto with zmap; destruct (Z.eqb_spec a r); [lia|]; cbn; destruct (Z.eqb_spec a v); [lia|done]]).
  symmetry. apply (Permutation_rev [V1; V2; V3]).
Qed.

Lemma offer_media_ok dir : media_ok true (sd_video (fill_offer dir offer_start)) offer_ext /\ media_ok false (sd_audio (fill_offer dir offer_start)) offer_ext.
Proof.
  split; (split; [concrete..|]); (split; apply plain_word; [apply plain_uuid|apply plain_uuid2]).
Qed.

Lemma plain_ssrc i : num_ok (si_ssrc i) -> plain (si_msid i) -> plain (si_msid_appdata i) -> plain (si_cname i) -> ssrc_ok i.
Proof. intros. split; [done|]. split; [by apply plain_word|]. split; [apply plain_free; [done|lia]|]. split; by apply plain_word. Qed.

Lemma offer_describable dir : dir <> DIRECTION_UNKNOWN ->
  ssrcs_ok (si_ssrc (offered_video dir)) (si_ssrc (offered_rtx dir)) (si_ssrc (offered_audio dir)) ->
  describable (fill_offer dir offer_start) (offered_video dir) (offered_rtx dir) (offered_audio dir).
Proof.
  intros Hd (N1 & N2 & N3 & D1 & D2 & D3 & D4). destruct (offer_media_ok dir) as [M1 M2].
  split; [|exact M1|exact M2| |done| |done].
  - repeat (split; [concrete|]). unfold direction_ok. destruct dir; [done|by left|by right; left|by right; right; left].
  - cbn [fill_offer ssrc_info_map_ set_em set_ssrc_info].
    by apply three_perm.
  - split; [|split]; (apply plain_ssrc; [assumption|apply plain_uuid|apply plain_uuid2|apply plain_random]).
Qed.

Lemma offer_consistent dir : consistent (fill_offer dir offer_start).
Proof.
  split; [|split; [|split; [|split]]]; [| |reflexivity..].
  - change (fmtp_vec_ _) with (fmtp_vec_ (offer_video (MediaSdp_new 90000))). repeat (constructor; [by vm_compute|]). constructor.
  - change (fmtp_vec_ _) with (fmtp_vec_ (offer_audio (MediaSdp_new 48000))). repeat (constructor; [by vm_compute|]). constructor.
Qed.

Lemma describable_drawn n s vi ri ai : describable s vi ri ai -> describable (set_drawn n s) vi ri ai.
Proof. by intros [? ? ? ? ? ? ?]. Qed.

Lemma consistent_drawn n s : consistent s -> consistent (set_drawn n s).
Proof. done. Qed.
Lemma consistent_written id name i1 a1 i2 a2 cname n vi ri ai s : consistent s -> consistent (written id name i1 a1 i2 a2 cname n vi ri ai s).
Proof. done. Qed.

Lemma heard_ice_remote d d0 : remote_fragment_ (ds_ice (heard_ice d d0)) = local_fragment_ (ds_ice d) /\ remote_pwd_ (ds_ice (heard_ice d d0)) = local_pwd_ d.
Proof. done. Qed.
Lemma dtls_of_offer s p : dtls_of (put_offer s p) = dtls_of p.
Proof. done. Qed.

Lemma plain_upper s : plain s -> plain (map toupper s).
Proof.
  intros Hs. apply Forall_map. eapply Forall_impl; [exact Hs|]. intros c Hc. cbn in Hc. unfold toupper.
  destruct (Z.leb_spec 97 c), (Z.leb_spec c 122); cbn [andb]; lia.
Qed.
Lemma plain_join l : Forall plain l -> plain (join (str ":") l).
Proof.
  assert (plain (str ":")) as Hc by (apply (bool_decide_eq_true_1 (Forall _ _)); by vm_compute).
  induction 1 as [|s l Hs Hl IH]; [constructor|]. destruct l as [|s' l]; [done|]. rewrite join_cons by done. by repeat apply Forall_app_2.
Qed.
Lemma fingerprint_word : word_ok (fingerprint_text md).
Proof. apply plain_word, plain_join, Forall_map, Forall_forall. intros v _. apply plain_upper, plain_hex. Qed.

(** The connection whose offer is written. *)
Definition filled (dir : WebRtcSdpDirection) : PeerSdp :=
  (SslContextInit (Some md) (put_offer (fill_offer dir offer_start) (put_pc (put_direct_type dir (peer PeerSdp_new)) PeerSdp_new))).2.

Lemma create_offer dir : CreateOfferSdp (Some md) dir PeerSdp_new =
  let '(sdp, s) := GenSdpString_for true true (dtls_of (filled dir)) (offer_sdp_ (filled dir)) in (sdp, put_offer s (filled dir)).
Proof. unfold CreateOfferSdp, filled, SslContextInit. change (0 <? 0) with false. reflexivity. Qed.

Lemma filled_ice dir : ice_ok (dtls_of (filled dir)).
Proof.
  unfold ice_ok. split; [apply plain_word, plain_random|]. split; [apply plain_word, plain_random|]. split; [concrete|].
  split; [apply fingerprint_word|]. split; apply random_nonempty.
Qed.

(** C15. The offer of a new connection, read by any new parser: it has the SSRCs that the connection keeps, the payload types 106 and 107 of
    H.264 and its retransmissions and 111 of Opus, with their clock rates and the two channels, negative acknowledgements for the video
    only, and the connection's fragment and password; provided that the SSRCs drawn are different and below 2^31. *)
Theorem offer_understood dir d0 :
  dir <> DIRECTION_UNKNOWN -> remote_fragment_ (ds_ice d0) = [] -> remote_pwd_ (ds_ice d0) = [] ->
  ssrcs_ok (draw 88 1 0xffffffff) (draw 89 1 0xffffffff) (draw 90 1 0xffffffff) ->
  let p := offering dir in
  exists t d, Parse mem_is_rtx mem_rtx_ssrc (CreateOfferSdp (Some md) dir PeerSdp_new).1 (SdpTransform_new, d0) = Done (Some (0, (t, d))) /\
    GetVideoSsrc t = GetVideoSsrc_of SDP_OFFER p /\ GetVideoRtxSsrc t = GetVideoRtxSsrc_of SDP_OFFER p /\
    GetAudioSsrc t = GetAudioSsrc_of SDP_OFFER p /\
    GetVideoPayloadType t = VPLAYLOAD_DEF_TYPE /\ GetVideoRtxPayloadType t = RTX_PAYLOAD_DEF_TYPE /\ GetAudioPayloadType t = APLAYLOAD_DEF_TYPE /\
    GetVideoClockRate t = 90000 /\ GetAudioClockRate t = 48000 /\ sd_channel_ t = 2 /\
    IsVideoNackEnable t = true /\ IsAudioNackEnable t = false /\
    remote_fragment_ (ds_ice d) = local_fragment_ (ds_ice (dtls_of p)) /\ remote_pwd_ (ds_ice d) = local_pwd_ (dtls_of p).
Proof.
  intros Hd R1 R2 Hs. cbv zeta. unfold offering. rewrite create_offer.
  pose proof (describable_drawn (S (drawn (fill_offer dir offer_start))) _ _ _ _ (offer_describable dir Hd Hs)) as D.
  pose proof (offer_consistent dir) as C.
  destruct (gen_heard mem_is_rtx mem_rtx_ssrc true true (dtls_of (filled dir)) d0 _ _ _ _ D (filled_ice dir) R1 R2)
    as (sdp & id & name & i1 & a1 & i2 & a2 & cn & n & Eg & D' & Ep).
  change (offer_sdp_ (filled dir)) with (set_drawn (S (drawn (fill_offer dir offer_start))) (fill_offer dir offer_start)).
  rewrite Eg. set (s' := written _ _ _ _ _ _ _ _ _ _ _ _) in *. cbn [fst snd].
  destruct (heard_ssrcs mem_is_rtx mem_rtx_ssrc s' _ _ _ D') as (S1 & S2 & S3).
  destruct (heard_answers mem_is_rtx mem_rtx_ssrc s' _ _ _ D' (consistent_written _ _ _ _ _ _ _ _ _ _ _ _ (consistent_drawn _ _ C))) as (A1 & A2 & A3 & A4 & A5 & A6 & A7 & A8 & A9).
  eexists _, _. split; [exact Ep|]. rewrite S1, S2, S3, A1, A2, A3, A5, A6, A7, A8, A9.
  destruct (heard_ice_remote (dtls_of (filled dir)) d0) as [-> ->]. rewrite (dtls_of_offer s'). split_and!; reflexivity.
Qed.

(** C12. A connection that has made its offer, for sending or for receiving, and is given the answer that the other side wrote with
    [GenSdpString] from a [describable] and [consistent] description, knows the other side's fragment and password for its connectivity
    checks and is in the state of a description done; and once DTLS is connected it has exactly the streams of the answer, of the direction
    of its offer: with the SSRCs, the payload types, the clock rates, the retransmissions, the negative acknowledgements and the channels
    that the other side itself uses, and for a received video a key frame has been asked for.
    [describable] is the condition of [sdp_roundtrip]: one video stream, its retransmissions and one audio stream, with three distinct
    SSRCs, each - like every number written - below 2^31 ([large_ssrc_undefined]: the parser's [atoi] is undefined for half of all SSRCs).
    [consistent] says that the members the other side answers from agree with the lines it writes: a format parameter is flagged as a
    retransmission where its text begins with [apt=], and the clock rates and channels are those of its codecs; [offer_consistent] is that
    [CreateOfferSdp] makes such a description. *)
Theorem answer_opens_streams hv ha d s vi ri ai dir now_ms :
  describable s vi ri ai -> consistent s -> ice_ok d -> 0 < si_ssrc vi -> dir = SEND_ONLY \/ dir = RECV_ONLY ->
  let sdp := (GenSdpString_for hv ha d s).1 in
  exists p1 p2, ParseAnswerSdp mem_is_rtx mem_rtx_ssrc sdp (offering dir) = Done (Some (0, p1)) /\
    pc_state_ (peer p1) = PC_SDP_DONE_STATE /\
    remote_fragment_ (pi_setup (ps_ice p1)) = local_fragment_ (ds_ice d) /\ remote_pwd_ (pi_setup (ps_ice p1)) = local_pwd_ d /\
    OnDtlsConnected true now_ms p1 = Done p2 /\ pc_state_ (peer p2) = PC_DTLS_DONE_STATE /\ opened dir now_ms s vi ri ai (peer p2).
Proof.
  intros D C Hd Hv Hdir. destruct (offering_state dir) as (E1 & E2 & E3 & E4). revert E1 E2 E3 E4. generalize (offering dir) as po. intros po E1 E2 E3 E4.
  destruct (gen_heard mem_is_rtx mem_rtx_ssrc hv ha d _ s vi ri ai D Hd E3 E4) as (sdp & id & name & i1 & a1 & i2 & a2 & cn & n & Eg & D' & Ep).
  cbv zeta. rewrite Eg. set (s' := written _ _ _ _ _ _ _ _ _ _ _ _) in *. cbn [fst].
  pose proof (consistent_written id name i1 a1 i2 a2 cn n vi ri ai s C : consistent s') as C'.
  destruct (heard_answers mem_is_rtx mem_rtx_ssrc s' vi ri ai D' C') as (_ & _ & _ & Ax & _).
  set (t := heard mem_is_rtx mem_rtx_ssrc s' vi ri ai) in *.
  assert (ssrc_info_map_ t <> []) as Hne.
  { intros Et. destruct (heard_ssrcs mem_is_rtx mem_rtx_ssrc s' vi ri ai D') as (S1 & _). fold t in S1. unfold GetVideoSsrc, first_ssrc in S1.
    rewrite Et in S1. cbn in S1. lia. }
  unfold ParseAnswerSdp. rewrite E1, Ep. cbn [tbind]. rewrite bool_decide_eq_false_2 by done.
  set (q := put_answer _ (put_setup _ po)). change (peer q) with (peer po). rewrite E2. change (PeerIce.before _ _) with true. cbv iota.
  set (p1 := Report _ _ _).
  assert (answer_sdp_ p1 = SetVideoRtxFlag (IsVideoRtxEnable s').1 t) as Ea by (rewrite <- Ax; reflexivity).
  set (p2 := Report (str "dtls") (str "ready") (put_pc (PeerConnection.set_pc_state PC_DTLS_DONE_STATE (peer p1)) p1)).
  destruct (heard_streams s' vi ri ai p2 D' C' Hv Ea) as [(S1 & S2 & S3 & S4 & S5) R]. destruct (R now_ms) as (p3 & R0 & R1 & R2 & R3 & R4 & R5).
  exists p1, (match dir with SEND_ONLY => CreateSendStream p2 | _ => p3 end). split; [done|]. split; [done|]. split; [done|]. split; [done|].
  destruct Hdir as [-> | ->]; (split; [|split; [done|]]).
  - reflexivity.
  - unfold opened. by rewrite S1, S2, S3, S4.
  - exact R0.
  - unfold opened. by rewrite R1, R2, R3, R4.
Qed.
End session.

(** ** Instances *)

Lemma offer_understood_witness : exists t d,
  Parse (fun _ => false) (fun _ => 0) (CreateOfferSdp (Some [171; 205]) SEND_ONLY PeerSdp_new).1 (SdpTransform_new, sample_dtls (str "f") (str "p")) =
    Done (Some (0, (t, d))) /\
  GetVideoSsrc t = 89 /\ GetVideoRtxSsrc t = 90 /\ GetAudioSsrc t = 91 /\ remote_fragment_ (ds_ice d) = str "0123456789abcdef".
Proof.
  destruct (offer_understood (fun _ => false) (fun _ => 0) [171; 205] SEND_ONLY (sample_dtls (str "f") (str "p")))
    as (t & d & E & H1 & H2 & H3 & _ & _ & _ & _ & _ & _ & _ & _ & H4 & _); [done|done|done|vm_compute; split_and!; (done || discriminate)|].
  exists t, d. split; [exact E|]. rewrite H1, H2, H3, H4. vm_compute. split_and!; reflexivity.
Defined.

Lemma answer_opens_streams_witness : exists p1 p2,
  ParseAnswerSdp (fun _ => false) (fun _ => 0) (GenSdpString_for true true (sample_dtls (str "frag") (str "pass")) sample).1 (offering [171; 205] SEND_ONLY) =
    Done (Some (0, p1)) /\
  remote_fragment_ (pi_setup (ps_ice p1)) = str "frag" /\
  OnDtlsConnected (Alloc := DataBuffer.zero_alloc) true 1000 p1 = Done p2 /\
  option_map RtcSend.ids (video_send_stream_ (peer p2)) = Some (RtcTime.mkIds MEDIA_VIDEO_TYPE true true 5 96 90000 0 97 6) /\
  option_map RtcSend.ids (audio_send_stream_ (peer p2)) = Some (RtcTime.mkIds MEDIA_AUDIO_TYPE false false 7 111 48000 2 0 0).
Proof.
  destruct (answer_opens_streams (Alloc := DataBuffer.zero_alloc) (fun _ => false) (fun _ => 0) [171; 205] true true (sample_dtls (str "frag") (str "pass")) sample
    (sample_ssrc 5 true false) (sample_ssrc 6 true true) (sample_ssrc 7 false false) SEND_ONLY 1000 sample_describable)
    as (p1 & p2 & E1 & _ & E2 & _ & E3 & _ & E4 & E5 & _).
  - split_and!; [| |vm_compute; reflexivity..].
    + cbn [sample sd_video set_ssrc_info set_em set_video set_audio fmtp_vec_]. repeat (constructor; [by vm_compute|]). constructor.
    + cbn [sample sd_audio set_ssrc_info set_em set_video set_audio fmtp_vec_]. repeat (constructor; [by vm_compute|]). constructor.
  - unfold ice_ok. concrete.
  - vm_compute; reflexivity.
  - by left.
  - exists p1, p2. split; [exact E1|]. split; [exact E2|]. split; [exact E3|]. rewrite E4, E5. vm_compute. split; reflexivity.
Defined.
