(* ===== verification/SdpFaults.v ===== *)
(** * [SdpFaults]: what the set-up does with other descriptions

    Every text ends the parser; but some make it throw, some numbers have no meaning
    for it, and some descriptions are heard as others, or are not listened to. *)
From S2P Require Import Prelude StringEx ZMap Sdp SdpRun PeerSdp PeerSdpRun.
From S2P Require PeerIce PeerConnection.
Import PeerIce(IceSetup, mkIceSetup, ice_infos, remote_fragment_, local_fragment_, remote_pwd_).

(** ** Every text *)

(** The call returns, throws, or leaves the range of [int]. *)
Definition only_overflows {A} (m : outcome A) : Prop := (exists a, m = Done a) \/ m = Fault SignedOverflow.

Lemma over_done {A} (a : A) : only_overflows (Done a).
Proof. left. by eexists. Qed.
Lemma over_tbind {A B} (m : throwing A) (f : A -> throwing B) : only_overflows m -> (forall a, only_overflows (f a)) -> only_overflows (tbind m f).
Proof. intros [[[a|] ->] | ->] Hf; cbn [tbind]; [apply Hf|apply over_done|by right]. Qed.
Lemma over_tlift {A} (m : outcome A) : only_overflows m -> only_overflows (tlift m).
Proof. intros [[a ->] | ->]; [apply over_done|by right]. Qed.
Lemma over_chk_int x : only_overflows (chk_int x).
Proof. unfold chk_int. case_bool_decide; [apply over_done|by right]. Qed.
Lemma over_atoi s : only_overflows (atoi s).
Proof. unfold atoi. repeat case_match; apply over_chk_int. Qed.
Lemma over_atoi_all l : only_overflows (atoi_all l).
Proof.
  induction l as [|s l IH]; [apply over_done|]. cbn [atoi_all]. destruct (over_atoi s) as [[v ->] | ->]; [|by right]. cbn.
  destruct IH as [[r ->] | ->]; [apply over_done|by right].
Qed.
Lemma over_split s sep : sep <> [] -> only_overflows (StringSplit s sep).
Proof. intros Hs. destruct (StringSplit_ends s sep Hs) as [l ->]. apply over_done. Qed.
Lemma over_substr s n : only_overflows (substr s n).
Proof. apply over_done. Qed.

Ltac over :=
  repeat first
    [ apply over_done | apply over_substr | apply over_atoi | apply over_atoi_all | (apply over_split; discriminate) | apply over_tlift
    | (apply over_tbind; [|intros ?])
    | match goal with
      | |- only_overflows (match ?x with _ => _ end) => destruct x
      | |- only_overflows (let _ := _ in _) => cbv zeta
      end ].

Lemma over_pt_attr prefix line : only_overflows (pt_attr prefix line).
Proof. unfold pt_attr. over. Qed.
Lemma over_fmtp_of v pt attr : only_overflows (fmtp_of v pt attr).
Proof. unfold fmtp_of. over. Qed.

Section any_text.
Variables (mem_is_rtx : Z -> bool) (mem_rtx_ssrc : Z -> Z).

Lemma over_ParseLine line st : only_overflows (ParseLine mem_is_rtx mem_rtx_ssrc line st).
Proof.
  unfold ParseLine. destruct st as [s d]. cbv zeta. unfold with_dtls, ParseSession, ParseCandidate.
  unfold ParseM, ParseRtpMap, ParseFmtp, ParseRtcpFb, ParseExtMap, ParseSsrcInfo, ParseSsrcGroupFid.
  repeat first [apply over_pt_attr | apply over_fmtp_of | progress over].
Qed.

(** Every text ends the parser: with a state, an exception, or at a number that [int] does not hold. *)
Lemma Parse_ends sdp st : only_overflows (Parse mem_is_rtx mem_rtx_ssrc sdp st).
Proof.
  unfold Parse. apply over_tbind; [over|]. intros l. apply over_tbind; [|intros; apply over_done].
  revert st. induction l as [|line l IH]; intros st; [apply over_done|]. cbn [parse_lines]. apply over_tbind; [apply over_ParseLine|intros; apply IH].
Qed.

(** ** Texts that are not heard as they are meant *)

(** An attribute without its value ends the program: nothing catches the exception. *)
Lemma bare_attribute_throws st : Forall (fun l => Parse mem_is_rtx mem_rtx_ssrc l st = Done None)
  [str "a=rtpmap"; str "a=fmtp"; str "a=rtcp-fb"; str "a=extmap"; str "a=ssrc"; str "a=ssrc-group:FID"; str "a=fmtp:97 apt"; str "a=ssrc:1 cname"].
Proof. destruct st as [[] []]. repeat (constructor; [by vm_compute|]). constructor. Qed.

(** The example in the comment of [ParseSsrcInfo] has SSRCs that [atoi] is not defined for. *)
Lemma large_ssrc_undefined st : Parse mem_is_rtx mem_rtx_ssrc (str "a=ssrc:3360589719 cname:7rwvqwogyelwn97x") st = Fault SignedOverflow.
Proof. by destruct st. Qed.

(** The group in front of its SSRCs, as browsers write it: what ties them is lost, and which of them retransmits is what the memory held. *)
Lemma group_in_front_lost d : exists t,
  Parse mem_is_rtx mem_rtx_ssrc (text [str "m=video 9 UDP/TLS/RTP/SAVPF 96"; str "a=ssrc-group:FID 5 6"; str "a=ssrc:5 cname:c"; str "a=ssrc:6 cname:c"])
    (SdpTransform_new, d) = Done (Some (0, (t, d))) /\
  map (fun item : Z * SSRCInfo => (item.1, si_is_rtx item.2)) (ssrc_info_map_ t) = [(5, mem_is_rtx 5); (6, mem_is_rtx 6)].
Proof. eexists. split; [by vm_compute|done]. Qed.

(** What is kept as the identifier of the session is the name of its user. *)
Lemma session_id_is_user d : exists t,
  Parse mem_is_rtx mem_rtx_ssrc (str "o=- 123456789 2 IN IP4 127.0.0.1") (SdpTransform_new, d) = Done (Some (0, (t, d))) /\ session_id_ t = str "-".
Proof. eexists. split; [by vm_compute|done]. Qed.

(** Every parameter with "apt" in it is one of retransmissions. *)
Lemma apt_anywhere : exists i, fmtp_of true 96 (str "adaptive-mode=1;level=3") = Done (Some i) /\ fi_is_rtx i = true.
Proof. eexists. split; [by vm_compute|done]. Qed.

(** The fingerprint of the other side's certificate is not kept, from neither kind of signalling. *)
Lemma fingerprint_ignored fp st : free_of 13 fp -> steps mem_is_rtx mem_rtx_ssrc (str "a=fingerprint:sha-256 " ++ fp) st st.
Proof. destruct st. intros. by apply line_is_ignored; [|auto with sdp]. Qed.
Lemma fingerprint_not_set fp p : SetFingerPrintsSha256 fp p = p.
Proof. done. Qed.
End any_text.

(** ** Descriptions written *)

(** The identifier 0 of an audio section is not written; -1, which means none, is. *)
Lemma audio_mid_written s : mid_ (sd_audio s) = -1 -> msid_ (sd_audio s) = [] -> mid_lines false s = [str "a=setup:" ++ setup_ s; str "a=mid:-1"; str "a=" ++ direction_ s].
Proof. intros E1 E2. unfold mid_lines. cbn [media]. rewrite E1, E2. reflexivity. Qed.
Lemma audio_mid_zero s : mid_ (sd_audio s) = 0 -> msid_ (sd_audio s) = [] -> mid_lines false s = [str "a=setup:" ++ setup_ s; str "a=" ++ direction_ s].
Proof. intros E1 E2. unfold mid_lines. cbn [media]. rewrite E1, E2. reflexivity. Qed.

(** ** The functions for mediasoup *)

(** A negative acknowledgement cannot be switched off. *)
Lemma nack_not_disabled type pt p : SetVideoNack type false pt p = SetVideoNack type true pt p.
Proof. done. Qed.

(** The clock rates set are not those the streams are given. *)
Lemma clock_rate_unused type rate p : GetVideoClockRate (sdp_of type (SetVideoClockRate type rate p)) = GetVideoClockRate (sdp_of type p).
Proof. by destruct type. Qed.
Lemma audio_clock_rate_unused type rate p : GetAudioClockRate (sdp_of type (SetAudioClockRate type rate p)) = GetAudioClockRate (sdp_of type p).
Proof. by destruct type. Qed.

(** A message that is there already is added once more, where another one follows it. *)
Lemma cc_type_twice : 
  map fb_attr_string (rtcpfb_vec_ (sd_video (offer_sdp_ (SetCCType SDP_OFFER TCC_TYPE (offering [171] PeerConnection.SEND_ONLY))))) =
  [str "goog-remb"; str "transport-cc"; str "cmm fir"; str "nack"; str "nack pli"; str "transport-cc"].
Proof. by vm_compute. Qed.

(** A second SSRC does not replace the first: the streams use the smallest. *)
Lemma old_ssrc_kept p : offer_sdp_ p = SdpTransform_new ->
  let p := SetVideoSsrc SDP_OFFER 9 (SetVideoSsrc SDP_OFFER 4 p) in
  GetVideoSsrc_of SDP_OFFER p = 9 /\ GetVideoSsrc (offer_sdp_ p) = 4.
Proof. intros E p'. subst p'. unfold SetVideoSsrc. cbn [sdp_of put_sdp put_offer offer_sdp_]. rewrite E. split; reflexivity. Qed.

(** ** The keys *)

(** The material of RFC 5764 is the client's key, the server's, the client's salt, the server's: the connection, which is the DTLS server,
    writes with the server's key and salt and reads with the client's. *)
Lemma master_keys_correct (kl sl : nat) ck sk cs ss : length ck = kl -> length sk = kl -> length cs = sl -> length ss = sl ->
  master_keys kl sl (ck ++ sk ++ cs ++ ss) = (sk ++ ss, ck ++ cs).
Proof.
  intros <- Hk <- Hs. unfold master_keys.
  assert (forall (a b c : bytes), take (length b) (drop (length a) (a ++ b ++ c)) = b) as T by (intros; by rewrite drop_app_length, take_app_length).
  f_equal; f_equal.
  - pose proof (T ck sk (cs ++ ss)) as E. rewrite Hk in E. exact E.
  - pose proof (T (ck ++ sk ++ cs) ss []) as E. rewrite app_nil_r, !length_app, <- !app_assoc, Hs, Hk, Nat.add_assoc in E. exact E.
  - pose proof (T [] ck (sk ++ cs ++ ss)) as E. exact E.
  - pose proof (T (ck ++ sk) cs ss) as E. rewrite length_app, <- !app_assoc, Hk in E. exact E.
Qed.
